(* ===== verification/_CoqProject ===== *)
-Q . S2P
Prelude.v
Mem.v
Xxhash.v
XxhashSpec.v
XxhashStream.v
XxhashTheorems.v
BlockFormat.v
Lz4Common.v
Lz4CommonSpec.v
Lz4Decompress.v
Lz4DecodeSteps.v
Lz4DecodeInv.v
Lz4DecodeValid.v
Lz4DecodeProof.v
Lz4DecodeMatch.v
Lz4DecodeLoop.v
Lz4DecodeRun.v
Lz4DecodeSpec.v
Lz4DecodeApi.v
Lz4DecodeTheorems.v
Lz4StreamTheorems.v
Lz4UnsafeSpec.v
Lz4Compress.v
Lz4CompressGeneric.v
Lz4CountSpec.v
Lz4CompressInv.v
Lz4CompressSearch.v
Lz4CompressEncode.v
Lz4CompressProof.v
Lz4CompressMatch.v
Lz4CompressRun.v
Lz4CompressSpec.v
Lz4CompressTheorems.v
Lz4Hc.v
Lz4HcSearch.v
Lz4HcChain.v
Lz4HcMid.v
Lz4HcOpt.v
Lz4StreamCompress.v
Lz4StreamCompressSpec.v
Lz4StreamDict.v
Lz4StreamCompressTheorems.v
Lz4UnsafeTheorems.v
Lz4Frame.v
Lz4FrameDecode.v
FrameFormat.v
Lz4FrameHeader.v
FrameParse.v
Lz4FrameTheorems.v
Lz4FrameInv.v
Lz4FrameDict.v
Lz4FrameCall.v
Lz4FrameStages.v
Lz4FrameBlockStages.v
Lz4FrameCopy.v
Lz4FrameCBlock.v
Lz4FrameInit.v
Lz4FrameCallSpec.v
Lz4FrameApi.v
Lz4FrameComplete.v
Lz4FrameLifecycle.v
Lz4FrameDecodeTheorems.v
Lz4FrameClient.v
Lz4FrameCompress.v
Lz4FrameMakeBlock.v
Lz4FrameCompressInv.v
Lz4FrameUpdateSpec.v
Lz4FrameCompressCalls.v
Lz4FrameBeginSpec.v
Lz4FrameOneShot.v
Lz4FrameSession.v
Lz4FrameCompressTheorems.v
Lz4FrameRoundtrip.v
Lz4File.v
Lz4FileRead.v
Lz4FileOpen.v
Lz4FileWrite.v
Lz4FileTheorems.v
Lz4FileRoundtrip.v
Lz4HcTheorems.v
