(* ===== verification/Prelude.v ===== *)
(** * LZ4: a verification of the block codec, the hashes, the frames and the files

    This library models the compression library under src/lib/ and proves it
    correct against the formats it implements.  The model is a shallow embedding:
    every C function is a Rocq function over an explicit memory.

    ** The program and its model

    - lib/lz4.c: the block format.  A decoder that is safe on any input, a
      deprecated decoder that trusts its input, a fast compressor, and the
      streaming variants of each, which refer to earlier data or to a dictionary.
    - lib/lz4hc.c: the high-compression compressor of the block format: hash chains
      or two hash tables for the search, and three parsers (mid level, hash chain,
      optimal), selected by the level; one-shot and streaming.
    - lib/xxhash.c: the 32 and 64-bit hashes, one-shot and streaming.
    - lib/lz4frame.c: the frame format around blocks: a header, blocks with
      optional checksums, an end mark and a content checksum.  The decoder is a
      state machine that takes input and room in pieces of any size; the compressor
      has a context for frames in several calls, and one-shot functions.
    - lib/lz4file.c: readers and writers of files of frames, over the standard
      streams.

    The parts call each other downwards: files use the contexts of the frame
    layer, which use the block codec, its streams, at high levels the
    high-compression compressor, and the 32-bit hash.

    Memory is a finite map from addresses to bytes ([Mem.mem], a [gmap Z Z]);
    addresses are integers and pointer comparisons of the code are comparisons of
    addresses.  Code is a function of type [M A]: it ends with a result and a new
    memory, or with [Fault] (an access outside the map, or a [memcpy] of
    overlapping ranges), or with [OutOfFuel].  A theorem [wp c Q m] says that [c]
    run in [m] ends with a result that satisfies [Q]: no fault, and enough fuel.
    Machine integers are [Z] with the wrap-around of their width written out
    ([u8] to [u64], [s32]).  The model is that of x86-64: little-endian,
    8-byte words, unaligned accesses, with [LZ4_FAST_DEC_LOOP].

    Loops run with fuel that the definitions compute from their sizes
    ([dec_fuel], [comp_fuel], [decompress_fuel], [read_fuel], ...): a theorem [wp] for a
    function shows that this fuel is enough, so it is a proof of termination as
    well.  The fuel is not part of the code.

    Allocations can fail.  In the block layer, where the code only tests the result
    of [malloc] against NULL, the outcome is a boolean argument of the definitions
    ([allocated], [stateAlloc], and [optAlloc] for the table of the optimal parser,
    with the default [LZ4HC_HEAPMODE] 1), and the theorems say what happens in both
    cases.  In the frame and file layers the allocator is a class (below).

    ** Files

    - Prelude, Mem: machine integers, lists of bytes, automation; the memory, the
      monad and its rules.
    - BlockFormat: the block format as a data type, its encoding ([enc_block]),
      its meaning ([expand]) and a reference decoder.
    - Lz4Common, Lz4CommonSpec: copies, little-endian accesses, hashing.
    - Lz4Decompress: [LZ4_decompress_generic] as a machine with one label per
      entry point of the two loops, and its entry points.  Lz4DecodeSteps, ...Inv,
      ...Valid, ...Proof, ...Match, ...Loop, ...Run, ...Spec: the
      invariant of the machine and the proof that each label keeps it.
      Lz4DecodeApi: the streaming state and the entry points.
    - Lz4UnsafeSpec: the decoder that trusts its input.
    - Lz4Compress to Lz4CompressRun: hash tables, search, encoding of sequences,
      [LZ4_compress_generic] as a machine, and its invariant.
    - Lz4Hc: the whole of lib/lz4hc.c, the parsers as machines.  Lz4HcSearch: the
      counting functions, the tables and the match finder (a match it returns is
      one, and reaches no further than the data); Lz4HcChain: encoding, and the
      hash-chain parser; Lz4HcMid, Lz4HcOpt: the other two parsers.  They share the
      description of the output with Lz4CompressProof ([seqs_inv]).
    - Lz4StreamCompress, Lz4StreamCompressSpec, Lz4StreamDict: the compression
      stream, with dictionaries that are loaded, attached or saved.
    - Xxhash, XxhashSpec, XxhashStream: the hashes, their reference definition
      (module [XxhRef], which writes the algorithms out and uses nothing of the
      code's definitions) and the refinement of streaming to it (class
      [StreamHash]).
    - Lz4Frame, Lz4FrameDecode: error codes, parameters, bounds, headers; the
      decompression context and the state machine of [LZ4F_decompress], one
      definition per stage.  FrameFormat: the frame format as byte strings
      ([frame_of], [good_frame]); FrameParse: reading it; Lz4FrameHeader: writing
      and reading of headers.
    - Lz4FrameInv, ...Dict, ...Call: the memory zones of a decoding call,
      the invariant between stages ([inv]) and between calls ([suspended]), the
      history for linked blocks.  ...Stages, ...BlockStages, ...Copy,
      ...CBlock, ...Init: each stage keeps the invariant; ...CallSpec, ...Api: whole
      calls; ...Complete: good frames are decoded; ...Client: what a caller that
      passes pieces can rely on; Lz4FrameLifecycle: the allocator and the creation
      and release of contexts.
    - Lz4FrameCompress: the compression context and its functions.
      Lz4FrameMakeBlock, ...CompressInv, ...UpdateSpec, ...CompressCalls,
      ...BeginSpec: the invariant of a frame in progress ([running]) and each call;
      ...OneShot, ...Session: whole frames.  Lz4FrameRoundtrip: both directions.
    - Lz4File: streams, [LZ4_readFile_t], [LZ4_writeFile_t] and their functions.
      Lz4FileRead, ...Open, ...Write: the invariants of readers ([reader_at]) and
      writers ([writing]); Lz4FileRoundtrip: runs of writing and reading.
    - the files ...Theorems and ...Roundtrip hold the main theorems, each with a
      witness that applies it to concrete data.

    ** Interfaces

    - [LZ4F_CustomMem] has the allocation functions of the frame and file layers as
      operations, and [Allocator] their laws: an allocation fails or returns memory
      that was not in use, a block that is released was allocated.  Nothing is said
      of where a block lies; [arena] is an instance that places blocks one right
      behind the other.
    - [StreamHash] states what a streaming hash promises; both hashes are instances.
    - [LZ4_HC] has the functions of lz4hc.h that the frame compressor calls; no law
      is assumed, the theorems of the frame layer are about the levels that do not
      use them, and [liblz4hc], the model of lib/lz4hc.c, is an instance.
    - [FILE] is a model of the streams of the standard library: the bytes that can
      be read and whether the stream then fails, the bytes written and the room.

    ** What the theorems show

    - Block decoding (Lz4DecodeTheorems, Lz4StreamTheorems): on any input the safe
      decoder ends, touches only its buffers and returns only what the block stands
      for; every conforming block is decoded; partial decoding, dictionaries in each
      memory layout, and the streaming state as a representation of the history.
    - Compression (Lz4CompressTheorems): the compressor ends, stays in its buffers
      and emits a conforming block for its input; round trips; the bounds of
      [LZ4_compress_destSize]; counting of equal bytes; two deviations of the code
      from its documentation.
    - Streaming compression (Lz4StreamCompressTheorems): the invariant of the stream
      under every operation, and round trips with the decoder.
    - High compression (Lz4HcTheorems): at every level the compressor ends, stays in
      its buffers and emits a conforming block for its input, also on a context of
      earlier calls; filled outputs; adjacent blocks of a stream; round trips; one
      deprecated function that always fails.  These theorems are about contexts
      whose history is a prefix of the input; searches in external and attached
      dictionaries are modelled, without a theorem.  The bound of 1 GB less 64 KB on
      a stream keeps it below the 2 GB at which its dictionary is loaded anew.
    - Hashes (XxhashTheorems), the trusting decoder (Lz4UnsafeTheorems).
    - Frames (Lz4FrameTheorems, Lz4FrameDecodeTheorems, Lz4FrameCompressTheorems,
      Lz4FrameRoundtrip): headers are read as the format says; on any input and any
      cutting of it the decoder ends, stays in its buffers, makes progress and emits
      only the content of the frame; good frames are decoded completely; the
      compressor writes good frames for every sequence of calls, whatever the caller
      stores in its own memory between them, and within the advertised bounds;
      round trips.
    - Files (Lz4FileTheorems, Lz4FileRoundtrip): a reader delivers the content of
      the frames of the file, its loop ends, errors have the causes they should; a
      writer appends one good frame; what is written is read back; the output buffer
      of a writer with preferences is too small.

    ** Scope of the theorems on frames and files

    - The frame compressor: the levels of the fast compressor ([prefs_wf],
      compressionLevel below 2).  The functions for higher levels are modelled and
      have the theorems of Lz4HcTheorems; an allocation that fails there leaves a
      context that the next frame cannot use.
    - Sessions: the options of the calls are NULL, so that sources need not outlive
      their call.  Sources and a plain dictionary do not touch the internal buffer:
      where a new buffer is allocated, the bytes next to them are in use
      ([borders]).  The invariant of a frame keeps the history in one region, either
      the buffer or memory of the user, and a source that touches the buffer would
      be joined to it.
    - The frame decoder: the destination does not start where [tmpOutBuffer] ends
      ([detached]); a client ensures it with a byte in front of the destination that
      is in use, and not by the context ([fenced]).  In that layout
      [LZ4F_updateDict] loses history: [updateDict_behind_buffer].
    - Files: [LZ4F_write] with preferences works for less than one block in all
      ([fits]), and [write_block_fails] shows why; autoFlush is 0.  A file is good
      if it is a sequence of frames; a skippable frame is decoded by the frame layer
      but not counted as good.

    ** Not modelled

    The command line tool and the benchmark (programs/), and the host code of the
    GPU and hybrid variants (files, threads, sockets and OpenCL devices): they are
    clients of the library or of devices and operating-system services.  Debug traces and assertions of the code
    are left out. *)
From Stdlib Require Export ZArith Lia.
From stdpp Require Export base list gmap option numbers.

#[global] Open Scope Z_scope.

(** * Machine integers

    A [w]-bit unsigned value is a [Z] in [[0, 2^w)]; the wrap-around of the C
    types is written out with the functions below. *)

Definition u8 (z : Z) : Z := z mod 2 ^ 8.
Definition u16 (z : Z) : Z := z mod 2 ^ 16.
Definition u32 (z : Z) : Z := z mod 2 ^ 32.
Definition u64 (z : Z) : Z := z mod 2 ^ 64.

(** Conversion to a 32-bit signed [int]. *)
Definition s32 (z : Z) : Z := (z + 2 ^ 31) mod 2 ^ 32 - 2 ^ 31.

Definition int_min : Z := - 2 ^ 31.
Definition int_max : Z := 2 ^ 31 - 1.

(** * Reflection of the boolean tests of the code *)

(** [zcase] splits on the first integer comparison it finds in the goal. *)
Ltac zcase :=
  match goal with
  | |- context [?a <? ?b] => destruct (Z.ltb_spec a b)
  | |- context [?a <=? ?b] => destruct (Z.leb_spec a b)
  | |- context [?a =? ?b] => destruct (Z.eqb_spec a b)
  | |- context [?a >? ?b] => rewrite (Z.gtb_ltb a b); destruct (Z.ltb_spec b a)
  | |- context [?a >=? ?b] => rewrite (Z.geb_leb a b); destruct (Z.leb_spec b a)
  end.

(** [zsolve] is [lia] with the definitions of the machine-integer bounds and
    the equations of division and remainder. *)
Ltac zsolve :=
  unfold int_min, int_max in *; Z.div_mod_to_equations; lia.

(** [splits] splits the visible conjunctions only. *)
Ltac splits := repeat match goal with |- _ /\ _ => split end.

Create HintDb lz4.

(** * Integer lemmas *)

Lemma u8_small z : 0 <= z < 256 -> u8 z = z.
Proof. intros H. apply Z.mod_small. exact H. Qed.

Lemma u16_small z : 0 <= z < 65536 -> u16 z = z.
Proof. intros H. apply Z.mod_small. exact H. Qed.

Lemma u32_small z : 0 <= z < 2 ^ 32 -> u32 z = z.
Proof. intros H. apply Z.mod_small. exact H. Qed.

Lemma u64_small z : 0 <= z < 2 ^ 64 -> u64 z = z.
Proof. intros H. apply Z.mod_small. exact H. Qed.

Lemma s32_small z : int_min <= z <= int_max -> s32 z = z.
Proof.
  unfold int_min, int_max, s32. intros H. rewrite Z.mod_small by lia. lia.
Qed.

Lemma u8_range z : 0 <= u8 z < 256.
Proof. apply Z.mod_pos_bound. lia. Qed.

Lemma u32_range z : 0 <= u32 z < 2 ^ 32.
Proof. apply Z.mod_pos_bound. lia. Qed.

Lemma u64_range z : 0 <= u64 z < 2 ^ 64.
Proof. apply Z.mod_pos_bound. lia. Qed.

(** * Lists of bytes *)

Abbreviation byte_ok b := (0 <= b < 256).

Definition bytes_ok (l : list Z) : Prop := Forall (fun b => byte_ok b) l.

(** The length of a list as an integer. *)
Definition zlen {A} (l : list A) : Z := Z.of_nat (length l).

Lemma zlen_nonneg {A} (l : list A) : 0 <= zlen l.
Proof. unfold zlen. lia. Qed.

Lemma zlen_nil {A} : zlen (@nil A) = 0.
Proof. reflexivity. Qed.

Lemma zlen_cons {A} (x : A) l : zlen (x :: l) = 1 + zlen l.
Proof. unfold zlen. simpl. lia. Qed.

Lemma zlen_app {A} (l k : list A) : zlen (l ++ k) = zlen l + zlen k.
Proof. unfold zlen. rewrite length_app. lia. Qed.

Lemma zlen_replicate {A} n (x : A) : zlen (replicate n x) = Z.of_nat n.
Proof. unfold zlen. rewrite length_replicate. lia. Qed.

Lemma zlen_take {A} n (l : list A) :
  (n <= length l)%nat -> zlen (take n l) = Z.of_nat n.
Proof. intros H. unfold zlen. rewrite length_take. lia. Qed.

Lemma zlen_0_nil {A} (l : list A) : zlen l <= 0 -> l = [].
Proof. destruct l; [done|]. rewrite zlen_cons. pose proof (zlen_nonneg l). lia. Qed.

Lemma zlen_pos {A} (l : list A) : 0 < zlen l <-> l <> [].
Proof. destruct l; [done|]. rewrite zlen_cons. pose proof (zlen_nonneg l). split; [done|lia]. Qed.

Create Rewrite HintDb zlen.
#[export] Hint Rewrite @zlen_nil @zlen_cons @zlen_app @zlen_replicate : zlen.

(** [zl] normalises lengths and calls [lia]. *)
Ltac zlen_facts :=
  repeat match goal with
  | |- context [@zlen ?A ?l] =>
      lazymatch goal with
      | H : 0 <= zlen l |- _ => fail
      | _ => pose proof (@zlen_nonneg A l)
      end
  | H0 : context [@zlen ?A ?l] |- _ =>
      lazymatch goal with
      | H : 0 <= zlen l |- _ => fail
      | _ => pose proof (@zlen_nonneg A l)
      end
  end.

Ltac zl := autorewrite with zlen in *; zlen_facts; lia.

(** [zn] goes back to lengths in [nat]. *)
Ltac zn := unfold zlen in *; rewrite ?length_app in *; cbn [length] in *; lia.

(** Splitting a list at an integer position within it. *)
Lemma list_split_at {A} (l : list A) (n : Z) :
  0 <= n <= zlen l -> exists l1 l2, l = l1 ++ l2 /\ zlen l1 = n.
Proof.
  intros H. exists (take (Z.to_nat n) l), (drop (Z.to_nat n) l).
  split; [by rewrite take_drop|]. rewrite zlen_take; unfold zlen in H; lia.
Qed.

Lemma bytes_ok_app l k : bytes_ok (l ++ k) <-> bytes_ok l /\ bytes_ok k.
Proof. apply Forall_app. Qed.

Lemma bytes_ok_cons b l : bytes_ok (b :: l) <-> byte_ok b /\ bytes_ok l.
Proof. apply Forall_cons_iff. Qed.

(** [bd] evaluates the decisions that the context settles. *)
Ltac bd :=
  repeat match goal with
  | |- context [bool_decide ?P] =>
      first [rewrite (bool_decide_eq_true_2 P) by done
            |rewrite (bool_decide_eq_false_2 P) by (done || congruence)]
  end; cbn [andb orb negb].

(** [eval_decide] proves a closed decidable proposition by evaluation. *)
Ltac eval_decide := apply (bool_decide_eq_true_1 _); vm_compute; reflexivity.
