(* ===== verification/Mem.v ===== *)
(** Memory model: a flat byte memory, the effect monad of the C code and its
    weakest preconditions. *)
From S2P Require Import Prelude.

(** * Memory

    A memory maps the mapped addresses to byte values.  An access to an
    address outside its domain is a fault. *)
Abbreviation mem := (gmap Z Z).

(** Every address of [[a, a + n)] is mapped. *)
Definition mapped (m : mem) (a n : Z) : Prop :=
  forall i, a <= i < a + n -> is_Some (m !! i).

(** The bytes [l] are stored at [a]. *)
Definition holds (m : mem) (a : Z) (l : list Z) : Prop :=
  forall i : nat, (i < length l)%nat -> m !! (a + Z.of_nat i) = l !! i.

(** [m'] differs from [m] at most on [[a, b)], and maps the same addresses. *)
Definition frame (a b : Z) (m m' : mem) : Prop :=
  (forall i, ~ (a <= i < b) -> m' !! i = m !! i) /\
  (forall i, is_Some (m !! i) -> is_Some (m' !! i)).

(** [m'] is [m] after [n] bytes read at [s] were stored at [d]. *)
Definition copied (m m' : mem) (d s n : Z) : Prop :=
  forall i, m' !! i = if decide (d <= i < d + n) then m !! (i - d + s) else m !! i.

(** [m'] is [m] with the bytes [l] stored at [a]. *)
Fixpoint mstore (m : mem) (a : Z) (l : list Z) : mem :=
  match l with
  | [] => m
  | b :: l => mstore (<[a := b]> m) (a + 1) l
  end.

Fixpoint mload (m : mem) (a : Z) (n : nat) : option (list Z) :=
  match n with
  | O => Some []
  | S n => b ← m !! a; l ← mload m (a + 1) n; Some (b :: l)
  end.

Fixpoint mmapped (m : mem) (a : Z) (n : nat) : bool :=
  match n with
  | O => true
  | S n => match m !! a with Some _ => mmapped m (a + 1) n | None => false end
  end.

(** * The effect monad *)

(** A run of C code ends normally with a value and the final memory, faults
    (an access outside the mapped memory, or an overlapping [memcpy]), or uses
    up the fuel given to its loops. *)
Inductive outcome (A : Type) :=
| Ok (a : A) (m : mem)
| Fault
| OutOfFuel.
Arguments Ok {A} a m.
Arguments Fault {A}.
Arguments OutOfFuel {A}.

Definition M (A : Type) := mem -> outcome A.

#[export] Instance M_ret : MRet M := fun A a m => Ok a m.
#[export] Instance M_bind : MBind M := fun A B f c m =>
  match c m with
  | Ok a m' => f a m'
  | Fault => Fault
  | OutOfFuel => OutOfFuel
  end.

Definition fault {A} : M A := fun _ => Fault.

(** Loads and stores of a byte; the conversion of a wider value to a byte is
    written at the store. *)
Definition loadb (a : Z) : M Z := fun m =>
  match m !! a with Some v => Ok v m | None => Fault end.

Definition storeb (a v : Z) : M unit := fun m =>
  match m !! a with Some _ => Ok tt (<[a := v]> m) | None => Fault end.

Definition load_bytes (a n : Z) : M (list Z) := fun m =>
  match mload m a (Z.to_nat n) with Some l => Ok l m | None => Fault end.

Definition store_bytes (a : Z) (l : list Z) : M unit := fun m =>
  if mmapped m a (length l) then Ok tt (mstore m a l) else Fault.

(** [memmove], [memcpy] and [memset] of the C library. Overlapping operands
    of [memcpy] are undefined behaviour: a fault. *)
Definition memmove (d s n : Z) : M unit :=
  l ← load_bytes s n; store_bytes d l.

Definition memcpy (d s n : Z) : M unit :=
  if (0 <? n) && (Z.abs (d - s) <? n) then fault else memmove d s n.

Definition memset (d v n : Z) : M unit :=
  store_bytes d (replicate (Z.to_nat n) (u8 v)).

(** Little-endian value of a list of bytes, and its [n] lowest bytes. *)
Fixpoint le_val (l : list Z) : Z :=
  match l with [] => 0 | b :: l => b + 256 * le_val l end.

Fixpoint le_bytes (n : nat) (v : Z) : list Z :=
  match n with O => [] | S n => (v mod 256) :: le_bytes n (v / 256) end.

(** Loops: [body] returns [inl] to go on with a new state and [inr] to leave
    the loop; the fuel bounds the number of iterations. *)
Fixpoint loop {S R} (fuel : nat) (body : S -> M (S + R)) (s : S) : M R :=
  match fuel with
  | O => fun _ => OutOfFuel
  | Datatypes.S n =>
      r ← body s;
      match r with
      | inl s' => loop n body s'
      | inr r => mret r
      end
  end.

(** * Weakest preconditions

    [wp c Q m]: run on [m], [c] neither faults nor runs out of fuel, and ends
    with a value and a memory that satisfy [Q]. *)
Definition wp {A} (c : M A) (Q : A -> mem -> Prop) (m : mem) : Prop :=
  match c m with Ok a m' => Q a m' | _ => False end.

Section WpRules.
Context {A B : Type}.
Implicit Types (c : M A) (m : mem).

Lemma wp_ret (a : A) Q m : Q a m -> wp (mret a) Q m.
Proof. done. Qed.

Lemma wp_bind c (f : A -> M B) Q m :
  wp c (fun a m' => wp (f a) Q m') m -> wp (c ≫= f) Q m.
Proof. unfold wp, mbind, M_bind. by destruct (c m). Qed.

Lemma wp_mono c (Q Q' : A -> mem -> Prop) m :
  wp c Q m -> (forall a m', Q a m' -> Q' a m') -> wp c Q' m.
Proof. unfold wp. destruct (c m); auto. Qed.

Lemma wp_inv c Q m : wp c Q m -> exists a m', c m = Ok a m' /\ Q a m'.
Proof. unfold wp. destruct (c m); naive_solver. Qed.
End WpRules.

(** Case analysis on the test at the head of the code. *)
Ltac wif :=
  lazymatch goal with
  | |- wp (if ?a <? ?b then _ else _) _ _ => destruct (Z.ltb_spec a b)
  | |- wp (if ?a <=? ?b then _ else _) _ _ => destruct (Z.leb_spec a b)
  | |- wp (if ?a =? ?b then _ else _) _ _ => destruct (Z.eqb_spec a b)
  | |- wp (if ?b then _ else _) _ _ => let E := fresh "E" in destruct b eqn:E
  end.

(** The rule of loops: an invariant and a measure below the fuel. *)
Lemma wp_loop {S R} (I : S -> mem -> Prop) (meas : S -> Z)
    (body : S -> M (S + R)) Q :
  (forall s m, I s m ->
     0 <= meas s /\
     wp (body s) (fun r m' =>
       match r with
       | inl s' => I s' m' /\ meas s' < meas s
       | inr r => Q r m'
       end) m) ->
  forall fuel s m, I s m -> meas s < Z.of_nat fuel -> wp (loop fuel body s) Q m.
Proof.
  intros Hbody fuel. induction fuel as [|n IH]; intros s m HI Hm.
  - destruct (Hbody s m HI) as [H0 _]. lia.
  - simpl. apply wp_bind. destruct (Hbody s m HI) as [H0 Hb].
    eapply wp_mono; [exact Hb|]. intros [s'|r] m'; cbn beta iota.
    + intros [HI' Hlt]. apply IH; [done|lia].
    + intros HQ. by apply wp_ret.
Qed.

#[global] Arguments loop : simpl never.

(** * Lookup laws of loads and stores *)

Lemma mstore_lookup l : forall m a i,
  mstore m a l !! i =
    if decide (a <= i < a + zlen l) then l !! Z.to_nat (i - a) else m !! i.
Proof.
  induction l as [|b l IH]; intros m a i; simpl.
  - rewrite zlen_nil. case_decide; [lia|done].
  - rewrite IH, zlen_cons, lookup_insert. pose proof (zlen_nonneg l).
    repeat case_decide; try lia; subst.
    + replace (Z.to_nat (i - a)) with (S (Z.to_nat (i - (a + 1)))) by lia. done.
    + by rewrite Z.sub_diag.
    + done.
Qed.

Lemma mmapped_spec n : forall m a,
  mmapped m a n = true <-> mapped m a (Z.of_nat n).
Proof.
  induction n as [|n IH]; intros m a; simpl.
  - split; [|done]. intros _ i Hi. lia.
  - destruct (m !! a) as [v|] eqn:E.
    + rewrite IH. split; intros H i Hi.
      * destruct (Z.eq_dec i a) as [->|Hne]; [by rewrite E|]. apply H. lia.
      * apply H. lia.
    + split; [done|]. intros H. destruct (H a) as [? ?]; [lia|]. congruence.
Qed.

Lemma mload_spec n : forall m a,
  mapped m a (Z.of_nat n) ->
  exists l, mload m a n = Some l /\ zlen l = Z.of_nat n /\ holds m a l.
Proof.
  induction n as [|n IH]; intros m a H; simpl.
  - exists []. repeat split; [done..|]. intros i Hi. simpl in Hi. lia.
  - destruct (H a) as [v Hv]; [lia|].
    destruct (IH m (a + 1)) as (l & Hl & Hlen & Hh); [intros i Hi; apply H; lia|].
    exists (v :: l). rewrite Hv; simpl. rewrite Hl; simpl.
    repeat split; [zl|]. intros [|i] Hi; simpl in *.
    + by rewrite Z.add_0_r.
    + rewrite <- Hh by lia. f_equal. lia.
Qed.

Lemma mload_holds l : forall m a, holds m a l -> mload m a (length l) = Some l.
Proof.
  induction l as [|b l IH]; intros m a H; simpl; [done|].
  assert (m !! a = Some b) as ->.
  { specialize (H 0%nat). simpl in H. rewrite Z.add_0_r in H. apply H. lia. }
  simpl. rewrite IH; [done|]. intros i Hi.
  specialize (H (S i)). simpl in H. rewrite <- H by lia. f_equal. lia.
Qed.

(** * Laws of [holds], [mapped], [frame] and [copied] *)

Lemma mload_holds_inv l : forall m a, mload m a (length l) = Some l -> holds m a l.
Proof.
  induction l as [|b l IH]; intros m a H i Hi; simpl in *; [lia|].
  destruct (m !! a) as [v|] eqn:Ev; simpl in H; [|done].
  destruct (mload m (a + 1) (length l)) as [k|] eqn:Ek; simpl in H; [|done].
  injection H as [= -> ->]. destruct i as [|i]; simpl.
  - by rewrite Z.add_0_r.
  - rewrite <- (IH _ _ Ek i) by lia. f_equal. lia.
Qed.

(** Both assertions can be evaluated. *)
#[export] Instance holds_dec m a l : Decision (holds m a l) :=
  match decide (mload m a (length l) = Some l) with
  | left H => left (mload_holds_inv l m a H)
  | right H => right (fun H' => H (mload_holds l m a H'))
  end.

Lemma mapped_nonneg m a n : mapped m a n <-> mmapped m a (Z.to_nat n) = true.
Proof.
  rewrite mmapped_spec. split; intros H i Hi; apply H; lia.
Qed.

#[export] Instance mapped_dec m a n : Decision (mapped m a n) :=
  match decide (mmapped m a (Z.to_nat n) = true) with
  | left H => left (proj2 (mapped_nonneg m a n) H)
  | right H => right (fun H' => H (proj1 (mapped_nonneg m a n) H'))
  end.

Lemma holds_nil m a : holds m a [].
Proof. intros i Hi. simpl in Hi. lia. Qed.

Lemma holds_app m a l k : holds m a (l ++ k) <-> holds m a l /\ holds m (a + zlen l) k.
Proof.
  unfold holds, zlen. split.
  - intros H. split; intros i Hi.
    + rewrite H by (rewrite length_app; lia). by rewrite lookup_app_l by lia.
    + specialize (H (length l + i)%nat). rewrite lookup_app_r in H by lia.
      replace (length l + i - length l)%nat with i in H by lia.
      rewrite <- H by (rewrite length_app; lia). f_equal. lia.
  - intros [H1 H2] i Hi. rewrite length_app in Hi.
    destruct (Nat.lt_ge_cases i (length l)).
    + rewrite lookup_app_l by lia. by apply H1.
    + rewrite lookup_app_r by lia. rewrite <- H2 by lia. f_equal. lia.
Qed.

Lemma holds_cons m a b l : holds m a (b :: l) <-> m !! a = Some b /\ holds m (a + 1) l.
Proof.
  change (b :: l) with ([b] ++ l). rewrite holds_app. unfold zlen; simpl.
  split; intros [H1 H2]; split; try done.
  - specialize (H1 0%nat). simpl in H1. rewrite Z.add_0_r in H1. apply H1. lia.
  - intros i Hi. simpl in Hi. replace i with 0%nat by lia. by rewrite Z.add_0_r.
Qed.

(** The stored bytes, by address. *)
Lemma holds_at m a l i :
  holds m a l -> a <= i < a + zlen l -> m !! i = l !! Z.to_nat (i - a).
Proof.
  intros H Hi. unfold zlen in Hi. rewrite <- H by lia. f_equal. lia.
Qed.

Lemma holds_intro m a l :
  (forall i, a <= i < a + zlen l -> m !! i = l !! Z.to_nat (i - a)) -> holds m a l.
Proof.
  intros H i Hi. rewrite H by (unfold zlen; lia). f_equal. lia.
Qed.

Lemma holds_mapped m a l : holds m a l -> mapped m a (zlen l).
Proof.
  intros H i Hi. rewrite (holds_at _ _ _ _ H Hi). apply lookup_lt_is_Some.
  unfold zlen in Hi. lia.
Qed.

Lemma holds_eq_on m m' a l :
  (forall i, a <= i < a + zlen l -> m' !! i = m !! i) -> holds m a l -> holds m' a l.
Proof.
  intros He H. apply holds_intro. intros i Hi. rewrite He by done. by apply holds_at.
Qed.

Lemma holds_inj m a l k : holds m a l -> holds m a k -> length l = length k -> l = k.
Proof.
  intros Hl Hk Hn. apply list_eq. intros i.
  destruct (Nat.lt_ge_cases i (length l)) as [Hi|Hi].
  - rewrite <- Hl, <- Hk by lia. done.
  - rewrite !lookup_ge_None_2 by lia. done.
Qed.

Lemma mapped_holds m a n : 0 <= n -> mapped m a n -> exists l, holds m a l /\ zlen l = n.
Proof.
  intros Hn H. destruct (mload_spec (Z.to_nat n) m a) as (l & _ & Hl & Hh).
  - by rewrite Z2Nat.id.
  - exists l. split; [done|lia].
Qed.

Lemma mapped_sub m a n b k : mapped m a n -> a <= b -> b + k <= a + n -> mapped m b k.
Proof. intros H ? ? i Hi. apply H. lia. Qed.

Lemma frame_refl a b m : frame a b m m.
Proof. by split. Qed.

Lemma frame_trans a b m1 m2 m3 : frame a b m1 m2 -> frame a b m2 m3 -> frame a b m1 m3.
Proof.
  intros [H1 H1'] [H2 H2']. split; intros i Hi; [|by auto].
  rewrite H2, H1; done.
Qed.

Lemma frame_weaken a b a' b' m m' :
  frame a b m m' -> a' <= a -> b <= b' -> frame a' b' m m'.
Proof. intros [H1 H2] ? ?. split; [|done]. intros i Hi. apply H1. lia. Qed.

Lemma frame_mapped a b m m' c n : frame a b m m' -> mapped m c n -> mapped m' c n.
Proof. intros [_ H] Hm i Hi. by apply H, Hm. Qed.

Lemma frame_holds a b m m' c l :
  frame a b m m' -> c + zlen l <= a \/ b <= c -> holds m c l -> holds m' c l.
Proof. intros [H _] Hd. apply holds_eq_on. intros i Hi. apply H. lia. Qed.

#[export] Hint Resolve frame_refl holds_nil : lz4.

(** Appending what was written behind [l]. *)
Lemma holds_snoc m m' a l k b :
  holds m a l -> frame (a + zlen l) b m m' -> holds m' (a + zlen l) k -> holds m' a (l ++ k).
Proof.
  intros Hl Hf Hk. apply holds_app. split; [|done].
  eapply frame_holds; [exact Hf|left; lia|done].
Qed.

Lemma copied_frame m m' d s n :
  copied m m' d s n -> mapped m s n -> frame d (d + n) m m'.
Proof.
  intros H Hs. split; intros i Hi; rewrite H; case_decide; try done; try lia.
  apply Hs. lia.
Qed.

Lemma copied_at m m' d s n i :
  copied m m' d s n -> d <= i < d + n -> m' !! i = m !! (i - d + s).
Proof. intros H Hi. rewrite H. by case_decide. Qed.

Lemma copied_ne m m' d s n i :
  copied m m' d s n -> ~ (d <= i < d + n) -> m' !! i = m !! i.
Proof. intros H Hi. rewrite H. by case_decide. Qed.

Lemma copied_holds m m' d s n l :
  copied m m' d s n -> zlen l <= n -> holds m s l -> holds m' d l.
Proof.
  intros H Hn Hl. apply holds_intro. intros i Hi.
  rewrite (copied_at _ _ _ _ _ _ H) by lia.
  rewrite (holds_at _ _ _ _ Hl) by lia. f_equal. lia.
Qed.

(** * Weakest preconditions of the primitives *)

Lemma wp_loadb a v Q m : m !! a = Some v -> Q v m -> wp (loadb a) Q m.
Proof. intros H HQ. unfold wp, loadb. by rewrite H. Qed.

Lemma wp_storeb a v Q m :
  is_Some (m !! a) -> Q tt (<[a := v]> m) -> wp (storeb a v) Q m.
Proof. intros [w H] HQ. unfold wp, storeb. by rewrite H. Qed.

Lemma wp_storeb_frame a v Q m :
  mapped m a 1 -> (forall m', frame a (a + 1) m m' -> holds m' a [v] -> Q tt m') ->
  wp (storeb a v) Q m.
Proof.
  intros Hm HQ. destruct (Hm a) as [w Hw]; [lia|]. apply wp_storeb; [by rewrite Hw|]. apply HQ.
  - split.
    + intros i Hi. by rewrite lookup_insert_ne by lia.
    + intros i [x Hx]. rewrite lookup_insert. case_decide; eauto.
  - apply holds_cons. rewrite lookup_insert, decide_True by done. split; [done|apply holds_nil].
Qed.

Lemma wp_load_bytes a l Q m :
  holds m a l -> Q l m -> wp (load_bytes a (zlen l)) Q m.
Proof.
  intros H HQ. unfold wp, load_bytes, zlen. rewrite Nat2Z.id.
  by rewrite (mload_holds _ _ _ H).
Qed.

Lemma wp_store_bytes a l Q m :
  mapped m a (zlen l) -> Q tt (mstore m a l) -> wp (store_bytes a l) Q m.
Proof.
  intros H HQ. unfold wp, store_bytes. by rewrite (proj2 (mmapped_spec _ _ _) H).
Qed.

(** Storing bytes: the new memory holds them, and only their range changed. *)
Lemma wp_store_bytes_holds a l Q m :
  mapped m a (zlen l) ->
  (forall m', frame a (a + zlen l) m m' -> holds m' a l -> Q tt m') ->
  wp (store_bytes a l) Q m.
Proof.
  intros H HQ. apply wp_store_bytes; [done|]. apply HQ.
  - split; intros i Hi; rewrite mstore_lookup; case_decide; try done.
    apply lookup_lt_is_Some. unfold zlen in *. lia.
  - apply holds_intro. intros i Hi. rewrite mstore_lookup. by case_decide.
Qed.

Lemma wp_memmove d s n Q m :
  0 <= n -> mapped m s n -> mapped m d n ->
  (forall m', copied m m' d s n -> Q tt m') -> wp (memmove d s n) Q m.
Proof.
  intros Hn Hs Hd HQ. destruct (mapped_holds m s n Hn Hs) as (l & Hl & Hlen).
  unfold memmove. apply wp_bind. rewrite <- Hlen. apply wp_load_bytes; [done|].
  apply wp_store_bytes; [by rewrite Hlen|]. apply HQ. intros i.
  rewrite mstore_lookup, Hlen. case_decide; [|done].
  rewrite (holds_at _ _ _ _ Hl) by lia. f_equal. lia.
Qed.

Lemma wp_memcpy d s n Q m :
  0 <= n -> mapped m s n -> mapped m d n -> n <= Z.abs (d - s) \/ n = 0 ->
  (forall m', copied m m' d s n -> Q tt m') -> wp (memcpy d s n) Q m.
Proof.
  intros Hn Hs Hd Hov HQ. unfold memcpy.
  destruct (Z.ltb_spec 0 n), (Z.ltb_spec (Z.abs (d - s)) n); simpl; try lia;
    by apply wp_memmove.
Qed.

(** Little-endian values. *)
Lemma le_val_range l : bytes_ok l -> 0 <= le_val l < 256 ^ zlen l.
Proof.
  induction 1 as [|b l Hb Hl IH]; simpl; [done|].
  rewrite zlen_cons, Z.pow_add_r, Z.pow_1_r by (pose proof (zlen_nonneg l); lia). lia.
Qed.

Lemma length_le_bytes n : forall v, length (le_bytes n v) = n.
Proof. induction n; intros v; simpl; auto. Qed.

Lemma zlen_le_bytes n v : zlen (le_bytes n v) = Z.of_nat n.
Proof. unfold zlen. by rewrite length_le_bytes. Qed.

#[export] Hint Rewrite zlen_le_bytes : zlen.

Lemma le_bytes_ok n : forall v, bytes_ok (le_bytes n v).
Proof.
  induction n as [|n IH]; intros v; simpl; constructor; [|apply IH].
  apply Z.mod_pos_bound. lia.
Qed.

Lemma le_val_bytes n : forall v, le_val (le_bytes n v) = v mod 256 ^ Z.of_nat n.
Proof.
  induction n as [|n IH]; intros v; simpl le_val.
  - by rewrite Z.mod_1_r.
  - rewrite IH, Nat2Z.inj_succ, Z.pow_succ_r by lia.
    rewrite (Z.rem_mul_r v 256 (256 ^ Z.of_nat n)) by lia. done.
Qed.

Lemma le_bytes_val l : bytes_ok l -> le_bytes (length l) (le_val l) = l.
Proof.
  induction 1 as [|b l Hb Hl IH]; simpl; [done|].
  replace ((b + 256 * le_val l) mod 256) with b by (Z.div_mod_to_equations; lia).
  replace ((b + 256 * le_val l) / 256) with (le_val l) by (Z.div_mod_to_equations; lia).
  by rewrite IH.
Qed.

(** * Concrete memories *)

(** The memory made of the given segments, each an address and its bytes. *)
Definition mem_of (segs : list (Z * list Z)) : mem :=
  foldr (fun p m => mstore m p.1 p.2) ∅ segs.
