(* ===== verification/Xxhash.v ===== *)
(** lib/xxhash.c: the 32-bit and 64-bit hashes, one-shot and streaming.

    The frame format checks its header and its contents with [XXH32].  The
    configuration is that of the rest of the development: a little-endian
    machine on which [XXH_FORCE_ALIGN_CHECK] is 0 and unaligned reads go
    through [memcpy].  The scalar fields of a state are a record; its byte
    buffer ([mem32], [mem64]) lives in the memory, at the address the record
    gives, because the code fills it with [memcpy] at an offset. *)
From S2P Require Import Prelude.
From S2P Require Import Mem.

Inductive XXH_errorcode := XXH_OK | XXH_ERROR.
Inductive XXH_endianness := XXH_bigEndian | XXH_littleEndian.
Inductive XXH_alignment := XXH_aligned | XXH_unaligned.

Definition XXH_isLittleEndian : bool := true.
Definition XXH_CPU_LITTLE_ENDIAN : XXH_endianness :=
  if XXH_isLittleEndian then XXH_littleEndian else XXH_bigEndian.

(** * Memory reads *)

Definition XXH_memcpy (dest src size : Z) : M unit := memcpy dest src size.

Definition XXH_read32 (memPtr : Z) : M Z := l ← load_bytes memPtr 4; mret (le_val l).

Definition XXH_rotl32 (x r : Z) : Z := Z.lor (u32 (Z.shiftl x r)) (Z.shiftr x (32 - r)).
Definition XXH_rotl64 (x r : Z) : Z := Z.lor (u64 (Z.shiftl x r)) (Z.shiftr x (64 - r)).

Definition XXH_swap32 (x : Z) : Z :=
  Z.lor (Z.lor (Z.lor (Z.land (u32 (Z.shiftl x 24)) 0xff000000)
                      (Z.land (u32 (Z.shiftl x 8)) 0x00ff0000))
               (Z.land (Z.shiftr x 8) 0x0000ff00))
        (Z.land (Z.shiftr x 24) 0x000000ff).

Definition XXH_readLE32_align (ptr : Z) (endian : XXH_endianness) (align : XXH_alignment) : M Z :=
  match align, endian with
  | XXH_unaligned, XXH_littleEndian => XXH_read32 ptr
  | XXH_unaligned, XXH_bigEndian => x ← XXH_read32 ptr; mret (XXH_swap32 x)
  | XXH_aligned, XXH_littleEndian => l ← load_bytes ptr 4; mret (le_val l)
  | XXH_aligned, XXH_bigEndian => l ← load_bytes ptr 4; mret (XXH_swap32 (le_val l))
  end.

Definition XXH_readLE32 (ptr : Z) (endian : XXH_endianness) : M Z :=
  XXH_readLE32_align ptr endian XXH_unaligned.

Definition XXH_readBE32 (ptr : Z) : M Z :=
  if XXH_isLittleEndian then x ← XXH_read32 ptr; mret (XXH_swap32 x) else XXH_read32 ptr.

(** * The loops over stripes

    [do { v = stripe(v, p); p += k; } while (again(p));] over the read pointer
    and the four accumulators. *)
Record V4 := mkV4 { acc1 : Z; acc2 : Z; acc3 : Z; acc4 : Z }.

Definition stripe_body (stripe : Z -> V4 -> M V4) (k : Z) (again : Z -> bool) (s : Z * V4) :
    M (Z * V4 + Z * V4) :=
  let '(p, v) := s in
  v ← stripe p v;
  let p := p + k in
  mret (if again p then inl (p, v) else inr (p, v)).

Definition stripe_loop (stripe : Z -> V4 -> M V4) (k : Z) (again : Z -> bool) (p bEnd : Z)
    (v : V4) : M (Z * V4) :=
  loop (S (Z.to_nat (bEnd - p))) (stripe_body stripe k again) (p, v).

(** ** Absorbing a piece of input

    What both [update] functions do with the accumulators [v] and the [k]-byte
    buffer [buf] that holds [memsize] bytes: the input is gathered in the buffer
    until a stripe is complete, whole stripes are then read from the input
    directly, and the rest goes to the buffer.  [enter] is the test before the
    loop, [again] the one behind its body.  The result is the accumulators and
    the number of bytes in the buffer. *)
Definition absorb (stripe : Z -> V4 -> M V4) (k : Z) (enter again : Z -> bool)
    (v : V4) (buf memsize input len : Z) : M (V4 * Z) :=
  let p := input in
  let bEnd := p + len in
  if u64 (memsize + len) <? k then
    XXH_memcpy (buf + memsize) input len;;
    mret (v, u32 (memsize + u32 len))
  else
    r ← (if negb (memsize =? 0) then
           XXH_memcpy (buf + memsize) input (k - memsize);;
           v ← stripe buf v;
           mret (p + (k - memsize), v, 0)
         else mret (p, v, memsize));
    let '(p, v, memsize) := r in
    r ← (if enter p then stripe_loop stripe k again p bEnd v else mret (p, v));
    let '(p, v) := r in
    memsize ← (if p <? bEnd then XXH_memcpy buf p (bEnd - p);; mret (u32 (bEnd - p))
               else mret memsize);
    mret (v, memsize).

(** * 32-bit hash functions *)

Definition PRIME32_1 : Z := 2654435761.
Definition PRIME32_2 : Z := 2246822519.
Definition PRIME32_3 : Z := 3266489917.
Definition PRIME32_4 : Z := 668265263.
Definition PRIME32_5 : Z := 374761393.

Definition XXH32_round (seed input : Z) : Z :=
  let seed := u32 (seed + u32 (input * PRIME32_2)) in
  let seed := XXH_rotl32 seed 13 in
  u32 (seed * PRIME32_1).

Definition XXH32_avalanche (h32 : Z) : Z :=
  let h32 := Z.lxor h32 (Z.shiftr h32 15) in
  let h32 := u32 (h32 * PRIME32_2) in
  let h32 := Z.lxor h32 (Z.shiftr h32 13) in
  let h32 := u32 (h32 * PRIME32_3) in
  Z.lxor h32 (Z.shiftr h32 16).

(** The macros of [XXH32_finalize]. *)
Inductive PROCESS32 := PROCESS1 | PROCESS4.

Definition process32_size (o : PROCESS32) : Z := match o with PROCESS1 => 1 | PROCESS4 => 4 end.

Definition process1_32 (h32 b : Z) : Z :=
  let h32 := u32 (h32 + u32 (b * PRIME32_5)) in
  u32 (XXH_rotl32 h32 11 * PRIME32_1).

Definition process4_32 (h32 w : Z) : Z :=
  let h32 := u32 (h32 + u32 (w * PRIME32_3)) in
  u32 (XXH_rotl32 h32 17 * PRIME32_4).

Definition process32 (endian : XXH_endianness) (align : XXH_alignment) (o : PROCESS32)
    (h32 p : Z) : M (Z * Z) :=
  match o with
  | PROCESS1 => b ← loadb p; mret (process1_32 h32 b, p + 1)
  | PROCESS4 => w ← XXH_readLE32_align p endian align; mret (process4_32 h32 w, p + 4)
  end.

(** The macros executed from each [case] to its [return], fall-through
    included. *)
Definition finalize32_case (n : Z) : list PROCESS32 :=
  match n with
  | 12 => [PROCESS4; PROCESS4; PROCESS4]
  | 8 => [PROCESS4; PROCESS4]
  | 4 => [PROCESS4]
  | 13 => [PROCESS4; PROCESS4; PROCESS4; PROCESS1]
  | 9 => [PROCESS4; PROCESS4; PROCESS1]
  | 5 => [PROCESS4; PROCESS1]
  | 14 => [PROCESS4; PROCESS4; PROCESS4; PROCESS1; PROCESS1]
  | 10 => [PROCESS4; PROCESS4; PROCESS1; PROCESS1]
  | 6 => [PROCESS4; PROCESS1; PROCESS1]
  | 15 => [PROCESS4; PROCESS4; PROCESS4; PROCESS1; PROCESS1; PROCESS1]
  | 11 => [PROCESS4; PROCESS4; PROCESS1; PROCESS1; PROCESS1]
  | 7 => [PROCESS4; PROCESS1; PROCESS1; PROCESS1]
  | 3 => [PROCESS1; PROCESS1; PROCESS1]
  | 2 => [PROCESS1; PROCESS1]
  | 1 => [PROCESS1]
  | _ => []
  end.

Fixpoint run_processes {O} (step : O -> Z -> Z -> M (Z * Z)) (ops : list O) (h p : Z) : M Z :=
  match ops with
  | [] => mret h
  | o :: ops => r ← step o h p; run_processes step ops r.1 r.2
  end.

Definition XXH32_finalize (h32 ptr len : Z) (endian : XXH_endianness) (align : XXH_alignment) :
    M Z :=
  h32 ← run_processes (process32 endian align) (finalize32_case (Z.land len 15)) h32 ptr;
  mret (XXH32_avalanche h32).

(** The four rounds of one 16-byte stripe. *)
Definition XXH32_stripe (get32bits : Z -> M Z) (p : Z) (v : V4) : M V4 :=
  w1 ← get32bits p; let v1 := XXH32_round (acc1 v) w1 in
  w2 ← get32bits (p + 4); let v2 := XXH32_round (acc2 v) w2 in
  w3 ← get32bits (p + 8); let v3 := XXH32_round (acc3 v) w3 in
  w4 ← get32bits (p + 12); let v4 := XXH32_round (acc4 v) w4 in
  mret (mkV4 v1 v2 v3 v4).

Definition XXH32_init (seed : Z) : V4 :=
  mkV4 (u32 (seed + PRIME32_1 + PRIME32_2)) (u32 (seed + PRIME32_2)) (u32 (seed + 0))
       (u32 (seed - PRIME32_1)).

Definition XXH32_merge (v : V4) : Z :=
  u32 (XXH_rotl32 (acc1 v) 1 + XXH_rotl32 (acc2 v) 7 + XXH_rotl32 (acc3 v) 12
       + XXH_rotl32 (acc4 v) 18).

Definition XXH32_endian_align (input len seed : Z) (endian : XXH_endianness)
    (align : XXH_alignment) : M Z :=
  let p := input in
  let bEnd := p + len in
  r ← (if 16 <=? len then
         let limit := bEnd - 15 in
         pv ← stripe_loop (XXH32_stripe (fun p => XXH_readLE32_align p endian align)) 16
                (fun p => p <? limit) p bEnd (XXH32_init seed);
         mret (pv.1, XXH32_merge pv.2)
       else mret (p, u32 (seed + PRIME32_5)));
  let '(p, h32) := r in
  let h32 := u32 (h32 + u32 len) in
  XXH32_finalize h32 p (Z.land len 15) endian align.

(** [XXH_FORCE_ALIGN_CHECK] is 0. *)
Definition XXH32 (input len seed : Z) : M Z :=
  match XXH_CPU_LITTLE_ENDIAN with
  | XXH_littleEndian => XXH32_endian_align input len seed XXH_littleEndian XXH_unaligned
  | XXH_bigEndian => XXH32_endian_align input len seed XXH_bigEndian XXH_unaligned
  end.

(** ** Hash streaming *)

(** [mem32] is the address of the 16-byte buffer. *)
Record XXH32_state_t := XXH32_state {
  total_len_32 : Z;
  large_len : Z;
  v_32 : V4;
  mem32 : Z;
  memsize_32 : Z }.

(** The fields are overwritten, the buffer with zeros; the previous contents
    of the state do not matter, only where it lies. *)
Definition XXH32_reset (statePtr : XXH32_state_t) (seed : Z) : M (XXH_errorcode * XXH32_state_t) :=
  memset (mem32 statePtr) 0 16;;
  mret (XXH_OK, XXH32_state 0 0 (XXH32_init seed) (mem32 statePtr) 0).

Definition XXH32_copyState (dstState srcState : XXH32_state_t) : M XXH32_state_t :=
  memcpy (mem32 dstState) (mem32 srcState) 16;;
  mret (XXH32_state (total_len_32 srcState) (large_len srcState) (v_32 srcState)
          (mem32 dstState) (memsize_32 srcState)).

(** [XXH_ACCEPT_NULL_INPUT_POINTER] is 0. *)
Definition XXH32_update_endian (state : XXH32_state_t) (input len : Z) (endian : XXH_endianness) :
    M (XXH_errorcode * XXH32_state_t) :=
  if input =? 0 then mret (XXH_ERROR, state) else
  let bEnd := input + len in
  let total := u32 (total_len_32 state + u32 len) in
  let large := Z.lor (large_len state) (Z.b2z ((16 <=? len) || (16 <=? total))) in
  r ← absorb (XXH32_stripe (fun p => XXH_readLE32 p endian)) 16
        (fun p => p <=? bEnd - 16) (fun p => p <=? bEnd - 16)
        (v_32 state) (mem32 state) (memsize_32 state) input len;
  mret (XXH_OK, XXH32_state total large r.1 (mem32 state) r.2).

Definition XXH32_update (state_in : XXH32_state_t) (input len : Z) :
    M (XXH_errorcode * XXH32_state_t) :=
  match XXH_CPU_LITTLE_ENDIAN with
  | XXH_littleEndian => XXH32_update_endian state_in input len XXH_littleEndian
  | XXH_bigEndian => XXH32_update_endian state_in input len XXH_bigEndian
  end.

Definition XXH32_digest_endian (state : XXH32_state_t) (endian : XXH_endianness) : M Z :=
  let h32 :=
    if negb (large_len state =? 0) then XXH32_merge (v_32 state)
    else u32 (acc3 (v_32 state) + PRIME32_5) in
  let h32 := u32 (h32 + total_len_32 state) in
  XXH32_finalize h32 (mem32 state) (memsize_32 state) endian XXH_aligned.

Definition XXH32_digest (state_in : XXH32_state_t) : M Z :=
  match XXH_CPU_LITTLE_ENDIAN with
  | XXH_littleEndian => XXH32_digest_endian state_in XXH_littleEndian
  | XXH_bigEndian => XXH32_digest_endian state_in XXH_bigEndian
  end.

(** ** Canonical representation *)

Definition XXH32_canonicalFromHash (dst hash : Z) : M unit :=
  let hash := if XXH_isLittleEndian then XXH_swap32 hash else hash in
  store_bytes dst (le_bytes 4 hash).

Definition XXH32_hashFromCanonical (src : Z) : M Z := XXH_readBE32 src.

(** * 64-bit hash functions *)

Definition XXH_read64 (memPtr : Z) : M Z := l ← load_bytes memPtr 8; mret (le_val l).

Definition XXH_swap64 (x : Z) : Z :=
  let a := Z.land (u64 (Z.shiftl x 56)) 0xff00000000000000 in
  let b := Z.land (u64 (Z.shiftl x 40)) 0x00ff000000000000 in
  let c := Z.land (u64 (Z.shiftl x 24)) 0x0000ff0000000000 in
  let d := Z.land (u64 (Z.shiftl x 8)) 0x000000ff00000000 in
  let e := Z.land (Z.shiftr x 8) 0x00000000ff000000 in
  let f := Z.land (Z.shiftr x 24) 0x0000000000ff0000 in
  let g := Z.land (Z.shiftr x 40) 0x000000000000ff00 in
  let h := Z.land (Z.shiftr x 56) 0x00000000000000ff in
  Z.lor (Z.lor (Z.lor (Z.lor (Z.lor (Z.lor (Z.lor a b) c) d) e) f) g) h.

Definition XXH_readLE64_align (ptr : Z) (endian : XXH_endianness) (align : XXH_alignment) : M Z :=
  match align, endian with
  | XXH_unaligned, XXH_littleEndian => XXH_read64 ptr
  | XXH_unaligned, XXH_bigEndian => x ← XXH_read64 ptr; mret (XXH_swap64 x)
  | XXH_aligned, XXH_littleEndian => l ← load_bytes ptr 8; mret (le_val l)
  | XXH_aligned, XXH_bigEndian => l ← load_bytes ptr 8; mret (XXH_swap64 (le_val l))
  end.

Definition XXH_readLE64 (ptr : Z) (endian : XXH_endianness) : M Z :=
  XXH_readLE64_align ptr endian XXH_unaligned.

Definition XXH_readBE64 (ptr : Z) : M Z :=
  if XXH_isLittleEndian then x ← XXH_read64 ptr; mret (XXH_swap64 x) else XXH_read64 ptr.

Definition PRIME64_1 : Z := 11400714785074694791.
Definition PRIME64_2 : Z := 14029467366897019727.
Definition PRIME64_3 : Z := 1609587929392839161.
Definition PRIME64_4 : Z := 9650029242287828579.
Definition PRIME64_5 : Z := 2870177450012600261.

Definition XXH64_round (acc input : Z) : Z :=
  let acc := u64 (acc + u64 (input * PRIME64_2)) in
  let acc := XXH_rotl64 acc 31 in
  u64 (acc * PRIME64_1).

Definition XXH64_mergeRound (acc val : Z) : Z :=
  let val := XXH64_round 0 val in
  let acc := Z.lxor acc val in
  u64 (acc * PRIME64_1 + PRIME64_4).

Definition XXH64_avalanche (h64 : Z) : Z :=
  let h64 := Z.lxor h64 (Z.shiftr h64 33) in
  let h64 := u64 (h64 * PRIME64_2) in
  let h64 := Z.lxor h64 (Z.shiftr h64 29) in
  let h64 := u64 (h64 * PRIME64_3) in
  Z.lxor h64 (Z.shiftr h64 32).

Inductive PROCESS64 := PROCESS1_64 | PROCESS4_64 | PROCESS8_64.

Definition process64_size (o : PROCESS64) : Z :=
  match o with PROCESS1_64 => 1 | PROCESS4_64 => 4 | PROCESS8_64 => 8 end.

Definition process1_64 (h64 b : Z) : Z :=
  let h64 := Z.lxor h64 (u64 (b * PRIME64_5)) in
  u64 (XXH_rotl64 h64 11 * PRIME64_1).

Definition process4_64 (h64 w : Z) : Z :=
  let h64 := Z.lxor h64 (u64 (w * PRIME64_1)) in
  u64 (XXH_rotl64 h64 23 * PRIME64_2 + PRIME64_3).

Definition process8_64 (h64 w : Z) : Z :=
  let k1 := XXH64_round 0 w in
  let h64 := Z.lxor h64 k1 in
  u64 (XXH_rotl64 h64 27 * PRIME64_1 + PRIME64_4).

Definition process64 (endian : XXH_endianness) (align : XXH_alignment) (o : PROCESS64)
    (h64 p : Z) : M (Z * Z) :=
  match o with
  | PROCESS1_64 => b ← loadb p; mret (process1_64 h64 b, p + 1)
  | PROCESS4_64 => w ← XXH_readLE32_align p endian align; mret (process4_64 h64 w, p + 4)
  | PROCESS8_64 => w ← XXH_readLE64_align p endian align; mret (process8_64 h64 w, p + 8)
  end.

Definition finalize64_case (n : Z) : list PROCESS64 :=
  match n with
  | 24 => [PROCESS8_64; PROCESS8_64; PROCESS8_64]
  | 16 => [PROCESS8_64; PROCESS8_64]
  | 8 => [PROCESS8_64]
  | 28 => [PROCESS8_64; PROCESS8_64; PROCESS8_64; PROCESS4_64]
  | 20 => [PROCESS8_64; PROCESS8_64; PROCESS4_64]
  | 12 => [PROCESS8_64; PROCESS4_64]
  | 4 => [PROCESS4_64]
  | 25 => [PROCESS8_64; PROCESS8_64; PROCESS8_64; PROCESS1_64]
  | 17 => [PROCESS8_64; PROCESS8_64; PROCESS1_64]
  | 9 => [PROCESS8_64; PROCESS1_64]
  | 29 => [PROCESS8_64; PROCESS8_64; PROCESS8_64; PROCESS4_64; PROCESS1_64]
  | 21 => [PROCESS8_64; PROCESS8_64; PROCESS4_64; PROCESS1_64]
  | 13 => [PROCESS8_64; PROCESS4_64; PROCESS1_64]
  | 5 => [PROCESS4_64; PROCESS1_64]
  | 26 => [PROCESS8_64; PROCESS8_64; PROCESS8_64; PROCESS1_64; PROCESS1_64]
  | 18 => [PROCESS8_64; PROCESS8_64; PROCESS1_64; PROCESS1_64]
  | 10 => [PROCESS8_64; PROCESS1_64; PROCESS1_64]
  | 30 => [PROCESS8_64; PROCESS8_64; PROCESS8_64; PROCESS4_64; PROCESS1_64; PROCESS1_64]
  | 22 => [PROCESS8_64; PROCESS8_64; PROCESS4_64; PROCESS1_64; PROCESS1_64]
  | 14 => [PROCESS8_64; PROCESS4_64; PROCESS1_64; PROCESS1_64]
  | 6 => [PROCESS4_64; PROCESS1_64; PROCESS1_64]
  | 27 => [PROCESS8_64; PROCESS8_64; PROCESS8_64; PROCESS1_64; PROCESS1_64; PROCESS1_64]
  | 19 => [PROCESS8_64; PROCESS8_64; PROCESS1_64; PROCESS1_64; PROCESS1_64]
  | 11 => [PROCESS8_64; PROCESS1_64; PROCESS1_64; PROCESS1_64]
  | 31 => [PROCESS8_64; PROCESS8_64; PROCESS8_64; PROCESS4_64; PROCESS1_64; PROCESS1_64; PROCESS1_64]
  | 23 => [PROCESS8_64; PROCESS8_64; PROCESS4_64; PROCESS1_64; PROCESS1_64; PROCESS1_64]
  | 15 => [PROCESS8_64; PROCESS4_64; PROCESS1_64; PROCESS1_64; PROCESS1_64]
  | 7 => [PROCESS4_64; PROCESS1_64; PROCESS1_64; PROCESS1_64]
  | 3 => [PROCESS1_64; PROCESS1_64; PROCESS1_64]
  | 2 => [PROCESS1_64; PROCESS1_64]
  | 1 => [PROCESS1_64]
  | _ => []
  end.

Definition XXH64_finalize (h64 ptr len : Z) (endian : XXH_endianness) (align : XXH_alignment) :
    M Z :=
  h64 ← run_processes (process64 endian align) (finalize64_case (Z.land len 31)) h64 ptr;
  mret (XXH64_avalanche h64).

Definition XXH64_stripe (get64bits : Z -> M Z) (p : Z) (v : V4) : M V4 :=
  w1 ← get64bits p; let v1 := XXH64_round (acc1 v) w1 in
  w2 ← get64bits (p + 8); let v2 := XXH64_round (acc2 v) w2 in
  w3 ← get64bits (p + 16); let v3 := XXH64_round (acc3 v) w3 in
  w4 ← get64bits (p + 24); let v4 := XXH64_round (acc4 v) w4 in
  mret (mkV4 v1 v2 v3 v4).

Definition XXH64_init (seed : Z) : V4 :=
  mkV4 (u64 (seed + PRIME64_1 + PRIME64_2)) (u64 (seed + PRIME64_2)) (u64 (seed + 0))
       (u64 (seed - PRIME64_1)).

Definition XXH64_merge (v : V4) : Z :=
  let h64 := u64 (XXH_rotl64 (acc1 v) 1 + XXH_rotl64 (acc2 v) 7 + XXH_rotl64 (acc3 v) 12
                  + XXH_rotl64 (acc4 v) 18) in
  let h64 := XXH64_mergeRound h64 (acc1 v) in
  let h64 := XXH64_mergeRound h64 (acc2 v) in
  let h64 := XXH64_mergeRound h64 (acc3 v) in
  XXH64_mergeRound h64 (acc4 v).

Definition XXH64_endian_align (input len seed : Z) (endian : XXH_endianness)
    (align : XXH_alignment) : M Z :=
  let p := input in
  let bEnd := p + len in
  r ← (if 32 <=? len then
         let limit := bEnd - 32 in
         pv ← stripe_loop (XXH64_stripe (fun p => XXH_readLE64_align p endian align)) 32
                (fun p => p <=? limit) p bEnd (XXH64_init seed);
         mret (pv.1, XXH64_merge pv.2)
       else mret (p, u64 (seed + PRIME64_5)));
  let '(p, h64) := r in
  let h64 := u64 (h64 + len) in
  XXH64_finalize h64 p len endian align.

Definition XXH64 (input len seed : Z) : M Z :=
  match XXH_CPU_LITTLE_ENDIAN with
  | XXH_littleEndian => XXH64_endian_align input len seed XXH_littleEndian XXH_unaligned
  | XXH_bigEndian => XXH64_endian_align input len seed XXH_bigEndian XXH_unaligned
  end.

(** ** Hash streaming *)

(** [mem64] is the address of the 32-byte buffer. *)
Record XXH64_state_t := XXH64_state {
  total_len : Z;
  v_64 : V4;
  mem64 : Z;
  memsize_64 : Z }.

Definition XXH64_reset (statePtr : XXH64_state_t) (seed : Z) : M (XXH_errorcode * XXH64_state_t) :=
  memset (mem64 statePtr) 0 32;;
  mret (XXH_OK, XXH64_state 0 (XXH64_init seed) (mem64 statePtr) 0).

Definition XXH64_copyState (dstState srcState : XXH64_state_t) : M XXH64_state_t :=
  memcpy (mem64 dstState) (mem64 srcState) 32;;
  mret (XXH64_state (total_len srcState) (v_64 srcState) (mem64 dstState) (memsize_64 srcState)).

Definition XXH64_update_endian (state : XXH64_state_t) (input len : Z) (endian : XXH_endianness) :
    M (XXH_errorcode * XXH64_state_t) :=
  if input =? 0 then mret (XXH_ERROR, state) else
  let bEnd := input + len in
  let total := u64 (total_len state + len) in
  r ← absorb (XXH64_stripe (fun p => XXH_readLE64 p endian)) 32
        (fun p => p + 32 <=? bEnd) (fun p => p <=? bEnd - 32)
        (v_64 state) (mem64 state) (memsize_64 state) input len;
  mret (XXH_OK, XXH64_state total r.1 (mem64 state) r.2).

Definition XXH64_update (state_in : XXH64_state_t) (input len : Z) :
    M (XXH_errorcode * XXH64_state_t) :=
  match XXH_CPU_LITTLE_ENDIAN with
  | XXH_littleEndian => XXH64_update_endian state_in input len XXH_littleEndian
  | XXH_bigEndian => XXH64_update_endian state_in input len XXH_bigEndian
  end.

Definition XXH64_digest_endian (state : XXH64_state_t) (endian : XXH_endianness) : M Z :=
  let h64 :=
    if 32 <=? total_len state then XXH64_merge (v_64 state)
    else u64 (acc3 (v_64 state) + PRIME64_5) in
  let h64 := u64 (h64 + total_len state) in
  XXH64_finalize h64 (mem64 state) (total_len state) endian XXH_aligned.

Definition XXH64_digest (state_in : XXH64_state_t) : M Z :=
  match XXH_CPU_LITTLE_ENDIAN with
  | XXH_littleEndian => XXH64_digest_endian state_in XXH_littleEndian
  | XXH_bigEndian => XXH64_digest_endian state_in XXH_bigEndian
  end.

Definition XXH64_canonicalFromHash (dst hash : Z) : M unit :=
  let hash := if XXH_isLittleEndian then XXH_swap64 hash else hash in
  store_bytes dst (le_bytes 8 hash).

Definition XXH64_hashFromCanonical (src : Z) : M Z := XXH_readBE64 src.
