(* ===== verification/XxhashSpec.v ===== *)
(** XXH32 and XXH64 on byte lists as the algorithm defines them, and the proofs
    that the steps and the loops of lib/xxhash.c compute them. *)
From S2P Require Import Prelude.
From S2P Require Import Mem.
From S2P Require Import Xxhash.

(** * Stripes *)

(** The whole [k]-byte stripes of a list, and the bytes behind them. *)
Fixpoint split_stripes (fuel k : nat) (l : list Z) : list (list Z) * list Z :=
  match fuel with
  | O => ([], l)
  | S fuel =>
      if (k <=? length l)%nat
      then let '(ss, t) := split_stripes fuel k (drop k l) in (take k l :: ss, t)
      else ([], l)
  end.

Definition stripes (k : nat) (l : list Z) : list (list Z) * list Z :=
  split_stripes (length l) k l.

(** The decomposition that [stripes] computes. *)
Definition striped (k : nat) (l : list Z) (ss : list (list Z)) (t : list Z) : Prop :=
  l = concat ss ++ t /\ Forall (fun s => length s = k) ss /\ (length t < k)%nat.

Lemma split_stripes_spec fuel : forall k l,
  (0 < k)%nat -> (length l <= fuel)%nat ->
  striped k l (split_stripes fuel k l).1 (split_stripes fuel k l).2.
Proof.
  induction fuel as [|fuel IH]; intros k l Hk Hl; simpl.
  - unfold striped. simpl. by repeat split; [constructor|lia].
  - destruct (Nat.leb_spec k (length l)) as [Hle|Hlt]; [|by repeat split].
    specialize (IH k (drop k l) Hk). rewrite length_drop in IH.
    destruct (split_stripes fuel k (drop k l)) as [ss t]. simpl in *.
    destruct IH as (E & HF & Ht); [lia|]. repeat split; [|constructor|done]; try done.
    + simpl. rewrite <- app_assoc, <- E. by rewrite take_drop.
    + rewrite length_take. lia.
Qed.

Lemma stripes_striped k l : (0 < k)%nat -> striped k l (stripes k l).1 (stripes k l).2.
Proof. intros H. by apply split_stripes_spec. Qed.

Lemma length_concat_stripes k (ss : list (list Z)) :
  Forall (fun s => length s = k) ss -> length (concat ss) = (k * length ss)%nat.
Proof. induction 1 as [|s ss Hs _ IH]; simpl; [lia|]. rewrite length_app. lia. Qed.

(** There is only one such decomposition. *)
Lemma striped_unique k l ss t ss' t' :
  striped k l ss t -> striped k l ss' t' -> ss = ss' /\ t = t'.
Proof.
  intros (E & HF & Ht) (E' & HF' & Ht'). subst l.
  revert ss' E' HF'. induction HF as [|s ss Hs HF IH]; intros ss' E' HF'.
  - destruct HF' as [|s' ss' Hs' HF']; [done|]. simpl in E'.
    apply (f_equal length) in E'. rewrite !length_app in E'. lia.
  - destruct HF' as [|s' ss' Hs' HF'].
    + simpl in E'. apply (f_equal length) in E'. rewrite !length_app in E'. lia.
    + simpl in E'. rewrite <- !app_assoc in E'. apply app_inj_1 in E' as [-> E']; [|lia].
      destruct (IH _ E' HF') as [-> ->]. done.
Qed.

Lemma stripes_eq k l ss t : (0 < k)%nat -> striped k l ss t -> stripes k l = (ss, t).
Proof.
  intros Hk H. destruct (striped_unique _ _ _ _ _ _ H (stripes_striped k l Hk)) as [-> ->].
  by destruct (stripes k l).
Qed.

Lemma zlen_concat_stripes k (ss : list (list Z)) :
  Forall (fun s => length s = k) ss -> zlen (concat ss) = Z.of_nat k * zlen ss.
Proof. intros H. unfold zlen. rewrite (length_concat_stripes k) by done. lia. Qed.

Lemma striped_mod k l ss t :
  striped k l ss t -> zlen l mod Z.of_nat k = zlen t.
Proof.
  intros (-> & HF & Ht). rewrite zlen_app, (zlen_concat_stripes k) by done.
  unfold zlen. rewrite Z.add_comm, Z.mul_comm, Z.mod_add by lia. apply Z.mod_small. lia.
Qed.

(** * The hashes as the algorithm defines them

    The text of the xxHash specification, in the arithmetic of integers modulo
    [2 ^ 32] and [2 ^ 64], with its own constants and rotations; nothing of the
    model of lib/xxhash.c is used. *)
Module XxhRef.

(** [x <<< r] in words of [w] bits. *)
Definition rotl (w x r : Z) : Z := (x * 2 ^ r) mod 2 ^ w + x / 2 ^ (w - r).

(** The little-endian words of [n] bytes of a stripe. *)
Definition lanes (n : nat) (stripe : list Z) : list Z := map le_val (stripes n stripe).1.

Definition sum (l : list Z) : Z := foldr Z.add 0 l.

Definition P32_1 : Z := 0x9E3779B1.
Definition P32_2 : Z := 0x85EBCA77.
Definition P32_3 : Z := 0xC2B2AE3D.
Definition P32_4 : Z := 0x27D4EB2F.
Definition P32_5 : Z := 0x165667B1.

Definition init32 (seed : Z) : list Z :=
  map (fun x => x mod 2 ^ 32) [seed + P32_1 + P32_2; seed + P32_2; seed; seed - P32_1].

Definition round32 (acc lane : Z) : Z := (rotl 32 ((acc + lane * P32_2) mod 2 ^ 32) 13 * P32_1) mod 2 ^ 32.

Definition consume32 (accs stripe : list Z) : list Z := zip_with round32 accs (lanes 4 stripe).

Definition converge32 (accs : list Z) : Z := sum (zip_with (rotl 32) accs [1; 7; 12; 18]) mod 2 ^ 32.

Definition word32 (acc lane : Z) : Z := (rotl 32 ((acc + lane * P32_3) mod 2 ^ 32) 17 * P32_4) mod 2 ^ 32.
Definition byte32 (acc lane : Z) : Z := (rotl 32 ((acc + lane * P32_5) mod 2 ^ 32) 11 * P32_1) mod 2 ^ 32.

Definition final32 (acc : Z) : Z :=
  let acc := (Z.lxor acc (acc / 2 ^ 15) * P32_2) mod 2 ^ 32 in
  let acc := (Z.lxor acc (acc / 2 ^ 13) * P32_3) mod 2 ^ 32 in
  Z.lxor acc (acc / 2 ^ 16).

Definition P64_1 : Z := 0x9E3779B185EBCA87.
Definition P64_2 : Z := 0xC2B2AE3D27D4EB4F.
Definition P64_3 : Z := 0x165667B19E3779F9.
Definition P64_4 : Z := 0x85EBCA77C2B2AE63.
Definition P64_5 : Z := 0x27D4EB2F165667C5.

Definition init64 (seed : Z) : list Z :=
  map (fun x => x mod 2 ^ 64) [seed + P64_1 + P64_2; seed + P64_2; seed; seed - P64_1].

Definition round64 (acc lane : Z) : Z := (rotl 64 ((acc + lane * P64_2) mod 2 ^ 64) 31 * P64_1) mod 2 ^ 64.

Definition consume64 (accs stripe : list Z) : list Z := zip_with round64 accs (lanes 8 stripe).

Definition merge64 (acc accN : Z) : Z := (Z.lxor acc (round64 0 accN) * P64_1 + P64_4) mod 2 ^ 64.

Definition converge64 (accs : list Z) : Z :=
  foldl merge64 (sum (zip_with (rotl 64) accs [1; 7; 12; 18]) mod 2 ^ 64) accs.

Definition dword64 (acc lane : Z) : Z := (rotl 64 (Z.lxor acc (round64 0 lane)) 27 * P64_1 + P64_4) mod 2 ^ 64.
Definition word64 (acc lane : Z) : Z :=
  (rotl 64 (Z.lxor acc ((lane * P64_1) mod 2 ^ 64)) 23 * P64_2 + P64_3) mod 2 ^ 64.
Definition byte64 (acc lane : Z) : Z := (rotl 64 (Z.lxor acc ((lane * P64_5) mod 2 ^ 64)) 11 * P64_1) mod 2 ^ 64.

Definition final64 (acc : Z) : Z :=
  let acc := (Z.lxor acc (acc / 2 ^ 33) * P64_2) mod 2 ^ 64 in
  let acc := (Z.lxor acc (acc / 2 ^ 29) * P64_3) mod 2 ^ 64 in
  Z.lxor acc (acc / 2 ^ 32).
End XxhRef.

(** Stripes of four lanes, the length, whole words, single bytes, the final mix. *)
Definition xxh32 (seed : Z) (l : list Z) : Z :=
  let '(ss, t) := stripes 16 l in
  let acc := match ss with
             | [] => (seed + XxhRef.P32_5) mod 2 ^ 32
             | _ => XxhRef.converge32 (foldl XxhRef.consume32 (XxhRef.init32 seed) ss)
             end in
  let '(ws, bs) := stripes 4 t in
  let acc := foldl XxhRef.word32 ((acc + zlen l) mod 2 ^ 32) (map le_val ws) in
  XxhRef.final32 (foldl XxhRef.byte32 acc bs).

Definition xxh64 (seed : Z) (l : list Z) : Z :=
  let '(ss, t) := stripes 32 l in
  let acc := match ss with
             | [] => (seed + XxhRef.P64_5) mod 2 ^ 64
             | _ => XxhRef.converge64 (foldl XxhRef.consume64 (XxhRef.init64 seed) ss)
             end in
  let '(ds, t) := stripes 8 t in
  let '(ws, bs) := stripes 4 t in
  let acc := foldl XxhRef.dword64 ((acc + zlen l) mod 2 ^ 64) (map le_val ds) in
  XxhRef.final64 (foldl XxhRef.byte64 (foldl XxhRef.word64 acc (map le_val ws)) bs).

(** * The same with the steps of the code *)

Definition word (l : list Z) (i n : nat) : Z := le_val (take n (drop i l)).

Definition stripe32 (v : V4) (s : list Z) : V4 :=
  mkV4 (XXH32_round (acc1 v) (word s 0 4)) (XXH32_round (acc2 v) (word s 4 4))
       (XXH32_round (acc3 v) (word s 8 4)) (XXH32_round (acc4 v) (word s 12 4)).

Definition stripe64 (v : V4) (s : list Z) : V4 :=
  mkV4 (XXH64_round (acc1 v) (word s 0 8)) (XXH64_round (acc2 v) (word s 8 8))
       (XXH64_round (acc3 v) (word s 16 8)) (XXH64_round (acc4 v) (word s 24 8)).

(** The bytes behind the last stripe: whole words, then single bytes. *)
Definition tail32 (h : Z) (t : list Z) : Z :=
  let '(ws, bs) := stripes 4 t in
  foldl process1_32 (foldl (fun h w => process4_32 h (le_val w)) h ws) bs.

Definition tail64 (h : Z) (t : list Z) : Z :=
  let '(ds, t) := stripes 8 t in
  let '(ws, bs) := stripes 4 t in
  foldl process1_64 (foldl (fun h w => process4_64 h (le_val w))
    (foldl (fun h d => process8_64 h (le_val d)) h ds) ws) bs.

Definition hash32 (seed : Z) (l : list Z) : Z :=
  let '(ss, t) := stripes 16 l in
  let h := match ss with
           | [] => u32 (seed + PRIME32_5)
           | _ => XXH32_merge (foldl stripe32 (XXH32_init seed) ss)
           end in
  XXH32_avalanche (tail32 (u32 (h + zlen l)) t).

Definition hash64 (seed : Z) (l : list Z) : Z :=
  let '(ss, t) := stripes 32 l in
  let h := match ss with
           | [] => u64 (seed + PRIME64_5)
           | _ => XXH64_merge (foldl stripe64 (XXH64_init seed) ss)
           end in
  XXH64_avalanche (tail64 (u64 (h + zlen l)) t).

(** * The loops over stripes *)

(** [stripe] is the code that folds the [k] bytes at a pointer into the
    accumulators the way [f] does. *)
Definition stripe_ok (stripe : Z -> V4 -> M V4) (f : V4 -> list Z -> V4) (k : nat) : Prop :=
  forall p v s m Q, holds m p s -> length s = k -> Q (f v s) m -> wp (stripe p v) Q m.

Section Stripes.
Context (stripe : Z -> V4 -> M V4) (f : V4 -> list Z -> V4) (k : nat).
Context (Hk : (0 < k)%nat) (Hstripe : stripe_ok stripe f k).

(** The loop reads every whole stripe of [x] and stops behind the last one. *)
Lemma wp_stripe_loop again p v x ss t Q m :
  holds m p x -> striped k x ss t -> ss <> [] ->
  (forall q, again q = (q + Z.of_nat k <=? p + zlen x)) ->
  Q (p + zlen (concat ss), foldl f v ss) m ->
  wp (stripe_loop stripe (Z.of_nat k) again p (p + zlen x) v) Q m.
Proof.
  intros Hx (-> & HF & Ht) Hne Hag HQ. apply holds_app in Hx as [Hx _].
  set (x := concat ss ++ t) in *.
  apply (wp_loop (fun s m' => m' = m /\ exists s1 c s2, ss = s1 ++ c :: s2 /\
            s = (p + zlen (concat s1), foldl f v s1))
          (fun s => p + zlen x - s.1)).
  - intros [q w] m' (-> & s1 & c & s2 & E & [= -> ->]). simpl.
    assert (zlen x = zlen (concat s1) + Z.of_nat k + zlen (concat s2) + zlen t /\ length c = k)
      as [Ex Hc].
    { unfold x. rewrite E in HF. apply Forall_app in HF as [_ HF].
      apply Forall_cons_iff in HF as [Hc HF]. split; [|done].
      rewrite E, concat_app. simpl. unfold zlen. rewrite !length_app. lia. }
    pose proof (zlen_nonneg (concat s1)). pose proof (zlen_nonneg (concat s2)).
    split; [zl|]. apply wp_bind. apply (Hstripe _ _ c); [|done|].
    { rewrite E, concat_app in Hx. simpl in Hx. apply holds_app in Hx as [_ Hx].
      by apply holds_app in Hx as [Hx _]. }
    apply wp_ret. rewrite Hag.
    assert (p + zlen (concat s1) + Z.of_nat k = p + zlen (concat (s1 ++ [c]))) as Ep.
    { rewrite concat_app. simpl. rewrite app_nil_r. unfold zlen. rewrite length_app. lia. }
    assert (f (foldl f v s1) c = foldl f v (s1 ++ [c])) as Ef by (by rewrite foldl_app).
    rewrite Ep, Ef. zcase.
    + split; [|simpl; lia]. split; [done|]. destruct s2 as [|d s2].
      { exfalso. change (zlen (concat [])) with 0 in Ex. unfold zlen in *. lia. }
      exists (s1 ++ [c]), d, s2. split; [|done]. by rewrite E, <- app_assoc.
    + destruct s2 as [|d s2]; [by rewrite E in HQ|].
      rewrite E in HF. apply Forall_app in HF as [_ HF]. apply Forall_cons_iff in HF as [_ HF].
      apply Forall_cons_iff in HF as [Hd _]. simpl in Ex. rewrite zlen_app in Ex.
      unfold zlen in Ex. fold (zlen x) in Ex. unfold zlen in *. lia.
  - split; [done|]. destruct ss as [|c s2]; [done|]. exists [], c, s2. split; [done|].
    simpl. rewrite zlen_nil. f_equal; lia.
  - simpl. pose proof (zlen_nonneg x). lia.
Qed.

(** * Absorbing input *)

(** The accumulators and the buffer stand for the bytes [l] seen so far. *)
Definition buffered (init : V4) (m : mem) (l : list Z) (v : V4) (buf n : Z) : Prop :=
  mapped m buf (Z.of_nat k) /\
  exists ss t, striped k l ss t /\ v = foldl f init ss /\ n = zlen t /\ holds m buf t.

Lemma striped_app l ss x ss' t' :
  striped k l ss [] -> striped k x ss' t' -> striped k (l ++ x) (ss ++ ss') t'.
Proof.
  intros (-> & HF & _) (-> & HF' & Ht). split; [|split; [|done]].
  - by rewrite concat_app, app_nil_r, app_assoc.
  - by apply Forall_app.
Qed.

Lemma striped_complete l ss t x :
  striped k l ss t -> length (t ++ x) = k -> striped k (l ++ x) (ss ++ [t ++ x]) [].
Proof.
  intros (-> & HF & Ht) Hx. split; [|split; [|simpl; lia]].
  - rewrite concat_app. simpl. by rewrite !app_nil_r, app_assoc.
  - apply Forall_app. by split; [|constructor].
Qed.

(** Behind the filled buffer: whole stripes, then the rest. *)
Lemma wp_absorb_rest again enter init ss v x l p buf m Q :
  striped k l ss [] -> v = foldl f init ss -> holds m p x -> mapped m buf (Z.of_nat k) ->
  p + zlen x <= buf \/ buf + Z.of_nat k <= p -> Z.of_nat k < 2 ^ 32 ->
  (forall q, again q = (q + Z.of_nat k <=? p + zlen x)) ->
  (forall q, enter q = (q + Z.of_nat k <=? p + zlen x)) ->
  (forall v' n' m', buffered init m' (l ++ x) v' buf n' -> frame buf (buf + Z.of_nat k) m m' ->
     Q (v', n') m') ->
  wp (r ← (if enter p then stripe_loop stripe (Z.of_nat k) again p (p + zlen x) v
           else mret (p, v));
      let '(p', v) := r in
      memsize ← (if p' <? p + zlen x
                 then XXH_memcpy buf p' (p + zlen x - p');; mret (u32 (p + zlen x - p'))
                 else mret 0);
      mret (v, memsize)) Q m.
Proof.
  intros Hl -> Hx Hbuf Hdis Hk32 Hag Hen HQ.
  pose proof (stripes_striped k x Hk) as Hs. destruct (stripes k x) as [sx t] eqn:Est.
  simpl in Hs. pose proof Hs as (Ex & HF & Ht).
  pose proof (zlen_concat_stripes k sx HF) as Ec.
  assert (zlen x = zlen (concat sx) + zlen t) as El by (by rewrite Ex, zlen_app).
  apply wp_bind. eapply (wp_mono _ (fun r m' => m' = m /\
    r = (p + zlen (concat sx), foldl f init (ss ++ sx)))).
  { rewrite Hen, foldl_app. destruct sx as [|c sx].
    - simpl in *. change (zlen (@nil Z)) with 0 in *. destruct (Z.leb_spec (p + Z.of_nat k) (p + zlen x)).
      + unfold zlen in *. lia.
      + apply wp_ret. rewrite Z.add_0_r. done.
    - rewrite zlen_cons in Ec. destruct (Z.leb_spec (p + Z.of_nat k) (p + zlen x)); [|zl || nia].
      by apply (wp_stripe_loop _ _ _ _ (c :: sx) t). }
  intros r m' [-> ->]. apply wp_bind. rewrite El.
  replace (p + (zlen (concat sx) + zlen t) - (p + zlen (concat sx))) with (zlen t) by lia.
  rewrite Ex in Hx. apply holds_app in Hx as [_ Ht'].
  assert (striped k (l ++ x) (ss ++ sx) t) as Hlx by (by apply striped_app).
  assert (zlen t < Z.of_nat k) by (unfold zlen; lia).
  pose proof (zlen_nonneg t). pose proof (zlen_nonneg (concat sx)).
  zcase.
  - apply wp_bind. apply wp_memcpy; [lia|by apply holds_mapped| |lia|].
    { eapply mapped_sub; [done|lia..]. }
    intros m' Hc. apply wp_ret, wp_ret.
    pose proof (copied_frame _ _ _ _ _ Hc (holds_mapped _ _ _ Ht')) as Hf.
    apply HQ; [|eapply frame_weaken; [done|lia..]].
    split; [by eapply frame_mapped|]. exists (ss ++ sx), t.
    split; [done|]. split; [done|]. split; [by rewrite u32_small by lia|].
    by eapply copied_holds.
  - apply wp_ret, wp_ret. apply HQ; [|auto with lz4]. split; [done|].
    exists (ss ++ sx), t. split; [done|]. split; [done|].
    assert (t = []) as -> by (apply zlen_0_nil; lia). split; [done|apply holds_nil].
Qed.

Lemma buffered_app_short init m m' l v buf n x :
  buffered init m l v buf n -> n + zlen x < Z.of_nat k ->
  frame (buf + n) (buf + n + zlen x) m m' -> holds m' (buf + n) x ->
  buffered init m' (l ++ x) v buf (n + zlen x).
Proof.
  intros (Hm & ss & t & (-> & HF & Ht) & -> & -> & Hb) Hn Hf Hx.
  split; [by eapply frame_mapped|]. exists ss, (t ++ x). split.
  - split; [by rewrite app_assoc|]. split; [done|]. rewrite length_app. unfold zlen in *. lia.
  - split; [done|]. split; [by rewrite zlen_app|]. by eapply holds_snoc.
Qed.

Lemma wp_absorb again enter init m l v buf n x p Q :
  buffered init m l v buf n -> holds m p x ->
  p + zlen x <= buf \/ buf + Z.of_nat k <= p -> Z.of_nat k < 2 ^ 32 ->
  zlen x + Z.of_nat k < 2 ^ 64 ->
  (forall q, again q = (q + Z.of_nat k <=? p + zlen x)) ->
  (forall q, enter q = (q + Z.of_nat k <=? p + zlen x)) ->
  (forall v' n' m', buffered init m' (l ++ x) v' buf n' -> frame buf (buf + Z.of_nat k) m m' ->
     Q (v', n') m') ->
  wp (absorb stripe (Z.of_nat k) enter again v buf n p (zlen x)) Q m.
Proof.
  intros Hb Hx Hdis Hk32 H64 Hag Hen HQ. pose proof Hb as (Hm & ss & t & Hs & -> & -> & Ht).
  pose proof (zlen_nonneg x). pose proof (zlen_nonneg t).
  assert (zlen t < Z.of_nat k) by (destruct Hs as (_ & _ & Hs); unfold zlen; lia).
  unfold absorb. rewrite u64_small by lia. wif.
  { apply wp_bind. apply wp_memcpy; [lia|by apply holds_mapped| |lia|].
    { eapply mapped_sub; [done|lia..]. }
    intros m' Hc. pose proof (copied_frame _ _ _ _ _ Hc (holds_mapped _ _ _ Hx)) as Hf.
    apply wp_ret. rewrite (u32_small (zlen x)), u32_small by lia.
    apply HQ; [|eapply frame_weaken; [done|lia..]].
    eapply buffered_app_short; [done|lia|done|]. by eapply copied_holds. }
  apply wp_bind. destruct (Z.eqb_spec (zlen t) 0) as [E|E]; simpl.
  - apply wp_ret. rewrite E. assert (t = []) as -> by (apply zlen_0_nil; lia).
    by apply (wp_absorb_rest _ _ init ss _ x l).
  - destruct (list_split_at x (Z.of_nat k - zlen t)) as (x1 & x2 & -> & E1); [lia|].
    apply holds_app in Hx as [Hx1 Hx2]. rewrite zlen_app in *. pose proof (zlen_nonneg x2).
    apply wp_bind. rewrite <- E1. apply wp_memcpy; [lia|by apply holds_mapped| |lia|].
    { eapply mapped_sub; [done|lia..]. }
    intros m' Hc. pose proof (copied_frame _ _ _ _ _ Hc (holds_mapped _ _ _ Hx1)) as Hf.
    assert (holds m' buf (t ++ x1)) as Hbuf.
    { eapply holds_snoc; [exact Ht|exact Hf|]. by eapply copied_holds. }
    assert (length (t ++ x1) = k) as Hlen by (rewrite length_app; unfold zlen in *; lia).
    apply wp_bind. apply (Hstripe _ _ _ _ _ Hbuf Hlen). apply wp_ret. cbn beta iota.
    replace (p + (zlen x1 + zlen x2)) with (p + zlen x1 + zlen x2) in * by lia.
    apply (wp_absorb_rest _ _ init (ss ++ [t ++ x1]) _ x2 (l ++ x1)); try done.
    + by apply striped_complete.
    + by rewrite foldl_app.
    + eapply frame_holds; [done|lia|done].
    + by eapply frame_mapped.
    + lia.
    + intros v' n' m2 Hb' Hf'. rewrite <- app_assoc in Hb'. apply HQ; [done|].
      eapply frame_trans; eapply frame_weaken; try eassumption; lia.
Qed.
End Stripes.

(** * Words and stripes of the two hashes *)

Lemma holds_word m p s i n :
  holds m p s -> (i + n <= length s)%nat ->
  holds m (p + Z.of_nat i) (take n (drop i s)) /\ length (take n (drop i s)) = n.
Proof.
  intros H Hn. split.
  - rewrite <- (take_drop i s), <- (take_drop n (drop i s)) in H.
    apply holds_app in H as [_ H]. apply holds_app in H as [H _].
    rewrite zlen_take in H by lia. done.
  - rewrite length_take, length_drop. lia.
Qed.

Lemma wp_load_word p i n s Q m :
  holds m p s -> (i + n <= length s)%nat -> Q (word s i n) m ->
  wp (l ← load_bytes (p + Z.of_nat i) (Z.of_nat n); mret (le_val l)) Q m.
Proof.
  intros H Hn HQ. destruct (holds_word _ _ _ _ _ H Hn) as [Hh Hl]. apply wp_bind.
  rewrite <- Hl at 1. by apply wp_load_bytes.
Qed.

Lemma wp_readLE32 p i s Q m align :
  holds m p s -> (i + 4 <= length s)%nat -> Q (word s i 4) m ->
  wp (XXH_readLE32_align (p + Z.of_nat i) XXH_littleEndian align) Q m.
Proof. intros H Hn HQ. destruct align; by eapply (wp_load_word p i 4). Qed.

Lemma wp_readLE64 p i s Q m align :
  holds m p s -> (i + 8 <= length s)%nat -> Q (word s i 8) m ->
  wp (XXH_readLE64_align (p + Z.of_nat i) XXH_littleEndian align) Q m.
Proof. intros H Hn HQ. destruct align; by eapply (wp_load_word p i 8). Qed.

(** Reads one word of the stripe [s] at [p]. *)
Ltac read_word p lem i :=
  apply wp_bind; change i with (Z.of_nat (Z.to_nat i));
  eapply (lem p); [eassumption|cbn; lia|].

Lemma stripe32_ok align :
  stripe_ok (XXH32_stripe (fun p => XXH_readLE32_align p XXH_littleEndian align)) stripe32 16.
Proof.
  intros p v s m Q H Hl HQ. unfold XXH32_stripe.
  rewrite <- (Z.add_0_r p) at 1.
  read_word p wp_readLE32 0. read_word p wp_readLE32 4.
  read_word p wp_readLE32 8. read_word p wp_readLE32 12. exact HQ.
Qed.

Lemma stripe64_ok align :
  stripe_ok (XXH64_stripe (fun p => XXH_readLE64_align p XXH_littleEndian align)) stripe64 32.
Proof.
  intros p v s m Q H Hl HQ. unfold XXH64_stripe.
  rewrite <- (Z.add_0_r p) at 1.
  read_word p wp_readLE64 0. read_word p wp_readLE64 8.
  read_word p wp_readLE64 16. read_word p wp_readLE64 24. exact HQ.
Qed.

(** * The bytes behind the stripes *)

(** The effect of the macros on a list of bytes. *)
Fixpoint fold_processes {O} (size : O -> Z) (f : O -> Z -> list Z -> Z) (ops : list O) (h : Z)
    (l : list Z) : Z :=
  match ops with
  | [] => h
  | o :: ops =>
      let n := Z.to_nat (size o) in fold_processes size f ops (f o h (take n l)) (drop n l)
  end.

Definition process32_val (o : PROCESS32) (h : Z) (l : list Z) : Z :=
  match o with PROCESS1 => process1_32 h (hd 0 l) | PROCESS4 => process4_32 h (le_val l) end.

Definition process64_val (o : PROCESS64) (h : Z) (l : list Z) : Z :=
  match o with
  | PROCESS1_64 => process1_64 h (hd 0 l)
  | PROCESS4_64 => process4_64 h (le_val l)
  | PROCESS8_64 => process8_64 h (le_val l)
  end.

Definition ops_size {O} (size : O -> Z) (ops : list O) : Z := foldr (fun o n => size o + n) 0 ops.

Section Processes.
Context {O : Type} (size : O -> Z) (step : O -> Z -> Z -> M (Z * Z)) (f : O -> Z -> list Z -> Z).
Context (Hsize : forall o, 0 < size o).
Context (Hstep : forall o h p l m Q, holds m p l -> zlen l = size o ->
  Q (f o h l, p + size o) m -> wp (step o h p) Q m).

Lemma wp_run_processes ops : forall h p l m Q,
  holds m p l -> ops_size size ops = zlen l ->
  Q (fold_processes size f ops h l) m -> wp (run_processes step ops h p) Q m.
Proof.
  induction ops as [|o ops IH]; intros h p l m Q Hl Hn HQ; simpl in *; [by apply wp_ret|].
  pose proof (Hsize o) as Ho.
  assert (0 <= ops_size size ops) as H0.
  { clear IH Hn HQ. induction ops as [|o' ops IH]; simpl; [lia|]. pose proof (Hsize o').
    change (foldr _ 0 ops) with (ops_size size ops). lia. }
  change (foldr _ 0 ops) with (ops_size size ops) in Hn.
  assert (zlen (take (Z.to_nat (size o)) l) = size o) as Ht.
  { rewrite zlen_take; unfold zlen in *; lia. }
  rewrite <- (take_drop (Z.to_nat (size o)) l) in Hl. apply holds_app in Hl as [Hl1 Hl2].
  apply wp_bind. apply (Hstep _ _ _ _ _ _ Hl1 Ht). simpl. rewrite Ht in Hl2.
  eapply IH; [exact Hl2| |exact HQ]. unfold zlen in *. rewrite length_drop. lia.
Qed.
End Processes.

Lemma wp_process32 align o h p l m Q :
  holds m p l -> zlen l = process32_size o ->
  Q (process32_val o h l, p + process32_size o) m ->
  wp (process32 XXH_littleEndian align o h p) Q m.
Proof.
  intros H Hl HQ. destruct o; simpl in *; apply wp_bind.
  - destruct l as [|b [|? ?]]; [done| |rewrite !zlen_cons in Hl; zl].
    apply holds_cons in H as [H _]. by eapply wp_loadb.
  - rewrite <- (Z.add_0_r p). change 0 with (Z.of_nat 0).
    eapply wp_readLE32; [done|unfold zlen in Hl; lia|]. apply wp_ret.
    unfold word. rewrite drop_0, firstn_all2 by (unfold zlen in Hl; lia).
    by rewrite Z.add_0_r.
Qed.

Lemma wp_process64 align o h p l m Q :
  holds m p l -> zlen l = process64_size o ->
  Q (process64_val o h l, p + process64_size o) m ->
  wp (process64 XXH_littleEndian align o h p) Q m.
Proof.
  intros H Hl HQ. destruct o; simpl in *; apply wp_bind.
  - destruct l as [|b [|? ?]]; [done| |rewrite !zlen_cons in Hl; zl].
    apply holds_cons in H as [H _]. by eapply wp_loadb.
  - rewrite <- (Z.add_0_r p). change 0 with (Z.of_nat 0).
    eapply wp_readLE32; [done|unfold zlen in Hl; lia|]. apply wp_ret.
    unfold word. rewrite drop_0, firstn_all2 by (unfold zlen in Hl; lia).
    by rewrite Z.add_0_r.
  - rewrite <- (Z.add_0_r p). change 0 with (Z.of_nat 0).
    eapply wp_readLE64; [done|unfold zlen in Hl; lia|]. apply wp_ret.
    unfold word. rewrite drop_0, firstn_all2 by (unfold zlen in Hl; lia).
    by rewrite Z.add_0_r.
Qed.

#[local] Opaque process1_32 process4_32 process1_64 process4_64 process8_64 le_val.

(** Each [case] of the [switch] consumes exactly the bytes that are left, as
    the reference does. *)
Lemma finalize32_tail h t : (length t < 16)%nat ->
  ops_size process32_size (finalize32_case (zlen t)) = zlen t /\
  fold_processes process32_size process32_val (finalize32_case (zlen t)) h t = tail32 h t.
Proof.
  intros Hl. do 16 (destruct t as [|? t]; [split; reflexivity|]).
  exfalso. cbn [length] in Hl. lia.
Qed.

Lemma finalize64_tail h t : (length t < 32)%nat ->
  ops_size process64_size (finalize64_case (zlen t)) = zlen t /\
  fold_processes process64_size process64_val (finalize64_case (zlen t)) h t = tail64 h t.
Proof.
  intros Hl. do 32 (destruct t as [|? t]; [split; reflexivity|]).
  exfalso. cbn [length] in Hl. lia.
Qed.

#[local] Transparent process1_32 process4_32 process1_64 process4_64 process8_64 le_val.

Lemma wp_finalize32 align h p len t m Q :
  holds m p t -> (length t < 16)%nat -> len mod 16 = zlen t ->
  Q (XXH32_avalanche (tail32 h t)) m ->
  wp (XXH32_finalize h p len XXH_littleEndian align) Q m.
Proof.
  intros H Ht Hl HQ. destruct (finalize32_tail h t Ht) as [Hs Hf]. unfold XXH32_finalize.
  change 15 with (Z.ones 4). rewrite Z.land_ones by lia. change (2 ^ 4) with 16. rewrite Hl.
  apply wp_bind. eapply (wp_run_processes process32_size _ process32_val); [by intros []| |done..|].
  - intros. by eapply wp_process32.
  - rewrite Hf. by apply wp_ret.
Qed.

Lemma wp_finalize64 align h p len t m Q :
  holds m p t -> (length t < 32)%nat -> len mod 32 = zlen t ->
  Q (XXH64_avalanche (tail64 h t)) m ->
  wp (XXH64_finalize h p len XXH_littleEndian align) Q m.
Proof.
  intros H Ht Hl HQ. destruct (finalize64_tail h t Ht) as [Hs Hf]. unfold XXH64_finalize.
  change 31 with (Z.ones 5). rewrite Z.land_ones by lia. change (2 ^ 5) with 32. rewrite Hl.
  apply wp_bind. eapply (wp_run_processes process64_size _ process64_val); [by intros []| |done..|].
  - intros. by eapply wp_process64.
  - rewrite Hf. by apply wp_ret.
Qed.

(** * The one-shot hashes *)

Lemma u32_add_r a b : u32 (a + u32 b) = u32 (a + b).
Proof. apply Z.add_mod_idemp_r. lia. Qed.

Lemma u64_add_l a b : u64 (u64 a + b) = u64 (a + b).
Proof. apply Z.add_mod_idemp_l. lia. Qed.

Lemma u32_add_l a b : u32 (u32 a + b) = u32 (a + b).
Proof. apply Z.add_mod_idemp_l. lia. Qed.

(** Whether the input has a whole stripe. *)
Lemma striped_nil_short k l ss t :
  striped k l ss t -> (zlen l < Z.of_nat k <-> ss = []).
Proof.
  intros (-> & HF & Ht). split.
  - intros H. destruct HF as [|s ss Hs HF]; [done|]. simpl in H. unfold zlen in H.
    rewrite !length_app in H. lia.
  - intros ->. simpl. unfold zlen. lia.
Qed.

(** * The steps of the code compute those of the algorithm *)

Lemma rotl_eq w x r :
  0 <= x < 2 ^ w -> 0 <= r <= w ->
  Z.lor (Z.shiftl x r mod 2 ^ w) (Z.shiftr x (w - r)) = XxhRef.rotl w x r.
Proof.
  intros Hx Hr. unfold XxhRef.rotl. rewrite <- Z.shiftl_mul_pow2, <- Z.shiftr_div_pow2 by lia.
  assert (Z.land (Z.shiftl x r mod 2 ^ w) (Z.shiftr x (w - r)) = 0) as H0.
  { apply Z.bits_inj'. intros i Hi. rewrite Z.land_spec, Z.bits_0, Z.shiftr_spec by lia.
    destruct (Z.ltb_spec i w); [|by rewrite Z.mod_pow2_bits_high by lia].
    rewrite Z.mod_pow2_bits_low, Z.shiftl_spec by lia.
    destruct (Z.ltb_spec i r); [by rewrite (Z.testbit_neg_r x) by lia|].
    rewrite <- (Z.mod_small x (2 ^ w)) at 2 by lia. rewrite Z.mod_pow2_bits_high by lia. apply andb_false_r. }
  by rewrite <- Z.lxor_lor, Z.add_nocarry_lxor.
Qed.

Lemma rotl32_eq x r : 0 <= x < 2 ^ 32 -> 0 <= r <= 32 -> XXH_rotl32 x r = XxhRef.rotl 32 x r.
Proof. apply rotl_eq. Qed.
Lemma rotl64_eq x r : 0 <= x < 2 ^ 64 -> 0 <= r <= 64 -> XXH_rotl64 x r = XxhRef.rotl 64 x r.
Proof. apply rotl_eq. Qed.

Definition v4_list (v : V4) : list Z := [acc1 v; acc2 v; acc3 v; acc4 v].

(** The lanes of a stripe of four words. *)
Lemma lanes_word n s :
  (0 < n)%nat -> length s = (4 * n)%nat ->
  XxhRef.lanes n s = [word s 0 n; word s n n; word s (2 * n) n; word s (3 * n) n].
Proof.
  intros Hn Hs. unfold XxhRef.lanes, word.
  rewrite (stripes_eq n s [take n s; take n (drop n s); take n (drop (2 * n) s); take n (drop (3 * n) s)] []);
    [by rewrite drop_0|done|].
  split; [|split; [|simpl; lia]].
  - cbn [concat]. rewrite !app_nil_r. replace (3 * n)%nat with (n + n + n)%nat by lia.
    replace (2 * n)%nat with (n + n)%nat by lia.
    rewrite (take_ge (drop (n + n + n) s)) by (rewrite length_drop; lia).
    rewrite <- !(drop_drop s), !take_drop. done.
  - repeat constructor; rewrite length_take, ?length_drop; lia.
Qed.

(** The accumulators are words. *)
Definition v4_range (w : Z) (v : V4) : Prop := Forall (fun x => 0 <= x < 2 ^ w) (v4_list v).

(** [foldl] of steps that agree. *)
Lemma foldl_eq {A B C} (f : A -> B -> A) (g : C -> B -> C) (R : A -> C) (P : A -> Prop) (ok : B -> Prop) l : forall a,
  (forall a b, P a -> ok b -> R (f a b) = g (R a) b) -> (forall a b, P a -> P (f a b)) -> P a -> Forall ok l ->
  R (foldl f a l) = foldl g (R a) l /\ P (foldl f a l).
Proof.
  induction l as [|b l IH]; intros a Hs Hp Ha Hl; [done|]. apply Forall_cons_iff in Hl as [Hb Hl]. simpl.
  rewrite <- Hs by done. apply IH; auto.
Qed.

Lemma foldl_ext_fun {A B} (f g : A -> B -> A) l a : (forall a b, f a b = g a b) -> foldl f a l = foldl g a l.
Proof. intros H. revert a. induction l as [|b l IH]; intros a; [done|]. simpl. by rewrite H, IH. Qed.

Lemma foldl_map_arg {A B C} (f : A -> C -> A) (h : B -> C) l : forall a,
  foldl (fun a b => f a (h b)) a l = foldl f a (map h l).
Proof. induction l as [|b l IH]; intros a; [done|]. apply IH. Qed.

(** ** 32 bits *)

Lemma round32_eq acc x : XXH32_round acc x = XxhRef.round32 acc x.
Proof.
  unfold XXH32_round, XxhRef.round32. rewrite u32_add_r, rotl32_eq by (apply u32_range || lia). reflexivity.
Qed.
Lemma process4_32_eq h x : process4_32 h x = XxhRef.word32 h x.
Proof.
  unfold process4_32, XxhRef.word32. rewrite u32_add_r, rotl32_eq by (apply u32_range || lia). reflexivity.
Qed.
Lemma process1_32_eq h x : process1_32 h x = XxhRef.byte32 h x.
Proof.
  unfold process1_32, XxhRef.byte32. rewrite u32_add_r, rotl32_eq by (apply u32_range || lia). reflexivity.
Qed.

Lemma avalanche32_eq h : XXH32_avalanche h = XxhRef.final32 h.
Proof. unfold XXH32_avalanche, XxhRef.final32. rewrite !Z.shiftr_div_pow2 by lia. reflexivity. Qed.

Lemma init32_eq seed : v4_list (XXH32_init seed) = XxhRef.init32 seed.
Proof. unfold v4_list, XXH32_init. simpl. by rewrite Z.add_0_r. Qed.

Lemma stripe32_eq v s : length s = 16%nat -> v4_list (stripe32 v s) = XxhRef.consume32 (v4_list v) s.
Proof.
  intros Hs. unfold XxhRef.consume32. rewrite (lanes_word 4) by (lia || done).
  unfold v4_list, stripe32. cbn [acc1 acc2 acc3 acc4 zip_with]. by rewrite !round32_eq.
Qed.

Lemma init32_range seed : v4_range 32 (XXH32_init seed).
Proof. repeat constructor; apply u32_range. Qed.
Lemma stripe32_range v s : v4_range 32 (stripe32 v s).
Proof. repeat constructor; apply u32_range. Qed.

Lemma merge32_eq v : v4_range 32 v -> XXH32_merge v = XxhRef.converge32 (v4_list v).
Proof.
  intros (H1 & (H2 & (H3 & (H4 & _)%Forall_cons_iff)%Forall_cons_iff)%Forall_cons_iff)%Forall_cons_iff.
  unfold XXH32_merge, XxhRef.converge32, v4_list. rewrite !rotl32_eq by (done || lia). cbn [zip_with XxhRef.sum foldr].
  unfold u32. f_equal. lia.
Qed.

Lemma hash32_eq seed l : hash32 seed l = xxh32 seed l.
Proof.
  unfold hash32, xxh32, tail32. pose proof (stripes_striped 16 l ltac:(lia)) as (_ & HF & _).
  destruct (stripes 16 l) as [ss t], (stripes 4 t) as [ws bs]. cbn [fst] in HF.
  rewrite avalanche32_eq. f_equal. rewrite (foldl_ext_fun _ _ bs _ process1_32_eq). f_equal.
  rewrite (foldl_map_arg process4_32 le_val), (foldl_ext_fun _ _ _ _ process4_32_eq). f_equal. unfold u32 at 1. do 2 f_equal.
  destruct (foldl_eq stripe32 XxhRef.consume32 v4_list (v4_range 32) (fun s => length s = 16%nat) ss (XXH32_init seed))
    as [E R]; auto using stripe32_eq, stripe32_range, init32_range.
  rewrite init32_eq in E. destruct ss; [done|]. rewrite <- E. by apply merge32_eq.
Qed.

(** ** 64 bits *)

Lemma u64_add_r a b : u64 (a + u64 b) = u64 (a + b).
Proof. apply Z.add_mod_idemp_r. lia. Qed.

Lemma lxor_range n a b : 0 <= n -> 0 <= a < 2 ^ n -> 0 <= b < 2 ^ n -> 0 <= Z.lxor a b < 2 ^ n.
Proof.
  intros Hn Ha Hb. assert (Z.lxor a b = Z.lxor a b mod 2 ^ n) as ->; [|apply Z.mod_pos_bound; lia].
  apply Z.bits_inj'. intros j Hj. destruct (Z.lt_ge_cases j n).
  - by rewrite Z.mod_pow2_bits_low by lia.
  - rewrite Z.mod_pow2_bits_high, Z.lxor_spec by lia.
    rewrite <- (Z.mod_small a (2 ^ n)), <- (Z.mod_small b (2 ^ n)) by lia.
    by rewrite !Z.mod_pow2_bits_high by lia.
Qed.

Lemma round64_eq acc x : XXH64_round acc x = XxhRef.round64 acc x.
Proof.
  unfold XXH64_round, XxhRef.round64. rewrite u64_add_r, rotl64_eq by (apply u64_range || lia). reflexivity.
Qed.

Lemma process8_64_eq h x : 0 <= h < 2 ^ 64 -> process8_64 h x = XxhRef.dword64 h x.
Proof.
  intros Hh. unfold process8_64, XxhRef.dword64. rewrite rotl64_eq, round64_eq; [done| |lia].
  apply lxor_range; [lia|done|apply u64_range].
Qed.
Lemma process4_64_eq h x : 0 <= h < 2 ^ 64 -> process4_64 h x = XxhRef.word64 h x.
Proof.
  intros Hh. unfold process4_64, XxhRef.word64. rewrite rotl64_eq; [done| |lia].
  apply lxor_range; [lia|done|apply u64_range].
Qed.
Lemma process1_64_eq h x : 0 <= h < 2 ^ 64 -> process1_64 h x = XxhRef.byte64 h x.
Proof.
  intros Hh. unfold process1_64, XxhRef.byte64. rewrite rotl64_eq; [done| |lia].
  apply lxor_range; [lia|done|apply u64_range].
Qed.

Lemma avalanche64_eq h : XXH64_avalanche h = XxhRef.final64 h.
Proof. unfold XXH64_avalanche, XxhRef.final64. rewrite !Z.shiftr_div_pow2 by lia. reflexivity. Qed.

Lemma init64_eq seed : v4_list (XXH64_init seed) = XxhRef.init64 seed.
Proof. unfold v4_list, XXH64_init. simpl. by rewrite Z.add_0_r. Qed.

Lemma stripe64_eq v s : length s = 32%nat -> v4_list (stripe64 v s) = XxhRef.consume64 (v4_list v) s.
Proof.
  intros Hs. unfold XxhRef.consume64. rewrite (lanes_word 8) by (lia || done).
  unfold v4_list, stripe64. cbn [acc1 acc2 acc3 acc4 zip_with]. by rewrite !round64_eq.
Qed.

Lemma init64_range seed : v4_range 64 (XXH64_init seed).
Proof. repeat constructor; apply u64_range. Qed.
Lemma stripe64_range v s : v4_range 64 (stripe64 v s).
Proof. repeat constructor; apply u64_range. Qed.

Lemma mergeRound_eq acc x : XXH64_mergeRound acc x = XxhRef.merge64 acc x.
Proof. unfold XXH64_mergeRound, XxhRef.merge64. by rewrite round64_eq. Qed.

Lemma merge64_eq v : v4_range 64 v -> XXH64_merge v = XxhRef.converge64 (v4_list v).
Proof.
  intros (H1 & (H2 & (H3 & (H4 & _)%Forall_cons_iff)%Forall_cons_iff)%Forall_cons_iff)%Forall_cons_iff.
  unfold XXH64_merge, XxhRef.converge64, v4_list. rewrite !rotl64_eq by (done || lia). rewrite !mergeRound_eq.
  cbn [zip_with XxhRef.sum foldr foldl]. unfold u64. do 5 f_equal. lia.
Qed.

(** A tail: every step keeps a word. *)
Lemma foldl_word (f g : Z -> Z -> Z) l h :
  (forall h x, 0 <= h < 2 ^ 64 -> f h x = g h x) -> (forall h x, 0 <= f h x < 2 ^ 64) -> 0 <= h < 2 ^ 64 ->
  foldl f h l = foldl g h l /\ 0 <= foldl f h l < 2 ^ 64.
Proof.
  intros Hs Hr Hh. apply (foldl_eq f g (fun h => h) (fun h => 0 <= h < 2 ^ 64) (fun _ => True)); auto.
  by apply Forall_true.
Qed.

Lemma hash64_eq seed l : hash64 seed l = xxh64 seed l.
Proof.
  unfold hash64, xxh64, tail64. pose proof (stripes_striped 32 l ltac:(lia)) as (_ & HF & _).
  destruct (stripes 32 l) as [ss t], (stripes 8 t) as [ds t2], (stripes 4 t2) as [ws bs]. cbn [fst] in HF.
  rewrite avalanche64_eq, (foldl_map_arg process4_64 le_val), (foldl_map_arg process8_64 le_val). f_equal.
  set (h := u64 _).
  destruct (foldl_word process8_64 XxhRef.dword64 (map le_val ds) h process8_64_eq (fun _ _ => u64_range _)
    (u64_range _)) as [E1 R1].
  destruct (foldl_word process4_64 XxhRef.word64 (map le_val ws) _ process4_64_eq (fun _ _ => u64_range _) R1) as [E2 R2].
  destruct (foldl_word process1_64 XxhRef.byte64 bs _ process1_64_eq (fun _ _ => u64_range _) R2) as [E3 _].
  rewrite E3, E2, E1. do 3 f_equal. subst h. unfold u64 at 1. do 2 f_equal.
  destruct (foldl_eq stripe64 XxhRef.consume64 v4_list (v4_range 64) (fun s => length s = 32%nat) ss (XXH64_init seed))
    as [E R]; auto using stripe64_eq, stripe64_range, init64_range.
  rewrite init64_eq in E. destruct ss; [done|]. rewrite <- E. by apply merge64_eq.
Qed.

(** * One-shot hashing *)

Lemma wp_XXH32 p l seed m Q :
  holds m p l -> Q (xxh32 seed l) m -> wp (XXH32 p (zlen l) seed) Q m.
Proof.
  intros H HQ. change (XXH32 p (zlen l) seed) with
    (XXH32_endian_align p (zlen l) seed XXH_littleEndian XXH_unaligned).
  pose proof (stripes_striped 16 l ltac:(lia)) as Hs. rewrite <- hash32_eq in HQ. unfold hash32 in HQ.
  destruct (stripes 16 l) as [ss t]. simpl in Hs. pose proof Hs as (E & HF & Ht).
  pose proof (striped_nil_short _ _ _ _ Hs) as Hnil. pose proof (striped_mod _ _ _ _ Hs) as Hmod.
  change (Z.of_nat 16) with 16 in *.
  assert (holds m (p + zlen (concat ss)) t) as Ht' by (rewrite E in H; apply holds_app in H; tauto).
  unfold XXH32_endian_align. apply wp_bind.
  eapply (wp_mono _ (fun r m' => m' = m /\ r = (p + zlen (concat ss), match ss with
    | [] => u32 (seed + PRIME32_5)
    | _ => XXH32_merge (foldl stripe32 (XXH32_init seed) ss) end))).
  - wif.
    + assert (ss <> []) as Hne by (intros E0; apply Hnil in E0; lia).
      apply wp_bind. eapply (wp_stripe_loop _ stripe32 16); [lia|apply stripe32_ok|done..| |].
      * intros q. zcase; zcase; lia.
      * apply wp_ret. simpl. by destruct ss.
    + assert (ss = []) as -> by (apply Hnil; lia). apply wp_ret.
      change (zlen (concat [])) with 0. by rewrite Z.add_0_r.
  - intros r m' [-> ->]. rewrite u32_add_r. eapply wp_finalize32; [done|done| |done].
    change 15 with (Z.ones 4). rewrite Z.land_ones by lia. change (2 ^ 4) with 16.
    by rewrite Z.mod_mod.
Qed.

Lemma wp_XXH64 p l seed m Q :
  holds m p l -> Q (xxh64 seed l) m -> wp (XXH64 p (zlen l) seed) Q m.
Proof.
  intros H HQ. change (XXH64 p (zlen l) seed) with
    (XXH64_endian_align p (zlen l) seed XXH_littleEndian XXH_unaligned).
  pose proof (stripes_striped 32 l ltac:(lia)) as Hs. rewrite <- hash64_eq in HQ. unfold hash64 in HQ.
  destruct (stripes 32 l) as [ss t]. simpl in Hs. pose proof Hs as (E & HF & Ht).
  pose proof (striped_nil_short _ _ _ _ Hs) as Hnil. pose proof (striped_mod _ _ _ _ Hs) as Hmod.
  change (Z.of_nat 32) with 32 in *.
  assert (holds m (p + zlen (concat ss)) t) as Ht' by (rewrite E in H; apply holds_app in H; tauto).
  unfold XXH64_endian_align. apply wp_bind.
  eapply (wp_mono _ (fun r m' => m' = m /\ r = (p + zlen (concat ss), match ss with
    | [] => u64 (seed + PRIME64_5)
    | _ => XXH64_merge (foldl stripe64 (XXH64_init seed) ss) end))).
  - wif.
    + assert (ss <> []) as Hne by (intros E0; apply Hnil in E0; lia).
      apply wp_bind. eapply (wp_stripe_loop _ stripe64 32); [lia|apply stripe64_ok|done..| |].
      * intros q. zcase; zcase; lia.
      * apply wp_ret. simpl. by destruct ss.
    + assert (ss = []) as -> by (apply Hnil; lia). apply wp_ret.
      change (zlen (concat [])) with 0. by rewrite Z.add_0_r.
  - intros r m' [-> ->]. by eapply wp_finalize64.
Qed.
