(* ===== verification/XxhashStream.v ===== *)
(** Specifications of the streaming hashes of lib/xxhash.c: what a state stands
    for, and that reset, update and digest implement a hash of the bytes seen
    so far; byte swapping and the canonical representation. *)
From S2P Require Import Prelude.
From S2P Require Import Mem.
From S2P Require Import Xxhash.
From S2P Require Import XxhashSpec.

(** * A hash that absorbs its input in pieces

    What the users of a streaming hash rely on: the state lies at a buffer of
    [sh_size] bytes, [sh_rep] says which bytes a state has absorbed, and the
    digest is a function of the seed and of those bytes alone. *)
Class StreamHash (St : Type) := {
  sh_buffer : St -> Z;
  sh_size : Z;
  sh_limit : Z;
  sh_reset : St -> Z -> M (XXH_errorcode * St);
  sh_update : St -> Z -> Z -> M (XXH_errorcode * St);
  sh_digest : St -> M Z;
  sh_hash : Z -> list Z -> Z;
  sh_rep : Z -> mem -> St -> list Z -> Prop;
  sh_frame : forall seed m m' st l a b, sh_rep seed m st l -> frame a b m m' ->
    b <= sh_buffer st \/ sh_buffer st + sh_size <= a -> sh_rep seed m' st l;
  sh_wp_reset : forall seed m st, mapped m (sh_buffer st) sh_size ->
    wp (sh_reset st seed) (fun r m' => r.1 = XXH_OK /\ sh_buffer r.2 = sh_buffer st /\
      frame (sh_buffer st) (sh_buffer st + sh_size) m m' /\ sh_rep seed m' r.2 []) m;
  sh_wp_update : forall seed m st l p x, sh_rep seed m st l -> holds m p x -> p <> 0 ->
    p + zlen x <= sh_buffer st \/ sh_buffer st + sh_size <= p ->
    zlen l + zlen x < sh_limit ->
    wp (sh_update st p (zlen x)) (fun r m' => r.1 = XXH_OK /\ sh_buffer r.2 = sh_buffer st /\
      frame (sh_buffer st) (sh_buffer st + sh_size) m m' /\ sh_rep seed m' r.2 (l ++ x)) m;
  sh_wp_digest : forall seed m st l, sh_rep seed m st l ->
    wp (sh_digest st) (fun h m' => h = sh_hash seed l /\ m' = m) m }.

Lemma buffered_frame f k init m m' l v buf n a b :
  buffered f k init m l v buf n -> frame a b m m' -> b <= buf \/ buf + Z.of_nat k <= a ->
  buffered f k init m' l v buf n.
Proof.
  intros (Hm & ss & t & Hs & Hv & Hn & Ht) Hf Hd. split; [by eapply frame_mapped|].
  exists ss, t. split; [done|]. split; [done|]. split; [done|].
  eapply frame_holds; [done| |done]. destruct Hs as (_ & _ & Hs). unfold zlen. lia.
Qed.

Lemma buffered_nil f k init m buf :
  (0 < k)%nat -> mapped m buf (Z.of_nat k) -> buffered f k init m [] init buf 0.
Proof.
  intros Hk Hm. split; [done|]. exists [], []. split; [|by auto with lz4].
  by repeat split.
Qed.

Lemma wp_memset_zero p n m Q :
  0 <= n -> mapped m p n -> (forall m', frame p (p + n) m m' -> mapped m' p n -> Q tt m') ->
  wp (memset p 0 n) Q m.
Proof.
  intros Hn Hm HQ. assert (zlen (replicate (Z.to_nat n) (u8 0)) = n) as El.
  { rewrite zlen_replicate. lia. }
  apply wp_store_bytes_holds; rewrite El; [done|]. intros m' Hf _.
  apply HQ; [done|by eapply frame_mapped].
Qed.

(** * The 32-bit state *)

Definition XXH32_rep (seed : Z) (m : mem) (st : XXH32_state_t) (l : list Z) : Prop :=
  buffered stripe32 16 (XXH32_init seed) m l (v_32 st) (mem32 st) (memsize_32 st) /\
  total_len_32 st = u32 (zlen l) /\ large_len st = Z.b2z (16 <=? zlen l).

Lemma wp_XXH32_reset seed m st Q :
  mapped m (mem32 st) 16 ->
  (forall m', frame (mem32 st) (mem32 st + 16) m m' ->
     let st' := XXH32_state 0 0 (XXH32_init seed) (mem32 st) 0 in
     XXH32_rep seed m' st' [] -> Q (XXH_OK, st') m') ->
  wp (XXH32_reset st seed) Q m.
Proof.
  intros Hm HQ. apply wp_bind. apply wp_memset_zero; [lia|done|]. intros m' Hf Hm'.
  apply wp_ret, HQ; [done|]. split; [|done]. by apply buffered_nil; [lia|].
Qed.

Lemma large_len_or n k :
  0 <= n -> 0 <= k ->
  Z.lor (Z.b2z (16 <=? n)) (Z.b2z ((16 <=? k) || (16 <=? u32 (u32 n + u32 k)))) =
  Z.b2z (16 <=? n + k).
Proof.
  intros Hn Hk. destruct (Z.leb_spec 16 n); simpl.
  { rewrite (proj2 (Z.leb_le 16 (n + k))) by lia. by destruct (_ || _). }
  destruct (Z.leb_spec 16 k); simpl; [by rewrite (proj2 (Z.leb_le 16 (n + k))) by lia|].
  rewrite (u32_small n), (u32_small k), u32_small by lia. done.
Qed.

Lemma wp_XXH32_update seed m st l p x Q :
  XXH32_rep seed m st l -> holds m p x -> p <> 0 ->
  p + zlen x <= mem32 st \/ mem32 st + 16 <= p -> zlen x + 16 < 2 ^ 64 ->
  (forall st' m', mem32 st' = mem32 st -> frame (mem32 st) (mem32 st + 16) m m' ->
     XXH32_rep seed m' st' (l ++ x) -> Q (XXH_OK, st') m') ->
  wp (XXH32_update st p (zlen x)) Q m.
Proof.
  intros (Hb & Ht & Hg) Hx Hp Hd H64 HQ. change (XXH32_update st p (zlen x)) with
    (XXH32_update_endian st p (zlen x) XXH_littleEndian).
  unfold XXH32_update_endian. rewrite (proj2 (Z.eqb_neq p 0)) by done. apply wp_bind.
  apply (wp_absorb _ _ 16 ltac:(lia) (stripe32_ok XXH_unaligned) _ _ _ _ _ _ _ _ _ _ _ Hb Hx);
    [done|lia|done|intros q; repeat zcase; lia..|].
  intros v' n' m' Hb' Hf. apply wp_ret, HQ; [done|done|]. split; [done|]. cbn [total_len_32 large_len].
  rewrite Ht, Hg, zlen_app. split; [|apply large_len_or; apply zlen_nonneg].
  by rewrite u32_add_l, u32_add_r.
Qed.

Lemma wp_XXH32_digest seed m st l Q :
  XXH32_rep seed m st l -> Q (xxh32 seed l) m -> wp (XXH32_digest st) Q m.
Proof.
  intros ((Hm & ss & t & Hs & Hv & Hn & Ht) & Htot & Hlg) HQ.
  change (XXH32_digest st) with (XXH32_digest_endian st XXH_littleEndian).
  rewrite <- hash32_eq in HQ. unfold hash32 in HQ. rewrite (stripes_eq _ _ _ _ (Nat.lt_0_succ _) Hs) in HQ.
  unfold XXH32_digest_endian. eapply wp_finalize32; [done|by destruct Hs as (_ & _ & ?)| |].
  { rewrite Hn. apply Z.mod_small. destruct Hs as (_ & _ & Hs). unfold zlen. lia. }
  rewrite Htot, u32_add_r, Hlg, Hv. pose proof (striped_nil_short _ _ _ _ Hs) as Hnil.
  change (Z.of_nat 16) with 16 in Hnil. destruct (Z.leb_spec 16 (zlen l)); simpl.
  - destruct ss; [|done]. pose proof (proj2 Hnil eq_refl). lia.
  - rewrite (proj1 Hnil) in HQ |- * by lia. simpl.
    by rewrite (u32_add_l (seed + 0) PRIME32_5), Z.add_0_r.
Qed.

#[export] Instance XXH32_StreamHash : StreamHash XXH32_state_t.
Proof.
  refine {| sh_buffer := mem32; sh_size := 16; sh_limit := 2 ^ 64 - 16;
    sh_reset := XXH32_reset; sh_update := XXH32_update; sh_digest := XXH32_digest;
    sh_hash := xxh32; sh_rep := XXH32_rep |}.
  - intros seed m m' st l a b (Hb & H) Hf Hd. split; [|done]. by eapply buffered_frame.
  - intros seed m st Hm. by apply wp_XXH32_reset.
  - intros seed m st l p x Hr Hx Hp Hd Hlim. eapply wp_XXH32_update; try done.
    pose proof (zlen_nonneg l). lia.
  - intros seed m st l Hr. by eapply wp_XXH32_digest.
Defined.

(** * The 64-bit state *)

Definition XXH64_rep (seed : Z) (m : mem) (st : XXH64_state_t) (l : list Z) : Prop :=
  buffered stripe64 32 (XXH64_init seed) m l (v_64 st) (mem64 st) (memsize_64 st) /\
  total_len st = zlen l /\ zlen l < 2 ^ 64.

Lemma wp_XXH64_reset seed m st Q :
  mapped m (mem64 st) 32 ->
  (forall m', frame (mem64 st) (mem64 st + 32) m m' ->
     let st' := XXH64_state 0 (XXH64_init seed) (mem64 st) 0 in
     XXH64_rep seed m' st' [] -> Q (XXH_OK, st') m') ->
  wp (XXH64_reset st seed) Q m.
Proof.
  intros Hm HQ. apply wp_bind. apply wp_memset_zero; [lia|done|]. intros m' Hf Hm'.
  apply wp_ret, HQ; [done|]. split; [|done]. by apply buffered_nil; [lia|].
Qed.

Lemma wp_XXH64_update seed m st l p x Q :
  XXH64_rep seed m st l -> holds m p x -> p <> 0 ->
  p + zlen x <= mem64 st \/ mem64 st + 32 <= p -> zlen l + zlen x + 32 < 2 ^ 64 ->
  (forall st' m', mem64 st' = mem64 st -> frame (mem64 st) (mem64 st + 32) m m' ->
     XXH64_rep seed m' st' (l ++ x) -> Q (XXH_OK, st') m') ->
  wp (XXH64_update st p (zlen x)) Q m.
Proof.
  intros (Hb & Ht & Hg) Hx Hp Hd H64 HQ. change (XXH64_update st p (zlen x)) with
    (XXH64_update_endian st p (zlen x) XXH_littleEndian).
  pose proof (zlen_nonneg l). pose proof (zlen_nonneg x).
  unfold XXH64_update_endian. rewrite (proj2 (Z.eqb_neq p 0)) by done. apply wp_bind.
  apply (wp_absorb _ _ 32 ltac:(lia) (stripe64_ok XXH_unaligned) _ _ _ _ _ _ _ _ _ _ _ Hb Hx);
    [done|lia|lia|intros q; repeat zcase; lia..|].
  intros v' n' m' Hb' Hf. apply wp_ret, HQ; [done|done|]. split; [done|]. cbn [total_len].
  rewrite Ht, zlen_app, u64_small; lia.
Qed.

Lemma wp_XXH64_digest seed m st l Q :
  XXH64_rep seed m st l -> Q (xxh64 seed l) m -> wp (XXH64_digest st) Q m.
Proof.
  intros ((Hm & ss & t & Hs & Hv & Hn & Ht) & Htot & Hlg) HQ.
  change (XXH64_digest st) with (XXH64_digest_endian st XXH_littleEndian).
  rewrite <- hash64_eq in HQ. unfold hash64 in HQ. rewrite (stripes_eq _ _ _ _ (Nat.lt_0_succ _) Hs) in HQ.
  unfold XXH64_digest_endian. eapply wp_finalize64; [done|by destruct Hs as (_ & _ & ?)| |].
  { rewrite Htot. apply (striped_mod 32 l ss t Hs). }
  rewrite Htot, Hv. pose proof (striped_nil_short _ _ _ _ Hs) as Hnil.
  change (Z.of_nat 32) with 32 in Hnil. destruct (Z.leb_spec 32 (zlen l)); simpl.
  - destruct ss; [|done]. pose proof (proj2 Hnil eq_refl). lia.
  - rewrite (proj1 Hnil) in HQ |- * by lia. simpl.
    by rewrite (u64_add_l (seed + 0) PRIME64_5), Z.add_0_r.
Qed.

#[export] Instance XXH64_StreamHash : StreamHash XXH64_state_t.
Proof.
  refine {| sh_buffer := mem64; sh_size := 32; sh_limit := 2 ^ 64 - 32;
    sh_reset := XXH64_reset; sh_update := XXH64_update; sh_digest := XXH64_digest;
    sh_hash := xxh64; sh_rep := XXH64_rep |}.
  - intros seed m m' st l a b (Hb & H) Hf Hd. split; [|done]. by eapply buffered_frame.
  - intros seed m st Hm. by apply wp_XXH64_reset.
  - intros seed m st l p x Hr Hx Hp Hd Hlim. eapply wp_XXH64_update; try done. lia.
  - intros seed m st l Hr. by eapply wp_XXH64_digest.
Defined.

(** * Byte swapping *)

Lemma testbit_mask k i : 0 <= k -> 0 <= i ->
  Z.testbit (Z.shiftl 255 k) i = (k <=? i) && (i <? k + 8).
Proof.
  intros Hk Hi. rewrite Z.shiftl_spec by done. change 255 with (Z.ones 8).
  destruct (Z.leb_spec k i); [|by rewrite Z.testbit_neg_r by lia].
  destruct (Z.ltb_spec i (k + 8)).
  - by rewrite Z.ones_spec_low by lia.
  - by rewrite Z.ones_spec_high by lia.
Qed.

(** A byte of [x] picked out by shift and mask. *)
Definition byte_at (x i : Z) : Z := Z.shiftr x i mod 2 ^ 8.

Lemma testbit_byte_at x i k j : 0 <= i -> 0 <= k -> 0 <= j ->
  Z.testbit (Z.shiftl (byte_at x i) k) j = (k <=? j) && (j <? k + 8) && Z.testbit x (j - k + i).
Proof.
  intros Hi Hk Hj. unfold byte_at. rewrite Z.shiftl_spec by done.
  destruct (Z.leb_spec k j); [|by rewrite Z.testbit_neg_r by lia].
  destruct (Z.ltb_spec j (k + 8)); simpl.
  - rewrite Z.mod_pow2_bits_low, Z.shiftr_spec by lia. f_equal.
  - by rewrite Z.mod_pow2_bits_high by lia.
Qed.

Lemma land_shiftr_byte x s k : 0 <= s -> 0 <= k ->
  Z.land (Z.shiftr x s) (Z.shiftl 255 k) = Z.shiftl (byte_at x (k + s)) k.
Proof.
  intros Hs Hk. apply Z.bits_inj'. intros j Hj.
  rewrite Z.land_spec, testbit_mask, testbit_byte_at, Z.shiftr_spec by lia.
  replace (j - k + (k + s)) with (j + s) by lia. by rewrite andb_comm.
Qed.

Lemma land_shiftl_byte x s k w : 0 <= s <= k -> k + 8 <= w ->
  Z.land (Z.shiftl x s mod 2 ^ w) (Z.shiftl 255 k) = Z.shiftl (byte_at x (k - s)) k.
Proof.
  intros Hs Hk. apply Z.bits_inj'. intros j Hj.
  rewrite Z.land_spec, testbit_mask, testbit_byte_at by lia.
  replace (j - k + (k - s)) with (j - s) by lia. rewrite andb_comm.
  destruct (Z.leb_spec k j), (Z.ltb_spec j (k + 8)); simpl; try done.
  by rewrite Z.mod_pow2_bits_low, Z.shiftl_spec by lia.
Qed.

(** Joining a byte below the digits found so far. *)
Lemma lor_byte k' k X b : 0 <= b < 256 -> 0 <= k -> k' = k + 8 ->
  Z.lor (Z.shiftl X k') (Z.shiftl b k) = Z.shiftl (X * 256 + b) k.
Proof.
  intros Hb Hk ->. rewrite Z.add_comm, <- Z.shiftl_shiftl, <- Z.shiftl_lor by lia. f_equal.
  change 256 with (2 ^ 8). rewrite <- Z.shiftl_mul_pow2 by lia. symmetry.
  rewrite Z.add_nocarry_lxor, <- Z.lxor_lor; try done; apply Z.bits_inj'; intros j Hj;
    rewrite Z.land_spec, Z.bits_0, Z.shiftl_spec by done;
    (destruct (Z.lt_ge_cases j 8); [by rewrite Z.testbit_neg_r by lia|]);
    rewrite <- (Z.mod_small b (2 ^ 8)) by lia;
    by rewrite (Z.mod_pow2_bits_high b 8), andb_false_r by lia.
Qed.

Lemma byte_at_range x i : 0 <= byte_at x i < 256.
Proof. apply Z.mod_pos_bound. lia. Qed.

Lemma le_bytes_4 x : le_bytes 4 x = [byte_at x 0; byte_at x 8; byte_at x 16; byte_at x 24].
Proof.
  unfold byte_at. rewrite !Z.shiftr_div_pow2 by lia. change (2 ^ 0) with 1. rewrite Z.div_1_r.
  cbn [le_bytes]. rewrite !Z.div_div by lia. done.
Qed.

Lemma le_bytes_8 x : le_bytes 8 x =
  [byte_at x 0; byte_at x 8; byte_at x 16; byte_at x 24;
   byte_at x 32; byte_at x 40; byte_at x 48; byte_at x 56].
Proof.
  unfold byte_at. rewrite !Z.shiftr_div_pow2 by lia. change (2 ^ 0) with 1. rewrite Z.div_1_r.
  cbn [le_bytes]. rewrite !Z.div_div by lia. done.
Qed.

(** Both swaps reverse the bytes. *)
Ltac join_bytes ks :=
  lazymatch ks with
  | ?k' :: ?k :: ?rest =>
      rewrite (lor_byte k' k) by (apply byte_at_range || lia); join_bytes (k :: rest)
  | _ => rewrite Z.shiftl_0_r
  end.

Ltac eval_offsets :=
  repeat match goal with
  | |- context [byte_at ?x ?e] =>
      let v := eval compute in e in progress change (byte_at x e) with (byte_at x v)
  end.

Lemma swap32_rev x : XXH_swap32 x = le_val (rev (le_bytes 4 x)).
Proof.
  unfold XXH_swap32, u32. change 0xff000000 with (Z.shiftl 255 24).
  change 0x00ff0000 with (Z.shiftl 255 16). change 0x0000ff00 with (Z.shiftl 255 8).
  change 0x000000ff with (Z.shiftl 255 0).
  rewrite !land_shiftl_byte, !land_shiftr_byte by lia.
  join_bytes [24; 16; 8; 0]. rewrite le_bytes_4. cbn [rev app le_val]. eval_offsets. lia.
Qed.

Lemma swap64_rev x : XXH_swap64 x = le_val (rev (le_bytes 8 x)).
Proof.
  unfold XXH_swap64, u64. change 0xff00000000000000 with (Z.shiftl 255 56).
  change 0x00ff000000000000 with (Z.shiftl 255 48).
  change 0x0000ff0000000000 with (Z.shiftl 255 40).
  change 0x000000ff00000000 with (Z.shiftl 255 32).
  change 0x00000000ff000000 with (Z.shiftl 255 24).
  change 0x0000000000ff0000 with (Z.shiftl 255 16).
  change 0x000000000000ff00 with (Z.shiftl 255 8).
  change 0x00000000000000ff with (Z.shiftl 255 0).
  rewrite !land_shiftl_byte, !land_shiftr_byte by lia.
  join_bytes [56; 48; 40; 32; 24; 16; 8; 0].
  rewrite le_bytes_8. cbn [rev app le_val]. eval_offsets. lia.
Qed.

Lemma rev_bytes_ok l : bytes_ok l -> bytes_ok (rev l).
Proof. apply Forall_rev. Qed.

(** The [n] bytes of a value, most significant first. *)
Definition be_bytes (n : nat) (v : Z) : list Z := rev (le_bytes n v).

Lemma le_bytes_rev n v : le_bytes n (le_val (be_bytes n v)) = be_bytes n v.
Proof.
  rewrite <- (le_bytes_val (be_bytes n v)) at 2 by apply rev_bytes_ok, le_bytes_ok.
  unfold be_bytes. by rewrite length_rev, length_le_bytes.
Qed.

Lemma le_val_rev_rev n v : le_val (be_bytes n (le_val (be_bytes n v))) = v mod 256 ^ Z.of_nat n.
Proof. unfold be_bytes at 1. rewrite le_bytes_rev. unfold be_bytes. rewrite rev_involutive. apply le_val_bytes. Qed.

Lemma zlen_be_bytes n v : zlen (be_bytes n v) = Z.of_nat n.
Proof. unfold be_bytes, zlen. by rewrite length_rev, length_le_bytes. Qed.

Lemma wp_canonical32 p h m Q :
  mapped m p 4 ->
  (forall m', frame p (p + 4) m m' -> holds m' p (be_bytes 4 h) -> Q tt m') ->
  wp (XXH32_canonicalFromHash p h) Q m.
Proof.
  intros Hm HQ. unfold XXH32_canonicalFromHash. cbn [XXH_isLittleEndian]. rewrite swap32_rev.
  fold (be_bytes 4 h). rewrite le_bytes_rev.
  apply wp_store_bytes_holds; rewrite zlen_be_bytes; done.
Qed.

Lemma wp_canonical64 p h m Q :
  mapped m p 8 ->
  (forall m', frame p (p + 8) m m' -> holds m' p (be_bytes 8 h) -> Q tt m') ->
  wp (XXH64_canonicalFromHash p h) Q m.
Proof.
  intros Hm HQ. unfold XXH64_canonicalFromHash. cbn [XXH_isLittleEndian]. rewrite swap64_rev.
  fold (be_bytes 8 h). rewrite le_bytes_rev.
  apply wp_store_bytes_holds; rewrite zlen_be_bytes; done.
Qed.

Lemma wp_fromCanonical32 p h m Q :
  0 <= h < 2 ^ 32 -> holds m p (be_bytes 4 h) -> Q h m -> wp (XXH32_hashFromCanonical p) Q m.
Proof.
  intros Hh H HQ. apply wp_bind, wp_bind. change 4 with (Z.of_nat 4).
  rewrite <- (zlen_be_bytes 4 h). apply wp_load_bytes; [done|]. apply wp_ret, wp_ret.
  rewrite swap32_rev. fold (be_bytes 4 (le_val (be_bytes 4 h))).
  rewrite le_val_rev_rev, Z.mod_small; [done|exact Hh].
Qed.

Lemma wp_fromCanonical64 p h m Q :
  0 <= h < 2 ^ 64 -> holds m p (be_bytes 8 h) -> Q h m -> wp (XXH64_hashFromCanonical p) Q m.
Proof.
  intros Hh H HQ. apply wp_bind, wp_bind. change 8 with (Z.of_nat 8).
  rewrite <- (zlen_be_bytes 8 h). apply wp_load_bytes; [done|]. apply wp_ret, wp_ret.
  rewrite swap64_rev. fold (be_bytes 8 (le_val (be_bytes 8 h))).
  rewrite le_val_rev_rev, Z.mod_small; [done|exact Hh].
Qed.

(** * Ranges *)

Lemma shiftr_width n a k : 0 <= k -> 0 <= a < 2 ^ n -> 0 <= Z.shiftr a k < 2 ^ n.
Proof.
  intros Hk Ha. rewrite Z.shiftr_div_pow2 by done.
  split; [apply Z.div_pos; lia|]. apply (Z.le_lt_trans _ a); [|lia].
  apply Z.div_le_upper_bound; nia.
Qed.

Lemma avalanche32_range h : 0 <= XXH32_avalanche h < 2 ^ 32.
Proof. apply lxor_range; [lia|apply u32_range|]. apply shiftr_width; [lia|apply u32_range]. Qed.

Lemma avalanche64_range h : 0 <= XXH64_avalanche h < 2 ^ 64.
Proof. apply lxor_range; [lia|apply u64_range|]. apply shiftr_width; [lia|apply u64_range]. Qed.

Lemma xxh32_range seed l : 0 <= xxh32 seed l < 2 ^ 32.
Proof. rewrite <- hash32_eq. unfold hash32. destruct (stripes 16 l). apply avalanche32_range. Qed.

(** A checksum read back. *)
Lemma le_val_xxh32 seed l : le_val (le_bytes 4 (xxh32 seed l)) = xxh32 seed l.
Proof. rewrite le_val_bytes. apply Z.mod_small, xxh32_range. Qed.

Lemma xxh64_range seed l : 0 <= xxh64 seed l < 2 ^ 64.
Proof. rewrite <- hash64_eq. unfold hash64. destruct (stripes 32 l). apply avalanche64_range. Qed.

(** * Hashing in pieces

    A client resets a state, updates it with pieces of input (a pointer and a
    length each) and takes the digest. *)
Section Pieces.
Context {St : Type} `{StreamHash St}.

Fixpoint update_pieces (st : St) (pieces : list (Z * Z)) : M St :=
  match pieces with
  | [] => mret st
  | (p, n) :: pieces => r ← sh_update st p n; update_pieces r.2 pieces
  end.

Definition hash_pieces (st : St) (seed : Z) (pieces : list (Z * Z)) : M Z :=
  r ← sh_reset st seed; st ← update_pieces r.2 pieces; sh_digest st.

(** Where the pieces lie, and what they hold. *)
Definition pieces_hold (m : mem) (st : St) (pieces : list (Z * Z)) (xs : list (list Z)) : Prop :=
  Forall2 (fun q x => q.2 = zlen x /\ holds m q.1 x /\ q.1 <> 0 /\
    (q.1 + zlen x <= sh_buffer st \/ sh_buffer st + sh_size <= q.1)) pieces xs.

Lemma pieces_hold_frame m m' st st' pieces xs :
  pieces_hold m st pieces xs -> sh_buffer st' = sh_buffer st ->
  frame (sh_buffer st) (sh_buffer st + sh_size) m m' -> pieces_hold m' st' pieces xs.
Proof.
  intros HF Hb Hf. eapply Forall2_impl; [|exact HF]. intros [p n] x (Hn & Hx & Hp & Hd).
  rewrite Hb. split; [done|]. split; [|done]. eapply frame_holds; [done|lia|done].
Qed.

Lemma wp_update_pieces seed pieces : forall xs m st l Q,
  sh_rep seed m st l -> pieces_hold m st pieces xs -> zlen l + zlen (concat xs) < sh_limit ->
  (forall st' m', sh_buffer st' = sh_buffer st ->
     frame (sh_buffer st) (sh_buffer st + sh_size) m m' ->
     sh_rep seed m' st' (l ++ concat xs) -> Q st' m') ->
  wp (update_pieces st pieces) Q m.
Proof.
  induction pieces as [|[p n] pieces IH]; intros xs m st l Q Hr HF Hlim HQ;
    inversion HF as [|? x ? xs' (Hn & Hx & Hp & Hd) HF' E1 E2]; subst; simpl in *.
  - apply wp_ret, HQ; [done|apply frame_refl|]. by rewrite app_nil_r.
  - rewrite zlen_app in Hlim. pose proof (zlen_nonneg (concat xs')).
    rewrite Hn. apply wp_bind.
    eapply wp_mono; [eapply (sh_wp_update seed m st l); try done; lia|].
    intros [e st'] m' (_ & Hb & Hf & Hr'). simpl in *.
    apply (IH xs' m' st' (l ++ x)); [done| |rewrite zlen_app; lia|].
    + by eapply pieces_hold_frame.
    + intros st2 m2 Hb2 Hf2 Hr2. rewrite Hb in *. apply HQ; [done| |by rewrite app_assoc].
      by eapply frame_trans.
Qed.

Lemma wp_hash_pieces st seed pieces xs m Q :
  mapped m (sh_buffer st) sh_size -> pieces_hold m st pieces xs -> zlen (concat xs) < sh_limit ->
  (forall m', frame (sh_buffer st) (sh_buffer st + sh_size) m m' ->
     Q (sh_hash seed (concat xs)) m') ->
  wp (hash_pieces st seed pieces) Q m.
Proof.
  intros Hm HF Hlim HQ. apply wp_bind. eapply wp_mono; [by apply sh_wp_reset|].
  intros [e st1] m1 (_ & Hb & Hf & Hr). simpl in *. apply wp_bind.
  eapply (wp_update_pieces seed pieces xs m1 st1 []); [done| | |].
  - by eapply pieces_hold_frame.
  - by rewrite zlen_nil.
  - intros st2 m2 Hb2 Hf2 Hr2. eapply wp_mono; [by apply (sh_wp_digest seed)|].
    intros h m' [-> ->]. apply HQ. rewrite Hb in Hf2. by eapply frame_trans.
Qed.
End Pieces.
