(* ===== verification/XxhashTheorems.v ===== *)
(** The properties of the hashes of lib/xxhash.c. *)
From S2P Require Import Prelude.
From S2P Require Import Mem.
From S2P Require Import Xxhash.
From S2P Require Import XxhashSpec.
From S2P Require Import XxhashStream.

Definition abc : list Z := [97; 98; 99].
Definition bytes70 : list Z := map Z.of_nat (seq 0 70).
Definition hash_mem : mem := mem_of [(100, bytes70); (300, replicate 32 7)].

(** C32.  [XXH32] and [XXH64] read exactly the given range, change no memory,
    and return the XXH32 and XXH64 of its bytes: [xxh32] and [xxh64] write the
    arithmetic of the algorithm out (its primes, rotations and mixing steps
    modulo [2 ^ 32] and [2 ^ 64]) and use nothing of the code's definitions.  The
    results are a 32-bit and a 64-bit value. *)
Theorem XXH_oneshot_spec p l seed m :
  holds m p l ->
  wp (XXH32 p (zlen l) seed) (fun h m' => m' = m /\ h = xxh32 seed l /\ 0 <= h < 2 ^ 32) m /\
  wp (XXH64 p (zlen l) seed) (fun h m' => m' = m /\ h = xxh64 seed l /\ 0 <= h < 2 ^ 64) m.
Proof.
  intros H. split.
  - apply wp_XXH32; [done|]. split; [done|]. split; [done|apply xxh32_range].
  - apply wp_XXH64; [done|]. split; [done|]. split; [done|apply xxh64_range].
Qed.

(** The published values for the string "abc", and an input with whole stripes,
    words and single bytes behind them. *)
Lemma XXH_oneshot_witness :
  xxh32 0 abc = 0x32D153FF /\ xxh64 0 abc = 0x44BC2CF5AD770999 /\
  wp (XXH32 8 3 0) (fun h m' => m' = mem_of [(8, abc)] /\ h = xxh32 0 abc /\ 0 <= h < 2 ^ 32)
    (mem_of [(8, abc)]) /\
  wp (XXH64 100 70 5) (fun h m' => m' = hash_mem /\ h = xxh64 5 bytes70 /\ 0 <= h < 2 ^ 64) hash_mem.
Proof.
  split; [vm_compute; reflexivity|]. split; [vm_compute; reflexivity|]. split.
  - apply (XXH_oneshot_spec 8 abc 0). eval_decide.
  - apply (XXH_oneshot_spec 100 bytes70 5). eval_decide.
Defined.

(** C33.  Hashing in pieces: a state that is reset and then updated with any
    sequence of pieces has as its [XXH32_digest] the XXH32 of the concatenation
    of the pieces, however the input was cut; only the 16-byte buffer of the
    state is written. *)
Theorem XXH32_streaming st seed pieces xs m :
  mapped m (mem32 st) 16 -> pieces_hold m st pieces xs -> zlen (concat xs) < 2 ^ 64 - 16 ->
  wp (hash_pieces (H := XXH32_StreamHash) st seed pieces)
     (fun h m' => h = xxh32 seed (concat xs) /\ frame (mem32 st) (mem32 st + 16) m m') m.
Proof. intros Hm HF Hl. by apply (wp_hash_pieces st seed pieces xs). Qed.

Lemma XXH32_streaming_witness :
  wp (hash_pieces (H := XXH32_StreamHash) (XXH32_state 0 0 (mkV4 0 0 0 0) 300 0) 5
        [(100, 3); (103, 40); (143, 27)])
     (fun h m' => h = xxh32 5 (concat [take 3 bytes70; take 40 (drop 3 bytes70); drop 43 bytes70])
        /\ frame 300 (300 + 16) hash_mem m') hash_mem.
Proof.
  apply (XXH32_streaming (XXH32_state 0 0 (mkV4 0 0 0 0) 300 0)).
  - eval_decide.
  - repeat constructor; try eval_decide; cbn; vm_compute; lia.
  - vm_compute. reflexivity.
Defined.

(** C34.  The streaming interface of the 64-bit hash: a reset, any sequence of
    updates and a digest compute the XXH64 of the concatenated input, however it is
    cut, as long as the total length fits the 64-bit counter; only the 32-byte
    buffer of the state is written. *)
Theorem XXH64_streaming st seed pieces xs m :
  mapped m (mem64 st) 32 -> pieces_hold m st pieces xs -> zlen (concat xs) < 2 ^ 64 - 32 ->
  wp (hash_pieces (H := XXH64_StreamHash) st seed pieces)
     (fun h m' => h = xxh64 seed (concat xs) /\ frame (mem64 st) (mem64 st + 32) m m') m.
Proof. intros Hm HF Hl. by apply (wp_hash_pieces st seed pieces xs). Qed.

Lemma XXH64_streaming_witness :
  wp (hash_pieces (H := XXH64_StreamHash) (XXH64_state 0 (mkV4 0 0 0 0) 300 0) 5
        [(100, 3); (103, 40); (143, 27)])
     (fun h m' => h = xxh64 5 (concat [take 3 bytes70; take 40 (drop 3 bytes70); drop 43 bytes70])
        /\ frame 300 (300 + 32) hash_mem m') hash_mem.
Proof.
  apply (XXH64_streaming (XXH64_state 0 (mkV4 0 0 0 0) 300 0)).
  - eval_decide.
  - repeat constructor; try eval_decide; cbn; vm_compute; lia.
  - vm_compute. reflexivity.
Defined.

(** The canonical representation is big-endian, and reading it back gives
    the hash: [hashFromCanonical] after [canonicalFromHash], for both widths. *)
Theorem XXH_canonical_roundtrip p m :
  mapped m p 8 ->
  (forall h, 0 <= h < 2 ^ 32 ->
     wp (XXH32_canonicalFromHash p h;; XXH32_hashFromCanonical p)
        (fun h' m' => h' = h /\ holds m' p (be_bytes 4 h) /\ frame p (p + 4) m m') m) /\
  (forall h, 0 <= h < 2 ^ 64 ->
     wp (XXH64_canonicalFromHash p h;; XXH64_hashFromCanonical p)
        (fun h' m' => h' = h /\ holds m' p (be_bytes 8 h) /\ frame p (p + 8) m m') m).
Proof.
  intros Hm. split; intros h Hh; apply wp_bind.
  - apply wp_canonical32; [by eapply mapped_sub; [done|lia..]|].
    intros m' Hf Hb. by eapply wp_fromCanonical32.
  - apply wp_canonical64; [done|]. intros m' Hf Hb. by eapply wp_fromCanonical64.
Qed.

Lemma XXH_canonical_witness :
  be_bytes 4 0x32D153FF = [0x32; 0xD1; 0x53; 0xFF] /\
  wp (XXH32_canonicalFromHash 100 0x32D153FF;; XXH32_hashFromCanonical 100)
     (fun h' m' => h' = 0x32D153FF /\ holds m' 100 (be_bytes 4 0x32D153FF) /\
        frame 100 (100 + 4) hash_mem m') hash_mem.
Proof.
  split; [vm_compute; reflexivity|].
  refine (proj1 (XXH_canonical_roundtrip 100 hash_mem _) 0x32D153FF _); [eval_decide|lia].
Defined.
