(* ===== verification/BlockFormat.v ===== *)
(** The LZ4 block format of doc/lz4_Block_format.md: sequences, their byte
    encoding and the bytes they stand for.  It is the abstract specification
    that the block decoders and encoders of lib/lz4.c are proved against. *)
From S2P Require Import Prelude.

(** * Sequences and blocks *)

(** Literals followed by a match: copy [s_mlen] bytes that start [s_off] bytes
    back. *)
Record seq := Seq { s_lits : list Z; s_off : Z; s_mlen : Z }.

(** A block: sequences and the final run of literals.  [b_nib] is the low half
    of the last token, which has no meaning. *)
Record block := Block { b_seqs : list seq; b_last : list Z; b_nib : Z }.

Definition seq_wf (s : seq) : Prop :=
  bytes_ok (s_lits s) /\ 0 <= s_off s < 65536 /\ 4 <= s_mlen s.

Definition block_wf (b : block) : Prop :=
  Forall seq_wf (b_seqs b) /\ bytes_ok (b_last b) /\ 0 <= b_nib b < 16.

(** End of block conditions 2 and 3: when there is a match, the last 5 bytes
    are literals and the last match starts 12 bytes or more before the end. *)
Definition end_ok (seqs : list seq) (lst : list Z) : Prop :=
  match list.last seqs with
  | None => True
  | Some s => 5 <= zlen lst /\ 12 <= s_mlen s + zlen lst
  end.

(** * Encoding *)

(** The bytes that add [n] to a length field: as many 255 as needed, then the
    rest. *)
Definition ext_bytes (n : Z) : list Z :=
  replicate (Z.to_nat (n / 255)) 255 ++ [n mod 255].

Definition nibble (n : Z) : Z := Z.min n 15.

Definition len_ext (n : Z) : list Z :=
  if n <? 15 then [] else ext_bytes (n - 15).

Definition enc_seq (s : seq) : list Z :=
  [16 * nibble (zlen (s_lits s)) + nibble (s_mlen s - 4)] ++
  len_ext (zlen (s_lits s)) ++ s_lits s ++
  [s_off s mod 256; s_off s / 256] ++
  len_ext (s_mlen s - 4).

Definition enc_last (lits : list Z) (nib : Z) : list Z :=
  [16 * nibble (zlen lits) + nib] ++ len_ext (zlen lits) ++ lits.

Fixpoint enc_seqs (l : list seq) : list Z :=
  match l with [] => [] | s :: l => enc_seq s ++ enc_seqs l end.

Definition enc_block (b : block) : list Z :=
  enc_seqs (b_seqs b) ++ enc_last (b_last b) (b_nib b).

(** * Meaning *)

(** The byte a match with offset [off] appends to the history [h]; offset 0,
    which the format calls invalid, stands for zero bytes. *)
Definition match_byte (h : list Z) (off : Z) : Z :=
  if off =? 0 then 0 else default 0 (h !! Z.to_nat (zlen h - off)).

Fixpoint copy_match (h : list Z) (off : Z) (n : nat) : list Z :=
  match n with
  | O => h
  | S n => copy_match (h ++ [match_byte h off]) off n
  end.

(** A sequence appends its literals, then its match, to the history. *)
Definition exec_seq (h : list Z) (s : seq) : option (list Z) :=
  let h1 := h ++ s_lits s in
  if s_off s <=? zlen h1
  then Some (copy_match h1 (s_off s) (Z.to_nat (s_mlen s)))
  else None.

Fixpoint exec_seqs (h : list Z) (l : list seq) : option (list Z) :=
  match l with
  | [] => Some h
  | s :: l => h' ← exec_seq h s; exec_seqs h' l
  end.

(** The bytes a block stands for after the history [h]. *)
Definition expand (h : list Z) (b : block) : option (list Z) :=
  h' ← exec_seqs h (b_seqs b);
  Some (drop (length h) (h' ++ b_last b)).

(** * Parsing *)

Inductive parsed :=
| PSeq (s : seq) (rest : list Z)
| PLast (lits : list Z) (nib : Z).

Fixpoint parse_ext (l : list Z) : option (Z * list Z) :=
  match l with
  | [] => None
  | b :: l => if b =? 255 then p ← parse_ext l; Some (255 + p.1, p.2) else Some (b, l)
  end.

Definition parse_len (nib : Z) (l : list Z) : option (Z * list Z) :=
  if nib =? 15 then p ← parse_ext l; Some (15 + p.1, p.2) else Some (nib, l).

Definition parse_seq (l : list Z) : option parsed :=
  match l with
  | [] => None
  | tok :: l =>
      p ← parse_len (tok / 16) l;
      if zlen p.2 <? p.1 then None else
      let lits := take (Z.to_nat p.1) p.2 in
      match drop (Z.to_nat p.1) p.2 with
      | [] => Some (PLast lits (tok mod 16))
      | lo :: hi :: l3 =>
          q ← parse_len (tok mod 16) l3;
          Some (PSeq (Seq lits (lo + 256 * hi) (q.1 + 4)) q.2)
      | _ => None
      end
  end.

(** The reference decoder of the format: every block, whatever its end
    conditions. *)
Fixpoint ref_decode (fuel : nat) (h : list Z) (l : list Z) : option (list Z) :=
  match fuel with
  | O => None
  | S n =>
      p ← parse_seq l;
      match p with
      | PLast lits _ => Some (h ++ lits)
      | PSeq s rest => h' ← exec_seq h s; ref_decode n h' rest
      end
  end.

(** * Lengths *)

Lemma zlen_ext_bytes n : 0 <= n -> zlen (ext_bytes n) = n / 255 + 1.
Proof.
  intros H. unfold ext_bytes. autorewrite with zlen.
  rewrite Z2Nat.id; [done|]. by apply Z.div_pos.
Qed.

Lemma zlen_len_ext n :
  0 <= n -> zlen (len_ext n) = if n <? 15 then 0 else (n - 15) / 255 + 1.
Proof. intros H. unfold len_ext. zcase; [done|]. apply zlen_ext_bytes. lia. Qed.

Lemma enc_seqs_app l k : enc_seqs (l ++ k) = enc_seqs l ++ enc_seqs k.
Proof. induction l; simpl; [done|]. by rewrite IHl, app_assoc. Qed.

Lemma exec_seqs_app l k h :
  exec_seqs h (l ++ k) = h' ← exec_seqs h l; exec_seqs h' k.
Proof.
  revert h. induction l as [|s l IH]; intros h; simpl; [done|].
  destruct (exec_seq h s); simpl; [apply IH|done].
Qed.

Lemma exec_seqs_snoc l s h h1 h2 :
  exec_seqs h l = Some h1 -> exec_seq h1 s = Some h2 -> exec_seqs h (l ++ [s]) = Some h2.
Proof. intros H1 H2. rewrite exec_seqs_app, H1. simpl. by rewrite H2. Qed.

Lemma length_copy_match n : forall h off, length (copy_match h off n) = (length h + n)%nat.
Proof.
  induction n as [|n IH]; intros h off; simpl; [lia|].
  rewrite IH, length_app. simpl. lia.
Qed.

Lemma zlen_copy_match h off n : 0 <= n -> zlen (copy_match h off (Z.to_nat n)) = zlen h + n.
Proof. intros H. unfold zlen. rewrite length_copy_match. lia. Qed.

Lemma exec_seq_zlen h s h' :
  seq_wf s -> exec_seq h s = Some h' -> zlen h' = zlen h + zlen (s_lits s) + s_mlen s.
Proof.
  intros (_ & _ & Hm) H. unfold exec_seq in H. revert H. zcase; [|done].
  intros [= <-]. rewrite zlen_copy_match by lia. rewrite zlen_app. lia.
Qed.

(** * Prefixes: the history is kept *)

Lemma copy_match_prefix n : forall h off, exists k, copy_match h off n = h ++ k.
Proof.
  induction n as [|n IH]; intros h off; simpl.
  - exists []. by rewrite app_nil_r.
  - destruct (IH (h ++ [match_byte h off]) off) as [k ->].
    eexists. by rewrite <- app_assoc.
Qed.

Lemma exec_seq_prefix h s h' : exec_seq h s = Some h' -> exists k, h' = h ++ k.
Proof.
  unfold exec_seq. zcase; [|done]. intros [= <-].
  destruct (copy_match_prefix (Z.to_nat (s_mlen s)) (h ++ s_lits s) (s_off s)) as [k ->].
  eexists. by rewrite <- app_assoc.
Qed.

Lemma exec_seqs_prefix l : forall h h', exec_seqs h l = Some h' -> exists k, h' = h ++ k.
Proof.
  induction l as [|s l IH]; intros h h'; simpl.
  - intros [= <-]. exists []. by rewrite app_nil_r.
  - destruct (exec_seq h s) as [h1|] eqn:E; simpl; [|done]. intros H.
    apply exec_seq_prefix in E as [k ->]. apply IH in H as [k' ->].
    eexists. by rewrite <- app_assoc.
Qed.

Lemma expand_spec h b o :
  expand h b = Some o <-> exists h', exec_seqs h (b_seqs b) = Some h' /\ h' ++ b_last b = h ++ o.
Proof.
  unfold expand. split.
  - destruct (exec_seqs h (b_seqs b)) as [h'|] eqn:E; simpl; [|done]. intros [= <-].
    exists h'. split; [done|]. apply exec_seqs_prefix in E as [k ->].
    by rewrite <- app_assoc, drop_app_length.
  - intros (h' & -> & H). simpl. by rewrite H, drop_app_length.
Qed.

(** * Pointwise meaning of a match *)

(** [mm] is what a match with offset [off] appends to [h]. *)
Definition match_copy (h : list Z) (off : Z) (mm : list Z) : Prop :=
  forall k, 0 <= k < zlen mm ->
    (h ++ mm) !! Z.to_nat (zlen h + k) =
      if off =? 0 then Some 0 else (h ++ mm) !! Z.to_nat (zlen h + k - off).

Lemma match_copy_cons h off b mm :
  match_copy h off (b :: mm) -> 0 <= off <= zlen h ->
  b = match_byte h off /\ match_copy (h ++ [b]) off mm.
Proof.
  intros H Ho. pose proof (zlen_nonneg mm). split.
  - specialize (H 0). rewrite zlen_cons in H. specialize (H ltac:(lia)).
    rewrite Z.add_0_r in H. unfold zlen in H at 1. rewrite Nat2Z.id in H.
    rewrite list_lookup_middle in H by done. unfold match_byte. revert H.
    zcase; [by intros [= ->]|]. rewrite lookup_app_l by (unfold zlen in *; lia).
    intros <-. done.
  - intros k Hk. specialize (H (1 + k)). rewrite zlen_cons in H.
    specialize (H ltac:(lia)). rewrite <- !app_assoc. simpl app.
    rewrite !zlen_app, zlen_cons, zlen_nil.
    replace (zlen h + (1 + 0) + k) with (zlen h + (1 + k)) by lia. exact H.
Qed.

Lemma match_copy_copy mm : forall h off,
  match_copy h off mm -> 0 <= off <= zlen h -> copy_match h off (length mm) = h ++ mm.
Proof.
  induction mm as [|b mm IH]; intros h off H Ho; simpl.
  - by rewrite app_nil_r.
  - apply match_copy_cons in H as [-> H]; [|done].
    rewrite IH; [by rewrite <- app_assoc|done|zl].
Qed.

(** * The parser inverts the encoding *)

Lemma parse_ext_replicate k l :
  parse_ext (replicate k 255 ++ l) =
    p ← parse_ext l; Some (255 * Z.of_nat k + p.1, p.2).
Proof.
  induction k as [|k IH].
  - simpl. destruct (parse_ext l) as [[n r]|]; done.
  - cbn [replicate app parse_ext]. rewrite Z.eqb_refl, IH.
    destruct (parse_ext l) as [[n r]|]; [|done].
    cbn [mbind option_bind fst snd]. do 2 f_equal. lia.
Qed.

Lemma parse_ext_bytes n r : 0 <= n -> parse_ext (ext_bytes n ++ r) = Some (n, r).
Proof.
  intros H. unfold ext_bytes. rewrite <- app_assoc, parse_ext_replicate. simpl.
  destruct (Z.eqb_spec (n mod 255) 255) as [E|_].
  - pose proof (Z.mod_pos_bound n 255). lia.
  - simpl. rewrite Z2Nat.id by (by apply Z.div_pos).
    do 2 f_equal. pose proof (Z.div_mod n 255). lia.
Qed.

Lemma parse_len_ext n r : 0 <= n -> parse_len (nibble n) (len_ext n ++ r) = Some (n, r).
Proof.
  intros H. unfold parse_len, len_ext, nibble.
  destruct (Z.ltb_spec n 15).
  - rewrite Z.min_l by lia. by destruct (Z.eqb_spec n 15); [lia|].
  - rewrite Z.min_r by lia. rewrite Z.eqb_refl, parse_ext_bytes by lia. simpl.
    do 2 f_equal. lia.
Qed.

Lemma nibble_range n : 0 <= n -> 0 <= nibble n < 16.
Proof. unfold nibble. lia. Qed.

Lemma token_split a b : 0 <= b < 16 -> (16 * a + b) / 16 = a /\ (16 * a + b) mod 16 = b.
Proof. intros H. Z.div_mod_to_equations. lia. Qed.

Lemma parse_enc_seq s r : seq_wf s -> parse_seq (enc_seq s ++ r) = Some (PSeq s r).
Proof.
  intros (Hb & Ho & Hm). destruct s as [lits off ml]; simpl in *.
  unfold enc_seq, parse_seq; simpl. pose proof (zlen_nonneg lits).
  destruct (token_split (nibble (zlen lits)) (nibble (ml - 4))) as [-> ->];
    [apply nibble_range; lia|].
  rewrite <- !app_assoc, parse_len_ext by lia. simpl.
  rewrite !zlen_app. destruct (Z.ltb_spec (zlen lits + zlen (off mod 256 :: off / 256 :: len_ext (ml - 4) ++ r)) (zlen lits)); [zl|].
  unfold zlen. rewrite Nat2Z.id, drop_app_length, take_app_length. simpl.
  rewrite parse_len_ext by lia. simpl. do 3 f_equal.
  - Z.div_mod_to_equations. lia.
  - lia.
Qed.

Lemma parse_enc_last lits nib :
  0 <= nib < 16 -> parse_seq (enc_last lits nib) = Some (PLast lits nib).
Proof.
  intros Hn. unfold enc_last, parse_seq; simpl.
  destruct (token_split (nibble (zlen lits)) nib) as [-> ->]; [done|].
  rewrite parse_len_ext by apply zlen_nonneg. simpl.
  destruct (Z.ltb_spec (zlen lits) (zlen lits)); [lia|].
  unfold zlen. rewrite Nat2Z.id, drop_all, take_ge by lia. done.
Qed.

#[global] Arguments parse_seq : simpl never.
#[global] Arguments enc_seq : simpl never.
#[global] Arguments enc_last : simpl never.
#[global] Arguments ext_bytes : simpl never.
#[global] Arguments len_ext : simpl never.

(** A block in front of which a sequence can be read starts with it. *)
Lemma enc_block_uncons b s r :
  block_wf b -> seq_wf s -> enc_block b = enc_seq s ++ r ->
  exists l, b_seqs b = s :: l /\ r = enc_block (Block l (b_last b) (b_nib b)).
Proof.
  intros (Hs & Hl & Hn) Hw H. apply (f_equal parse_seq) in H.
  rewrite parse_enc_seq in H by done. unfold enc_block in H.
  destruct (b_seqs b) as [|s' l] eqn:E; cbn [enc_seqs app] in H.
  - rewrite parse_enc_last in H by done. done.
  - apply Forall_cons_iff in Hs as [Hs' Hs].
    rewrite <- app_assoc, parse_enc_seq in H by done.
    injection H as [= -> <-]. exists l. split; [done|]. done.
Qed.

Lemma enc_block_last b lits nib :
  block_wf b -> 0 <= nib < 16 -> enc_block b = enc_last lits nib ->
  b_seqs b = [] /\ b_last b = lits.
Proof.
  intros (Hs & Hl & Hn) Hw H. apply (f_equal parse_seq) in H.
  rewrite parse_enc_last in H by done. unfold enc_block in H.
  destruct (b_seqs b) as [|s' l] eqn:E; cbn [enc_seqs app] in H.
  - rewrite parse_enc_last in H by done. injection H as [= -> _]. done.
  - apply Forall_cons_iff in Hs as [Hs' Hs].
    rewrite <- app_assoc, parse_enc_seq in H by done. done.
Qed.

Lemma block_wf_cons s l lst nib :
  block_wf (Block (s :: l) lst nib) <-> seq_wf s /\ block_wf (Block l lst nib).
Proof. unfold block_wf; simpl. rewrite Forall_cons_iff. tauto. Qed.

(** Two encodings of the same bytes are the same block. *)
Lemma enc_block_inj b b' :
  block_wf b -> block_wf b' -> enc_block b = enc_block b' ->
  b_seqs b = b_seqs b' /\ b_last b = b_last b'.
Proof.
  destruct b as [l lst nib]. revert b'. induction l as [|s l IH]; intros b' Hb Hb' H.
  - symmetry in H. destruct Hb as (_ & _ & Hn).
    destruct (enc_block_last b' lst nib) as [-> ->]; done.
  - apply block_wf_cons in Hb as [Hs Hb].
    symmetry in H. destruct (enc_block_uncons b' s (enc_block (Block l lst nib)))
      as (k & Hk & Hr); [done|done| |].
    { rewrite H. unfold enc_block; cbn. by rewrite app_assoc. }
    destruct b' as [l' lst' nib']; simpl in *; subst l'.
    apply block_wf_cons in Hb' as [_ Hb'].
    destruct (IH (Block k lst' nib')) as [E1 E2]; [done..|].
    simpl in *. by rewrite E1.
Qed.

Lemma ref_decode_enc l : forall h lst nib h' fuel,
  block_wf (Block l lst nib) -> exec_seqs h l = Some h' -> (length l < fuel)%nat ->
  ref_decode fuel h (enc_block (Block l lst nib)) = Some (h' ++ lst).
Proof.
  induction l as [|s l IH]; intros h lst nib h' fuel (Hs & Hl & Hn) He Hf;
    (destruct fuel as [|fuel]; [lia|]); simpl in *.
  - injection He as [= <-]. unfold enc_block; cbn [enc_seqs app b_seqs b_last b_nib].
    by rewrite parse_enc_last by done.
  - apply Forall_cons_iff in Hs as [Hs Hs'].
    unfold enc_block; cbn [enc_seqs b_seqs b_last b_nib].
    rewrite <- app_assoc, parse_enc_seq by done. simpl.
    destruct (exec_seq h s) as [h1|]; [|done]. simpl in *.
    apply IH; [done|done|lia].
Qed.

(** * Older history

    Bytes in front of the history do not change what a sequence appends. *)

Lemma copy_match_older n : forall x h off,
  0 <= off <= zlen h -> copy_match (x ++ h) off n = x ++ copy_match h off n.
Proof.
  induction n as [|n IH]; intros x h off Ho; simpl; [done|].
  rewrite <- IH by zl. f_equal. rewrite <- app_assoc. do 2 f_equal.
  unfold match_byte. zcase; [done|]. rewrite lookup_app_r by zn.
  do 3 f_equal. zn.
Qed.

Lemma exec_seq_older x h s h' :
  seq_wf s -> exec_seq h s = Some h' -> exec_seq (x ++ h) s = Some (x ++ h').
Proof.
  intros (_ & Ho & _). unfold exec_seq. zcase; [|done]. intros [= <-].
  rewrite <- app_assoc. zcase; [|zl]. by rewrite copy_match_older by lia.
Qed.

Lemma exec_seqs_older l : forall x h h',
  Forall seq_wf l -> exec_seqs h l = Some h' -> exec_seqs (x ++ h) l = Some (x ++ h').
Proof.
  induction l as [|s l IH]; intros x h h' Hw; simpl; [by intros [= <-]|].
  apply Forall_cons_iff in Hw as [Hs Hw].
  destruct (exec_seq h s) as [h1|] eqn:E; simpl; [|done].
  rewrite (exec_seq_older x _ _ _ Hs E). simpl. by apply IH.
Qed.

Lemma expand_older x h b o :
  block_wf b -> expand h b = Some o -> expand (x ++ h) b = Some o.
Proof.
  intros (Hw & _) (h' & H & E)%expand_spec. apply expand_spec.
  exists (x ++ h'). split; [by apply exec_seqs_older|]. by rewrite <- !app_assoc, E.
Qed.

(** With 65535 bytes of history every offset is in range. *)
Lemma exec_seqs_total l : forall h,
  Forall seq_wf l -> 65535 <= zlen h -> exists h', exec_seqs h l = Some h'.
Proof.
  induction l as [|s l IH]; intros h Hw Hh; simpl; [eauto|].
  apply Forall_cons_iff in Hw as [Hs Hw].
  destruct (exec_seq h s) as [h1|] eqn:E; simpl.
  - apply IH; [done|]. apply exec_seq_zlen in E; [|done]. destruct Hs as (_ & _ & ?). zl.
  - unfold exec_seq in E. revert E. zcase; [done|]. destruct Hs as (_ & ? & _). zl.
Qed.

Lemma expand_window x h b o :
  block_wf b -> 65535 <= zlen h -> expand (x ++ h) b = Some o <-> expand h b = Some o.
Proof.
  intros Hb Hh. split; [|by apply expand_older]. intros H.
  destruct (exec_seqs_total (b_seqs b) h) as [h' H']; [by destruct Hb|done|].
  assert (exists o', expand h b = Some o') as [o' Ho'] by (unfold expand; rewrite H'; simpl; eauto).
  rewrite Ho'. apply (expand_older x) in Ho'; [|done]. congruence.
Qed.

(** * The encoding inverts the parser *)

Lemma parse_ext_inv l : forall n r,
  bytes_ok l -> parse_ext l = Some (n, r) -> 0 <= n /\ l = ext_bytes n ++ r.
Proof.
  induction l as [|b l IH]; intros n r Hb; simpl; [done|].
  apply bytes_ok_cons in Hb as [Hb Hl]. destruct (Z.eqb_spec b 255) as [->|Hne].
  - destruct (parse_ext l) as [[n' r']|] eqn:E; simpl; [|done]. intros [= <- <-].
    destruct (IH n' r' Hl eq_refl) as [Hn ->]. split; [lia|].
    unfold ext_bytes. replace (255 + n') with (n' + 1 * 255) by lia.
    rewrite Z.div_add, Z.mod_add by lia.
    replace (Z.to_nat (n' / 255 + 1)) with (S (Z.to_nat (n' / 255)))
      by (pose proof (Z.div_pos n' 255 Hn ltac:(lia)); lia). done.
  - intros [= <- <-]. split; [lia|]. unfold ext_bytes.
    rewrite Z.div_small, Z.mod_small by lia. done.
Qed.

Lemma parse_len_inv nib l n r :
  bytes_ok l -> 0 <= nib < 16 -> parse_len nib l = Some (n, r) ->
  0 <= n /\ nib = nibble n /\ l = len_ext n ++ r.
Proof.
  intros Hb Hn. unfold parse_len. destruct (Z.eqb_spec nib 15) as [->|Hne].
  - destruct (parse_ext l) as [[n' r']|] eqn:E; simpl; [|done]. intros [= <- <-].
    destruct (parse_ext_inv l n' r' Hb E) as [H0 ->]. split; [lia|].
    split; [unfold nibble; lia|]. unfold len_ext. zcase; [lia|].
    by replace (15 + n' - 15) with n' by lia.
  - intros [= <- <-]. split; [lia|]. split; [unfold nibble; lia|].
    unfold len_ext. zcase; [done|lia].
Qed.

Lemma bytes_ok_suffix x y : bytes_ok (x ++ y) -> bytes_ok y.
Proof. by intros [_ ?]%bytes_ok_app. Qed.

Lemma byte_token tok : byte_ok tok ->
  0 <= tok / 16 < 16 /\ 0 <= tok mod 16 < 16 /\ tok = 16 * (tok / 16) + tok mod 16.
Proof. intros H. repeat split; try (Z.div_mod_to_equations; lia). Qed.

Lemma parse_seq_inv l q :
  bytes_ok l -> parse_seq l = Some q ->
  match q with
  | PSeq s r => seq_wf s /\ l = enc_seq s ++ r
  | PLast lits nib => bytes_ok lits /\ 0 <= nib < 16 /\ l = enc_last lits nib
  end.
Proof.
  destruct l as [|tok l]; intros Hb; [done|]. apply bytes_ok_cons in Hb as [Ht Hb].
  unfold parse_seq.
  destruct (byte_token tok Ht) as (Hhi & Hlo & Et).
  destruct (parse_len (tok / 16) l) as [[ll l2]|] eqn:E1; cbn [mbind option_bind fst snd]; [|done].
  destruct (parse_len_inv _ _ _ _ Hb Hhi E1) as (Hll & Hn & ->). apply bytes_ok_suffix in Hb.
  destruct (Z.ltb_spec (zlen l2) ll); [by intros [=]|].
  destruct (list_split_at l2 ll) as (lits & l3 & -> & El); [lia|].
  apply bytes_ok_app in Hb as [Hlits Hb].
  rewrite take_app_length', drop_app_length' by zn.
  destruct l3 as [|lo [|hi l3]]; [|by intros [=]|].
  - intros [= <-]. split; [done|]. split; [done|].
    unfold enc_last. rewrite El, <- Hn, <- Et, app_nil_r. done.
  - rewrite !bytes_ok_cons in Hb. destruct Hb as (H1 & H2 & Hb).
    destruct (parse_len (tok mod 16) l3) as [[ml l4]|] eqn:E2; cbn [mbind option_bind fst snd]; [|done]. intros [= <-].
    destruct (parse_len_inv _ _ _ _ Hb Hlo E2) as (Hml & Hn2 & ->). split.
    + repeat split; simpl; try done; lia.
    + unfold enc_seq; cbn [s_lits s_off s_mlen]. replace (ml + 4 - 4) with ml by lia.
      replace ((lo + 256 * hi) mod 256) with lo by (Z.div_mod_to_equations; lia).
      replace ((lo + 256 * hi) / 256) with hi by (Z.div_mod_to_equations; lia).
      by rewrite El, <- Hn, <- Hn2, <- Et, <- !app_assoc.
Qed.

(** The reference decoder accepts exactly the encodings of the blocks whose
    offsets stay within the history. *)
Lemma ref_decode_inv fuel : forall h l o,
  bytes_ok l -> ref_decode fuel h l = Some o ->
  exists b h', block_wf b /\ l = enc_block b /\ exec_seqs h (b_seqs b) = Some h' /\
    o = h' ++ b_last b.
Proof.
  induction fuel as [|n IH]; intros h l o Hb; simpl; [done|].
  destruct (parse_seq l) as [q|] eqn:E; simpl; [|done]. apply parse_seq_inv in E; [|done].
  destruct q as [s r|lits nib].
  - destruct E as [Hs ->]. apply bytes_ok_suffix in Hb.
    destruct (exec_seq h s) as [h1|] eqn:E1; simpl; [|done]. intros H.
    destruct (IH _ _ _ Hb H) as ([l lst nib] & h' & (Hw & Hl & Hn) & -> & Hx & ->).
    exists (Block (s :: l) lst nib), h'. simpl in *. split; [|split; [|split]].
    + split; [|done]. by constructor.
    + unfold enc_block; simpl. by rewrite app_assoc.
    + by rewrite E1.
    + done.
  - destruct E as (Hl & Hn & ->). intros [= <-]. exists (Block [] lits nib), h.
    split; [|done]. split; [constructor|]. done.
Qed.

Lemma enc_seqs_length l : (length l <= length (enc_seqs l))%nat.
Proof.
  induction l as [|s l IH]; cbn [enc_seqs length]; [lia|].
  unfold enc_seq. rewrite !length_app. simpl. lia.
Qed.

(** * An encoding consists of bytes *)

Lemma len_ext_bytes n : bytes_ok (len_ext n).
Proof.
  unfold len_ext, ext_bytes. zcase; [constructor|]. apply bytes_ok_app. split.
  - apply Forall_replicate. lia.
  - apply Forall_singleton. pose proof (Z.mod_pos_bound (n - 15) 255 ltac:(lia)). lia.
Qed.

Lemma enc_seq_bytes s : seq_wf s -> bytes_ok (enc_seq s).
Proof.
  intros (Hl & Ho & Hm). unfold enc_seq. rewrite !bytes_ok_app. zlen_facts. unfold nibble.
  split; [|split; [apply len_ext_bytes|split; [done|split; [|apply len_ext_bytes]]]].
  - apply Forall_singleton. lia.
  - apply Forall_cons; [apply Z.mod_pos_bound; lia|]. apply Forall_singleton.
    split; [apply Z.div_pos; lia|apply Z.div_lt_upper_bound; lia].
Qed.

Lemma enc_block_bytes b : block_wf b -> bytes_ok (enc_block b).
Proof.
  intros (Hs & Hl & Hn). unfold enc_block, enc_last. rewrite !bytes_ok_app. zlen_facts. unfold nibble.
  split; [|split; [apply Forall_singleton; lia|split; [apply len_ext_bytes|done]]].
  clear Hl; induction Hs as [|s l Hs1 Hs IH]; [constructor|]. cbn [enc_seqs]. apply bytes_ok_app.
  split; [by apply enc_seq_bytes|done].
Qed.
