(* ===== verification/Lz4Common.v ===== *)
(** lib/lz4.c, "Reading and writing into memory" and "Common functions":
    unaligned accesses, the wild copies that may write past their end, and the
    match counter.  The configuration is that of a 64-bit little-endian target
    built with GCC or Clang (x86-64): [reg_t] has 8 bytes and
    [LZ4_FAST_DEC_LOOP] is 1. *)
From S2P Require Import Prelude.
From S2P Require Import Mem.

(** * Constants *)

Definition MINMATCH : Z := 4.
Definition WILDCOPYLENGTH : Z := 8.
Definition LASTLITERALS : Z := 5.
Definition MFLIMIT : Z := 12.
Definition MATCH_SAFEGUARD_DISTANCE : Z := 2 * WILDCOPYLENGTH - MINMATCH.
Definition FASTLOOP_SAFE_DISTANCE : Z := 64.
Definition LZ4_minLength : Z := MFLIMIT + 1.
Definition KB : Z := 2 ^ 10.
Definition GB : Z := 2 ^ 30.
Definition LZ4_DISTANCE_ABSOLUTE_MAX : Z := 65535.
Definition LZ4_DISTANCE_MAX : Z := 65535.
Definition LZ4_MAX_INPUT_SIZE : Z := 2113929216.
Definition ML_BITS : Z := 4.
Definition ML_MASK : Z := Z.shiftl 1 ML_BITS - 1.
Definition RUN_BITS : Z := 8 - ML_BITS.
Definition RUN_MASK : Z := Z.shiftl 1 RUN_BITS - 1.
Definition STEPSIZE : Z := 8.
Definition LZ4_isLittleEndian : bool := true.

(** * Unaligned accesses *)

Definition LZ4_read16 (p : Z) : M Z := l ← load_bytes p 2; mret (le_val l).
Definition LZ4_read32 (p : Z) : M Z := l ← load_bytes p 4; mret (le_val l).
Definition LZ4_read_ARCH (p : Z) : M Z := l ← load_bytes p STEPSIZE; mret (le_val l).

Definition LZ4_write16 (p v : Z) : M unit := store_bytes p (le_bytes 2 v).
Definition LZ4_write32 (p v : Z) : M unit := store_bytes p (le_bytes 4 v).

Definition LZ4_readLE16 (p : Z) : M Z :=
  if LZ4_isLittleEndian then LZ4_read16 p
  else b0 ← loadb p; b1 ← loadb (p + 1); mret (u16 (Z.lor b0 (Z.shiftl b1 8))).

Definition LZ4_writeLE16 (p v : Z) : M unit :=
  if LZ4_isLittleEndian then LZ4_write16 p v
  else storeb p (u8 v);; storeb (p + 1) (u8 (Z.shiftr v 8)).

(** * Wild copies *)

(** The body of a [do { ... } while (d < e)] loop over the pointers [(d, s)]
    that advances both by [k]. *)
Definition copy_stride (copy : Z -> Z -> M unit) (k e : Z) (p : Z * Z) : M (Z * Z + unit) :=
  let '(d, s) := p in
  copy d s;;
  let d := d + k in
  let s := s + k in
  mret (if d <? e then inl (d, s) else inr tt).

Definition copy_fuel (d e : Z) : nat := S (Z.to_nat (e - d)).

Definition LZ4_wildCopy8 (dstPtr srcPtr dstEnd : Z) : M unit :=
  loop (copy_fuel dstPtr dstEnd)
    (copy_stride (fun d s => memcpy d s 8) 8 dstEnd) (dstPtr, srcPtr).

Definition inc32table (i : Z) : Z := nth (Z.to_nat i) [0; 1; 2; 1; 0; 4; 4; 4] 0.
Definition dec64table (i : Z) : Z := nth (Z.to_nat i) [0; 0; 0; -1; -4; 1; 2; 3] 0.

(** [dst[i] = src[i]] for one byte. *)
Definition copy_byte (d s : Z) : M unit := b ← loadb s; storeb d b.

(** The first 8 bytes of a match whose offset is below 8; the result is where
    the match pointer stands afterwards. *)
Definition copy_small_offset (dst src offset : Z) : M Z :=
  LZ4_write32 dst 0;;
  copy_byte dst src;;
  copy_byte (dst + 1) (src + 1);;
  copy_byte (dst + 2) (src + 2);;
  copy_byte (dst + 3) (src + 3);;
  let src := src + inc32table offset in
  memcpy (dst + 4) src 4;;
  mret (src - dec64table offset).

Definition LZ4_memcpy_using_offset_base (dstPtr srcPtr dstEnd offset : Z) : M unit :=
  srcPtr ← (if offset <? 8 then copy_small_offset dstPtr srcPtr offset
            else memcpy dstPtr srcPtr 8;; mret (srcPtr + 8));
  LZ4_wildCopy8 (dstPtr + 8) srcPtr dstEnd.

Definition LZ4_wildCopy32 (dstPtr srcPtr dstEnd : Z) : M unit :=
  loop (copy_fuel dstPtr dstEnd)
    (copy_stride (fun d s => memcpy d s 16;; memcpy (d + 16) (s + 16) 16) 32 dstEnd)
    (dstPtr, srcPtr).

(** The loop that stores the 8-byte pattern [v] until [dstEnd]. *)
Definition pattern_loop (v : list Z) (dstPtr dstEnd : Z) : M unit :=
  loop (copy_fuel dstPtr dstEnd)
    (fun d => if d <? dstEnd then store_bytes d v;; mret (inl (d + 8)) else mret (inr tt))
    dstPtr.

Definition LZ4_memcpy_using_offset (dstPtr srcPtr dstEnd offset : Z) : M unit :=
  let fill v := store_bytes dstPtr v;; pattern_loop v (dstPtr + 8) dstEnd in
  if offset =? 1 then b ← loadb srcPtr; fill (replicate 8 b)
  else if offset =? 2 then l ← load_bytes srcPtr 2; fill (l ++ l ++ l ++ l)
  else if offset =? 4 then l ← load_bytes srcPtr 4; fill (l ++ l)
  else LZ4_memcpy_using_offset_base dstPtr srcPtr dstEnd offset.

(** * Counting equal bytes *)

(** The number of trailing zero bits of a positive value. *)
Fixpoint ctz_pos (p : positive) : Z :=
  match p with xO p => 1 + ctz_pos p | _ => 0 end.

Definition ctz (v : Z) : Z := match v with Zpos p => ctz_pos p | _ => 0 end.

Definition LZ4_NbCommonBytes (val : Z) : Z := Z.shiftr (ctz val) 3.

(** The portable software count, for targets without a bit-scan instruction. *)
Definition LZ4_NbCommonBytes_sw64 (val : Z) : Z :=
  let m := 0x0101010101010101 in
  let val := Z.lxor val (u64 (val - 1)) in
  Z.shiftr (u64 (Z.land val (m - 1) * m)) 56.

(** The word loop of [LZ4_count]: [inl] when fewer than 8 bytes remain,
    [inr n] when a difference was found. *)
Definition count_step (pStart pInLimit : Z) (p : Z * Z) : M (Z * Z + (Z * Z + Z)) :=
  let '(pIn, pMatch) := p in
  if pIn <? pInLimit - (STEPSIZE - 1) then
    a ← LZ4_read_ARCH pMatch; b ← LZ4_read_ARCH pIn;
    let diff := Z.lxor a b in
    if diff =? 0 then mret (inl (pIn + STEPSIZE, pMatch + STEPSIZE))
    else mret (inr (inr (u32 (pIn + LZ4_NbCommonBytes diff - pStart))))
  else mret (inr (inl (pIn, pMatch))).

Definition LZ4_count (pIn pMatch pInLimit : Z) : M Z :=
  let pStart := pIn in
  r ← loop (S (Z.to_nat (pInLimit - pIn))) (count_step pStart pInLimit) (pIn, pMatch);
  match r with
  | inr n => mret n
  | inl (pIn, pMatch) =>
      p ← (if pIn <? pInLimit - 3 then
             a ← LZ4_read32 pMatch; b ← LZ4_read32 pIn;
             mret (if a =? b then (pIn + 4, pMatch + 4) else (pIn, pMatch))
           else mret (pIn, pMatch));
      let '(pIn, pMatch) := p in
      p ← (if pIn <? pInLimit - 1 then
             a ← LZ4_read16 pMatch; b ← LZ4_read16 pIn;
             mret (if a =? b then (pIn + 2, pMatch + 2) else (pIn, pMatch))
           else mret (pIn, pMatch));
      let '(pIn, pMatch) := p in
      pIn ← (if pIn <? pInLimit then
               a ← loadb pMatch; b ← loadb pIn;
               mret (if a =? b then pIn + 1 else pIn)
             else mret pIn);
      mret (u32 (pIn - pStart))
  end.
