(* ===== verification/Lz4CommonSpec.v ===== *)
(** Specifications of the copy routines of Lz4Common: how many bytes each
    writes, and that a copy whose source lies [off] bytes before its target
    makes every written byte equal to the byte [off] places back. *)
From S2P Require Import Prelude.
From S2P Require Import Mem.
From S2P Require Import Lz4Common.

(** * Periodic memory *)

(** Every byte of [[a, b)] equals the byte [off] places back; with offset 0,
    every byte of [[a, b)] is zero. *)
Definition periodic (m : mem) (a b off : Z) : Prop :=
  forall i, a <= i < b -> m !! i = if off =? 0 then Some 0 else m !! (i - off).

(** [off]-distance equality on a range, without the convention for 0. *)
Definition shifted (m : mem) (a b off : Z) : Prop :=
  forall i, a <= i < b -> m !! i = m !! (i - off).

Lemma shifted_mult m lo hi off : shifted m lo hi off -> 0 < off ->
  forall c : nat, forall i, lo <= i - (Z.of_nat c - 1) * off -> i < hi ->
  m !! i = m !! (i - Z.of_nat c * off).
Proof.
  intros H Ho c. induction c as [|c IH]; intros i Hlo Hhi.
  - f_equal. lia.
  - destruct c as [|c].
    + replace (i - Z.of_nat 1 * off) with (i - off) by lia. apply H. lia.
    + rewrite IH by nia. rewrite H by nia. f_equal. lia.
Qed.

(** A range copied from a multiple of [off] places back extends a range that
    repeats with period [off]. *)
Lemma shifted_extend m lo mid hi off (c : nat) :
  0 < off -> shifted m lo mid off -> shifted m mid hi (Z.of_nat c * off) ->
  (1 <= c)%nat -> lo + (Z.of_nat c - 1) * off <= mid -> shifted m lo hi off.
Proof.
  intros Ho H1 H2 Hc Hlo. destruct c as [|c]; [lia|]. rewrite Nat2Z.inj_succ in *.
  assert (forall n : nat, shifted m lo (mid + Z.of_nat n) off \/ hi < mid + Z.of_nat n) as Hn.
  { induction n as [|n IH].
    - left. by rewrite Z.add_0_r.
    - destruct IH as [IH|IH]; [|right; lia].
      destruct (Z.lt_ge_cases (mid + Z.of_nat n) hi); [|right; lia].
      left. intros i Hi.
      destruct (Z.lt_ge_cases i (mid + Z.of_nat n)); [apply IH; lia|].
      rewrite (H2 i) by lia. rewrite (shifted_mult _ _ _ _ IH Ho c (i - off)) by nia.
      f_equal. lia. }
  intros i Hi. destruct (Z.lt_ge_cases i mid); [apply H1; lia|].
  destruct (Hn (Z.to_nat (hi - mid))) as [H'|H']; [|lia]. apply H'. lia.
Qed.

Lemma shifted_periodic m a b off : 0 < off -> shifted m a b off -> periodic m a b off.
Proof. intros Ho H i Hi. destruct (Z.eqb_spec off 0); [lia|]. by apply H. Qed.

Lemma periodic_sub m a b a' b' off :
  periodic m a b off -> a <= a' -> b' <= b -> periodic m a' b' off.
Proof. intros H ? ? i Hi. apply H. lia. Qed.

Lemma shifted_frame m m' a b off c d :
  shifted m a b off -> frame c d m m' -> b <= c -> 0 <= off -> shifted m' a b off.
Proof. intros H [Hf _] ? ? i Hi. rewrite !Hf by lia. apply H. lia. Qed.

(** * Strided copies *)

(** The number of bytes a [do .. while] copy of stride [k] writes to cover a
    span of [x] bytes. *)
Definition wild (k x : Z) : Z := k * Z.max 1 ((x + k - 1) / k).

Lemma wild_ge k x : 0 < k -> k <= wild k x /\ x <= wild k x.
Proof.
  intros H. unfold wild. split; [nia|].
  pose proof (Z.div_mod (x + k - 1) k). pose proof (Z.mod_pos_bound (x + k - 1) k).
  pose proof (Z.le_max_r 1 ((x + k - 1) / k)). nia.
Qed.

Lemma wild_le k x n : 0 < k -> k <= n -> x + k - 1 <= n -> wild k x <= n.
Proof.
  intros H ? ?. unfold wild. pose proof (Z.mul_div_le (x + k - 1) k H).
  destruct (Z.max_spec 1 ((x + k - 1) / k)) as [[_ ->]|[_ ->]]; lia.
Qed.

Lemma wild_stop k x j :
  0 < k -> 0 <= j -> (j = 0 \/ j * k < x) -> x <= (j + 1) * k -> wild k x = (j + 1) * k.
Proof.
  intros Hk Hj Hlt Hge. unfold wild.
  destruct (Z.eq_dec j 0) as [->|Hne].
  - assert ((x + k - 1) / k < 2) by (apply Z.div_lt_upper_bound; lia).
    rewrite Z.max_l by lia. lia.
  - assert ((x + k - 1) / k = j + 1) as ->; [|nia].
    symmetry. apply (Z.div_unique _ _ _ (x - 1 - j * k)); [left; nia|lia].
Qed.

(** What a copy of [n] bytes from [s] to [d] achieves when the source is
    before the target, or after it and not overwritten. *)
Definition copy_post (m m' : mem) (d s n : Z) : Prop :=
  frame d (d + n) m m' /\ shifted m' d (d + n) (d - s).

(** The copy of one stride: it writes [k] bytes and needs the operands to be
    [g] bytes apart. *)
Definition stride_ok (copy : Z -> Z -> M unit) (k g : Z) : Prop :=
  forall d s m Q,
    mapped m s k -> mapped m d k -> g <= d - s \/ d + k <= s ->
    (forall m', copy_post m m' d s k -> Q tt m') -> wp (copy d s) Q m.

Lemma memcpy_stride k : 0 < k -> stride_ok (fun d s => memcpy d s k) k k.
Proof.
  intros Hk d s m Q Hs Hd Hg HQ. apply wp_memcpy; [lia|done|done|lia|].
  intros m' H. apply HQ. split; [by eapply copied_frame|].
  intros i Hi. rewrite (copied_at _ _ _ _ _ _ H Hi).
  rewrite (copied_ne _ _ _ _ _ (i - (d - s)) H) by lia. f_equal. lia.
Qed.

Lemma wp_copy_stride copy k g d s e Q m :
  0 < k -> 0 <= g -> stride_ok copy k g ->
  let n := wild k (e - d) in
  mapped m s n -> mapped m d n -> g <= d - s \/ d + n <= s ->
  (forall m', copy_post m m' d s n -> Q tt m') ->
  wp (loop (copy_fuel d e) (copy_stride copy k e) (d, s)) Q m.
Proof.
  intros Hk Hg0 Hcopy n Hs Hd Hg HQ. pose proof (wild_ge k (e - d) Hk) as [Hn1 Hn2].
  fold n in Hn1, Hn2. assert (n = wild k (e - d)) as En by done. clearbody n.
  apply (wp_loop (fun p m' => exists j, 0 <= j /\ p = (d + j * k, s + j * k) /\
            (j = 0 \/ j * k < e - d) /\ copy_post m m' d s (j * k))
          (fun p => Z.max 0 (e - fst p))).
  - intros [d' s'] m' (j & Hj & [= -> ->] & Hlt & Hf & Hsh). simpl. split; [lia|].
    assert (0 <= j * k) as Hjk by nia.
    assert (j * k + k <= n) as Hjn.
    { destruct (Z.eq_dec j 0) as [->|]; [lia|]. rewrite En. unfold wild.
      assert (j + 1 <= (e - d + k - 1) / k) by (apply Z.div_le_lower_bound; lia). nia. }
    unfold copy_stride. apply wp_bind. apply Hcopy.
    + apply (mapped_sub _ s n); [by eapply frame_mapped|lia|lia].
    + apply (mapped_sub _ d n); [by eapply frame_mapped|lia|lia].
    + lia.
    + intros m'' [Hf' Hsh']. apply wp_ret.
      assert (copy_post m m'' d s ((j + 1) * k)) as Hpost.
      { split.
        - eapply frame_trans; eapply frame_weaken; try eassumption; lia.
        - intros i Hi. destruct (Z.lt_ge_cases i (d + j * k)).
          + destruct Hf' as [Hf' _]. rewrite !Hf' by lia. apply Hsh. lia.
          + rewrite Hsh' by lia. f_equal. lia. }
      zcase.
      * split; [|simpl; lia]. exists (j + 1).
        split; [lia|]. split; [f_equal; lia|]. split; [lia|done].
      * apply HQ. rewrite En, (wild_stop k (e - d) j) by lia. done.
  - exists 0. rewrite Z.mul_0_l, !Z.add_0_r. do 4 (split; [first [lia|auto with lz4]|]).
    intros i Hi. lia.
  - unfold copy_fuel. simpl. lia.
Qed.

Lemma wp_wildCopy8 d s e Q m :
  let n := wild 8 (e - d) in
  mapped m s n -> mapped m d n -> 8 <= d - s \/ d + n <= s ->
  (forall m', copy_post m m' d s n -> Q tt m') ->
  wp (LZ4_wildCopy8 d s e) Q m.
Proof.
  intros n Hs Hd Hg HQ. apply (wp_copy_stride _ 8 8); [lia|lia|apply memcpy_stride; lia|done..].
Qed.

Lemma wildCopy32_stride :
  stride_ok (fun d s => memcpy d s 16;; memcpy (d + 16) (s + 16) 16) 32 16.
Proof.
  intros d s m Q Hs Hd Hg HQ. apply wp_bind.
  apply memcpy_stride; [lia|apply (mapped_sub _ s 32)|apply (mapped_sub _ d 32)|lia|];
    try (done || lia).
  intros m1 [Hf1 Hs1]. apply memcpy_stride; [lia| | |lia|].
  - apply (mapped_sub _ s 32); [by eapply frame_mapped|lia..].
  - apply (mapped_sub _ d 32); [by eapply frame_mapped|lia..].
  - intros m2 [Hf2 Hs2]. apply HQ. split.
    + eapply frame_trans; eapply frame_weaken; try eassumption; lia.
    + intros i Hi. destruct (Z.lt_ge_cases i (d + 16)).
      * destruct Hf2 as [Hf2 _]. rewrite !Hf2 by lia. apply Hs1. lia.
      * rewrite Hs2 by lia. f_equal. lia.
Qed.

Lemma wp_wildCopy32 d s e Q m :
  let n := wild 32 (e - d) in
  mapped m s n -> mapped m d n -> 16 <= d - s \/ d + n <= s ->
  (forall m', copy_post m m' d s n -> Q tt m') ->
  wp (LZ4_wildCopy32 d s e) Q m.
Proof.
  intros n Hs Hd Hg HQ. apply (wp_copy_stride _ 32 16); [lia|lia|apply wildCopy32_stride|done..].
Qed.

(** * Copies of matches with a small offset *)

Lemma copied_shifted m m' d s n :
  copied m m' d s n -> n <= d - s -> shifted m' d (d + n) (d - s).
Proof.
  intros H Hn i Hi. rewrite (copied_at _ _ _ _ _ _ H Hi).
  rewrite (copied_ne _ _ _ _ _ (i - (d - s)) H) by lia. f_equal. lia.
Qed.

Lemma wp_copy_byte d s Q m :
  is_Some (m !! s) -> is_Some (m !! d) ->
  (forall m', copied m m' d s 1 -> Q tt m') -> wp (copy_byte d s) Q m.
Proof.
  intros [b Hb] Hd HQ. apply wp_bind. eapply wp_loadb; [done|].
  apply wp_storeb; [done|]. apply HQ. intros i. rewrite lookup_insert.
  repeat case_decide; try lia; subst; [|done].
  rewrite <- Hb. f_equal. lia.
Qed.

(** The bytes of [[a, b)] are zero: the case of offset 0. *)
Lemma zeros_shifted m a b :
  a < b -> (periodic m a b 0 <-> m !! a = Some 0 /\ shifted m (a + 1) b 1).
Proof.
  intros Hab. split.
  - intros H. split; [rewrite H by lia; done|].
    intros i Hi. rewrite (H i), (H (i - 1)) by lia. done.
  - intros [H0 H] i Hi. simpl.
    rewrite (shifted_mult _ _ _ _ H ltac:(lia) (Z.to_nat (i - a))) by lia.
    rewrite Z.mul_1_r, Z2Nat.id by lia. rewrite <- H0. f_equal. lia.
Qed.

(** A range that repeats with period [off] is extended by a copy from [g]
    places back, a multiple of [off]. *)
Lemma periodic_extend m a mid hi off g :
  0 <= off -> a < mid -> mid <= hi -> periodic m a mid off -> shifted m mid hi g -> 0 < g ->
  (off = 0 /\ a + g <= mid \/
   exists c : nat, (1 <= c)%nat /\ 0 < off /\ g = Z.of_nat c * off /\ a + g - off <= mid) ->
  periodic m a hi off.
Proof.
  intros Ho Ham Hmh Hp Hs Hg [[-> Hc]|(c & Hc & Ho' & -> & Hlo)].
  - apply zeros_shifted; [lia|]. apply zeros_shifted in Hp as [H0 Hp]; [|lia].
    split; [done|]. apply (shifted_extend m (a + 1) mid hi 1 (Z.to_nat g)); try lia; [done|].
    rewrite Z.mul_1_r, Z2Nat.id by lia. done.
  - apply shifted_periodic; [done|].
    apply (shifted_extend m a mid hi off c); try done; [|lia].
    intros i Hi. rewrite (Hp i Hi). destruct (Z.eqb_spec off 0); [lia|done].
Qed.

Lemma periodic_frame m m' a b off c d :
  periodic m a b off -> frame c d m m' -> b <= c -> 0 <= off -> periodic m' a b off.
Proof.
  intros H [Hf _] ? ? i Hi. rewrite (Hf i) by lia. rewrite (H i Hi).
  zcase; [done|]. by rewrite Hf by lia.
Qed.

(** One more byte copied from [off] places back. *)
Lemma periodic_byte m m' a d off :
  0 <= off -> a <= d -> periodic m a d off -> copied m m' d (d - off) 1 ->
  (off = 0 -> m !! d = Some 0) -> is_Some (m !! (d - off)) -> periodic m' a (d + 1) off.
Proof.
  intros Ho Had Hp Hc H0 HS i Hi. destruct (Z.eq_dec i d) as [->|Hne].
  - rewrite (copied_at _ _ _ _ _ _ Hc) by lia. zcase.
    + rewrite <- H0 by done. f_equal. lia.
    + rewrite (copied_ne _ _ _ _ _ (d - off) Hc) by lia. f_equal. lia.
  - rewrite !(copied_ne _ _ _ _ _ _ Hc) by lia. apply Hp. lia.
Qed.

Lemma wp_LZ4_write32 d v Q m :
  mapped m d 4 -> (forall m', frame d (d + 4) m m' -> holds m' d (le_bytes 4 v) -> Q tt m') ->
  wp (LZ4_write32 d v) Q m.
Proof.
  intros Hd HQ. apply wp_store_bytes_holds; rewrite zlen_le_bytes; done.
Qed.

(** The distance between the target and the match after the first 8 bytes. *)
Definition far_offset (off : Z) : Z := off + 8 - inc32table off + dec64table off.

Lemma small_offset_cases off : 0 <= off < 8 ->
  off = 0 \/ off = 1 \/ off = 2 \/ off = 3 \/ off = 4 \/ off = 5 \/ off = 6 \/ off = 7.
Proof. lia. Qed.

Lemma inc32_ok off : 0 <= off < 8 ->
  let g := off + 4 - inc32table off in
  4 <= g <= off + 4 /\
  (off = 0 /\ g <= 4 \/
   exists c : nat, (1 <= c)%nat /\ 0 < off /\ g = Z.of_nat c * off /\ g - off <= 4).
Proof.
  intros H. destruct (small_offset_cases off H) as [->|[->|[->|[->|[->|[->|[->| ->]]]]]]];
    vm_compute inc32table; (split; [lia|]);
    [left; lia|right; exists 4%nat; lia|right; exists 2%nat; lia|right; exists 2%nat; lia
    |right; exists 2%nat; lia|right; exists 1%nat; lia|right; exists 1%nat; lia
    |right; exists 1%nat; lia].
Qed.

Lemma far_offset_ok off : 0 <= off < 8 ->
  let g := far_offset off in
  8 <= g <= off + 8 /\
  (off = 0 /\ g <= 8 \/
   exists c : nat, (1 <= c)%nat /\ 0 < off /\ g = Z.of_nat c * off /\ g - off <= 8).
Proof.
  intros H. destruct (small_offset_cases off H) as [->|[->|[->|[->|[->|[->|[->| ->]]]]]]];
    vm_compute far_offset; (split; [lia|]);
    [left; lia|right; exists 8%nat; lia|right; exists 4%nat; lia|right; exists 3%nat; lia
    |right; exists 2%nat; lia|right; exists 2%nat; lia|right; exists 2%nat; lia
    |right; exists 2%nat; lia].
Qed.

(** What copying a match of offset [off] to [d] achieves on [n] bytes. *)
Definition match_post (m m' : mem) (d off n : Z) : Prop :=
  frame d (d + n) m m' /\ periodic m' d (d + n) off.

(** The state of a match copy after [k] bytes of it, with zeros written ahead
    when the offset is 0. *)
Definition byte_post (m0 m : mem) (d off k : Z) : Prop :=
  frame d (d + 4) m0 m /\ periodic m d (d + k) off /\
  (off = 0 -> forall i, d <= i < d + 4 -> m !! i = Some 0).

Lemma wp_next_byte d off k Q m0 m :
  0 <= off -> 0 <= k < 4 -> mapped m0 (d - off) (off + 8) -> byte_post m0 m d off k ->
  (forall m', byte_post m0 m' d off (k + 1) -> Q tt m') ->
  wp (copy_byte (d + k) (d - off + k)) Q m.
Proof.
  intros Ho Hk Hm (Hf & Hp & Hz) HQ.
  assert (mapped m (d - off) (off + 8)) as Hm' by by eapply frame_mapped.
  apply wp_copy_byte; [apply Hm'; lia..|]. intros m' Hc. apply HQ.
  replace (d - off + k) with (d + k - off) in Hc by lia. split; [|split].
  - eapply frame_trans; [done|]. eapply frame_weaken; [eapply copied_frame; [done|]|lia..].
    intros i Hi. apply Hm'. lia.
  - rewrite Z.add_assoc. apply (periodic_byte m); [lia|lia|done|done| |apply Hm'; lia].
    intros ->. apply Hz; lia.
  - intros -> i Hi. destruct (Z.eq_dec i (d + k)) as [->|].
    + rewrite (copied_at _ _ _ _ _ _ Hc) by lia. apply Hz; lia.
    + rewrite (copied_ne _ _ _ _ _ _ Hc) by lia. apply Hz; lia.
Qed.

Lemma wp_copy_small_offset d off Q m :
  0 <= off < 8 -> mapped m (d - off) (off + 8) ->
  (forall m', match_post m m' d off 8 -> Q (d + 8 - far_offset off) m') ->
  wp (copy_small_offset d (d - off) off) Q m.
Proof.
  intros Ho Hm HQ. unfold copy_small_offset.
  apply wp_bind, wp_LZ4_write32; [eapply mapped_sub; eauto; lia|].
  intros m0 Hf0 Hz. apply wp_bind.
  replace (copy_byte d (d - off)) with (copy_byte (d + 0) (d - off + 0)) by (f_equal; lia).
  assert (byte_post m m0 d off 0) as H0.
  { split; [done|]. split; [intros i Hi; lia|]. intros _ i Hi.
    rewrite (holds_at _ _ _ _ Hz) by done. change (le_bytes 4 0) with [0; 0; 0; 0].
    assert (i - d = 0 \/ i - d = 1 \/ i - d = 2 \/ i - d = 3) as [E|[E|[E|E]]] by lia;
      by rewrite E. }
  eapply wp_next_byte; [lia|lia|done|exact H0|]. intros m1 H1. apply wp_bind.
  eapply wp_next_byte; [lia|lia|done|exact H1|]. intros m2 H2. apply wp_bind.
  eapply wp_next_byte; [lia|lia|done|exact H2|]. intros m3 H3. apply wp_bind.
  eapply wp_next_byte; [lia|lia|done|exact H3|]. intros m4 (Hf4 & Hp4 & _). apply wp_bind.
  destruct (inc32_ok off Ho) as [Hg Hc].
  assert (mapped m4 (d - off) (off + 8)) as Hm4 by by eapply frame_mapped.
  apply wp_memcpy; [lia|apply (mapped_sub _ (d - off) (off + 8)); [done|lia..]| |lia|].
  { apply (mapped_sub _ (d - off) (off + 8)); [done|lia..]. }
  intros m5 H5. apply wp_ret.
  replace (d - off + inc32table off - dec64table off) with (d + 8 - far_offset off)
    by (unfold far_offset; lia).
  assert (frame (d + 4) (d + 8) m4 m5) as Hf5.
  { replace (d + 8) with (d + 4 + 4) by lia. eapply copied_frame; [done|].
    apply (mapped_sub _ (d - off) (off + 8)); [done|lia..]. }
  apply HQ. split.
  - eapply frame_trans; eapply frame_weaken; try eassumption; lia.
  - apply (periodic_extend m5 d (d + 4) (d + 8) off (off + 4 - inc32table off)); try lia.
    + eapply periodic_frame; [apply Hp4|exact Hf5|lia..].
    + apply copied_shifted in H5; [|lia]. replace (d + 8) with (d + 4 + 4) by lia.
      replace (off + 4 - inc32table off) with (d + 4 - (d - off + inc32table off)) by lia.
      done.
    + destruct Hc as [?|(c & ? & ? & ? & ?)]; [left; lia|right; exists c; lia].
Qed.

Lemma wp_LZ4_memcpy_using_offset_base d e off Q m :
  let n := 8 + wild 8 (e - (d + 8)) in
  0 <= off -> mapped m (d - off) (off + n) ->
  (forall m', match_post m m' d off n -> Q tt m') ->
  wp (LZ4_memcpy_using_offset_base d (d - off) e off) Q m.
Proof.
  intros n Ho Hm HQ. pose proof (wild_ge 8 (e - (d + 8)) ltac:(lia)) as [Hn _].
  assert (forall g m1, match_post m m1 d off 8 -> 8 <= g <= off + 8 ->
    (off = 0 /\ g <= 8 \/
     exists c : nat, (1 <= c)%nat /\ 0 < off /\ g = Z.of_nat c * off /\ g - off <= 8) ->
    wp (LZ4_wildCopy8 (d + 8) (d + 8 - g) e) Q m1) as Hrest.
  { intros g m1 [Hf1 Hp1] Hg Hc.
    assert (mapped m1 (d - off) (off + n)) as Hm1 by by eapply frame_mapped.
    apply wp_wildCopy8.
    - apply (mapped_sub _ (d - off) (off + n)); [done|lia..].
    - apply (mapped_sub _ (d - off) (off + n)); [done|lia..].
    - lia.
    - intros m2 [Hf2 Hs2]. replace (d + 8 + wild 8 (e - (d + 8))) with (d + n) in * by lia.
      replace (d + 8 - (d + 8 - g)) with g in Hs2 by lia. apply HQ. split.
      + eapply frame_trans; eapply frame_weaken; try eassumption; lia.
      + apply (periodic_extend m2 d (d + 8) (d + n) off g); try lia; [|done|].
        * eapply periodic_frame; [apply Hp1|exact Hf2|lia..].
        * destruct Hc as [?|(c & ? & ? & ? & ?)]; [left; lia|right; exists c; lia]. }
  unfold LZ4_memcpy_using_offset_base. apply wp_bind. zcase.
  - apply wp_copy_small_offset; [lia|eapply mapped_sub; eauto; lia|].
    intros m1 H1. destruct (far_offset_ok off) as [Hg Hc]; [lia|]. by apply Hrest.
  - apply wp_bind, memcpy_stride; [lia|eapply mapped_sub; eauto; lia..|lia|].
    intros m1 [Hf1 Hs1]. apply wp_ret.
    replace (d - off + 8) with (d + 8 - off) by lia.
    replace (d - (d - off)) with off in Hs1 by lia.
    apply Hrest; [|lia|right; exists 1%nat; lia].
    split; [done|]. by apply shifted_periodic; [lia|].
Qed.

(** A pattern of 8 bytes, whose period divides 8, stored over and over. *)
Lemma wp_pattern_loop v d e Q m :
  zlen v = 8 -> mapped m d (wild 8 (e - d)) ->
  (forall m' n, frame d (d + n) m m' -> e <= d + n -> 0 <= n <= wild 8 (e - d) ->
     (forall i, d <= i < d + n -> m' !! i = v !! Z.to_nat ((i - d) mod 8)) -> Q tt m') ->
  wp (pattern_loop v d e) Q m.
Proof.
  intros Hv Hm HQ.
  apply (wp_loop (fun d' m' => exists j, 0 <= j /\ d' = d + 8 * j /\ (j = 0 \/ 8 * (j - 1) < e - d) /\
      frame d d' m m' /\ forall i, d <= i < d' -> m' !! i = v !! Z.to_nat ((i - d) mod 8))
    (fun d' => Z.max 0 (e - d'))).
  - intros d' m' (j & Hj & -> & Hlt & Hf & Hv'). split; [lia|]. zcase.
    + assert (8 * j + 8 <= wild 8 (e - d)).
      { unfold wild. assert (j + 1 <= (e - d + 8 - 1) / 8) by (apply Z.div_le_lower_bound; lia).
        lia. }
      apply wp_bind, wp_store_bytes_holds.
      { rewrite Hv. apply (mapped_sub _ d (wild 8 (e - d))); [by eapply frame_mapped|lia..]. }
      intros m2 Hf2 Hh. rewrite Hv in *. apply wp_ret. split; [|lia].
      exists (j + 1). split; [lia|]. split; [lia|]. split; [lia|]. split.
      * eapply frame_trans; eapply frame_weaken; try eassumption; lia.
      * intros i Hi. destruct (Z.lt_ge_cases i (d + 8 * j)).
        -- destruct Hf2 as [Hf2 _]. rewrite Hf2 by lia. apply Hv'. lia.
        -- rewrite (holds_at _ _ _ _ Hh) by lia. f_equal. f_equal.
           apply (Z.mod_unique_pos _ _ j); lia.
    + apply wp_ret. apply (HQ _ (8 * j)); try done; try lia.
      split; [lia|]. destruct (Z.eq_dec j 0); [unfold wild; lia|].
      unfold wild. assert (j <= (e - d + 8 - 1) / 8) by (apply Z.div_le_lower_bound; lia). lia.
  - exists 0. rewrite Z.mul_0_r, Z.add_0_r. do 4 (split; [first [lia|auto with lz4]|]).
    intros i Hi. lia.
  - unfold copy_fuel. lia.
Qed.

Lemma pattern_periodic (v p : list Z) d n off (m : mem) :
  0 < off -> zlen p = off -> holds m (d - off) p ->
  (forall j, 0 <= j < 8 -> v !! Z.to_nat j = p !! Z.to_nat (j mod off)) ->
  8 mod off = 0 ->
  (forall i, d <= i < d + n -> m !! i = v !! Z.to_nat ((i - d) mod 8)) ->
  periodic m d (d + n) off.
Proof.
  intros Ho Hl Hp Hv Hdiv H. apply shifted_periodic; [done|]. intros i Hi.
  assert (forall x, ((x mod 8) mod off) = x mod off) as Hmm.
  { intros x. apply Z.mod_divide in Hdiv as [q Hq]; [|lia].
    apply (Z.mod_unique_pos _ _ ((x / 8) * q + (x mod 8) / off)).
    - apply Z.mod_pos_bound. lia.
    - pose proof (Z.div_mod x 8 ltac:(lia)) as E1.
      pose proof (Z.div_mod (x mod 8) off ltac:(lia)) as E2.
      rewrite Z.mul_add_distr_l. replace (off * (x / 8 * q)) with (q * off * (x / 8)) by ring.
      rewrite <- Hq. lia. }
  pose proof (Z.mod_pos_bound (i - d) 8). pose proof (Z.mod_pos_bound (i - off - d) 8).
  rewrite H, Hv, Hmm by lia.
  destruct (Z.lt_ge_cases (i - off) d).
  - rewrite (holds_at _ _ _ _ Hp) by lia. f_equal. f_equal. rewrite Z.mod_small; lia.
  - rewrite (H (i - off)), Hv, Hmm by lia. f_equal. f_equal.
    replace (i - off - d) with (i - d + (-1) * off) by lia. by rewrite Z.mod_add by lia.
Qed.

Lemma wp_LZ4_memcpy_using_offset d e off Q m :
  let n := 8 + wild 8 (e - (d + 8)) in
  0 <= off -> mapped m (d - off) (off + n) ->
  (forall m' k, match_post m m' d off k -> e <= d + k -> k <= n -> Q tt m') ->
  wp (LZ4_memcpy_using_offset d (d - off) e off) Q m.
Proof.
  intros n Ho Hm HQ. pose proof (wild_ge 8 (e - (d + 8)) ltac:(lia)) as [Hn1 Hn2].
  assert (forall v p, 0 < off -> zlen v = 8 -> zlen p = off -> holds m (d - off) p ->
    (forall j, 0 <= j < 8 -> v !! Z.to_nat j = p !! Z.to_nat (j mod off)) -> 8 mod off = 0 ->
    wp (store_bytes d v;; pattern_loop v (d + 8) e) Q m) as Hfill.
  { intros v p Ho' Hv Hp Hh Hj Hdiv.
    apply wp_bind, wp_store_bytes_holds; [apply (mapped_sub _ (d - off) (off + n)); [done|lia..]|].
    intros m1 Hf1 Hh1. rewrite Hv in *.
    assert (mapped m1 (d - off) (off + n)) as Hm1 by by eapply frame_mapped.
    apply wp_pattern_loop; [done|apply (mapped_sub _ (d - off) (off + n)); [done|lia..]|].
    intros m2 k Hf2 He Hk Hpat. apply (HQ _ (8 + k)); [|lia..].
    assert (frame d (d + (8 + k)) m m2) as Hf.
    { eapply frame_trans; eapply frame_weaken; try eassumption; lia. }
    split; [done|].
    apply (pattern_periodic v p); [done|done| |done|done|].
    - eapply frame_holds; [exact Hf|lia|done].
    - intros i Hi. destruct (Z.lt_ge_cases i (d + 8)).
      + destruct Hf2 as [Hf2 _]. rewrite Hf2 by lia. rewrite (holds_at _ _ _ _ Hh1) by lia.
        by rewrite Z.mod_small by lia.
      + rewrite Hpat by lia. f_equal. f_equal.
        replace (i - (d + 8)) with (i - d + (-1) * 8) by lia. by rewrite Z.mod_add by lia. }
  unfold LZ4_memcpy_using_offset.
  assert (forall j : Z, 0 <= j < 8 ->
    j = 0 \/ j = 1 \/ j = 2 \/ j = 3 \/ j = 4 \/ j = 5 \/ j = 6 \/ j = 7) as Hj by lia.
  destruct (mapped_holds m (d - off) off) as (p & Hh & Hp); [lia|eapply mapped_sub; eauto; lia|].
  destruct (Z.eqb_spec off 1) as [->|]; [|destruct (Z.eqb_spec off 2) as [->|];
    [|destruct (Z.eqb_spec off 4) as [->|]]].
  - destruct p as [|b [|]]; try zl.
    apply wp_bind. eapply wp_loadb; [apply holds_cons in Hh; apply Hh|].
    apply (Hfill _ [b]); try (done || lia).
    intros j H. by destruct (Hj j H) as [->|[->|[->|[->|[->|[->|[->| ->]]]]]]].
  - apply wp_bind. rewrite <- Hp at 2. apply wp_load_bytes; [done|].
    destruct p as [|a [|b [|]]]; try zl.
    apply (Hfill _ [a; b]); try (done || lia).
    intros j H. by destruct (Hj j H) as [->|[->|[->|[->|[->|[->|[->| ->]]]]]]].
  - apply wp_bind. rewrite <- Hp at 2. apply wp_load_bytes; [done|].
    destruct p as [|a [|b [|c [|d' [|]]]]];
      try zl.
    apply (Hfill _ [a; b; c; d']); try (done || lia).
    intros j H. by destruct (Hj j H) as [->|[->|[->|[->|[->|[->|[->| ->]]]]]]].
  - apply wp_LZ4_memcpy_using_offset_base; [done|done|]. intros m' H. apply (HQ _ n); [done|lia..].
Qed.
