(* ===== verification/Lz4Decompress.v ===== *)
(** lib/lz4.c, "Decompression functions": [LZ4_decompress_generic] with its
    fast loop, its safe loop and the gotos between them, and the entry points
    that instantiate it.  A label of the C function is a constructor of
    [dlabel]; the code from a label to the next jump is one definition. *)
From S2P Require Import Prelude.
From S2P Require Import Mem.
From S2P Require Import Lz4Common.

Inductive earlyEnd_directive := decode_full_block | partial_decode.
Inductive dict_directive := noDict | withPrefix64k | usingExtDict | usingDictCtx.

#[export] Instance dict_directive_eq_dec : EqDecision dict_directive.
Proof. solve_decision. Defined.

Definition NULL : Z := 0.
Definition sizeof_size_t : Z := 8.

(** * Variable-length integers *)

Definition rvl_error : Z := u64 (-1).

(** The accumulator test of 32-bit targets. *)
Definition rvl_overflow (length : Z) : bool :=
  (sizeof_size_t <? 8) && (rvl_error / 2 <? length).

Definition rvl_step (ilimit : Z) (p : Z * Z) : M (Z * Z + Z * Z) :=
  let '(ip, length) := p in
  s ← loadb ip;
  let ip := ip + 1 in
  let length := u64 (length + s) in
  if ilimit <? ip then mret (inr (rvl_error, ip))
  else if rvl_overflow length then mret (inr (rvl_error, ip))
  else if s =? 255 then mret (inl (ip, length))
  else mret (inr (length, ip)).

(** The result is the length, or [rvl_error], and the new input pointer. *)
Definition read_variable_length (ip ilimit : Z) (initial_check : bool) : M (Z * Z) :=
  if initial_check && (ilimit <=? ip) then mret (rvl_error, ip) else
  s ← loadb ip;
  let ip := ip + 1 in
  let length := s in
  if ilimit <? ip then mret (rvl_error, ip)
  else if rvl_overflow length then mret (rvl_error, ip)
  else if negb (s =? 255) then mret (length, ip)
  else loop (S (Z.to_nat (ilimit + 1 - ip))) (rvl_step ilimit) (ip, length).

(** * The generic decoder *)

(** The constant parameters of one call. *)
Record dparams := DParams {
  p_src : Z; p_iend : Z; p_dst : Z; p_oend : Z;
  p_partial : bool; p_dict : dict_directive;
  p_lowPrefix : Z; p_dictStart : Z; p_dictSize : Z }.

Definition dictEnd (p : dparams) : Z :=
  if p_dictStart p =? NULL then NULL else p_dictStart p + p_dictSize p.
Definition checkOffset (p : dparams) : bool := p_dictSize p <? 64 * KB.
Definition shortiend (p : dparams) : Z := p_iend p - 14 - 2.
Definition shortoend (p : dparams) : Z := p_oend p - 14 - 18.

(** The local variables that live across labels. *)
Record dstate := DState {
  d_ip : Z; d_op : Z; d_token : Z; d_length : Z; d_offset : Z; d_match : Z }.

Inductive dlabel :=
| fast_loop | safe_decode | safe_literal_copy | copy_match_label | safe_match_copy.

(** Where control goes next: a label with the local variables, or the value
    the function returns. *)
Abbreviation dnext := ((dlabel * dstate) + Z)%type.

Definition goto (l : dlabel) (s : dstate) : M dnext := mret (inl (l, s)).

Definition output_error (p : dparams) (ip : Z) : M dnext :=
  mret (inr (s32 (- (ip - p_src p)) - 1)).

Definition decoded (p : dparams) (op : Z) : M dnext :=
  mret (inr (s32 (op - p_dst p))).

(** [while (op < end) *op++ = *from++;] *)
Definition byte_copy_loop (op endp from : Z) : M unit :=
  loop (S (Z.to_nat (endp - op)))
    (fun q => let '(op, from) := q in
       if op <? endp then copy_byte op from;; mret (inl (op + 1, from + 1))
       else mret (inr tt))
    (op, from).

(** The three constant-size copies of a match of at most 18 bytes. *)
Definition copy18 (op mtch : Z) : M unit :=
  memcpy op mtch 8;; memcpy (op + 8) (mtch + 8) 8;; memcpy (op + 16) (mtch + 16) 2.

(** A match that starts within the external dictionary; [k] is the loop that
    goes on. *)
Definition extdict_match (p : dparams) (k : dlabel) (st : dstate) : M dnext :=
  let op := d_op st in
  let mtch := d_match st in
  let length := d_length st in
  if (p_oend p - LASTLITERALS <? op + length) && negb (p_partial p)
  then output_error p (d_ip st) else
  let length := if p_oend p - LASTLITERALS <? op + length
                then Z.min length (p_oend p - op) else length in
  if length <=? p_lowPrefix p - mtch then
    memmove op (dictEnd p - (p_lowPrefix p - mtch)) length;;
    goto k (DState (d_ip st) (op + length) (d_token st) length (d_offset st) mtch)
  else
    let copySize := p_lowPrefix p - mtch in
    let restSize := length - copySize in
    memcpy op (dictEnd p - copySize) copySize;;
    let op := op + copySize in
    (if op - p_lowPrefix p <? restSize
     then byte_copy_loop op (op + restSize) (p_lowPrefix p)
     else memcpy op (p_lowPrefix p) restSize);;
    goto k (DState (d_ip st) (op + restSize) (d_token st) length (d_offset st) mtch).

Definition in_extdict (p : dparams) (mtch : Z) : bool :=
  bool_decide (p_dict p = usingExtDict) && (mtch <? p_lowPrefix p).

Definition prefix_or_above (p : dparams) (mtch : Z) : bool :=
  bool_decide (p_dict p = withPrefix64k) || (p_lowPrefix p <=? mtch).

(** The fast loop once the match is known to end well before the output. *)
Definition fast_match_copy (p : dparams) (st : dstate) : M dnext :=
  let op := d_op st in
  let mtch := d_match st in
  if checkOffset p && (mtch + p_dictSize p <? p_lowPrefix p)
  then output_error p (d_ip st)
  else if in_extdict p mtch then extdict_match p fast_loop st
  else
    let cpy := op + d_length st in
    (if d_offset st <? 16
     then LZ4_memcpy_using_offset op mtch cpy (d_offset st)
     else LZ4_wildCopy32 op mtch cpy);;
    goto fast_loop (DState (d_ip st) cpy (d_token st) (d_length st) (d_offset st) mtch).

(** The fast loop after the literals were copied. *)
Definition fast_match (p : dparams) (ip op token : Z) : M dnext :=
  offset ← LZ4_readLE16 ip;
  let ip := ip + 2 in
  let mtch := op - offset in
  let length := Z.land token ML_MASK in
  if length =? ML_MASK then
    r ← read_variable_length ip (p_iend p - LASTLITERALS + 1) false;
    let '(addl, ip) := r in
    if addl =? rvl_error then output_error p ip else
    let length := u64 (length + addl) in
    let length := u64 (length + MINMATCH) in
    if u64 (op + length) <? op then output_error p ip else
    let st := DState ip op token length offset mtch in
    if p_oend p - FASTLOOP_SAFE_DISTANCE <=? op + length then goto safe_match_copy st
    else fast_match_copy p st
  else
    let length := length + MINMATCH in
    let st := DState ip op token length offset mtch in
    if p_oend p - FASTLOOP_SAFE_DISTANCE <=? op + length then goto safe_match_copy st
    else if prefix_or_above p mtch && (8 <=? offset) then
      copy18 op mtch;;
      goto fast_loop (DState ip (op + length) token length offset mtch)
    else fast_match_copy p st.

(** One iteration of the fast loop. *)
Definition fast_loop_body (p : dparams) (st : dstate) : M dnext :=
  let ip := d_ip st in
  let op := d_op st in
  token ← loadb ip;
  let ip := ip + 1 in
  let length := Z.shiftr token ML_BITS in
  if length =? RUN_MASK then
    r ← read_variable_length ip (p_iend p - RUN_MASK) true;
    let '(addl, ip) := r in
    if addl =? rvl_error then output_error p ip else
    let length := u64 (length + addl) in
    if u64 (op + length) <? op then output_error p ip else
    if u64 (ip + length) <? ip then output_error p ip else
    if (p_oend p - 32 <? op + length) || (p_iend p - 32 <? ip + length) then
      goto safe_literal_copy (DState ip op token length (d_offset st) (d_match st))
    else
      LZ4_wildCopy32 op ip (op + length);;
      fast_match p (ip + length) (op + length) token
  else if ip <=? p_iend p - (16 + 1) then
    memcpy op ip 16;;
    fast_match p (ip + length) (op + length) token
  else goto safe_literal_copy (DState ip op token length (d_offset st) (d_match st)).

(** One iteration of the safe loop, up to the literals. *)
Definition safe_loop_body (p : dparams) (st : dstate) : M dnext :=
  let ip := d_ip st in
  let op := d_op st in
  token ← loadb ip;
  let ip := ip + 1 in
  let length := Z.shiftr token ML_BITS in
  if negb (length =? RUN_MASK) && ((ip <? shortiend p) && (op <=? shortoend p)) then
    memcpy op ip 16;;
    let op := op + length in
    let ip := ip + length in
    let length := Z.land token ML_MASK in
    offset ← LZ4_readLE16 ip;
    let ip := ip + 2 in
    let mtch := op - offset in
    if negb (length =? ML_MASK) && (8 <=? offset) && prefix_or_above p mtch then
      copy18 op mtch;;
      goto safe_decode (DState ip (op + (length + MINMATCH)) token length offset mtch)
    else goto copy_match_label (DState ip op token length offset mtch)
  else if length =? RUN_MASK then
    r ← read_variable_length ip (p_iend p - RUN_MASK) true;
    let '(addl, ip) := r in
    if addl =? rvl_error then output_error p ip else
    let length := u64 (length + addl) in
    if u64 (op + length) <? op then output_error p ip else
    if u64 (ip + length) <? ip then output_error p ip else
    goto safe_literal_copy (DState ip op token length (d_offset st) (d_match st))
  else goto safe_literal_copy (DState ip op token length (d_offset st) (d_match st)).

(** The read of the offset that follows the literals in the safe loop. *)
Definition get_offset (ip op token : Z) : M dnext :=
  offset ← LZ4_readLE16 ip;
  goto copy_match_label
    (DState (ip + 2) op token (Z.land token ML_MASK) offset (op - offset)).

Definition safe_literal_copy_body (p : dparams) (st : dstate) : M dnext :=
  let ip := d_ip st in
  let op := d_op st in
  let length := d_length st in
  let cpy := op + length in
  if (p_oend p - MFLIMIT <? cpy) || (p_iend p - (2 + 1 + LASTLITERALS) <? ip + length) then
    if negb (p_partial p) && (negb (ip + length =? p_iend p) || (p_oend p <? cpy))
    then output_error p ip else
    (* finishing in the middle of a literals segment, due to lack of input *)
    let '(length, cpy) :=
      if p_partial p && (p_iend p <? ip + length)
      then (p_iend p - ip, op + (p_iend p - ip)) else (length, cpy) in
    (* finishing in the middle of a literals segment, due to lack of output space *)
    let '(length, cpy) :=
      if p_partial p && (p_oend p <? cpy) then (p_oend p - op, p_oend p) else (length, cpy) in
    memmove op ip length;;
    let ip := ip + length in
    let op := op + length in
    if negb (p_partial p) || (cpy =? p_oend p) || (p_iend p - 2 <=? ip)
    then decoded p op
    else get_offset ip op (d_token st)
  else
    LZ4_wildCopy8 op ip cpy;;
    get_offset (ip + length) cpy (d_token st).

Definition copy_match_body (p : dparams) (st : dstate) : M dnext :=
  let length := d_length st in
  if length =? ML_MASK then
    r ← read_variable_length (d_ip st) (p_iend p - LASTLITERALS + 1) false;
    let '(addl, ip) := r in
    if addl =? rvl_error then output_error p ip else
    let length := u64 (length + addl) in
    if u64 (d_op st + length) <? d_op st then output_error p ip else
    goto safe_match_copy
      (DState ip (d_op st) (d_token st) (u64 (length + MINMATCH)) (d_offset st) (d_match st))
  else
    goto safe_match_copy
      (DState (d_ip st) (d_op st) (d_token st) (length + MINMATCH) (d_offset st) (d_match st)).

(** The end of a partial decoding, which may stop anywhere within a match. *)
Definition partial_match (p : dparams) (st : dstate) : M dnext :=
  let op := d_op st in
  let mtch := d_match st in
  let mlen := Z.min (d_length st) (p_oend p - op) in
  let matchEnd := mtch + mlen in
  let copyEnd := op + mlen in
  (if op <? matchEnd then byte_copy_loop op copyEnd mtch else memcpy op mtch mlen);;
  if copyEnd =? p_oend p then decoded p copyEnd
  else goto safe_decode
    (DState (d_ip st) copyEnd (d_token st) (d_length st) (d_offset st) mtch).

(** The match after its first 8 bytes, with the match pointer [mtch] that
    continues it: careful near the end of the output, wild elsewhere. *)
Definition block_match_tail (p : dparams) (st : dstate) (mtch : Z) : M dnext :=
  let cpy := d_op st + d_length st in
  let op := d_op st + 8 in
  let st' := DState (d_ip st) cpy (d_token st) (d_length st) (d_offset st) mtch in
  if p_oend p - MATCH_SAFEGUARD_DISTANCE <? cpy then
    let oCopyLimit := p_oend p - (WILDCOPYLENGTH - 1) in
    if p_oend p - LASTLITERALS <? cpy then output_error p (d_ip st) else
    if op <? oCopyLimit then
      LZ4_wildCopy8 op mtch oCopyLimit;;
      byte_copy_loop oCopyLimit cpy (mtch + (oCopyLimit - op));;
      goto safe_decode st'
    else
      byte_copy_loop op cpy mtch;;
      goto safe_decode st'
  else
    memcpy op mtch 8;;
    (if 16 <? d_length st then LZ4_wildCopy8 (op + 8) (mtch + 8) cpy else mret tt);;
    goto safe_decode st'.

Definition block_match (p : dparams) (st : dstate) : M dnext :=
  mtch ← (if d_offset st <? 8 then copy_small_offset (d_op st) (d_match st) (d_offset st)
          else memcpy (d_op st) (d_match st) 8;; mret (d_match st + 8));
  block_match_tail p st mtch.

Definition safe_match_copy_body (p : dparams) (st : dstate) : M dnext :=
  let mtch := d_match st in
  if checkOffset p && (mtch + p_dictSize p <? p_lowPrefix p)
  then output_error p (d_ip st)
  else if in_extdict p mtch then extdict_match p safe_decode st
  else if p_partial p &&
          (p_oend p - MATCH_SAFEGUARD_DISTANCE <? d_op st + d_length st)
  then partial_match p st
  else block_match p st.

Definition dec_step (p : dparams) (c : dlabel * dstate) : M dnext :=
  let '(l, st) := c in
  match l with
  | fast_loop => fast_loop_body p st
  | safe_decode => safe_loop_body p st
  | safe_literal_copy => safe_literal_copy_body p st
  | copy_match_label => copy_match_body p st
  | safe_match_copy => safe_match_copy_body p st
  end.

(** Every label but the two loop heads is reached at most once per token, and
    a token consumes at least one byte of input. *)
Definition dec_fuel (srcSize : Z) : nat := Z.to_nat (5 * srcSize + 1).

Definition LZ4_decompress_generic (src dst srcSize outputSize : Z)
    (partialDecoding : earlyEnd_directive) (dict : dict_directive)
    (lowPrefix dictStart dictSize : Z) : M Z :=
  let partial := match partialDecoding with partial_decode => true | _ => false end in
  if (src =? NULL) || (outputSize <? 0) then mret (-1) else
  let p := DParams src (src + srcSize) dst (dst + outputSize) partial dict
             lowPrefix dictStart dictSize in
  if outputSize =? 0 then
    if partial then mret 0
    else if srcSize =? 1 then b ← loadb src; mret (if b =? 0 then 0 else -1)
    else mret (-1)
  else if srcSize =? 0 then mret (-1)
  else
    let st := DState src dst 0 0 0 0 in
    if outputSize <? FASTLOOP_SAFE_DISTANCE
    then loop (dec_fuel srcSize) (dec_step p) (safe_decode, st)
    else loop (dec_fuel srcSize) (dec_step p) (fast_loop, st).

(** * Entry points *)

Definition LZ4_decompress_safe (source dest compressedSize maxDecompressedSize : Z) : M Z :=
  LZ4_decompress_generic source dest compressedSize maxDecompressedSize
    decode_full_block noDict dest NULL 0.

Definition LZ4_decompress_safe_partial (src dst compressedSize targetOutputSize dstCapacity : Z) : M Z :=
  let dstCapacity := Z.min targetOutputSize dstCapacity in
  LZ4_decompress_generic src dst compressedSize dstCapacity
    partial_decode noDict dst NULL 0.

Definition LZ4_decompress_safe_withPrefix64k (source dest compressedSize maxOutputSize : Z) : M Z :=
  LZ4_decompress_generic source dest compressedSize maxOutputSize
    decode_full_block withPrefix64k (dest - 64 * KB) NULL 0.

Definition LZ4_decompress_safe_partial_withPrefix64k
    (source dest compressedSize targetOutputSize dstCapacity : Z) : M Z :=
  let dstCapacity := Z.min targetOutputSize dstCapacity in
  LZ4_decompress_generic source dest compressedSize dstCapacity
    partial_decode withPrefix64k (dest - 64 * KB) NULL 0.

Definition LZ4_decompress_safe_withSmallPrefix
    (source dest compressedSize maxOutputSize prefixSize : Z) : M Z :=
  LZ4_decompress_generic source dest compressedSize maxOutputSize
    decode_full_block noDict (dest - prefixSize) NULL 0.

Definition LZ4_decompress_safe_partial_withSmallPrefix
    (source dest compressedSize targetOutputSize dstCapacity prefixSize : Z) : M Z :=
  let dstCapacity := Z.min targetOutputSize dstCapacity in
  LZ4_decompress_generic source dest compressedSize dstCapacity
    partial_decode noDict (dest - prefixSize) NULL 0.

Definition LZ4_decompress_safe_forceExtDict
    (source dest compressedSize maxOutputSize dictStart dictSize : Z) : M Z :=
  LZ4_decompress_generic source dest compressedSize maxOutputSize
    decode_full_block usingExtDict dest dictStart dictSize.

Definition LZ4_decompress_safe_partial_forceExtDict
    (source dest compressedSize targetOutputSize dstCapacity dictStart dictSize : Z) : M Z :=
  let dstCapacity := Z.min targetOutputSize dstCapacity in
  LZ4_decompress_generic source dest compressedSize dstCapacity
    partial_decode usingExtDict dest dictStart dictSize.

Definition LZ4_decompress_safe_doubleDict
    (source dest compressedSize maxOutputSize prefixSize dictStart dictSize : Z) : M Z :=
  LZ4_decompress_generic source dest compressedSize maxOutputSize
    decode_full_block usingExtDict (dest - prefixSize) dictStart dictSize.

Definition LZ4_decompress_safe_usingDict
    (source dest compressedSize maxOutputSize dictStart dictSize : Z) : M Z :=
  if dictSize =? 0
  then LZ4_decompress_safe source dest compressedSize maxOutputSize
  else if dictStart + dictSize =? dest then
    if 64 * KB - 1 <=? dictSize
    then LZ4_decompress_safe_withPrefix64k source dest compressedSize maxOutputSize
    else LZ4_decompress_safe_withSmallPrefix source dest compressedSize maxOutputSize dictSize
  else LZ4_decompress_safe_forceExtDict source dest compressedSize maxOutputSize dictStart dictSize.

Definition LZ4_decompress_safe_partial_usingDict
    (source dest compressedSize targetOutputSize dstCapacity dictStart dictSize : Z) : M Z :=
  if dictSize =? 0
  then LZ4_decompress_safe_partial source dest compressedSize targetOutputSize dstCapacity
  else if dictStart + dictSize =? dest then
    if 64 * KB - 1 <=? dictSize
    then LZ4_decompress_safe_partial_withPrefix64k source dest compressedSize
           targetOutputSize dstCapacity
    else LZ4_decompress_safe_partial_withSmallPrefix source dest compressedSize
           targetOutputSize dstCapacity dictSize
  else LZ4_decompress_safe_partial_forceExtDict source dest compressedSize
         targetOutputSize dstCapacity dictStart dictSize.
