(* ===== verification/Lz4DecodeSteps.v ===== *)
(** Specifications of the building blocks of the decoder: length fields, offset
    reads and match copies. *)
From S2P Require Import Prelude.
From S2P Require Import Mem.
From S2P Require Import BlockFormat.
From S2P Require Import Lz4Common.
From S2P Require Import Lz4CommonSpec.
From S2P Require Import Lz4Decompress.

(** * Length fields *)

Lemma parse_ext_nonneg l n r : bytes_ok l -> parse_ext l = Some (n, r) -> 0 <= n.
Proof.
  revert n. induction l as [|b l IH]; intros n Hb; simpl; [done|].
  apply bytes_ok_cons in Hb as [Hb Hl].
  destruct (Z.eqb_spec b 255); [|intros [= <- <-]; lia].
  destruct (parse_ext l) as [[k r']|] eqn:E; simpl; [|done].
  intros [= <- <-]. specialize (IH k Hl eq_refl). lia.
Qed.

(** A length field that starts with [k] bytes 255 has more than [k] bytes. *)
Lemma ext_bytes_longer k l n r :
  bytes_ok l -> 0 <= n -> replicate k 255 ++ l = ext_bytes n ++ r -> Z.of_nat k <= n / 255.
Proof.
  intros Hb Hn H. apply (f_equal parse_ext) in H.
  rewrite parse_ext_bytes, parse_ext_replicate in H by done.
  destruct (parse_ext l) as [[j r']|] eqn:E; [|done]. simpl in H. injection H as [= <- <-].
  apply parse_ext_nonneg in E; [|done]. apply Z.div_le_lower_bound; lia.
Qed.

Lemma ext_bytes_stop k b l :
  0 <= b < 255 -> replicate k 255 ++ b :: l = ext_bytes (255 * Z.of_nat k + b) ++ l.
Proof.
  intros Hb. unfold ext_bytes. rewrite <- app_assoc.
  replace ((255 * Z.of_nat k + b) / 255) with (Z.of_nat k) by (Z.div_mod_to_equations; lia).
  replace ((255 * Z.of_nat k + b) mod 255) with b by (Z.div_mod_to_equations; lia).
  by rewrite Nat2Z.id.
Qed.

(** The exact result of reading a length field: the length when a complete
    field ends at or before the limit, an error otherwise. *)
Definition rvl_post (ip ilimit : Z) (rest : list Z) (Q : Z * Z -> mem -> Prop) (m : mem) : Prop :=
  (forall n rest', rest = ext_bytes n ++ rest' -> 0 <= n ->
     ip + zlen (ext_bytes n) <= ilimit -> Q (n, ip + zlen (ext_bytes n)) m) /\
  (forall ip', ip <= ip' <= ip + zlen rest ->
     (forall n rest', 0 <= n -> rest = ext_bytes n ++ rest' ->
        ilimit < ip + zlen (ext_bytes n)) -> Q (rvl_error, ip') m).

Lemma rvl_overflow_false n : rvl_overflow n = false.
Proof. done. Qed.

(** One byte of the field: what is known after it. *)
Lemma rvl_stop ip ilimit rest Q m k b l :
  bytes_ok rest -> rest = replicate k 255 ++ b :: l -> rvl_post ip ilimit rest Q m ->
  (ilimit < ip + Z.of_nat k + 1 -> Q (rvl_error, ip + Z.of_nat k + 1) m) /\
  (ip + Z.of_nat k + 1 <= ilimit -> b <> 255 ->
     Q (255 * Z.of_nat k + b, ip + Z.of_nat k + 1) m).
Proof.
  intros Hb -> [Hok Herr]. apply bytes_ok_app in Hb as [_ Hb]. split.
  - intros Hlim. apply Herr; [zl|]. intros n rest' Hn E.
    apply ext_bytes_longer in E; [|done..]. rewrite zlen_ext_bytes by done. lia.
  - intros Hlim Hne. apply bytes_ok_cons in Hb as [Hb _].
    assert (zlen (ext_bytes (255 * Z.of_nat k + b)) = Z.of_nat k + 1) as El.
    { rewrite zlen_ext_bytes by lia. Z.div_mod_to_equations; lia. }
    replace (ip + Z.of_nat k + 1) with (ip + zlen (ext_bytes (255 * Z.of_nat k + b))) by lia.
    eapply Hok; [by apply ext_bytes_stop; lia|lia|lia].
Qed.

Lemma wp_read_variable_length ip ilimit ic rest Q m :
  holds m ip rest -> bytes_ok rest -> zlen rest <= int_max ->
  ilimit < ip + zlen rest -> (ic = true \/ rest <> []) ->
  rvl_post ip ilimit rest Q m ->
  wp (read_variable_length ip ilimit ic) Q m.
Proof.
  intros Hh Hb Hlen Hlim Hne HQ. unfold read_variable_length.
  destruct (ic && (ilimit <=? ip)) eqn:E.
  { apply andb_prop in E as [-> E]. apply Z.leb_le in E. apply wp_ret.
    apply HQ; [zl|]. intros n r Hn _. rewrite zlen_ext_bytes by done.
    assert (0 <= n / 255) by (by apply Z.div_pos). lia. }
  destruct rest as [|b rest].
  { destruct Hne as [->|?]; [|done]. rewrite zlen_nil in *. simpl in E.
    apply Z.leb_gt in E. lia. }
  pose proof Hh as [Hb0 Hh']%holds_cons. apply wp_bind. eapply wp_loadb; [exact Hb0|].
  pose proof (rvl_stop ip ilimit (b :: rest) Q m 0 b rest Hb eq_refl HQ) as [Herr Hok].
  rewrite Z.add_0_r, Z.mul_0_r in *.
  zcase; [apply wp_ret; auto|]. rewrite rvl_overflow_false.
  destruct (Z.eqb_spec b 255) as [->|]; simpl; [|apply wp_ret; apply Hok; lia].
  apply (wp_loop (fun q m' => m' = m /\ exists k rest', (1 <= k)%nat /\
      255 :: rest = replicate k 255 ++ rest' /\ q = (ip + Z.of_nat k, 255 * Z.of_nat k) /\
      ip + Z.of_nat k <= ilimit)
    (fun q => ilimit - fst q)).
  - intros q m' (-> & k & rest' & Hk & Er & -> & Hki). split; [simpl; lia|].
    unfold rvl_step. rewrite Er in *. apply holds_app in Hh as [_ Hh].
    rewrite zlen_replicate in Hh. destruct rest' as [|c rest'].
    { rewrite app_nil_r, zlen_replicate in *. lia. }
    apply holds_cons in Hh as [Hc _]. apply wp_bind. eapply wp_loadb; [exact Hc|].
    pose proof (rvl_stop ip ilimit _ Q m k c rest' Hb eq_refl HQ) as [Herr' Hok'].
    apply bytes_ok_app in Hb as [_ Hb]. apply bytes_ok_cons in Hb as [Hb _].
    rewrite zlen_app, zlen_replicate, zlen_cons in Hlen. pose proof (zlen_nonneg rest').
    rewrite u64_small by (unfold int_max in *; lia).
    zcase; [apply wp_ret; auto|]. rewrite rvl_overflow_false.
    destruct (Z.eqb_spec c 255) as [->|]; apply wp_ret.
    + split; [|simpl; lia]. split; [done|]. exists (S k), rest'.
      split; [lia|]. split; [by rewrite replicate_S_end, <- app_assoc|].
      split; [f_equal; lia|lia].
    + apply Hok'; lia.
  - split; [done|]. exists 1%nat, rest. split; [lia|]. split; [done|].
    split; [f_equal; lia|lia].
  - simpl. lia.
Qed.

Lemma wp_LZ4_readLE16 ip lo hi rest Q m :
  holds m ip (lo :: hi :: rest) -> Q (lo + 256 * hi) m -> wp (LZ4_readLE16 ip) Q m.
Proof.
  intros Hh HQ. unfold LZ4_readLE16, LZ4_isLittleEndian, LZ4_read16. apply wp_bind.
  change (lo :: hi :: rest) with ([lo; hi] ++ rest) in Hh.
  apply holds_app in Hh as [Hh _]. apply (wp_load_bytes ip [lo; hi]); [done|].
  apply wp_ret. simpl. replace (hi + 256 * 0) with hi by lia. done.
Qed.

(** * Match copies *)

Lemma wp_byte_copy_loop op endp from Q m :
  from <= op -> op <= endp -> mapped m from (endp - from) ->
  (forall m', frame op endp m m' -> (from < op -> shifted m' op endp (op - from)) -> Q tt m') ->
  wp (byte_copy_loop op endp from) Q m.
Proof.
  intros Hfo Hoe Hm HQ.
  apply (wp_loop (fun q m' => exists k, 0 <= k /\ q = (op + k, from + k) /\ op + k <= endp /\
      frame op endp m m' /\ (from < op -> shifted m' op (op + k) (op - from)))
    (fun q => endp - fst q)).
  - intros q m' (k & Hk & -> & Hke & Hf & Hs). split; [simpl; lia|]. zcase.
    + assert (mapped m' from (endp - from)) as Hm' by by eapply frame_mapped.
      apply wp_bind, wp_copy_byte; [apply Hm'; lia..|]. intros m2 Hc. apply wp_ret.
      split; [|simpl; lia]. exists (k + 1). split; [lia|]. split; [f_equal; lia|].
      split; [lia|]. split.
      * eapply frame_trans; [done|]. eapply frame_weaken; [eapply copied_frame; [done|]|lia..].
        intros i Hi. apply Hm'. lia.
      * intros Hlt i Hi. destruct (Z.eq_dec i (op + k)) as [->|].
        -- rewrite (copied_at _ _ _ _ _ _ Hc) by lia.
           rewrite (copied_ne _ _ _ _ _ (op + k - (op - from)) Hc) by lia. f_equal. lia.
        -- rewrite (copied_ne _ _ _ _ _ i Hc) by lia.
           rewrite (copied_ne _ _ _ _ _ (i - (op - from)) Hc) by lia. apply Hs; lia.
    + apply wp_ret. replace (op + k) with endp in * by lia. by apply HQ.
  - exists 0. rewrite !Z.add_0_r. do 4 (split; [first [lia|auto with lz4]|]).
    intros _ i Hi. lia.
  - simpl. lia.
Qed.

Lemma copy_post_extend m m1 m2 d s n k :
  0 <= d - s -> 0 <= n -> 0 <= k ->
  copy_post m m1 d s n -> copy_post m1 m2 (d + n) (s + n) k -> copy_post m m2 d s (n + k).
Proof.
  intros Hds Hn Hk [Hf1 Hs1] [Hf2 Hs2]. split.
  - eapply frame_trans; eapply frame_weaken; try eassumption; lia.
  - intros i Hi. destruct (Z.lt_ge_cases i (d + n)).
    + destruct Hf2 as [Hf2 _]. rewrite !Hf2 by lia. apply Hs1. lia.
    + rewrite Hs2 by lia. f_equal. lia.
Qed.

Lemma wp_copy18 op off Q m :
  8 <= off -> mapped m (op - off) (off + 18) ->
  (forall m', match_post m m' op off 18 -> Q tt m') -> wp (copy18 op (op - off)) Q m.
Proof.
  intros Ho Hm HQ. unfold copy18.
  assert (forall m' a n, frame op (op + 18) m m' -> op - off <= a -> a + n <= op + 18 ->
    mapped m' a n) as Hmap.
  { intros m' a n Hf ? ?. apply (mapped_sub _ (op - off) (off + 18)); [|lia..].
    by eapply frame_mapped. }
  apply wp_bind, memcpy_stride; [lia|apply Hmap; auto with lz4 lia; lia..|lia|].
  intros m1 H1. pose proof H1 as [Hf1 _]. apply (frame_weaken _ _ op (op + 18)) in Hf1; [|lia..].
  apply wp_bind, memcpy_stride; [lia|apply Hmap; [done|lia..]..|lia|].
  intros m2 H2. apply (copy_post_extend m m1) in H2; [|lia..|done].
  pose proof H2 as [Hf2 _]. apply (frame_weaken _ _ op (op + 18)) in Hf2; [|lia..].
  apply memcpy_stride; [lia|apply Hmap; [done|lia..]..|lia|].
  intros m3 H3. apply (copy_post_extend m m2) in H3; [|lia..|done].
  destruct H3 as [Hf3 Hs3]. apply HQ. split; [exact Hf3|].
  apply shifted_periodic; [lia|]. replace off with (op - (op - off)) by lia. exact Hs3.
Qed.
