(* ===== verification/Lz4DecodeInv.v ===== *)
(** The invariant of the block decoder: which part of the input has been
    parsed, what the output holds, and what a well-formed rest of the input
    still promises. *)
From S2P Require Import Prelude.
From S2P Require Import Mem.
From S2P Require Import BlockFormat.
From S2P Require Import Lz4Common.
From S2P Require Import Lz4CommonSpec.
From S2P Require Import Lz4Decompress.
From S2P Require Import Lz4DecodeSteps.

(** * The memory a call is given

    [srcl] is the compressed block, [pre] the bytes in front of the output
    that matches may reach, [dictl] the external dictionary in front of them. *)
Record dec_env (p : dparams) (srcl dictl pre : list Z) (m0 : mem) : Prop := DecEnv {
  e_src : holds m0 (p_src p) srcl;
  e_bytes : bytes_ok srcl;
  e_iend : p_iend p = p_src p + zlen srcl;
  e_isize : zlen srcl <= int_max;
  e_pre : holds m0 (p_dst p - zlen pre) pre;
  e_dst : p_dst p <= p_oend p;
  e_osize : p_oend p - p_dst p <= int_max;
  e_out : mapped m0 (p_dst p) (p_oend p - p_dst p);
  e_addr : 0 < p_src p /\ p_iend p <= 2 ^ 63 /\ 0 < p_dst p /\ p_oend p <= 2 ^ 63;
  e_disj : p_iend p <= p_dst p \/ p_oend p <= p_src p;
  e_dict : holds m0 (p_dictStart p) dictl;
  e_dsize : zlen dictl = p_dictSize p;
  e_ddisj : p_dictStart p + zlen dictl <= p_dst p \/ p_oend p <= p_dictStart p;
  e_mode : p_dict p <> usingDictCtx;
  e_ext : p_dict p <> usingExtDict -> dictl = [];
  e_dnull : p_dict p = usingExtDict -> p_dictStart p <> NULL \/ dictl = [];
  e_low : if bool_decide (p_dict p = withPrefix64k)
          then 65535 <= zlen pre /\ p_lowPrefix p <= p_dst p - zlen pre
          else p_lowPrefix p = p_dst p - zlen pre }.

Section Inv.
Context (p : dparams) (srcl dictl pre : list Z) (m0 : mem).
Context (Henv : dec_env p srcl dictl pre m0).

(** The history before the first output byte. *)
Definition hist0 : list Z := dictl ++ pre.

Definition base : Z := p_dst p - zlen pre.

(** The offsets the decoder handles exactly: any in a full decoding; a
    partial decoding leaves the bytes of an offset 0 as they are. *)
Definition good (s : seq) : Prop := p_partial p = false \/ s_off s <> 0.

(** [rest] is a block of the format that obeys the end conditions, stands
    for [o] after the history [h], and fits in [room] bytes (a partial
    decoding truncates it). *)
Definition valid_rest (h : list Z) (room : Z) (rest o : list Z) : Prop :=
  exists b, block_wf b /\ rest = enc_block b /\ end_ok (b_seqs b) (b_last b) /\
    Forall good (b_seqs b) /\ expand h b = Some o /\
    (p_partial p = false -> zlen o <= room).

Definition room (out : list Z) : Z := p_oend p - p_dst p - zlen out.

(** The input is parsed up to [rest] and stands for [out]. *)
Definition parse_inv (out rest : list Z) : Prop :=
  exists done, srcl = enc_seqs done ++ rest /\ Forall seq_wf done /\
    (Forall good done -> exec_seqs hist0 done = Some (hist0 ++ out)) /\
    (forall o, valid_rest hist0 (room []) srcl o ->
       exists o', o = out ++ o' /\ valid_rest (hist0 ++ out) (room out) rest o').

(** The output holds [out] up to [op]. *)
Definition mem_inv (m : mem) (op : Z) (out : list Z) : Prop :=
  op = p_dst p + zlen out /\ op <= p_oend p /\ holds m base (pre ++ out) /\
  frame (p_dst p) (p_oend p) m0 m.

(** What the call achieves: an error only if the input is not a valid block,
    and otherwise the bytes it stands for. *)
Definition dec_post (r : Z) (m : mem) : Prop :=
  frame (p_dst p) (p_oend p) m0 m /\
  (r < 0 /\ (forall o, ~ valid_rest hist0 (room []) srcl o) \/
   0 <= r /\ exists out, zlen out = r /\ r <= p_oend p - p_dst p /\
     holds m base (pre ++ out) /\
     (p_partial p = false ->
        exists b, block_wf b /\ srcl = enc_block b /\ expand hist0 b = Some out) /\
     (forall o, valid_rest hist0 (room []) srcl o ->
        out = take (Z.to_nat (p_oend p - p_dst p)) o)).

(** * Parsing *)

Lemma parse_inv_start : parse_inv [] srcl.
Proof.
  exists []. split; [done|]. split; [constructor|]. split.
  - intros _. simpl. by rewrite app_nil_r.
  - intros o Ho. exists o. split; [done|]. by rewrite app_nil_r.
Qed.

Lemma parse_inv_bytes out rest : parse_inv out rest -> bytes_ok rest.
Proof.
  intros (d & H & _). pose proof (e_bytes _ _ _ _ _ Henv) as Hb. rewrite H in Hb.
  by apply bytes_ok_app in Hb as [_ ?].
Qed.

Lemma parse_inv_zlen out rest : parse_inv out rest -> zlen rest <= zlen srcl.
Proof. intros (d & H & _). rewrite H, zlen_app. pose proof (zlen_nonneg (enc_seqs d)). lia. Qed.

(** A valid rest that starts with a sequence: the sequence executes, leaves
    a valid rest, and the end conditions leave room behind it. *)
Lemma end_ok_tail s l lst : end_ok (s :: l) lst -> end_ok l lst.
Proof. unfold end_ok. destruct l; [done|]. simpl. done. Qed.

Lemma exec_seqs_room l : forall h h',
  Forall seq_wf l -> exec_seqs h l = Some h' -> zlen h <= zlen h'.
Proof.
  induction l as [|s l IH]; intros h h' Hw; simpl; [intros [= <-]; lia|].
  apply Forall_cons_iff in Hw as [Hs Hw].
  destruct (exec_seq h s) as [h1|] eqn:E; simpl; [|done]. intros H.
  apply IH in H; [|done]. apply exec_seq_zlen in E; [|done].
  destruct Hs as (_ & _ & ?). pose proof (zlen_nonneg (s_lits s)). lia.
Qed.

Lemma end_ok_room s l lst : Forall seq_wf l -> end_ok (s :: l) lst ->
  5 <= zlen lst /\ forall h h', 4 <= s_mlen s -> exec_seqs h l = Some h' ->
    zlen h + 12 <= s_mlen s + zlen h' + zlen lst.
Proof.
  revert s. induction l as [|s' l IH]; intros s Hw He.
  - unfold end_ok in He. simpl in He. split; [lia|]. intros h h' _ [= <-]. lia.
  - apply Forall_cons_iff in Hw as [Hs' Hw]. pose proof (end_ok_tail _ _ _ He) as He'.
    destruct (IH s' Hw He') as [H5 Hr]. split; [done|]. intros h h' Hm. simpl.
    destruct (exec_seq h s') as [h1|] eqn:E; simpl; [|done]. intros H.
    apply exec_seq_zlen in E; [|done]. destruct Hs' as (_ & _ & ?).
    specialize (Hr h1 h'). pose proof (zlen_nonneg (s_lits s')). specialize (Hr ltac:(lia) H). lia.
Qed.

Lemma valid_rest_seq h n s rest o :
  seq_wf s -> valid_rest h n (enc_seq s ++ rest) o ->
  good s /\ exists h', exec_seq h s = Some h' /\
    (exists o', h ++ o = h' ++ o' /\
       valid_rest h' (n - (zlen h' - zlen h)) rest o') /\
    6 <= zlen rest /\ (p_partial p = false -> zlen (s_lits s) + 12 <= n /\
      zlen h' - zlen h + 5 <= n).
Proof.
  intros Hs (b & Hb & E & He & Hg & Hx & Hn). symmetry in E.
  destruct (enc_block_uncons b s rest Hb Hs E) as (l & El & ->).
  destruct b as [bs lst nib]; simpl in *. subst bs.
  apply block_wf_cons in Hb as [_ Hb]. apply Forall_cons_iff in Hg as [Hgs Hg].
  split; [done|]. apply expand_spec in Hx as (h2 & Hx & Ho). simpl in *.
  destruct (exec_seq h s) as [h1|] eqn:E1; simpl in Hx; [|done].
  exists h1. split; [done|]. pose proof (exec_seq_zlen _ _ _ Hs E1) as Hz1.
  destruct (exec_seqs_prefix _ _ _ Hx) as [k Hk]. subst h2.
  assert (zlen h + zlen o = zlen h1 + zlen k + zlen lst) as Hz
    by (rewrite <- !zlen_app, Ho; done).
  destruct (end_ok_room s l lst) as [H5 Hr]; [by destruct Hb|done|].
  specialize (Hr h1 _ ltac:(by destruct Hs as (_ & _ & ?)) Hx). rewrite zlen_app in Hr.
  pose proof (zlen_nonneg k). split; [|split].
  - exists (k ++ lst). split; [by rewrite app_assoc|].
    exists (Block l lst nib). split; [done|]. split; [done|].
    split; [by eapply end_ok_tail|]. split; [done|]. split.
    + apply expand_spec. exists (h1 ++ k). by rewrite <- app_assoc.
    + intros Hp. specialize (Hn Hp). rewrite zlen_app. lia.
  - unfold enc_block; cbn [b_seqs b_last b_nib]. unfold enc_last.
    rewrite !zlen_app, zlen_cons, zlen_nil. zlen_facts. lia.
  - intros Hp. specialize (Hn Hp). lia.
Qed.

Lemma valid_rest_last h n lits nib o :
  0 <= nib < 16 -> valid_rest h n (enc_last lits nib) o ->
  o = lits /\ (p_partial p = false -> zlen lits <= n).
Proof.
  intros Hnib (b & Hb & E & _ & _ & Hx & Hn). symmetry in E.
  destruct (enc_block_last b lits nib Hb Hnib E) as [E1 E2].
  apply expand_spec in Hx as (h' & Hx & Ho). rewrite E1 in Hx. injection Hx as [= <-].
  apply app_inv_head in Ho as <-. rewrite E2 in *. done.
Qed.

(** A valid rest is a sequence and a valid rest, or the last literals. *)
Lemma valid_rest_cases h n rest o :
  valid_rest h n rest o ->
  (exists s rest', seq_wf s /\ rest = enc_seq s ++ rest') \/
  (exists lits nib, bytes_ok lits /\ 0 <= nib < 16 /\ rest = enc_last lits nib).
Proof.
  intros ([l lst nib] & (Hs & Hl & Hn) & -> & _). unfold enc_block; simpl in *.
  destruct l as [|s l]; [right; eauto|].
  left. apply Forall_cons_iff in Hs as [Hs _]. exists s. eexists. split; [done|].
  cbn [enc_seqs]. by rewrite <- app_assoc.
Qed.

(** The sequence [s] has been decoded: its match bytes are [mm]. *)
Lemma parse_inv_seq out rest s mm :
  parse_inv out (enc_seq s ++ rest) -> seq_wf s -> zlen mm = s_mlen s ->
  s_off s <= zlen (hist0 ++ out ++ s_lits s) ->
  (good s -> match_copy (hist0 ++ out ++ s_lits s) (s_off s) mm) ->
  parse_inv (out ++ s_lits s ++ mm) rest.
Proof.
  intros (d & Hd & Hw & Hx & Hv) Hs Hmm Hoff Hm.
  assert (good s -> exec_seq (hist0 ++ out) s = Some (hist0 ++ out ++ s_lits s ++ mm)) as He.
  { intros Hg. unfold exec_seq. rewrite <- !app_assoc.
    destruct (Z.leb_spec (s_off s) (zlen (hist0 ++ out ++ s_lits s))); [|lia].
    rewrite <- Hmm. unfold zlen at 1. rewrite Nat2Z.id.
    rewrite match_copy_copy; [by rewrite <- !app_assoc|by apply Hm|].
    destruct Hs as (_ & ? & _). lia. }
  exists (d ++ [s]). split; [|split; [|split]].
  - rewrite enc_seqs_app, Hd. cbn [enc_seqs]. by rewrite app_nil_r, app_assoc.
  - apply Forall_app. split; [done|]. by apply Forall_singleton.
  - intros [Hg1 Hg2]%Forall_app. apply Forall_cons_iff in Hg2 as [Hg2 _].
    eapply exec_seqs_snoc; [by apply Hx|]. by apply He.
  - intros o Ho. destruct (Hv o Ho) as (o' & -> & Ho').
    destruct (valid_rest_seq _ _ _ _ _ Hs Ho') as (Hg & h' & Hh' & (o2 & E & Ho2) & _ & _).
    rewrite (He Hg) in Hh'. injection Hh' as [= <-].
    exists o2. split.
    + rewrite <- !app_assoc in *. by apply app_inv_head in E.
    + replace (room (out ++ s_lits s ++ mm))
        with (room out - (zlen (hist0 ++ out ++ s_lits s ++ mm) - zlen (hist0 ++ out))); [done|].
      unfold room. rewrite !zlen_app. lia.
Qed.
End Inv.
