(* ===== verification/Lz4DecodeValid.v ===== *)
(** How the copies of the decoder extend the decoded output, and which memory they
    read and write. *)
From S2P Require Import Prelude.
From S2P Require Import Mem.
From S2P Require Import BlockFormat.
From S2P Require Import Lz4Common.
From S2P Require Import Lz4CommonSpec.
From S2P Require Import Lz4Decompress.
From S2P Require Import Lz4DecodeSteps.
From S2P Require Import Lz4DecodeInv.

Section DecMem.
Context (p : dparams) (srcl dictl pre : list Z) (m0 : mem).
Context (Henv : dec_env p srcl dictl pre m0).

Abbreviation mem_inv := (mem_inv p pre m0).
Abbreviation hist0 := (hist0 dictl pre).
Abbreviation base := (base p pre).

Lemma mem_inv_start : mem_inv m0 (p_dst p) [].
Proof.
  destruct Henv. unfold mem_inv. rewrite zlen_nil, app_nil_r.
  split; [lia|]. split; [done|]. split; [done|]. apply frame_refl.
Qed.

Lemma mem_inv_frame m op out : mem_inv m op out -> frame (p_dst p) (p_oend p) m0 m.
Proof. by intros (_ & _ & _ & ?). Qed.

(** The input is not overwritten. *)
Lemma input_holds m x tail :
  frame (p_dst p) (p_oend p) m0 m -> srcl = x ++ tail -> holds m (p_iend p - zlen tail) tail.
Proof.
  intros Hf E. destruct Henv. pose proof e_src as H. rewrite E in H.
  apply holds_app in H as [_ H]. rewrite E, zlen_app in e_iend.
  replace (p_iend p - zlen tail) with (p_src p + zlen x) by lia.
  eapply frame_holds; [exact Hf| |exact H]. zlen_facts. lia.
Qed.

Lemma output_mapped m a n :
  frame (p_dst p) (p_oend p) m0 m -> p_dst p <= a -> a + n <= p_oend p -> mapped m a n.
Proof.
  intros Hf ? ?. destruct Henv. eapply frame_mapped; [exact Hf|].
  eapply mapped_sub; [exact e_out|lia..].
Qed.

(** The window a match may read: prefix and output. *)
Lemma window_mapped m a n :
  frame (p_dst p) (p_oend p) m0 m -> base <= a -> a + n <= p_oend p -> mapped m a n.
Proof.
  intros Hf ? ?. destruct Henv. unfold Lz4DecodeInv.base in *. eapply frame_mapped; [exact Hf|].
  intros i Hi. destruct (Z.lt_ge_cases i (p_dst p)).
  - apply (holds_mapped _ _ _ e_pre). lia.
  - apply e_out. lia.
Qed.

Lemma mem_inv_append m m' op out x :
  mem_inv m op out -> frame op (p_oend p) m m' -> holds m' op x ->
  op + zlen x <= p_oend p -> mem_inv m' (op + zlen x) (out ++ x).
Proof.
  intros (-> & Ho & Hh & Hf) Hf' Hx Hle. split; [zl|]. split; [done|]. split.
  - rewrite app_assoc. apply holds_app. split.
    + eapply frame_holds; [exact Hf'| |exact Hh]. left. unfold Lz4DecodeInv.base. zl.
    + replace (base + zlen (pre ++ out)) with (p_dst p + zlen out); [done|].
      unfold Lz4DecodeInv.base. zl.
  - eapply frame_trans; [exact Hf|]. eapply frame_weaken; [exact Hf'|zl|lia].
Qed.

(** Literals copied, wildly or not, from the input. *)
Lemma mem_inv_lits m m' op ip out lits x tail n :
  mem_inv m op out -> srcl = x ++ lits ++ tail -> ip = p_iend p - zlen (lits ++ tail) ->
  copy_post m m' op ip n -> zlen lits <= n -> op + n <= p_oend p ->
  mem_inv m' (op + zlen lits) (out ++ lits).
Proof.
  intros HI E -> [Hf Hs] Hn Hle. pose proof (mem_inv_frame _ _ _ HI) as Hf0.
  assert (frame op (p_oend p) m m') as Hfo by (eapply frame_weaken; [exact Hf|lia..]).
  eapply mem_inv_append; [exact HI|exact Hfo| |lia].
  assert (frame (p_dst p) (p_oend p) m0 m') as Hf0'.
  { eapply frame_trans; [exact Hf0|]. destruct HI as (-> & _). eapply frame_weaken; [exact Hf|zl|lia]. }
  pose proof (input_holds m' _ _ Hf0' E) as Hi. apply holds_app in Hi as [Hi _].
  apply holds_intro. intros i Hi'. rewrite Hs by lia.
  rewrite (holds_at _ _ _ _ Hi) by lia. f_equal. lia.
Qed.

(** The history around the output position, read from memory. *)
Lemma hist_lookup m out mm k :
  holds m base (pre ++ out ++ mm) -> - zlen (pre ++ out) <= k < zlen mm ->
  ((hist0 ++ out) ++ mm) !! Z.to_nat (zlen (hist0 ++ out) + k)
    = m !! (p_dst p + zlen out + k).
Proof.
  intros Hh Hk. unfold Lz4DecodeInv.hist0. rewrite <- !app_assoc, !zlen_app in *.
  rewrite lookup_app_r by (unfold zlen in *; lia).
  rewrite (holds_at _ _ _ _ Hh) by (unfold Lz4DecodeInv.base; zl).
  f_equal. unfold Lz4DecodeInv.base, zlen in *. lia.
Qed.

(** A match copied within the window. *)
Lemma mem_inv_match m m' op out off len :
  mem_inv m op out -> frame op (p_oend p) m m' -> periodic m' op (op + len) off ->
  0 <= len -> op + len <= p_oend p -> 0 <= off <= zlen (pre ++ out) ->
  exists mm, zlen mm = len /\ mem_inv m' (op + len) (out ++ mm) /\
    match_copy (hist0 ++ out) off mm.
Proof.
  intros HI Hfo Hp Hlen Hle Hoff.
  assert (mapped m' op len) as Hmap.
  { eapply frame_mapped; [exact Hfo|]. destruct HI as (Eop & _ & _ & Hf0).
    apply output_mapped; [done| |lia]. rewrite Eop. zl. }
  destruct (mapped_holds m' op len) as (mm & Hmm & Hl); [lia|done|].
  exists mm. split; [done|].
  assert (mem_inv m' (op + len) (out ++ mm)) as HI'.
  { rewrite <- Hl. eapply mem_inv_append; [exact HI|done|done|lia]. }
  split; [done|]. intros k Hk. destruct HI as (Eop & _). destruct HI' as (_ & _ & Hh & _).
  rewrite (hist_lookup m') by (done || zl). rewrite <- Eop, Hp by lia. zcase; [done|].
  replace (zlen (hist0 ++ out) + k - off) with (zlen (hist0 ++ out) + (k - off)) by lia.
  rewrite (hist_lookup m') by (done || zl). f_equal. lia.
Qed.

(** A match that starts in the external dictionary: [cs] bytes from the end
    of the dictionary, and the rest from the start of the window. *)
Lemma mem_inv_extdict m m' op out off len cs :
  mem_inv m op out -> frame op (op + len) m m' -> op + len <= p_oend p -> 0 <= cs <= len ->
  cs <= off - zlen (pre ++ out) -> off <= zlen (hist0 ++ out) -> 0 < off ->
  (cs < len -> cs = off - zlen (pre ++ out)) ->
  (forall i, 0 <= i < cs ->
     m' !! (op + i) = dictl !! Z.to_nat (zlen (hist0 ++ out) - off + i)) ->
  (forall i, cs <= i < len -> m' !! (op + i) = m' !! (base + (i - cs))) ->
  exists mm, zlen mm = len /\ mem_inv m' (op + len) (out ++ mm) /\
    match_copy (hist0 ++ out) off mm.
Proof.
  intros HI Hf Hle Hcs Hcs1 Hoff Hpos Hcs2 H1 H2.
  assert (frame op (p_oend p) m m') as Hfo by (eapply frame_weaken; [exact Hf|lia..]).
  assert (mapped m' op len) as Hmap.
  { eapply frame_mapped; [exact Hfo|]. destruct HI as (Eop & _ & _ & Hf0).
    apply output_mapped; [done| |lia]. rewrite Eop. zl. }
  destruct (mapped_holds m' op len) as (mm & Hmm & Hl); [lia|done|].
  exists mm. split; [done|].
  assert (mem_inv m' (op + len) (out ++ mm)) as HI'.
  { rewrite <- Hl. eapply mem_inv_append; [exact HI|done|done|lia]. }
  split; [done|]. intros k Hk. destruct HI as (Eop & _). destruct HI' as (_ & _ & Hh & _).
  rewrite (hist_lookup m') by (done || zl). rewrite <- Eop.
  destruct (Z.eqb_spec off 0); [lia|].
  replace (zlen (hist0 ++ out) + k - off) with (zlen (hist0 ++ out) + (k - off)) by lia.
  destruct (Z.lt_ge_cases k cs).
  - rewrite H1 by lia. unfold Lz4DecodeInv.hist0 in *. rewrite <- !app_assoc in *.
    rewrite !zlen_app in *. rewrite lookup_app_l by (unfold zlen in *; lia). f_equal. lia.
  - rewrite H2 by lia. rewrite (hist_lookup m') by (done || zl).
    f_equal. unfold Lz4DecodeInv.base. rewrite zlen_app in *. lia.
Qed.
End DecMem.

(** What the validity of the rest of the input says at each point of the
    decoding of a sequence, and the specification of reading its two length
    fields. *)

(** * Tokens *)

Lemma len_ext_inj a b x y :
  0 <= a -> 0 <= b -> nibble a = nibble b -> len_ext a ++ x = len_ext b ++ y -> a = b /\ x = y.
Proof.
  intros Ha Hb Hn E. apply (f_equal (parse_len (nibble a))) in E.
  rewrite parse_len_ext in E by done. rewrite Hn, parse_len_ext in E by done.
  by injection E as [= -> ->].
Qed.

Lemma tok_enc_seq tok lits lo hi ml r :
  tok / 16 = nibble (zlen lits) -> tok mod 16 = nibble ml -> byte_ok lo -> byte_ok hi -> 0 <= ml ->
  tok :: len_ext (zlen lits) ++ lits ++ lo :: hi :: len_ext ml ++ r
    = enc_seq (Seq lits (lo + 256 * hi) (ml + 4)) ++ r.
Proof.
  intros H1 H2 Hlo Hhi Hml. unfold enc_seq; cbn [s_lits s_off s_mlen].
  replace (ml + 4 - 4) with ml by lia.
  replace ((lo + 256 * hi) mod 256) with lo by (Z.div_mod_to_equations; lia).
  replace ((lo + 256 * hi) / 256) with hi by (Z.div_mod_to_equations; lia).
  rewrite <- H1, <- H2, <- !app_assoc. simpl. f_equal. pose proof (Z.div_mod tok 16). lia.
Qed.

Lemma tok_enc_last tok lits :
  tok / 16 = nibble (zlen lits) ->
  tok :: len_ext (zlen lits) ++ lits = enc_last lits (tok mod 16).
Proof.
  intros H1. unfold enc_last. rewrite <- H1. simpl. f_equal.
  pose proof (Z.div_mod tok 16). lia.
Qed.

Lemma enc_seq_tok s : seq_wf s -> exists tok lo hi,
  tok / 16 = nibble (zlen (s_lits s)) /\ tok mod 16 = nibble (s_mlen s - 4) /\
  forall r, enc_seq s ++ r =
    tok :: len_ext (zlen (s_lits s)) ++ s_lits s ++ lo :: hi :: len_ext (s_mlen s - 4) ++ r.
Proof.
  intros (_ & Ho & Hm). exists (16 * nibble (zlen (s_lits s)) + nibble (s_mlen s - 4)).
  exists (s_off s mod 256), (s_off s / 256).
  destruct (token_split (nibble (zlen (s_lits s))) (nibble (s_mlen s - 4))) as [H1 H2].
  { apply nibble_range. lia. }
  split; [done|]. split; [done|]. intros r. unfold enc_seq. by rewrite <- !app_assoc.
Qed.

Lemma enc_last_tok lits nib : 0 <= nib < 16 -> exists tok,
  tok / 16 = nibble (zlen lits) /\ enc_last lits nib = tok :: len_ext (zlen lits) ++ lits.
Proof.
  intros H. exists (16 * nibble (zlen lits) + nib).
  destruct (token_split (nibble (zlen lits)) nib H) as [H1 _]. done.
Qed.

Lemma nibble_15 n : 0 <= n -> nibble n = 15 -> 15 <= n.
Proof. unfold nibble. lia. Qed.

Lemma nibble_lt n k : 0 <= n -> nibble n = k -> k <> 15 -> n = k.
Proof. unfold nibble. lia. Qed.

(** A length field with at least 15 in its nibble. *)
Lemma len_ext_15 n : 15 <= n -> len_ext n = ext_bytes (n - 15).
Proof. intros H. unfold len_ext. by destruct (Z.ltb_spec n 15); [lia|]. Qed.

Lemma len_ext_small n : n < 15 -> len_ext n = [].
Proof. intros H. unfold len_ext. by destruct (Z.ltb_spec n 15); [|lia]. Qed.

Section Valid.
Context (p : dparams) (srcl dictl pre : list Z) (m0 : mem).
Context (Henv : dec_env p srcl dictl pre m0).

Abbreviation valid_rest := (valid_rest p).
Abbreviation parse_inv := (parse_inv p srcl dictl pre).
Abbreviation hist0 := (hist0 dictl pre).
Abbreviation room := (room p).

(** The literals of a valid rest: the last ones, or those of a sequence that
    leaves at least 8 bytes of input and, in a full decoding, 12 bytes of
    output behind them. *)
Lemma valid_lits h n tok ll rest2 o :
  valid_rest h n (tok :: len_ext ll ++ rest2) o -> tok / 16 = nibble ll -> 0 <= ll ->
  (zlen rest2 = ll /\ o = rest2 /\ (p_partial p = false -> ll <= n)) \/
  (exists lits tail o', rest2 = lits ++ tail /\ zlen lits = ll /\ 8 <= zlen tail /\
     o = lits ++ o' /\ (p_partial p = false -> ll + 12 <= n)).
Proof.
  intros HV Ht Hll.
  destruct (valid_rest_cases _ _ _ _ _ HV) as [(s & r & Hs & E)|(lits & nib & Hb & Hn & E)].
  - right. rewrite E in HV.
    destruct (valid_rest_seq _ _ _ _ _ _ Hs HV) as (Hg & h' & Hh & (o' & Eo & _) & H6 & Hn).
    destruct (enc_seq_tok s Hs) as (tok' & lo & hi & T1 & T2 & Eq). rewrite Eq in E.
    injection E as [= -> E]. destruct (len_ext_inj ll (zlen (s_lits s)) _ _ Hll
      (zlen_nonneg _) ltac:(congruence) E) as [-> ->].
    assert (exists x, h' = h ++ s_lits s ++ x) as [x ->].
    { unfold exec_seq in Hh. revert Hh. zcase; [|done]. intros [= <-].
      destruct (copy_match_prefix (Z.to_nat (s_mlen s)) (h ++ s_lits s) (s_off s)) as [k ->].
      exists k. by rewrite <- app_assoc. }
    eexists (s_lits s), _, (x ++ o'). split; [done|]. split; [done|]. split; [|split].
    + rewrite !zlen_cons, zlen_app. pose proof (zlen_nonneg (len_ext (s_mlen s - 4))). lia.
    + rewrite <- !app_assoc in Eo. by apply app_inv_head in Eo.
    + intros Hp. apply Hn in Hp. lia.
  - left. rewrite E in HV. destruct (valid_rest_last _ _ _ _ _ _ Hn HV) as [-> Hr].
    destruct (enc_last_tok lits nib Hn) as (tok' & T1 & Eq). rewrite Eq in E.
    injection E as [= -> E].
    destruct (len_ext_inj ll (zlen lits) rest2 lits Hll (zlen_nonneg _) ltac:(congruence) E)
      as [-> ->]. done.
Qed.

(** Behind the offset of a sequence of a valid rest is its match length. *)
Lemma valid_match_len h n tok lits lo hi r3 o :
  valid_rest h n (tok :: len_ext (zlen lits) ++ lits ++ lo :: hi :: r3) o ->
  tok / 16 = nibble (zlen lits) ->
  exists ml r4, r3 = len_ext ml ++ r4 /\ tok mod 16 = nibble ml /\ 0 <= ml /\ 6 <= zlen r4.
Proof.
  intros HV Ht.
  destruct (valid_rest_cases _ _ _ _ _ HV) as [(s & r & Hs & E)|(lits' & nib & Hb & Hn & E)].
  - rewrite E in HV. destruct (valid_rest_seq _ _ _ _ _ _ Hs HV) as (_ & _ & _ & _ & H6 & _).
    destruct (enc_seq_tok s Hs) as (tok' & lo' & hi' & T1 & T2 & Eq). rewrite Eq in E.
    injection E as [= -> E].
    destruct (len_ext_inj (zlen lits) (zlen (s_lits s)) _ _ (zlen_nonneg _) (zlen_nonneg _)
      ltac:(congruence) E) as [El E'].
    apply app_inj_1 in E' as [-> E']; [|unfold zlen in El; lia]. injection E' as [= -> -> ->].
    exists (s_mlen s - 4), r. destruct Hs as (_ & _ & ?). repeat split; [done|lia|done].
  - destruct (enc_last_tok lits' nib Hn) as (tok' & T1 & Eq). rewrite Eq in E.
    injection E as [= -> E].
    destruct (len_ext_inj (zlen lits) (zlen lits') _ _ (zlen_nonneg _) (zlen_nonneg _)
      ltac:(congruence) E) as [El E'].
    exfalso. apply (f_equal zlen) in E'. rewrite zlen_app, !zlen_cons in E'.
    pose proof (zlen_nonneg r3). lia.
Qed.

(** No valid rest, no valid input. *)
Lemma invalid_input out rest :
  parse_inv out rest -> (forall o, ~ valid_rest (hist0 ++ out) (room out) rest o) ->
  forall o, ~ valid_rest hist0 (room []) srcl o.
Proof. intros (d & _ & _ & _ & Hv) H o Ho. destruct (Hv o Ho) as (o' & _ & Ho'). by eapply H. Qed.

Lemma parse_inv_suffix out x rest : parse_inv out (x ++ rest) -> exists y, srcl = y ++ rest.
Proof. intros (d & E & _). exists (enc_seqs d ++ x). by rewrite <- app_assoc. Qed.

(** Reading the length field of a run of 15 literals or more. *)
Lemma wp_literal_length out tok r1 Q m :
  parse_inv out (tok :: r1) -> frame (p_dst p) (p_oend p) m0 m -> tok / 16 = 15 ->
  (forall ll r2, r1 = len_ext ll ++ r2 -> 15 <= ll -> 15 <= zlen r2 ->
     Q (ll - 15, p_iend p - zlen r2) m) ->
  (forall ip', p_src p <= ip' <= p_iend p ->
     (forall o, ~ valid_rest hist0 (room []) srcl o) -> Q (rvl_error, ip') m) ->
  wp (read_variable_length (p_iend p - zlen r1) (p_iend p - RUN_MASK) true) Q m.
Proof.
  intros HP Hf Htok Hok Herr.
  pose proof (parse_inv_bytes _ _ _ _ _ Henv _ _ HP) as Hb. apply bytes_ok_cons in Hb as [_ Hb].
  destruct (parse_inv_suffix out [tok] r1 HP) as [y Ey].
  assert (zlen srcl = zlen y + zlen r1) as Hz by (rewrite Ey, zlen_app; done).
  pose proof (zlen_nonneg y). pose proof (e_isize _ _ _ _ _ Henv). pose proof (e_iend _ _ _ _ _ Henv).
  apply (wp_read_variable_length _ _ _ r1); [by eapply input_holds|done|lia| |by left|].
  { change RUN_MASK with 15. lia. }
  change RUN_MASK with 15. split.
  - intros n r2 -> Hn Hlim. rewrite zlen_app in *.
    replace (p_iend p - (zlen (ext_bytes n) + zlen r2) + zlen (ext_bytes n))
      with (p_iend p - zlen r2) by lia.
    replace n with (n + 15 - 15) by lia. apply Hok; [|lia|lia].
    rewrite len_ext_15 by lia. by replace (n + 15 - 15) with n by lia.
  - intros ip' Hip Hno. apply Herr; [lia|].
    eapply invalid_input; [exact HP|]. intros o HV.
    assert (exists ll r2, r1 = len_ext ll ++ r2 /\ tok / 16 = nibble ll /\ ll <= zlen r2 /\ 0 <= ll)
      as (ll & r2 & -> & Hn & Hl & Hll).
    { destruct (valid_rest_cases _ _ _ _ _ HV) as [(s & r & Hs & E)|(lits & nib & _ & Hn & E)].
      - destruct (enc_seq_tok s Hs) as (tok' & lo & hi & T1 & _ & Eq). rewrite Eq in E.
        injection E as [= -> ->]. exists (zlen (s_lits s)). eexists. split; [done|]. split; [done|].
        rewrite zlen_app. zlen_facts. lia.
      - destruct (enc_last_tok lits nib Hn) as (tok' & T1 & Eq). rewrite Eq in E.
        injection E as [= -> ->]. exists (zlen lits), lits. repeat split; [done|lia|zl]. }
    rewrite Htok in Hn. symmetry in Hn. apply nibble_15 in Hn; [|done].
    rewrite len_ext_15 in * by done.
    specialize (Hno (ll - 15) r2 ltac:(lia) eq_refl). rewrite zlen_app in *. lia.
Qed.

(** Reading the length field of a match of 19 bytes or more. *)
Lemma wp_match_length out tok lits lo hi r3 Q m :
  parse_inv out (tok :: len_ext (zlen lits) ++ lits ++ lo :: hi :: r3) ->
  frame (p_dst p) (p_oend p) m0 m -> tok / 16 = nibble (zlen lits) -> tok mod 16 = 15 ->
  r3 <> [] ->
  (forall ml r4, r3 = len_ext ml ++ r4 -> 15 <= ml -> 4 <= zlen r4 ->
     Q (ml - 15, p_iend p - zlen r4) m) ->
  (forall ip', p_src p <= ip' <= p_iend p ->
     (forall o, ~ valid_rest hist0 (room []) srcl o) -> Q (rvl_error, ip') m) ->
  wp (read_variable_length (p_iend p - zlen r3) (p_iend p - LASTLITERALS + 1) false) Q m.
Proof.
  intros HP Hf Ht Htok Hne Hok Herr.
  pose proof (parse_inv_bytes _ _ _ _ _ Henv _ _ HP) as Hb.
  change (tok :: len_ext (zlen lits) ++ lits ++ lo :: hi :: r3)
    with ([tok] ++ len_ext (zlen lits) ++ lits ++ [lo; hi] ++ r3) in Hb.
  rewrite !bytes_ok_app in Hb. destruct Hb as (_ & _ & _ & _ & Hb).
  destruct (parse_inv_suffix out ([tok] ++ len_ext (zlen lits) ++ lits ++ [lo; hi]) r3) as [y Ey].
  { by rewrite <- !app_assoc. }
  assert (zlen srcl = zlen y + zlen r3) as Hz by (rewrite Ey, zlen_app; done).
  pose proof (zlen_nonneg y). pose proof (e_isize _ _ _ _ _ Henv). pose proof (e_iend _ _ _ _ _ Henv).
  change LASTLITERALS with 5.
  apply (wp_read_variable_length _ _ _ r3); [by eapply input_holds|done|lia|lia|by right|].
  split.
  - intros n r4 -> Hn Hlim. rewrite zlen_app in *.
    replace (p_iend p - (zlen (ext_bytes n) + zlen r4) + zlen (ext_bytes n))
      with (p_iend p - zlen r4) by lia.
    replace n with (n + 15 - 15) by lia. apply Hok; [|lia|lia].
    rewrite len_ext_15 by lia. by replace (n + 15 - 15) with n by lia.
  - intros ip' Hip Hno. apply Herr; [lia|].
    eapply invalid_input; [exact HP|]. intros o HV.
    destruct (valid_match_len _ _ _ _ _ _ _ _ HV Ht) as (ml & r4 & -> & Hn & Hml & H6).
    rewrite Htok in Hn. symmetry in Hn. apply nibble_15 in Hn; [|done].
    rewrite len_ext_15 in * by done.
    specialize (Hno (ml - 15) r4 ltac:(lia) eq_refl). rewrite zlen_app in *. lia.
Qed.
End Valid.
