(* ===== verification/Lz4DecodeProof.v ===== *)
(** The decoder preserves its invariant at every label. *)
From S2P Require Import Prelude.
From S2P Require Import Mem.
From S2P Require Import BlockFormat.
From S2P Require Import Lz4Common.
From S2P Require Import Lz4CommonSpec.
From S2P Require Import Lz4Decompress.
From S2P Require Import Lz4DecodeSteps.
From S2P Require Import Lz4DecodeInv.
From S2P Require Import Lz4DecodeValid.

(** * Truncated matches *)

Lemma match_copy_snoc h off mm :
  match_copy h off mm -> 0 <= off <= zlen h ->
  match_copy h off (mm ++ [match_byte (h ++ mm) off]).
Proof.
  intros H Ho k Hk. autorewrite with zlen in Hk.
  rewrite app_assoc. destruct (Z.eq_dec k (zlen mm)) as [->|].
  - replace (Z.to_nat (zlen h + zlen mm)) with (length (h ++ mm)) by zn.
    rewrite list_lookup_middle by done. unfold match_byte. zcase; [done|].
    rewrite <- zlen_app, (lookup_app_l (h ++ mm)) by zn.
    destruct (lookup_lt_is_Some_2 (h ++ mm) (Z.to_nat (zlen (h ++ mm) - off))) as [x ->];
      [zn|done].
  - rewrite lookup_app_l by zn. rewrite H by lia. zcase; [done|]. by rewrite (lookup_app_l (h ++ mm)) by zn.
Qed.

(** A match can be prolonged. *)
Lemma match_copy_extend h off mm (k : nat) :
  match_copy h off mm -> 0 <= off <= zlen h ->
  exists x, length x = k /\ match_copy h off (mm ++ x).
Proof.
  intros H Ho. induction k as [|k (x & Hx & IH)].
  - exists []. by rewrite app_nil_r.
  - exists (x ++ [match_byte (h ++ mm ++ x) off]).
    split; [rewrite length_app; simpl; lia|].
    rewrite (app_assoc mm x). by apply match_copy_snoc.
Qed.

Lemma take_prefix (x y : list Z) n :
  zlen x <= n -> y = [] \/ zlen x = n -> x = take (Z.to_nat n) (x ++ y).
Proof.
  intros Hn Hy. destruct Hy as [->|<-].
  - rewrite app_nil_r, take_ge; [done|]. unfold zlen in Hn. lia.
  - unfold zlen. by rewrite Nat2Z.id, take_app_length.
Qed.

Lemma len_ext_bound n : 0 <= n -> n <= 15 + 255 * zlen (len_ext n).
Proof.
  intros H. rewrite zlen_len_ext by done. zcase; [lia|]. Z.div_mod_to_equations. lia.
Qed.

Section Decode.
Context (p : dparams) (srcl dictl pre : list Z) (m0 : mem).
Context (Henv : dec_env p srcl dictl pre m0).

Abbreviation valid_rest := (valid_rest p).
Abbreviation parse_inv := (parse_inv p srcl dictl pre).
Abbreviation mem_inv := (mem_inv p pre m0).
Abbreviation dec_post := (dec_post p srcl dictl pre m0).
Abbreviation hist0 := (hist0 dictl pre).
Abbreviation base := (base p pre).
Abbreviation room := (room p).
Abbreviation cap := (p_oend p - p_dst p).
Abbreviation full := (p_partial p = false).

(** The output holds [out]; a partial decoding that filled the output inside
    a match has parsed more than it could store. *)
Definition out_inv (m : mem) (op : Z) (out : list Z) : Prop :=
  mem_inv m op out \/
  (p_partial p = true /\ op = p_oend p /\ cap <= zlen out /\
   mem_inv m op (take (Z.to_nat cap) out)).

(** A sequence [s] whose literals are decoded and whose match is next. *)
Definition match_inv (out : list Z) (s : seq) (rest : list Z) (m : mem) (st : dstate) : Prop :=
  parse_inv out (enc_seq s ++ rest) /\ seq_wf s /\ mem_inv m (d_op st) (out ++ s_lits s) /\
  d_length st = s_mlen s /\ d_offset st = s_off s /\ d_match st = d_op st - s_off s /\
  d_ip st = p_iend p - zlen rest /\ rest <> [].

Definition dec_inv (c : dlabel * dstate) (m : mem) : Prop :=
  let '(l, st) := c in
  match l with
  | fast_loop => exists out rest, parse_inv out rest /\ mem_inv m (d_op st) out /\
      d_ip st = p_iend p - zlen rest /\ rest <> [] /\ d_op st + 64 <= p_oend p
  | safe_decode => exists out rest, parse_inv out rest /\ out_inv m (d_op st) out /\
      d_ip st = p_iend p - zlen rest /\ rest <> []
  | safe_literal_copy => exists out ll rest, 
      parse_inv out (d_token st :: len_ext ll ++ rest) /\ out_inv m (d_op st) out /\
      0 <= ll /\ d_token st / 16 = nibble ll /\ d_length st = ll /\ d_ip st = p_iend p - zlen rest
  | copy_match_label => exists out lits lo hi rest,
      parse_inv out (d_token st :: len_ext (zlen lits) ++ lits ++ lo :: hi :: rest) /\
      mem_inv m (d_op st) (out ++ lits) /\ d_token st / 16 = nibble (zlen lits) /\
      d_length st = d_token st mod 16 /\ d_offset st = lo + 256 * hi /\
      d_match st = d_op st - d_offset st /\ d_ip st = p_iend p - zlen rest /\ rest <> [] /\
      (full -> d_op st + 12 <= p_oend p)
  | safe_match_copy => exists out s rest, match_inv out s rest m st /\
      (full -> d_op st + 12 <= p_oend p)
  end.

(** The measure: input left, and the labels still to come for this token. *)
Definition dec_meas (c : dlabel * dstate) : Z :=
  5 * (p_iend p - d_ip (snd c)) +
  match fst c with
  | fast_loop | safe_decode => 0
  | safe_literal_copy => 3 | copy_match_label => 2 | safe_match_copy => 1
  end.

(** The postcondition of a step from a configuration of measure [k]. *)
Definition step_post (k : Z) (r : dnext) (m : mem) : Prop :=
  match r with
  | inl c => dec_inv c m /\ dec_meas c < k
  | inr r => dec_post r m
  end.

Ltac env :=
  pose proof (e_iend _ _ _ _ _ Henv); pose proof (e_isize _ _ _ _ _ Henv);
  pose proof (e_dst _ _ _ _ _ Henv); pose proof (e_osize _ _ _ _ _ Henv);
  pose proof (e_addr _ _ _ _ _ Henv);
  change RUN_MASK with 15 in *; change ML_MASK with 15 in *; change LASTLITERALS with 5 in *;
  change MINMATCH with 4 in *; change MFLIMIT with 12 in *;
  change MATCH_SAFEGUARD_DISTANCE with 12 in *; change FASTLOOP_SAFE_DISTANCE with 64 in *;
  change WILDCOPYLENGTH with 8 in *; unfold int_max in *.

(** * Returning *)

Lemma wp_output_error k ip m :
  p_src p <= ip <= p_iend p -> frame (p_dst p) (p_oend p) m0 m ->
  (forall o, ~ valid_rest hist0 (room []) srcl o) -> wp (output_error p ip) (step_post k) m.
Proof.
  intros Hip Hf Hno. apply wp_ret. split; [done|]. left. split; [|done].
  env. rewrite s32_small by (unfold int_min, int_max; lia). lia.
Qed.

Lemma wp_decoded k op out m :
  mem_inv m op out ->
  (full -> exists b, block_wf b /\ srcl = enc_block b /\ expand hist0 b = Some out) ->
  (forall o, valid_rest hist0 (room []) srcl o -> out = take (Z.to_nat cap) o) ->
  wp (decoded p op) (step_post k) m.
Proof.
  intros (-> & Ho & Hh & Hf) Hfull Hv. apply wp_ret. split; [done|]. right. env.
  replace (p_dst p + zlen out - p_dst p) with (zlen out) by lia. pose proof (zlen_nonneg out).
  rewrite s32_small by (unfold int_min, int_max; lia).
  split; [done|]. exists out. split; [done|]. split; [lia|]. split; [done|]. split; done.
Qed.

Lemma token_byte out tok r : parse_inv out (tok :: r) -> byte_ok tok.
Proof. intros H. apply (parse_inv_bytes _ _ _ _ _ Henv) in H. by apply bytes_ok_cons in H as [? _]. Qed.

Lemma token_hi tok : byte_ok tok -> Z.shiftr tok ML_BITS = tok / 16 /\ 0 <= tok / 16 < 16.
Proof.
  intros H. unfold ML_BITS. rewrite Z.shiftr_div_pow2 by lia. change (2 ^ 4) with 16.
  split; [done|]. Z.div_mod_to_equations; lia.
Qed.

Lemma token_lo tok : byte_ok tok -> Z.land tok ML_MASK = tok mod 16 /\ 0 <= tok mod 16 < 16.
Proof.
  intros H. change ML_MASK with (Z.ones 4). rewrite Z.land_ones by lia. change (2 ^ 4) with 16.
  split; [done|]. apply Z.mod_pos_bound. lia.
Qed.

(** The overflow tests on pointers do not fire on mapped buffers. *)
Lemma no_ptr_overflow a n : 0 < a <= 2 ^ 63 -> 0 <= n < 2 ^ 42 -> (u64 (a + n) <? a) = false.
Proof. intros H1 H2. rewrite u64_small by lia. apply Z.ltb_ge. lia. Qed.

Lemma rvl_error_ne n : 0 <= n < 2 ^ 42 -> (n =? rvl_error) = false.
Proof. intros H. change rvl_error with (2 ^ 64 - 1). apply Z.eqb_neq. lia. Qed.

(** The input bytes at the current position. *)
Lemma rest_bounds out rest : parse_inv out rest ->
  p_src p <= p_iend p - zlen rest <= p_iend p /\ zlen rest <= 2 ^ 31 - 1.
Proof. intros H. apply parse_inv_zlen in H. env. pose proof (zlen_nonneg rest). lia. Qed.

Lemma out_inv_frame m op out : out_inv m op out -> frame (p_dst p) (p_oend p) m0 m.
Proof. by intros [(_ & _ & _ & ?)|(_ & _ & _ & (_ & _ & _ & ?))]. Qed.

Lemma out_inv_op m op out : out_inv m op out -> p_dst p <= op <= p_oend p.
Proof.
  intros [(-> & ? & _)|(_ & -> & _)]; env; [pose proof (zlen_nonneg out); lia|lia].
Qed.

Lemma mem_inv_op m op out : mem_inv m op out -> p_dst p <= op <= p_oend p.
Proof. intros H. apply (out_inv_op m op out). by left. Qed.

(** * Matches *)

(** The two loops go on in the same way after a match. *)
Definition loop_head (k : dlabel) (op : Z) : Prop :=
  k = safe_decode \/ (k = fast_loop /\ op + 64 <= p_oend p).

Lemma loop_head_inv k st out rest m :
  loop_head k (d_op st) -> parse_inv out rest -> mem_inv m (d_op st) out ->
  d_ip st = p_iend p - zlen rest -> rest <> [] -> dec_inv (k, st) m.
Proof.
  intros [->|[-> H64]] HP HM Hip Hne; exists out, rest; [|done].
  split; [done|]. split; [by left|]. done.
Qed.

Lemma loop_head_meas k st op : loop_head k op -> dec_meas (k, st) = 5 * (p_iend p - d_ip st).
Proof. unfold dec_meas. intros [->|[-> _]]; simpl; lia. Qed.

Lemma match_inv_off out s rest m st : match_inv out s rest m st -> 0 <= s_off s < 65536.
Proof. intros (_ & (_ & ? & _) & _). done. Qed.

(** The match of [s] has been copied completely. *)
Lemma match_done k kk out s rest m m' st st' mm :
  match_inv out s rest m st -> zlen mm = s_mlen s ->
  mem_inv m' (d_op st + s_mlen s) ((out ++ s_lits s) ++ mm) ->
  s_off s <= zlen (hist0 ++ out ++ s_lits s) ->
  (good p s -> match_copy (hist0 ++ out ++ s_lits s) (s_off s) mm) ->
  d_ip st' = d_ip st -> d_op st' = d_op st + s_mlen s ->
  loop_head kk (d_op st') -> 5 * (p_iend p - d_ip st) < k ->
  wp (goto kk st') (step_post k) m'.
Proof.
  intros (HP & Hs & HM & El & Eo & Em & Eip & Hne) Hmm HM' Hoff Hc E1 E2 Hh Hk.
  apply wp_ret. split; [|rewrite (loop_head_meas _ _ _ Hh); lia].
  rewrite <- app_assoc, <- E2 in HM'.
  apply (loop_head_inv _ _ (out ++ s_lits s ++ mm) rest); [done| |done|lia|done].
  by apply parse_inv_seq.
Qed.

(** A match that starts in the window lies behind the output by its offset. *)
Lemma window_offset out s rest m st :
  match_inv out s rest m st ->
  prefix_or_above p (d_match st) = true \/
    checkOffset p && (d_match st + p_dictSize p <? p_lowPrefix p) = false /\
    in_extdict p (d_match st) = false ->
  0 <= s_off s <= zlen (pre ++ out ++ s_lits s).
Proof.
  intros HI H. pose proof (match_inv_off _ _ _ _ _ HI).
  destruct HI as (_ & _ & (Eop & _) & _ & _ & Em & _). split; [lia|].
  destruct Henv. rewrite Em in H. revert H. unfold prefix_or_above, checkOffset, in_extdict.
  rewrite !zlen_app in *. pose proof (zlen_nonneg out). pose proof (zlen_nonneg (s_lits s)).
  case_bool_decide as Hw; simpl.
  { destruct e_low as [? _]. lia. }
  rewrite e_low. case_bool_decide as Hx; simpl.
  - intros [Hm|[_ Hm]]; [apply Z.leb_le in Hm; lia|apply Z.ltb_ge in Hm; lia].
  - specialize (e_ext Hx). subst dictl. rewrite zlen_nil in *. rewrite <- e_dsize. simpl.
    intros [Hm|[Hm _]]; [apply Z.leb_le in Hm; lia|apply Z.ltb_ge in Hm; lia].
Qed.

Lemma hist_offset out s :
  s_off s <= zlen (pre ++ out ++ s_lits s) -> s_off s <= zlen (hist0 ++ out ++ s_lits s).
Proof. unfold Lz4DecodeInv.hist0. rewrite !zlen_app. pose proof (zlen_nonneg dictl). lia. Qed.

(** The copy of a whole match within the window, by any of the copy
    routines: they may write past the match, but not past the output. *)
Lemma match_copied k kk out s rest m m' st st' :
  match_inv out s rest m st -> frame (d_op st) (p_oend p) m m' ->
  periodic m' (d_op st) (d_op st + s_mlen s) (s_off s) -> d_op st + s_mlen s <= p_oend p ->
  0 <= s_off s <= zlen (pre ++ out ++ s_lits s) ->
  d_ip st' = d_ip st -> d_op st' = d_op st + s_mlen s ->
  loop_head kk (d_op st') -> 5 * (p_iend p - d_ip st) < k ->
  wp (goto kk st') (step_post k) m'.
Proof.
  intros HI Hf Hp Hle Hoff E1 E2 Hh Hk.
  pose proof HI as (_ & (_ & _ & Hml) & HM & _).
  destruct (mem_inv_match _ _ _ _ _ Henv m m' (d_op st) (out ++ s_lits s) (s_off s) (s_mlen s))
    as (mm & Hmm & HM' & Hc); [done|done|done|lia|done|done|].
  eapply match_done; try done. apply hist_offset. lia.
Qed.

Lemma match_copied_post k kk out s rest m m' st st' n :
  match_inv out s rest m st -> match_post m m' (d_op st) (s_off s) n ->
  s_mlen s <= n -> d_op st + n <= p_oend p -> 0 <= s_off s <= zlen (pre ++ out ++ s_lits s) ->
  d_ip st' = d_ip st -> d_op st' = d_op st + s_mlen s ->
  loop_head kk (d_op st') -> 5 * (p_iend p - d_ip st) < k ->
  wp (goto kk st') (step_post k) m'.
Proof.
  intros HI [Hf Hp] Hn Hle Hoff E1 E2 Hh Hk. eapply match_copied; try done; [|  |lia].
  - eapply frame_weaken; [exact Hf|lia..].
  - eapply periodic_sub; [exact Hp|lia..].
Qed.

(** An offset beyond the history is an error, and rightly so. *)
Lemma wp_bad_offset k out s rest m st :
  match_inv out s rest m st ->
  checkOffset p && (d_match st + p_dictSize p <? p_lowPrefix p) = true ->
  wp (output_error p (d_ip st)) (step_post k) m.
Proof.
  intros HI Hc. pose proof (match_inv_off _ _ _ _ _ HI).
  destruct HI as (HP & Hs & HM & _ & _ & Em & Eip & _).
  pose proof (rest_bounds _ _ HP) as [Hb _]. rewrite zlen_app in Hb.
  pose proof (zlen_nonneg (enc_seq s)). pose proof (zlen_nonneg rest).
  pose proof (e_iend _ _ _ _ _ Henv).
  apply wp_output_error; [lia|by destruct HM as (_ & _ & _ & ?)|].
  eapply invalid_input; [exact HP|]. intros o HV.
  destruct (valid_rest_seq _ _ _ _ _ _ Hs HV) as (_ & h' & Hx & _).
  unfold exec_seq in Hx. revert Hx. zcase; [|done]. intros _.
  apply andb_prop in Hc as [_ Hc]. apply Z.ltb_lt in Hc. rewrite Em in Hc.
  destruct HM as (Eop & _). destruct Henv. unfold Lz4DecodeInv.hist0 in *. rewrite !zlen_app in *.
  destruct (bool_decide (p_dict p = withPrefix64k)); lia.
Qed.

(** A match that ends within the last 5 bytes of the output is an error of a
    full decoding, and rightly so. *)
Lemma wp_bad_end k out s rest m m' st :
  match_inv out s rest m st -> full -> p_oend p - 5 < d_op st + s_mlen s ->
  frame (p_dst p) (p_oend p) m0 m' ->
  wp (output_error p (d_ip st)) (step_post k) m'.
Proof.
  intros (HP & Hs & HM & _ & _ & Em & Eip & _) Hfull Hend Hf.
  pose proof (rest_bounds _ _ HP) as [Hb _]. rewrite zlen_app in Hb.
  pose proof (zlen_nonneg (enc_seq s)). pose proof (zlen_nonneg rest).
  pose proof (e_iend _ _ _ _ _ Henv).
  apply wp_output_error; [lia|done|]. eapply invalid_input; [exact HP|]. intros o HV.
  destruct (valid_rest_seq _ _ _ _ _ _ Hs HV) as (_ & h' & Hx & _ & _ & Hn).
  apply Hn in Hfull as [_ Hr]. apply exec_seq_zlen in Hx; [|done].
  destruct HM as (Eop & _). unfold Lz4DecodeInv.room in Hr. rewrite !zlen_app in *. lia.
Qed.
End Decode.
