(* ===== verification/Lz4DecodeMatch.v ===== *)
(** The match copies of the decoder preserve its invariant: external
    dictionary, end of a partial decoding, and matches within the output. *)
From S2P Require Import Prelude.
From S2P Require Import Mem.
From S2P Require Import BlockFormat.
From S2P Require Import Lz4Common.
From S2P Require Import Lz4CommonSpec.
From S2P Require Import Lz4Decompress.
From S2P Require Import Lz4DecodeSteps.
From S2P Require Import Lz4DecodeInv.
From S2P Require Import Lz4DecodeValid.
From S2P Require Import Lz4DecodeProof.

Section DecodeMatch.
Context (p : dparams) (srcl dictl pre : list Z) (m0 : mem).
Context (Henv : dec_env p srcl dictl pre m0).

Abbreviation valid_rest := (valid_rest p).
Abbreviation parse_inv := (parse_inv p srcl dictl pre).
Abbreviation mem_inv := (mem_inv p pre m0).
Abbreviation hist0 := (hist0 dictl pre).
Abbreviation base := (base p pre).
Abbreviation cap := (p_oend p - p_dst p).
Abbreviation full := (p_partial p = false).
Abbreviation match_inv := (match_inv p srcl dictl pre m0).
Abbreviation step_post := (step_post p srcl dictl pre m0).
Abbreviation out_inv := (out_inv p pre m0).

(** * The external dictionary *)

(** Where a match that starts in the dictionary lies. *)
Lemma extdict_facts out s rest m st :
  match_inv out s rest m st -> in_extdict p (d_match st) = true ->
  checkOffset p && (d_match st + p_dictSize p <? p_lowPrefix p) = false ->
  let cs := s_off s - zlen (pre ++ out ++ s_lits s) in
  p_lowPrefix p = base /\ p_lowPrefix p - d_match st = cs /\ 0 < cs <= zlen dictl /\
  dictEnd p = p_dictStart p + zlen dictl /\ s_off s <= zlen (hist0 ++ out ++ s_lits s).
Proof.
  intros HI Hx Hc cs. pose proof (match_inv_off _ _ _ _ _ _ _ _ _ _ HI) as Ho.
  destruct HI as (_ & _ & (Eop & _) & _ & _ & Em & _).
  unfold in_extdict in Hx. apply andb_prop in Hx as [Hx Hlt]. apply bool_decide_eq_true in Hx.
  apply Z.ltb_lt in Hlt. destruct Henv. specialize (e_dnull Hx).
  rewrite Hx in e_low. rewrite bool_decide_eq_false_2 in e_low by done.
  unfold Lz4DecodeInv.hist0, Lz4DecodeInv.base, cs in *. rewrite !zlen_app in *.
  assert (s_off s - (zlen pre + (zlen out + zlen (s_lits s))) <= zlen dictl) as Hcs.
  { apply andb_false_iff in Hc as [Hc|Hc].
    - unfold checkOffset, KB in Hc. apply Z.ltb_ge in Hc. zlen_facts. lia.
    - apply Z.ltb_ge in Hc. lia. }
  split; [lia|]. split; [lia|]. split; [lia|]. split; [|lia].
  unfold dictEnd. destruct e_dnull as [Hn| ->]; [|rewrite zlen_nil in *; lia].
  destruct (Z.eqb_spec (p_dictStart p) NULL); [done|]. lia.
Qed.

Lemma dict_holds m : frame (p_dst p) (p_oend p) m0 m -> holds m (p_dictStart p) dictl.
Proof. intros Hf. destruct Henv. eapply frame_holds; [exact Hf|lia|done]. Qed.

(** What the copy of [len] bytes of the match leaves behind. *)
Definition match_part (out : list Z) (s : seq) (len : Z) (st : dstate) (m' : mem) : Prop :=
  exists mm, zlen mm = len /\ mem_inv m' (d_op st + len) ((out ++ s_lits s) ++ mm) /\
    (good p s -> match_copy (hist0 ++ out ++ s_lits s) (s_off s) mm).

(** The two copies of [extdict_match], for a length already checked. *)
Lemma wp_extdict_copy kk out s rest m st len Q :
  match_inv out s rest m st -> in_extdict p (d_match st) = true ->
  checkOffset p && (d_match st + p_dictSize p <? p_lowPrefix p) = false ->
  0 <= len -> d_op st + len <= p_oend p ->
  (forall m' st', match_part out s len st m' -> d_ip st' = d_ip st ->
     d_op st' = d_op st + len -> wp (goto kk st') Q m') ->
  let op := d_op st in let mtch := d_match st in
  wp (if len <=? p_lowPrefix p - mtch then
        memmove op (dictEnd p - (p_lowPrefix p - mtch)) len;;
        goto kk (DState (d_ip st) (op + len) (d_token st) len (d_offset st) mtch)
      else
        let copySize := p_lowPrefix p - mtch in
        let restSize := len - copySize in
        memcpy op (dictEnd p - copySize) copySize;;
        let op := op + copySize in
        (if op - p_lowPrefix p <? restSize
         then byte_copy_loop op (op + restSize) (p_lowPrefix p)
         else memcpy op (p_lowPrefix p) restSize);;
        goto kk (DState (d_ip st) (op + restSize) (d_token st) len (d_offset st) mtch)) Q m.
Proof.
  intros HI Hx Hc Hlen Hend HQ op mtch.
  destruct (extdict_facts _ _ _ _ _ HI Hx Hc) as (El & Ecs & Hcs & Ed & Hoff).
  unfold op, mtch. rewrite Ecs, El, Ed in *.
  set (cs := s_off s - zlen (pre ++ out ++ s_lits s)) in *.
  pose proof HI as (_ & _ & HM & _). pose proof HM as (Eop & _ & _ & Hf).
  pose proof (mem_inv_op _ _ _ _ _ Henv _ _ _ HM) as Hop.
  pose proof (dict_holds m Hf) as Hd. pose proof (e_ddisj _ _ _ _ _ Henv) as Hdd.
  assert (zlen (hist0 ++ out ++ s_lits s) - s_off s = zlen dictl - cs) as Ehist.
  { unfold cs, Lz4DecodeInv.hist0. rewrite !zlen_app. lia. }
  assert (base <= p_dst p) as Hbase by (unfold Lz4DecodeInv.base; zlen_facts; lia).
  wif.
  - apply wp_bind, wp_memmove; [lia| | |].
    { eapply mapped_sub; [by apply holds_mapped|lia..]. }
    { eapply output_mapped; [done..|lia|lia]. }
    intros m' Hcp. apply HQ; [|done|done].
    destruct (mem_inv_extdict _ _ _ _ _ Henv m m' (d_op st) (out ++ s_lits s) (s_off s) len len)
      as (mm & ? & ? & ?); [done| |lia|lia|unfold cs in *; lia|done|zl|lia| |intros; lia|by exists mm].
    + eapply copied_frame; [done|]. eapply mapped_sub; [by apply holds_mapped|lia..].
    + intros i Hi. rewrite (copied_at _ _ _ _ _ _ Hcp) by lia. rewrite Ehist.
      rewrite (holds_at _ _ _ _ Hd) by lia. f_equal. lia.
  - apply wp_bind, wp_memcpy; [lia| | |lia|].
    { eapply mapped_sub; [by apply holds_mapped|lia..]. }
    { eapply output_mapped; [done..|lia|lia]. }
    intros m1 Hcp.
    assert (frame (d_op st) (d_op st + cs) m m1) as Hf1.
    { eapply copied_frame; [done|]. eapply mapped_sub; [by apply holds_mapped|lia..]. }
    assert (frame (p_dst p) (p_oend p) m0 m1) as Hf01.
    { eapply frame_trans; [done|]. eapply frame_weaken; [done|lia..]. }
    apply wp_bind.
    assert (forall m2, frame (d_op st + cs) (d_op st + len) m1 m2 ->
      shifted m2 (d_op st + cs) (d_op st + len) (d_op st + cs - base) ->
      wp (goto kk (DState (d_ip st) (d_op st + cs + (len - cs)) (d_token st) len
        (d_offset st) (d_match st))) Q m2) as Hfin.
    { intros m2 Hf2 Hs2. apply HQ; [|done|simpl; lia].
      destruct (mem_inv_extdict _ _ _ _ _ Henv m m2 (d_op st) (out ++ s_lits s) (s_off s) len cs)
        as (mm & ? & ? & ?); [done| |lia|lia|unfold cs in *; lia|done|zl|done| | |by exists mm].
      - eapply frame_trans; eapply frame_weaken; try eassumption; lia.
      - intros i Hi. destruct Hf2 as [Hf2 _]. rewrite Hf2 by lia.
        rewrite (copied_at _ _ _ _ _ _ Hcp) by lia. rewrite Ehist.
        rewrite (holds_at _ _ _ _ Hd) by lia. f_equal. lia.
      - intros i Hi. rewrite Hs2 by lia. f_equal. lia. }
    replace (d_op st + cs + (len - cs)) with (d_op st + len) in * by lia.
    wif.
    + apply wp_byte_copy_loop; [lia|lia| |].
      * eapply window_mapped; [done..|lia|lia].
      * intros m2 Hf2 Hs2. apply Hfin; [done|]. apply Hs2. lia.
    + apply wp_memcpy; [lia| | |lia|].
      * eapply window_mapped; [done..|lia|lia].
      * eapply window_mapped; [done..|lia|lia].
      * intros m2 Hcp2. apply Hfin; replace (d_op st + len) with (d_op st + cs + (len - cs)) by lia.
        -- eapply copied_frame; [done|]. eapply window_mapped; [done..|lia|lia].
        -- eapply copied_shifted; [done|lia].
Qed.

(** A match that was truncated at the end of the output: the input is parsed
    beyond what was stored. *)
Lemma match_truncated out s rest m m' st len :
  match_inv out s rest m st -> match_part out s len st m' ->
  0 <= len <= s_mlen s -> s_off s <= zlen (hist0 ++ out ++ s_lits s) ->
  d_op st + len = p_oend p ->
  exists x, parse_inv (out ++ s_lits s ++ x) rest /\ cap <= zlen (out ++ s_lits s ++ x) /\
    mem_inv m' (p_oend p) (take (Z.to_nat cap) (out ++ s_lits s ++ x)).
Proof.
  intros HI (mm & Hmm & HM' & Hc) Hlen Hoff Hend.
  pose proof (match_inv_off _ _ _ _ _ _ _ _ _ _ HI) as Ho.
  destruct HI as (HP & Hs & (Eop & _) & _).
  assert (exists x, zlen x = s_mlen s - len /\
    (good p s -> match_copy (hist0 ++ out ++ s_lits s) (s_off s) (mm ++ x))) as (x & Hx & Hc').
  { destruct (decide (good p s)) as [Hg|Hg].
    - destruct (match_copy_extend (hist0 ++ out ++ s_lits s) (s_off s) mm
        (Z.to_nat (s_mlen s - len))) as (x & Hx & Hc'); [by apply Hc|lia|].
      exists x. split; [unfold zlen; lia|done].
    - exists (replicate (Z.to_nat (s_mlen s - len)) 0). rewrite zlen_replicate.
      split; [lia|done]. }
  exists (mm ++ x). split; [|split].
  - apply parse_inv_seq; [done|done|zl|done|done].
  - rewrite !zlen_app in *. zlen_facts. lia.
  - assert (take (Z.to_nat cap) (out ++ s_lits s ++ mm ++ x) = (out ++ s_lits s) ++ mm) as ->;
      [|by rewrite <- Hend].
    replace (out ++ s_lits s ++ mm ++ x) with (((out ++ s_lits s) ++ mm) ++ x)
      by by rewrite <- !app_assoc.
    replace (Z.to_nat cap) with (length ((out ++ s_lits s) ++ mm)) by zn.
    by rewrite take_app_length.
Qed.

Lemma wp_extdict_match k kk out s rest m st :
  match_inv out s rest m st -> in_extdict p (d_match st) = true ->
  checkOffset p && (d_match st + p_dictSize p <? p_lowPrefix p) = false ->
  kk = safe_decode \/ kk = fast_loop /\ d_op st + s_mlen s + 64 <= p_oend p ->
  5 * (p_iend p - d_ip st) < k ->
  wp (extdict_match p kk st) (step_post k) m.
Proof.
  intros HI Hx Hc Hkk Hk. unfold extdict_match.
  pose proof HI as (_ & (_ & _ & Hml) & HM & -> & _ & _ & Eip & Hne).
  pose proof (mem_inv_op _ _ _ _ _ Henv _ _ _ HM) as Hop.
  change LASTLITERALS with 5.
  destruct (extdict_facts _ _ _ _ _ HI Hx Hc) as (_ & _ & _ & _ & Hoff).
  destruct (p_partial p) eqn:Ep; rewrite ?andb_false_r, ?andb_true_r; cbn [negb];
    rewrite ?andb_true_r, ?andb_false_r.
  - (* partial decoding: the match may be truncated *)
    assert (exists len, (if p_oend p - 5 <? d_op st + s_mlen s
      then Z.min (s_mlen s) (p_oend p - d_op st) else s_mlen s) = len /\
      0 <= len <= s_mlen s /\ d_op st + len <= p_oend p /\
      (len < s_mlen s -> d_op st + len = p_oend p)) as (len & -> & Hlen & Hle & Htr).
    { eexists. split; [done|]. zcase; lia. }
    eapply wp_extdict_copy; [exact HI|done|done|lia|done|].
    intros m' st' HPt E1 E2. destruct (Z.lt_ge_cases len (s_mlen s)) as [Hlt|Hge].
    + destruct Hkk as [->|[-> ?]]; [|lia]. specialize (Htr Hlt).
      destruct (match_truncated _ _ _ _ _ _ _ HI HPt Hlen Hoff Htr) as (x & HP & Hcap & HM').
      apply wp_ret. split; [|unfold dec_meas; simpl; lia].
      exists (out ++ s_lits s ++ x), rest. split; [done|]. split; [|split; [lia|done]].
      right. rewrite E2, Htr. done.
    + assert (len = s_mlen s) as -> by lia. destruct HPt as (mm & Hmm & HM' & Hcp).
      eapply match_done; try done. rewrite E2. destruct Hkk as [->|[-> ?]]; [by left|].
      right. split; [done|lia].
  - (* full decoding *)
    wif; [eapply wp_bad_end; [done|done|done|lia|by destruct HM as (_ & _ & _ & ?)]|].
    eapply wp_extdict_copy; [exact HI|done|done|lia|lia|].
    intros m' st' (mm & Hmm & HM' & Hcp) E1 E2.
    eapply match_done; try done. rewrite E2. destruct Hkk as [->|[-> ?]]; [by left|].
    right. split; [done|lia].
Qed.

(** * Matches within the window *)

Lemma wp_fast_match_copy k out s rest m st :
  match_inv out s rest m st -> d_op st + s_mlen s < p_oend p - 64 ->
  5 * (p_iend p - d_ip st) < k -> wp (fast_match_copy p st) (step_post k) m.
Proof.
  intros HI Hend Hk. unfold fast_match_copy. wif; [by eapply wp_bad_offset|].
  wif; [eapply wp_extdict_match; eauto; right; split; [done|lia]|].
  pose proof (window_offset _ _ _ _ _ Henv _ _ _ _ _ HI ltac:(by right)) as Hoff.
  pose proof HI as (_ & (_ & _ & Hml) & HM & -> & -> & -> & _).
  pose proof (mem_inv_op _ _ _ _ _ Henv _ _ _ HM) as Hop. pose proof HM as (Eop & _ & _ & Hf).
  assert (forall n, d_op st + n <= p_oend p -> 0 <= n ->
    mapped m (d_op st - s_off s) (s_off s + n)) as Hmap.
  { intros n Hn Hn0. eapply window_mapped; [done..| |lia].
    unfold Lz4DecodeInv.base. rewrite !zlen_app in *. lia. }
  apply wp_bind. wif.
  - pose proof (wild_le 8 (d_op st + s_mlen s - (d_op st + 8)) (s_mlen s + 8) ltac:(lia) ltac:(lia) ltac:(lia)).
    pose proof (wild_ge 8 (d_op st + s_mlen s - (d_op st + 8)) ltac:(lia)).
    apply wp_LZ4_memcpy_using_offset; [lia|apply Hmap; lia|].
    intros m' n Hp Hn1 Hn2.
    eapply (match_copied_post _ _ _ _ _ Henv); [exact HI|exact Hp|lia|lia|done|done|done| |done].
    right. split; [done|simpl; lia].
  - pose proof (wild_le 32 (d_op st + s_mlen s - d_op st) (s_mlen s + 32) ltac:(lia) ltac:(lia) ltac:(lia)).
    pose proof (wild_ge 32 (d_op st + s_mlen s - d_op st) ltac:(lia)).
    apply wp_wildCopy32.
    + apply (mapped_sub _ (d_op st - s_off s) (s_off s + (s_mlen s + 32))); [apply Hmap|..]; lia.
    + apply (mapped_sub _ (d_op st - s_off s) (s_off s + (s_mlen s + 32))); [apply Hmap|..]; lia.
    + lia.
    + intros m' [Hf' Hs'].
      assert (match_post m m' (d_op st) (s_off s) (wild 32 (d_op st + s_mlen s - d_op st))) as Hp.
      { split; [exact Hf'|]. apply shifted_periodic; [lia|].
        by replace (d_op st - (d_op st - s_off s)) with (s_off s) in Hs' by lia. }
      eapply (match_copied_post _ _ _ _ _ Henv); [exact HI|exact Hp|lia|lia|done|done|done| |done].
      right. split; [done|simpl; lia].
Qed.

Lemma wp_partial_match k out s rest m st :
  match_inv out s rest m st -> p_partial p = true ->
  0 <= s_off s <= zlen (pre ++ out ++ s_lits s) ->
  5 * (p_iend p - d_ip st) < k -> wp (partial_match p st) (step_post k) m.
Proof.
  intros HI Hpart Hoff Hk. unfold partial_match.
  pose proof HI as (HP & (_ & _ & Hml) & HM & -> & _ & -> & Eip & Hne).
  pose proof (mem_inv_op _ _ _ _ _ Henv _ _ _ HM) as Hop. pose proof HM as (Eop & _ & _ & Hf).
  set (len := Z.min (s_mlen s) (p_oend p - d_op st)).
  assert (mapped m (d_op st - s_off s) (s_off s + len)) as Hmap.
  { eapply window_mapped; [done..| |lia]. unfold Lz4DecodeInv.base. rewrite !zlen_app in *. lia. }
  assert (forall m', frame (d_op st) (d_op st + len) m m' ->
    (0 < s_off s -> shifted m' (d_op st) (d_op st + len) (s_off s)) ->
    match_part out s len st m') as Hpart'.
  { intros m' Hf' Hs'. destruct (Z.eq_dec (s_off s) 0) as [E0|E0].
    - destruct (mapped_holds m' (d_op st) len) as (mm & Hmm & Hl); [lia| |].
      { eapply frame_mapped; [exact Hf'|]. eapply mapped_sub; [exact Hmap|lia..]. }
      exists mm. split; [done|]. split.
      + rewrite <- Hl. eapply mem_inv_append; [exact HM| |done|lia].
        eapply frame_weaken; [exact Hf'|lia..].
      + intros [?|?]; [congruence|done].
    - destruct (mem_inv_match _ _ _ _ _ Henv m m' (d_op st) (out ++ s_lits s) (s_off s) len)
        as (mm & Hl & HM' & Hc); [done| | |lia|lia|done|by exists mm].
      + eapply frame_weaken; [exact Hf'|lia..].
      + apply shifted_periodic; [lia|]. apply Hs'. lia. }
  apply wp_bind.
  assert (forall m', match_part out s len st m' ->
    wp (if d_op st + len =? p_oend p then decoded p (d_op st + len)
        else goto safe_decode (DState (d_ip st) (d_op st + len) (d_token st) (s_mlen s)
               (d_offset st) (d_op st - s_off s))) (step_post k) m') as Hfin.
  { intros m' HPt. wif.
    - destruct (match_truncated _ _ _ _ _ _ _ HI HPt) as (x & HP' & Hcap & HM'); [lia| |done|].
      { apply hist_offset. lia. }
      rewrite e. eapply (wp_decoded _ _ _ _ _ Henv); [exact HM'|intros; congruence|].
      intros o HV. destruct HP' as (d & _ & _ & _ & Hv). destruct (Hv o HV) as (o' & -> & _).
      rewrite (take_app_le (out ++ s_lits s ++ x)); [done|]. unfold zlen in Hcap. lia.
    - assert (len = s_mlen s) as E by lia. rewrite E in *.
      destruct HPt as (mm & Hmm & HM' & Hc).
      eapply match_done; try done; [apply hist_offset; lia|by left]. }
  wif.
  - apply wp_byte_copy_loop; [lia|lia| |].
    + by replace (d_op st + len - (d_op st - s_off s)) with (s_off s + len) by lia.
    + intros m' Hf' Hs'. apply Hfin, Hpart'; [done|]. intros H0.
      replace (s_off s) with (d_op st - (d_op st - s_off s)) by lia. apply Hs'. lia.
  - apply wp_memcpy; [lia| | |lia|].
    + eapply mapped_sub; [exact Hmap|lia..].
    + eapply mapped_sub; [exact Hmap|lia..].
    + intros m' Hcp. apply Hfin, Hpart'.
      * eapply copied_frame; [done|]. eapply mapped_sub; [exact Hmap|lia..].
      * intros H0. replace (s_off s) with (d_op st - (d_op st - s_off s)) by lia.
        eapply copied_shifted; [done|lia].
Qed.

(** After the first 8 bytes the match goes on [g] places back. *)
Definition continues (off g : Z) : Prop :=
  8 <= g <= off + 8 /\
  (off = 0 /\ g <= 8 \/
   exists c : nat, (1 <= c)%nat /\ 0 < off /\ g = Z.of_nat c * off /\ g - off <= 8).

Lemma periodic_continue m1 m2 op off g hi :
  continues off g -> 0 <= off -> periodic m1 op (op + 8) off -> 8 <= hi ->
  (forall i, i < op + 8 -> m2 !! i = m1 !! i) -> shifted m2 (op + 8) (op + hi) g ->
  periodic m2 op (op + hi) off.
Proof.
  intros [Hg Hc] Ho Hp1 Hhi Heq Hs2.
  apply (periodic_extend m2 op (op + 8) (op + hi) off g); try lia; [|done|].
  - intros i Hi. rewrite (Heq i) by lia. rewrite (Hp1 i Hi). zcase; [done|].
    by rewrite Heq by lia.
  - destruct Hc as [?|(c & ? & ? & ? & ?)]; [left; lia|right; exists c; lia].
Qed.

Lemma wp_byte_copy_loop_done op endp from Q m :
  endp <= op -> Q tt m -> wp (byte_copy_loop op endp from) Q m.
Proof.
  intros H HQ. unfold byte_copy_loop, loop. apply wp_bind. wif; [lia|]. by apply wp_ret.
Qed.

Section Tail.
Context (k : Z) (out : list Z) (s : seq) (rest : list Z) (m m1 : mem) (st : dstate) (g : Z).
Context (HI : match_inv out s rest m st).
Context (Hoff : 0 <= s_off s <= zlen (pre ++ out ++ s_lits s)).
Context (H12 : d_op st + 12 <= p_oend p).
Context (Hk : 5 * (p_iend p - d_ip st) < k).
Context (Hg : continues (s_off s) g).
Context (H1 : match_post m m1 (d_op st) (s_off s) 8).

(** The memory [m2] has the match up to [hi]. *)
Definition tail_inv (m2 : mem) (hi : Z) : Prop :=
  frame (d_op st + 8) (p_oend p) m1 m2 /\ shifted m2 (d_op st + 8) (d_op st + hi) g /\
  8 <= hi /\ d_op st + hi <= p_oend p.

Lemma tail_frame m2 hi : tail_inv m2 hi -> frame (p_dst p) (p_oend p) m0 m2.
Proof.
  intros (Hf2 & _). pose proof HI as (_ & _ & HM & _).
  pose proof (mem_inv_op _ _ _ _ _ Henv _ _ _ HM). destruct H1 as [Hf1 _].
  destruct HM as (_ & _ & _ & Hf). eapply frame_trans; [exact Hf|].
  eapply frame_trans; eapply frame_weaken; try eassumption; lia.
Qed.

Lemma tail_mapped m2 hi a n :
  tail_inv m2 hi -> d_op st - s_off s <= a -> a + n <= p_oend p -> mapped m2 a n.
Proof.
  intros HT Ha Hn. pose proof HI as (_ & _ & (Eop & _) & _). apply tail_frame in HT.
  eapply window_mapped; [done..| |lia]. unfold Lz4DecodeInv.base. rewrite !zlen_app in *. lia.
Qed.

Lemma tail_start : tail_inv m1 8.
Proof. split; [auto with lz4|]. split; [intros i Hi; lia|]. lia. Qed.

(** A copy from [g] places back. *)
Lemma tail_more m2 m3 hi hi' e :
  tail_inv m2 hi -> frame (d_op st + hi) e m2 m3 -> e <= p_oend p -> hi <= hi' ->
  d_op st + hi' <= p_oend p -> shifted m3 (d_op st + hi) (d_op st + hi') g -> tail_inv m3 hi'.
Proof.
  intros (Hf2 & Hs2 & H8 & Hle) Hf3 He Hhi Hle' Hs3. pose proof Hg as [Hg8 _].
  split; [|split; [|lia]].
  - eapply frame_trans; [exact Hf2|]. eapply frame_weaken; [exact Hf3|lia..].
  - intros i Hi. destruct (Z.lt_ge_cases i (d_op st + hi)); [|apply Hs3; lia].
    destruct Hf3 as [Hf3 _]. rewrite !Hf3 by lia. apply Hs2. lia.
Qed.

Lemma tail_done m2 hi st' :
  tail_inv m2 hi -> s_mlen s <= hi -> d_ip st' = d_ip st -> d_op st' = d_op st + s_mlen s ->
  wp (goto safe_decode st') (step_post k) m2.
Proof.
  intros (Hf2 & Hs2 & H8 & Hle) Hml E1 E2. destruct H1 as [Hf1 Hp1].
  eapply (match_copied _ _ _ _ _ Henv); [exact HI| | |lia|done|done|done|by left|done].
  - eapply frame_trans; eapply frame_weaken; try eassumption; lia.
  - eapply periodic_sub; [|reflexivity|exact (proj1 (Z.add_le_mono_l _ _ (d_op st)) Hml)].
    eapply periodic_continue; [exact Hg|lia|exact Hp1|done| |done].
    intros i Hi. destruct Hf2 as [Hf2 _]. apply Hf2. lia.
Qed.

(** The last bytes are copied one by one. *)
Lemma wp_tail_bytes m2 a st' :
  tail_inv m2 a -> d_op st + s_mlen s <= p_oend p ->
  d_ip st' = d_ip st -> d_op st' = d_op st + s_mlen s ->
  wp (byte_copy_loop (d_op st + a) (d_op st + s_mlen s) (d_op st + a - g);;
      goto safe_decode st') (step_post k) m2.
Proof.
  intros HT Hend E1 E2. pose proof Hg as [Hg8 _]. pose proof HT as (_ & _ & Ha & _).
  apply wp_bind. destruct (Z.le_gt_cases (s_mlen s) a) as [Hle|Hgt].
  - apply wp_byte_copy_loop_done; [lia|]. by eapply tail_done.
  - apply wp_byte_copy_loop; [lia|lia|eapply tail_mapped; [done|lia..]|].
    intros m3 Hf3 Hs3. specialize (Hs3 ltac:(lia)).
    apply (tail_done m3 (s_mlen s)); try done.
    eapply tail_more; [exact HT|exact Hf3|lia|lia|lia|].
    by replace (d_op st + a - (d_op st + a - g)) with g in Hs3 by lia.
Qed.

Lemma wp_block_match_tail :
  p_partial p = false \/ d_op st + s_mlen s <= p_oend p - 12 ->
  wp (block_match_tail p st (d_op st + 8 - g)) (step_post k) m1.
Proof.
  intros Hfull. unfold block_match_tail. pose proof Hg as [Hg8 _]. pose proof tail_start as HT.
  change MATCH_SAFEGUARD_DISTANCE with 12. change WILDCOPYLENGTH with 8.
  change LASTLITERALS with 5. pose proof HI as (_ & (_ & _ & Hml) & _ & -> & _).
  wif.
  - wif; [eapply wp_bad_end; [done|exact HI|by destruct Hfull; [|lia]|lia|by eapply tail_frame]|].
    wif.
    + apply wp_bind.
      pose proof (wild_le 8 (p_oend p - (8 - 1) - (d_op st + 8)) (p_oend p - (d_op st + 8))
        ltac:(lia) ltac:(lia) ltac:(lia)).
      pose proof (wild_ge 8 (p_oend p - (8 - 1) - (d_op st + 8)) ltac:(lia)).
      apply wp_wildCopy8; [eapply tail_mapped; [done|lia..]..|lia|].
      intros m2 [Hf2 Hs2].
      replace (d_op st + 8 - g + (p_oend p - (8 - 1) - (d_op st + 8)))
        with (d_op st + (p_oend p - (8 - 1) - d_op st) - g) by lia.
      replace (p_oend p - (8 - 1)) with (d_op st + (p_oend p - (8 - 1) - d_op st)) at 1 by lia.
      apply wp_tail_bytes; [|lia|done|done].
      eapply tail_more; [exact HT|exact Hf2|lia|lia|lia|].
      intros i Hi. rewrite Hs2 by lia. f_equal. lia.
    + apply wp_tail_bytes; [done|lia|done|done].
  - apply wp_bind, memcpy_stride; [lia|eapply tail_mapped; [done|lia..]..|lia|].
    intros m2 [Hf2 Hs2]. assert (tail_inv m2 16) as HT2.
    { eapply tail_more; [exact HT|exact Hf2|lia|lia|lia|].
      intros i Hi. rewrite Hs2 by lia. f_equal. lia. }
    apply wp_bind. wif.
    + pose proof (wild_le 8 (d_op st + s_mlen s - (d_op st + 8 + 8)) (p_oend p - (d_op st + 16))
        ltac:(lia) ltac:(lia) ltac:(lia)).
      pose proof (wild_ge 8 (d_op st + s_mlen s - (d_op st + 8 + 8)) ltac:(lia)).
      apply wp_wildCopy8; [eapply tail_mapped; [done|lia..]..|lia|].
      intros m3 [Hf3 Hs3]. apply (tail_done m3 (s_mlen s)); try done.
      replace (d_op st + 8 + 8) with (d_op st + 16) in * by lia.
      eapply tail_more; [exact HT2|exact Hf3|lia|lia|lia|].
      intros i Hi. rewrite Hs3 by lia. f_equal. lia.
    + apply wp_ret. apply (tail_done m2 16); [done|lia|done|done].
Qed.
End Tail.

Lemma wp_block_match k out s rest m st :
  match_inv out s rest m st -> 0 <= s_off s <= zlen (pre ++ out ++ s_lits s) ->
  (full -> d_op st + 12 <= p_oend p) ->
  p_partial p = false \/ d_op st + s_mlen s <= p_oend p - 12 ->
  5 * (p_iend p - d_ip st) < k -> wp (block_match p st) (step_post k) m.
Proof.
  intros HI Hoff Hfull Hor Hk. unfold block_match.
  pose proof HI as (_ & (_ & _ & Hml) & HM & _ & -> & -> & _). pose proof HM as (Eop & _ & _ & Hf).
  assert (d_op st + 12 <= p_oend p) as H12 by (destruct Hor; [by apply Hfull|lia]).
  assert (forall a n, d_op st - s_off s <= a -> a + n <= p_oend p -> mapped m a n) as Hmap.
  { intros a n Ha Hn. eapply window_mapped; [done..| |lia].
    unfold Lz4DecodeInv.base. rewrite !zlen_app in *. lia. }
  apply wp_bind. wif.
  - apply (wp_copy_small_offset (d_op st)); [lia|apply Hmap; lia|]. intros m1 H1.
    eapply wp_block_match_tail; try done. apply far_offset_ok. lia.
  - apply wp_bind, memcpy_stride; [lia|apply Hmap; lia..|lia|].
    intros m1 [Hf1 Hs1]. apply wp_ret.
    replace (d_op st - s_off s + 8) with (d_op st + 8 - s_off s) by lia.
    eapply wp_block_match_tail; try done.
    + split; [lia|]. right. exists 1%nat. lia.
    + split; [done|]. apply shifted_periodic; [lia|].
      by replace (d_op st - (d_op st - s_off s)) with (s_off s) in Hs1 by lia.
Qed.

Lemma wp_safe_match_copy k out s rest m st :
  match_inv out s rest m st -> (full -> d_op st + 12 <= p_oend p) ->
  5 * (p_iend p - d_ip st) < k -> wp (safe_match_copy_body p st) (step_post k) m.
Proof.
  intros HI Hfull Hk. unfold safe_match_copy_body. change MATCH_SAFEGUARD_DISTANCE with 12.
  wif; [by eapply wp_bad_offset|]. wif; [eapply wp_extdict_match; eauto|].
  pose proof (window_offset _ _ _ _ _ Henv _ _ _ _ _ HI ltac:(by right)) as Hoff.
  pose proof HI as (_ & _ & _ & El & _).
  destruct (p_partial p) eqn:Ep; simpl; [|eapply wp_block_match; eauto].
  wif; [by eapply wp_partial_match|]. rewrite El in *.
  eapply wp_block_match; eauto.
Qed.
End DecodeMatch.
