(* ===== verification/Lz4DecodeLoop.v ===== *)
(** The two decoding loops preserve the invariant of the decoder; the run of
    the whole decoder follows. *)
From S2P Require Import Prelude.
From S2P Require Import Mem.
From S2P Require Import BlockFormat.
From S2P Require Import Lz4Common.
From S2P Require Import Lz4CommonSpec.
From S2P Require Import Lz4Decompress.
From S2P Require Import Lz4DecodeSteps.
From S2P Require Import Lz4DecodeInv.
From S2P Require Import Lz4DecodeValid.
From S2P Require Import Lz4DecodeProof.
From S2P Require Import Lz4DecodeMatch.

Section DecodeLoop.
Context (p : dparams) (srcl dictl pre : list Z) (m0 : mem).
Context (Henv : dec_env p srcl dictl pre m0).

Abbreviation valid_rest := (valid_rest p).
Abbreviation parse_inv := (parse_inv p srcl dictl pre).
Abbreviation mem_inv := (mem_inv p pre m0).
Abbreviation hist0 := (hist0 dictl pre).
Abbreviation cap := (p_oend p - p_dst p).
Abbreviation full := (p_partial p = false).
Abbreviation match_inv := (match_inv p srcl dictl pre m0).
Abbreviation step_post := (step_post p srcl dictl pre m0).
Abbreviation out_inv := (out_inv p pre m0).
Abbreviation dec_inv := (dec_inv p srcl dictl pre m0).
Abbreviation dec_meas := (dec_meas p).

Ltac env :=
  pose proof (e_iend _ _ _ _ _ Henv); pose proof (e_isize _ _ _ _ _ Henv);
  pose proof (e_dst _ _ _ _ _ Henv); pose proof (e_osize _ _ _ _ _ Henv);
  pose proof (e_addr _ _ _ _ _ Henv);
  change RUN_MASK with 15 in *; change ML_MASK with 15 in *; change LASTLITERALS with 5 in *;
  change MINMATCH with 4 in *; change MFLIMIT with 12 in *;
  change FASTLOOP_SAFE_DISTANCE with 64 in *; unfold int_max in *.

(** * From the offset to the match *)

(** The sequence is complete once its match length is known. *)
Lemma match_inv_intro out tok lits lo hi ml rest m op len off mtch ip :
  parse_inv out (tok :: len_ext (zlen lits) ++ lits ++ lo :: hi :: len_ext ml ++ rest) ->
  mem_inv m op (out ++ lits) -> tok / 16 = nibble (zlen lits) -> tok mod 16 = nibble ml ->
  0 <= ml -> len = ml + 4 -> off = lo + 256 * hi -> mtch = op - off ->
  ip = p_iend p - zlen rest -> rest <> [] ->
  match_inv out (Seq lits (lo + 256 * hi) (ml + 4)) rest m (DState ip op tok len off mtch).
Proof.
  intros HP HM H1 H2 Hml -> -> -> -> Hne.
  pose proof (parse_inv_bytes _ _ _ _ _ Henv _ _ HP) as Hb.
  apply bytes_ok_cons in Hb as [_ Hb]. rewrite !bytes_ok_app in Hb.
  destruct Hb as (_ & Hl & Hb). rewrite !bytes_ok_cons in Hb. destruct Hb as (Hlo & Hhi & _).
  rewrite tok_enc_seq in HP by done. split; [done|]. split; [|done].
  split; [done|]. simpl. lia.
Qed.

Lemma wp_copy_match m st :
  dec_inv (copy_match_label, st) m ->
  wp (copy_match_body p st) (step_post (dec_meas (copy_match_label, st))) m.
Proof.
  intros (out & lits & lo & hi & rest & HP & HM & Ht & El & Eo & Em & Eip & Hne & Hfull).
  unfold copy_match_body. env. rewrite El.
  pose proof HM as (_ & _ & _ & Hf). pose proof (mem_inv_op _ _ _ _ _ Henv _ _ _ HM) as Hop.
  pose proof (token_byte _ _ _ _ _ Henv _ _ _ HP) as Hbt.
  pose proof (token_lo _ Hbt) as [_ Hlo]. unfold dec_meas; simpl. wif.
  - rewrite Eip. apply wp_bind. eapply wp_match_length; [done|exact HP|done..| |].
    + intros ml r4 -> Hml Hr4. rewrite e in *.
      pose proof (rest_bounds _ _ _ _ _ Henv _ _ HP) as [_ Hb]. autorewrite with zlen in Hb.
      pose proof (len_ext_bound ml ltac:(lia)). zlen_facts.
      rewrite rvl_error_ne by lia. rewrite (u64_small (15 + (ml - 15))) by lia.
      rewrite no_ptr_overflow by lia. rewrite u64_small by lia. apply wp_ret.
      split; [|unfold dec_meas; simpl; rewrite zlen_app; lia].
      exists out, (Seq lits (lo + 256 * hi) (ml + 4)), r4. split; [|done].
      apply match_inv_intro; try done; try lia.
      * unfold nibble. lia.
      * intros ->. rewrite zlen_nil in *. lia.
    + intros ip' Hip Hno. apply wp_output_error; done.
  - apply wp_ret. split; [|unfold dec_meas; simpl; lia].
    exists out, (Seq lits (lo + 256 * hi) (d_token st mod 16 + 4)), rest. split; [|done].
    apply match_inv_intro; try done; try lia.
    + by rewrite (len_ext_small (d_token st mod 16)) by lia.
    + unfold nibble. lia.
Qed.

(** Reading the offset after the literals of a sequence. *)
Lemma wp_get_offset k out tok lits rest m op :
  parse_inv out (tok :: len_ext (zlen lits) ++ lits ++ rest) -> mem_inv m op (out ++ lits) ->
  tok / 16 = nibble (zlen lits) -> 3 <= zlen rest -> (full -> op + 12 <= p_oend p) ->
  5 * zlen rest - 8 < k ->
  wp (get_offset (p_iend p - zlen rest) op tok) (step_post k) m.
Proof.
  intros HP HM Ht Hr Hfull Hk. unfold get_offset.
  pose proof (token_byte _ _ _ _ _ Henv _ _ _ HP) as Hbt. pose proof (token_lo _ Hbt) as [-> _].
  destruct (parse_inv_suffix p srcl dictl pre out ([tok] ++ len_ext (zlen lits) ++ lits) rest) as [y Ey].
  { by rewrite <- !app_assoc. }
  pose proof HM as (_ & _ & _ & Hf).
  destruct rest as [|lo [|hi rest]]; [zl|zl|].
  apply wp_bind. eapply wp_LZ4_readLE16; [by eapply input_holds|]. apply wp_ret.
  rewrite !zlen_cons in *. split; [|unfold dec_meas; simpl; lia].
  exists out, lits, lo, hi, rest. simpl. do 6 (split; [done|]). split; [lia|]. split; [|done].
  intros ->. rewrite zlen_nil in Hr. lia.
Qed.

(** * Literals *)

(** The decoding ends after [n] bytes of the literals. *)
Lemma literals_end out tok ll rest lits tail m op :
  parse_inv out (tok :: len_ext ll ++ rest) -> tok / 16 = nibble ll -> 0 <= ll ->
  mem_inv m op (out ++ lits) -> rest = lits ++ tail -> zlen lits <= ll ->
  (zlen tail <= 2 /\ (zlen lits = ll \/ tail = [])) \/ op = p_oend p ->
  (full -> tail = [] /\ zlen lits = ll) ->
  forall k, wp (decoded p op) (step_post k) m.
Proof.
  intros HP Ht Hll HM Er Hn Hend Hfull k. pose proof HM as (Eop & Hle & _).
  destruct HP as (d & Ed & Hw & Hx & Hv). eapply (wp_decoded _ _ _ _ _ Henv); [exact HM| |].
  - intros Hf. destruct (Hfull Hf) as [-> El]. rewrite app_nil_r in Er. subst rest ll.
    exists (Block d lits (tok mod 16)). split; [|split].
    + split; [done|]. split; [|simpl; apply Z.mod_pos_bound; lia].
      pose proof (e_bytes _ _ _ _ _ Henv) as Hb. rewrite Ed in Hb.
      apply bytes_ok_app in Hb as [_ Hb]. apply bytes_ok_cons in Hb as [_ Hb].
      by apply bytes_ok_app in Hb as [_ ?].
    + rewrite Ed. unfold enc_block; simpl. by rewrite tok_enc_last.
    + apply expand_spec. exists (hist0 ++ out). split; [|by rewrite <- app_assoc].
      apply Hx. apply Forall_forall. intros. by left.
  - intros o HV. destruct (Hv o HV) as (o' & -> & HV').
    assert (exists o2, o' = lits ++ o2 /\ (o2 = [] \/ op = p_oend p)) as (o2 & -> & Ho2).
    { destruct (valid_lits _ _ _ _ _ _ _ HV' Ht Hll) as [(El & -> & _)|(lits' & tail' & o2 & E & El & H8 & -> & _)].
      - exists tail. split; [done|]. destruct Hend as [[E1 [E2|E2]]|E]; [|by left|by right].
        left. subst rest. rewrite zlen_app in El. apply zlen_0_nil. lia.
      - rewrite E in Er. destruct Hend as [[E1 E2]|E'].
        + exfalso. apply (f_equal zlen) in Er. rewrite !zlen_app in Er.
          destruct E2 as [E2| ->]; rewrite ?zlen_nil in *; lia.
        + assert (exists x, lits' = lits ++ x) as [x ->].
          { exists (drop (length lits) lits'). apply (f_equal (take (length lits))) in Er.
            rewrite take_app_le in Er by (unfold zlen in *; lia). rewrite take_app_length in Er.
            rewrite <- Er at 1. by rewrite take_drop. }
          exists (x ++ o2). rewrite <- app_assoc. split; [done|by right]. }
    rewrite app_assoc. apply take_prefix; [rewrite zlen_app in *; lia|].
    destruct Ho2 as [->|E]; [by left|]. right. lia.
Qed.

(** A partial decoding that already filled the output. *)
Lemma overfull_end out rest m op :
  parse_inv out rest -> p_partial p = true -> op = p_oend p -> cap <= zlen out ->
  mem_inv m op (take (Z.to_nat cap) out) -> forall k, wp (decoded p op) (step_post k) m.
Proof.
  intros (d & _ & _ & _ & Hv) Hp -> Hcap HM k.
  eapply (wp_decoded _ _ _ _ _ Henv); [exact HM|congruence|].
  intros o HV. destruct (Hv o HV) as (o' & -> & _).
  rewrite take_app_le; [done|]. unfold zlen in Hcap. lia.
Qed.

(** A copy of literals with [memmove]. *)
Lemma wp_memmove_lits out lits x tail m op Q :
  mem_inv m op out -> srcl = x ++ lits ++ tail -> op + zlen lits <= p_oend p ->
  (forall m', mem_inv m' (op + zlen lits) (out ++ lits) -> Q tt m') ->
  wp (memmove op (p_iend p - zlen (lits ++ tail)) (zlen lits)) Q m.
Proof.
  intros HM Ex Hle HQ. pose proof HM as (_ & _ & _ & Hf).
  pose proof (mem_inv_op _ _ _ _ _ Henv _ _ _ HM) as Hop.
  pose proof (input_holds _ _ _ _ _ Henv m _ _ Hf Ex) as Hi.
  apply holds_app in Hi as [Hi _]. pose proof (holds_mapped _ _ _ Hi) as Hmi.
  apply wp_memmove; [zl|done|eapply output_mapped; [done..|lia|lia]|].
  intros m' Hcp. apply HQ.
  eapply mem_inv_append; [exact HM| |by eapply copied_holds; [exact Hcp|lia|]|lia].
  eapply frame_weaken; [by eapply copied_frame|lia..].
Qed.

(** The facts at [safe_literal_copy]. *)
Definition lits_inv (out rest : list Z) (ll : Z) (st : dstate) : Prop :=
  parse_inv out (d_token st :: len_ext ll ++ rest) /\ 0 <= ll /\
  d_token st / 16 = nibble ll /\ d_length st = ll /\ d_ip st = p_iend p - zlen rest.

Lemma lits_suffix out rest ll st :
  lits_inv out rest ll st -> exists x, srcl = x ++ rest.
Proof. intros (HP & _). exact (parse_inv_suffix p srcl dictl pre out (d_token st :: len_ext ll) rest HP). Qed.

(** Literals far from both ends: a wild copy and the match. *)
Lemma wp_literals_wild out rest ll m st :
  lits_inv out rest ll st -> mem_inv m (d_op st) out ->
  d_op st + ll <= p_oend p - 12 -> ll <= zlen rest - 8 ->
  wp (LZ4_wildCopy8 (d_op st) (d_ip st) (d_op st + ll);;
      get_offset (d_ip st + ll) (d_op st + ll) (d_token st))
    (step_post (dec_meas (safe_literal_copy, st))) m.
Proof.
  intros HL HM Ho Hi. pose proof HL as (HP & Hll & Ht & _ & Eip).
  destruct (lits_suffix _ _ _ _ HL) as [x Ex].
  destruct (list_split_at rest ll) as (lits & tail & -> & El); [zl|].
  pose proof HM as (_ & _ & _ & Hf). pose proof (mem_inv_op _ _ _ _ _ Henv _ _ _ HM) as Hop.
  pose proof (wild_le 8 ll (ll + 8) ltac:(lia) ltac:(lia) ltac:(lia)).
  pose proof (wild_ge 8 ll ltac:(lia)). pose proof (e_disj _ _ _ _ _ Henv) as Hd.
  pose proof (holds_mapped _ _ _ (input_holds _ _ _ _ _ Henv m _ _ Hf Ex)) as Hmi.
  rewrite zlen_app in *. pose proof (e_iend _ _ _ _ _ Henv) as Hie. rewrite Ex in Hie.
  rewrite !zlen_app in Hie. pose proof (zlen_nonneg x).
  apply wp_bind, wp_wildCopy8; replace (d_op st + ll - d_op st) with ll by lia.
  - eapply mapped_sub; [exact Hmi|lia..].
  - eapply output_mapped; [done..|lia|lia].
  - lia.
  - intros m' Hcp. rewrite Eip.
    replace (p_iend p - (zlen lits + zlen tail) + ll) with (p_iend p - zlen tail) by lia.
    subst ll. eapply wp_get_offset; [exact HP| |done|lia|lia|].
    + eapply mem_inv_lits; [done|exact HM|exact Ex| |exact Hcp|lia|lia]. rewrite zlen_app. lia.
    + unfold dec_meas; simpl. rewrite Eip. zlen_facts. lia.
Qed.

(** The last literals of a full decoding. *)
Lemma wp_literals_last out rest ll m st :
  lits_inv out rest ll st -> mem_inv m (d_op st) out -> full ->
  p_oend p - 12 < d_op st + ll \/ zlen rest - 8 < ll ->
  wp (if negb (d_ip st + ll =? p_iend p) || (p_oend p <? d_op st + ll)
      then output_error p (d_ip st) else
      memmove (d_op st) (d_ip st) ll;; decoded p (d_op st + ll))
    (step_post (dec_meas (safe_literal_copy, st))) m.
Proof.
  intros HL HM Hfull Hend. pose proof HL as (HP & Hll & Ht & _ & Eip).
  destruct (lits_suffix _ _ _ _ HL) as [x Ex]. rewrite Eip. env.
  assert (zlen srcl = zlen x + zlen rest) as Hx by (rewrite Ex, zlen_app; done). zlen_facts.
  wif.
  - apply wp_output_error; [done|lia|by destruct HM as (_ & _ & _ & ?)|].
    eapply invalid_input; [exact HP|]. intros o HV. apply orb_prop in E.
    destruct HM as (Eop & _).
    destruct (valid_lits _ _ _ _ _ _ _ HV Ht Hll) as [(El & _ & Hn)|(l & t & o2 & -> & El & H8 & _ & Hn)];
      specialize (Hn Hfull); unfold room in Hn; [|rewrite zlen_app in *; lia].
    destruct E as [E|E]; [|apply Z.ltb_lt in E; lia].
    apply negb_true_iff, Z.eqb_neq in E. lia.
  - apply orb_false_elim in E as [E1 E2]. apply negb_false_iff, Z.eqb_eq in E1.
    apply Z.ltb_ge in E2. assert (ll = zlen rest) as -> by lia.
    apply wp_bind. rewrite <- (app_nil_r rest) at 1. rewrite <- (app_nil_r rest) in Ex.
    eapply wp_memmove_lits; [exact HM|exact Ex|lia|]. intros m' HM'.
    eapply (literals_end out _ (zlen rest) rest rest []); try done; try lia.
    + by rewrite app_nil_r.
    + left. split; [done|by left].
Qed.

(** The literals of a partial decoding near an end: truncated by the end of
    the input or by the room in the output. *)
Lemma wp_literals_partial out rest ll m st L :
  lits_inv out rest ll st -> out_inv m (d_op st) out -> p_partial p = true ->
  L = Z.min (Z.min ll (zlen rest)) (p_oend p - d_op st) ->
  wp (memmove (d_op st) (d_ip st) L;;
      (if (d_op st + L =? p_oend p) || (p_iend p - 2 <=? d_ip st + L)
       then decoded p (d_op st + L) else get_offset (d_ip st + L) (d_op st + L) (d_token st)))
    (step_post (dec_meas (safe_literal_copy, st))) m.
Proof.
  intros HL HO Hp EL. pose proof HL as (HP & Hll & Ht & _ & Eip).
  pose proof (out_inv_op _ _ _ _ _ Henv _ _ _ HO) as Hop. zlen_facts.
  destruct (lits_suffix _ _ _ _ HL) as [x Ex]. rewrite Eip. apply wp_bind.
  destruct (list_split_at rest L) as (lits & tail & -> & El); [lia|].
  destruct HO as [HM|(_ & Eop & Hcap & HM)].
  - rewrite <- El. eapply wp_memmove_lits; [exact HM|exact Ex|lia|]. intros m' HM'.
    rewrite zlen_app in *. wif.
    + eapply (literals_end out _ ll (lits ++ tail) lits tail); try done; [lia| |congruence].
      apply orb_prop in E as [E|E]; [right; lia|]. apply Z.leb_le in E.
      assert (L = p_oend p - d_op st \/ L = ll \/ L = zlen lits + zlen tail) as [?|[?|?]] by lia;
        [right; lia|left; split; [lia|left; lia]|].
      left. split; [lia|]. right. apply zlen_0_nil. lia.
    + apply orb_false_elim in E as [E1 E2]. apply Z.eqb_neq in E1. apply Z.leb_gt in E2.
      assert (zlen lits = ll) as <- by lia.
      replace (p_iend p - (zlen lits + zlen tail) + zlen lits) with (p_iend p - zlen tail) by lia.
      eapply wp_get_offset; [exact HP|exact HM'|done|lia|congruence|].
      unfold dec_meas; simpl. rewrite Eip. zlen_facts. lia.
  - assert (L = 0) as -> by lia. assert (lits = []) as -> by (apply zlen_0_nil; lia). simpl in *.
    change 0 with (zlen (@nil Z)) at 1.
    eapply (wp_memmove_lits _ [] x tail); [exact HM|exact Ex|rewrite zlen_nil; lia|]. intros m' HM'.
    rewrite app_nil_r, zlen_nil in HM'. rewrite Z.add_0_r in *.
    rewrite (proj2 (Z.eqb_eq _ _) Eop). simpl. eapply overfull_end; done.
Qed.

Lemma wp_safe_literal_copy m st :
  dec_inv (safe_literal_copy, st) m ->
  wp (safe_literal_copy_body p st) (step_post (dec_meas (safe_literal_copy, st))) m.
Proof.
  intros (out & ll & rest & HP & HO & Hll & Ht & El & Eip).
  assert (lits_inv out rest ll st) as HL by done.
  unfold safe_literal_copy_body. env. rewrite El.
  pose proof (out_inv_op _ _ _ _ _ Henv _ _ _ HO) as Hop. zlen_facts. wif.
  - apply orb_prop in E. rewrite !Z.ltb_lt in E. destruct (p_partial p) eqn:Hp; cbn [negb andb orb].
    + assert (forall A (f : Z * Z -> M A), 
        (let '(length, cpy) := if p_iend p <? d_ip st + ll
           then (p_iend p - d_ip st, d_op st + (p_iend p - d_ip st)) else (ll, d_op st + ll) in
         let '(length, cpy) := if p_oend p <? cpy then (p_oend p - d_op st, p_oend p)
           else (length, cpy) in f (length, cpy))
        = f (Z.min (Z.min ll (zlen rest)) (p_oend p - d_op st),
             d_op st + Z.min (Z.min ll (zlen rest)) (p_oend p - d_op st))) as Hlet.
      { intros A f. repeat (zcase; [|]); f_equal; f_equal; lia. }
      rewrite (Hlet _ (fun '(length, cpy) => memmove (d_op st) (d_ip st) length;;
        if (cpy =? p_oend p) || (p_iend p - 2 <=? d_ip st + length) then decoded p (d_op st + length)
        else get_offset (d_ip st + length) (d_op st + length) (d_token st))).
      by eapply wp_literals_partial.
    + destruct HO as [HM|(? & _)]; [|congruence].
      eapply wp_literals_last; [exact HL|done|done|lia].
  - apply orb_false_elim in E as [E1 E2]. apply Z.ltb_ge in E1, E2.
    destruct HO as [HM|(_ & Eop & _)]; [|lia].
    eapply wp_literals_wild; [exact HL|done|lia|lia].
Qed.
End DecodeLoop.
