(* ===== verification/Lz4DecodeRun.v ===== *)
(** The heads of the two decoding loops, and the run of the whole decoder. *)
From S2P Require Import Prelude.
From S2P Require Import Mem.
From S2P Require Import BlockFormat.
From S2P Require Import Lz4Common.
From S2P Require Import Lz4CommonSpec.
From S2P Require Import Lz4Decompress.
From S2P Require Import Lz4DecodeSteps.
From S2P Require Import Lz4DecodeInv.
From S2P Require Import Lz4DecodeValid.
From S2P Require Import Lz4DecodeProof.
From S2P Require Import Lz4DecodeMatch.
From S2P Require Import Lz4DecodeLoop.

Section DecodeRun.
Context (p : dparams) (srcl dictl pre : list Z) (m0 : mem).
Context (Henv : dec_env p srcl dictl pre m0).

Abbreviation parse_inv := (parse_inv p srcl dictl pre).
Abbreviation mem_inv := (mem_inv p pre m0).
Abbreviation full := (p_partial p = false).
Abbreviation match_inv := (match_inv p srcl dictl pre m0).
Abbreviation step_post := (step_post p srcl dictl pre m0).
Abbreviation out_inv := (out_inv p pre m0).
Abbreviation dec_inv := (dec_inv p srcl dictl pre m0).
Abbreviation dec_meas := (dec_meas p).
Abbreviation dec_post := (dec_post p srcl dictl pre m0).

Ltac env :=
  pose proof (e_iend _ _ _ _ _ Henv); pose proof (e_isize _ _ _ _ _ Henv);
  pose proof (e_dst _ _ _ _ _ Henv); pose proof (e_osize _ _ _ _ _ Henv);
  pose proof (e_addr _ _ _ _ _ Henv);
  change RUN_MASK with 15 in *; change ML_MASK with 15 in *; change LASTLITERALS with 5 in *;
  change MINMATCH with 4 in *; change MFLIMIT with 12 in *;
  change FASTLOOP_SAFE_DISTANCE with 64 in *; unfold int_max in *.

(** * Literals at the head of a loop *)

Lemma short_token out tok r1 :
  parse_inv out (tok :: r1) -> tok / 16 <> 15 ->
  parse_inv out (tok :: len_ext (tok / 16) ++ r1) /\ tok / 16 = nibble (tok / 16) /\
  0 <= tok / 16 < 15.
Proof.
  intros HP Hne. pose proof (token_byte _ _ _ _ _ Henv _ _ _ HP) as Hb.
  pose proof (token_hi _ Hb) as [_ ?]. rewrite len_ext_small by lia.
  split; [done|]. unfold nibble. lia.
Qed.

(** The copy of 16 bytes for a run of less than 15 literals. *)
Lemma wp_short_lits out tok r1 m op Q :
  parse_inv out (tok :: r1) -> mem_inv m op out -> 0 <= tok / 16 < 15 -> 17 <= zlen r1 ->
  op + 16 <= p_oend p ->
  (forall lits tail m', r1 = lits ++ tail -> zlen lits = tok / 16 ->
     mem_inv m' (op + tok / 16) (out ++ lits) -> Q tt m') ->
  wp (memcpy op (p_iend p - zlen r1) 16) Q m.
Proof.
  intros HP HM Ht Hr Ho HQ. env. pose proof HM as (_ & _ & _ & Hf).
  pose proof (mem_inv_op _ _ _ _ _ Henv _ _ _ HM) as Hop.
  destruct (parse_inv_suffix p srcl dictl pre out [tok] r1 HP) as [x Ex].
  assert (zlen srcl = zlen x + zlen r1) as Hx by (rewrite Ex, zlen_app; done). zlen_facts.
  pose proof (holds_mapped _ _ _ (input_holds _ _ _ _ _ Henv m _ _ Hf Ex)) as Hmi.
  destruct (list_split_at r1 (tok / 16)) as (lits & tail & -> & El); [lia|].
  pose proof (e_disj _ _ _ _ _ Henv) as Hd.
  apply memcpy_stride; [lia|eapply mapped_sub; [exact Hmi|lia..]
    |eapply output_mapped; [done..|lia|lia]|lia|].
  intros m' Hcp. eapply (HQ lits tail); [done|done|]. rewrite <- El.
  eapply mem_inv_lits; [done|exact HM|exact Ex|done|exact Hcp|lia|lia].
Qed.

(** Reading a long run length, with the checks that follow it. *)
Lemma wp_long_length k out tok r1 (f : Z -> Z -> M dnext) m op :
  parse_inv out (tok :: r1) -> frame (p_dst p) (p_oend p) m0 m -> tok / 16 = 15 ->
  p_dst p <= op <= p_oend p ->
  (forall ll r2, r1 = len_ext ll ++ r2 -> 15 <= ll < 2 ^ 42 -> 15 <= zlen r2 ->
     wp (f ll (p_iend p - zlen r2)) (step_post k) m) ->
  wp (r ← read_variable_length (p_iend p - zlen r1) (p_iend p - RUN_MASK) true;
      let '(addl, ip) := r in
      if addl =? rvl_error then output_error p ip else
      let length := u64 (15 + addl) in
      if u64 (op + length) <? op then output_error p ip else
      if u64 (ip + length) <? ip then output_error p ip else f length ip) (step_post k) m.
Proof.
  intros HP Hf Ht Hop Hok. apply wp_bind. eapply wp_literal_length; [done|exact HP|done|done| |].
  - intros ll r2 -> Hll Hr2. env.
    pose proof (rest_bounds _ _ _ _ _ Henv _ _ HP) as [Hb1 Hb2]. autorewrite with zlen in *.
    pose proof (len_ext_bound ll ltac:(lia)). zlen_facts.
    rewrite rvl_error_ne by lia. rewrite (u64_small (15 + (ll - 15))) by lia.
    replace (15 + (ll - 15)) with ll by lia.
    rewrite !no_ptr_overflow by lia. apply Hok; [done|lia|done].
  - intros ip' Hip Hno. by apply wp_output_error.
Qed.

(** * The fast loop *)

Lemma wp_fast_match k out tok lits rest m op :
  parse_inv out (tok :: len_ext (zlen lits) ++ lits ++ rest) -> mem_inv m op (out ++ lits) ->
  tok / 16 = nibble (zlen lits) -> 3 <= zlen rest -> op + 12 <= p_oend p ->
  5 * zlen rest - 9 < k ->
  wp (fast_match p (p_iend p - zlen rest) op tok) (step_post k) m.
Proof.
  intros HP HM Ht Hr Hop Hk. unfold fast_match. env.
  pose proof (token_byte _ _ _ _ _ Henv _ _ _ HP) as Hbt. pose proof (token_lo _ Hbt) as [El Hlo].
  change ML_MASK with 15 in El. rewrite El.
  destruct (parse_inv_suffix p srcl dictl pre out ([tok] ++ len_ext (zlen lits) ++ lits) rest) as [y Ey].
  { by rewrite <- !app_assoc. }
  pose proof HM as (_ & _ & _ & Hf). pose proof (mem_inv_op _ _ _ _ _ Henv _ _ _ HM) as Hdo.
  destruct rest as [|lo [|hi r3]]; [zl|zl|].
  apply wp_bind. eapply wp_LZ4_readLE16; [by eapply input_holds|]. rewrite !zlen_cons in *.
  replace (p_iend p - (1 + (1 + zlen r3)) + 2) with (p_iend p - zlen r3) by lia.
  assert (r3 <> []) as Hne by (intros ->; rewrite zlen_nil in *; lia). wif.
  - apply wp_bind. eapply wp_match_length; [done|exact HP|done..| |].
    + intros ml r4 -> Hml Hr4. rewrite e in *.
      pose proof (rest_bounds _ _ _ _ _ Henv _ _ HP) as [_ Hb]. autorewrite with zlen in *.
      pose proof (len_ext_bound ml ltac:(lia)). zlen_facts.
      rewrite rvl_error_ne by lia. rewrite (u64_small (15 + (ml - 15))) by lia.
      rewrite (u64_small (15 + (ml - 15) + 4)) by lia. rewrite no_ptr_overflow by lia.
      replace (15 + (ml - 15) + 4) with (ml + 4) by lia.
      assert (match_inv out (Seq lits (lo + 256 * hi) (ml + 4)) r4 m
        (DState (p_iend p - zlen r4) op tok (ml + 4) (lo + 256 * hi) (op - (lo + 256 * hi)))) as HI.
      { apply match_inv_intro; try done; try lia.
        - unfold nibble. lia.
        - intros ->. rewrite zlen_nil in *. lia. }
      wif.
      * apply wp_ret. split; [|unfold Lz4DecodeProof.dec_meas; simpl; lia].
        exists out, (Seq lits (lo + 256 * hi) (ml + 4)), r4. done.
      * eapply wp_fast_match_copy; [done|exact HI|simpl; lia|simpl; lia].
    + intros ip' Hip Hno. by apply wp_output_error.
  - assert (match_inv out (Seq lits (lo + 256 * hi) (tok mod 16 + 4)) r3 m
      (DState (p_iend p - zlen r3) op tok (tok mod 16 + 4) (lo + 256 * hi) (op - (lo + 256 * hi)))) as HI.
    { apply match_inv_intro; try done; try lia.
      - by rewrite (len_ext_small (tok mod 16)) by lia.
      - unfold nibble. lia. }
    wif; [|wif].
    + apply wp_ret. split; [|unfold Lz4DecodeProof.dec_meas; simpl; lia].
      exists out, (Seq lits (lo + 256 * hi) (tok mod 16 + 4)), r3. done.
    + apply andb_prop in E as [E E8]. apply Z.leb_le in E8.
      pose proof (window_offset _ _ _ _ _ Henv _ _ _ _ _ HI ltac:(by left)) as Hoff. simpl in Hoff.
      apply wp_bind, wp_copy18; [lia| |].
      { eapply window_mapped; [done..| |lia]. unfold base. destruct HM as (-> & _).
        rewrite !zlen_app in *. lia. }
      intros m' Hm'. eapply match_copied_post; [done|exact HI|exact Hm'|simpl..]; try done; try lia.
      right. split; [done|]. lia.
    + eapply wp_fast_match_copy; [done|exact HI|simpl; lia|simpl; lia].
Qed.

Lemma wp_fast_loop m st :
  dec_inv (fast_loop, st) m ->
  wp (fast_loop_body p st) (step_post (dec_meas (fast_loop, st))) m.
Proof.
  intros (out & rest & HP & HM & Eip & Hne & Hop). destruct rest as [|tok r1]; [done|].
  unfold fast_loop_body. env. pose proof HM as (_ & _ & _ & Hf).
  pose proof (mem_inv_op _ _ _ _ _ Henv _ _ _ HM) as Hdo.
  pose proof (token_byte _ _ _ _ _ Henv _ _ _ HP) as Hbt. pose proof (token_hi _ Hbt) as [Et Hhi].
  destruct (parse_inv_suffix p srcl dictl pre out [] (tok :: r1) HP) as [y Ey].
  apply wp_bind. eapply wp_loadb; [|rewrite Et].
  { pose proof (input_holds _ _ _ _ _ Henv m _ _ Hf Ey) as Hi. rewrite <- Eip in Hi.
    by apply holds_cons in Hi as [? _]. }
  rewrite Eip, zlen_cons. replace (p_iend p - (1 + zlen r1) + 1) with (p_iend p - zlen r1) by lia.
  assert (dec_meas (fast_loop, st) = 5 * zlen r1 + 5) as ->
    by (unfold Lz4DecodeProof.dec_meas; simpl; rewrite Eip, zlen_cons; lia). wif.
  - rewrite e. eapply (wp_long_length _ _ _ _ (fun length ip =>
      if (p_oend p - 32 <? d_op st + length) || (p_iend p - 32 <? ip + length) then
        goto safe_literal_copy (DState ip (d_op st) tok length (d_offset st) (d_match st))
      else
        LZ4_wildCopy32 (d_op st) ip (d_op st + length);;
        fast_match p (ip + length) (d_op st + length) tok)); [exact HP|done|done|lia|].
    intros ll r2 -> Hll Hr2. rewrite zlen_app. zlen_facts. wif.
    + apply wp_ret. split; [|unfold Lz4DecodeProof.dec_meas; simpl; lia].
      exists out, ll, r2. simpl. split; [done|]. split; [by left|]. split; [lia|].
      split; [unfold nibble; lia|done].
    + apply orb_false_elim in E as [E1 E2]. apply Z.ltb_ge in E1, E2.
      destruct (parse_inv_suffix p srcl dictl pre out (tok :: len_ext ll) r2 HP) as [x Ex].
      destruct (list_split_at r2 ll) as (lits & tail & -> & El); [lia|].
      pose proof (wild_le 32 ll (ll + 32) ltac:(lia) ltac:(lia) ltac:(lia)).
      pose proof (wild_ge 32 ll ltac:(lia)). pose proof (e_disj _ _ _ _ _ Henv) as Hd.
      pose proof (holds_mapped _ _ _ (input_holds _ _ _ _ _ Henv m _ _ Hf Ex)) as Hmi.
      rewrite zlen_app in *. assert (zlen srcl = zlen x + zlen lits + zlen tail) as Hx
        by (rewrite Ex, !zlen_app; lia). zlen_facts.
      apply wp_bind, wp_wildCopy32; replace (d_op st + ll - d_op st) with ll by lia.
      * eapply mapped_sub; [exact Hmi|lia..].
      * eapply output_mapped; [done..|lia|lia].
      * lia.
      * intros m' Hcp.
        replace (p_iend p - (zlen lits + zlen tail) + ll) with (p_iend p - zlen tail) by lia.
        subst ll. eapply wp_fast_match; [exact HP| |unfold nibble; lia|lia|lia|lia].
        eapply mem_inv_lits; [done|exact HM|exact Ex| |exact Hcp|lia|lia]. rewrite zlen_app. lia.
  - destruct (short_token _ _ _ HP n) as (HP' & Hn & Hs). zlen_facts. wif.
    + apply wp_bind. eapply wp_short_lits; [exact HP|done|done|lia|lia|].
      intros lits tail m' -> El HM'. rewrite zlen_app in *.
      replace (p_iend p - (zlen lits + zlen tail) + tok / 16) with (p_iend p - zlen tail) by lia.
      eapply wp_fast_match; [|exact HM'|by rewrite El|lia|lia|zlen_facts; lia].
      by rewrite El.
    + apply wp_ret. split; [|unfold Lz4DecodeProof.dec_meas; simpl; lia].
      exists out, (tok / 16), r1. simpl. split; [done|]. split; [by left|]. done || lia.
Qed.

(** * The safe loop *)

(** The shortcut for a short run of literals and a short match, both far from
    the ends. *)
Lemma wp_safe_shortcut k out tok r1 m op :
  parse_inv out (tok :: r1) -> mem_inv m op out -> 0 <= tok / 16 < 15 -> 17 <= zlen r1 ->
  op + 32 <= p_oend p -> k = 5 * zlen r1 + 5 ->
  wp (memcpy op (p_iend p - zlen r1) 16;;
      (let op := op + tok / 16 in
       let ip := p_iend p - zlen r1 + tok / 16 in
       let length := tok mod 16 in
       offset ← LZ4_readLE16 ip;
       let ip := ip + 2 in
       let mtch := op - offset in
       if negb (length =? 15) && (8 <=? offset) && prefix_or_above p mtch then
         copy18 op mtch;;
         goto safe_decode (DState ip (op + (length + 4)) tok length offset mtch)
       else goto copy_match_label (DState ip op tok length offset mtch))) (step_post k) m.
Proof.
  intros HP HM Ht Hr Hop ->. destruct (short_token _ _ _ HP ltac:(lia)) as (HP' & Hn & _).
  pose proof (token_byte _ _ _ _ _ Henv _ _ _ HP) as Hbt. pose proof (token_lo _ Hbt) as [_ Hlo].
  apply wp_bind. eapply wp_short_lits; [exact HP|done|done|lia|lia|].
  intros lits tail m' -> El HM'. cbn zeta. rewrite zlen_app in *. rewrite <- El in HP'.
  replace (p_iend p - (zlen lits + zlen tail) + tok / 16) with (p_iend p - zlen tail) by lia.
  destruct (parse_inv_suffix p srcl dictl pre out ([tok] ++ lits) tail HP) as [y Ey].
  pose proof HM' as (_ & _ & _ & Hf).
  destruct tail as [|lo [|hi r3]]; [zl|zl|].
  assert (tok / 16 = nibble (zlen lits)) as Hn' by congruence.
  apply wp_bind. eapply wp_LZ4_readLE16; [by eapply input_holds|]. rewrite !zlen_cons in *.
  replace (p_iend p - (1 + (1 + zlen r3)) + 2) with (p_iend p - zlen r3) by lia.
  assert (r3 <> []) as Hne by (intros ->; rewrite zlen_nil in *; lia). zlen_facts. wif.
  - apply andb_prop in E as [E Epre]. apply andb_prop in E as [E E8]. apply Z.leb_le in E8.
    apply negb_true_iff, Z.eqb_neq in E.
    assert (match_inv out (Seq lits (lo + 256 * hi) (tok mod 16 + 4)) r3 m' (DState
      (p_iend p - zlen r3) (op + tok / 16) tok (tok mod 16 + 4) (lo + 256 * hi)
      (op + tok / 16 - (lo + 256 * hi)))) as HI.
    { apply match_inv_intro; try done; try lia.
      - by rewrite (len_ext_small (tok mod 16)) by lia.
      - unfold nibble. lia. }
    pose proof (window_offset _ _ _ _ _ Henv _ _ _ _ _ HI ltac:(by left)) as Hoff. simpl in Hoff.
    apply wp_bind, wp_copy18; [lia| |].
    { eapply window_mapped; [done..| |lia]. unfold base. destruct HM' as (-> & _).
      rewrite !zlen_app in *. lia. }
    intros m2 Hm2. eapply match_copied_post; [done|exact HI|exact Hm2|simpl..]; try done; try lia.
    by left.
  - apply wp_ret. split; [|unfold Lz4DecodeProof.dec_meas; simpl; lia].
    exists out, lits, lo, hi, r3. simpl. split; [done|]. split; [done|].
    split; [done|]. do 5 (split; [done|]). lia.
Qed.

Lemma wp_safe_loop m st :
  dec_inv (safe_decode, st) m ->
  wp (safe_loop_body p st) (step_post (dec_meas (safe_decode, st))) m.
Proof.
  intros (out & rest & HP & HO & Eip & Hne). destruct rest as [|tok r1]; [done|].
  unfold safe_loop_body, shortiend, shortoend. env. pose proof (out_inv_frame _ _ _ _ _ _ HO) as Hf.
  pose proof (out_inv_op _ _ _ _ _ Henv _ _ _ HO) as Hdo.
  pose proof (token_byte _ _ _ _ _ Henv _ _ _ HP) as Hbt. pose proof (token_hi _ Hbt) as [Et Hhi].
  pose proof (token_lo _ Hbt) as [El Hlo]. change ML_MASK with 15 in El.
  destruct (parse_inv_suffix p srcl dictl pre out [] (tok :: r1) HP) as [y Ey].
  apply wp_bind. eapply wp_loadb; [|rewrite Et].
  { pose proof (input_holds _ _ _ _ _ Henv m _ _ Hf Ey) as Hi. rewrite <- Eip in Hi.
    by apply holds_cons in Hi as [? _]. }
  rewrite Eip, zlen_cons. replace (p_iend p - (1 + zlen r1) + 1) with (p_iend p - zlen r1) by lia.
  assert (dec_meas (safe_decode, st) = 5 * zlen r1 + 5) as ->
    by (unfold Lz4DecodeProof.dec_meas; simpl; rewrite Eip, zlen_cons; lia). wif; [|wif].
  - apply andb_prop in E as [E1 E2]. apply andb_prop in E2 as [E2 E3].
    apply negb_true_iff, Z.eqb_neq in E1. apply Z.ltb_lt in E2. apply Z.leb_le in E3.
    destruct HO as [HM|(_ & ? & _)]; [|lia]. rewrite El.
    eapply wp_safe_shortcut; [exact HP|done|lia|lia|lia|done].
  - rewrite e. eapply (wp_long_length _ _ _ _ (fun length ip =>
      goto safe_literal_copy (DState ip (d_op st) tok length (d_offset st) (d_match st))));
      [exact HP|done|done|lia|].
    intros ll r2 -> Hll Hr2. rewrite zlen_app. zlen_facts.
    apply wp_ret. split; [|unfold Lz4DecodeProof.dec_meas; simpl; lia].
    exists out, ll, r2. simpl. split; [done|]. split; [done|]. split; [lia|].
    split; [unfold nibble; lia|done].
  - destruct (short_token _ _ _ HP n) as (HP' & Hn & Hs).
    apply wp_ret. split; [|unfold Lz4DecodeProof.dec_meas; simpl; lia].
    exists out, (tok / 16), r1. simpl. split; [done|]. split; [done|]. done || lia.
Qed.

(** * The whole decoder *)

Lemma wp_dec_step c m : dec_inv c m -> wp (dec_step p c) (step_post (dec_meas c)) m.
Proof.
  destruct c as [[] st]; cbn [dec_step].
  - apply wp_fast_loop.
  - apply wp_safe_loop.
  - by eapply wp_safe_literal_copy.
  - by eapply wp_copy_match.
  - intros (out & s & rest & HI & Hf). eapply wp_safe_match_copy; [done|exact HI|done|].
    unfold Lz4DecodeProof.dec_meas; simpl. lia.
Qed.

Lemma dec_meas_nonneg c m : dec_inv c m -> 0 <= dec_meas c.
Proof.
  destruct c as [[] st]; simpl; unfold Lz4DecodeProof.dec_meas; simpl.
  - intros (? & rest & _ & _ & -> & _). zlen_facts. lia.
  - intros (? & rest & _ & _ & -> & _). zlen_facts. lia.
  - intros (? & ? & rest & _ & _ & _ & _ & _ & ->). zlen_facts. lia.
  - intros (? & ? & ? & ? & rest & _ & _ & _ & _ & _ & _ & -> & _). zlen_facts. lia.
  - intros (? & ? & rest & (_ & _ & _ & _ & _ & _ & -> & _) & _). zlen_facts. lia.
Qed.

Lemma wp_dec_loop c m :
  dec_inv c m -> dec_meas c < Z.of_nat (dec_fuel (zlen srcl)) ->
  wp (loop (dec_fuel (zlen srcl)) (dec_step p) c) dec_post m.
Proof.
  intros HI Hm. eapply (wp_loop dec_inv dec_meas); [|exact HI|exact Hm].
  intros c' m' HI'. split; [by eapply dec_meas_nonneg|]. eapply wp_mono; [by apply wp_dec_step|]. intros [c2|r] m2; simpl; done.
Qed.
End DecodeRun.
