(* ===== verification/Lz4DecodeSpec.v ===== *)
(** The contract of the block decoder and its proof for
    [LZ4_decompress_generic] in each dictionary mode. *)
From S2P Require Import Prelude.
From S2P Require Import Mem.
From S2P Require Import BlockFormat.
From S2P Require Import Lz4Common.
From S2P Require Import Lz4CommonSpec.
From S2P Require Import Lz4Decompress.
From S2P Require Import Lz4DecodeSteps.
From S2P Require Import Lz4DecodeInv.
From S2P Require Import Lz4DecodeValid.
From S2P Require Import Lz4DecodeProof.
From S2P Require Import Lz4DecodeRun.

(** * The contract *)

(** The buffers of a call: [srcl] is stored at [src], [cap] bytes at [dst] can
    be written, both lie in the user half of the address space and do not
    overlap. *)
Definition bufs_ok (m : mem) (src : Z) (srcl : list Z) (dst cap : Z) : Prop :=
  (0 < src /\ src + zlen srcl <= 2 ^ 63) /\ (0 < dst /\ dst + cap <= 2 ^ 63) /\
  zlen srcl <= int_max /\ 0 <= cap <= int_max /\ bytes_ok srcl /\
  holds m src srcl /\ mapped m dst cap /\
  (src + zlen srcl <= dst \/ dst + cap <= src).

#[export] Instance bufs_ok_dec m src srcl dst cap : Decision (bufs_ok m src srcl dst cap).
Proof. unfold bufs_ok, bytes_ok. apply _. Defined.

(** A dictionary outside the output buffer. *)
Definition dict_ok (m : mem) (dict : Z) (dictl : list Z) (dst cap : Z) : Prop :=
  0 < dict /\ holds m dict dictl /\ (dict + zlen dictl <= dst \/ dst + cap <= dict).

#[export] Instance dict_ok_dec m dict dictl dst cap : Decision (dict_ok m dict dictl dst cap).
Proof. unfold dict_ok. apply _. Defined.

(** [b] is a block a conforming encoder may emit: well formed and obeying the
    end of block conditions. *)
Definition conforming (b : block) : Prop :=
  block_wf b /\ end_ok (b_seqs b) (b_last b).

(** A full decoding terminates without fault, writes only to the output, is
    sound (a result [r >= 0] is the size of the bytes the input stands for) and
    complete (a conforming block whose bytes fit is decoded to them). *)
Definition decodes_full (c : M Z) (m : mem) (hist srcl : list Z) (dst cap : Z) : Prop :=
  wp c (fun r m' =>
    frame dst (dst + cap) m m' /\
    (0 <= r -> exists b out, block_wf b /\ srcl = enc_block b /\ expand hist b = Some out /\
       zlen out = r /\ r <= cap /\ holds m' dst out) /\
    (forall b o, conforming b -> srcl = enc_block b -> expand hist b = Some o ->
       zlen o <= cap -> 0 < cap \/ b_nib b = 0 -> r = zlen o /\ holds m' dst o)) m.

(** A partial decoding terminates without fault, writes only to the output,
    and of a conforming block with valid offsets it produces the first [cap]
    bytes. *)
Definition decodes_partial (c : M Z) (m : mem) (hist srcl : list Z) (dst cap : Z) : Prop :=
  wp c (fun r m' =>
    frame dst (dst + cap) m m' /\ r <= cap /\
    (forall b o, conforming b -> Forall (fun s => s_off s <> 0) (b_seqs b) ->
       srcl = enc_block b -> expand hist b = Some o ->
       r = Z.min cap (zlen o) /\ holds m' dst (take (Z.to_nat cap) o))) m.

(** * The empty output *)

Lemma expand_empty h b : block_wf b -> expand h b = Some [] -> b_seqs b = [] /\ b_last b = [].
Proof.
  intros (Hw & _) (h' & H & E)%expand_spec. apply (f_equal zlen) in E. rewrite !zlen_app, zlen_nil in E.
  destruct (b_seqs b) as [|s l].
  - split; [done|]. injection H as [= <-]. apply zlen_0_nil. lia.
  - apply Forall_cons_iff in Hw as [Hs Hw]. simpl in H.
    destruct (exec_seq h s) as [h1|] eqn:E1; simpl in H; [|done].
    apply exec_seqs_room in H; [|done]. apply exec_seq_zlen in E1; [|done].
    destruct Hs as (_ & _ & ?). zlen_facts. lia.
Qed.

Lemma enc_empty_block b : b_seqs b = [] -> b_last b = [] -> enc_block b = [b_nib b].
Proof. intros E1 E2. unfold enc_block. by rewrite E1, E2. Qed.

Lemma enc_block_nonempty b : enc_block b <> [].
Proof. unfold enc_block, enc_last. by destruct (enc_seqs (b_seqs b)). Qed.

Lemma hist_holds m dst pre out : holds m (dst - zlen pre) (pre ++ out) -> holds m dst out.
Proof.
  intros [_ H]%holds_app. by replace (dst - zlen pre + zlen pre) with dst in H by lia.
Qed.

Section Generic.
Context (src dst cap : Z) (dict : dict_directive) (low dictStart dictSize : Z).
Context (srcl dictl pre : list Z) (m : mem) (pd : earlyEnd_directive).

Abbreviation partial := (match pd with partial_decode => true | _ => false end).
Abbreviation p := (DParams src (src + zlen srcl) dst (dst + cap) partial dict
                     low dictStart dictSize).
Context (Henv : dec_env p srcl dictl pre m).

Lemma dec_start (l : dlabel) :
  (l = fast_loop /\ 64 <= cap) \/ l = safe_decode -> srcl <> [] ->
  dec_inv p srcl dictl pre m (l, DState src dst 0 0 0 0) m.
Proof.
  intros Hl Hne. pose proof (parse_inv_start p srcl dictl pre).
  pose proof (mem_inv_start _ _ _ _ _ Henv) as HM. simpl in HM.
  assert (src = src + zlen srcl - zlen srcl) as Hs by lia.
  destruct Hl as [[-> Hc]| ->]; exists [], srcl; simpl.
  - do 4 (split; [done|]). lia.
  - split; [done|]. split; [by left|]. done.
Qed.

(** The run of the decoder on a non-empty output. *)
Lemma generic_wp :
  0 < cap ->
  wp (LZ4_decompress_generic src dst (zlen srcl) cap pd dict low dictStart dictSize)
    (dec_post p srcl dictl pre m) m.
Proof.
  intros Hc. unfold LZ4_decompress_generic. pose proof (e_addr _ _ _ _ _ Henv) as Ha. simpl in Ha.
  destruct (Z.eqb_spec src NULL); [unfold NULL in *; lia|].
  destruct (Z.ltb_spec cap 0); [lia|]. destruct (Z.eqb_spec cap 0); [lia|]. cbn [orb].
  wif.
  - apply wp_ret. split; [apply frame_refl|]. left. split; [lia|].
    intros o (b & _ & E & _). assert (srcl = []) as E' by (apply zlen_0_nil; lia).
    rewrite E' in E. by apply (enc_block_nonempty b).
  - assert (srcl <> []) as Hne by (intros ->; done).
    change FASTLOOP_SAFE_DISTANCE with 64.
    wif; (apply wp_dec_loop; [done|apply dec_start; [auto|done]|
      unfold dec_meas, dec_fuel; simpl; zlen_facts; lia]).
Qed.

End Generic.

Section GenericSpec.
Context (src dst cap : Z) (dict : dict_directive) (low dictStart dictSize : Z).
Context (srcl dictl pre : list Z) (m : mem).

Lemma generic_full :
  dec_env (DParams src (src + zlen srcl) dst (dst + cap) false dict low dictStart dictSize)
    srcl dictl pre m ->
  decodes_full (LZ4_decompress_generic src dst (zlen srcl) cap decode_full_block dict
    low dictStart dictSize) m (dictl ++ pre) srcl dst cap.
Proof.
  intros Henv. pose proof (e_dst _ _ _ _ _ Henv) as Hd. simpl in Hd.
  destruct (Z.eq_dec cap 0) as [Hc|Hc].
  - pose proof (e_addr _ _ _ _ _ Henv) as Ha. pose proof (e_src _ _ _ _ _ Henv) as Hs.
    simpl in Ha, Hs. unfold decodes_full, LZ4_decompress_generic.
    destruct (Z.eqb_spec src NULL); [unfold NULL in *; lia|]. subst cap. simpl.
    assert (forall b o, conforming b -> srcl = enc_block b -> expand (dictl ++ pre) b = Some o ->
      zlen o <= 0 -> 0 < 0 \/ b_nib b = 0 -> srcl = [0] /\ o = []) as Hempty.
    { intros b o [Hb _] -> Hx Ho Hn. apply zlen_0_nil in Ho as ->. apply expand_empty in Hx as [E1 E2]; [|done].
      rewrite enc_empty_block by done. destruct Hn as [?| ->]; [lia|done]. }
    wif.
    + destruct srcl as [|x [|y l]]; [done| |zl]. apply holds_cons in Hs as [Hs _].
      apply wp_bind. eapply wp_loadb; [exact Hs|]. apply wp_ret.
      split; [apply frame_refl|]. destruct (Z.eqb_spec x 0) as [->|Hx]; split; [|..].
      * intros _. exists (Block [] [] 0), [].
        split; [split; [by apply Forall_nil|split; [by apply Forall_nil|simpl; lia]]|].
        split; [done|]. split; [apply expand_spec; exists (dictl ++ pre); done|].
        split; [done|]. split; [done|]. apply holds_nil.
      * intros b o Hb E Hx Ho Hn. destruct (Hempty b o Hb E Hx Ho Hn) as [_ ->].
        split; [done|]. apply holds_nil.
      * lia.
      * intros b o Hb E Ho1 Ho2 Hn. destruct (Hempty b o Hb E Ho1 Ho2 Hn) as [[= ->] _]. done.
    + apply wp_ret. split; [apply frame_refl|]. split; [lia|].
      intros b o Hb E Hx Ho Hn. destruct (Hempty b o Hb E Hx Ho Hn) as [-> _]. done.
  - eapply wp_mono; [by apply (generic_wp _ _ _ _ _ _ _ _ _ _ _ decode_full_block Henv); lia|].
    intros r m' (Hf & Hr). split; [done|]. split.
    + intros H0. destruct Hr as [[? _]|(_ & out & E & Hle & Hh & Hfull & _)]; [lia|].
      destruct (Hfull eq_refl) as (b & Hb & Eb & Hx). exists b, out. simpl in Hle.
      split; [done|]. split; [done|]. split; [done|]. split; [done|]. split; [lia|].
      by eapply hist_holds.
    + intros b o [Hb He] E Hx Ho _.
      assert (valid_rest (DParams src (src + zlen srcl) dst (dst + cap) false dict low dictStart dictSize)
        (hist0 dictl pre) (room (DParams src (src + zlen srcl) dst (dst + cap) false dict low
           dictStart dictSize) []) srcl o) as HV.
      { exists b. unfold room; simpl. repeat split; try done; try apply Hb.
        - apply Forall_forall. intros. by left.
        - intros _. rewrite zlen_nil. lia. }
      destruct Hr as [[_ Hno]|(_ & out & El & Hle & Hh & _ & Hv)]; [by apply Hno in HV|].
      specialize (Hv o HV). simpl in Hv. rewrite take_ge in Hv by zn. subst out.
      split; [done|]. by eapply hist_holds.
Qed.

Lemma generic_partial :
  dec_env (DParams src (src + zlen srcl) dst (dst + cap) true dict low dictStart dictSize)
    srcl dictl pre m ->
  decodes_partial (LZ4_decompress_generic src dst (zlen srcl) cap partial_decode dict
    low dictStart dictSize) m (dictl ++ pre) srcl dst cap.
Proof.
  intros Henv. pose proof (e_dst _ _ _ _ _ Henv) as Hd. simpl in Hd.
  destruct (Z.eq_dec cap 0) as [Hc|Hc].
  - pose proof (e_addr _ _ _ _ _ Henv) as Ha. simpl in Ha.
    unfold decodes_partial, LZ4_decompress_generic.
    destruct (Z.eqb_spec src NULL); [unfold NULL in *; lia|]. subst cap. simpl.
    apply wp_ret. split; [apply frame_refl|]. split; [lia|]. intros b o _ _ _ _.
    split; [zlen_facts; lia|]. apply holds_nil.
  - eapply wp_mono; [by apply (generic_wp _ _ _ _ _ _ _ _ _ _ _ partial_decode Henv); lia|].
    intros r m' (Hf & Hr). split; [done|]. simpl in *. split.
    { destruct Hr as [[? _]|(_ & out & _ & ? & _)]; lia. }
    intros b o [Hb He] Hg E Hx.
    assert (valid_rest (DParams src (src + zlen srcl) dst (dst + cap) true dict low dictStart dictSize)
      (hist0 dictl pre) (room (DParams src (src + zlen srcl) dst (dst + cap) true dict low
         dictStart dictSize) []) srcl o) as HV.
    { exists b. repeat split; try done; try apply Hb.
      eapply Forall_impl; [|exact Hg]. intros s ?. by right. }
    destruct Hr as [[_ Hno]|(_ & out & El & Hle & Hh & _ & Hv)]; [by apply Hno in HV|].
    specialize (Hv o HV). replace (dst + cap - dst) with cap in * by lia. rewrite <- Hv. split.
    + rewrite <- El, Hv. unfold zlen. rewrite length_take. lia.
    + by eapply hist_holds.
Qed.
End GenericSpec.
