(* ===== verification/Lz4DecodeApi.v ===== *)
(** lib/lz4.c, "streaming decompression functions": the decoding state, which
    remembers where the previous blocks were decoded; and the contracts of the
    entry points of the decoder. *)
From S2P Require Import Prelude.
From S2P Require Import Mem.
From S2P Require Import BlockFormat.
From S2P Require Import Lz4Common.
From S2P Require Import Lz4Decompress.
From S2P Require Import Lz4DecodeInv.
From S2P Require Import Lz4DecodeSpec.

(** [LZ4_streamDecode_t_internal] of lib/lz4.h. *)
Record LZ4_streamDecode_t := StreamDecode {
  externalDict : Z;
  prefixEnd : Z;
  extDictSize : Z;
  prefixSize : Z }.

(** Every field is 0. *)
Definition zero_streamDecode : LZ4_streamDecode_t := StreamDecode NULL NULL 0 0.

(** [allocated] is the outcome of [ALLOC_AND_ZERO]; [None] is the null pointer. *)
Definition LZ4_createStreamDecode (allocated : bool) : option LZ4_streamDecode_t :=
  if allocated then Some zero_streamDecode else None.

(** The previous state is overwritten. *)
Definition LZ4_setStreamDecode (lz4sd : LZ4_streamDecode_t) (dictionary dictSize : Z) :
    LZ4_streamDecode_t * Z :=
  (StreamDecode NULL (if negb (dictSize =? 0) then dictionary + dictSize else dictionary)
     0 (u64 dictSize), 1).

Definition LZ4_DECODER_RING_BUFFER_SIZE (maxBlockSize : Z) : Z := 65536 + 14 + maxBlockSize.

Definition LZ4_decoderRingBufferSize (maxBlockSize : Z) : Z :=
  if maxBlockSize <? 0 then 0
  else if LZ4_MAX_INPUT_SIZE <? maxBlockSize then 0
  else LZ4_DECODER_RING_BUFFER_SIZE (if maxBlockSize <? 16 then 16 else maxBlockSize).

Definition LZ4_decompress_safe_continue (lz4sd : LZ4_streamDecode_t)
    (source dest compressedSize maxOutputSize : Z) : M (Z * LZ4_streamDecode_t) :=
  if prefixSize lz4sd =? 0 then
    (* The first call, no dictionary yet. *)
    result ← LZ4_decompress_safe source dest compressedSize maxOutputSize;
    if result <=? 0 then mret (result, lz4sd) else
    mret (result, StreamDecode (externalDict lz4sd) (dest + result) (extDictSize lz4sd) result)
  else if prefixEnd lz4sd =? dest then
    (* They're rolling the current segment. *)
    result ←
      (if 64 * KB - 1 <=? prefixSize lz4sd
       then LZ4_decompress_safe_withPrefix64k source dest compressedSize maxOutputSize
       else if extDictSize lz4sd =? 0
       then LZ4_decompress_safe_withSmallPrefix source dest compressedSize maxOutputSize
              (prefixSize lz4sd)
       else LZ4_decompress_safe_doubleDict source dest compressedSize maxOutputSize
              (prefixSize lz4sd) (externalDict lz4sd) (extDictSize lz4sd));
    if result <=? 0 then mret (result, lz4sd) else
    mret (result, StreamDecode (externalDict lz4sd) (prefixEnd lz4sd + result)
                    (extDictSize lz4sd) (prefixSize lz4sd + result))
  else
    (* The buffer wraps around, or they're switching to another buffer. *)
    let lz4sd := StreamDecode (prefixEnd lz4sd - prefixSize lz4sd) (prefixEnd lz4sd)
                   (prefixSize lz4sd) (prefixSize lz4sd) in
    result ← LZ4_decompress_safe_forceExtDict source dest compressedSize maxOutputSize
               (externalDict lz4sd) (extDictSize lz4sd);
    if result <=? 0 then mret (result, lz4sd) else
    mret (result, StreamDecode (externalDict lz4sd) (dest + result) (extDictSize lz4sd) result).

(** The public block decoders meet the contract of Lz4DecodeSpec: one lemma
    per way the history is laid out in memory. *)

(** * The environment of each mode *)

Section Env.
Context (m : mem) (src : Z) (srcl : list Z) (dst cap : Z) (partial : bool).
Context (Hbufs : bufs_ok m src srcl dst cap).

Abbreviation params d low ds dsz :=
  (DParams src (src + zlen srcl) dst (dst + cap) partial d low ds dsz).

Lemma env_prefix pre :
  holds m (dst - zlen pre) pre ->
  dec_env (params noDict (dst - zlen pre) NULL 0) srcl [] pre m.
Proof.
  destruct Hbufs as (H1 & H2 & H3 & H4 & H5 & H6 & H7 & H8). intros Hp.
  split; simpl; try done; try lia; [by replace (dst + cap - dst) with cap by lia|apply holds_nil|].
  unfold NULL, zlen in *; simpl; lia.
Qed.

Lemma env_prefix64k pre :
  65535 <= zlen pre <= 65536 -> holds m (dst - zlen pre) pre ->
  dec_env (params withPrefix64k (dst - 64 * KB) NULL 0) srcl [] pre m.
Proof.
  destruct Hbufs as (H1 & H2 & H3 & H4 & H5 & H6 & H7 & H8). intros Hz Hp.
  split; simpl; try done; try lia; [by replace (dst + cap - dst) with cap by lia|apply holds_nil| |].
  - unfold NULL, zlen in *; simpl; lia.
  - unfold KB. lia.
Qed.

Lemma env_extdict dict dictl pre :
  dict_ok m dict dictl dst cap -> holds m (dst - zlen pre) pre ->
  dec_env (params usingExtDict (dst - zlen pre) dict (zlen dictl)) srcl dictl pre m.
Proof.
  destruct Hbufs as (H1 & H2 & H3 & H4 & H5 & H6 & H7 & H8). intros (Hd & Hh & Hj) Hp.
  split; simpl; try done; try lia; [by replace (dst + cap - dst) with cap by lia|].
  intros _. left. unfold NULL. lia.
Qed.
End Env.

(** Only the last 65535 bytes of the history matter. *)

Lemma decodes_full_window c m x hist srcl dst cap :
  65535 <= zlen hist -> decodes_full c m hist srcl dst cap ->
  decodes_full c m (x ++ hist) srcl dst cap.
Proof.
  intros Hh H. eapply wp_mono; [exact H|]. intros r m' (Hf & Hs & Hc). split; [done|]. split.
  - intros H0. destruct (Hs H0) as (b & out & Hb & E & Hx & ?).
    exists b, out. split; [done|]. split; [done|]. split; [by apply expand_older|done].
  - intros b o Hb E Hx. apply Hc; [done..|]. destruct Hb as [Hb _]. by apply expand_window in Hx.
Qed.

Lemma decodes_partial_window c m x hist srcl dst cap :
  65535 <= zlen hist -> decodes_partial c m hist srcl dst cap ->
  decodes_partial c m (x ++ hist) srcl dst cap.
Proof.
  intros Hh H. eapply wp_mono; [exact H|]. intros r m' (Hf & Hs & Hc). split; [done|].
  split; [done|]. intros b o Hb Hg E Hx. apply (Hc b); [done..|]. destruct Hb as [Hb _].
  by apply expand_window in Hx.
Qed.

Lemma split_window (l : list Z) n :
  0 <= n <= zlen l -> exists x y, l = x ++ y /\ zlen y = n.
Proof.
  intros H. destruct (list_split_at l (zlen l - n)) as (x & y & -> & Hx); [lia|].
  exists x, y. split; [done|]. rewrite zlen_app in *. lia.
Qed.

(** The prefix that the 64 KB mode relies on. *)
Lemma prefix_window m dst pre :
  65535 <= zlen pre -> holds m (dst - zlen pre) pre ->
  exists x y, pre = x ++ y /\ zlen y = 65535 /\ holds m (dst - zlen y) y.
Proof.
  intros Hz Hp. destruct (split_window pre 65535) as (x & y & -> & Hy); [lia|].
  exists x, y. split; [done|]. split; [done|]. apply holds_app in Hp as [_ Hp].
  rewrite zlen_app in Hp. by replace (dst - (zlen x + zlen y) + zlen x) with (dst - zlen y) in Hp by lia.
Qed.

(** * The entry points *)

Section Api.
Context (m : mem) (src : Z) (srcl : list Z) (dst cap : Z).
Context (Hbufs : bufs_ok m src srcl dst cap).

Lemma safe_withSmallPrefix_ok pre :
  holds m (dst - zlen pre) pre ->
  decodes_full (LZ4_decompress_safe_withSmallPrefix src dst (zlen srcl) cap (zlen pre))
    m pre srcl dst cap.
Proof. intros H. by apply (generic_full _ _ _ _ _ _ _ _ []), env_prefix. Qed.

Lemma safe_ok : decodes_full (LZ4_decompress_safe src dst (zlen srcl) cap) m [] srcl dst cap.
Proof.
  pose proof (safe_withSmallPrefix_ok [] (holds_nil _ _)) as H.
  unfold LZ4_decompress_safe_withSmallPrefix in H. rewrite zlen_nil, Z.sub_0_r in H. exact H.
Qed.

Lemma safe_withPrefix64k_ok pre :
  65535 <= zlen pre -> holds m (dst - zlen pre) pre ->
  decodes_full (LZ4_decompress_safe_withPrefix64k src dst (zlen srcl) cap) m pre srcl dst cap.
Proof.
  intros Hz Hp. destruct (prefix_window _ _ _ Hz Hp) as (x & y & -> & Hy & Hp').
  apply decodes_full_window; [lia|].
  apply (generic_full _ _ _ _ _ _ _ _ []), env_prefix64k; [done|lia|done].
Qed.

Lemma safe_doubleDict_ok dict dictl pre :
  dict_ok m dict dictl dst cap -> holds m (dst - zlen pre) pre ->
  decodes_full (LZ4_decompress_safe_doubleDict src dst (zlen srcl) cap (zlen pre) dict (zlen dictl))
    m (dictl ++ pre) srcl dst cap.
Proof. intros Hd Hp. by apply generic_full, env_extdict. Qed.

Lemma safe_forceExtDict_ok dict dictl :
  dict_ok m dict dictl dst cap ->
  decodes_full (LZ4_decompress_safe_forceExtDict src dst (zlen srcl) cap dict (zlen dictl))
    m dictl srcl dst cap.
Proof.
  intros Hd. pose proof (safe_doubleDict_ok _ _ [] Hd (holds_nil _ _)) as H.
  unfold LZ4_decompress_safe_doubleDict in H. rewrite zlen_nil, Z.sub_0_r, app_nil_r in H. exact H.
Qed.

(** A dictionary right in front of the output is used as a prefix. *)
Lemma safe_usingDict_ok dict dictl :
  dict_ok m dict dictl dst cap ->
  decodes_full (LZ4_decompress_safe_usingDict src dst (zlen srcl) cap dict (zlen dictl))
    m dictl srcl dst cap.
Proof.
  intros Hd. unfold LZ4_decompress_safe_usingDict. destruct (Z.eqb_spec (zlen dictl) 0).
  { assert (dictl = []) as -> by (apply zlen_0_nil; lia). apply safe_ok. }
  destruct (Z.eqb_spec (dict + zlen dictl) dst); [|by apply safe_forceExtDict_ok].
  pose proof Hd as (_ & Hh & _). replace dict with (dst - zlen dictl) in Hh by lia.
  destruct (Z.leb_spec (64 * KB - 1) (zlen dictl)).
  - apply safe_withPrefix64k_ok; [unfold KB in *; lia|done].
  - by apply safe_withSmallPrefix_ok.
Qed.
End Api.

Section PartialApi.
Context (m : mem) (src : Z) (srcl : list Z) (dst target cap : Z).
Context (Hbufs : bufs_ok m src srcl dst (Z.min target cap)).

Lemma safe_partial_withSmallPrefix_ok pre :
  holds m (dst - zlen pre) pre ->
  decodes_partial (LZ4_decompress_safe_partial_withSmallPrefix src dst (zlen srcl) target cap
    (zlen pre)) m pre srcl dst (Z.min target cap).
Proof. intros H. by apply (generic_partial _ _ _ _ _ _ _ _ []), env_prefix. Qed.

Lemma safe_partial_ok :
  decodes_partial (LZ4_decompress_safe_partial src dst (zlen srcl) target cap)
    m [] srcl dst (Z.min target cap).
Proof.
  pose proof (safe_partial_withSmallPrefix_ok [] (holds_nil _ _)) as H.
  unfold LZ4_decompress_safe_partial_withSmallPrefix in H. rewrite zlen_nil, Z.sub_0_r in H. exact H.
Qed.

Lemma safe_partial_withPrefix64k_ok pre :
  65535 <= zlen pre -> holds m (dst - zlen pre) pre ->
  decodes_partial (LZ4_decompress_safe_partial_withPrefix64k src dst (zlen srcl) target cap)
    m pre srcl dst (Z.min target cap).
Proof.
  intros Hz Hp. destruct (prefix_window _ _ _ Hz Hp) as (x & y & -> & Hy & Hp').
  apply decodes_partial_window; [lia|].
  apply (generic_partial _ _ _ _ _ _ _ _ []), env_prefix64k; [done|lia|done].
Qed.

Lemma safe_partial_forceExtDict_ok dict dictl :
  dict_ok m dict dictl dst (Z.min target cap) ->
  decodes_partial (LZ4_decompress_safe_partial_forceExtDict src dst (zlen srcl) target cap
    dict (zlen dictl)) m dictl srcl dst (Z.min target cap).
Proof.
  intros Hd. pose proof (env_extdict _ _ _ _ _ true Hbufs _ _ [] Hd (holds_nil _ _)) as H.
  rewrite zlen_nil, Z.sub_0_r in H. apply generic_partial in H. by rewrite app_nil_r in H.
Qed.

Lemma safe_partial_usingDict_ok dict dictl :
  dict_ok m dict dictl dst (Z.min target cap) ->
  decodes_partial (LZ4_decompress_safe_partial_usingDict src dst (zlen srcl) target cap
    dict (zlen dictl)) m dictl srcl dst (Z.min target cap).
Proof.
  intros Hd. unfold LZ4_decompress_safe_partial_usingDict. destruct (Z.eqb_spec (zlen dictl) 0).
  { assert (dictl = []) as -> by (apply zlen_0_nil; lia). apply safe_partial_ok. }
  destruct (Z.eqb_spec (dict + zlen dictl) dst); [|by apply safe_partial_forceExtDict_ok].
  pose proof Hd as (_ & Hh & _). replace dict with (dst - zlen dictl) in Hh by lia.
  destruct (Z.leb_spec (64 * KB - 1) (zlen dictl)).
  - apply safe_partial_withPrefix64k_ok; [unfold KB in *; lia|done].
  - by apply safe_partial_withSmallPrefix_ok.
Qed.
End PartialApi.
