(* ===== verification/Lz4DecodeTheorems.v ===== *)
(** The correctness of the block decoders of lib/lz4.c: memory safety and
    termination on every input, soundness and completeness with respect to the
    block format, partial decoding, dictionaries and streams. *)
From S2P Require Import Prelude.
From S2P Require Import Mem.
From S2P Require Import BlockFormat.
From S2P Require Import Lz4Common.
From S2P Require Import Lz4Decompress.
From S2P Require Import Lz4DecodeSpec.
From S2P Require Import Lz4DecodeApi.

(** * Samples *)

(** "abcd", a match of 8 bytes at offset 4, and 5 last literals. *)
Definition sample_block : block :=
  Block [Seq [97; 98; 99; 100] 4 8] [101; 102; 103; 104; 105] 0.

(** A match of 8 bytes 10 bytes back into the dictionary. *)
Definition sample_dict_block : block :=
  Block [Seq [97; 98] 10 8] [101; 102; 103; 104; 105] 0.

Definition sample_dict : list Z := [48; 49; 50; 51; 52; 53; 54; 55; 56; 57].

Definition sample_mem : mem :=
  mem_of [(100, enc_block sample_block); (150, enc_block sample_dict_block);
          (190, sample_dict); (200, replicate 64 0); (300, sample_dict)].

Lemma sample_conforming : conforming sample_block.
Proof.
  split.
  - split; [|split; [|simpl; lia]]; repeat constructor; simpl; lia.
  - unfold end_ok; simpl. unfold zlen; simpl. lia.
Qed.

Lemma sample_dict_conforming : conforming sample_dict_block.
Proof.
  split.
  - split; [|split; [|simpl; lia]]; repeat constructor; simpl; lia.
  - unfold end_ok; simpl. unfold zlen; simpl. lia.
Qed.

(** * One-shot decoding *)

(** C1.  Memory safety, termination and soundness of [LZ4_decompress_safe] on
    every input, malformed ones included: on any [srcl] and any output buffer
    of [cap] bytes the function returns, every access is within the two
    buffers, only the output buffer is modified, and a result [r >= 0] is at
    most [cap] and is the size of an output that the input, read as a block of
    the LZ4 format, stands for. *)
Theorem decompress_safe_sound m src srcl dst cap :
  bufs_ok m src srcl dst cap ->
  wp (LZ4_decompress_safe src dst (zlen srcl) cap) (fun r m' =>
    frame dst (dst + cap) m m' /\
    (0 <= r -> r <= cap /\ exists b out, block_wf b /\ srcl = enc_block b /\
       expand [] b = Some out /\ zlen out = r /\ holds m' dst out)) m.
Proof.
  intros H. eapply wp_mono; [by apply safe_ok|]. intros r m' (Hf & Hs & _). split; [done|].
  intros (b & out & ? & ? & ? & ? & ? & ?)%Hs. eauto 10.
Qed.

Lemma decompress_safe_sound_witness :
  exists r m', LZ4_decompress_safe 100 200 13 64 sample_mem = Ok r m' /\
    (0 <= r -> r <= 64).
Proof.
  destruct (wp_inv _ _ _ (decompress_safe_sound sample_mem 100 (enc_block sample_block) 200 64
    ltac:(eval_decide))) as (r & m' & E & _ & H).
  exists r, m'. split; [exact E|]. intros H0. apply H, H0.
Defined.

(** C2.  Completeness of [LZ4_decompress_safe]: every conforming block whose
    bytes fit in the output buffer is decoded to exactly these bytes. (Into an
    empty buffer the decoder also asks for a zero token.) *)
Theorem decompress_safe_complete m src b o dst cap :
  conforming b -> expand [] b = Some o -> zlen o <= cap -> 0 < cap \/ b_nib b = 0 ->
  bufs_ok m src (enc_block b) dst cap ->
  wp (LZ4_decompress_safe src dst (zlen (enc_block b)) cap) (fun r m' =>
    r = zlen o /\ holds m' dst o /\ frame dst (dst + cap) m m') m.
Proof.
  intros Hb Hx Ho Hn H. eapply wp_mono; [by apply safe_ok|]. intros r m' (Hf & _ & Hc).
  destruct (Hc b o Hb eq_refl Hx Ho Hn) as [-> ?]. done.
Qed.

Lemma decompress_safe_complete_witness :
  exists m', LZ4_decompress_safe 100 200 13 64 sample_mem = Ok 17 m' /\
    holds m' 200 [97; 98; 99; 100; 97; 98; 99; 100; 97; 98; 99; 100; 101; 102; 103; 104; 105].
Proof.
  destruct (wp_inv _ _ _ (decompress_safe_complete sample_mem 100 sample_block _ 200 64
    sample_conforming eq_refl ltac:(vm_compute; discriminate) ltac:(by left)
    ltac:(eval_decide))) as (r & m' & E & -> & H & _).
  exists m'. split; [exact E|exact H].
Defined.

(** [LZ4_decompress_safe] agrees with the reference decoder of the format:
    a result [r >= 0] comes with the bytes that the reference decoder computes
    from the same input. *)
Theorem decompress_safe_ref m src srcl dst cap :
  bufs_ok m src srcl dst cap ->
  wp (LZ4_decompress_safe src dst (zlen srcl) cap) (fun r m' =>
    0 <= r -> exists out, ref_decode (S (length srcl)) [] srcl = Some out /\
      zlen out = r /\ holds m' dst out) m.
Proof.
  intros H. eapply wp_mono; [by apply safe_ok|]. intros r m' (_ & Hs & _) H0.
  destruct (Hs H0) as ([l lst nib] & out & Hb & -> & Hx & Hz & _ & Hh). exists out.
  split; [|done]. apply expand_spec in Hx as (h' & Hx & E). simpl in E, Hx. rewrite <- E.
  apply ref_decode_enc; [done|done|].
  pose proof (enc_seqs_length l). unfold enc_block; simpl. rewrite length_app. lia.
Qed.

Lemma decompress_safe_ref_witness :
  exists r m', LZ4_decompress_safe 100 200 13 64 sample_mem = Ok r m' /\
    (0 <= r -> exists out, ref_decode 14 [] (enc_block sample_block) = Some out /\ zlen out = r).
Proof.
  destruct (wp_inv _ _ _ (decompress_safe_ref sample_mem 100 (enc_block sample_block) 200 64
    ltac:(eval_decide))) as (r & m' & E & H).
  exists r, m'. split; [exact E|]. intros H0. destruct (H H0) as (out & H1 & H2 & _). eauto.
Defined.

(** C24.  [LZ4_decompress_safe_partial] decodes the first
    [min targetOutputSize dstCapacity] bytes of every conforming block with
    valid offsets, and writes nothing behind them. *)
Theorem decompress_safe_partial_spec m src srcl dst target cap :
  bufs_ok m src srcl dst (Z.min target cap) ->
  wp (LZ4_decompress_safe_partial src dst (zlen srcl) target cap) (fun r m' =>
    frame dst (dst + Z.min target cap) m m' /\ r <= Z.min target cap /\
    (forall b o, conforming b -> Forall (fun s => s_off s <> 0) (b_seqs b) ->
       srcl = enc_block b -> expand [] b = Some o ->
       r = Z.min (Z.min target cap) (zlen o) /\
       holds m' dst (take (Z.to_nat (Z.min target cap)) o))) m.
Proof. intros H. by apply safe_partial_ok. Qed.

Lemma decompress_safe_partial_witness :
  exists m', LZ4_decompress_safe_partial 100 200 13 7 64 sample_mem = Ok 7 m' /\
    holds m' 200 [97; 98; 99; 100; 97; 98; 99].
Proof.
  destruct (wp_inv _ _ _ (decompress_safe_partial_spec sample_mem 100 (enc_block sample_block)
    200 7 64 ltac:(eval_decide))) as (r & m' & E & _ & _ & H).
  destruct (H sample_block _ sample_conforming ltac:(repeat constructor; done) eq_refl eq_refl)
    as [-> Hh].
  exists m'. split; [exact E|exact Hh].
Defined.

(** * Dictionaries *)

(** C25.  [LZ4_decompress_safe_usingDict] meets the contract of a full decoding
    with the dictionary as history, wherever the dictionary lies: right in
    front of the output (as a prefix, beyond and below 64 KB) or elsewhere. *)
Theorem decompress_safe_usingDict_spec m src srcl dst cap dict dictl :
  bufs_ok m src srcl dst cap -> dict_ok m dict dictl dst cap ->
  decodes_full (LZ4_decompress_safe_usingDict src dst (zlen srcl) cap dict (zlen dictl))
    m dictl srcl dst cap.
Proof. intros H Hd. by apply safe_usingDict_ok. Qed.

Lemma decompress_safe_usingDict_witness :
  decodes_full (LZ4_decompress_safe_usingDict 150 200 11 64 190 10)
    sample_mem sample_dict (enc_block sample_dict_block) 200 64 /\
  decodes_full (LZ4_decompress_safe_usingDict 150 200 11 64 300 10)
    sample_mem sample_dict (enc_block sample_dict_block) 200 64.
Proof.
  split.
  - exact (decompress_safe_usingDict_spec sample_mem 150 (enc_block sample_dict_block) 200 64
      190 sample_dict ltac:(eval_decide) ltac:(eval_decide)).
  - exact (decompress_safe_usingDict_spec sample_mem 150 (enc_block sample_dict_block) 200 64
      300 sample_dict ltac:(eval_decide) ltac:(eval_decide)).
Defined.

(** C26.  [LZ4_decompress_safe_partial_usingDict] meets the contract of a
    partial decoding with the dictionary as history, in the same three
    layouts. *)
Theorem decompress_safe_partial_usingDict_spec m src srcl dst target cap dict dictl :
  bufs_ok m src srcl dst (Z.min target cap) -> dict_ok m dict dictl dst (Z.min target cap) ->
  decodes_partial (LZ4_decompress_safe_partial_usingDict src dst (zlen srcl) target cap
    dict (zlen dictl)) m dictl srcl dst (Z.min target cap).
Proof. intros H Hd. by apply safe_partial_usingDict_ok. Qed.

Lemma decompress_safe_partial_usingDict_witness :
  exists m', LZ4_decompress_safe_partial_usingDict 150 200 11 5 64 300 10 sample_mem = Ok 5 m' /\
    holds m' 200 [97; 98; 50; 51; 52].
Proof.
  destruct (wp_inv _ _ _ (decompress_safe_partial_usingDict_spec sample_mem 150
    (enc_block sample_dict_block) 200 5 64 300 sample_dict ltac:(eval_decide) ltac:(eval_decide)))
    as (r & m' & E & _ & _ & H).
  destruct (H sample_dict_block _ sample_dict_conforming ltac:(repeat constructor; done) eq_refl
    eq_refl) as [-> Hh].
  exists m'. split; [exact E|exact Hh].
Defined.
