(* ===== verification/Lz4StreamTheorems.v ===== *)
(** Streaming decompression: the decoding state always describes the history
    that the next block may refer to. *)
From S2P Require Import Prelude.
From S2P Require Import Mem.
From S2P Require Import BlockFormat.
From S2P Require Import Lz4Common.
From S2P Require Import Lz4Decompress.
From S2P Require Import Lz4DecodeSpec.
From S2P Require Import Lz4DecodeApi.
From S2P Require Import Lz4DecodeTheorems.

(** The state stands for the external dictionary [dictl] followed by the
    prefix [pre]. *)
Definition sd_inv (sd : LZ4_streamDecode_t) (m : mem) (dictl pre : list Z) : Prop :=
  prefixSize sd = zlen pre /\ extDictSize sd = zlen dictl /\
  (pre = [] -> dictl = []) /\
  (pre <> [] -> zlen pre < prefixEnd sd) /\ holds m (prefixEnd sd - zlen pre) pre /\
  (dictl <> [] -> 0 < externalDict sd) /\ holds m (externalDict sd) dictl.

(** Neither part is overwritten by an output of [cap] bytes at [dst]. *)
Definition sd_disjoint (sd : LZ4_streamDecode_t) (dst cap : Z) : Prop :=
  (prefixEnd sd <= dst \/ dst + cap <= prefixEnd sd - prefixSize sd) /\
  (externalDict sd + extDictSize sd <= dst \/ dst + cap <= externalDict sd).

(** The history the next block sees when it is decoded at [dst]: a block that
    is not contiguous with the prefix loses the external dictionary. *)
Definition sd_hist (sd : LZ4_streamDecode_t) (dst : Z) (dictl pre : list Z) : list Z :=
  if prefixEnd sd =? dst then dictl ++ pre else pre.

#[export] Instance sd_inv_dec sd m dictl pre : Decision (sd_inv sd m dictl pre).
Proof. unfold sd_inv. apply _. Defined.

#[export] Instance sd_disjoint_dec sd dst cap : Decision (sd_disjoint sd dst cap).
Proof. unfold sd_disjoint. apply _. Defined.

Lemma sd_create_inv m : sd_inv zero_streamDecode m [] [].
Proof. by repeat split; intros; try apply holds_nil. Qed.

Lemma sd_set_inv sd m dict dictl :
  0 < dict -> zlen dictl < 2 ^ 64 -> holds m dict dictl ->
  sd_inv (LZ4_setStreamDecode sd dict (zlen dictl)).1 m [] dictl.
Proof.
  intros Hd Hz Hh. zlen_facts. unfold sd_inv, LZ4_setStreamDecode; simpl.
  rewrite u64_small by lia. destruct (Z.eqb_spec (zlen dictl) 0) as [E|E]; simpl.
  - assert (dictl = []) as -> by (apply zlen_0_nil; lia).
    repeat split; intros; try done; try apply holds_nil.
  - replace (dict + zlen dictl - zlen dictl) with dict by lia.
    repeat split; intros; try done; try apply holds_nil. lia.
Qed.

Lemma sd_inv_frame sd m m' dictl pre dst cap :
  sd_inv sd m dictl pre -> sd_disjoint sd dst cap -> frame dst (dst + cap) m m' ->
  holds m' (prefixEnd sd - zlen pre) pre /\ holds m' (externalDict sd) dictl.
Proof.
  intros (E1 & E2 & _ & _ & Hp & _ & Hd) [D1 D2] Hf. split.
  - eapply frame_holds; [exact Hf|lia|exact Hp].
  - eapply frame_holds; [exact Hf|lia|exact Hd].
Qed.

(** What a call achieves: the contract of a full decoding with the history of
    the state, and a new state that stands for the history extended by the
    output. *)
Definition continues (c : M (Z * LZ4_streamDecode_t)) (m : mem) (sd : LZ4_streamDecode_t)
    (dictl pre srcl : list Z) (dst cap : Z) : Prop :=
  decodes_full (p ← c; mret p.1) m (sd_hist sd dst dictl pre) srcl dst cap /\
  wp c (fun p m' => 0 < p.1 -> exists dictl' pre' out,
    zlen out = p.1 /\ holds m' dst out /\ sd_inv p.2 m' dictl' pre' /\
    dictl' ++ pre' = sd_hist sd dst dictl pre ++ out) m.

(** A decoder followed by the update of the state after a positive result. *)
Lemma continues_intro (c : M Z) m sd sd0 dictl pre srcl dst cap (upd : Z -> LZ4_streamDecode_t) :
  decodes_full c m (sd_hist sd dst dictl pre) srcl dst cap ->
  (forall out m', frame dst (dst + cap) m m' -> out <> [] -> holds m' dst out -> exists dictl' pre',
     sd_inv (upd (zlen out)) m' dictl' pre' /\
     dictl' ++ pre' = sd_hist sd dst dictl pre ++ out) ->
  continues (result ← c; if result <=? 0 then mret (result, sd0) else mret (result, upd result))
    m sd dictl pre srcl dst cap.
Proof.
  intros Hc Hupd. destruct (wp_inv _ _ _ Hc) as (r & m' & E & HQ). split.
  - unfold decodes_full, wp, mbind, M_bind. rewrite E. by destruct (Z.leb_spec r 0).
  - unfold wp, mbind, M_bind. rewrite E. destruct (Z.leb_spec r 0); [simpl; lia|].
    intros _. simpl. destruct HQ as (Hf & Hs & _).
    destruct (Hs ltac:(lia)) as (b & out & _ & _ & _ & El & _ & Hh).
    destruct (Hupd out m' Hf) as (d' & p' & HI & Eh); [intros ->; rewrite zlen_nil in *; lia|done|].
    exists d', p', out. by subst r.
Qed.

Section Continue.
Context (m : mem) (sd : LZ4_streamDecode_t) (dictl pre : list Z).
Context (src : Z) (srcl : list Z) (dst cap : Z).
Context (Hinv : sd_inv sd m dictl pre) (Hbufs : bufs_ok m src srcl dst cap).
Context (Hdisj : sd_disjoint sd dst cap).

(** The new prefix is the output alone. *)
Lemma sd_inv_fresh ed eds dictl' out m' :
  eds = zlen dictl' -> (dictl' <> [] -> 0 < ed) -> holds m' ed dictl' -> out <> [] ->
  holds m' dst out -> sd_inv (StreamDecode ed (dst + zlen out) eds (zlen out)) m' dictl' out.
Proof.
  intros -> Hp Hd Hne Hh. destruct Hbufs as (_ & ? & _). unfold sd_inv; simpl.
  replace (dst + zlen out - zlen out) with dst by lia.
  repeat split; try done. lia.
Qed.

Lemma rolling_decoder :
  prefixSize sd <> 0 -> prefixEnd sd = dst ->
  decodes_full
    (if 64 * KB - 1 <=? prefixSize sd
     then LZ4_decompress_safe_withPrefix64k src dst (zlen srcl) cap
     else if extDictSize sd =? 0
     then LZ4_decompress_safe_withSmallPrefix src dst (zlen srcl) cap (prefixSize sd)
     else LZ4_decompress_safe_doubleDict src dst (zlen srcl) cap (prefixSize sd)
            (externalDict sd) (extDictSize sd)) m (dictl ++ pre) srcl dst cap.
Proof.
  intros Hne <-. pose proof Hinv as (E1 & E2 & _ & _ & Hp & H0 & Hd). rewrite E1, E2.
  destruct (Z.leb_spec (64 * KB - 1) (zlen pre)).
  - apply decodes_full_window; [unfold KB in *; lia|].
    apply safe_withPrefix64k_ok; [done|unfold KB in *; lia|done].
  - destruct (Z.eqb_spec (zlen dictl) 0).
    + assert (dictl = []) as -> by (apply zlen_0_nil; lia). by apply safe_withSmallPrefix_ok.
    + apply safe_doubleDict_ok; [done| |done]. split; [|split; [done|]].
      * apply H0. intros ->. done.
      * destruct Hdisj as [_ D]. by rewrite E2 in D.
Qed.

Lemma safe_continue_ok :
  continues (LZ4_decompress_safe_continue sd src dst (zlen srcl) cap) m sd dictl pre srcl dst cap.
Proof.
  pose proof Hinv as (E1 & E2 & H0 & Hp0 & Hp & Hd0 & Hd). unfold LZ4_decompress_safe_continue.
  destruct (Z.eqb_spec (prefixSize sd) 0) as [Ez|Ez].
  - assert (pre = []) as Epre by (apply zlen_0_nil; lia). specialize (H0 Epre).
    assert (sd_hist sd dst dictl pre = []) as Eh.
    { unfold sd_hist. rewrite H0, Epre. by destruct (_ =? _). }
    apply (continues_intro _ _ _ _ _ _ _ _ _
      (fun r => StreamDecode (externalDict sd) (dst + r) (extDictSize sd) r)).
    + rewrite Eh. by apply safe_ok.
    + intros out m' Hf Hne Hh. exists [], out. rewrite Eh. split; [|done].
      apply sd_inv_fresh; [by rewrite E2, H0|done|apply holds_nil|done|done].
  - destruct (Z.eqb_spec (prefixEnd sd) dst) as [Ee|Ee].
    + assert (sd_hist sd dst dictl pre = dictl ++ pre) as Eh.
      { unfold sd_hist. by destruct (Z.eqb_spec (prefixEnd sd) dst). }
      apply (continues_intro _ _ _ _ _ _ _ _ _ (fun r => StreamDecode (externalDict sd)
        (prefixEnd sd + r) (extDictSize sd) (prefixSize sd + r))).
      * rewrite Eh. by apply rolling_decoder.
      * intros out m' Hf Hne Hh. destruct (sd_inv_frame _ _ _ _ _ _ _ Hinv Hdisj Hf) as [Hp' Hd'].
        exists dictl, (pre ++ out). rewrite Eh. split; [|by rewrite app_assoc].
        assert (pre <> []) as Hpn by (intros ->; rewrite zlen_nil in *; lia). specialize (Hp0 Hpn).
        unfold sd_inv; simpl. rewrite zlen_app, E1.
        replace (prefixEnd sd + zlen out - (zlen pre + zlen out)) with (prefixEnd sd - zlen pre) by lia.
        split; [done|]. split; [done|]. split; [by intros [-> _]%app_nil|]. split; [intros _; zlen_facts; lia|].
        split; [|done]. apply holds_app. split; [done|].
        by replace (prefixEnd sd - zlen pre + zlen pre) with dst by lia.
    + assert (sd_hist sd dst dictl pre = pre) as Eh.
      { unfold sd_hist. by destruct (Z.eqb_spec (prefixEnd sd) dst). }
      assert (pre <> []) as Hpn by (intros ->; rewrite zlen_nil in *; lia). specialize (Hp0 Hpn).
      cbn [externalDict extDictSize].
      apply (continues_intro _ _ _ _ _ _ _ _ _ (fun r => StreamDecode (prefixEnd sd - prefixSize sd)
        (dst + r) (prefixSize sd) r)).
      * rewrite Eh, E1. apply safe_forceExtDict_ok; [done|]. split; [lia|]. split; [done|].
        destruct Hdisj as [D _]. rewrite E1 in D. lia.
      * intros out m' Hf Hne Hh. destruct (sd_inv_frame _ _ _ _ _ _ _ Hinv Hdisj Hf) as [Hp' _].
        exists pre, out. rewrite Eh. split; [|done]. rewrite E1.
        apply sd_inv_fresh; [done|lia|done|done|done].
Qed.
End Continue.

(** C23.  [LZ4_decompress_safe_continue] meets the contract of a full decoding
    with the history that the decoding state stands for, in its three branches
    (first block, block contiguous with the previous one, other buffer), and
    after a positive result the new state stands for that history extended by
    the decoded bytes. *)
Theorem decompress_safe_continue_spec m sd dictl pre src srcl dst cap :
  sd_inv sd m dictl pre -> bufs_ok m src srcl dst cap -> sd_disjoint sd dst cap ->
  continues (LZ4_decompress_safe_continue sd src dst (zlen srcl) cap) m sd dictl pre srcl dst cap.
Proof. intros. by apply safe_continue_ok. Qed.

(** A dictionary as prefix, and a block decoded in another buffer. *)
Definition sample_sd : LZ4_streamDecode_t := StreamDecode NULL 310 0 10.

Lemma decompress_safe_continue_witness :
  continues (LZ4_decompress_safe_continue sample_sd 150 200 11 64) sample_mem sample_sd
    [] sample_dict (enc_block sample_dict_block) 200 64.
Proof.
  exact (decompress_safe_continue_spec sample_mem sample_sd [] sample_dict 150
    (enc_block sample_dict_block) 200 64 ltac:(eval_decide) ltac:(eval_decide) ltac:(eval_decide)).
Defined.
