(* ===== verification/Lz4UnsafeSpec.v ===== *)
(** lib/lz4.c, the deprecated decoders [LZ4_decompress_fast*], which know the
    size of the output and trust the input; and their correctness on conforming
    blocks. *)
From S2P Require Import Prelude.
From S2P Require Import Mem.
From S2P Require Import BlockFormat.
From S2P Require Import Lz4Common.
From S2P Require Import Lz4CommonSpec.
From S2P Require Import Lz4Decompress.
From S2P Require Import Lz4DecodeSteps.
From S2P Require Import Lz4DecodeSpec.
From S2P Require Import Lz4DecodeApi.

(** The number of mapped addresses: a pointer that is read at every step takes
    no more steps than that. *)
Definition mapped_size : M nat := fun m => Ok (size m) m.

(** [do { b = **pp; ( *pp)++; l += b; } while (b==255);], over the pointer and
    the length. *)
Definition rll_step (s : Z * Z) : M (Z * Z + Z * Z) :=
  let '(pp, l) := s in
  b ← loadb pp;
  let s := (pp + 1, u64 (l + b)) in
  mret (if b =? 255 then inl s else inr s).

Definition read_long_length_no_check (pp : Z) : M (Z * Z) :=
  n ← mapped_size; loop (S n) rll_step (pp, 0).

(** [for (u=0; u<ml; u++) op[u] = match[u];] *)
Definition byte_copy_step (op mtch ml : Z) (u : Z) : M (Z + unit) :=
  if u <? ml then copy_byte (op + u) (mtch + u);; mret (inl (u + 1)) else mret (inr tt).

Definition byte_copy (op mtch ml : Z) : M unit :=
  loop (S (Z.to_nat ml)) (byte_copy_step op mtch ml) 0.

(** The literals of a sequence: [inl] with the new pointers, or [inr] with the
    result of the function. *)
Definition unsafe_literals (istart oend token ip op : Z) : M (Z * Z + Z) :=
  let ll := Z.shiftr token ML_BITS in
  r ← (if ll =? 15 then r ← read_long_length_no_check ip; mret (r.1, u64 (ll + r.2))
       else mret (ip, ll));
  let '(ip, ll) := r in
  if u64 (oend - op) <? ll then mret (inr (-1)) else
  memmove op ip ll;;
  let op := op + ll in
  let ip := ip + ll in
  if u64 (oend - op) <? MFLIMIT then
    if op =? oend then mret (inr (s32 (ip - istart))) else mret (inr (-1))
  else mret (inl (ip, op)).

(** The copy of a match of [ml] bytes; the result is [op] behind it. *)
Definition unsafe_match_copy (prefixStart dictStart dictSize op ml offset : Z) : M Z :=
  let mtch := op - offset in
  if u64 (op - prefixStart) <? offset then
    let dictEnd := dictStart + dictSize in
    let extMatch := dictEnd - (offset - u64 (op - prefixStart)) in
    let extml := u64 (dictEnd - extMatch) in
    r ← (if ml <? extml then memmove op extMatch ml;; mret (op + ml, 0)
         else memmove op extMatch extml;; mret (op + extml, ml - extml));
    let '(op, ml) := r in
    let mtch := prefixStart in
    byte_copy op mtch ml;; mret (op + ml)
  else byte_copy op mtch ml;; mret (op + ml).

Definition unsafe_match (oend prefixStart dictStart dictSize token ip op : Z) : M (Z * Z + Z) :=
  let ml := Z.land token 15 in
  offset ← LZ4_readLE16 ip;
  let ip := ip + 2 in
  r ← (if ml =? 15 then r ← read_long_length_no_check ip; mret (r.1, u64 (ml + r.2))
       else mret (ip, ml));
  let '(ip, ml) := r in
  let ml := u64 (ml + MINMATCH) in
  if u64 (oend - op) <? ml then mret (inr (-1)) else
  if u64 (u64 (op - prefixStart) + dictSize) <? offset then mret (inr (-1)) else
  op ← unsafe_match_copy prefixStart dictStart dictSize op ml offset;
  if u64 (oend - op) <? LASTLITERALS then mret (inr (-1)) else mret (inl (ip, op)).

Definition unsafe_step (istart oend prefixStart dictStart dictSize : Z) (s : Z * Z) :
    M (Z * Z + Z) :=
  let '(ip, op) := s in
  token ← loadb ip;
  r ← unsafe_literals istart oend token (ip + 1) op;
  match r with
  | inr result => mret (inr result)
  | inl (ip, op) => unsafe_match oend prefixStart dictStart dictSize token ip op
  end.

(** Every turn of the loop that goes on has written a match of 4 bytes or
    more. *)
Definition LZ4_decompress_unsafe_generic
    (istart ostart decompressedSize prefixSize dictStart dictSize : Z) : M Z :=
  let oend := ostart + decompressedSize in
  let prefixStart := ostart - prefixSize in
  loop (S (Z.to_nat decompressedSize))
    (unsafe_step istart oend prefixStart dictStart dictSize) (istart, ostart).

Definition LZ4_decompress_fast (source dest originalSize : Z) : M Z :=
  LZ4_decompress_unsafe_generic source dest originalSize 0 NULL 0.

Definition LZ4_decompress_fast_withPrefix64k (source dest originalSize : Z) : M Z :=
  LZ4_decompress_unsafe_generic source dest originalSize (64 * KB) NULL 0.

Definition LZ4_decompress_fast_extDict (source dest originalSize dictStart dictSize : Z) : M Z :=
  LZ4_decompress_unsafe_generic source dest originalSize 0 dictStart dictSize.

Definition LZ4_decompress_fast_usingDict (source dest originalSize dictStart dictSize : Z) : M Z :=
  if (dictSize =? 0) || (dictStart + dictSize =? dest)
  then LZ4_decompress_unsafe_generic source dest originalSize (u64 dictSize) NULL 0
  else LZ4_decompress_fast_extDict source dest originalSize dictStart (u64 dictSize).

Definition LZ4_decompress_fast_continue (lz4sd : LZ4_streamDecode_t)
    (source dest originalSize : Z) : M (Z * LZ4_streamDecode_t) :=
  if prefixSize lz4sd =? 0 then
    result ← LZ4_decompress_fast source dest originalSize;
    if result <=? 0 then mret (result, lz4sd) else
    mret (result, StreamDecode (externalDict lz4sd) (dest + originalSize) (extDictSize lz4sd)
                    originalSize)
  else if prefixEnd lz4sd =? dest then
    result ← LZ4_decompress_unsafe_generic source dest originalSize (prefixSize lz4sd)
               (externalDict lz4sd) (extDictSize lz4sd);
    if result <=? 0 then mret (result, lz4sd) else
    mret (result, StreamDecode (externalDict lz4sd) (prefixEnd lz4sd + originalSize)
                    (extDictSize lz4sd) (prefixSize lz4sd + originalSize))
  else
    let lz4sd := StreamDecode (prefixEnd lz4sd - prefixSize lz4sd) (prefixEnd lz4sd)
                   (prefixSize lz4sd) (prefixSize lz4sd) in
    result ← LZ4_decompress_fast_extDict source dest originalSize
               (externalDict lz4sd) (extDictSize lz4sd);
    if result <=? 0 then mret (result, lz4sd) else
    mret (result, StreamDecode (externalDict lz4sd) (dest + originalSize) (extDictSize lz4sd)
                    originalSize).

(** Obsolete names. *)
Definition LZ4_uncompress (source dest outputSize : Z) : M Z :=
  LZ4_decompress_fast source dest outputSize.

Definition LZ4_uncompress_unknownOutputSize (source dest isize maxOutputSize : Z) : M Z :=
  LZ4_decompress_safe source dest isize maxOutputSize.

(** The trusting decoders: on a conforming block they produce the bytes the
    block stands for, and return the number of bytes read. *)

(** * Matches *)

Lemma copy_match_S n : forall h off,
  copy_match h off (S n) = copy_match h off n ++ [match_byte (copy_match h off n) off].
Proof. induction n as [|n IH]; intros h off; [done|]. simpl in *. by rewrite IH. Qed.

Lemma copy_match_add a : forall b h off,
  copy_match h off (a + b) = copy_match (copy_match h off a) off b.
Proof. induction a as [|a IH]; intros b h off; simpl; [done|]. apply IH. Qed.

(** A match that starts in the first part [d] of the history and stays there. *)
Lemma copy_match_ext d x off n :
  zlen x < off <= zlen d + zlen x -> Z.of_nat n <= off - zlen x ->
  copy_match (d ++ x) off n = d ++ x ++ take n (drop (Z.to_nat (zlen d + zlen x - off)) d).
Proof.
  intros Ho. induction n as [|n IH]; intros Hn; [by rewrite app_nil_r|].
  rewrite copy_match_S, IH by lia. clear IH.
  set (k := Z.to_nat (zlen d + zlen x - off)).
  assert (k + n < length d)%nat as Hk by (unfold k, zlen in *; lia).
  assert (exists v, d !! (k + n)%nat = Some v) as [v Hv] by (by apply lookup_lt_is_Some).
  assert (take (S n) (drop k d) = take n (drop k d) ++ [v]) as ->.
  { apply take_S_r. by rewrite lookup_drop. }
  rewrite <- !app_assoc. do 4 f_equal. unfold match_byte.
  destruct (Z.eqb_spec off 0) as [E|E]; [zl|].
  assert (Z.to_nat (zlen (d ++ x ++ take n (drop k d)) - off) = k + n)%nat as ->.
  { unfold k in *. rewrite !zlen_app. unfold zlen in *. rewrite length_take, length_drop. lia. }
  by rewrite lookup_app_l, Hv.
Qed.

Section Copy.
Context (base off : Z) (h : list Z) (op : Z).
Context (Hop : op = base + zlen h) (Hoff : 0 < off <= zlen h).

Lemma wp_byte_copy n m Q :
  0 <= n -> holds m base h -> mapped m op n ->
  (forall m', frame op (op + n) m m' -> holds m' base (copy_match h off (Z.to_nat n)) -> Q tt m') ->
  wp (byte_copy op (op - off) n) Q m.
Proof.
  intros Hn Hh Hm HQ.
  apply (wp_loop (fun u m' => 0 <= u <= n /\ frame op (op + n) m m' /\
            holds m' base (copy_match h off (Z.to_nat u))) (fun u => n - u)).
  - intros u m' (Hu & Hf & Hc). split; [lia|]. unfold byte_copy_step. wif.
    + assert (zlen (copy_match h off (Z.to_nat u)) = zlen h + u) as El by (apply zlen_copy_match; lia).
      apply wp_bind. apply wp_copy_byte.
      * rewrite (holds_at _ _ _ _ Hc) by lia. apply lookup_lt_is_Some. unfold zlen in *. lia.
      * eapply frame_mapped; [exact Hf|exact Hm|lia].
      * intros m2 Hc2.
        assert (copied m' m2 (op + u) (op - off + u) 1) as Hc3 by done.
        assert (frame (op + u) (op + u + 1) m' m2) as Hf2.
        { eapply copied_frame; [exact Hc3|]. intros i Hi. replace i with (op - off + u) by lia.
          rewrite (holds_at _ _ _ _ Hc) by lia. apply lookup_lt_is_Some. unfold zlen in *. lia. }
        apply wp_ret. split; [|lia]. split; [lia|]. split.
        { eapply frame_trans; [exact Hf|]. eapply frame_weaken; [exact Hf2|lia..]. }
        replace (Z.to_nat (u + 1)) with (S (Z.to_nat u)) by lia. rewrite copy_match_S.
        apply holds_app. split; [eapply frame_holds; [exact Hf2|lia|done]|].
        apply holds_cons. split; [|apply holds_nil]. rewrite El.
        rewrite (copied_at _ _ _ _ _ _ Hc3) by lia. unfold match_byte.
        rewrite (proj2 (Z.eqb_neq off 0)) by lia. rewrite El.
        rewrite (holds_at _ _ _ _ Hc) by lia.
        replace (Z.to_nat (base + (zlen h + u) - (op + u) + (op - off + u) - base))
          with (Z.to_nat (zlen h + u - off)) by lia.
        destruct (lookup_lt_is_Some_2 (copy_match h off (Z.to_nat u)) (Z.to_nat (zlen h + u - off)))
          as [v ->]; [unfold zlen in *; lia|done].
    + assert (u = n) as -> by lia. apply HQ; done.
  - split; [lia|]. split; [apply frame_refl|done].
  - lia.
Qed.
End Copy.

(** * Lengths *)

Lemma holds_size m a l : holds m a l -> (length l <= size m)%nat.
Proof.
  intros H. rewrite <- size_dom.
  assert (list_to_set ((fun i => a + Z.of_nat i) <$> List.seq 0 (length l)) ⊆ dom m) as Hsub.
  { intros x [i [-> Hi%elem_of_seq]]%elem_of_list_to_set%list_elem_of_fmap.
    apply elem_of_dom. rewrite H by lia. apply lookup_lt_is_Some. lia. }
  apply subseteq_size in Hsub. rewrite size_list_to_set, length_fmap, length_seq in Hsub; [done|].
  assert (Inj eq eq (fun i : nat => a + Z.of_nat i)) by (intros ? ? ?; lia).
  apply (NoDup_fmap_2 _), NoDup_seq.
Qed.

Lemma wp_read_long n p r m Q :
  0 <= n < 2 ^ 63 -> holds m p (ext_bytes n ++ r) ->
  Q (p + zlen (ext_bytes n), n) m -> wp (read_long_length_no_check p) Q m.
Proof.
  intros Hn [H _]%holds_app HQ. pose proof (holds_size _ _ _ H) as Hsz.
  assert (zlen (ext_bytes n) = n / 255 + 1) as El by (apply zlen_ext_bytes; lia). rewrite El in HQ.
  assert (0 <= n / 255) by (apply Z.div_pos; lia).
  pose proof (Z.div_mod n 255 ltac:(lia)). pose proof (Z.mod_pos_bound n 255 ltac:(lia)).
  apply (wp_loop (fun s m' => m' = m /\ exists i, 0 <= i <= n / 255 /\ s = (p + i, 255 * i))
           (fun s => p + n / 255 - s.1)).
  - intros s m' (-> & i & Hi & ->). split; [simpl; lia|].
    assert (m !! (p + i) = Some (if i =? n / 255 then n mod 255 else 255)) as Hb.
    { rewrite (holds_at _ _ _ _ H) by lia. replace (Z.to_nat (p + i - p)) with (Z.to_nat i) by lia.
      unfold ext_bytes. destruct (Z.eqb_spec i (n / 255)) as [->|Hne].
      - apply list_lookup_middle. by rewrite length_replicate.
      - rewrite lookup_app_l by (rewrite length_replicate; lia).
        apply lookup_replicate_2. lia. }
    unfold rll_step. apply wp_bind. eapply wp_loadb; [exact Hb|]. apply wp_ret.
    destruct (Z.eqb_spec i (n / 255)) as [->|Hne]; rewrite u64_small by lia.
    + rewrite (proj2 (Z.eqb_neq _ 255)) by lia.
      by replace (p + n / 255 + 1, 255 * (n / 255) + n mod 255) with (p + (n / 255 + 1), n)
        by (f_equal; lia).
    + simpl. split; [|lia]. split; [done|]. exists (i + 1). split; [lia|]. f_equal; lia.
  - split; [done|]. exists 0. split; [lia|]. f_equal; lia.
  - simpl. unfold zlen in *. lia.
Qed.

(** A length field: its half of the token and the bytes that extend it. *)
Lemma wp_read_length n p r m Q :
  0 <= n < 2 ^ 63 -> holds m p (len_ext n ++ r) ->
  Q (p + zlen (len_ext n), n) m ->
  wp (if nibble n =? 15
      then r ← read_long_length_no_check p; mret (r.1, u64 (nibble n + r.2))
      else mret (p, nibble n)) Q m.
Proof.
  intros Hn H HQ. unfold len_ext, nibble in *. destruct (Z.ltb_spec n 15).
  - rewrite Z.min_l by lia. rewrite (proj2 (Z.eqb_neq n 15)) by lia. apply wp_ret.
    change (zlen (@nil Z)) with 0 in HQ. by rewrite Z.add_0_r in HQ.
  - rewrite Z.min_r by lia. change (15 =? 15) with true. cbn iota. apply wp_bind.
    eapply wp_read_long; [|exact H|]; [lia|]. apply wp_ret. simpl fst. simpl snd.
    rewrite u64_small by lia. by replace (15 + (n - 15)) with n by lia.
Qed.

(** * A sequence *)

Lemma token_fields a b : 0 <= a < 16 -> 0 <= b < 16 ->
  Z.shiftr (16 * a + b) ML_BITS = a /\ Z.land (16 * a + b) 15 = b.
Proof.
  intros Ha Hb. change 15 with (Z.ones 4). rewrite Z.shiftr_div_pow2, Z.land_ones by (unfold ML_BITS; lia).
  apply token_split. lia.
Qed.

Lemma wp_unsafe_literals istart oend a b ip op lits r m Q :
  a = nibble (zlen lits) -> 0 <= b < 16 ->
  holds m ip (len_ext (zlen lits) ++ lits ++ r) -> mapped m op (zlen lits) ->
  0 <= op <= oend -> oend - op < 2 ^ 63 -> zlen lits <= oend - op ->
  (forall m', frame op (op + zlen lits) m m' -> holds m' op lits ->
     let ip' := ip + zlen (len_ext (zlen lits) ++ lits) in
     Q (if oend - (op + zlen lits) <? MFLIMIT
        then if op + zlen lits =? oend then inr (s32 (ip' - istart)) else inr (-1)
        else inl (ip', op + zlen lits)) m') ->
  wp (unsafe_literals istart oend (16 * a + b) ip op) Q m.
Proof.
  intros -> Hb H Hm Hop Ho Hl HQ. zlen_facts. unfold unsafe_literals.
  destruct (token_fields (nibble (zlen lits)) b) as [-> _]; [apply nibble_range; lia|done|].
  apply wp_bind. eapply wp_read_length; [|exact H|]; [lia|].
  rewrite (u64_small (oend - op)) by lia. zcase; [lia|].
  apply holds_app in H as [_ [H _]%holds_app]. apply wp_bind.
  apply wp_memmove; [lia|by apply holds_mapped|done|]. intros m' Hc.
  pose proof (copied_frame _ _ _ _ _ Hc (holds_mapped _ _ _ H)) as Hf.
  specialize (HQ m' Hf (copied_holds _ _ _ _ _ _ Hc (Z.le_refl _) H)). simpl in HQ.
  rewrite zlen_app in HQ. rewrite u64_small by lia.
  replace (ip + zlen (len_ext (zlen lits)) + zlen lits)
    with (ip + (zlen (len_ext (zlen lits)) + zlen lits)) by lia.
  revert HQ. zcase; [zcase|]; intros HQ; by apply wp_ret.
Qed.

Lemma holds_drop m a l n : (n <= length l)%nat -> holds m a l -> holds m (a + Z.of_nat n) (drop n l).
Proof.
  intros Hn H. rewrite <- (take_drop n l) in H. apply holds_app in H as [_ H].
  by rewrite zlen_take in H.
Qed.

(** The copy of a match: the history is the external dictionary [d] followed
    by the [x] that ends at [op]. *)
Lemma wp_byte_copy_0 op mtch Q m : Q tt m -> wp (byte_copy op mtch 0) Q m.
Proof. done. Qed.

Lemma drop_length_app {A} (d x y : list A) : drop (length (d ++ x)) (d ++ y) = drop (length x) y.
Proof. by rewrite length_app, <- drop_drop, drop_app_length. Qed.

Section MatchCopy.
Context (prefixStart dictStart : Z) (d x : list Z) (op ml off : Z) (m : mem).
Context (Hop : op = prefixStart + zlen x) (Hps : 0 <= prefixStart).
Context (Hoff : 0 < off <= zlen d + zlen x) (Hml : 0 < ml) (Hsz : zlen d + zlen x < 2 ^ 63).
Context (Hx : holds m prefixStart x) (Hd : holds m dictStart d) (Hm : mapped m op ml).

Let result (m' : mem) : Prop := frame op (op + ml) m m' /\
  holds m' op (drop (length (d ++ x)) (copy_match (d ++ x) off (Z.to_nat ml))).

Lemma wp_match_prefix Q :
  off <= zlen x -> (forall m', result m' -> Q (op + ml) m') ->
  wp (byte_copy op (op - off) ml;; mret (op + ml)) Q m.
Proof.
  intros Ho HQ. apply wp_bind. eapply (wp_byte_copy prefixStart off x); [done|lia|lia|done|done|].
  intros m' Hf Hh. apply wp_ret, HQ. split; [done|].
  rewrite copy_match_older, drop_length_app by lia. rewrite Hop. apply holds_drop; [|done].
  rewrite length_copy_match. lia.
Qed.

Lemma wp_match_ext Q :
  zlen x < off -> (forall m', result m' -> Q (op + ml) m') ->
  let k := off - zlen x in
  wp (r ← (if ml <? k then memmove op (dictStart + zlen d - k) ml;; mret (op + ml, 0)
           else memmove op (dictStart + zlen d - k) k;; mret (op + k, ml - k));
      let '(op, ml) := r in byte_copy op prefixStart ml;; mret (op + ml)) Q m.
Proof.
  intros Ho HQ k. zlen_facts.
  set (t := drop (Z.to_nat (zlen d - k)) d).
  assert (zlen t = k) as Ht by (unfold t, zlen in *; rewrite length_drop; unfold k; lia).
  assert (holds m (dictStart + zlen d - k) t) as Hht.
  { unfold t. replace (dictStart + zlen d - k) with (dictStart + Z.of_nat (Z.to_nat (zlen d - k))) by (unfold k; lia).
    apply holds_drop; [unfold zlen, k in *; lia|done]. }
  assert (forall n : nat, Z.of_nat n <= k ->
    copy_match (d ++ x) off n = d ++ x ++ take n t) as Hext.
  { intros n Hn. rewrite copy_match_ext by (unfold k in *; lia). unfold t.
    by replace (zlen d + zlen x - off) with (zlen d - k) by (unfold k; lia). }
  apply wp_bind. wif.
  - apply wp_bind. apply wp_memmove; [lia| |done|].
    { eapply mapped_sub; [by apply holds_mapped|lia..]. }
    intros m1 Hc. apply wp_ret. apply wp_bind, wp_byte_copy_0, wp_ret. rewrite Z.add_0_r.
    apply HQ. split.
    { eapply copied_frame; [exact Hc|]. eapply mapped_sub; [by apply holds_mapped|lia..]. }
    rewrite Hext, drop_length_app, drop_app_length by lia. eapply copied_holds; [exact Hc| |].
    + rewrite zlen_take; unfold zlen in *; lia.
    + rewrite <- (take_drop (Z.to_nat ml) t) in Hht. by apply holds_app in Hht as [Hht _].
  - apply wp_bind. apply wp_memmove; [lia| | |].
    { eapply mapped_sub; [exact (holds_mapped _ _ _ Hht)|lia..]. }
    { eapply mapped_sub; [done|lia..]. }
    intros m1 Hc.
    assert (frame op (op + k) m m1) as Hf.
    { eapply copied_frame; [exact Hc|]. eapply mapped_sub; [exact (holds_mapped _ _ _ Hht)|lia..]. }
    assert (holds m1 prefixStart (x ++ t)) as Hxt.
    { eapply holds_snoc; [exact Hx| |]; rewrite <- Hop; [exact Hf|].
      eapply copied_holds; [exact Hc|lia|exact Hht]. }
    apply wp_ret. apply wp_bind.
    replace prefixStart with (op + k - off) at 1 by (unfold k; lia).
    eapply (wp_byte_copy prefixStart off (x ++ t)); [zl|zl|lia|done| |].
    { eapply mapped_sub; [by eapply frame_mapped|lia..]. }
    intros m2 Hf2 Hh2. apply wp_ret. replace (op + k + (ml - k)) with (op + ml) by lia.
    apply HQ. split.
    { eapply frame_trans; eapply frame_weaken; [exact Hf| | |exact Hf2| |]; lia. }
    replace (Z.to_nat ml) with (Z.to_nat k + Z.to_nat (ml - k))%nat by lia.
    rewrite copy_match_add, Hext, take_ge by (unfold zlen in *; lia).
    rewrite (copy_match_older _ d), drop_length_app by zl.
    rewrite Hop. apply holds_drop; [|done]. rewrite length_copy_match, length_app. lia.
Qed.

Lemma wp_unsafe_match_copy Q :
  (forall m', result m' -> Q (op + ml) m') ->
  wp (unsafe_match_copy prefixStart dictStart (zlen d) op ml off) Q m.
Proof.
  intros HQ. zlen_facts. unfold unsafe_match_copy.
  rewrite (u64_small (op - prefixStart)) by lia. wif; [|by apply wp_match_prefix; [lia|]].
  replace (off - (op - prefixStart)) with (off - zlen x) by lia.
  rewrite u64_small by lia.
  replace (dictStart + zlen d - (dictStart + zlen d - (off - zlen x))) with (off - zlen x) by lia.
  by apply wp_match_ext; [lia|].
Qed.
End MatchCopy.

Lemma wp_unsafe_match prefixStart dictStart d x oend a op ml off ip r m Q :
  0 <= a < 16 -> op = prefixStart + zlen x -> 0 <= prefixStart ->
  0 < off <= zlen d + zlen x -> off < 65536 -> 4 <= ml < 2 ^ 62 -> zlen d + zlen x < 2 ^ 63 ->
  ml + 5 <= oend - op -> oend - op < 2 ^ 63 ->
  holds m prefixStart x -> holds m dictStart d -> mapped m op ml ->
  holds m ip ([off mod 256; off / 256] ++ len_ext (ml - 4) ++ r) ->
  (forall m', frame op (op + ml) m m' ->
     holds m' op (drop (length (d ++ x)) (copy_match (d ++ x) off (Z.to_nat ml))) ->
     Q (inl (ip + 2 + zlen (len_ext (ml - 4)), op + ml)) m') ->
  wp (unsafe_match oend prefixStart dictStart (zlen d) (16 * a + nibble (ml - 4)) ip op) Q m.
Proof.
  intros Ha Hop Hps Hoff Ho Hml Hsz Hl Hlt Hx Hd Hm H HQ. zlen_facts. unfold unsafe_match.
  destruct (token_fields a (nibble (ml - 4))) as [_ ->]; [done|apply nibble_range; lia|].
  apply wp_bind. eapply wp_LZ4_readLE16; [exact H|].
  replace (off mod 256 + 256 * (off / 256)) with off by (pose proof (Z.div_mod off 256); lia).
  change ([off mod 256; off / 256] ++ len_ext (ml - 4) ++ r)
    with ([off mod 256; off / 256] ++ (len_ext (ml - 4) ++ r)) in H.
  apply holds_app in H as [_ H]. change (zlen [off mod 256; off / 256]) with 2 in H.
  apply wp_bind. eapply wp_read_length; [|exact H|]; [lia|]. unfold MINMATCH.
  rewrite (u64_small (oend - op)), (u64_small (ml - 4 + 4)), (u64_small (op - prefixStart)),
    (u64_small (op - prefixStart + zlen d)) by lia.
  replace (ml - 4 + 4) with ml by lia. zcase; [lia|]. zcase; [lia|]. apply wp_bind.
  apply (wp_unsafe_match_copy _ _ d x); try (done || lia).
  intros m' [Hf Hh]. rewrite u64_small by lia. unfold LASTLITERALS. zcase; [lia|].
  apply wp_ret. by apply HQ.
Qed.

(** * The whole block *)

Lemma end_ok_cons s l lst : end_ok (s :: l) lst -> end_ok l lst.
Proof. unfold end_ok. destruct l; [done|]. by rewrite last_cons_cons. Qed.

(** In front of a sequence at least 12 bytes are left to decode. *)
Lemma end_ok_rest lst l : forall h h',
  Forall seq_wf l -> end_ok l lst -> l <> [] -> exec_seqs h l = Some h' ->
  zlen h + 12 <= zlen h' + zlen lst.
Proof.
  induction l as [|s l IH]; intros h h' Hw He Hne Hx; [done|].
  apply Forall_cons_iff in Hw as [Hs Hw]. simpl in Hx.
  destruct (exec_seq h s) as [h1|] eqn:E; [|done]. cbn in Hx.
  pose proof (exec_seq_zlen _ _ _ Hs E). destruct Hs as (_ & _ & Hs).
  destruct l as [|s' l].
  - injection Hx as [= <-]. destruct He as [? ?]. zl.
  - specialize (IH h1 h' Hw (end_ok_cons _ _ _ He) ltac:(done) Hx). zl.
Qed.

(** What is left behind a sequence. *)
Lemma end_ok_behind lst l s h h' :
  Forall seq_wf l -> end_ok (s :: l) lst -> 4 <= s_mlen s -> exec_seqs h l = Some h' ->
  5 <= zlen h' + zlen lst - zlen h /\ 12 <= s_mlen s + (zlen h' + zlen lst - zlen h).
Proof.
  intros Hw He Hs Hx. destruct l as [|s' l].
  - injection Hx as [= <-]. destruct He as [? ?]. lia.
  - pose proof (end_ok_rest lst (s' :: l) h h' Hw (end_ok_cons _ _ _ He) ltac:(done) Hx).
    lia.
Qed.

Section Decode.
Context (m0 : mem) (src dst dictStart : Z) (d p o lst : list Z) (nib : Z) (h' : list Z) (total : Z).
Let n := zlen o.
Let ps := dst - zlen p.
Context (Hps : 0 <= ps) (Hdst : dst + n <= 2 ^ 62) (Hsz : zlen d + zlen p < 2 ^ 62).
Context (Hnib : 0 <= nib < 16) (Hh' : h' ++ lst = d ++ p ++ o).
Context (Hmap : mapped m0 dst n).
Context (Hdd : dictStart + zlen d <= dst \/ dst + n <= dictStart).
Context (Hlow : 0 <= src) (Hdis : src + total <= dst \/ dst + n <= src).

(** The state of the loop: [q] is decoded, the sequences [l] are left. *)
Definition unsafe_inv (m : mem) (l : list seq) (q : list Z) (ip : Z) : Prop :=
  Forall seq_wf l /\ Forall (fun s => s_off s <> 0) l /\ end_ok l lst /\
  holds m ip (enc_seqs l ++ enc_last lst nib) /\ src <= ip /\
  ip + zlen (enc_seqs l ++ enc_last lst nib) = src + total /\
  holds m ps (p ++ q) /\ holds m dictStart d /\ exec_seqs (d ++ p ++ q) l = Some h' /\
  frame dst (dst + n) m0 m.

Let step := unsafe_step src (dst + n) ps dictStart (zlen d).

(** The last literals end the loop. *)
Lemma unsafe_step_last m q ip Q :
  unsafe_inv m [] q ip ->
  (forall m', holds m' dst o -> frame dst (dst + n) m0 m' -> Q (inr (s32 total)) m') ->
  wp (step (ip, dst + zlen q)) Q m.
Proof.
  intros (_ & _ & _ & H & Hip & Et & Hpq & Hd & [= Ex] & Hf) HQ.
  assert (q ++ lst = o) as Eo.
  { rewrite <- Ex, <- !app_assoc in Hh'. by apply app_inv_head, app_inv_head in Hh'. }
  assert (n = zlen q + zlen lst) as En by (unfold n; rewrite <- Eo; apply zlen_app).
  change (enc_seqs [] ++ enc_last lst nib) with (enc_last lst nib) in *.
  unfold enc_last in H, Et. cbn [app] in H. apply holds_cons in H as [Ht H]. zlen_facts.
  unfold step, unsafe_step. apply wp_bind. eapply wp_loadb; [exact Ht|]. apply wp_bind.
  apply holds_app in Hpq as [Hp Hq]. replace (ps + zlen p) with dst in Hq by (unfold ps; lia).
  apply (wp_unsafe_literals _ _ _ _ _ _ lst []); [done|done|by rewrite app_nil_r| |lia|lia|lia|].
  { eapply mapped_sub; [by eapply frame_mapped|lia..]. }
  intros m' Hf' Hl. cbv zeta. rewrite (proj2 (Z.ltb_lt _ _)) by (unfold MFLIMIT; lia).
  rewrite (proj2 (Z.eqb_eq _ _)) by lia. apply wp_ret.
  replace (ip + 1 + zlen (len_ext (zlen lst) ++ lst) - src) with total by (rewrite !zlen_app, zlen_cons in *; zl).
  apply HQ.
  - rewrite <- Eo. eapply holds_snoc; [exact Hq|exact Hf'|exact Hl].
  - eapply frame_trans; [exact Hf|]. eapply frame_weaken; [exact Hf'|lia..].
Qed.

(** The invariant behind a sequence whose match is [k]. *)
Lemma unsafe_inv_next m m' s l q ip k :
  unsafe_inv m (s :: l) q ip -> s_off s <= zlen (d ++ p ++ q) + zlen (s_lits s) ->
  copy_match ((d ++ p ++ q) ++ s_lits s) (s_off s) (Z.to_nat (s_mlen s)) =
    ((d ++ p ++ q) ++ s_lits s) ++ k ->
  frame dst (dst + n) m m' -> holds m' ps (p ++ q ++ s_lits s ++ k) ->
  unsafe_inv m' l (q ++ s_lits s ++ k) (ip + zlen (enc_seq s)).
Proof.
  intros ([Hs Hw]%Forall_cons_iff & [Ho0 Hoz]%Forall_cons_iff & He & H & Hip & Et & Hpq & Hd & Hx & Hf)
    Ho Ek Hf' Hh. pose proof (zlen_nonneg (enc_seq s)).
  change (enc_seqs (s :: l)) with (enc_seq s ++ enc_seqs l) in *. rewrite !zlen_app in Et.
  split; [done|]. split; [done|]. split; [by eapply end_ok_cons|].
  split; [|split; [lia|split; [rewrite zlen_app; lia|split; [done|split; [|split]]]]].
  - rewrite <- app_assoc in H. apply holds_app in H as [_ H].
    eapply frame_holds; [exact Hf'|rewrite zlen_app; lia|exact H].
  - eapply frame_holds; [exact Hf'|lia|exact Hd].
  - rewrite <- Hx. cbn [exec_seqs]. unfold exec_seq. rewrite (zlen_app (d ++ p ++ q)).
    rewrite (proj2 (Z.leb_le _ _)), Ek by done. cbn. by rewrite <- !app_assoc.
  - by eapply frame_trans.
Qed.

(** One sequence. *)
Lemma unsafe_step_seq m s l q ip Q :
  unsafe_inv m (s :: l) q ip ->
  (forall m' q', unsafe_inv m' l q' (ip + zlen (enc_seq s)) ->
     Q (inl (ip + zlen (enc_seq s), dst + zlen q')) m') ->
  wp (step (ip, dst + zlen q)) Q m.
Proof.
  intros HI HQ. pose proof HI as
    ([Hs Hw]%Forall_cons_iff & [Ho0 Hoz]%Forall_cons_iff & He & H & Hip & Et & Hpq & Hd & Hx & Hf).
  simpl in Hx. destruct (exec_seq (d ++ p ++ q) s) as [h1|] eqn:E; [|done]. cbn in Hx.
  pose proof (exec_seq_zlen _ _ _ Hs E) as Ez. destruct Hs as (Hb & Ho & Hml).
  destruct (end_ok_behind lst l s h1 h' Hw He Hml Hx) as [He5 He12].
  apply (f_equal zlen) in Hh' as Eh. rewrite !zlen_app in Eh, Ez. fold n in Eh. zlen_facts.
  unfold exec_seq in E. revert E. zcase; [|done]. intros [= E]. rewrite !zlen_app in *.
  assert (Hin : enc_seqs (s :: l) = enc_seq s ++ enc_seqs l) by done. rewrite Hin in *.
  assert (holds m ip (enc_seq s ++ enc_seqs l ++ enc_last lst nib)) as G1 by (by rewrite app_assoc).
  rewrite !zlen_app in Et. unfold enc_seq in G1 at 1. rewrite <- !app_assoc in G1. cbn [app] in G1.
  apply holds_cons in G1 as [Ht G1]. pose proof Hpq as [Hp Hq]%holds_app.
  replace (ps + zlen p) with dst in Hq by (unfold ps; lia).
  unfold step, unsafe_step. apply wp_bind. eapply wp_loadb; [exact Ht|]. apply wp_bind.
  assert (0 <= nibble (s_mlen s - 4) < 16) as Hnm by (apply nibble_range; lia).
  apply (wp_unsafe_literals _ _ _ _ _ _ (s_lits s) _ _ _ eq_refl Hnm G1);
    [|lia..|].
  { eapply mapped_sub; [by eapply frame_mapped|lia..]. }
  intros m1 Hf1 Hl1. cbv zeta. rewrite (proj2 (Z.ltb_ge _ _)) by (unfold MFLIMIT; lia).
  eapply frame_mapped in Hf as Hmap'; [|exact Hmap].
  assert (holds m1 ps (p ++ q ++ s_lits s)) as Hx1.
  { rewrite app_assoc. eapply holds_snoc; [exact Hpq| |]; rewrite zlen_app;
      replace (ps + (zlen p + zlen q)) with (dst + zlen q) by (unfold ps; lia); [exact Hf1|exact Hl1]. }
  assert (frame dst (dst + n) m m1) as Hf1' by (eapply frame_weaken; [exact Hf1|lia..]).
  apply holds_app in G1 as [_ [_ G1]%holds_app].
  replace (ip + 1 + zlen (len_ext (zlen (s_lits s))) + zlen (s_lits s))
    with (ip + 1 + zlen (len_ext (zlen (s_lits s)) ++ s_lits s)) in G1 by zl.
  assert (zlen (enc_seq s) = 1 + zlen (len_ext (zlen (s_lits s)) ++ s_lits s) + 2 +
    zlen (len_ext (s_mlen s - 4))) as Ee.
  { unfold enc_seq. rewrite !zlen_app, !zlen_cons. zl. }
  set (ip1 := ip + 1 + zlen (len_ext (zlen (s_lits s)) ++ s_lits s)) in *. zlen_facts.
  eapply (wp_unsafe_match ps dictStart d (p ++ q ++ s_lits s) _ _ _ (s_mlen s) (s_off s)); try (done || lia).
  all: rewrite ?zlen_app; try (unfold ps in *; lia); try (apply nibble_range; lia).
  { eapply frame_holds; [exact Hf1'|lia|exact Hd]. }
  { eapply mapped_sub; [eapply frame_mapped; [exact Hf1'|exact Hmap']|lia..]. }
  { eapply frame_holds; [exact Hf1'| |exact G1]. unfold ip1 in *. rewrite !zlen_app, !zlen_cons. zl. }
  intros m2 Hf2 Hm2.
  assert (d ++ p ++ q ++ s_lits s = (d ++ p ++ q) ++ s_lits s) as Ea by (by rewrite <- !app_assoc).
  destruct (copy_match_prefix (Z.to_nat (s_mlen s)) ((d ++ p ++ q) ++ s_lits s) (s_off s)) as [k Ek].
  rewrite E in Ek. rewrite Ea, E, Ek, drop_app_length in Hm2.
  assert (zlen k = s_mlen s) as Hk by (rewrite Ek, !zlen_app in Ez; lia).
  assert (frame dst (dst + n) m1 m2) as Hf2' by (eapply frame_weaken; [exact Hf2|lia..]).
  replace (ip1 + 2 + zlen (len_ext (s_mlen s - 4))) with (ip + zlen (enc_seq s)) by (unfold ip1; lia).
  replace (dst + zlen q + zlen (s_lits s) + s_mlen s) with (dst + zlen (q ++ s_lits s ++ k))
    by (rewrite !zlen_app; lia).
  apply HQ. eapply unsafe_inv_next; [exact HI|rewrite !zlen_app; lia|by rewrite E, Ek|by eapply frame_trans|].
  replace (p ++ q ++ s_lits s ++ k) with ((p ++ q ++ s_lits s) ++ k) by (by rewrite <- !app_assoc).
  eapply holds_snoc; [exact Hx1| |]; rewrite !zlen_app;
    replace (ps + (zlen p + (zlen q + zlen (s_lits s)))) with (dst + zlen q + zlen (s_lits s))
      by (unfold ps; lia); [exact Hf2|exact Hm2].
Qed.

Lemma wp_unsafe_loop l : forall m q ip fuel,
  unsafe_inv m l q ip -> (length l < fuel)%nat ->
  wp (loop fuel step (ip, dst + zlen q)) (fun r m' =>
    r = s32 total /\ holds m' dst o /\ frame dst (dst + n) m0 m') m.
Proof.
  induction l as [|s l IH]; intros m q ip [|fuel] HI Hfuel; try (simpl in Hfuel; lia);
    cbn [loop]; apply wp_bind.
  - eapply unsafe_step_last; [exact HI|]. intros m' Ho Hf. by apply wp_ret.
  - eapply unsafe_step_seq; [exact HI|]. intros m' q' HI'. apply IH; [done|simpl in Hfuel; lia].
Qed.
End Decode.

(** * The entry points *)

(** A trusting decoding of the block [b], which stands for [o] after [hist]. *)
Definition decodes_trusted (c : M Z) (m : mem) (b : block) (o : list Z) (dst : Z) : Prop :=
  wp c (fun r m' => r = zlen (enc_block b) /\ holds m' dst o /\ frame dst (dst + zlen o) m m') m.

(** The bytes [o] of the block [b] behind [hist], without the offset 0. *)
Definition trusted_block (hist : list Z) (b : block) (o : list Z) : Prop :=
  conforming b /\ Forall (fun s => s_off s <> 0) (b_seqs b) /\ expand hist b = Some o.

Lemma exec_seqs_length l : forall h h',
  Forall seq_wf l -> exec_seqs h l = Some h' -> zlen h + zlen l <= zlen h'.
Proof.
  induction l as [|s l IH]; intros h h' Hw Hx; [injection Hx as [= <-]; zl|].
  apply Forall_cons_iff in Hw as [Hs Hw]. simpl in Hx.
  destruct (exec_seq h s) as [h1|] eqn:E; [|done]. cbn in Hx.
  pose proof (exec_seq_zlen _ _ _ Hs E). destruct Hs as (_ & _ & ?).
  specialize (IH _ _ Hw Hx). zl.
Qed.

Section Api.
Context (m : mem) (src dst : Z) (b : block) (o : list Z).
Context (Hbufs : bufs_ok m src (enc_block b) dst (zlen o)) (Htop : dst + zlen o <= 2 ^ 62).

Lemma unsafe_ok dictStart d p :
  trusted_block (d ++ p) b o -> holds m (dst - zlen p) p -> zlen p <= dst ->
  holds m dictStart d -> dictStart + zlen d <= dst \/ dst + zlen o <= dictStart ->
  zlen d + zlen p < 2 ^ 62 ->
  decodes_trusted (LZ4_decompress_unsafe_generic src dst (zlen o) (zlen p) dictStart (zlen d))
    m b o dst.
Proof.
  intros (((Hs & Hl & Hn) & He) & Ho & (h' & Hx & E)%expand_spec) Hp Hp0 Hd Hdd Hsz.
  destruct Hbufs as ((H0 & _) & (H1 & _) & Hlen & Hcap & _ & Hh & Hm & Hdis).
  pose proof (exec_seqs_length _ _ _ Hs Hx) as Hle.
  assert (zlen h' <= zlen d + zlen p + zlen o) as Hlo.
  { apply (f_equal zlen) in E. rewrite !zlen_app in E. zl. }
  rewrite zlen_app in Hle. unfold decodes_trusted, LZ4_decompress_unsafe_generic.
  assert (s32 (zlen (enc_block b)) = zlen (enc_block b)) as Es.
  { apply s32_small. unfold int_min. pose proof (zlen_nonneg (enc_block b)). lia. }
  rewrite <- Es. rewrite <- app_assoc in E.
  pose proof (wp_unsafe_loop m src dst dictStart d p o (b_last b) (b_nib b) h'
    (zlen (enc_block b)) ltac:(lia) Htop Hsz Hn E Hm Hdd ltac:(lia) Hdis (b_seqs b) m [] src) as W.
  change (zlen (@nil Z)) with 0 in W. rewrite Z.add_0_r in W. apply W.
  - split; [done|]. split; [done|]. split; [done|]. split; [done|]. split; [lia|]. split; [done|].
    rewrite !app_nil_r. split; [done|]. split; [done|]. split; [done|apply frame_refl].
  - pose proof (zlen_nonneg d). pose proof (zlen_nonneg p). unfold zlen in Hle, Hlo. unfold zlen. lia.
Qed.

Lemma fast_ok : trusted_block [] b o ->
  decodes_trusted (LZ4_decompress_fast src dst (zlen o)) m b o dst.
Proof.
  intros H. destruct Hbufs as (_ & (H1 & _) & _).
  apply (unsafe_ok NULL [] []); [done|apply holds_nil|zl|apply holds_nil|unfold NULL; zl|zl].
Qed.

Lemma fast_extDict_ok dictStart d :
  trusted_block d b o -> dict_ok m dictStart d dst (zlen o) -> zlen d < 2 ^ 62 ->
  decodes_trusted (LZ4_decompress_fast_extDict src dst (zlen o) dictStart (zlen d)) m b o dst.
Proof.
  intros H (Hd0 & Hd & Hdd) Hsz. destruct Hbufs as (_ & (H1 & _) & _).
  apply (unsafe_ok dictStart d []); [by rewrite app_nil_r|apply holds_nil|zl|done|zl|zl].
Qed.

Lemma fast_prefix_ok p :
  trusted_block p b o -> holds m (dst - zlen p) p -> zlen p <= dst -> zlen p < 2 ^ 62 ->
  decodes_trusted (LZ4_decompress_unsafe_generic src dst (zlen o) (zlen p) NULL 0) m b o dst.
Proof.
  intros H Hp Hp0 Hsz. destruct Hbufs as (_ & (H1 & _) & _).
  apply (unsafe_ok NULL []); [done|done|done|apply holds_nil|unfold NULL; zl|zl].
Qed.

Lemma fast_usingDict_ok dictStart d :
  trusted_block d b o -> dict_ok m dictStart d dst (zlen o) -> zlen d < 2 ^ 62 ->
  decodes_trusted (LZ4_decompress_fast_usingDict src dst (zlen o) dictStart (zlen d)) m b o dst.
Proof.
  intros H Hd Hsz. pose proof Hd as (Hd0 & Hh & _). unfold LZ4_decompress_fast_usingDict. zlen_facts.
  destruct Hbufs as (_ & (G1 & _) & _).
  rewrite u64_small by lia. destruct (Z.eqb_spec (zlen d) 0) as [E|E]; cbn [orb].
  { assert (d = []) as -> by (apply zlen_0_nil; lia). by apply fast_ok. }
  destruct (Z.eqb_spec (dictStart + zlen d) dst) as [E'|E']; [|by apply fast_extDict_ok].
  apply fast_prefix_ok; [done| |lia|lia]. by replace (dst - zlen d) with dictStart by lia.
Qed.
End Api.
