(* ===== verification/Lz4Compress.v ===== *)
(** lib/lz4.c, "Compression functions": the hash table, the generic block
    compressor and the one-shot entry points.  The compression state is passed
    explicitly; [dictCtx], a pointer to a state that is only read, is that
    state.  The configuration is that of Lz4Common: pointers have 8 bytes. *)
From S2P Require Import Prelude.
From S2P Require Import Mem.
From S2P Require Import Lz4Common.
From S2P Require Import Lz4Decompress.

(** * Types and constants *)

Inductive tableType_t := clearedTable | byPtr | byU32 | byU16.
Inductive limitedOutput_directive := notLimited | limitedOutput | fillOutput.
Inductive dictIssue_directive := noDictIssue | dictSmall.

#[export] Instance tableType_eq_dec : EqDecision tableType_t.
Proof. solve_decision. Defined.
#[export] Instance limitedOutput_eq_dec : EqDecision limitedOutput_directive.
Proof. solve_decision. Defined.
#[export] Instance dictIssue_eq_dec : EqDecision dictIssue_directive.
Proof. solve_decision. Defined.

Definition LZ4_MEMORY_USAGE : Z := 14.
Definition LZ4_HASHLOG : Z := LZ4_MEMORY_USAGE - 2.
Definition LZ4_HASH_SIZE_U32 : Z := Z.shiftl 1 LZ4_HASHLOG.
Definition LZ4_64Klimit : Z := 64 * KB + (MFLIMIT - 1).
Definition LZ4_skipTrigger : Z := 6.
Definition LZ4_ACCELERATION_DEFAULT : Z := 1.
Definition LZ4_ACCELERATION_MAX : Z := 65537.
Definition sizeof_void_p : Z := 8.

Definition LZ4_compressBound (isize : Z) : Z :=
  if u32 LZ4_MAX_INPUT_SIZE <? u32 isize then 0 else isize + Z.quot isize 255 + 16.

(** * The hash table

    An array of [LZ4_HASH_SIZE_U32] words, viewed as 32-bit indexes, 16-bit
    indexes or 64-bit pointers; a word that was never written is 0. *)

Abbreviation table := (gmap Z Z).

Definition word (t : table) (i : Z) : Z := default 0 (t !! i).

(** The number of entries of each view. *)
Definition table_size (tt : tableType_t) : Z :=
  match tt with
  | byU16 => 2 * LZ4_HASH_SIZE_U32
  | byPtr => LZ4_HASH_SIZE_U32 / 2
  | _ => LZ4_HASH_SIZE_U32
  end.

Definition in_table (tt : tableType_t) (h : Z) : bool := (0 <=? h) && (h <? table_size tt).

(** Entry [h] of a view, and its update. *)
Definition entry (t : table) (tt : tableType_t) (h : Z) : Z :=
  match tt with
  | byU16 => Z.shiftr (word t (h / 2)) (16 * (h mod 2)) mod 2 ^ 16
  | byPtr => word t (2 * h) + 2 ^ 32 * word t (2 * h + 1)
  | _ => word t h
  end.

Definition set_entry (t : table) (tt : tableType_t) (h v : Z) : table :=
  match tt with
  | byU16 =>
      let w := word t (h / 2) in
      <[h / 2 := if h mod 2 =? 0 then 2 ^ 16 * (w / 2 ^ 16) + v else 2 ^ 16 * v + w mod 2 ^ 16]> t
  | byPtr => <[2 * h := v mod 2 ^ 32]> (<[2 * h + 1 := v / 2 ^ 32]> t)
  | _ => <[h := v]> t
  end.

Definition LZ4_hash4 (sequence : Z) (tableType : tableType_t) : Z :=
  if bool_decide (tableType = byU16)
  then Z.shiftr (u32 (sequence * 2654435761)) (MINMATCH * 8 - (LZ4_HASHLOG + 1))
  else Z.shiftr (u32 (sequence * 2654435761)) (MINMATCH * 8 - LZ4_HASHLOG).

Definition LZ4_hash5 (sequence : Z) (tableType : tableType_t) : Z :=
  let hashLog := if bool_decide (tableType = byU16) then LZ4_HASHLOG + 1 else LZ4_HASHLOG in
  if LZ4_isLittleEndian
  then u32 (Z.shiftr (u64 (u64 (Z.shiftl sequence 24) * 889523592379)) (64 - hashLog))
  else u32 (Z.shiftr (u64 (Z.shiftr sequence 24 * 11400714785074694791)) (64 - hashLog)).

Definition LZ4_hashPosition (p : Z) (tableType : tableType_t) : M Z :=
  if (STEPSIZE =? 8) && negb (bool_decide (tableType = byU16))
  then v ← LZ4_read_ARCH p; mret (LZ4_hash5 v tableType)
  else v ← LZ4_read32 p; mret (LZ4_hash4 v tableType).

Definition put_entry (t : table) (tt : tableType_t) (h v : Z) : M table :=
  if in_table tt h then mret (set_entry t tt h v) else fault.

Definition get_entry (t : table) (tt : tableType_t) (h : Z) : M Z :=
  if in_table tt h then mret (entry t tt h) else fault.

Definition LZ4_clearHash (h : Z) (t : table) (tableType : tableType_t) : M table :=
  match tableType with
  | clearedTable => mret t
  | _ => put_entry t tableType h 0
  end.

Definition LZ4_putIndexOnHash (idx h : Z) (t : table) (tableType : tableType_t) : M table :=
  match tableType with
  | clearedTable | byPtr => mret t
  | byU32 => put_entry t byU32 h idx
  | byU16 => put_entry t byU16 h (u16 idx)
  end.

Definition LZ4_putPositionOnHash (p h : Z) (t : table) (tableType : tableType_t) : M table :=
  put_entry t byPtr h p.

Definition LZ4_putPosition (p : Z) (t : table) (tableType : tableType_t) : M table :=
  h ← LZ4_hashPosition p tableType; LZ4_putPositionOnHash p h t tableType.

Definition LZ4_getIndexOnHash (h : Z) (t : table) (tableType : tableType_t) : M Z :=
  match tableType with
  | byU32 => get_entry t byU32 h
  | byU16 => get_entry t byU16 h
  | _ => mret 0
  end.

Definition LZ4_getPositionOnHash (h : Z) (t : table) (tableType : tableType_t) : M Z :=
  get_entry t byPtr h.

Definition LZ4_getPosition (p : Z) (t : table) (tableType : tableType_t) : M Z :=
  h ← LZ4_hashPosition p tableType; LZ4_getPositionOnHash h t tableType.

(** * The compression state *)

(** [LZ4_stream_t_internal] of lib/lz4.h. *)
Inductive LZ4_stream_t := Stream {
  hashTable : table;
  dictionary : Z;
  dictCtx : option LZ4_stream_t;
  currentOffset : Z;
  tableType : tableType_t;
  dictSize : Z }.

(** The zeroed structure. *)
Definition LZ4_initStream : LZ4_stream_t := Stream ∅ NULL None 0 clearedTable 0.

Definition LZ4_prepareTable (cctx : LZ4_stream_t) (inputSize : Z) (tt : tableType_t) :
    LZ4_stream_t :=
  let cctx :=
    if negb (bool_decide (tableType cctx = clearedTable)) &&
       (negb (bool_decide (tableType cctx = tt))
        || (bool_decide (tt = byU16) && (0xFFFF <=? u32 (currentOffset cctx + u32 inputSize)))
        || (bool_decide (tt = byU32) && (1 * GB <? currentOffset cctx))
        || bool_decide (tt = byPtr)
        || (4 * KB <=? inputSize))
    then Stream ∅ (dictionary cctx) (dictCtx cctx) 0 clearedTable (dictSize cctx)
    else cctx in
  let offset :=
    if negb (currentOffset cctx =? 0) && bool_decide (tt = byU32)
    then u32 (currentOffset cctx + 64 * KB) else currentOffset cctx in
  Stream (hashTable cctx) NULL None offset (tableType cctx) 0.
