(* ===== verification/Lz4CompressGeneric.v ===== *)
(** lib/lz4.c, [LZ4_compress_generic_validated]: the match finder and the
    encoder of sequences.  A label of the C function is a constructor of
    [clabel]; the code from a label to the next jump is one definition. *)
From S2P Require Import Prelude.
From S2P Require Import Mem.
From S2P Require Import Lz4Common.
From S2P Require Import Lz4Decompress.
From S2P Require Import Lz4Compress.

(** The constant parameters of one call. *)
Record cparams := CParams {
  c_source : Z; c_inputSize : Z; c_dest : Z; c_maxOutputSize : Z;
  c_out : limitedOutput_directive; c_tt : tableType_t;
  c_dd : dict_directive; c_di : dictIssue_directive; c_accel : Z;
  c_startIndex : Z; c_dictionary : Z; c_dictSize : Z;
  c_dictTable : table; c_dictOffset : Z  (* of [dictCtx] *) }.

Definition c_base (p : cparams) : Z := c_source p - c_startIndex p.
Definition c_dictDelta (p : cparams) : Z :=
  if bool_decide (c_dd p = usingDictCtx) then u32 (c_startIndex p - c_dictOffset p) else 0.
Definition c_maybe_extMem (p : cparams) : bool :=
  bool_decide (c_dd p = usingExtDict) || bool_decide (c_dd p = usingDictCtx).
Definition c_prefixIdxLimit (p : cparams) : Z := u32 (c_startIndex p - c_dictSize p).
Definition c_dictEnd (p : cparams) : Z :=
  if c_dictionary p =? NULL then c_dictionary p else c_dictionary p + c_dictSize p.
Definition c_iend (p : cparams) : Z := c_source p + c_inputSize p.
Definition c_mflimitPlusOne (p : cparams) : Z := c_iend p - MFLIMIT + 1.
Definition c_matchlimit (p : cparams) : Z := c_iend p - LASTLITERALS.
Definition c_dictBase (p : cparams) : Z :=
  if c_dictionary p =? NULL then NULL
  else if bool_decide (c_dd p = usingDictCtx)
  then c_dictionary p + c_dictSize p - c_dictOffset p
  else c_dictionary p + c_dictSize p - c_startIndex p.
Definition c_olimit (p : cparams) : Z := c_dest p + c_maxOutputSize p.

(** The local variables, and the hash table of the context. *)
Record cstate := CState {
  k_ip : Z; k_anchor : Z; k_op : Z; k_offset : Z; k_lowLimit : Z; k_match : Z;
  k_token : Z; k_filledIp : Z; k_forwardH : Z; k_tbl : table }.

Inductive clabel := find_match | next_match | last_literals.

(** The value returned, the value of [*inputConsumed] if it is written, and
    the final hash table. *)
Record cresult := CResult { r_result : Z; r_consumed : option Z; r_tbl : table }.

Abbreviation cnext := ((clabel * cstate) + cresult)%type.

(** * Finding a match *)

(** From an index of the hash table to a position: the index, the match and
    the limit for its extension backwards. *)
Definition candidate (p : cparams) (h matchIndex lowLimit : Z) : M (Z * Z * Z) :=
  match c_dd p with
  | usingDictCtx =>
      if matchIndex <? c_startIndex p then
        matchIndex ← LZ4_getIndexOnHash h (c_dictTable p) byU32;
        mret (u32 (matchIndex + c_dictDelta p), c_dictBase p + matchIndex, c_dictionary p)
      else mret (matchIndex, c_base p + matchIndex, c_source p)
  | usingExtDict =>
      if matchIndex <? c_startIndex p
      then mret (matchIndex, c_dictBase p + matchIndex, c_dictionary p)
      else mret (matchIndex, c_base p + matchIndex, c_source p)
  | _ => mret (matchIndex, c_base p + matchIndex, lowLimit)
  end.

(** The variables of the search loop. *)
Record sstate := SState {
  s_forwardIp : Z; s_step : Z; s_searchMatchNb : Z; s_forwardH : Z; s_lowLimit : Z; s_tbl : table }.

(** A match that was found. *)
Record found := Found {
  f_ip : Z; f_match : Z; f_lowLimit : Z; f_offset : Z; f_forwardH : Z; f_tbl : table }.

(** One iteration over 16-bit or 32-bit indexes; the result is [None] when the
    end of the input is near. *)
Definition search_index_step (p : cparams) (offset : Z) (s : sstate) :
    M (sstate + (option found * table)) :=
  let h := s_forwardH s in
  let current := u32 (s_forwardIp s - c_base p) in
  matchIndex ← LZ4_getIndexOnHash h (s_tbl s) (c_tt p);
  let ip := s_forwardIp s in
  let forwardIp := ip + s_step s in
  let step := Z.shiftr (s_searchMatchNb s) LZ4_skipTrigger in
  let searchMatchNb := s_searchMatchNb s + 1 in
  if c_mflimitPlusOne p <? forwardIp then mret (inr (None, s_tbl s)) else
  c ← candidate p h matchIndex (s_lowLimit s);
  let '(matchIndex, mtch, lowLimit) := c in
  forwardH ← LZ4_hashPosition forwardIp (c_tt p);
  tbl ← LZ4_putIndexOnHash current h (s_tbl s) (c_tt p);
  let s' := SState forwardIp step searchMatchNb forwardH lowLimit tbl in
  if bool_decide (c_di p = dictSmall) && (matchIndex <? c_prefixIdxLimit p)
  then mret (inl s')
  else if (negb (bool_decide (c_tt p = byU16)) || (LZ4_DISTANCE_MAX <? LZ4_DISTANCE_ABSOLUTE_MAX))
          && (u32 (matchIndex + LZ4_DISTANCE_MAX) <? current)
  then mret (inl s')
  else
    a ← LZ4_read32 mtch; b ← LZ4_read32 ip;
    if a =? b then
      let offset := if c_maybe_extMem p then u32 (current - matchIndex) else offset in
      mret (inr (Some (Found ip mtch lowLimit offset forwardH tbl), tbl))
    else mret (inl s').

(** One iteration over positions. *)
Definition search_ptr_step (p : cparams) (offset : Z) (s : sstate) :
    M (sstate + (option found * table)) :=
  let h := s_forwardH s in
  let ip := s_forwardIp s in
  let forwardIp := ip + s_step s in
  let step := Z.shiftr (s_searchMatchNb s) LZ4_skipTrigger in
  let searchMatchNb := s_searchMatchNb s + 1 in
  if c_mflimitPlusOne p <? forwardIp then mret (inr (None, s_tbl s)) else
  mtch ← LZ4_getPositionOnHash h (s_tbl s) (c_tt p);
  forwardH ← LZ4_hashPosition forwardIp (c_tt p);
  tbl ← LZ4_putPositionOnHash ip h (s_tbl s) (c_tt p);
  let s' := SState forwardIp step searchMatchNb forwardH (s_lowLimit s) tbl in
  if mtch + LZ4_DISTANCE_MAX <? ip then mret (inl s')
  else
    a ← LZ4_read32 mtch; b ← LZ4_read32 ip;
    if negb (a =? b) then mret (inl s')
    else mret (inr (Some (Found ip mtch (s_lowLimit s) offset forwardH tbl), tbl)).

Definition search (p : cparams) (st : cstate) : M (option found * table) :=
  let s := SState (k_ip st) 1 (Z.shiftl (c_accel p) LZ4_skipTrigger) (k_forwardH st)
             (k_lowLimit st) (k_tbl st) in
  loop (S (Z.to_nat (c_iend p - k_ip st)))
    (match c_tt p with byPtr => search_ptr_step p (k_offset st)
     | _ => search_index_step p (k_offset st) end) s.

(** The extension of the match backwards. *)
Definition catch_up (anchor lowLimit ip mtch : Z) : M (Z * Z) :=
  if lowLimit <? mtch then
    a ← loadb (ip - 1); b ← loadb (mtch - 1);
    if a =? b then
      loop (S (Z.to_nat (ip - anchor)))
        (fun q => let '(ip, mtch) := q in
           let ip := ip - 1 in
           let mtch := mtch - 1 in
           if (anchor <? ip) && (lowLimit <? mtch) then
             a ← loadb (ip - 1); b ← loadb (mtch - 1);
             mret (if a =? b then inl (ip, mtch) else inr (ip, mtch))
           else mret (inr (ip, mtch))) (ip, mtch)
    else mret (ip, mtch)
  else mret (ip, mtch).

(** * Encoding *)

(** [for (; len >= 255; len -= 255) *op++ = 255; *op++ = (BYTE)len;] *)
Definition put_length (op len : Z) : M Z :=
  loop (S (Z.to_nat len))
    (fun q => let '(op, len) := q in
       if 255 <=? len then storeb op 255;; mret (inl (op + 1, len - 255))
       else storeb op (u8 len);; mret (inr (op + 1))) (op, len).

(** The token and the length of a run of literals; the result is where the
    literals go. *)
Definition put_literal_length (token op litLength : Z) : M Z :=
  if RUN_MASK <=? litLength then
    storeb token (u8 (Z.shiftl RUN_MASK ML_BITS));;
    put_length op (litLength - RUN_MASK)
  else
    storeb token (u8 (Z.shiftl litLength ML_BITS));;
    mret op.

Definition goto_c (l : clabel) (st : cstate) : M cnext := mret (inl (l, st)).

Definition return_0 (tbl : table) : M cnext := mret (inr (CResult 0 None tbl)).

Definition find_match_body (p : cparams) (st : cstate) : M cnext :=
  r ← search p st;
  let '(o, tbl) := r in
  match o with
  | None => goto_c last_literals
      (CState (k_ip st) (k_anchor st) (k_op st) (k_offset st) (k_lowLimit st) (k_match st)
         (k_token st) (k_filledIp st) (k_forwardH st) tbl)
  | Some f =>
      let filledIp := f_ip f in
      let anchor := k_anchor st in
      q ← catch_up anchor (f_lowLimit f) (f_ip f) (f_match f);
      let '(ip, mtch) := q in
      let litLength := u32 (ip - anchor) in
      let token := k_op st in
      let op := k_op st + 1 in
      if bool_decide (c_out p = limitedOutput)
         && (c_olimit p <? op + litLength + (2 + 1 + LASTLITERALS) + litLength / 255)
      then return_0 tbl
      else if bool_decide (c_out p = fillOutput)
         && (c_olimit p <? op + (litLength + 240) / 255 + litLength + 2 + 1 + MFLIMIT - MINMATCH)
      then goto_c last_literals
        (CState ip anchor token (f_offset f) (f_lowLimit f) mtch token filledIp (f_forwardH f) tbl)
      else
        op ← put_literal_length token op litLength;
        LZ4_wildCopy8 op anchor (op + litLength);;
        goto_c next_match
          (CState ip anchor (op + litLength) (f_offset f) (f_lowLimit f) mtch token filledIp
             (f_forwardH f) tbl)
  end.

(** The length of the match at [ip] beyond its first 4 bytes, and the end of
    the match. *)
Definition match_code (p : cparams) (lowLimit ip mtch : Z) : M (Z * Z) :=
  if (bool_decide (c_dd p = usingExtDict) || bool_decide (c_dd p = usingDictCtx))
     && (lowLimit =? c_dictionary p) then
    let limit := Z.min (ip + (c_dictEnd p - mtch)) (c_matchlimit p) in
    matchCode ← LZ4_count (ip + MINMATCH) (mtch + MINMATCH) limit;
    let ip := ip + (matchCode + MINMATCH) in
    if ip =? limit then
      more ← LZ4_count limit (c_source p) (c_matchlimit p);
      mret (u32 (matchCode + more), ip + more)
    else mret (matchCode, ip)
  else
    matchCode ← LZ4_count (ip + MINMATCH) (mtch + MINMATCH) (c_matchlimit p);
    mret (matchCode, ip + (matchCode + MINMATCH)).

(** [for (ptr = ip; ptr <= filledIp; ++ptr)] forget the position. *)
Definition clear_positions (tt : tableType_t) (ip filledIp : Z) (tbl : table) : M table :=
  loop (S (Z.to_nat (filledIp + 1 - ip)))
    (fun q => let '(ptr, tbl) := q in
       if ptr <=? filledIp then
         h ← LZ4_hashPosition ptr tt;
         tbl ← LZ4_clearHash h tbl tt;
         mret (inl (ptr + 1, tbl))
       else mret (inr tbl)) (ip, tbl).

(** The token's low half and the length of the match; the result is where the
    next token goes. *)
Definition put_match_length (token op matchCode : Z) : M Z :=
  t ← loadb token;
  if ML_MASK <=? matchCode then
    storeb token (u8 (t + ML_MASK));;
    let matchCode := matchCode - ML_MASK in
    LZ4_write32 op 0xFFFFFFFF;;
    r ← loop (S (Z.to_nat matchCode))
      (fun q => let '(op, matchCode) := q in
         if 4 * 255 <=? matchCode then
           LZ4_write32 (op + 4) 0xFFFFFFFF;;
           mret (inl (op + 4, matchCode - 4 * 255))
         else mret (inr (op, matchCode))) (op, matchCode);
    let '(op, matchCode) := r in
    let op := op + matchCode / 255 in
    storeb op (u8 (matchCode mod 255));;
    mret (op + 1)
  else
    storeb token (u8 (t + u8 matchCode));;
    mret op.

(** The entry for the position [q]. *)
Definition put_position (p : cparams) (q h : Z) (tbl : table) : M table :=
  if bool_decide (c_tt p = byPtr) then LZ4_putPositionOnHash q h tbl byPtr
  else LZ4_putIndexOnHash (u32 (q - c_base p)) h tbl (c_tt p).

(** After a match that ends at [ip]: a match that starts right there goes on
    without literals. *)
Definition test_next_position (p : cparams) (st : cstate) : M cnext :=
  let ip := k_ip st in
  let op := k_op st in
  let next tbl lowLimit :=
    forwardH ← LZ4_hashPosition (ip + 1) (c_tt p);
    goto_c find_match (CState (ip + 1) (k_anchor st) op (k_offset st) lowLimit (k_match st)
      (k_token st) (k_filledIp st) forwardH tbl) in
  if bool_decide (c_tt p = byPtr) then
    mtch ← LZ4_getPosition ip (k_tbl st) (c_tt p);
    tbl ← LZ4_putPosition ip (k_tbl st) (c_tt p);
    hit ← (if ip <=? mtch + LZ4_DISTANCE_MAX then
             a ← LZ4_read32 mtch; b ← LZ4_read32 ip; mret (a =? b)
           else mret false);
    if (hit : bool) then
      storeb op 0;;
      goto_c next_match (CState ip (k_anchor st) (op + 1) (k_offset st) (k_lowLimit st) mtch
        op (k_filledIp st) (k_forwardH st) tbl)
    else next tbl (k_lowLimit st)
  else
    h ← LZ4_hashPosition ip (c_tt p);
    let current := u32 (ip - c_base p) in
    matchIndex ← LZ4_getIndexOnHash h (k_tbl st) (c_tt p);
    c ← candidate p h matchIndex (k_lowLimit st);
    let '(matchIndex, mtch, lowLimit) := c in
    tbl ← LZ4_putIndexOnHash current h (k_tbl st) (c_tt p);
    hit ← (if (if bool_decide (c_di p = dictSmall) then c_prefixIdxLimit p <=? matchIndex else true)
              && (if bool_decide (c_tt p = byU16)
                     && (LZ4_DISTANCE_MAX =? LZ4_DISTANCE_ABSOLUTE_MAX)
                  then true else current <=? u32 (matchIndex + LZ4_DISTANCE_MAX))
           then a ← LZ4_read32 mtch; b ← LZ4_read32 ip; mret (a =? b)
           else mret false);
    if (hit : bool) then
      storeb op 0;;
      let offset := if c_maybe_extMem p then u32 (current - matchIndex) else k_offset st in
      goto_c next_match (CState ip (k_anchor st) (op + 1) offset lowLimit mtch
        op (k_filledIp st) (k_forwardH st) tbl)
    else next tbl lowLimit.

(** The code behind the check of the output for the match length. *)
Definition end_match (p : cparams) (st : cstate) (op ip matchCode : Z) (tbl : table) : M cnext :=
  op ← put_match_length (k_token st) op matchCode;
  let anchor := ip in
  let st' := CState ip anchor op (k_offset st) (k_lowLimit st) (k_match st) (k_token st)
               (k_filledIp st) (k_forwardH st) in
  if c_mflimitPlusOne p <=? ip then goto_c last_literals (st' tbl) else
  h ← LZ4_hashPosition (ip - 2) (c_tt p);
  tbl ← put_position p (ip - 2) h tbl;
  test_next_position p (st' tbl).

Definition next_match_body (p : cparams) (st : cstate) : M cnext :=
  let op := k_op st in
  let ip := k_ip st in
  if bool_decide (c_out p = fillOutput)
     && (c_olimit p <? op + 2 + 1 + MFLIMIT - MINMATCH)
  then goto_c last_literals
    (CState ip (k_anchor st) (k_token st) (k_offset st) (k_lowLimit st) (k_match st)
       (k_token st) (k_filledIp st) (k_forwardH st) (k_tbl st))
  else
    (if c_maybe_extMem p then LZ4_writeLE16 op (u16 (k_offset st))
     else LZ4_writeLE16 op (u16 (ip - k_match st)));;
    let op := op + 2 in
    r ← match_code p (k_lowLimit st) ip (k_match st);
    let '(matchCode, ip) := r in
    if negb (bool_decide (c_out p = notLimited))
       && (c_olimit p <? op + (1 + LASTLITERALS) + u32 (matchCode + 240) / 255)
    then
      if bool_decide (c_out p = fillOutput) then
        let newMatchCode := u32 (15 - 1 + (u32 (c_olimit p - op) - 1 - LASTLITERALS) * 255) in
        let ip := ip - u32 (matchCode - newMatchCode) in
        tbl ← (if ip <=? k_filledIp st
               then clear_positions (c_tt p) ip (k_filledIp st) (k_tbl st)
               else mret (k_tbl st));
        end_match p st op ip newMatchCode tbl
      else return_0 (k_tbl st)
    else end_match p st op ip matchCode (k_tbl st).

Definition last_literals_body (p : cparams) (st : cstate) : M cnext :=
  let op := k_op st in
  let anchor := k_anchor st in
  let lastRun := c_iend p - anchor in
  let full := c_olimit p <? op + lastRun + 1 + (lastRun + 255 - RUN_MASK) / 255 in
  if bool_decide (c_out p = limitedOutput) && full then return_0 (k_tbl st) else
  let lastRun :=
    if bool_decide (c_out p = fillOutput) && full
    then let r := u64 (c_olimit p - op - 1) in u64 (r - u64 (r + 256 - RUN_MASK) / 256)
    else lastRun in
  op' ← put_literal_length op (op + 1) lastRun;
  memcpy op' anchor lastRun;;
  let ip := anchor + lastRun in
  let op := op' + lastRun in
  mret (inr (CResult (s32 (op - c_dest p))
               (if bool_decide (c_out p = fillOutput) then Some (s32 (ip - c_source p)) else None)
               (k_tbl st))).

Definition comp_step (p : cparams) (c : clabel * cstate) : M cnext :=
  let '(l, st) := c in
  match l with
  | find_match => find_match_body p st
  | next_match => next_match_body p st
  | last_literals => last_literals_body p st
  end.

(** * The whole compressor *)

(** A match consumes at least one byte of input, and between two matches there
    are at most two labels. *)
Definition comp_fuel (inputSize : Z) : nat := Z.to_nat (3 * inputSize + 4).

Definition with_table (s : LZ4_stream_t) (t : table) : LZ4_stream_t :=
  Stream t (dictionary s) (dictCtx s) (currentOffset s) (tableType s) (dictSize s).

(** The context after the input: [dictCtx] is used only once. *)
Definition advance_stream (cctx : LZ4_stream_t) (inputSize : Z) (tt : tableType_t)
    (dictDirective : dict_directive) : LZ4_stream_t :=
  if bool_decide (dictDirective = usingDictCtx)
  then Stream (hashTable cctx) (dictionary cctx) None
         (u32 (currentOffset cctx + u32 inputSize)) tt (u32 inputSize)
  else Stream (hashTable cctx) (dictionary cctx) (dictCtx cctx)
         (u32 (currentOffset cctx + u32 inputSize)) tt
         (u32 (dictSize cctx + u32 inputSize)).

Definition LZ4_compress_generic_validated (cctx : LZ4_stream_t)
    (source dest inputSize maxOutputSize : Z) (outputDirective : limitedOutput_directive)
    (tt : tableType_t) (dictDirective : dict_directive) (dictIssue : dictIssue_directive)
    (acceleration : Z) : M (Z * option Z * LZ4_stream_t) :=
  let startIndex := currentOffset cctx in
  match (if bool_decide (dictDirective = usingDictCtx) then dictCtx cctx else Some cctx) with
  | None => fault
  | Some d =>
      let p := CParams source inputSize dest maxOutputSize outputDirective tt dictDirective
                 dictIssue acceleration startIndex (dictionary d) (dictSize d)
                 (hashTable d) (currentOffset d) in
      if bool_decide (outputDirective = fillOutput) && (maxOutputSize <? 1)
      then mret (0, None, cctx)
      else
        let lowLimit := source - (if bool_decide (dictDirective = withPrefix64k)
                                  then c_dictSize p else 0) in
        let cctx := advance_stream cctx inputSize tt dictDirective in
        let run c :=
          r ← loop (comp_fuel inputSize) (comp_step p) c;
          mret (r_result r, r_consumed r, with_table cctx (r_tbl r)) in
        let st ip forwardH tbl :=
          CState ip source dest 0 lowLimit 0 0 0 forwardH tbl in
        if inputSize <? LZ4_minLength
        then run (last_literals, st source 0 (hashTable cctx))
        else
          h ← LZ4_hashPosition source tt;
          tbl ← (if bool_decide (tt = byPtr)
                 then LZ4_putPositionOnHash source h (hashTable cctx) byPtr
                 else LZ4_putIndexOnHash startIndex h (hashTable cctx) tt);
          forwardH ← LZ4_hashPosition (source + 1) tt;
          run (find_match, st (source + 1) forwardH tbl)
  end.

Definition LZ4_compress_generic (cctx : LZ4_stream_t) (src dst srcSize dstCapacity : Z)
    (outputDirective : limitedOutput_directive) (tt : tableType_t)
    (dictDirective : dict_directive) (dictIssue : dictIssue_directive) (acceleration : Z) :
    M (Z * option Z * LZ4_stream_t) :=
  if u32 LZ4_MAX_INPUT_SIZE <? u32 srcSize then mret (0, None, cctx)
  else if srcSize =? 0 then
    if negb (bool_decide (outputDirective = notLimited)) && (dstCapacity <=? 0)
    then mret (0, None, cctx)
    else
      storeb dst 0;;
      mret (1, if bool_decide (outputDirective = fillOutput) then Some 0 else None, cctx)
  else LZ4_compress_generic_validated cctx src dst srcSize dstCapacity outputDirective tt
         dictDirective dictIssue acceleration.

(** lib/lz4.c: the one-shot entry points of the compressor. *)

Definition clamp_acceleration (acceleration : Z) : Z :=
  let acceleration := if acceleration <? 1 then LZ4_ACCELERATION_DEFAULT else acceleration in
  if LZ4_ACCELERATION_MAX <? acceleration then LZ4_ACCELERATION_MAX else acceleration.

(** The table type for inputs beyond 64 KB. *)
Definition large_tableType (source : Z) : tableType_t :=
  if (sizeof_void_p =? 4) && (LZ4_DISTANCE_MAX <? source) then byPtr else byU32.

(** The state is initialised first, whatever it held. *)
Definition LZ4_compress_fast_extState (state : LZ4_stream_t)
    (source dest inputSize maxOutputSize acceleration : Z) : M (Z * LZ4_stream_t) :=
  let ctx := LZ4_initStream in
  let acceleration := clamp_acceleration acceleration in
  r ← (if LZ4_compressBound inputSize <=? maxOutputSize then
         if inputSize <? LZ4_64Klimit
         then LZ4_compress_generic ctx source dest inputSize 0 notLimited byU16 noDict
                noDictIssue acceleration
         else LZ4_compress_generic ctx source dest inputSize 0 notLimited
                (large_tableType source) noDict noDictIssue acceleration
       else
         if inputSize <? LZ4_64Klimit
         then LZ4_compress_generic ctx source dest inputSize maxOutputSize limitedOutput byU16
                noDict noDictIssue acceleration
         else LZ4_compress_generic ctx source dest inputSize maxOutputSize limitedOutput
                (large_tableType source) noDict noDictIssue acceleration);
  mret (r.1.1, r.2).

Definition LZ4_compress_fast_extState_fastReset (state : LZ4_stream_t)
    (src dst srcSize dstCapacity acceleration : Z) : M (Z * LZ4_stream_t) :=
  let acceleration := clamp_acceleration acceleration in
  r ← (if LZ4_compressBound srcSize <=? dstCapacity then
         if srcSize <? LZ4_64Klimit then
           let ctx := LZ4_prepareTable state srcSize byU16 in
           LZ4_compress_generic ctx src dst srcSize 0 notLimited byU16 noDict
             (if negb (currentOffset ctx =? 0) then dictSmall else noDictIssue) acceleration
         else
           let tt := large_tableType src in
           let ctx := LZ4_prepareTable state srcSize tt in
           LZ4_compress_generic ctx src dst srcSize 0 notLimited tt noDict noDictIssue acceleration
       else
         if srcSize <? LZ4_64Klimit then
           let ctx := LZ4_prepareTable state srcSize byU16 in
           LZ4_compress_generic ctx src dst srcSize dstCapacity limitedOutput byU16 noDict
             (if negb (currentOffset ctx =? 0) then dictSmall else noDictIssue) acceleration
         else
           let tt := large_tableType src in
           let ctx := LZ4_prepareTable state srcSize tt in
           LZ4_compress_generic ctx src dst srcSize dstCapacity limitedOutput tt noDict
             noDictIssue acceleration);
  mret (r.1.1, r.2).

Definition LZ4_compress_fast (src dest srcSize dstCapacity acceleration : Z) : M Z :=
  r ← LZ4_compress_fast_extState LZ4_initStream src dest srcSize dstCapacity acceleration;
  mret r.1.

Definition LZ4_compress_default (src dst srcSize dstCapacity : Z) : M Z :=
  LZ4_compress_fast src dst srcSize dstCapacity 1.

(** The result is the compressed size, the new [*srcSizePtr] and the state. *)
Definition LZ4_compress_destSize_extState_internal (state : LZ4_stream_t)
    (src dst srcSize targetDstSize acceleration : Z) : M (Z * Z * LZ4_stream_t) :=
  let s := LZ4_initStream in
  if LZ4_compressBound srcSize <=? targetDstSize then
    r ← LZ4_compress_fast_extState s src dst srcSize targetDstSize acceleration;
    mret (r.1, srcSize, r.2)
  else
    r ← (if srcSize <? LZ4_64Klimit
         then LZ4_compress_generic s src dst srcSize targetDstSize fillOutput byU16 noDict
                noDictIssue acceleration
         else LZ4_compress_generic s src dst srcSize targetDstSize fillOutput
                (large_tableType src) noDict noDictIssue acceleration);
    mret (r.1.1, default srcSize r.1.2, r.2).

Definition LZ4_compress_destSize_extState (state : LZ4_stream_t)
    (src dst srcSize targetDstSize acceleration : Z) : M (Z * Z * LZ4_stream_t) :=
  r ← LZ4_compress_destSize_extState_internal state src dst srcSize targetDstSize acceleration;
  mret (r.1, LZ4_initStream).

Definition LZ4_compress_destSize (src dst srcSize targetDstSize : Z) : M (Z * Z) :=
  r ← LZ4_compress_destSize_extState_internal LZ4_initStream src dst srcSize targetDstSize 1;
  mret r.1.

(** * Obsolete names *)

Definition LZ4_compress_limitedOutput (source dest inputSize maxOutputSize : Z) : M Z :=
  LZ4_compress_default source dest inputSize maxOutputSize.

Definition LZ4_compress (src dest srcSize : Z) : M Z :=
  LZ4_compress_default src dest srcSize (LZ4_compressBound srcSize).

Definition LZ4_compress_limitedOutput_withState (state : LZ4_stream_t)
    (src dst srcSize dstSize : Z) : M (Z * LZ4_stream_t) :=
  LZ4_compress_fast_extState state src dst srcSize dstSize 1.

Definition LZ4_compress_withState (state : LZ4_stream_t) (src dst srcSize : Z) :
    M (Z * LZ4_stream_t) :=
  LZ4_compress_fast_extState state src dst srcSize (LZ4_compressBound srcSize) 1.
