(* ===== verification/Lz4CountSpec.v ===== *)
(** [LZ4_NbCommonBytes] and [LZ4_count]: the first difference of two words and
    the longest common prefix of two buffers. *)
From S2P Require Import Prelude.
From S2P Require Import Mem.
From S2P Require Import Lz4Common.

(** * Trailing zeros *)

Lemma ctz_double v : 0 < v -> ctz (2 * v) = 1 + ctz v.
Proof. by destruct v. Qed.

Lemma ctz_shift (k : nat) v : 0 < v -> ctz (2 ^ Z.of_nat k * v) = Z.of_nat k + ctz v.
Proof.
  intros Hv. induction k as [|k IH]; [by rewrite Z.mul_1_l|].
  rewrite Nat2Z.inj_succ, Z.pow_succ_r, <- Z.mul_assoc, ctz_double, IH by lia. lia.
Qed.

Lemma ctz_spec v : 0 < v -> exists q, v = 2 ^ ctz v * q /\ Z.odd q = true /\ 0 <= ctz v.
Proof.
  destruct v as [|p|p]; intros Hv; [lia| |lia]. clear Hv. simpl. induction p as [p IH|p IH|].
  - exists (Z.pos p~1). done.
  - destruct IH as (q & E & Hq & H0). exists q. simpl ctz_pos.
    rewrite Z.pow_add_r by lia. split; [|split; [done|lia]].
    change (2 ^ 1) with 2. rewrite <- Z.mul_assoc, <- E. lia.
  - exists 1. done.
Qed.

Lemma ctz_small v k : 0 < v -> 0 <= k -> v mod 2 ^ k <> 0 -> 0 <= ctz v < k.
Proof.
  intros Hv Hk Hm. destruct (ctz_spec v Hv) as (q & E & _ & H0). split; [done|].
  destruct (Z.lt_ge_cases (ctz v) k); [done|]. exfalso. apply Hm.
  replace (ctz v) with (k + (ctz v - k)) in E by lia. rewrite Z.pow_add_r in E by lia.
  rewrite E, <- Z.mul_assoc, Z.mul_comm, Z.mod_mul; lia.
Qed.

(** * Words as lists of bytes *)

Lemma lxor_mod u v k : 0 <= k -> Z.lxor u v mod 2 ^ k = Z.lxor (u mod 2 ^ k) (v mod 2 ^ k).
Proof.
  intros Hk. apply Z.bits_inj'. intros n Hn. rewrite Z.lxor_spec.
  destruct (Z.lt_ge_cases n k).
  - by rewrite !Z.mod_pow2_bits_low, Z.lxor_spec by lia.
  - by rewrite !Z.mod_pow2_bits_high by lia.
Qed.

Lemma lxor_div u v k : 0 <= k -> Z.lxor u v / 2 ^ k = Z.lxor (u / 2 ^ k) (v / 2 ^ k).
Proof. intros Hk. by rewrite <- !Z.shiftr_div_pow2, Z.shiftr_lxor by lia. Qed.

(** The low byte and the rest of the difference of two words. *)
Lemma lxor_low a b x y :
  byte_ok a -> byte_ok b -> Z.lxor (a + 256 * x) (b + 256 * y) mod 256 = Z.lxor a b.
Proof.
  intros Ha Hb. change 256 with (2 ^ 8) at 3. rewrite lxor_mod by lia.
  f_equal; change (2 ^ 8) with 256; Z.div_mod_to_equations; lia.
Qed.

Lemma lxor_high a b x y :
  byte_ok a -> byte_ok b -> Z.lxor (a + 256 * x) (b + 256 * y) / 256 = Z.lxor x y.
Proof.
  intros Ha Hb. change 256 with (2 ^ 8) at 3. rewrite lxor_div by lia.
  f_equal; change (2 ^ 8) with 256; Z.div_mod_to_equations; lia.
Qed.

Lemma lxor_nonneg_le u v : 0 <= u -> 0 <= v -> 0 <= Z.lxor u v.
Proof. intros. by apply Z.lxor_nonneg. Qed.

Lemma le_val_nonneg l : bytes_ok l -> 0 <= le_val l.
Proof. intros H. by apply le_val_range in H as [? _]. Qed.

(** The difference of two words, and the first byte where they differ. *)
Lemma NbCommonBytes_spec la : forall lb,
  length la = length lb -> bytes_ok la -> bytes_ok lb -> Z.lxor (le_val la) (le_val lb) <> 0 ->
  exists k : nat, LZ4_NbCommonBytes (Z.lxor (le_val la) (le_val lb)) = Z.of_nat k /\
    (k < length la)%nat /\ take k la = take k lb /\ la !! k <> lb !! k.
Proof.
  induction la as [|a la IH]; intros [|b lb] Hl Ha Hb; simpl in *; try done.
  apply bytes_ok_cons in Ha as [Ha Hla]. apply bytes_ok_cons in Hb as [Hb Hlb].
  pose proof (lxor_low a b (le_val la) (le_val lb) Ha Hb) as Hlow.
  pose proof (lxor_high a b (le_val la) (le_val lb) Ha Hb) as Hhigh.
  pose proof (le_val_nonneg _ Hla). pose proof (le_val_nonneg _ Hlb).
  set (d := Z.lxor (a + 256 * le_val la) (b + 256 * le_val lb)) in *.
  assert (0 <= d) by (apply lxor_nonneg_le; lia). intros Hd.
  unfold LZ4_NbCommonBytes in *. rewrite Z.shiftr_div_pow2 by lia. change (2 ^ 3) with 8.
  destruct (decide (a = b)) as [->|Hne].
  - rewrite Z.lxor_nilpotent in Hlow.
    assert (d = 256 * (d / 256)) as Ed by (Z.div_mod_to_equations; lia). rewrite Hhigh in Ed.
    set (d' := Z.lxor (le_val la) (le_val lb)) in *. assert (0 < d') as Hd' by lia.
    destruct (IH lb) as (k & Ek & Hk & Ht & Hn); [lia|done|done|lia|]. fold d' in Ek.
    rewrite Z.shiftr_div_pow2 in Ek by lia. change (2 ^ 3) with 8 in Ek.
    exists (S k). rewrite Ed. change 256 with (2 ^ Z.of_nat 8). rewrite ctz_shift by done.
    split; [|split; [lia|]].
    + replace (Z.of_nat 8 + ctz d') with (ctz d' + 1 * 8) by lia. rewrite Z.div_add by lia. lia.
    + simpl. by rewrite Ht.
  - assert (d mod 2 ^ 8 <> 0) as Hm.
    { change (2 ^ 8) with 256. rewrite Hlow. by intros E%Z.lxor_eq. }
    apply (ctz_small d 8) in Hm; [|lia|lia]. exists 0%nat.
    rewrite Z.div_small by lia. split; [done|]. split; [lia|]. split; [done|]. simpl. congruence.
Qed.

Lemma lxor_zero la lb :
  length la = length lb -> bytes_ok la -> bytes_ok lb ->
  Z.lxor (le_val la) (le_val lb) = 0 -> la = lb.
Proof.
  intros Hl Ha Hb E%Z.lxor_eq. rewrite <- (le_bytes_val la), <- (le_bytes_val lb) by done.
  by rewrite Hl, E.
Qed.

(** * Readable memory *)

(** The [n] addresses from [a] hold bytes. *)
Definition readable (m : mem) (a n : Z) : Prop :=
  forall i, a <= i < a + n -> exists b, m !! i = Some b /\ byte_ok b.

Lemma readable_sub m a n b k : readable m a n -> a <= b -> b + k <= a + n -> readable m b k.
Proof. intros H ? ? i Hi. apply H. lia. Qed.

Lemma readable_mapped m a n : readable m a n -> mapped m a n.
Proof. intros H i Hi. destruct (H i Hi) as (b & -> & _). done. Qed.

Lemma readable_holds m a n :
  0 <= n -> readable m a n -> exists l, holds m a l /\ zlen l = n /\ bytes_ok l.
Proof.
  intros Hn H. destruct (mapped_holds m a n) as (l & Hh & Hl); [done|by apply readable_mapped|].
  exists l. split; [done|]. split; [done|]. apply Forall_lookup. intros i x Hx.
  pose proof (lookup_lt_Some _ _ _ Hx). destruct (H (a + Z.of_nat i)) as (b & Hb & Hok); [zn|].
  rewrite (Hh i), Hx in Hb by done. injection Hb as [= ->]. done.
Qed.

Lemma holds_readable m a l : holds m a l -> bytes_ok l -> readable m a (zlen l).
Proof.
  intros Hh Hb i Hi. destruct (lookup_lt_is_Some_2 l (Z.to_nat (i - a))) as [b Eb]; [zn|].
  exists b. split; [|by eapply Forall_lookup in Hb].
  by rewrite <- Eb, (holds_at _ _ _ i Hh) by lia.
Qed.

Lemma wp_LZ4_read_ARCH p Q m :
  readable m p 8 ->
  (forall l, holds m p l -> zlen l = 8 -> bytes_ok l -> Q (le_val l) m) ->
  wp (LZ4_read_ARCH p) Q m.
Proof.
  intros H HQ. destruct (readable_holds m p 8) as (l & Hh & Hl & Hb); [lia|done|].
  unfold LZ4_read_ARCH. apply wp_bind. change STEPSIZE with 8. rewrite <- Hl.
  apply wp_load_bytes; [done|]. apply wp_ret. by apply HQ.
Qed.

Lemma wp_LZ4_read32 p Q m :
  readable m p 4 ->
  (forall l, holds m p l -> zlen l = 4 -> bytes_ok l -> Q (le_val l) m) ->
  wp (LZ4_read32 p) Q m.
Proof.
  intros H HQ. destruct (readable_holds m p 4) as (l & Hh & Hl & Hb); [lia|done|].
  unfold LZ4_read32. apply wp_bind. rewrite <- Hl.
  apply wp_load_bytes; [done|]. apply wp_ret. by apply HQ.
Qed.

Lemma wp_LZ4_read16 p Q m :
  readable m p 2 ->
  (forall l, holds m p l -> zlen l = 2 -> bytes_ok l -> Q (le_val l) m) ->
  wp (LZ4_read16 p) Q m.
Proof.
  intros H HQ. destruct (readable_holds m p 2) as (l & Hh & Hl & Hb); [lia|done|].
  unfold LZ4_read16. apply wp_bind. rewrite <- Hl.
  apply wp_load_bytes; [done|]. apply wp_ret. by apply HQ.
Qed.

(** * The longest common prefix *)

(** [k] is the length of the longest common prefix of the [n] bytes at [p] and
    those at [q]. *)
Definition common_prefix (m : mem) (p q n k : Z) : Prop :=
  0 <= k <= n /\ (forall i, 0 <= i < k -> m !! (p + i) = m !! (q + i)) /\
  (k = n \/ m !! (p + k) <> m !! (q + k)).

Lemma holds_prefix_eq m p q la lb (k : nat) :
  holds m p la -> holds m q lb -> (k <= length la)%nat -> length la = length lb ->
  take k la = take k lb -> forall i, 0 <= i < Z.of_nat k -> m !! (p + i) = m !! (q + i).
Proof.
  intros Ha Hb Hk Hl Ht i Hi. rewrite (holds_at _ _ _ (p + i) Ha), (holds_at _ _ _ (q + i) Hb) by zn.
  replace (p + i - p) with i by lia. replace (q + i - q) with i by lia.
  apply (f_equal (.!! Z.to_nat i)) in Ht. by rewrite !lookup_take_lt in Ht by lia.
Qed.

Section Count.
Context (m : mem) (pStart pMatch0 n : Z).
Context (Hin : readable m pStart n) (Hmatch : readable m pMatch0 n) (Hn : 0 <= n < 2 ^ 32).

(** The state of the loops: [k] bytes are equal so far. *)
Definition count_inv (p : Z * Z) : Prop :=
  let k := p.1 - pStart in
  p.2 = pMatch0 + k /\ 0 <= k <= n /\
  (forall i, 0 <= i < k -> m !! (pStart + i) = m !! (pMatch0 + i)).

Lemma count_inv_step pIn pM w la lb :
  count_inv (pIn, pM) -> pIn - pStart + w <= n -> holds m pIn la -> holds m pM lb ->
  zlen la = w -> zlen lb = w -> la = lb -> count_inv (pIn + w, pM + w).
Proof.
  intros (Ep & Hk & He) Hw Ha Hb La Lb E. simpl in Ep, Hk, He. subst pM. zlen_facts.
  split; [simpl; lia|].
  split; [simpl; lia|]. simpl. intros i Hi. destruct (Z.lt_ge_cases i (pIn - pStart)).
  { apply He. lia. }
  replace (pStart + i) with (pIn + (i - (pIn - pStart))) by lia.
  replace (pMatch0 + i) with (pMatch0 + (pIn - pStart) + (i - (pIn - pStart))) by lia.
  apply (holds_prefix_eq m _ _ la lb (length la)); try done; [by rewrite E|by rewrite E|zn].
Qed.

(** A difference within the next bytes. *)
Lemma count_inv_end pIn pM la lb (k : nat) :
  count_inv (pIn, pM) -> holds m pIn la -> holds m pM lb -> length la = length lb ->
  pIn - pStart + zlen la <= n -> (k < length la)%nat -> take k la = take k lb ->
  la !! k <> lb !! k -> common_prefix m pStart pMatch0 n (pIn + Z.of_nat k - pStart).
Proof.
  intros (E & Hk & He) Ha Hb Hl Hw Hkl Ht Hd. simpl in *. subst pM. split; [zn|]. split.
  - intros i Hi. destruct (Z.lt_ge_cases i (pIn - pStart)); [apply He; lia|].
    replace (pStart + i) with (pIn + (i - (pIn - pStart))) by lia.
    replace (pMatch0 + i) with (pMatch0 + (pIn - pStart) + (i - (pIn - pStart))) by lia.
    apply (holds_prefix_eq m _ _ la lb k); try done; lia.
  - right. rewrite (holds_at _ _ _ _ Ha), (holds_at _ _ _ _ Hb) by zn.
    replace (Z.to_nat (pStart + (pIn + Z.of_nat k - pStart) - pIn)) with k by lia.
    replace (Z.to_nat (pMatch0 + (pIn + Z.of_nat k - pStart) - (pMatch0 + (pIn - pStart))))
      with k by lia. done.
Qed.

Lemma wp_count_loop pIn pM Q :
  count_inv (pIn, pM) ->
  (forall k, common_prefix m pStart pMatch0 n k -> Q (inr k) m) ->
  (forall p, count_inv p -> n - 7 <= p.1 - pStart -> Q (inl p) m) ->
  wp (loop (S (Z.to_nat (pStart + n - pIn))) (count_step pStart (pStart + n)) (pIn, pM)) Q m.
Proof.
  intros HI Hd He.
  apply (wp_loop (fun p m' => m' = m /\ count_inv p) (fun p => pStart + n - p.1)).
  2: done.
  2: { destruct HI as (_ & ? & _). simpl in *. lia. }
  intros [pI pM'] m' [-> HI']. pose proof HI' as (E & Hk & _). simpl in E, Hk. simpl. split; [lia|].
  change (STEPSIZE - 1) with 7. change STEPSIZE with 8. zcase.
  - apply wp_bind, wp_LZ4_read_ARCH; [eapply readable_sub; [exact Hmatch|lia..]|]. intros lb Hb Lb Bb.
    apply wp_bind, wp_LZ4_read_ARCH; [eapply readable_sub; [exact Hin|lia..]|]. intros la Ha La Ba.
    rewrite Z.lxor_comm. zcase.
    + apply wp_ret. split; [|simpl; lia]. split; [done|].
      eapply (count_inv_step _ _ _ la lb); try done; [lia|]. apply lxor_zero; [zn|done|done|done].
    + apply wp_ret. destruct (NbCommonBytes_spec la lb) as (k & -> & Hk' & Ht & Hne); [zn|done..|].
      pose proof (count_inv_end _ _ la lb k HI' Ha Hb ltac:(zn) ltac:(zn) Hk' Ht Hne) as HC.
      rewrite u32_small by (destruct HC; lia). by apply Hd.
  - apply wp_ret. apply He; [done|]. simpl. lia.
Qed.

Lemma first_diff (la : list Z) : forall lb, length la = length lb -> la <> lb ->
  exists k, (k < length la)%nat /\ la !! k <> lb !! k.
Proof.
  induction la as [|a la IH]; intros [|b lb] Hl Hne; simpl in *; try done.
  destruct (decide (a = b)) as [->|Hab].
  - destruct (IH lb) as (k & Hk & Hd); [lia|congruence|]. exists (S k). split; [lia|done].
  - exists 0%nat. split; [lia|]. simpl. congruence.
Qed.

(** Less than [w] bytes are left, or there is a difference in the next [w]. *)
Definition count_near (w : Z) (p : Z * Z) : Prop :=
  n - (p.1 - pStart) < w \/
  exists d, 0 <= d < w /\ p.1 - pStart + d < n /\ m !! (p.1 + d) <> m !! (p.2 + d).

(** The last 4, 2 or 1 bytes: go on if they are equal. *)
Lemma wp_count_tail w (rd : Z -> M Z) pIn pM Q :
  count_inv (pIn, pM) -> count_near (2 * w) (pIn, pM) ->
  (forall a Q', readable m a w ->
     (forall l, holds m a l -> zlen l = w -> bytes_ok l -> Q' (le_val l) m) -> wp (rd a) Q' m) ->
  0 <= w -> (forall p, count_inv p -> count_near w p -> Q p m) ->
  wp (if pIn <? pStart + n - (w - 1) then
        a ← rd pM; b ← rd pIn;
        mret (if a =? b then (pIn + w, pM + w) else (pIn, pM))
      else mret (pIn, pM)) Q m.
Proof.
  intros HI HN Hrd Hw HQ. pose proof HI as (E & Hk & _). simpl in E, Hk. zcase.
  2: { apply wp_ret, HQ; [done|]. left. simpl. lia. }
  apply wp_bind, Hrd; [eapply readable_sub; [exact Hmatch|lia..]|]. intros lb Hb Lb Bb.
  apply wp_bind, Hrd; [eapply readable_sub; [exact Hin|lia..]|]. intros la Ha La Ba.
  assert (length la = length lb) as Hll by zn. apply wp_ret. zcase.
  - assert (la = lb) as Eab.
    { rewrite <- (le_bytes_val la), <- (le_bytes_val lb) by done. f_equal; [zn|done]. }
    apply HQ; [eapply (count_inv_step _ _ _ la lb); try done; lia|].
    destruct HN as [HN|(d & Hd & Hdn & Hne)]; simpl in *; [left; simpl; lia|].
    right. exists (d - w). simpl. destruct (Z.lt_ge_cases d w).
    + exfalso. apply Hne. apply (holds_prefix_eq m _ _ la lb (length la)); try done;
        [by rewrite Eab|zn].
    + split; [lia|]. split; [lia|].
      by replace (pIn + w + (d - w)) with (pIn + d) by lia;
         replace (pM + w + (d - w)) with (pM + d) by lia.
  - apply HQ; [done|]. right. destruct (first_diff la lb Hll) as (k & Hk' & Hne); [congruence|].
    exists (Z.of_nat k). simpl. split; [zn|]. split; [zn|].
    rewrite (holds_at _ _ _ _ Ha), (holds_at _ _ _ _ Hb) by zn.
    by replace (Z.to_nat (pIn + Z.of_nat k - pIn)) with k by lia;
       replace (Z.to_nat (pM + Z.of_nat k - pM)) with k by lia.
Qed.

Lemma wp_loadb_word a Q' : readable m a 1 ->
  (forall l, holds m a l -> zlen l = 1 -> bytes_ok l -> Q' (le_val l) m) -> wp (loadb a) Q' m.
Proof.
  intros H HQ. destruct (readable_holds m a 1) as (l & Hh & Hl & Hb); [lia|done|].
  destruct l as [|x [|y l]]; [done| |zl]. pose proof Hh as [Hx _]%holds_cons.
  eapply wp_loadb; [exact Hx|]. replace x with (le_val [x]) by (simpl; lia). by apply HQ.
Qed.

Lemma count_near_1 p : count_inv p -> count_near 1 p ->
  common_prefix m pStart pMatch0 n (p.1 - pStart).
Proof.
  intros (E & Hk & He) HN. split; [done|]. split; [done|].
  destruct HN as [HN|(d & Hd & Hn' & Hne)]; [left; lia|right].
  replace d with 0 in Hne by lia. rewrite E, !Z.add_0_r in Hne.
  by replace (pStart + (p.1 - pStart)) with p.1 by lia.
Qed.

(** The last byte moves one pointer only. *)
Lemma wp_last_byte pIn pM lim Q :
  wp (if pIn <? lim - (1 - 1) then
        a ← loadb pM; b ← loadb pIn;
        mret (if a =? b then (pIn + 1, pM + 1) else (pIn, pM))
      else mret (pIn, pM)) (fun p m' => Q p.1 m') m ->
  wp (if pIn <? lim then
        a ← loadb pM; b ← loadb pIn; mret (if a =? b then pIn + 1 else pIn)
      else mret pIn) Q m.
Proof.
  rewrite Z.sub_0_r. zcase; [|done]. unfold wp, mbind, M_bind.
  destruct (loadb pM m) as [a m1| |]; [|done..]. destruct (loadb pIn m1) as [b m2| |]; [|done..].
  simpl. by zcase.
Qed.

Lemma wp_LZ4_count Q :
  (forall k, common_prefix m pStart pMatch0 n k -> Q k m) ->
  wp (LZ4_count pStart pMatch0 (pStart + n)) Q m.
Proof.
  intros HQ. unfold LZ4_count. apply wp_bind, wp_count_loop.
  - split; [simpl; lia|]. split; [simpl; lia|]. simpl. intros. lia.
  - intros k Hk. apply wp_ret. by apply HQ.
  - intros [pI pM] HI Hk. simpl in Hk. assert (count_near 8 (pI, pM)) as HN by (left; simpl; lia).
    apply wp_bind, (wp_count_tail 4 LZ4_read32);
      [done|done|intros; by apply wp_LZ4_read32|lia|]. intros [pI2 pM2] HI2 HN2.
    apply wp_bind, (wp_count_tail 2 LZ4_read16);
      [done|done|intros; by apply wp_LZ4_read16|lia|]. intros [pI3 pM3] HI3 HN3.
    apply wp_bind, (wp_last_byte _ pM3), (wp_count_tail 1 loadb);
      [done|done|intros; by apply wp_loadb_word|lia|]. intros p HI4 HN4.
    pose proof (count_near_1 p HI4 HN4) as HC. apply wp_ret.
    rewrite u32_small by (destruct HC; lia). by apply HQ.
Qed.
End Count.

(** * The portable bit count *)

Lemma lxor_pow2_pred c : 0 <= c -> Z.lxor (2 ^ c) (2 ^ c - 1) = 2 ^ (c + 1) - 1.
Proof.
  intros Hc. apply Z.bits_inj'. intros i Hi. rewrite Z.lxor_spec.
  replace (2 ^ (c + 1) - 1) with (Z.ones (c + 1)) by (rewrite Z.ones_equiv; lia).
  replace (2 ^ c - 1) with (Z.ones c) by (rewrite Z.ones_equiv; lia).
  rewrite Z.pow2_bits_eqb by lia. destruct (Z.eqb_spec c i) as [->|Hne].
  - by rewrite Z.ones_spec_high, Z.ones_spec_low by lia.
  - destruct (Z.lt_ge_cases i c); [by rewrite !Z.ones_spec_low by lia|].
    by rewrite !Z.ones_spec_high by lia.
Qed.

(** [v ^ (v - 1)] is the mask of the trailing zeros and the lowest one. *)
Lemma lxor_pred v : 0 < v -> Z.lxor v (v - 1) = 2 ^ (ctz v + 1) - 1.
Proof.
  intros Hv. destruct (ctz_spec v Hv) as (q & E & [k Hq]%Z.odd_spec & Hc).
  rewrite <- lxor_pow2_pred by done. set (c := ctz v) in *.
  pose proof (Z.pow_pos_nonneg 2 c ltac:(lia) Hc) as Hpow.
  assert (2 ^ (c + 1) = 2 * 2 ^ c) as HP by (rewrite Z.pow_add_r by lia; lia).
  assert (v = 2 ^ c + k * 2 ^ (c + 1)) as Ev by (rewrite E, Hq, HP; lia).
  assert (v - 1 = 2 ^ c - 1 + k * 2 ^ (c + 1)) as Ev1 by lia.
  rewrite (Z.div_mod (Z.lxor v (v - 1)) (2 ^ (c + 1))) by lia.
  rewrite lxor_div, lxor_mod by lia. rewrite Ev1, Ev.
  rewrite !Z.div_add, !Z.mod_add by lia. rewrite !Z.div_small, !Z.mod_small by lia.
  rewrite Z.add_0_l, Z.lxor_nilpotent. lia.
Qed.

(** The multiplication gathers the bits of the mask. *)
Lemma sw64_mask c : 0 <= c < 64 ->
  Z.shiftr (u64 (Z.land (2 ^ (c + 1) - 1) (0x0101010101010101 - 1) * 0x0101010101010101)) 56
    = Z.shiftr c 3.
Proof.
  intros Hc.
  assert (Forall (fun c => Z.shiftr (u64 (Z.land (2 ^ (c + 1) - 1) (0x0101010101010101 - 1)
    * 0x0101010101010101)) 56 = Z.shiftr c 3) (seqZ 0 64)) as H
    by (apply (bool_decide_eq_true_1 _); vm_compute; reflexivity).
  rewrite Forall_forall in H. apply H, list_elem_of_In, elem_of_seqZ. lia.
Qed.

Lemma ctz_lt_64 v : 0 < v < 2 ^ 64 -> 0 <= ctz v < 64.
Proof.
  intros Hv. destruct (ctz_spec v ltac:(lia)) as (q & E & _ & Hc). split; [done|].
  destruct (Z.lt_ge_cases (ctz v) 64); [done|].
  pose proof (Z.pow_le_mono_r 2 64 (ctz v) ltac:(lia) ltac:(lia)) as Hp.
  set (w := 2 ^ ctz v) in *. assert (1 <= q) by nia. nia.
Qed.

Lemma NbCommonBytes_sw64_eq v :
  0 < v < 2 ^ 64 -> LZ4_NbCommonBytes_sw64 v = LZ4_NbCommonBytes v.
Proof.
  intros Hv. unfold LZ4_NbCommonBytes_sw64, LZ4_NbCommonBytes. rewrite (u64_small (v - 1)) by lia.
  rewrite lxor_pred by lia. apply sw64_mask. by apply ctz_lt_64.
Qed.
