(* ===== verification/Lz4CompressInv.v ===== *)
(** The hash table of the compressor: hash values index it, and each view
    behaves as an array. *)
From S2P Require Import Prelude.
From S2P Require Import Mem.
From S2P Require Import BlockFormat.
From S2P Require Import Lz4Common.
From S2P Require Import Lz4Decompress.
From S2P Require Import Lz4Compress.
From S2P Require Import Lz4CompressGeneric.
From S2P Require Import Lz4CountSpec.

(** The views that hold indexes. *)
Definition index_type (tt : tableType_t) : Prop := tt = byU32 \/ tt = byU16.

(** The values an entry can hold. *)
Definition entry_max (tt : tableType_t) : Z := match tt with byU16 => 2 ^ 16 | _ => 2 ^ 32 end.

(** The words of the table are 32-bit values. *)
Definition table_wf (t : table) : Prop := forall i, 0 <= word t i < 2 ^ 32.

Lemma table_wf_empty : table_wf ∅.
Proof. intros i. unfold word. rewrite lookup_empty. simpl. lia. Qed.

Lemma word_insert t i j v : word (<[i := v]> t) j = if decide (i = j) then v else word t j.
Proof. unfold word. rewrite lookup_insert. by case_decide. Qed.

Lemma entry_empty tt h : entry ∅ tt h = 0.
Proof. unfold entry, word. rewrite !lookup_empty. by destruct tt; simpl; rewrite ?Z.shiftr_0_l. Qed.

Lemma entry_u16 t h :
  entry t byU16 h = if h mod 2 =? 0 then word t (h / 2) mod 2 ^ 16 else word t (h / 2) / 2 ^ 16 mod 2 ^ 16.
Proof.
  unfold entry. destruct (Z.eqb_spec (h mod 2) 0) as [->|Hn].
  - by rewrite Z.mul_0_r, Z.shiftr_0_r.
  - replace (h mod 2) with 1 by (Z.div_mod_to_equations; lia). by rewrite Z.shiftr_div_pow2 by lia.
Qed.

Lemma entry_range t tt h : index_type tt -> table_wf t -> 0 <= entry t tt h < entry_max tt.
Proof.
  intros [-> | ->] Hw; unfold entry_max; [apply Hw|]. unfold entry.
  apply Z.mod_pos_bound. lia.
Qed.

Lemma set_entry_wf t tt h v :
  index_type tt -> table_wf t -> 0 <= v < entry_max tt -> table_wf (set_entry t tt h v).
Proof.
  intros [-> | ->] Hw Hv i; unfold set_entry, entry_max in *; rewrite word_insert; case_decide;
    try apply Hw; [done|]. specialize (Hw (h / 2)).
  change (2 ^ 16) with 65536 in *. change (2 ^ 32) with 4294967296 in *.
  zcase; Z.div_mod_to_equations; lia.
Qed.

(** The array law. *)
Lemma entry_set t tt h v h' :
  index_type tt -> table_wf t -> 0 <= v < entry_max tt ->
  entry (set_entry t tt h v) tt h' = if decide (h = h') then v else entry t tt h'.
Proof.
  intros [-> | ->] Hw Hv.
  - unfold entry, set_entry. rewrite word_insert. by repeat case_decide.
  - rewrite !entry_u16. unfold set_entry. rewrite word_insert. specialize (Hw (h / 2)).
    unfold entry_max in Hv. change (2 ^ 16) with 65536 in *. change (2 ^ 32) with 4294967296 in *.
    destruct (decide (h / 2 = h' / 2)) as [E|E].
    + rewrite <- E. destruct (decide (h = h')) as [<-|Hne].
      * destruct (Z.eqb_spec (h mod 2) 0); Z.div_mod_to_equations; lia.
      * destruct (Z.eqb_spec (h mod 2) 0), (Z.eqb_spec (h' mod 2) 0);
          Z.div_mod_to_equations; lia.
    + case_decide as Hd; [by subst|done].
Qed.

(** * Hash values *)

#[local] Arguments LZ4_hash4 : simpl never.
#[local] Arguments LZ4_hash5 : simpl never.

(** The hash of the bytes at a position. *)
Definition hash_bytes (tt : tableType_t) (l : list Z) : Z :=
  if bool_decide (tt = byU16) then LZ4_hash4 (le_val (take 4 l)) tt
  else LZ4_hash5 (le_val (take 8 l)) tt.

Lemma shiftr_range v n k : 0 <= n -> 0 <= k -> 0 <= v < 2 ^ (n + k) -> 0 <= Z.shiftr v n < 2 ^ k.
Proof.
  intros Hn Hk Hv. rewrite Z.shiftr_div_pow2 by lia. rewrite Z.pow_add_r in Hv by lia.
  pose proof (Z.pow_pos_nonneg 2 n ltac:(lia) Hn).
  split; [apply Z.div_pos; lia|]. apply Z.div_lt_upper_bound; lia.
Qed.

Lemma hash4_range s : 0 <= LZ4_hash4 s byU16 < 8192.
Proof. apply (shiftr_range _ 19 13); [done|done|]. apply u32_range. Qed.

Lemma hash5_range s : 0 <= LZ4_hash5 s byU32 < 4096.
Proof.
  pose proof (shiftr_range (u64 (u64 (Z.shiftl s 24) * 889523592379)) 52 12 ltac:(done) ltac:(done)
    (u64_range _)) as H.
  change (LZ4_hash5 s byU32) with (u32 (Z.shiftr (u64 (u64 (Z.shiftl s 24) * 889523592379)) 52)).
  rewrite u32_small; [exact H|]. split; [apply H|].
  eapply Z.lt_trans; [apply H|done].
Qed.

Lemma in_table_spec tt h : in_table tt h = true <-> 0 <= h < table_size tt.
Proof.
  unfold in_table. rewrite andb_true_iff, Z.leb_le, Z.ltb_lt. done.
Qed.

Lemma hash_in_table tt l : index_type tt -> in_table tt (hash_bytes tt l) = true.
Proof.
  intros [-> | ->]; apply in_table_spec.
  - exact (hash5_range (le_val (take 8 l))).
  - exact (hash4_range (le_val (take 4 l))).
Qed.

Lemma holds_take m a l n : holds m a l -> holds m a (take n l).
Proof.
  intros H i Hi. rewrite length_take in Hi. rewrite H by lia. by rewrite lookup_take_lt by lia.
Qed.

(** Hashing a position of which 8 bytes can be read. *)
Lemma wp_LZ4_hashPosition p l tt Q m :
  index_type tt -> holds m p l -> 8 <= zlen l -> Q (hash_bytes tt l) m ->
  wp (LZ4_hashPosition p tt) Q m.
Proof.
  intros Htt Hh Hl HQ. unfold LZ4_hashPosition. change (STEPSIZE =? 8) with true. cbn [andb].
  unfold hash_bytes in HQ. destruct Htt as [-> | ->]; cbn [bool_decide decide_rel negb].
  - apply wp_bind. unfold LZ4_read_ARCH. apply wp_bind. change STEPSIZE with 8.
    replace 8 with (zlen (take 8 l)) by (rewrite zlen_take by zn; done).
    apply wp_load_bytes; [by apply holds_take|]. by do 2 apply wp_ret.
  - apply wp_bind. unfold LZ4_read32. apply wp_bind.
    replace 4 with (zlen (take 4 l)) by (rewrite zlen_take by zn; done).
    apply wp_load_bytes; [by apply holds_take|]. by do 2 apply wp_ret.
Qed.

Lemma wp_LZ4_getIndexOnHash h t tt Q m :
  index_type tt -> in_table tt h = true -> Q (entry t tt h) m -> wp (LZ4_getIndexOnHash h t tt) Q m.
Proof.
  intros [-> | ->] Hi HQ; unfold LZ4_getIndexOnHash, get_entry; rewrite Hi; by apply wp_ret.
Qed.

Lemma wp_LZ4_putIndexOnHash idx h t tt Q m :
  index_type tt -> in_table tt h = true -> 0 <= idx < entry_max tt ->
  Q (set_entry t tt h idx) m -> wp (LZ4_putIndexOnHash idx h t tt) Q m.
Proof.
  intros [-> | ->] Hi Hr HQ; unfold LZ4_putIndexOnHash, put_entry; rewrite Hi; apply wp_ret; [done|].
  unfold entry_max in Hr. by rewrite u16_small by lia.
Qed.

Lemma wp_LZ4_clearHash h t tt Q m :
  index_type tt -> in_table tt h = true -> Q (set_entry t tt h 0) m ->
  wp (LZ4_clearHash h t tt) Q m.
Proof.
  intros [-> | ->] Hi HQ; unfold LZ4_clearHash, put_entry; rewrite Hi; by apply wp_ret.
Qed.

(** The setting of a compression: what is known of the buffers and the hash
    table, and how positions of the input and of the history are addressed. *)

(** An entry of the table of an attached dictionary state: too far, or within
    the dictionary and 4 bytes before its end. *)
Definition dict_entry_ok (dictOffset H e : Z) : Prop :=
  e + 65535 <= dictOffset \/ (dictOffset - H <= e /\ e + 4 <= dictOffset).

(** The buffers of a call: [hist] is the history matches may refer to, [inp]
    the input, and the output may be written up to [lim]. *)
Record comp_env (p : cparams) (hist inp : list Z) (m0 : mem) (lim : Z) : Prop := CompEnv {
  ce_inp : holds m0 (c_source p) inp;
  ce_bytes : bytes_ok (hist ++ inp);
  ce_size : zlen inp = c_inputSize p;
  ce_max : 0 < c_inputSize p <= LZ4_MAX_INPUT_SIZE;
  ce_hist : holds m0 (if c_maybe_extMem p then c_dictionary p else c_source p - zlen hist) hist;
  ce_dsize : c_dictSize p = zlen hist;
  ce_ext : c_maybe_extMem p = true ->
    0 < c_dictionary p /\ c_source p <> c_dictionary p /\
    (c_dictionary p + zlen hist <= c_source p \/ c_iend p <= c_dictionary p);
  ce_out : mapped m0 (c_dest p) (lim - c_dest p);
  ce_lim : match c_out p with
           | notLimited => c_dest p + LZ4_compressBound (c_inputSize p) <= lim
           | _ => lim = c_olimit p
           end;
  ce_cap : 0 <= c_maxOutputSize p <= int_max;
  ce_disj : c_iend p <= c_dest p \/ lim <= c_source p;
  ce_hdisj : hist = [] \/ if c_maybe_extMem p
             then c_dictionary p + zlen hist <= c_dest p \/ lim <= c_dictionary p
             else c_source p <= c_dest p \/ lim <= c_source p - zlen hist;
  ce_tt : index_type (c_tt p);
  ce_start : 0 <= c_startIndex p /\ c_startIndex p + c_inputSize p < 2 ^ 32 - 2 ^ 16;
  ce_u16 : c_tt p = byU16 -> c_startIndex p + c_inputSize p < LZ4_64Klimit;
  ce_small : c_di p = dictSmall -> zlen hist <= c_startIndex p;
  ce_accel : 1 <= c_accel p;
  ce_dictctx : c_dd p = usingDictCtx ->
    c_tt p = byU32 /\ 0 <= c_dictOffset p <= c_startIndex p /\ table_wf (c_dictTable p) /\
    forall h, in_table byU32 h = true ->
      dict_entry_ok (c_dictOffset p) (zlen hist) (entry (c_dictTable p) byU32 h);
  ce_fill : c_out p = fillOutput -> c_startIndex p = 0 /\ 1 <= c_maxOutputSize p }.

Section CompInv.
Context (p : cparams) (hist inp : list Z) (m0 : mem) (lim : Z).
Context (Henv : comp_env p hist inp m0 lim).

(** History and input in a row; a position of the input is an index into them. *)
Definition data : list Z := hist ++ inp.
Definition hlen : Z := zlen hist.
Definition dlen : Z := zlen data.

(** Where the byte of an index is stored. *)
Definition addr (k : Z) : Z :=
  if c_maybe_extMem p && (k <? hlen) then c_dictionary p + k else c_source p - hlen + k.

Definition dget (k : Z) : option Z := data !! Z.to_nat k.

Lemma dlen_eq : dlen = hlen + c_inputSize p.
Proof. unfold dlen, data, hlen. rewrite zlen_app, (ce_size _ _ _ _ _ Henv). done. Qed.

Lemma hlen_nonneg : 0 <= hlen.
Proof. apply zlen_nonneg. Qed.

(** The memory a run may have reached: only the output changed. *)
Abbreviation mframe m := (frame (c_dest p) lim m0 m).

Lemma inp_holds m : mframe m -> holds m (c_source p) inp.
Proof.
  intros Hf. destruct Henv. eapply frame_holds; [exact Hf| |done].
  unfold c_iend in *. lia.
Qed.

Lemma history_holds m : mframe m ->
  holds m (if c_maybe_extMem p then c_dictionary p else c_source p - hlen) hist.
Proof.
  intros Hf. destruct Henv. destruct ce_hdisj0 as [E|Hd]; [rewrite E; apply holds_nil|].
  eapply frame_holds; [exact Hf| |exact ce_hist0]. unfold hlen. destruct (c_maybe_extMem p); lia.
Qed.

Lemma dget_addr m k : mframe m -> 0 <= k < dlen -> m !! addr k = dget k.
Proof.
  intros Hf Hk. pose proof (history_holds m Hf) as Hh. pose proof (inp_holds m Hf) as Hi.
  unfold dget, addr, data, hlen, dlen, data in *. rewrite zlen_app in Hk.
  destruct (Z.ltb_spec k (zlen hist)).
  - rewrite andb_true_r, lookup_app_l by zn.
    rewrite (holds_at _ _ _ _ Hh) by (destruct (c_maybe_extMem p); lia).
    f_equal. destruct (c_maybe_extMem p); lia.
  - rewrite andb_false_r, lookup_app_r by zn.
    rewrite (holds_at _ _ _ _ Hi) by lia. f_equal. zn.
Qed.

Lemma dget_byte k : 0 <= k < dlen -> exists b, dget k = Some b /\ byte_ok b.
Proof.
  intros Hk. destruct (lookup_lt_is_Some_2 data (Z.to_nat k)) as [b Hb]; [unfold dlen in Hk; zn|].
  exists b. split; [done|]. pose proof (ce_bytes _ _ _ _ _ Henv) as HB.
  by eapply Forall_lookup in HB.
Qed.

(** Addresses of a row of indexes within one segment. *)
Lemma addr_shift k d :
  (c_maybe_extMem p = true -> k < hlen -> k + d < hlen) ->
  (c_maybe_extMem p = true -> hlen <= k -> hlen <= k + d) -> addr (k + d) = addr k + d.
Proof.
  intros H1 H2. unfold addr. destruct (c_maybe_extMem p); simpl; [|lia].
  destruct (Z.ltb_spec k hlen), (Z.ltb_spec (k + d) hlen); lia.
Qed.

(** The [n] indexes from [k] are stored in a row. *)
Definition segment (k n : Z) : Prop :=
  0 <= k /\ k + n <= dlen /\ (c_maybe_extMem p = true -> k < hlen -> k + n <= hlen).

Lemma segment_addr k n i : segment k n -> 0 <= i < n -> addr (k + i) = addr k + i.
Proof. intros (? & ? & Hs) Hi. apply addr_shift; [intros E ?; specialize (Hs E)|]; lia. Qed.

Lemma segment_readable m k n : mframe m -> segment k n -> readable m (addr k) n.
Proof.
  intros Hf HS i Hi. pose proof HS as (? & ? & _).
  destruct (dget_byte (k + (i - addr k))) as (b & Eb & Hb); [lia|]. exists b. split; [|done].
  rewrite <- Eb, <- (dget_addr m) by (done || lia).
  f_equal. rewrite (segment_addr k n) by (done || lia). lia.
Qed.

Lemma segment_get m k n i : mframe m -> segment k n -> 0 <= i < n -> m !! (addr k + i) = dget (k + i).
Proof.
  intros Hf HS Hi. rewrite <- (segment_addr k n) by done. apply dget_addr; [done|].
  destruct HS as (? & ? & _). lia.
Qed.

Lemma segment_sub k n k' n' : segment k n -> k <= k' -> k' + n' <= k + n -> 0 <= n' ->
  (c_maybe_extMem p = true -> k < hlen -> k' < hlen \/ n' = 0) -> segment k' n'.
Proof.
  intros (? & ? & Hs) Ha Hb Hc Hd. split; [lia|]. split; [lia|]. intros E Hk.
  specialize (Hs E). destruct (Z.lt_ge_cases k hlen); [|lia]. specialize (Hs ltac:(done)). lia.
Qed.

Lemma segment_input k n : hlen <= k -> k + n <= dlen -> segment k n.
Proof. intros ? ?. pose proof hlen_nonneg. split; [lia|]. split; [done|]. lia. Qed.

(** The index of a position of the input, and back. *)
Lemma addr_input k : hlen <= k -> addr k = c_source p - hlen + k.
Proof. intros Hk. unfold addr. destruct (Z.ltb_spec k hlen); [lia|]. by rewrite andb_false_r. Qed.

(** The input bytes from an index on, for the hash. *)
Definition tail_at (k : Z) : list Z := drop (Z.to_nat (k - hlen)) inp.

Lemma tail_holds m k : mframe m -> hlen <= k <= dlen -> holds m (addr k) (tail_at k) /\ zlen (tail_at k) = dlen - k.
Proof.
  intros Hf Hk. pose proof (inp_holds m Hf) as Hi. pose proof dlen_eq as HN.
  destruct (list_split_at inp (k - hlen)) as (x & y & E & Hx).
  { rewrite (ce_size _ _ _ _ _ Henv). lia. }
  unfold tail_at. rewrite E in Hi. apply holds_app in Hi as [_ Hi]. rewrite addr_input by lia.
  rewrite E, drop_app_length' by zn. split.
  - by replace (c_source p - hlen + k) with (c_source p + zlen x) by lia.
  - pose proof (ce_size _ _ _ _ _ Henv) as Hs. rewrite E, zlen_app in Hs. lia.
Qed.

Lemma wp_hash_at m k Q :
  mframe m -> hlen <= k -> k + 8 <= dlen -> Q (hash_bytes (c_tt p) (tail_at k)) m ->
  wp (LZ4_hashPosition (addr k) (c_tt p)) Q m.
Proof.
  intros Hf Hk Hn HQ. destruct (tail_holds m k Hf) as [Hh Hz]; [lia|].
  eapply wp_LZ4_hashPosition; [apply (ce_tt _ _ _ _ _ Henv)|exact Hh|lia|done].
Qed.
End CompInv.
