(* ===== verification/Lz4CompressSearch.v ===== *)
(** The match finder: every candidate that passes its checks is a position of
    the history or of the input at most 65535 bytes back, and the search ends
    with a match of at least 4 bytes or near the end of the input. *)
From S2P Require Import Prelude.
From S2P Require Import Mem.
From S2P Require Import BlockFormat.
From S2P Require Import Lz4Common.
From S2P Require Import Lz4Decompress.
From S2P Require Import Lz4CountSpec.
From S2P Require Import Lz4Compress.
From S2P Require Import Lz4CompressGeneric.
From S2P Require Import Lz4CompressInv.

Section Search.
Context (p : cparams) (hist inp : list Z) (m0 : mem) (lim : Z).
Context (Henv : comp_env p hist inp m0 lim).

Abbreviation hlen := (hlen hist).
Abbreviation dlen := (dlen hist inp).
Abbreviation addr := (addr p hist).
Abbreviation dget := (dget hist inp).
Abbreviation segment := (segment p hist inp).
Abbreviation tail_at := (tail_at hist inp).
Abbreviation mframe m := (frame (c_dest p) lim m0 m).
Abbreviation ext := (c_maybe_extMem p = true).

Ltac cenv :=
  pose proof (dlen_eq _ _ _ _ _ Henv) as Hdl; pose proof (hlen_nonneg hist) as Hhl;
  pose proof (ce_max _ _ _ _ _ Henv) as Hmx; pose proof (ce_start _ _ _ _ _ Henv) as Hst;
  change LZ4_MAX_INPUT_SIZE with 2113929216 in Hmx.

(** * The hash table *)

(** The number by which the table knows an index. *)
Definition idx (k : Z) : Z := c_startIndex p + (k - hlen).

(** An entry for a position before number [cur], at least 4 bytes before the
    end of the input. *)
Definition entry_ok (e cur : Z) : Prop :=
  0 <= e < cur /\ (e = 0 \/ e + 4 <= c_startIndex p + c_inputSize p) /\
  (c_startIndex p <= e \/ c_dd p = usingDictCtx \/ e + 65535 <= c_startIndex p \/
   (c_di p = dictSmall /\ e < c_startIndex p - hlen) \/
   (c_startIndex p - hlen <= e /\ (ext -> e + 4 <= c_startIndex p))).

(** A position is stored at its own hash, so that it can be removed. *)
Definition entry_own (h e : Z) : Prop :=
  e = 0 \/ h = hash_bytes (c_tt p) (tail_at (e + hlen)).

Definition tbl_inv (t : table) (k : Z) : Prop :=
  table_wf t /\
  (forall h, in_table (c_tt p) h = true ->
     entry_ok (entry t (c_tt p) h) (idx k) /\
     (c_out p = fillOutput -> entry_own h (entry t (c_tt p) h))).

Lemma tbl_inv_mono t k k' : tbl_inv t k -> k <= k' -> tbl_inv t k'.
Proof.
  intros [Hw Ht] Hk. split; [done|]. intros h Hh. destruct (Ht h Hh) as [[H1 H2] H3].
  split; [|done]. split; [|done]. unfold idx in *. lia.
Qed.

(** Numbers fit in the entries. *)
Lemma idx_range k : hlen <= k <= dlen - 12 -> 0 <= idx k < entry_max (c_tt p) /\ idx k < 2 ^ 32 - 2 ^ 16.
Proof.
  intros Hk. cenv. unfold idx. destruct (ce_tt _ _ _ _ _ Henv) as [E|E];
    [|pose proof (ce_u16 _ _ _ _ _ Henv E) as Hu; change LZ4_64Klimit with 65547 in Hu];
    rewrite E; unfold entry_max; lia.
Qed.

Lemma tbl_inv_put t k k' h :
  tbl_inv t k' -> k < k' -> hlen <= k <= dlen - 12 -> in_table (c_tt p) h = true ->
  h = hash_bytes (c_tt p) (tail_at k) -> tbl_inv (set_entry t (c_tt p) h (idx k)) k'.
Proof.
  intros [Hw Ht] Hlt Hk Hh Eh. pose proof (idx_range k Hk) as [Hi _].
  pose proof (ce_tt _ _ _ _ _ Henv) as Htt. split; [by apply set_entry_wf|].
  intros h' Hh'. rewrite entry_set by done. cenv. case_decide as E.
  - subst h'. split.
    + split; [unfold idx in *; lia|]. unfold idx. lia.
    + intros Ho. right. destruct (ce_fill _ _ _ _ _ Henv Ho) as [E0 _]. unfold idx. rewrite E0.
      by replace (0 + (k - hlen) + hlen) with k by lia.
  - destruct (Ht h' Hh') as [[H1 H2] H3]. split; [|done]. split; [|done]. unfold idx in *. lia.
Qed.

(** * Candidates *)

(** The limit for the extension backwards tells the segment of the match. *)
Definition low_ok (low j : Z) : Prop :=
  if c_maybe_extMem p then (if j <? hlen then low = c_dictionary p else low = c_source p)
  else low = c_source p - hlen.

(** A match for index [k] that starts at index [j]. *)
Definition match_at (k j low mtch : Z) : Prop :=
  0 <= j < k /\ k - j <= 65535 /\ mtch = addr j /\ low_ok low j.

(** The checks on a candidate. *)
Definition passes (k mi : Z) : Prop :=
  (c_di p = dictSmall -> c_startIndex p - hlen <= mi) /\ (c_tt p = byU16 \/ idx k <= mi + 65535).

Definition cand_ok (k mi mtch low : Z) : Prop :=
  0 <= mi < idx k /\
  (c_maybe_extMem p = false -> low = c_source p - hlen) /\
  (passes k mi -> exists j, match_at k j low mtch /\ idx k - mi = k - j /\
     (ext -> j < hlen -> j + 4 <= hlen)).

Lemma low_source k j mi :
  ext -> j = mi - c_startIndex p + hlen -> c_startIndex p <= mi < idx k ->
  k - j <= 65535 -> match_at k j (c_source p) (c_base p + mi).
Proof.
  intros He -> Hmi Hd. cenv. unfold match_at, low_ok, idx in *. rewrite He.
  split; [lia|]. split; [lia|]. split.
  - rewrite addr_input by lia. unfold c_base. lia.
  - by destruct (Z.ltb_spec (mi - c_startIndex p + hlen) hlen); [lia|].
Qed.

Lemma low_dictionary k j mi :
  ext -> j = mi - c_startIndex p + hlen -> 0 <= j < hlen -> mi < idx k ->
  k - j <= 65535 -> match_at k j (c_dictionary p) (c_dictionary p + j).
Proof.
  intros He -> Hj Hmi Hd. cenv. unfold match_at, low_ok, Lz4CompressInv.addr, idx in *. rewrite He.
  destruct (Z.ltb_spec (mi - c_startIndex p + hlen) hlen); [|lia]. simpl. repeat split; lia.
Qed.

(** A candidate that passes is at most 65535 back. *)
Lemma passes_near k mi : hlen <= k <= dlen - 12 -> 0 <= mi -> passes k mi -> idx k - mi <= 65535.
Proof.
  intros Hk Hmi [_ [Hu|Hd]]; [|lia]. pose proof (idx_range k Hk) as [Hi _]. rewrite Hu in Hi.
  unfold entry_max in Hi. lia.
Qed.

Lemma dictEnd_base : ext ->
  c_dictEnd p = c_dictionary p + hlen /\
  c_dictBase p = c_dictionary p + hlen -
    (if bool_decide (c_dd p = usingDictCtx) then c_dictOffset p else c_startIndex p).
Proof.
  intros He. destruct (ce_ext _ _ _ _ _ Henv He) as (H1 & _ & _).
  unfold c_dictEnd, c_dictBase. rewrite (ce_dsize _ _ _ _ _ Henv). unfold Lz4CompressInv.hlen, NULL.
  destruct (Z.eqb_spec (c_dictionary p) 0); [lia|]. split; [done|]. by case_bool_decide.
Qed.

(** An entry for a position of the input, in the modes with two segments. *)
Lemma cand_source k e :
  ext -> hlen <= k <= dlen - 12 -> c_startIndex p <= e < idx k ->
  cand_ok k e (c_base p + e) (c_source p).
Proof.
  intros He Hk Hi. cenv. split; [lia|]. split; [congruence|].
  intros Hp. pose proof (passes_near k e Hk ltac:(lia) Hp) as Hn.
  exists (e - c_startIndex p + hlen).
  split; [apply (low_source k); [done|done|lia|unfold idx in *; lia]|]. unfold idx. lia.
Qed.

(** An entry for a position of the dictionary. *)
Lemma cand_dictionary k e :
  ext -> hlen <= k <= dlen - 12 -> 0 <= e < idx k ->
  e + 65535 <= c_startIndex p \/ (c_di p = dictSmall /\ e < c_startIndex p - hlen) \/
  (c_startIndex p - hlen <= e /\ e + 4 <= c_startIndex p) -> hlen < k ->
  cand_ok k e (c_dictionary p + (e - c_startIndex p + hlen)) (c_dictionary p).
Proof.
  intros He Hk Hi Hor Hkh. cenv. split; [lia|]. split; [congruence|].
  intros Hp. pose proof (passes_near k e Hk ltac:(lia) Hp) as Hn. destruct Hp as [Hp1 _].
  unfold idx in *. destruct Hor as [Hf|[[Hs Hl]|[Hl H4]]]; [lia|specialize (Hp1 Hs); lia|].
  exists (e - c_startIndex p + hlen). split; [|unfold idx; lia].
  apply (low_dictionary k _ e); [done|done|lia|unfold idx; lia|lia].
Qed.

Lemma wp_candidate k h e low Q m :
  hlen < k <= dlen - 12 -> in_table (c_tt p) h = true -> entry_ok e (idx k) ->
  (c_maybe_extMem p = false -> low = c_source p - hlen) ->
  (forall mi mtch low', cand_ok k mi mtch low' -> Q (mi, mtch, low') m) ->
  wp (candidate p h e low) Q m.
Proof.
  intros Hk Hh (He & _ & Hor) Hlow HQ. unfold candidate. cenv.
  assert (c_maybe_extMem p = bool_decide (c_dd p = usingExtDict) || bool_decide (c_dd p = usingDictCtx))
    as Hem by done.
  destruct (c_dd p) eqn:Edd; simpl in Hem.
  1,2: apply wp_ret, HQ; split; [lia|]; split; [done|]; intros Hp;
    pose proof (passes_near k e ltac:(lia) ltac:(lia) Hp) as Hn; destruct Hp as [Hp1 _];
    exists (e - c_startIndex p + hlen); split; [|unfold idx; split; [lia|congruence]];
    unfold match_at, low_ok, Lz4CompressInv.addr; rewrite Hem; simpl; unfold idx in *;
    (assert (c_startIndex p - hlen <= e) by
       (destruct Hor as [?|[?|[?|[[Hs ?]|[? _]]]]]; [lia|congruence|lia|specialize (Hp1 Hs); lia|lia]));
    split; [lia|]; split; [lia|]; split; [unfold c_base; lia|by apply Hlow].
  - destruct (dictEnd_base Hem) as [_ Eb]. rewrite Edd in Eb. simpl in Eb. zcase; apply wp_ret, HQ.
    + rewrite Eb. replace (c_dictionary p + hlen - c_startIndex p + e)
        with (c_dictionary p + (e - c_startIndex p + hlen)) by lia.
      apply cand_dictionary; [done|lia|lia| |lia].
      destruct Hor as [?|[?|[?|[?|[? H4]]]]]; [lia|congruence|by left|right; by left|].
      right. right. split; [done|by apply H4].
    + apply cand_source; [done|lia|lia].
  - destruct (dictEnd_base Hem) as [_ Eb]. rewrite Edd in Eb. simpl in Eb.
    destruct (ce_dictctx _ _ _ _ _ Henv Edd) as (Ett & Ho & Hw & Hd). rewrite Ett in Hh. zcase.
    + apply wp_bind, wp_LZ4_getIndexOnHash; [by left|done|]. specialize (Hd h Hh).
      pose proof (entry_range (c_dictTable p) byU32 h ltac:(by left) Hw) as Hr.
      unfold entry_max in Hr. set (e' := entry (c_dictTable p) byU32 h) in *.
      apply wp_ret, HQ. unfold c_dictDelta. rewrite Edd. simpl.
      assert (e' < c_dictOffset p) as He' by (destruct Hd as [?|[? ?]]; lia).
      rewrite (u32_small (c_startIndex p - c_dictOffset p)), u32_small by lia.
      rewrite Eb. replace (c_dictionary p + hlen - c_dictOffset p + e') with
        (c_dictionary p + (e' + (c_startIndex p - c_dictOffset p) - c_startIndex p + hlen)) by lia.
      apply cand_dictionary; [done|lia|unfold idx in *; lia| |lia].
      unfold Lz4CompressInv.hlen. destruct Hd as [?|[? ?]]; [left; lia|right; right; lia].
    + apply wp_ret, HQ, cand_source; [done|lia|lia].
Qed.

(** * The search loop *)

(** The [n] bytes at indexes [k] and [j] are equal. *)
Definition deq (k j n : Z) : Prop := forall i, 0 <= i < n -> dget (j + i) = dget (k + i).

Lemma wp_read32_both {A} k j (f : Z -> Z -> M A) Q m :
  mframe m -> segment j 4 -> segment k 4 ->
  (forall a b, (a = b -> deq k j 4) -> wp (f a b) Q m) ->
  wp (a ← LZ4_read32 (addr j); b ← LZ4_read32 (addr k); f a b) Q m.
Proof.
  intros Hf Hj Hk Hc.
  apply wp_bind, wp_LZ4_read32; [by eapply segment_readable|]. intros la Ha La Ba.
  apply wp_bind, wp_LZ4_read32; [by eapply segment_readable|]. intros lb Hb Lb Bb.
  apply Hc. intros E i Hi.
  assert (la = lb) as <-.
  { rewrite <- (le_bytes_val la), <- (le_bytes_val lb) by done. f_equal; [zn|done]. }
  rewrite <- (segment_get _ _ _ _ _ Henv m j 4 i), <- (segment_get _ _ _ _ _ Henv m k 4 i) by done.
  rewrite (holds_at _ _ _ _ Ha), (holds_at _ _ _ _ Hb) by lia. f_equal. lia.
Qed.

(** What a match found for the anchor [a] satisfies. *)
Definition found_ok (a : Z) (f : found) : Prop :=
  exists k j, f_ip f = addr k /\ a < k <= dlen - 12 /\ match_at k j (f_lowLimit f) (f_match f) /\
    deq k j 4 /\ (ext -> f_offset f = k - j) /\ (ext -> j < hlen -> j + 4 <= hlen) /\
    tbl_inv (f_tbl f) (k + 1).

Definition search_post (a : Z) (r : option found * table) : Prop :=
  match r.1 with
  | None => tbl_inv r.2 dlen
  | Some f => found_ok a f /\ r.2 = f_tbl f
  end.

Definition search_inv (a : Z) (s : sstate) : Prop :=
  exists k, s_forwardIp s = addr k /\ a < k <= dlen - 11 /\ hlen <= a /\ 1 <= s_step s /\
    64 <= s_searchMatchNb s /\ s_forwardH s = hash_bytes (c_tt p) (tail_at k) /\
    (c_maybe_extMem p = false -> s_lowLimit s = c_source p - hlen) /\ tbl_inv (s_tbl s) k.

Lemma shiftr6_pos n : 64 <= n -> 1 <= Z.shiftr n LZ4_skipTrigger.
Proof.
  intros Hn. change LZ4_skipTrigger with 6. rewrite Z.shiftr_div_pow2 by lia.
  apply Z.div_le_lower_bound; lia.
Qed.

(** The two rejections of the code are the failures of [passes]. *)
Lemma passes_intro k mi :
  0 <= mi < idx k -> hlen <= k <= dlen - 12 ->
  bool_decide (c_di p = dictSmall) && (mi <? c_prefixIdxLimit p) = false ->
  (negb (bool_decide (c_tt p = byU16)) || (LZ4_DISTANCE_MAX <? LZ4_DISTANCE_ABSOLUTE_MAX))
    && (u32 (mi + LZ4_DISTANCE_MAX) <? idx k) = false -> passes k mi.
Proof.
  intros Hmi Hk H1 H2. pose proof (idx_range k Hk) as [_ Hi]. cenv. split.
  - intros Hs. rewrite Hs in H1. simpl in H1. unfold c_prefixIdxLimit in H1.
    rewrite (ce_dsize _ _ _ _ _ Henv) in H1. pose proof (ce_small _ _ _ _ _ Henv Hs).
    pose proof (hlen_nonneg hist). unfold Lz4CompressInv.hlen in *.
    rewrite u32_small in H1 by lia. apply Z.ltb_ge in H1. lia.
  - revert H2. change (LZ4_DISTANCE_MAX <? LZ4_DISTANCE_ABSOLUTE_MAX) with false.
    clear H1; case_bool_decide; [intros _; by left|]. simpl. change LZ4_DISTANCE_MAX with 65535.
    rewrite u32_small by lia. intros Hd%Z.ltb_ge. by right.
Qed.

Lemma u32_idx k : hlen <= k <= dlen - 11 -> u32 (addr k - c_base p) = idx k.
Proof.
  intros Hk. cenv. rewrite addr_input by lia. unfold c_base, idx. rewrite u32_small; lia.
Qed.

Lemma cand_segment k j low mtch :
  match_at k j low mtch -> k <= dlen - 12 -> (ext -> j < hlen -> j + 4 <= hlen) -> segment j 4.
Proof. intros (Hj & _) Hk H4. split; [lia|]. split; [lia|done]. Qed.

Lemma wp_search_index_step a off s m :
  mframe m -> search_inv a s ->
  wp (search_index_step p off s) (fun r m' => m' = m /\
    match r with
    | inl s' => search_inv a s' /\ c_iend p - s_forwardIp s' < c_iend p - s_forwardIp s
    | inr r => search_post a r
    end) m.
Proof.
  intros Hf (k & Eip & Hk & Ha & Hstep & Hnb & Eh & Hlow & Ht). unfold search_index_step.
  pose proof (ce_tt _ _ _ _ _ Henv) as Htt. cenv.
  pose proof (hash_in_table (c_tt p) (tail_at k) Htt) as Hin. rewrite <- Eh in Hin.
  apply wp_bind, wp_LZ4_getIndexOnHash; [done|done|]. rewrite Eip, u32_idx by lia.
  destruct (proj2 Ht _ Hin) as [He _].
  assert (c_mflimitPlusOne p = addr (dlen - 11)) as Emf.
  { rewrite addr_input by lia. unfold c_mflimitPlusOne, c_iend. change MFLIMIT with 12. lia. }
  assert (addr k + s_step s = addr (k + s_step s)) as Efw by (rewrite !addr_input by lia; lia).
  rewrite Emf, Efw.
  destruct (Z.ltb_spec (addr (dlen - 11)) (addr (k + s_step s))) as [Hl|Hl];
    rewrite !addr_input in Hl by lia.
  { apply wp_ret. split; [done|]. unfold search_post. simpl. eapply tbl_inv_mono; [done|lia]. }
  apply wp_bind, (wp_candidate k); [lia|done|done|done|]. intros mi mtch low Hc.
  apply wp_bind. eapply wp_hash_at; [done|done|lia|lia|].
  apply wp_bind, wp_LZ4_putIndexOnHash; [done|done|apply idx_range; lia|].
  pose proof (tbl_inv_put _ k (k + 1) _ (tbl_inv_mono _ _ (k + 1) Ht ltac:(lia)) ltac:(lia) ltac:(lia) Hin Eh) as Ht'.
  set (tbl' := set_entry (s_tbl s) (c_tt p) (s_forwardH s) (idx k)) in *.
  set (s' := SState _ _ _ _ _ _).
  assert (search_inv a s' /\ c_iend p - s_forwardIp s' < c_iend p - addr k) as Hs'.
  { subst s'. simpl. split; [|rewrite !addr_input by lia; lia].
    exists (k + s_step s). simpl. split; [done|]. split; [lia|]. split; [done|].
    split; [by apply shiftr6_pos|]. split; [lia|]. split; [done|]. split; [apply Hc|].
    eapply tbl_inv_mono; [done|lia]. }
  destruct Hc as (Hmi & _ & Hc). wif; [by apply wp_ret|].
  wif; [by apply wp_ret|].
  pose proof (passes_intro k mi Hmi ltac:(lia) E E0) as Hp.
  destruct (Hc Hp) as (j & HM & Hoff & H4). pose proof HM as (_ & Hd & -> & _).
  apply wp_read32_both; [done|eapply cand_segment; [exact HM|lia|done]|apply segment_input; lia|].
  intros x y Hxy. wif; apply wp_ret; split; try done.
  split; [|done]. exists k, j. simpl. split; [done|]. split; [lia|]. split; [done|].
  split; [by apply Hxy|]. split; [|split; done]. intros He'. rewrite He'.
  pose proof (idx_range k ltac:(lia)) as [_ ?]. rewrite u32_small; lia.
Qed.

Lemma wp_search a k st m :
  mframe m -> k_ip st = addr k -> a < k <= dlen - 11 -> hlen <= a ->
  k_forwardH st = hash_bytes (c_tt p) (tail_at k) -> tbl_inv (k_tbl st) k ->
  (c_maybe_extMem p = false -> k_lowLimit st = c_source p - hlen) ->
  wp (search p st) (fun r m' => m' = m /\ search_post a r) m.
Proof.
  intros Hf Eip Hk Ha Eh Ht Hlow. unfold search. cenv.
  assert (forall (A : Type) (x y : A), match c_tt p with byPtr => x | _ => y end = y) as Htt.
  { intros A x y. by destruct (ce_tt _ _ _ _ _ Henv) as [-> | ->]. }
  rewrite Htt.
  apply (wp_loop (fun s m' => m' = m /\ search_inv a s) (fun s => c_iend p - s_forwardIp s)).
  - intros s m' [-> Hs]. split.
    + destruct Hs as (k' & -> & Hk' & ? & _). rewrite addr_input by lia. unfold c_iend. lia.
    + eapply wp_mono; [by apply wp_search_index_step|]. intros [s'|r] m' [-> Hr]; [destruct Hr; done|done].
  - split; [done|]. exists k. simpl. split; [done|]. split; [lia|]. split; [done|].
    split; [lia|]. split; [|done]. change LZ4_skipTrigger with 6.
    rewrite Z.shiftl_mul_pow2 by lia. pose proof (ce_accel _ _ _ _ _ Henv). lia.
  - simpl. rewrite Eip, addr_input by lia. unfold c_iend. lia.
Qed.

(** * Catching up *)

Lemma match_back k j low mtch :
  match_at k j low mtch -> low < mtch -> match_at (k - 1) (j - 1) low (mtch - 1).
Proof.
  intros (Hj & Hd & -> & Hlow) Hlt. cenv. unfold match_at, low_ok, Lz4CompressInv.addr in *.
  destruct (c_maybe_extMem p); simpl in *.
  - destruct (Z.ltb_spec j hlen); subst low; destruct (Z.ltb_spec (j - 1) hlen); lia.
  - subst low. lia.
Qed.

(** The match of length [n] extended backwards to [k'], no further than the
    anchor. *)
Definition caught_up (a k j low n : Z) (q : Z * Z) : Prop :=
  exists k' j', q.1 = addr k' /\ a <= k' <= k /\ match_at k' j' low q.2 /\
    k - j = k' - j' /\ deq k' j' (k - k' + n).

Lemma deq_back k j n : deq k j n -> dget (j - 1) = dget (k - 1) -> deq (k - 1) (j - 1) (n + 1).
Proof.
  intros Hd He i Hi. destruct (Z.eq_dec i 0) as [->|Hne].
  - by rewrite !Z.add_0_r.
  - specialize (Hd (i - 1) ltac:(lia)).
    by replace (j - 1 + i) with (j + (i - 1)) by lia; replace (k - 1 + i) with (k + (i - 1)) by lia.
Qed.

(** The bytes in front of a position and of its match. *)
Lemma prev_bytes k j low mtch m :
  mframe m -> match_at k j low mtch -> low < mtch -> hlen < k <= dlen ->
  exists x y, m !! (addr k - 1) = Some x /\ m !! (mtch - 1) = Some y /\
    (x = y -> dget (j - 1) = dget (k - 1)).
Proof.
  intros Hf HM Hlt Hk. destruct (match_back _ _ _ _ HM Hlt) as (Hj & _ & -> & _).
  destruct (dget_byte _ _ _ _ _ Henv (k - 1)) as (x & Ex & _); [lia|].
  destruct (dget_byte _ _ _ _ _ Henv (j - 1)) as (y & Ey & _); [lia|].
  exists x, y. rewrite <- Ex, <- Ey.
  rewrite <- !(dget_addr _ _ _ _ _ Henv m) by (done || lia). split; [|split; [done|]].
  - f_equal. rewrite !addr_input by lia. lia.
  - rewrite !(dget_addr _ _ _ _ _ Henv m) by (done || lia). congruence.
Qed.

Lemma wp_catch_up a k j low mtch n m :
  mframe m -> match_at k j low mtch -> deq k j n -> hlen <= a < k -> k <= dlen ->
  wp (catch_up (addr a) low (addr k) mtch) (fun q m' => m' = m /\ caught_up a k j low n q) m.
Proof.
  intros Hf HM Hd Ha Hk. unfold catch_up.
  assert (caught_up a k j low n (addr k, mtch)) as H0.
  { exists k, j. simpl. replace (k - k + n) with n by lia. repeat split; try done; try lia; apply HM. }
  wif; [|by apply wp_ret].
  destruct (prev_bytes k j low mtch m) as (x & y & Hx & Hy & Hxy); [done|done|lia|lia|].
  apply wp_bind. eapply wp_loadb; [exact Hx|]. apply wp_bind. eapply wp_loadb; [exact Hy|].
  wif; [|by apply wp_ret].
  apply (wp_loop (fun q m' => m' = m /\ exists k' j', q = (addr k', addr j') /\ a < k' <= k /\
      match_at k' j' low (addr j') /\ low < addr j' /\ k - j = k' - j' /\
      deq k' j' (k - k' + n) /\ dget (j' - 1) = dget (k' - 1))
    (fun q => q.1 - addr a)).
  - clear HM Hd H0 Hx Hy Hxy. intros [ip mt] m' [-> (k' & j' & [= -> ->] & Hk' & HM & Hlt & Hkj & Hd & He)].
    assert (addr k' - 1 = addr (k' - 1)) as Ek by (rewrite !addr_input by lia; lia).
    split; [simpl; rewrite !addr_input by lia; lia|].
    pose proof (match_back _ _ _ _ HM Hlt) as HM1. pose proof HM1 as (_ & _ & Ej & _).
    rewrite Ek, Ej in *. pose proof (deq_back _ _ _ Hd He) as Hd1.
    replace (k - k' + n + 1) with (k - (k' - 1) + n) in Hd1 by lia.
    assert (caught_up a k j low n (addr (k' - 1), addr (j' - 1))) as HC.
    { exists (k' - 1), (j' - 1). simpl. repeat split; try done; try lia; apply HM1. }
    wif; [|by apply wp_ret]. apply andb_prop in E as [E1 E2].
    apply Z.ltb_lt in E1, E2. rewrite !addr_input in E1 by lia.
    destruct (prev_bytes (k' - 1) (j' - 1) low (addr (j' - 1)) m) as (x' & y' & Hx & Hy & Hxy);
      [done|done|lia|lia|].
    apply wp_bind. eapply wp_loadb; [exact Hx|]. apply wp_bind. eapply wp_loadb; [exact Hy|].
    apply wp_ret. zcase; [|done]. split.
    + split; [done|]. exists (k' - 1), (j' - 1). repeat split; try done; try lia; try apply HM1. auto.
    + simpl. rewrite !addr_input by lia. lia.
  - split; [done|]. pose proof HM as (_ & _ & -> & _). exists k, j.
    replace (k - k + n) with n by lia. repeat split; try done; try lia; try apply HM. auto.
  - simpl. rewrite !addr_input by lia. lia.
Qed.
End Search.
