(* ===== verification/Lz4CompressEncode.v ===== *)
(** The encoder of sequences writes the encoding of the block format. *)
From S2P Require Import Prelude.
From S2P Require Import Mem.
From S2P Require Import BlockFormat.
From S2P Require Import Lz4Common.
From S2P Require Import Lz4CommonSpec.
From S2P Require Import Lz4Decompress.
From S2P Require Import Lz4Compress.
From S2P Require Import Lz4CompressGeneric.
From S2P Require Import Lz4CountSpec.
From S2P Require Import Lz4CompressInv.
From S2P Require Import Lz4CompressSearch.

(** * Length fields *)

Lemma replicate_snoc (n : nat) (x : Z) : replicate (S n) x = replicate n x ++ [x].
Proof. by rewrite <- replicate_cons_app. Qed.

Lemma wp_put_length op n Q m :
  0 <= n -> mapped m op (n / 255 + 1) ->
  (forall m', frame op (op + (n / 255 + 1)) m m' -> holds m' op (ext_bytes n) ->
     Q (op + (n / 255 + 1)) m') ->
  wp (put_length op n) Q m.
Proof.
  intros Hn Hm HQ. unfold put_length.
  apply (wp_loop (fun q m' => exists i : nat, q = (op + Z.of_nat i, n - 255 * Z.of_nat i) /\
      255 * Z.of_nat i <= n /\ frame op (op + (n / 255 + 1)) m m' /\ holds m' op (replicate i 255))
    (fun q => q.2)).
  2: { exists 0%nat. rewrite Z.add_0_r, Z.mul_0_r, Z.sub_0_r. split; [done|]. split; [lia|].
       split; [apply frame_refl|apply holds_nil]. }
  2: simpl; lia.
  intros [o l] m' (i & [= -> ->] & Hi & Hf & Hh). split; [simpl; lia|].
  pose proof (Z.div_mod n 255 ltac:(lia)). pose proof (Z.mod_pos_bound n 255 ltac:(lia)).
  assert (mapped m' (op + Z.of_nat i) 1) as Hm1.
  { eapply mapped_sub; [eapply frame_mapped; [exact Hf|exact Hm]|lia|lia]. }
  assert (zlen (replicate i 255) = Z.of_nat i) as Hz by apply zlen_replicate.
  zcase; apply wp_bind, wp_storeb_frame; try done; intros m2 Hf2 Hb2; apply wp_ret;
    rewrite <- Hz in Hf2, Hb2; pose proof (holds_snoc _ _ _ _ _ _ Hh Hf2 Hb2) as Hh2;
    apply (frame_weaken _ _ op (op + (n / 255 + 1))) in Hf2; try lia;
    pose proof (frame_trans _ _ _ _ _ Hf Hf2) as Hf3.
  - split; [|simpl; lia]. exists (S i). rewrite replicate_snoc. split; [f_equal; lia|].
    split; [lia|]. split; [exact Hf3|exact Hh2].
  - assert (n / 255 = Z.of_nat i) as Ed by lia.
    replace (op + Z.of_nat i + 1) with (op + (n / 255 + 1)) by lia. apply HQ; [exact Hf3|].
    unfold ext_bytes. rewrite Ed, Nat2Z.id.
    rewrite Hz in Hh2.
    replace (n mod 255) with (u8 (n - 255 * Z.of_nat i)) by (rewrite u8_small; lia). exact Hh2.
Qed.

(** The token and the length of a run of literals. *)
Lemma wp_put_literal_length token ll Q m :
  0 <= ll -> mapped m token (1 + zlen (len_ext ll)) ->
  (forall m', frame token (token + 1 + zlen (len_ext ll)) m m' ->
     holds m' token (16 * nibble ll :: len_ext ll) -> Q (token + 1 + zlen (len_ext ll)) m') ->
  wp (put_literal_length token (token + 1) ll) Q m.
Proof.
  intros Hll Hm HQ. unfold put_literal_length. change RUN_MASK with 15.
  assert (mapped m token 1) as Hm1 by (eapply mapped_sub; [exact Hm|lia|zlen_facts; lia]).
  zcase; apply wp_bind, wp_storeb_frame; try done; intros m1 Hf1 Hb1.
  - assert (zlen (len_ext ll) = (ll - 15) / 255 + 1) as Hz.
    { rewrite zlen_len_ext by lia. by destruct (Z.ltb_spec ll 15); [lia|]. }
    assert (0 <= (ll - 15) / 255) by (apply Z.div_pos; lia).
    rewrite Hz in *. apply wp_put_length; [lia| |].
    { eapply frame_mapped; [exact Hf1|]. eapply mapped_sub; [exact Hm|lia|lia]. }
    intros m2 Hf2 Hb2. replace (token + 1 + ((ll - 15) / 255 + 1))
      with (token + 1 + zlen (len_ext ll)) by lia. 
    replace (u8 (Z.shiftl 15 ML_BITS)) with (16 * nibble ll) in Hb1
      by (unfold nibble; rewrite Z.min_r by lia; done).
    rewrite Hz. apply HQ.
    + eapply frame_trans; (eapply frame_weaken; [eassumption|lia|lia]).
    + replace (16 * nibble ll :: len_ext ll) with ([16 * nibble ll] ++ len_ext ll) by done.
      eapply holds_snoc; [exact Hb1|rewrite zlen_cons, zlen_nil; exact Hf2|].
      unfold len_ext. destruct (Z.ltb_spec ll 15); [lia|]. by rewrite zlen_cons, zlen_nil.
  - apply wp_ret. unfold len_ext in *. destruct (Z.ltb_spec ll 15); [|lia].
    rewrite zlen_nil, Z.add_0_r in *. apply HQ; [done|].
    replace (u8 (Z.shiftl ll ML_BITS)) with (16 * nibble ll) in Hb1; [done|].
    change ML_BITS with 4. rewrite Z.shiftl_mul_pow2 by lia. unfold nibble.
    rewrite u8_small; lia.
Qed.

(** * Match lengths *)

Lemma wp_write_ff op Q m :
  mapped m op 4 ->
  (forall m', frame op (op + 4) m m' -> holds m' op (replicate 4 255) -> Q tt m') ->
  wp (LZ4_write32 op 0xFFFFFFFF) Q m.
Proof.
  intros Hm HQ. change (LZ4_write32 op 0xFFFFFFFF) with (store_bytes op (replicate 4 255)).
  apply wp_store_bytes_holds; [done|]. exact HQ.
Qed.

(** The loop that stores 4 bytes at a time. *)
Lemma wp_ff_loop op n Q m :
  0 <= n -> mapped m op (n / 255 + 4) -> holds m op (replicate 4 255) ->
  (forall m' o l, frame op (op + (n / 255 + 4)) m m' -> o + l / 255 = op + n / 255 ->
     l mod 255 = n mod 255 -> 0 <= l < 1020 ->
     holds m' op (replicate (Z.to_nat (n / 255)) 255) -> Q (o, l) m') ->
  wp (loop (S (Z.to_nat n))
    (fun q => let '(op, matchCode) := q in
       if 4 * 255 <=? matchCode then
         LZ4_write32 (op + 4) 0xFFFFFFFF;; mret (inl (op + 4, matchCode - 4 * 255))
       else mret (inr (op, matchCode))) (op, n)) Q m.
Proof.
  intros Hn Hm Hh0 HQ.
  apply (wp_loop (fun q m' => exists i : nat, q = (op + 4 * Z.of_nat i, n - 1020 * Z.of_nat i) /\
      1020 * Z.of_nat i <= n /\ frame op (op + (n / 255 + 4)) m m' /\
      holds m' op (replicate (4 * i + 4) 255)) (fun q => q.2)).
  2: { exists 0%nat. rewrite !Z.mul_0_r, Z.add_0_r, Z.sub_0_r. split; [done|]. split; [lia|].
       split; [apply frame_refl|done]. }
  2: simpl; lia.
  intros [o l] m' (i & [= -> ->] & Hi & Hf & Hh). split; [simpl; lia|].
  pose proof (Z.div_mod n 255 ltac:(lia)) as Hd. pose proof (Z.mod_pos_bound n 255 ltac:(lia)) as Hmb.
  assert (zlen (replicate (4 * i + 4) 255) = 4 * Z.of_nat i + 4) as Hz by (rewrite zlen_replicate; lia).
  zcase.
  - apply wp_bind, wp_write_ff.
    { eapply mapped_sub; [eapply frame_mapped; [exact Hf|exact Hm]|lia|lia]. }
    intros m2 Hf2 Hb2. apply wp_ret. split; [|simpl; lia]. exists (S i).
    replace (op + 4 * Z.of_nat i + 4) with (op + zlen (replicate (4 * i + 4) 255)) in Hf2, Hb2 by lia.
    split; [f_equal; lia|]. split; [lia|]. split.
    + eapply frame_trans; [exact Hf|]. eapply frame_weaken; [exact Hf2|lia|lia].
    + replace (4 * S i + 4)%nat with (4 * i + 4 + 4)%nat by lia.
      rewrite replicate_add. eapply holds_snoc; [exact Hh|exact Hf2|exact Hb2].
  - apply wp_ret.
    assert (n / 255 = 4 * Z.of_nat i + (n - 1020 * Z.of_nat i) / 255) as Ed.
    { replace n with (n - 1020 * Z.of_nat i + 4 * Z.of_nat i * 255) at 1 by lia.
      rewrite Z.div_add by lia. lia. }
    assert (0 <= (n - 1020 * Z.of_nat i) / 255 < 4) by (Z.div_mod_to_equations; lia).
    apply HQ; [done|lia| |lia|].
    + replace n with (n - 1020 * Z.of_nat i + 4 * Z.of_nat i * 255) at 2 by lia.
      by rewrite Z.mod_add by lia.
    + apply (holds_take _ _ _ (Z.to_nat (n / 255))) in Hh.
      rewrite take_replicate in Hh. by replace (Z.to_nat (n / 255) `min` (4 * i + 4))%nat
        with (Z.to_nat (n / 255)) in Hh by lia.
Qed.

(** The low half of the token [t] and the length of the match. *)
Lemma wp_put_match_length token op t mc Q m :
  0 <= mc -> holds m token [16 * t] -> 0 <= t < 16 -> token < op ->
  mapped m op (if mc <? 15 then 0 else zlen (len_ext mc) + 3) ->
  (forall m', (forall i, i <> token -> ~ (op <= i < op + (if mc <? 15 then 0 else zlen (len_ext mc) + 3)) ->
       m' !! i = m !! i) -> (forall i, is_Some (m !! i) -> is_Some (m' !! i)) ->
     holds m' token [16 * t + nibble mc] -> holds m' op (len_ext mc) ->
     Q (op + zlen (len_ext mc)) m') ->
  wp (put_match_length token op mc) Q m.
Proof.
  intros Hmc Ht Htr Hto Hm HQ. unfold put_match_length. change ML_MASK with 15.
  pose proof Ht as [Et _]%holds_cons. apply wp_bind. eapply wp_loadb; [exact Et|].
  assert (mapped m token 1) as Hmt by (apply holds_mapped in Ht; done). unfold len_ext in *.
  destruct (Z.ltb_spec mc 15) as [Hlt|Hge].
  - destruct (Z.leb_spec 15 mc); [lia|]. apply wp_bind, wp_storeb_frame; [done|].
    intros m1 [Hf1 Hf1'] Hb1. apply wp_ret. rewrite <- (Z.add_0_r op) at 1.
    apply HQ; [|done| |apply holds_nil].
    + intros i Hi _. apply Hf1. lia.
    + replace (16 * t + nibble mc) with (u8 (16 * t + u8 mc)); [done|].
      unfold nibble. rewrite (u8_small mc), u8_small by lia. lia.
  - destruct (Z.leb_spec 15 mc); [|lia]. set (n := mc - 15) in *.
    assert (zlen (ext_bytes n) = n / 255 + 1) as Hz by (apply zlen_ext_bytes; lia).
    assert (0 <= n / 255) by (apply Z.div_pos; lia). rewrite Hz in *.
    apply wp_bind, wp_storeb_frame; [done|]. intros m1 Hf1 Hb1.
    assert (mapped m1 op (n / 255 + 4)) as Hm1.
    { eapply frame_mapped; [exact Hf1|]. eapply mapped_sub; [exact Hm|lia|lia]. }
    apply wp_bind, wp_write_ff; [eapply mapped_sub; [exact Hm1|lia|lia]|]. intros m2 Hf2 Hb2.
    apply wp_bind, wp_ff_loop; [lia|by eapply frame_mapped|done|].
    intros m3 o l Hf3 Eo El Hl Hb3. rewrite Eo, El.
    assert (mapped m3 op (n / 255 + 4)) as Hm3.
    { eapply frame_mapped; [exact Hf3|]. by eapply frame_mapped. }
    apply wp_bind, wp_storeb_frame; [eapply mapped_sub; [exact Hm3|lia|lia]|]. intros m4 Hf4 Hb4.
    apply wp_ret. replace (op + n / 255 + 1) with (op + (n / 255 + 1)) by lia.
    assert (frame op (op + (n / 255 + 4)) m1 m4) as Hf.
    { eapply frame_trans; [eapply frame_weaken; [exact Hf2|lia|lia]|].
      eapply frame_trans; [exact Hf3|]. eapply frame_weaken; [exact Hf4|lia|lia]. }
    apply HQ.
    + intros i Hi Hni. destruct Hf as [Hf _]. rewrite Hf by lia. destruct Hf1 as [Hf1 _]. apply Hf1. lia.
    + intros i Hi. apply Hf, Hf1, Hi.
    + replace (16 * t + nibble mc) with (u8 (16 * t + 15))
        by (unfold nibble; rewrite u8_small; lia).
      eapply frame_holds; [exact Hf|rewrite zlen_cons, zlen_nil; lia|done].
    + unfold ext_bytes. assert (zlen (replicate (Z.to_nat (n / 255)) 255) = n / 255) as Hzr
        by (rewrite zlen_replicate; lia). rewrite <- Hzr in Hf4, Hb4.
      eapply holds_snoc; [exact Hb3|exact Hf4|]. rewrite Hzr in *.
      rewrite u8_small in Hb4; [done|]. pose proof (Z.mod_pos_bound n 255 ltac:(lia)). lia.
Qed.

Section MatchCode.
Context (p : cparams) (hist inp : list Z) (m0 : mem) (lim : Z).
Context (Henv : comp_env p hist inp m0 lim).

Abbreviation hlen := (hlen hist).
Abbreviation dlen := (dlen hist inp).
Abbreviation addr := (addr p hist).
Abbreviation dget := (dget hist inp).
Abbreviation segment := (segment p hist inp).
Abbreviation mframe m := (frame (c_dest p) lim m0 m).
Abbreviation ext := (c_maybe_extMem p = true).
Abbreviation match_at := (match_at p hist).
Abbreviation deq := (deq hist inp).

(** [ml] is the length of the longest match of [k] at [j] that leaves the last
    5 bytes. *)
Definition longest (k j ml : Z) : Prop :=
  deq k j ml /\ k + ml <= dlen - 5 /\ (k + ml = dlen - 5 \/ dget (k + ml) <> dget (j + ml)).

(** Counting in memory is counting in the data. *)
Lemma common_prefix_deq m k j n c :
  mframe m -> segment k n -> segment j n -> common_prefix m (addr k) (addr j) n c ->
  0 <= c <= n /\ deq k j c /\ (c = n \/ dget (k + c) <> dget (j + c)).
Proof.
  intros Hf Hk Hj (Hc & He & Hd). split; [done|]. split.
  - intros i Hi. rewrite <- (segment_get _ _ _ _ _ Henv m k n), <- (segment_get _ _ _ _ _ Henv m j n)
      by (done || lia). symmetry. apply He. lia.
  - destruct (Z.eq_dec c n) as [->|Hne]; [by left|right]. destruct Hd as [?|Hd]; [lia|].
    rewrite <- (segment_get _ _ _ _ _ Henv m k n), <- (segment_get _ _ _ _ _ Henv m j n)
      by (done || lia). done.
Qed.

Lemma wp_count_deq k j n lim' Q m :
  mframe m -> segment k n -> segment j n -> 0 <= n < 2 ^ 32 -> lim' = addr k + n ->
  (forall c, 0 <= c <= n -> deq k j c -> (c = n \/ dget (k + c) <> dget (j + c)) -> Q c m) ->
  wp (LZ4_count (addr k) (addr j) lim') Q m.
Proof.
  intros Hf Hk Hj Hn -> HQ.
  apply wp_LZ4_count; [by eapply segment_readable|by eapply segment_readable|done|].
  intros c Hc. destruct (common_prefix_deq m k j n c) as (? & ? & ?); [done..|]. by apply HQ.
Qed.

Lemma deq_app k j a b : deq k j a -> deq (k + a) (j + a) b -> deq k j (a + b).
Proof.
  intros H1 H2 i Hi. destruct (Z.lt_ge_cases i a); [apply H1; lia|].
  specialize (H2 (i - a) ltac:(lia)).
  by replace (j + i) with (j + a + (i - a)) by lia; replace (k + i) with (k + a + (i - a)) by lia.
Qed.

Lemma dict_ne_source : ext -> c_source p <> c_dictionary p.
Proof. intros He. by destruct (ce_ext _ _ _ _ _ Henv He) as (_ & Hn & _). Qed.

Lemma wp_match_code k j low mtch Q m :
  mframe m -> match_at k j low mtch -> deq k j 4 -> hlen <= k <= dlen - 12 ->
  (ext -> j < hlen -> j + 4 <= hlen) ->
  (forall ml, 4 <= ml -> longest k j ml -> Q (ml - 4, addr (k + ml)) m) ->
  wp (match_code p low (addr k) mtch) Q m.
Proof.
  intros Hf (Hj & Hd & -> & Hlow) H4 Hk Hj4 HQ. unfold match_code.
  pose proof (dlen_eq _ _ _ _ _ Henv) as Hdl. pose proof (hlen_nonneg hist) as Hhl.
  pose proof (ce_max _ _ _ _ _ Henv) as Hmx. change LZ4_MAX_INPUT_SIZE with 2113929216 in Hmx.
  change MINMATCH with 4.
  assert (c_matchlimit p = addr (dlen - 5)) as Eml.
  { rewrite addr_input by lia. unfold c_matchlimit, c_iend. change LASTLITERALS with 5. lia. }
  assert (forall i, 0 <= i -> addr (k + i) = addr k + i) as Ak by (intros; rewrite !addr_input; lia).
  fold (c_maybe_extMem p). rewrite Eml. unfold low_ok in Hlow.
  destruct (c_maybe_extMem p && (j <? hlen)) eqn:Edict.
  - apply andb_prop in Edict as [He Hjl]. rewrite He, Hjl in *. apply Z.ltb_lt in Hjl.
    specialize (Hj4 eq_refl Hjl). subst low. rewrite Z.eqb_refl. simpl.
    destruct (dictEnd_base _ _ _ _ _ Henv He) as [-> _].
    assert (forall i, 0 <= i -> j + i < hlen -> addr (j + i) = addr j + i) as Aj.
    { intros i ? ?. apply addr_shift; lia. }
    assert (addr j = c_dictionary p + j) as Ej.
    { unfold Lz4CompressInv.addr. rewrite He. simpl. by destruct (Z.ltb_spec j hlen); [|lia]. }
    set (L := k + Z.min (hlen - j) (dlen - 5 - k)).
    assert (Z.min (addr k + (c_dictionary p + hlen - addr j)) (addr (dlen - 5)) = addr L) as ->.
    { subst L. rewrite Ej, !addr_input by lia. lia. }
    assert (forall n, 0 < n -> n + 4 <= hlen - j -> addr j + 4 = addr (j + 4)) as Aj4 by (intros; rewrite Aj; lia).
    apply wp_bind.
    eapply (wp_mono _ (fun c m' => m' = m /\ 0 <= c <= L - (k + 4) /\ deq (k + 4) (j + 4) c /\
      (c = L - (k + 4) \/ dget (k + 4 + c) <> dget (j + 4 + c)))).
    { rewrite <- Ak by lia. destruct (Z.eq_dec (j + 4) hlen) as [E|E].
      - replace (addr L) with (addr (k + 4) + 0) by (subst L; rewrite !addr_input by lia; lia).
        apply wp_LZ4_count; [intros i ?; lia|intros i ?; lia|lia|].
        intros c (Hc & _ & _). split; [done|]. split; [lia|]. split; [intros i ?; lia|left; lia].
      - rewrite (Aj4 1) by lia. apply (wp_count_deq _ _ (L - (k + 4))); [done| | | | |].
        + apply segment_input; lia.
        + split; [lia|]. split; [lia|]. intros _ _. lia.
        + lia.
        + subst L. rewrite !addr_input by lia. lia.
        + intros c Hc Hdq Hor. done. }
    intros c m' (-> & Hc & Hdq & Hor). rewrite <- Ak by lia.
    assert (deq k j (4 + c)) as Hdq1 by (by apply deq_app).
    destruct (Z.eqb_spec (addr (k + (c + 4))) (addr L)) as [EL|EL].
    + assert (k + (c + 4) = L) as EL' by (rewrite !addr_input in EL by lia; lia).
      assert (c_source p = addr hlen) as Es by (rewrite addr_input; lia). rewrite Es.
      apply wp_bind, (wp_count_deq _ _ (dlen - 5 - L)); [done| | |lia| |].
      * apply segment_input; lia.
      * apply segment_input; lia.
      * rewrite !addr_input by lia. lia.
      * intros c2 Hc2 Hdq2 Hor2. apply wp_ret.
        rewrite u32_small by lia.
        replace (c + c2) with (4 + c + c2 - 4) by lia.
        replace (addr (k + (c + 4)) + c2) with (addr (k + (4 + c + c2)))
          by (rewrite !addr_input by lia; lia).
        apply HQ; [lia|]. split; [|split; [lia|]].
        -- apply deq_app; [done|]. destruct (Z.eq_dec c2 0) as [->|Hne]; [intros i ?; lia|].
           replace (k + (4 + c)) with L by lia. by replace (j + (4 + c)) with hlen by lia.
        -- destruct (Z.eq_dec L (dlen - 5)) as [?|HL]; [left; lia|].
           destruct Hor2 as [?|Hor2]; [left; lia|right].
           replace (k + (4 + c + c2)) with (L + c2) by lia.
           by replace (j + (4 + c + c2)) with (hlen + c2) by lia.
    + apply wp_ret. replace (c, addr (k + (c + 4))) with (4 + c - 4, addr (k + (4 + c)))
        by (f_equal; [lia|f_equal; lia]).
      apply HQ; [lia|]. assert (k + (c + 4) <> L) as HL by congruence.
      split; [done|]. split; [lia|]. right. destruct Hor as [?|Hor]; [lia|].
      by rewrite !Z.add_assoc.
  - assert ((c_maybe_extMem p && (low =? c_dictionary p)) = false) as Eb.
    { destruct (c_maybe_extMem p) eqn:He; [|done]. simpl in *. rewrite Edict in Hlow. subst low.
      by apply Z.eqb_neq, dict_ne_source. }
    unfold c_maybe_extMem in Eb |- *. rewrite Eb.
    assert (ext -> hlen <= j) as Hjh.
    { intros He. rewrite He in Edict. simpl in Edict. by apply Z.ltb_ge in Edict. }
    assert (addr j + 4 = addr (j + 4)) as Aj.
    { symmetry. apply addr_shift; [intros He; specialize (Hjh He); lia|lia]. }
    rewrite Aj, <- Ak by lia.
    apply wp_bind, (wp_count_deq _ _ (dlen - 5 - (k + 4))); [done| | |lia| |].
    + apply segment_input; lia.
    + split; [lia|]. split; [lia|]. intros He. specialize (Hjh He). lia.
    + rewrite !addr_input by lia. lia.
    + intros c Hc Hdq Hor. apply wp_ret. rewrite <- Ak by lia.
      replace (c, addr (k + (c + 4))) with (4 + c - 4, addr (k + (4 + c)))
        by (f_equal; [lia|f_equal; lia]).
      apply HQ; [lia|]. split; [by apply deq_app|]. split; [lia|].
      destruct Hor as [?|Hor]; [left; lia|right]. by rewrite !Z.add_assoc.
Qed.
End MatchCode.

(** What the sequences emitted so far stand for, and the room they leave in
    the output. *)

(** * Sizes *)

(** The size of a length field beyond the token. *)
Lemma zlen_len_ext' n : 0 <= n -> zlen (len_ext n) = (n + 240) / 255.
Proof. intros Hn. rewrite zlen_len_ext by done. zcase; Z.div_mod_to_equations; lia. Qed.

(** A sequence is not longer than what it stands for, up to one byte in 255. *)
Lemma seq_size A ll mc :
  0 <= A -> 0 <= ll -> 0 <= mc ->
  A + A / 255 + (1 + (ll + 240) / 255 + ll + 2 + (mc + 240) / 255)
    <= (A + ll + (mc + 4)) + (A + ll + (mc + 4)) / 255.
Proof. intros. Z.div_mod_to_equations. lia. Qed.

Lemma last_size A L : 0 <= A -> 0 <= L ->
  A + A / 255 + 1 + (L + 240) / 255 + L <= A + L + (A + L) / 255 + 2.
Proof. intros. Z.div_mod_to_equations. lia. Qed.

(** The truncated last run of [fillOutput]. *)
Lemma fill_run r L :
  0 <= r -> 0 <= L -> r < L + (L + 240) / 255 ->
  let lr := r - (r + 241) / 256 in
  0 <= lr <= L /\ lr + (lr + 240) / 255 <= r /\ (5 <= r -> 5 <= lr) /\ (8 <= r -> 8 <= lr).
Proof. intros Hr HL Hlt lr. subst lr. Z.div_mod_to_equations. lia. Qed.

Lemma compressBound_eq n : 0 <= n <= LZ4_MAX_INPUT_SIZE -> LZ4_compressBound n = n + n / 255 + 16.
Proof.
  intros Hn. unfold LZ4_compressBound. change (u32 LZ4_MAX_INPUT_SIZE) with LZ4_MAX_INPUT_SIZE.
  change LZ4_MAX_INPUT_SIZE with 2113929216 in *. rewrite u32_small by lia.
  zcase; [lia|]. rewrite Z.quot_div_nonneg by lia. done.
Qed.

Section CompData.
Context (p : cparams) (hist inp : list Z) (m0 : mem) (lim : Z).
Context (Henv : comp_env p hist inp m0 lim).

Abbreviation data := (data hist inp).
Abbreviation hlen := (hlen hist).
Abbreviation dlen := (dlen hist inp).
Abbreviation addr := (addr p hist).
Abbreviation mframe m := (frame (c_dest p) lim m0 m).
Abbreviation deq := (deq hist inp).

(** * Slices of the data *)

Definition slice (a n : Z) : list Z := take (Z.to_nat n) (drop (Z.to_nat a) data).

Lemma slice_zlen a n : 0 <= a -> 0 <= n -> a + n <= dlen -> zlen (slice a n) = n.
Proof.
  intros. unfold slice, Lz4CompressInv.dlen in *. rewrite zlen_take; [lia|]. rewrite length_drop. zn.
Qed.

Lemma take_slice a n : 0 <= a -> 0 <= n ->
  take (Z.to_nat (a + n)) data = take (Z.to_nat a) data ++ slice a n.
Proof.
  intros. unfold slice. rewrite Z2Nat.inj_add by lia.
  by rewrite take_take_drop.
Qed.

Lemma slice_bytes a n : bytes_ok (slice a n).
Proof.
  unfold slice. apply Forall_take, Forall_drop. exact (ce_bytes _ _ _ _ _ Henv).
Qed.

Lemma slice_lookup a n i : 0 <= a -> 0 <= i < n -> a + n <= dlen ->
  slice a n !! Z.to_nat i = data !! Z.to_nat (a + i).
Proof.
  intros. unfold slice. rewrite lookup_take_lt, lookup_drop by lia. f_equal. lia.
Qed.

Lemma slice_holds m a n :
  mframe m -> hlen <= a -> 0 <= n -> a + n <= dlen -> holds m (addr a) (slice a n).
Proof.
  intros Hf Ha Hn Hle. pose proof (hlen_nonneg hist). apply holds_intro. intros i Hi.
  rewrite slice_zlen in Hi by lia. rewrite slice_lookup by lia.
  replace i with (addr (a + (i - addr a))) at 1 by (rewrite !addr_input by lia; lia).
  rewrite (dget_addr _ _ _ _ _ Henv) by (done || lia). done.
Qed.

(** A match of the data is what its sequence appends. *)
Lemma exec_match a k j ml :
  0 <= a <= k -> 0 <= j < k -> 0 <= ml -> k + ml <= dlen -> deq k j ml ->
  exec_seq (take (Z.to_nat a) data) (Seq (slice a (k - a)) (k - j) ml)
    = Some (take (Z.to_nat (k + ml)) data).
Proof.
  intros Ha Hj Hml Hle Hd. unfold exec_seq; simpl. rewrite <- take_slice by lia.
  replace (a + (k - a)) with k by lia.
  assert (zlen (take (Z.to_nat k) data) = k) as Hz.
  { rewrite zlen_take; [lia|]. unfold Lz4CompressInv.dlen in *. zn. }
  rewrite Hz. destruct (Z.leb_spec (k - j) k); [|lia]. f_equal.
  rewrite (take_slice k ml) by lia.
  replace (Z.to_nat ml) with (length (slice k ml)).
  2: { pose proof (slice_zlen k ml). zn. }
  apply match_copy_copy; [|lia]. intros i Hi. rewrite slice_zlen in Hi by lia.
  rewrite Hz, <- take_slice by lia. destruct (Z.eqb_spec (k - j) 0); [lia|].
  rewrite !lookup_take_lt by lia. specialize (Hd i Hi). unfold dget in Hd. rewrite <- Hd.
  f_equal. lia.
Qed.
End CompData.
