(* ===== verification/Lz4CompressProof.v ===== *)
(** The compressor preserves its invariant at every label, and what it returns
    is a conforming block that stands for the input. *)
From S2P Require Import Prelude.
From S2P Require Import Mem.
From S2P Require Import BlockFormat.
From S2P Require Import Lz4Common.
From S2P Require Import Lz4CommonSpec.
From S2P Require Import Lz4Decompress.
From S2P Require Import Lz4CountSpec.
From S2P Require Import Lz4Compress.
From S2P Require Import Lz4CompressGeneric.
From S2P Require Import Lz4CompressInv.
From S2P Require Import Lz4CompressSearch.
From S2P Require Import Lz4CompressEncode.

Section CompProof.
Context (p : cparams) (hist inp : list Z) (m0 : mem) (lim : Z).
Context (Henv : comp_env p hist inp m0 lim).

Abbreviation data := (data hist inp).
Abbreviation hlen := (hlen hist).
Abbreviation dlen := (dlen hist inp).
Abbreviation addr := (addr p hist).
Abbreviation dget := (dget hist inp).
Abbreviation segment := (segment p hist inp).
Abbreviation tail_at := (tail_at hist inp).
Abbreviation mframe m := (frame (c_dest p) lim m0 m).
Abbreviation ext := (c_maybe_extMem p = true).
Abbreviation match_at := (match_at p hist).
Abbreviation deq := (deq hist inp).
Abbreviation slice := (slice hist inp).
Abbreviation tbl_inv := (tbl_inv p hist inp).
Abbreviation idx := (idx p hist).

Ltac cenv :=
  pose proof (dlen_eq _ _ _ _ _ Henv) as Hdl; pose proof (hlen_nonneg hist) as Hhl;
  pose proof (ce_max _ _ _ _ _ Henv) as Hmx; change LZ4_MAX_INPUT_SIZE with 2113929216 in Hmx;
  change MINMATCH with 4 in *; change MFLIMIT with 12 in *; change LASTLITERALS with 5 in *;
  change RUN_MASK with 15 in *.

(** * Invariants *)

(** The room that the emitted sequences leave. *)
Definition cap_ok (a : Z) (done : list seq) (op : Z) : Prop :=
  op - c_dest p <= (a - hlen) + (a - hlen) / 255 /\
  match c_out p with
  | notLimited => True
  | limitedOutput => done <> [] -> op + 5 <= lim
  | fillOutput => op + 1 <= lim /\
      forall s, list.last done = Some s -> op + 6 <= lim /\ 13 <= s_mlen s + (lim - op)
  end.

(** The output up to [op] encodes the sequences [done], which stand for the
    data up to index [a]. *)
Definition seqs_inv (a : Z) (done : list seq) (op : Z) (m : mem) : Prop :=
  hlen <= a <= dlen /\ Forall seq_wf done /\ Forall (fun s => s_off s <> 0) done /\
  exec_seqs hist done = Some (take (Z.to_nat a) data) /\
  op = c_dest p + zlen (enc_seqs done) /\ op <= lim /\
  holds m (c_dest p) (enc_seqs done) /\ mframe m /\ cap_ok a done op /\
  (forall s, list.last done = Some s -> a <= dlen - 5 /\ a - s_mlen s <= dlen - 12).

(** What the compressor returns. *)
Definition comp_post (r : cresult) (m : mem) : Prop :=
  mframe m /\ tbl_inv (r_tbl r) dlen /\
  ((r_result r = 0 /\ c_out p = limitedOutput /\
    lim < c_dest p + LZ4_compressBound (c_inputSize p)) \/
   exists b n, block_wf b /\ end_ok (b_seqs b) (b_last b) /\
     Forall (fun s => s_off s <> 0) (b_seqs b) /\ b_nib b = 0 /\ 0 <= n <= c_inputSize p /\
     expand hist b = Some (take (Z.to_nat n) inp) /\ r_result r = zlen (enc_block b) /\
     holds m (c_dest p) (enc_block b) /\ r_result r <= lim - c_dest p /\
     (if bool_decide (c_out p = fillOutput) then r_consumed r = Some n
      else n = c_inputSize p /\ r_consumed r = None)).

Lemma out_mapped m a n : mframe m -> c_dest p <= a -> a + n <= lim -> mapped m a n.
Proof.
  intros Hf ? ?. eapply frame_mapped; [exact Hf|].
  eapply mapped_sub; [apply (ce_out _ _ _ _ _ Henv)|lia|lia].
Qed.

Lemma seqs_inv_frame a done op m m' :
  seqs_inv a done op m -> frame op lim m m' -> seqs_inv a done op m'.
Proof.
  intros (H1 & H2 & H3 & H4 & H5 & H6 & H7 & H8 & H9 & H10) Hf. zlen_facts.
  do 6 (split; [done|]). split; [eapply frame_holds; [exact Hf|lia|done]|].
  split; [|done]. eapply frame_trans; [exact H8|]. eapply frame_weaken; [exact Hf|lia|lia].
Qed.

(** * The last literals *)

Lemma wp_last_run {A} a done op L (f : Z -> M A) Q m :
  seqs_inv a done op m -> 0 <= L <= dlen - a -> op + 1 + (L + 240) / 255 + L <= lim ->
  (forall m', mframe m' -> holds m' (c_dest p) (enc_seqs done ++ enc_last (slice a L) 0) ->
     wp (f (op + 1 + (L + 240) / 255)) Q m') ->
  wp (op' ← put_literal_length op (op + 1) L; memcpy op' (addr a) L;; f op') Q m.
Proof.
  intros HS HL Hle Hc. pose proof HS as (Ha & _ & _ & _ & Eop & _ & Hh & Hf & _).
  cenv. zlen_facts. pose proof (Z.div_pos (L + 240) 255 ltac:(lia) ltac:(lia)).
  pose proof (zlen_len_ext' L ltac:(lia)) as Hz.
  apply wp_bind, wp_put_literal_length; [lia|eapply out_mapped; [done|lia|lia]|].
  rewrite Hz. intros m1 Hf1 Hb1.
  assert (mframe m1) as Hfm.
  { eapply frame_trans; [exact Hf|]. eapply frame_weaken; [exact Hf1|lia|lia]. }
  set (op' := op + 1 + (L + 240) / 255) in *.
  pose proof (slice_holds _ _ _ _ _ Henv m1 a L Hfm ltac:(lia) ltac:(lia) ltac:(lia)) as Hs.
  pose proof (slice_zlen hist inp a L ltac:(lia) ltac:(lia) ltac:(lia)) as Hsz.
  assert (mapped m1 (addr a) L) as Hms by (rewrite <- Hsz; by apply holds_mapped).
  apply wp_bind, wp_memcpy; [lia|done| | |].
  - eapply out_mapped; [done|lia|lia].
  - rewrite addr_input by lia. pose proof (ce_disj _ _ _ _ _ Henv) as Hd.
    unfold c_iend in Hd. pose proof (ce_size _ _ _ _ _ Henv). lia.
  - intros m2 Hcp. pose proof (copied_frame _ _ _ _ _ Hcp Hms) as Hf2. apply Hc.
    + eapply frame_trans; [exact Hfm|]. eapply frame_weaken; [exact Hf2|lia|lia].
    + unfold enc_last. rewrite Hsz.
      replace (16 * nibble L + 0) with (16 * nibble L) by lia. simpl app.
      assert (zlen (16 * nibble L :: len_ext L) = 1 + (L + 240) / 255) as Hz1
        by (rewrite zlen_cons; lia).
      rewrite Eop in Hf1, Hb1. pose proof (holds_snoc _ _ _ _ _ _ Hh Hf1 Hb1) as Hh1.
      rewrite app_comm_cons, app_assoc.
      eapply holds_snoc; [exact Hh1|rewrite zlen_app, Hz1|rewrite zlen_app, Hz1].
      * replace (c_dest p + (zlen (enc_seqs done) + (1 + (L + 240) / 255))) with op' by lia. exact Hf2.
      * replace (c_dest p + (zlen (enc_seqs done) + (1 + (L + 240) / 255))) with op' by lia.
        eapply copied_holds; [exact Hcp|lia|exact Hs].
Qed.

Lemma take_data a L : hlen <= a -> 0 <= L ->
  take (Z.to_nat a) data ++ slice a L = hist ++ take (Z.to_nat (a + L - hlen)) inp.
Proof.
  intros Ha HL. pose proof (hlen_nonneg hist). rewrite <- take_slice by lia.
  unfold Lz4CompressInv.data. rewrite take_app. unfold Lz4CompressInv.hlen in *.
  rewrite take_ge by zn. do 2 f_equal. zn.
Qed.

(** The block that ends with a run of [L] literals. *)
Lemma last_block a done op L m :
  seqs_inv a done op m -> 0 <= L <= dlen - a ->
  (forall s, list.last done = Some s -> 5 <= L /\ 12 <= s_mlen s + L) ->
  let b := Block done (slice a L) 0 in
  block_wf b /\ end_ok (b_seqs b) (b_last b) /\ Forall (fun s => s_off s <> 0) (b_seqs b) /\
  expand hist b = Some (take (Z.to_nat (a + L - hlen)) inp).
Proof.
  intros (Ha & Hw & Ho & Hx & _) HL Hend b. cenv.
  split; [|split; [|split]].
  - split; [done|]. split; [apply (slice_bytes _ _ _ _ _ Henv)|simpl; lia].
  - unfold end_ok. simpl. destruct (list.last done) as [s|] eqn:E; [|done].
    rewrite slice_zlen by lia. by apply Hend.
  - done.
  - apply expand_spec. exists (take (Z.to_nat a) data). split; [done|]. simpl. apply take_data; lia.
Qed.

Lemma last_zlen a done op L m :
  seqs_inv a done op m -> 0 <= L <= dlen - a ->
  zlen (enc_block (Block done (slice a L) 0)) = op + 1 + (L + 240) / 255 + L - c_dest p.
Proof.
  intros (Ha & _ & _ & _ & -> & _) HL. cenv. unfold enc_block, enc_last. simpl.
  rewrite zlen_app, zlen_cons, zlen_app, slice_zlen, zlen_len_ext' by lia. lia.
Qed.

(** The size of a result fits in an [int]. *)
Lemma result_fits a done op L m :
  seqs_inv a done op m -> 0 <= L <= dlen - a -> op + 1 + (L + 240) / 255 + L <= lim ->
  0 <= op + 1 + (L + 240) / 255 + L - c_dest p <= int_max.
Proof.
  intros (Ha & _ & _ & _ & Eop & _ & _ & _ & Hcap & _) HL Hle. cenv. zlen_facts.
  pose proof (Z.div_pos (L + 240) 255 ltac:(lia) ltac:(lia)). split; [lia|].
  pose proof (ce_lim _ _ _ _ _ Henv) as Hl. pose proof (ce_cap _ _ _ _ _ Henv).
  unfold cap_ok, c_olimit, int_max in *. destruct (c_out p); [|lia|lia].
  pose proof (last_size (a - hlen) L ltac:(lia) ltac:(lia)). Z.div_mod_to_equations. lia.
Qed.

(** The end of the compression with a last run of [L] literals. *)
Lemma wp_finish a done op L rc st Q m :
  seqs_inv a done op m -> 0 <= L <= dlen - a -> op + 1 + (L + 240) / 255 + L <= lim ->
  (forall s, list.last done = Some s -> 5 <= L /\ 12 <= s_mlen s + L) ->
  (c_out p <> fillOutput -> L = dlen - a) -> tbl_inv (k_tbl st) dlen ->
  rc = (if bool_decide (c_out p = fillOutput) then Some (s32 (addr a + L - c_source p)) else None) ->
  (forall r m', comp_post r m' -> Q (inr r) m') ->
  wp (op' ← put_literal_length op (op + 1) L;
      memcpy op' (addr a) L;;
      mret (inr (CResult (s32 (op' + L - c_dest p)) rc (k_tbl st)) : cnext)) Q m.
Proof.
  intros HS HL Hle Hend Hnf Ht -> HQ. pose proof HS as (Ha & _). cenv.
  apply (wp_last_run a done); [done|lia|lia|]. intros m' Hf' Hh'. apply wp_ret, HQ.
  destruct (last_block a done op L m HS HL Hend) as (Hb & He & Hg & Hx).
  pose proof (last_zlen a done op L m HS HL) as Hz.
  pose proof (result_fits a done op L m HS HL Hle) as Hr. unfold int_max in Hr.
  split; [done|]. split; [done|]. right. exists (Block done (slice a L) 0), (a + L - hlen).
  simpl r_result. rewrite s32_small by (unfold int_min, int_max; lia).
  do 4 (split; [done|]). split; [lia|]. split; [done|]. split; [lia|]. split; [done|].
  split; [lia|]. case_bool_decide as Ho; simpl.
  - rewrite addr_input by lia. rewrite s32_small by (unfold int_min, int_max; lia). f_equal. lia.
  - specialize (Hnf Ho). split; [lia|done].
Qed.

Lemma wp_last_literals a done st Q m :
  seqs_inv a done (k_op st) m -> k_anchor st = addr a -> tbl_inv (k_tbl st) dlen ->
  (forall r m', comp_post r m' -> Q (inr r) m') ->
  wp (last_literals_body p st) Q m.
Proof.
  intros HS Ea Ht HQ. pose proof HS as (Ha & Hw & _ & _ & Eop & Hop & _ & Hf & Hcap & Hlast).
  unfold last_literals_body. cenv. rewrite Ea.
  assert (c_iend p - addr a = dlen - a) as -> by (rewrite addr_input by lia; unfold c_iend; lia).
  replace (dlen - a + 255 - 15) with (dlen - a + 240) by lia.
  pose proof (ce_lim _ _ _ _ _ Henv) as Hl. remember (dlen - a) as L eqn:EL.
  assert (forall s, list.last done = Some s -> 5 <= L /\ 12 <= s_mlen s + L) as Hend.
  { intros s Es. specialize (Hlast s Es). lia. }
  destruct Hcap as [Hsz Hcap].
  assert (k_op st + L + 1 + (L + 240) / 255 < c_dest p + LZ4_compressBound (c_inputSize p)) as Hbd.
  { rewrite compressBound_eq by (change LZ4_MAX_INPUT_SIZE with 2113929216; lia).
    pose proof (last_size (a - hlen) L ltac:(lia) ltac:(lia)) as Hls.
    replace (a - hlen + L) with (c_inputSize p) in Hls by lia. lia. }
  destruct (c_out p) eqn:Eo; bd; cbn zeta.
  - eapply (wp_finish a done (k_op st) L); try done; [lia|lia|by rewrite Eo].
  - rewrite <- Hl. wif.
    + apply wp_ret, HQ. split; [done|]. split; [done|]. left. split; [done|]. split; [done|lia].
    + eapply (wp_finish a done (k_op st) L); try done; [lia|lia|by rewrite Eo].
  - rewrite <- Hl. destruct Hcap as [Hc1 Hc]. zcase.
    + pose proof (ce_cap _ _ _ _ _ Henv) as Hmax. unfold c_olimit, int_max in *. zlen_facts.
      destruct (fill_run (lim - k_op st - 1) L) as (Hr1 & Hr2 & Hr5 & Hr8); [lia|lia|lia|].
      remember (lim - k_op st - 1) as r eqn:Er.
      rewrite (u64_small r), (u64_small (r + 256 - 15)) by lia.
      replace (r + 256 - 15) with (r + 241) by lia. rewrite u64_small by lia.
      eapply (wp_finish a done (k_op st) (r - (r + 241) / 256)); try done; try lia;
        [|by rewrite Eo].
      intros s Es. destruct (Hc s Es) as [H6 H13]. apply last_Some_elem_of in Es.
      eapply Forall_forall in Hw; [|apply list_elem_of_In; exact Es]. destruct Hw as (_ & _ & ?).
      split; [lia|]. destruct (Z.lt_ge_cases r 8); [|lia]. rewrite (Z.div_small (r + 241)); lia.
    + eapply (wp_finish a done (k_op st) L); try done; [lia|lia|by rewrite Eo].
Qed.

(** * Labels *)

Definition find_inv (st : cstate) (m : mem) : Prop :=
  exists a done k, seqs_inv a done (k_op st) m /\ k_anchor st = addr a /\ k_ip st = addr k /\
    a < k <= dlen - 11 /\ k_forwardH st = hash_bytes (c_tt p) (tail_at k) /\
    tbl_inv (k_tbl st) k /\ (c_maybe_extMem p = false -> k_lowLimit st = c_source p - hlen).

(** The literals from [a] to [k] are encoded, a match of [k] at [j] is next; the
    table knows the positions up to [kt]. *)
Definition next_inv (st : cstate) (m : mem) : Prop :=
  exists a done k j kt, seqs_inv a done (k_token st) m /\ k_anchor st = addr a /\
    k_ip st = addr k /\ a <= k /\ k <= kt <= dlen - 12 /\
    k_op st = k_token st + 1 + (k - a + 240) / 255 + (k - a) /\ k_op st <= lim /\
    holds m (k_token st) (16 * nibble (k - a) :: len_ext (k - a) ++ slice a (k - a)) /\
    match_at k j (k_lowLimit st) (k_match st) /\ deq k j (kt - k + 4) /\
    (ext -> k_offset st = k - j) /\ (ext -> j < hlen -> j + 4 <= hlen) /\
    tbl_inv (k_tbl st) (kt + 1) /\
    (k_filledIp st = addr kt \/ (kt = k /\ (k_filledIp st <= addr k \/ lim < k_op st + 11))) /\
    (c_out p = limitedOutput -> k_op st + 2 <= lim).

Definition comp_inv (c : clabel * cstate) (m : mem) : Prop :=
  let '(l, st) := c in
  match l with
  | find_match => find_inv st m
  | next_match => next_inv st m
  | last_literals => exists a done, seqs_inv a done (k_op st) m /\ k_anchor st = addr a /\
      tbl_inv (k_tbl st) dlen
  end.

(** The measure: the input behind the anchor, and the labels still to come. *)
Definition comp_meas (c : clabel * cstate) : Z :=
  match fst c with
  | find_match => 3 * (c_iend p - k_anchor (snd c)) + 2
  | next_match => 3 * (c_iend p - k_anchor (snd c)) + 1
  | last_literals => 0
  end.

Definition cstep_post (k : Z) (r : cnext) (m : mem) : Prop :=
  match r with
  | inl c => comp_inv c m /\ comp_meas c < k
  | inr r => comp_post r m
  end.

Lemma wp_goto_last k a done st m :
  seqs_inv a done (k_op st) m -> k_anchor st = addr a -> tbl_inv (k_tbl st) dlen -> 0 < k ->
  wp (goto_c last_literals st) (cstep_post k) m.
Proof. intros. apply wp_ret. split; [|done]. by exists a, done. Qed.

Lemma wp_return_0 k tbl m :
  c_out p = limitedOutput -> mframe m -> tbl_inv tbl dlen ->
  lim < c_dest p + LZ4_compressBound (c_inputSize p) ->
  wp (return_0 tbl) (cstep_post k) m.
Proof. intros. apply wp_ret. split; [done|]. split; [done|]. left. done. Qed.

(** * Finding a match *)

(** The check of [limitedOutput] does not fail when the bound fits. *)
Lemma lits_bound a done op ll m :
  seqs_inv a done op m -> 0 <= ll -> a + ll <= dlen - 12 ->
  op + 1 + ll + (2 + 1 + 5) + ll / 255 <= c_dest p + LZ4_compressBound (c_inputSize p).
Proof.
  intros (Ha & _ & _ & _ & _ & _ & _ & _ & [Hsz _] & _) Hll Hle. cenv.
  rewrite compressBound_eq by (change LZ4_MAX_INPUT_SIZE with 2113929216; lia).
  Z.div_mod_to_equations. lia.
Qed.

(** The room for a run of literals, copied 8 bytes at a time. *)
Lemma lits_room a done op ll m :
  seqs_inv a done op m -> 0 <= ll -> a + ll <= dlen - 12 ->
  (c_out p = limitedOutput -> op + 1 + ll + (2 + 1 + 5) + ll / 255 <= lim) ->
  (c_out p = fillOutput -> op + 1 + (ll + 240) / 255 + ll + 2 + 1 + 12 - 4 <= lim) ->
  op + 1 + (ll + 240) / 255 + wild 8 ll <= lim /\
  (c_out p = limitedOutput -> op + 1 + (ll + 240) / 255 + ll + 2 <= lim).
Proof.
  intros (Ha & _ & _ & _ & Eop & _ & _ & _ & Hcap & _) Hll Hle Hlo Hfo. cenv.
  assert (wild 8 ll <= ll + 8 /\ (0 < ll -> wild 8 ll <= ll + 7)) as [Hw8 Hw7].
  { split; [apply wild_le; lia|intros; apply wild_le; lia]. }
  pose proof (ce_lim _ _ _ _ _ Henv) as Hl. destruct Hcap as [Hsz Hcap]. destruct (c_out p).
  - rewrite compressBound_eq in Hl by (change LZ4_MAX_INPUT_SIZE with 2113929216; lia).
    pose proof (last_size (a - hlen) ll ltac:(lia) ltac:(lia)) as Hls. split; [|done].
    assert ((a - hlen + ll) / 255 <= c_inputSize p / 255) by (apply Z.div_le_mono; lia). lia.
  - specialize (Hlo eq_refl). split.
    + destruct (Z.eq_dec ll 0) as [->|Hn]; [Z.div_mod_to_equations; lia|].
      specialize (Hw7 ltac:(lia)). Z.div_mod_to_equations; lia.
    + intros _. Z.div_mod_to_equations; lia.
  - specialize (Hfo eq_refl). split; [lia|done].
Qed.
End CompProof.
