(* ===== verification/Lz4CompressMatch.v ===== *)
(** The compressor from [find_match] to [next_match]: the literals in front of a
    match. *)
From S2P Require Import Prelude.
From S2P Require Import Mem.
From S2P Require Import BlockFormat.
From S2P Require Import Lz4Common.
From S2P Require Import Lz4CommonSpec.
From S2P Require Import Lz4Decompress.
From S2P Require Import Lz4Compress.
From S2P Require Import Lz4CompressGeneric.
From S2P Require Import Lz4CountSpec.
From S2P Require Import Lz4CompressInv.
From S2P Require Import Lz4CompressSearch.
From S2P Require Import Lz4CompressEncode.
From S2P Require Import Lz4CompressProof.

Section CompFind.
Context (p : cparams) (hist inp : list Z) (m0 : mem) (lim : Z).
Context (Henv : comp_env p hist inp m0 lim).

Abbreviation data := (data hist inp).
Abbreviation hlen := (hlen hist).
Abbreviation dlen := (dlen hist inp).
Abbreviation addr := (addr p hist).
Abbreviation dget := (dget hist inp).
Abbreviation segment := (segment p hist inp).
Abbreviation tail_at := (tail_at hist inp).
Abbreviation mframe m := (frame (c_dest p) lim m0 m).
Abbreviation ext := (c_maybe_extMem p = true).
Abbreviation match_at := (match_at p hist).
Abbreviation deq := (deq hist inp).
Abbreviation slice := (slice hist inp).
Abbreviation tbl_inv := (tbl_inv p hist inp).
Abbreviation seqs_inv := (seqs_inv p hist inp m0 lim).
Abbreviation find_inv := (find_inv p hist inp m0 lim).
Abbreviation next_inv := (next_inv p hist inp m0 lim).
Abbreviation cstep_post := (cstep_post p hist inp m0 lim).
Abbreviation idx := (idx p hist).

Ltac cenv :=
  pose proof (dlen_eq _ _ _ _ _ Henv) as Hdl; pose proof (hlen_nonneg hist) as Hhl;
  pose proof (ce_max _ _ _ _ _ Henv) as Hmx; change LZ4_MAX_INPUT_SIZE with 2113929216 in Hmx;
  change MINMATCH with 4 in *; change MFLIMIT with 12 in *; change LASTLITERALS with 5 in *;
  change RUN_MASK with 15 in *.

(** * Literals *)

(** The literals land after their length. *)
Lemma wild_slice a d ll m m' :
  mframe m' -> hlen <= a -> 0 <= ll -> a + ll <= dlen ->
  copy_post m m' d (addr a) (wild 8 ll) -> holds m' d (slice a ll).
Proof.
  intros Hf Ha Hll Hle [_ Hs]. cenv. destruct (wild_ge 8 ll ltac:(lia)) as [_ Hw].
  pose proof (slice_holds _ _ _ _ _ Henv m' a ll Hf ltac:(lia) ltac:(lia) ltac:(lia)) as Hh.
  apply holds_intro. rewrite slice_zlen by lia. intros i Hi.
  rewrite (Hs i) by lia. rewrite (holds_at _ _ _ _ Hh); [f_equal; lia|].
  rewrite slice_zlen by lia. lia.
Qed.

Lemma wp_literals {A} a done token ll (f : Z -> M A) Q m :
  seqs_inv a done token m -> 0 <= ll -> a + ll <= dlen - 12 ->
  token + 1 + (ll + 240) / 255 + wild 8 ll <= lim ->
  (forall m', seqs_inv a done token m' ->
     holds m' token (16 * nibble ll :: len_ext ll ++ slice a ll) ->
     wp (f (token + 1 + (ll + 240) / 255)) Q m') ->
  wp (op ← put_literal_length token (token + 1) ll;
      LZ4_wildCopy8 op (addr a) (op + ll);; f op) Q m.
Proof.
  intros HS Hll Hle Hroom Hc. pose proof HS as (Ha & _ & _ & _ & Eop & _ & Hh & Hf & _).
  cenv. zlen_facts. pose proof (Z.div_pos (ll + 240) 255 ltac:(lia) ltac:(lia)).
  destruct (wild_ge 8 ll ltac:(lia)) as [Hw8 Hw].
  assert (wild 8 ll <= ll + 8) as Hwl by (apply wild_le; lia).
  pose proof (zlen_len_ext' ll ltac:(lia)) as Hz.
  apply wp_bind, wp_put_literal_length; [lia|eapply out_mapped; [done|done|lia|lia]|].
  rewrite Hz. intros m1 Hf1 Hb1. set (op := token + 1 + (ll + 240) / 255) in *.
  assert (frame token lim m m1) as Hf1' by (eapply frame_weaken; [exact Hf1|lia|lia]).
  pose proof (seqs_inv_frame _ _ _ _ _ _ _ _ _ _ HS Hf1') as HS1.
  assert (mframe m1) as Hfm by apply HS1.
  apply wp_bind, wp_wildCopy8; replace (op + ll - op) with ll by lia.
  - pose proof (slice_holds _ _ _ _ _ Henv m1 a (wild 8 ll) Hfm ltac:(lia) ltac:(lia) ltac:(lia)) as Hs.
    apply holds_mapped in Hs. rewrite slice_zlen in Hs by lia. done.
  - eapply out_mapped; [done|done|lia|lia].
  - rewrite addr_input by lia. pose proof (ce_disj _ _ _ _ _ Henv) as Hd.
    unfold c_iend in Hd. lia.
  - intros m2 Hcp. assert (frame op lim m1 m2) as Hf2 by (eapply frame_weaken; [apply Hcp|lia|lia]).
    assert (seqs_inv a done token m2) as HS2.
    { eapply seqs_inv_frame; [exact HS1|]. eapply frame_weaken; [exact Hf2|lia|lia]. }
    apply Hc; [done|]. rewrite app_comm_cons.
    assert (zlen (16 * nibble ll :: len_ext ll) = op - token) as Hz1 by (rewrite zlen_cons; lia).
    eapply holds_snoc; [exact Hb1|rewrite Hz1|rewrite Hz1]; replace (token + (op - token)) with op by lia.
    + exact Hf2.
    + eapply wild_slice; [apply HS2|lia|lia|lia|exact Hcp].
Qed.

(** Catching up keeps a match in its segment. *)
Lemma match_segment k j low mt k' j' mt' :
  match_at k j low mt -> match_at k' j' low mt' -> ext -> j' < hlen -> j < hlen.
Proof.
  intros (_ & _ & _ & H1) (_ & _ & _ & H2) He Hj'. pose proof (dict_ne_source _ _ _ _ _ Henv He).
  unfold low_ok in *. rewrite He in *. destruct (Z.ltb_spec j hlen), (Z.ltb_spec j' hlen); congruence || lia.
Qed.

Lemma wp_find_match st m :
  find_inv st m -> wp (find_match_body p st) (cstep_post (comp_meas p (find_match, st))) m.
Proof.
  intros (a & done & k & HS & Ea & Eip & Hk & Eh & Ht & Hlow).
  pose proof HS as (Ha & _ & _ & _ & Eop & _ & _ & Hf & _). cenv. unfold find_match_body.
  assert (0 < comp_meas p (find_match, st)) as Hpos.
  { unfold comp_meas. simpl. rewrite Ea, addr_input by lia. unfold c_iend. lia. }
  apply wp_bind. eapply wp_mono; [apply (wp_search _ _ _ _ _ Henv a k); try done; lia|].
  intros [[f|] tbl] m' [-> Hpost].
  2: { by eapply wp_goto_last. }
  destruct Hpost as [(k1 & j1 & Ef & Hk1 & HM1 & Hd1 & Hoff & H4 & Htb) Etb]. simpl in Etb. subst tbl.
  apply wp_bind. rewrite Ea, Ef.
  eapply wp_mono; [apply (wp_catch_up _ _ _ _ _ Henv a k1 j1 _ _ 4); try done; lia|].
  intros [ip mt] m' [-> (k2 & j2 & E2 & Hk2 & HM2 & Hkj & Hd2)]. simpl in E2, HM2. subst ip.
  replace (addr k2 - addr a) with (k2 - a) by (rewrite !addr_input by lia; lia).
  rewrite u32_small by lia. remember (k2 - a) as ll eqn:Ell.
  pose proof (ce_lim _ _ _ _ _ Henv) as Hl.
  wif.
  { apply andb_prop in E as [Eo Hfull%Z.ltb_lt]. apply bool_decide_eq_true in Eo.
    pose proof (lits_bound _ _ _ _ _ Henv a done (k_op st) ll m HS ltac:(lia) ltac:(lia)).
    rewrite Eo in Hl. rewrite <- Hl in Hfull. change LASTLITERALS with 5 in Hfull.
    apply wp_return_0; [done|done|eapply tbl_inv_mono; [exact Htb|lia]|lia]. }
  wif.
  { apply andb_prop in E0 as [Eo _]. apply bool_decide_eq_true in Eo.
    eapply wp_goto_last; [exact HS|done| |done]. eapply tbl_inv_mono; [exact Htb|lia]. }
  destruct (lits_room _ _ _ _ _ Henv a done (k_op st) ll m HS) as [Hroom Hroom2]; [lia|lia| | |].
  { intros Eo. rewrite Eo in E, Hl. rewrite <- Hl in E. rewrite bool_decide_eq_true_2 in E by done. cbn [andb] in E. change LASTLITERALS with 5 in E. change MFLIMIT with 12 in E. change MINMATCH with 4 in E. apply Z.ltb_ge in E. lia. }
  { intros Eo. rewrite Eo in E0, Hl. rewrite <- Hl in E0. rewrite bool_decide_eq_true_2 in E0 by done. cbn [andb] in E0. change LASTLITERALS with 5 in E0. change MFLIMIT with 12 in E0. change MINMATCH with 4 in E0. apply Z.ltb_ge in E0. lia. }
  apply (wp_literals a done); [done|lia|lia|lia|]. intros m' HS' Hh'. apply wp_ret.
  destruct (wild_ge 8 ll ltac:(lia)) as [_ Hw].
  split; [|unfold comp_meas; simpl; rewrite Ea; lia].
  exists a, done, k2, j2, k1. simpl. rewrite <- Ell.
  split; [done|]. split; [done|]. split; [done|]. split; [lia|]. split; [lia|].
  split; [lia|]. split; [lia|]. split; [done|]. split; [done|].
  split; [done|]. split; [intros He; rewrite (Hoff He); lia|].
  split; [|split; [done|split; [by left|intros Eo; specialize (Hroom2 Eo); lia]]].
  intros He Hj2. pose proof (match_segment _ _ _ _ _ _ _ HM1 HM2 He Hj2) as Hj1.
  specialize (H4 He Hj1). lia.
Qed.
End CompFind.

(** The compressor from [next_match] on: the match, its encoding and the
    position behind it. *)

(** * Encoding a match *)

Lemma wp_put_offset op d Q m :
  0 <= d < 65536 -> mapped m op 2 ->
  (forall m', frame op (op + 2) m m' -> holds m' op [d mod 256; d / 256] -> Q tt m') ->
  wp (LZ4_writeLE16 op (u16 d)) Q m.
Proof.
  intros Hd Hm HQ. unfold LZ4_writeLE16, LZ4_write16. simpl. rewrite u16_small by lia.
  assert (d / 256 mod 256 = d / 256) as -> by (Z.div_mod_to_equations; lia).
  apply wp_store_bytes_holds; [done|]. exact HQ.
Qed.

(** The token [16 * t] and the bytes [X] behind it are completed to a sequence. *)
Lemma wp_put_match token op t X mc Q m :
  0 <= mc -> holds m token (16 * t :: X) -> 0 <= t < 16 -> op = token + 1 + zlen X ->
  mapped m op ((mc + 240) / 255 + 3) ->
  (forall m', frame token (op + (mc + 240) / 255 + 3) m m' ->
     holds m' token (16 * t + nibble mc :: X ++ len_ext mc) -> Q (op + (mc + 240) / 255) m') ->
  wp (put_match_length token op mc) Q m.
Proof.
  intros Hmc Hh Ht Eop Hm HQ. zlen_facts. pose proof (zlen_len_ext' mc Hmc) as Hz.
  pose proof (Z.div_pos (mc + 240) 255 ltac:(lia) ltac:(lia)).
  replace (16 * t :: X) with ([16 * t] ++ X) in Hh by done.
  apply holds_app in Hh as [Htok HX]. rewrite zlen_cons, zlen_nil in HX.
  apply (wp_put_match_length _ _ t); [done|done|done|lia| |].
  { rewrite Hz. zcase; [|done]. intros i ?; lia. }
  rewrite Hz. intros m' Heq Hmp Htok' Hext. apply HQ.
  - split; [|done]. intros i Hi. apply Heq; [lia|]. zcase; lia.
  - replace (16 * t + nibble mc :: X ++ len_ext mc)
      with ([16 * t + nibble mc] ++ X ++ len_ext mc) by done.
    apply holds_app. split; [done|]. rewrite zlen_cons, zlen_nil. apply holds_app. split.
    + eapply holds_eq_on; [|exact HX]. intros i Hi. apply Heq; [lia|]. zcase; lia.
    + replace (token + (1 + 0) + zlen X) with op by lia. done.
Qed.

Section CompMatch.
Context (p : cparams) (hist inp : list Z) (m0 : mem) (lim : Z).
Context (Henv : comp_env p hist inp m0 lim).

Abbreviation data := (data hist inp).
Abbreviation hlen := (hlen hist).
Abbreviation dlen := (dlen hist inp).
Abbreviation addr := (addr p hist).
Abbreviation dget := (dget hist inp).
Abbreviation segment := (segment p hist inp).
Abbreviation tail_at := (tail_at hist inp).
Abbreviation mframe m := (frame (c_dest p) lim m0 m).
Abbreviation ext := (c_maybe_extMem p = true).
Abbreviation match_at := (match_at p hist).
Abbreviation deq := (deq hist inp).
Abbreviation slice := (slice hist inp).
Abbreviation tbl_inv := (tbl_inv p hist inp).
Abbreviation seqs_inv := (seqs_inv p hist inp m0 lim).
Abbreviation find_inv := (find_inv p hist inp m0 lim).
Abbreviation next_inv := (next_inv p hist inp m0 lim).
Abbreviation cstep_post := (cstep_post p hist inp m0 lim).
Abbreviation idx := (idx p hist).

Ltac cenv :=
  pose proof (dlen_eq _ _ _ _ _ Henv) as Hdl; pose proof (hlen_nonneg hist) as Hhl;
  pose proof (ce_max _ _ _ _ _ Henv) as Hmx; change LZ4_MAX_INPUT_SIZE with 2113929216 in Hmx;
  change MINMATCH with 4 in *; change MFLIMIT with 12 in *; change LASTLITERALS with 5 in *;
  change RUN_MASK with 15 in *.


(** * A complete sequence *)

Definition match_seq (a k j ml : Z) : seq := Seq (slice a (k - a)) (k - j) ml.

Lemma enc_match_seq a k j ml : hlen <= a <= k -> k <= dlen ->
  enc_seq (match_seq a k j ml) =
    16 * nibble (k - a) + nibble (ml - 4) ::
      (len_ext (k - a) ++ slice a (k - a) ++ [(k - j) mod 256; (k - j) / 256]) ++ len_ext (ml - 4).
Proof.
  intros Ha Hk. pose proof (hlen_nonneg hist). unfold enc_seq, match_seq. simpl.
  rewrite slice_zlen by lia. by rewrite <- !app_assoc.
Qed.

Lemma zlen_match_seq a k j ml : hlen <= a <= k -> k <= dlen -> 4 <= ml ->
  zlen (enc_seq (match_seq a k j ml)) =
    1 + (k - a + 240) / 255 + (k - a) + 2 + (ml - 4 + 240) / 255.
Proof.
  intros Ha Hk Hml. pose proof (hlen_nonneg hist). rewrite enc_match_seq by done.
  rewrite zlen_cons, !zlen_app, !zlen_len_ext', slice_zlen by lia.
  rewrite zlen_cons, zlen_cons, zlen_nil. lia.
Qed.

Lemma enc_seqs_snoc l s : enc_seqs (l ++ [s]) = enc_seqs l ++ enc_seq s.
Proof. rewrite enc_seqs_app. cbn [enc_seqs]. by rewrite app_nil_r. Qed.

Lemma seqs_inv_snoc a done token k j ml op' m m' :
  seqs_inv a done token m -> a <= k <= dlen - 12 -> 0 <= j < k -> k - j <= 65535 -> 4 <= ml ->
  k + ml <= dlen - 5 -> deq k j ml -> frame token lim m m' ->
  holds m' token (enc_seq (match_seq a k j ml)) -> op' = token + zlen (enc_seq (match_seq a k j ml)) ->
  op' <= lim -> cap_ok p hist lim (k + ml) (done ++ [match_seq a k j ml]) op' ->
  seqs_inv (k + ml) (done ++ [match_seq a k j ml]) op' m'.
Proof.
  intros HS Hk Hj Hd Hml Hle Hdq Hf Hs Eop Hlim Hcap.
  pose proof (seqs_inv_frame _ _ _ _ _ _ _ _ _ _ HS Hf) as (Ha & Hw & Ho & Hx & Et & _ & Hh & Hfm & _).
  cenv. split; [lia|]. split; [|split; [|split; [|split; [|split; [|split; [|split; [|split]]]]]]].
  - apply Forall_app. split; [done|]. apply Forall_singleton. split; [apply (slice_bytes _ _ _ _ _ Henv)|].
    simpl. lia.
  - apply Forall_app. split; [done|]. apply Forall_singleton. simpl. lia.
  - eapply exec_seqs_snoc; [exact Hx|]. apply exec_match; [lia|lia|lia|lia|done].
  - rewrite enc_seqs_snoc, zlen_app. lia.
  - done.
  - rewrite enc_seqs_snoc. apply holds_app. split; [done|]. by rewrite <- Et.
  - done.
  - done.
  - intros s. rewrite last_snoc. intros [= <-]. simpl. lia.
Qed.

(** A sequence respects the bound. *)
Lemma match_bound a done token k ml op2 m :
  seqs_inv a done token m -> a <= k -> 4 <= ml -> k + ml <= dlen - 5 ->
  op2 = token + 1 + (k - a + 240) / 255 + (k - a) + 2 ->
  op2 + (ml - 4 + 240) / 255 - c_dest p <= (k + ml - hlen) + (k + ml - hlen) / 255 /\
  op2 + (1 + 5) + (ml - 4 + 240) / 255 <= c_dest p + LZ4_compressBound (c_inputSize p).
Proof.
  intros (Ha & _ & _ & _ & _ & _ & _ & _ & [Hsz _] & _) Hk Hml Hle Eop. cenv.
  rewrite compressBound_eq by (change LZ4_MAX_INPUT_SIZE with 2113929216; lia).
  pose proof (seq_size (a - hlen) (k - a) (ml - 4) ltac:(lia) ltac:(lia) ltac:(lia)) as Hss.
  replace (a - hlen + (k - a) + (ml - 4 + 4)) with (k + ml - hlen) in Hss by lia.
  assert ((k + ml - hlen) / 255 <= c_inputSize p / 255) by (apply Z.div_le_mono; lia). lia.
Qed.

(** The room for the length of the match. *)
Lemma match_room a done token k j ml op2 m :
  seqs_inv a done token m -> a <= k -> 4 <= ml -> k + ml <= dlen - 5 ->
  op2 = token + 1 + (k - a + 240) / 255 + (k - a) + 2 ->
  (c_out p = limitedOutput -> op2 + 5 + (ml - 4 + 240) / 255 <= lim) ->
  (c_out p = fillOutput -> op2 + 6 + (ml - 4 + 240) / 255 <= lim /\
     13 <= ml + (lim - (op2 + (ml - 4 + 240) / 255))) ->
  op2 + (ml - 4 + 240) / 255 + 3 <= lim /\
  cap_ok p hist lim (k + ml) (done ++ [match_seq a k j ml]) (op2 + (ml - 4 + 240) / 255).
Proof.
  intros HS Hk Hml Hle Eop Hlo Hfo. pose proof HS as (Ha & _ & _ & _ & Et & _ & _ & _ & Hcap & _). cenv.
  pose proof (match_bound a done token k ml op2 m HS Hk Hml Hle Eop) as [Hs Hb].
  pose proof (ce_lim _ _ _ _ _ Henv) as Hl. destruct Hcap as [_ Hcap]. unfold cap_ok.
  destruct (c_out p) eqn:Eo.
  - lia.
  - specialize (Hlo ltac:(done)). lia.
  - specialize (Hfo ltac:(done)).
    pose proof (Z.div_pos (ml - 4 + 240) 255 ltac:(lia) ltac:(lia)). split; [lia|]. split; [lia|]. split; [lia|].
    intros s. rewrite last_snoc. intros [= <-]. simpl. lia.
Qed.

(** * The position behind a match *)

Lemma passes_intro' k mi :
  0 <= mi < idx k -> hlen <= k <= dlen - 12 ->
  (if bool_decide (c_di p = dictSmall) then c_prefixIdxLimit p <=? mi else true)
    && (if bool_decide (c_tt p = byU16) && (LZ4_DISTANCE_MAX =? LZ4_DISTANCE_ABSOLUTE_MAX)
        then true else idx k <=? u32 (mi + LZ4_DISTANCE_MAX)) = true -> passes p hist k mi.
Proof.
  intros Hmi Hk [H1 H2]%andb_prop. apply (passes_intro _ _ _ _ _ Henv); [done|done| |].
  - destruct (bool_decide (c_di p = dictSmall)); [|done]. simpl. apply Z.leb_le in H1.
    by apply Z.ltb_ge.
  - change (LZ4_DISTANCE_MAX =? LZ4_DISTANCE_ABSOLUTE_MAX) with true in H2.
    change (LZ4_DISTANCE_MAX <? LZ4_DISTANCE_ABSOLUTE_MAX) with false.
    destruct (bool_decide (c_tt p = byU16)); [done|]. simpl in *. apply Z.leb_le in H2.
    by apply Z.ltb_ge.
Qed.

(** After a match there is room for the next token, and in [limitedOutput] for
    an offset too. *)
Lemma token_room a done op m :
  seqs_inv a done op m -> done <> [] -> a <= dlen - 12 ->
  op + 1 <= lim /\ (c_out p = limitedOutput -> op + 3 <= lim).
Proof.
  intros (Ha & _ & _ & _ & Et & _ & _ & _ & Hcap & _) Hne Hle. cenv.
  pose proof (ce_lim _ _ _ _ _ Henv) as Hl. destruct Hcap as [Hsz Hcap]. destruct (c_out p) eqn:Eo.
  - rewrite compressBound_eq in Hl by (change LZ4_MAX_INPUT_SIZE with 2113929216; lia).
    split; [|done]. assert ((a - hlen) / 255 <= c_inputSize p / 255) by (apply Z.div_le_mono; lia). lia.
  - specialize (Hcap Hne). lia.
  - split; [lia|done].
Qed.

(** A match without literals. *)
Lemma next_inv_direct a done st j m :
  seqs_inv a done (k_token st) m -> a <= dlen - 12 -> k_anchor st = addr a -> k_ip st = addr a ->
  k_op st = k_token st + 1 -> k_op st <= lim -> holds m (k_token st) [0] ->
  match_at a j (k_lowLimit st) (k_match st) -> deq a j 4 -> (ext -> k_offset st = a - j) ->
  (ext -> j < hlen -> j + 4 <= hlen) -> tbl_inv (k_tbl st) (a + 1) ->
  k_filledIp st <= addr a \/ lim < k_op st + 11 -> (c_out p = limitedOutput -> k_op st + 2 <= lim) ->
  next_inv st m.
Proof.
  intros HS Hle Ea Ei Eo Hl Hh HM Hd Hoff H4 Ht Hfi Hlo. pose proof HS as (Ha & _).
  exists a, done, a, j, a. rewrite !Z.sub_diag. change ((0 + 240) / 255) with 0.
  do 3 (split; [done|]). split; [lia|]. split; [lia|]. split; [lia|]. split; [lia|].
  split; [done|]. do 5 (split; [done|]). split; [|done]. by right.
Qed.

Lemma wp_test_next_position a done st K m :
  seqs_inv a done (k_op st) m -> done <> [] -> hlen < a <= dlen - 12 ->
  k_anchor st = addr a -> k_ip st = addr a -> tbl_inv (k_tbl st) a ->
  (c_maybe_extMem p = false -> k_lowLimit st = c_source p - hlen) ->
  k_filledIp st <= addr a \/ lim < k_op st + 12 -> 3 * (c_iend p - addr a) + 2 < K ->
  wp (test_next_position p st) (cstep_post K) m.
Proof.
  intros HS Hne Ha Ean Eip Ht Hlow Hfi HK. cenv.
  pose proof HS as (_ & _ & _ & _ & Eop & _ & _ & Hf & _).
  pose proof (ce_tt _ _ _ _ _ Henv) as Htt. unfold test_next_position.
  rewrite (bool_decide_eq_false_2 (c_tt p = byPtr)) by (destruct Htt as [-> | ->]; done).
  rewrite Eip. apply wp_bind. apply (wp_hash_at _ _ _ _ _ Henv); [done|lia|lia|].
  rewrite (u32_idx _ _ _ _ _ Henv) by lia. set (h := hash_bytes (c_tt p) (tail_at a)).
  assert (in_table (c_tt p) h = true) as Hin by by apply hash_in_table.
  apply wp_bind, wp_LZ4_getIndexOnHash; [done|done|].
  apply wp_bind, (wp_candidate _ _ _ _ _ Henv a); [lia|done|by apply Ht|done|].
  intros mi mtch low (Hmi & Hlow' & Hc).
  apply wp_bind, wp_LZ4_putIndexOnHash; [done|done|by apply (idx_range _ _ _ _ _ Henv); lia|].
  assert (tbl_inv (set_entry (k_tbl st) (c_tt p) h (idx a)) (a + 1)) as Ht'.
  { apply (tbl_inv_put _ _ _ _ _ Henv); [by eapply tbl_inv_mono; [exact Ht|lia]|lia|lia|done|done]. }
  remember (set_entry (k_tbl st) (c_tt p) h (idx a)) as tbl eqn:Etbl. clear Etbl.
  zlen_facts. apply wp_bind. eapply (wp_mono _ (fun (hit : bool) m' => m' = m /\
    (hit = true -> exists j, match_at a j low mtch /\ idx a - mi = a - j /\ deq a j 4 /\
       (ext -> j < hlen -> j + 4 <= hlen)))).
  { wif; [|by apply wp_ret]. apply passes_intro' in E; [|done|lia].
    destruct (Hc E) as (j & HM & Hoff & H4). pose proof HM as (_ & Hd & -> & _).
    apply (wp_read32_both _ _ _ _ _ Henv);
      [done|eapply cand_segment; [exact HM|lia|done]|apply segment_input; lia|].
    intros x y Hxy. apply wp_ret. split; [done|]. intros Hb%Z.eqb_eq. exists j. auto. }
  intros hit m' [-> Hhit]. destruct (token_room a done (k_op st) m) as [Hr1 Hr2]; [done|done|lia|].
  destruct hit.
  - destruct (Hhit eq_refl) as (j & HM & Hoff & Hd & H4).
    apply wp_bind, wp_storeb_frame; [eapply out_mapped; [done|done|lia|lia]|].
    intros m1 Hf1 Hb1. apply wp_ret.
    split; [|unfold comp_meas; simpl; rewrite Ean; lia].
    apply (next_inv_direct a done _ j); simpl; try done; try lia.
    + eapply seqs_inv_frame; [exact HS|]. eapply frame_weaken; [exact Hf1|lia|lia].
    + intros He. rewrite He. pose proof (idx_range _ _ _ _ _ Henv a ltac:(lia)) as [_ ?].
      rewrite u32_small; lia.
    + intros Eo. specialize (Hr2 Eo). lia.
  - replace (addr a + 1) with (addr (a + 1)) by (rewrite !addr_input by lia; lia).
    apply wp_bind. apply (wp_hash_at _ _ _ _ _ Henv); [done|lia|lia|]. apply wp_ret.
    split; [|unfold comp_meas; simpl; rewrite Ean; lia].
    exists a, done, (a + 1). simpl. do 3 (split; [done|]). split; [lia|]. done.
Qed.

Lemma wp_put_position k k' h tbl Q m :
  tbl_inv tbl k' -> k < k' -> hlen <= k <= dlen - 12 -> h = hash_bytes (c_tt p) (tail_at k) ->
  (forall tbl', tbl_inv tbl' k' -> Q tbl' m) -> wp (put_position p (addr k) h tbl) Q m.
Proof.
  intros Ht Hlt Hk Eh HQ. cenv. pose proof (ce_tt _ _ _ _ _ Henv) as Htt. unfold put_position.
  rewrite (bool_decide_eq_false_2 (c_tt p = byPtr)) by (destruct Htt as [-> | ->]; done).
  rewrite (u32_idx _ _ _ _ _ Henv) by lia.
  assert (in_table (c_tt p) h = true) as Hin by (subst h; by apply hash_in_table).
  apply wp_LZ4_putIndexOnHash; [done|done|by apply (idx_range _ _ _ _ _ Henv)|].
  apply HQ. by apply (tbl_inv_put _ _ _ _ _ Henv).
Qed.

(** * The end of a match *)

Lemma wp_end_match a done st k j ml op2 tbl m :
  seqs_inv a done (k_token st) m -> k_anchor st = addr a -> a <= k <= dlen - 12 ->
  op2 = k_token st + 1 + (k - a + 240) / 255 + (k - a) + 2 ->
  holds m (k_token st) (16 * nibble (k - a) :: len_ext (k - a) ++ slice a (k - a) ++
    [(k - j) mod 256; (k - j) / 256]) ->
  match_at k j (k_lowLimit st) (k_match st) -> 4 <= ml -> deq k j ml -> k + ml <= dlen - 5 ->
  tbl_inv tbl (k + ml) ->
  (c_out p <> notLimited -> op2 + 6 + (ml - 4 + 240) / 255 <= lim) ->
  (c_out p = fillOutput -> op2 + 9 <= lim) ->
  k_filledIp st <= addr (k + ml) \/ lim < op2 + (ml - 4 + 240) / 255 + 12 ->
  wp (end_match p st op2 (addr (k + ml)) (ml - 4) tbl) (cstep_post (comp_meas p (next_match, st))) m.
Proof.
  intros HS Ean Hk Eop Hh HM Hml Hd Hle Ht Hlo Hfo Hfi. cenv.
  pose proof HS as (Ha & _ & _ & _ & Et & _ & _ & Hfm & _).
  pose proof HM as (Hj & Hd' & _ & Hlow). unfold end_match. zlen_facts.
  destruct (match_room a done _ k j ml op2 m HS) as [Hroom Hcap]; [lia|done|done|done| | |].
  { intros Eo. rewrite Eo in Hlo. specialize (Hlo ltac:(done)). lia. }
  { intros Eo. specialize (Hfo Eo). rewrite Eo in Hlo. specialize (Hlo ltac:(done)).
    Z.div_mod_to_equations. lia. }
  assert (0 <= nibble (k - a) < 16) as Hn by (unfold nibble; lia).
  pose proof (Z.div_pos (ml - 4 + 240) 255 ltac:(lia) ltac:(lia)).
  pose proof (Z.div_pos (k - a + 240) 255 ltac:(lia) ltac:(lia)).
  assert (k_token st < op2) by lia.
  apply wp_bind. eapply (wp_put_match _ _ (nibble (k - a))); [lia|exact Hh|done| | |].
  { rewrite !zlen_app, zlen_len_ext', slice_zlen by lia. rewrite zlen_cons, zlen_cons, zlen_nil. lia. }
  { eapply out_mapped; [done|done|lia|lia]. }
  intros m1 Hf1 Hh1. rewrite <- enc_match_seq in Hh1 by lia.
  set (op' := op2 + (ml - 4 + 240) / 255) in *.
  assert (seqs_inv (k + ml) (done ++ [match_seq a k j ml]) op' m1) as HS1.
  { eapply seqs_inv_snoc; try done; try lia.
    - eapply frame_weaken; [exact Hf1|lia|lia].
    - rewrite zlen_match_seq by lia. lia. }
  assert (0 < comp_meas p (next_match, st)) as Hpos.
  { unfold comp_meas. simpl. rewrite Ean, addr_input by lia. unfold c_iend. lia. }
  assert (c_mflimitPlusOne p = addr (dlen - 11)) as ->.
  { rewrite addr_input by lia. unfold c_mflimitPlusOne, c_iend. change MFLIMIT with 12. lia. }
  destruct (Z.leb_spec (addr (dlen - 11)) (addr (k + ml))) as [Hge|Hlt].
  { eapply wp_goto_last; [exact HS1|done| |done]. eapply tbl_inv_mono; [exact Ht|lia]. }
  rewrite !addr_input in Hlt by lia.
  replace (addr (k + ml) - 2) with (addr (k + ml - 2)) by (rewrite !addr_input by lia; lia).
  apply wp_bind. apply (wp_hash_at _ _ _ _ _ Henv); [by apply HS1|lia|lia|].
  apply wp_bind. apply (wp_put_position (k + ml - 2) (k + ml)); [done|lia|lia|done|].
  intros tbl' Ht'. eapply wp_test_next_position; simpl; [exact HS1| |lia|done|done|done| | |].
  - by destruct done.
  - intros He. unfold low_ok in Hlow. by rewrite He in Hlow.
  - lia.
  - unfold comp_meas. simpl. rewrite Ean, !addr_input by lia. lia.
Qed.

(** * Forgetting positions *)

Lemma set_entry_0 t h h' :
  table_wf t -> table_wf (set_entry t (c_tt p) h 0) /\
  entry (set_entry t (c_tt p) h 0) (c_tt p) h' = if decide (h = h') then 0 else entry t (c_tt p) h'.
Proof.
  intros Hw. pose proof (ce_tt _ _ _ _ _ Henv) as Htt.
  assert (0 <= 0 < entry_max (c_tt p)) by (unfold entry_max; destruct (c_tt p); lia).
  split; [by apply set_entry_wf|by apply entry_set].
Qed.

(** When the positions from [k] to [kt] are cleared, the table knows only
    positions before [k]. *)
Lemma wp_clear_positions k kt tbl Q m :
  c_out p = fillOutput -> mframe m -> hlen < k -> kt <= dlen - 12 -> tbl_inv tbl (kt + 1) ->
  k <= kt -> (forall tbl', tbl_inv tbl' k -> Q tbl' m) ->
  wp (clear_positions (c_tt p) (addr k) (addr kt) tbl) Q m.
Proof.
  intros Eo Hf Hk Hkt [Hw Ht] Hle HQ. cenv. pose proof (ce_tt _ _ _ _ _ Henv) as Htt.
  destruct (ce_fill _ _ _ _ _ Henv Eo) as [Es _]. unfold clear_positions.
  apply (wp_loop (fun q m' => m' = m /\ exists x, q.1 = addr x /\ k <= x <= kt + 1 /\ table_wf q.2 /\
      forall h, in_table (c_tt p) h = true ->
        entry q.2 (c_tt p) h = 0 \/
        (entry q.2 (c_tt p) h = entry tbl (c_tt p) h /\
         forall y, k <= y < x -> h <> hash_bytes (c_tt p) (tail_at y)))
    (fun q => addr kt + 1 - q.1)).
  - intros [ptr t] m' [-> (x & Ex & Hx & Hwt & He)]. simpl in Ex, Hwt, He. subst ptr.
    split; [simpl; rewrite !addr_input by lia; lia|].
    destruct (Z.leb_spec (addr x) (addr kt)) as [Hxk|Hxk]; rewrite !addr_input in Hxk by lia.
    + apply wp_bind. apply (wp_hash_at _ _ _ _ _ Henv); [done|lia|lia|].
      set (hx := hash_bytes (c_tt p) (tail_at x)).
      apply wp_bind, wp_LZ4_clearHash; [done|by apply hash_in_table|]. apply wp_ret.
      split; [|simpl; lia]. split; [done|]. exists (x + 1). simpl.
      split; [rewrite !addr_input by lia; lia|]. split; [lia|].
      split; [by apply (set_entry_0 t hx hx)|]. intros h Hh.
      destruct (set_entry_0 t hx h Hwt) as [_ ->]. case_decide as Ed; [by left|].
      destruct (He h Hh) as [?|[E1 E2]]; [by left|right]. split; [done|]. intros y Hy.
      destruct (Z.eq_dec y x) as [->|Hne]; [by intros Eh; apply Ed|]. apply E2. lia.
    + apply wp_ret, HQ. split; [done|]. intros h Hh. simpl in *.
      assert (entry_ok p hist 0 (idx k) /\ entry_own p hist inp h 0) as H0.
      { unfold entry_ok, entry_own, Lz4CompressSearch.idx. rewrite Es. split; [|by left]. lia. }
      destruct (He h Hh) as [-> |[-> E2]]; [by destruct H0|].
      destruct (Ht h Hh) as [[Hr Hor] Hown]. specialize (Hown Eo). split; [|done].
      set (e := entry tbl (c_tt p) h) in *. split; [|done].
      unfold Lz4CompressSearch.idx in *. rewrite Es in *. destruct Hown as [-> | Hown]; [lia|].
      destruct (Z.lt_ge_cases e (k - hlen)); [lia|]. exfalso. eapply (E2 (e + hlen)); [lia|done].
  - split; [done|]. exists k. simpl. split; [done|]. split; [lia|]. split; [done|].
    intros h Hh. right. split; [done|]. lia.
  - simpl. rewrite !addr_input by lia. lia.
Qed.
End CompMatch.
