(* ===== verification/Lz4CompressRun.v ===== *)
(** The label [next_match] as a whole, and the run of the compressor. *)
From S2P Require Import Prelude.
From S2P Require Import Mem.
From S2P Require Import BlockFormat.
From S2P Require Import Lz4Common.
From S2P Require Import Lz4CommonSpec.
From S2P Require Import Lz4Decompress.
From S2P Require Import Lz4CountSpec.
From S2P Require Import Lz4Compress.
From S2P Require Import Lz4CompressGeneric.
From S2P Require Import Lz4CompressInv.
From S2P Require Import Lz4CompressSearch.
From S2P Require Import Lz4CompressEncode.
From S2P Require Import Lz4CompressProof.
From S2P Require Import Lz4CompressMatch.

Section CompRun.
Context (p : cparams) (hist inp : list Z) (m0 : mem) (lim : Z).
Context (Henv : comp_env p hist inp m0 lim).

Abbreviation data := (data hist inp).
Abbreviation hlen := (hlen hist).
Abbreviation dlen := (dlen hist inp).
Abbreviation addr := (addr p hist).
Abbreviation dget := (dget hist inp).
Abbreviation segment := (segment p hist inp).
Abbreviation tail_at := (tail_at hist inp).
Abbreviation mframe m := (frame (c_dest p) lim m0 m).
Abbreviation ext := (c_maybe_extMem p = true).
Abbreviation match_at := (match_at p hist).
Abbreviation deq := (deq hist inp).
Abbreviation slice := (slice hist inp).
Abbreviation tbl_inv := (tbl_inv p hist inp).
Abbreviation seqs_inv := (seqs_inv p hist inp m0 lim).
Abbreviation find_inv := (find_inv p hist inp m0 lim).
Abbreviation next_inv := (next_inv p hist inp m0 lim).
Abbreviation cstep_post := (cstep_post p hist inp m0 lim).
Abbreviation idx := (idx p hist).

Ltac cenv :=
  pose proof (dlen_eq _ _ _ _ _ Henv) as Hdl; pose proof (hlen_nonneg hist) as Hhl;
  pose proof (ce_max _ _ _ _ _ Henv) as Hmx; change LZ4_MAX_INPUT_SIZE with 2113929216 in Hmx;
  change MINMATCH with 4 in *; change MFLIMIT with 12 in *; change LASTLITERALS with 5 in *;
  change RUN_MASK with 15 in *.

(** * The match *)

(** The shortened match of [fillOutput]: the largest one whose length fits. *)
Lemma reduced_match mc R :
  3 <= R -> 0 <= mc -> R < (mc + 240) / 255 ->
  let new := 14 + R * 255 in 15 <= new < mc /\ (new + 240) / 255 = R.
Proof. intros HR Hmc Hlt new. subst new. Z.div_mod_to_equations. lia. Qed.

(** The longest match reaches past the positions known to match. *)
Lemma longest_reach k j kt ml :
  longest hist inp k j ml -> deq k j (kt - k + 4) -> kt <= dlen - 12 -> kt + 4 <= k + ml \/ ml < 0.
Proof.
  intros (_ & _ & Hor) Hd Hkt. destruct (Z.lt_ge_cases (k + ml) (kt + 4)) as [Hlt|]; [|by left].
  destruct (Z.lt_ge_cases ml 0); [by right|]. destruct Hor as [?|Hne]; [lia|].
  exfalso. apply Hne. symmetry. apply Hd. lia.
Qed.

Lemma wp_offset k j low mt off op Q m :
  match_at k j low mt -> hlen <= k -> (ext -> off = k - j) -> mapped m op 2 ->
  (forall m', frame op (op + 2) m m' -> holds m' op [(k - j) mod 256; (k - j) / 256] -> Q tt m') ->
  wp (if c_maybe_extMem p then LZ4_writeLE16 op (u16 off)
      else LZ4_writeLE16 op (u16 (addr k - mt))) Q m.
Proof.
  intros (Hj & Hd & -> & _) Hk Hoff Hm HQ. pose proof (hlen_nonneg hist).
  destruct (c_maybe_extMem p) eqn:He.
  - rewrite Hoff by done. apply wp_put_offset; [lia|done|done].
  - replace (addr k - addr j) with (k - j); [apply wp_put_offset; [lia|done|done]|].
    unfold Lz4CompressInv.addr. rewrite He. simpl. lia.
Qed.

(** The sequence up to its offset. *)
Lemma offset_holds a k j token op m m' :
  holds m token (16 * nibble (k - a) :: len_ext (k - a) ++ slice a (k - a)) ->
  op = token + 1 + (k - a + 240) / 255 + (k - a) -> hlen <= a <= k -> k <= dlen ->
  frame op (op + 2) m m' -> holds m' op [(k - j) mod 256; (k - j) / 256] ->
  holds m' token (16 * nibble (k - a) :: len_ext (k - a) ++ slice a (k - a) ++
    [(k - j) mod 256; (k - j) / 256]).
Proof.
  intros Hh Eop Ha Hk Hf Ho. pose proof (hlen_nonneg hist).
  assert (op = token + zlen (16 * nibble (k - a) :: len_ext (k - a) ++ slice a (k - a))) as E.
  { rewrite zlen_cons, zlen_app, zlen_len_ext', slice_zlen by lia. lia. }
  rewrite E in Hf, Ho. pose proof (holds_snoc _ _ _ _ _ _ Hh Hf Ho) as H'.
  by rewrite <- app_comm_cons, <- app_assoc in H'.
Qed.

(** The room for the offset. *)
Lemma offset_room a done token k op m :
  seqs_inv a done token m -> a <= k <= dlen - 12 ->
  op = token + 1 + (k - a + 240) / 255 + (k - a) ->
  (c_out p = limitedOutput -> op + 2 <= lim) ->
  (c_out p = fillOutput -> op + 11 <= lim) -> op + 2 <= lim.
Proof.
  intros HS Hk Eop Hlo Hfo. destruct (c_out p) eqn:Eo; [|by apply Hlo|specialize (Hfo eq_refl); lia].
  pose proof (match_room _ _ _ _ _ Henv a done token k 0 4 (op + 2) m HS) as Hr.
  rewrite Eo in Hr. destruct Hr as [Hr _]; try done; try lia.
  change ((4 - 4 + 240) / 255) with 0 in Hr. lia.
Qed.

(** A match that does not fit is shortened, and the positions behind its new
    end are forgotten. *)
Lemma wp_reduced_match a done st k j kt ml op2 m :
  seqs_inv a done (k_token st) m -> k_anchor st = addr a -> a <= k -> k <= kt <= dlen - 12 ->
  op2 = k_token st + 1 + (k - a + 240) / 255 + (k - a) + 2 ->
  holds m (k_token st) (16 * nibble (k - a) :: len_ext (k - a) ++ slice a (k - a) ++
    [(k - j) mod 256; (k - j) / 256]) ->
  match_at k j (k_lowLimit st) (k_match st) -> deq k j ml -> 4 <= ml -> k + ml <= dlen - 5 ->
  tbl_inv (k_tbl st) (kt + 1) ->
  (k_filledIp st = addr kt \/ (kt = k /\ (k_filledIp st <= addr k \/ lim < op2 + 9))) ->
  c_out p = fillOutput -> op2 + 9 <= lim -> lim < op2 + (1 + 5) + (ml - 4 + 240) / 255 ->
  wp (let newMatchCode := u32 (15 - 1 + (u32 (lim - op2) - 1 - 5) * 255) in
      let ip := addr (k + ml) - u32 (ml - 4 - newMatchCode) in
      tbl ← (if ip <=? k_filledIp st
             then clear_positions (c_tt p) ip (k_filledIp st) (k_tbl st)
             else mret (k_tbl st));
      end_match p st op2 ip newMatchCode tbl) (cstep_post (comp_meas p (next_match, st))) m.
Proof.
  intros HS Ean Hak Hkt Eop2 Hh HM Hd Hml Hle Ht Hfill Eo Hfo Efull.
  pose proof HS as (Ha & _ & _ & _ & Et & _ & _ & Hfm & _). cenv. zlen_facts.
  pose proof (Z.div_pos (k - a + 240) 255 ltac:(lia) ltac:(lia)).
  destruct (reduced_match (ml - 4) (lim - op2 - 6)) as [Hnew HR]; [lia|lia|lia|]. cbn zeta.
  pose proof (ce_cap _ _ _ _ _ Henv) as Hcap. pose proof (ce_lim _ _ _ _ _ Henv) as Hl.
  rewrite Eo in Hl. unfold c_olimit, int_max in *. rewrite (u32_small (lim - op2)) by lia.
  replace (15 - 1 + (lim - op2 - 1 - 5) * 255) with (14 + (lim - op2 - 6) * 255) by lia.
  remember (14 + (lim - op2 - 6) * 255) as new eqn:En'.
  rewrite (u32_small new), (u32_small (ml - 4 - new)) by lia.
  replace (addr (k + ml) - (ml - 4 - new)) with (addr (k + (new + 4)))
    by (rewrite !addr_input by lia; lia).
  apply wp_bind. eapply (wp_mono _ (fun tbl m' => m' = m /\ tbl_inv tbl (k + (new + 4)))).
  - destruct (Z.leb_spec (addr (k + (new + 4))) (k_filledIp st)) as [Hfi|Hfi].
    + assert (k_filledIp st = addr kt) as Efi.
      { destruct Hfill as [?|[-> [Hf'|Hf']]]; [done| |lia]. rewrite !addr_input in * by lia. lia. }
      rewrite Efi in *. rewrite !addr_input in Hfi by lia.
      apply (wp_clear_positions _ _ _ _ _ Henv); try done; lia.
    + apply wp_ret. split; [done|]. eapply tbl_inv_mono; [exact Ht|].
      destruct Hfill as [Efi|[-> _]]; [|lia]. rewrite Efi, !addr_input in Hfi by lia. lia.
  - intros tbl m' [-> Ht']. replace new with (new + 4 - 4) at 2 by lia.
    eapply (wp_end_match _ _ _ _ _ Henv a done st k j); try done; try lia;
      try (replace (new + 4 - 4) with new by lia; lia).
    intros i Hi. apply Hd. lia.
Qed.

Lemma wp_next_match st m :
  next_inv st m -> wp (next_match_body p st) (cstep_post (comp_meas p (next_match, st))) m.
Proof.
  intros (a & done & k & j & kt & HS & Ean & Eip & Hak & Hkt & Eop & Hop & Hh & HM & Hd & Hoff &
    H4 & Ht & Hfill & Hlo).
  pose proof HS as (Ha & _ & _ & _ & Et & _ & _ & Hfm & _). cenv. zlen_facts.
  pose proof (Z.div_pos (k - a + 240) 255 ltac:(lia) ltac:(lia)).
  assert (0 < comp_meas p (next_match, st)) as Hpos.
  { unfold comp_meas. simpl. rewrite Ean, addr_input by lia. unfold c_iend. lia. }
  unfold next_match_body. rewrite Eip. change MFLIMIT with 12. change MINMATCH with 4.
  change LASTLITERALS with 5.
  assert (c_out p <> notLimited -> c_olimit p = lim) as El.
  { pose proof (ce_lim _ _ _ _ _ Henv) as Hl. by destruct (c_out p). }
  destruct (bool_decide (c_out p = fillOutput) && (c_olimit p <? k_op st + 2 + 1 + 12 - 4)) eqn:Ef.
  { eapply wp_goto_last; [exact HS|done| |done]. eapply tbl_inv_mono; [exact Ht|lia]. }
  assert (c_out p = fillOutput -> k_op st + 11 <= lim) as Hfo.
  { intros Eo. rewrite El, Eo in Ef by congruence.
    rewrite bool_decide_eq_true_2 in Ef by done. cbn [andb] in Ef. apply Z.ltb_ge in Ef. lia. }
  pose proof (offset_room a done _ k _ m HS ltac:(lia) Eop Hlo Hfo) as Hor.
  apply wp_bind. eapply (wp_offset k j); [exact HM|lia|done|eapply out_mapped; [done|done|lia|lia]|].
  intros m1 Hf1 Ho1. pose proof (offset_holds _ _ _ _ _ _ _ Hh Eop ltac:(lia) ltac:(lia) Hf1 Ho1) as Hh1.
  assert (seqs_inv a done (k_token st) m1) as HS1.
  { eapply seqs_inv_frame; [exact HS|]. eapply frame_weaken; [exact Hf1|lia|lia]. }
  apply wp_bind. eapply (wp_match_code _ _ _ _ _ Henv k j);
    [apply HS1|exact HM|intros i Hi; apply Hd; lia|lia|done|].
  intros ml Hml HL. pose proof HL as (Hdl' & Hle & _).
  destruct (longest_reach k j kt ml HL Hd ltac:(lia)) as [Hreach|?]; [|lia].
  rewrite (u32_small (ml - 4 + 240)) by lia.
  remember (k_op st + 2) as op2 eqn:Eop2.
  wif.
  - apply andb_prop in E as [En Efull]. apply Z.ltb_lt in Efull.
    assert (c_out p <> notLimited) as Hnl by (by intros E'; rewrite E' in En).
    rewrite El in * by done.
    destruct (bool_decide (c_out p = fillOutput)) eqn:Eo.
    2: { pose proof (match_bound _ _ _ _ _ Henv a done _ k ml op2 m1 HS1 ltac:(lia) ltac:(lia)
           ltac:(lia) ltac:(lia)).
         apply wp_return_0; [|by apply HS1|eapply tbl_inv_mono; [exact Ht|lia]|lia].
         apply bool_decide_eq_false in Eo. by destruct (c_out p). }
    apply bool_decide_eq_true in Eo. eapply (wp_reduced_match a done st k j kt ml op2); try done; try lia.
  - eapply (wp_end_match _ _ _ _ _ Henv a done st k j); try done; try lia.
    + eapply tbl_inv_mono; [exact Ht|lia].
    + intros Hnl. rewrite El in E by done. rewrite bool_decide_eq_false_2 in E by done.
      cbn [andb negb] in E. apply Z.ltb_ge in E. lia.
    + intros Eo. specialize (Hfo Eo). lia.
    + destruct Hfill as [-> |[-> [Hf'|Hf']]]; [left|left|right].
      * rewrite !addr_input by lia. lia.
      * rewrite !addr_input in * by lia. lia.
      * pose proof (Z.div_pos (ml - 4 + 240) 255 ltac:(lia) ltac:(lia)). lia.
Qed.

(** * The run *)

Lemma wp_comp_step c m :
  comp_inv p hist inp m0 lim c m -> wp (comp_step p c) (cstep_post (comp_meas p c)) m.
Proof.
  destruct c as [[| |] st]; [apply wp_find_match|apply wp_next_match|]; try exact Henv.
  intros (a & done & HS & Ean & Ht). eapply (wp_last_literals _ _ _ _ _ Henv); try done.
Qed.

Lemma comp_meas_pos c m : comp_inv p hist inp m0 lim c m -> 0 <= comp_meas p c.
Proof.
  cenv. unfold comp_meas. destruct c as [[| |] st]; simpl; [| |done].
  - intros (a & done & k & (Ha & _) & -> & _). rewrite addr_input by lia. unfold c_iend. lia.
  - intros (a & done & k & j & kt & (Ha & _) & -> & _). rewrite addr_input by lia. unfold c_iend. lia.
Qed.

Lemma wp_comp_run c m :
  comp_inv p hist inp m0 lim c m -> comp_meas p c < Z.of_nat (comp_fuel (c_inputSize p)) ->
  wp (loop (comp_fuel (c_inputSize p)) (comp_step p) c) (comp_post p hist inp m0 lim) m.
Proof.
  apply (wp_loop (comp_inv p hist inp m0 lim) (comp_meas p)). clear c m. intros c m HI.
  split; [by eapply comp_meas_pos|]. eapply wp_mono; [by apply wp_comp_step|]. done.
Qed.

(** The start: nothing is encoded, and the position of the first byte is known. *)
Lemma seqs_inv_start m : mframe m -> c_dest p <= lim -> (c_out p = fillOutput -> c_dest p + 1 <= lim) ->
  seqs_inv hlen [] (c_dest p) m.
Proof.
  intros Hf Hl Hfo. cenv. split; [lia|]. split; [done|]. split; [done|].
  split; [|split; [by rewrite Z.add_0_r|split; [done|split; [apply holds_nil|split; [done|split]]]]].
  - simpl. f_equal. unfold Lz4CompressInv.data, Lz4CompressInv.hlen. rewrite take_app_length'; [done|zn].
  - unfold cap_ok. rewrite !Z.sub_diag. change (0 + 0 / 255) with 0. split; [lia|].
    destruct (c_out p); [done|done|]. split; [by apply Hfo|]. intros s. done.
  - intros s. done.
Qed.
End CompRun.

(** * The whole function *)

(** The state whose dictionary is used. *)
Definition dict_stream (cctx : LZ4_stream_t) (dd : dict_directive) : option LZ4_stream_t :=
  if bool_decide (dd = usingDictCtx) then dictCtx cctx else Some cctx.

Definition gen_params (cctx d : LZ4_stream_t) (src dst n cap : Z) (out : limitedOutput_directive)
    (tt : tableType_t) (dd : dict_directive) (di : dictIssue_directive) (accel : Z) : cparams :=
  CParams src n dst cap out tt dd di accel (currentOffset cctx) (dictionary d) (dictSize d)
    (hashTable d) (currentOffset d).

Section Generic.
Context (cctx d : LZ4_stream_t) (src dst n cap : Z) (out : limitedOutput_directive).
Context (tt : tableType_t) (dd : dict_directive) (di : dictIssue_directive) (accel : Z).
Context (hist inp : list Z) (m0 : mem) (lim : Z).

Abbreviation p := (gen_params cctx d src dst n cap out tt dd di accel).

Definition generic_post (r : Z * option Z * LZ4_stream_t) (m : mem) : Prop :=
  exists cr, comp_post p hist inp m0 lim cr m /\
    r = (r_result cr, r_consumed cr, with_table (advance_stream cctx n tt dd) (r_tbl cr)).

Lemma wp_LZ4_compress_generic :
  comp_env p hist inp m0 lim -> dict_stream cctx dd = Some d -> dst <= lim ->
  (dd = noDict -> hist = []) -> tbl_inv p hist inp (hashTable cctx) (hlen hist + 1) ->
  wp (LZ4_compress_generic cctx src dst n cap out tt dd di accel) generic_post m0.
Proof.
  intros Henv Ed Hlim Hnd Ht. pose proof (ce_max _ _ _ _ _ Henv) as Hn. simpl in Hn.
  pose proof (ce_tt _ _ _ _ _ Henv) as Htt. simpl in Htt.
  pose proof (dlen_eq _ _ _ _ _ Henv) as Hdl. pose proof (hlen_nonneg hist) as Hhl. simpl in Hdl.
  unfold LZ4_compress_generic. change LZ4_MAX_INPUT_SIZE with 2113929216 in *.
  rewrite !u32_small by lia. destruct (Z.ltb_spec 2113929216 n); [lia|].
  destruct (Z.eqb_spec n 0); [lia|].
  unfold LZ4_compress_generic_validated. fold (dict_stream cctx dd). rewrite Ed.
  fold p. wif.
  { apply andb_prop in E as [Eo%bool_decide_eq_true Ec%Z.ltb_lt].
    pose proof (ce_fill _ _ _ _ _ Henv Eo) as [_ Hc]. simpl in Hc. lia. }
  set (low := src - _). set (cctx' := advance_stream cctx n tt dd).
  assert (hashTable cctx' = hashTable cctx) as Eht
    by (unfold cctx', advance_stream; by destruct (bool_decide (dd = usingDictCtx))).
  assert (c_maybe_extMem p = false -> low = src - hlen hist) as Hlow.
  { unfold low, c_maybe_extMem. pose proof (ce_dsize _ _ _ _ _ Henv) as Hds. simpl in *.
    destruct dd; simpl; intros; try done; [by rewrite (Hnd eq_refl)|by rewrite Hds]. }
  assert (seqs_inv p hist inp m0 lim (hlen hist) [] dst m0) as HS.
  { eapply (seqs_inv_start p); [done|apply frame_refl|done|]. intros Eo.
    pose proof (ce_fill _ _ _ _ _ Henv Eo) as [_ Hc]. pose proof (ce_lim _ _ _ _ _ Henv) as Hl.
    rewrite Eo in Hl. unfold c_olimit in Hl. simpl in *. lia. }
  assert (addr p hist (hlen hist) = src) as Ea by (rewrite addr_input by lia; simpl; lia).
  assert (forall c, comp_inv p hist inp m0 lim c m0 -> comp_meas p c < Z.of_nat (comp_fuel n) ->
    wp (r ← loop (comp_fuel n) (comp_step p) c;
        mret (r_result r, r_consumed r, with_table cctx' (r_tbl r))) generic_post m0) as Hrun.
  { intros c Hc Hm. apply wp_bind. eapply wp_mono; [by apply (wp_comp_run p hist inp m0 lim Henv c m0)|].
    intros cr m Hcr. apply wp_ret. by exists cr. }
  assert (forall l st, k_anchor st = src -> comp_meas p (l, st) < Z.of_nat (comp_fuel n)) as Hmeas.
  { intros l st E'. unfold comp_meas, comp_fuel, c_iend. simpl. rewrite E'. destruct l; lia. }
  change LZ4_minLength with 13. wif.
  - apply Hrun; [|by apply Hmeas]. exists (hlen hist), []. simpl. rewrite Eht.
    split; [done|]. split; [done|]. eapply tbl_inv_mono; [exact Ht|lia].
  - apply wp_bind. rewrite <- Ea at 1. apply (wp_hash_at p hist inp m0 lim Henv); [apply frame_refl|lia|lia|].
    set (h := hash_bytes _ _).
    assert (in_table tt h = true) as Hin by by apply hash_in_table.
    rewrite (bool_decide_eq_false_2 (tt = byPtr)) by (destruct Htt as [-> | ->]; done).
    assert (currentOffset cctx = idx p hist (hlen hist)) as Eidx by (unfold idx; simpl; lia).
    rewrite Eidx, Eht.
    apply wp_bind, wp_LZ4_putIndexOnHash; [done|done|by apply (idx_range p hist inp m0 lim Henv); lia|].
    replace (src + 1) with (addr p hist (hlen hist + 1)) at 1 by (rewrite addr_input by lia; simpl; lia).
    apply wp_bind. apply (wp_hash_at p hist inp m0 lim Henv); [apply frame_refl|lia|lia|].
    apply Hrun; [|by apply Hmeas]. exists (hlen hist), [], (hlen hist + 1). simpl.
    split; [done|]. split; [done|]. split; [rewrite addr_input by lia; simpl; lia|].
    split; [lia|]. split; [done|]. split; [|done].
    apply (tbl_inv_put p hist inp m0 lim Henv); try done; lia.
Qed.

(** The empty input. *)
Lemma wp_LZ4_compress_generic_empty (Q : _ -> mem -> Prop) m :
  n = 0 -> (out = notLimited -> mapped m dst 1) -> (0 < cap -> mapped m dst 1) ->
  (out <> notLimited -> cap <= 0 -> Q (0, None, cctx) m) ->
  (forall m', out = notLimited \/ 0 < cap -> frame dst (dst + 1) m m' -> holds m' dst [0] ->
     Q (1, if bool_decide (out = fillOutput) then Some 0 else None, cctx) m') ->
  wp (LZ4_compress_generic cctx src dst n cap out tt dd di accel) Q m.
Proof.
  intros -> Hm1 Hm2 HQ0 HQ1. unfold LZ4_compress_generic.
  change (u32 LZ4_MAX_INPUT_SIZE <? u32 0) with false. change (0 =? 0) with true. cbn iota.
  wif.
  - apply andb_prop in E as [En Ec]. apply negb_true_iff, bool_decide_eq_false in En.
    apply Z.leb_le in Ec. by apply wp_ret, HQ0.
  - assert (out = notLimited \/ 0 < cap) as Hor.
    { apply andb_false_iff in E as [En|Ec%Z.leb_gt]; [|by right].
      apply negb_false_iff, bool_decide_eq_true in En. by left. }
    apply wp_bind, wp_storeb_frame; [destruct Hor; auto|]. intros m1 Hf Hh. apply wp_ret. by apply HQ1.
Qed.
End Generic.
