(* ===== verification/Lz4CompressSpec.v ===== *)
(** The contract of the one-shot compressors and its proof for each of the
    entry points. *)
From S2P Require Import Prelude.
From S2P Require Import Mem.
From S2P Require Import BlockFormat.
From S2P Require Import Lz4Common.
From S2P Require Import Lz4Decompress.
From S2P Require Import Lz4DecodeSpec.
From S2P Require Import Lz4Compress.
From S2P Require Import Lz4CompressGeneric.
From S2P Require Import Lz4CompressInv.
From S2P Require Import Lz4CompressSearch.
From S2P Require Import Lz4CompressEncode.
From S2P Require Import Lz4CompressProof.
From S2P Require Import Lz4CompressRun.

(** * The contract *)

(** [enc] is a conforming block with valid offsets that stands for [inp]. *)
Definition encodes (hist inp enc : list Z) : Prop :=
  exists b, enc = enc_block b /\ conforming b /\ Forall (fun s => s_off s <> 0) (b_seqs b) /\
    b_nib b = 0 /\ expand hist b = Some inp.

(** The buffers of a call. *)
Definition cbufs_ok (m : mem) (src : Z) (inp : list Z) (dst cap : Z) : Prop :=
  bytes_ok inp /\ zlen inp <= int_max /\ 0 <= cap <= int_max /\
  holds m src inp /\ mapped m dst cap /\ (src + zlen inp <= dst \/ dst + cap <= src).

#[export] Instance cbufs_ok_dec m src inp dst cap : Decision (cbufs_ok m src inp dst cap).
Proof. unfold cbufs_ok, bytes_ok. apply _. Defined.

(** What a result [r] says: [0] is a failure, which the bound excludes. *)
Definition compressed (m : mem) (hist inp : list Z) (dst cap r : Z) (m' : mem) : Prop :=
  frame dst (dst + Z.min cap (LZ4_compressBound (zlen inp))) m m' /\
  0 <= r <= Z.min cap (LZ4_compressBound (zlen inp)) /\
  (r <> 0 -> exists enc, encodes hist inp enc /\ zlen enc = r /\ holds m' dst enc) /\
  (zlen inp <= LZ4_MAX_INPUT_SIZE -> LZ4_compressBound (zlen inp) <= cap -> r <> 0).

(** [n] bytes of [inp] were encoded into at most [cap] bytes. *)
Definition filled (m : mem) (hist inp : list Z) (dst cap r n : Z) (m' : mem) : Prop :=
  frame dst (dst + cap) m m' /\ 0 < r <= cap /\ 0 <= n <= zlen inp /\
  exists enc, encodes hist (take (Z.to_nat n) inp) enc /\ zlen enc = r /\ holds m' dst enc.

Lemma encodes_empty hist : encodes hist [] [0].
Proof.
  exists (Block [] [] 0). split; [done|]. split; [|split; [done|split; [done|]]].
  - split; [|done]. split; [done|]. split; [constructor|simpl; lia].
  - apply expand_spec. by exists hist.
Qed.

Lemma comp_post_encodes p hist inp m0 lim cr m :
  comp_post p hist inp m0 lim cr m -> r_result cr <> 0 ->
  exists n enc, 0 <= n <= c_inputSize p /\ encodes hist (take (Z.to_nat n) inp) enc /\
    zlen enc = r_result cr /\ holds m (c_dest p) enc /\ 0 < r_result cr <= lim - c_dest p /\
    (if bool_decide (c_out p = fillOutput) then r_consumed cr = Some n
     else n = c_inputSize p /\ r_consumed cr = None).
Proof.
  intros (Hf & _ & [[? _]|(b & n & H1 & H2 & H3 & H4 & H5 & H6 & H7 & H8 & H9 & H10)]) Hr; [done|].
  exists n, (enc_block b). split; [done|]. split; [by exists b|]. split; [done|]. split; [done|].
  split; [|done]. zlen_facts. lia.
Qed.

Lemma comp_post_pos p hist inp m0 lim cr m :
  comp_post p hist inp m0 lim cr m ->
  c_out p <> limitedOutput \/ c_dest p + LZ4_compressBound (c_inputSize p) <= lim -> 0 < r_result cr.
Proof.
  intros (_ & _ & [(_ & ? & ?)|(b & n & _ & _ & _ & _ & _ & _ & -> & _)]) Ho; [destruct Ho; [done|lia]|].
  pose proof (enc_block_nonempty b). destruct (enc_block b); [done|]. rewrite zlen_cons.
  zlen_facts. lia.
Qed.

(** * States without a dictionary *)

(** A state between two one-shot compressions: the entries of the table are
    positions before the current offset. *)
Definition stream_wf (s : LZ4_stream_t) : Prop :=
  table_wf (hashTable s) /\ 0 <= currentOffset s < 2 ^ 32 /\
  (tableType s = byU16 -> currentOffset s < LZ4_64Klimit) /\
  match tableType s with
  | clearedTable => hashTable s = ∅ /\ currentOffset s = 0
  | byPtr => False
  | ty => forall h, in_table ty h = true -> entry (hashTable s) ty h = 0 \/
      entry (hashTable s) ty h + 4 <= currentOffset s
  end.

(** A state in which the compression of [n] bytes can start. *)
Definition stream_ready (s : LZ4_stream_t) (tt : tableType_t) (di : dictIssue_directive) (n : Z) : Prop :=
  index_type tt /\ table_wf (hashTable s) /\ dictSize s = 0 /\
  0 <= currentOffset s /\ currentOffset s + n < 2 ^ 32 - 2 ^ 16 /\
  (tt = byU16 -> currentOffset s + n < LZ4_64Klimit) /\
  forall h, in_table tt h = true ->
    let e := entry (hashTable s) tt h in
    (e = 0 \/ e + 4 <= currentOffset s) /\
    (currentOffset s <= e \/ e + 65535 <= currentOffset s \/ di = dictSmall).

Lemma init_wf : stream_wf LZ4_initStream.
Proof. split; [apply table_wf_empty|]. split; [simpl; lia|]. by split. Qed.

Lemma empty_ready s tt di n :
  index_type tt -> hashTable s = ∅ -> dictSize s = 0 -> currentOffset s = 0 -> 
  0 <= n <= LZ4_MAX_INPUT_SIZE -> (tt = byU16 -> n < LZ4_64Klimit) -> stream_ready s tt di n.
Proof.
  intros Htt Et Ed Eo Hn Hu. change LZ4_MAX_INPUT_SIZE with 2113929216 in Hn.
  split; [done|]. rewrite Et, Ed, Eo. split; [apply table_wf_empty|]. split; [done|].
  split; [lia|]. split; [lia|]. split; [intros E; specialize (Hu E); lia|].
  intros h _. cbn zeta. rewrite entry_empty. lia.
Qed.

Lemma init_ready tt di n :
  index_type tt -> 0 <= n <= LZ4_MAX_INPUT_SIZE -> (tt = byU16 -> n < LZ4_64Klimit) ->
  stream_ready LZ4_initStream tt di n.
Proof. intros. by apply empty_ready. Qed.

(** [LZ4_prepareTable] makes any state ready. *)
Lemma prepare_ready s tt n :
  stream_wf s -> index_type tt -> 0 <= n <= LZ4_MAX_INPUT_SIZE -> (tt = byU16 -> n < LZ4_64Klimit) ->
  let s' := LZ4_prepareTable s n tt in
  stream_ready s' tt (if bool_decide (tt = byU16) && negb (currentOffset s' =? 0)
                      then dictSmall else noDictIssue) n.
Proof.
  intros (Hw & Ho & Hb & Hs) Htt Hn Hu s'. unfold s', LZ4_prepareTable. clear s'.
  set (reset := negb (bool_decide (tableType s = clearedTable)) && _).
  destruct reset eqn:Er; cbn [hashTable dictionary dictCtx currentOffset tableType dictSize].
  { change (negb (0 =? 0)) with false. cbn [andb]. rewrite andb_false_r. by apply empty_ready. }
  unfold reset in Er. change LZ4_MAX_INPUT_SIZE with 2113929216 in Hn.
  destruct (bool_decide (tableType s = clearedTable)) eqn:Ec.
  { apply bool_decide_eq_true in Ec. rewrite Ec in Hs. destruct Hs as [Et E0]. rewrite E0.
    change (negb (0 =? 0)) with false. cbn [andb]. rewrite andb_false_r. by apply empty_ready. }
  cbn [negb andb] in Er. repeat (apply orb_false_iff in Er as [Er ?]).
  apply negb_false_iff, bool_decide_eq_true in Er. rewrite Er in *.
  rewrite (u32_small n) in * by lia. change (4 * KB) with 4096 in *. change (1 * GB) with 1073741824 in *.
  destruct Htt as [-> | ->]; repeat case_bool_decide; try done; cbn [andb] in *.
  - rewrite andb_true_r. match goal with H : (1073741824 <? _) = false |- _ => apply Z.ltb_ge in H end.
    unfold stream_ready. cbn [hashTable currentOffset dictSize]. change (64 * KB) with 65536.
    split; [by left|]. split; [done|]. split; [done|].
    destruct (Z.eqb_spec (currentOffset s) 0) as [E0|E0]; cbn [negb].
    + rewrite E0. split; [lia|]. split; [lia|]. split; [done|]. intros h Hh.
      pose proof (entry_range (hashTable s) byU32 h ltac:(by left) Hw) as Hr. specialize (Hs h Hh). lia.
    + rewrite u32_small by lia. split; [lia|]. split; [lia|]. split; [done|]. intros h Hh.
      specialize (Hs h Hh). lia.
  - rewrite andb_false_r. repeat match goal with H : (_ <=? _) = false |- _ => apply Z.leb_gt in H end.
    split; [by right|]. cbn [hashTable currentOffset dictSize]. split; [done|]. split; [done|].
    split; [lia|]. assert (currentOffset s + n < 65535) as Hlt.
    { specialize (Hb eq_refl). change LZ4_64Klimit with 65547 in *. rewrite u32_small in *; lia. }
    split; [lia|]. split; [intros _; change LZ4_64Klimit with 65547; lia|]. intros h Hh. specialize (Hs h Hh).
    split; [lia|]. destruct (Z.eqb_spec (currentOffset s) 0) as [E0|E0]; cbn [negb andb]; [|by right; right].
    pose proof (entry_range (hashTable s) byU16 h ltac:(by right) Hw) as Hr. left. lia.
Qed.

Section NoDict.
Context (s : LZ4_stream_t) (src : Z) (inp : list Z) (dst cap lim : Z).
Context (out : limitedOutput_directive) (ty : tableType_t) (di : dictIssue_directive) (accel : Z).
Context (m : mem).
Context (Hready : stream_ready s ty di (zlen inp)) (Hbytes : bytes_ok inp) (Haccel : 1 <= accel).
Context (Hsize : zlen inp <= LZ4_MAX_INPUT_SIZE) (Hinp : holds m src inp).
Context (Hout : mapped m dst (lim - dst)) (Hdst : dst <= lim) (Hcap : 0 <= cap <= int_max).
Context (Hdisj : src + zlen inp <= dst \/ lim <= src).
Context (Hlim : match out with
                | notLimited => dst + LZ4_compressBound (zlen inp) <= lim
                | _ => lim = dst + cap end).
Context (Hfill : out = fillOutput -> currentOffset s = 0 /\ hashTable s = ∅ /\ 1 <= cap).

Abbreviation p := (gen_params s s src dst (zlen inp) cap out ty noDict di accel).

Lemma nodict_env : inp <> [] -> comp_env p [] inp m lim.
Proof.
  intros Hne. destruct Hready as (Htt & Hw & Hds & Ho & Hn & Hu & He).
  assert (0 < zlen inp) by (destruct inp; [done|rewrite zlen_cons; zlen_facts; lia]).
  constructor; simpl; try done.
  - apply holds_nil.
  - by left.
  - intros Ef. destruct (Hfill Ef) as (? & _ & ?). done.
Qed.

Lemma nodict_tbl : tbl_inv p [] inp (hashTable s) (hlen [] + 1).
Proof.
  destruct Hready as (Htt & Hw & Hds & Ho & Hn & Hu & He). split; [done|]. simpl. intros h Hh.
  pose proof (entry_range (hashTable s) ty h Htt Hw) as Hr. destruct (He h Hh) as [H1 H2].
  unfold entry_ok, idx. simpl. change (hlen []) with 0. split.
  - zlen_facts. split; [lia|]. split; [lia|]. destruct H2 as [?|[?|?]]; [by left|right; right; by left|].
    destruct (Z.lt_ge_cases (entry (hashTable s) ty h) (currentOffset s)); [|left; lia].
    right. right. right. left. split; [done|lia].
  - intros Ef. destruct (Hfill Ef) as (_ & -> & _). left. apply entry_empty.
Qed.

Lemma wp_nodict (Q : _ -> mem -> Prop) :
  inp <> [] ->
  (forall r m', generic_post s s src dst (zlen inp) cap out ty noDict di accel [] inp m lim r m' -> Q r m') ->
  wp (LZ4_compress_generic s src dst (zlen inp) cap out ty noDict di accel) Q m.
Proof.
  intros Hne HQ. eapply wp_mono; [|exact HQ].
  apply wp_LZ4_compress_generic; [by apply nodict_env|done|done|done|apply nodict_tbl].
Qed.

(** The state afterwards. *)
Lemma nodict_stream t : inp <> [] -> tbl_inv p [] inp t (dlen [] inp) ->
  stream_wf (with_table (advance_stream s (zlen inp) ty noDict) t).
Proof.
  intros Hne [Hw Ht]. destruct Hready as (Htt & _ & Hds & Ho & Hn & Hu & _).
  pose proof (dlen_eq _ _ _ _ _ (nodict_env Hne)) as Hdl. zlen_facts. simpl in Hdl.
  unfold advance_stream. rewrite bool_decide_eq_false_2 by done.
  unfold stream_wf, with_table. cbn [hashTable currentOffset tableType].
  change LZ4_MAX_INPUT_SIZE with 2113929216 in *. rewrite (u32_small (zlen inp)), u32_small by lia.
  split; [done|]. split; [lia|]. split; [done|].
  assert (forall h, in_table ty h = true ->
    entry t ty h = 0 \/ entry t ty h + 4 <= currentOffset s + zlen inp) as He.
  { intros h Hh. destruct (Ht h Hh) as [(_ & ? & _) _]. done. }
  destruct Htt as [E|E]; by rewrite E in *.
Qed.
End NoDict.

(** * One-shot compression *)

(** The compression of an input with a ready state, with enough room or not. *)
Definition fast_generic (s : LZ4_stream_t) (src dst n cap : Z) (ty : tableType_t)
    (di : dictIssue_directive) (accel : Z) : M (Z * option Z * LZ4_stream_t) :=
  if LZ4_compressBound n <=? cap
  then LZ4_compress_generic s src dst n 0 notLimited ty noDict di accel
  else LZ4_compress_generic s src dst n cap limitedOutput ty noDict di accel.

Lemma compressBound_range n : 0 <= n -> n <= int_max ->
  0 <= LZ4_compressBound n /\ (n <= LZ4_MAX_INPUT_SIZE -> LZ4_compressBound n = n + n / 255 + 16) /\
  (LZ4_MAX_INPUT_SIZE < n -> LZ4_compressBound n = 0).
Proof.
  intros Hn Hx. destruct (Z.lt_ge_cases LZ4_MAX_INPUT_SIZE n) as [Hl|Hl].
  - unfold LZ4_compressBound. change LZ4_MAX_INPUT_SIZE with 2113929216 in *. unfold int_max in *.
    rewrite !u32_small by lia. destruct (Z.ltb_spec 2113929216 n); lia.
  - rewrite compressBound_eq by lia. pose proof (Z.div_pos n 255 ltac:(lia) ltac:(lia)). lia.
Qed.

(** The contract with the state. *)
Definition compressed_st (m : mem) (inp : list Z) (dst cap : Z) (r : Z * option Z * LZ4_stream_t)
    (m' : mem) : Prop :=
  compressed m [] inp dst cap r.1.1 m' /\ stream_wf r.2.

(** An output beyond the limits of the format is refused. *)
Lemma wp_too_large s src dst n cap out ty dd di accel (Q : _ -> mem -> Prop) m :
  LZ4_MAX_INPUT_SIZE < n <= int_max -> Q (0, None, s) m ->
  wp (LZ4_compress_generic s src dst n cap out ty dd di accel) Q m.
Proof.
  intros Hn HQ. unfold LZ4_compress_generic. change LZ4_MAX_INPUT_SIZE with 2113929216 in *.
  unfold int_max in *. rewrite !u32_small by lia. destruct (Z.ltb_spec 2113929216 n); [|lia].
  by apply wp_ret.
Qed.

Section FastGeneric.
Context (s : LZ4_stream_t) (src : Z) (inp : list Z) (dst cap : Z).
Context (ty : tableType_t) (di : dictIssue_directive) (accel : Z) (m : mem).
Context (Hbufs : cbufs_ok m src inp dst cap) (Haccel : 1 <= accel).
Context (Hready : zlen inp <= LZ4_MAX_INPUT_SIZE -> stream_ready s ty di (zlen inp)) (Hwf : stream_wf s).

Abbreviation bound := (LZ4_compressBound (zlen inp)).

Lemma fast_generic_empty : inp = [] ->
  wp (fast_generic s src dst (zlen inp) cap ty di accel) (compressed_st m inp dst cap) m.
Proof.
  intros E. destruct Hbufs as (_ & _ & Hc & _ & Hm & _). unfold fast_generic.
  rewrite E. unfold compressed_st, compressed. change (zlen (@nil Z)) with 0.
  change (LZ4_compressBound 0) with 16. change LZ4_MAX_INPUT_SIZE with 2113929216.
  assert (forall out cap', (out = notLimited /\ 16 <= cap) \/ (cap' = cap /\ out = limitedOutput /\ cap < 16) ->
    wp (LZ4_compress_generic s src dst 0 cap' out ty noDict di accel)
      (fun r m' => (frame dst (dst + Z.min cap 16) m m' /\ 0 <= r.1.1 <= Z.min cap 16 /\
        (r.1.1 <> 0 -> exists enc, encodes [] [] enc /\ zlen enc = r.1.1 /\ holds m' dst enc) /\
        (0 <= 2113929216 -> 16 <= cap -> r.1.1 <> 0)) /\ stream_wf r.2) m) as Hgen.
  { intros out cap' Ho. apply wp_LZ4_compress_generic_empty; [done| | | |].
    - intros ->. destruct Ho as [[_ ?]|[_ [? _]]]; [|done]. eapply mapped_sub; [exact Hm|lia|lia].
    - intros ?. eapply mapped_sub; [exact Hm|lia|]. destruct Ho as [?|?]; lia.
    - intros Hn Hc'. simpl. destruct Ho as [[? _]|(-> & _ & ?)]; [done|].
      split; [|done]. split; [apply frame_refl|]. split; [lia|]. split; [done|lia].
    - intros m' Hor Hf Hh. simpl. split; [|done].
      assert (1 <= cap) by (destruct Ho as [[? ?]|(-> & -> & ?)]; [lia|destruct Hor; [done|lia]]).
      split; [eapply frame_weaken; [exact Hf|lia|lia]|]. split; [lia|]. split; [|done].
      intros _. exists [0]. split; [apply encodes_empty|]. split; [done|exact Hh]. }
  destruct (Z.leb_spec 16 cap); apply Hgen; [by left|by right].
Qed.

(** The outcome of the run that [lim] bounds. *)
Lemma fast_post out cap' r m' :
  inp <> [] -> zlen inp <= LZ4_MAX_INPUT_SIZE -> 0 <= cap' <= int_max ->
  (out = notLimited /\ bound <= cap) \/ (out = limitedOutput /\ cap < bound /\ cap' = cap) ->
  generic_post s s src dst (zlen inp) cap' out ty noDict di accel [] inp m (dst + Z.min cap bound) r m' ->
  compressed_st m inp dst cap r m'.
Proof.
  intros Hne Hsz Hc' Ho (cr & Hcr & ->). destruct Hbufs as (Hb & Hi & Hc & Hh & Hm & Hd). zlen_facts.
  destruct (compressBound_range (zlen inp)) as (Hb0 & _); [lia|done|].
  split; simpl.
  - split; [apply Hcr|]. split; [|split].
    + destruct (Z.eq_dec (r_result cr) 0) as [E|E]; [lia|].
      destruct (comp_post_encodes _ _ _ _ _ _ _ Hcr E) as (n & enc & _ & _ & _ & _ & Hr & _).
      simpl in Hr. lia.
    + intros E. destruct (comp_post_encodes _ _ _ _ _ _ _ Hcr E) as (n & enc & _ & He & Hz & Hh' & _ & Hn).
      simpl in Hn, Hh'. rewrite bool_decide_eq_false_2 in Hn by (destruct Ho as [[-> _]|[-> _]]; done).
      destruct Hn as [-> _]. exists enc. rewrite take_ge in He by zn. done.
    + intros _ Hbc. destruct Ho as [[-> _]|[_ ?]]; [|lia].
      pose proof (comp_post_pos _ _ _ _ _ _ _ Hcr). simpl in *. specialize (H0 ltac:(by left)). lia.
  - destruct Hcr as (_ & Ht & _).
    eapply (nodict_stream s src inp dst cap' (dst + Z.min cap bound) out ty di accel m); eauto.
    + eapply mapped_sub; [exact Hm|lia|lia].
    + lia.
    + destruct Ho as [[-> ?]|(-> & ? & ?)]; lia.
    + intros ->. by destruct Ho as [[? _]|[? _]].
Qed.

Lemma fast_generic_ok :
  wp (fast_generic s src dst (zlen inp) cap ty di accel) (compressed_st m inp dst cap) m.
Proof.
  destruct (decide (inp = [])) as [E|Hne]; [by apply fast_generic_empty|].
  pose proof Hbufs as (Hb & Hi & Hc & Hh & Hm & Hd). zlen_facts. unfold fast_generic.
  destruct (compressBound_range (zlen inp)) as (Hb0 & Hb1 & Hb2); [lia|done|].
  destruct (Z.lt_ge_cases LZ4_MAX_INPUT_SIZE (zlen inp)) as [Hl|Hl].
  { rewrite (Hb2 Hl). destruct (Z.leb_spec 0 cap); [|lia]. apply wp_too_large; [lia|].
    unfold compressed_st, compressed. rewrite (Hb2 Hl). simpl. split; [|done].
    split; [apply frame_refl|]. split; [lia|]. split; [done|lia]. }
  assert (mapped m dst (dst + Z.min cap bound - dst)) as Hm' by (eapply mapped_sub; [exact Hm|lia|lia]).
  destruct (Z.leb_spec bound cap).
  - eapply (wp_nodict s src inp dst 0 (dst + Z.min cap bound)); eauto; try lia.
    + done.
    + intros r m' Hp. eapply fast_post in Hp; try done. by left.
  - eapply (wp_nodict s src inp dst cap (dst + Z.min cap bound)); eauto; try lia.
    + done.
    + intros r m' Hp. eapply fast_post in Hp; try done. by right.
Qed.
End FastGeneric.

(** * The entry points *)

Lemma clamp_range a : 1 <= clamp_acceleration a <= LZ4_ACCELERATION_MAX.
Proof.
  unfold clamp_acceleration. change LZ4_ACCELERATION_MAX with 65537.
  change LZ4_ACCELERATION_DEFAULT with 1. repeat zcase; lia.
Qed.

Definition size_tableType (n : Z) : tableType_t := if n <? LZ4_64Klimit then byU16 else byU32.

Lemma size_type_ok n : index_type (size_tableType n) /\ (size_tableType n = byU16 -> n < LZ4_64Klimit).
Proof. unfold size_tableType, index_type. zcase; (split; [auto|done]). Qed.

(** Both functions choose the table by the size and the mode by the room. *)
Lemma extState_eq st src dst n cap accel :
  LZ4_compress_fast_extState st src dst n cap accel =
    r ← fast_generic LZ4_initStream src dst n cap (size_tableType n) noDictIssue (clamp_acceleration accel);
    mret (r.1.1, r.2).
Proof.
  unfold LZ4_compress_fast_extState, fast_generic, size_tableType.
  change (large_tableType src) with byU32.
  by destruct (LZ4_compressBound n <=? cap), (n <? LZ4_64Klimit).
Qed.

Lemma fastReset_eq st src dst n cap accel :
  LZ4_compress_fast_extState_fastReset st src dst n cap accel =
    let tt := size_tableType n in
    let s := LZ4_prepareTable st n tt in
    r ← fast_generic s src dst n cap tt
      (if bool_decide (tt = byU16) && negb (currentOffset s =? 0) then dictSmall else noDictIssue)
      (clamp_acceleration accel);
    mret (r.1.1, r.2).
Proof.
  unfold LZ4_compress_fast_extState_fastReset, fast_generic, size_tableType.
  change (large_tableType src) with byU32.
  by destruct (LZ4_compressBound n <=? cap), (n <? LZ4_64Klimit).
Qed.

Lemma extState_ok st src inp dst cap accel m :
  cbufs_ok m src inp dst cap ->
  wp (LZ4_compress_fast_extState st src dst (zlen inp) cap accel)
    (fun r m' => compressed m [] inp dst cap r.1 m' /\ stream_wf r.2) m.
Proof.
  intros Hb. rewrite extState_eq. pose proof (clamp_range accel) as [Ha _].
  destruct (size_type_ok (zlen inp)) as [Htt Hu]. apply wp_bind.
  eapply wp_mono; [apply fast_generic_ok; [done|done| |apply init_wf]|].
  - intros Hs. apply init_ready; [done| |done]. zlen_facts. lia.
  - intros r m' [H1 H2]. by apply wp_ret.
Qed.

Lemma prepare_wf s tt n :
  stream_wf s -> index_type tt -> stream_wf (LZ4_prepareTable s n tt).
Proof.
  intros (Hw & Ho & Hb & Hs) Htt. unfold LZ4_prepareTable.
  set (reset := negb (bool_decide (tableType s = clearedTable)) && _).
  destruct reset eqn:Er; cbn [hashTable dictionary dictCtx currentOffset tableType dictSize].
  { change (negb (0 =? 0)) with false. cbn [andb]. split; [apply table_wf_empty|]. simpl. done. }
  unfold reset in Er. destruct (bool_decide (tableType s = clearedTable)) eqn:Ec.
  { apply bool_decide_eq_true in Ec. unfold stream_wf. simpl. rewrite Ec in *.
    destruct Hs as [Et E0]. rewrite Et, E0. split; [apply table_wf_empty|]. done. }
  cbn [negb andb] in Er. repeat (apply orb_false_iff in Er as [Er ?]).
  apply negb_false_iff, bool_decide_eq_true in Er. unfold stream_wf.
  cbn [hashTable currentOffset tableType]. rewrite Er in *.
  change (1 * GB) with 1073741824 in *. change (64 * KB) with 65536.
  destruct Htt as [-> | ->]; repeat case_bool_decide; try done; cbn [andb] in *.
  - rewrite andb_true_r. match goal with H : (1073741824 <? _) = false |- _ => apply Z.ltb_ge in H end.
    destruct (Z.eqb_spec (currentOffset s) 0); cbn [negb]; [done|]. rewrite u32_small by lia.
    split; [done|]. split; [lia|]. split; [done|]. intros h Hh. specialize (Hs h Hh). lia.
  - rewrite andb_false_r. done.
Qed.

Lemma fastReset_ok st src inp dst cap accel m :
  stream_wf st -> cbufs_ok m src inp dst cap ->
  wp (LZ4_compress_fast_extState_fastReset st src dst (zlen inp) cap accel)
    (fun r m' => compressed m [] inp dst cap r.1 m' /\ stream_wf r.2) m.
Proof.
  intros Hst Hb. rewrite fastReset_eq. cbn zeta. pose proof (clamp_range accel) as [Ha _].
  destruct (size_type_ok (zlen inp)) as [Htt Hu]. apply wp_bind.
  eapply wp_mono; [apply fast_generic_ok; [done|done| |by apply prepare_wf]|].
  - intros Hs. apply prepare_ready; try done. zlen_facts. lia.
  - intros r m' [H1 H2]. by apply wp_ret.
Qed.

Lemma compress_fast_ok src inp dst cap accel m :
  cbufs_ok m src inp dst cap ->
  wp (LZ4_compress_fast src dst (zlen inp) cap accel) (compressed m [] inp dst cap) m.
Proof.
  intros Hb. apply wp_bind. eapply wp_mono; [by apply extState_ok|]. intros r m' [H _]. by apply wp_ret.
Qed.

(** * Filling a buffer *)

(** What [LZ4_compress_destSize] promises of its result [r] and of the number
    [n] of bytes it consumed. *)
Definition dest_filled (m : mem) (inp : list Z) (dst target : Z) (r : Z * Z) (m' : mem) : Prop :=
  if bool_decide (0 < target /\ zlen inp <= LZ4_MAX_INPUT_SIZE)
  then filled m [] inp dst target r.1 r.2 m' /\ (LZ4_compressBound (zlen inp) <= target -> r.2 = zlen inp)
  else r = (0, zlen inp) /\ m' = m.

Section DestSize.
Context (src : Z) (inp : list Z) (dst target accel : Z) (m : mem).
Context (Hbufs : cbufs_ok m src inp dst target) (Haccel : 1 <= accel).

Lemma fill_generic_ok :
  zlen inp <= LZ4_MAX_INPUT_SIZE -> 0 < target ->
  wp (LZ4_compress_generic LZ4_initStream src dst (zlen inp) target fillOutput
        (size_tableType (zlen inp)) noDict noDictIssue accel)
    (fun r m' => exists n, r.1.2 = Some n /\ filled m [] inp dst target r.1.1 n m') m.
Proof.
  intros Hs Ht. pose proof Hbufs as (Hb & Hi & Hc & Hh & Hm & Hd). zlen_facts.
  destruct (size_type_ok (zlen inp)) as [Htt Hu].
  destruct (decide (inp = [])) as [E|Hne].
  - apply wp_LZ4_compress_generic_empty; [by rewrite E|done| |lia|].
    { intros _. eapply mapped_sub; [exact Hm|lia|lia]. }
    intros m' _ Hf Hh'. exists 0. split; [done|]. simpl.
    split; [eapply frame_weaken; [exact Hf|lia|lia]|]. split; [lia|]. split; [lia|].
    exists [0]. split; [apply encodes_empty|]. done.
  - eapply (wp_nodict LZ4_initStream src inp dst target (dst + target)); try done; try lia.
    + apply init_ready; [done|lia|done].
    + by replace (dst + target - dst) with target by lia.
    + intros _. simpl. repeat split. lia.
    + intros r m' (cr & Hcr & ->). simpl.
      pose proof (comp_post_pos _ _ _ _ _ _ _ Hcr ltac:(by left)) as Hp.
      destruct (comp_post_encodes _ _ _ _ _ _ _ Hcr ltac:(lia)) as (n & enc & Hn & He & Hz & Hh' & Hr & Hk).
      simpl in *. exists n. split; [done|]. split; [apply Hcr|]. split; [lia|]. split; [lia|].
      by exists enc.
Qed.

(** Sizes that are refused. *)
Lemma fill_generic_fail :
  ~ (0 < target /\ zlen inp <= LZ4_MAX_INPUT_SIZE) -> LZ4_compressBound (zlen inp) > target ->
  wp (LZ4_compress_generic LZ4_initStream src dst (zlen inp) target fillOutput
        (size_tableType (zlen inp)) noDict noDictIssue accel)
    (fun r m' => r.1 = (0, None) /\ m' = m) m.
Proof.
  intros Hn Hb. destruct Hbufs as (_ & Hi & Hc & _). zlen_facts.
  destruct (compressBound_range (zlen inp)) as (Hb0 & Hb1 & Hb2); [lia|done|].
  destruct (Z.lt_ge_cases LZ4_MAX_INPUT_SIZE (zlen inp)) as [Hl|Hl]; [specialize (Hb2 Hl); lia|].
  assert (target = 0) as -> by lia. unfold LZ4_compress_generic.
  change LZ4_MAX_INPUT_SIZE with 2113929216 in *. rewrite !u32_small by lia.
  destruct (Z.ltb_spec 2113929216 (zlen inp)); [lia|]. by destruct (Z.eqb_spec (zlen inp) 0).
Qed.

Lemma destSize_internal_ok st :
  wp (LZ4_compress_destSize_extState_internal st src dst (zlen inp) target accel)
    (fun r m' => dest_filled m inp dst target r.1 m') m.
Proof.
  unfold LZ4_compress_destSize_extState_internal, dest_filled. pose proof Hbufs as (_ & Hi & Hc & _).
  zlen_facts. destruct (compressBound_range (zlen inp)) as (Hb0 & Hb1 & Hb2); [lia|done|].
  destruct (Z.leb_spec (LZ4_compressBound (zlen inp)) target) as [Hle|Hgt].
  - apply wp_bind. eapply wp_mono; [by apply extState_ok|].
    intros r m' [(Hf & Hr & He & Hn) _]. apply wp_ret. simpl. case_bool_decide as Hb.
    + destruct Hb as [Ht Hs]. specialize (Hn Hs Hle). split; [|done].
      split; [eapply frame_weaken; [exact Hf|lia|lia]|]. split; [lia|]. split; [lia|].
      destruct (He Hn) as (enc & H1 & H2 & H3). exists enc. by rewrite take_ge by zn.
    + destruct (Z.lt_ge_cases LZ4_MAX_INPUT_SIZE (zlen inp)) as [Hl|Hl].
      * specialize (Hb2 Hl). rewrite Hb2 in *. split; [f_equal; lia|]. apply map_eq. intros i.
        apply Hf. lia.
      * rewrite Hb1 in Hle by done. pose proof (Z.div_pos (zlen inp) 255 ltac:(lia) ltac:(lia)). lia.
  - assert ((if zlen inp <? LZ4_64Klimit
       then LZ4_compress_generic LZ4_initStream src dst (zlen inp) target fillOutput byU16 noDict
              noDictIssue accel
       else LZ4_compress_generic LZ4_initStream src dst (zlen inp) target fillOutput
              (large_tableType src) noDict noDictIssue accel) =
       LZ4_compress_generic LZ4_initStream src dst (zlen inp) target fillOutput
         (size_tableType (zlen inp)) noDict noDictIssue accel) as ->
      by (unfold size_tableType; by destruct (zlen inp <? LZ4_64Klimit)).
    case_bool_decide as Hb.
    + destruct Hb as [Ht Hs]. apply wp_bind. eapply wp_mono; [by apply fill_generic_ok|].
      intros r m' (n & En & Hfl). apply wp_ret. simpl. rewrite En. simpl. split; [done|lia].
    + apply wp_bind. eapply wp_mono; [apply fill_generic_fail; [done|lia]|].
      intros r m' [Er ->]. apply wp_ret. simpl. by rewrite Er.
Qed.
End DestSize.
