(* ===== verification/Lz4CompressTheorems.v ===== *)
(** The correctness of the one-shot compressors of lib/lz4.c, and the round
    trip with the decoder. *)
From S2P Require Import Prelude.
From S2P Require Import Mem.
From S2P Require Import BlockFormat.
From S2P Require Import Lz4Common.
From S2P Require Import Lz4Decompress.
From S2P Require Import Lz4DecodeSpec.
From S2P Require Import Lz4DecodeApi.
From S2P Require Import Lz4DecodeTheorems.
From S2P Require Import Lz4CountSpec.
From S2P Require Import Lz4Compress.
From S2P Require Import Lz4CompressGeneric.
From S2P Require Import Lz4CompressInv.
From S2P Require Import Lz4CompressSpec.

(** * Samples *)

(** 48 bytes of period 8. *)
Definition sample_text : list Z :=
  let l := [97; 98; 99; 100; 101; 102; 103; 104] in l ++ l ++ l ++ l ++ l ++ l.

(** The input at 100, room for the block at 200 and for the decoded bytes at 300. *)
Definition sample_cmem : mem :=
  mem_of [(100, sample_text); (200, replicate 80 0); (300, replicate 48 0)].

(** * The compressor *)

(** C3.  [LZ4_compress_fast], with any acceleration: the call returns, accesses
    only its buffers, and modifies at most the first
    [min dstCapacity (LZ4_compressBound srcSize)] bytes of the output.  A result
    other than 0 is the size of a conforming block with valid offsets that
    stands for the input, and with a capacity of [LZ4_compressBound] the result
    is never 0. *)
Theorem compress_fast_spec m src inp dst cap accel :
  cbufs_ok m src inp dst cap ->
  wp (LZ4_compress_fast src dst (zlen inp) cap accel) (compressed m [] inp dst cap) m.
Proof. intros H. by apply compress_fast_ok. Qed.

Lemma compress_fast_witness :
  exists r m', LZ4_compress_fast 100 200 48 80 1 sample_cmem = Ok r m' /\ r <> 0 /\
    exists enc, encodes [] sample_text enc /\ zlen enc = r /\ holds m' 200 enc.
Proof.
  destruct (wp_inv _ _ _ (compress_fast_spec sample_cmem 100 sample_text 200 80 1
    ltac:(eval_decide))) as (r & m' & E & _ & _ & H & Hn).
  assert (r <> 0) as Hr by (apply Hn; vm_compute; discriminate).
  exists r, m'. split; [exact E|]. split; [exact Hr|]. apply H, Hr.
Defined.

(** The decoder inverts an encoding. *)
Lemma encodes_decodes m src enc hist inp dst cap r m' :
  encodes hist inp enc -> zlen inp <= cap ->
  (forall b o, conforming b -> enc = enc_block b -> expand hist b = Some o ->
     zlen o <= cap -> 0 < cap \/ b_nib b = 0 -> r = zlen o /\ holds m' dst o) ->
  bufs_ok m src enc dst cap -> r = zlen inp /\ holds m' dst inp.
Proof.
  intros (b & E & Hc & _ & Hn & Hx) Hle H _. apply (H b inp Hc E Hx Hle). by right.
Qed.

(** The block and the decoded bytes of a round trip. *)
Definition trip_bufs (m : mem) (src : Z) (inp : list Z) (dst cap back : Z) : Prop :=
  cbufs_ok m src inp dst cap /\ mapped m back (zlen inp) /\
  (dst + cap <= back \/ back + zlen inp <= dst) /\
  0 < dst /\ dst + cap <= 2 ^ 63 /\ 0 < back /\ back + zlen inp <= 2 ^ 63.

#[export] Instance trip_bufs_dec m src inp dst cap back : Decision (trip_bufs m src inp dst cap back).
Proof. unfold trip_bufs. apply _. Defined.

(** What the decoder sees of the block. *)
Lemma trip_decode m src inp dst cap back enc out m1 :
  trip_bufs m src inp dst cap back -> frame dst (dst + cap) m m1 -> holds m1 dst enc ->
  zlen enc <= cap -> encodes [] out enc -> zlen out <= zlen inp ->
  wp (LZ4_decompress_safe dst back (zlen enc) (zlen inp)) (fun r m' =>
    r = zlen out /\ holds m' back out) m1.
Proof.
  intros (Hb & Hm & Hd & H1 & H2 & H3 & H4) Hf Hh Hle He Ho.
  pose proof Hb as (_ & Hi & Hc & _). zlen_facts.
  assert (bufs_ok m1 dst enc back (zlen inp)) as Hbufs.
  { split; [lia|]. split; [lia|]. split; [lia|]. split; [lia|]. split.
    - destruct He as (b & -> & [Hw _] & _). by apply enc_block_bytes.
    - split; [done|]. split; [by eapply frame_mapped|lia]. }
  eapply wp_mono; [by apply safe_ok|]. intros r m' (_ & _ & Hcm).
  by eapply encodes_decodes.
Qed.

(** C4.  Round trip: decoding what [LZ4_compress_default] wrote gives back the
    input, whatever the input is; with a capacity of [LZ4_compressBound] the
    compression does not fail. *)
Theorem compress_decompress_roundtrip m src inp dst cap back :
  trip_bufs m src inp dst cap back ->
  wp (r ← LZ4_compress_default src dst (zlen inp) cap;
      if r =? 0 then mret (r, 0) else
      r' ← LZ4_decompress_safe dst back r (zlen inp); mret (r, r'))
    (fun r m' =>
       (r.1 <> 0 -> r.2 = zlen inp /\ holds m' back inp) /\
       (zlen inp <= LZ4_MAX_INPUT_SIZE -> LZ4_compressBound (zlen inp) <= cap -> r.1 <> 0)) m.
Proof.
  intros Hb. pose proof Hb as (Hcb & _). apply wp_bind.
  eapply wp_mono; [by apply compress_fast_ok|]. intros r m1 (Hf & Hr & He & Hn).
  destruct (Z.eqb_spec r 0) as [E|E]; [by apply wp_ret|].
  destruct (He E) as (enc & H1 & <- & H3). apply wp_bind.
  eapply wp_mono; [eapply (trip_decode m); eauto|].
  - eapply frame_weaken; [exact Hf|lia|lia].
  - lia.
  - lia.
  - intros r' m' [-> Hh]. by apply wp_ret.
Qed.

Lemma compress_decompress_witness :
  exists r m', (r ← LZ4_compress_default 100 200 48 80;
    if r =? 0 then mret (r, 0) else
    r' ← LZ4_decompress_safe 200 300 r 48; mret (r, r')) sample_cmem = Ok r m' /\
    r.2 = 48 /\ holds m' 300 sample_text.
Proof.
  destruct (wp_inv _ _ _ (compress_decompress_roundtrip sample_cmem 100 sample_text 200 80 300
    ltac:(eval_decide))) as (r & m' & E & H & Hn).
  exists r, m'. split; [exact E|]. apply H, Hn; vm_compute; discriminate.
Defined.

(** C27.  [LZ4_compress_fast_extState_fastReset] meets the contract of
    [LZ4_compress_fast] although it keeps the hash table of earlier calls, and
    it leaves the state fit for the next call, so that the contract holds for
    any number of calls on one state. *)
Theorem compress_fastReset_spec st m src inp dst cap accel :
  stream_wf st -> cbufs_ok m src inp dst cap ->
  wp (LZ4_compress_fast_extState_fastReset st src dst (zlen inp) cap accel)
    (fun r m' => compressed m [] inp dst cap r.1 m' /\ stream_wf r.2) m.
Proof. intros Hs H. by apply fastReset_ok. Qed.

(** Two calls on one state: the second one starts with the table of the first. *)
Lemma compress_fastReset_witness :
  exists r1 m1 r2 m2,
    LZ4_compress_fast_extState_fastReset LZ4_initStream 100 200 48 80 1 sample_cmem = Ok r1 m1 /\
    LZ4_compress_fast_extState_fastReset r1.2 100 200 48 80 1 sample_cmem = Ok r2 m2 /\
    compressed sample_cmem [] sample_text 200 80 r2.1 m2.
Proof.
  destruct (wp_inv _ _ _ (compress_fastReset_spec LZ4_initStream sample_cmem 100 sample_text 200 80 1
    init_wf ltac:(eval_decide))) as (r1 & m1 & E1 & _ & Hw).
  destruct (wp_inv _ _ _ (compress_fastReset_spec r1.2 sample_cmem 100 sample_text 200 80 1
    Hw ltac:(eval_decide))) as (r2 & m2 & E2 & H & _).
  exists r1, m1, r2, m2. split; [exact E1|]. split; [exact E2|exact H].
Defined.

(** * Filling a buffer *)

(** C28.  [LZ4_compress_destSize]: into any non-empty output the call encodes a
    prefix of the input, writes at most [targetDstSize] bytes, and sets
    [*srcSizePtr] to the length of exactly the prefix that its result, a
    conforming block, stands for; when [LZ4_compressBound] fits, that prefix is
    the whole input. An empty output or an input that is too large is refused
    without any effect. *)
Theorem compress_destSize_spec m src inp dst target :
  cbufs_ok m src inp dst target ->
  wp (LZ4_compress_destSize src dst (zlen inp) target) (dest_filled m inp dst target) m.
Proof.
  intros H. apply wp_bind. eapply wp_mono; [by apply destSize_internal_ok|].
  intros r m' Hr. by apply wp_ret.
Qed.

Lemma compress_destSize_witness :
  exists r m', LZ4_compress_destSize 100 200 48 16 sample_cmem = Ok r m' /\
    filled sample_cmem [] sample_text 200 16 r.1 r.2 m'.
Proof.
  destruct (wp_inv _ _ _ (compress_destSize_spec sample_cmem 100 sample_text 200 16
    ltac:(eval_decide))) as (r & m' & E & H).
  exists r, m'. split; [exact E|].
  assert (bool_decide (0 < 16 /\ zlen sample_text <= LZ4_MAX_INPUT_SIZE) = true) as Eb by reflexivity.
  unfold dest_filled in H. rewrite Eb in H. apply H.
Defined.

(** Round trip of [LZ4_compress_destSize]: the decoder gives back the
    first [*srcSizePtr] bytes of the input. *)
Theorem destSize_roundtrip m src inp dst target back :
  trip_bufs m src inp dst target back -> 0 < target -> zlen inp <= LZ4_MAX_INPUT_SIZE ->
  wp (r ← LZ4_compress_destSize src dst (zlen inp) target;
      r' ← LZ4_decompress_safe dst back r.1 (zlen inp); mret (r, r'))
    (fun r m' => let n := r.1.2 in
       0 <= n <= zlen inp /\ r.2 = n /\ holds m' back (take (Z.to_nat n) inp)) m.
Proof.
  intros Hb Ht Hs. pose proof Hb as (Hcb & _). zlen_facts. apply wp_bind, wp_bind.
  eapply wp_mono; [by apply destSize_internal_ok|]. intros r m1 Hr. apply wp_ret.
  unfold dest_filled in Hr. rewrite bool_decide_eq_true_2 in Hr by done.
  destruct Hr as [(Hf & Hr & Hn & enc & He & Hz & Hh) _]. rewrite <- Hz.
  assert (zlen (take (Z.to_nat r.1.2) inp) = r.1.2) as Hzt by (rewrite zlen_take; zn).
  apply wp_bind. eapply wp_mono; [eapply (trip_decode m); eauto; lia|].
  intros r' m' [-> Hh']. apply wp_ret. by rewrite Hzt.
Qed.

Lemma destSize_roundtrip_witness :
  exists r m', (r ← LZ4_compress_destSize 100 200 48 16;
    r' ← LZ4_decompress_safe 200 300 r.1 48; mret (r, r')) sample_cmem = Ok r m' /\
    r.2 = r.1.2 /\ holds m' 300 (take (Z.to_nat r.1.2) sample_text).
Proof.
  destruct (wp_inv _ _ _ (destSize_roundtrip sample_cmem 100 sample_text 200 16 300
    ltac:(eval_decide) ltac:(lia) ltac:(vm_compute; discriminate))) as (r & m' & E & _ & H).
  exists r, m'. split; [exact E|exact H].
Defined.

(** * Building blocks *)

(** [LZ4_count] returns the length of the longest common prefix of the
    two regions, bounded by [pInLimit], with accesses of 8, 4, 2 and 1 bytes
    that never leave them. *)
Theorem count_longest_prefix m pIn pMatch n :
  readable m pIn n -> readable m pMatch n -> 0 <= n < 2 ^ 32 ->
  wp (LZ4_count pIn pMatch (pIn + n)) (fun k m' => m' = m /\ common_prefix m pIn pMatch n k) m.
Proof. intros H1 H2 Hn. by apply wp_LZ4_count. Qed.

Lemma count_witness :
  readable sample_cmem 100 40 /\ readable sample_cmem 108 40 /\
  exists k, LZ4_count 100 108 140 sample_cmem = Ok k sample_cmem /\
    common_prefix sample_cmem 100 108 40 k.
Proof.
  assert (readable sample_cmem 100 48) as H.
  { exact (holds_readable sample_cmem 100 sample_text ltac:(eval_decide) ltac:(eval_decide)). }
  assert (readable sample_cmem 100 40) as H1 by (eapply readable_sub; [exact H|lia|lia]).
  assert (readable sample_cmem 108 40) as H2 by (eapply readable_sub; [exact H|lia|lia]).
  split; [exact H1|]. split; [exact H2|].
  destruct (wp_inv _ _ _ (count_longest_prefix sample_cmem 100 108 40 H1 H2 ltac:(lia)))
    as (k & m' & E & -> & Hk).
  exists k. split; [exact E|exact Hk].
Defined.

(** The portable multiply-and-shift count of [LZ4_NbCommonBytes] equals
    the count by the bit-scan instruction on every non-zero 64-bit difference. *)
Theorem NbCommonBytes_portable v :
  0 < v < 2 ^ 64 -> LZ4_NbCommonBytes_sw64 v = LZ4_NbCommonBytes v.
Proof. apply NbCommonBytes_sw64_eq. Qed.

Lemma NbCommonBytes_witness : LZ4_NbCommonBytes_sw64 0xAB0000 = LZ4_NbCommonBytes 0xAB0000.
Proof. exact (NbCommonBytes_portable 0xAB0000 ltac:(lia)). Defined.

(** * Limits of the contract *)

(** 40 distinct bytes, and room for a block and for the decoded bytes. *)
Definition rising : list Z := List.map Z.of_nat (List.seq 1 40).
Definition rising_mem : mem :=
  mem_of [(100, rising); (200, replicate 30 0); (300, replicate 40 255)].

(** Unlike the other entry points, [LZ4_compress_destSize_extState] does
    not clamp its acceleration: with acceleration 0 the search looks twice at
    one position, finds it as its own match, and the block it returns decodes
    without error to other bytes than the input it claims to have consumed. *)
Theorem destSize_extState_acceleration_0 :
  exists r n st m1 m2,
    LZ4_compress_destSize_extState LZ4_initStream 100 200 40 30 0 rising_mem = Ok (r, n, st) m1 /\
    n = 40 /\ LZ4_decompress_safe 200 300 r 40 m1 = Ok 40 m2 /\ ~ holds m2 300 rising.
Proof.
  assert (match LZ4_compress_destSize_extState LZ4_initStream 100 200 40 30 0 rising_mem with
    | Ok (r, n, _) m1 =>
        match LZ4_decompress_safe 200 300 r 40 m1 with
        | Ok r2 m2 => (n =? 40) && (r2 =? 40) && negb (bool_decide (holds m2 300 rising))
        | _ => false end
    | _ => false end = true) as H by (vm_compute; reflexivity).
  destruct (LZ4_compress_destSize_extState _ _ _ _ _ _ _) as [[[r n] st] m1| |]; [|done..].
  destruct (LZ4_decompress_safe 200 300 r 40 m1) as [r2 m2| |] eqn:E2; [|done..].
  apply andb_prop in H as [[Hn%Z.eqb_eq Hr%Z.eqb_eq]%andb_prop Hh%negb_true_iff%bool_decide_eq_false].
  subst. by exists r, 40, st, m1, m2.
Qed.

(** A match of 8 bytes at offset 0. *)
Definition zero_offset_block : block :=
  Block [Seq [97; 98; 99; 100] 0 8] [101; 102; 103; 104; 105] 0.

(** The decoder accepts the offset 0, which the format description calls
    invalid: the match then stands for zero bytes. *)
Theorem decoder_accepts_offset_0 :
  exists m', LZ4_decompress_safe 100 200 13 64
      (mem_of [(100, enc_block zero_offset_block); (200, replicate 64 255)]) = Ok 17 m' /\
    holds m' 200 [97; 98; 99; 100; 0; 0; 0; 0; 0; 0; 0; 0; 101; 102; 103; 104; 105].
Proof.
  eexists. split; [vm_compute; reflexivity|]. eval_decide.
Qed.
