(* ===== verification/Lz4Hc.v ===== *)
(** lib/lz4hc.c: the high-compression block compressor. The context is passed
    explicitly; [dictCtx], a pointer to a context that is only read, is that
    context. Functions that insert positions return the new context. *)
From S2P Require Import Prelude.
From S2P Require Import Mem.
From S2P Require Import Lz4Common.
From S2P Require Import Lz4Decompress.
From S2P Require Import Lz4Compress.
From S2P Require Import Lz4CompressGeneric.

(** * Types and constants *)

Inductive dictCtx_directive := noDictCtx | usingDictCtxHc.

#[export] Instance dictCtx_eq_dec : EqDecision dictCtx_directive.
Proof. solve_decision. Defined.

Definition OPTIMAL_ML : Z := ML_MASK - 1 + MINMATCH.
Definition LZ4_OPT_NUM : Z := Z.shiftl 1 12.
Definition LZ4HC_CLEVEL_DEFAULT : Z := 9.
Definition LZ4HC_CLEVEL_MAX : Z := 12.
Definition LZ4HC_HASH_LOG : Z := 15.
Definition LZ4HC_HASHTABLESIZE : Z := Z.shiftl 1 LZ4HC_HASH_LOG.
Definition LZ4HC_HASHSIZE : Z := 4.
Definition LZ4MID_HASHSIZE : Z := 8.
Definition LZ4MID_HASHLOG : Z := LZ4HC_HASH_LOG - 1.
Definition LZ4MID_HASHTABLESIZE : Z := Z.shiftl 1 LZ4MID_HASHLOG.

Inductive lz4hc_strat_e := lz4mid | lz4hc | lz4opt.

#[export] Instance strat_eq_dec : EqDecision lz4hc_strat_e.
Proof. solve_decision. Defined.

Record cParams_t := CLevel { strat : lz4hc_strat_e; nbSearches : Z; targetLength : Z }.

Definition k_clTable : list cParams_t :=
  [CLevel lz4mid 2 16; CLevel lz4mid 2 16; CLevel lz4mid 2 16; CLevel lz4hc 4 16; CLevel lz4hc 8 16;
   CLevel lz4hc 16 16; CLevel lz4hc 32 16; CLevel lz4hc 64 16; CLevel lz4hc 128 16; CLevel lz4hc 256 16;
   CLevel lz4opt 96 64; CLevel lz4opt 512 128; CLevel lz4opt 16384 LZ4_OPT_NUM].

Definition LZ4HC_getCLevelParams (cLevel : Z) : cParams_t :=
  let cLevel := if cLevel <? 1 then LZ4HC_CLEVEL_DEFAULT else cLevel in
  let cLevel := Z.min LZ4HC_CLEVEL_MAX cLevel in
  nth (Z.to_nat cLevel) k_clTable (CLevel lz4opt 16384 LZ4_OPT_NUM).

(** * The context *)

(** An array that was filled with one value and then written to. *)
Record filled_table := FilledTable { ft_fill : Z; ft_map : gmap Z Z }.

Definition ft_get (t : filled_table) (i : Z) : Z := default (ft_fill t) (ft_map t !! i).
Definition ft_set (t : filled_table) (i v : Z) : filled_table := FilledTable (ft_fill t) (<[i := v]> (ft_map t)).

(** [LZ4HC_CCtx_internal] of lib/lz4hc.h. *)
Inductive LZ4HC_CCtx := HcCtx {
  hc_hashTable : filled_table;
  hc_chainTable : filled_table;
  hc_end : Z;
  hc_prefixStart : Z;
  hc_dictStart : Z;
  hc_dictLimit : Z;
  hc_lowLimit : Z;
  hc_nextToUpdate : Z;
  hc_compressionLevel : Z;
  hc_favorDecSpeed : Z;
  hc_dirty : Z;
  hc_dictCtx : option LZ4HC_CCtx }.

Definition set_tables (h c : filled_table) (x : LZ4HC_CCtx) : LZ4HC_CCtx :=
  HcCtx h c (hc_end x) (hc_prefixStart x) (hc_dictStart x) (hc_dictLimit x) (hc_lowLimit x)
    (hc_nextToUpdate x) (hc_compressionLevel x) (hc_favorDecSpeed x) (hc_dirty x) (hc_dictCtx x).
Definition set_hashTable (h : filled_table) (x : LZ4HC_CCtx) : LZ4HC_CCtx := set_tables h (hc_chainTable x) x.
Definition set_limits (en pre ds dl ll nu : Z) (x : LZ4HC_CCtx) : LZ4HC_CCtx :=
  HcCtx (hc_hashTable x) (hc_chainTable x) en pre ds dl ll nu (hc_compressionLevel x)
    (hc_favorDecSpeed x) (hc_dirty x) (hc_dictCtx x).
Definition set_nextToUpdate (nu : Z) (x : LZ4HC_CCtx) : LZ4HC_CCtx :=
  set_limits (hc_end x) (hc_prefixStart x) (hc_dictStart x) (hc_dictLimit x) (hc_lowLimit x) nu x.
Definition set_end (e : Z) (x : LZ4HC_CCtx) : LZ4HC_CCtx :=
  set_limits e (hc_prefixStart x) (hc_dictStart x) (hc_dictLimit x) (hc_lowLimit x) (hc_nextToUpdate x) x.
Definition set_options (level favor dirty : Z) (d : option LZ4HC_CCtx) (x : LZ4HC_CCtx) : LZ4HC_CCtx :=
  HcCtx (hc_hashTable x) (hc_chainTable x) (hc_end x) (hc_prefixStart x) (hc_dictStart x)
    (hc_dictLimit x) (hc_lowLimit x) (hc_nextToUpdate x) level favor dirty d.
(** Conversion to [short]. *)
Definition s16 (z : Z) : Z := (z + 2 ^ 15) mod 2 ^ 16 - 2 ^ 15.
Definition set_level (l : Z) (x : LZ4HC_CCtx) : LZ4HC_CCtx :=
  set_options l (hc_favorDecSpeed x) (hc_dirty x) (hc_dictCtx x) x.
Definition set_dirty (d : Z) (x : LZ4HC_CCtx) : LZ4HC_CCtx :=
  set_options (hc_compressionLevel x) (hc_favorDecSpeed x) d (hc_dictCtx x) x.
Definition set_dictCtx (d : option LZ4HC_CCtx) (x : LZ4HC_CCtx) : LZ4HC_CCtx :=
  set_options (hc_compressionLevel x) (hc_favorDecSpeed x) (hc_dirty x) d x.

(** Accesses to the table of hashes, an array of [LZ4HC_HASHTABLESIZE] entries. *)
Definition hash_get (t : filled_table) (h : Z) : M Z :=
  if (0 <=? h) && (h <? LZ4HC_HASHTABLESIZE) then mret (ft_get t h) else fault.
Definition hash_set (t : filled_table) (h v : Z) : M filled_table :=
  if (0 <=? h) && (h <? LZ4HC_HASHTABLESIZE) then mret (ft_set t h v) else fault.

(** [DELTANEXTU16] *)
Definition chain_get (t : filled_table) (pos : Z) : Z := ft_get t (u16 pos).
Definition chain_set (t : filled_table) (pos v : Z) : filled_table := ft_set t (u16 pos) v.

(** * Hashing *)

Definition HASH_FUNCTION (i : Z) : Z := Z.shiftr (u32 (i * 2654435761)) (MINMATCH * 8 - LZ4HC_HASH_LOG).
Definition LZ4HC_hashPtr (ptr : Z) : M Z := v ← LZ4_read32 ptr; mret (HASH_FUNCTION v).

Definition LZ4_read64 (ptr : Z) : M Z := l ← load_bytes ptr 8; mret (le_val l).
Definition LZ4_readLE64 (ptr : Z) : M Z :=
  if LZ4_isLittleEndian then LZ4_read64 ptr else l ← load_bytes ptr 8; mret (le_val l).

Definition LZ4MID_hash4 (v : Z) : Z := Z.shiftr (u32 (v * 2654435761)) (32 - LZ4MID_HASHLOG).
Definition LZ4MID_hash4Ptr (ptr : Z) : M Z := v ← LZ4_read32 ptr; mret (LZ4MID_hash4 v).
Definition LZ4MID_hash7 (v : Z) : Z :=
  u32 (Z.shiftr (u64 (u64 (Z.shiftl v (64 - 56)) * 58295818150454627)) (64 - LZ4MID_HASHLOG)).
Definition LZ4MID_hash8Ptr (ptr : Z) : M Z := v ← LZ4_readLE64 ptr; mret (LZ4MID_hash7 v).

(** * Counting *)

(** [__builtin_clz] of a 32-bit value *)
Definition clz32 (v : Z) : Z := 31 - Z.log2 v.
Definition LZ4HC_NbCommonBytes32 (val : Z) : Z := Z.shiftr (clz32 val) 3.

(** The word loop of [LZ4HC_countBack]: [inl] when fewer than 4 bytes remain. *)
Definition countBack_step (ip mtch mn back : Z) : M (Z + (Z + Z)) :=
  if 3 <? back - mn then
    a ← LZ4_read32 (ip + back - 4); b ← LZ4_read32 (mtch + back - 4);
    let v := Z.lxor a b in
    if negb (v =? 0) then mret (inr (inr (back - LZ4HC_NbCommonBytes32 v)))
    else mret (inl (back - 4))
  else mret (inr (inl back)).

Definition LZ4HC_countBack (ip mtch iMin mMin : Z) : M Z :=
  let mn := Z.max (iMin - ip) (mMin - mtch) in
  r ← loop (S (Z.to_nat (- mn))) (countBack_step ip mtch mn) 0;
  match r with
  | inr n => mret n
  | inl back =>
      loop (S (Z.to_nat (back - mn)))
        (fun back =>
           if mn <? back then
             a ← loadb (ip + back - 1); b ← loadb (mtch + back - 1);
             mret (if a =? b then inl (back - 1) else inr back)
           else mret (inr back)) back
  end.

(** * Initialisation *)

Definition LZ4HC_clearTables (hc4 : LZ4HC_CCtx) : LZ4HC_CCtx :=
  set_tables (FilledTable 0 ∅) (FilledTable 0xFFFF ∅) hc4.

Definition LZ4HC_init_internal (hc4 : LZ4HC_CCtx) (start : Z) : LZ4HC_CCtx :=
  let bufferSize := u64 (hc_end hc4 - hc_prefixStart hc4) in
  let newStartingOffset := u64 (bufferSize + hc_dictLimit hc4) in
  let '(hc4, newStartingOffset) :=
    if 1 * GB <? newStartingOffset then (LZ4HC_clearTables hc4, 0) else (hc4, newStartingOffset) in
  let newStartingOffset := u64 (newStartingOffset + 64 * KB) in
  set_limits start start start (u32 newStartingOffset) (u32 newStartingOffset) (u32 newStartingOffset) hc4.

(** * Encoding *)

(** The token's low half and the length of the match. *)
Definition hc_put_match_length (token op mlCode : Z) : M Z :=
  t ← loadb token;
  if ML_MASK <=? mlCode then
    storeb token (u8 (t + ML_MASK));;
    let mlCode := mlCode - ML_MASK in
    r ← loop (S (Z.to_nat mlCode))
      (fun q => let '(op, mlCode) := q in
         if 510 <=? mlCode then
           storeb op 255;; storeb (op + 1) 255;; mret (inl (op + 2, mlCode - 510))
         else mret (inr (op, mlCode))) (op, mlCode);
    let '(op, mlCode) := r in
    q ← (if 255 <=? mlCode then storeb op 255;; mret (op + 1, mlCode - 255) else mret (op, mlCode));
    let '(op, mlCode) := q in
    storeb op (u8 mlCode);;
    mret (op + 1)
  else
    storeb token (u8 (t + u8 mlCode));;
    mret op.

(** [ip], [op] and [anchor], which the function updates. *)
Record hc_pos := HcPos { hp_ip : Z; hp_op : Z; hp_anchor : Z }.

(** The result is true when the output is too small. [litLen] and [mlCode] are
    of type [size_t]. *)
Definition LZ4HC_encodeSequence (x : hc_pos) (matchLength offset : Z)
    (limit : limitedOutput_directive) (oend : Z) : M (bool * hc_pos) :=
  let ip := hp_ip x in
  let anchor := hp_anchor x in
  let token := hp_op x in
  let op := token + 1 in
  let litLen := u64 (ip - anchor) in
  let limited := negb (bool_decide (limit = notLimited)) in
  if limited && (oend <? op + litLen / 255 + litLen + (2 + 1 + LASTLITERALS))
  then mret (true, HcPos ip op anchor)
  else
    op ← put_literal_length token op litLen;
    LZ4_wildCopy8 op anchor (op + litLen);;
    let op := op + litLen in
    LZ4_writeLE16 op (u16 offset);;
    let op := op + 2 in
    let mlCode := u64 (matchLength - MINMATCH) in
    if limited && (oend <? op + mlCode / 255 + (1 + LASTLITERALS))
    then mret (true, HcPos ip op anchor)
    else
      op ← hc_put_match_length token op mlCode;
      let ip := ip + matchLength in
      mret (false, HcPos ip op ip).

(** The end of the three compressors: the last literals from [anchor], with the
    output limit [oend]. The result is 0 when they do not fit, or where the input
    and the output end. *)
Definition hc_last_literals (limit : limitedOutput_directive) (iend oend op anchor : Z) : M (option (Z * Z)) :=
  let lastRunSize := u64 (iend - anchor) in
  let llAdd := (lastRunSize + 255 - RUN_MASK) / 255 in
  let totalSize := 1 + llAdd + lastRunSize in
  let full := negb (bool_decide (limit = notLimited)) && (oend <? op + totalSize) in
  if full && bool_decide (limit = limitedOutput) then mret None else
  let lastRunSize :=
    if full then
      let r := u64 (u64 (oend - op) - 1) in
      u64 (r - u64 (r + 256 - RUN_MASK) / 256)
    else lastRunSize in
  let ip := anchor + lastRunSize in
  op' ← put_literal_length op (op + 1) lastRunSize;
  memcpy op' anchor lastRunSize;;
  mret (Some (ip, op' + lastRunSize)).

(** The code at [_dest_overflow] for [fillOutput]: a last sequence, shortened to
    fit, if that is possible. *)
Definition hc_dest_overflow (x : hc_pos) (matchLength offset oend : Z) : M hc_pos :=
  let ll := u64 (hp_ip x - hp_anchor x) in
  let ll_addbytes := (ll + 240) / 255 in
  let ll_totalCost := 1 + ll_addbytes + ll in
  let maxLitPos := oend - 3 in
  let op := hp_op x in
  if op + ll_totalCost <=? maxLitPos then
    let bytesLeftForMl := u64 (maxLitPos - (op + ll_totalCost)) in
    let maxMlSize := MINMATCH + (ML_MASK - 1) + bytesLeftForMl * 255 in
    let matchLength := if maxMlSize <? matchLength then maxMlSize else matchLength in
    if MFLIMIT <=? (oend + LASTLITERALS) - (op + ll_totalCost + 2) - 1 + matchLength then
      r ← LZ4HC_encodeSequence x matchLength offset notLimited oend;
      mret r.2
    else mret x
  else mret x.

(** * Search *)

(** Positions up to [ip] (excluded) are added to the chains. *)
Definition LZ4HC_Insert (hc4 : LZ4HC_CCtx) (ip : Z) : M LZ4HC_CCtx :=
  let prefixPtr := hc_prefixStart hc4 in
  let prefixIdx := hc_dictLimit hc4 in
  let target := u32 (u32 (ip - prefixPtr) + prefixIdx) in
  let idx := hc_nextToUpdate hc4 in
  r ← loop (S (Z.to_nat (target - idx)))
    (fun q => let '(idx, hashTable, chainTable) := q in
       if idx <? target then
         h ← LZ4HC_hashPtr (prefixPtr + idx - prefixIdx);
         e ← hash_get hashTable h;
         let delta := u32 (idx - e) in
         let delta := if LZ4_DISTANCE_MAX <? delta then LZ4_DISTANCE_MAX else delta in
         hashTable ← hash_set hashTable h idx;
         mret (inl (idx + 1, hashTable, chain_set chainTable idx (u16 delta)))
       else mret (inr (hashTable, chainTable)))
    (idx, hc_hashTable hc4, hc_chainTable hc4);
  mret (set_nextToUpdate target (set_tables r.1 r.2 hc4)).

Definition LZ4HC_rotl32 (x r : Z) : Z := Z.lor (u32 (Z.shiftl x r)) (Z.shiftr x (32 - r)).

Definition LZ4HC_rotatePattern (rotate pattern : Z) : Z :=
  let bitsToRotate := Z.shiftl (Z.land rotate (4 - 1)) 3 in
  if bitsToRotate =? 0 then pattern else LZ4HC_rotl32 pattern bitsToRotate.

Definition LZ4HC_countPattern (ip iEnd pattern32 : Z) : M Z :=
  let iStart := ip in
  let pattern := u64 (pattern32 + u64 (Z.shiftl pattern32 (8 * 4))) in
  r ← loop (S (Z.to_nat (iEnd - ip)))
    (fun ip =>
       if ip <? iEnd - (8 - 1) then
         v ← LZ4_read_ARCH ip;
         let diff := Z.lxor v pattern in
         if diff =? 0 then mret (inl (ip + 8))
         else mret (inr (inr (u32 (ip + LZ4_NbCommonBytes diff - iStart))))
       else mret (inr (inl ip))) ip;
  match r with
  | inr n => mret n
  | inl ip =>
      ip ← loop (S (Z.to_nat (iEnd - ip)))
        (fun q => let '(ip, patternByte) := q in
           if ip <? iEnd then
             b ← loadb ip;
             if b =? u8 patternByte then mret (inl (ip + 1, Z.shiftr patternByte 8)) else mret (inr ip)
           else mret (inr ip)) (ip, pattern);
      mret (u32 (ip - iStart))
  end.

(** [bytePtr] walks backwards through the four bytes of [pattern]: byte [k] of a
    little-endian word. *)
Definition LZ4HC_reverseCountPattern (ip iLow pattern : Z) : M Z :=
  let iStart := ip in
  ip ← loop (S (Z.to_nat (ip - iLow)))
    (fun ip =>
       if iLow + 4 <=? ip then
         v ← LZ4_read32 (ip - 4);
         mret (if v =? pattern then inl (ip - 4) else inr ip)
       else mret (inr ip)) ip;
  ip ← loop (S (Z.to_nat (ip - iLow)))
    (fun q => let '(ip, k) := q in
       if iLow <? ip then
         b ← loadb (ip - 1);
         mret (if b =? u8 (Z.shiftr pattern (8 * k)) then inl (ip - 1, k - 1) else inr ip)
       else mret (inr ip)) (ip, 3);
  mret (u32 (iStart - ip)).

Definition LZ4HC_protectDictEnd (dictLimit matchIndex : Z) : bool :=
  3 <=? u32 (u32 (dictLimit - 1) - matchIndex).

Inductive repeat_state_e := rep_untested | rep_not | rep_confirmed.

#[export] Instance repeat_eq_dec : EqDecision repeat_state_e.
Proof. solve_decision. Defined.

Record LZ4HC_match_t := HcMatch { md_off : Z; md_len : Z; md_back : Z }.

(** The constant values of one search. *)
Record wider := Wider {
  wd_ctx : LZ4HC_CCtx; wd_ip : Z; wd_iLowLimit : Z; wd_iHighLimit : Z;
  wd_patternAnalysis : bool; wd_chainSwap : bool; wd_favorDecSpeed : bool; wd_pattern : Z }.

Definition wd_prefixPtr (w : wider) : Z := hc_prefixStart (wd_ctx w).
Definition wd_prefixIdx (w : wider) : Z := hc_dictLimit (wd_ctx w).
Definition wd_ipIndex (w : wider) : Z := u32 (u32 (wd_ip w - wd_prefixPtr w) + wd_prefixIdx w).
Definition wd_withinStartDistance (w : wider) : bool :=
  wd_ipIndex w <? u32 (hc_lowLimit (wd_ctx w) + (LZ4_DISTANCE_MAX + 1)).
Definition wd_lowestMatchIndex (w : wider) : Z :=
  if wd_withinStartDistance w then hc_lowLimit (wd_ctx w) else u32 (wd_ipIndex w - LZ4_DISTANCE_MAX).
Definition wd_dictStart (w : wider) : Z := hc_dictStart (wd_ctx w).
Definition wd_dictIdx (w : wider) : Z := hc_lowLimit (wd_ctx w).
Definition wd_dictEnd (w : wider) : Z := wd_dictStart w + wd_prefixIdx w - wd_dictIdx w.
Definition wd_lookBackLength (w : wider) : Z := wd_ip w - wd_iLowLimit w.

(** The variables of the search. *)
Record wstate := WState {
  ws_longest : Z; ws_nbAttempts : Z; ws_matchIndex : Z; ws_matchChainPos : Z;
  ws_repeat : repeat_state_e; ws_srcPatternLength : Z; ws_offset : Z; ws_sBack : Z }.

Definition ws_jump (matchIndex : Z) (s : wstate) : wstate :=
  WState (ws_longest s) (ws_nbAttempts s) matchIndex (ws_matchChainPos s) (ws_repeat s)
    (ws_srcPatternLength s) (ws_offset s) (ws_sBack s).
Definition ws_better (longest offset sBack : Z) (s : wstate) : wstate :=
  WState longest (ws_nbAttempts s) (ws_matchIndex s) (ws_matchChainPos s) (ws_repeat s)
    (ws_srcPatternLength s) offset sBack.

(** The candidate at [matchIndex] is tested: the length of the match, 0 if there
    is none, and the best match so far. *)
Definition test_candidate (w : wider) (s : wstate) : M (Z * wstate) :=
  let ip := wd_ip w in
  let matchIndex := ws_matchIndex s in
  let longest := ws_longest s in
  let ipIndex := wd_ipIndex w in
  let keep matchLength back :=
    if longest <? matchLength then ws_better matchLength (s32 (u32 (ipIndex - matchIndex))) back s else s in
  if wd_favorDecSpeed w && (u32 (ipIndex - matchIndex) <? 8) then mret (0, s)
  else if wd_prefixIdx w <=? matchIndex then
    let matchPtr := wd_prefixPtr w + (matchIndex - wd_prefixIdx w) in
    a ← LZ4_read16 (wd_iLowLimit w + longest - 1);
    b ← LZ4_read16 (matchPtr - wd_lookBackLength w + longest - 1);
    if a =? b then
      v ← LZ4_read32 matchPtr;
      if v =? wd_pattern w then
        back ← (if negb (wd_lookBackLength w =? 0)
                then LZ4HC_countBack ip matchPtr (wd_iLowLimit w) (wd_prefixPtr w) else mret 0);
        n ← LZ4_count (ip + MINMATCH) (matchPtr + MINMATCH) (wd_iHighLimit w);
        let matchLength := MINMATCH + n - back in
        mret (matchLength, keep matchLength back)
      else mret (0, s)
    else mret (0, s)
  else
    let matchPtr := wd_dictStart w + (matchIndex - wd_dictIdx w) in
    hit ← (if matchIndex <=? u32 (wd_prefixIdx w - 4)
           then v ← LZ4_read32 matchPtr; mret (v =? wd_pattern w) else mret false);
    if (hit : bool) then
      let vLimit := ip + (wd_prefixIdx w - matchIndex) in
      let vLimit := if wd_iHighLimit w <? vLimit then wd_iHighLimit w else vLimit in
      n ← LZ4_count (ip + MINMATCH) (matchPtr + MINMATCH) vLimit;
      let matchLength := n + MINMATCH in
      n ← (if (ip + matchLength =? vLimit) && (vLimit <? wd_iHighLimit w)
           then LZ4_count (ip + matchLength) (wd_prefixPtr w) (wd_iHighLimit w) else mret 0);
      back ← (if negb (wd_lookBackLength w =? 0)
              then LZ4HC_countBack ip matchPtr (wd_iLowLimit w) (wd_dictStart w) else mret 0);
      let matchLength := matchLength + n - back in
      mret (matchLength, keep matchLength back)
    else mret (0, s).

(** The chain with the longest steps among those through the bytes of the match:
    the length of the step, and the position of the chain. *)
Fixpoint select_chain_loop (chainTable : filled_table) (matchIndex en : Z) (fuel : nat)
    (pos accel dist chainPos : Z) : Z * Z :=
  match fuel with
  | O => (dist, chainPos)
  | S fuel =>
      if pos <? en then
        let candidateDist := chain_get chainTable (u32 (matchIndex + pos)) in
        let step := Z.shiftr accel 4 in
        if dist <? candidateDist
        then select_chain_loop chainTable matchIndex en fuel (pos + step) (Z.shiftl 1 4) candidateDist pos
        else select_chain_loop chainTable matchIndex en fuel (pos + step) (accel + 1) dist chainPos
      else (dist, chainPos)
  end.

Definition select_chain (chainTable : filled_table) (matchIndex longest matchChainPos : Z) : Z * Z :=
  let en := longest - MINMATCH + 1 in
  select_chain_loop chainTable matchIndex en (S (Z.to_nat en)) 0 (Z.shiftl 1 4) 1 matchChainPos.

(** The analysis of repeated patterns around [matchCandidateIdx]: the next state,
    or the end of the search. [None] when the candidate is of no use. *)
Definition pattern_segment (w : wider) (s : wstate) (matchCandidateIdx : Z) : M (option (wstate + wstate)) :=
  let pattern := wd_pattern w in
  let prefixIdx := wd_prefixIdx w in
  let lowest := wd_lowestMatchIndex w in
  let extDict := matchCandidateIdx <? prefixIdx in
  let matchPtr := if extDict then wd_dictStart w + (matchCandidateIdx - wd_dictIdx w)
                  else wd_prefixPtr w + (matchCandidateIdx - prefixIdx) in
  v ← LZ4_read32 matchPtr;
  if negb (v =? pattern) then mret None else
  let iLimit := if extDict then wd_dictEnd w else wd_iHighLimit w in
  n ← LZ4HC_countPattern (matchPtr + 4) iLimit pattern;
  let forwardPatternLength := n + 4 in
  n ← (if extDict && (matchPtr + forwardPatternLength =? iLimit)
       then LZ4HC_countPattern (wd_prefixPtr w) (wd_iHighLimit w)
              (LZ4HC_rotatePattern forwardPatternLength pattern) else mret 0);
  let forwardPatternLength := forwardPatternLength + n in
  let lowestMatchPtr := if extDict then wd_dictStart w else wd_prefixPtr w in
  backLength ← LZ4HC_reverseCountPattern matchPtr lowestMatchPtr pattern;
  n ← (if negb extDict && (matchPtr - backLength =? wd_prefixPtr w) && (wd_dictIdx w <? prefixIdx)
       then LZ4HC_reverseCountPattern (wd_dictEnd w) (wd_dictStart w)
              (LZ4HC_rotatePattern (u32 (- backLength)) pattern) else mret 0);
  let backLength := backLength + n in
  let backLength := u32 (matchCandidateIdx - Z.max (u32 (matchCandidateIdx - u32 backLength)) lowest) in
  let currentSegmentLength := backLength + forwardPatternLength in
  if (ws_srcPatternLength s <=? currentSegmentLength) && (forwardPatternLength <=? ws_srcPatternLength s) then
    let newMatchIndex := u32 (matchCandidateIdx + u32 forwardPatternLength - u32 (ws_srcPatternLength s)) in
    mret (Some (inl (ws_jump (if LZ4HC_protectDictEnd prefixIdx newMatchIndex then newMatchIndex else prefixIdx) s)))
  else
    let newMatchIndex := u32 (matchCandidateIdx - u32 backLength) in
    if negb (LZ4HC_protectDictEnd prefixIdx newMatchIndex) then mret (Some (inl (ws_jump prefixIdx s)))
    else
      let s := ws_jump newMatchIndex s in
      if wd_lookBackLength w =? 0 then
        let maxML := Z.min currentSegmentLength (ws_srcPatternLength s) in
        if (ws_longest s <? maxML)
           && (LZ4_DISTANCE_MAX <? u64 (u64 (wd_ip w - wd_prefixPtr w) + prefixIdx - newMatchIndex))
        then mret (Some (inr s))
        else
          let s := if ws_longest s <? maxML
                   then ws_better maxML (s32 (u32 (wd_ipIndex w - newMatchIndex))) (ws_sBack s) s else s in
          let distToNextPattern := chain_get (hc_chainTable (wd_ctx w)) newMatchIndex in
          if newMatchIndex <? distToNextPattern then mret (Some (inr s))
          else mret (Some (inl (ws_jump (newMatchIndex - distToNextPattern) s)))
      else mret (Some (inl s)).

(** The chain position is set. *)
Definition ws_chain (chainPos : Z) (s : wstate) : wstate :=
  WState (ws_longest s) (ws_nbAttempts s) (ws_matchIndex s) chainPos (ws_repeat s)
    (ws_srcPatternLength s) (ws_offset s) (ws_sBack s).

Definition follow_chain (w : wider) (s : wstate) : wstate :=
  ws_jump (u32 (ws_matchIndex s
    - chain_get (hc_chainTable (wd_ctx w)) (u32 (ws_matchIndex s + ws_matchChainPos s)))) s.

(** Whether [pattern] repeats one byte is found out once. *)
Definition test_repeat (w : wider) (s : wstate) : M wstate :=
  let pattern := wd_pattern w in
  let set r n := WState (ws_longest s) (ws_nbAttempts s) (ws_matchIndex s) (ws_matchChainPos s) r n
                   (ws_offset s) (ws_sBack s) in
  if bool_decide (ws_repeat s = rep_untested) then
    if (Z.land pattern 0xFFFF =? Z.shiftr pattern 16) && (Z.land pattern 0xFF =? Z.shiftr pattern 24) then
      n ← LZ4HC_countPattern (wd_ip w + 4) (wd_iHighLimit w) pattern;
      mret (set rep_confirmed (n + 4))
    else mret (set rep_not (ws_srcPatternLength s))
  else mret s.

(** The second half of the loop's body. *)
Definition next_candidate (w : wider) (s : wstate) : M (wstate + wstate) :=
  let distNextMatch := chain_get (hc_chainTable (wd_ctx w)) (ws_matchIndex s) in
  if wd_patternAnalysis w && (distNextMatch =? 1) && (ws_matchChainPos s =? 0) then
    let matchCandidateIdx := u32 (ws_matchIndex s - 1) in
    s ← test_repeat w s;
    if bool_decide (ws_repeat s = rep_confirmed) && (wd_lowestMatchIndex w <=? matchCandidateIdx)
       && LZ4HC_protectDictEnd (wd_prefixIdx w) matchCandidateIdx then
      r ← pattern_segment w s matchCandidateIdx;
      match r with
      | Some r => mret r
      | None => mret (inl (follow_chain w s))
      end
    else mret (inl (follow_chain w s))
  else mret (inl (follow_chain w s)).

Definition wider_step (w : wider) (s : wstate) : M (wstate + wstate) :=
  if negb ((wd_lowestMatchIndex w <=? ws_matchIndex s) && (0 <? ws_nbAttempts s)) then mret (inr s) else
  let s := WState (ws_longest s) (ws_nbAttempts s - 1) (ws_matchIndex s) (ws_matchChainPos s) (ws_repeat s)
             (ws_srcPatternLength s) (ws_offset s) (ws_sBack s) in
  r ← test_candidate w s;
  let '(matchLength, s) := r in
  if wd_chainSwap w && (matchLength =? ws_longest s)
     && (u32 (ws_matchIndex s + ws_longest s) <=? wd_ipIndex w) then
    let '(dist, chainPos) := select_chain (hc_chainTable (wd_ctx w)) (ws_matchIndex s) (ws_longest s) (ws_matchChainPos s) in
    let s := ws_chain chainPos s in
    if 1 <? dist then
      if ws_matchIndex s <? dist then mret (inr s)
      else mret (inl (ws_jump (ws_matchIndex s - dist) s))
    else next_candidate w s
  else next_candidate w s.

(** The search of a dictionary context, from the best match so far; the indexes of
    the dictionary end at [gDictEndIndex]. *)
Definition dict_search (ip ipIndex iLowLimit iHighLimit : Z) (dictCtx : LZ4HC_CCtx)
    (gDictEndIndex nbAttempts : Z) (best : LZ4HC_match_t) : M LZ4HC_match_t :=
  let lDictEndIndex := u64 (u64 (hc_end dictCtx - hc_prefixStart dictCtx) + hc_dictLimit dictCtx) in
  h ← LZ4HC_hashPtr ip;
  lDictMatchIndex ← hash_get (hc_hashTable dictCtx) h;
  let matchIndex := u32 (lDictMatchIndex + gDictEndIndex - u32 lDictEndIndex) in
  loop (S (Z.to_nat nbAttempts))
    (fun q => let '(lDictMatchIndex, matchIndex, nbAttempts, best) := q in
       if (u32 (ipIndex - matchIndex) <=? LZ4_DISTANCE_MAX) && negb (nbAttempts =? 0) then
         let matchPtr := hc_prefixStart dictCtx - hc_dictLimit dictCtx + lDictMatchIndex in
         a ← LZ4_read32 matchPtr; b ← LZ4_read32 ip;
         best ← (if a =? b then
                   let vLimit := ip + u64 (lDictEndIndex - lDictMatchIndex) in
                   let vLimit := if iHighLimit <? vLimit then iHighLimit else vLimit in
                   n ← LZ4_count (ip + MINMATCH) (matchPtr + MINMATCH) vLimit;
                   back ← (if iLowLimit <? ip
                           then LZ4HC_countBack ip matchPtr iLowLimit (hc_prefixStart dictCtx) else mret 0);
                   let mlt := n + MINMATCH - back in
                   mret (if md_len best <? mlt
                         then HcMatch (s32 (u32 (ipIndex - matchIndex))) mlt back else best)
                 else mret best);
         let nextOffset := chain_get (hc_chainTable dictCtx) lDictMatchIndex in
         mret (inl (u32 (lDictMatchIndex - nextOffset), u32 (matchIndex - nextOffset), nbAttempts - 1, best))
       else mret (inr best)) (lDictMatchIndex, matchIndex, nbAttempts, best).

Definition LZ4HC_InsertAndGetWiderMatch (hc4 : LZ4HC_CCtx) (ip iLowLimit iHighLimit longest maxNbAttempts : Z)
    (patternAnalysis chainSwap : bool) (dict : dictCtx_directive) (favorDecSpeed : bool) :
    M (LZ4HC_match_t * LZ4HC_CCtx) :=
  pattern ← LZ4_read32 ip;
  hc4 ← LZ4HC_Insert hc4 ip;
  let w := Wider hc4 ip iLowLimit iHighLimit patternAnalysis chainSwap favorDecSpeed pattern in
  h ← LZ4HC_hashPtr ip;
  matchIndex ← hash_get (hc_hashTable hc4) h;
  s ← loop (S (Z.to_nat maxNbAttempts)) (wider_step w)
        (WState longest maxNbAttempts matchIndex 0 rep_untested 0 0 0);
  let md := HcMatch (ws_offset s) (ws_longest s) (ws_sBack s) in
  if bool_decide (dict = usingDictCtxHc) && (0 <? ws_nbAttempts s) && wd_withinStartDistance w then
    match hc_dictCtx hc4 with
    | None => fault
    | Some dictCtx =>
        md ← dict_search ip (wd_ipIndex w) iLowLimit iHighLimit dictCtx (wd_lowestMatchIndex w) (ws_nbAttempts s) md;
        mret (md, hc4)
    end
  else mret (md, hc4).

Definition LZ4HC_InsertAndFindBestMatch (hc4 : LZ4HC_CCtx) (ip iLimit maxNbAttempts : Z)
    (patternAnalysis : bool) (dict : dictCtx_directive) : M (LZ4HC_match_t * LZ4HC_CCtx) :=
  LZ4HC_InsertAndGetWiderMatch hc4 ip ip iLimit (MINMATCH - 1) maxNbAttempts patternAnalysis false dict false.

(** * The hash chain parser (levels 3 to 9) *)

(** The constant values of one call. *)
Record hcparams := HcParams {
  h_src : Z; h_srcSize : Z; h_dst : Z; h_maxOutputSize : Z; h_limit : limitedOutput_directive;
  h_dict : dictCtx_directive; h_maxNbAttempts : Z }.

Definition h_iend (p : hcparams) : Z := h_src p + h_srcSize p.
Definition h_mflimit (p : hcparams) : Z := h_iend p - MFLIMIT.
Definition h_matchlimit (p : hcparams) : Z := h_iend p - LASTLITERALS.
Definition h_oend (p : hcparams) : Z := h_dst p + h_maxOutputSize p.
(** The limit before the last literals. *)
Definition h_oend' (p : hcparams) : Z :=
  if bool_decide (h_limit p = fillOutput) then h_oend p - LASTLITERALS else h_oend p.
Definition h_patternAnalysis (p : hcparams) : bool := 128 <? h_maxNbAttempts p.

(** The result, the bytes consumed and the context. *)
Record hcresult := HcResult { hr_result : Z; hr_consumed : Z; hr_ctx : LZ4HC_CCtx }.

(** The variables of the parser. *)
Record hcvars := HcVars {
  v_pos : hc_pos; v_start0 : Z; v_start2 : Z; v_m0 : LZ4HC_match_t; v_m1 : LZ4HC_match_t;
  v_m2 : LZ4HC_match_t; v_ctx : LZ4HC_CCtx }.

Definition v_ip (v : hcvars) : Z := hp_ip (v_pos v).
Definition v_at (ip : Z) (x : hc_pos) : hc_pos := HcPos ip (hp_op x) (hp_anchor x).
Definition nomatch : LZ4HC_match_t := HcMatch 0 0 0.
Definition set_len (n : Z) (m : LZ4HC_match_t) : LZ4HC_match_t := HcMatch (md_off m) n (md_back m).

Inductive hclabel := hc_main | hc_search2 | hc_search3.

Abbreviation hcnext := ((hclabel * hcvars) + hcresult)%type.

Definition hc_last (p : hcparams) (x : hc_pos) (ctx : LZ4HC_CCtx) : M hcnext :=
  r ← hc_last_literals (h_limit p) (h_iend p) (h_oend p) (hp_op x) (hp_anchor x);
  mret (inr (match r with
             | None => HcResult 0 0 ctx
             | Some (ip, op) => HcResult (s32 (op - h_dst p)) (s32 (ip - h_src p)) ctx
             end)).

(** A sequence is encoded, and the code goes on with [k]; [x], the positions before
    it, are used when it does not fit. *)
Definition hc_encode (p : hcparams) (x : hc_pos) (m : LZ4HC_match_t) (ctx : LZ4HC_CCtx)
    (k : hc_pos -> M hcnext) : M hcnext :=
  r ← LZ4HC_encodeSequence x (md_len m) (md_off m) (h_limit p) (h_oend' p);
  if (r.1 : bool) then
    if bool_decide (h_limit p = fillOutput) then
      x ← hc_dest_overflow x (md_len m) (md_off m) (h_oend' p);
      hc_last p x ctx
    else mret (inr (HcResult 0 0 ctx))
  else k r.2.

Definition goto_main (x : hc_pos) (ctx : LZ4HC_CCtx) : M hcnext :=
  mret (inl (hc_main, HcVars x 0 0 nomatch nomatch nomatch ctx)).

Definition hc_main_body (p : hcparams) (v : hcvars) : M hcnext :=
  let x := v_pos v in
  let ip := hp_ip x in
  if h_mflimit p <? ip then hc_last p x (v_ctx v) else
  r ← LZ4HC_InsertAndFindBestMatch (v_ctx v) ip (h_matchlimit p) (h_maxNbAttempts p) (h_patternAnalysis p) (h_dict p);
  let '(m1, ctx) := r in
  if md_len m1 <? MINMATCH then goto_main (v_at (ip + 1) x) ctx
  else mret (inl (hc_search2, HcVars x ip 0 m1 m1 nomatch ctx)).

Definition hc_search2_body (p : hcparams) (v : hcvars) : M hcnext :=
  let x := v_pos v in
  let ip := hp_ip x in
  let m1 := v_m1 v in
  r ← (if ip + md_len m1 <=? h_mflimit p then
         let start2 := ip + md_len m1 - 2 in
         r ← LZ4HC_InsertAndGetWiderMatch (v_ctx v) start2 ip (h_matchlimit p) (md_len m1) (h_maxNbAttempts p)
               (h_patternAnalysis p) false (h_dict p) false;
         mret (start2 + md_back r.1, r.1, r.2)
       else mret (v_start2 v, nomatch, v_ctx v));
  let '(start2, m2, ctx) := r in
  if md_len m2 <=? md_len m1 then hc_encode p x m1 ctx (fun x => goto_main x ctx)
  else
  let '(ip, m1) :=
    if (v_start0 v <? ip) && (start2 <? ip + md_len (v_m0 v)) then (v_start0 v, v_m0 v) else (ip, m1) in
  if start2 - ip <? 3
  then mret (inl (hc_search2, HcVars (v_at start2 x) (v_start0 v) start2 (v_m0 v) m2 m2 ctx))
  else mret (inl (hc_search3, HcVars (v_at ip x) (v_start0 v) start2 (v_m0 v) m1 m2 ctx)).

(** The beginning of the second match gives way to the first: where it starts, and
    what is left of it. *)
Definition hc_squeeze (ip new_ml start2 : Z) (m2 : LZ4HC_match_t) : Z * LZ4HC_match_t :=
  let correction := new_ml - (start2 - ip) in
  if 0 <? correction then (start2 + correction, set_len (md_len m2 - correction) m2) else (start2, m2).

(** The length for the first match that leaves enough of the second. *)
Definition hc_new_ml (ip ml1 start2 ml2 : Z) : Z :=
  let new_ml := if OPTIMAL_ML <? ml1 then OPTIMAL_ML else ml1 in
  if start2 + ml2 - MINMATCH <? ip + new_ml then start2 - ip + ml2 - MINMATCH else new_ml.

Definition hc_search3_body (p : hcparams) (v : hcvars) : M hcnext :=
  let x := v_pos v in
  let ip := hp_ip x in
  let m1 := v_m1 v in
  let ml1 := md_len m1 in
  let '(start2, m2) :=
    if v_start2 v - ip <? OPTIMAL_ML
    then hc_squeeze ip (hc_new_ml ip ml1 (v_start2 v) (md_len (v_m2 v))) (v_start2 v) (v_m2 v)
    else (v_start2 v, v_m2 v) in
  r ← (if start2 + md_len m2 <=? h_mflimit p then
         let start3 := start2 + md_len m2 - 3 in
         r ← LZ4HC_InsertAndGetWiderMatch (v_ctx v) start3 start2 (h_matchlimit p) (md_len m2) (h_maxNbAttempts p)
               (h_patternAnalysis p) false (h_dict p) false;
         mret (start3 + md_back r.1, r.1, r.2)
       else mret (0, nomatch, v_ctx v));
  let '(start3, m3, ctx) := r in
  if md_len m3 <=? md_len m2 then
    let m1 := if start2 <? ip + ml1 then set_len (start2 - ip) m1 else m1 in
    hc_encode p x m1 ctx (fun x => hc_encode p (v_at start2 x) m2 ctx (fun x => goto_main x ctx))
  else if start3 <? ip + ml1 + 3 then
    if ip + ml1 <=? start3 then
      let '(start2, m2) :=
        if start2 <? ip + ml1 then
          let correction := ip + ml1 - start2 in
          let m2 := set_len (md_len m2 - correction) m2 in
          if md_len m2 <? MINMATCH then (start3, m3) else (start2 + correction, m2)
        else (start2, m2) in
      hc_encode p x m1 ctx (fun x => mret (inl (hc_search2, HcVars (v_at start3 x) start2 start2 m2 m3 m2 ctx)))
    else mret (inl (hc_search3, HcVars x (v_start0 v) start3 (v_m0 v) m1 m3 ctx))
  else
  let '(m1, start2, m2) :=
    if start2 <? ip + ml1 then
      if start2 - ip <? OPTIMAL_ML then
        let ml := hc_new_ml ip ml1 start2 (md_len m2) in
        let '(start2, m2) := hc_squeeze ip ml start2 m2 in
        (set_len ml m1, start2, m2)
      else (set_len (start2 - ip) m1, start2, m2)
    else (m1, start2, m2) in
  hc_encode p x m1 ctx (fun x =>
    mret (inl (hc_search3, HcVars (v_at start2 x) (v_start0 v) start3 (v_m0 v) m2 m3 ctx))).

Definition hc_step (p : hcparams) (c : hclabel * hcvars) : M hcnext :=
  match c.1 with
  | hc_main => hc_main_body p c.2
  | hc_search2 => hc_search2_body p c.2
  | hc_search3 => hc_search3_body p c.2
  end.

(** Every turn goes forward in the input or finds a match that ends later, or
    returns to the main loop. *)
Definition hc_fuel (n : Z) : nat := Z.to_nat (2 * n + 3).

Definition LZ4HC_compress_hashChain (ctx : LZ4HC_CCtx) (src dst srcSize maxOutputSize maxNbAttempts : Z)
    (limit : limitedOutput_directive) (dict : dictCtx_directive) : M hcresult :=
  let p := HcParams src srcSize dst maxOutputSize limit dict maxNbAttempts in
  let x := HcPos src dst src in
  if srcSize <? LZ4_minLength then
    r ← hc_last p x ctx;
    match r with inr r => mret r | inl _ => fault end
  else loop (hc_fuel srcSize) (hc_step p) (hc_main, HcVars x 0 0 nomatch nomatch nomatch ctx).

(** * The mid compressor (level 2) *)

(** The table of 8-byte hashes is the second half of the hash table. *)
Definition mid_get8 (t : filled_table) (h : Z) : M Z := hash_get t (LZ4MID_HASHTABLESIZE + h).

Definition LZ4MID_addPosition4 (t : filled_table) (h index : Z) : M filled_table := hash_set t h index.
Definition LZ4MID_addPosition8 (t : filled_table) (h index : Z) : M filled_table :=
  hash_set t (LZ4MID_HASHTABLESIZE + h) index.

Definition ADDPOS8 (t : filled_table) (p idx : Z) : M filled_table :=
  h ← LZ4MID_hash8Ptr p; LZ4MID_addPosition8 t h idx.
Definition ADDPOS4 (t : filled_table) (p idx : Z) : M filled_table :=
  h ← LZ4MID_hash4Ptr p; LZ4MID_addPosition4 t h idx.

Definition LZ4HC_searchExtDict (ip ipIndex iLowLimit iHighLimit : Z) (dictCtx : LZ4HC_CCtx)
    (gDictEndIndex currentBestML nbAttempts : Z) : M LZ4HC_match_t :=
  dict_search ip ipIndex iLowLimit iHighLimit dictCtx gDictEndIndex nbAttempts (HcMatch 0 currentBestML 0).

Definition LZ4MID_searchHCDict (ip ipIndex iHighLimit : Z) (dictCtx : LZ4HC_CCtx) (gDictEndIndex : Z) :
    M LZ4HC_match_t :=
  LZ4HC_searchExtDict ip ipIndex ip iHighLimit dictCtx gDictEndIndex (MINMATCH - 1) 2.

Definition LZ4MID_searchExtDict (ip ipIndex iHighLimit : Z) (dictCtx : LZ4HC_CCtx) (gDictEndIndex : Z) :
    M LZ4HC_match_t :=
  let lDictEndIndex := u64 (u64 (hc_end dictCtx - hc_prefixStart dictCtx) + hc_dictLimit dictCtx) in
  let try lDictMatchIndex (other : M LZ4HC_match_t) :=
    let mIndex := u32 (lDictMatchIndex + gDictEndIndex - u32 lDictEndIndex) in
    if u32 (ipIndex - mIndex) <=? LZ4_DISTANCE_MAX then
      let matchPtr := hc_prefixStart dictCtx - hc_dictLimit dictCtx + lDictMatchIndex in
      let safeLen := Z.min (u64 (lDictEndIndex - lDictMatchIndex)) (u64 (iHighLimit - ip)) in
      mlt ← LZ4_count ip matchPtr (ip + safeLen);
      if MINMATCH <=? mlt then mret (HcMatch (s32 (u32 (ipIndex - mIndex))) mlt 0) else other
    else other in
  h8 ← LZ4MID_hash8Ptr ip;
  l8DictMatchIndex ← mid_get8 (hc_hashTable dictCtx) h8;
  try l8DictMatchIndex
    (h4 ← LZ4MID_hash4Ptr ip;
     l4DictMatchIndex ← hash_get (hc_hashTable dictCtx) h4;
     try l4DictMatchIndex (mret nomatch)).

(** Two loops over the dictionary; every third position goes to both tables. *)
Definition LZ4MID_fillHTable (cctx : LZ4HC_CCtx) (dict size : Z) : M LZ4HC_CCtx :=
  let prefixIdx := hc_dictLimit cctx in
  let target := u32 (prefixIdx + u32 size - LZ4MID_HASHSIZE) in
  if size <=? LZ4MID_HASHSIZE then mret cctx else
  t ← loop (S (Z.to_nat (target - hc_nextToUpdate cctx)))
    (fun q => let '(idx, t) := q in
       if idx <? target then
         t ← ADDPOS4 t (dict + idx - prefixIdx) idx;
         t ← ADDPOS8 t (dict + idx + 1 - prefixIdx) (idx + 1);
         mret (inl (idx + 3, t))
       else mret (inr t)) (hc_nextToUpdate cctx, hc_hashTable cctx);
  let idx := if 32 * KB + LZ4MID_HASHSIZE <? size then u32 (target - 32 * KB) else hc_nextToUpdate cctx in
  t ← loop (S (Z.to_nat (target - idx)))
    (fun q => let '(idx, t) := q in
       if idx <? target then
         t ← ADDPOS8 t (dict + idx - prefixIdx) idx; mret (inl (idx + 1, t))
       else mret (inr t)) (idx, t);
  mret (set_nextToUpdate target (set_hashTable t cctx)).

(** [searchIntoDict] of a dictionary context. *)
Definition searchIntoDict (dictCtx : LZ4HC_CCtx) (ip ipIndex iHighLimit gDictEndIndex : Z) : M LZ4HC_match_t :=
  if bool_decide (strat (LZ4HC_getCLevelParams (hc_compressionLevel dictCtx)) = lz4mid)
  then LZ4MID_searchExtDict ip ipIndex iHighLimit dictCtx gDictEndIndex
  else LZ4MID_searchHCDict ip ipIndex iHighLimit dictCtx gDictEndIndex.

(** A match that goes to [_lz4mid_encode_sequence]: position, length, distance. *)
Record mid_match := MidMatch { mm_ip : Z; mm_len : Z; mm_dist : Z }.

Definition mid_ipIndex (ctx : LZ4HC_CCtx) (ip : Z) : Z := u32 (u32 (ip - hc_prefixStart ctx) + hc_dictLimit ctx).

(** The candidate [pos] in the external dictionary. *)
Definition mid_extDict (p : hcparams) (ctx : LZ4HC_CCtx) (ip pos : Z) : M (option mid_match) :=
  if hc_lowLimit ctx <=? pos then
    let matchPtr := hc_dictStart ctx + (pos - hc_lowLimit ctx) in
    let safeLen := Z.min (hc_dictLimit ctx - pos) (u64 (h_matchlimit p - ip)) in
    matchLength ← LZ4_count ip matchPtr (ip + safeLen);
    mret (if MINMATCH <=? matchLength
          then Some (MidMatch ip matchLength (u32 (mid_ipIndex ctx ip - pos))) else None)
  else mret None.

(** "search long match" *)
Definition mid_long (p : hcparams) (ctx : LZ4HC_CCtx) (ip : Z) : M (option mid_match * filled_table) :=
  let ipIndex := mid_ipIndex ctx ip in
  h8 ← LZ4MID_hash8Ptr ip;
  pos8 ← mid_get8 (hc_hashTable ctx) h8;
  t ← LZ4MID_addPosition8 (hc_hashTable ctx) h8 ipIndex;
  m ← (if u32 (ipIndex - pos8) <=? LZ4_DISTANCE_MAX then
         if hc_dictLimit ctx <=? pos8 then
           matchLength ← LZ4_count ip (hc_prefixStart ctx + pos8 - hc_dictLimit ctx) (h_matchlimit p);
           mret (if MINMATCH <=? matchLength then Some (MidMatch ip matchLength (u32 (ipIndex - pos8))) else None)
         else mid_extDict p ctx ip pos8
       else mret None);
  mret (m, t).

(** A longer match at the next position is preferred to a short match. *)
Definition mid_next_long (p : hcparams) (ctx : LZ4HC_CCtx) (t : filled_table) (ip matchLength pos4 : Z) :
    M (option mid_match * filled_table) :=
  let ipIndex := mid_ipIndex ctx ip in
  let short := MidMatch ip matchLength (u32 (ipIndex - pos4)) in
  h8 ← LZ4MID_hash8Ptr (ip + 1);
  pos8 ← mid_get8 t h8;
  let m2Distance := u32 (ipIndex + 1 - pos8) in
  if (m2Distance <=? LZ4_DISTANCE_MAX) && (hc_dictLimit ctx <=? pos8) && (ip <? h_mflimit p) then
    ml2 ← LZ4_count (ip + 1) (hc_prefixStart ctx + (pos8 - hc_dictLimit ctx)) (h_matchlimit p);
    if matchLength <? ml2 then
      t ← LZ4MID_addPosition8 t h8 (u32 (ipIndex + 1));
      mret (Some (MidMatch (ip + 1) ml2 m2Distance), t)
    else mret (Some short, t)
  else mret (Some short, t).

(** "search short match" *)
Definition mid_short (p : hcparams) (ctx : LZ4HC_CCtx) (t : filled_table) (ip : Z) :
    M (option mid_match * filled_table) :=
  let ipIndex := mid_ipIndex ctx ip in
  h4 ← LZ4MID_hash4Ptr ip;
  pos4 ← hash_get t h4;
  t ← LZ4MID_addPosition4 t h4 ipIndex;
  if u32 (ipIndex - pos4) <=? LZ4_DISTANCE_MAX then
    if hc_dictLimit ctx <=? pos4 then
      matchLength ← LZ4_count ip (hc_prefixStart ctx + (pos4 - hc_dictLimit ctx)) (h_matchlimit p);
      if MINMATCH <=? matchLength then mid_next_long p ctx t ip matchLength pos4 else mret (None, t)
    else m ← mid_extDict p ctx ip pos4; mret (m, t)
  else mret (None, t).

(** The search in an attached dictionary. *)
Definition mid_dict (p : hcparams) (ctx : LZ4HC_CCtx) (ip : Z) : M (option mid_match) :=
  let ipIndex := mid_ipIndex ctx ip in
  let gDictEndIndex := hc_lowLimit ctx in
  if bool_decide (h_dict p = usingDictCtxHc) && (u32 (ipIndex - gDictEndIndex) <? LZ4_DISTANCE_MAX - 8) then
    match hc_dictCtx ctx with
    | None => fault
    | Some dictCtx =>
        dMatch ← searchIntoDict dictCtx ip ipIndex (h_matchlimit p) gDictEndIndex;
        mret (if MINMATCH <=? md_len dMatch then Some (MidMatch ip (md_len dMatch) (md_off dMatch)) else None)
    end
  else mret None.

(** "catch back" *)
Definition mid_catch_back (prefixPtr anchor : Z) (m : mid_match) : M mid_match :=
  loop (S (Z.to_nat (mm_ip m - anchor)))
    (fun m =>
       if (anchor <? mm_ip m) && (mm_dist m <? u32 (mm_ip m - prefixPtr)) then
         a ← loadb (mm_ip m - 1); b ← loadb (mm_ip m - mm_dist m - 1);
         mret (if a =? b then inl (MidMatch (mm_ip m - 1) (mm_len m + 1) (mm_dist m)) else inr m)
       else mret (inr m)) m.

(** "fill table with end of match"; [ip] is the end. *)
Definition mid_fill_end (p : hcparams) (ctx : LZ4HC_CCtx) (t : filled_table) (ip : Z) : M filled_table :=
  let ilimit := h_iend p - LZ4MID_HASHSIZE in
  let ilimitIdx := u32 (u32 (ilimit - hc_prefixStart ctx) + hc_dictLimit ctx) in
  let endMatchIdx := mid_ipIndex ctx ip in
  let pos_m2 := u32 (endMatchIdx - 2) in
  if pos_m2 <? ilimitIdx then
    t ← (if 5 <? ip - hc_prefixStart ctx then ADDPOS8 t (ip - 5) (u32 (endMatchIdx - 5)) else mret t);
    t ← ADDPOS8 t (ip - 3) (u32 (endMatchIdx - 3));
    t ← ADDPOS8 t (ip - 2) (u32 (endMatchIdx - 2));
    t ← ADDPOS4 t (ip - 2) (u32 (endMatchIdx - 2));
    ADDPOS4 t (ip - 1) (u32 (endMatchIdx - 1))
  else mret t.

(** What is returned when the output is too small leaves [*srcSizePtr] alone. *)
Definition mid_fail (p : hcparams) (ctx : LZ4HC_CCtx) : hcresult := HcResult 0 (h_srcSize p) ctx.

Definition mid_last (p : hcparams) (x : hc_pos) (ctx : LZ4HC_CCtx) : M hcresult :=
  r ← hc_last_literals (h_limit p) (h_iend p) (h_oend p) (hp_op x) (hp_anchor x);
  mret (match r with
        | None => mid_fail p ctx
        | Some (ip, op) => HcResult (s32 (op - h_dst p)) (s32 (ip - h_src p)) ctx
        end).

(** The search of one position. *)
Definition mid_search (p : hcparams) (ctx : LZ4HC_CCtx) (ip : Z) : M (option mid_match * LZ4HC_CCtx) :=
  r ← mid_long p ctx ip;
  match r.1 with
  | Some m => mret (Some m, set_hashTable r.2 ctx)
  | None =>
      r ← mid_short p ctx r.2 ip;
      match r.1 with
      | Some m => mret (Some m, set_hashTable r.2 ctx)
      | None => m ← mid_dict p ctx ip; mret (m, set_hashTable r.2 ctx)
      end
  end.

Definition mid_step (p : hcparams) (c : hc_pos * LZ4HC_CCtx) : M ((hc_pos * LZ4HC_CCtx) + hcresult) :=
  let '(x, ctx) := c in
  let ip := hp_ip x in
  if h_mflimit p <? ip then r ← mid_last p x ctx; mret (inr r) else
  r ← mid_search p ctx ip;
  let '(o, ctx) := r in
  match o with
  | None => mret (inl (v_at (ip + (1 + Z.shiftr (ip - hp_anchor x) 9)) x, ctx))
  | Some m =>
      let ipIndex := mid_ipIndex ctx ip in
      m ← mid_catch_back (hc_prefixStart ctx) (hp_anchor x) m;
      t ← ADDPOS8 (hc_hashTable ctx) (mm_ip m + 1) (u32 (ipIndex + 1));
      t ← ADDPOS8 t (mm_ip m + 2) (u32 (ipIndex + 2));
      t ← ADDPOS4 t (mm_ip m + 1) (u32 (ipIndex + 1));
      let ctx := set_hashTable t ctx in
      let x := v_at (mm_ip m) x in
      e ← LZ4HC_encodeSequence x (mm_len m) (s32 (mm_dist m)) (h_limit p) (h_oend' p);
      if (e.1 : bool) then
        if bool_decide (h_limit p = fillOutput) then
          x ← hc_dest_overflow x (mm_len m) (s32 (mm_dist m)) (h_oend' p);
          r ← mid_last p x ctx; mret (inr r)
        else mret (inr (mid_fail p ctx))
      else
        t ← mid_fill_end p ctx t (hp_ip e.2);
        mret (inl (e.2, set_hashTable t ctx))
  end.

Definition LZ4MID_compress (ctx : LZ4HC_CCtx) (src dst srcSize maxOutputSize : Z)
    (limit : limitedOutput_directive) (dict : dictCtx_directive) : M hcresult :=
  let p := HcParams src srcSize dst maxOutputSize limit dict 0 in
  let x := HcPos src dst src in
  if srcSize <? LZ4_minLength then mid_last p x ctx
  else loop (Z.to_nat (srcSize + 1)) (mid_step p) (x, ctx).

(** * The optimal parser (levels 10 to 12) *)

Record LZ4HC_optimal_t := HcOptimal { o_price : Z; o_off : Z; o_mlen : Z; o_litlen : Z }.

Definition TRAILING_LITERALS : Z := 3.

(** The array [opt]; reading what was not written is a fault. *)
Abbreviation opt_table := (gmap Z LZ4HC_optimal_t).

Definition opt_get (opt : opt_table) (i : Z) : M LZ4HC_optimal_t :=
  match opt !! i with Some o => mret o | None => fault end.
Definition opt_set (opt : opt_table) (i : Z) (o : LZ4HC_optimal_t) : M opt_table :=
  if (0 <=? i) && (i <? LZ4_OPT_NUM + TRAILING_LITERALS) then mret (<[i := o]> opt) else fault.

Definition LZ4HC_literalsPrice (litlen : Z) : Z :=
  if RUN_MASK <=? litlen then litlen + (1 + (litlen - RUN_MASK) / 255) else litlen.

Definition LZ4HC_sequencePrice (litlen mlen : Z) : Z :=
  let price := 1 + 2 + LZ4HC_literalsPrice litlen in
  if ML_MASK + MINMATCH <=? mlen then price + (1 + (mlen - (ML_MASK + MINMATCH)) / 255) else price.

Definition LZ4HC_FindLongerMatch (ctx : LZ4HC_CCtx) (ip iHighLimit minLen nbSearches : Z)
    (dict : dictCtx_directive) (favorDecSpeed : bool) : M (LZ4HC_match_t * LZ4HC_CCtx) :=
  r ← LZ4HC_InsertAndGetWiderMatch ctx ip ip iHighLimit minLen nbSearches true true dict favorDecSpeed;
  let '(md, ctx) := r in
  if md_len md <=? minLen then mret (nomatch, ctx)
  else if favorDecSpeed && (18 <? md_len md) && (md_len md <=? 36) then mret (set_len 18 md, ctx)
  else mret (md, ctx).

(** [for (i = from; i <= to; i++)] over the array. *)
Definition opt_for (from to : Z) (body : Z -> opt_table -> M opt_table) (opt : opt_table) : M opt_table :=
  loop (S (Z.to_nat (to + 1 - from)))
    (fun q => let '(i, opt) := q in
       if i <=? to then opt ← body i opt; mret (inl (i + 1, opt)) else mret (inr opt)) (from, opt).

(** "complete following positions with literals" *)
Definition opt_trailing (last_match_pos : Z) (opt : opt_table) : M opt_table :=
  opt_for 1 TRAILING_LITERALS
    (fun addLit opt =>
       o ← opt_get opt last_match_pos;
       opt_set opt (last_match_pos + addLit)
         (HcOptimal (o_price o + LZ4HC_literalsPrice addLit) 0 1 addLit)) opt.

(** "set prices" for the first match. *)
Definition opt_first (llen : Z) (m : LZ4HC_match_t) (opt : opt_table) : M opt_table :=
  opt ← opt_for 0 (MINMATCH - 1)
    (fun rPos opt => opt_set opt rPos (HcOptimal (LZ4HC_literalsPrice (llen + rPos)) 0 1 (llen + rPos))) opt;
  opt ← opt_for MINMATCH (md_len m)
    (fun mlen opt => opt_set opt mlen (HcOptimal (LZ4HC_sequencePrice llen mlen) (md_off m) mlen llen)) opt;
  opt_trailing (md_len m) opt.

(** "before match : set price with literals at beginning" *)
Definition opt_literals (cur : Z) (opt : opt_table) : M opt_table :=
  c ← opt_get opt cur;
  let baseLitlen := o_litlen c in
  opt_for 1 (MINMATCH - 1)
    (fun litlen opt =>
       c ← opt_get opt cur;
       let price := o_price c - LZ4HC_literalsPrice baseLitlen + LZ4HC_literalsPrice (baseLitlen + litlen) in
       let pos := cur + litlen in
       o ← opt_get opt pos;
       if price <? o_price o then opt_set opt pos (HcOptimal price 0 1 (baseLitlen + litlen)) else mret opt) opt.

(** "set prices using match at position = cur"; the result has [last_match_pos]. *)
Definition opt_matches (cur : Z) (m : LZ4HC_match_t) (favorDecSpeed : bool) (last_match_pos : Z) (opt : opt_table) :
    M (Z * opt_table) :=
  loop (S (Z.to_nat (md_len m + 1 - MINMATCH)))
    (fun q => let '(ml, last_match_pos, opt) := q in
       if ml <=? md_len m then
         let pos := cur + ml in
         c ← opt_get opt cur;
         pl ← (if o_mlen c =? 1 then
                 let ll := o_litlen c in
                 base ← (if ll <? cur then b ← opt_get opt (cur - ll); mret (o_price b) else mret 0);
                 mret (base + LZ4HC_sequencePrice ll ml, ll)
               else mret (o_price c + LZ4HC_sequencePrice 0 ml, 0));
         let '(price, ll) := pl in
         better ← (if last_match_pos + TRAILING_LITERALS <? pos then mret true
                   else o ← opt_get opt pos; mret (price <=? o_price o - Z.b2z favorDecSpeed));
         if (better : bool) then
           let last_match_pos := if (ml =? md_len m) && (last_match_pos <? pos) then pos else last_match_pos in
           opt ← opt_set opt pos (HcOptimal price (md_off m) ml ll);
           mret (inl (ml + 1, last_match_pos, opt))
         else mret (inl (ml + 1, last_match_pos, opt))
       else mret (inr (last_match_pos, opt))) (MINMATCH, last_match_pos, opt).

(** The constant values of one call. *)
Record optparams := OptParams {
  op_hc : hcparams; op_sufficient_len : Z; op_fullUpdate : bool; op_favorDecSpeed : bool }.

(** [cur], [last_match_pos], [opt] and the context. *)
Record ovars := OVars { ov_cur : Z; ov_last : Z; ov_opt : opt_table; ov_ctx : LZ4HC_CCtx }.

(** What is encoded: the match [oe_mlen], [oe_off] at [oe_cur], and before it the
    best way to [oe_cur]. *)
Record oencode := OEncode {
  oe_cur : Z; oe_last : Z; oe_mlen : Z; oe_off : Z; oe_opt : opt_table; oe_ctx : LZ4HC_CCtx }.

(** "not useful to search here" *)
Definition opt_skip (p : optparams) (opt : opt_table) (cur : Z) : M bool :=
  c ← opt_get opt cur; n ← opt_get opt (cur + 1);
  if o_price n <=? o_price c then
    if op_fullUpdate p then
      f ← opt_get opt (cur + MINMATCH); mret (o_price f <? o_price c + 3)
    else mret true
  else mret false.

(** The end of the loop over positions. *)
Definition opt_best (last : Z) (opt : opt_table) (ctx : LZ4HC_CCtx) : M oencode :=
  o ← opt_get opt last;
  mret (OEncode (last - o_mlen o) last (o_mlen o) (o_off o) opt ctx).

(** One position of "check further positions". *)
Definition opt_position (p : optparams) (ip : Z) (v : ovars) : M (ovars + oencode) :=
  let cur := ov_cur v in
  let last := ov_last v in
  let opt := ov_opt v in
  let next last opt ctx := mret (inl (OVars (cur + 1) last opt ctx)) in
  let curPtr := ip + cur in
  if negb (cur <? last) || (h_mflimit (op_hc p) <? curPtr)
  then e ← opt_best last opt (ov_ctx v); mret (inr e) else
  skip ← opt_skip p opt cur;
  if (skip : bool) then next last opt (ov_ctx v) else
  r ← LZ4HC_FindLongerMatch (ov_ctx v) curPtr (h_matchlimit (op_hc p))
        (if op_fullUpdate p then MINMATCH - 1 else last - cur) (h_maxNbAttempts (op_hc p))
        (h_dict (op_hc p)) (op_favorDecSpeed p);
  let '(newMatch, ctx) := r in
  if md_len newMatch =? 0 then next last opt ctx
  else if (op_sufficient_len p <? md_len newMatch) || (LZ4_OPT_NUM <=? md_len newMatch + cur)
  then mret (inr (OEncode cur (cur + 1) (md_len newMatch) (md_off newMatch) opt ctx))
  else
    opt ← opt_literals cur opt;
    r ← opt_matches cur newMatch (op_favorDecSpeed p) last opt;
    opt ← opt_trailing r.1 r.2;
    next r.1 opt ctx.

(** "reverse traversal": the sequences are stored where they start. *)
Definition opt_reverse (e : oencode) : M opt_table :=
  loop (S (Z.to_nat (oe_cur e)))
    (fun q => let '(candidate_pos, mlen, off, opt) := q in
       o ← opt_get opt candidate_pos;
       opt ← opt_set opt candidate_pos (HcOptimal (o_price o) off mlen (o_litlen o));
       if candidate_pos <? o_mlen o then mret (inr opt)
       else mret (inl (candidate_pos - o_mlen o, o_mlen o, o_off o, opt)))
    (oe_cur e, oe_mlen e, oe_off e, oe_opt e).

(** "encode all recorded sequences in order" *)
Definition opt_encode (p : hcparams) (last : Z) (opt : opt_table) (ctx : LZ4HC_CCtx) (x : hc_pos) :
    M (hc_pos + hcresult) :=
  r ← loop (S (Z.to_nat last))
    (fun q => let '(rPos, x) := q in
       if rPos <? last then
         o ← opt_get opt rPos;
         if o_mlen o =? 1 then mret (inl (rPos + 1, v_at (hp_ip x + 1) x))
         else
           r ← hc_encode p x (HcMatch (o_off o) (o_mlen o) 0) ctx (fun x => goto_main x ctx);
           match r with
           | inl (_, v) => mret (inl (rPos + o_mlen o, v_pos v))
           | inr r => mret (inr (inr r))
           end
       else mret (inr (inl x))) (0, x);
  mret r.

Definition opt_step (p : optparams) (c : hc_pos * opt_table * LZ4HC_CCtx) :
    M ((hc_pos * opt_table * LZ4HC_CCtx) + hcresult) :=
  let '(x, opt, ctx) := c in
  let ip := hp_ip x in
  let done (r : hcnext) : M ((hc_pos * opt_table * LZ4HC_CCtx) + hcresult) :=
    match r with inl (_, v) => mret (inl (v_pos v, opt, v_ctx v)) | inr r => mret (inr r) end in
  if h_mflimit (op_hc p) <? ip then r ← hc_last (op_hc p) x ctx; done r else
  r ← LZ4HC_FindLongerMatch ctx ip (h_matchlimit (op_hc p)) (MINMATCH - 1) (h_maxNbAttempts (op_hc p))
        (h_dict (op_hc p)) (op_favorDecSpeed p);
  let '(firstMatch, ctx) := r in
  if md_len firstMatch =? 0 then mret (inl (v_at (ip + 1) x, opt, ctx))
  else if op_sufficient_len p <? md_len firstMatch
  then r ← hc_encode (op_hc p) x firstMatch ctx (fun x => goto_main x ctx); done r
  else
    opt ← opt_first (ip - hp_anchor x) firstMatch opt;
    e ← loop (Z.to_nat (LZ4_OPT_NUM + 1)) (opt_position p ip) (OVars 1 (md_len firstMatch) opt ctx);
    opt ← opt_reverse e;
    r ← opt_encode (op_hc p) (oe_last e) opt (oe_ctx e) x;
    match r with
    | inl x => mret (inl (x, opt, oe_ctx e))
    | inr r => mret (inr r)
    end.

(** [optAlloc] is the outcome of [ALLOC] for the table [opt]: without memory the
    function returns 0 before it sets [*srcSizePtr]. *)
Definition LZ4HC_compress_optimal (optAlloc : bool) (ctx : LZ4HC_CCtx)
    (source dst srcSize dstCapacity nbSearches sufficient_len : Z)
    (limit : limitedOutput_directive) (fullUpdate : bool) (dict : dictCtx_directive) (favorDecSpeed : bool) :
    M hcresult :=
  if negb optAlloc then mret (HcResult 0 srcSize ctx) else
  let p := OptParams (HcParams source srcSize dst dstCapacity limit dict nbSearches)
             (if LZ4_OPT_NUM <=? sufficient_len then LZ4_OPT_NUM - 1 else sufficient_len) fullUpdate favorDecSpeed in
  loop (Z.to_nat (srcSize + 2)) (opt_step p) (HcPos source dst source, ∅, ctx).

(** * One-shot compression *)

Definition LZ4_setCompressionLevel (s : LZ4HC_CCtx) (compressionLevel : Z) : LZ4HC_CCtx :=
  let compressionLevel := if compressionLevel <? 1 then LZ4HC_CLEVEL_DEFAULT else compressionLevel in
  let compressionLevel := if LZ4HC_CLEVEL_MAX <? compressionLevel then LZ4HC_CLEVEL_MAX else compressionLevel in
  set_level compressionLevel s.

(** The context after [LZ4_initStreamHC]: all zero, with the default level. *)
Definition LZ4_initStreamHC : LZ4HC_CCtx :=
  LZ4_setCompressionLevel
    (HcCtx (FilledTable 0 ∅) (FilledTable 0 ∅) NULL NULL NULL 0 0 0 0 0 0 None) LZ4HC_CLEVEL_DEFAULT.

(** [allocated] is the outcome of [ALLOC_AND_ZERO]; [None] is the null pointer. *)
Definition LZ4_createStreamHC (allocated : bool) : option LZ4HC_CCtx :=
  if allocated then
    Some (LZ4_setCompressionLevel
      (HcCtx (FilledTable 0 ∅) (FilledTable 0 ∅) NULL NULL NULL 0 0 0 0 0 0 None) LZ4HC_CLEVEL_DEFAULT)
  else None.

Definition LZ4_resetStreamHC (s : LZ4HC_CCtx) (compressionLevel : Z) : LZ4HC_CCtx :=
  LZ4_setCompressionLevel LZ4_initStreamHC compressionLevel.

Definition LZ4_resetStreamHC_fast (s : LZ4HC_CCtx) (compressionLevel : Z) : LZ4HC_CCtx :=
  LZ4_setCompressionLevel
    (if negb (hc_dirty s =? 0) then LZ4_initStreamHC
     else set_dictCtx None (set_limits NULL NULL (hc_dictStart s)
            (u32 (hc_dictLimit s + u32 (hc_end s - hc_prefixStart s))) (hc_lowLimit s) (hc_nextToUpdate s) s))
    compressionLevel.

Definition LZ4_favorDecompressionSpeed (s : LZ4HC_CCtx) (favor : Z) : LZ4HC_CCtx :=
  set_options (hc_compressionLevel s) (Z.b2z (negb (favor =? 0))) (hc_dirty s) (hc_dictCtx s) s.

Definition LZ4HC_compress_generic_internal (optAlloc : bool) (ctx : LZ4HC_CCtx) (src dst srcSize dstCapacity cLevel : Z)
    (limit : limitedOutput_directive) (dict : dictCtx_directive) : M hcresult :=
  if u32 LZ4_MAX_INPUT_SIZE <? u32 srcSize then mret (HcResult 0 srcSize ctx)
  else if dstCapacity <? 1 then mret (HcResult 0 srcSize ctx)
  else if srcSize =? 0 then storeb dst 0;; mret (HcResult 1 0 ctx)
  else
    let ctx := set_end (hc_end ctx + srcSize) ctx in
    let cParam := LZ4HC_getCLevelParams cLevel in
    r ← match strat cParam with
        | lz4mid => LZ4MID_compress ctx src dst srcSize dstCapacity limit dict
        | lz4hc => LZ4HC_compress_hashChain ctx src dst srcSize dstCapacity (nbSearches cParam) limit dict
        | lz4opt => LZ4HC_compress_optimal optAlloc ctx src dst srcSize dstCapacity (nbSearches cParam)
                      (targetLength cParam) limit (LZ4HC_CLEVEL_MAX <=? cLevel) dict (negb (hc_favorDecSpeed ctx =? 0))
        end;
    mret (if hr_result r <=? 0 then HcResult (hr_result r) (hr_consumed r) (set_dirty 1 (hr_ctx r)) else r).

Definition LZ4HC_compress_generic_noDictCtx (optAlloc : bool) (ctx : LZ4HC_CCtx)
    (src dst srcSize dstCapacity cLevel : Z) (limit : limitedOutput_directive) : M hcresult :=
  LZ4HC_compress_generic_internal optAlloc ctx src dst srcSize dstCapacity cLevel limit noDictCtx.

Definition isStateCompatible (ctx1 ctx2 : LZ4HC_CCtx) : bool :=
  let isMid c := bool_decide (strat (LZ4HC_getCLevelParams (hc_compressionLevel c)) = lz4mid) in
  negb (xorb (isMid ctx1) (isMid ctx2)).

Definition LZ4HC_setExternalDict (ctxPtr : LZ4HC_CCtx) (newBlock : Z) : M LZ4HC_CCtx :=
  ctxPtr ← (if (hc_prefixStart ctxPtr + 4 <=? hc_end ctxPtr)
               && negb (bool_decide (strat (LZ4HC_getCLevelParams (hc_compressionLevel ctxPtr)) = lz4mid))
            then LZ4HC_Insert ctxPtr (hc_end ctxPtr - 3) else mret ctxPtr);
  let dictLimit := u32 (hc_dictLimit ctxPtr + u32 (hc_end ctxPtr - hc_prefixStart ctxPtr)) in
  mret (set_dictCtx None (set_limits newBlock newBlock (hc_prefixStart ctxPtr) dictLimit
          (hc_dictLimit ctxPtr) dictLimit ctxPtr)).

Definition LZ4HC_compress_generic_dictCtx (optAlloc : bool) (ctx dictCtx : LZ4HC_CCtx)
    (src dst srcSize dstCapacity cLevel : Z) (limit : limitedOutput_directive) : M hcresult :=
  let position := u64 (u64 (hc_end ctx - hc_prefixStart ctx) + u32 (hc_dictLimit ctx - hc_lowLimit ctx)) in
  if 64 * KB <=? position then
    LZ4HC_compress_generic_noDictCtx optAlloc (set_dictCtx None ctx) src dst srcSize dstCapacity cLevel limit
  else if (position =? 0) && (4 * KB <? srcSize) && isStateCompatible ctx dictCtx then
    ctx ← LZ4HC_setExternalDict dictCtx src;
    LZ4HC_compress_generic_noDictCtx optAlloc (set_level (s16 cLevel) ctx) src dst srcSize dstCapacity cLevel limit
  else LZ4HC_compress_generic_internal optAlloc ctx src dst srcSize dstCapacity cLevel limit usingDictCtxHc.

Definition LZ4HC_compress_generic (optAlloc : bool) (ctx : LZ4HC_CCtx) (src dst srcSize dstCapacity cLevel : Z)
    (limit : limitedOutput_directive) : M hcresult :=
  match hc_dictCtx ctx with
  | None => LZ4HC_compress_generic_noDictCtx optAlloc ctx src dst srcSize dstCapacity cLevel limit
  | Some d => LZ4HC_compress_generic_dictCtx optAlloc ctx d src dst srcSize dstCapacity cLevel limit
  end.

(** The result and the state. *)
Definition LZ4_compress_HC_extStateHC_fastReset (optAlloc : bool) (state : LZ4HC_CCtx)
    (src dst srcSize dstCapacity compressionLevel : Z) : M (Z * LZ4HC_CCtx) :=
  let ctx := LZ4_resetStreamHC_fast state compressionLevel in
  let ctx := LZ4HC_init_internal ctx src in
  let limit := if dstCapacity <? LZ4_compressBound srcSize then limitedOutput else notLimited in
  r ← LZ4HC_compress_generic optAlloc ctx src dst srcSize dstCapacity compressionLevel limit;
  mret (hr_result r, hr_ctx r).

Definition LZ4_compress_HC_extStateHC (optAlloc : bool) (src dst srcSize dstCapacity compressionLevel : Z) :
    M (Z * LZ4HC_CCtx) :=
  LZ4_compress_HC_extStateHC_fastReset optAlloc LZ4_initStreamHC src dst srcSize dstCapacity compressionLevel.

(** [stateAlloc] is the outcome of [ALLOC] for the state. *)
Definition LZ4_compress_HC (stateAlloc optAlloc : bool) (src dst srcSize dstCapacity compressionLevel : Z) : M Z :=
  if negb stateAlloc then mret 0 else
  r ← LZ4_compress_HC_extStateHC optAlloc src dst srcSize dstCapacity compressionLevel; mret r.1.

(** The result has the new [*sourceSizePtr]. *)
Definition LZ4_compress_HC_destSize (optAlloc : bool) (source dest sourceSize targetDestSize cLevel : Z) : M hcresult :=
  let ctx := LZ4_setCompressionLevel (LZ4HC_init_internal LZ4_initStreamHC source) cLevel in
  LZ4HC_compress_generic optAlloc ctx source dest sourceSize targetDestSize cLevel fillOutput.

(** * Streaming *)

Definition LZ4_loadDictHC (s : LZ4HC_CCtx) (dictionary dictSize : Z) : M (Z * LZ4HC_CCtx) :=
  let '(dictionary, dictSize) :=
    if 64 * KB <? dictSize then (dictionary + (dictSize - 64 * KB), 64 * KB) else (dictionary, dictSize) in
  let cLevel := hc_compressionLevel s in
  let s := LZ4_setCompressionLevel LZ4_initStreamHC cLevel in
  let cp := LZ4HC_getCLevelParams cLevel in
  let s := set_end (dictionary + dictSize) (LZ4HC_init_internal s dictionary) in
  s ← (if bool_decide (strat cp = lz4mid) then LZ4MID_fillHTable s dictionary dictSize
       else if LZ4HC_HASHSIZE <=? dictSize then LZ4HC_Insert s (hc_end s - 3) else mret s);
  mret (dictSize, s).

Definition LZ4_attach_HC_dictionary (working_stream : LZ4HC_CCtx) (dictionary_stream : option LZ4HC_CCtx) :
    LZ4HC_CCtx := set_dictCtx dictionary_stream working_stream.

(** The part of the external dictionary that the input overwrites is dropped. *)
Definition hc_drop_overlap (s : LZ4HC_CCtx) (src srcSize : Z) : LZ4HC_CCtx :=
  let sourceEnd := src + srcSize in
  let dictBegin := hc_dictStart s in
  let dictEnd := hc_dictStart s + u32 (hc_dictLimit s - hc_lowLimit s) in
  if (dictBegin <? sourceEnd) && (src <? dictEnd) then
    let sourceEnd := if dictEnd <? sourceEnd then dictEnd else sourceEnd in
    let lowLimit := u32 (hc_lowLimit s + u32 (sourceEnd - hc_dictStart s)) in
    let dictStart := hc_dictStart s + u32 (sourceEnd - hc_dictStart s) in
    if u32 (hc_dictLimit s - lowLimit) <? LZ4HC_HASHSIZE
    then set_limits (hc_end s) (hc_prefixStart s) (hc_prefixStart s) (hc_dictLimit s) (hc_dictLimit s)
           (hc_nextToUpdate s) s
    else set_limits (hc_end s) (hc_prefixStart s) dictStart (hc_dictLimit s) lowLimit (hc_nextToUpdate s) s
  else s.

Definition LZ4_compressHC_continue_generic (optAlloc : bool) (s : LZ4HC_CCtx) (src dst srcSize dstCapacity : Z)
    (limit : limitedOutput_directive) : M hcresult :=
  let s := if hc_prefixStart s =? NULL then LZ4HC_init_internal s src else s in
  s ← (if 2 * GB <? u64 (u64 (hc_end s - hc_prefixStart s) + hc_dictLimit s) then
         let dictSize := u64 (hc_end s - hc_prefixStart s) in
         let dictSize := if 64 * KB <? dictSize then 64 * KB else dictSize in
         r ← LZ4_loadDictHC s (hc_end s - dictSize) dictSize; mret r.2
       else mret s);
  s ← (if negb (src =? hc_end s) then LZ4HC_setExternalDict s src else mret s);
  let s := hc_drop_overlap s src srcSize in
  LZ4HC_compress_generic optAlloc s src dst srcSize dstCapacity (hc_compressionLevel s) limit.

Definition LZ4_compress_HC_continue (optAlloc : bool) (s : LZ4HC_CCtx) (src dst srcSize dstCapacity : Z) :
    M (Z * LZ4HC_CCtx) :=
  r ← LZ4_compressHC_continue_generic optAlloc s src dst srcSize dstCapacity
        (if dstCapacity <? LZ4_compressBound srcSize then limitedOutput else notLimited);
  mret (hr_result r, hr_ctx r).

Definition LZ4_compress_HC_continue_destSize (optAlloc : bool) (s : LZ4HC_CCtx)
    (src dst srcSize targetDestSize : Z) : M hcresult :=
  LZ4_compressHC_continue_generic optAlloc s src dst srcSize targetDestSize fillOutput.

Definition LZ4_saveDictHC (s : LZ4HC_CCtx) (safeBuffer dictSize : Z) : M (Z * LZ4HC_CCtx) :=
  let prefixSize := s32 (hc_end s - hc_prefixStart s) in
  let dictSize := if 64 * KB <? dictSize then 64 * KB else dictSize in
  let dictSize := if dictSize <? 4 then 0 else dictSize in
  let dictSize := if prefixSize <? dictSize then prefixSize else dictSize in
  (if 0 <? dictSize then memmove safeBuffer (hc_end s - dictSize) dictSize else mret tt);;
  let endIndex := u32 (u32 (hc_end s - hc_prefixStart s) + hc_dictLimit s) in
  let limit := u32 (endIndex - u32 dictSize) in
  mret (dictSize,
    set_limits (if safeBuffer =? NULL then NULL else safeBuffer + dictSize) safeBuffer safeBuffer limit limit
      (if hc_nextToUpdate s <? limit then limit else hc_nextToUpdate s) s).

(** * Deprecated functions *)

Definition LZ4_compressHC (stateAlloc optAlloc : bool) (src dst srcSize : Z) : M Z :=
  LZ4_compress_HC stateAlloc optAlloc src dst srcSize (LZ4_compressBound srcSize) 0.
Definition LZ4_compressHC_limitedOutput (stateAlloc optAlloc : bool) (src dst srcSize maxDstSize : Z) : M Z :=
  LZ4_compress_HC stateAlloc optAlloc src dst srcSize maxDstSize 0.
Definition LZ4_compressHC2 (stateAlloc optAlloc : bool) (src dst srcSize cLevel : Z) : M Z :=
  LZ4_compress_HC stateAlloc optAlloc src dst srcSize (LZ4_compressBound srcSize) cLevel.
Definition LZ4_compressHC2_limitedOutput (stateAlloc optAlloc : bool) (src dst srcSize maxDstSize cLevel : Z) : M Z :=
  LZ4_compress_HC stateAlloc optAlloc src dst srcSize maxDstSize cLevel.
Definition LZ4_compressHC_withStateHC (optAlloc : bool) (src dst srcSize : Z) :
    M (Z * LZ4HC_CCtx) :=
  LZ4_compress_HC_extStateHC optAlloc src dst srcSize (LZ4_compressBound srcSize) 0.
Definition LZ4_compressHC_limitedOutput_withStateHC (optAlloc : bool) (src dst srcSize maxDstSize : Z) :
    M (Z * LZ4HC_CCtx) :=
  LZ4_compress_HC_extStateHC optAlloc src dst srcSize maxDstSize 0.
Definition LZ4_compressHC2_withStateHC (optAlloc : bool) (src dst srcSize cLevel : Z) :
    M (Z * LZ4HC_CCtx) :=
  LZ4_compress_HC_extStateHC optAlloc src dst srcSize (LZ4_compressBound srcSize) cLevel.
Definition LZ4_compressHC2_limitedOutput_withStateHC (optAlloc : bool) (src dst srcSize maxDstSize cLevel : Z) :
    M (Z * LZ4HC_CCtx) :=
  LZ4_compress_HC_extStateHC optAlloc src dst srcSize maxDstSize cLevel.
Definition LZ4_compressHC_continue (optAlloc : bool) (ctx : LZ4HC_CCtx) (src dst srcSize : Z) : M (Z * LZ4HC_CCtx) :=
  LZ4_compress_HC_continue optAlloc ctx src dst srcSize (LZ4_compressBound srcSize).
Definition LZ4_compressHC_limitedOutput_continue (optAlloc : bool) (ctx : LZ4HC_CCtx) (src dst srcSize maxDstSize : Z) :
    M (Z * LZ4HC_CCtx) :=
  LZ4_compress_HC_continue optAlloc ctx src dst srcSize maxDstSize.

(** The return value and the new state. *)
Definition LZ4_resetStreamStateHC (inputBuffer : Z) : Z * LZ4HC_CCtx :=
  (0, LZ4HC_init_internal LZ4_initStreamHC inputBuffer).
Definition LZ4_createHC (allocated : bool) (inputBuffer : Z) : option LZ4HC_CCtx :=
  match LZ4_createStreamHC allocated with
  | None => None
  | Some hc4 => Some (LZ4HC_init_internal hc4 inputBuffer)
  end.

Definition LZ4_compressHC2_continue (optAlloc : bool) (s : LZ4HC_CCtx) (src dst srcSize cLevel : Z) :
    M (Z * LZ4HC_CCtx) :=
  r ← LZ4HC_compress_generic optAlloc s src dst srcSize 0 cLevel notLimited;
  mret (hr_result r, hr_ctx r).
Definition LZ4_compressHC2_limitedOutput_continue (optAlloc : bool) (s : LZ4HC_CCtx)
    (src dst srcSize dstCapacity cLevel : Z) : M (Z * LZ4HC_CCtx) :=
  r ← LZ4HC_compress_generic optAlloc s src dst srcSize dstCapacity cLevel limitedOutput;
  mret (hr_result r, hr_ctx r).

(** The start of the buffer, and the state. *)
Definition LZ4_slideInputBufferHC (s : LZ4HC_CCtx) : Z * LZ4HC_CCtx :=
  (hc_prefixStart s - hc_dictLimit s + hc_lowLimit s, LZ4_resetStreamHC_fast s (hc_compressionLevel s)).
