(* ===== verification/Lz4HcSearch.v ===== *)
(** The search of lib/lz4hc.c: the counting functions, which count equal bytes
    backwards and runs of one byte in both directions, the tables, and the match
    finder [LZ4HC_InsertAndGetWiderMatch] within one segment of memory. *)
From S2P Require Import Prelude.
From S2P Require Import Mem.
From S2P Require Import BlockFormat.
From S2P Require Import Lz4Common.
From S2P Require Import Lz4Decompress.
From S2P Require Import Lz4Compress.
From S2P Require Import Lz4CompressGeneric.
From S2P Require Import Lz4CountSpec.
From S2P Require Import Lz4CompressInv.
From S2P Require Import Lz4CompressSearch.
From S2P Require Import Lz4CompressEncode.
From S2P Require Import Lz4Hc.

(** * Counting backwards *)

Lemma le_val_drop (n : nat) : forall l, bytes_ok l -> le_val l / 256 ^ Z.of_nat n = le_val (drop n l).
Proof.
  induction n as [|n IH]; intros l Hl; [by rewrite Z.pow_0_r, Z.div_1_r|].
  destruct l as [|b l]; [by rewrite Z.div_0_l by (apply Z.pow_nonzero; lia)|].
  apply bytes_ok_cons in Hl as [Hb Hl]. rewrite Nat2Z.inj_succ, Z.pow_succ_r by lia.
  rewrite <- Z.div_div by (try apply Z.pow_pos_nonneg; lia). simpl. rewrite <- IH by done.
  f_equal. Z.div_mod_to_equations. lia.
Qed.

(** The last bytes of two words that differ. *)
Lemma NbCommonBytes32_spec la lb :
  zlen la = 4 -> zlen lb = 4 -> bytes_ok la -> bytes_ok lb -> Z.lxor (le_val la) (le_val lb) <> 0 ->
  exists i : nat, LZ4HC_NbCommonBytes32 (Z.lxor (le_val la) (le_val lb)) = 4 - Z.of_nat i /\
    (0 < i <= 4)%nat /\ drop i la = drop i lb.
Proof.
  intros La Lb Ha Hb Hd. pose proof (le_val_range la Ha) as Ra. pose proof (le_val_range lb Hb) as Rb.
  rewrite La in Ra. rewrite Lb in Rb. change (256 ^ 4) with (2 ^ 32) in *.
  set (v := Z.lxor (le_val la) (le_val lb)) in *.
  assert (0 <= v < 2 ^ 32) as Hv.
  { assert (0 <= v) by (apply lxor_nonneg_le; lia). split; [done|].
    apply Z.log2_lt_pow2; [lia|].
    pose proof (Z.log2_lxor (le_val la) (le_val lb) ltac:(lia) ltac:(lia)) as HL. fold v in HL.
    assert (forall x, 0 <= x < 2 ^ 32 -> Z.log2 x < 32) as Hlog.
    { intros x Hx. destruct (Z.eq_dec x 0) as [->|]; [done|]. apply Z.log2_lt_pow2; lia. }
    pose proof (Hlog _ Ra). pose proof (Hlog _ Rb). lia. }
  assert (0 <= Z.log2 v < 32) as HL.
  { split; [apply Z.log2_nonneg|]. apply Z.log2_lt_pow2; lia. }
  unfold LZ4HC_NbCommonBytes32, clz32. rewrite Z.shiftr_div_pow2 by lia. change (2 ^ 3) with 8.
  exists (Z.to_nat (4 - (31 - Z.log2 v) / 8)).
  assert (0 <= (31 - Z.log2 v) / 8 < 4) as Hn by (Z.div_mod_to_equations; lia).
  split; [lia|]. split; [lia|]. set (i := Z.to_nat _).
  assert (Z.log2 v < 8 * Z.of_nat i) as Hi by (subst i; Z.div_mod_to_equations; lia).
  apply lxor_zero.
  - rewrite !length_drop. zn.
  - by apply Forall_drop.
  - by apply Forall_drop.
  - rewrite <- !le_val_drop by done. change 256 with (2 ^ 8). rewrite <- Z.pow_mul_r by lia.
    rewrite <- lxor_div by lia. fold v. apply Z.div_small. split; [lia|]. apply Z.log2_lt_pow2; lia.
Qed.

Section CountBack.
Context (m : mem) (ip mtch n : Z).
Context (Hip : readable m (ip - n) n) (Hmt : readable m (mtch - n) n).

(** The bytes from [back] up to the two pointers are equal. *)
Definition back_eq (back : Z) : Prop :=
  - n <= back <= 0 /\ forall i, back <= i < 0 -> m !! (ip + i) = m !! (mtch + i).

Lemma back_eq_holds back la lb (k : nat) :
  back_eq back -> holds m (ip + back - zlen la) la -> holds m (mtch + back - zlen la) lb ->
  zlen la = zlen lb -> (k <= length la)%nat -> - n <= back - zlen la + Z.of_nat k ->
  drop k la = drop k lb -> back_eq (back - zlen la + Z.of_nat k).
Proof.
  intros [Hb He] Ha Hl Hz Hk Hn Hd. split; [zn|]. intros i Hi.
  destruct (Z.lt_ge_cases i back); [|apply He; lia].
  rewrite (holds_at _ _ _ _ Ha), (holds_at _ _ _ _ Hl) by lia.
  apply (f_equal (.!! Z.to_nat (i - back + zlen la - Z.of_nat k))) in Hd.
  rewrite !lookup_drop in Hd. rewrite Z2Nat.inj_sub in Hd by lia.
  replace (k + (Z.to_nat (i - back + zlen la) - Z.to_nat (Z.of_nat k)))%nat
    with (Z.to_nat (i - back + zlen la)) in Hd by lia.
  replace (ip + i - (ip + back - zlen la)) with (i - back + zlen la) by lia.
  by replace (mtch + i - (mtch + back - zlen la)) with (i - back + zlen la) by lia.
Qed.

Lemma wp_countBack iMin mMin Q :
  0 <= n -> - n = Z.max (iMin - ip) (mMin - mtch) ->
  (forall back, back_eq back -> Q back m) -> wp (LZ4HC_countBack ip mtch iMin mMin) Q m.
Proof.
  intros Hn0 En HQ. unfold LZ4HC_countBack. rewrite <- En. apply wp_bind.
  apply (wp_loop (fun b m' => m' = m /\ back_eq b) (fun b => b + n)).
  2: { split; [done|]. split; [lia|]. intros. lia. }
  2: lia.
  intros back m' [-> HB]. pose proof HB as [Hb _]. split; [lia|]. unfold countBack_step. wif.
  - apply wp_bind, wp_LZ4_read32; [eapply readable_sub; [exact Hip|lia|lia]|]. intros la Ha La Ba.
    apply wp_bind, wp_LZ4_read32; [eapply readable_sub; [exact Hmt|lia|lia]|]. intros lb Hl Lb Bb.
    rewrite <- La in Ha. rewrite <- La in Hl. cbn zeta. zcase; cbn [negb].
    + apply wp_ret. assert (la = lb) as E by (apply lxor_zero; [zn|done|done|done]).
      replace (back - 4) with (back - zlen la + Z.of_nat 0) by lia. split; [|lia]. split; [done|].
      eapply back_eq_holds; [done|done|exact Hl|lia|lia|lia|by rewrite E].
    + apply wp_ret, wp_ret, HQ.
      destruct (NbCommonBytes32_spec la lb) as (i & -> & Hi & Hd); [done..|].
      replace (back - (4 - Z.of_nat i)) with (back - zlen la + Z.of_nat i) by lia.
      eapply back_eq_holds; [done|done|exact Hl|lia|zn|lia|done].
  - apply wp_ret.
    apply (wp_loop (fun b m' => m' = m /\ back_eq b) (fun b => b + n)); [|done|lia].
    intros b m' [-> HB']. pose proof HB' as [Hb' _]. split; [lia|]. wif.
    + apply wp_bind, wp_loadb_word; [eapply readable_sub; [exact Hip|lia|lia]|]. intros la Ha La Ba.
      apply wp_bind, wp_loadb_word; [eapply readable_sub; [exact Hmt|lia|lia]|]. intros lb Hl Lb Bb.
      apply wp_ret. zcase; [|by apply HQ]. split; [|lia]. split; [done|].
      assert (la = lb) as E'.
      { rewrite <- (le_bytes_val la), <- (le_bytes_val lb) by done. f_equal; [zn|done]. }
      replace (b - 1) with (b - zlen la + Z.of_nat 0) by lia.
      apply (back_eq_holds b la lb); [done| | |lia|lia|lia|by rewrite E'].
      * by replace (ip + b - zlen la) with (ip + b - 1) by lia.
      * by replace (mtch + b - zlen la) with (mtch + b - 1) by lia.
    + apply wp_ret. by apply HQ.
Qed.
End CountBack.

(** * Runs of one byte *)

(** The [n] bytes from [a] are all [c]. *)
Definition run (m : mem) (a n c : Z) : Prop := forall i, a <= i < a + n -> m !! i = Some c.

Lemma run_app m a n k c : run m a n c -> run m (a + n) k c -> run m a (n + k) c.
Proof. intros H1 H2 i Hi. destruct (Z.lt_ge_cases i (a + n)); [apply H1|apply H2]; lia. Qed.

Lemma run_replicate m a (n : nat) c : holds m a (replicate n c) -> run m a (Z.of_nat n) c.
Proof.
  intros H i Hi. rewrite (holds_at _ _ _ _ H) by (rewrite zlen_replicate; lia).
  apply lookup_replicate. split; [done|lia].
Qed.

Lemma run_take m a l (k : nat) c :
  holds m a l -> (k <= length l)%nat -> take k l = replicate k c -> run m a (Z.of_nat k) c.
Proof.
  intros H Hk Et. apply run_replicate. rewrite <- Et. intros i Hi. rewrite length_take in Hi.
  rewrite lookup_take_lt by lia. apply H. lia.
Qed.

(** The word of a run. *)
Definition pattern_of (c : Z) : Z := le_val (replicate 4 c).

Lemma replicate_bytes n c : byte_ok c -> bytes_ok (replicate n c).
Proof. intros Hc. by apply Forall_replicate. Qed.

Lemma le_val_run (n : nat) c : byte_ok c -> u8 (le_val (replicate (S n) c)) = c /\
  Z.shiftr (le_val (replicate (S n) c)) 8 = le_val (replicate n c).
Proof.
  intros Hc. pose proof (le_val_nonneg _ (replicate_bytes n c Hc)). simpl. unfold u8.
  rewrite Z.shiftr_div_pow2 by lia. change (2 ^ 8) with 256. split; Z.div_mod_to_equations; lia.
Qed.

Lemma word_run l n c : bytes_ok l -> byte_ok c -> length l = n -> le_val l = le_val (replicate n c) ->
  l = replicate n c.
Proof.
  intros Hl Hc Hn E. rewrite <- (le_bytes_val l), <- (le_bytes_val (replicate n c)) by
    (done || by apply replicate_bytes). by rewrite length_replicate, Hn, E.
Qed.

(** The test for a repeated byte. *)
Lemma pattern_byte l :
  bytes_ok l -> zlen l = 4 ->
  (Z.land (le_val l) 0xFFFF =? Z.shiftr (le_val l) 16) && (Z.land (le_val l) 0xFF =? Z.shiftr (le_val l) 24) = true ->
  exists c, byte_ok c /\ l = replicate 4 c.
Proof.
  intros Hb Hl [H1%Z.eqb_eq H2%Z.eqb_eq]%andb_prop.
  destruct l as [|a [|b [|c [|d [|]]]]]; try zl.
  repeat (apply bytes_ok_cons in Hb as [? Hb]). simpl le_val in *.
  change 0xFFFF with (Z.ones 16) in H1. change 0xFF with (Z.ones 8) in H2.
  rewrite Z.land_ones in H1, H2 by lia. rewrite Z.shiftr_div_pow2 in H1, H2 by lia.
  change (2 ^ 16) with 65536 in *. change (2 ^ 8) with 256 in *. change (2 ^ 24) with 16777216 in *.
  replace (a + 256 * (b + 256 * (c + 256 * (d + 256 * 0)))) with ((a + 256 * b) + (c + 256 * d) * 65536) in H1 by lia.
  rewrite Z.mod_add, Z.div_add, Z.mod_small, Z.div_small in H1 by lia.
  replace (a + 256 * (b + 256 * (c + 256 * (d + 256 * 0)))) with ((a + (b + 256 * c) * 256) + d * 16777216) in H2 by lia.
  rewrite Z.div_add, (Z.div_small (a + _)) in H2 by lia.
  replace (a + (b + 256 * c) * 256 + d * 16777216) with (a + (b + 256 * c + d * 65536) * 256) in H2 by lia.
  rewrite Z.mod_add, Z.mod_small in H2 by lia.
  exists a. split; [done|]. simpl. assert (b = a /\ c = a /\ d = a) as (-> & -> & ->) by lia. done.
Qed.

Section Runs.
Context (m : mem) (c : Z) (Hc : byte_ok c).

Lemma wp_countPattern a n Q :
  readable m a n -> 0 <= n < 2 ^ 32 ->
  (forall k, 0 <= k <= n -> run m a k c -> Q k m) ->
  wp (LZ4HC_countPattern a (a + n) (pattern_of c)) Q m.
Proof.
  intros Hr Hn HQ. unfold LZ4HC_countPattern.
  assert (u64 (pattern_of c + u64 (Z.shiftl (pattern_of c) (8 * 4))) = le_val (replicate 8 c)) as ->.
  { unfold pattern_of. rewrite Z.shiftl_mul_pow2 by lia. simpl le_val. change (2 ^ (8 * 4)) with 4294967296.
    rewrite (u64_small (_ * _)), u64_small by lia. lia. }
  replace (Z.to_nat (a + n - a)) with (Z.to_nat n) by lia. apply wp_bind.
  apply (wp_loop (fun ip m' => m' = m /\ a <= ip <= a + n /\ run m a (ip - a) c) (fun ip => a + n - ip)).
  2: { split; [done|]. split; [lia|]. intros i Hi. lia. }
  2: lia.
  intros ip m' (-> & Hip & Hrun). split; [lia|]. wif.
  - apply wp_bind, wp_LZ4_read_ARCH; [eapply readable_sub; [exact Hr|lia|lia]|]. intros l Hh Hl Hb. cbn zeta.
    zcase.
    + assert (l = replicate 8 c) as E.
      { apply lxor_zero; [rewrite length_replicate; zn|done|by apply replicate_bytes|done]. }
      apply wp_ret. split; [|lia]. split; [done|]. split; [lia|].
      replace (ip + 8 - a) with (ip - a + 8) by lia. apply run_app; [done|].
      replace (a + (ip - a)) with ip by lia. rewrite E in Hh. by apply (run_replicate m ip 8).
    + destruct (NbCommonBytes_spec l (replicate 8 c)) as (k & -> & Hk & Ht & _);
        [rewrite length_replicate; zn|done|by apply replicate_bytes|done|].
      do 2 apply wp_ret. rewrite u32_small by zn. apply HQ; [zn|].
      replace (ip + Z.of_nat k - a) with (ip - a + Z.of_nat k) by lia. apply run_app; [done|].
      replace (a + (ip - a)) with ip by lia. apply (run_take m ip l); [done|lia|].
      rewrite Ht, take_replicate. f_equal. zn.
  - apply wp_ret, wp_bind.
    apply (wp_loop (fun q m' => m' = m /\ a <= q.1 <= a + n /\ run m a (q.1 - a) c /\
        exists j, q.2 = le_val (replicate j c) /\ a + n - q.1 <= Z.of_nat j) (fun q => a + n - q.1)).
    2: { split; [done|]. split; [simpl; lia|]. split; [done|]. exists 8%nat. split; [done|]. simpl. lia. }
    2: simpl; lia.
    intros [p pb] m' (-> & Hp & Hrun' & j & E & Hj). simpl in *. subst pb. split; [lia|]. wif.
    + destruct (Hr p) as (b & Eb & Hb); [lia|]. apply wp_bind. eapply wp_loadb; [exact Eb|].
      destruct j as [|j]; [lia|]. destruct (le_val_run j c Hc) as [-> ->]. wif; apply wp_ret.
      * subst b. split; [|simpl; lia]. split; [done|]. split; [simpl; lia|]. split; simpl.
        -- replace (p + 1 - a) with (p - a + 1) by lia. apply run_app; [done|]. intros i Hi.
           by replace i with p by lia.
        -- exists j. split; [done|]. lia.
      * apply wp_ret. rewrite u32_small by lia. apply HQ; [lia|done].
    + do 2 apply wp_ret. rewrite u32_small by lia. apply HQ; [lia|done].
Qed.

Lemma pattern_bytes k : 0 <= k < 4 -> u8 (Z.shiftr (pattern_of c) (8 * k)) = c.
Proof.
  intros Hk. unfold pattern_of, u8. simpl le_val. rewrite Z.shiftr_div_pow2 by lia.
  assert (k = 0 \/ k = 1 \/ k = 2 \/ k = 3) as [-> |[-> |[-> | ->]]] by lia; simpl;
    change (2 ^ 8) with 256; try change (2 ^ 16) with 65536; try change (2 ^ 24) with 16777216;
    Z.div_mod_to_equations; lia.
Qed.

Lemma wp_reverseCountPattern a n Q :
  readable m (a - n) n -> 0 <= n < 2 ^ 32 ->
  (forall k, 0 <= k <= n -> run m (a - k) k c -> Q k m) ->
  wp (LZ4HC_reverseCountPattern a (a - n) (pattern_of c)) Q m.
Proof.
  intros Hr Hn HQ. unfold LZ4HC_reverseCountPattern.
  replace (Z.to_nat (a - (a - n))) with (Z.to_nat n) by lia. apply wp_bind.
  apply (wp_loop (fun ip m' => m' = m /\ a - n <= ip <= a /\ run m ip (a - ip) c) (fun ip => ip - (a - n))).
  2: { split; [done|]. split; [lia|]. intros i Hi. lia. }
  2: lia.
  intros ip m' (-> & Hip & Hrun). split; [lia|].
  assert ((ip - 4 < a - n \/ ~ run m (ip - 4) 4 c) ->
    wp (ip ← loop (S (Z.to_nat (ip - (a - n))))
          (fun q => let '(ip, k) := q in
             if a - n <? ip then
               b ← loadb (ip - 1);
               mret (if b =? u8 (Z.shiftr (pattern_of c) (8 * k)) then inl (ip - 1, k - 1) else inr ip)
             else mret (inr ip)) (ip, 3);
        mret (u32 (a - ip))) Q m) as Htail.
  { intros Hstop. apply wp_bind.
    apply (wp_loop (fun q m' => m' = m /\ q.1 = ip - (3 - q.2) /\ q.2 <= 3 /\ a - n <= q.1 /\
        run m q.1 (a - q.1) c) (fun q => q.1 - (a - n))).
    2: { split; [done|]. simpl. split; [lia|]. split; [lia|]. split; [lia|done]. }
    2: simpl; lia.
    intros [p k] m' (-> & Ep & Hk & Hp & Hrun'). simpl in *. split; [lia|]. wif.
    - destruct (Hr (p - 1)) as (b & Eb & Hb); [lia|]. apply wp_bind. eapply wp_loadb; [exact Eb|].
      assert (0 <= k) as Hk0.
      { destruct (Z.lt_ge_cases k 0); [exfalso|done]. destruct Hstop as [?|Hstop]; [lia|].
        apply Hstop. intros i Hi. apply Hrun'. lia. }
      rewrite pattern_bytes by lia. apply wp_ret. destruct (Z.eqb_spec b c) as [->|].
      + split; [|simpl; lia]. split; [done|]. simpl. split; [lia|]. split; [lia|]. split; [lia|].
        intros i Hi. destruct (Z.eq_dec i (p - 1)) as [->|]; [done|]. apply Hrun'. lia.
      + apply wp_ret. rewrite u32_small by lia. apply HQ; [lia|].
        by replace (a - (a - p)) with p by lia.
    - do 2 apply wp_ret. rewrite u32_small by lia. apply HQ; [lia|].
      by replace (a - (a - p)) with p by lia. }
  wif.
  - apply wp_bind, wp_LZ4_read32; [eapply readable_sub; [exact Hr|lia|lia]|]. intros l Hh Hl Hb. apply wp_ret.
    zcase.
    + split; [|lia]. split; [done|]. split; [lia|].
      assert (l = replicate 4 c) as E by (apply word_run; [done|done|zn|done]).
      rewrite E in Hh. apply (run_replicate m _ 4) in Hh.
      replace (a - (ip - 4)) with (4 + (a - ip)) by lia. apply run_app; [done|].
      by replace (ip - 4 + 4) with ip by lia.
    + apply Htail. right. intros Hrun4.
      assert (l = replicate 4 c) as E; [|by rewrite E in *].
      apply (holds_inj m (ip - 4)); [done| |rewrite length_replicate; zn].
      apply holds_intro. rewrite zlen_replicate. intros i Hi. rewrite (Hrun4 i) by lia.
      symmetry. apply lookup_replicate. split; [done|lia].
  - apply wp_ret, Htail. left. lia.
Qed.
End Runs.

(** The match finder of lib/lz4hc.c within one segment of memory: what
    [LZ4HC_InsertAndGetWiderMatch] returns is a match of the data, whatever the
    chains contain. *)

(** * The context *)

(** What the compressors leave alone. *)
Definition hc_static (c : LZ4HC_CCtx) : LZ4HC_CCtx :=
  set_nextToUpdate 0 (set_tables (FilledTable 0 ∅) (FilledTable 0 ∅) c).

Lemma hc_static_eq a b : hc_static a = hc_static b ->
  hc_prefixStart a = hc_prefixStart b /\ hc_dictLimit a = hc_dictLimit b /\ hc_lowLimit a = hc_lowLimit b.
Proof. destruct a, b. unfold hc_static. simpl. by intros [= -> -> -> -> -> -> -> -> ->]. Qed.

(** The level of the context selects the mid-level compressor. *)
Definition hc_isMid (c : LZ4HC_CCtx) : bool :=
  bool_decide (strat (LZ4HC_getCLevelParams (hc_compressionLevel c)) = lz4mid).

(** Positions in the hash table are below [K]; steps of the chains have 16 bits. *)
Definition hashes_below (t : filled_table) (K : Z) : Prop := forall h, 0 <= ft_get t h < K.
Definition chain_ok (t : filled_table) : Prop := forall i, 0 <= ft_get t i < 65536.

Lemma ft_get_set t i v j : ft_get (ft_set t i v) j = if decide (i = j) then v else ft_get t j.
Proof. unfold ft_get, ft_set. simpl. rewrite lookup_insert. by case_decide. Qed.

Lemma hashes_below_mono t K K' : hashes_below t K -> K <= K' -> hashes_below t K'.
Proof. intros H ? h. specialize (H h). lia. Qed.

Lemma hashes_below_set t h v K : hashes_below t K -> 0 <= v < K -> hashes_below (ft_set t h v) K.
Proof. intros H Hv i. rewrite ft_get_set. case_decide; [done|apply H]. Qed.

Lemma chain_ok_set t i v : chain_ok t -> 0 <= v < 65536 -> chain_ok (ft_set t i v).
Proof. intros H Hv j. rewrite ft_get_set. case_decide; [done|apply H]. Qed.

Lemma u16_range z : 0 <= u16 z < 65536.
Proof. apply Z.mod_pos_bound. lia. Qed.

Lemma hash_function_range v : 0 <= HASH_FUNCTION v < LZ4HC_HASHTABLESIZE.
Proof. apply (shiftr_range _ 17 15); [done|done|]. apply u32_range. Qed.

Lemma wp_hash_get t h Q m :
  0 <= h < LZ4HC_HASHTABLESIZE -> Q (ft_get t h) m -> wp (hash_get t h) Q m.
Proof.
  intros Hh HQ. unfold hash_get. destruct (Z.leb_spec 0 h), (Z.ltb_spec h LZ4HC_HASHTABLESIZE); try lia.
  by apply wp_ret.
Qed.

Lemma wp_hash_set t h v Q m :
  0 <= h < LZ4HC_HASHTABLESIZE -> Q (ft_set t h v) m -> wp (hash_set t h v) Q m.
Proof.
  intros Hh HQ. unfold hash_set. destruct (Z.leb_spec 0 h), (Z.ltb_spec h LZ4HC_HASHTABLESIZE); try lia.
  by apply wp_ret.
Qed.

Section HcSearch.
Context (p : cparams) (hist inp : list Z) (m0 : mem) (lim : Z).
Context (Henv : comp_env p hist inp m0 lim) (Hpre : c_maybe_extMem p = false).

Abbreviation hlen := (hlen hist).
Abbreviation dlen := (dlen hist inp).
Abbreviation addr := (addr p hist).
Abbreviation dget := (dget hist inp).
Abbreviation segment := (segment p hist inp).
Abbreviation mframe m := (frame (c_dest p) lim m0 m).
Abbreviation deq := (deq hist inp).

(** History and input are one segment, known to the context [c] from index
    [hc_dictLimit c] on. *)
Definition window_ok (c : LZ4HC_CCtx) : Prop :=
  hc_prefixStart c = addr 0 /\ hc_lowLimit c = hc_dictLimit c /\ 65536 <= hc_dictLimit c /\
  hc_dictLimit c + dlen <= 2 ^ 32 - 2 ^ 17.

Context (c0 : LZ4HC_CCtx) (Hc0 : window_ok c0).

(** The index of the first byte of the data. *)
Abbreviation D := (hc_dictLimit c0).

(** The context when positions up to [k] may be known. *)
Definition hc_ok (c : LZ4HC_CCtx) (k : Z) : Prop :=
  hc_static c = hc_static c0 /\ D <= hc_nextToUpdate c <= D + k /\
  hashes_below (hc_hashTable c) (hc_nextToUpdate c) /\ chain_ok (hc_chainTable c).

(** The context after a call; the mid-level compressor does not keep
    [hc_nextToUpdate]. *)
Definition hc_after (c : LZ4HC_CCtx) : Prop :=
  hc_static c = hc_static c0 /\ hashes_below (hc_hashTable c) (D + dlen) /\ chain_ok (hc_chainTable c) /\
  (hc_isMid c0 = false -> D <= hc_nextToUpdate c <= D + dlen /\ hashes_below (hc_hashTable c) (hc_nextToUpdate c)).

Lemma hc_ok_after c k : hc_ok c k -> k <= dlen -> hc_after c.
Proof.
  intros (H1 & H2 & H3 & H4) Hk. split; [done|]. split; [eapply hashes_below_mono; [exact H3|lia]|].
  split; [done|]. intros _. split; [lia|done].
Qed.

Lemma hc_ok_mono c k k' : hc_ok c k -> k <= k' -> hc_ok c k'.
Proof. intros (H1 & H2 & H3) Hk. split; [done|]. split; [lia|done]. Qed.

Lemma hc_ok_window c k : hc_ok c k ->
  hc_prefixStart c = addr 0 /\ hc_dictLimit c = D /\ hc_lowLimit c = D.
Proof.
  intros (E & _). apply hc_static_eq in E as (-> & -> & ->). destruct Hc0 as (-> & -> & _). done.
Qed.

Lemma addr_eq k : addr k = addr 0 + k.
Proof. unfold Lz4CompressInv.addr. rewrite Hpre. simpl. lia. Qed.

Lemma segment_eq k n : 0 <= k -> k + n <= dlen -> segment k n.
Proof. intros ? ?. split; [done|]. split; [done|]. rewrite Hpre. done. Qed.

Ltac cenv :=
  pose proof (dlen_eq _ _ _ _ _ Henv) as Hdl; pose proof (hlen_nonneg hist) as Hhl;
  pose proof (ce_max _ _ _ _ _ Henv) as Hmx; change LZ4_MAX_INPUT_SIZE with 2113929216 in Hmx;
  pose proof Hc0 as (_ & _ & HD & HDd);
  change MINMATCH with 4 in *; change MFLIMIT with 12 in *; change LASTLITERALS with 5 in *;
  change LZ4_DISTANCE_MAX with 65535 in *.

Lemma seg_readable m k n : mframe m -> 0 <= k -> k + n <= dlen -> readable m (addr k) n.
Proof. intros Hf ? ?. eapply segment_readable; [exact Henv|done|by apply segment_eq]. Qed.

(** Words at two positions. *)
Lemma word_eq_deq m k j n la lb :
  mframe m -> 0 <= k -> k + n <= dlen -> 0 <= j -> j + n <= dlen ->
  holds m (addr k) la -> holds m (addr j) lb -> zlen la = n -> zlen lb = n ->
  bytes_ok la -> bytes_ok lb -> le_val la = le_val lb -> deq k j n.
Proof.
  intros Hf Hk Hkn Hj Hjn Ha Hb La Lb Ba Bb E i Hi.
  assert (la = lb) as <-.
  { rewrite <- (le_bytes_val la), <- (le_bytes_val lb) by done. f_equal; [zn|done]. }
  rewrite <- (segment_get _ _ _ _ _ Henv m j n i), <- (segment_get _ _ _ _ _ Henv m k n i)
    by (done || by apply segment_eq).
  rewrite (holds_at _ _ _ (addr k + i) Ha), (holds_at _ _ _ (addr j + i) Hb) by lia. f_equal. lia.
Qed.

(** A run of one byte in the data. *)
Definition drun (k n c : Z) : Prop := forall i, 0 <= i < n -> dget (k + i) = Some c.

Lemma run_drun m k n c : mframe m -> 0 <= k -> k + n <= dlen -> run m (addr k) n c -> drun k n c.
Proof.
  intros Hf Hk Hn Hr i Hi. rewrite <- (segment_get _ _ _ _ _ Henv m k n i) by (done || by apply segment_eq).
  apply Hr. lia.
Qed.

Lemma drun_deq k j n c : drun k n c -> drun j n c -> deq k j n.
Proof. intros H1 H2 i Hi. by rewrite H1, H2. Qed.

(** * Insertion *)

Lemma wp_hashPtr k Q m :
  mframe m -> 0 <= k -> k + 4 <= dlen -> (forall h, 0 <= h < LZ4HC_HASHTABLESIZE -> Q h m) ->
  wp (LZ4HC_hashPtr (addr k)) Q m.
Proof.
  intros Hf Hk Hn HQ. apply wp_bind, wp_LZ4_read32; [by apply seg_readable|]. intros l _ _ _.
  apply wp_ret, HQ, hash_function_range.
Qed.

Lemma wp_Insert c n k Q m :
  mframe m -> hc_ok c n -> n <= k -> k + 3 <= dlen ->
  (forall c', hc_ok c' k -> hc_nextToUpdate c' = D + k -> Q c' m) ->
  wp (LZ4HC_Insert c (addr k)) Q m.
Proof.
  intros Hf Hok Hn Hk HQ. cenv. pose proof (hc_ok_window _ _ Hok) as (Ep & Ed & _).
  pose proof Hok as (Es & Hnu & Hh & Hch). unfold LZ4HC_Insert. rewrite Ep, Ed.
  rewrite addr_eq. replace (addr 0 + k - addr 0) with k by lia. rewrite (u32_small k), u32_small by lia.
  apply wp_bind.
  apply (wp_loop (fun q m' => m' = m /\ hc_nextToUpdate c <= q.1.1 <= k + D /\
      hashes_below q.1.2 q.1.1 /\ chain_ok q.2) (fun q => k + D - q.1.1)).
  2: { split; [done|]. simpl. split; [lia|]. done. }
  2: simpl; lia.
  intros [[i ht] ct] m' (-> & Hi & Hht & Hct). simpl in *. split; [lia|]. wif.
  - apply wp_bind. replace (addr 0 + i - D) with (addr (i - D)) by (rewrite (addr_eq (i - D)); lia).
    apply wp_hashPtr; [done|lia|lia|]. intros h Hr. apply wp_bind, wp_hash_get; [done|].
    pose proof (Hht h). apply wp_bind, wp_hash_set; [done|]. apply wp_ret. split; [|simpl; lia].
    split; [done|]. simpl. split; [lia|]. split.
    + apply hashes_below_set; [|lia]. eapply hashes_below_mono; [exact Hht|lia].
    + apply chain_ok_set; [done|]. apply u16_range.
  - do 2 apply wp_ret. simpl. assert (i = k + D) as -> by lia. apply HQ; [|simpl; lia].
    split; [by destruct c|]. simpl. split; [lia|done].
Qed.

(** * Candidates *)

(** [len] bytes at [s] are equal to those [off] bytes before; they leave the last
    5 bytes of the data. *)
Definition hmatch (s off len : Z) : Prop :=
  1 <= off <= 65535 /\ off <= s /\ s + len <= dlen - 5 /\ deq s (s - off) len.

(** The best match for position [k] that starts at [kl] or later and is longer
    than [L0], if one was found. *)
Definition best_ok (kl k L0 len off back : Z) : Prop :=
  (len = L0 /\ off = 0 /\ back = 0) \/
  (L0 < len /\ kl <= k + back <= k /\ 4 <= back + len /\ hmatch (k + back) off len).

Section Wider.
Context (c : LZ4HC_CCtx) (k kl L0 : Z) (lp : list Z) (pa cs fav : bool) (m : mem).
Context (Hf : mframe m) (Hok : hc_ok c k) (Hkl : 0 <= kl <= k) (Hk : k <= dlen - 12).
Context (HL0 : k - kl < L0) (HL1 : kl + L0 <= dlen - 5).
Context (Hlp : holds m (addr k) lp) (Hlz : zlen lp = 4) (Hlb : bytes_ok lp).

Abbreviation w := (Wider c (addr k) (addr kl) (addr (dlen - 5)) pa cs fav (le_val lp)).

Lemma wd_prefixPtr_eq : wd_prefixPtr w = addr 0.
Proof. unfold wd_prefixPtr. simpl. apply (hc_ok_window c k Hok). Qed.

Lemma wd_prefixIdx_eq : wd_prefixIdx w = D.
Proof. unfold wd_prefixIdx. simpl. apply (hc_ok_window c k Hok). Qed.

Lemma wd_dictIdx_eq : wd_dictIdx w = D.
Proof. unfold wd_dictIdx. simpl. apply (hc_ok_window c k Hok). Qed.

Lemma wd_ipIndex_eq : wd_ipIndex w = D + k.
Proof.
  cenv. unfold wd_ipIndex. rewrite wd_prefixPtr_eq, wd_prefixIdx_eq. simpl. rewrite addr_eq.
  replace (addr 0 + k - addr 0) with k by lia. rewrite (u32_small k), u32_small; lia.
Qed.

Lemma wd_lowest_eq : wd_lowestMatchIndex w = Z.max D (D + k - 65535).
Proof.
  unfold wd_lowestMatchIndex, wd_withinStartDistance. rewrite wd_ipIndex_eq. simpl. cenv.
  destruct (hc_ok_window c k Hok) as (_ & _ & ->). change (65535 + 1) with 65536.
  rewrite (u32_small (D + 65536)) by lia. zcase; [lia|]. rewrite u32_small; lia.
Qed.

Lemma wd_lookBack_eq : wd_lookBackLength w = k - kl.
Proof. unfold wd_lookBackLength. simpl. rewrite (addr_eq k), (addr_eq kl). lia. Qed.

(** What is known once the bytes at [k] are seen to repeat. *)
Definition repeat_ok (s : wstate) : Prop :=
  ws_repeat s = rep_confirmed -> exists b, byte_ok b /\ lp = replicate 4 b /\
    4 <= ws_srcPatternLength s /\ k + ws_srcPatternLength s <= dlen - 5 /\ drun k (ws_srcPatternLength s) b.

Definition ws_ok (s : wstate) : Prop :=
  0 <= ws_matchIndex s < D + k /\ best_ok kl k L0 (ws_longest s) (ws_offset s) (ws_sBack s) /\ repeat_ok s.

Lemma ws_jump_ok s i : ws_ok s -> 0 <= i < D + k -> ws_ok (ws_jump i s).
Proof. intros (_ & H2 & H3) Hi. by split. Qed.

Lemma ws_longest_range s : ws_ok s -> L0 <= ws_longest s <= dlen - 5 - kl.
Proof.
  intros (_ & [(-> & _)|(H1 & H2 & _ & (_ & _ & ? & _))] & _); [lia|]. lia.
Qed.

(** The state [s'] differs from [s] in the best match only. *)
Definition same_place (s s' : wstate) : Prop :=
  ws_matchIndex s' = ws_matchIndex s /\ ws_nbAttempts s' = ws_nbAttempts s.

Lemma wp_test_candidate s :
  ws_ok s -> wd_lowestMatchIndex w <= ws_matchIndex s ->
  wp (test_candidate w s) (fun r m' => m' = m /\ ws_ok r.2 /\ same_place s r.2) m.
Proof.
  intros Hs Hlow. pose proof Hs as (Hi & Hbest & Hrep). pose proof (ws_longest_range s Hs) as HL.
  rewrite wd_lowest_eq in Hlow. unfold test_candidate. cenv.
  rewrite wd_ipIndex_eq, wd_prefixIdx_eq, wd_prefixPtr_eq, wd_lookBack_eq. cbn zeta. simpl wd_ip.
  cbn [wd_favorDecSpeed wd_iLowLimit wd_iHighLimit wd_pattern].
  wif; [by apply wp_ret|]. wif; [|lia].
  assert (exists j, ws_matchIndex s = D + j /\ 0 <= j < k /\ k - j <= 65535) as (j & Ej & Hj & Hd).
  { exists (ws_matchIndex s - D). lia. }
  rewrite Ej. replace (addr 0 + (D + j - D)) with (addr j) by (rewrite (addr_eq j); lia).
  set (L := ws_longest s) in *.
  apply wp_bind, wp_LZ4_read16.
  { rewrite addr_eq. replace (addr 0 + kl + L - 1) with (addr (kl + L - 1)) by (rewrite (addr_eq (_ - _)); lia).
    apply seg_readable; [done|lia|lia]. }
  intros l1 _ _ _. apply wp_bind, wp_LZ4_read16.
  { replace (addr j - (k - kl) + L - 1) with (addr (j - (k - kl) + L - 1))
      by (rewrite (addr_eq j), (addr_eq (_ - _)); lia).
    apply seg_readable; [done|lia|lia]. }
  intros l2 _ _ _. wif; [|by apply wp_ret].
  apply wp_bind, wp_LZ4_read32; [apply seg_readable; [done|lia|lia]|]. intros l3 H3 Z3 B3.
  wif; [|by apply wp_ret].
  assert (deq k j 4) as H4.
  { apply (word_eq_deq m k j 4 lp l3); try done; try lia; by symmetry. }
  apply wp_bind. eapply (wp_mono _ (fun b m' => m' = m /\ kl - k <= b <= 0 /\ - j <= b /\
    forall i, b <= i < 0 -> dget (k + i) = dget (j + i))).
  { wif; [|apply wp_ret; split; [done|]; split; [lia|]; split; [lia|]; intros; lia].
    set (n := Z.min (k - kl) j). apply (wp_countBack m (addr k) (addr j) n).
    - replace (addr k - n) with (addr (k - n)) by (rewrite (addr_eq k), (addr_eq (k - n)); lia).
      apply seg_readable; [done|lia|lia].
    - replace (addr j - n) with (addr (j - n)) by (rewrite (addr_eq j), (addr_eq (j - n)); lia).
      apply seg_readable; [done|lia|lia].
    - lia.
    - rewrite (addr_eq k), (addr_eq j), (addr_eq kl). lia.
    - intros b [Hb He]. split; [done|]. split; [lia|]. split; [lia|]. intros i Hbi.
      specialize (He i Hbi). rewrite (addr_eq k), (addr_eq j) in He.
      rewrite <- (dget_addr _ _ _ _ _ Henv m (k + i)), <- (dget_addr _ _ _ _ _ Henv m (j + i)) by (done || lia).
      rewrite (addr_eq (k + i)), (addr_eq (j + i)), !Z.add_assoc. done. }
  intros back m' (-> & Hb1 & Hb2 & Hbe).
  apply wp_bind.
  replace (addr k + 4) with (addr (k + 4)) by (rewrite (addr_eq k), (addr_eq (k + 4)); lia).
  replace (addr j + 4) with (addr (j + 4)) by (rewrite (addr_eq j), (addr_eq (j + 4)); lia).
  apply (wp_count_deq _ _ _ _ _ Henv _ _ (dlen - 5 - (k + 4))); [done|apply segment_eq; lia|apply segment_eq; lia|lia| |].
  { rewrite (addr_eq (dlen - 5)), (addr_eq (k + 4)). lia. }
  intros n Hn Hdn _. apply wp_ret. cbn [snd]. split; [done|].
  zcase; [|done]. split; [|done]. split; [cbn; lia|]. split; [|exact Hrep].
  right. simpl. rewrite u32_small, s32_small by (unfold int_min, int_max; lia).
  pose proof HL. split; [lia|]. split; [lia|]. split; [lia|].
  split; [lia|]. split; [lia|]. split; [lia|]. intros i Hbi.
  destruct (Z.lt_ge_cases (i + back) 0).
  { replace (k + back - (D + k - (D + j)) + i) with (j + (i + back)) by lia.
    replace (k + back + i) with (k + (i + back)) by lia. symmetry. apply Hbe. lia. }
  assert (deq k j (4 + n)) as Hdq.
  { apply (deq_app hist inp k j 4 n); done. }
  specialize (Hdq (i + back) ltac:(lia)).
  replace (k + back - (D + k - (D + j)) + i) with (j + (i + back)) by lia.
  by replace (k + back + i) with (k + (i + back)) by lia.
Qed.

(** * The chains *)

Lemma chain_get_range i : 0 <= chain_get (hc_chainTable c) i < 65536.
Proof. destruct Hok as (_ & _ & _ & H). apply H. Qed.

Lemma select_chain_loop_range mi en fuel : forall pos accel dist cp,
  0 <= dist < 65536 -> 0 <= (select_chain_loop (hc_chainTable c) mi en fuel pos accel dist cp).1 < 65536.
Proof.
  induction fuel as [|fuel IH]; intros pos accel dist cp Hd; [done|].
  cbn [select_chain_loop]. pose proof (chain_get_range (u32 (mi + pos))). zcase; [|done].
  cbn zeta. zcase; apply IH; lia.
Qed.

Lemma select_chain_range mi L cp : 0 <= (select_chain (hc_chainTable c) mi L cp).1 < 65536.
Proof. apply select_chain_loop_range. lia. Qed.

Lemma follow_chain_ok s : ws_ok s -> D <= ws_matchIndex s -> ws_ok (follow_chain w s).
Proof.
  intros Hs HD'. pose proof Hs as (Hi & _). cenv. apply ws_jump_ok; [done|]. cbn [wd_ctx].
  pose proof (chain_get_range (u32 (ws_matchIndex s + ws_matchChainPos s))). rewrite u32_small; lia.
Qed.

(** * Repeated patterns *)

Lemma wp_test_repeat s :
  ws_ok s -> wp (test_repeat w s) (fun s' m' => m' = m /\ ws_ok s' /\ same_place s s') m.
Proof.
  intros Hs. pose proof Hs as (Hi & Hb & Hr). unfold test_repeat. cenv. cbn [wd_pattern wd_ip wd_iHighLimit].
  wif; [|by apply wp_ret]. wif.
  - destruct (pattern_byte lp) as (b & Hbb & Eb); [done|done|done|].
    apply wp_bind. replace (addr k + 4) with (addr (k + 4)) by (rewrite (addr_eq k), (addr_eq (k + 4)); lia).
    replace (addr (dlen - 5)) with (addr (k + 4) + (dlen - 5 - (k + 4)))
      by (rewrite (addr_eq (dlen - 5)), (addr_eq (k + 4)); lia).
    rewrite Eb. fold (pattern_of b).
    apply wp_countPattern; [done|apply seg_readable; [done|lia|lia]|lia|].
    intros n Hn Hrun. apply wp_ret. split; [done|]. split; [|done]. split; [done|]. split; [done|].
    intros _. exists b. simpl. split; [done|]. split; [done|]. split; [lia|]. split; [lia|].
    apply (run_drun m); [done|lia|lia|]. replace (n + 4) with (4 + n) by lia. apply run_app.
    + rewrite Eb in Hlp. by apply (run_replicate m _ 4) in Hlp.
    + by replace (addr k + 4) with (addr (k + 4)) by (rewrite (addr_eq k), (addr_eq (k + 4)); lia).
  - apply wp_ret. split; [done|]. split; [|done]. split; [done|]. split; [done|]. done.
Qed.

(** The bytes around a candidate: the run from [j - bk] to [j + fw]. *)
Definition run_around (j fw bk b : Z) : Prop :=
  4 <= fw /\ j + fw <= dlen - 5 /\ 0 <= bk <= j /\ drun (j - bk) (bk + fw) b.

Lemma protect_prefix i : D <= i < 2 ^ 32 - 3 -> LZ4HC_protectDictEnd D i = true.
Proof.
  intros Hi. cenv. unfold LZ4HC_protectDictEnd. rewrite (u32_small (D - 1)) by lia. apply Z.leb_le.
  unfold u32. rewrite <- (Z_mod_plus_full (D - 1 - i) 1), Z.mod_small; lia.
Qed.

(** The decision about a segment, once it is measured. *)
Definition segment_next (s : wstate) (cand fw bk : Z) : option (wstate + wstate) :=
  let currentSegmentLength := bk + fw in
  if (ws_srcPatternLength s <=? currentSegmentLength) && (fw <=? ws_srcPatternLength s) then
    Some (inl (ws_jump (cand + fw - ws_srcPatternLength s) s))
  else
    let s := ws_jump (cand - bk) s in
    if k =? kl then
      let maxML := Z.min currentSegmentLength (ws_srcPatternLength s) in
      let s := if ws_longest s <? maxML then ws_better maxML (D + k - (cand - bk)) (ws_sBack s) s else s in
      let distToNextPattern := chain_get (hc_chainTable c) (cand - bk) in
      Some (inl (ws_jump (cand - bk - distToNextPattern) s))
    else Some (inl s).

Definition segment_ok (s : wstate) (r : option (wstate + wstate)) : Prop :=
  match r with
  | None => True
  | Some (inl s') | Some (inr s') => ws_ok s' /\ ws_nbAttempts s' = ws_nbAttempts s
  end.

Lemma better_run s j fw bk b :
  ws_ok s -> ws_repeat s = rep_confirmed -> lp = replicate 4 b -> run_around j fw bk b ->
  j - bk < k -> k - (j - bk) <= 65535 -> k = kl ->
  let maxML := Z.min (bk + fw) (ws_srcPatternLength s) in
  ws_longest s < maxML -> ws_ok (ws_better maxML (k - (j - bk)) (ws_sBack s) s).
Proof.
  intros (Hi & Hb & Hr) Er Eb (Hfw & Hle & Hbk & Hrun) Hlt Hd Ek maxML HL. cenv.
  split; [done|]. split; [|exact Hr]. simpl. destruct (Hr Er) as (b' & _ & Eb' & Hs4 & Hsl & Hsrun).
  assert (b' = b) as -> by (rewrite Eb in Eb'; by injection Eb').
  assert (ws_sBack s = 0 /\ L0 <= ws_longest s) as [-> HLL].
  { destruct Hb as [(? & _ & ?)|(? & ? & _)]; lia. }
  right. split; [lia|]. split; [lia|]. split; [lia|]. rewrite Z.add_0_r. subst maxML.
  split; [lia|]. split; [lia|]. split; [lia|]. apply (drun_deq _ _ _ b).
  - intros i Hi'. apply Hsrun. lia.
  - intros i Hi'. replace (k - (k - (j - bk)) + i) with (j - bk + i) by lia. apply Hrun. lia.
Qed.

(** What the measured segment leads to. *)
Lemma segment_next_ok s j fw bk b :
  ws_ok s -> ws_repeat s = rep_confirmed -> lp = replicate 4 b -> run_around j fw bk b ->
  j < k -> k - (j - bk) <= 65535 -> segment_ok s (segment_next s (D + j) fw bk).
Proof.
  intros Hs Er Eb Ha Hj Hd. pose proof Ha as (Hfw & Hle & Hbk & Hrun). cenv. unfold segment_next.
  destruct ((ws_srcPatternLength s <=? bk + fw) && (fw <=? ws_srcPatternLength s)) eqn:E1.
  - apply andb_prop in E1 as [E1%Z.leb_le E2%Z.leb_le]. split; [|done]. apply ws_jump_ok; [done|lia].
  - cbn zeta. pose proof (chain_get_range (D + j - bk)).
    destruct (Z.eqb_spec k kl) as [Ek|Ek].
    + split; [|by simpl; zcase]. apply ws_jump_ok; [|lia].
      assert (ws_ok (ws_jump (D + j - bk) s)) as Hs' by (apply ws_jump_ok; [done|lia]).
      zcase; [|done]. replace (D + k - (D + j - bk)) with (k - (j - bk)) by lia.
      apply (better_run (ws_jump (D + j - bk) s) j fw bk b); try done. lia.
    + split; [|done]. apply ws_jump_ok; [done|lia].
Qed.

Lemma wp_pattern_segment s cand :
  ws_ok s -> ws_repeat s = rep_confirmed -> wd_lowestMatchIndex w <= cand < D + k ->
  wp (pattern_segment w s cand) (fun r m' => m' = m /\ segment_ok s r) m.
Proof.
  intros Hs Er Hcand. pose proof Hs as (_ & _ & Hr). destruct (Hr Er) as (b & Hb & Eb & Hs4 & Hsl & _).
  unfold pattern_segment. rewrite wd_lowest_eq in *.
  rewrite wd_prefixIdx_eq, wd_prefixPtr_eq, wd_dictIdx_eq, wd_lookBack_eq, wd_ipIndex_eq.
  cbn zeta. cbn [wd_pattern wd_iHighLimit wd_ip wd_ctx]. cenv.
  destruct (Z.ltb_spec cand D); [lia|]. cbn [andb negb]. rewrite Z.ltb_irrefl.
  assert (exists j, cand = D + j /\ 0 <= j < k /\ k - j <= 65535) as (j & -> & Hj & Hd).
  { exists (cand - D). lia. }
  replace (addr 0 + (D + j - D)) with (addr j) by (rewrite (addr_eq j); lia).
  apply wp_bind, wp_LZ4_read32; [apply seg_readable; [done|lia|lia]|]. intros l Hh Hl Hlb'.
  destruct (Z.eqb_spec (le_val l) (le_val lp)) as [El|El]; cbn [negb]; [|by apply wp_ret].
  assert (l = replicate 4 b) as El'.
  { apply word_run; [done|done|zn|]. by rewrite El, Eb. }
  rewrite El' in Hh. apply (run_replicate m _ 4) in Hh.
  replace (addr j + 4) with (addr (j + 4)) by (rewrite (addr_eq j), (addr_eq (j + 4)); lia).
  replace (addr (dlen - 5)) with (addr (j + 4) + (dlen - 5 - (j + 4)))
    by (rewrite (addr_eq (dlen - 5)), (addr_eq (j + 4)); lia).
  rewrite Eb at 1. fold (pattern_of b).
  apply wp_bind, wp_countPattern; [done|apply seg_readable; [done|lia|lia]|lia|]. intros n Hn Hrun.
  apply wp_bind, wp_ret. rewrite Eb at 1. fold (pattern_of b).
  replace (addr 0) with (addr j - j) at 1 by (rewrite (addr_eq j); lia).
  apply wp_bind, wp_reverseCountPattern; [done| |lia|].
  { replace (addr j - j) with (addr 0) by (rewrite (addr_eq j); lia). apply seg_readable; [done|lia|lia]. }
  intros bk0 Hbk0 Hrun0. rewrite andb_false_r. apply wp_bind, wp_ret. rewrite !Z.add_0_r.
  rewrite (u32_small bk0), (u32_small (D + j - bk0)) by lia.
  set (bk := D + j - Z.max (D + j - bk0) (Z.max D (D + k - 65535))).
  assert (0 <= bk <= bk0 /\ k - (j - bk) <= 65535) as [Hbk Hdk] by (subst bk; lia).
  rewrite (u32_small bk) by lia. set (fw := n + 4).
  assert (run_around j fw bk b) as Ha.
  { subst fw. split; [lia|]. split; [lia|]. split; [lia|]. apply (run_drun m); [done|lia|lia|].
    apply run_app; [|replace (n + 4) with (4 + n) by lia; apply run_app].
    - intros i Hi. apply Hrun0. rewrite (addr_eq (j - bk)) in Hi. rewrite (addr_eq j). lia.
    - replace (addr (j - bk) + bk) with (addr j) by (rewrite (addr_eq j), (addr_eq (j - bk)); lia). done.
    - replace (addr (j - bk) + bk + 4) with (addr (j + 4))
        by (rewrite (addr_eq (j + 4)), (addr_eq (j - bk)); lia). done. }
  pose proof (segment_next_ok s j fw bk b Hs Er Eb Ha ltac:(lia) Hdk) as Hnext.
  unfold segment_next in Hnext. rewrite (u32_small fw), (u32_small bk), (u32_small (ws_srcPatternLength s)) by lia.
  destruct ((ws_srcPatternLength s <=? bk + fw) && (fw <=? ws_srcPatternLength s)) eqn:E1.
  - apply andb_prop in E1 as [E1%Z.leb_le E2%Z.leb_le]. rewrite u32_small by lia.
    rewrite protect_prefix by lia. by apply wp_ret.
  - rewrite (u32_small (D + j - bk)) by lia. rewrite protect_prefix by lia. cbn [negb].
    replace (k - kl =? 0) with (k =? kl) by (destruct (Z.eqb_spec k kl), (Z.eqb_spec (k - kl) 0); lia).
    destruct (Z.eqb_spec k kl) as [Ek|Ek]; [|by apply wp_ret].
    rewrite (addr_eq k). replace (addr 0 + k - addr 0) with k by lia.
    rewrite (u64_small k), u64_small by lia.
    destruct (Z.ltb_spec 65535 (k + D - (D + j - bk))); [lia|]. rewrite andb_false_r.
    pose proof (chain_get_range (D + j - bk)) as Hcr.
    destruct (Z.ltb_spec (D + j - bk) (chain_get (hc_chainTable c) (D + j - bk))); [lia|].
    rewrite u32_small, s32_small by (unfold int_min, int_max; lia). by apply wp_ret.
Qed.

(** * The search *)

Definition step_ok (s : wstate) (r : wstate + wstate) : Prop :=
  match r with inl s' | inr s' => ws_ok s' /\ ws_nbAttempts s' = ws_nbAttempts s end.

Lemma wp_next_candidate s :
  ws_ok s -> wd_lowestMatchIndex w <= ws_matchIndex s ->
  wp (next_candidate w s) (fun r m' => m' = m /\ step_ok s r) m.
Proof.
  intros Hs Hlow. pose proof Hs as (Hi & _). unfold next_candidate.
  assert (D <= ws_matchIndex s) as HDs by (rewrite wd_lowest_eq in Hlow; lia).
  wif; [|by apply wp_ret; split; [done|]; split; [apply follow_chain_ok|]].
  apply wp_bind. eapply wp_mono; [by apply wp_test_repeat|]. intros s' m' (-> & Hs' & Ei & En).
  assert (D <= ws_matchIndex s') as HDs' by lia. cenv. rewrite u32_small by lia.
  wif; [|by apply wp_ret; split; [done|]; split; [apply follow_chain_ok|]].
  apply andb_prop in E0 as [[E0%bool_decide_eq_true E1%Z.leb_le]%andb_prop _].
  apply wp_bind. eapply wp_mono; [apply wp_pattern_segment; [done|done|lia]|]. intros r m' [-> Hr].
  destruct r as [[r|r]|]; apply wp_ret; (split; [done|]).
  - destruct Hr as [? ?]. split; [done|lia].
  - destruct Hr as [? ?]. split; [done|lia].
  - split; [by apply follow_chain_ok|done].
Qed.

Lemma wp_wider_step s :
  ws_ok s ->
  wp (wider_step w s) (fun r m' => m' = m /\
    match r with
    | inl s' => ws_ok s' /\ ws_nbAttempts s' = ws_nbAttempts s - 1 /\ 0 < ws_nbAttempts s
    | inr s' => ws_ok s'
    end) m.
Proof.
  intros Hs. unfold wider_step. wif; [by apply wp_ret|].
  apply negb_false_iff, andb_prop in E as [Hlow%Z.leb_le Hnb%Z.ltb_lt]. cbn zeta.
  set (s1 := WState _ _ _ _ _ _ _ _).
  assert (ws_ok s1) as Hs1 by (destruct Hs as (? & ? & ?); by split).
  apply wp_bind. eapply wp_mono; [by apply wp_test_candidate|].
  intros [ml s2] m' (-> & Hs2 & Ei & En). simpl in Hs2, Ei, En.
  assert (forall s3, ws_ok s3 -> ws_matchIndex s3 = ws_matchIndex s2 -> ws_nbAttempts s3 = ws_nbAttempts s2 ->
    wp (next_candidate w s3) (fun r m' => m' = m /\
      match r with
      | inl s' => ws_ok s' /\ ws_nbAttempts s' = ws_nbAttempts s - 1 /\ 0 < ws_nbAttempts s
      | inr s' => ws_ok s'
      end) m) as Hnext.
  { intros s3 Hs3 Ei3 En3. eapply wp_mono; [apply wp_next_candidate; [done|lia]|].
    intros [r|r] m' [-> [? ?]]; (split; [done|]); [|done]. split; [done|]. lia. }
  wif; [|by apply Hnext].
  pose proof (select_chain_range (ws_matchIndex s2) (ws_longest s2) (ws_matchChainPos s2)) as Hsel.
  cbn [wd_ctx] in *. destruct (select_chain _ _ _ _) as [dist cp]. simpl in Hsel. cbn zeta.
  assert (ws_ok (ws_chain cp s2)) as Hs3 by (destruct Hs2 as (? & ? & ?); by split).
  wif; [|by apply Hnext]. wif; apply wp_ret; (split; [done|]); [done|].
  split; [|simpl; lia]. apply ws_jump_ok; [done|]. destruct Hs3 as (? & _). simpl in *. lia.
Qed.
End Wider.

(** * The match finder *)

Lemma wp_GetWiderMatch c n k kl L0 attempts pa cs fav Q m :
  mframe m -> hc_ok c n -> n <= k -> 0 <= kl <= k -> k <= dlen - 12 -> k - kl < L0 -> kl + L0 <= dlen - 5 ->
  (forall md c', hc_ok c' k -> best_ok kl k L0 (md_len md) (md_off md) (md_back md) -> Q (md, c') m) ->
  wp (LZ4HC_InsertAndGetWiderMatch c (addr k) (addr kl) (addr (dlen - 5)) L0 attempts pa cs noDictCtx fav) Q m.
Proof.
  intros Hf Hok Hn Hkl Hk HL0 HL1 HQ. cenv. unfold LZ4HC_InsertAndGetWiderMatch.
  apply wp_bind, wp_LZ4_read32; [apply seg_readable; [done|lia|lia]|]. intros lp Hlp Hlz Hlb.
  apply wp_bind. eapply wp_Insert; [done|exact Hok|lia|lia|]. intros c' Hok' Enu. cbn zeta.
  apply wp_bind, wp_hashPtr; [done|lia|lia|]. intros h Hh.
  apply wp_bind, wp_hash_get; [done|]. apply wp_bind.
  eapply (wp_mono _ (fun s m' => m' = m /\ ws_ok k kl L0 lp s)).
  - apply (wp_loop (fun s m' => m' = m /\ ws_ok k kl L0 lp s) (fun s => Z.max 0 (ws_nbAttempts s))).
    + intros s m' [-> Hs]. split; [lia|].
      eapply wp_mono; [apply (wp_wider_step c' k kl L0 lp); try done; lia|].
      intros [s'|s'] m' [-> Hs']; [|done]. destruct Hs' as (? & ? & ?). split; [done|lia].
    + split; [done|]. split.
      * pose proof Hok' as (_ & _ & Hb & _). specialize (Hb h). simpl. lia.
      * split; [by left|]. intros Hr. done.
    + simpl. lia.
  - intros s m' [-> (_ & Hb & _)]. cbn [bool_decide decide_rel andb]. apply wp_ret. by apply HQ.
Qed.

Lemma wp_FindBestMatch c n k attempts pa Q m :
  mframe m -> hc_ok c n -> n <= k -> 0 <= k <= dlen - 12 ->
  (forall md c', hc_ok c' k ->
     md_len md = 3 \/ (4 <= md_len md /\ hmatch k (md_off md) (md_len md)) -> Q (md, c') m) ->
  wp (LZ4HC_InsertAndFindBestMatch c (addr k) (addr (dlen - 5)) attempts pa noDictCtx) Q m.
Proof.
  intros Hf Hok Hn Hk HQ. unfold LZ4HC_InsertAndFindBestMatch. change MINMATCH with 4.
  apply (wp_GetWiderMatch c n); try done; try lia.
  intros md c' Hok' Hb. apply HQ; [done|]. destruct Hb as [(? & _)|(HL & Hs & _ & Hm)]; [left; lia|].
  right. split; [lia|]. assert (md_back md = 0) as E by lia. by rewrite E, Z.add_0_r in Hm.
Qed.
End HcSearch.
