(* ===== verification/Lz4HcChain.v ===== *)
(** The encoder of lib/lz4hc.c: [LZ4HC_encodeSequence], the last literals and the
    shortened sequence at the end of a full output; and the parser
    [LZ4HC_compress_hashChain] within one segment of memory. *)
From S2P Require Import Prelude.
From S2P Require Import Mem.
From S2P Require Import BlockFormat.
From S2P Require Import Lz4Common.
From S2P Require Import Lz4CommonSpec.
From S2P Require Import Lz4Decompress.
From S2P Require Import Lz4Compress.
From S2P Require Import Lz4CompressGeneric.
From S2P Require Import Lz4CountSpec.
From S2P Require Import Lz4CompressInv.
From S2P Require Import Lz4CompressSearch.
From S2P Require Import Lz4CompressEncode.
From S2P Require Import Lz4CompressProof.
From S2P Require Import Lz4CompressMatch.
From S2P Require Import Lz4CompressRun.
From S2P Require Import Lz4Hc.
From S2P Require Import Lz4HcSearch.

(** * The length of a match *)

(** Bytes 255, two at a time and then one. *)
Lemma wp_pairs op n Q m :
  0 <= n -> mapped m op (n / 255 + 1) ->
  (forall m', frame op (op + (n / 255 + 1)) m m' -> holds m' op (ext_bytes n) ->
     Q (op + (n / 255 + 1)) m') ->
  wp (r ← loop (S (Z.to_nat n))
        (fun q => let '(op, mlCode) := q in
           if 510 <=? mlCode then
             storeb op 255;; storeb (op + 1) 255;; mret (inl (op + 2, mlCode - 510))
           else mret (inr (op, mlCode))) (op, n);
      let '(op, mlCode) := r in
      q ← (if 255 <=? mlCode then storeb op 255;; mret (op + 1, mlCode - 255) else mret (op, mlCode));
      let '(op, mlCode) := q in
      storeb op (u8 mlCode);;
      mret (op + 1)) Q m.
Proof.
  intros Hn Hm HQ. pose proof (Z.div_mod n 255 ltac:(lia)) as Hd.
  pose proof (Z.mod_pos_bound n 255 ltac:(lia)) as Hmb. set (e := op + (n / 255 + 1)) in *.
  assert (forall (i : nat) m' Q', 255 * Z.of_nat i + 255 <= n -> frame op e m m' -> holds m' op (replicate i 255) ->
    (forall m2, frame op e m m2 -> holds m2 op (replicate (S i) 255) -> Q' tt m2) ->
    wp (storeb (op + Z.of_nat i) 255) Q' m') as Hput.
  { intros i m' Q' Hi Hf Hh HQ'. assert (zlen (replicate i 255) = Z.of_nat i) as Hz by apply zlen_replicate.
    apply wp_storeb_frame.
    { eapply mapped_sub; [eapply frame_mapped; [exact Hf|exact Hm]|lia|lia]. }
    intros m2 Hf2 Hb2. apply HQ'.
    - eapply frame_trans; [exact Hf|]. eapply frame_weaken; [exact Hf2|lia|lia].
    - rewrite replicate_snoc. rewrite <- Hz in Hf2, Hb2. eapply holds_snoc; [exact Hh|exact Hf2|exact Hb2]. }
  assert (forall (i : nat) m', n = 255 * Z.of_nat i + n mod 255 -> frame op e m m' ->
    holds m' op (replicate i 255) ->
    wp (storeb (op + Z.of_nat i) (u8 (n - 255 * Z.of_nat i));; mret (op + Z.of_nat i + 1)) Q m') as Hend.
  { intros i m' Ei Hf Hh. assert (zlen (replicate i 255) = Z.of_nat i) as Hz by apply zlen_replicate.
    apply wp_bind, wp_storeb_frame.
    { eapply mapped_sub; [eapply frame_mapped; [exact Hf|exact Hm]|lia|lia]. }
    intros m2 Hf2 Hb2. apply wp_ret. replace (op + Z.of_nat i + 1) with e by lia. apply HQ.
    - eapply frame_trans; [exact Hf|]. eapply frame_weaken; [exact Hf2|lia|lia].
    - unfold ext_bytes. replace (Z.to_nat (n / 255)) with i by lia.
      rewrite <- Hz in Hf2, Hb2. rewrite u8_small in Hb2 by lia.
      replace (n - 255 * zlen (replicate i 255)) with (n mod 255) in Hb2 by lia.
      eapply holds_snoc; [exact Hh|exact Hf2|exact Hb2]. }
  apply wp_bind.
  apply (wp_loop (fun q m' => exists i : nat, q = (op + Z.of_nat i, n - 255 * Z.of_nat i) /\
      255 * Z.of_nat i <= n /\ frame op e m m' /\ holds m' op (replicate i 255)) (fun q => q.2)).
  2: { exists 0%nat. rewrite Z.add_0_r, Z.mul_0_r, Z.sub_0_r. split; [done|]. split; [lia|].
       split; [apply frame_refl|apply holds_nil]. }
  2: simpl; lia.
  intros [o l] m' (i & [= -> ->] & Hi & Hf & Hh). split; [simpl; lia|]. wif.
  - apply wp_bind, Hput; [lia|done|done|]. intros m1 Hf1 Hh1.
    replace (op + Z.of_nat i + 1) with (op + Z.of_nat (S i)) by lia.
    apply wp_bind, Hput; [lia|done|done|]. intros m2 Hf2 Hh2. apply wp_ret.
    split; [|simpl; lia]. exists (S (S i)). split; [f_equal; lia|]. split; [lia|]. done.
  - apply wp_ret. cbn beta iota. apply wp_bind. wif.
    + apply wp_bind, Hput; [lia|done|done|]. intros m1 Hf1 Hh1. apply wp_ret.
      replace (op + Z.of_nat i + 1) with (op + Z.of_nat (S i)) by lia.
      replace (n - 255 * Z.of_nat i - 255) with (n - 255 * Z.of_nat (S i)) by lia.
      apply Hend; [|done|done]. Z.div_mod_to_equations. lia.
    + apply wp_ret. apply Hend; [|done|done]. Z.div_mod_to_equations. lia.
Qed.

(** The token [16 * t] and the bytes [X] behind it are completed to a sequence. *)
Lemma wp_hc_put_match token op t X mc Q m :
  0 <= mc -> holds m token (16 * t :: X) -> 0 <= t < 16 -> op = token + 1 + zlen X ->
  mapped m op ((mc + 240) / 255) ->
  (forall m', frame token (op + (mc + 240) / 255) m m' ->
     holds m' token (16 * t + nibble mc :: X ++ len_ext mc) -> Q (op + (mc + 240) / 255) m') ->
  wp (hc_put_match_length token op mc) Q m.
Proof.
  intros Hmc Hh Ht Eop Hm HQ. zlen_facts. unfold hc_put_match_length. change ML_MASK with 15.
  replace (16 * t :: X) with ([16 * t] ++ X) in Hh by done.
  apply holds_app in Hh as [Htok HX]. rewrite zlen_cons, zlen_nil in HX.
  pose proof Htok as [Et _]%holds_cons. apply wp_bind. eapply wp_loadb; [exact Et|].
  assert (mapped m token 1) as Hmt by (apply holds_mapped in Htok; done).
  assert (forall m1 l, frame token (token + 1) m m1 -> holds m1 token [l] -> holds m1 token (l :: X)) as Hcons.
  { intros m1 l Hf1 Hl. replace (l :: X) with ([l] ++ X) by done. apply holds_app. split; [done|].
    rewrite zlen_cons, zlen_nil. eapply frame_holds; [exact Hf1|lia|done]. }
  wif.
  - apply wp_bind, wp_storeb_frame; [done|]. intros m1 Hf1 Hb1. cbn zeta.
    assert ((mc + 240) / 255 = (mc - 15) / 255 + 1) as Ed.
    { replace (mc + 240) with (mc - 15 + 1 * 255) by lia. rewrite Z.div_add by lia. lia. }
    rewrite Ed in *. assert (0 <= (mc - 15) / 255) by (apply Z.div_pos; lia).
    apply wp_pairs; [lia|by eapply frame_mapped|]. intros m2 Hf2 Hb2. apply HQ.
    + eapply frame_trans; (eapply frame_weaken; [eassumption|lia|lia]).
    + replace (16 * t + nibble mc) with (u8 (16 * t + 15)) by (unfold nibble; rewrite u8_small; lia).
      rewrite app_comm_cons. eapply holds_snoc; [by apply Hcons| |];
        rewrite zlen_cons; replace (token + (1 + zlen X)) with op by lia; [exact Hf2|].
      unfold len_ext. by destruct (Z.ltb_spec mc 15); [lia|].
  - apply wp_bind, wp_storeb_frame; [done|]. intros m1 Hf1 Hb1. apply wp_ret.
    assert ((mc + 240) / 255 = 0) as Ed by (apply Z.div_small; lia). rewrite Ed, Z.add_0_r in *.
    apply HQ; [eapply frame_weaken; [exact Hf1|lia|lia]|].
    replace (16 * t + nibble mc) with (u8 (16 * t + u8 mc))
      by (unfold nibble; rewrite (u8_small mc), u8_small by lia; lia).
    unfold len_ext. destruct (Z.ltb_spec mc 15); [|lia]. rewrite app_nil_r. by apply Hcons.
Qed.

Section HcEncode.
Context (p : cparams) (hist inp : list Z) (m0 : mem) (lim : Z).
Context (Henv : comp_env p hist inp m0 lim) (Hpre : c_maybe_extMem p = false).

Abbreviation hlen := (hlen hist).
Abbreviation dlen := (dlen hist inp).
Abbreviation addr := (addr p hist).
Abbreviation mframe m := (frame (c_dest p) lim m0 m).
Abbreviation slice := (slice hist inp).
Abbreviation seqs_inv := (seqs_inv p hist inp m0 lim).
Abbreviation cap_ok := (cap_ok p hist lim).
Abbreviation match_seq := (match_seq hist inp).
Abbreviation hmatch := (hmatch hist inp).

Ltac cenv :=
  pose proof (dlen_eq _ _ _ _ _ Henv) as Hdl; pose proof (hlen_nonneg hist) as Hhl;
  pose proof (ce_max _ _ _ _ _ Henv) as Hmx; change LZ4_MAX_INPUT_SIZE with 2113929216 in Hmx;
  change MINMATCH with 4 in *; change MFLIMIT with 12 in *; change LASTLITERALS with 5 in *;
  change RUN_MASK with 15 in *; change ML_MASK with 15 in *.

(** * A sequence *)

(** The end of the offset of a sequence at [op] for the literals from [a] to [k]. *)
Definition seq_offset_end (op a k : Z) : Z := op + 1 + (k - a + 240) / 255 + (k - a) + 2.

(** Positions [addr k], [op] and [addr a]. *)
Abbreviation pos_at k op a := (HcPos (addr k) op (addr a)).

Lemma wp_encodeSequence a done op k off ml limit oend Q m :
  seqs_inv a done op m -> a <= k <= dlen - 12 -> 4 <= ml -> hmatch k off ml ->
  let ll := k - a in
  let op2 := seq_offset_end op a k in
  let op3 := op2 + (ml - 4 + 240) / 255 in
  (limit = notLimited \/ op + 1 + ll / 255 + ll + 8 <= oend ->
     op + 1 + (ll + 240) / 255 + wild 8 ll <= lim /\ op2 <= lim) ->
  (limit = notLimited \/ op2 + (ml - 4) / 255 + 6 <= oend ->
     op3 <= lim /\ cap_ok (k + ml) (done ++ [match_seq a k (k - off) ml]) op3) ->
  (forall x m', limit <> notLimited ->
     oend < op + 1 + ll / 255 + ll + 8 \/ oend < op2 + (ml - 4) / 255 + 6 ->
     seqs_inv a done op m' -> Q (true, x) m') ->
  (forall m', seqs_inv (k + ml) (done ++ [match_seq a k (k - off) ml]) op3 m' ->
     Q (false, pos_at (k + ml) op3 (k + ml)) m') ->
  wp (LZ4HC_encodeSequence (pos_at k op a) ml off limit oend) Q m.
Proof.
  intros HS Hk Hml (Hoff & Hok & Hle & Hdq) ll op2 op3 HR1 HR2 Hfail Hdone. cenv.
  assert (ll = k - a) as Ell by done. assert (op2 = op + 1 + (ll + 240) / 255 + ll + 2) as Eop2 by done.
  assert (op3 = op2 + (ml - 4 + 240) / 255) as Eop3 by done. clearbody ll op2 op3.
  pose proof HS as (Ha & _ & _ & _ & Eop & _ & _ & Hfm & _). zlen_facts.
  unfold LZ4HC_encodeSequence. cbn [hp_ip hp_op hp_anchor].
  assert (u64 (addr k - addr a) = ll) as ->.
  { rewrite !addr_input by lia. rewrite u64_small; lia. }
  assert (0 <= (ll + 240) / 255) by (apply Z.div_pos; lia).
  assert (0 <= (ml - 4 + 240) / 255) by (apply Z.div_pos; lia).
  change (2 + 1 + LASTLITERALS) with 8. change (1 + LASTLITERALS) with 6. change MINMATCH with 4. cbn zeta.
  assert (forall (x : bool), negb (bool_decide (limit = notLimited)) && x = true -> limit <> notLimited /\ x = true) as Hlim.
  { intros x [Hl%negb_true_iff%bool_decide_eq_false Hx]%andb_prop. done. }
  assert (forall x : bool, negb (bool_decide (limit = notLimited)) && x = false -> limit = notLimited \/ x = false) as Hnl.
  { intros x [Hl%negb_false_iff%bool_decide_eq_true|Hx]%andb_false_iff; auto. }
  wif.
  { apply Hlim in E as [Hl Hx%Z.ltb_lt]. apply wp_ret, Hfail; [done|by left|done]. }
  destruct HR1 as [Hroom Hop2].
  { apply Hnl in E as [?|E%Z.ltb_ge]; [by left|right; lia]. }
  apply (wp_literals _ _ _ _ _ Henv a done); [done|lia|lia|lia|]. intros m1 HS1 Hh1.
  remember (op + 1 + (ll + 240) / 255) as op1 eqn:Eop1.
  apply wp_bind, wp_put_offset; [lia|eapply out_mapped; [exact Henv|apply HS1|lia|lia]|].
  intros m2 Hf2 Ho2. replace (op1 + ll + 2) with op2 by lia. replace (op1 + ll + 2) with op2 in Hf2 by lia.
  assert (seqs_inv a done op m2) as HS2.
  { eapply seqs_inv_frame; [exact HS1|]. eapply frame_weaken; [exact Hf2|lia|lia]. }
  rewrite u64_small by lia. wif.
  { apply Hlim in E0 as [Hl Hx%Z.ltb_lt]. apply wp_ret, Hfail; [done|by right|done]. }
  destruct HR2 as [Hop3 Hcap].
  { apply Hnl in E0 as [?|E0%Z.ltb_ge]; [by left|right; lia]. }
  replace off with (k - (k - off)) in Ho2 by lia. subst ll.
  pose proof (offset_holds hist inp a k (k - off) op (op1 + (k - a)) m1 m2 Hh1 ltac:(lia) ltac:(lia) ltac:(lia)) as Hh2.
  replace (op1 + (k - a) + 2) with op2 in Hh2 by lia. specialize (Hh2 Hf2 Ho2).
  apply wp_bind. eapply wp_hc_put_match; [lia|exact Hh2|apply nibble_range; lia| | |].
  { rewrite !zlen_app, zlen_len_ext', slice_zlen by lia. rewrite zlen_cons, zlen_cons, zlen_nil. lia. }
  { eapply out_mapped; [exact Henv|apply HS2|lia|lia]. }
  intros m3 Hf3 Hh3. rewrite <- enc_match_seq in Hh3 by lia. apply wp_ret.
  replace (addr k + ml) with (addr (k + ml)) by (rewrite !addr_input by lia; lia).
  rewrite <- Eop3. apply Hdone.
  apply (seqs_inv_snoc _ _ _ _ _ Henv a done op k (k - off) ml op3 m2); try done; try lia.
  - eapply frame_weaken; [exact Hf3|lia|lia].
  - rewrite zlen_match_seq by lia. lia.
Qed.

(** * The end of the output *)

(** The bytes returned and the bytes consumed: 0 when the output is too small, or
    the size of a conforming block for the first [n] bytes of the input. *)
Definition hc_done (res n : Z) (m : mem) : Prop :=
  mframe m /\
  ((res = 0 /\ c_out p = limitedOutput /\ lim < c_dest p + LZ4_compressBound (c_inputSize p)) \/
   exists b, block_wf b /\ end_ok (b_seqs b) (b_last b) /\ Forall (fun s => s_off s <> 0) (b_seqs b) /\
     b_nib b = 0 /\ 0 <= n <= c_inputSize p /\ expand hist b = Some (take (Z.to_nat n) inp) /\
     res = zlen (enc_block b) /\ holds m (c_dest p) (enc_block b) /\ res <= lim - c_dest p /\
     (c_out p <> fillOutput -> n = c_inputSize p)).

Definition last_result (r : option (Z * Z)) : Z * Z :=
  match r with
  | None => (0, 0)
  | Some (ip, op) => (s32 (op - c_dest p), s32 (ip - c_source p))
  end.

Lemma wp_hc_finish a done op L Q m :
  seqs_inv a done op m -> 0 <= L <= dlen - a -> op + 1 + (L + 240) / 255 + L <= lim ->
  (forall s, list.last done = Some s -> 5 <= L /\ 12 <= s_mlen s + L) ->
  (c_out p <> fillOutput -> L = dlen - a) ->
  (forall r m', hc_done (last_result r).1 (last_result r).2 m' -> Q r m') ->
  wp (op' ← put_literal_length op (op + 1) L; memcpy op' (addr a) L;;
      mret (Some (addr a + L, op' + L))) Q m.
Proof.
  intros HS HL Hle Hend Hnf HQ. pose proof HS as (Ha & _). cenv.
  apply (wp_last_run _ _ _ _ _ Henv a done); [done|lia|lia|]. intros m' Hf' Hh'. apply wp_ret, HQ.
  destruct (last_block _ _ _ _ _ Henv a done op L m HS HL Hend) as (Hb & He & Hg & Hx).
  pose proof (last_zlen _ _ _ _ _ Henv a done op L m HS HL) as Hz.
  pose proof (result_fits _ _ _ _ _ Henv a done op L m HS HL Hle) as Hr. unfold int_max in Hr.
  split; [done|]. right. exists (Block done (slice a L) 0). simpl.
  assert (addr a + L - c_source p = a + L - hlen) as En by (rewrite addr_input by lia; lia).
  rewrite !s32_small by (unfold int_min, int_max; lia). rewrite En.
  do 4 (split; [done|]). split; [lia|]. split; [done|]. split; [lia|]. split; [done|].
  split; [lia|]. intros Ho. specialize (Hnf Ho). lia.
Qed.

Lemma wp_hc_last_literals a done op oend Q m :
  seqs_inv a done op m -> (c_out p <> notLimited -> oend = lim) ->
  (forall r m', hc_done (last_result r).1 (last_result r).2 m' -> Q r m') ->
  wp (hc_last_literals (c_out p) (c_iend p) oend op (addr a)) Q m.
Proof.
  intros HS Eo HQ. pose proof HS as (Ha & Hw & _ & _ & Eop & Hop & _ & Hf & Hcap & Hlast).
  unfold hc_last_literals. cenv.
  assert (c_iend p - addr a = dlen - a) as -> by (rewrite addr_input by lia; unfold c_iend; lia).
  rewrite (u64_small (dlen - a)) by lia.
  replace (dlen - a + 255 - 15) with (dlen - a + 240) by lia.
  pose proof (ce_lim _ _ _ _ _ Henv) as Hl. remember (dlen - a) as L eqn:EL.
  assert (forall s, list.last done = Some s -> 5 <= L /\ 12 <= s_mlen s + L) as Hend.
  { intros s Es. specialize (Hlast s Es). lia. }
  destruct Hcap as [Hsz Hcap].
  assert (op + (1 + (L + 240) / 255 + L) < c_dest p + LZ4_compressBound (c_inputSize p)) as Hbd.
  { rewrite compressBound_eq by (change LZ4_MAX_INPUT_SIZE with 2113929216; lia).
    pose proof (last_size (a - hlen) L ltac:(lia) ltac:(lia)) as Hls.
    replace (a - hlen + L) with (c_inputSize p) in Hls by lia. lia. }
  destruct (c_out p) eqn:Ec; bd; cbn zeta.
  - eapply (wp_hc_finish a done op L); try done; lia.
  - rewrite Eo by done. destruct (Z.ltb_spec lim (op + (1 + (L + 240) / 255 + L))); cbn [andb].
    + apply wp_ret, HQ. split; [done|]. left. split; [done|]. split; [done|lia].
    + eapply (wp_hc_finish a done op L); try done; lia.
  - rewrite Eo by done. rewrite andb_false_r. destruct Hcap as [Hc1 Hc].
    destruct (Z.ltb_spec lim (op + (1 + (L + 240) / 255 + L))); cbn [andb].
    + pose proof (ce_cap _ _ _ _ _ Henv) as Hmax. unfold c_olimit, int_max in *. zlen_facts.
      destruct (fill_run (lim - op - 1) L) as (Hr1 & Hr2 & Hr5 & Hr8); [lia|lia|lia|].
      rewrite (u64_small (lim - op)) by lia. remember (lim - op - 1) as r eqn:Er.
      rewrite (u64_small r), (u64_small (r + 256 - 15)) by lia.
      replace (r + 256 - 15) with (r + 241) by lia. rewrite u64_small by lia.
      eapply (wp_hc_finish a done op (r - (r + 241) / 256)); try done; try lia.
      intros s Es. destruct (Hc s Es) as [H6 H13]. apply last_Some_elem_of in Es.
      eapply Forall_forall in Hw; [|apply list_elem_of_In; exact Es]. destruct Hw as (_ & _ & ?).
      split; [lia|]. destruct (Z.lt_ge_cases r 8); [|lia]. rewrite (Z.div_small (r + 241)); lia.
    + eapply (wp_hc_finish a done op L); try done; lia.
Qed.

(** * The checks of the room *)

(** The limit for sequences. *)
Abbreviation seq_oend := (if bool_decide (c_out p = fillOutput) then lim - 5 else lim).

Lemma lits_checked a done op k oend m :
  seqs_inv a done op m -> a <= k <= dlen - 12 -> (c_out p <> notLimited -> oend = seq_oend) ->
  c_out p = notLimited \/ op + 1 + (k - a) / 255 + (k - a) + 8 <= oend ->
  op + 1 + (k - a + 240) / 255 + wild 8 (k - a) <= lim /\ seq_offset_end op a k <= lim.
Proof.
  intros HS Hk Eo Hor. pose proof HS as (Ha & _). cenv. unfold seq_offset_end.
  assert (c_out p = limitedOutput -> op + 1 + (k - a) / 255 + (k - a) + 8 <= lim) as Hlo.
  { intros Ec. rewrite Ec in *. destruct Hor as [?|Hor]; [done|]. rewrite Eo in Hor by done.
    by rewrite bool_decide_eq_false_2 in Hor by done. }
  assert (c_out p = fillOutput -> op + 1 + (k - a) / 255 + (k - a) + 8 <= lim - 5) as Hfo.
  { intros Ec. rewrite Ec in *. destruct Hor as [?|Hor]; [done|]. rewrite Eo in Hor by done.
    by rewrite bool_decide_eq_true_2 in Hor by done. }
  assert ((k - a + 240) / 255 <= (k - a) / 255 + 1) by (Z.div_mod_to_equations; lia).
  destruct (lits_room _ _ _ _ _ Henv a done op (k - a) m HS) as [Hroom _]; [lia|lia| | |].
  { intros Ec. specialize (Hlo Ec). lia. }
  { intros Ec. specialize (Hfo Ec). lia. }
  split; [done|]. apply (offset_room _ _ _ _ _ Henv a done op k _ m); [done|lia|lia| |].
  - intros Ec. specialize (Hlo Ec). lia.
  - intros Ec. specialize (Hfo Ec). lia.
Qed.

Lemma match_checked a done op k j ml oend m :
  seqs_inv a done op m -> a <= k -> 4 <= ml -> k + ml <= dlen - 5 -> (c_out p <> notLimited -> oend = seq_oend) ->
  let op2 := seq_offset_end op a k in
  c_out p = notLimited \/ op2 + (ml - 4) / 255 + 6 <= oend ->
  op2 + (ml - 4 + 240) / 255 <= lim /\
  cap_ok (k + ml) (done ++ [match_seq a k j ml]) (op2 + (ml - 4 + 240) / 255).
Proof.
  intros HS Hk Hml Hle Eo op2 Hor. pose proof HS as (Ha & _). cenv.
  assert ((ml - 4 + 240) / 255 <= (ml - 4) / 255 + 1) by (Z.div_mod_to_equations; lia).
  assert (0 <= (ml - 4) / 255) by (apply Z.div_pos; lia).
  destruct (match_room _ _ _ _ _ Henv a done op k j ml op2 m HS) as [Hroom Hcap]; [lia|done|done|done| | |].
  - intros Ec. rewrite Ec in *. destruct Hor as [?|Hor]; [done|]. rewrite Eo in Hor by done.
    rewrite bool_decide_eq_false_2 in Hor by done. lia.
  - intros Ec. rewrite Ec in *. destruct Hor as [?|Hor]; [done|]. rewrite Eo in Hor by done.
    rewrite bool_decide_eq_true_2 in Hor by done. lia.
  - split; [lia|done].
Qed.

(** The checks do not fail when the bound fits. *)
Lemma check_fails a done op k ml oend m :
  seqs_inv a done op m -> a <= k <= dlen - 12 -> 4 <= ml -> k + ml <= dlen - 5 ->
  oend < op + 1 + (k - a) / 255 + (k - a) + 8 \/ oend < seq_offset_end op a k + (ml - 4) / 255 + 6 ->
  oend < c_dest p + LZ4_compressBound (c_inputSize p).
Proof.
  intros HS Hk Hml Hle Hor. cenv.
  pose proof (lits_bound _ _ _ _ _ Henv a done op (k - a) m HS ltac:(lia) ltac:(lia)).
  pose proof (match_bound _ _ _ _ _ Henv a done op k ml (seq_offset_end op a k) m HS ltac:(lia) Hml Hle eq_refl).
  assert ((ml - 4) / 255 <= (ml - 4 + 240) / 255) by (apply Z.div_le_mono; lia). lia.
Qed.

(** The last sequence of a full output. *)
Lemma wp_dest_overflow a done op k off ml Q m :
  c_out p = fillOutput -> seqs_inv a done op m -> a <= k <= dlen - 12 -> 4 <= ml -> hmatch k off ml ->
  (forall a' done' op' x m', seqs_inv a' done' op' m' -> hp_op x = op' -> hp_anchor x = addr a' -> Q x m') ->
  wp (hc_dest_overflow (pos_at k op a) ml off (lim - 5)) Q m.
Proof.
  intros Ec HS Hk Hml HM HQ. pose proof HS as (Ha & _ & _ & _ & Eop & Hop & _). cenv. zlen_facts.
  unfold hc_dest_overflow. cbn [hp_ip hp_op hp_anchor].
  assert (u64 (addr k - addr a) = k - a) as ->.
  { rewrite !addr_input by lia. rewrite u64_small; lia. }
  cbn zeta. set (ll := k - a) in *. assert (0 <= (ll + 240) / 255) by (apply Z.div_pos; lia).
  pose proof (ce_lim _ _ _ _ _ Henv) as Hl. pose proof (ce_cap _ _ _ _ _ Henv) as Hmax.
  rewrite Ec in Hl. unfold c_olimit, int_max in *.
  change MINMATCH with 4. change ML_MASK with 15. change LASTLITERALS with 5. change MFLIMIT with 12.
  wif; [|by eapply HQ]. rewrite u64_small by lia.
  set (left := lim - 5 - 3 - (op + (1 + (ll + 240) / 255 + ll))) in *.
  set (ml' := if 4 + (15 - 1) + left * 255 <? ml then 4 + (15 - 1) + left * 255 else ml).
  assert (4 <= ml' <= ml /\ (ml' - 4 + 240) / 255 <= left) as [Hml' Hdiv].
  { assert (ml' <= 18 + left * 255 /\ 4 <= ml' <= ml) as [Hx1 Hx2] by (subst ml'; zcase; lia).
    split; [done|]. assert (ml' - 4 + 240 <= left * 255 + 254) by lia.
    assert (left = (left * 255 + 254) / 255) as -> by (rewrite Z.div_add_l by lia; change (254 / 255) with 0; lia).
    apply Z.div_le_mono; lia. }
  assert (hmatch k off ml') as HM'.
  { destruct HM as (? & ? & ? & Hdq). split; [done|]. split; [done|]. split; [lia|].
    intros i Hi. apply Hdq. lia. }
  assert (0 <= (ml' - 4 + 240) / 255) by (apply Z.div_pos; lia).
  wif; [|by eapply HQ]. destruct (wild_ge 8 ll ltac:(lia)) as [_ Hw].
  assert (wild 8 ll <= ll + 8) as Hw8 by (apply wild_le; lia).
  apply wp_bind. eapply (wp_encodeSequence a done op k off ml'); [done|lia|lia|done| | | |].
  - intros _. fold ll. unfold seq_offset_end. fold ll. lia.
  - intros _. unfold seq_offset_end. fold ll. split; [lia|]. cbv [Lz4CompressProof.cap_ok]. rewrite Ec.
    pose proof (match_bound _ _ _ _ _ Henv a done op k ml' (seq_offset_end op a k) m HS ltac:(lia) ltac:(lia)) as [Hb _].
    { destruct HM'; lia. } { done. }
    unfold seq_offset_end in Hb. fold ll in Hb. split; [lia|]. split; [lia|].
    intros s. rewrite last_snoc. intros [= <-]. simpl. 
    split; [lia|]. destruct (Z.lt_ge_cases ml' 19).
    + rewrite (Z.div_small (ml' - 4 + 240)) by lia. lia.
    + lia.
  - intros x m' Hne. done.
  - intros m' HS'. apply wp_ret. by eapply HQ.
Qed.
End HcEncode.

(** [LZ4HC_compress_hashChain] within one segment of memory: the parser ends, every
    sequence it emits is a match of the data, and its result is a conforming block. *)

(** * Lengths *)

(** The first match takes bytes from the second, and both keep 4 bytes. *)
Lemma squeeze_spec ip ml1 s2 m2 s2' m2' :
  4 <= ml1 -> 8 <= s2 - ip + md_len m2 -> 4 <= md_len m2 ->
  let new := hc_new_ml ip ml1 s2 (md_len m2) in
  hc_squeeze ip new s2 m2 = (s2', m2') ->
  4 <= new <= ml1 /\ s2' = Z.max s2 (ip + new) /\ md_off m2' = md_off m2 /\
  md_len m2' = md_len m2 - (s2' - s2) /\ 4 <= md_len m2' /\ (ip + ml1 <= s2 -> m2' = m2).
Proof.
  intros Hml H8 Hm2 new. unfold new, hc_squeeze, hc_new_ml. change OPTIMAL_ML with 18. change MINMATCH with 4.
  destruct (Z.ltb_spec 18 ml1).
  - destruct (Z.ltb_spec (s2 + md_len m2 - 4) (ip + 18)); zcase; intros [= <- <-]; simpl; repeat split; try lia; intros; try done; lia.
  - destruct (Z.ltb_spec (s2 + md_len m2 - 4) (ip + ml1)); zcase; intros [= <- <-]; simpl; repeat split; try lia; intros; try done; lia.
Qed.

Section HcChain.
Context (p : cparams) (hist inp : list Z) (m0 : mem) (lim : Z).
Context (Henv : comp_env p hist inp m0 lim) (Hpre : c_maybe_extMem p = false).
Context (c0 : LZ4HC_CCtx) (Hc0 : window_ok p hist inp c0) (attempts : Z).

Abbreviation hlen := (hlen hist).
Abbreviation dlen := (dlen hist inp).
Abbreviation addr := (addr p hist).
Abbreviation mframe m := (frame (c_dest p) lim m0 m).
Abbreviation seqs_inv := (seqs_inv p hist inp m0 lim).
Abbreviation hmatch := (hmatch hist inp).
Abbreviation hc_ok := (hc_ok c0).
Abbreviation hc_after := (hc_after hist inp c0).
Abbreviation hc_done := (hc_done p hist inp m0 lim).
Abbreviation pos_at k op a := (HcPos (addr k) op (addr a)).
Abbreviation hp :=
  (HcParams (c_source p) (c_inputSize p) (c_dest p) (c_maxOutputSize p) (c_out p) noDictCtx attempts).

Ltac cenv :=
  pose proof (dlen_eq _ _ _ _ _ Henv) as Hdl; pose proof (hlen_nonneg hist) as Hhl;
  pose proof (ce_max _ _ _ _ _ Henv) as Hmx; change LZ4_MAX_INPUT_SIZE with 2113929216 in Hmx;
  change MINMATCH with 4 in *; change MFLIMIT with 12 in *; change LASTLITERALS with 5 in *;
  change RUN_MASK with 15 in *; change ML_MASK with 15 in *; change OPTIMAL_ML with 18 in *.

(** Positions known so far are known later, and after the call. *)
Ltac hcok := first [eapply hc_ok_mono; [eassumption|lia] | eapply hc_ok_after; [eassumption|lia]].

Lemma addr_lin k : addr k = c_source p - hlen + k.
Proof. unfold Lz4CompressInv.addr. by rewrite Hpre. Qed.

Lemma h_iend_eq : h_iend hp = c_iend p.
Proof. done. Qed.

Lemma h_mflimit_eq : h_mflimit hp = addr (dlen - 12).
Proof. cenv. unfold h_mflimit, h_iend. rewrite addr_lin. simpl. change MFLIMIT with 12. lia. Qed.

Lemma h_matchlimit_eq : h_matchlimit hp = addr (dlen - 5).
Proof. cenv. unfold h_matchlimit, h_iend. rewrite addr_lin. simpl. change LASTLITERALS with 5. lia. Qed.

Lemma h_oend_eq : c_out p <> notLimited -> h_oend hp = lim.
Proof.
  intros Hne. pose proof (ce_lim _ _ _ _ _ Henv) as Hl. unfold h_oend. simpl.
  unfold c_olimit in Hl. by destruct (c_out p).
Qed.

Lemma hmatch_tail k off ml d : hmatch k off ml -> 0 <= d -> hmatch (k + d) off (ml - d).
Proof.
  intros (H1 & H2 & H3 & H4) Hd. split; [done|]. split; [lia|]. split; [lia|]. intros i Hi.
  specialize (H4 (i + d) ltac:(lia)).
  replace (k + d - off + i) with (k - off + (i + d)) by lia.
  by replace (k + d + i) with (k + (i + d)) by lia.
Qed.

Lemma hmatch_shorter k off ml ml' : hmatch k off ml -> ml' <= ml -> hmatch k off ml'.
Proof.
  intros (H1 & H2 & H3 & H4) Hd. split; [done|]. split; [lia|]. split; [lia|]. intros i Hi. apply H4. lia.
Qed.

(** * What a call returns *)

Definition res_ok (r : hcresult) (m : mem) : Prop :=
  hc_done (hr_result r) (hr_consumed r) m /\ hc_after (hr_ctx r).

Lemma wp_hc_last a done op x ctx (Q : hcnext -> mem -> Prop) m :
  seqs_inv a done op m -> hp_op x = op -> hp_anchor x = addr a -> hc_after ctx ->
  (forall r m', res_ok r m' -> Q (inr r) m') -> wp (hc_last hp x ctx) Q m.
Proof.
  intros HS Eo Ea Hok HQ. unfold hc_last. rewrite Eo, Ea, h_iend_eq. cbn [h_limit h_dst h_src]. apply wp_bind.
  eapply (wp_hc_last_literals _ _ _ _ _ Henv); [done|apply h_oend_eq|].
  intros r m' Hr. apply wp_ret, HQ. destruct r as [[ip' op']|]; (split; [exact Hr|exact Hok]).
Qed.

Lemma wp_hc_encode a done op k md ctx kont (Q : hcnext -> mem -> Prop) m :
  seqs_inv a done op m -> a <= k <= dlen - 12 -> 4 <= md_len md -> hmatch k (md_off md) (md_len md) ->
  hc_after ctx ->
  (forall done' op' m', seqs_inv (k + md_len md) done' op' m' ->
     wp (kont (pos_at (k + md_len md) op' (k + md_len md))) Q m') ->
  (forall r m', res_ok r m' -> Q (inr r) m') ->
  wp (hc_encode hp (pos_at k op a) md ctx kont) Q m.
Proof.
  intros HS Hk Hml HM Hok Hgo HQ. cenv. pose proof HM as (_ & _ & Hle & _).
  assert (c_out p <> notLimited -> h_oend' hp = if bool_decide (c_out p = fillOutput) then lim - 5 else lim) as Eo.
  { intros Hne. unfold h_oend'. rewrite h_oend_eq by done. done. }
  unfold hc_encode. apply wp_bind.
  eapply (wp_encodeSequence _ _ _ _ _ Henv a done op k); [done|done|done|done| | | |].
  - intros Hor. eapply lits_checked; [exact Henv|done|done|exact Eo|exact Hor].
  - intros Hor. eapply match_checked; [exact Henv|done|lia|done|done|exact Eo|exact Hor].
  - intros x m' Hne Hor HS'. cbn [fst]. cbn [h_limit] in *. case_bool_decide as Ec.
    + apply wp_bind. rewrite Eo by done. bd. eapply (wp_dest_overflow _ _ _ _ _ Henv a done op k); [done|done|done|done|done|].
      intros a' done' op' x' m2 HS2 E1 E2. by eapply wp_hc_last.
    + apply wp_ret, HQ. split; [|done]. split; [apply HS'|]. left. split; [done|].
      rewrite Eo in Hor by done.
      split; [by destruct (c_out p)|]. eapply check_fails; [exact Henv|exact HS|done|done|done|exact Hor].
  - intros m' HS'. cbn [fst snd]. by eapply Hgo.
Qed.

(** * The labels *)

(** A match of at least [n] bytes at [k]. *)
Abbreviation good n k md := (n <= md_len md /\ hmatch k (md_off md) (md_len md)).

Definition main_inv (v : hcvars) (m : mem) : Prop :=
  exists a done k op, seqs_inv a done op m /\ v_pos v = pos_at k op a /\ a <= k <= dlen /\ hc_ok (v_ctx v) k.

(** The match [m1] at [k] is to be compared with one that ends later; [m0] at [k0]
    is the match it replaced. *)
Definition search2_inv (v : hcvars) (m : mem) : Prop :=
  exists a done k k0 op, seqs_inv a done op m /\ v_pos v = pos_at k op a /\ v_start0 v = addr k0 /\
    a <= k0 <= k /\ k <= k0 + 2 /\ k <= dlen - 12 /\
    good 4 k (v_m1 v) /\ good 4 k0 (v_m0 v) /\
    ((k0 = k /\ v_m0 v = v_m1 v) \/ k0 + md_len (v_m0 v) <= dlen - 12) /\
    hc_ok (v_ctx v) (k + md_len (v_m1 v) - 2).

(** Two matches: [m1] at [k] and [m2] at [s2], which ends later. *)
Definition search3_inv (v : hcvars) (m : mem) : Prop :=
  exists a done k s2 op, seqs_inv a done op m /\ v_pos v = pos_at k op a /\ v_start2 v = addr s2 /\
    a <= k <= s2 /\ s2 <= dlen - 12 /\ good 4 k (v_m1 v) /\ k + md_len (v_m1 v) <= dlen - 12 /\
    good 5 s2 (v_m2 v) /\ 8 <= s2 - k + md_len (v_m2 v) /\ s2 <= k + md_len (v_m1 v) + 1 /\
    hc_ok (v_ctx v) (s2 + md_len (v_m2 v) - 3).

Definition hc_inv (c : hclabel * hcvars) (m : mem) : Prop :=
  match c.1 with
  | hc_main => main_inv c.2 m
  | hc_search2 => search2_inv c.2 m
  | hc_search3 => search3_inv c.2 m
  end.

(** Where the last match that is known ends. *)
Definition hc_reach (c : hclabel * hcvars) : Z :=
  match c.1 with
  | hc_main => v_ip c.2
  | hc_search2 => v_ip c.2 + md_len (v_m1 c.2)
  | hc_search3 => v_start2 c.2 + md_len (v_m2 c.2)
  end.

Definition hc_meas (c : hclabel * hcvars) : Z :=
  2 * (c_iend p - hc_reach c) + (if c.1 is hc_main then 0 else 1).

(** A step that reaches beyond [e], or returns to the main loop at [e]. *)
Definition hstep_post (e : Z) (r : hcnext) (m : mem) : Prop :=
  match r with
  | inl c => hc_inv c m /\ 2 * hc_reach c + (if c.1 is hc_main then 1 else 0) > 2 * e
  | inr r => res_ok r m
  end.

Lemma iend_eq : c_iend p = addr dlen.
Proof. cenv. rewrite addr_lin. unfold c_iend. lia. Qed.

Lemma wp_goto_main a done k op ctx e m :
  seqs_inv a done op m -> a <= k <= dlen -> hc_ok ctx k -> e <= addr k ->
  wp (goto_main (pos_at k op a) ctx) (hstep_post e) m.
Proof.
  intros HS Hk Hok He. apply wp_ret. split; [by exists a, done, k, op|]. unfold hc_reach, v_ip. simpl. lia.
Qed.

Lemma wp_main_body v m :
  main_inv v m -> wp (hc_main_body hp v) (fun r m' =>
    match r with
    | inl c => hc_inv c m' /\ v_ip v < hc_reach c
    | inr r => res_ok r m'
    end) m.
Proof.
  intros (a & done & k & op & HS & Ep & Hk & Hok). unfold hc_main_body, v_ip. rewrite Ep. cbn [hp_ip].
  rewrite h_mflimit_eq, h_matchlimit_eq. pose proof HS as (Ha & _ & _ & _ & _ & _ & _ & Hf & _). cenv.
  destruct (Z.ltb_spec (addr (dlen - 12)) (addr k)) as [Hl|Hl]; rewrite !addr_lin in Hl.
  { eapply (wp_hc_last a done op); [done|done|done| |auto]. hcok. }
  apply wp_bind. eapply (wp_FindBestMatch _ _ _ _ _ Henv Hpre c0 Hc0); [done|exact Hok|lia|lia|].
  intros md ctx Hok' Hm. cbn beta iota. wif.
  - apply wp_ret. split; [|unfold hc_reach, v_ip; simpl; lia]. exists a, done, (k + 1), op. simpl.
    split; [done|]. split; [unfold v_at; simpl; f_equal; rewrite !addr_lin; lia|]. split; [lia|].
    hcok.
  - destruct Hm as [?|Hm]; [lia|]. pose proof Hm as [? (_ & _ & ? & _)]. apply wp_ret.
    split; [|unfold hc_reach, v_ip; simpl; lia].
    exists a, done, k, k, op. simpl. split; [done|]. split; [done|]. split; [done|].
    split; [lia|]. split; [lia|]. split; [lia|]. split; [done|]. split; [done|]. split; [by left|].
    hcok.
Qed.

(** The second match, if one was found that is longer than the first. *)
Lemma wp_search2_find v k m :
  mframe m -> 0 <= k -> good 4 k (v_m1 v) -> hc_ok (v_ctx v) (k + md_len (v_m1 v) - 2) ->
  wp (if addr k + md_len (v_m1 v) <=? addr (dlen - 12) then
        let start2 := addr k + md_len (v_m1 v) - 2 in
        r ← LZ4HC_InsertAndGetWiderMatch (v_ctx v) start2 (addr k) (addr (dlen - 5)) (md_len (v_m1 v)) attempts
              (h_patternAnalysis hp) false noDictCtx false;
        mret (start2 + md_back r.1, r.1, r.2)
      else mret (v_start2 v, nomatch, v_ctx v)) (fun r m' => m' = m /\ let '(start2, m2, ctx) := r in
    hc_ok ctx (k + md_len (v_m1 v) - 2) /\
    (md_len m2 <= md_len (v_m1 v) \/
     exists s2, start2 = addr s2 /\ k + md_len (v_m1 v) <= dlen - 12 /\ k <= s2 <= k + md_len (v_m1 v) - 2 /\
       md_len (v_m1 v) < md_len m2 /\ hmatch s2 (md_off m2) (md_len m2) /\
       k + md_len (v_m1 v) + 2 <= s2 + md_len m2)) m.
Proof.
  intros Hf Hk [Hm1 HM1] Hok. cenv. rewrite !addr_lin.
  destruct (Z.leb_spec (c_source p - hlen + k + md_len (v_m1 v)) (c_source p - hlen + (dlen - 12))).
  2: { apply wp_ret. split; [done|]. split; [done|]. left. simpl. lia. }
  cbn zeta. apply wp_bind. rewrite <- !addr_lin. pose proof HM1 as (_ & _ & Hle & _).
  replace (addr k + md_len (v_m1 v) - 2) with (addr (k + md_len (v_m1 v) - 2)) by (rewrite !addr_lin; lia).
  eapply (wp_GetWiderMatch _ _ _ _ _ Henv Hpre c0 Hc0); [done|exact Hok|lia|lia|lia|lia|lia|].
  intros md ctx Hok' Hb. apply wp_ret. split; [done|]. cbn [fst snd]. split; [done|].
  destruct Hb as [(-> & _)|(H1 & H2 & H3 & H4)]; [by left|right].
  exists (k + md_len (v_m1 v) - 2 + md_back md). split; [rewrite !addr_lin; lia|]. split; [lia|].
  split; [lia|]. split; [done|]. split; [done|lia].
Qed.

Lemma wp_search2_body v m :
  search2_inv v m -> wp (hc_search2_body hp v) (hstep_post (v_ip v + md_len (v_m1 v))) m.
Proof.
  intros (a & done & k & k0 & op & HS & Ep & E0 & Hk0 & Hk02 & Hk & HM1 & HM0 & Hor & Hok).
  unfold hc_search2_body, v_ip. rewrite Ep. cbn [hp_ip]. rewrite h_mflimit_eq, h_matchlimit_eq.
  pose proof HS as (Ha & _ & _ & _ & _ & _ & _ & Hf & _). cenv. pose proof HM1 as [Hm1 (_ & _ & Hle1 & _)].
  cbn [h_maxNbAttempts h_dict]. apply wp_bind.
  eapply wp_mono; [apply (wp_search2_find v k); [done|lia|done|done]|].
  intros [[start2 m2] ctx] m' [-> [Hok' Hm2]]. cbn beta iota. wif.
  { apply (wp_hc_encode a done op); [done|lia|lia|apply HM1| | |auto].
    - hcok.
    - intros done' op' m' HS'. apply (wp_goto_main _ done'); [done|lia| |rewrite !addr_lin; lia].
      hcok. }
  destruct Hm2 as [?|(s2 & -> & Hlim & Hs2 & Hlen & HM2 & Hend)]; [lia|]. rewrite E0.
  pose proof HM2 as (_ & _ & Hle2 & _).
  assert (k0 + md_len (v_m0 v) <= dlen - 12) as Hend0 by (destruct Hor as [[-> ->]|?]; lia).
  (* the match that stays first *)
  assert (exists k1 md1, (if (addr k0 <? addr k) && (addr s2 <? addr k + md_len (v_m0 v))
      then (addr k0, v_m0 v) else (addr k, v_m1 v)) = (addr k1, md1) /\ k0 <= k1 <= k /\ good 4 k1 md1 /\
      k1 + md_len md1 <= dlen - 12 /\ s2 <= k1 + md_len md1 + 1 /\ (s2 - k1 < 3 -> k1 = k0)) as
    (k1 & md1 & -> & Hk1 & HM & Hend1 & Hs2' & Hnear).
  { destruct (Z.ltb_spec (addr k0) (addr k)) as [Hlt|Hge], (Z.ltb_spec (addr s2) (addr k + md_len (v_m0 v))) as [Hl2|Hg2];
      rewrite !addr_lin in *; cbn [andb].
    - exists k0, (v_m0 v). rewrite addr_lin. split; [done|]. split; [lia|]. split; [done|]. lia.
    - exists k, (v_m1 v). rewrite addr_lin. split; [done|]. split; [lia|]. split; [done|]. destruct HM0. lia.
    - exists k, (v_m1 v). rewrite addr_lin. split; [done|]. split; [lia|]. split; [done|]. lia.
    - exists k, (v_m1 v). rewrite addr_lin. split; [done|]. split; [lia|]. split; [done|]. lia. }
  assert (addr s2 - addr k1 = s2 - k1) as -> by (rewrite !addr_lin; lia).
  destruct (Z.ltb_spec (s2 - k1) 3) as [Hlt|Hge]; apply wp_ret.
  - split; [|unfold hc_reach, v_ip; simpl; rewrite ?addr_lin; lia].
    exists a, done, s2, k0, op. simpl. split; [done|]. split; [done|]. split; [done|].
    split; [lia|]. split; [lia|]. split; [lia|]. split; [split; [lia|done]|]. split; [done|]. split; [by right|].
    hcok.
  - split; [|unfold hc_reach, v_ip; simpl; rewrite ?addr_lin; lia].
    exists a, done, k1, s2, op. simpl. split; [done|]. split; [done|]. split; [done|].
    split; [lia|]. split; [lia|]. split; [done|]. split; [lia|]. split; [split; [lia|done]|]. split; [lia|].
    split; [lia|]. hcok.
Qed.

(** The second match gives way to the first. *)
Lemma squeezed k s2 m1 m2 :
  good 4 k m1 -> good 4 s2 m2 -> 8 <= s2 - k + md_len m2 ->
  exists s2' m2', (if addr s2 - addr k <? 18
      then hc_squeeze (addr k) (hc_new_ml (addr k) (md_len m1) (addr s2) (md_len m2)) (addr s2) m2
      else (addr s2, m2)) = (addr s2', m2') /\
    s2 <= s2' <= Z.max s2 (k + md_len m1) /\ k + 4 <= s2' /\ good 4 s2' m2' /\
    s2' + md_len m2' = s2 + md_len m2 /\ (k + md_len m1 <= s2 -> m2' = m2).
Proof.
  intros [Hm1 _] [Hm2 HM2] H8. assert (addr s2 - addr k = s2 - k) as Es by (rewrite !addr_lin; lia). rewrite Es.
  destruct (Z.ltb_spec (s2 - k) 18).
  2: { exists s2, m2. split; [done|]. split; [lia|]. split; [lia|]. done. }
  destruct (hc_squeeze _ _ _ _) as [x m2'] eqn:E.
  apply squeeze_spec in E; [|lia|lia|lia]. destruct E as (Hn & -> & Eo & El & Hl & Hsame).
  set (new := hc_new_ml _ _ _ _) in *. exists (Z.max s2 (k + new)), m2'.
  assert (Z.max (addr s2) (addr k + new) = addr (Z.max s2 (k + new))) as Ex by (rewrite !addr_lin; lia).
  rewrite Ex in *. split; [done|]. split; [lia|]. split; [lia|].
  assert (addr (Z.max s2 (k + new)) - addr s2 = Z.max s2 (k + new) - s2) as Ed by (rewrite !addr_lin; lia).
  rewrite Ed in El. split.
  - split; [done|]. rewrite Eo, El. replace (Z.max s2 (k + new)) with (s2 + (Z.max s2 (k + new) - s2)) at 1 by lia.
    apply hmatch_tail; [done|lia].
  - split; [lia|]. intros Hge. apply Hsame. lia.
Qed.

(** The third match, if one was found that is longer than the second. *)
Lemma wp_search3_find ctx s2 m2 m :
  mframe m -> 0 <= s2 -> good 4 s2 m2 -> hc_ok ctx (s2 + md_len m2 - 3) ->
  wp (if addr s2 + md_len m2 <=? addr (dlen - 12) then
        let start3 := addr s2 + md_len m2 - 3 in
        r ← LZ4HC_InsertAndGetWiderMatch ctx start3 (addr s2) (addr (dlen - 5)) (md_len m2) attempts
              (h_patternAnalysis hp) false noDictCtx false;
        mret (start3 + md_back r.1, r.1, r.2)
      else mret (0, nomatch, ctx)) (fun r m' => m' = m /\ let '(start3, m3, ctx) := r in
    hc_ok ctx (s2 + md_len m2 - 3) /\
    (md_len m3 <= md_len m2 \/
     exists s3, start3 = addr s3 /\ s2 + md_len m2 <= dlen - 12 /\ s2 <= s3 <= s2 + md_len m2 - 3 /\
       md_len m2 < md_len m3 /\ hmatch s3 (md_off m3) (md_len m3) /\
       s2 + md_len m2 + 1 <= s3 + md_len m3)) m.
Proof.
  intros Hf Hk [Hm2 HM2] Hok. cenv.
  assert ((addr s2 + md_len m2 <=? addr (dlen - 12)) = (s2 + md_len m2 <=? dlen - 12)) as ->.
  { rewrite !addr_lin. apply eq_true_iff_eq. rewrite !Z.leb_le. lia. }
  destruct (Z.leb_spec (s2 + md_len m2) (dlen - 12)).
  2: { apply wp_ret. split; [done|]. split; [done|]. left. simpl. lia. }
  cbn zeta. apply wp_bind. pose proof HM2 as (_ & _ & Hle & _).
  replace (addr s2 + md_len m2 - 3) with (addr (s2 + md_len m2 - 3)) by (rewrite !addr_lin; lia).
  eapply (wp_GetWiderMatch _ _ _ _ _ Henv Hpre c0 Hc0); [done|exact Hok|lia|lia|lia|lia|lia|].
  intros md ctx' Hok' Hb. apply wp_ret. split; [done|]. cbn [fst snd]. split; [done|].
  destruct Hb as [(-> & _)|(H1 & H2 & H3 & H4)]; [by left|right].
  exists (s2 + md_len m2 - 3 + md_back md). split; [rewrite !addr_lin; lia|]. split; [lia|].
  split; [lia|]. split; [done|]. split; [done|lia].
Qed.

Section Search3.
Context (v : hcvars) (a : Z) (done : list seq) (k s2 op : Z) (m2 m3 : LZ4HC_match_t) (s3 : Z).
Context (ctx : LZ4HC_CCtx) (m : mem).
Abbreviation m1 := (v_m1 v).
Abbreviation e2 := (s2 + md_len m2).
Context (HS : seqs_inv a done op m) (Hak : a <= k) (HM1 : good 4 k m1).
Context (Hs2 : k + 4 <= s2 <= dlen - 12) (HM2 : good 4 s2 m2) (Hlim1 : k + md_len m1 <= dlen - 12).
Context (Hok : hc_ok ctx (e2 - 3)).

(** Both matches are emitted. *)
Lemma wp_emit_two :
  wp (let m1 := if addr s2 <? addr k + md_len m1 then set_len (addr s2 - addr k) m1 else m1 in
      hc_encode hp (pos_at k op a) m1 ctx (fun x => hc_encode hp (v_at (addr s2) x) m2 ctx (fun x => goto_main x ctx)))
    (hstep_post (addr e2)) m.
Proof.
  pose proof HS as (Ha & _). cenv. destruct HM1 as [Hm1 HMm1], HM2 as [Hm2 HMm2].
  pose proof HMm2 as (_ & _ & Hle2 & _). cbn zeta.
  assert (exists md, (if addr s2 <? addr k + md_len m1 then set_len (addr s2 - addr k) m1 else m1) = md /\
    good 4 k md /\ k + md_len md <= s2) as (md & -> & [Hmd HMd] & Hend).
  { destruct (Z.ltb_spec (addr s2) (addr k + md_len m1)) as [Hl|Hl]; rewrite !addr_lin in Hl.
    - exists (set_len (s2 - k) m1). split; [f_equal; rewrite !addr_lin; lia|]. simpl. split; [split; [lia|]|lia].
      eapply hmatch_shorter; [exact HMm1|lia].
    - exists m1. split; [done|]. split; [done|lia]. }
  assert (hc_after ctx) as Hokd by (hcok).
  apply (wp_hc_encode a done op); [done|lia|done|done|done| |auto].
  intros done' op' m' HS'. unfold v_at. cbn [hp_op hp_anchor].
  apply (wp_hc_encode _ done' op'); [done|lia|done|done|done| |auto].
  intros done2 op2 m2' HS2. apply (wp_goto_main _ done2); [done|lia| |lia].
  hcok.
Qed.

Context (Hlim2 : e2 <= dlen - 12) (Hs3 : s2 <= s3 <= e2 - 3) (Hlen3 : md_len m2 < md_len m3).
Context (HM3 : hmatch s3 (md_off m3) (md_len m3)) (Hend3 : e2 + 1 <= s3 + md_len m3).

(** The second match is dropped. *)
Lemma wp_drop_second :
  s3 < k + md_len m1 + 3 ->
  wp (if addr k + md_len m1 <=? addr s3 then
        let '(start2, m2) :=
          if addr s2 <? addr k + md_len m1 then
            let correction := addr k + md_len m1 - addr s2 in
            let m2 := set_len (md_len m2 - correction) m2 in
            if md_len m2 <? 4 then (addr s3, m3) else (addr s2 + correction, m2)
          else (addr s2, m2) in
        hc_encode hp (pos_at k op a) m1 ctx (fun x => mret (inl (hc_search2, HcVars (v_at (addr s3) x) start2 start2 m2 m3 m2 ctx)))
      else mret (inl (hc_search3, HcVars (pos_at k op a) (v_start0 v) (addr s3) (v_m0 v) m1 m3 ctx)))
    (hstep_post (addr e2)) m.
Proof.
  intros Hnear. pose proof HS as (Ha & _). cenv. destruct HM1 as [Hm1 HMm1], HM2 as [Hm2 HMm2].
  pose proof HM3 as (_ & _ & Hle3 & _).
  destruct (Z.leb_spec (addr k + md_len m1) (addr s3)) as [Hge|Hlt]; rewrite !addr_lin in *.
  - rewrite <- !addr_lin.
    assert (exists k0 md, (if addr s2 <? addr k + md_len m1 then
          let correction := addr k + md_len m1 - addr s2 in
          let m2 := set_len (md_len m2 - correction) m2 in
          if md_len m2 <? 4 then (addr s3, m3) else (addr s2 + correction, m2)
        else (addr s2, m2)) = (addr k0, md) /\ k + md_len m1 <= k0 <= s3 /\ s3 <= k0 + 2 /\ good 4 k0 md /\
        ((k0 = s3 /\ md = m3) \/ k0 + md_len md <= dlen - 12)) as (k0 & md & -> & Hk0 & Hk02 & HMd & Hor).
    { destruct (Z.ltb_spec (addr s2) (addr k + md_len m1)) as [Hl|Hl]; rewrite !addr_lin in Hl.
      - cbn zeta. simpl md_len. destruct (Z.ltb_spec (md_len m2 - (addr k + md_len m1 - addr s2)) 4) as [Hx|Hx].
        + exists s3, m3. split; [done|]. split; [lia|]. split; [lia|]. split; [split; [lia|done]|by left].
        + rewrite !addr_lin in Hx. exists (k + md_len m1), (set_len (md_len m2 - (k + md_len m1 - s2)) m2).
          split; [f_equal; [rewrite !addr_lin; lia|f_equal; rewrite !addr_lin; lia]|]. simpl.
          split; [lia|]. split; [lia|]. split; [|right; lia]. split; [lia|].
          replace (k + md_len m1) with (s2 + (k + md_len m1 - s2)) at 1 by lia. apply hmatch_tail; [done|lia].
      - exists s2, m2. split; [done|]. split; [lia|]. split; [lia|]. split; [done|]. by right. }
    apply (wp_hc_encode a done op); [done|lia|done|done| | |auto].
    + hcok.
    + intros done' op' m' HS'. apply wp_ret. split; [|unfold hc_reach, v_ip; simpl; rewrite !addr_lin; lia].
      exists (k + md_len m1), done', s3, k0, op'. simpl. split; [done|]. split; [done|]. split; [done|].
      split; [lia|]. split; [lia|]. split; [lia|]. split; [split; [lia|done]|]. split; [done|]. split; [done|].
      hcok.
  - apply wp_ret. rewrite <- !addr_lin. split; [|unfold hc_reach; simpl; rewrite !addr_lin; lia].
    exists a, done, k, s3, op. simpl. split; [done|]. split; [done|]. split; [done|]. split; [lia|]. split; [lia|].
    split; [done|]. split; [done|]. split; [split; [lia|done]|]. split; [lia|]. split; [lia|].
    hcok.
Qed.

(** Three matches in a row: the first is emitted. *)
Lemma wp_emit_first :
  k + md_len m1 + 3 <= s3 -> s2 <= k + md_len m1 + 1 -> (k + md_len m1 <= s2 -> 5 <= md_len m2) ->
  wp (let '(m1, start2, m2) :=
        if addr s2 <? addr k + md_len m1 then
          if addr s2 - addr k <? 18 then
            let ml := hc_new_ml (addr k) (md_len m1) (addr s2) (md_len m2) in
            let '(start2, m2) := hc_squeeze (addr k) ml (addr s2) m2 in
            (set_len ml m1, start2, m2)
          else (set_len (addr s2 - addr k) m1, addr s2, m2)
        else (m1, addr s2, m2) in
      hc_encode hp (pos_at k op a) m1 ctx (fun x =>
        mret (inl (hc_search3, HcVars (v_at start2 x) (v_start0 v) (addr s3) (v_m0 v) m2 m3 ctx))))
    (hstep_post (addr e2)) m.
Proof.
  intros Hfar Hs2' Hlong. pose proof HS as (Ha & _). cenv. destruct HM1 as [Hm1 HMm1], HM2 as [Hm2 HMm2].
  pose proof HM3 as (_ & _ & Hle3 & _).
  assert (exists md k2 md2, (if addr s2 <? addr k + md_len m1 then
          if addr s2 - addr k <? 18 then
            let ml := hc_new_ml (addr k) (md_len m1) (addr s2) (md_len m2) in
            let '(start2, m2) := hc_squeeze (addr k) ml (addr s2) m2 in
            (set_len ml m1, start2, m2)
          else (set_len (addr s2 - addr k) m1, addr s2, m2)
        else (m1, addr s2, m2)) = (md, addr k2, md2) /\ good 4 k md /\ k + md_len md <= k2 /\ good 4 k2 md2 /\
      k2 + md_len md2 = e2 /\ s2 <= k2 <= Z.max s2 (k + md_len m1)) as
    (md & k2 & md2 & -> & [Hmd HMd] & Hk & HM' & He & Hk2).
  { assert (addr s2 - addr k = s2 - k) as -> by (rewrite !addr_lin; lia).
    destruct (Z.ltb_spec (addr s2) (addr k + md_len m1)) as [Hl|Hl]; rewrite !addr_lin in Hl.
    2: { exists m1, s2, m2. split; [done|]. split; [done|]. split; [lia|]. split; [done|]. lia. }
    destruct (Z.ltb_spec (s2 - k) 18).
    2: { exists (set_len (s2 - k) m1), s2, m2. split; [done|]. simpl. split; [split; [lia|]|].
         - eapply hmatch_shorter; [exact HMm1|lia].
         - split; [lia|]. split; [done|]. lia. }
    cbn zeta. destruct (hc_squeeze _ _ _ _) as [x md2] eqn:E.
    apply squeeze_spec in E; [|lia|rewrite !addr_lin; lia|lia]. destruct E as (Hn & -> & Eo & El & Hl4 & _).
    set (new := hc_new_ml _ _ _ _) in *. exists (set_len new m1), (Z.max s2 (k + new)), md2.
    assert (Z.max (addr s2) (addr k + new) = addr (Z.max s2 (k + new))) as Ex by (rewrite !addr_lin; lia).
    rewrite Ex in *. split; [done|].
    assert (addr (Z.max s2 (k + new)) - addr s2 = Z.max s2 (k + new) - s2) as Ed by (rewrite !addr_lin; lia).
    rewrite Ed in El. simpl. split; [split; [lia|eapply hmatch_shorter; [exact HMm1|lia]]|].
    split; [lia|]. split; [|lia]. split; [done|]. rewrite Eo, El.
    replace (Z.max s2 (k + new)) with (s2 + (Z.max s2 (k + new) - s2)) at 1 by lia. apply hmatch_tail; [done|lia]. }
  apply (wp_hc_encode a done op); [done|lia|done|done| | |auto].
  - hcok.
  - intros done' op' m' HS'. apply wp_ret. split; [|unfold hc_reach; simpl; rewrite !addr_lin; lia].
    exists (k + md_len md), done', k2, s3, op'. simpl. split; [done|]. split; [done|]. split; [done|].
    split; [lia|]. split; [lia|]. split; [done|]. split; [lia|]. split; [split; [lia|done]|].
    split; [|split; [lia|hcok]].
    destruct (Z.lt_ge_cases s2 (k + md_len m1)); [lia|]. specialize (Hlong ltac:(lia)). lia.
Qed.
End Search3.

Lemma wp_search3_body v m :
  search3_inv v m -> wp (hc_search3_body hp v) (hstep_post (v_start2 v + md_len (v_m2 v))) m.
Proof.
  intros (a & done & k & s2 & op & HS & Ep & E2 & Hk & Hs2 & HM1 & Hlim1 & HM2 & H8 & Hs2' & Hok).
  unfold hc_search3_body. rewrite Ep, E2. cbn [hp_ip]. rewrite h_mflimit_eq, h_matchlimit_eq.
  pose proof HS as (Ha & _ & _ & _ & _ & _ & _ & Hf & _). cenv. cbn [h_maxNbAttempts h_dict].
  destruct HM2 as [Hm2 HMm2]. pose proof HMm2 as (_ & _ & Hle2 & _). destruct HM1 as [Hm1 HMm1].
  destruct (squeezed k s2 (v_m1 v) (v_m2 v)) as (s2' & m2 & -> & Hb & Hk4 & HM2' & Hend & Hsame);
    [done|split; [lia|done]|lia|]. cbn beta iota.
  rewrite <- Hend in Hok.
  assert (addr s2 + md_len (v_m2 v) = addr (s2' + md_len m2)) as -> by (rewrite !addr_lin; lia).
  apply wp_bind. eapply wp_mono; [apply wp_search3_find; [done|lia|exact HM2'|exact Hok]|].
  intros [[start3 m3] ctx] m' [-> [Hok' Hm3]]. cbn beta iota. wif.
  { apply (wp_emit_two v a done k s2' op m2 ctx); try done; lia. }
  destruct Hm3 as [?|(s3 & -> & Hlim2 & Hs3 & Hlen & HM3 & Hend3)]; [lia|].
  destruct (Z.ltb_spec (addr s3) (addr k + md_len (v_m1 v) + 3)) as [Hn|Hn]; rewrite !addr_lin in Hn.
  - apply (wp_drop_second v a done k s2' op m2 m3 s3 ctx); try done; lia.
  - apply (wp_emit_first v a done k s2' op m2 m3 s3 ctx); try done; try lia.
Qed.

(** * The parser *)

Lemma wp_hc_step c m : hc_inv c m -> wp (hc_step hp c) (fun r m' =>
    match r with inl c' => hc_inv c' m' /\ hc_meas c' < hc_meas c | inr r => res_ok r m' end) m.
Proof.
  destruct c as [l v]. unfold hc_inv, hc_step. cbn [fst snd]. destruct l; intros HI.
  - eapply wp_mono; [by apply wp_main_body|]. intros [[l' v']|r] m'; [|done].
    intros [H1 H2]. split; [done|]. unfold hc_meas. cbn [fst]. unfold hc_reach at 2. cbn [fst snd]. destruct l'; lia.
  - eapply wp_mono; [by apply wp_search2_body|]. intros [[l' v']|r] m'; [|done].
    intros [H1 H2]. split; [done|]. unfold hc_meas. cbn [fst] in *. unfold hc_reach at 2. cbn [fst snd].
    destruct l'; lia.
  - eapply wp_mono; [by apply wp_search3_body|]. intros [[l' v']|r] m'; [|done].
    intros [H1 H2]. split; [done|]. unfold hc_meas. cbn [fst] in *. unfold hc_reach at 2. cbn [fst snd].
    destruct l'; lia.
Qed.

Lemma hc_meas_pos c m : hc_inv c m -> 0 <= hc_meas c.
Proof.
  destruct c as [l v]. unfold hc_inv, hc_meas, hc_reach, v_ip. rewrite iend_eq. cbn [fst snd]. destruct l.
  - intros (a & done & k & op & _ & -> & Hk & _). simpl. rewrite !addr_lin. lia.
  - intros (a & done & k & k0 & op & _ & -> & _ & _ & _ & _ & [_ (_ & _ & ? & _)] & _). simpl.
    rewrite !addr_lin. lia.
  - intros (a & done & k & s2 & op & _ & _ & -> & _ & _ & _ & _ & [_ (_ & _ & ? & _)] & _).
    rewrite !addr_lin. lia.
Qed.

Lemma hc_seqs_start : c_dest p <= lim -> seqs_inv hlen [] (c_dest p) m0.
Proof.
  intros Hl. eapply (seqs_inv_start p); [done|apply frame_refl|done|]. intros Eo.
  pose proof (ce_fill _ _ _ _ _ Henv Eo) as [_ Hc]. pose proof (ce_lim _ _ _ _ _ Henv) as Hl'.
  rewrite Eo in Hl'. unfold c_olimit in Hl'. simpl in *. lia.
Qed.

Lemma source_addr : c_source p = addr hlen.
Proof. rewrite addr_lin. lia. Qed.

Lemma wp_hashChain :
  hc_ok c0 hlen -> c_dest p <= lim ->
  wp (LZ4HC_compress_hashChain c0 (c_source p) (c_dest p) (c_inputSize p) (c_maxOutputSize p) attempts
        (c_out p) noDictCtx) res_ok m0.
Proof.
  intros Hok Hd. cenv. pose proof (hc_seqs_start Hd) as HS. unfold LZ4HC_compress_hashChain.
  wif.
  - apply wp_bind. eapply wp_hc_last; [exact HS|done|apply source_addr| |].
    + hcok.
    + intros r m' Hr. by apply wp_ret.
  - apply (wp_loop hc_inv hc_meas).
    + intros c m HI. split; [by eapply hc_meas_pos|]. eapply wp_mono; [by apply wp_hc_step|]. by intros [?|?] m'.
    + exists hlen, [], hlen, (c_dest p). simpl. split; [done|]. split; [by rewrite <- source_addr|].
      split; [lia|]. done.
    + unfold hc_meas, hc_reach, v_ip, hc_fuel, c_iend. simpl. lia.
Qed.
End HcChain.
