(* ===== verification/Lz4HcMid.v ===== *)
(** [LZ4MID_compress] within one segment of memory: whatever its two hash tables
    contain, its result is a conforming block for the input. *)
From S2P Require Import Prelude.
From S2P Require Import Mem.
From S2P Require Import BlockFormat.
From S2P Require Import Lz4Common.
From S2P Require Import Lz4CommonSpec.
From S2P Require Import Lz4Decompress.
From S2P Require Import Lz4DecodeSpec.
From S2P Require Import Lz4CountSpec.
From S2P Require Import Lz4Compress.
From S2P Require Import Lz4CompressGeneric.
From S2P Require Import Lz4CompressInv.
From S2P Require Import Lz4CompressSearch.
From S2P Require Import Lz4CompressEncode.
From S2P Require Import Lz4CompressProof.
From S2P Require Import Lz4CompressMatch.
From S2P Require Import Lz4Hc.
From S2P Require Import Lz4HcSearch.
From S2P Require Import Lz4HcChain.

Lemma mid_hash4_range v : 0 <= LZ4MID_hash4 v < 16384.
Proof. apply (shiftr_range _ 18 14); [done|done|]. apply u32_range. Qed.

Lemma mid_hash7_range v : 0 <= LZ4MID_hash7 v < 16384.
Proof.
  pose proof (shiftr_range (u64 (u64 (Z.shiftl v (64 - 56)) * 58295818150454627)) 50 14 ltac:(done) ltac:(done)
    (u64_range _)) as H.
  change (LZ4MID_hash7 v) with
    (u32 (Z.shiftr (u64 (u64 (Z.shiftl v (64 - 56)) * 58295818150454627)) 50)).
  rewrite u32_small; [exact H|]. split; [apply H|]. eapply Z.lt_trans; [apply H|done].
Qed.

Section HcMid.
Context (p : cparams) (hist inp : list Z) (m0 : mem) (lim : Z).
Context (Henv : comp_env p hist inp m0 lim) (Hpre : c_maybe_extMem p = false).
Context (c0 : LZ4HC_CCtx) (Hc0 : window_ok p hist inp c0) (Hmid : hc_isMid c0 = true).

Abbreviation hlen := (hlen hist).
Abbreviation dlen := (dlen hist inp).
Abbreviation addr := (addr p hist).
Abbreviation dget := (dget hist inp).
Abbreviation mframe m := (frame (c_dest p) lim m0 m).
Abbreviation seqs_inv := (seqs_inv p hist inp m0 lim).
Abbreviation hmatch := (hmatch hist inp).
Abbreviation hc_done := (hc_done p hist inp m0 lim).
Abbreviation hc_after := (hc_after hist inp c0).
Abbreviation res_ok := (res_ok p hist inp m0 lim c0).
Abbreviation D := (hc_dictLimit c0).
Abbreviation pos_at k op a := (HcPos (addr k) op (addr a)).
Abbreviation hp :=
  (HcParams (c_source p) (c_inputSize p) (c_dest p) (c_maxOutputSize p) (c_out p) noDictCtx 0).

Ltac cenv :=
  pose proof (dlen_eq _ _ _ _ _ Henv) as Hdl; pose proof (hlen_nonneg hist) as Hhl;
  pose proof (ce_max _ _ _ _ _ Henv) as Hmx; change LZ4_MAX_INPUT_SIZE with 2113929216 in Hmx;
  pose proof Hc0 as (_ & _ & HD & HDd);
  change MINMATCH with 4 in *; change MFLIMIT with 12 in *; change LASTLITERALS with 5 in *;
  change LZ4_DISTANCE_MAX with 65535 in *.

Ltac alin := rewrite !(addr_lin p hist Hpre).

(** The context when the positions in its tables are below [k]. *)
Definition mid_ok (c : LZ4HC_CCtx) (k : Z) : Prop :=
  hc_static c = hc_static c0 /\ hashes_below (hc_hashTable c) (D + k) /\ chain_ok (hc_chainTable c).

Lemma mid_ok_set c k t : mid_ok c k -> hashes_below t (D + k) -> mid_ok (set_hashTable t c) k.
Proof. intros (H1 & _ & H3) Ht. split; [by destruct c|]. by split. Qed.

Lemma mid_ok_mono c k k' : mid_ok c k -> k <= k' -> mid_ok c k'.
Proof. intros (H1 & H2 & H3) Hk. split; [done|]. split; [|done]. eapply hashes_below_mono; [exact H2|lia]. Qed.

Lemma mid_ok_after c k : mid_ok c k -> k <= dlen -> hc_after c.
Proof.
  intros H Hk. apply (mid_ok_mono c k dlen) in H as (H1 & H2 & H3); [|done]. split; [done|]. split; [done|].
  split; [done|]. by rewrite Hmid.
Qed.

Lemma mid_window c k : mid_ok c k -> hc_prefixStart c = addr 0 /\ hc_dictLimit c = D /\ hc_lowLimit c = D.
Proof.
  intros (E & _). apply hc_static_eq in E as (-> & -> & ->). destruct Hc0 as (-> & -> & _). done.
Qed.

(** * The tables *)

Lemma wp_hash8Ptr k Q m :
  mframe m -> 0 <= k -> k + 8 <= dlen -> (forall h, 0 <= h < 16384 -> Q h m) -> wp (LZ4MID_hash8Ptr (addr k)) Q m.
Proof.
  intros Hf Hk Hn HQ. unfold LZ4MID_hash8Ptr, LZ4_readLE64. change LZ4_isLittleEndian with true. cbn iota.
  apply wp_bind, wp_LZ4_read_ARCH; [by apply (seg_readable _ _ _ _ _ Henv Hpre)|]. intros l _ _ _.
  apply wp_ret, HQ, mid_hash7_range.
Qed.

Lemma wp_hash4Ptr k Q m :
  mframe m -> 0 <= k -> k + 4 <= dlen -> (forall h, 0 <= h < 16384 -> Q h m) -> wp (LZ4MID_hash4Ptr (addr k)) Q m.
Proof.
  intros Hf Hk Hn HQ. apply wp_bind, wp_LZ4_read32; [by apply (seg_readable _ _ _ _ _ Henv Hpre)|]. intros l _ _ _.
  apply wp_ret, HQ, mid_hash4_range.
Qed.

Lemma wp_ADDPOS8 t k idx K Q m :
  mframe m -> 0 <= k -> k + 8 <= dlen -> hashes_below t K -> 0 <= idx < K ->
  (forall t', hashes_below t' K -> Q t' m) -> wp (ADDPOS8 t (addr k) idx) Q m.
Proof.
  intros Hf Hk Hn Ht Hi HQ. apply wp_bind, wp_hash8Ptr; [done|done|done|]. intros h Hh.
  apply wp_hash_set; [change LZ4HC_HASHTABLESIZE with 32768; change LZ4MID_HASHTABLESIZE with 16384; lia|].
  by apply HQ, hashes_below_set.
Qed.

Lemma wp_ADDPOS4 t k idx K Q m :
  mframe m -> 0 <= k -> k + 4 <= dlen -> hashes_below t K -> 0 <= idx < K ->
  (forall t', hashes_below t' K -> Q t' m) -> wp (ADDPOS4 t (addr k) idx) Q m.
Proof.
  intros Hf Hk Hn Ht Hi HQ. apply wp_bind, wp_hash4Ptr; [done|done|done|]. intros h Hh.
  apply wp_hash_set; [change LZ4HC_HASHTABLESIZE with 32768; lia|]. by apply HQ, hashes_below_set.
Qed.

Lemma mid_ipIndex_eq c k n : mid_ok c n -> 0 <= k <= dlen -> mid_ipIndex c (addr k) = D + k.
Proof.
  intros Hc Hk. cenv. destruct (mid_window c n Hc) as (E1 & E2 & _). unfold mid_ipIndex. rewrite E1, E2.
  assert (addr k - addr 0 = k) as -> by (alin; lia). rewrite (u32_small k), u32_small; lia.
Qed.

(** * The search *)

(** A match that ends at [e] or later. *)
Definition mid_found (e : Z) (o : mid_match) : Prop :=
  exists k, mm_ip o = addr k /\ e - 4 <= k <= dlen - 12 /\ 4 <= mm_len o /\ hmatch k (mm_dist o) (mm_len o) /\ e <= k + mm_len o.

(** Counting from a position of the table. *)
Lemma wp_mid_count {A} k pos (f : Z -> M A) Q m :
  mframe m -> 0 <= k <= dlen - 12 -> D <= pos < D + k -> D + k - pos <= 65535 ->
  (forall ml, 0 <= ml -> hmatch k (D + k - pos) ml -> wp (f ml) Q m) ->
  wp (ml ← LZ4_count (addr k) (addr (pos - D)) (addr (dlen - 5)); f ml) Q m.
Proof.
  intros Hf Hk Hp Hd HQ. cenv. apply wp_bind.
  apply (wp_count_deq _ _ _ _ _ Henv _ _ (dlen - 5 - k)); [done| | |lia| |].
  - apply (segment_eq _ _ _ Hpre); lia.
  - apply (segment_eq _ _ _ Hpre); lia.
  - alin. lia.
  - intros n Hn Hdq _. apply HQ; [lia|]. split; [lia|]. split; [lia|]. split; [lia|].
    by replace (k - (D + k - pos)) with (pos - D) by lia.
Qed.

(** The result of a search at [k]: the tables know [k] or the position behind it. *)
Definition mid_search_post (k : Z) (m : mem) (r : option mid_match * filled_table) (m' : mem) : Prop :=
  m' = m /\ hashes_below r.2 (D + k + 2) /\ (forall o, r.1 = Some o -> mid_found (k + 4) o) /\
  (r.1 = None -> hashes_below r.2 (D + k + 1)).

Lemma wp_mid_long c k m :
  mframe m -> mid_ok c k -> 0 <= k <= dlen - 12 ->
  wp (mid_long hp c (addr k)) (fun r m' => m' = m /\ hashes_below r.2 (D + k + 1) /\
    (forall h, 0 <= h < 16384 -> ft_get r.2 h < D + k) /\ forall o, r.1 = Some o -> mid_found (k + 4) o) m.
Proof.
  intros Hf Hc Hk. pose proof Hc as (_ & Ht & _). destruct (mid_window c k Hc) as (E1 & E2 & E3).
  unfold mid_long. cenv. rewrite (mid_ipIndex_eq c k k) by (done || lia). rewrite E1, E2.
  apply wp_bind, wp_hash8Ptr; [done|lia|lia|]. intros h Hh.
  apply wp_bind, wp_hash_get; [change LZ4HC_HASHTABLESIZE with 32768; change LZ4MID_HASHTABLESIZE with 16384; lia|].
  pose proof (Ht (LZ4MID_HASHTABLESIZE + h)) as Hpos. set (pos8 := ft_get _ _) in *.
  apply wp_bind, wp_hash_set; [change LZ4HC_HASHTABLESIZE with 32768; change LZ4MID_HASHTABLESIZE with 16384; lia|].
  set (t' := ft_set _ _ _). assert (hashes_below t' (D + k + 1)) as Ht'.
  { apply hashes_below_set; [|lia]. eapply hashes_below_mono; [exact Ht|lia]. }
  assert (forall h, 0 <= h < 16384 -> ft_get t' h < D + k) as Hlow.
  { intros h' Hh'. unfold t'. rewrite ft_get_set. pose proof (Ht h'). case_decide as E; [|lia].
    change LZ4MID_HASHTABLESIZE with 16384 in E. lia. }
  rewrite u32_small by lia. apply wp_bind. wif; [|by do 2 apply wp_ret]. wif.
  - rewrite (h_matchlimit_eq _ _ _ _ _ Henv Hpre).
    replace (addr 0 + pos8 - D) with (addr (pos8 - D)) by (alin; lia).
    apply wp_mid_count; [done|lia|lia|lia|]. intros ml Hml HM. do 2 apply wp_ret.
    split; [done|]. split; [done|]. split; [done|]. cbn [fst]. zcase; [|done]. intros o [= <-].
    exists k. simpl. split; [done|]. split; [lia|]. split; [lia|]. split; [done|lia].
  - unfold mid_extDict. rewrite E3. destruct (Z.leb_spec D pos8); [lia|]. by do 2 apply wp_ret.
Qed.

Lemma wp_mid_next_long c t k ml pos4 m :
  mframe m -> mid_ok c k -> hashes_below t (D + k + 1) -> 0 <= k <= dlen - 12 -> 4 <= ml ->
  hmatch k (D + k - pos4) ml -> D <= pos4 < D + k ->
  wp (mid_next_long hp c t (addr k) ml pos4) (mid_search_post k m) m.
Proof.
  intros Hf Hc Ht Hk Hml HM Hp4. destruct (mid_window c k Hc) as (E1 & E2 & E3).
  unfold mid_next_long. cenv. rewrite (mid_ipIndex_eq c k k) by (done || lia). rewrite E1, E2.
  rewrite (u32_small (D + k - pos4)) by lia. cbn zeta.
  assert (mid_search_post k m (Some (MidMatch (addr k) ml (D + k - pos4)), t) m) as Hshort.
  { split; [done|]. split; [eapply hashes_below_mono; [exact Ht|lia]|]. split; [|done]. intros o [= <-].
    exists k. simpl. split; [done|]. split; [lia|]. split; [lia|]. split; [done|lia]. }
  replace (addr k + 1) with (addr (k + 1)) by (alin; lia).
  apply wp_bind, wp_hash8Ptr; [done|lia|lia|]. intros h Hh.
  apply wp_bind, wp_hash_get; [change LZ4HC_HASHTABLESIZE with 32768; change LZ4MID_HASHTABLESIZE with 16384; lia|].
  pose proof (Ht (LZ4MID_HASHTABLESIZE + h)) as Hpos. set (pos8 := ft_get _ _) in *.
  rewrite (u32_small (D + k + 1 - pos8)) by lia. wif; [|by apply wp_ret].
  apply andb_prop in E as [[Hd%Z.leb_le Hp8%Z.leb_le]%andb_prop Hlt%Z.ltb_lt].
  rewrite (h_mflimit_eq _ _ _ _ _ Henv Hpre) in Hlt. revert Hlt. alin. intros Hlt.
  rewrite <- !(addr_lin p hist Hpre). rewrite (h_matchlimit_eq _ _ _ _ _ Henv Hpre).
  replace (addr 0 + (pos8 - D)) with (addr (pos8 - D)) by (alin; lia).
  apply wp_mid_count; [done|lia|lia|lia|]. intros ml2 Hml2 HM2. wif; [|by apply wp_ret].
  rewrite u32_small by lia.
  apply wp_bind, wp_hash_set; [change LZ4HC_HASHTABLESIZE with 32768; change LZ4MID_HASHTABLESIZE with 16384; lia|].
  apply wp_ret. split; [done|]. cbn [fst snd]. split; [|split; [|done]].
  - apply hashes_below_set; [|lia]. eapply hashes_below_mono; [exact Ht|lia].
  - intros o [= <-]. exists (k + 1). simpl. split; [done|]. split; [lia|]. split; [lia|].
    replace (D + k + 1 - pos8) with (D + (k + 1) - pos8) by lia. split; [done|lia].
Qed.

Lemma wp_mid_short c t k m :
  mframe m -> mid_ok c k -> hashes_below t (D + k + 1) -> 0 <= k <= dlen - 12 ->
  (forall h, 0 <= h < 16384 -> ft_get t h < D + k) ->
  wp (mid_short hp c t (addr k)) (mid_search_post k m) m.
Proof.
  intros Hf Hc Ht Hk Hlow. destruct (mid_window c k Hc) as (E1 & E2 & E3).
  unfold mid_short. cenv. rewrite (mid_ipIndex_eq c k k) by (done || lia). rewrite E1, E2.
  apply wp_bind, wp_hash4Ptr; [done|lia|lia|]. intros h Hh.
  apply wp_bind, wp_hash_get; [change LZ4HC_HASHTABLESIZE with 32768; lia|].
  pose proof (Ht h) as Hpos. pose proof (Hlow h Hh). set (pos4 := ft_get _ _) in *.
  apply wp_bind, wp_hash_set; [change LZ4HC_HASHTABLESIZE with 32768; lia|].
  set (t' := ft_set _ _ _). assert (hashes_below t' (D + k + 1)) as Ht' by (apply hashes_below_set; [done|lia]).
  assert (mid_search_post k m (None, t') m) as Hnone.
  { split; [done|]. split; [eapply hashes_below_mono; [exact Ht'|lia]|]. split; [done|]. done. }
  rewrite u32_small by lia. wif; [|by apply wp_ret]. wif.
  - rewrite (h_matchlimit_eq _ _ _ _ _ Henv Hpre).
    replace (addr 0 + (pos4 - D)) with (addr (pos4 - D)) by (alin; lia).
    apply wp_mid_count; [done|lia|lia|lia|]. intros ml Hml HM. wif; [|by apply wp_ret].
    by apply wp_mid_next_long.
  - unfold mid_extDict. rewrite E3. destruct (Z.leb_spec D pos4); [lia|]. apply wp_bind, wp_ret. by apply wp_ret.
Qed.

Lemma wp_mid_search c k m :
  mframe m -> mid_ok c k -> 0 <= k <= dlen - 12 ->
  wp (mid_search hp c (addr k)) (fun r m' => m' = m /\ mid_ok r.2 (k + 2) /\
    match r.1 with Some o => mid_found (k + 4) o | None => mid_ok r.2 (k + 1) end) m.
Proof.
  intros Hf Hc Hk. unfold mid_search. apply wp_bind. eapply wp_mono; [by apply wp_mid_long|].
  intros [o t] m' (-> & Ht & Hlow & Ho). cbn [fst snd] in *.
  assert (forall t n, hashes_below t (D + k + n) -> 0 <= n -> mid_ok (set_hashTable t c) (k + n)) as Hset.
  { intros t' n Ht' Hn. apply mid_ok_set; [eapply mid_ok_mono; [exact Hc|lia]|]. by rewrite Z.add_assoc. }
  destruct o as [o|].
  { apply wp_ret. split; [done|]. split; [|by apply Ho]. apply Hset; [|lia]. eapply hashes_below_mono; [exact Ht|lia]. }
  apply wp_bind. eapply wp_mono; [by apply wp_mid_short|]. intros [o t2] m' (-> & Ht2 & Ho2 & Hn). cbn [fst snd] in *.
  destruct o as [o|].
  { apply wp_ret. split; [done|]. split; [apply Hset; [done|lia]|by apply Ho2]. }
  unfold mid_dict. cbn [h_dict bool_decide decide_rel andb]. apply wp_bind, wp_ret, wp_ret. split; [done|].
  cbn [fst snd]. split; apply Hset; try lia; [done|by apply Hn].
Qed.

(** * Catching up *)

Lemma wp_mid_catch_back a k o m :
  mframe m -> 0 <= a <= k -> mm_ip o = addr k -> k <= dlen - 12 -> hmatch k (mm_dist o) (mm_len o) ->
  wp (mid_catch_back (addr 0) (addr a) o) (fun o' m' => m' = m /\ exists k', mm_ip o' = addr k' /\ a <= k' <= k /\
    mm_dist o' = mm_dist o /\ k' + mm_len o' = k + mm_len o /\ hmatch k' (mm_dist o') (mm_len o')) m.
Proof.
  intros Hf Ha Ek Hk HM. cenv. unfold mid_catch_back.
  apply (wp_loop (fun o' m' => m' = m /\ exists k', mm_ip o' = addr k' /\ a <= k' <= k /\
    mm_dist o' = mm_dist o /\ k' + mm_len o' = k + mm_len o /\ hmatch k' (mm_dist o') (mm_len o'))
    (fun o' => mm_ip o' - addr a)).
  2: { split; [done|]. exists k. split; [done|]. split; [lia|]. done. }
  2: { rewrite Ek. lia. }
  intros [ip ml d] m' (-> & k' & E1 & Hk' & E2 & E3 & HM'). simpl in *. subst ip. split; [alin; lia|]. wif.
  - apply andb_prop in E as [H1%Z.ltb_lt H2%Z.ltb_lt]. revert H1 H2.
    assert (addr k' - addr 0 = k') as -> by (alin; lia). alin. rewrite u32_small by lia. intros H1 H2.
    rewrite <- !(addr_lin p hist Hpre). pose proof HM' as (Hd & Hd' & Hle & Hdq).
    replace (addr k' - 1) with (addr (k' - 1)) by (alin; lia).
    replace (addr k' - d - 1) with (addr (k' - 1 - d)) by (alin; lia).
    destruct (dget_byte _ _ _ _ _ Henv (k' - 1)) as (x & Ex & _); [lia|].
    destruct (dget_byte _ _ _ _ _ Henv (k' - 1 - d)) as (y & Ey & _); [lia|].
    apply wp_bind. eapply wp_loadb; [rewrite (dget_addr _ _ _ _ _ Henv) by (done || lia); exact Ex|].
    apply wp_bind. eapply wp_loadb; [rewrite (dget_addr _ _ _ _ _ Henv) by (done || lia); exact Ey|].
    apply wp_ret. destruct (Z.eqb_spec x y) as [->|Hne].
    + split; [|simpl; alin; lia]. split; [done|]. exists (k' - 1). simpl. split; [done|]. split; [lia|].
      split; [done|]. split; [lia|]. split; [lia|]. split; [lia|]. split; [lia|]. intros i Hi.
      destruct (Z.eq_dec i 0) as [->|Hi0]; [by rewrite !Z.add_0_r, Ex, Ey|].
      specialize (Hdq (i - 1) ltac:(lia)). replace (k' - 1 - d + i) with (k' - d + (i - 1)) by lia.
      by replace (k' - 1 + i) with (k' + (i - 1)) by lia.
    + split; [done|]. by exists k'.
  - apply wp_ret. split; [done|]. by exists k'.
Qed.

(** * The end of a match *)

Lemma wp_mid_fill_end c t e Q m :
  mframe m -> mid_ok c e -> hashes_below t (D + e) -> 4 <= e <= dlen -> 8 <= dlen ->
  (forall t', hashes_below t' (D + e) -> Q t' m) -> wp (mid_fill_end hp c t (addr e)) Q m.
Proof.
  intros Hf Hc Ht He H8 HQ. cenv. destruct (mid_window c e Hc) as (E1 & E2 & E3).
  unfold mid_fill_end. rewrite (mid_ipIndex_eq c e e) by (done || lia). rewrite E1, E2.
  change (h_iend hp) with (c_iend p). rewrite (iend_eq _ _ _ _ _ Henv Hpre). change LZ4MID_HASHSIZE with 8.
  assert (addr dlen - 8 - addr 0 = dlen - 8) as -> by (alin; lia).
  assert (addr e - addr 0 = e) as -> by (alin; lia).
  rewrite (u32_small (dlen - 8)), (u32_small (dlen - 8 + D)), (u32_small (D + e - 2)), (u32_small (D + e - 5)),
    (u32_small (D + e - 3)), (u32_small (D + e - 1)) by lia.
  cbn zeta. wif; [|by apply wp_ret, HQ].
  apply wp_bind. eapply (wp_mono _ (fun t' m' => m' = m /\ hashes_below t' (D + e))).
  { wif; [|by apply wp_ret]. replace (addr e - 5) with (addr (e - 5)) by (alin; lia).
    apply (wp_ADDPOS8 _ _ _ (D + e)); [done|lia|lia|done|lia|]. done. }
  intros t1 m' [-> Ht1]. replace (addr e - 3) with (addr (e - 3)) by (alin; lia).
  replace (addr e - 2) with (addr (e - 2)) by (alin; lia). replace (addr e - 1) with (addr (e - 1)) by (alin; lia).
  apply wp_bind, (wp_ADDPOS8 _ _ _ (D + e)); [done|lia|lia|done|lia|]. intros t2 Ht2.
  apply wp_bind, (wp_ADDPOS8 _ _ _ (D + e)); [done|lia|lia|done|lia|]. intros t3 Ht3.
  apply wp_bind, (wp_ADDPOS4 _ _ _ (D + e)); [done|lia|lia|done|lia|]. intros t4 Ht4.
  apply (wp_ADDPOS4 _ _ _ (D + e)); [done|lia|lia|done|lia|]. done.
Qed.

(** * The parser *)

Lemma wp_mid_last a done op x ctx Q m :
  seqs_inv a done op m -> hp_op x = op -> hp_anchor x = addr a -> hc_after ctx ->
  (forall r m', res_ok r m' -> Q r m') -> wp (mid_last hp x ctx) Q m.
Proof.
  intros HS Eo Ea Hok HQ. unfold mid_last. rewrite Eo, Ea. cbn [h_limit h_dst h_src]. apply wp_bind.
  eapply (wp_hc_last_literals _ _ _ _ _ Henv); [done|apply (h_oend_eq _ _ _ _ _ Henv)|].
  intros r m' Hr. apply wp_ret, HQ. split; [|by destruct r as [[ip' op']|]].
  destruct r as [[ip' op']|]; [exact Hr|]. destruct Hr as [Hf Hr]. split; [done|]. left.
  destruct Hr as [Hr|(b & _ & _ & _ & _ & _ & _ & Hz & _)]; [done|]. simpl in Hz.
  pose proof (enc_block_nonempty b) as Hne. symmetry in Hz. apply Z.eq_le_incl, zlen_0_nil in Hz. done.
Qed.

Definition mid_inv (c : hc_pos * LZ4HC_CCtx) (m : mem) : Prop :=
  exists a done k op, seqs_inv a done op m /\ c.1 = pos_at k op a /\ a <= k /\ mid_ok c.2 (Z.min k dlen).

(** The sequence of a match is encoded; [ctx] knows positions up to two bytes
    behind the position [ip] of the search. *)
Lemma wp_mid_encode a done op k ki o ctx m :
  seqs_inv a done op m -> a <= k <= dlen - 12 -> mm_ip o = addr k -> 4 <= mm_len o ->
  hmatch k (mm_dist o) (mm_len o) -> mid_ok ctx (ki + 3) -> ki + 4 <= k + mm_len o ->
  wp (e ← LZ4HC_encodeSequence (v_at (mm_ip o) (pos_at ki op a)) (mm_len o) (s32 (mm_dist o)) (c_out p) (h_oend' hp);
      if (e.1 : bool) then
        if bool_decide (c_out p = fillOutput) then
          x ← hc_dest_overflow (v_at (mm_ip o) (pos_at ki op a)) (mm_len o) (s32 (mm_dist o)) (h_oend' hp);
          r ← mid_last hp x ctx; mret (inr r)
        else mret (inr (mid_fail hp ctx))
      else
        t ← mid_fill_end hp ctx (hc_hashTable ctx) (hp_ip e.2);
        mret (inl (e.2, set_hashTable t ctx)))
    (fun r m' => match r with
       | inl c => mid_inv c m' /\ addr ki < hp_ip c.1
       | inr r => res_ok r m'
       end) m.
Proof.
  intros HS Hk Eo Hml HM Hc He. cenv. pose proof HS as (Ha & _). pose proof HM as (Hd & _ & Hle & _).
  unfold v_at. cbn [hp_op hp_anchor]. rewrite Eo, s32_small by (unfold int_min, int_max; lia).
  assert (c_out p <> notLimited -> h_oend' hp = if bool_decide (c_out p = fillOutput) then lim - 5 else lim) as Eoend.
  { intros Hne. unfold h_oend'. rewrite (h_oend_eq _ _ _ _ _ Henv) by done. done. }
  assert (hc_after ctx) as Hafter by (eapply mid_ok_after; [exact Hc|lia]).
  apply wp_bind. eapply (wp_encodeSequence _ _ _ _ _ Henv a done op k); [done|done|done|done| | | |].
  - intros Hor. eapply lits_checked; [exact Henv|done|done|exact Eoend|exact Hor].
  - intros Hor. eapply match_checked; [exact Henv|done|lia|done|done|exact Eoend|exact Hor].
  - intros x m' Hne Hor HS'. cbn [fst]. case_bool_decide as Ec.
    + apply wp_bind. rewrite Eoend by done. bd.
      eapply (wp_dest_overflow _ _ _ _ _ Henv a done op k); [done|done|done|done|done|].
      intros a' done' op' x' m2 HS2 E1 E2. apply wp_bind. eapply wp_mid_last; [exact HS2|done|done|done|].
      intros r m3 Hr. by apply wp_ret.
    + apply wp_ret. split; [|done]. split; [apply HS'|]. left. split; [done|].
      rewrite Eoend in Hor by done. split; [by destruct (c_out p)|].
      eapply check_fails; [exact Henv|exact HS|done|done|done|exact Hor].
  - intros m' HS'. cbn [fst snd hp_ip]. apply wp_bind.
    assert (mid_ok ctx (k + mm_len o)) as Hc' by (eapply mid_ok_mono; [exact Hc|lia]).
    apply wp_mid_fill_end; [apply HS'|done|apply Hc'|lia|lia|]. intros t' Ht'. apply wp_ret.
    split; [|simpl; alin; lia]. eexists _, _, (k + mm_len o), _. split; [exact HS'|]. split; [done|].
    split; [lia|]. rewrite Z.min_l by lia. by apply mid_ok_set.
Qed.

Lemma wp_mid_step c m :
  mid_inv c m ->
  wp (mid_step hp c) (fun r m' => match r with
    | inl c' => mid_inv c' m' /\ Z.max 0 (c_iend p - hp_ip c'.1) < Z.max 0 (c_iend p - hp_ip c.1)
    | inr r => res_ok r m'
    end) m.
Proof.
  destruct c as [x ctx]. intros (a & done & k & op & HS & Ex & Hk & Hc). cbn [fst snd] in *. subst x.
  pose proof HS as (Ha & _ & _ & _ & _ & _ & _ & Hf & _). unfold mid_step. cbn [hp_ip hp_anchor]. cenv.
  rewrite (h_mflimit_eq _ _ _ _ _ Henv Hpre), (iend_eq _ _ _ _ _ Henv Hpre).
  destruct (Z.ltb_spec (addr (dlen - 12)) (addr k)) as [Hl|Hl]; revert Hl; alin; intros Hl;
    rewrite <- !(addr_lin p hist Hpre).
  { apply wp_bind. eapply wp_mid_last; [exact HS|done|done| |].
    - eapply mid_ok_after; [exact Hc|lia].
    - intros r m' Hr. by apply wp_ret. }
  rewrite Z.min_l in Hc by lia. apply wp_bind.
  eapply wp_mono; [apply wp_mid_search; [done|exact Hc|lia]|]. intros [o ctx1] m' (-> & Hc1 & Ho). cbn [fst snd] in *.
  destruct o as [o|].
  2: { apply wp_ret. assert (addr k - addr a = k - a) as -> by (alin; lia).
       assert (0 <= Z.shiftr (k - a) 9) as Hs by (rewrite Z.shiftr_div_pow2 by lia; apply Z.div_pos; lia).
       split; [|simpl; alin; lia]. exists a, done, (k + (1 + Z.shiftr (k - a) 9)), op. cbn [fst snd]. split; [done|].
       split; [unfold v_at; simpl; f_equal; alin; lia|]. split; [lia|]. eapply mid_ok_mono; [exact Ho|lia]. }
  destruct Ho as (km & Eip & Hkm & Hml & HM & He). destruct (mid_window ctx1 _ Hc1) as (E1 & E2 & E3).
  rewrite (mid_ipIndex_eq ctx1 k (k + 2)) by (done || lia). rewrite E1.
  apply wp_bind. eapply wp_mono; [apply (wp_mid_catch_back a km); [done|lia|done|lia|done]|].
  intros o' m' (-> & k' & Eip' & Hk' & Ed & Eend & HM'). cbn beta. rewrite Eip'.
  replace (addr k' + 1) with (addr (k' + 1)) by (alin; lia). replace (addr k' + 2) with (addr (k' + 2)) by (alin; lia).
  rewrite (u32_small (D + k + 1)), (u32_small (D + k + 2)) by lia.
  pose proof Hc1 as (_ & Ht1 & _).
  apply wp_bind, (wp_ADDPOS8 _ _ _ (D + (k + 3))); [done|lia|lia|eapply hashes_below_mono; [exact Ht1|lia]|lia|]. intros t2 Ht2.
  apply wp_bind, (wp_ADDPOS8 _ _ _ (D + (k + 3))); [done|lia|lia|done|lia|]. intros t3 Ht3.
  apply wp_bind, (wp_ADDPOS4 _ _ _ (D + (k + 3))); [done|lia|lia|done|lia|]. intros t4 Ht4.
  rewrite <- Eip'. cbn [h_limit].
  eapply wp_mono; [apply (wp_mid_encode a done op k' k o' (set_hashTable t4 ctx1)); try done; try lia|].
  - apply mid_ok_set; [eapply mid_ok_mono; [exact Hc1|lia]|done].
  - intros [c'|r] m'; [|done]. intros [HI Hlt]. split; [done|]. cbn [fst]. revert Hlt. alin. lia.
Qed.

Lemma wp_mid_compress :
  mid_ok c0 hlen -> c_dest p <= lim ->
  wp (LZ4MID_compress c0 (c_source p) (c_dest p) (c_inputSize p) (c_maxOutputSize p) (c_out p) noDictCtx) res_ok m0.
Proof.
  intros Hok Hd. cenv. pose proof (hc_seqs_start _ _ _ _ _ Henv Hd) as HS. unfold LZ4MID_compress.
  pose proof (source_addr p hist Hpre) as Es. wif.
  - eapply wp_mid_last; [exact HS|done|done| |done]. eapply mid_ok_after; [exact Hok|lia].
  - apply (wp_loop mid_inv (fun c => Z.max 0 (c_iend p - hp_ip c.1))).
    + intros c m HI. split; [lia|]. eapply wp_mono; [by apply wp_mid_step|]. by intros [?|?] m'.
    + exists hlen, [], hlen, (c_dest p). cbn [fst snd]. split; [done|]. split; [by rewrite <- Es|]. split; [lia|].
      by rewrite Z.min_l by lia.
    + unfold c_iend. simpl. lia.
Qed.
End HcMid.
