(* ===== verification/Lz4HcOpt.v ===== *)
(** [LZ4HC_compress_optimal] within one segment of memory: whatever prices it
    computes, the path it selects consists of literals and of matches of the data,
    and its result is a conforming block for the input. *)
From S2P Require Import Prelude.
From S2P Require Import Mem.
From S2P Require Import BlockFormat.
From S2P Require Import Lz4Common.
From S2P Require Import Lz4CommonSpec.
From S2P Require Import Lz4Decompress.
From S2P Require Import Lz4Compress.
From S2P Require Import Lz4CompressGeneric.
From S2P Require Import Lz4CompressInv.
From S2P Require Import Lz4CompressSearch.
From S2P Require Import Lz4CompressEncode.
From S2P Require Import Lz4CompressProof.
From S2P Require Import Lz4CompressMatch.
From S2P Require Import Lz4Hc.
From S2P Require Import Lz4HcSearch.
From S2P Require Import Lz4HcChain.

(** * The array *)

Lemma wp_opt_get opt i o Q m : opt !! i = Some o -> Q o m -> wp (opt_get opt i) Q m.
Proof. intros E HQ. unfold opt_get. rewrite E. by apply wp_ret. Qed.

Lemma wp_opt_set opt i o Q m : 0 <= i < 4099 -> Q (<[i := o]> opt) m -> wp (opt_set opt i o) Q m.
Proof.
  intros Hi HQ. unfold opt_set. change (LZ4_OPT_NUM + TRAILING_LITERALS) with 4099.
  destruct (Z.leb_spec 0 i), (Z.ltb_spec i 4099); try lia. by apply wp_ret.
Qed.

Lemma wp_opt_for (P : Z -> opt_table -> Prop) from to body opt Q m :
  from <= to + 1 -> P from opt ->
  (forall i opt, from <= i <= to -> P i opt -> wp (body i opt) (fun opt' m' => m' = m /\ P (i + 1) opt') m) ->
  (forall opt', P (to + 1) opt' -> Q opt' m) -> wp (opt_for from to body opt) Q m.
Proof.
  intros Hft HP Hbody HQ. unfold opt_for.
  apply (wp_loop (fun q m' => m' = m /\ from <= q.1 <= to + 1 /\ P q.1 q.2) (fun q => to + 1 - q.1)).
  2: { split; [done|]. split; [simpl; lia|done]. }
  2: simpl; lia.
  intros [i o] m' (-> & Hi & HPi). cbn [fst snd] in *. split; [lia|]. wif.
  - apply wp_bind. eapply wp_mono; [apply Hbody; [lia|done]|]. intros o' m' [-> HP']. apply wp_ret.
    cbn [fst snd]. split; [|lia]. split; [done|]. split; [lia|done].
  - apply wp_ret, HQ. by replace (to + 1) with i by lia.
Qed.

Section HcOpt.
Context (p : cparams) (hist inp : list Z) (m0 : mem) (lim : Z).
Context (Henv : comp_env p hist inp m0 lim) (Hpre : c_maybe_extMem p = false).
Context (c0 : LZ4HC_CCtx) (Hc0 : window_ok p hist inp c0) (attempts : Z).

Abbreviation hlen := (hlen hist).
Abbreviation dlen := (dlen hist inp).
Abbreviation addr := (addr p hist).
Abbreviation mframe m := (frame (c_dest p) lim m0 m).
Abbreviation seqs_inv := (seqs_inv p hist inp m0 lim).
Abbreviation hmatch := (hmatch hist inp).
Abbreviation hc_ok := (hc_ok c0).
Abbreviation hc_after := (hc_after hist inp c0).
Abbreviation res_ok := (res_ok p hist inp m0 lim c0).
Abbreviation pos_at k op a := (HcPos (addr k) op (addr a)).
Abbreviation hp :=
  (HcParams (c_source p) (c_inputSize p) (c_dest p) (c_maxOutputSize p) (c_out p) noDictCtx attempts).

Ltac cenv :=
  pose proof (dlen_eq _ _ _ _ _ Henv) as Hdl; pose proof (hlen_nonneg hist) as Hhl;
  pose proof (ce_max _ _ _ _ _ Henv) as Hmx; change LZ4_MAX_INPUT_SIZE with 2113929216 in Hmx;
  change MINMATCH with 4 in *; change MFLIMIT with 12 in *; change LASTLITERALS with 5 in *;
  change LZ4_OPT_NUM with 4096 in *; change TRAILING_LITERALS with 3 in *.

Ltac alin := rewrite !(addr_lin p hist Hpre).

(** * The search *)

Lemma wp_FindLongerMatch c n k minLen fav Q m :
  mframe m -> hc_ok c n -> n <= k -> 0 <= k <= dlen - 12 -> 1 <= minLen -> k + minLen <= dlen - 5 ->
  (forall md c', hc_ok c' k ->
     md_len md = 0 \/ (4 <= md_len md /\ hmatch k (md_off md) (md_len md)) -> Q (md, c') m) ->
  wp (LZ4HC_FindLongerMatch c (addr k) (addr (dlen - 5)) minLen attempts noDictCtx fav) Q m.
Proof.
  intros Hf Hok Hn Hk Hmin Hle HQ. unfold LZ4HC_FindLongerMatch. apply wp_bind.
  apply (wp_GetWiderMatch _ _ _ _ _ Henv Hpre c0 Hc0 c n); try done; try lia.
  intros md c' Hok' Hb. cbn beta iota. wif; [apply wp_ret, HQ; [done|by left]|].
  destruct Hb as [(? & _)|(HL & Hs & H4 & HM)]; [lia|].
  assert (md_back md = 0) as Eb by lia. rewrite Eb in *. rewrite Z.add_0_r in HM.
  wif; apply wp_ret, HQ; try done; right; simpl.
  - apply andb_prop in E as [[_ E1%Z.ltb_lt]%andb_prop _]. split; [lia|]. eapply hmatch_shorter; [exact HM|lia].
  - split; [lia|done].
Qed.

(** * Entries *)

Section Path.
Context (k : Z) (Hk : 0 <= k).

(** A literal, or a match, at relative position [i]. *)
Definition seq_at (i mlen off : Z) : Prop :=
  0 <= i /\ (mlen = 1 \/ (4 <= mlen /\ hmatch (k + i) off mlen /\ k + i <= dlen - 12)).

(** The entry of position [i] is a literal or a match that ends there. *)
Definition entry_ok (i : Z) (o : LZ4HC_optimal_t) : Prop :=
  0 <= o_litlen o /\ ((i = 0 /\ o_mlen o = 1) \/ seq_at (i - o_mlen o) (o_mlen o) (o_off o)).

Definition opt_ok (n : Z) (opt : opt_table) : Prop :=
  forall i, 0 <= i <= n -> exists o, opt !! i = Some o /\ entry_ok i o.

Lemma opt_ok_mono n n' opt : opt_ok n opt -> n' <= n -> opt_ok n' opt.
Proof. intros H Hn i Hi. apply H. lia. Qed.

Lemma opt_ok_set n opt i o : opt_ok n opt -> entry_ok i o -> opt_ok n (<[i := o]> opt).
Proof.
  intros H He j Hj. destruct (decide (i = j)) as [->|Hne].
  - exists o. split; [by rewrite lookup_insert_eq|exact He].
  - rewrite lookup_insert_ne by done. by apply H.
Qed.

Lemma opt_ok_extend n opt i o : opt_ok n opt -> entry_ok i o -> i = n + 1 -> opt_ok i (<[i := o]> opt).
Proof.
  intros H He -> j Hj. destruct (decide (n + 1 = j)) as [<-|Hne].
  - exists o. split; [by rewrite lookup_insert_eq|exact He].
  - rewrite lookup_insert_ne by done. apply H. lia.
Qed.

Lemma literal_ok i price litlen : 0 <= i -> 0 <= litlen -> entry_ok i (HcOptimal price 0 1 litlen).
Proof.
  intros Hi Hl. split; [done|]. simpl. destruct (Z.eq_dec i 0) as [->|]; [by left|right].
  split; [lia|]. by left.
Qed.

Lemma match_ok i price off mlen litlen :
  4 <= mlen -> 0 <= i - mlen -> hmatch (k + (i - mlen)) off mlen -> k + (i - mlen) <= dlen - 12 -> 0 <= litlen ->
  entry_ok i (HcOptimal price off mlen litlen).
Proof. intros. split; [done|]. right. simpl. split; [done|]. by right. Qed.

(** * Filling the array *)

Lemma wp_opt_trailing last opt Q m :
  opt_ok last opt -> 0 <= last < 4096 ->
  (forall opt', opt_ok (last + 3) opt' -> Q opt' m) -> wp (opt_trailing last opt) Q m.
Proof.
  intros Ho Hl HQ. unfold opt_trailing. change TRAILING_LITERALS with 3.
  apply (wp_opt_for (fun i opt => opt_ok (last + i - 1) opt)).
  - lia.
  - by replace (last + 1 - 1) with last by lia.
  - intros i o Hi Hok. destruct (Hok last ltac:(lia)) as (e & Ee & _).
    apply wp_bind. eapply wp_opt_get; [exact Ee|]. apply wp_opt_set; [lia|]. split; [done|].
    replace (last + (i + 1) - 1) with (last + i) by lia. eapply opt_ok_extend; [exact Hok| |lia].
    apply literal_ok; lia.
  - intros opt' H'. apply HQ. by replace (last + 3) with (last + (3 + 1) - 1) by lia.
Qed.

Lemma wp_opt_first llen md opt Q m :
  0 <= llen -> 4 <= md_len md < 4096 -> hmatch k (md_off md) (md_len md) -> k <= dlen - 12 ->
  (forall opt', opt_ok (md_len md + 3) opt' -> Q opt' m) -> wp (opt_first llen md opt) Q m.
Proof.
  intros Hll Hml HM Hkl HQ. unfold opt_first. change MINMATCH with 4. apply wp_bind.
  apply (wp_opt_for (fun i opt => opt_ok (i - 1) opt)).
  - lia.
  - intros i Hi. lia.
  - intros i o Hi Hok. apply wp_opt_set; [lia|]. split; [done|]. replace (i + 1 - 1) with i by lia.
    eapply opt_ok_extend; [exact Hok|apply literal_ok; lia|lia].
  - intros opt1 H1. apply wp_bind. apply (wp_opt_for (fun i opt => opt_ok (i - 1) opt)).
    + lia.
    + done.
    + intros i o Hi Hok. apply wp_opt_set; [lia|]. split; [done|]. replace (i + 1 - 1) with i by lia.
      eapply opt_ok_extend; [exact Hok| |lia]. apply match_ok; try lia. rewrite Z.sub_diag, Z.add_0_r.
      eapply hmatch_shorter; [exact HM|lia].
    + intros opt2 H2. apply wp_opt_trailing; [|lia|done]. by replace (md_len md) with (md_len md + 1 - 1) by lia.
Qed.

Lemma wp_opt_literals cur last opt Q m :
  opt_ok (last + 3) opt -> 1 <= cur < last -> last < 4096 ->
  (forall opt', opt_ok (last + 3) opt' -> Q opt' m) -> wp (opt_literals cur opt) Q m.
Proof.
  intros Ho Hc Hl HQ. unfold opt_literals. destruct (Ho cur ltac:(lia)) as (e & Ee & Hlit & _).
  apply wp_bind. eapply wp_opt_get; [exact Ee|]. change MINMATCH with 4.
  apply (wp_opt_for (fun i opt => opt_ok (last + 3) opt)); [lia|done| |done].
  intros i o Hi Hok. destruct (Hok cur ltac:(lia)) as (e1 & E1 & _). apply wp_bind.
  eapply wp_opt_get; [exact E1|]. destruct (Hok (cur + i) ltac:(lia)) as (e2 & E2 & _). apply wp_bind.
  eapply wp_opt_get; [exact E2|]. wif; [|by apply wp_ret]. apply wp_opt_set; [lia|]. split; [done|].
  apply opt_ok_set; [done|]. apply literal_ok; lia.
Qed.

Lemma wp_opt_matches cur md fav last opt Q m :
  opt_ok (last + 3) opt -> 1 <= cur < last -> last < 4096 -> 4 <= md_len md -> cur + md_len md < 4096 ->
  hmatch (k + cur) (md_off md) (md_len md) -> k + cur <= dlen - 12 ->
  (forall last' opt', opt_ok last' opt' -> last' = last \/ (last' = cur + md_len md /\ last < last') ->
     Q (last', opt') m) ->
  wp (opt_matches cur md fav last opt) Q m.
Proof.
  intros Ho Hc Hl Hml Hcm HM Hkl HQ. unfold opt_matches. change MINMATCH with 4.
  apply (wp_loop (fun q m' => m' = m /\ 4 <= q.1.1 <= md_len md + 1 /\
      opt_ok (Z.max (last + 3) (cur + q.1.1 - 1)) q.2 /\
      (q.1.2 = last \/ (q.1.1 = md_len md + 1 /\ q.1.2 = cur + md_len md /\ last < q.1.2)))
    (fun q => md_len md + 1 - q.1.1)).
  2: { split; [done|]. cbn [fst snd]. split; [lia|]. rewrite Z.max_l by lia. auto. }
  2: simpl; lia.
  intros [[ml lastm] o] m' (-> & Hr & Hok & Hlast). cbn [fst snd] in *. split; [lia|]. wif.
  2: { apply wp_ret, HQ; [|lia]. eapply opt_ok_mono; [exact Hok|lia]. }
  assert (lastm = last) as -> by lia. destruct (Hok cur ltac:(lia)) as (e & Ee & Hlit & _).
  apply wp_bind. eapply wp_opt_get; [exact Ee|]. apply wp_bind.
  eapply (wp_mono _ (fun pl m' => m' = m /\ 0 <= pl.2)).
  { wif; [|by apply wp_ret]. apply wp_bind. wif.
    - destruct (Hok (cur - o_litlen e) ltac:(lia)) as (e2 & E2 & _). apply wp_bind.
      eapply wp_opt_get; [exact E2|]. do 2 apply wp_ret. done.
    - do 2 apply wp_ret. done. }
  intros [price ll] m' [-> Hll]. cbn [fst snd] in *. apply wp_bind.
  change TRAILING_LITERALS with 3.
  eapply (wp_mono _ (fun b m' => m' = m /\ (b = false -> cur + ml <= last + 3))).
  { wif; [by apply wp_ret|]. destruct (Hok (cur + ml) ltac:(lia)) as (e3 & E3 & _). apply wp_bind.
    eapply wp_opt_get; [exact E3|]. apply wp_ret. split; [done|]. intros _. lia. }
  intros b m' [-> Hb]. wif.
  - apply wp_bind, wp_opt_set; [lia|]. apply wp_ret. cbn [fst snd]. split; [|lia]. split; [done|]. split; [lia|].
    split.
    + assert (entry_ok (cur + ml) (HcOptimal price (md_off md) ml ll)) as He.
      { apply match_ok; try lia. replace (k + (cur + ml - ml)) with (k + cur) by lia.
        eapply hmatch_shorter; [exact HM|lia]. }
      destruct (Z.le_gt_cases (cur + ml) (last + 3)).
      * rewrite Z.max_l by lia. rewrite Z.max_l in Hok by lia. by apply opt_ok_set.
      * rewrite Z.max_r by lia. replace (cur + (ml + 1) - 1) with (cur + ml) by lia.
        eapply opt_ok_extend; [exact Hok|done|lia].
    + destruct (Z.eqb_spec ml (md_len md)), (Z.ltb_spec last (cur + ml)); cbn [andb]; (by left) || (right; lia).
  - apply wp_ret. cbn [fst snd]. split; [|lia]. split; [done|]. split; [lia|]. split; [|by left].
    specialize (Hb eq_refl). rewrite Z.max_l by lia. rewrite Z.max_l in Hok by lia. done.
Qed.

(** * Checking further positions *)

Context (suff : Z) (full fav : bool) (Hsuff : suff <= 4095).
Abbreviation op := (OptParams hp suff full fav).

Lemma wp_opt_skip opt cur last m :
  opt_ok (last + 3) opt -> 1 <= cur < last -> wp (opt_skip op opt cur) (fun _ m' => m' = m) m.
Proof.
  intros Ho Hc. unfold opt_skip. change MINMATCH with 4.
  destruct (Ho cur ltac:(lia)) as (e1 & E1 & _), (Ho (cur + 1) ltac:(lia)) as (e2 & E2 & _),
    (Ho (cur + 4) ltac:(lia)) as (e3 & E3 & _).
  apply wp_bind. eapply wp_opt_get; [exact E1|]. apply wp_bind. eapply wp_opt_get; [exact E2|].
  wif; [|by apply wp_ret]. wif; [|by apply wp_ret]. apply wp_bind. eapply wp_opt_get; [exact E3|]. by apply wp_ret.
Qed.

(** The last sequence of a path, and the array for what precedes it. *)
Definition enc_ok (e : oencode) : Prop :=
  0 <= oe_cur e < oe_last e /\ oe_last e <= oe_cur e + oe_mlen e /\ oe_cur e < 4096 /\
  seq_at (oe_cur e) (oe_mlen e) (oe_off e) /\ opt_ok (oe_cur e) (oe_opt e) /\
  k + (oe_cur e + oe_mlen e) <= dlen - 5 /\ hc_ok (oe_ctx e) (k + (oe_cur e + oe_mlen e)).

Definition ov_ok (v : ovars) : Prop :=
  1 <= ov_cur v <= ov_last v /\ ov_last v < 4096 /\ opt_ok (ov_last v + 3) (ov_opt v) /\
  k + ov_last v <= dlen - 5 /\ hc_ok (ov_ctx v) (k + ov_cur v - 1).

Lemma wp_opt_best last opt ctx m :
  1 <= last < 4096 -> opt_ok (last + 3) opt -> k + last <= dlen - 5 -> hc_ok ctx (k + last) ->
  wp (opt_best last opt ctx) (fun e m' => m' = m /\ enc_ok e) m.
Proof.
  intros Hl Ho Hle Hok. unfold opt_best. destruct (Ho last ltac:(lia)) as (o & Eo & _ & Hent).
  apply wp_bind. eapply wp_opt_get; [exact Eo|]. apply wp_ret. split; [done|].
  destruct Hent as [[? _]|Hs]; [lia|]. assert (1 <= o_mlen o) by (destruct Hs as [_ [?|[? _]]]; lia).
  pose proof Hs as [Hc _]. unfold enc_ok. simpl. replace (last - o_mlen o + o_mlen o) with last by lia.
  split; [lia|]. split; [lia|]. split; [lia|]. split; [done|]. split; [|done]. eapply opt_ok_mono; [exact Ho|lia].
Qed.

Lemma wp_opt_position v m :
  mframe m -> ov_ok v ->
  wp (opt_position op (addr k) v) (fun r m' => m' = m /\
    match r with inl v' => ov_ok v' /\ ov_cur v' = ov_cur v + 1 | inr e => enc_ok e end) m.
Proof.
  intros Hf (Hc & Hl & Ho & Hle & Hok). unfold opt_position. cenv. cbn [op_hc h_maxNbAttempts h_dict op_fullUpdate].
  rewrite (h_mflimit_eq _ _ _ _ _ Henv Hpre), (h_matchlimit_eq _ _ _ _ _ Henv Hpre).
  replace (addr k + ov_cur v) with (addr (k + ov_cur v)) by (alin; lia). cbn zeta. wif.
  { apply wp_bind. eapply wp_mono; [apply wp_opt_best; [lia|done|done|]|].
    - eapply hc_ok_mono; [exact Hok|lia].
    - intros e m' [-> He]. by apply wp_ret. }
  apply orb_false_iff in E as [Hlt%negb_false_iff%Z.ltb_lt Hmf%Z.ltb_ge]. revert Hmf. alin. intros Hmf.
  rewrite <- !(addr_lin p hist Hpre).
  assert (forall ctx, hc_ok ctx (k + ov_cur v) ->
    ov_ok (OVars (ov_cur v + 1) (ov_last v) (ov_opt v) ctx)) as Hnext.
  { intros ctx Hctx. split; [simpl; lia|]. simpl. split; [lia|]. split; [done|]. split; [done|].
    by replace (k + (ov_cur v + 1) - 1) with (k + ov_cur v) by lia. }
  apply wp_bind. eapply wp_mono; [apply (wp_opt_skip _ _ (ov_last v)); [done|lia]|]. intros skip m' ->. wif.
  { apply wp_ret. split; [done|]. split; [|done]. apply Hnext. eapply hc_ok_mono; [exact Hok|lia]. }
  apply wp_bind. apply (wp_FindLongerMatch _ (k + ov_cur v - 1)); [done|done|lia|lia| | |].
  { destruct full; lia. } { destruct full; lia. }
  intros md ctx Hctx Hmd. cbn beta iota. wif.
  { apply wp_ret. split; [done|]. split; [|done]. by apply Hnext. }
  destruct Hmd as [?|[Hml HM]]; [lia|]. pose proof HM as (_ & _ & Hle2 & _). cbn [op_sufficient_len op_favorDecSpeed].
  wif.
  { apply wp_ret. split; [done|]. split; [simpl; lia|]. simpl. split; [lia|]. split; [lia|].
    split; [split; [lia|]; right; split; [lia|]; split; [done|lia]|].
    split; [eapply opt_ok_mono; [exact Ho|lia]|]. split; [lia|]. eapply hc_ok_mono; [exact Hctx|lia]. }
  apply orb_false_iff in E0 as [Hgt2%Z.ltb_ge Hlt2%Z.leb_gt].
  apply wp_bind, (wp_opt_literals _ (ov_last v)); [done|lia|lia|]. intros opt1 Ho1.
  apply wp_bind, wp_opt_matches; [done|lia|lia|lia|lia|done|lia|]. intros last' opt2 Ho2 Hlast'.
  apply wp_bind. cbn [fst snd]. apply wp_opt_trailing; [done|lia|]. intros opt3 Ho3. apply wp_ret. split; [done|].
  split; [|done]. split; [simpl; lia|]. simpl. split; [lia|]. split; [done|]. split; [lia|].
  by replace (k + (ov_cur v + 1) - 1) with (k + ov_cur v) by lia.
Qed.

(** * The path *)

(** From position [r] on, the array describes literals and matches up to [E], the
    first position that is not before [last]. *)
Inductive path (opt : opt_table) (last E : Z) : Z -> Prop :=
| path_end : last <= E -> path opt last E E
| path_step r o : r < last -> opt !! r = Some o -> seq_at r (o_mlen o) (o_off o) ->
    path opt last E (r + o_mlen o) -> path opt last E r.

Lemma seq_at_len r ml off : seq_at r ml off -> 1 <= ml.
Proof. intros [_ [?|[? _]]]; lia. Qed.

Lemma path_le opt last E r : path opt last E r -> r <= E.
Proof. induction 1 as [|r o ? ? Hs ? IH]; [lia|]. apply seq_at_len in Hs. lia. Qed.

Lemma path_set opt last E r i o : path opt last E r -> i < r -> path (<[i := o]> opt) last E r.
Proof.
  induction 1 as [?|r o' Hr Eo Hs HP IH]; intros Hi; [by constructor|].
  apply seq_at_len in Hs as Hl. eapply path_step; [done| |exact Hs|apply IH; lia].
  by rewrite lookup_insert_ne by lia.
Qed.

Lemma opt_ok_above n opt i o : opt_ok n opt -> n < i -> opt_ok n (<[i := o]> opt).
Proof. intros H Hi j Hj. rewrite lookup_insert_ne by lia. by apply H. Qed.

Lemma wp_opt_reverse e m :
  enc_ok e -> wp (opt_reverse e) (fun opt m' => m' = m /\ path opt (oe_last e) (oe_cur e + oe_mlen e) 0) m.
Proof.
  intros (Hc & Hle & Hn & Hs & Ho & _). unfold opt_reverse. set (E := oe_cur e + oe_mlen e) in *.
  apply (wp_loop (fun q m' => m' = m /\ let '(cand, mlen, off, opt) := q in
      0 <= cand <= oe_cur e /\ seq_at cand mlen off /\ opt_ok cand opt /\ path opt (oe_last e) E (cand + mlen))
    (fun q => q.1.1.1)).
  2: { split; [done|]. split; [lia|]. split; [done|]. split; [done|]. by constructor. }
  2: simpl; lia.
  intros [[[cand mlen] off] opt] m' (-> & Hcand & Hseq & Hok & HP). cbn [fst]. split; [lia|].
  destruct (Hok cand ltac:(lia)) as (o & Eo & _ & Hent). apply wp_bind. eapply wp_opt_get; [exact Eo|].
  apply wp_bind, wp_opt_set; [lia|]. apply seq_at_len in Hseq as Hl1.
  assert (path (<[cand := HcOptimal (o_price o) off mlen (o_litlen o)]> opt) (oe_last e) E cand) as HP'.
  { eapply path_step; [lia|by rewrite lookup_insert_eq|done|]. simpl. apply path_set; [done|lia]. }
  wif; apply wp_ret.
  - split; [done|]. destruct Hent as [[-> _]|Hs']; [done|]. destruct Hs'. lia.
  - destruct Hent as [[-> ?]|Hs']; [lia|]. apply seq_at_len in Hs' as Hl2. pose proof Hs' as [Hge _].
    split; [|simpl; lia]. split; [done|]. split; [lia|]. split; [done|].
    replace (cand - o_mlen o + o_mlen o) with cand by lia. split; [|done].
    apply opt_ok_above; [|lia]. eapply opt_ok_mono; [exact Hok|lia].
Qed.

Lemma wp_opt_encode a done o_p last E opt ctx m :
  seqs_inv a done o_p m -> a <= k -> path opt last E 0 -> k + E <= dlen - 5 -> 0 <= last -> hc_after ctx ->
  wp (opt_encode hp last opt ctx (pos_at k o_p a)) (fun r m' =>
    match r with
    | inl x => exists a' done' op', seqs_inv a' done' op' m' /\ x = pos_at (k + E) op' a' /\ a' <= k + E
    | inr r => res_ok r m'
    end) m.
Proof.
  intros HS Ha HP HE Hl Hctx. unfold opt_encode. cenv. apply wp_bind.
  apply (wp_loop (fun q m' => exists a' done' op', seqs_inv a' done' op' m' /\ q.2 = pos_at (k + q.1) op' a' /\
      a' <= k + q.1 /\ path opt last E q.1) (fun q => Z.max 0 (last - q.1))).
  2: { exists a, done, o_p. cbn [fst snd]. rewrite Z.add_0_r. done. }
  2: simpl; lia.
  intros [r x] m' (a' & done' & op' & HS' & Ex & Ha' & HPr). cbn [fst snd] in *. subst x. split; [lia|].
  pose proof HS' as (Hrange & _). wif.
  2: { do 2 apply wp_ret. inversion HPr; subst; [|lia]. by exists a', done', op'. }
  inversion HPr as [|r' o Hr Eo Hs HPn]; subst; [lia|]. apply seq_at_len in Hs as Hl1. pose proof (path_le _ _ _ _ HPn).
  apply wp_bind. eapply wp_opt_get; [exact Eo|]. cbn beta iota. wif.
  - apply wp_ret. split; [|simpl; lia]. exists a', done', op'. cbn [fst snd]. split; [done|].
    split; [unfold v_at; simpl; f_equal; alin; lia|]. split; [lia|]. by rewrite <- e.
  - destruct Hs as [Hr0 [?|(Hml & HM & Hst)]]; [done|]. apply wp_bind.
    eapply (wp_hc_encode _ _ _ _ _ Henv c0 attempts a' done' op' (k + r)); [done|lia|done|done|done| |].
    + intros done2 op2 m2 HS2. cbn [md_len] in *. do 2 apply wp_ret. split; [|simpl; lia].
      exists (k + r + o_mlen o), done2, op2. cbn [fst snd v_pos]. split; [done|].
      split; [by replace (k + (r + o_mlen o)) with (k + r + o_mlen o) by lia|]. split; [lia|done].
    + intros r' m2 Hr'. do 2 apply wp_ret. done.
Qed.
End Path.

(** * The parser *)

Section Optimal.
Context (suff : Z) (full fav : bool) (Hsuff : suff <= 4095).
Abbreviation op := (OptParams hp suff full fav).

Definition opt_inv (c : hc_pos * opt_table * LZ4HC_CCtx) (m : mem) : Prop :=
  exists a done k o_p, seqs_inv a done o_p m /\ c.1.1 = pos_at k o_p a /\ a <= k <= dlen /\ hc_ok c.2 k.

Lemma wp_opt_step c m :
  opt_inv c m ->
  wp (opt_step op c) (fun r m' => match r with
    | inl c' => opt_inv c' m' /\ hp_ip c.1.1 < hp_ip c'.1.1
    | inr r => res_ok r m'
    end) m.
Proof.
  destruct c as [[x opt] ctx]. intros (a & done & k & o_p & HS & Ex & Hk & Hok). cbn [fst snd] in *. subst x.
  pose proof HS as (Ha & _ & _ & _ & _ & _ & _ & Hf & _). unfold opt_step. cbn [hp_ip hp_anchor]. cenv.
  cbn [op_hc h_maxNbAttempts h_dict op_sufficient_len op_favorDecSpeed].
  rewrite (h_mflimit_eq _ _ _ _ _ Henv Hpre), (h_matchlimit_eq _ _ _ _ _ Henv Hpre).
  destruct (Z.ltb_spec (addr (dlen - 12)) (addr k)) as [Hl|Hl]; revert Hl; alin; intros Hl;
    rewrite <- !(addr_lin p hist Hpre).
  { apply wp_bind. eapply (wp_hc_last _ _ _ _ _ Henv); [exact HS|done|done| |].
    - eapply hc_ok_after; [exact Hok|lia].
    - intros r m' Hr. by apply wp_ret. }
  apply wp_bind. apply (wp_FindLongerMatch _ k); [done|done|lia|lia|lia|lia|]. intros md ctx1 Hok1 Hmd.
  cbn beta iota. wif.
  { apply wp_ret. split; [|simpl; lia]. exists a, done, (k + 1), o_p. cbn [fst snd]. split; [done|].
    split; [unfold v_at; simpl; f_equal; alin; lia|]. split; [lia|]. eapply hc_ok_mono; [exact Hok1|lia]. }
  destruct Hmd as [?|[Hml HM]]; [lia|]. pose proof HM as (_ & _ & Hle & _). wif.
  { apply wp_bind. eapply (wp_hc_encode _ _ _ _ _ Henv c0 attempts a done o_p k); [done|lia|done|done| | |].
    - eapply hc_ok_after; [exact Hok1|lia].
    - intros done2 op2 m2 HS2. do 2 apply wp_ret. split; [|simpl; alin; lia].
      exists (k + md_len md), done2, (k + md_len md), op2. cbn [fst snd v_pos v_ctx]. split; [done|]. split; [done|].
      split; [lia|]. eapply hc_ok_mono; [exact Hok1|lia].
    - intros r m2 Hr. by apply wp_ret. }
  assert (addr k - addr a = k - a) as -> by (alin; lia).
  apply wp_bind. apply (wp_opt_first k); [lia|lia|done|lia|]. intros opt1 Ho1.
  apply wp_bind. eapply (wp_mono _ (fun e m' => m' = m /\ enc_ok k e)).
  { apply (wp_loop (fun v m' => m' = m /\ ov_ok k v) (fun v => 4096 - ov_cur v)).
    - intros v m' [-> Hv]. pose proof Hv as (? & ? & _). split; [lia|].
      eapply wp_mono; [apply (wp_opt_position k ltac:(lia) suff full fav); done|].
      intros [v'|e] m' [-> Hr]; [|done]. destruct Hr. split; [done|lia].
    - split; [done|]. split; [simpl; lia|]. simpl. split; [lia|]. split; [done|]. split; [lia|].
      by replace (k + 1 - 1) with k by lia.
    - simpl. lia. }
  intros e m' [-> He]. pose proof He as (Hc & Hle2 & _ & Hseq & _ & HE & Hoke).
  apply wp_bind. eapply wp_mono; [apply (wp_opt_reverse k); done|]. intros opt2 m' [-> HP].
  apply wp_bind. eapply wp_mono.
  { eapply (wp_opt_encode k a done o_p); [done|lia|exact HP|exact HE|lia|]. eapply hc_ok_after; [exact Hoke|lia]. }
  intros [x'|r] m' Hr; apply wp_ret; [|done]. destruct Hr as (a' & done' & op' & HS' & -> & Ha').
  split; [|simpl; alin; lia]. pose proof HS' as (Hr' & _).
  exists a', done', (k + (oe_cur e + oe_mlen e)), op'. cbn [fst snd]. split; [done|]. split; [done|]. split; [lia|done].
Qed.
End Optimal.

Lemma wp_optimal sufficient_len full fav :
  hc_ok c0 hlen -> c_dest p <= lim ->
  wp (LZ4HC_compress_optimal true c0 (c_source p) (c_dest p) (c_inputSize p) (c_maxOutputSize p) attempts sufficient_len
        (c_out p) full noDictCtx fav) res_ok m0.
Proof.
  intros Hok Hd. cenv. pose proof (hc_seqs_start _ _ _ _ _ Henv Hd) as HS. unfold LZ4HC_compress_optimal. cbn [negb].
  change LZ4_OPT_NUM with 4096. set (suff := if 4096 <=? sufficient_len then 4096 - 1 else sufficient_len).
  assert (suff <= 4095) as Hs by (subst suff; zcase; lia). cbn zeta.
  pose proof (source_addr p hist Hpre) as Es.
  apply (wp_loop opt_inv (fun c => Z.max 0 (c_iend p - hp_ip c.1.1 + 1))).
  - intros c m HI. split; [lia|]. eapply wp_mono; [by apply wp_opt_step|]. intros [c'|r] m'; [|done].
    intros [HI' Hlt]. split; [done|]. destruct HI as (a & done & k & o_p & _ & E & Hk & _).
    destruct HI' as (a' & done' & k' & o_p' & _ & E' & Hk' & _).
    rewrite E, E' in *. cbn [hp_ip] in *. rewrite (iend_eq _ _ _ _ _ Henv Hpre). revert Hlt. alin. lia.
  - exists hlen, [], hlen, (c_dest p). cbn [fst snd]. split; [done|]. split; [by rewrite <- Es|]. split; [lia|done].
  - unfold c_iend. simpl. lia.
Qed.
End HcOpt.
