(* ===== verification/Lz4StreamCompress.v ===== *)
(** lib/lz4.c, "Streaming functions": compression of a sequence of blocks that
    refer to earlier ones, and dictionaries. *)
From S2P Require Import Prelude.
From S2P Require Import Mem.
From S2P Require Import Lz4Common.
From S2P Require Import Lz4Decompress.
From S2P Require Import Lz4Compress.
From S2P Require Import Lz4CompressGeneric.

(** * Life cycle *)

(** [allocated] is the outcome of [ALLOC]; [None] is the null pointer. *)
Definition LZ4_createStream (allocated : bool) : option LZ4_stream_t :=
  if allocated then Some LZ4_initStream else None.

Definition LZ4_resetStream (s : LZ4_stream_t) : LZ4_stream_t := LZ4_initStream.

Definition LZ4_resetStream_fast (ctx : LZ4_stream_t) : LZ4_stream_t := LZ4_prepareTable ctx 0 byU32.

(** The state with another dictionary. *)
Definition with_dict (s : LZ4_stream_t) (dict size : Z) : LZ4_stream_t :=
  Stream (hashTable s) dict (dictCtx s) (currentOffset s) (tableType s) size.

(** * Loading a dictionary *)

Inductive LoadDict_mode_e := ld_fast | ld_slow.

Definition HASH_UNIT : Z := STEPSIZE.

(** One iteration of the loop that hashes every third position. *)
Definition load_fast_step (dictEnd : Z) (q : Z * Z * table) : M (Z * Z * table + table) :=
  let '(p, idx32, t) := q in
  if p <=? dictEnd - HASH_UNIT then
    h ← LZ4_hashPosition p byU32;
    t ← LZ4_putIndexOnHash idx32 h t byU32;
    mret (inl (p + 3, u32 (idx32 + 3), t))
  else mret (inr t).

(** One iteration of the loop that fills the gaps. *)
Definition load_slow_step (dictEnd limit : Z) (q : Z * Z * table) : M (Z * Z * table + table) :=
  let '(p, idx32, t) := q in
  if p <=? dictEnd - HASH_UNIT then
    h ← LZ4_hashPosition p byU32;
    e ← LZ4_getIndexOnHash h t byU32;
    t ← (if e <=? limit then LZ4_putIndexOnHash idx32 h t byU32 else mret t);
    mret (inl (p + 1, u32 (idx32 + 1), t))
  else mret (inr t).

Definition load_fuel (p dictEnd : Z) : nat := S (Z.to_nat (dictEnd - p)).

Definition LZ4_loadDict_internal (LZ4_dict : LZ4_stream_t) (dictionary dictSize : Z)
    (ld : LoadDict_mode_e) : M (Z * LZ4_stream_t) :=
  let p := dictionary in
  let dictEnd := p + dictSize in
  let dict := LZ4_resetStream LZ4_dict in
  let offset := u32 (currentOffset dict + 64 * KB) in
  let dict := Stream (hashTable dict) (Lz4Compress.dictionary dict) (dictCtx dict) offset
                (tableType dict) (Lz4Compress.dictSize dict) in
  if dictSize <? HASH_UNIT then mret (0, dict) else
  let p := if 64 * KB <? dictEnd - p then dictEnd - 64 * KB else p in
  let size := u32 (dictEnd - p) in
  let idx32 := u32 (offset - size) in
  t ← loop (load_fuel p dictEnd) (load_fast_step dictEnd) (p, idx32, hashTable dict);
  t ← match ld with
      | ld_fast => mret t
      | ld_slow => loop (load_fuel p dictEnd) (load_slow_step dictEnd (u32 (offset - 64 * KB)))
                     (p, idx32, t)
      end;
  mret (s32 size, Stream t p (dictCtx dict) offset byU32 size).

Definition LZ4_loadDict (LZ4_dict : LZ4_stream_t) (dictionary dictSize : Z) : M (Z * LZ4_stream_t) :=
  LZ4_loadDict_internal LZ4_dict dictionary dictSize ld_fast.

Definition LZ4_loadDictSlow (LZ4_dict : LZ4_stream_t) (dictionary dictSize : Z) :
    M (Z * LZ4_stream_t) :=
  LZ4_loadDict_internal LZ4_dict dictionary dictSize ld_slow.

(** The dictionary state is read-only while it is attached: the pointer to it
    stands for its value. *)
Definition LZ4_attach_dictionary (workingStream : LZ4_stream_t)
    (dictionaryStream : option LZ4_stream_t) : LZ4_stream_t :=
  let s := workingStream in
  match dictionaryStream with
  | None => Stream (hashTable s) (dictionary s) None (currentOffset s) (tableType s) (dictSize s)
  | Some d =>
      Stream (hashTable s) (dictionary s) (if dictSize d =? 0 then None else Some d)
        (if currentOffset s =? 0 then 64 * KB else currentOffset s) (tableType s) (dictSize s)
  end.

(** * Compressing the next block *)

(** The rescaling of one entry. *)
Definition renorm_entry (delta : Z) (t : table) (i : Z) : table :=
  if word t i <? delta then <[i := 0]> t else <[i := u32 (word t i - delta)]> t.

Definition LZ4_renormDictT (LZ4_dict : LZ4_stream_t) (nextSize : Z) : LZ4_stream_t :=
  let s := LZ4_dict in
  if 0x80000000 <? u32 (currentOffset s + u32 nextSize) then
    let delta := u32 (currentOffset s - 64 * KB) in
    let dictEnd := dictionary s + dictSize s in
    let t := foldl (renorm_entry delta) (hashTable s) (seqZ 0 LZ4_HASH_SIZE_U32) in
    let size := if 64 * KB <? dictSize s then 64 * KB else dictSize s in
    Stream t (dictEnd - size) (dictCtx s) (64 * KB) (tableType s) size
  else s.

(** A dictionary too small for a hash is forgotten. *)
Definition drop_tiny (s : LZ4_stream_t) (source inputSize dictEnd : Z) : LZ4_stream_t * Z :=
  if (dictSize s <? 4) && negb (dictEnd =? source) && (0 <? inputSize)
     && (match dictCtx s with None => true | Some _ => false end)
  then (with_dict s source 0, source) else (s, dictEnd).

(** The part of the dictionary that the input overwrites is forgotten. *)
Definition drop_overlap (s : LZ4_stream_t) (source inputSize dictEnd : Z) : LZ4_stream_t :=
  let sourceEnd := source + inputSize in
  if (dictionary s <? sourceEnd) && (sourceEnd <? dictEnd) then
    let size := u32 (dictEnd - sourceEnd) in
    let size := if 64 * KB <? size then 64 * KB else size in
    let size := if size <? 4 then 0 else size in
    with_dict s (dictEnd - size) size
  else s.

(** Whether indexes may point in front of the dictionary. *)
Definition dict_issue (s : LZ4_stream_t) : dictIssue_directive :=
  if (dictSize s <? 64 * KB) && (dictSize s <? currentOffset s) then dictSmall else noDictIssue.

Definition LZ4_compress_fast_continue (LZ4_stream : LZ4_stream_t)
    (source dest inputSize maxOutputSize acceleration : Z) : M (Z * LZ4_stream_t) :=
  let s := LZ4_stream in
  let dictEnd := if dictSize s =? 0 then NULL else dictionary s + dictSize s in
  let s := LZ4_renormDictT s inputSize in
  let acceleration := clamp_acceleration acceleration in
  let '(s, dictEnd) := drop_tiny s source inputSize dictEnd in
  let s := drop_overlap s source inputSize dictEnd in
  if dictEnd =? source then
    r ← LZ4_compress_generic s source dest inputSize maxOutputSize limitedOutput byU32
          withPrefix64k (dict_issue s) acceleration;
    mret (r.1.1, r.2)
  else
    r ← (match dictCtx s with
         | Some d =>
             if 4 * KB <? inputSize
             then LZ4_compress_generic d source dest inputSize maxOutputSize limitedOutput byU32
                    usingExtDict noDictIssue acceleration
             else LZ4_compress_generic s source dest inputSize maxOutputSize limitedOutput byU32
                    usingDictCtx noDictIssue acceleration
         | None => LZ4_compress_generic s source dest inputSize maxOutputSize limitedOutput byU32
                     usingExtDict (dict_issue s) acceleration
         end);
    mret (r.1.1, with_dict r.2 source (u32 inputSize)).

Definition LZ4_compress_forceExtDict (LZ4_dict : LZ4_stream_t) (source dest srcSize : Z) :
    M (Z * LZ4_stream_t) :=
  let s := LZ4_renormDictT LZ4_dict srcSize in
  r ← LZ4_compress_generic s source dest srcSize 0 notLimited byU32 usingExtDict (dict_issue s) 1;
  mret (r.1.1, with_dict r.2 source (u32 srcSize)).

(** * Saving the dictionary *)

Definition LZ4_saveDict (LZ4_dict : LZ4_stream_t) (safeBuffer dictSize : Z) : M (Z * LZ4_stream_t) :=
  let s := LZ4_dict in
  let size := if 64 * KB <? u32 dictSize then 64 * KB else dictSize in
  let size := if Lz4Compress.dictSize s <? u32 size then s32 (Lz4Compress.dictSize s) else size in
  (if 0 <? size then
     let previousDictEnd := dictionary s + Lz4Compress.dictSize s in
     memmove safeBuffer (previousDictEnd - size) size
   else mret tt);;
  mret (size, with_dict s safeBuffer (u32 size)).

(** * Obsolete names *)

Definition LZ4_compress_limitedOutput_continue (s : LZ4_stream_t)
    (src dst srcSize dstCapacity : Z) : M (Z * LZ4_stream_t) :=
  LZ4_compress_fast_continue s src dst srcSize dstCapacity 1.

Definition LZ4_compress_continue (s : LZ4_stream_t) (source dest inputSize : Z) :
    M (Z * LZ4_stream_t) :=
  LZ4_compress_fast_continue s source dest inputSize (LZ4_compressBound inputSize) 1.

Definition LZ4_uncompress_unknownOutputSize (source dest isize maxOutputSize : Z) : M Z :=
  LZ4_decompress_safe source dest isize maxOutputSize.

Definition LZ4_resetStreamState (state : LZ4_stream_t) : Z * LZ4_stream_t := (0, LZ4_resetStream state).

Definition LZ4_create (allocated : bool) (inputBuffer : Z) : option LZ4_stream_t := LZ4_createStream allocated.

Definition LZ4_slideInputBuffer (state : LZ4_stream_t) : Z := dictionary state.
