(* ===== verification/Lz4StreamCompressSpec.v ===== *)
(** The streaming compressor: its state remembers a history that is still in
    memory, and the entries of its hash table stay within it. *)
From S2P Require Import Prelude.
From S2P Require Import Mem.
From S2P Require Import BlockFormat.
From S2P Require Import Lz4Common.
From S2P Require Import Lz4Decompress.
From S2P Require Import Lz4DecodeSpec.
From S2P Require Import Lz4Compress.
From S2P Require Import Lz4CompressGeneric.
From S2P Require Import Lz4CompressInv.
From S2P Require Import Lz4CompressSearch.
From S2P Require Import Lz4CompressEncode.
From S2P Require Import Lz4CompressProof.
From S2P Require Import Lz4CompressRun.
From S2P Require Import Lz4CompressSpec.
From S2P Require Import Lz4StreamCompress.

(** * Suffixes *)

(** The last [z] elements. *)
Definition last_n (z : Z) (l : list Z) : list Z := drop (length l - Z.to_nat z) l.

Lemma last_n_split z l : exists pre, l = pre ++ last_n z l.
Proof. exists (take (length l - Z.to_nat z) l). unfold last_n. by rewrite take_drop. Qed.

Lemma last_n_zlen z l : 0 <= z <= zlen l -> zlen (last_n z l) = z.
Proof. intros Hz. unfold last_n, zlen in *. rewrite length_drop. lia. Qed.

Lemma last_n_holds m e z l :
  0 <= z <= zlen l -> holds m (e - zlen l) l -> holds m (e - z) (last_n z l).
Proof.
  intros Hz Hh. destruct (last_n_split z l) as [pre E]. pose proof (last_n_zlen z l Hz) as Hl.
  rewrite E in Hh at 2. apply holds_app in Hh as [_ Hh].
  assert (zlen l = zlen pre + z) as Hzl by (rewrite E at 1; rewrite zlen_app; lia).
  by replace (e - zlen l + zlen pre) with (e - z) in Hh by lia.
Qed.

Lemma last_n_bytes z l : bytes_ok l -> bytes_ok (last_n z l).
Proof. intros H. by apply Forall_drop. Qed.

Lemma encodes_older x hist inp enc : encodes hist inp enc -> encodes (x ++ hist) inp enc.
Proof.
  intros (b & E & Hc & Ho & Hn & Hx). exists b. do 4 (split; [done|]).
  apply expand_older; [by apply Hc|done].
Qed.

(** * The state *)

(** Entries are positions at least 4 bytes before the offset. *)
Definition table_ok (t : table) (off : Z) : Prop :=
  table_wf t /\
  forall h, in_table byU32 h = true -> entry t byU32 h = 0 \/ entry t byU32 h + 4 <= off.

(** A state that remembers [hist]. *)
Definition cs_inv (s : LZ4_stream_t) (hist : list Z) : Prop :=
  table_ok (hashTable s) (currentOffset s) /\ dictCtx s = None /\ dictSize s = zlen hist /\
  zlen hist <= currentOffset s <= 2 ^ 31 /\ (hist <> [] -> 0 < dictionary s) /\ bytes_ok hist.

Lemma cs_init : cs_inv LZ4_initStream [].
Proof.
  split; [split; [apply table_wf_empty|intros h _; left; apply entry_empty]|].
  split; [done|]. split; [done|]. split; [change (zlen (@nil Z)) with 0; simpl; lia|].
  split; [done|constructor].
Qed.

(** A state that compressed a block can be used for one-shot compression. *)
Lemma cs_wf s hist : cs_inv s hist -> tableType s = byU32 -> stream_wf s.
Proof.
  intros ([Hw He] & _ & _ & Ho & _) Et. zlen_facts. unfold stream_wf. rewrite Et.
  split; [done|]. split; [lia|]. split; [done|exact He].
Qed.

(** * Renormalisation *)

Lemma renorm_words delta l : forall t i, NoDup l ->
  word (foldl (renorm_entry delta) t l) i =
    if decide (i ∈ l) then (if word t i <? delta then 0 else u32 (word t i - delta)) else word t i.
Proof.
  induction l as [|x l IH]; intros t i Hnd; cbn [foldl].
  - destruct (decide (i ∈ [])) as [H|H]; [by apply elem_of_nil in H|done].
  - inversion_clear Hnd as [|? ? Hx Hnd']. rewrite IH by done. unfold renorm_entry.
    assert (forall v, word (if word t x <? delta then <[x:=0]> t else <[x:=v]> t) i =
      if decide (x = i) then (if word t x <? delta then 0 else v) else word t i) as Hw.
    { intros v. by destruct (word t x <? delta); rewrite word_insert. }
    rewrite Hw. destruct (decide (x = i)) as [->|Hne].
    + rewrite decide_False by done. rewrite decide_True by (apply elem_of_cons; by left). done.
    + destruct (decide (i ∈ l)) as [Hi|Hi].
      * rewrite decide_True by (apply elem_of_cons; by right). done.
      * rewrite decide_False; [done|]. intros [?|?]%elem_of_cons; [congruence|done].
Qed.

Lemma renorm_table t off : 
  table_ok t off -> 64 * KB <= off < 2 ^ 32 ->
  table_ok (foldl (renorm_entry (u32 (off - 64 * KB))) t (seqZ 0 LZ4_HASH_SIZE_U32)) (64 * KB).
Proof.
  intros [Hw He] Ho. change (64 * KB) with 65536 in *. rewrite u32_small by lia.
  assert (NoDup (seqZ 0 LZ4_HASH_SIZE_U32)) as Hnd by apply NoDup_seqZ.
  split.
  - intros i. rewrite renorm_words by done. specialize (Hw i). case_decide; [|done].
    destruct (Z.ltb_spec (word t i) (off - 65536)); [lia|]. apply u32_range.
  - intros h Hh. specialize (He h Hh). unfold entry in *. rewrite renorm_words by done.
    rewrite decide_True by (apply elem_of_seqZ; apply in_table_spec in Hh; exact Hh).
    specialize (Hw h). destruct (Z.ltb_spec (word t h) (off - 65536)); [by left|].
    rewrite u32_small by lia. lia.
Qed.

(** The state can take the next [n] bytes without overflow of an index. *)
Lemma renorm_ok s n :
  table_ok (hashTable s) (currentOffset s) -> 0 <= dictSize s <= currentOffset s ->
  currentOffset s <= 2 ^ 31 -> 0 <= n <= LZ4_MAX_INPUT_SIZE ->
  let s' := LZ4_renormDictT s n in
  table_ok (hashTable s') (currentOffset s') /\ dictCtx s' = dictCtx s /\
  (currentOffset s' = currentOffset s \/ currentOffset s' = 64 * KB) /\
  (dictSize s' = dictSize s \/ 64 * KB = dictSize s') /\ 0 <= dictSize s' <= dictSize s /\
  dictionary s' = dictionary s + dictSize s - dictSize s' /\
  dictSize s' <= currentOffset s' /\ currentOffset s' + n <= 2 ^ 31.
Proof.
  intros Ht Hd Ho Hn. unfold LZ4_renormDictT.
  change LZ4_MAX_INPUT_SIZE with 2113929216 in Hn. change (64 * KB) with 65536.
  change 0x80000000 with 2147483648. rewrite (u32_small n), u32_small by lia.
  destruct (Z.ltb_spec 2147483648 (currentOffset s + n)); cbn zeta.
  - cbn [hashTable currentOffset dictCtx dictSize dictionary].
    split; [apply (renorm_table _ (currentOffset s)); [done|change (64 * KB) with 65536; lia]|].
    destruct (Z.ltb_spec 65536 (dictSize s)); splits; try done; try lia.
  - splits; try done; try lia.
Qed.

(** * Before the block *)

Section Prepare.
Context (s : LZ4_stream_t) (hist : list Z) (source n : Z).
Context (Hinv : cs_inv s hist) (Hn : 0 < n <= LZ4_MAX_INPUT_SIZE) (Hsrc : 0 < source).

Abbreviation dictEnd := (dictionary s + dictSize s).

(** The part of the history that the input overwrites. *)
Definition overlap : Z :=
  if (dictionary s <? source + n) && (source + n <? dictEnd) then source + n - dictionary s else 0.

Definition kept : list Z := drop (Z.to_nat overlap) hist.

Context (Hdisj : hist = [] \/ overlap <> 0 \/ source + n <= dictionary s \/ dictEnd <= source).

(** The state and the end of the dictionary when the block is compressed. *)
Definition prepared : LZ4_stream_t * Z :=
  let s1 := LZ4_renormDictT s n in
  let q := drop_tiny s1 source n (if dictSize s =? 0 then NULL else dictEnd) in
  (drop_overlap q.1 source n q.2, q.2).

Lemma kept_zlen : zlen kept = dictSize s - overlap /\ 0 <= overlap <= dictSize s.
Proof.
  destruct Hinv as (_ & _ & Hd & _). zlen_facts.
  assert (0 <= overlap <= dictSize s) as Ho.
  { unfold overlap. destruct (Z.ltb_spec (dictionary s) (source + n)); simpl; [|lia].
    destruct (Z.ltb_spec (source + n) dictEnd); lia. }
  split; [|done]. unfold kept, zlen in *. rewrite length_drop. lia.
Qed.

Lemma prepared_spec :
  let s2 := prepared.1 in
  table_ok (hashTable s2) (currentOffset s2) /\ dictCtx s2 = None /\
  currentOffset s2 + n <= 2 ^ 31 /\ 0 <= dictSize s2 <= zlen kept /\ dictSize s2 <= currentOffset s2 /\
  (if prepared.2 =? source
   then dictionary s2 = source - dictSize s2 /\ (dictSize s2 = 0 \/ source = dictEnd)
   else dictionary s2 = dictEnd - dictSize s2 /\ 0 < dictionary s2 /\
     (dictSize s2 = 0 \/ 4 <= dictSize s2) /\ source <> dictionary s2 /\
     (dictEnd <= source \/ source + n <= dictionary s2)).
Proof.
  pose proof kept_zlen as [Hk Hov]. pose proof Hinv as (Ht & Hcx & Hd & Ho & Hp & _). zlen_facts.
  destruct (renorm_ok s n Ht ltac:(lia) ltac:(lia) ltac:(lia))
    as (Ht1 & Hc1 & _ & Hs1 & Hs2 & Hd1 & Hco & Hoff). rewrite Hcx in Hc1.
  assert (hist <> [] \/ dictSize s = 0) as Hne.
  { destruct hist; [right; by rewrite Hd|by left]. }
  unfold prepared, drop_tiny. set (s1 := LZ4_renormDictT s n) in *. rewrite Hc1, andb_true_r.
  destruct (Z.ltb_spec 0 n); [|lia]. rewrite andb_true_r. change (64 * KB) with 65536 in *. unfold NULL in *.
  destruct ((dictSize s1 <? 4) && negb ((if dictSize s =? 0 then 0 else dictEnd) =? source)) eqn:Et.
  - cbn [fst snd]. unfold drop_overlap. cbn [dictionary with_dict].
    destruct (Z.ltb_spec (source + n) source); [lia|]. rewrite andb_false_r. cbn [fst snd].
    rewrite Z.eqb_refl. cbn [with_dict hashTable currentOffset dictCtx dictSize dictionary].
    splits; try done; lia.
  - cbn [fst snd]. destruct (Z.eqb_spec (dictSize s) 0) as [E0|E0].
    { exfalso. destruct (Z.ltb_spec (dictSize s1) 4); [|lia].
      destruct (Z.eqb_spec 0 source); [lia|done]. }
    destruct Hne as [Hne|?]; [|lia]. specialize (Hp Hne).
    destruct (Z.eqb_spec dictEnd source) as [Es|Es].
    + unfold drop_overlap. destruct (Z.ltb_spec (source + n) dictEnd); [lia|].
      rewrite andb_false_r. splits; try done; try lia.
      unfold overlap in *. destruct (Z.ltb_spec (source + n) dictEnd); [lia|].
      rewrite andb_false_r in *. lia.
    + assert (4 <= dictSize s1) as H4.
      { destruct (Z.ltb_spec (dictSize s1) 4); [done|lia]. }
      unfold drop_overlap. change (64 * KB) with 65536.
      destruct (Z.ltb_spec (dictionary s1) (source + n)) as [Hl1|Hl1]; cbn [andb];
        [destruct (Z.ltb_spec (source + n) dictEnd) as [Hl2|Hl2]|].
      * assert (overlap = source + n - dictionary s) as Eov.
        { unfold overlap. destruct (Z.ltb_spec (dictionary s) (source + n)); [|lia].
          by destruct (Z.ltb_spec (source + n) dictEnd); [|lia]. }
        rewrite u32_small by lia. cbn [with_dict hashTable currentOffset dictCtx dictSize dictionary].
        destruct (Z.ltb_spec 65536 (dictEnd - (source + n))) as [H6|H6].
        -- change (65536 <? 4) with false. cbn iota. splits; try done; lia.
        -- destruct (Z.ltb_spec (dictEnd - (source + n)) 4);
             splits; try done; lia.
      * assert (overlap = 0) as Eov.
        { unfold overlap. destruct (Z.ltb_spec (source + n) dictEnd); [lia|]. by rewrite andb_false_r. }
        destruct Hdisj as [?|[?|[?|?]]]; [done|done|lia|].
        splits; try done; lia.
      * splits; try done; try lia.
        destruct Hs1 as [E1|E1]; [|].
        -- unfold overlap in *. destruct (Z.ltb_spec (dictionary s) (source + n)); simpl in *; lia.
        -- unfold overlap in *. destruct (Z.ltb_spec (dictionary s) (source + n)); simpl in *; [|lia].
           destruct (Z.ltb_spec (source + n) dictEnd); lia.
Qed.
End Prepare.

(** * The block *)

(** Where the history of a block lies, for each mode. *)
Definition hist_at (dd : dict_directive) (dict src : Z) (hist inp : list Z) (dst cap : Z) (m : mem) : Prop :=
  match dd with
  | noDict => False
  | withPrefix64k => holds m (src - zlen hist) hist /\ (hist = [] \/ src <= dst \/ dst + cap <= src - zlen hist)
  | _ => holds m dict hist /\ (hist = [] \/ dict + zlen hist <= dst \/ dst + cap <= dict) /\ 0 < dict /\
      src <> dict /\ (dict + zlen hist <= src \/ src + zlen inp <= dict)
  end.

Section Block.
Context (s d : LZ4_stream_t) (src : Z) (inp : list Z) (dst cap : Z) (dd : dict_directive).
Context (di : dictIssue_directive) (accel : Z) (hist : list Z) (m : mem).
Context (Hbufs : cbufs_ok m src inp dst cap) (Hhb : bytes_ok hist) (Haccel : 1 <= accel).
Context (Hne : inp <> []) (Hsize : zlen inp <= LZ4_MAX_INPUT_SIZE).
Context (Hd : dict_stream s dd = Some d) (Hds : dictSize d = zlen hist).
Context (Hoff : 0 <= currentOffset s /\ currentOffset s + zlen inp <= 2 ^ 31).
Context (Hsmall : di = dictSmall -> zlen hist <= currentOffset s).
Context (Hat : hist_at dd (dictionary d) src hist inp dst cap m).
Context (Hdictctx : dd = usingDictCtx ->
  0 <= currentOffset d <= currentOffset s /\ table_wf (hashTable d) /\
  forall h, in_table byU32 h = true ->
    dict_entry_ok (currentOffset d) (zlen hist) (entry (hashTable d) byU32 h)).

Abbreviation p := (gen_params s d src dst (zlen inp) cap limitedOutput byU32 dd di accel).

Lemma block_env : comp_env p hist inp m (dst + cap).
Proof.
  destruct Hbufs as (Hb & Hi & Hc & Hh & Hm & Hdj).
  assert (0 < zlen inp) by (destruct inp; [done|rewrite zlen_cons; zlen_facts; lia]).
  constructor; simpl; try done.
  - by apply bytes_ok_app.
  - unfold c_maybe_extMem. simpl. destruct dd; simpl in *; [done|apply Hat..].
  - unfold c_maybe_extMem, c_iend. simpl. intros E.
    destruct dd; simpl in *; [done|done|destruct Hat as (_ & _ & ? & ? & ?)..]; done.
  - by replace (dst + cap - dst) with cap by lia.
  - unfold c_maybe_extMem. simpl. destruct dd; simpl in *; [done|apply Hat..].
  - by left.
  - change LZ4_MAX_INPUT_SIZE with 2113929216 in *. lia.
  - intros E. split; [done|]. by apply Hdictctx.
Qed.

Context (Htbl : table_wf (hashTable s)).
Context (Hentries : forall h, in_table byU32 h = true ->
  let e := entry (hashTable s) byU32 h in
  (e = 0 \/ e + 4 <= currentOffset s) /\
  (dd = usingDictCtx \/ e + 65535 <= currentOffset s \/
   (di = dictSmall /\ e < currentOffset s - zlen hist) \/
   (currentOffset s <= zlen hist + e /\ (e + 4 <= currentOffset s \/ dd = withPrefix64k)) \/
   currentOffset s <= e)).

Lemma block_tbl : tbl_inv p hist inp (hashTable s) (hlen hist + 1).
Proof.
  split; [done|]. change (c_tt p) with byU32. change (c_out p) with limitedOutput.
  intros h Hh. split; [|done]. zlen_facts.
  pose proof (entry_range (hashTable s) byU32 h ltac:(by left) Htbl) as Hr.
  destruct (Hentries h Hh) as [H1 H2]. set (e := entry (hashTable s) byU32 h) in *.
  unfold entry_ok, idx, hlen. simpl.
  split; [lia|]. split; [lia|].
  destruct H2 as [?|[?|[?|[[? H4]|?]]]]; [right; by left|right; right; by left| | |by left].
  - right. right. right. by left.
  - right. right. right. right. split; [lia|]. intros He. destruct H4 as [?| ->]; [done|done].
Qed.

Lemma wp_block (Q : _ -> mem -> Prop) :
  (forall r m', generic_post s d src dst (zlen inp) cap limitedOutput byU32 dd di accel hist inp m
     (dst + cap) r m' -> Q r m') ->
  wp (LZ4_compress_generic s src dst (zlen inp) cap limitedOutput byU32 dd di accel) Q m.
Proof.
  intros HQ. eapply wp_mono; [|exact HQ]. destruct Hbufs as (_ & _ & Hc & _).
  apply wp_LZ4_compress_generic; [apply block_env|done|lia| |apply block_tbl].
  intros E. by rewrite E in Hat.
Qed.

(** What the block is. *)
Definition block_post (r : Z) (m' : mem) : Prop :=
  frame dst (dst + cap) m m' /\ 0 <= r <= cap /\
  (r <> 0 -> exists enc, encodes hist inp enc /\ zlen enc = r /\ holds m' dst enc) /\
  (LZ4_compressBound (zlen inp) <= cap -> r <> 0).

Lemma block_posted r m' :
  generic_post s d src dst (zlen inp) cap limitedOutput byU32 dd di accel hist inp m (dst + cap) r m' ->
  block_post r.1.1 m' /\ exists t, r.2 = with_table (advance_stream s (zlen inp) byU32 dd) t /\
    table_ok t (currentOffset s + zlen inp).
Proof.
  intros (cr & Hcr & ->). simpl. split.
  - split; [apply Hcr|]. split; [|split].
    + destruct Hbufs as (_ & _ & Hc & _). destruct (Z.eq_dec (r_result cr) 0) as [E|E]; [lia|].
      destruct (comp_post_encodes _ _ _ _ _ _ _ Hcr E) as (n & enc & _ & _ & _ & _ & Hr & _).
      simpl in Hr. lia.
    + intros E. destruct (comp_post_encodes _ _ _ _ _ _ _ Hcr E) as (n & enc & _ & He & Hz & Hh' & _ & Hn).
      simpl in Hn, Hh'. destruct Hn as [-> _]. exists enc. rewrite take_ge in He by zn. done.
    + intros Hb. pose proof (comp_post_pos _ _ _ _ _ _ _ Hcr) as Hp. simpl in Hp.
      specialize (Hp ltac:(right; lia)). lia.
  - exists (r_tbl cr). split; [done|]. destruct Hcr as (_ & [Hw Ht] & _). split; [done|].
    intros h Hh. destruct (Ht h Hh) as [(_ & He & _) _]. exact He.
Qed.
End Block.

(** The entries are fit for the mode that [dict_issue] selects. *)
Lemma issue_entries s z dd :
  table_ok (hashTable s) (currentOffset s) -> dictSize s = z -> 0 <= z <= currentOffset s ->
  dd = withPrefix64k \/ z = 0 \/ 4 <= z ->
  forall h, in_table byU32 h = true ->
  let e := entry (hashTable s) byU32 h in
  (e = 0 \/ e + 4 <= currentOffset s) /\
  (dd = usingDictCtx \/ e + 65535 <= currentOffset s \/
   (dict_issue s = dictSmall /\ e < currentOffset s - z) \/
   (currentOffset s <= z + e /\ (e + 4 <= currentOffset s \/ dd = withPrefix64k)) \/
   currentOffset s <= e).
Proof.
  intros [Hw He] Ez Hz Hdd h Hh e. specialize (He h Hh). fold e in He. split; [done|].
  pose proof (entry_range (hashTable s) byU32 h ltac:(by left) Hw) as Hr. fold e in Hr.
  right. destruct (Z.lt_ge_cases e (currentOffset s - z)) as [Hlt|Hge].
  - unfold dict_issue. rewrite Ez. change (64 * KB) with 65536.
    destruct (Z.ltb_spec z 65536); [|left; lia].
    destruct (Z.ltb_spec z (currentOffset s)); [|lia]. right. by left.
  - destruct (Z.eq_dec z 0); [right; right; right; lia|]. right. right. left. split; [lia|].
    destruct Hdd as [->|[?|?]]; [by right|lia|left; lia].
Qed.

Lemma dict_issue_small s z : dictSize s = z -> dict_issue s = dictSmall -> z <= currentOffset s.
Proof.
  intros Ez. unfold dict_issue. rewrite Ez. destruct (_ <? _); [|done].
  destruct (Z.ltb_spec z (currentOffset s)); [lia|done].
Qed.

Section Continue.
Context (s : LZ4_stream_t) (hist : list Z) (src : Z) (inp : list Z) (dst cap accel : Z) (m : mem).
Context (Hinv : cs_inv s hist) (Hbufs : cbufs_ok m src inp dst cap) (Hsrc : 0 < src).

Abbreviation n := (zlen inp).
Abbreviation dictEnd := (dictionary s + dictSize s).
Abbreviation old := (kept s hist src n).

(** The input may lie in front of the history, behind it, or overwrite its
    beginning; what it does not overwrite is still there. *)
Definition continue_pre : Prop :=
  (hist = [] \/ overlap s src n <> 0 \/ src + n <= dictionary s \/ dictEnd <= src) /\
  holds m (dictEnd - zlen old) old /\
  (old = [] \/ dictEnd <= dst \/ dst + cap <= dictEnd - zlen old).

Context (Hpre : continue_pre).

(** The block is correct for the history that remains, and the new state
    remembers an end of the history and the input, up to the end of the input,
    even when the block did not fit. *)
Definition continue_post (r : Z * LZ4_stream_t) (m' : mem) : Prop :=
  frame dst (dst + cap) m m' /\ 0 <= r.1 <= cap /\
  (r.1 <> 0 -> exists enc, encodes old inp enc /\ zlen enc = r.1 /\ holds m' dst enc) /\
  (r.1 <> 0 \/ (inp <> [] /\ n <= LZ4_MAX_INPUT_SIZE) ->
     exists hist', cs_inv r.2 hist' /\ holds m' (dictionary r.2) hist' /\
       dictionary r.2 + zlen hist' = src + n /\ (zlen hist' <= n \/ src = dictEnd) /\
       exists pre, old ++ inp = pre ++ hist') /\
  (inp <> [] -> n <= LZ4_MAX_INPUT_SIZE -> tableType r.2 = byU32) /\
  (n <= LZ4_MAX_INPUT_SIZE -> LZ4_compressBound n <= cap -> r.1 <> 0).

Lemma continue_eq :
  LZ4_compress_fast_continue s src dst n cap accel =
  let s2 := (prepared s src n).1 in
  if (prepared s src n).2 =? src then
    r ← LZ4_compress_generic s2 src dst n cap limitedOutput byU32 withPrefix64k (dict_issue s2)
          (clamp_acceleration accel);
    mret (r.1.1, r.2)
  else
    r ← (match dictCtx s2 with
         | Some d =>
             if 4 * KB <? n
             then LZ4_compress_generic d src dst n cap limitedOutput byU32 usingExtDict noDictIssue
                    (clamp_acceleration accel)
             else LZ4_compress_generic s2 src dst n cap limitedOutput byU32 usingDictCtx noDictIssue
                    (clamp_acceleration accel)
         | None => LZ4_compress_generic s2 src dst n cap limitedOutput byU32 usingExtDict (dict_issue s2)
                     (clamp_acceleration accel)
         end);
    mret (r.1.1, with_dict r.2 src (u32 n)).
Proof.
  unfold LZ4_compress_fast_continue, prepared.
  destruct (drop_tiny (LZ4_renormDictT s n) src n (if dictSize s =? 0 then NULL else dictEnd))
    as [s1 de] eqn:E. cbn [fst snd]. done.
Qed.

(** The outcome of a block in either mode. *)
Lemma continue_done s2 dd r m' (s' : LZ4_stream_t) z t :
  n <= LZ4_MAX_INPUT_SIZE -> 0 <= z <= zlen old ->
  block_post inp dst cap (last_n z old) m r m' ->
  currentOffset s' = currentOffset s2 + n -> hashTable s' = t -> table_ok t (currentOffset s2 + n) ->
  dictCtx s' = None -> 0 <= currentOffset s2 -> currentOffset s2 + n <= 2 ^ 31 ->
  (dd = withPrefix64k /\ dictionary s' = src - z /\ dictSize s' = z + n /\ z <= currentOffset s2 /\
     (z = 0 \/ (src = dictEnd /\ 0 < dictEnd - z)) \/
   dd <> withPrefix64k /\ dictionary s' = src /\ dictSize s' = n) ->
  tableType s' = byU32 -> continue_post (r, s') m'.
Proof.
  intros Hn Hz (Hf & Hr & He & Hb) Eo Et Ht Ec Ho0 Ho Hm Ety. simpl in *.
  destruct (last_n_split z old) as [pre Epre]. pose proof (last_n_zlen z old Hz) as Hzl.
  pose proof Hbufs as (Hbi & Hni & Hc & Hh & Hmp & Hdj). destruct Hpre as (_ & Hold & Hod).
  assert (bytes_ok old) as Hbo by (destruct Hinv as (_ & _ & _ & _ & _ & ?); by apply Forall_drop).
  assert (holds m' src inp) as Hh' by (eapply frame_holds; [exact Hf|lia|done]).
  split; [done|]. split; [done|]. split; [|split; [|done]].
  - intros Hr0. destruct (He Hr0) as (enc & H1 & H2 & H3). exists enc. split; [|done].
    rewrite Epre. by apply encodes_older.
  - intros _. destruct Hm as [(_ & Ed & Es & Hzo & Hp)|(_ & Ed & Es)].
    + exists (last_n z old ++ inp). cbn [snd]. rewrite zlen_app, Hzl, Ed. split; [|split; [|split; [lia|split; [lia|]]]].
      * rewrite <- Et in Ht. split; [by rewrite Eo|]. split; [done|]. split; [by rewrite zlen_app, Hzl|].
        rewrite zlen_app, Hzl. split; [lia|]. split; [lia|]. apply bytes_ok_app.
        split; [by apply last_n_bytes|done].
      * apply holds_app. rewrite Hzl. split; [|by replace (src - z + z) with src by lia].
        destruct (Z.eq_dec z 0); [rewrite (zlen_0_nil (last_n z old) ltac:(lia)); apply holds_nil|].
        destruct Hp as [?|[Esrc Hpos]]; [done|].
        replace (src - z) with (dictEnd - z) by lia.
        eapply frame_holds; [exact Hf| |by apply last_n_holds]. rewrite Hzl.
        destruct Hod as [E|?]; [|lia]. assert (zlen old = 0) by (by rewrite E). lia.
      * exists pre. by rewrite app_assoc, <- Epre.
    + exists inp. cbn [snd]. rewrite Ed. split; [|split; [done|split; [lia|split; [lia|by exists old]]]].
      rewrite <- Et in Ht. split; [by rewrite Eo|]. split; [done|]. split; [done|]. zlen_facts.
      split; [lia|]. split; [lia|done].
Qed.

Lemma continue_ok_block : inp <> [] -> n <= LZ4_MAX_INPUT_SIZE ->
  wp (LZ4_compress_fast_continue s src dst n cap accel) continue_post m.
Proof.
  intros Hne Hn. pose proof Hpre as (Hdj & Hold & Hod). pose proof Hbufs as (_ & _ & Hc & _ & _ & Hio).
  assert (0 < n) as Hn0 by by apply zlen_pos.
  pose proof (clamp_range accel) as [Ha _].
  destruct (prepared_spec s hist src n Hinv ltac:(lia) Hsrc Hdj) as (Ht & Hcx & Hoff & Hz & Hzo & Hm).
  rewrite continue_eq. cbn zeta. set (s2 := (prepared s src n).1) in *. rewrite Hcx.
  assert (bytes_ok (last_n (dictSize s2) old)) as Hbl.
  { destruct Hinv as (_ & _ & _ & _ & _ & ?). by apply last_n_bytes, Forall_drop. }
  pose proof (last_n_zlen _ _ Hz) as Hzl. pose proof (last_n_holds m _ _ _ Hz Hold) as Hlh.
  assert (dictEnd - zlen old <= dictEnd - dictSize s2) as Hle by lia.
  assert (dictSize s2 = 0 \/ dictEnd <= dst \/ dst + cap <= dictEnd - dictSize s2) as Hod2.
  { destruct Hod as [E|?]; [left|right; lia]. assert (zlen old = 0) by (by rewrite E). lia. }
  assert (forall dd, dd <> usingDictCtx -> dd <> noDict -> dict_stream s2 dd = Some s2) as Hds by (by intros []).
  destruct (Z.eqb_spec (prepared s src n).2 src) as [Ed|Ed]; apply wp_bind.
  - destruct Hm as [Edict Hor].
    eapply (wp_block s2 s2 src inp dst cap withPrefix64k (dict_issue s2) _ (last_n (dictSize s2) old) m);
      try done; try lia.
    + simpl. rewrite Hzl. split; [|right; lia]. destruct (Z.eq_dec (dictSize s2) 0) as [E0|E0].
      * rewrite (zlen_0_nil (last_n _ old)) by lia. apply holds_nil.
      * destruct Hor as [?|Es]; [done|].
        by replace (src - dictSize s2) with (dictEnd - dictSize s2) by lia.
    + apply Ht.
    + rewrite Hzl. apply issue_entries; [done|done|lia|by left].
    + intros r m' Hg. destruct (block_posted _ _ _ _ _ _ _ _ _ _ _ Hbufs _ _ Hg) as (Hb & t & Er & Htt).
      apply wp_ret. rewrite Er.
      eapply (continue_done s2 withPrefix64k _ _ _ (dictSize s2) t); try done; try lia; simpl.
      * change LZ4_MAX_INPUT_SIZE with 2113929216 in Hn. rewrite (u32_small n), u32_small by lia. done.
      * left. change LZ4_MAX_INPUT_SIZE with 2113929216 in Hn. rewrite (u32_small n), u32_small by lia.
        split; [done|]. split; [done|]. split; [done|]. split; [done|].
        destruct Hor as [?|Es]; [by left|]. destruct (Z.eq_dec (dictSize s2) 0) as [?|Hz0]; [by left|right].
        split; [done|]. destruct Hinv as (_ & _ & Hsz & _ & Hp & _).
        pose proof (kept_zlen s hist src n Hinv) as [? ?].
        assert (hist <> []) as Hh by (apply zlen_pos; lia). specialize (Hp Hh). lia.
  - destruct Hm as (Edict & Hpos & Hz4 & Hsd & Hdd).
    eapply (wp_block s2 s2 src inp dst cap usingExtDict (dict_issue s2) _ (last_n (dictSize s2) old) m);
      try done; try lia.
    + simpl. rewrite Hzl, Edict. split; [done|]. split; [|lia].
      destruct Hod2 as [E0|?]; [left; apply zlen_0_nil; lia|right; lia].
    + apply Ht.
    + rewrite Hzl. apply issue_entries; [done|done|lia|by right].
    + intros r m' Hg. destruct (block_posted _ _ _ _ _ _ _ _ _ _ _ Hbufs _ _ Hg) as (Hb & t & Er & Htt).
      apply wp_ret. rewrite Er. change LZ4_MAX_INPUT_SIZE with 2113929216 in Hn.
      eapply (continue_done s2 usingExtDict _ _ _ (dictSize s2) t); try done; try lia; simpl.
      * rewrite (u32_small n), u32_small by lia. done.
      * right. split; [done|]. split; [done|]. by rewrite u32_small by lia.
Qed.

Lemma continue_too_large : LZ4_MAX_INPUT_SIZE < n ->
  wp (LZ4_compress_fast_continue s src dst n cap accel) continue_post m.
Proof.
  intros Hn. rewrite continue_eq. cbn zeta. destruct Hbufs as (_ & Hi & Hc & _).
  assert (forall s', continue_post (0, s') m) as Hp.
  { intros s'. split; [apply frame_refl|]. split; [simpl; lia|]. split; [done|].
    split; [intros [?|[_ ?]]; [done|lia]|]. lia. }
  destruct (_ =? src); apply wp_bind; [apply wp_too_large; [lia|]; by apply wp_ret|].
  destruct (dictCtx _); [destruct (_ <? n)|]; (apply wp_too_large; [lia|]; by apply wp_ret).
Qed.

Lemma prepared_empty : n = 0 ->
  (prepared s src n).2 = (if dictSize s =? 0 then NULL else dictEnd) /\
  let s2 := (prepared s src n).1 in
  hashTable s2 = hashTable s /\ currentOffset s2 = currentOffset s /\ dictCtx s2 = None /\
  ((prepared s src n).2 = src -> s2 = s).
Proof.
  intros E. destruct Hinv as (_ & Hcx & _ & Ho & _). zlen_facts. rewrite E.
  assert (LZ4_renormDictT s 0 = s) as Er.
  { unfold LZ4_renormDictT. change (u32 0) with 0. rewrite u32_small by lia.
    destruct (Z.ltb_spec 0x80000000 (currentOffset s + 0)); [lia|done]. }
  unfold prepared, drop_tiny. rewrite Er. rewrite andb_false_r. cbn [andb fst snd]. split; [done|].
  unfold drop_overlap. rewrite Z.add_0_r. destruct (_ && _) eqn:Eb; cbn [with_dict hashTable currentOffset dictCtx].
  - do 3 (split; [done|]). intros Ed. rewrite Ed in Eb. rewrite Z.ltb_irrefl, andb_false_r in Eb. done.
  - done.
Qed.

Lemma continue_empty : inp = [] ->
  wp (LZ4_compress_fast_continue s src dst n cap accel) continue_post m.
Proof.
  intros E. assert (n = 0) as En by (by rewrite E).
  destruct (prepared_empty En) as (E2 & Et & Eo & Ec & Es). rewrite continue_eq. cbn zeta.
  pose proof Hinv as (Ht & Hcx & Hd & Ho & Hp & Hb). pose proof Hbufs as (_ & _ & Hc & _ & Hm & _).
  pose proof Hpre as (_ & Hold & Hod). zlen_facts.
  assert (forall s' hist' m', cs_inv s' hist' -> (frame dst (dst + cap) m m' -> holds m' (dictionary s') hist') ->
    dictionary s' + zlen hist' = src -> (hist' = [] \/ src = dictEnd) -> (exists pre, old = pre ++ hist') ->
    1 <= cap -> frame dst (dst + 1) m m' -> holds m' dst [0] -> continue_post (1, s') m') as Hpost.
  { intros s' hist' m' G1 G2 G3 G6 [pre G4] G5 Hf Hh. 
    assert (frame dst (dst + cap) m m') as Hf' by (eapply frame_weaken; [exact Hf|lia|lia]).
    split; [done|]. split; [simpl; lia|]. split; [|split; [|done]]; intros _.
    - exists [0]. rewrite E. split; [apply encodes_empty|]. done.
    - exists hist'. split; [done|]. split; [by apply G2|]. split; [simpl; lia|].
      split; [destruct G6 as [->|?]; [left; zlen_facts; rewrite zlen_nil; lia|by right]|]. exists pre. rewrite <- G4, E. apply app_nil_r. }
  assert (forall s', cap <= 0 -> continue_post (0, s') m) as Hzero.
  { intros s' G. split; [apply frame_refl|]. split; [simpl; lia|]. split; [done|].
    split; [intros [?|[? _]]; done|]. split; [done|]. rewrite En. change (LZ4_compressBound 0) with 16. lia. }
  destruct (Z.eqb_spec (prepared s src n).2 src) as [Ed|Ed]; apply wp_bind.
  - rewrite (Es Ed). rewrite E2 in Ed. destruct (Z.eqb_spec (dictSize s) 0) as [E0|E0]; [unfold NULL in Ed; lia|].
    assert (old = hist) as Eold.
    { unfold kept, overlap. rewrite En, Z.add_0_r, <- Ed. by rewrite Z.ltb_irrefl, andb_false_r. }
    rewrite Eold in *. apply wp_LZ4_compress_generic_empty; [done|done| | |].
    + intros ?. eapply mapped_sub; [exact Hm|lia|lia].
    + intros _ ?. apply wp_ret. by apply Hzero.
    + intros m' Hor Hf Hh. destruct Hor as [?|Hcp]; [done|]. apply wp_ret.
      apply (Hpost _ hist); cbn [snd]; try done; try lia.
      * intros Hf'. cbn [snd]. destruct Hod as [Eh|Hod]; [rewrite Eh; apply holds_nil|].
        replace (dictionary s) with (dictEnd - zlen hist) by lia. eapply frame_holds; [exact Hf'|lia|done].
      * by exists [].
  - rewrite Ec. apply wp_LZ4_compress_generic_empty; [done|done| | |].
    + intros ?. eapply mapped_sub; [exact Hm|lia|lia].
    + intros _ ?. apply wp_ret. by apply Hzero.
    + intros m' Hor Hf Hh. destruct Hor as [?|Hcp]; [done|]. apply wp_ret.
      apply (Hpost _ []); cbn [dictionary with_dict]; try done; try lia.
      * unfold cs_inv. cbn [snd with_dict hashTable currentOffset dictCtx dictSize dictionary].
        rewrite Et, Eo, Ec, En. change (zlen (@nil Z)) with 0.
        split; [done|]. split; [done|]. split; [done|]. split; [lia|]. split; [done|constructor].
      * intros _. apply holds_nil.
      * change (zlen (@nil Z)) with 0. cbn [snd]. lia.
      * by left.
      * exists old. by rewrite app_nil_r.
Qed.

Lemma continue_ok :
  wp (LZ4_compress_fast_continue s src dst n cap accel) continue_post m.
Proof.
  destruct (decide (inp = [])) as [E|E]; [by apply continue_empty|].
  destruct (Z.lt_ge_cases LZ4_MAX_INPUT_SIZE n); [by apply continue_too_large|by apply continue_ok_block].
Qed.
End Continue.

(** The input in front of the history or behind it. *)
Lemma disjoint_pre s hist src inp dst cap m :
  cs_inv s hist -> hist = [] \/ src + zlen inp <= dictionary s \/ dictionary s + zlen hist <= src ->
  holds m (dictionary s) hist ->
  hist = [] \/ dictionary s + zlen hist <= dst \/ dst + cap <= dictionary s ->
  continue_pre s hist src inp dst cap m /\ kept s hist src (zlen inp) = hist.
Proof.
  intros (_ & _ & Hd & _) Hc Hh Hout. zlen_facts.
  assert (overlap s src (zlen inp) = 0) as Eo.
  { unfold overlap. rewrite Hd. destruct (Z.ltb_spec (dictionary s) (src + zlen inp)); [|done].
    destruct (Z.ltb_spec (src + zlen inp) (dictionary s + zlen hist)); [|done]. simpl.
    destruct Hc as [E|E]; [|lia]. assert (zlen hist = 0) by (by rewrite E). lia. }
  assert (kept s hist src (zlen inp) = hist) as Ek by (unfold kept; by rewrite Eo).
  split; [|done]. unfold continue_pre. rewrite Ek, Hd.
  replace (dictionary s + zlen hist - zlen hist) with (dictionary s) by lia.
  split; [|by split]. destruct Hc as [?|?]; [by left|]. by right; right.
Qed.
