(* ===== verification/Lz4StreamDict.v ===== *)
(** Dictionaries of the streaming compressor: loading, attaching, saving and
    the fast reset. *)
From S2P Require Import Prelude.
From S2P Require Import Mem.
From S2P Require Import BlockFormat.
From S2P Require Import Lz4Common.
From S2P Require Import Lz4Decompress.
From S2P Require Import Lz4DecodeSpec.
From S2P Require Import Lz4Compress.
From S2P Require Import Lz4CompressGeneric.
From S2P Require Import Lz4CompressInv.
From S2P Require Import Lz4CompressRun.
From S2P Require Import Lz4CompressSpec.
From S2P Require Import Lz4StreamCompress.
From S2P Require Import Lz4StreamCompressSpec.

(** * Loading *)

(** The part of a dictionary that is used: the last 64 KB, if there is enough
    to hash. *)
Definition loaded (dl : list Z) : list Z :=
  if zlen dl <? HASH_UNIT then [] else last_n (Z.min (zlen dl) (64 * KB)) dl.

(** A state with a loaded dictionary: no entry lies between the last window
    and the dictionary. *)
Definition dict_inv (d : LZ4_stream_t) (dl : list Z) : Prop :=
  cs_inv d dl /\ currentOffset d = 64 * KB /\
  forall h, in_table byU32 h = true ->
    dict_entry_ok (currentOffset d) (zlen dl) (entry (hashTable d) byU32 h).

Section Load.
Context (p : Z) (dl : list Z) (m : mem).
Context (Hh : holds m p dl) (H8 : 8 <= zlen dl <= 65536).

Abbreviation dictEnd := (p + zlen dl).
Abbreviation first := (65536 - zlen dl).

(** Entries of the table while the dictionary is hashed. *)
Definition load_tbl (t : table) : Prop :=
  table_wf t /\ forall h, in_table byU32 h = true ->
    entry t byU32 h = 0 \/ (first <= entry t byU32 h /\ entry t byU32 h + 8 <= 65536).

Definition load_inv (q : Z * Z * table) (m' : mem) : Prop :=
  m' = m /\ exists i, 0 <= i <= zlen dl /\ q.1 = (p + i, first + i) /\ load_tbl q.2.

Lemma wp_load_hash i (Q : Z -> mem -> Prop) :
  0 <= i -> p + i <= dictEnd - 8 ->
  (forall h, in_table byU32 h = true -> Q h m) -> wp (LZ4_hashPosition (p + i) byU32) Q m.
Proof.
  intros Hi Hle HQ. destruct (list_split_at dl i) as (x & y & E & Hx); [lia|].
  rewrite E in Hh. apply holds_app in Hh as [_ Hy]. rewrite Hx in Hy.
  rewrite E, zlen_app in Hle. eapply wp_LZ4_hashPosition; [by left|exact Hy|lia|].
  apply HQ, hash_in_table. by left.
Qed.

Lemma load_put t h i :
  load_tbl t -> in_table byU32 h = true -> 0 <= i -> p + i <= dictEnd - 8 ->
  load_tbl (set_entry t byU32 h (first + i)).
Proof.
  intros [Hw He] Hin Hi Hle. assert (0 <= first + i < entry_max byU32) by (unfold entry_max; lia).
  split; [apply set_entry_wf; [by left|done|done]|]. intros h' Hh'.
  rewrite entry_set by (done || by left). case_decide; [right; lia|by apply He].
Qed.

Lemma wp_load_fast q m' :
  load_inv q m' -> wp (load_fast_step dictEnd q) (fun r m'' =>
    match r with
    | inl q' => load_inv q' m'' /\ dictEnd - q'.1.1 < dictEnd - q.1.1
    | inr t => m'' = m /\ load_tbl t
    end) m'.
Proof.
  destruct q as [[p' idx] t]. intros [-> (i & Hi & [= -> ->] & Ht)]. unfold load_fast_step.
  change HASH_UNIT with 8. simpl in Ht. wif; [|by apply wp_ret].
  apply wp_bind, wp_load_hash; [lia|lia|]. intros h Hin.
  apply wp_bind, wp_LZ4_putIndexOnHash; [by left|done|unfold entry_max; lia|]. apply wp_ret.
  split; [|simpl; lia]. split; [done|]. exists (i + 3). rewrite u32_small by lia. simpl.
  split; [lia|]. split; [f_equal; lia|]. apply load_put; [done|done|lia|lia].
Qed.

Lemma wp_load_slow limit q m' :
  load_inv q m' -> wp (load_slow_step dictEnd limit q) (fun r m'' =>
    match r with
    | inl q' => load_inv q' m'' /\ dictEnd - q'.1.1 < dictEnd - q.1.1
    | inr t => m'' = m /\ load_tbl t
    end) m'.
Proof.
  destruct q as [[p' idx] t]. intros [-> (i & Hi & [= -> ->] & Ht)]. unfold load_slow_step.
  change HASH_UNIT with 8. simpl in Ht. wif; [|by apply wp_ret].
  apply wp_bind, wp_load_hash; [lia|lia|]. intros h Hin.
  apply wp_bind, wp_LZ4_getIndexOnHash; [by left|done|].
  assert (forall t', load_tbl t' -> wp (mret (inl (p + i + 1, u32 (first + i + 1), t')) :
    M (Z * Z * table + table)) (fun r m'' => match r with
      | inl q' => load_inv q' m'' /\ dictEnd - q'.1.1 < dictEnd - (p + i, first + i, t).1.1
      | inr t => m'' = m /\ load_tbl t end) m) as Hend.
  { intros t' Ht'. apply wp_ret. split; [|simpl; lia]. split; [done|]. exists (i + 1).
    rewrite u32_small by lia. simpl. split; [lia|]. split; [f_equal; lia|done]. }
  apply wp_bind. wif; [|by apply wp_ret, Hend].
  apply wp_LZ4_putIndexOnHash; [by left|done|unfold entry_max; lia|].
  apply Hend, load_put; [done|done|lia|lia].
Qed.

Lemma wp_load_loop step t (Q : table -> mem -> Prop) :
  (forall q m', load_inv q m' -> wp (step q) (fun r m'' =>
     match r with
     | inl q' => load_inv q' m'' /\ dictEnd - q'.1.1 < dictEnd - q.1.1
     | inr t => m'' = m /\ load_tbl t
     end) m') ->
  load_tbl t -> (forall t', load_tbl t' -> Q t' m) ->
  wp (loop (load_fuel p dictEnd) step (p, first, t)) Q m.
Proof.
  intros Hstep Ht HQ. apply (wp_loop load_inv (fun q => dictEnd - q.1.1)).
  - intros q m' HI. pose proof HI as [-> (i & Hi & Eq & _)]. split; [rewrite Eq; simpl; lia|].
    eapply wp_mono; [by apply Hstep|]. intros [q'|t'] m' H; [done|]. destruct H as [-> H]. by apply HQ.
  - split; [done|]. exists 0. rewrite !Z.add_0_r. split; [lia|]. done.
  - simpl. unfold load_fuel. lia.
Qed.
End Load.

Lemma load_tbl_empty dl : load_tbl dl ∅.
Proof. split; [apply table_wf_empty|]. intros h _. left. apply entry_empty. Qed.

Lemma load_tbl_dict dl t dict :
  load_tbl dl t -> 8 <= zlen dl <= 65536 -> 0 < dict -> bytes_ok dl ->
  dict_inv (Stream t dict None 65536 byU32 (zlen dl)) dl.
Proof.
  intros [Hw He] H8 Hd Hb. unfold dict_inv, cs_inv, table_ok, dict_entry_ok.
  cbn [hashTable currentOffset dictCtx dictSize dictionary]. change (64 * KB) with 65536.
  splits; try done; try lia; intros h Hh; specialize (He h Hh); lia.
Qed.

Lemma loadDict_ok st dict dl ld m :
  0 < dict -> holds m dict dl -> bytes_ok dl -> zlen dl <= int_max ->
  wp (LZ4_loadDict_internal st dict (zlen dl) ld) (fun r m' =>
    m' = m /\ r.1 = zlen (loaded dl) /\ dict_inv r.2 (loaded dl) /\
    (loaded dl <> [] -> dictionary r.2 + zlen (loaded dl) = dict + zlen dl /\ tableType r.2 = byU32) /\
    holds m (dictionary r.2) (loaded dl)) m.
Proof.
  intros Hd Hh Hb Hsz. unfold LZ4_loadDict_internal, loaded. zlen_facts.
  change (LZ4_resetStream st) with LZ4_initStream. change HASH_UNIT with 8.
  change (u32 (currentOffset LZ4_initStream + 64 * KB)) with 65536. unfold int_max in *.
  destruct (Z.ltb_spec (zlen dl) 8).
  { apply wp_ret. simpl. split; [done|]. split; [done|]. split; [|split; [done|apply holds_nil]].
    split; [|split; [done|]].
    - split; [split; [apply table_wf_empty|intros h _; left; apply entry_empty]|].
      split; [done|]. split; [done|]. split; [change (zlen (@nil Z)) with 0; simpl; lia|].
      split; [done|constructor].
    - intros h _. left. cbn [hashTable]. rewrite entry_empty. simpl. lia. }
  cbn zeta. change (64 * KB) with 65536. set (z := Z.min (zlen dl) 65536).
  assert ((if 65536 <? dict + zlen dl - dict then dict + zlen dl - 65536 else dict) = dict + zlen dl - z) as ->.
  { unfold z. zcase; lia. }
  replace (dict + zlen dl - (dict + zlen dl - z)) with z by lia.
  rewrite (u32_small z), (u32_small (65536 - z)) by lia.
  assert (zlen (last_n z dl) = z) as Hz by (apply last_n_zlen; lia).
  assert (holds m (dict + zlen dl - z) (last_n z dl)) as Hl.
  { apply last_n_holds; [lia|]. by replace (dict + zlen dl - zlen dl) with dict by lia. }
  set (q := dict + zlen dl - z) in *. set (dl' := last_n z dl) in *.
  assert (8 <= zlen dl' <= 65536) as H8 by lia.
  replace (dict + zlen dl) with (q + zlen dl') by lia. replace (65536 - z) with (65536 - zlen dl') by lia.
  assert (forall t, load_tbl dl' t ->
    (s32 z, Stream t q None 65536 byU32 z).1 = zlen dl' /\
    dict_inv (Stream t q None 65536 byU32 z) dl') as Hend.
  { intros t Ht. simpl. rewrite s32_small by (unfold int_min, int_max; lia). split; [done|].
    rewrite <- Hz. apply load_tbl_dict; [done|done|lia|by apply last_n_bytes]. }
  apply wp_bind, (wp_load_loop q dl' m);
    [lia|intros; by apply wp_load_fast|apply load_tbl_empty|]. intros t Ht. apply wp_bind.
  destruct ld.
  - apply wp_ret, wp_ret. destruct (Hend t Ht) as [G1 G2]. split; [done|]. split; [done|].
    split; [done|]. split; [intros _; split; [simpl; lia|done]|done].
  - apply (wp_load_loop q dl' m); [lia|intros; by apply wp_load_slow|done|].
    intros t' Ht'. apply wp_ret. destruct (Hend t' Ht') as [G1 G2]. split; [done|]. split; [done|].
    split; [done|]. split; [intros _; split; [simpl; lia|done]|done].
Qed.

Lemma loaded_suffix dl : exists pre, dl = pre ++ loaded dl.
Proof.
  unfold loaded. destruct (zlen dl <? HASH_UNIT); [exists dl; by rewrite app_nil_r|apply last_n_split].
Qed.

Lemma loaded_some dl : HASH_UNIT <= zlen dl -> loaded dl <> [].
Proof.
  intros Hz. unfold loaded. destruct (Z.ltb_spec (zlen dl) HASH_UNIT); [lia|]. change HASH_UNIT with 8 in Hz.
  apply zlen_pos. rewrite last_n_zlen by (unfold KB; lia). unfold KB. lia.
Qed.

(** * An attached dictionary *)

Section Attach.
Context (w d : LZ4_stream_t) (dl : list Z) (src : Z) (inp : list Z) (dst cap accel : Z) (m : mem).
Context (Hw : cs_inv w []) (Hw0 : currentOffset w = 0 \/ 64 * KB <= currentOffset w).
Context (Hd : dict_inv d dl) (Hdl : dl <> []) (Hmem : holds m (dictionary d) dl).
Context (Hbufs : cbufs_ok m src inp dst cap) (Hsrc : 0 < src) (Hne : inp <> []).
Context (Hdisj : dictionary d + zlen dl <= src \/ src + zlen inp <= dictionary d).
Context (Hout : dictionary d + zlen dl <= dst \/ dst + cap <= dictionary d).

Abbreviation n := (zlen inp).
Abbreviation wd := (LZ4_attach_dictionary w (Some d)).

(** The block uses the dictionary, and the new state remembers the input. *)
Definition attach_post (r : Z * LZ4_stream_t) (m' : mem) : Prop :=
  frame dst (dst + cap) m m' /\ 0 <= r.1 <= cap /\
  (r.1 <> 0 -> exists enc, encodes dl inp enc /\ zlen enc = r.1 /\ holds m' dst enc) /\
  (n <= LZ4_MAX_INPUT_SIZE ->
     cs_inv r.2 inp /\ dictionary r.2 = src /\ holds m' src inp /\ tableType r.2 = byU32) /\
  (n <= LZ4_MAX_INPUT_SIZE -> LZ4_compressBound n <= cap -> r.1 <> 0).

Lemma attach_done r m' (s' : LZ4_stream_t) off :
  n <= LZ4_MAX_INPUT_SIZE -> block_post inp dst cap dl m r m' ->
  table_ok (hashTable s') (off + n) -> currentOffset s' = off + n -> 0 <= off -> off + n <= 2 ^ 31 ->
  dictCtx s' = None -> dictionary s' = src -> dictSize s' = n -> tableType s' = byU32 ->
  attach_post (r, s') m'.
Proof.
  intros Hn (Hf & Hr & He & Hb) Ht Eo Ho0 Ho Ec Ed Es Ety. pose proof Hbufs as (Hbi & _ & _ & Hh & _ & Hdj).
  split; [done|]. split; [done|]. split; [done|]. split; [intros _|done]. simpl.
  split; [|split; [done|split; [eapply frame_holds; [exact Hf|lia|done]|done]]].
  unfold cs_inv. rewrite Eo, Ed, Es. zlen_facts. splits; try done; lia.
Qed.

(** The state when the block is compressed. *)
Lemma attach_prepared : n <= LZ4_MAX_INPUT_SIZE ->
  (prepared wd src n).2 = NULL /\
  let s2 := (prepared wd src n).1 in
  table_ok (hashTable s2) (currentOffset s2) /\ dictCtx s2 = Some d /\
  64 * KB <= currentOffset s2 /\ currentOffset s2 + n <= 2 ^ 31.
Proof.
  intros Hn. pose proof Hw0 as Hwo. destruct Hd as ((_ & _ & Hds & _) & _). destruct Hw as (Ht & _ & Hs0 & Ho & _).
  change (zlen (@nil Z)) with 0 in *. zlen_facts. change (64 * KB) with 65536 in *.
  assert (dictSize d <> 0) as Hd0 by (apply zlen_pos in Hdl; lia).
  assert (wd = Stream (hashTable w) (dictionary w) (Some d)
    (if currentOffset w =? 0 then 65536 else currentOffset w) (tableType w) 0) as Ewd.
  { unfold LZ4_attach_dictionary. destruct (Z.eqb_spec (dictSize d) 0); [done|]. by rewrite Hs0. }
  assert (65536 <= currentOffset wd <= 2 ^ 31) as Hco.
  { rewrite Ewd. cbn [currentOffset]. zcase; lia. }
  destruct (renorm_ok wd n) as (Ht1 & Hc1 & Hoo & _ & Hs2 & _ & _ & Hoff).
  { rewrite Ewd in Hco |- *. cbn [hashTable currentOffset] in *. destruct Ht as [Htw He]. split; [done|].
    intros h Hh. specialize (He h Hh). destruct (Z.eqb_spec (currentOffset w) 0); lia. }
  { rewrite Ewd in Hco |- *. cbn [dictSize currentOffset] in *. lia. }
  { lia. }
  { lia. }
  assert (dictCtx (LZ4_renormDictT wd n) = Some d) as Hc2 by (by rewrite Hc1, Ewd).
  assert (dictSize wd = 0) as Hz by (by rewrite Ewd).
  unfold prepared, drop_tiny. rewrite Hc2, Hz, andb_false_r. cbn [fst snd]. rewrite Z.eqb_refl.
  split; [done|]. unfold drop_overlap, NULL.
  destruct (Z.ltb_spec (src + n) 0); [lia|]. rewrite andb_false_r.
  split; [done|]. split; [done|]. split; [|done].
  destruct Hoo as [-> | ->]; [lia|]. unfold KB. lia.
Qed.

Lemma attach_ok :
  wp (LZ4_compress_fast_continue wd src dst n cap accel) attach_post m.
Proof.
  destruct (Z.lt_ge_cases LZ4_MAX_INPUT_SIZE n) as [Hl|Hn].
  { rewrite continue_eq. cbn zeta. destruct Hbufs as (_ & Hi & Hc & _).
    assert (forall s', attach_post (0, s') m) as Hp.
    { intros s'. split; [apply frame_refl|]. split; [simpl; lia|]. split; [done|]. split; lia. }
    destruct (_ =? src); apply wp_bind; [apply wp_too_large; [lia|]; by apply wp_ret|].
    destruct (dictCtx _); [destruct (_ <? n)|]; (apply wp_too_large; [lia|]; by apply wp_ret). }
  destruct (attach_prepared Hn) as (E2 & Ht & Ec & Ho & Hoff). rewrite continue_eq. cbn zeta.
  set (s2 := (prepared wd src n).1) in *. rewrite E2, Ec. pose proof Hd as (Hcs & Hdo & Hde).
  pose proof Hcs as (Htd & Hcd & Hds & Hdoff & Hdp & Hdb). specialize (Hdp Hdl).
  pose proof (clamp_range accel) as [Ha _]. change LZ4_MAX_INPUT_SIZE with 2113929216 in *. zlen_facts.
  assert (0 < n) as Hn0 by by apply zlen_pos. change (64 * KB) with 65536 in *.
  assert (0 < zlen dl) as Hdl0 by by apply zlen_pos.
  destruct (Z.eqb_spec NULL src) as [?|_]; [unfold NULL in *; lia|]. apply wp_bind.
  assert (hist_at usingDictCtx (dictionary d) src dl inp dst cap m) as Hat.
  { simpl. split; [done|]. split; [by right|]. split; [done|]. split; [lia|done]. }
  wif.
  - eapply (wp_block d d src inp dst cap usingExtDict noDictIssue _ dl m); try done; try lia.
    + apply Htd.
    + intros h Hh e. destruct Htd as [_ He]. specialize (He h Hh). specialize (Hde h Hh).
      split; [exact He|]. right. unfold dict_entry_ok in Hde. fold e in Hde. lia.
    + intros r m' Hg. destruct (block_posted _ _ _ _ _ _ _ _ _ _ _ Hbufs _ _ Hg) as (Hb & t & Er & Htt).
      apply wp_ret. rewrite Er. apply (attach_done _ _ _ 65536); simpl; try done; try lia.
      * by rewrite Hdo in Htt.
      * rewrite Hdo, (u32_small n), u32_small by lia. done.
      * rewrite u32_small by lia. done.
  - eapply (wp_block s2 d src inp dst cap usingDictCtx noDictIssue _ dl m); try done; try lia.
    + intros _. split; [lia|]. split; [apply Htd|done].
    + apply Ht.
    + intros h Hh e. destruct Ht as [_ He]. specialize (He h Hh). split; [exact He|]. by left.
    + intros r m' Hg. destruct (block_posted _ _ _ _ _ _ _ _ _ _ _ Hbufs _ _ Hg) as (Hb & t & Er & Htt).
      apply wp_ret. rewrite Er. apply (attach_done _ _ _ (currentOffset s2)); simpl; try done; try lia.
      * rewrite (u32_small n), u32_small by lia. done.
      * rewrite u32_small by lia. done.
Qed.
End Attach.

(** * Saving *)

(** The size that [LZ4_saveDict] keeps. *)
Definition saved_size (hist : list Z) (size : Z) : Z :=
  Z.min (if (0 <=? size) && (size <=? 64 * KB) then size else 64 * KB) (zlen hist).

Lemma saveDict_ok s hist buf size m :
  cs_inv s hist -> holds m (dictionary s) hist -> 0 < buf -> int_min <= size <= int_max ->
  mapped m buf (saved_size hist size) ->
  wp (LZ4_saveDict s buf size) (fun r m' =>
    let h := last_n (saved_size hist size) hist in
    r.1 = saved_size hist size /\ frame buf (buf + saved_size hist size) m m' /\
    cs_inv r.2 h /\ dictionary r.2 = buf /\ holds m' buf h /\ (stream_wf s -> stream_wf r.2)) m.
Proof.
  intros (Ht & Hc & Hd & Ho & Hp & Hb) Hh Hbuf Hsz Hm. unfold LZ4_saveDict. zlen_facts.
  set (z := saved_size hist size) in *. change (64 * KB) with 65536.
  assert (0 <= z <= zlen hist) as Hz.
  { unfold z, saved_size. change (64 * KB) with 65536.
    destruct (Z.leb_spec 0 size); simpl; [destruct (Z.leb_spec size 65536)|]; lia. }
  assert ((let size := if 65536 <? u32 size then 65536 else size in
    if dictSize s <? u32 size then s32 (dictSize s) else size) = z) as Ez.
  { unfold int_min, int_max in *. cbn zeta. rewrite Hd. unfold z, saved_size. change (64 * KB) with 65536.
    destruct (Z.leb_spec 0 size) as [H0|H0]; cbn [andb].
    - rewrite (u32_small size) by lia. destruct (Z.leb_spec size 65536), (Z.ltb_spec 65536 size); try lia;
        rewrite u32_small by lia; zcase; rewrite ?s32_small by (unfold int_min, int_max; lia); lia.
    - assert (u32 size = size + 2 ^ 32) as -> by (unfold u32; Z.div_mod_to_equations; lia).
      destruct (Z.ltb_spec 65536 (size + 2 ^ 32)); [|lia]. rewrite u32_small by lia.
      zcase; rewrite ?s32_small by (unfold int_min, int_max; lia); lia. }
  cbn zeta in Ez. cbn zeta. rewrite Ez.
  pose proof (last_n_zlen z hist Hz) as Hlz.
  assert (holds m (dictionary s + dictSize s - z) (last_n z hist)) as Hl.
  { apply last_n_holds; [done|]. by replace (dictionary s + dictSize s - zlen hist) with (dictionary s) by lia. }
  assert (forall m', frame buf (buf + z) m m' -> holds m' buf (last_n z hist) ->
    wp (mret (z, with_dict s buf (u32 z)) : M (Z * LZ4_stream_t)) (fun r m' =>
      r.1 = z /\ frame buf (buf + z) m m' /\ cs_inv r.2 (last_n z hist) /\ dictionary r.2 = buf /\
      holds m' buf (last_n z hist) /\ (stream_wf s -> stream_wf r.2)) m') as Hend.
  { intros m' Hf Hb'. apply wp_ret. simpl. split; [done|]. split; [done|]. split; [|done].
    unfold cs_inv. cbn [with_dict hashTable currentOffset dictCtx dictSize dictionary].
    rewrite u32_small, Hlz by lia. splits; try done; try lia. by apply last_n_bytes. }
  assert (mapped m (dictionary s + dictSize s - z) z) as Hms.
  { pose proof (holds_mapped _ _ _ Hl) as Hx. by rewrite Hlz in Hx. }
  apply wp_bind. destruct (Z.ltb_spec 0 z).
  - apply wp_memmove; [lia|done|done|].
    intros m' Hcp. apply Hend.
    + by eapply copied_frame.
    + eapply copied_holds; [exact Hcp|lia|done].
  - apply wp_ret, Hend; [apply frame_refl|]. rewrite (zlen_0_nil (last_n z hist)) by lia. apply holds_nil.
Qed.

(** * Reset *)

Lemma resetStream_fast_ok s :
  stream_wf s ->
  cs_inv (LZ4_resetStream_fast s) [] /\
  (currentOffset (LZ4_resetStream_fast s) = 0 \/ 64 * KB <= currentOffset (LZ4_resetStream_fast s)).
Proof.
  intros Hs. pose proof (prepare_wf s byU32 0 Hs ltac:(by left)) as (Hw & Ho & _ & Hm).
  pose proof (prepare_ready s byU32 0 Hs ltac:(by left)) as (_ & _ & _ & Ho0 & Hoff & _ & He);
    [change LZ4_MAX_INPUT_SIZE with 2113929216; lia|done|].
  fold (LZ4_resetStream_fast s) in *. set (s' := LZ4_resetStream_fast s) in *.
  assert (currentOffset s' = 0 \/ 64 * KB <= currentOffset s' <= 2 ^ 31) as Hc.
  { destruct Hs as (_ & Hso & _ & Hsm). unfold s', LZ4_resetStream_fast, LZ4_prepareTable.
    set (b := negb (bool_decide (tableType s = clearedTable)) && _). change (64 * KB) with 65536.
    destruct b eqn:Eb; cbn [currentOffset]; [by left|]. unfold b in Eb.
    destruct (Z.eqb_spec (currentOffset s) 0) as [E|E]; cbn [negb andb]; [by left|].
    rewrite (bool_decide_eq_true_2 (byU32 = byU32)) in * by done. cbn [andb] in *.
    destruct (bool_decide (tableType s = clearedTable)) eqn:Ec.
    - apply bool_decide_eq_true in Ec. rewrite Ec in Hsm. destruct Hsm as [_ ?]. done.
    - cbn [negb andb] in Eb. repeat (apply orb_false_iff in Eb as [Eb ?]).
      match goal with H : (1 * GB <? _) = false |- _ => apply Z.ltb_ge in H; change (1 * GB) with 1073741824 in H end.
      right. rewrite u32_small; lia. }
  split; [|lia]. unfold cs_inv. change (zlen (@nil Z)) with 0.
  splits; try done; try (unfold s', LZ4_resetStream_fast, LZ4_prepareTable; done); try lia.
  - split; [done|]. intros h Hh. by destruct (He h Hh).
  - constructor.
Qed.
