(* ===== verification/Lz4StreamCompressTheorems.v ===== *)
(** The correctness of the streaming compressor: blocks that refer to earlier
    ones, dictionaries, and the round trip with the streaming decoder. *)
From S2P Require Import Prelude.
From S2P Require Import Mem.
From S2P Require Import BlockFormat.
From S2P Require Import Lz4Common.
From S2P Require Import Lz4Decompress.
From S2P Require Import Lz4DecodeSpec.
From S2P Require Import Lz4DecodeApi.
From S2P Require Import Lz4DecodeTheorems.
From S2P Require Import Lz4StreamTheorems.
From S2P Require Import Lz4Compress.
From S2P Require Import Lz4CompressGeneric.
From S2P Require Import Lz4CompressSpec.
From S2P Require Import Lz4CompressTheorems.
From S2P Require Import Lz4StreamCompress.
From S2P Require Import Lz4StreamCompressSpec.
From S2P Require Import Lz4StreamDict.

(** * One block *)

(** C19.  [LZ4_compress_fast_continue] on any state that remembers a history,
    with the input behind the history (prefix mode), elsewhere (external
    dictionary) or overwriting its beginning: the call stays within its
    buffers, a result other than 0 is the size of a conforming block that
    stands for the input after the remaining history, the new state remembers
    an end of that history and the input, also when a block did not fit, and
    with a capacity of [LZ4_compressBound] the result is never 0. *)
Theorem compress_fast_continue_spec s hist src inp dst cap accel m :
  cs_inv s hist -> cbufs_ok m src inp dst cap -> 0 < src ->
  continue_pre s hist src inp dst cap m ->
  wp (LZ4_compress_fast_continue s src dst (zlen inp) cap accel)
    (continue_post s hist src inp dst cap m) m.
Proof. intros. by apply continue_ok. Qed.

Lemma compress_fast_continue_witness :
  exists r m', LZ4_compress_fast_continue LZ4_initStream 100 200 48 80 1 sample_cmem = Ok r m' /\
    continue_post LZ4_initStream [] 100 sample_text 200 80 sample_cmem r m'.
Proof.
  destruct (wp_inv _ _ _ (compress_fast_continue_spec LZ4_initStream [] 100 sample_text 200 80 1
    sample_cmem cs_init ltac:(eval_decide) ltac:(lia)
    ltac:(split; [by left|split; [apply holds_nil|by left]]))) as (r & m' & E & H).
  exists r, m'. split; [exact E|exact H].
Defined.

(** * A stream of blocks *)

(** Compress and decode blocks one after the other: the input blocks lie one
    behind the other at [src], each compressed block goes to [dst], and the
    decoded blocks one behind the other to [out]. *)
Fixpoint stream_trip (s : LZ4_stream_t) (sd : LZ4_streamDecode_t) (src dst cap out accel : Z)
    (sizes : list Z) : M bool :=
  match sizes with
  | [] => mret true
  | n :: sizes =>
      r ← LZ4_compress_fast_continue s src dst n cap accel;
      if r.1 =? 0 then mret false else
      p ← LZ4_decompress_safe_continue sd dst out r.1 n;
      if p.1 =? n then stream_trip r.2 p.2 (src + n) dst cap (out + n) accel sizes
      else mret false
  end.

(** The state of the decoder behind a contiguous output. *)
Lemma safe_continue_shape sd src dst n cap m p m' :
  LZ4_decompress_safe_continue sd src dst n cap m = Ok p m' ->
  prefixSize sd = 0 \/ prefixEnd sd = dst -> 0 < p.1 ->
  p.2 = StreamDecode (externalDict sd) (dst + p.1) (extDictSize sd) (prefixSize sd + p.1).
Proof.
  unfold LZ4_decompress_safe_continue, mbind, M_bind. intros H Hor Hp.
  destruct (Z.eqb_spec (prefixSize sd) 0) as [E|E].
  - destruct (LZ4_decompress_safe src dst n cap m) as [r m1| |]; [|done..].
    rewrite E. destruct (Z.leb_spec r 0); injection H as <- <-; simpl in *; [lia|done].
  - destruct Hor as [?|<-]; [done|]. rewrite Z.eqb_refl in H.
    match type of H with match ?c with Ok _ _ => _ | _ => _ end = _ => destruct c as [r m1| |] end; [|done..].
    destruct (Z.leb_spec r 0); injection H as <- <-; simpl in *; [lia|done].
Qed.

(** What is decoded after the blocks [T]: the state of the decoder, and the
    contract of the next block. *)
Definition out_state (T : list Z) (out : Z) : LZ4_streamDecode_t :=
  match T with [] => zero_streamDecode | _ => StreamDecode NULL (out + zlen T) 0 (zlen T) end.

Lemma out_state_inv T out m :
  0 < out -> holds m out T -> sd_inv (out_state T out) m [] T.
Proof.
  intros Ho Hh. destruct T as [|x T]; [apply sd_create_inv|]. unfold out_state, sd_inv. simpl.
  replace (out + zlen (x :: T) - zlen (x :: T)) with out by lia.
  splits; intros; try done; try lia. apply holds_nil.
Qed.

Lemma trip_decode_block T out c enc dst m :
  0 < out -> holds m out T -> bufs_ok m dst enc (out + zlen T) (zlen c) -> c <> [] ->
  encodes T c enc ->
  exists m', LZ4_decompress_safe_continue (out_state T out) dst (out + zlen T) (zlen enc) (zlen c) m =
      Ok (zlen c, out_state (T ++ c) out) m' /\
    holds m' (out + zlen T) c /\ frame (out + zlen T) (out + zlen T + zlen c) m m'.
Proof.
  intros Ho Hh Hb Hc He. zlen_facts. apply zlen_pos in Hc.
  assert (prefixSize (out_state T out) = zlen T /\ extDictSize (out_state T out) = 0 /\
    externalDict (out_state T out) = NULL /\
    (prefixSize (out_state T out) = 0 \/ prefixEnd (out_state T out) = out + zlen T)) as (Ep & Ee & Ex & Ed).
  { destruct T; simpl; auto. }
  assert (sd_hist (out_state T out) (out + zlen T) [] T = T) as Es by (unfold sd_hist; by destruct (_ =? _)).
  destruct (safe_continue_ok m (out_state T out) [] T dst enc (out + zlen T) (zlen c)) as [Hdec _];
    [by apply out_state_inv|done| |].
  { unfold sd_disjoint. rewrite Ep, Ee, Ex. unfold NULL. split; [|left; lia].
    destruct T as [|x T]; simpl; [left; unfold NULL; lia|left; lia]. }
  destruct (wp_inv _ _ _ Hdec) as (r & m' & E & Hf & _ & Hcm).
  unfold mbind, M_bind in E. destruct (LZ4_decompress_safe_continue _ _ _ _ _ m) as [p m1| |] eqn:Ec; [|done..].
  injection E as Er <-. destruct He as (b & Eb & Hbc & _ & Hn & Hx). rewrite Es in Hcm.
  destruct (Hcm b c Hbc Eb Hx ltac:(lia) ltac:(by left)) as [-> Hh'].
  exists m1. split; [|done]. f_equal. apply safe_continue_shape in Ec; [|done|lia].
  destruct p as [p1 p2]. simpl in *. subst p1. f_equal. rewrite Ec, Ep, Ee, Ex.
  unfold out_state. destruct (T ++ c) as [|y l] eqn:El.
  - apply (f_equal zlen) in El. rewrite zlen_app, zlen_nil in El. lia.
  - rewrite <- El, zlen_app. f_equal; lia.
Qed.

Section Trip.
Context (src dst cap out accel : Z) (total : list Z).
Context (Hsrc : 0 < src) (Hdst : 0 < dst /\ dst + cap <= 2 ^ 63) (Hcap : 0 <= cap <= int_max).
Context (Hout : 0 < out /\ out + zlen total <= 2 ^ 63) (Hbytes : bytes_ok total).
Context (Hd1 : src + zlen total <= dst \/ dst + cap <= src).
Context (Hd2 : src + zlen total <= out \/ out + zlen total <= src).
Context (Hd3 : dst + cap <= out \/ out + zlen total <= dst).

(** The blocks [T] are done. *)
Definition trip_inv (T hist : list Z) (s : LZ4_stream_t) (m : mem) : Prop :=
  holds m src total /\ mapped m dst cap /\ mapped m out (zlen total) /\ holds m out T /\
  cs_inv s hist /\ holds m (dictionary s) hist /\ (exists pre, T = pre ++ hist) /\
  (hist = [] \/ dictionary s + zlen hist = src + zlen T).

Definition chunk_ok (c : list Z) : Prop :=
  c <> [] /\ zlen c <= LZ4_MAX_INPUT_SIZE /\ LZ4_compressBound (zlen c) <= cap.

Lemma wp_trip_block T hist s c rest (k : Z * LZ4_stream_t -> Z * LZ4_streamDecode_t -> M bool) Q m :
  trip_inv T hist s m -> total = T ++ c ++ rest -> chunk_ok c ->
  (forall r hist' s' m', r <> 0 -> trip_inv (T ++ c) hist' s' m' ->
     wp (k (r, s') (zlen c, out_state (T ++ c) out)) Q m') ->
  wp (r ← LZ4_compress_fast_continue s (src + zlen T) dst (zlen c) cap accel;
      if r.1 =? 0 then mret false else
      p ← LZ4_decompress_safe_continue (out_state T out) dst (out + zlen T) r.1 (zlen c);
      k r p) Q m.
Proof.
  intros (Hh & Hm1 & Hm2 & Ho & Hcs & Hhd & [pre Epre] & Hor) Et (Hne & Hsz & Hbd) Hk.
  assert (zlen total = zlen T + zlen c + zlen rest) as Hz by (rewrite Et, !zlen_app; lia).
  assert (zlen T = zlen pre + zlen hist) as Hzt by (rewrite Epre, zlen_app; lia). zlen_facts.
  assert (0 < zlen c) as Hc0 by by apply zlen_pos. unfold int_max in *.
  pose proof Hbytes as Hb. rewrite Et, !bytes_ok_app in Hb. destruct Hb as (_ & Hbc & _).
  pose proof Hh as Hh2. rewrite Et in Hh2. apply holds_app in Hh2 as [_ [Hhc _]%holds_app].
  change LZ4_MAX_INPUT_SIZE with 2113929216 in Hsz.
  assert (cbufs_ok m (src + zlen T) c dst cap) as Hcb by (unfold cbufs_ok, int_max; splits; try done; lia).
  destruct (disjoint_pre s hist (src + zlen T) c dst cap m) as [Hpre Ek]; [done| |done| |].
  { destruct Hor as [E|E]; [by left|right; right; lia]. }
  { destruct Hor as [E|E]; [by left|right; lia]. }
  apply wp_bind. eapply wp_mono; [apply (continue_ok s hist); [done|done|lia|done]|].
  intros [r s'] m1 (Hf & Hr & Hres & Hst & _ & Hn0). simpl in Hr, Hres, Hst, Hn0. rewrite Ek in Hres, Hst.
  specialize (Hn0 ltac:(change LZ4_MAX_INPUT_SIZE with 2113929216; lia) Hbd).
  destruct (Hres Hn0) as (enc & He & Hez & Henc).
  destruct (Hst ltac:(by left)) as (hist' & Hcs' & Hh' & Hend & _ & [pre' Epre']).
  cbn [fst]. destruct (Z.eqb_spec r 0); [done|]. rewrite <- Hez.
  assert (holds m1 out T) as Ho1 by (eapply frame_holds; [exact Hf|lia|done]).
  assert (bufs_ok m1 dst enc (out + zlen T) (zlen c)) as Hbo.
  { unfold bufs_ok, int_max. splits; try done; try lia.
    - destruct He as (b & -> & [Hw _] & _). by apply enc_block_bytes.
    - eapply frame_mapped; [exact Hf|]. eapply mapped_sub; [exact Hm2|lia|lia]. }
  destruct (trip_decode_block T out c enc dst m1) as (m2 & E & Hhc2 & Hf2); try done; try lia.
  { rewrite Epre. by apply encodes_older. }
  apply wp_bind. unfold wp at 1. rewrite E. rewrite Hez. apply (Hk r hist'); [done|].
  assert (frame out (out + zlen total) m1 m2) as Hf2' by (eapply frame_weaken; [exact Hf2|lia|lia]).
  assert (zlen hist' <= zlen T + zlen c) as Hzh.
  { apply (f_equal zlen) in Epre'. rewrite !zlen_app in Epre'. zlen_facts. lia. }
  split; [eapply frame_holds; [exact Hf2'|lia|]; eapply frame_holds; [exact Hf|lia|done]|].
  split; [do 2 (eapply frame_mapped; [eassumption|]); done|].
  split; [do 2 (eapply frame_mapped; [eassumption|]); done|].
  split; [apply holds_app; split; [eapply frame_holds; [exact Hf2|lia|done]|done]|].
  split; [done|]. split; [eapply frame_holds; [exact Hf2'|lia|done]|].
  split; [exists (pre ++ pre'); by rewrite Epre, <- !app_assoc, Epre'|]. right. rewrite zlen_app. lia.
Qed.

Lemma wp_stream_trip chunks : forall T hist s m,
  trip_inv T hist s m -> total = T ++ concat chunks -> Forall chunk_ok chunks ->
  wp (stream_trip s (out_state T out) (src + zlen T) dst cap (out + zlen T) accel (map zlen chunks))
    (fun ok m' => ok = true /\ holds m' out total) m.
Proof.
  induction chunks as [|c chunks IH]; intros T hist s m HI Et Hch.
  - simpl in *. apply wp_ret. split; [done|]. rewrite Et, app_nil_r. apply HI.
  - apply Forall_cons_iff in Hch as [Hc Hch]. cbn [stream_trip map].
    eapply (wp_trip_block T hist s c (concat chunks)); [done|done|done|].
    intros r hist' s' m' Hr HI'. simpl. rewrite Z.eqb_refl.
    replace (src + zlen T + zlen c) with (src + zlen (T ++ c)) by (rewrite zlen_app; lia).
    replace (out + zlen T + zlen c) with (out + zlen (T ++ c)) by (rewrite zlen_app; lia).
    eapply IH; [exact HI'|by rewrite <- app_assoc|done].
Qed.
End Trip.

(** The buffers of a streaming round trip. *)
Definition stream_bufs (m : mem) (src : Z) (total : list Z) (dst cap out : Z) : Prop :=
  (0 < src /\ 0 < dst /\ dst + cap <= 2 ^ 63 /\ 0 <= cap <= int_max) /\
  (0 < out /\ out + zlen total <= 2 ^ 63 /\ bytes_ok total) /\
  (src + zlen total <= dst \/ dst + cap <= src) /\
  (src + zlen total <= out \/ out + zlen total <= src) /\
  (dst + cap <= out \/ out + zlen total <= dst) /\
  holds m src total /\ mapped m dst cap /\ mapped m out (zlen total).

#[export] Instance stream_bufs_dec m src total dst cap out : Decision (stream_bufs m src total dst cap out).
Proof. unfold stream_bufs, bytes_ok. apply _. Defined.

(** The whole session, with the outcomes of the allocations of the two states. *)
Definition stream_session (compAlloc decAlloc : bool) (src dst cap out accel : Z) (sizes : list Z) : M bool :=
  match LZ4_createStream compAlloc, LZ4_createStreamDecode decAlloc with
  | Some s, Some sd => stream_trip s sd src dst cap out accel sizes
  | _, _ => mret false
  end.

(** C20.  Streaming round trip: any sequence of non-empty blocks that follow each
    other in memory, compressed one after the other by
    [LZ4_compress_fast_continue] with capacity [LZ4_compressBound] and decoded one
    after the other to adjacent places by [LZ4_decompress_safe_continue], is
    restored.  The session fails only when one of its two states cannot be
    allocated. *)
Theorem stream_roundtrip compAlloc decAlloc m src dst cap out accel chunks :
  stream_bufs m src (concat chunks) dst cap out -> Forall (chunk_ok cap) chunks ->
  wp (stream_session compAlloc decAlloc src dst cap out accel (map zlen chunks))
    (fun ok m' => ok = compAlloc && decAlloc /\ (ok = true -> holds m' out (concat chunks))) m.
Proof.
  intros ((? & ? & ? & ?) & (? & ? & ?) & ? & ? & ? & Hh & Hm1 & Hm2) Hch.
  destruct compAlloc, decAlloc; try by apply wp_ret. unfold stream_session. cbn [andb LZ4_createStream LZ4_createStreamDecode].
  eapply (wp_mono _ (fun ok m' => ok = true /\ holds m' out (concat chunks))); [|by intros ok m' [-> ?]].
  pose proof (wp_stream_trip src dst cap out accel (concat chunks)) as H'.
  specialize (H' ltac:(done) ltac:(done) ltac:(done) ltac:(done) ltac:(done) ltac:(done) ltac:(done)
    ltac:(done) chunks [] [] LZ4_initStream m).
  change (zlen (@nil Z)) with 0 in H'. rewrite !Z.add_0_r in H'. apply H'; [|done|done].
  split; [done|]. split; [done|]. split; [done|]. split; [apply holds_nil|]. split; [apply cs_init|].
  split; [apply holds_nil|]. split; [by exists []|by left].
Qed.

Lemma stream_roundtrip_witness :
  exists m', stream_session true true 100 200 80 300 1 [20; 16; 12] sample_cmem = Ok true m' /\
    holds m' 300 sample_text.
Proof.
  pose (chunks := [take 20 sample_text; take 16 (drop 20 sample_text); drop 36 sample_text]).
  destruct (wp_inv _ _ _ (stream_roundtrip true true sample_cmem 100 200 80 300 1 chunks
    ltac:(eval_decide)
    ltac:(repeat (apply Forall_cons; [split; [discriminate|split; vm_compute; discriminate]|]); constructor)))
    as (ok & m' & E & -> & H).
  exists m'. split; [exact E|exact (H eq_refl)].
Defined.

(** * Dictionaries *)

(** C29.  [LZ4_loadDict] and [LZ4_loadDictSlow] hash the last 64 KB of the
    dictionary without reading outside it, return the size that is used, and
    leave a state that remembers exactly these bytes, in which no entry of the
    hash table lies between the last 64 KB window and the dictionary. *)
Theorem loadDict_spec st dict dl ld m :
  0 < dict -> holds m dict dl -> bytes_ok dl -> zlen dl <= int_max ->
  wp (LZ4_loadDict_internal st dict (zlen dl) ld) (fun r m' =>
    m' = m /\ r.1 = zlen (loaded dl) /\ dict_inv r.2 (loaded dl) /\
    holds m (dictionary r.2) (loaded dl)) m.
Proof.
  intros. eapply wp_mono; [by apply loadDict_ok|]. intros r m' (? & ? & ? & _ & ?). done.
Qed.

Lemma loadDict_witness :
  exists r, LZ4_loadDict_internal LZ4_initStream 100 48 ld_slow sample_cmem = Ok r sample_cmem /\
    r.1 = 48 /\ dict_inv r.2 sample_text.
Proof.
  destruct (wp_inv _ _ _ (loadDict_spec LZ4_initStream 100 sample_text ld_slow sample_cmem
    ltac:(lia) ltac:(eval_decide) ltac:(eval_decide) ltac:(vm_compute; discriminate)))
    as (r & m' & E & -> & H1 & H2 & _).
  exists r. split; [exact E|]. split; [exact H1|exact H2].
Defined.

(** C30.  With a dictionary attached by [LZ4_attach_dictionary], the next block
    is compressed against the dictionary, whether its table is searched in
    place (up to 4 KB of input) or copied, and [LZ4_decompress_safe_usingDict]
    with the same dictionary restores the input. *)
Theorem attached_dictionary_roundtrip w d dl src inp dst cap accel out dcopy m :
  cs_inv w [] -> currentOffset w = 0 \/ 64 * KB <= currentOffset w -> dict_inv d dl -> dl <> [] ->
  holds m (dictionary d) dl -> cbufs_ok m src inp dst cap -> 0 < src -> inp <> [] ->
  (dictionary d + zlen dl <= src \/ src + zlen inp <= dictionary d) ->
  (dictionary d + zlen dl <= dst \/ dst + cap <= dictionary d) ->
  dict_ok m dcopy dl out (zlen inp) -> (dcopy + zlen dl <= dst \/ dst + cap <= dcopy) ->
  0 < dst /\ dst + cap <= 2 ^ 63 -> 0 < out /\ out + zlen inp <= 2 ^ 63 ->
  mapped m out (zlen inp) -> dst + cap <= out \/ out + zlen inp <= dst ->
  wp (r ← LZ4_compress_fast_continue (LZ4_attach_dictionary w (Some d)) src dst (zlen inp) cap accel;
      if r.1 =? 0 then mret (r.1, 0) else
      r' ← LZ4_decompress_safe_usingDict dst out r.1 (zlen inp) dcopy (zlen dl);
      mret (r.1, r'))
    (fun r m' => (r.1 <> 0 -> r.2 = zlen inp /\ holds m' out inp) /\
       (zlen inp <= LZ4_MAX_INPUT_SIZE -> LZ4_compressBound (zlen inp) <= cap -> r.1 <> 0)) m.
Proof.
  intros Hw Hw0 Hd Hdl Hmem Hb Hs Hne Hx1 Hx2 (Hdc0 & Hdch & Hdcd) Hx3 [Hd1 Hd2] [Ho1 Ho2] Hm Hx4.
  apply wp_bind. eapply wp_mono; [by apply (attach_ok w d dl src inp)|].
  intros [r s'] m1 (Hf & Hr & Hres & _ & Hn0). simpl in Hr, Hres, Hn0. cbn [fst].
  destruct (Z.eqb_spec r 0) as [E|E]; [by apply wp_ret|].
  destruct (Hres E) as (enc & He & <- & Henc). pose proof Hb as (_ & Hi & Hc & _). zlen_facts.
  assert (bufs_ok m1 dst enc out (zlen inp)) as Hbo.
  { unfold bufs_ok, int_max in *. splits; try done; try lia.
    - destruct He as (b & -> & [Hwf _] & _). by apply enc_block_bytes.
    - by eapply frame_mapped. }
  assert (dict_ok m1 dcopy dl out (zlen inp)) as Hdo.
  { split; [done|]. split; [eapply frame_holds; [exact Hf|lia|done]|done]. }
  apply wp_bind. eapply wp_mono; [by apply safe_usingDict_ok|].
  intros r' m2 (_ & _ & Hcm). apply wp_ret. split; [|done]. intros _.
  apply (encodes_decodes m1 dst enc dl inp out (zlen inp)); [exact He|lia|exact Hcm|exact Hbo].
Qed.

Definition sample_dmem : mem :=
  mem_of [(100, sample_text); (200, replicate 80 0); (300, replicate 48 0); (400, sample_text)].

Lemma attached_dictionary_witness :
  exists d r m', LZ4_loadDict_internal LZ4_initStream 400 48 ld_fast sample_dmem = Ok d sample_dmem /\
    (r ← LZ4_compress_fast_continue (LZ4_attach_dictionary LZ4_initStream (Some d.2)) 100 200 48 80 1;
     if r.1 =? 0 then mret (r.1, 0) else
     r' ← LZ4_decompress_safe_usingDict 200 300 r.1 48 400 48; mret (r.1, r')) sample_dmem = Ok r m' /\
    r.2 = 48 /\ holds m' 300 sample_text.
Proof.
  destruct (wp_inv _ _ _ (loadDict_ok LZ4_initStream 400 sample_text ld_fast sample_dmem
    ltac:(lia) ltac:(eval_decide) ltac:(eval_decide) ltac:(vm_compute; discriminate)))
    as (d & m' & E & -> & _ & Hd & Hend & Hh).
  assert (dictionary d.2 = 400) as Ed.
  { specialize (Hend ltac:(vm_compute; discriminate)).
    change (zlen (loaded sample_text)) with 48 in Hend. change (zlen sample_text) with 48 in Hend. lia. }
  destruct (wp_inv _ _ _ (attached_dictionary_roundtrip LZ4_initStream d.2 sample_text 100 sample_text
    200 80 1 300 400 sample_dmem cs_init ltac:(by left) Hd ltac:(discriminate) Hh ltac:(eval_decide)
    ltac:(lia) ltac:(discriminate)
    ltac:(rewrite Ed; right; vm_compute; discriminate) ltac:(rewrite Ed; right; lia)
    ltac:(eval_decide) ltac:(right; lia) ltac:(lia) ltac:(eval_decide) ltac:(eval_decide) ltac:(eval_decide)))
    as (r & m' & E' & H & Hn).
  exists d, r, m'. split; [exact E|]. split; [exact E'|]. apply H, Hn; vm_compute; discriminate.
Defined.

(** C31.  [LZ4_saveDict] moves the last bytes of the history, at most 64 KB and
    at most what is asked for, to the safe buffer, and the state remembers
    exactly them, so that compression goes on from there. *)
Theorem saveDict_spec s hist buf size m :
  cs_inv s hist -> holds m (dictionary s) hist -> 0 < buf -> int_min <= size <= int_max ->
  mapped m buf (saved_size hist size) ->
  wp (LZ4_saveDict s buf size) (fun r m' =>
    let h := last_n (saved_size hist size) hist in
    r.1 = saved_size hist size /\ frame buf (buf + saved_size hist size) m m' /\
    cs_inv r.2 h /\ dictionary r.2 = buf /\ holds m' buf h) m.
Proof.
  intros. eapply wp_mono; [by apply saveDict_ok|]. intros r m' (? & ? & ? & ? & ? & _). done.
Qed.

Lemma saveDict_witness :
  exists d r m', LZ4_loadDict_internal LZ4_initStream 100 48 ld_fast sample_cmem = Ok d sample_cmem /\
    LZ4_saveDict d.2 300 10 sample_cmem = Ok r m' /\ r.1 = 10 /\ cs_inv r.2 (last_n 10 sample_text).
Proof.
  destruct (wp_inv _ _ _ (loadDict_ok LZ4_initStream 100 sample_text ld_fast sample_cmem
    ltac:(lia) ltac:(eval_decide) ltac:(eval_decide) ltac:(vm_compute; discriminate)))
    as (d & m' & E & -> & _ & [Hd _] & _ & Hh).
  destruct (wp_inv _ _ _ (saveDict_spec d.2 sample_text 300 10 sample_cmem Hd Hh ltac:(lia)
    ltac:(unfold int_min, int_max; lia) ltac:(eval_decide))) as (r & m' & E' & H1 & _ & H2 & _).
  exists d, r, m'. split; [exact E|]. split; [exact E'|]. split; [exact H1|exact H2].
Defined.

(** [LZ4_resetStream_fast] makes any state that one-shot compressions
    left fit for streaming with an empty history, without clearing its table,
    and its offset is 0 or a window ahead of every entry. *)
Theorem resetStream_fast_spec s :
  stream_wf s ->
  cs_inv (LZ4_resetStream_fast s) [] /\
  (currentOffset (LZ4_resetStream_fast s) = 0 \/ 64 * KB <= currentOffset (LZ4_resetStream_fast s)).
Proof. intros H. by apply resetStream_fast_ok. Qed.

Lemma resetStream_fast_witness : cs_inv (LZ4_resetStream_fast LZ4_initStream) [].
Proof. exact (proj1 (resetStream_fast_spec LZ4_initStream init_wf)). Defined.
