(* ===== verification/Lz4UnsafeTheorems.v ===== *)
(** The properties of the deprecated decoders [LZ4_decompress_fast*]. *)
From S2P Require Import Prelude.
From S2P Require Import Mem.
From S2P Require Import BlockFormat.
From S2P Require Import Lz4Common.
From S2P Require Import Lz4Decompress.
From S2P Require Import Lz4DecodeSpec.
From S2P Require Import Lz4DecodeTheorems.
From S2P Require Import Lz4DecodeApi.
From S2P Require Import Lz4StreamTheorems.
From S2P Require Import Lz4UnsafeSpec.
From S2P Require Import Lz4Compress.
From S2P Require Import Lz4CompressGeneric.
From S2P Require Import Lz4CompressSpec.
From S2P Require Import Lz4CompressTheorems.

Lemma sample_trusted : trusted_block sample_dict sample_dict_block
  [97; 98; 50; 51; 52; 53; 54; 55; 56; 57; 101; 102; 103; 104; 105].
Proof. split; [apply sample_dict_conforming|]. split; [by repeat constructor|reflexivity]. Qed.

(** C35.  [LZ4_decompress_fast_usingDict] on a conforming block with valid
    offsets, given the exact size of its content: the call returns the size of
    the block, reads only the block and the dictionary, writes exactly the bytes
    the block stands for after the dictionary, and nothing else; the dictionary
    may be empty, lie just in front of the output, or elsewhere. *)
Theorem decompress_fast_usingDict_spec m src b o dst dict d :
  trusted_block d b o -> bufs_ok m src (enc_block b) dst (zlen o) -> dst + zlen o <= 2 ^ 62 ->
  dict_ok m dict d dst (zlen o) -> zlen d < 2 ^ 62 ->
  wp (LZ4_decompress_fast_usingDict src dst (zlen o) dict (zlen d)) (fun r m' =>
    r = zlen (enc_block b) /\ holds m' dst o /\ frame dst (dst + zlen o) m m') m.
Proof. intros. by apply fast_usingDict_ok. Qed.

Lemma decompress_fast_usingDict_witness :
  exists m', LZ4_decompress_fast_usingDict 150 200 15 300 10 sample_mem = Ok 11 m' /\
    holds m' 200 [97; 98; 50; 51; 52; 53; 54; 55; 56; 57; 101; 102; 103; 104; 105].
Proof.
  destruct (wp_inv _ _ _ (decompress_fast_usingDict_spec sample_mem 150 sample_dict_block _ 200 300
    sample_dict sample_trusted ltac:(eval_decide) ltac:(vm_compute; discriminate) ltac:(eval_decide)
    ltac:(vm_compute; reflexivity))) as (r & m' & E & -> & H & _).
  exists m'. split; [exact E|exact H].
Defined.

(** * Streams *)

Section FastContinue.
Context (m : mem) (sd : LZ4_streamDecode_t) (dictl pre : list Z).
Context (src : Z) (b : block) (o : list Z) (dst : Z).
Context (Hinv : sd_inv sd m dictl pre) (Hbufs : bufs_ok m src (enc_block b) dst (zlen o)).
Context (Hdisj : sd_disjoint sd dst (zlen o)) (Htop : dst + zlen o <= 2 ^ 62).
Context (Hsz : zlen dictl + zlen pre < 2 ^ 62) (Hne : o <> []).

(** The result and the state of a call. *)
Definition fast_continues (c : M (Z * LZ4_streamDecode_t)) (hist : list Z) : Prop :=
  wp c (fun r m' => r.1 = zlen (enc_block b) /\ holds m' dst o /\
    frame dst (dst + zlen o) m m' /\
    exists dictl' pre', sd_inv r.2 m' dictl' pre' /\ dictl' ++ pre' = hist ++ o) m.

Lemma enc_block_pos : 0 < zlen (enc_block b).
Proof. unfold enc_block, enc_last. rewrite !zlen_app, zlen_cons. zl. Qed.

(** A decoder followed by the update of the state. *)
Lemma fast_continues_intro (c : M Z) sd0 hist st :
  decodes_trusted c m b o dst ->
  (forall m', frame dst (dst + zlen o) m m' -> holds m' dst o ->
     exists dictl' pre', sd_inv st m' dictl' pre' /\ dictl' ++ pre' = hist ++ o) ->
  fast_continues (result ← c; if result <=? 0 then mret (result, sd0) else mret (result, st)) hist.
Proof.
  intros Hc Hst. apply wp_bind. eapply wp_mono; [exact Hc|]. intros r m' (-> & Hh & Hf).
  pose proof enc_block_pos. destruct (Z.leb_spec (zlen (enc_block b)) 0); [lia|].
  apply wp_ret. cbn [fst snd]. split; [done|]. split; [done|]. split; [done|by apply Hst].
Qed.

Lemma fast_continue_ok :
  trusted_block (sd_hist sd dst dictl pre) b o ->
  fast_continues (LZ4_decompress_fast_continue sd src dst (zlen o)) (sd_hist sd dst dictl pre).
Proof.
  intros Ht. pose proof Hinv as (E1 & E2 & H0 & Hp0 & Hp & Hd0 & Hd).
  unfold LZ4_decompress_fast_continue. destruct (Z.eqb_spec (prefixSize sd) 0) as [Ez|Ez].
  - assert (pre = []) as Epre by (apply zlen_0_nil; lia). specialize (H0 Epre).
    assert (sd_hist sd dst dictl pre = []) as Eh.
    { unfold sd_hist. rewrite H0, Epre. by destruct (_ =? _). }
    rewrite Eh in *. apply fast_continues_intro; [by apply fast_ok|].
    intros m' Hf Hh. exists [], o. split; [|done].
    eapply sd_inv_fresh; [exact Hbufs|by rewrite E2, H0|done|apply holds_nil|done|done].
  - assert (pre <> []) as Hpn by (intros ->; rewrite zlen_nil in *; lia). specialize (Hp0 Hpn).
    unfold sd_hist in *. destruct (Z.eqb_spec (prefixEnd sd) dst) as [Ee|Ee].
    + apply fast_continues_intro.
      * rewrite E1, E2. eapply unsafe_ok; [done|done|done|by rewrite <- Ee|lia|done| |lia].
        destruct Hdisj as [_ D]. by rewrite E2 in D.
      * intros m' Hf Hh. destruct (sd_inv_frame _ _ _ _ _ _ _ Hinv Hdisj Hf) as [Hp' Hd'].
        exists dictl, (pre ++ o). split; [|by rewrite app_assoc]. zlen_facts.
        unfold sd_inv; simpl. rewrite zlen_app, E1.
        replace (prefixEnd sd + zlen o - (zlen pre + zlen o)) with (prefixEnd sd - zlen pre) by lia.
        split; [done|]. split; [done|]. split; [by intros [-> _]%app_nil|]. split; [lia|].
        split; [|done]. apply holds_app. split; [done|].
        by replace (prefixEnd sd - zlen pre + zlen pre) with dst by lia.
    + cbn [externalDict extDictSize]. apply fast_continues_intro.
      * rewrite E1. eapply fast_extDict_ok; [done|done|done| |zl].
        split; [lia|]. split; [done|]. destruct Hdisj as [D _]. rewrite E1 in D. lia.
      * intros m' Hf Hh. destruct (sd_inv_frame _ _ _ _ _ _ _ Hinv Hdisj Hf) as [Hp' _].
        exists pre, o. split; [|done]. rewrite E1.
        eapply sd_inv_fresh; [exact Hbufs|done|lia|done|done|done].
Qed.
End FastContinue.

(** C36.  [LZ4_decompress_fast_continue] decodes a block against the history its
    state stands for, in its three branches, and the new state stands for that
    history extended by the output. *)
Theorem decompress_fast_continue_spec m sd dictl pre src b o dst :
  sd_inv sd m dictl pre -> bufs_ok m src (enc_block b) dst (zlen o) ->
  sd_disjoint sd dst (zlen o) -> dst + zlen o <= 2 ^ 62 -> zlen dictl + zlen pre < 2 ^ 62 ->
  o <> [] -> trusted_block (sd_hist sd dst dictl pre) b o ->
  wp (LZ4_decompress_fast_continue sd src dst (zlen o)) (fun r m' =>
    r.1 = zlen (enc_block b) /\ holds m' dst o /\ frame dst (dst + zlen o) m m' /\
    exists dictl' pre', sd_inv r.2 m' dictl' pre' /\
      dictl' ++ pre' = sd_hist sd dst dictl pre ++ o) m.
Proof. intros. by apply fast_continue_ok. Qed.

Lemma decompress_fast_continue_witness :
  exists m', LZ4_decompress_fast_continue sample_sd 150 200 15 sample_mem =
    Ok (11, StreamDecode 300 215 10 15) m'.
Proof.
  destruct (wp_inv _ _ _ (decompress_fast_continue_spec sample_mem sample_sd [] sample_dict 150
    sample_dict_block [97; 98; 50; 51; 52; 53; 54; 55; 56; 57; 101; 102; 103; 104; 105] 200
    ltac:(eval_decide) ltac:(eval_decide) ltac:(eval_decide) ltac:(vm_compute; discriminate)
    ltac:(vm_compute; reflexivity) ltac:(discriminate) sample_trusted)) as (r & m' & E & _).
  exists m'. assert (r = (11, StreamDecode 300 215 10 15)) as <-; [|exact E].
  assert (match LZ4_decompress_fast_continue sample_sd 150 200 15 sample_mem with
          | Ok r _ => Some r | _ => None end = Some (11, StreamDecode 300 215 10 15)) as G
    by (vm_compute; reflexivity).
  change (zlen [97; 98; 50; 51; 52; 53; 54; 55; 56; 57; 101; 102; 103; 104; 105]) with 15 in E.
  rewrite E in G. congruence.
Defined.

(** Round trip: [LZ4_decompress_fast], given the size of the input, gives
    back what [LZ4_compress_default] compressed, and returns the size of the
    block. *)
Theorem compress_decompress_fast_roundtrip m src inp dst cap back :
  trip_bufs m src inp dst cap back -> back + zlen inp <= 2 ^ 62 ->
  wp (r ← LZ4_compress_default src dst (zlen inp) cap;
      if r =? 0 then mret (r, 0) else
      r' ← LZ4_decompress_fast dst back (zlen inp); mret (r, r'))
    (fun r m' => r.1 <> 0 -> r.2 = r.1 /\ holds m' back inp) m.
Proof.
  intros Hb Htop. pose proof Hb as (Hcb & Hm & Hd & H1 & H2 & H3 & H4). apply wp_bind.
  eapply wp_mono; [by apply compress_fast_ok|]. intros r m1 (Hf & Hr & He & Hn).
  destruct (Z.eqb_spec r 0) as [E|E]; [by apply wp_ret|].
  destruct (He E) as (enc & (b & -> & Hc & Hz & _ & Hx) & <- & G3). apply wp_bind.
  pose proof Hcb as (_ & Hi & Hcap & _). zlen_facts.
  assert (bufs_ok m1 dst (enc_block b) back (zlen inp)) as Hbufs.
  { split; [lia|]. split; [lia|]. split; [lia|]. split; [lia|]. split.
    - destruct Hc as [Hw _]. by apply enc_block_bytes.
    - split; [done|]. split; [by eapply frame_mapped|lia]. }
  eapply wp_mono; [by eapply fast_ok|]. intros r' m' (-> & Hh & _). by apply wp_ret.
Qed.

Lemma compress_decompress_fast_witness :
  exists r m', (r ← LZ4_compress_default 100 200 48 80;
      if r =? 0 then mret (r, 0) else
      r' ← LZ4_decompress_fast 200 300 48; mret (r, r')) sample_cmem = Ok r m' /\
    (r.1 <> 0 -> r.2 = r.1 /\ holds m' 300 sample_text).
Proof.
  exact (wp_inv _ _ _ (compress_decompress_fast_roundtrip sample_cmem 100 sample_text 200 80 300
    ltac:(eval_decide) ltac:(vm_compute; discriminate))).
Defined.
