(* ===== verification/Lz4Frame.v ===== *)
(** lib/lz4frame.c, the parts that compression and decompression of frames
    share: constants, error codes, frame parameters, little-endian accesses, the
    header checksum, block sizes and the bounds on the compressed size. *)
From S2P Require Import Prelude.
From S2P Require Import Mem.
From S2P Require Import Xxhash.
From S2P Require Import Lz4Common.
From S2P Require Import Lz4Decompress.

(** * Error management *)

(** The list [LZ4F_LIST_ERRORS]. *)
Inductive LZ4F_errorCodes :=
| LZ4F_OK_NoError
| LZ4F_ERROR_GENERIC
| LZ4F_ERROR_maxBlockSize_invalid
| LZ4F_ERROR_blockMode_invalid
| LZ4F_ERROR_parameter_invalid
| LZ4F_ERROR_compressionLevel_invalid
| LZ4F_ERROR_headerVersion_wrong
| LZ4F_ERROR_blockChecksum_invalid
| LZ4F_ERROR_reservedFlag_set
| LZ4F_ERROR_allocation_failed
| LZ4F_ERROR_srcSize_tooLarge
| LZ4F_ERROR_dstMaxSize_tooSmall
| LZ4F_ERROR_frameHeader_incomplete
| LZ4F_ERROR_frameType_unknown
| LZ4F_ERROR_frameSize_wrong
| LZ4F_ERROR_srcPtr_wrong
| LZ4F_ERROR_decompressionFailed
| LZ4F_ERROR_headerChecksum_invalid
| LZ4F_ERROR_contentChecksum_invalid
| LZ4F_ERROR_frameDecoding_alreadyStarted
| LZ4F_ERROR_compressionState_uninitialized
| LZ4F_ERROR_parameter_null
| LZ4F_ERROR_io_write
| LZ4F_ERROR_io_read
| LZ4F_ERROR_maxCode.

#[export] Instance LZ4F_errorCodes_eq_dec : EqDecision LZ4F_errorCodes.
Proof. solve_decision. Defined.

(** The enumeration in order. *)
Definition all_errorCodes : list LZ4F_errorCodes :=
  [LZ4F_OK_NoError; LZ4F_ERROR_GENERIC; LZ4F_ERROR_maxBlockSize_invalid;
   LZ4F_ERROR_blockMode_invalid; LZ4F_ERROR_parameter_invalid;
   LZ4F_ERROR_compressionLevel_invalid; LZ4F_ERROR_headerVersion_wrong;
   LZ4F_ERROR_blockChecksum_invalid; LZ4F_ERROR_reservedFlag_set;
   LZ4F_ERROR_allocation_failed; LZ4F_ERROR_srcSize_tooLarge;
   LZ4F_ERROR_dstMaxSize_tooSmall; LZ4F_ERROR_frameHeader_incomplete;
   LZ4F_ERROR_frameType_unknown; LZ4F_ERROR_frameSize_wrong; LZ4F_ERROR_srcPtr_wrong;
   LZ4F_ERROR_decompressionFailed; LZ4F_ERROR_headerChecksum_invalid;
   LZ4F_ERROR_contentChecksum_invalid; LZ4F_ERROR_frameDecoding_alreadyStarted;
   LZ4F_ERROR_compressionState_uninitialized; LZ4F_ERROR_parameter_null;
   LZ4F_ERROR_io_write; LZ4F_ERROR_io_read; LZ4F_ERROR_maxCode].

Definition error_index (e : LZ4F_errorCodes) : Z :=
  match list_find (fun x => x = e) all_errorCodes with
  | Some (i, _) => Z.of_nat i
  | None => 0
  end.

Definition LZ4F_isError (code : Z) : bool := u64 (- error_index LZ4F_ERROR_maxCode) <? code.

Definition LZ4F_returnErrorCode (code : LZ4F_errorCodes) : Z := u64 (- error_index code).

(** The error with the index [- functionResult], read as a signed number. *)
Definition LZ4F_getErrorCode (functionResult : Z) : LZ4F_errorCodes :=
  if negb (LZ4F_isError functionResult) then LZ4F_OK_NoError
  else nth (Z.to_nat (2 ^ 64 - functionResult)) all_errorCodes LZ4F_OK_NoError.

(** * Little-endian accesses, byte by byte *)

Definition LZ4F_readLE32 (src : Z) : M Z :=
  b0 ← loadb src; b1 ← loadb (src + 1); b2 ← loadb (src + 2); b3 ← loadb (src + 3);
  let value32 := b0 in
  let value32 := Z.lor value32 (u32 (Z.shiftl b1 8)) in
  let value32 := Z.lor value32 (u32 (Z.shiftl b2 16)) in
  mret (Z.lor value32 (u32 (Z.shiftl b3 24))).

Definition LZ4F_writeLE32 (dst value32 : Z) : M unit :=
  storeb dst (u8 value32);;
  storeb (dst + 1) (u8 (Z.shiftr value32 8));;
  storeb (dst + 2) (u8 (Z.shiftr value32 16));;
  storeb (dst + 3) (u8 (Z.shiftr value32 24)).

Definition LZ4F_readLE64 (src : Z) : M Z :=
  b0 ← loadb src; b1 ← loadb (src + 1); b2 ← loadb (src + 2); b3 ← loadb (src + 3);
  b4 ← loadb (src + 4); b5 ← loadb (src + 5); b6 ← loadb (src + 6); b7 ← loadb (src + 7);
  let value64 := b0 in
  let value64 := Z.lor value64 (u64 (Z.shiftl b1 8)) in
  let value64 := Z.lor value64 (u64 (Z.shiftl b2 16)) in
  let value64 := Z.lor value64 (u64 (Z.shiftl b3 24)) in
  let value64 := Z.lor value64 (u64 (Z.shiftl b4 32)) in
  let value64 := Z.lor value64 (u64 (Z.shiftl b5 40)) in
  let value64 := Z.lor value64 (u64 (Z.shiftl b6 48)) in
  mret (Z.lor value64 (u64 (Z.shiftl b7 56))).

Definition LZ4F_writeLE64 (dst value64 : Z) : M unit :=
  storeb dst (u8 value64);;
  storeb (dst + 1) (u8 (Z.shiftr value64 8));;
  storeb (dst + 2) (u8 (Z.shiftr value64 16));;
  storeb (dst + 3) (u8 (Z.shiftr value64 24));;
  storeb (dst + 4) (u8 (Z.shiftr value64 32));;
  storeb (dst + 5) (u8 (Z.shiftr value64 40));;
  storeb (dst + 6) (u8 (Z.shiftr value64 48));;
  storeb (dst + 7) (u8 (Z.shiftr value64 56)).

(** * Constants *)

Definition MB : Z := 2 ^ 20.
Definition _1BIT : Z := 0x01.
Definition _2BITS : Z := 0x03.
Definition _3BITS : Z := 0x07.
Definition _4BITS : Z := 0x0F.
Definition LZ4F_BLOCKUNCOMPRESSED_FLAG : Z := 0x80000000.
Definition LZ4F_MAGICNUMBER : Z := 0x184D2204.
Definition LZ4F_MAGIC_SKIPPABLE_START : Z := 0x184D2A50.
Definition LZ4F_MIN_SIZE_TO_KNOW_HEADER_LENGTH : Z := 5.
Definition minFHSize : Z := 7.
Definition maxFHSize : Z := 19.
Definition BHSize : Z := 4.
Definition BFSize : Z := 4.

(** * Frame parameters *)

(** The enumerations of lz4frame.h are integers: the code masks the values it
    is given. *)
Definition LZ4F_default : Z := 0.
Definition LZ4F_max64KB : Z := 4.
Definition LZ4F_max256KB : Z := 5.
Definition LZ4F_max1MB : Z := 6.
Definition LZ4F_max4MB : Z := 7.
Definition LZ4F_BLOCKSIZEID_DEFAULT : Z := LZ4F_max64KB.
Definition LZ4F_blockLinked : Z := 0.
Definition LZ4F_blockIndependent : Z := 1.
Definition LZ4F_noContentChecksum : Z := 0.
Definition LZ4F_contentChecksumEnabled : Z := 1.
Definition LZ4F_noBlockChecksum : Z := 0.
Definition LZ4F_blockChecksumEnabled : Z := 1.
Definition LZ4F_frame : Z := 0.
Definition LZ4F_skippableFrame : Z := 1.

Record LZ4F_frameInfo_t := FrameInfo {
  blockSizeID : Z;
  blockMode : Z;
  contentChecksumFlag : Z;
  frameType : Z;
  contentSize : Z;
  dictID : Z;
  blockChecksumFlag : Z }.

Definition LZ4F_INIT_FRAMEINFO : LZ4F_frameInfo_t :=
  FrameInfo LZ4F_max64KB LZ4F_blockLinked LZ4F_noContentChecksum LZ4F_frame 0 0
    LZ4F_noBlockChecksum.

Record LZ4F_preferences_t := Preferences {
  frameInfo : LZ4F_frameInfo_t;
  compressionLevel : Z;
  autoFlush : Z;
  favorDecSpeed : Z }.

Definition LZ4F_INIT_PREFERENCES : LZ4F_preferences_t := Preferences LZ4F_INIT_FRAMEINFO 0 0 0.

(** All bytes 0. *)
Definition zero_frameInfo : LZ4F_frameInfo_t := FrameInfo 0 0 0 0 0 0 0.
Definition zero_preferences : LZ4F_preferences_t := Preferences zero_frameInfo 0 0 0.

(** * Block sizes *)

Definition LZ4F_getBlockSize (blockSizeID : Z) : Z :=
  let blockSizeID := if blockSizeID =? 0 then LZ4F_BLOCKSIZEID_DEFAULT else blockSizeID in
  if (blockSizeID <? LZ4F_max64KB) || (LZ4F_max4MB <? blockSizeID)
  then LZ4F_returnErrorCode LZ4F_ERROR_maxBlockSize_invalid
  else
    let blockSizeIdx := blockSizeID - LZ4F_max64KB in
    nth (Z.to_nat blockSizeIdx) [64 * KB; 256 * KB; 1 * MB; 4 * MB] 0.

Definition LZ4F_headerChecksum (header length : Z) : M Z :=
  xxh ← XXH32 header length 0;
  mret (u8 (Z.shiftr xxh 8)).

(** The loop of [LZ4F_optimalBSID] over the proposed identifier and its block
    size; it ends after [requestedBSID - proposedBSID] turns. *)
Fixpoint optimalBSID_loop (fuel : nat) (requestedBSID srcSize proposedBSID maxBlockSize : Z) : Z :=
  match fuel with
  | O => requestedBSID
  | S fuel =>
      if proposedBSID <? requestedBSID then
        if srcSize <=? maxBlockSize then proposedBSID
        else optimalBSID_loop fuel requestedBSID srcSize (proposedBSID + 1)
               (u64 (Z.shiftl maxBlockSize 2))
      else requestedBSID
  end.

Definition LZ4F_optimalBSID (requestedBSID srcSize : Z) : Z :=
  optimalBSID_loop (S (Z.to_nat (requestedBSID - LZ4F_max64KB))) requestedBSID srcSize
    LZ4F_max64KB (64 * KB).

(** * Bounds on the compressed size *)

(** [None] is the NULL pointer. *)
Definition LZ4F_compressBound_internal (srcSize : Z)
    (preferencesPtr : option LZ4F_preferences_t) (alreadyBuffered : Z) : Z :=
  let prefsNull :=
    Preferences (FrameInfo LZ4F_max64KB LZ4F_blockLinked LZ4F_contentChecksumEnabled LZ4F_frame
                   0 0 LZ4F_blockChecksumEnabled) 0 0 0 in
  let prefs := match preferencesPtr with None => prefsNull | Some prefs => prefs end in
  let flush := Z.lor (autoFlush prefs) (Z.b2z (srcSize =? 0)) in
  let blockID := blockSizeID (frameInfo prefs) in
  let blockSize := LZ4F_getBlockSize blockID in
  let maxBuffered := u64 (blockSize - 1) in
  let bufferedSize := Z.min alreadyBuffered maxBuffered in
  let maxSrcSize := u64 (srcSize + bufferedSize) in
  let nbFullBlocks := u32 (maxSrcSize / blockSize) in
  let partialBlockSize := Z.land maxSrcSize (u64 (blockSize - 1)) in
  let lastBlockSize := if negb (flush =? 0) then partialBlockSize else 0 in
  let nbBlocks := u32 (nbFullBlocks + Z.b2z (0 <? lastBlockSize)) in
  let blockCRCSize := u64 (BFSize * blockChecksumFlag (frameInfo prefs)) in
  let frameEnd := u64 (BHSize + contentChecksumFlag (frameInfo prefs) * BFSize) in
  u64 ((BHSize + blockCRCSize) * nbBlocks + blockSize * nbFullBlocks + lastBlockSize + frameEnd).

Definition set_autoFlush (v : Z) (prefs : LZ4F_preferences_t) : LZ4F_preferences_t :=
  Preferences (frameInfo prefs) (compressionLevel prefs) v (favorDecSpeed prefs).

Definition LZ4F_compressFrameBound (srcSize : Z) (preferencesPtr : option LZ4F_preferences_t) : Z :=
  let headerSize := maxFHSize in
  let prefs := match preferencesPtr with Some prefs => prefs | None => zero_preferences end in
  let prefs := set_autoFlush 1 prefs in
  u64 (headerSize + LZ4F_compressBound_internal srcSize (Some prefs) 0).

Definition LZ4F_compressBound (srcSize : Z) (preferencesPtr : option LZ4F_preferences_t) : Z :=
  match preferencesPtr with
  | Some prefs =>
      if negb (autoFlush prefs =? 0) then LZ4F_compressBound_internal srcSize preferencesPtr 0
      else LZ4F_compressBound_internal srcSize preferencesPtr (u64 (-1))
  | None => LZ4F_compressBound_internal srcSize preferencesPtr (u64 (-1))
  end.

(** * The frame header *)

(** "Stage 2 : Write Frame Header" of [LZ4F_compressBegin_internal]; the result
    is the size of the header. *)
Definition LZ4F_writeFrameHeader (info : LZ4F_frameInfo_t) (dstStart : Z) : M Z :=
  let dstPtr := dstStart in
  LZ4F_writeLE32 dstPtr LZ4F_MAGICNUMBER;;
  let dstPtr := dstPtr + 4 in
  let headerStart := dstPtr in
  storeb dstPtr (u8 (Z.shiftl (Z.land 1 _2BITS) 6
    + Z.shiftl (Z.land (blockMode info) _1BIT) 5
    + Z.shiftl (Z.land (blockChecksumFlag info) _1BIT) 4
    + Z.shiftl (Z.b2z (0 <? contentSize info)) 3
    + Z.shiftl (Z.land (contentChecksumFlag info) _1BIT) 2
    + Z.b2z (0 <? dictID info)));;
  let dstPtr := dstPtr + 1 in
  storeb dstPtr (u8 (Z.shiftl (Z.land (blockSizeID info) _3BITS) 4));;
  let dstPtr := dstPtr + 1 in
  dstPtr ← (if negb (contentSize info =? 0)
            then LZ4F_writeLE64 dstPtr (contentSize info);; mret (dstPtr + 8)
            else mret dstPtr);
  dstPtr ← (if negb (dictID info =? 0)
            then LZ4F_writeLE32 dstPtr (dictID info);; mret (dstPtr + 4)
            else mret dstPtr);
  hc ← LZ4F_headerChecksum headerStart (dstPtr - headerStart);
  storeb dstPtr hc;;
  let dstPtr := dstPtr + 1 in
  mret (dstPtr - dstStart).

Definition LZ4F_headerSize (src srcSize : Z) : M Z :=
  if src =? NULL then mret (LZ4F_returnErrorCode LZ4F_ERROR_srcPtr_wrong) else
  if srcSize <? LZ4F_MIN_SIZE_TO_KNOW_HEADER_LENGTH
  then mret (LZ4F_returnErrorCode LZ4F_ERROR_frameHeader_incomplete) else
  magic ← LZ4F_readLE32 src;
  if Z.land magic 0xFFFFFFF0 =? LZ4F_MAGIC_SKIPPABLE_START then mret 8 else
  magic ← LZ4F_readLE32 src;
  if negb (magic =? LZ4F_MAGICNUMBER)
  then mret (LZ4F_returnErrorCode LZ4F_ERROR_frameType_unknown) else
  FLG ← loadb (src + 4);
  let contentSizeFlag := Z.land (Z.shiftr FLG 3) _1BIT in
  let dictIDFlag := Z.land FLG _1BIT in
  mret (minFHSize + (if negb (contentSizeFlag =? 0) then 8 else 0)
        + (if negb (dictIDFlag =? 0) then 4 else 0)).
