(* ===== verification/Lz4FrameDecode.v ===== *)
(** lib/lz4frame.c, "Frame Decompression": the decompression context, the
    decoding of headers, the history kept for linked blocks, and the state
    machine of [LZ4F_decompress]. *)
From S2P Require Import Prelude.
From S2P Require Import Mem.
From S2P Require Import Xxhash.
From S2P Require Import Lz4Common.
From S2P Require Import Lz4Decompress.
From S2P Require Import Lz4Frame.

(** * Allocation

    [LZ4F_malloc] and [LZ4F_free] call the functions of the context's
    [LZ4F_CustomMem], which the user of the library provides, or those of the C
    library: they are parameters here. *)
Class LZ4F_CustomMem := {
  customAlloc : Z -> M Z;
  customFree : Z -> M unit }.

Definition LZ4F_malloc `{LZ4F_CustomMem} (s : Z) : M Z := customAlloc s.

(** The memory is set to 0 by the allocation function or by the caller. *)
Definition LZ4F_calloc `{LZ4F_CustomMem} (s : Z) : M Z :=
  p ← customAlloc s;
  (if negb (p =? NULL) then memset p 0 s else mret tt);;
  mret p.

Definition LZ4F_free `{LZ4F_CustomMem} (p : Z) : M unit :=
  if p =? NULL then mret tt else customFree p.

(** * The context *)

Inductive dStage_t :=
| dstage_getFrameHeader | dstage_storeFrameHeader
| dstage_init
| dstage_getBlockHeader | dstage_storeBlockHeader
| dstage_copyDirect | dstage_getBlockChecksum
| dstage_getCBlock | dstage_storeCBlock
| dstage_flushOut
| dstage_getSuffix | dstage_storeSuffix
| dstage_getSFrameSize | dstage_storeSFrameSize
| dstage_skipSkippable.

#[export] Instance dStage_eq_dec : EqDecision dStage_t.
Proof. solve_decision. Defined.

(** The position in the enumeration. *)
Definition stage_index (s : dStage_t) : Z :=
  match s with
  | dstage_getFrameHeader => 0 | dstage_storeFrameHeader => 1
  | dstage_init => 2
  | dstage_getBlockHeader => 3 | dstage_storeBlockHeader => 4
  | dstage_copyDirect => 5 | dstage_getBlockChecksum => 6
  | dstage_getCBlock => 7 | dstage_storeCBlock => 8
  | dstage_flushOut => 9
  | dstage_getSuffix => 10 | dstage_storeSuffix => 11
  | dstage_getSFrameSize => 12 | dstage_storeSFrameSize => 13
  | dstage_skipSkippable => 14
  end.

(** [d_self] is the address of the context, and [d_header] that of the array
    [header] in it; the byte buffers of the two hash states are at the addresses
    these states give. *)
Record LZ4F_dctx := Dctx {
  d_frameInfo : LZ4F_frameInfo_t;
  d_version : Z;
  d_dStage : dStage_t;
  d_frameRemainingSize : Z;
  d_maxBlockSize : Z;
  d_maxBufferSize : Z;
  d_tmpIn : Z;
  d_tmpInSize : Z;
  d_tmpInTarget : Z;
  d_tmpOutBuffer : Z;
  d_dict : Z;
  d_dictSize : Z;
  d_tmpOut : Z;
  d_tmpOutSize : Z;
  d_tmpOutStart : Z;
  d_xxh : XXH32_state_t;
  d_blockChecksum : XXH32_state_t;
  d_skipChecksum : Z;
  d_header : Z;
  d_self : Z }.

Definition dctx_eta (d : LZ4F_dctx) : LZ4F_dctx :=
  Dctx (d_frameInfo d) (d_version d) (d_dStage d) (d_frameRemainingSize d) (d_maxBlockSize d)
    (d_maxBufferSize d) (d_tmpIn d) (d_tmpInSize d) (d_tmpInTarget d) (d_tmpOutBuffer d)
    (d_dict d) (d_dictSize d) (d_tmpOut d) (d_tmpOutSize d) (d_tmpOutStart d) (d_xxh d)
    (d_blockChecksum d) (d_skipChecksum d) (d_header d) (d_self d).

(** The function that assigns a field, from the list of all fields [eta] and
    the projection [p]. *)
Ltac field_setter eta p :=
  intros v d;
  let t := eval cbv beta delta [eta] in (eta d) in
  lazymatch eval pattern (p d) in t with
  | ?g _ => let r := eval cbv beta in (g v) in exact r
  end.

Definition set_frameInfo : LZ4F_frameInfo_t -> LZ4F_dctx -> LZ4F_dctx :=
  ltac:(field_setter dctx_eta d_frameInfo).
Definition set_dStage : dStage_t -> LZ4F_dctx -> LZ4F_dctx :=
  ltac:(field_setter dctx_eta d_dStage).
Definition set_frameRemainingSize : Z -> LZ4F_dctx -> LZ4F_dctx :=
  ltac:(field_setter dctx_eta d_frameRemainingSize).
Definition set_maxBlockSize : Z -> LZ4F_dctx -> LZ4F_dctx :=
  ltac:(field_setter dctx_eta d_maxBlockSize).
Definition set_maxBufferSize : Z -> LZ4F_dctx -> LZ4F_dctx :=
  ltac:(field_setter dctx_eta d_maxBufferSize).
Definition set_tmpIn : Z -> LZ4F_dctx -> LZ4F_dctx := ltac:(field_setter dctx_eta d_tmpIn).
Definition set_tmpInSize : Z -> LZ4F_dctx -> LZ4F_dctx := ltac:(field_setter dctx_eta d_tmpInSize).
Definition set_tmpInTarget : Z -> LZ4F_dctx -> LZ4F_dctx :=
  ltac:(field_setter dctx_eta d_tmpInTarget).
Definition set_tmpOutBuffer : Z -> LZ4F_dctx -> LZ4F_dctx :=
  ltac:(field_setter dctx_eta d_tmpOutBuffer).
Definition set_dict : Z -> LZ4F_dctx -> LZ4F_dctx := ltac:(field_setter dctx_eta d_dict).
Definition set_dictSize : Z -> LZ4F_dctx -> LZ4F_dctx := ltac:(field_setter dctx_eta d_dictSize).
Definition set_tmpOut : Z -> LZ4F_dctx -> LZ4F_dctx := ltac:(field_setter dctx_eta d_tmpOut).
Definition set_tmpOutSize : Z -> LZ4F_dctx -> LZ4F_dctx :=
  ltac:(field_setter dctx_eta d_tmpOutSize).
Definition set_tmpOutStart : Z -> LZ4F_dctx -> LZ4F_dctx :=
  ltac:(field_setter dctx_eta d_tmpOutStart).
Definition set_xxh : XXH32_state_t -> LZ4F_dctx -> LZ4F_dctx := ltac:(field_setter dctx_eta d_xxh).
Definition set_blockChecksum : XXH32_state_t -> LZ4F_dctx -> LZ4F_dctx :=
  ltac:(field_setter dctx_eta d_blockChecksum).
Definition set_skipChecksum : Z -> LZ4F_dctx -> LZ4F_dctx :=
  ltac:(field_setter dctx_eta d_skipChecksum).

(** The size of the context, and the offsets of [xxh.mem32], of
    [blockChecksum.mem32] and of [header] in it. *)
Definition sizeof_dctx : Z := 288.
Definition dctx_xxhMem : Z := 192.
Definition dctx_blockChecksumMem : Z := 240.
Definition dctx_header : Z := 268.

(** The context at [self] with every field 0 but the version. *)
Definition zero_dctx (self version : Z) : LZ4F_dctx :=
  let zero_xxh a := XXH32_state 0 0 (mkV4 0 0 0 0) a 0 in
  Dctx zero_frameInfo version dstage_getFrameHeader 0 0 0 NULL 0 0 NULL NULL 0 NULL 0 0
    (zero_xxh (self + dctx_xxhMem)) (zero_xxh (self + dctx_blockChecksumMem)) 0 (self + dctx_header) self.

(** [None] is the NULL pointer. *)
Definition LZ4F_createDecompressionContext_advanced `{LZ4F_CustomMem} (version : Z) : M (option LZ4F_dctx) :=
  dctx ← LZ4F_calloc sizeof_dctx;
  if dctx =? NULL then mret None else mret (Some (zero_dctx dctx version)).

Definition LZ4F_createDecompressionContext `{LZ4F_CustomMem} (versionNumber : Z) : M (Z * option LZ4F_dctx) :=
  d ← LZ4F_createDecompressionContext_advanced versionNumber;
  mret (match d with
        | None => LZ4F_returnErrorCode LZ4F_ERROR_allocation_failed
        | Some _ => 0
        end, d).

Definition LZ4F_freeDecompressionContext `{LZ4F_CustomMem} (dctx : option LZ4F_dctx) : M Z :=
  match dctx with
  | None => mret 0
  | Some d =>
      LZ4F_free (d_tmpIn d);;
      LZ4F_free (d_tmpOutBuffer d);;
      LZ4F_free (d_self d);;
      mret (stage_index (d_dStage d))
  end.

Definition LZ4F_dctx_size (dctx : option LZ4F_dctx) : Z :=
  match dctx with
  | None => 0
  | Some d =>
      u64 (u64 (sizeof_dctx + (if negb (d_tmpIn d =? NULL) then u64 (d_maxBlockSize d + BFSize) else 0))
           + (if negb (d_tmpOutBuffer d =? NULL) then d_maxBufferSize d else 0))
  end.

Definition LZ4F_resetDecompressionContext (d : LZ4F_dctx) : LZ4F_dctx :=
  let d := set_dStage dstage_getFrameHeader d in
  let d := set_dict NULL d in
  let d := set_dictSize 0 d in
  let d := set_skipChecksum 0 d in
  set_frameRemainingSize 0 d.

(** * Headers *)

(** Assignments to the fields of [frameInfo]. *)
Definition info_frameType (v : Z) (i : LZ4F_frameInfo_t) : LZ4F_frameInfo_t :=
  FrameInfo (blockSizeID i) (blockMode i) (contentChecksumFlag i) v (contentSize i) (dictID i)
    (blockChecksumFlag i).
Definition info_contentSize (v : Z) (i : LZ4F_frameInfo_t) : LZ4F_frameInfo_t :=
  FrameInfo (blockSizeID i) (blockMode i) (contentChecksumFlag i) (frameType i) v (dictID i)
    (blockChecksumFlag i).
Definition info_dictID (v : Z) (i : LZ4F_frameInfo_t) : LZ4F_frameInfo_t :=
  FrameInfo (blockSizeID i) (blockMode i) (contentChecksumFlag i) (frameType i) (contentSize i) v
    (blockChecksumFlag i).
Definition info_flags (bsid mode crc bcrc : Z) (i : LZ4F_frameInfo_t) : LZ4F_frameInfo_t :=
  FrameInfo bsid mode crc (frameType i) (contentSize i) (dictID i) bcrc.

(** The result is the number of bytes read, or an error code. *)
Definition LZ4F_decodeHeader (d : LZ4F_dctx) (src srcSize : Z) : M (Z * LZ4F_dctx) :=
  let error e d := mret (LZ4F_returnErrorCode e, d) in
  if srcSize <? minFHSize then error LZ4F_ERROR_frameHeader_incomplete d else
  let d := set_frameInfo zero_frameInfo d in
  magic ← LZ4F_readLE32 src;
  if Z.land magic 0xFFFFFFF0 =? LZ4F_MAGIC_SKIPPABLE_START then
    let d := set_frameInfo (info_frameType LZ4F_skippableFrame (d_frameInfo d)) d in
    if src =? d_header d then
      mret (srcSize, set_dStage dstage_storeSFrameSize (set_tmpInTarget 8 (set_tmpInSize srcSize d)))
    else mret (4, set_dStage dstage_getSFrameSize d)
  else
  magic ← LZ4F_readLE32 src;
  if negb (magic =? LZ4F_MAGICNUMBER) then error LZ4F_ERROR_frameType_unknown d else
  let d := set_frameInfo (info_frameType LZ4F_frame (d_frameInfo d)) d in
  FLG ← loadb (src + 4);
  let version := Z.land (Z.shiftr FLG 6) _2BITS in
  let blockChecksumFlag := Z.land (Z.shiftr FLG 4) _1BIT in
  let blockMode := Z.land (Z.shiftr FLG 5) _1BIT in
  let contentSizeFlag := Z.land (Z.shiftr FLG 3) _1BIT in
  let contentChecksumFlag := Z.land (Z.shiftr FLG 2) _1BIT in
  let dictIDFlag := Z.land FLG _1BIT in
  if negb (Z.land (Z.shiftr FLG 1) _1BIT =? 0) then error LZ4F_ERROR_reservedFlag_set d else
  if negb (version =? 1) then error LZ4F_ERROR_headerVersion_wrong d else
  let frameHeaderSize := minFHSize + (if negb (contentSizeFlag =? 0) then 8 else 0)
                         + (if negb (dictIDFlag =? 0) then 4 else 0) in
  if srcSize <? frameHeaderSize then
    (* not enough input to fully decode the frame header *)
    (if negb (src =? d_header d) then memcpy (d_header d) src srcSize else mret tt);;
    mret (srcSize, set_dStage dstage_storeFrameHeader
                     (set_tmpInTarget frameHeaderSize (set_tmpInSize srcSize d)))
  else
  BD ← loadb (src + 5);
  let blockSizeID := Z.land (Z.shiftr BD 4) _3BITS in
  if negb (Z.land (Z.shiftr BD 7) _1BIT =? 0) then error LZ4F_ERROR_reservedFlag_set d else
  if blockSizeID <? 4 then error LZ4F_ERROR_maxBlockSize_invalid d else
  if negb (Z.land (Z.shiftr BD 0) _4BITS =? 0) then error LZ4F_ERROR_reservedFlag_set d else
  HC ← LZ4F_headerChecksum (src + 4) (frameHeaderSize - 5);
  hc ← loadb (src + frameHeaderSize - 1);
  if negb (HC =? hc) then error LZ4F_ERROR_headerChecksum_invalid d else
  let d := set_frameInfo (info_flags blockSizeID blockMode contentChecksumFlag blockChecksumFlag
                            (d_frameInfo d)) d in
  let d := set_maxBlockSize (LZ4F_getBlockSize blockSizeID) d in
  d ← (if negb (contentSizeFlag =? 0) then
         size ← LZ4F_readLE64 (src + 6);
         mret (set_frameRemainingSize size (set_frameInfo (info_contentSize size (d_frameInfo d)) d))
       else mret d);
  d ← (if negb (dictIDFlag =? 0) then
         id ← LZ4F_readLE32 (src + frameHeaderSize - 5);
         mret (set_frameInfo (info_dictID id (d_frameInfo d)) d)
       else mret d);
  mret (frameHeaderSize, set_dStage dstage_init d).

(** * History of linked blocks *)

Definition LZ4F_updateDict (d : LZ4F_dctx) (dstPtr dstSize dstBufferStart : Z) (withinTmp : bool) :
    M LZ4F_dctx :=
  let d := if d_dictSize d =? 0 then set_dict dstPtr d else d in
  if d_dict d + d_dictSize d =? dstPtr then
    (* prefix mode, everything within dstBuffer *)
    mret (set_dictSize (u64 (d_dictSize d + dstSize)) d)
  else if 64 * KB <=? u64 (u64 (dstPtr - dstBufferStart) + dstSize) then
    (* history in dstBuffer becomes large enough to become dictionary *)
    mret (set_dictSize (u64 (u64 (dstPtr - dstBufferStart) + dstSize)) (set_dict dstBufferStart d))
  else if withinTmp && (d_dict d =? d_tmpOutBuffer d) then
    mret (set_dictSize (u64 (d_dictSize d + dstSize)) d)
  else if withinTmp then
    (* copy relevant dict portion in front of tmpOut within tmpOutBuffer *)
    let preserveSize := u64 (d_tmpOut d - d_tmpOutBuffer d) in
    let copySize := u64 (64 * KB - d_tmpOutSize d) in
    let oldDictEnd := d_dict d + d_dictSize d - d_tmpOutStart d in
    let copySize := if 64 * KB <? d_tmpOutSize d then 0 else copySize in
    let copySize := if preserveSize <? copySize then preserveSize else copySize in
    memcpy (d_tmpOutBuffer d + preserveSize - copySize) (oldDictEnd - copySize) copySize;;
    mret (set_dictSize (u64 (preserveSize + d_tmpOutStart d + dstSize))
            (set_dict (d_tmpOutBuffer d) d))
  else if d_dict d =? d_tmpOutBuffer d then
    (* copy dst into tmp to complete dict *)
    d ← (if d_maxBufferSize d <? u64 (d_dictSize d + dstSize) then
           let preserveSize := u64 (64 * KB - dstSize) in
           memcpy (d_tmpOutBuffer d) (d_dict d + d_dictSize d - preserveSize) preserveSize;;
           mret (set_dictSize preserveSize d)
         else mret d);
    memcpy (d_tmpOutBuffer d + d_dictSize d) dstPtr dstSize;;
    mret (set_dictSize (u64 (d_dictSize d + dstSize)) d)
  else
    (* join dict & dest into tmp *)
    let preserveSize := u64 (64 * KB - dstSize) in
    let preserveSize := if d_dictSize d <? preserveSize then d_dictSize d else preserveSize in
    memcpy (d_tmpOutBuffer d) (d_dict d + d_dictSize d - preserveSize) preserveSize;;
    memcpy (d_tmpOutBuffer d + preserveSize) dstPtr dstSize;;
    mret (set_dictSize (u64 (preserveSize + dstSize)) (set_dict (d_tmpOutBuffer d) d)).

(** * The state machine *)

Record LZ4F_decompressOptions_t := DecompressOptions { stableDst : Z; skipChecksums : Z }.

(** The context and the two pointers that the loop moves. *)
Record dloop := DLoop { l_dctx : LZ4F_dctx; l_srcPtr : Z; l_dstPtr : Z }.

(** How a turn of the loop ends: the next turn, the end of the loop with the
    size hint ([doAnotherStage = 0]), or an immediate [return]. *)
Inductive dturn :=
| Again (s : dloop)
| Leave (nextSrcSizeHint : Z) (s : dloop)
| Return (code : Z) (d : LZ4F_dctx).

Definition d_linked (d : LZ4F_dctx) : bool := blockMode (d_frameInfo d) =? LZ4F_blockLinked.
Definition d_blockCrc (d : LZ4F_dctx) : bool := negb (blockChecksumFlag (d_frameInfo d) =? 0).
Definition d_contentCrc (d : LZ4F_dctx) : bool := negb (contentChecksumFlag (d_frameInfo d) =? 0).
Definition d_sized (d : LZ4F_dctx) : bool := negb (contentSize (d_frameInfo d) =? 0).

Section Decompress.
Context `{LZ4F_CustomMem}.
(** What does not change during a call. *)
Context (srcEnd dstStart dstEnd : Z) (options : LZ4F_decompressOptions_t).

Definition returnError (e : LZ4F_errorCodes) (d : LZ4F_dctx) : M dturn :=
  mret (Return (LZ4F_returnErrorCode e) d).

(** [FORWARD_IF_ERROR] of a call that also returns the context. *)
Definition forwardIfError (r : Z * LZ4F_dctx) (k : Z -> LZ4F_dctx -> M dturn) : M dturn :=
  if LZ4F_isError r.1 then mret (Return r.1 r.2) else k r.1 r.2.

(** The bytes that the current input adds to a buffer that holds [d_tmpInSize]
    of [target] bytes: [memcpy(buf + tmpInSize, srcPtr, sizeToCopy)]. *)
Definition fillFrom (buf target : Z) (s : dloop) : M dloop :=
  let d := l_dctx s in
  let sizeToCopy := Z.min (u64 (target - d_tmpInSize d)) (u64 (srcEnd - l_srcPtr s)) in
  memcpy (buf + d_tmpInSize d) (l_srcPtr s) sizeToCopy;;
  mret (DLoop (set_tmpInSize (d_tmpInSize d + sizeToCopy) d) (l_srcPtr s + sizeToCopy)
          (l_dstPtr s)).

Definition stage_storeFrameHeader (s : dloop) : M dturn :=
  s ← fillFrom (d_header (l_dctx s)) (d_tmpInTarget (l_dctx s)) s;
  let d := l_dctx s in
  if d_tmpInSize d <? d_tmpInTarget d then
    mret (Leave (d_tmpInTarget d - d_tmpInSize d + BHSize) s)
  else
  r ← LZ4F_decodeHeader d (d_header d) (d_tmpInTarget d);
  forwardIfError r (fun _ d => mret (Again (DLoop d (l_srcPtr s) (l_dstPtr s)))).

Definition stage_getFrameHeader (s : dloop) : M dturn :=
  let d := l_dctx s in
  if maxFHSize <=? u64 (srcEnd - l_srcPtr s) then
    r ← LZ4F_decodeHeader d (l_srcPtr s) (u64 (srcEnd - l_srcPtr s));
    forwardIfError r (fun hSize d => mret (Again (DLoop d (l_srcPtr s + hSize) (l_dstPtr s))))
  else
  let d := set_tmpInSize 0 d in
  if srcEnd - l_srcPtr s =? 0 then mret (Return minFHSize d) else
  let d := set_dStage dstage_storeFrameHeader (set_tmpInTarget minFHSize d) in
  stage_storeFrameHeader (DLoop d (l_srcPtr s) (l_dstPtr s)).

(** "decode block header" *)
Definition decodeBlockHeader (selectedIn : Z) (s : dloop) : M dturn :=
  let d := l_dctx s in
  let again d := mret (Again (DLoop d (l_srcPtr s) (l_dstPtr s))) in
  blockHeader ← LZ4F_readLE32 selectedIn;
  let nextCBlockSize := Z.land blockHeader 0x7FFFFFFF in
  let crcSize := u64 (blockChecksumFlag (d_frameInfo d) * BFSize) in
  if blockHeader =? 0 then again (set_dStage dstage_getSuffix d) else
  if d_maxBlockSize d <? nextCBlockSize then returnError LZ4F_ERROR_maxBlockSize_invalid d else
  if negb (Z.land blockHeader LZ4F_BLOCKUNCOMPRESSED_FLAG =? 0) then
    let d := set_tmpInTarget nextCBlockSize d in
    d ← (if d_blockCrc d then
           r ← XXH32_reset (d_blockChecksum d) 0; mret (set_blockChecksum r.2 d)
         else mret d);
    again (set_dStage dstage_copyDirect d)
  else
  let d := set_dStage dstage_getCBlock (set_tmpInTarget (nextCBlockSize + crcSize) d) in
  if (l_dstPtr s =? dstEnd) || (l_srcPtr s =? srcEnd) then
    mret (Leave (BHSize + nextCBlockSize + crcSize) (DLoop d (l_srcPtr s) (l_dstPtr s)))
  else again d.

Definition stage_storeBlockHeader (s : dloop) : M dturn :=
  s ← fillFrom (d_tmpIn (l_dctx s)) BHSize s;
  let d := l_dctx s in
  if d_tmpInSize d <? BHSize then mret (Leave (BHSize - d_tmpInSize d) s)
  else decodeBlockHeader (d_tmpIn d) s.

Definition stage_getBlockHeader (s : dloop) : M dturn :=
  if BHSize <=? u64 (srcEnd - l_srcPtr s) then
    decodeBlockHeader (l_srcPtr s) (DLoop (l_dctx s) (l_srcPtr s + BHSize) (l_dstPtr s))
  else
    let d := set_dStage dstage_storeBlockHeader (set_tmpInSize 0 (l_dctx s)) in
    stage_storeBlockHeader (DLoop d (l_srcPtr s) (l_dstPtr s)).

(** "internal buffers allocation" *)
Definition initBuffers (d : LZ4F_dctx) : M (LZ4F_errorCodes * LZ4F_dctx) :=
  let bufferNeeded := d_maxBlockSize d + (if d_linked d then 128 * KB else 0) in
  if d_maxBufferSize d <? bufferNeeded then
    let d := set_maxBufferSize 0 d in
    LZ4F_free (d_tmpIn d);;
    tmpIn ← LZ4F_malloc (d_maxBlockSize d + BFSize);
    let d := set_tmpIn tmpIn d in
    if tmpIn =? NULL then mret (LZ4F_ERROR_allocation_failed, d) else
    LZ4F_free (d_tmpOutBuffer d);;
    tmpOutBuffer ← LZ4F_malloc bufferNeeded;
    let d := set_tmpOutBuffer tmpOutBuffer d in
    if tmpOutBuffer =? NULL then mret (LZ4F_ERROR_allocation_failed, d) else
    mret (LZ4F_OK_NoError, set_maxBufferSize bufferNeeded d)
  else mret (LZ4F_OK_NoError, d).

Definition stage_init (s : dloop) : M dturn :=
  let d := l_dctx s in
  d ← (if d_contentCrc d then r ← XXH32_reset (d_xxh d) 0; mret (set_xxh r.2 d) else mret d);
  r ← initBuffers d;
  let '(e, d) := r in
  if bool_decide (e <> LZ4F_OK_NoError) then returnError e d else
  let d := set_tmpOutSize 0 (set_tmpOutStart 0 (set_tmpOut (d_tmpOutBuffer d)
             (set_tmpInTarget 0 (set_tmpInSize 0 d)))) in
  let d := set_dStage dstage_getBlockHeader d in
  stage_getBlockHeader (DLoop d (l_srcPtr s) (l_dstPtr s)).

(** The checksums, the size counter and the history after [n] bytes of content
    went through [p]: [d_frameRemainingSize] is unsigned. *)
Definition countContent (n : Z) (d : LZ4F_dctx) : LZ4F_dctx :=
  if d_sized d then set_frameRemainingSize (u64 (d_frameRemainingSize d - n)) d else d.

Definition hashContent (p n : Z) (d : LZ4F_dctx) : M LZ4F_dctx :=
  if d_contentCrc d && (d_skipChecksum d =? 0)
  then r ← XXH32_update (d_xxh d) p n; mret (set_xxh r.2 d)
  else mret d.

Definition stage_copyDirect (s : dloop) : M dturn :=
  let d := l_dctx s in
  r ← (if l_dstPtr s =? NULL then mret (0, s) else
       let minBuffSize := Z.min (u64 (srcEnd - l_srcPtr s)) (u64 (dstEnd - l_dstPtr s)) in
       let sizeToCopy := Z.min (d_tmpInTarget d) minBuffSize in
       memcpy (l_dstPtr s) (l_srcPtr s) sizeToCopy;;
       d ← (if d_skipChecksum d =? 0 then
              d ← (if d_blockCrc d then
                     r ← XXH32_update (d_blockChecksum d) (l_srcPtr s) sizeToCopy;
                     mret (set_blockChecksum r.2 d)
                   else mret d);
              hashContent (l_srcPtr s) sizeToCopy d
            else mret d);
       let d := countContent sizeToCopy d in
       d ← (if d_linked d then LZ4F_updateDict d (l_dstPtr s) sizeToCopy dstStart false
            else mret d);
       mret (sizeToCopy, DLoop d (l_srcPtr s + sizeToCopy) (l_dstPtr s + sizeToCopy)));
  let '(sizeToCopy, s) := r in
  let d := l_dctx s in
  if sizeToCopy =? d_tmpInTarget d then
    let d := if d_blockCrc d then set_dStage dstage_getBlockChecksum (set_tmpInSize 0 d)
             else set_dStage dstage_getBlockHeader d in
    mret (Again (DLoop d (l_srcPtr s) (l_dstPtr s)))
  else
  let d := set_tmpInTarget (d_tmpInTarget d - sizeToCopy) d in
  mret (Leave (d_tmpInTarget d + (if d_blockCrc d then BFSize else 0) + BHSize)
          (DLoop d (l_srcPtr s) (l_dstPtr s))).

Definition stage_getBlockChecksum (s : dloop) : M dturn :=
  let d := l_dctx s in
  r ← (if (4 <=? srcEnd - l_srcPtr s) && (d_tmpInSize d =? 0) then
         mret (Some (l_srcPtr s), DLoop d (l_srcPtr s + 4) (l_dstPtr s))
       else
         s ← fillFrom (d_header d) 4 s;
         mret (if d_tmpInSize (l_dctx s) <? 4 then (None, s) else (Some (d_header d), s)));
  let '(crcSrc, s) := r in
  match crcSrc with
  | None => mret (Leave 1 s)
  | Some crcSrc =>
      let d := l_dctx s in
      ok ← (if d_skipChecksum d =? 0 then
              readCRC ← LZ4F_readLE32 crcSrc;
              calcCRC ← XXH32_digest (d_blockChecksum d);
              mret (readCRC =? calcCRC)
            else mret true);
      if negb ok then returnError LZ4F_ERROR_blockChecksum_invalid d else
      mret (Again (DLoop (set_dStage dstage_getBlockHeader d) (l_srcPtr s) (l_dstPtr s)))
  end.

(** A dictionary of more than 1 GB is cut to its last 64 KB: the decoder takes
    its size as an [int]. *)
Definition clampDict (d : LZ4F_dctx) : Z * Z :=
  if negb (d_dict d =? NULL) && (1 * GB <? d_dictSize d)
  then (d_dict d + (d_dictSize d - 64 * KB), 64 * KB)
  else (d_dict d, d_dictSize d).

(** [LZ4_decompress_safe_usingDict] of the block at [selectedIn] into [out]. *)
Definition decodeBlockTo (d : LZ4F_dctx) (selectedIn out : Z) : M Z :=
  let '(dict, dictSize) := clampDict d in
  LZ4_decompress_safe_usingDict selectedIn out (s32 (d_tmpInTarget d)) (s32 (d_maxBlockSize d))
    dict (s32 dictSize).

(** "flush decoded data from tmpOut to dstBuffer" *)
Definition stage_flushOut (s : dloop) : M dturn :=
  let d := l_dctx s in
  s ← (if l_dstPtr s =? NULL then mret s else
       let sizeToCopy := Z.min (u64 (d_tmpOutSize d - d_tmpOutStart d)) (u64 (dstEnd - l_dstPtr s)) in
       memcpy (l_dstPtr s) (d_tmpOut d + d_tmpOutStart d) sizeToCopy;;
       d ← (if d_linked d then LZ4F_updateDict d (l_dstPtr s) sizeToCopy dstStart true
            else mret d);
       let d := set_tmpOutStart (d_tmpOutStart d + sizeToCopy) d in
       mret (DLoop d (l_srcPtr s) (l_dstPtr s + sizeToCopy)));
  let d := l_dctx s in
  if d_tmpOutStart d =? d_tmpOutSize d then
    mret (Again (DLoop (set_dStage dstage_getBlockHeader d) (l_srcPtr s) (l_dstPtr s)))
  else mret (Leave BHSize s).

(** "manage dictionary" before a block is decoded into the internal buffer *)
Definition placeTmpOut (d : LZ4F_dctx) : M LZ4F_dctx :=
  if d_linked d then
    if d_dict d =? d_tmpOutBuffer d then
      d ← (if 128 * KB <? d_dictSize d then
             memcpy (d_tmpOutBuffer d) (d_dict d + d_dictSize d - 64 * KB) (64 * KB);;
             mret (set_dictSize (64 * KB) d)
           else mret d);
      mret (set_tmpOut (d_tmpOutBuffer d + d_dictSize d) d)
    else
      let reservedDictSpace := Z.min (d_dictSize d) (64 * KB) in
      mret (set_tmpOut (d_tmpOutBuffer d + reservedDictSpace) d)
  else mret d.

(** The whole compressed block is at [selectedIn]. *)
Definition decodeCBlock (selectedIn : Z) (s : dloop) : M dturn :=
  let d := l_dctx s in
  r ← (if d_blockCrc d then
         let d := set_tmpInTarget (d_tmpInTarget d - 4) d in
         readBlockCrc ← LZ4F_readLE32 (selectedIn + d_tmpInTarget d);
         calcBlockCrc ← XXH32 selectedIn (d_tmpInTarget d) 0;
         mret (readBlockCrc =? calcBlockCrc, d)
       else mret (true, d));
  let '(ok, d) := r in
  if negb ok then returnError LZ4F_ERROR_blockChecksum_invalid d else
  if (d_maxBlockSize d <=? u64 (dstEnd - l_dstPtr s))
     && negb (negb (d_dict d =? NULL) && (d_dict d + d_dictSize d =? d_tmpOut d)) then
    (* decode directly into the destination buffer *)
    decodedSize ← decodeBlockTo d selectedIn (l_dstPtr s);
    if decodedSize <? 0 then returnError LZ4F_ERROR_decompressionFailed d else
    d ← hashContent (l_dstPtr s) decodedSize d;
    let d := countContent decodedSize d in
    d ← (if d_linked d then LZ4F_updateDict d (l_dstPtr s) decodedSize dstStart false else mret d);
    mret (Again (DLoop (set_dStage dstage_getBlockHeader d) (l_srcPtr s) (l_dstPtr s + decodedSize)))
  else
    (* not enough place into dst : decode into tmpOut *)
    d ← placeTmpOut d;
    decodedSize ← decodeBlockTo d selectedIn (d_tmpOut d);
    if decodedSize <? 0 then returnError LZ4F_ERROR_decompressionFailed d else
    d ← hashContent (d_tmpOut d) decodedSize d;
    let d := countContent decodedSize d in
    let d := set_dStage dstage_flushOut (set_tmpOutStart 0 (set_tmpOutSize decodedSize d)) in
    stage_flushOut (DLoop d (l_srcPtr s) (l_dstPtr s)).

Definition stage_getCBlock (s : dloop) : M dturn :=
  let d := l_dctx s in
  if u64 (srcEnd - l_srcPtr s) <? d_tmpInTarget d then
    mret (Again (DLoop (set_dStage dstage_storeCBlock (set_tmpInSize 0 d)) (l_srcPtr s) (l_dstPtr s)))
  else decodeCBlock (l_srcPtr s) (DLoop d (l_srcPtr s + d_tmpInTarget d) (l_dstPtr s)).

Definition stage_storeCBlock (s : dloop) : M dturn :=
  s ← fillFrom (d_tmpIn (l_dctx s)) (d_tmpInTarget (l_dctx s)) s;
  let d := l_dctx s in
  if d_tmpInSize d <? d_tmpInTarget d then
    mret (Leave (d_tmpInTarget d - d_tmpInSize d + (if d_blockCrc d then BFSize else 0) + BHSize) s)
  else decodeCBlock (d_tmpIn d) s.

(** The content checksum is at [selectedIn]. *)
Definition checkSuffix (selectedIn : Z) (s : dloop) : M dturn :=
  let d := l_dctx s in
  ok ← (if d_skipChecksum d =? 0 then
          readCRC ← LZ4F_readLE32 selectedIn;
          resultCRC ← XXH32_digest (d_xxh d);
          mret (readCRC =? resultCRC)
        else mret true);
  if negb ok then returnError LZ4F_ERROR_contentChecksum_invalid d else
  mret (Leave 0 (DLoop (LZ4F_resetDecompressionContext d) (l_srcPtr s) (l_dstPtr s))).

Definition stage_storeSuffix (s : dloop) : M dturn :=
  s ← fillFrom (d_tmpIn (l_dctx s)) 4 s;
  let d := l_dctx s in
  if d_tmpInSize d <? 4 then mret (Leave (4 - d_tmpInSize d) s) else checkSuffix (d_tmpIn d) s.

Definition stage_getSuffix (s : dloop) : M dturn :=
  let d := l_dctx s in
  if negb (d_frameRemainingSize d =? 0) then returnError LZ4F_ERROR_frameSize_wrong d else
  if negb (d_contentCrc d) then
    mret (Leave 0 (DLoop (LZ4F_resetDecompressionContext d) (l_srcPtr s) (l_dstPtr s)))
  else if srcEnd - l_srcPtr s <? 4 then
    let d := set_dStage dstage_storeSuffix (set_tmpInSize 0 d) in
    stage_storeSuffix (DLoop d (l_srcPtr s) (l_dstPtr s))
  else checkSuffix (l_srcPtr s) (DLoop d (l_srcPtr s + 4) (l_dstPtr s)).

Definition decodeSFrameSize (selectedIn : Z) (s : dloop) : M dturn :=
  let d := l_dctx s in
  SFrameSize ← LZ4F_readLE32 selectedIn;
  let d := set_frameInfo (info_contentSize SFrameSize (d_frameInfo d)) d in
  let d := set_dStage dstage_skipSkippable (set_tmpInTarget SFrameSize d) in
  mret (Again (DLoop d (l_srcPtr s) (l_dstPtr s))).

Definition stage_storeSFrameSize (s : dloop) : M dturn :=
  s ← fillFrom (d_header (l_dctx s)) (d_tmpInTarget (l_dctx s)) s;
  let d := l_dctx s in
  if d_tmpInSize d <? d_tmpInTarget d then mret (Leave (d_tmpInTarget d - d_tmpInSize d) s)
  else decodeSFrameSize (d_header d + 4) s.

Definition stage_getSFrameSize (s : dloop) : M dturn :=
  let d := l_dctx s in
  if 4 <=? srcEnd - l_srcPtr s
  then decodeSFrameSize (l_srcPtr s) (DLoop d (l_srcPtr s + 4) (l_dstPtr s))
  else
    let d := set_dStage dstage_storeSFrameSize (set_tmpInTarget 8 (set_tmpInSize 4 d)) in
    stage_storeSFrameSize (DLoop d (l_srcPtr s) (l_dstPtr s)).

Definition stage_skipSkippable (s : dloop) : M dturn :=
  let d := l_dctx s in
  let skipSize := Z.min (d_tmpInTarget d) (u64 (srcEnd - l_srcPtr s)) in
  let d := set_tmpInTarget (d_tmpInTarget d - skipSize) d in
  let nextSrcSizeHint := d_tmpInTarget d in
  let d := if negb (nextSrcSizeHint =? 0) then d else LZ4F_resetDecompressionContext d in
  mret (Leave nextSrcSizeHint (DLoop d (l_srcPtr s + skipSize) (l_dstPtr s))).

(** One turn of [while (doAnotherStage) switch (dctx->dStage)]. *)
Definition decompress_turn (s : dloop) : M dturn :=
  match d_dStage (l_dctx s) with
  | dstage_getFrameHeader => stage_getFrameHeader s
  | dstage_storeFrameHeader => stage_storeFrameHeader s
  | dstage_init => stage_init s
  | dstage_getBlockHeader => stage_getBlockHeader s
  | dstage_storeBlockHeader => stage_storeBlockHeader s
  | dstage_copyDirect => stage_copyDirect s
  | dstage_getBlockChecksum => stage_getBlockChecksum s
  | dstage_getCBlock => stage_getCBlock s
  | dstage_storeCBlock => stage_storeCBlock s
  | dstage_flushOut => stage_flushOut s
  | dstage_getSuffix => stage_getSuffix s
  | dstage_storeSuffix => stage_storeSuffix s
  | dstage_getSFrameSize => stage_getSFrameSize s
  | dstage_storeSFrameSize => stage_storeSFrameSize s
  | dstage_skipSkippable => stage_skipSkippable s
  end.

(** The loop, as a loop whose body returns [inl] to go on. *)
Definition decompress_body (s : dloop) : M (dloop + dturn) :=
  t ← decompress_turn s;
  mret (match t with Again s => inl s | t => inr t end).

(** "preserve history within tmpOut whenever necessary" *)
Definition preserveHistory (d : LZ4F_dctx) : M LZ4F_dctx :=
  if d_linked d && negb (d_dict d =? d_tmpOutBuffer d) && negb (d_dict d =? NULL)
     && (stableDst options =? 0)
     && (u32 (stage_index (d_dStage d) - 2) <? stage_index dstage_getSuffix - 2) then
    if bool_decide (d_dStage d = dstage_flushOut) then
      let preserveSize := u64 (d_tmpOut d - d_tmpOutBuffer d) in
      let copySize := u64 (64 * KB - d_tmpOutSize d) in
      let oldDictEnd := d_dict d + d_dictSize d - d_tmpOutStart d in
      let copySize := if 64 * KB <? d_tmpOutSize d then 0 else copySize in
      let copySize := if preserveSize <? copySize then preserveSize else copySize in
      memcpy (d_tmpOutBuffer d + preserveSize - copySize) (oldDictEnd - copySize) copySize;;
      mret (set_dictSize (preserveSize + d_tmpOutStart d) (set_dict (d_tmpOutBuffer d) d))
    else
      let oldDictEnd := d_dict d + d_dictSize d in
      let newDictSize := Z.min (d_dictSize d) (64 * KB) in
      memcpy (d_tmpOutBuffer d) (oldDictEnd - newDictSize) newDictSize;;
      mret (set_tmpOut (d_tmpOutBuffer d + newDictSize)
              (set_dictSize newDictSize (set_dict (d_tmpOutBuffer d) d)))
  else mret d.
End Decompress.

(** The result of a call: the returned value, the context, [*srcSizePtr] and
    [*dstSizePtr]. *)
Record dresult := DResult { r_code : Z; r_dctx : LZ4F_dctx; r_srcSize : Z; r_dstSize : Z }.

(** A turn that does not end the loop consumes input or moves on to a later
    stage of the block at hand. *)
Definition decompress_fuel (srcSize : Z) : nat := Z.to_nat (8 * (srcSize + 2)).

Definition LZ4F_decompress `{LZ4F_CustomMem} (d : LZ4F_dctx) (dstBuffer dstSize srcBuffer srcSize : Z)
    (decompressOptionsPtr : option LZ4F_decompressOptions_t) : M dresult :=
  let srcStart := srcBuffer in
  let srcEnd := srcStart + srcSize in
  let dstStart := dstBuffer in
  let dstEnd := if dstStart =? NULL then NULL else dstStart + dstSize in
  let options := match decompressOptionsPtr with
                 | Some options => options | None => DecompressOptions 0 0 end in
  let d := set_skipChecksum
             (Z.lor (d_skipChecksum d) (Z.b2z (negb (skipChecksums options =? 0)))) d in
  t ← loop (decompress_fuel srcSize) (decompress_body srcEnd dstStart dstEnd)
        (DLoop d srcStart dstStart);
  match t with
  | Again s => mret (DResult 0 (l_dctx s) 0 0)
  | Return code d => mret (DResult code d 0 0)
  | Leave hint s =>
      d ← preserveHistory options (l_dctx s);
      mret (DResult hint d (l_srcPtr s - srcStart) (l_dstPtr s - dstStart))
  end.

Definition LZ4F_decompress_usingDict `{LZ4F_CustomMem} (d : LZ4F_dctx)
    (dstBuffer dstSize srcBuffer srcSize dict dictSize : Z)
    (decompressOptionsPtr : option LZ4F_decompressOptions_t) : M dresult :=
  let d := if stage_index (d_dStage d) <=? stage_index dstage_init
           then set_dictSize dictSize (set_dict dict d) else d in
  LZ4F_decompress d dstBuffer dstSize srcBuffer srcSize decompressOptionsPtr.

(** The frame parameters come back as a value: [None] where the code does not
    write them. *)
Definition LZ4F_getFrameInfo `{LZ4F_CustomMem} (d : LZ4F_dctx) (srcBuffer srcSize : Z) :
    M (Z * LZ4F_dctx * Z * option LZ4F_frameInfo_t) :=
  let fail e := mret (LZ4F_returnErrorCode e, d, 0, None) in
  if stage_index dstage_storeFrameHeader <? stage_index (d_dStage d) then
    r ← LZ4F_decompress d NULL 0 NULL 0 None;
    mret (r_code r, r_dctx r, 0, Some (d_frameInfo d))
  else if bool_decide (d_dStage d = dstage_storeFrameHeader) then
    fail LZ4F_ERROR_frameDecoding_alreadyStarted
  else
    hSize ← LZ4F_headerSize srcBuffer srcSize;
    if LZ4F_isError hSize then mret (hSize, d, 0, None) else
    if srcSize <? hSize then fail LZ4F_ERROR_frameHeader_incomplete else
    r ← LZ4F_decodeHeader d srcBuffer hSize;
    let '(decodeResult, d) := r in
    if LZ4F_isError decodeResult then mret (decodeResult, d, 0, Some (d_frameInfo d))
    else mret (BHSize, d, decodeResult, Some (d_frameInfo d)).
