(* ===== verification/FrameFormat.v ===== *)
(** The LZ4 frame format of doc/lz4_Frame_format.md: headers, blocks and frames
    as byte strings, and the content a sequence of blocks stands for.  It is the
    abstract specification that lib/lz4frame.c is proved against. *)
From S2P Require Import Prelude.
From S2P Require Import Mem.
From S2P Require Import XxhashSpec.
From S2P Require Import BlockFormat.
From S2P Require Import Lz4Common.
From S2P Require Import Lz4Frame.

(** * Headers *)

Definition flag (b : bool) : Z := Z.b2z b.

(** Parameters that a header can express. *)
Definition info_wf (i : LZ4F_frameInfo_t) : Prop :=
  4 <= blockSizeID i <= 7 /\ 0 <= blockMode i <= 1 /\ 0 <= contentChecksumFlag i <= 1 /\
  frameType i = LZ4F_frame /\ 0 <= contentSize i < 2 ^ 64 /\ 0 <= dictID i < 2 ^ 32 /\
  0 <= blockChecksumFlag i <= 1.

#[export] Instance info_wf_dec i : Decision (info_wf i).
Proof. unfold info_wf. apply _. Defined.

(** The FLG and BD bytes; [sized] and [dicted] tell whether the optional fields
    are present. *)
Definition flg_byte (i : LZ4F_frameInfo_t) (sized dicted : bool) : Z :=
  64 + 32 * blockMode i + 16 * blockChecksumFlag i + 8 * flag sized
  + 4 * contentChecksumFlag i + flag dicted.

Definition bd_byte (i : LZ4F_frameInfo_t) : Z := 16 * blockSizeID i.

(** The frame descriptor without its checksum. *)
Definition descriptor (i : LZ4F_frameInfo_t) (sized dicted : bool) : list Z :=
  [flg_byte i sized dicted; bd_byte i] ++
  (if sized then le_bytes 8 (contentSize i) else []) ++
  (if dicted then le_bytes 4 (dictID i) else []).

(** The second byte of the hash. *)
Definition header_crc (l : list Z) : Z := (xxh32 0 l / 256) mod 256.

Definition magic_bytes : list Z := le_bytes 4 LZ4F_MAGICNUMBER.

Definition header_bytes (i : LZ4F_frameInfo_t) (sized dicted : bool) : list Z :=
  magic_bytes ++ descriptor i sized dicted ++ [header_crc (descriptor i sized dicted)].

Definition header_size (sized dicted : bool) : Z :=
  7 + (if sized then 8 else 0) + (if dicted then 4 else 0).

(** What the first bytes of a frame say. *)
Inductive header :=
| HError (e : LZ4F_errorCodes)
| HMore (size : Z)
| HSkippable
| HFrame (i : LZ4F_frameInfo_t) (size : Z).

(** The byte, or the little-endian number, at a position. *)
Definition byte_of (l : list Z) (i : Z) : Z := default 0 (l !! Z.to_nat i).
Definition le_of (l : list Z) (i n : Z) : Z := le_val (take (Z.to_nat n) (drop (Z.to_nat i) l)).

Definition bit_of (b i : Z) : bool := Z.testbit b i.

(** The reading of a header, in the order in which an invalid one is refused. *)
Definition parse_header (l : list Z) : header :=
  if zlen l <? 7 then HError LZ4F_ERROR_frameHeader_incomplete else
  let magic := le_of l 0 4 in
  if magic / 16 =? LZ4F_MAGIC_SKIPPABLE_START / 16 then HSkippable else
  if negb (magic =? LZ4F_MAGICNUMBER) then HError LZ4F_ERROR_frameType_unknown else
  let FLG := byte_of l 4 in
  if bit_of FLG 1 then HError LZ4F_ERROR_reservedFlag_set else
  if negb (FLG / 64 =? 1) then HError LZ4F_ERROR_headerVersion_wrong else
  let sized := bit_of FLG 3 in
  let dicted := bit_of FLG 0 in
  let size := header_size sized dicted in
  if zlen l <? size then HMore size else
  let BD := byte_of l 5 in
  if bit_of BD 7 then HError LZ4F_ERROR_reservedFlag_set else
  if BD / 16 <? 4 then HError LZ4F_ERROR_maxBlockSize_invalid else
  if negb (BD mod 16 =? 0) then HError LZ4F_ERROR_reservedFlag_set else
  if negb (header_crc (take (Z.to_nat (size - 5)) (drop 4 l)) =? byte_of l (size - 1))
  then HError LZ4F_ERROR_headerChecksum_invalid else
  HFrame (FrameInfo (BD / 16) (flag (bit_of FLG 5)) (flag (bit_of FLG 2)) LZ4F_frame
            (if sized then le_of l 6 8 else 0)
            (if dicted then le_of l (size - 5) 4 else 0)
            (flag (bit_of FLG 4))) size.

(** * Blocks and frames *)

Lemma block_sizes b : 4 <= b <= 7 ->
  LZ4F_getBlockSize b = 64 * KB \/ LZ4F_getBlockSize b = 256 * KB \/
  LZ4F_getBlockSize b = 1 * MB \/ LZ4F_getBlockSize b = 4 * MB.
Proof.
  intros Hb. assert (b = 4 \/ b = 5 \/ b = 6 \/ b = 7) as [-> | [-> | [-> | ->]]] by lia;
    vm_compute; tauto.
Qed.

(** Block sizes are powers of two. *)
Lemma block_mask b n : 4 <= b <= 7 ->
  Z.land n (LZ4F_getBlockSize b - 1) = n mod LZ4F_getBlockSize b.
Proof.
  intros Hb. assert (exists k, 0 <= k /\ LZ4F_getBlockSize b = 2 ^ k) as (k & Hk & ->).
  { destruct (block_sizes b Hb) as [-> | [-> | [-> | ->]]]; [exists 16|exists 18|exists 20|exists 22]; done. }
  replace (2 ^ k - 1) with (Z.ones k) by (rewrite Z.ones_equiv; lia). by apply Z.land_ones.
Qed.

(** A data block: whether it is stored uncompressed, its bytes, and the value
    of its checksum field where there is one. *)
Record fblock := FBlock { fb_raw : bool; fb_data : list Z; fb_crc : Z }.

Definition block_header (raw : bool) (n : Z) : list Z := le_bytes 4 (n + if raw then 2 ^ 31 else 0).

Definition enc_fblock (i : LZ4F_frameInfo_t) (b : fblock) : list Z :=
  block_header (fb_raw b) (zlen (fb_data b)) ++ fb_data b ++
  (if blockChecksumFlag i =? 0 then [] else le_bytes 4 (fb_crc b)).

(** The content of a block after the history [h]. *)
Definition block_content (h : list Z) (b : fblock) (x : list Z) : Prop :=
  if fb_raw b then x = fb_data b
  else exists blk, block_wf blk /\ fb_data b = enc_block blk /\ expand h blk = Some x.

(** The history of the next block behind the content [o]: the dictionary, and in
    a frame of linked blocks what was decoded before. *)
Definition history (i : LZ4F_frameInfo_t) (dict o : list Z) : list Z :=
  if blockMode i =? LZ4F_blockLinked then dict ++ o else dict.

(** [contents i dict bs o]: the blocks [bs] stand for [o]. [crc] tells whether
    checksums of stored blocks are to be right. *)
Inductive contents (i : LZ4F_frameInfo_t) (crc : bool) (dict : list Z) :
    list fblock -> list Z -> Prop :=
| contents_nil : contents i crc dict [] []
| contents_snoc bs b o x :
    contents i crc dict bs o ->
    block_content (history i dict o) b x ->
    0 <= zlen (fb_data b) <= LZ4F_getBlockSize (blockSizeID i) ->
    zlen x <= LZ4F_getBlockSize (blockSizeID i) ->
    (blockChecksumFlag i <> 0 -> crc = true \/ fb_raw b = false -> fb_crc b = xxh32 0 (fb_data b)) ->
    contents i crc dict (bs ++ [b]) (o ++ x).

Definition enc_blocks (i : LZ4F_frameInfo_t) (bs : list fblock) : list Z :=
  concat (map (enc_fblock i) bs).

Lemma enc_blocks_app i bs bs' : enc_blocks i (bs ++ bs') = enc_blocks i bs ++ enc_blocks i bs'.
Proof. unfold enc_blocks. by rewrite map_app, concat_app. Qed.

Lemma enc_blocks_snoc i bs b : enc_blocks i (bs ++ [b]) = enc_blocks i bs ++ enc_fblock i b.
Proof. unfold enc_blocks. rewrite map_app, concat_app. cbn. by rewrite app_nil_r. Qed.

Definition endmark : list Z := [0; 0; 0; 0].

(** The suffix of a frame with the content [o]. *)
Definition content_crc (i : LZ4F_frameInfo_t) (o : list Z) : list Z :=
  if contentChecksumFlag i =? 0 then [] else le_bytes 4 (xxh32 0 o).

(** A whole frame with the content [o]. *)
Definition frame_of (i : LZ4F_frameInfo_t) (sized dicted : bool) (bs : list fblock) (o : list Z) :
    list Z :=
  header_bytes i sized dicted ++ enc_blocks i bs ++ endmark ++ content_crc i o.
