(* ===== verification/Lz4FrameHeader.v ===== *)
(** Headers of frames: the code that writes and reads them implements the
    format, and reading inverts writing. *)
From S2P Require Import Prelude.
From S2P Require Import Mem.
From S2P Require Import Xxhash.
From S2P Require Import XxhashSpec.
From S2P Require Import XxhashStream.
From S2P Require Import Lz4Common.
From S2P Require Import Lz4Decompress.
From S2P Require Import Lz4Frame.
From S2P Require Import Lz4FrameDecode.
From S2P Require Import FrameFormat.

(** * Little-endian accesses *)

Lemma lor_shiftl a b k : 0 <= k -> 0 <= a < 2 ^ k -> Z.lor a (Z.shiftl b k) = a + b * 2 ^ k.
Proof.
  intros Hk Ha. rewrite <- Z.shiftl_mul_pow2 by done.
  rewrite Z.add_nocarry_lxor, <- Z.lxor_lor; try done;
    apply Z.bits_inj'; intros j Hj; rewrite Z.land_spec, Z.bits_0, Z.shiftl_spec by done;
    (destruct (Z.lt_ge_cases j k); [by rewrite (Z.testbit_neg_r b), andb_false_r by lia|]);
    rewrite <- (Z.mod_small a (2 ^ k)) by lia;
    by rewrite (Z.mod_pow2_bits_high a k) by lia.
Qed.

Lemma byte_shift_small w b k : byte_ok b -> 0 <= k -> k + 8 <= w ->
  Z.shiftl b k mod 2 ^ w = Z.shiftl b k.
Proof.
  intros Hb Hk Hw. apply Z.mod_small. rewrite Z.shiftl_mul_pow2 by done.
  replace w with (8 + k + (w - k - 8)) by lia. rewrite !Z.pow_add_r by lia. nia.
Qed.

Lemma holds_byte m p l i b :
  holds m p l -> l !! i = Some b -> m !! (p + Z.of_nat i) = Some b.
Proof. intros H Hi. rewrite H; [done|]. by eapply lookup_lt_Some. Qed.

Lemma wp_LZ4F_readLE32 p a b c d r m Q :
  holds m p ([a; b; c; d] ++ r) -> bytes_ok [a; b; c; d] ->
  Q (le_val [a; b; c; d]) m -> wp (LZ4F_readLE32 p) Q m.
Proof.
  intros [H _]%holds_app Hok HQ. unfold LZ4F_readLE32.
  apply wp_bind. eapply wp_loadb; [by rewrite <- (Z.add_0_r p); apply (holds_byte _ _ _ 0 a H)|].
  apply wp_bind. eapply wp_loadb; [by apply (holds_byte _ _ _ 1 b H)|].
  apply wp_bind. eapply wp_loadb; [by apply (holds_byte _ _ _ 2 c H)|].
  apply wp_bind. eapply wp_loadb; [by apply (holds_byte _ _ _ 3 d H)|].
  rewrite !bytes_ok_cons in Hok. destruct Hok as (Ha & Hb & Hc & Hd & _).
  apply wp_ret. unfold u32. rewrite !byte_shift_small by lia.
  rewrite (lor_shiftl a b), (lor_shiftl _ c), (lor_shiftl _ d) by lia. simpl in HQ.
  replace (a + b * 2 ^ 8 + c * 2 ^ 16 + d * 2 ^ 24)
    with (a + 256 * (b + 256 * (c + 256 * (d + 256 * 0)))) by lia. exact HQ.
Qed.

Lemma wp_readLE32_list p l r m Q :
  holds m p (l ++ r) -> bytes_ok l -> length l = 4%nat ->
  Q (le_val l) m -> wp (LZ4F_readLE32 p) Q m.
Proof.
  intros H Hok Hl HQ. destruct l as [|a [|b [|c [|d [|]]]]]; try done. by eapply wp_LZ4F_readLE32.
Qed.

Lemma wp_readLE64_list p l r m Q :
  holds m p (l ++ r) -> bytes_ok l -> length l = 8%nat ->
  Q (le_val l) m -> wp (LZ4F_readLE64 p) Q m.
Proof.
  intros [H _]%holds_app Hok Hl HQ.
  destruct l as [|a [|b [|c [|d [|e [|f [|g [|h [|]]]]]]]]]; try done.
  unfold LZ4F_readLE64.
  apply wp_bind. eapply wp_loadb; [by rewrite <- (Z.add_0_r p); apply (holds_byte _ _ _ 0 a H)|].
  apply wp_bind. eapply wp_loadb; [by apply (holds_byte _ _ _ 1 b H)|].
  apply wp_bind. eapply wp_loadb; [by apply (holds_byte _ _ _ 2 c H)|].
  apply wp_bind. eapply wp_loadb; [by apply (holds_byte _ _ _ 3 d H)|].
  apply wp_bind. eapply wp_loadb; [by apply (holds_byte _ _ _ 4 e H)|].
  apply wp_bind. eapply wp_loadb; [by apply (holds_byte _ _ _ 5 f H)|].
  apply wp_bind. eapply wp_loadb; [by apply (holds_byte _ _ _ 6 g H)|].
  apply wp_bind. eapply wp_loadb; [by apply (holds_byte _ _ _ 7 h H)|].
  rewrite !bytes_ok_cons in Hok. destruct Hok as (Ha & Hb & Hc & Hd & He & Hf & Hg & Hh & _).
  apply wp_ret. unfold u64. rewrite !byte_shift_small by lia.
  rewrite (lor_shiftl a b), (lor_shiftl _ c), (lor_shiftl _ d), (lor_shiftl _ e), (lor_shiftl _ f),
    (lor_shiftl _ g), (lor_shiftl _ h) by lia. simpl in HQ.
  match goal with |- Q ?v m => match type of HQ with Q ?w m => replace v with w by lia end end.
  exact HQ.
Qed.

(** Consecutive stores of single bytes. *)
Fixpoint storebs (p : Z) (l : list Z) : M unit :=
  match l with
  | [] => mret tt
  | b :: l => match l with [] => storeb p b | _ => storeb p b;; storebs (p + 1) l end
  end.

Lemma wp_storebs l : forall p m Q,
  l <> [] -> mapped m p (zlen l) ->
  (forall m', frame p (p + zlen l) m m' -> holds m' p l -> Q tt m') -> wp (storebs p l) Q m.
Proof.
  induction l as [|b l IH]; intros p m Q Hne Hm HQ; [done|]. rewrite zlen_cons in *.
  pose proof (zlen_nonneg l). cbn [storebs]. destruct l as [|b' l].
  - apply wp_storeb_frame; [done|]. intros m' Hf Hh. by apply HQ.
  - apply wp_bind. apply wp_storeb_frame; [eapply mapped_sub; [done|lia..]|].
    intros m1 Hf Hh. apply IH; [done|eapply mapped_sub; [by eapply frame_mapped|lia..]|].
    intros m2 Hf2 Hh2. apply HQ.
    + eapply frame_trans; eapply frame_weaken; [exact Hf| | |exact Hf2| |]; lia.
    + change (b :: b' :: l) with ([b] ++ b' :: l). eapply holds_snoc; [exact Hh|exact Hf2|exact Hh2].
Qed.

Lemma writeLE32_storebs p v : LZ4F_writeLE32 p v = storebs p (le_bytes 4 v).
Proof.
  rewrite le_bytes_4. cbn [storebs]. unfold LZ4F_writeLE32, u8, byte_at.
  rewrite Z.shiftr_0_r. by rewrite <- !Z.add_assoc.
Qed.

Lemma writeLE64_storebs p v : LZ4F_writeLE64 p v = storebs p (le_bytes 8 v).
Proof.
  rewrite le_bytes_8. cbn [storebs]. unfold LZ4F_writeLE64, u8, byte_at.
  rewrite Z.shiftr_0_r. by rewrite <- !Z.add_assoc.
Qed.

Lemma wp_writeLE32 p v m Q :
  mapped m p 4 -> (forall m', frame p (p + 4) m m' -> holds m' p (le_bytes 4 v) -> Q tt m') ->
  wp (LZ4F_writeLE32 p v) Q m.
Proof. intros Hm HQ. rewrite writeLE32_storebs. by apply wp_storebs. Qed.

Lemma wp_writeLE64 p v m Q :
  mapped m p 8 -> (forall m', frame p (p + 8) m m' -> holds m' p (le_bytes 8 v) -> Q tt m') ->
  wp (LZ4F_writeLE64 p v) Q m.
Proof. intros Hm HQ. rewrite writeLE64_storebs. by apply wp_storebs. Qed.

(** * The header checksum *)

Lemma wp_headerChecksum p l m Q :
  holds m p l -> Q (header_crc l) m -> wp (LZ4F_headerChecksum p (zlen l)) Q m.
Proof.
  intros H HQ. apply wp_bind. apply wp_XXH32; [done|]. apply wp_ret.
  unfold u8. rewrite Z.shiftr_div_pow2 by lia. exact HQ.
Qed.

Lemma header_crc_byte l : byte_ok (header_crc l).
Proof. apply Z.mod_pos_bound. lia. Qed.

(** * Writing a header *)

(** [l] was written at [dst]; nothing else changed outside [[dst, dst + cap)]. *)
Definition wrote (m0 m : mem) (dst cap : Z) (l : list Z) : Prop :=
  holds m dst l /\ frame dst (dst + cap) m0 m /\ zlen l <= cap.

Lemma wrote_app m0 m m' dst cap l k :
  wrote m0 m dst cap l -> frame (dst + zlen l) (dst + zlen l + zlen k) m m' ->
  holds m' (dst + zlen l) k -> zlen l + zlen k <= cap -> wrote m0 m' dst cap (l ++ k).
Proof.
  intros (Hh & Hf & Hc) Hf' Hk Hle. pose proof (zlen_nonneg l). split; [by eapply holds_snoc|].
  split; [|rewrite zlen_app; lia].
  eapply frame_trans; [exact Hf|]. eapply frame_weaken; [exact Hf'|lia..].
Qed.

Lemma wrote_mapped m0 m dst cap l n :
  wrote m0 m dst cap l -> mapped m0 dst cap -> zlen l + n <= cap -> mapped m (dst + zlen l) n.
Proof.
  intros (_ & Hf & _) Hm Hn. pose proof (zlen_nonneg l).
  eapply mapped_sub; [by eapply frame_mapped|lia..].
Qed.

Lemma flag_cases b : 0 <= b <= 1 -> b = 0 \/ b = 1.
Proof. lia. Qed.

Lemma flg_byte_eq i :
  info_wf i ->
  u8 (Z.shiftl (Z.land 1 _2BITS) 6 + Z.shiftl (Z.land (blockMode i) _1BIT) 5
      + Z.shiftl (Z.land (blockChecksumFlag i) _1BIT) 4
      + Z.shiftl (Z.b2z (0 <? contentSize i)) 3
      + Z.shiftl (Z.land (contentChecksumFlag i) _1BIT) 2 + Z.b2z (0 <? dictID i)) =
  flg_byte i (negb (contentSize i =? 0)) (negb (dictID i =? 0)).
Proof.
  intros (_ & Hm%flag_cases & Hc%flag_cases & _ & Hs & Hd & Hb%flag_cases). unfold flg_byte.
  assert ((0 <? contentSize i) = negb (contentSize i =? 0)) as -> by (repeat zcase; lia).
  assert ((0 <? dictID i) = negb (dictID i =? 0)) as -> by (repeat zcase; lia).
  destruct Hm as [-> | ->], Hc as [-> | ->], Hb as [-> | ->];
    destruct (contentSize i =? 0), (dictID i =? 0); reflexivity.
Qed.

Lemma bd_byte_eq i : info_wf i -> u8 (Z.shiftl (Z.land (blockSizeID i) _3BITS) 4) = bd_byte i.
Proof.
  intros (Hb & _). unfold bd_byte.
  assert (blockSizeID i = 4 \/ blockSizeID i = 5 \/ blockSizeID i = 6 \/ blockSizeID i = 7)
    as [-> | [-> | [-> | ->]]] by lia; reflexivity.
Qed.

Lemma zlen_descriptor i sized dicted :
  zlen (descriptor i sized dicted) = header_size sized dicted - 5.
Proof. by destruct sized, dicted. Qed.

Lemma zlen_header_bytes i sized dicted :
  zlen (header_bytes i sized dicted) = header_size sized dicted.
Proof. by destruct sized, dicted. Qed.

Lemma wp_writeFrameHeader i dst m Q :
  info_wf i -> mapped m dst 19 ->
  (let h := header_bytes i (negb (contentSize i =? 0)) (negb (dictID i =? 0)) in
   forall m', wrote m m' dst 19 h -> Q (zlen h) m') ->
  wp (LZ4F_writeFrameHeader i dst) Q m.
Proof.
  intros Hi Hm HQ. cbv zeta in HQ. rewrite zlen_header_bytes in HQ.
  set (sized := negb (contentSize i =? 0)) in *. set (dicted := negb (dictID i =? 0)) in *.
  assert (wrote m m dst 19 []) as W by (split; [apply holds_nil|split; [apply frame_refl|done]]).
  unfold LZ4F_writeFrameHeader. rewrite (flg_byte_eq i Hi), (bd_byte_eq i Hi).
  fold sized dicted. apply wp_bind.
  apply wp_writeLE32; [eapply mapped_sub; [done|lia..]|]. intros m1 Hf1 Hh1.
  assert (wrote m m1 dst 19 magic_bytes) as W1.
  { split; [done|]. split; [eapply frame_weaken; [done|lia..]|done]. } clear W.
  change (dst + 4) with (dst + zlen magic_bytes). apply wp_bind.
  apply wp_storeb_frame; [by eapply wrote_mapped|]. intros m2 Hf2 Hh2.
  pose proof (wrote_app _ _ _ _ _ _ [flg_byte i sized dicted] W1 Hf2 Hh2 ltac:(done)) as W2.
  set (l2 := magic_bytes ++ [flg_byte i sized dicted]) in *.
  replace (dst + zlen magic_bytes + 1) with (dst + zlen l2)
    by (unfold l2; rewrite zlen_app, Z.add_assoc; reflexivity).
  apply wp_bind.
  apply wp_storeb_frame; [by eapply wrote_mapped|]. intros m3 Hf3 Hh3.
  pose proof (wrote_app _ _ _ _ _ _ [bd_byte i] W2 Hf3 Hh3 ltac:(done)) as W3.
  set (l3 := l2 ++ [bd_byte i]) in *.
  replace (dst + zlen l2 + 1) with (dst + zlen l3)
    by (unfold l3; rewrite zlen_app, Z.add_assoc; reflexivity).
  apply wp_bind. eapply (wp_mono _ (fun p m' =>
    let l := l3 ++ (if sized then le_bytes 8 (contentSize i) else []) in
    p = dst + zlen l /\ wrote m m' dst 19 l)).
  { destruct sized.
    - apply wp_bind. apply wp_writeLE64; [by eapply wrote_mapped|]. intros m4 Hf4 Hh4. apply wp_ret.
      split; [by rewrite zlen_app, Z.add_assoc|]. by apply (wrote_app _ _ _ _ _ _ _ W3).
    - apply wp_ret. by rewrite app_nil_r. }
  intros p4 m4 [-> W4]. set (l4 := l3 ++ (if sized then _ else _)) in *.
  assert (zlen l4 <= 14) as L4 by (unfold l4; by destruct sized).
  apply wp_bind. eapply (wp_mono _ (fun p m' =>
    let l := l4 ++ (if dicted then le_bytes 4 (dictID i) else []) in
    p = dst + zlen l /\ wrote m m' dst 19 l)).
  { destruct dicted.
    - apply wp_bind. apply wp_writeLE32; [eapply wrote_mapped; [done..|lia]|].
      intros m5 Hf5 Hh5. apply wp_ret. split; [by rewrite zlen_app, Z.add_assoc|].
      apply (wrote_app _ _ _ _ _ _ _ W4); [done..|]. rewrite zlen_le_bytes. lia.
    - apply wp_ret. by rewrite app_nil_r. }
  intros p5 m5 [-> W5].
  assert (l4 ++ (if dicted then le_bytes 4 (dictID i) else []) =
    magic_bytes ++ descriptor i sized dicted) as E by (unfold l4, l3, l2, descriptor; by rewrite <- !app_assoc).
  rewrite E in *. apply wp_bind.
  replace (dst + zlen (magic_bytes ++ descriptor i sized dicted) - (dst + zlen magic_bytes))
    with (zlen (descriptor i sized dicted)) by (rewrite zlen_app; lia).
  destruct W5 as (Hh5 & Hf5 & Hc5). apply holds_app in Hh5 as Hd5. destruct Hd5 as [_ Hd5].
  apply wp_headerChecksum; [done|]. apply wp_bind.
  assert (zlen (magic_bytes ++ descriptor i sized dicted) = header_size sized dicted - 1) as Ez.
  { rewrite zlen_app, zlen_descriptor. change (zlen magic_bytes) with 4. lia. }
  assert (header_size sized dicted <= 19) as Hsz by (by destruct sized, dicted).
  apply wp_storeb_frame; [eapply wrote_mapped; [by split|done|lia]|]. intros m6 Hf6 Hh6.
  apply wp_ret. rewrite Ez. replace (dst + (header_size sized dicted - 1) + 1 - dst)
    with (header_size sized dicted) by lia.
  apply HQ. unfold header_bytes. rewrite app_assoc. eapply wrote_app; [by split|done|done|].
  change (zlen [_]) with 1. lia.
Qed.

(** * Reading a header *)

(** The bytes [i, i + n) of [l]. *)
Lemma sub_list (l : list Z) i n :
  0 <= i -> 0 <= n -> i + n <= zlen l ->
  exists x y, l = x ++ take (Z.to_nat n) (drop (Z.to_nat i) l) ++ y /\ zlen x = i /\
    length (take (Z.to_nat n) (drop (Z.to_nat i) l)) = Z.to_nat n.
Proof.
  intros Hi Hn Hl. exists (take (Z.to_nat i) l), (drop (Z.to_nat n) (drop (Z.to_nat i) l)).
  split; [by rewrite !take_drop|]. split; [rewrite zlen_take; unfold zlen in *; lia|].
  rewrite length_take, length_drop. unfold zlen in *. lia.
Qed.

Lemma wp_readLE32_at p l i m Q :
  holds m p l -> bytes_ok l -> 0 <= i -> i + 4 <= zlen l -> Q (le_of l i 4) m ->
  wp (LZ4F_readLE32 (p + i)) Q m.
Proof.
  intros H Hok Hi Hl HQ. destruct (sub_list l i 4) as (x & y & E & Hx & Hn); [lia..|].
  rewrite E in H, Hok. apply holds_app in H as [_ H]. rewrite Hx in H.
  apply bytes_ok_app in Hok as [_ [Hok _]%bytes_ok_app]. by eapply wp_readLE32_list.
Qed.

Lemma wp_readLE64_at p l i m Q :
  holds m p l -> bytes_ok l -> 0 <= i -> i + 8 <= zlen l -> Q (le_of l i 8) m ->
  wp (LZ4F_readLE64 (p + i)) Q m.
Proof.
  intros H Hok Hi Hl HQ. destruct (sub_list l i 8) as (x & y & E & Hx & Hn); [lia..|].
  rewrite E in H, Hok. apply holds_app in H as [_ H]. rewrite Hx in H.
  apply bytes_ok_app in Hok as [_ [Hok _]%bytes_ok_app]. by eapply wp_readLE64_list.
Qed.

Lemma wp_loadb_at p l i m Q :
  holds m p l -> 0 <= i < zlen l -> Q (byte_of l i) m -> wp (loadb (p + i)) Q m.
Proof.
  intros H Hi HQ. eapply wp_loadb; [|exact HQ]. rewrite (holds_at _ _ _ _ H) by lia.
  unfold byte_of. replace (p + i - p) with i by lia.
  destruct (lookup_lt_is_Some_2 l (Z.to_nat i)) as [b ->]; [unfold zlen in *; lia|done].
Qed.

Lemma byte_of_ok l i : bytes_ok l -> 0 <= i < zlen l -> byte_ok (byte_of l i).
Proof.
  intros Hok Hi. unfold byte_of.
  destruct (lookup_lt_is_Some_2 l (Z.to_nat i)) as [b Hb]; [unfold zlen in *; lia|].
  rewrite Hb. simpl. by eapply (Forall_lookup_1 _ _ _ _ Hok).
Qed.

Lemma le_of_range l i n :
  bytes_ok l -> 0 <= i -> 0 <= n -> i + n <= zlen l -> 0 <= le_of l i n < 256 ^ n.
Proof.
  intros Hok Hi Hn Hl. destruct (sub_list l i n) as (x & y & E & Hx & Hlen); [lia..|].
  unfold le_of. set (k := take _ _) in *. replace (256 ^ n) with (256 ^ zlen k) by (unfold zlen; f_equal; lia).
  apply le_val_range. rewrite E in Hok. by apply bytes_ok_app in Hok as [_ [Hok _]%bytes_ok_app].
Qed.

(** Bit fields. *)
Lemma land_bit b k : 0 <= k -> Z.land (Z.shiftr b k) _1BIT = flag (bit_of b k).
Proof.
  intros Hk. change _1BIT with (Z.ones 1). rewrite Z.land_ones, Z.shiftr_div_pow2 by lia.
  unfold flag, bit_of. by rewrite Z.testbit_spec'.
Qed.

Lemma land_bit0 b : Z.land b _1BIT = flag (bit_of b 0).
Proof. rewrite <- land_bit by lia. by rewrite Z.shiftr_0_r. Qed.

Lemma flag_neq0 b : negb (flag b =? 0) = b.
Proof. by destruct b. Qed.

Lemma land_skippable v :
  0 <= v < 2 ^ 32 -> Z.land v 0xFFFFFFF0 = LZ4F_MAGIC_SKIPPABLE_START <->
  v / 16 = LZ4F_MAGIC_SKIPPABLE_START / 16.
Proof.
  intros Hv. assert (Z.land v 0xFFFFFFF0 = 16 * (v / 16)) as ->.
  { change 16 with (2 ^ 4). rewrite Z.mul_comm, <- Z.shiftl_mul_pow2, <- Z.shiftr_div_pow2 by lia.
    change 0xFFFFFFF0 with (Z.shiftl (Z.ones 28) 4). apply Z.bits_inj'. intros j Hj.
    rewrite Z.land_spec, !Z.shiftl_spec by done. destruct (Z.lt_ge_cases j 4).
    - rewrite !(Z.testbit_neg_r _ (j - 4)) by lia. by rewrite andb_false_r.
    - rewrite Z.shiftr_spec by lia. replace (j - 4 + 4) with j by lia.
      destruct (Z.lt_ge_cases (j - 4) 28).
      + by rewrite Z.ones_spec_low, andb_true_r by lia.
      + rewrite Z.ones_spec_high, andb_false_r by lia.
        rewrite <- (Z.mod_small v (2 ^ 32)) by lia. by rewrite Z.mod_pow2_bits_high by lia. }
  unfold LZ4F_MAGIC_SKIPPABLE_START. change (0x184D2A50 / 16) with 0x184D2A5. lia.
Qed.

(** The context that reading the header [l] at [src] leaves, and the value
    returned. *)
Definition header_result (d : LZ4F_dctx) (src : Z) (l : list Z) (r : Z * LZ4F_dctx) : Prop :=
  match parse_header l with
  | HError e => r.1 = LZ4F_returnErrorCode e /\ exists i, r.2 = set_frameInfo i d \/ r.2 = d
  | HMore size =>
      r.1 = zlen l /\
      r.2 = set_dStage dstage_storeFrameHeader (set_tmpInTarget size (set_tmpInSize (zlen l)
              (set_frameInfo zero_frameInfo d)))
  | HSkippable =>
      let d := set_frameInfo (info_frameType LZ4F_skippableFrame zero_frameInfo) d in
      if src =? d_header d
      then r = (zlen l, set_dStage dstage_storeSFrameSize (set_tmpInTarget 8
                          (set_tmpInSize (zlen l) d)))
      else r = (4, set_dStage dstage_getSFrameSize d)
  | HFrame i size =>
      r.1 = size /\
      r.2 = set_dStage dstage_init
              (set_frameRemainingSize (if bit_of (byte_of l 4) 3 then contentSize i
                                       else d_frameRemainingSize d)
                 (set_maxBlockSize (LZ4F_getBlockSize (blockSizeID i)) (set_frameInfo i d)))
  end.

(** The array of the context is filled where the header is incomplete. *)
Definition header_stored (d : LZ4F_dctx) (src : Z) (l : list Z) (m m' : mem) : Prop :=
  match parse_header l with
  | HMore _ => holds m' (d_header d) l /\ frame (d_header d) (d_header d + 19) m m'
  | _ => m' = m
  end.

Lemma set_frameInfo_twice i j d : set_frameInfo i (set_frameInfo j d) = set_frameInfo i d.
Proof. done. Qed.

Lemma parse_more_size l size : parse_header l = HMore size -> zlen l < size <= 19.
Proof.
  unfold parse_header. repeat case_match; try done. intros [= <-].
  split; [by apply Z.ltb_lt|]. unfold header_size. repeat case_match; lia.
Qed.

Lemma header_size_range sized dicted : 7 <= header_size sized dicted <= 19.
Proof. destruct sized, dicted; unfold header_size; lia. Qed.

(** The last part of [LZ4F_decodeHeader]: the optional fields. *)
Lemma wp_header_fields d src l sized dicted m Q :
  holds m src l -> bytes_ok l -> header_size sized dicted <= zlen l ->
  let n := header_size sized dicted in
  Q (n, set_dStage dstage_init
        (set_frameRemainingSize (if sized then le_of l 6 8 else d_frameRemainingSize d)
           (set_frameInfo (FrameInfo (blockSizeID (d_frameInfo d)) (blockMode (d_frameInfo d))
              (contentChecksumFlag (d_frameInfo d)) (frameType (d_frameInfo d))
              (if sized then le_of l 6 8 else contentSize (d_frameInfo d))
              (if dicted then le_of l (n - 5) 4 else dictID (d_frameInfo d))
              (blockChecksumFlag (d_frameInfo d))) d))) m ->
  wp (d ← (if sized then
             size ← LZ4F_readLE64 (src + 6);
             mret (set_frameRemainingSize size (set_frameInfo (info_contentSize size (d_frameInfo d)) d))
           else mret d);
      d ← (if dicted then
             id ← LZ4F_readLE32 (src + n - 5);
             mret (set_frameInfo (info_dictID id (d_frameInfo d)) d)
           else mret d);
      mret (n, set_dStage dstage_init d)) Q m.
Proof.
  intros H Hok Hl n HQ. apply wp_bind.
  eapply (wp_mono _ (fun d' m' => m' = m /\ d' = if sized
    then set_frameRemainingSize (le_of l 6 8) (set_frameInfo (info_contentSize (le_of l 6 8) (d_frameInfo d)) d)
    else d)).
  { destruct sized; [|by apply wp_ret]. apply wp_bind.
    eapply wp_readLE64_at; [done|done|lia|destruct dicted; unfold header_size in Hl; lia|]. by apply wp_ret. }
  intros d' m' [-> ->]. apply wp_bind.
  eapply (wp_mono _ (fun d'' m' => m' = m /\ d'' = if dicted
    then set_frameInfo (info_dictID (le_of l (n - 5) 4) (d_frameInfo (if sized
    then set_frameRemainingSize (le_of l 6 8) (set_frameInfo (info_contentSize (le_of l 6 8) (d_frameInfo d)) d)
    else d))) (if sized
    then set_frameRemainingSize (le_of l 6 8) (set_frameInfo (info_contentSize (le_of l 6 8) (d_frameInfo d)) d)
    else d)
    else if sized
    then set_frameRemainingSize (le_of l 6 8) (set_frameInfo (info_contentSize (le_of l 6 8) (d_frameInfo d)) d)
    else d)).
  { destruct dicted; [|by apply wp_ret]. apply wp_bind.
    replace (src + n - 5) with (src + (n - 5)) by lia.
    pose proof (header_size_range sized true).
    eapply wp_readLE32_at; [done|done|unfold n; lia|unfold n in *; lia|]. by apply wp_ret. }
  intros d2 m2 [-> ->]. apply wp_ret. destruct sized, dicted, d as [[] ? ? ? ? ? ? ? ? ? ? ? ? ? ? ? ? ? ?]; exact HQ.
Qed.

Section DecodeHeader.
Context (d : LZ4F_dctx) (src : Z) (l : list Z) (m : mem).
Context (Hl : holds m src l) (Hok : bytes_ok l) (Hm : mapped m (d_header d) 19).
Context (Hdis : src = d_header d \/ src + zlen l <= d_header d \/ d_header d + 19 <= src).

(** Behind the magic number and the FLG byte. *)
Lemma wp_decodeHeader_descr (Q : Z * LZ4F_dctx -> mem -> Prop) :
  7 <= zlen l -> (le_of l 0 4 / 16 =? LZ4F_MAGIC_SKIPPABLE_START / 16) = false ->
  le_of l 0 4 = LZ4F_MAGICNUMBER -> bit_of (byte_of l 4) 1 = false -> byte_of l 4 / 64 = 1 ->
  (forall r m', header_result d src l r -> header_stored d src l m m' -> Q r m') ->
  let d := set_frameInfo zero_frameInfo d in
  let FLG := byte_of l 4 in
  let n := header_size (bit_of FLG 3) (bit_of FLG 0) in
  wp (if zlen l <? n then
        (if negb (src =? d_header d) then memcpy (d_header d) src (zlen l) else mret tt);;
        mret (zlen l, set_dStage dstage_storeFrameHeader (set_tmpInTarget n (set_tmpInSize (zlen l) d)))
      else
      BD ← loadb (src + 5);
      let blockSizeID := Z.land (Z.shiftr BD 4) _3BITS in
      let error e d := mret (LZ4F_returnErrorCode e, d) in
      if negb (Z.land (Z.shiftr BD 7) _1BIT =? 0) then error LZ4F_ERROR_reservedFlag_set d else
      if blockSizeID <? 4 then error LZ4F_ERROR_maxBlockSize_invalid d else
      if negb (Z.land (Z.shiftr BD 0) _4BITS =? 0) then error LZ4F_ERROR_reservedFlag_set d else
      HC ← LZ4F_headerChecksum (src + 4) (n - 5);
      hc ← loadb (src + n - 1);
      if negb (HC =? hc) then error LZ4F_ERROR_headerChecksum_invalid d else
      let d := set_frameInfo (info_flags blockSizeID (flag (bit_of FLG 5)) (flag (bit_of FLG 2))
                                (flag (bit_of FLG 4)) (d_frameInfo d)) d in
      let d := set_maxBlockSize (LZ4F_getBlockSize blockSizeID) d in
      d ← (if bit_of FLG 3 then
             size ← LZ4F_readLE64 (src + 6);
             mret (set_frameRemainingSize size (set_frameInfo (info_contentSize size (d_frameInfo d)) d))
           else mret d);
      d ← (if bit_of FLG 0 then
             id ← LZ4F_readLE32 (src + n - 5);
             mret (set_frameInfo (info_dictID id (d_frameInfo d)) d)
           else mret d);
      mret (n, set_dStage dstage_init d)) Q m.
Proof.
  intros H7 Hsk Hmag Hres Hver HQ d' FLG n.
  unfold header_result, header_stored, parse_header in HQ.
  rewrite (proj2 (Z.ltb_ge _ _) H7), Hsk, Hmag, Z.eqb_refl in HQ. cbv zeta in HQ. cbn [negb] in HQ.
  rewrite Hres in HQ. rewrite (proj2 (Z.eqb_eq _ _) Hver) in HQ. cbn [negb] in HQ.
  fold FLG in HQ. fold n in HQ. pose proof (header_size_range (bit_of FLG 3) (bit_of FLG 0)) as Hn.
  fold n in Hn. wif.
  - apply wp_bind. eapply (wp_mono _ (fun _ m' => holds m' (d_header d) l /\
      frame (d_header d) (d_header d + 19) m m')).
    + change (d_header d') with (d_header d). destruct (Z.eqb_spec src (d_header d)) as [E|E]; cbn [negb].
      { apply wp_ret. rewrite <- E. split; [done|apply frame_refl]. }
      pose proof (holds_mapped _ _ _ Hl) as Hml.
      apply wp_memcpy; [lia|done|eapply mapped_sub; [exact Hm|lia..]|lia|]. intros m' Hc. split.
      * by eapply copied_holds.
      * eapply frame_weaken; [by eapply copied_frame|lia..].
    + intros _ m' [Hh Hf]. apply wp_ret. by apply HQ.
  - pose proof (byte_of_ok l 5 Hok ltac:(lia)) as HBD.
    apply wp_bind. eapply wp_loadb_at; [done|lia|]. set (BD := byte_of l 5) in *.
    rewrite land_bit, flag_neq0 by lia. cbv zeta.
    destruct (bit_of BD 7) eqn:E7.
    { apply wp_ret, HQ; [|done]. split; [done|]. exists zero_frameInfo. by left. }
    assert (BD < 128) as HBD7.
    { unfold bit_of in E7. apply Z.testbit_false in E7; [|lia]. change (2 ^ 7) with 128 in E7.
      Z.div_mod_to_equations. lia. }
    assert (Z.land (Z.shiftr BD 4) _3BITS = BD / 16) as ->.
    { change _3BITS with (Z.ones 3). rewrite Z.land_ones, Z.shiftr_div_pow2 by lia.
      change (2 ^ 4) with 16. apply Z.mod_small. Z.div_mod_to_equations. lia. }
    assert (Z.land (Z.shiftr BD 0) _4BITS = BD mod 16) as ->.
    { rewrite Z.shiftr_0_r. change _4BITS with (Z.ones 4). by rewrite Z.land_ones by lia. }
    destruct (BD / 16 <? 4).
    { apply wp_ret, HQ; [|done]. split; [done|]. exists zero_frameInfo. by left. }
    destruct (BD mod 16 =? 0); cbn [negb] in HQ |- *.
    2: { apply wp_ret, HQ; [|done]. split; [done|]. exists zero_frameInfo. by left. }
    apply wp_bind. destruct (sub_list l 4 (n - 5)) as (x & y & E & Hx & Hlen); [lia..|].
    change (Z.to_nat 4) with 4%nat in *. set (k := take (Z.to_nat (n - 5)) (drop 4 l)) in *.
    replace (n - 5) with (zlen k) by (unfold zlen; lia).
    apply wp_headerChecksum.
    { rewrite E in Hl. apply holds_app in Hl as [_ [Hk _]%holds_app]. by rewrite Hx in Hk. }
    apply wp_bind. replace (src + n - 1) with (src + (n - 1)) by lia.
    eapply wp_loadb_at; [done|lia|].
    destruct (header_crc k =? byte_of l (n - 1)); cbn [negb] in HQ |- *.
    2: { apply wp_ret, HQ; [|done]. split; [done|]. exists zero_frameInfo. by left. }
    eapply wp_header_fields; [done|done|done|]. apply HQ; [|done]. split; [done|].
    by destruct (bit_of FLG 3), (bit_of FLG 0).
Qed.

Lemma wp_decodeHeader Q :
  (forall r m', header_result d src l r -> header_stored d src l m m' -> Q r m') ->
  wp (LZ4F_decodeHeader d src (zlen l)) Q m.
Proof.
  intros HQ. pose proof HQ as HQ0. unfold LZ4F_decodeHeader. cbv zeta.
  pose proof (wp_decodeHeader_descr Q) as Hdescr.
  unfold header_result, header_stored, parse_header in HQ. unfold minFHSize.
  destruct (Z.ltb_spec (zlen l) 7) as [H7|H7].
  { apply wp_ret, HQ; [|done]. split; [done|]. exists zero_frameInfo. by right. }
  pose proof (le_of_range l 0 4 Hok ltac:(lia) ltac:(lia) ltac:(lia)) as Hmr.
  change (256 ^ 4) with (2 ^ 32) in Hmr.
  apply wp_bind. rewrite <- (Z.add_0_r src) at 1. eapply wp_readLE32_at; [done|done|lia|lia|].
  set (magic := le_of l 0 4) in *. cbv zeta in HQ.
  destruct (Z.eqb_spec (Z.land magic 0xFFFFFFF0) LZ4F_MAGIC_SKIPPABLE_START) as [Es|Es].
  { apply land_skippable in Es; [|done]. rewrite (proj2 (Z.eqb_eq _ _) Es) in HQ.
    change (d_header (set_frameInfo _ _)) with (d_header d) in *.
    destruct (Z.eqb_spec src (d_header d)); apply wp_ret, HQ; done. }
  rewrite land_skippable in Es by done. apply Z.eqb_neq in Es. rewrite Es in HQ.
  apply wp_bind. rewrite <- (Z.add_0_r src) at 1. eapply wp_readLE32_at; [done|done|lia|lia|].
  fold magic. destruct (Z.eqb_spec magic LZ4F_MAGICNUMBER) as [Em|Em]; cbn [negb] in HQ |- *.
  2: { apply wp_ret, HQ; [|done]. split; [done|]. exists zero_frameInfo. by left. }
  apply wp_bind. eapply wp_loadb_at; [done|lia|].
  pose proof (byte_of_ok l 4 Hok ltac:(lia)) as HF. set (FLG := byte_of l 4) in *.
  rewrite !land_bit, land_bit0, !flag_neq0 by lia.
  destruct (bit_of FLG 1) eqn:E1.
  { apply wp_ret, HQ; [|done]. split; [done|]. exists zero_frameInfo. by left. }
  assert (Z.land (Z.shiftr FLG 6) _2BITS = FLG / 64) as ->.
  { change _2BITS with (Z.ones 2). rewrite Z.land_ones, Z.shiftr_div_pow2 by lia.
    change (2 ^ 6) with 64. apply Z.mod_small. Z.div_mod_to_equations. lia. }
  destruct (Z.eqb_spec (FLG / 64) 1) as [Ev|Ev]; cbn [negb] in HQ |- *.
  2: { apply wp_ret, HQ; [|done]. split; [done|]. exists zero_frameInfo. by left. }
  by apply Hdescr.
Qed.
End DecodeHeader.

(** [LZ4F_headerSize] announces the size that reading the header needs. *)
Lemma wp_headerSize src l m Q :
  holds m src l -> bytes_ok l -> src <> NULL ->
  Q (if zlen l <? 5 then LZ4F_returnErrorCode LZ4F_ERROR_frameHeader_incomplete
     else if le_of l 0 4 / 16 =? LZ4F_MAGIC_SKIPPABLE_START / 16 then 8
     else if le_of l 0 4 =? LZ4F_MAGICNUMBER
     then header_size (bit_of (byte_of l 4) 3) (bit_of (byte_of l 4) 0)
     else LZ4F_returnErrorCode LZ4F_ERROR_frameType_unknown) m ->
  wp (LZ4F_headerSize src (zlen l)) Q m.
Proof.
  intros H Hok Hsrc HQ. unfold LZ4F_headerSize, LZ4F_MIN_SIZE_TO_KNOW_HEADER_LENGTH.
  rewrite (proj2 (Z.eqb_neq _ _)) by done. destruct (Z.ltb_spec (zlen l) 5); [by apply wp_ret|].
  pose proof (le_of_range l 0 4 Hok ltac:(lia) ltac:(lia) ltac:(lia)) as Hmr.
  change (256 ^ 4) with (2 ^ 32) in Hmr.
  apply wp_bind. rewrite <- (Z.add_0_r src) at 1. eapply wp_readLE32_at; [done|done|lia|lia|].
  set (magic := le_of l 0 4) in *.
  destruct (Z.eqb_spec (Z.land magic 0xFFFFFFF0) LZ4F_MAGIC_SKIPPABLE_START) as [Es|Es].
  { apply land_skippable in Es; [|done]. rewrite (proj2 (Z.eqb_eq _ _) Es) in HQ. by apply wp_ret. }
  rewrite land_skippable in Es by done. apply Z.eqb_neq in Es. rewrite Es in HQ.
  apply wp_bind. rewrite <- (Z.add_0_r src) at 1. eapply wp_readLE32_at; [done|done|lia|lia|].
  fold magic. destruct (Z.eqb_spec magic LZ4F_MAGICNUMBER) as [Em|Em]; cbn [negb]; [|by apply wp_ret].
  apply wp_bind. eapply wp_loadb_at; [done|lia|]. apply wp_ret.
  rewrite land_bit, land_bit0, !flag_neq0 by lia. exact HQ.
Qed.

(** * Reading inverts writing *)

Lemma descriptor_ok i sized dicted : info_wf i -> bytes_ok (descriptor i sized dicted).
Proof.
  intros (Hb & Hm & Hc & _ & _ & _ & Hk). unfold descriptor. rewrite !bytes_ok_app. split; [|split].
  - repeat apply Forall_cons; [| |constructor]; unfold flg_byte, bd_byte; [|lia].
    destruct sized, dicted; cbn [flag Z.b2z]; lia.
  - destruct sized; [apply le_bytes_ok|constructor].
  - destruct dicted; [apply le_bytes_ok|constructor].
Qed.

Lemma header_bytes_ok i sized dicted : info_wf i -> bytes_ok (header_bytes i sized dicted).
Proof.
  intros Hi. unfold header_bytes. rewrite !bytes_ok_app. split; [apply le_bytes_ok|].
  split; [by apply descriptor_ok|]. apply Forall_singleton, header_crc_byte.
Qed.

(** The optional fields that are absent read as 0. *)
Definition info_present (i : LZ4F_frameInfo_t) (sized dicted : bool) : Prop :=
  (sized = false -> contentSize i = 0) /\ (dicted = false -> dictID i = 0).

Lemma flg_fields i sized dicted : info_wf i ->
  let FLG := flg_byte i sized dicted in
  FLG / 64 = 1 /\ bit_of FLG 1 = false /\ bit_of FLG 3 = sized /\ bit_of FLG 0 = dicted /\
  flag (bit_of FLG 5) = blockMode i /\ flag (bit_of FLG 2) = contentChecksumFlag i /\
  flag (bit_of FLG 4) = blockChecksumFlag i.
Proof.
  intros (_ & Hm%flag_cases & Hc%flag_cases & _ & _ & _ & Hb%flag_cases). unfold flg_byte.
  destruct Hm as [-> | ->], Hc as [-> | ->], Hb as [-> | ->], sized, dicted; by vm_compute.
Qed.

(** Fields by position. *)
Lemma le_of_app x k y n : zlen k = n -> le_of (x ++ k ++ y) (zlen x) n = le_val k.
Proof.
  intros <-. unfold le_of, zlen. by rewrite !Nat2Z.id, drop_app_length, take_app_length.
Qed.

Lemma byte_of_app x b y : byte_of (x ++ b :: y) (zlen x) = b.
Proof. unfold byte_of, zlen. by rewrite Nat2Z.id, list_lookup_middle. Qed.

Lemma header_fields i sized dicted r :
  let n := header_size sized dicted in
  let l := header_bytes i sized dicted ++ r in
  take (Z.to_nat (n - 5)) (drop 4 l) = descriptor i sized dicted /\
  byte_of l (n - 1) = header_crc (descriptor i sized dicted) /\
  (sized = true -> le_of l 6 8 = contentSize i mod 2 ^ 64) /\
  (dicted = true -> le_of l (n - 5) 4 = dictID i mod 2 ^ 32).
Proof.
  cbv zeta. unfold header_bytes. pose proof (zlen_descriptor i sized dicted) as Hz.
  rewrite <- !app_assoc. split; [|split; [|split]].
  - change 4%nat with (length magic_bytes). rewrite drop_app_length.
    rewrite <- Hz. unfold zlen. by rewrite Nat2Z.id, take_app_length.
  - replace (header_size sized dicted - 1) with (zlen (magic_bytes ++ descriptor i sized dicted)).
    + rewrite app_assoc. apply byte_of_app.
    + rewrite zlen_app, Hz. change (zlen magic_bytes) with 4. lia.
  - intros ->. unfold descriptor. rewrite <- !app_assoc.
    change (magic_bytes ++ [flg_byte i true dicted; bd_byte i] ++ le_bytes 8 (contentSize i) ++ ?y)
      with ((magic_bytes ++ [flg_byte i true dicted; bd_byte i]) ++ le_bytes 8 (contentSize i) ++ y).
    change 6 with (zlen (magic_bytes ++ [flg_byte i true dicted; bd_byte i])).
    rewrite le_of_app by done. apply le_val_bytes.
  - intros ->. unfold descriptor.
    set (x := magic_bytes ++ [flg_byte i sized true; bd_byte i] ++
       (if sized then le_bytes 8 (contentSize i) else [])).
    replace (header_size sized true - 5) with (zlen x).
    + rewrite <- !app_assoc. rewrite (app_assoc [_; _]), (app_assoc magic_bytes). fold x.
      rewrite le_of_app by done. apply le_val_bytes.
    + unfold x. by destruct sized.
Qed.

Lemma parse_header_bytes i sized dicted r :
  info_wf i -> info_present i sized dicted ->
  parse_header (header_bytes i sized dicted ++ r) = HFrame i (header_size sized dicted).
Proof.
  intros Hi [Hs Hd]. destruct (flg_fields i sized dicted Hi) as (F1 & F2 & F3 & F4 & F5 & F6 & F7).
  pose proof Hi as (Hb & _ & _ & Ht & Hcs & Hdi & _). zlen_facts.
  unfold parse_header. rewrite zlen_app, zlen_header_bytes.
  pose proof (header_size_range sized dicted) as Hn. pose proof (zlen_nonneg r).
  destruct (Z.ltb_spec (header_size sized dicted + zlen r) 7); [lia|].
  change (le_of (header_bytes i sized dicted ++ r) 0 4) with LZ4F_MAGICNUMBER.
  change (LZ4F_MAGICNUMBER / 16 =? LZ4F_MAGIC_SKIPPABLE_START / 16) with false.
  rewrite Z.eqb_refl. cbn [negb].
  change (byte_of (header_bytes i sized dicted ++ r) 4) with (flg_byte i sized dicted).
  change (byte_of (header_bytes i sized dicted ++ r) 5) with (bd_byte i).
  cbv zeta. rewrite F1, F2, F3, F4, F5, F6, F7. change (1 =? 1) with true. cbn [negb].
  destruct (Z.ltb_spec (header_size sized dicted + zlen r) (header_size sized dicted)); [lia|].
  assert (bit_of (bd_byte i) 7 = false) as ->.
  { unfold bit_of, bd_byte. rewrite Z.testbit_false by lia. change (2 ^ 7) with 128.
    Z.div_mod_to_equations. lia. }
  unfold bd_byte. rewrite (Z.mul_comm 16), Z.div_mul, Z.mod_mul by lia.
  destruct (Z.ltb_spec (blockSizeID i) 4); [lia|]. change (0 =? 0) with true. cbn [negb].
  destruct (header_fields i sized dicted r) as (-> & -> & G1 & G2). rewrite Z.eqb_refl. cbn [negb].
  assert ((if sized then le_of (header_bytes i sized dicted ++ r) 6 8 else 0) = contentSize i) as ->.
  { destruct sized; [rewrite G1 by done; by apply Z.mod_small|by rewrite Hs]. }
  assert ((if dicted then le_of (header_bytes i sized dicted ++ r) (header_size sized dicted - 5) 4
           else 0) = dictID i) as ->.
  { destruct dicted; [rewrite G2 by done; by apply Z.mod_small|by rewrite Hd]. }
  rewrite <- Ht. by destruct i.
Qed.

(** * Writing inverts reading *)

Lemma byte_forall (P : Z -> bool) :
  forallb P (seqZ 0 256) = true -> forall b, byte_ok b -> P b = true.
Proof.
  intros H b Hb. rewrite List.forallb_forall in H. apply H.
  apply list_elem_of_In, elem_of_seqZ. lia.
Qed.

Lemma flg_byte_inv FLG i :
  byte_ok FLG -> FLG / 64 = 1 -> bit_of FLG 1 = false ->
  blockMode i = flag (bit_of FLG 5) -> contentChecksumFlag i = flag (bit_of FLG 2) ->
  blockChecksumFlag i = flag (bit_of FLG 4) ->
  FLG = flg_byte i (bit_of FLG 3) (bit_of FLG 0).
Proof.
  intros Hb Hv Hr Em Ec Eb. unfold flg_byte. rewrite Em, Ec, Eb.
  pose proof (byte_forall (fun b => negb (b / 64 =? 1) || bit_of b 1 ||
    (b =? 64 + 32 * flag (bit_of b 5) + 16 * flag (bit_of b 4) + 8 * flag (bit_of b 3)
          + 4 * flag (bit_of b 2) + flag (bit_of b 0))) ltac:(vm_compute; reflexivity) FLG Hb) as H.
  cbv beta in H. rewrite Hv, Hr in H. by apply Z.eqb_eq in H.
Qed.

(** A field is the encoding of its value. *)
Lemma field_bytes l i n :
  bytes_ok l -> 0 <= i -> 0 <= n -> i + n <= zlen l ->
  take (Z.to_nat n) (drop (Z.to_nat i) l) = le_bytes (Z.to_nat n) (le_of l i n).
Proof.
  intros Hok Hi Hn Hl. destruct (sub_list l i n) as (x & y & E & _ & Hlen); [lia..|].
  unfold le_of. rewrite <- Hlen at 2. symmetry. apply le_bytes_val. rewrite E in Hok.
  by apply bytes_ok_app in Hok as [_ [Hok _]%bytes_ok_app].
Qed.

Lemma take_S_byte l i :
  0 <= i < zlen l -> drop (Z.to_nat i) l = byte_of l i :: drop (Z.to_nat (i + 1)) l.
Proof.
  intros Hi. unfold byte_of. destruct (lookup_lt_is_Some_2 l (Z.to_nat i)) as [b Hb];
    [unfold zlen in *; lia|]. rewrite Hb. simpl. replace (Z.to_nat (i + 1)) with (S (Z.to_nat i)) by lia.
  by apply drop_S.
Qed.

(** The descriptor of a header that was accepted. *)
Lemma descriptor_inv l i sized dicted :
  bytes_ok l -> header_size sized dicted <= zlen l ->
  byte_of l 4 = flg_byte i sized dicted -> byte_of l 5 = bd_byte i ->
  contentSize i = (if sized then le_of l 6 8 else 0) ->
  dictID i = (if dicted then le_of l (header_size sized dicted - 5) 4 else 0) ->
  drop 4 l = descriptor i sized dicted ++ drop (Z.to_nat (header_size sized dicted - 1)) l.
Proof.
  intros Hok Hl E4 E5 Es Ed. pose proof (header_size_range sized dicted).
  change 4%nat with (Z.to_nat 4). rewrite (take_S_byte l 4), E4 by lia.
  change (4 + 1) with 5. rewrite (take_S_byte l 5), E5 by lia. change (5 + 1) with 6. unfold descriptor. cbn [app]. do 2 f_equal.
  assert (drop (Z.to_nat 6) l = (if sized then le_bytes 8 (contentSize i) else []) ++
    drop (Z.to_nat (header_size sized dicted - 1 - (if dicted then 4 else 0))) l) as ->.
  { destruct sized.
    - change (le_bytes 8) with (le_bytes (Z.to_nat 8)).
      rewrite Es, <- (field_bytes l 6 8 Hok) by (unfold header_size in *; destruct dicted; lia).
      rewrite <- (take_drop (Z.to_nat 8) (drop (Z.to_nat 6) l)) at 1. f_equal.
      rewrite drop_drop. f_equal. unfold header_size. destruct dicted; lia.
    - simpl. f_equal. unfold header_size. destruct dicted; lia. }
  rewrite <- app_assoc. f_equal. destruct dicted; [|simpl; by rewrite Z.sub_0_r].
  rewrite Ed. set (n := header_size sized true) in *.
  change (le_bytes 4) with (le_bytes (Z.to_nat 4)).
  rewrite <- (field_bytes l (n - 5) 4 Hok) by lia.
  replace (n - 1 - 4) with (n - 5) by lia.
  rewrite <- (take_drop (Z.to_nat 4) (drop (Z.to_nat (n - 5)) l)) at 1. f_equal.
  rewrite drop_drop. f_equal. lia.
Qed.

Lemma parse_header_inv l i n :
  bytes_ok l -> parse_header l = HFrame i n ->
  exists sized dicted, info_wf i /\ info_present i sized dicted /\ n = header_size sized dicted /\
    sized = bit_of (byte_of l 4) 3 /\ l = header_bytes i sized dicted ++ drop (Z.to_nat n) l.
Proof.
  intros Hok H. unfold parse_header in H. cbv zeta in H.
  destruct (Z.ltb_spec (zlen l) 7) as [|H7]; [done|].
  destruct (_ =? _); [done|]. destruct (Z.eqb_spec (le_of l 0 4) LZ4F_MAGICNUMBER) as [Em|]; [|done].
  cbn [negb] in H. destruct (bit_of (byte_of l 4) 1) eqn:E1; [done|].
  destruct (Z.eqb_spec (byte_of l 4 / 64) 1) as [Ev|]; [|done]. cbn [negb] in H.
  set (sized := bit_of (byte_of l 4) 3) in *. set (dicted := bit_of (byte_of l 4) 0) in *.
  destruct (Z.ltb_spec (zlen l) (header_size sized dicted)) as [|Hn]; [done|].
  destruct (bit_of (byte_of l 5) 7) eqn:E7; [done|].
  destruct (Z.ltb_spec (byte_of l 5 / 16) 4) as [|Hbs]; [done|].
  destruct (Z.eqb_spec (byte_of l 5 mod 16) 0) as [Eb|]; [|done]. cbn [negb] in H.
  destruct (Z.eqb_spec (header_crc (take (Z.to_nat (header_size sized dicted - 5)) (drop 4 l)))
    (byte_of l (header_size sized dicted - 1))) as [Ec|]; [|done]. cbn [negb] in H.
  injection H as Hi <-. exists sized, dicted.
  pose proof (header_size_range sized dicted) as Hr.
  pose proof (byte_of_ok l 5 Hok ltac:(lia)) as B5. pose proof (byte_of_ok l 4 Hok ltac:(lia)) as B4.
  assert (byte_of l 5 < 128) as B7.
  { unfold bit_of in E7. apply Z.testbit_false in E7; [|lia]. change (2 ^ 7) with 128 in E7.
    Z.div_mod_to_equations. lia. }
  assert (forall b, 0 <= flag b <= 1) as Hflag by (by intros []).
  assert (descriptor i sized dicted = take (Z.to_nat (header_size sized dicted - 5)) (drop 4 l) /\
    drop 4 l = descriptor i sized dicted ++ drop (Z.to_nat (header_size sized dicted - 1)) l) as [Ed1 Ed2].
  { assert (drop 4 l = descriptor i sized dicted ++ drop (Z.to_nat (header_size sized dicted - 1)) l) as Hd.
    { apply descriptor_inv; [done|done| | |by subst i..].
      - apply flg_byte_inv; by subst i.
      - subst i. unfold bd_byte. cbn [blockSizeID]. Z.div_mod_to_equations. lia. }
    split; [|done]. rewrite Hd, <- (zlen_descriptor i). unfold zlen. by rewrite Nat2Z.id, take_app_length. }
  split; [|split; [|split; [done|split; [done|]]]].
  - subst i. unfold info_wf.
    cbn [blockSizeID blockMode contentChecksumFlag frameType contentSize dictID blockChecksumFlag].
    pose proof (Hflag (bit_of (byte_of l 4) 5)).
    pose proof (Hflag (bit_of (byte_of l 4) 2)). pose proof (Hflag (bit_of (byte_of l 4) 4)).
    assert (0 <= (if sized then le_of l 6 8 else 0) < 2 ^ 64).
    { destruct sized; [|lia]. apply (le_of_range l 6 8 Hok); unfold header_size in *; destruct dicted; lia. }
    assert (0 <= (if dicted then le_of l (header_size sized dicted - 5) 4 else 0) < 2 ^ 32).
    { destruct dicted; [|lia]. apply (le_of_range l _ 4 Hok); lia. }
    splits; try apply Hflag; try lia; try reflexivity; Z.div_mod_to_equations; lia.
  - subst i. split; cbn; intros E; by rewrite E.
  - pose proof (take_S_byte l (header_size sized dicted - 1) ltac:(lia)) as Et.
    replace (header_size sized dicted - 1 + 1) with (header_size sized dicted) in Et by lia.
    unfold header_bytes. rewrite Ed1, Ec, <- Ed1. rewrite <- !app_assoc. cbn [app].
    rewrite <- Et, <- Ed2.
    change magic_bytes with (le_bytes (Z.to_nat 4) LZ4F_MAGICNUMBER). rewrite <- Em.
    rewrite <- (field_bytes l 0 4 Hok) by lia. change (Z.to_nat 0) with 0%nat.
    rewrite drop_0. by rewrite (take_drop 4).
Qed.

(** The size that [LZ4F_headerSize] computes is that of the header. *)
Lemma parse_header_size l i n :
  parse_header l = HFrame i n ->
  (if zlen l <? 5 then LZ4F_returnErrorCode LZ4F_ERROR_frameHeader_incomplete
   else if le_of l 0 4 / 16 =? LZ4F_MAGIC_SKIPPABLE_START / 16 then 8
   else if le_of l 0 4 =? LZ4F_MAGICNUMBER
   then header_size (bit_of (byte_of l 4) 3) (bit_of (byte_of l 4) 0)
   else LZ4F_returnErrorCode LZ4F_ERROR_frameType_unknown) = n.
Proof.
  unfold parse_header. destruct (Z.ltb_spec (zlen l) 7); [done|].
  rewrite (proj2 (Z.ltb_ge (zlen l) 5)) by lia. cbv zeta. destruct (_ =? _); [done|].
  destruct (le_of l 0 4 =? _); [|done]. cbn [negb]. destruct (bit_of _ 1); [done|].
  destruct (_ =? 1); [|done]. cbn [negb]. set (n' := header_size _ _).
  destruct (_ <? n'); [done|]. destruct (bit_of _ 7); [done|]. destruct (_ <? 4); [done|].
  destruct (_ =? 0); [|done]. cbn [negb]. destruct (_ =? _); [|done]. by intros [= _ <-].
Qed.

(** * Prefixes of headers *)

Lemma le_of_prefix l k i n : 0 <= i -> 0 <= n -> i + n <= zlen l -> le_of (l ++ k) i n = le_of l i n.
Proof.
  intros Hi Hn Hl. unfold le_of. rewrite drop_app_le by (unfold zlen in *; lia).
  rewrite take_app_le; [done|]. rewrite length_drop. unfold zlen in *. lia.
Qed.

Lemma byte_of_prefix l k i : 0 <= i < zlen l -> byte_of (l ++ k) i = byte_of l i.
Proof. intros Hi. unfold byte_of. by rewrite lookup_app_l by (unfold zlen in *; lia). Qed.

(** What the first bytes of a header tell when it is accepted, or incomplete. *)
Lemma parse_header_frame l i n :
  parse_header l = HFrame i n ->
  7 <= zlen l /\ n <= zlen l /\ n = header_size (bit_of (byte_of l 4) 3) (bit_of (byte_of l 4) 0) /\
  (bit_of (byte_of l 4) 3 = false -> contentSize i = 0) /\ 4 <= blockSizeID i /\
  le_of l 0 4 / 16 <> LZ4F_MAGIC_SKIPPABLE_START / 16.
Proof.
  unfold parse_header. destruct (Z.ltb_spec (zlen l) 7); [done|]. cbv zeta.
  destruct (Z.eqb_spec (le_of l 0 4 / 16) (LZ4F_MAGIC_SKIPPABLE_START / 16)) as [|Hne]; [done|].
  destruct (le_of l 0 4 =? _); [|done]. cbn [negb]. destruct (bit_of _ 1); [done|].
  destruct (_ =? 1); [|done]. cbn [negb]. set (n' := header_size _ _).
  destruct (Z.ltb_spec (zlen l) n'); [done|]. destruct (bit_of _ 7); [done|].
  destruct (Z.ltb_spec (byte_of l 5 / 16) 4); [done|].
  destruct (_ =? 0); [|done]. cbn [negb]. destruct (_ =? _); [|done]. intros [= <- <-].
  cbn [contentSize blockSizeID]. splits; try done. intros E. unfold bit_of, Z.testbit in E. by rewrite E.
Qed.

Lemma parse_header_more l n :
  parse_header l = HMore n ->
  7 <= zlen l /\ n = header_size (bit_of (byte_of l 4) 3) (bit_of (byte_of l 4) 0) /\
  le_of l 0 4 / 16 <> LZ4F_MAGIC_SKIPPABLE_START / 16.
Proof.
  unfold parse_header. destruct (Z.ltb_spec (zlen l) 7); [done|]. cbv zeta.
  destruct (Z.eqb_spec (le_of l 0 4 / 16) (LZ4F_MAGIC_SKIPPABLE_START / 16)) as [|Hne]; [done|].
  destruct (le_of l 0 4 =? _); [|done]. cbn [negb]. destruct (bit_of _ 1); [done|].
  destruct (_ =? 1); [|done]. cbn [negb]. set (n' := header_size _ _).
  destruct (Z.ltb_spec (zlen l) n'); [by intros [= <-]|].
  destruct (bit_of _ 7); [done|]. destruct (_ <? 4); [done|].
  destruct (_ =? 0); [|done]. cbn [negb]. by destruct (_ =? _).
Qed.

Lemma parse_header_skip l :
  parse_header l = HSkippable ->
  7 <= zlen l /\ le_of l 0 4 / 16 = LZ4F_MAGIC_SKIPPABLE_START / 16.
Proof.
  unfold parse_header. destruct (Z.ltb_spec (zlen l) 7); [done|]. cbv zeta.
  destruct (Z.eqb_spec (le_of l 0 4 / 16) (LZ4F_MAGIC_SKIPPABLE_START / 16)) as [|Hne]; [done|].
  destruct (le_of l 0 4 =? _); [|done]. cbn [negb]. destruct (bit_of _ 1); [done|].
  destruct (_ =? 1); [|done]. cbn [negb]. destruct (_ <? header_size _ _); [done|].
  destruct (bit_of _ 7); [done|]. destruct (_ <? 4); [done|].
  destruct (_ =? 0); [|done]. cbn [negb]. by destruct (_ =? _).
Qed.

(** More input for an incomplete header completes it at the announced size. *)
Lemma parse_more_app l k n :
  parse_header l = HMore n ->
  parse_header (l ++ k) <> HSkippable /\
  (forall i n', parse_header (l ++ k) = HFrame i n' -> n' = n).
Proof.
  intros (H7 & -> & Hm)%parse_header_more. split.
  - intros [_ E]%parse_header_skip. rewrite le_of_prefix in E by lia. done.
  - intros i n' (_ & _ & -> & _)%parse_header_frame. by rewrite byte_of_prefix by lia.
Qed.

(** Only the bytes of the header matter. *)
Lemma parse_header_take l i n :
  bytes_ok l -> parse_header l = HFrame i n ->
  exists x r, l = x ++ r /\ zlen x = n /\ parse_header x = HFrame i n.
Proof.
  intros Hok H. destruct (parse_header_inv l i n Hok H) as (sized & dicted & Hi & Hp & -> & _ & E).
  exists (header_bytes i sized dicted), (drop (Z.to_nat (header_size sized dicted)) l).
  split; [done|]. split; [apply zlen_header_bytes|].
  rewrite <- (app_nil_r (header_bytes _ _ _)). by apply parse_header_bytes.
Qed.

Lemma small_not_error v : 0 <= v < 2 ^ 63 -> LZ4F_isError v = false.
Proof.
  intros Hv. unfold LZ4F_isError. change (u64 (- error_index LZ4F_ERROR_maxCode)) with (2 ^ 64 - 24).
  apply Z.ltb_ge. lia.
Qed.

Lemma parse_header_error l e :
  parse_header l = HError e -> LZ4F_isError (LZ4F_returnErrorCode e) = true.
Proof.
  unfold parse_header. destruct (_ <? 7); [by intros [= <-]|]. cbv zeta.
  destruct (_ =? _); [done|]. destruct (le_of l 0 4 =? _); [|by intros [= <-]]. cbn [negb].
  destruct (bit_of _ 1); [by intros [= <-]|]. destruct (_ =? 1); [|by intros [= <-]]. cbn [negb].
  destruct (_ <? header_size _ _); [done|]. destruct (bit_of _ 7); [by intros [= <-]|].
  destruct (_ <? 4); [by intros [= <-]|]. destruct (_ =? 0); [|by intros [= <-]]. cbn [negb].
  destruct (_ =? _); [done|by intros [= <-]].
Qed.
