(* ===== verification/FrameParse.v ===== *)
(** Frames that a decoder has to accept, and how the bytes consumed of an input
    determine what is left of such a frame: the basis of the completeness of
    [LZ4F_decompress]. *)
From S2P Require Import Prelude.
From S2P Require Import Mem.
From S2P Require Import XxhashSpec.
From S2P Require Import BlockFormat.
From S2P Require Import Lz4Common.
From S2P Require Import Lz4Decompress.
From S2P Require Import Lz4DecodeSpec.
From S2P Require Import Lz4Frame.
From S2P Require Import Lz4FrameDecode.
From S2P Require Import FrameFormat.
From S2P Require Import Lz4FrameHeader.

(** * Good frames *)

(** A block that stands for [x] behind the history [h], with the end conditions
    of the block format and the right checksum. *)
Definition block_good (h : list Z) (b : fblock) (x : list Z) : Prop :=
  x <> [] /\ fb_crc b = xxh32 0 (fb_data b) /\
  if fb_raw b then fb_data b = x
  else exists blk, fb_data b = enc_block blk /\ conforming blk /\ expand h blk = Some x.

Section Good.
Context (i : LZ4F_frameInfo_t) (dict : list Z).
Abbreviation B := (LZ4F_getBlockSize (blockSizeID i)).

(** The blocks [bs] stand for [y] behind the content [o]. *)
Inductive good_from : list Z -> list fblock -> list Z -> Prop :=
| good_nil o : good_from o [] []
| good_cons o b x bs y :
    block_good (history i dict o) b x -> zlen (fb_data b) <= B -> zlen x <= B ->
    good_from (o ++ x) bs y -> good_from o (b :: bs) (x ++ y).

Lemma good_snoc o bs y b x :
  good_from o bs y -> block_good (history i dict (o ++ y)) b x -> zlen (fb_data b) <= B -> zlen x <= B ->
  good_from o (bs ++ [b]) (y ++ x).
Proof.
  induction 1 as [o|o b' x' bs y Hb H1 H2 H IH]; intros Hg Hd Hx.
  - rewrite app_nil_r in Hg. cbn [app]. rewrite <- (app_nil_r x). constructor; [done|done|done|constructor].
  - cbn [app]. rewrite <- app_assoc. constructor; [done|done|done|]. apply IH; [|done|done].
    by rewrite <- app_assoc.
Qed.
End Good.

(** The frame [f] with the content [o]. *)
Definition good_frame (dict f o : list Z) : Prop :=
  exists i sized dicted bs, info_wf i /\ info_present i sized dicted /\ good_from i dict [] bs o /\
    (contentSize i <> 0 -> contentSize i = u64 (zlen o)) /\ f = frame_of i sized dicted bs o.

(** No continuation of [W] begins with a good frame. *)
Definition hopeless (dict W : list Z) : Prop :=
  forall ext f o t, good_frame dict f o -> W ++ ext <> f ++ t.

(** * Headers *)

Lemma header_prefix i sized dicted l k r :
  info_wf i -> info_present i sized dicted -> l ++ k = header_bytes i sized dicted ++ r -> 7 <= zlen l ->
  forall e, parse_header l <> HError e.
Proof.
  intros Hi Hpr E Hl e. pose proof (parse_header_bytes i sized dicted r Hi Hpr) as Hp. rewrite <- E in Hp.
  destruct (flg_fields i sized dicted Hi) as (F1 & F2 & F3 & F4 & _).
  assert (byte_of l 4 = flg_byte i sized dicted) as E4.
  { rewrite <- (byte_of_prefix l k) by lia. rewrite E. by destruct sized, dicted. }
  destruct (Z.lt_ge_cases (zlen l) (header_size sized dicted)) as [Hlt|Hge].
  - unfold parse_header in *. rewrite (proj2 (Z.ltb_ge (zlen l) 7)) by lia. rewrite zlen_app in Hp.
    pose proof (zlen_nonneg k). rewrite (proj2 (Z.ltb_ge (zlen l + zlen k) 7)) in Hp by lia.
    cbv zeta in *. rewrite le_of_prefix in Hp by lia.
    destruct (le_of l 0 4 / 16 =? _); [done|]. destruct (negb _); [done|].
    rewrite E4, F2, F1, F3, F4. change (negb (1 =? 1)) with false. cbv iota. rewrite (proj2 (Z.ltb_lt _ _)) by lia. done.
  - assert (exists l', l = header_bytes i sized dicted ++ l') as [l' ->].
    { destruct (app_eq_inv _ _ _ _ E) as [(z & E1 & E2)|(z & E1 & E2)]; [by exists z|].
      exists []. rewrite app_nil_r. apply (f_equal zlen) in E1 as Ez. rewrite zlen_app, zlen_header_bytes in Ez.
      pose proof (zlen_nonneg z). assert (z = []) as -> by (apply zlen_0_nil; lia). by rewrite app_nil_r in E1. }
    by rewrite (parse_header_bytes i sized dicted l' Hi Hpr).
Qed.

Lemma header_hopeless dict W l k e : W = l ++ k -> parse_header l = HError e -> 7 <= zlen l -> hopeless dict W.
Proof.
  intros -> Hp Hl ext f o t (i & sized & dicted & bs & Hi & Hpr & _ & _ & ->) E. unfold frame_of in E.
  rewrite <- !app_assoc in E. by eapply header_prefix.
Qed.

(** Two headers in front of the same bytes are the same. *)
Lemma header_same i sized dicted r i' sized' dicted' r' :
  info_wf i -> info_present i sized dicted -> info_wf i' -> info_present i' sized' dicted' ->
  header_bytes i sized dicted ++ r = header_bytes i' sized' dicted' ++ r' -> i = i' /\ r = r'.
Proof.
  intros Hi Hpr Hi' Hpr' E. pose proof (parse_header_bytes i sized dicted r Hi Hpr) as P1.
  rewrite E, parse_header_bytes in P1 by done. injection P1 as -> Es. apply app_inj_1 in E as [_ E2]; [done|].
  pose proof (zlen_header_bytes i sized' dicted'). pose proof (zlen_header_bytes i sized dicted). unfold zlen in *. lia.
Qed.

Lemma header_align hdr r i i' sized dicted r' :
  bytes_ok hdr -> info_wf i' -> info_present i' sized dicted ->
  parse_header hdr = HFrame i (zlen hdr) -> hdr ++ r = header_bytes i' sized dicted ++ r' ->
  i = i' /\ r = r'.
Proof.
  intros Hok Hi Hpr Hp E. destruct (parse_header_inv _ _ _ Hok Hp) as (sized' & dicted' & Hi' & Hpr' & _ & _ & Eh).
  rewrite drop_ge, app_nil_r in Eh by (unfold zlen; lia). rewrite Eh in E. by eapply header_same.
Qed.

(** * Blocks *)

Lemma zlen_block_header raw n : zlen (block_header raw n) = 4.
Proof. unfold block_header, zlen. by rewrite length_le_bytes. Qed.

(** A block header tells the kind and the size of the block. *)
Lemma block_header_inj raw n raw' n' :
  0 <= n < 2 ^ 31 -> 0 <= n' < 2 ^ 31 -> block_header raw n = block_header raw' n' -> raw = raw' /\ n = n'.
Proof.
  unfold block_header. intros Hn Hn' E. apply (f_equal le_val) in E. rewrite !le_val_bytes in E.
  change (256 ^ Z.of_nat 4) with (2 ^ 32) in E. destruct raw, raw'; rewrite !Z.mod_small in E by lia; split; lia || done.
Qed.

Lemma block_header_endmark raw n : 0 <= n < 2 ^ 31 -> block_header raw n = endmark -> raw = false /\ n = 0.
Proof. intros Hn E. by apply (block_header_inj raw n false 0). Qed.

Section Align.
Context (i : LZ4F_frameInfo_t) (dict : list Z) (Hi : info_wf i).
Abbreviation B := (LZ4F_getBlockSize (blockSizeID i)).

Lemma block_small n : n <= B -> n < 2 ^ 31.
Proof.
  intros Hn. assert (4 <= blockSizeID i <= 7) as Hid by apply Hi. pose proof (block_sizes _ Hid). unfold KB, MB in *. lia.
Qed.

Definition block_crc (b : fblock) : list Z := if blockChecksumFlag i =? 0 then [] else le_bytes 4 (fb_crc b).

Lemma zlen_block_crc b : zlen (block_crc b) = if blockChecksumFlag i =? 0 then 0 else 4.
Proof. unfold block_crc. by destruct (_ =? 0). Qed.

(** The next block of a good frame starts with the bytes [q] of a header: it is
    the end mark, or the header of the next block. *)
Lemma next_block o bs y q Y T :
  good_from i dict o bs y -> zlen q = 4 -> q ++ Y = enc_blocks i bs ++ endmark ++ T ->
  (bs = [] /\ y = [] /\ q = endmark /\ Y = T) \/
  (exists b x bs' y', bs = b :: bs' /\ y = x ++ y' /\ block_good (history i dict o) b x /\
     0 <= zlen (fb_data b) <= B /\ zlen x <= B /\ good_from i dict (o ++ x) bs' y' /\
     q = block_header (fb_raw b) (zlen (fb_data b)) /\
     Y = fb_data b ++ block_crc b ++ enc_blocks i bs' ++ endmark ++ T).
Proof.
  intros Hg Hq E. destruct Hg as [o|o b x bs y Hb H1 H2 Hg].
  - left. cbn [enc_blocks map concat app] in E. apply app_inj_1 in E as [-> ->]; [done|].
    unfold zlen in Hq. change (length endmark) with 4%nat. lia.
  - right. exists b, x, bs, y. unfold enc_blocks in E. cbn [map concat] in E. fold (enc_blocks i bs) in E.
    unfold enc_fblock in E. fold (block_crc b) in E. rewrite <- !app_assoc in E.
    apply app_inj_1 in E as [-> ->]; [|unfold zlen in Hq; change (length (block_header _ _)) with 4%nat; lia].
    splits; try done. apply zlen_nonneg.
Qed.

(** A compressed block has one meaning. *)
Lemma content_unique h b b' x x' :
  fb_raw b = fb_raw b' -> fb_data b = fb_data b' -> block_content h b x -> block_good h b' x' -> x = x'.
Proof.
  intros Er Ed Hc (_ & _ & Hg). unfold block_content in Hc. rewrite Er, Ed in Hc. destruct (fb_raw b'); [by rewrite Hc|].
  destruct Hc as (blk & Hw & E & Hx), Hg as (blk' & E' & [Hw' _] & Hx'). rewrite E in E'.
  apply enc_block_inj in E' as [E1 E2]; [|done|done]. unfold expand in *. rewrite E1, E2 in Hx. congruence.
Qed.

(** What was read of a good frame leaves the rest of it. *)
Lemma align_blocks crc bs o Y bs' y T :
  contents i crc dict bs o -> good_from i dict [] bs' y ->
  enc_blocks i bs ++ Y = enc_blocks i bs' ++ endmark ++ T ->
  exists bs2 y2, good_from i dict o bs2 y2 /\ y = o ++ y2 /\ Y = enc_blocks i bs2 ++ endmark ++ T.
Proof.
  intros Hc. revert Y. induction Hc as [|bs b o x Hc IH Hb Hd Hx Hcrc]; intros Y Hg E.
  - by exists bs', y.
  - rewrite enc_blocks_snoc, <- app_assoc in E. destruct (IH _ Hg E) as (bs2 & y2 & Hg2 & -> & E2).
    unfold enc_fblock in E2. rewrite <- !app_assoc in E2. fold (block_crc b) in E2.
    destruct (next_block o bs2 y2 (block_header (fb_raw b) (zlen (fb_data b))) _ _ Hg2 eq_refl E2) as [(_ & _ & Eh & _)|
      (b' & x' & bs3 & y3 & -> & -> & Hgb & Hd' & Hx' & Hg3 & Eh & EY)].
    + exfalso. apply block_header_endmark in Eh as [Er Ez]; [|pose proof (block_small (zlen (fb_data b))); lia].
      unfold block_content in Hb. rewrite Er in Hb. destruct Hb as (blk & _ & Ee & _).
      assert (fb_data b = []) as En by (apply zlen_0_nil; lia). rewrite Ee in En. by apply (enc_block_nonempty blk).
    + apply block_header_inj in Eh as [Er Ez]; [|pose proof (block_small (zlen (fb_data b))); lia|
        pose proof (block_small (zlen (fb_data b'))); lia].
      apply app_inj_1 in EY as [Ed EY]; [|unfold zlen in Ez; lia].
      assert (x = x') as <- by (by eapply content_unique).
      exists bs3, y3. split; [done|]. split; [by rewrite app_assoc|].
      apply app_inj_1 in EY as [_ ->]; [done|]. unfold block_crc. by destruct (_ =? 0).
Qed.
End Align.
