(* ===== verification/Lz4FrameTheorems.v ===== *)
(** The theorems on the shared parts of lib/lz4frame.c: error codes, block sizes
    and frame headers. *)
From S2P Require Import Prelude.
From S2P Require Import Mem.
From S2P Require Import Lz4Common.
From S2P Require Import Lz4Decompress.
From S2P Require Import Lz4Frame.
From S2P Require Import Lz4FrameDecode.
From S2P Require Import FrameFormat.
From S2P Require Import Lz4FrameHeader.

(** * Error codes *)

Lemma error_index_at i e : all_errorCodes !! i = Some e -> error_index e = Z.of_nat i.
Proof.
  intros Hi. do 25 (destruct i as [|i]; [injection Hi as <-; reflexivity|]). discriminate.
Qed.

Lemma error_index_range e : 0 <= error_index e <= 24.
Proof. destruct e; vm_compute; split; discriminate. Qed.

(** The results that [LZ4F_isError] reports are exactly the codes of the
    enumeration between [OK_NoError] and [maxCode] as unsigned numbers, and
    [LZ4F_getErrorCode] recovers the error that [LZ4F_returnErrorCode] encoded. *)
Theorem errorCode_roundtrip :
  (forall e, e <> LZ4F_ERROR_maxCode -> LZ4F_getErrorCode (LZ4F_returnErrorCode e) = e) /\
  (forall code, 0 <= code < 2 ^ 64 ->
     LZ4F_isError code = true <->
     exists e, e <> LZ4F_OK_NoError /\ e <> LZ4F_ERROR_maxCode /\ code = LZ4F_returnErrorCode e).
Proof.
  split; [intros [] He; try reflexivity; done|]. intros code Hc.
  unfold LZ4F_isError, LZ4F_returnErrorCode. rewrite Z.ltb_lt.
  change (u64 (- error_index LZ4F_ERROR_maxCode)) with (2 ^ 64 - 24). split.
  - intros Hlt. destruct (lookup_lt_is_Some_2 all_errorCodes (Z.to_nat (2 ^ 64 - code))) as [e He];
      [change (length all_errorCodes) with 25%nat; lia|].
    exists e. apply error_index_at in He. unfold u64. split; [|split].
    + intros ->. change (error_index LZ4F_OK_NoError) with 0 in He. lia.
    + intros ->. change (error_index LZ4F_ERROR_maxCode) with 24 in He. lia.
    + rewrite He, Z.mod_opp_l_nz, Z.mod_small by (rewrite ?Z.mod_small; lia). lia.
  - intros (e & H1 & H2 & ->). by destruct e.
Qed.

Lemma errorCode_roundtrip_witness :
  LZ4F_getErrorCode (LZ4F_returnErrorCode LZ4F_ERROR_frameSize_wrong) = LZ4F_ERROR_frameSize_wrong.
Proof. apply (proj1 errorCode_roundtrip). discriminate. Defined.

(** * Block sizes *)

Lemma getBlockSize_id b : 4 <= b <= 7 -> LZ4F_getBlockSize b = 2 ^ (2 * b + 8).
Proof.
  intros H. assert (b = 4 \/ b = 5 \/ b = 6 \/ b = 7) as [-> | [-> | [-> | ->]]] by lia; reflexivity.
Qed.

(** [b] is the best identifier up to [r] for a source of [n] bytes. *)
Definition optimal_id (r n b : Z) : Prop :=
  4 <= b <= r /\ (b < r -> n <= LZ4F_getBlockSize b) /\
  (forall b', 4 <= b' < b -> LZ4F_getBlockSize b' < n).

Lemma optimalBSID_loop_spec r n : r <= 7 -> forall fuel p,
  4 <= p <= r -> r - p < Z.of_nat fuel ->
  (forall b', 4 <= b' < p -> LZ4F_getBlockSize b' < n) ->
  optimal_id r n (optimalBSID_loop fuel r n p (LZ4F_getBlockSize p)).
Proof.
  intros Hr. induction fuel as [|fuel IH]; intros p Hp Hn Hlt; [lia|]. cbn [optimalBSID_loop].
  zcase; [|split; [lia|]; split; [lia|]; intros b' Hb'; apply Hlt; lia].
  zcase; [by split; [lia|]|].
  assert (u64 (Z.shiftl (LZ4F_getBlockSize p) 2) = LZ4F_getBlockSize (p + 1)) as ->.
  { assert (p = 4 \/ p = 5 \/ p = 6) as [-> | [-> | ->]] by lia; reflexivity. }
  apply IH; [lia..|]. intros b' Hb'. destruct (Z.eq_dec b' p) as [->|]; [lia|]. apply Hlt; lia.
Qed.

(** [LZ4F_optimalBSID] returns the smallest block size identifier, up to
    the one requested, whose blocks hold the whole source. *)
Theorem optimalBSID_spec requestedBSID srcSize :
  4 <= requestedBSID <= 7 ->
  let b := LZ4F_optimalBSID requestedBSID srcSize in
  4 <= b <= requestedBSID /\
  (b < requestedBSID -> srcSize <= LZ4F_getBlockSize b) /\
  (forall b', 4 <= b' < b -> LZ4F_getBlockSize b' < srcSize).
Proof.
  intros Hr b. apply (optimalBSID_loop_spec requestedBSID srcSize ltac:(lia) _ 4);
    unfold LZ4F_max64KB; lia.
Qed.

Lemma optimalBSID_witness :
  LZ4F_optimalBSID 7 300000 = 6 /\
  300000 <= LZ4F_getBlockSize (LZ4F_optimalBSID 7 300000).
Proof.
  split; [vm_compute; reflexivity|].
  assert (4 <= 7 <= 7) as H by lia. apply (optimalBSID_spec 7 300000 H). vm_compute. reflexivity.
Defined.

(** * Headers *)

(** C37.  Reading a header never touches memory outside the source and the
    context, on any bytes; it returns the error, the request for more input or
    the parameters that the format gives these bytes ([parse_header]), and
    leaves the context in the matching stage. *)
Theorem decodeHeader_spec d src l m :
  holds m src l -> bytes_ok l -> mapped m (d_header d) 19 ->
  src = d_header d \/ src + zlen l <= d_header d \/ d_header d + 19 <= src ->
  wp (LZ4F_decodeHeader d src (zlen l))
     (fun r m' => header_result d src l r /\ header_stored d src l m m') m.
Proof. intros Hl Hok Hm Hd. by apply wp_decodeHeader. Qed.

Definition wit_info : LZ4F_frameInfo_t := FrameInfo 5 1 1 LZ4F_frame 1000 77 1.
Definition wit_header : list Z := header_bytes wit_info true true.
Definition wit_dctx : LZ4F_dctx := zero_dctx 232 100.
Definition header_mem : mem :=
  mem_of [(100, wit_header); (200, replicate 19 0); (500, replicate 19 0)].

Lemma decodeHeader_witness :
  wp (LZ4F_decodeHeader wit_dctx 100 (zlen wit_header))
     (fun r m' => header_result wit_dctx 100 wit_header r /\
        header_stored wit_dctx 100 wit_header header_mem m') header_mem.
Proof.
  apply (decodeHeader_spec wit_dctx 100 wit_header header_mem); [eval_decide|eval_decide|eval_decide|].
  right. left. vm_compute. discriminate.
Defined.

(** C38.  A header that is written is read back: its size is the one that
    [LZ4F_headerSize] announces, and the parameters are those written. *)
Theorem header_roundtrip i d dst m :
  info_wf i -> mapped m dst 19 -> mapped m (d_header d) 19 -> dst <> NULL ->
  dst + 19 <= d_header d \/ d_header d + 19 <= dst ->
  wp (n ← LZ4F_writeFrameHeader i dst; n' ← LZ4F_headerSize dst n;
      r ← LZ4F_decodeHeader d dst n; mret (n, n', r))
     (fun x m' => let '(n, n', (n'', d')) := x in
        n' = n /\ n'' = n /\ d_frameInfo d' = i /\ d_dStage d' = dstage_init /\
        d_maxBlockSize d' = LZ4F_getBlockSize (blockSizeID i) /\ frame dst (dst + 19) m m') m.
Proof.
  intros Hi Hm Hh Hnull Hd. apply wp_bind. apply wp_writeFrameHeader; [done|done|].
  set (sized := negb (contentSize i =? 0)). set (dicted := negb (dictID i =? 0)).
  intros h m' (Hw & Hf & Hc). pose proof (header_bytes_ok i sized dicted Hi) as Hok.
  assert (parse_header h = HFrame i (header_size sized dicted)) as Hp.
  { unfold h. rewrite <- (app_nil_r (header_bytes _ _ _)). apply parse_header_bytes; [done|].
    split; unfold sized, dicted; intros E; apply negb_false_iff, Z.eqb_eq in E; done. }
  apply wp_bind. apply wp_headerSize; [done..|]. rewrite (parse_header_size _ _ _ Hp).
  apply wp_bind. apply wp_decodeHeader; [done|done|by eapply frame_mapped|lia|].
  intros [n d'] m2 Hr Hs. unfold header_result in Hr. unfold header_stored in Hs. rewrite Hp in Hr, Hs.
  cbn [fst snd] in Hr. destruct Hr as [-> ->]. subst m2. apply wp_ret.
  unfold h. rewrite zlen_header_bytes. by split.
Qed.

Lemma header_roundtrip_witness :
  wp (n ← LZ4F_writeFrameHeader wit_info 200; n' ← LZ4F_headerSize 200 n;
      r ← LZ4F_decodeHeader wit_dctx 200 n; mret (n, n', r))
     (fun x m' => let '(n, n', (n'', d')) := x in
        n' = n /\ n'' = n /\ d_frameInfo d' = wit_info /\ d_dStage d' = dstage_init /\
        d_maxBlockSize d' = LZ4F_getBlockSize (blockSizeID wit_info) /\
        frame 200 (200 + 19) header_mem m') header_mem.
Proof.
  apply (header_roundtrip wit_info wit_dctx 200 header_mem);
    [eval_decide|eval_decide|eval_decide|discriminate|]. left. vm_compute. discriminate.
Defined.

(** Only well-formed headers are accepted: where reading ends ready for
    the blocks, the parameters in the context are well formed and the bytes
    read are the encoding of these parameters, with the content size and the
    dictionary identifier that are present. *)
Theorem decodeHeader_sound d src l m :
  holds m src l -> bytes_ok l -> mapped m (d_header d) 19 ->
  src = d_header d \/ src + zlen l <= d_header d \/ d_header d + 19 <= src ->
  wp (LZ4F_decodeHeader d src (zlen l))
     (fun r m' => d_dStage r.2 = dstage_init -> d_dStage d <> dstage_init ->
        info_wf (d_frameInfo r.2) /\
        exists sized dicted, info_present (d_frameInfo r.2) sized dicted /\
          take (Z.to_nat r.1) l = header_bytes (d_frameInfo r.2) sized dicted /\
          (sized = true -> d_frameRemainingSize r.2 = contentSize (d_frameInfo r.2))) m.
Proof.
  intros Hl Hok Hm Hd. apply wp_decodeHeader; [done..|]. intros [n d'] m' Hr _ Hi Hne.
  unfold header_result in Hr. cbn [fst snd] in *.
  destruct (parse_header l) as [e|k| |i k] eqn:Hp.
  - destruct Hr as (_ & j & [-> | ->]); by destruct d.
  - by destruct Hr as [_ ->].
  - cbv zeta in Hr. destruct (_ =? _) in Hr; by injection Hr as -> ->.
  - destruct Hr as [-> ->]. destruct (parse_header_inv l i k Hok Hp)
      as (sized & dicted & Hwf & Hpr & -> & Es & El). split; [done|].
    exists sized, dicted. split; [done|]. split.
    + rewrite El at 1. rewrite <- (zlen_header_bytes i). unfold zlen. rewrite Nat2Z.id.
      by rewrite take_app_length.
    + intros ->. rewrite <- Es. reflexivity.
Qed.

Lemma decodeHeader_sound_witness :
  wp (LZ4F_decodeHeader wit_dctx 100 (zlen wit_header))
     (fun r m' => d_dStage r.2 = dstage_init -> d_dStage wit_dctx <> dstage_init ->
        info_wf (d_frameInfo r.2) /\
        exists sized dicted, info_present (d_frameInfo r.2) sized dicted /\
          take (Z.to_nat r.1) wit_header = header_bytes (d_frameInfo r.2) sized dicted /\
          (sized = true -> d_frameRemainingSize r.2 = contentSize (d_frameInfo r.2))) header_mem.
Proof.
  apply (decodeHeader_sound wit_dctx 100 wit_header header_mem); [eval_decide|eval_decide|eval_decide|].
  right. left. vm_compute. discriminate.
Defined.
