(* ===== verification/Lz4FrameInv.v ===== *)
(** The memory of a decompression context and of one call of [LZ4F_decompress]:
    the regions that the decoder writes (zones), what a write to one of them
    leaves alone, the contract of the allocation functions, and the invariants
    between the stages of a call and between calls. *)
From S2P Require Import Prelude.
From S2P Require Import Mem.
From S2P Require Import Xxhash.
From S2P Require Import XxhashSpec.
From S2P Require Import XxhashStream.
From S2P Require Import BlockFormat.
From S2P Require Import Lz4Common.
From S2P Require Import Lz4Decompress.
From S2P Require Import Lz4Frame.
From S2P Require Import Lz4FrameDecode.
From S2P Require Import FrameFormat.
From S2P Require Import Lz4FrameHeader.

(** * Regions *)

(** Two regions, as an address and a size, have no byte in common. *)
Definition apart (r1 r2 : Z * Z) : Prop :=
  r1.2 <= 0 \/ r2.2 <= 0 \/ r1.1 + r1.2 <= r2.1 \/ r2.1 + r2.2 <= r1.1.

#[export] Instance apart_dec r1 r2 : Decision (apart r1 r2).
Proof. unfold apart. apply _. Defined.

(** The region [[a, a + n)] lies in [r]; an empty one lies anywhere. *)
Definition inside (a n : Z) (r : Z * Z) : Prop := n <= 0 \/ (r.1 <= a /\ a + n <= r.1 + r.2).

Lemma apart_sym r1 r2 : apart r1 r2 -> apart r2 r1.
Proof. unfold apart. lia. Qed.

Lemma apart_inside r1 r2 a n b k :
  apart r1 r2 -> inside a n r1 -> inside b k r2 -> apart (a, n) (b, k).
Proof. unfold apart, inside. cbn [fst snd]. lia. Qed.

Lemma inside_refl a n : inside a n (a, n).
Proof. unfold inside. cbn. lia. Qed.

Lemma apart_sub a n b k r : apart (a, n) r -> a <= b -> b + k <= a + n -> apart (b, k) r.
Proof. unfold apart. cbn [fst snd]. lia. Qed.

(** [sub_apart H] proves that parts of regions are apart when the regions are. *)
Ltac sub_apart H :=
  first [apply (apart_sub _ _ _ _ _ H); lia
        |apply (apart_inside _ _ _ _ _ _ H); unfold inside; cbn [fst snd]; lia].

Lemma apart_frame a n b l m m' :
  frame a (a + n) m m' -> apart (a, n) (b, zlen l) -> holds m b l -> holds m' b l.
Proof.
  intros Hf [H | [H | H]]; cbn [fst snd] in H; [| |by apply (frame_holds _ _ _ _ _ _ Hf); lia].
  - apply holds_eq_on. intros i Hi. destruct Hf as [Hf _]. apply Hf. lia.
  - apply zlen_0_nil in H as ->. intros _. apply holds_nil.
Qed.

(** A region without a mapped address is apart from a mapped one. *)
Lemma fresh_apart m p n a k :
  (forall i, p <= i < p + n -> m !! i = None) -> mapped m a k -> apart (p, n) (a, k).
Proof.
  intros Hp Ha. unfold apart. cbn [fst snd].
  destruct (Z.le_gt_cases n 0); [lia|]. destruct (Z.le_gt_cases k 0); [lia|].
  destruct (Z.le_gt_cases (a + k) p); [lia|]. destruct (Z.le_gt_cases (p + n) a); [lia|].
  exfalso. destruct (Ha (Z.max p a)) as [v Hv]; [lia|]. rewrite Hp in Hv by lia. done.
Qed.

(** * Zones *)

(** The private memory of a context: the arrays [header] and those of the two
    hash states, the input and output buffers with the sizes they were
    allocated with, and the capacity noted in [maxBufferSize]. *)
Record priv := Priv {
  p_header : Z; p_xxh : Z; p_bc : Z; p_tmpIn : Z; p_inCap : Z; p_tmpOut : Z; p_outCap : Z;
  p_self : Z }.

Inductive zone := ZHeader | ZXxh | ZBc | ZIn | ZOut | ZDst.

#[export] Instance zone_eq_dec : EqDecision zone.
Proof. solve_decision. Defined.

Definition all_zones : list zone := [ZHeader; ZXxh; ZBc; ZIn; ZOut; ZDst].

(** The region of a zone: of the destination, the part that is not filled. *)
Definition zreg (p : priv) (dst room : Z) (z : zone) : Z * Z :=
  match z with
  | ZHeader => (p_header p, 19) | ZXxh => (p_xxh p, 16) | ZBc => (p_bc p, 16)
  | ZIn => (p_tmpIn p, p_inCap p) | ZOut => (p_tmpOut p, p_outCap p)
  | ZDst => (dst, room)
  end.

(** A region that no write to a zone touches. *)
Definition clear (p : priv) (dst room : Z) (r : Z * Z) : Prop :=
  Forall (fun z => apart (zreg p dst room z) r) all_zones.

(** The zones do not overlap. *)
Definition zones_ok (p : priv) (dst room : Z) : Prop :=
  Forall (fun z => Forall (fun z' => z = z' \/ apart (zreg p dst room z) (zreg p dst room z'))
    all_zones) all_zones.

#[export] Instance zones_ok_dec p dst room : Decision (zones_ok p dst room).
Proof. unfold zones_ok. apply _. Defined.
#[export] Instance clear_dec p dst room r : Decision (clear p dst room r).
Proof. unfold clear. apply _. Defined.

Lemma all_zones_elem z : In z all_zones.
Proof. destruct z; cbn; tauto. Qed.

Lemma zones_apart p dst room z z' :
  zones_ok p dst room -> z <> z' -> apart (zreg p dst room z) (zreg p dst room z').
Proof.
  intros H Hne. unfold zones_ok in H. rewrite Forall_forall in H. specialize (H z (all_zones_elem z)).
  rewrite Forall_forall in H. by destruct (H z' (all_zones_elem z')).
Qed.

Lemma clear_apart p dst room r z : clear p dst room r -> apart (zreg p dst room z) r.
Proof. intros H. unfold clear in H. rewrite Forall_forall in H. apply H, all_zones_elem. Qed.

Lemma clear_intro p dst room r : (forall z, apart (zreg p dst room z) r) -> clear p dst room r.
Proof. intros H. unfold clear. apply Forall_forall. intros z _. apply H. Qed.

Lemma clear_sub p dst room r a n : clear p dst room r -> inside a n r -> clear p dst room (a, n).
Proof.
  intros H Hi. apply clear_intro. intros z. pose proof (clear_apart _ _ _ _ z H) as Hz.
  unfold apart, inside in *. cbn [fst snd]. lia.
Qed.

(** Filling the destination leaves less of it to be written. *)
Lemma zreg_sub p dst room k z :
  0 <= k <= room ->
  inside (zreg p (dst + k) (room - k) z).1 (zreg p (dst + k) (room - k) z).2 (zreg p dst room z).
Proof. intros Hk. unfold inside. destruct z; cbn [zreg fst snd]; lia. Qed.

Lemma clear_advance p dst room k r :
  0 <= k <= room -> clear p dst room r -> clear p (dst + k) (room - k) r.
Proof.
  intros Hk H. apply clear_intro. intros z. pose proof (clear_apart _ _ _ _ z H) as Hz.
  pose proof (zreg_sub p dst room k z Hk) as Hs. unfold apart, inside in *. lia.
Qed.

Lemma zones_advance p dst room k :
  0 <= k <= room -> zones_ok p dst room -> zones_ok p (dst + k) (room - k).
Proof.
  intros Hk H. apply Forall_forall. intros z _. apply Forall_forall. intros z' _.
  destruct (decide (z = z')) as [->|Hne]; [by left|right].
  pose proof (zones_apart _ _ _ _ _ H Hne) as Ha.
  pose proof (zreg_sub p dst room k z Hk) as Hs. pose proof (zreg_sub p dst room k z' Hk) as Hs'.
  unfold apart, inside in *. lia.
Qed.

(** The destination does not start where the output buffer ends.  [LZ4F_updateDict]
    recognises a dictionary in front of the destination by its address alone, and
    would take a full output buffer there for a part of the destination. *)
Definition detached (p : priv) (dst room : Z) : Prop :=
  room <= 0 \/ p_outCap p <= 0 \/ p_tmpOut p + p_outCap p <> dst.

(** The byte in front of the destination is in use, and not by the context: then
    neither the output buffer nor a block that is allocated later ends there. *)
Definition fenced (p : priv) (m : mem) (dst room : Z) : Prop :=
  room <= 0 \/ (mapped m (dst - 1) 1 /\ clear p dst room (dst - 1, 1)).

#[export] Instance fenced_dec p m dst room : Decision (fenced p m dst room).
Proof. unfold fenced. apply _. Defined.

(** What was written to the destination is clear afterwards. *)
Lemma clear_written p dst room k :
  0 <= k <= room -> zones_ok p dst room -> clear p (dst + k) (room - k) (dst, k).
Proof.
  intros Hk H. apply clear_intro. intros z. destruct (decide (z = ZDst)) as [->|Hne].
  - unfold apart. cbn. lia.
  - pose proof (zones_apart _ _ _ _ _ H Hne) as Ha. unfold apart in *.
    destruct z; cbn [zreg fst snd] in *; try lia.
Qed.

(** * Writes *)

Section Writes.
Context (p : priv) (dst room : Z) (z : zone) (a n : Z) (m m' : mem).
Context (Hf : frame a (a + n) m m') (Hin : inside a n (zreg p dst room z)).

Lemma clear_kept b l : clear p dst room (b, zlen l) -> holds m b l -> holds m' b l.
Proof.
  intros Hc. eapply apart_frame; [exact Hf|]. eapply apart_inside; [apply (clear_apart _ _ _ _ z Hc)|done|].
  apply inside_refl.
Qed.

Lemma zone_kept z' b l :
  zones_ok p dst room -> z <> z' -> inside b (zlen l) (zreg p dst room z') ->
  holds m b l -> holds m' b l.
Proof.
  intros Hz Hne Hb. eapply apart_frame; [exact Hf|].
  eapply apart_inside; [by apply zones_apart|done|done].
Qed.

Lemma xxh_kept z' st l :
  zones_ok p dst room -> z <> z' -> (mem32 st, 16) = zreg p dst room z' ->
  XXH32_rep 0 m st l -> XXH32_rep 0 m' st l.
Proof.
  intros Hz Hne Hb (H & H2). split; [|done].
  pose proof (zones_apart _ _ _ _ _ Hz Hne) as Ha. rewrite <- Hb in Ha.
  destruct (Z.le_gt_cases n 0) as [Hn|Hn].
  - assert (m' = m) as ->; [|done]. apply map_eq. intros i. destruct Hf as [Hf' _]. apply Hf'. lia.
  - eapply buffered_frame; [exact H|exact Hf|]. unfold apart, inside in *. cbn [fst snd] in *. lia.
Qed.
End Writes.

(** * Allocation *)

(** The contract of [malloc] and [free]. [block m q k] says that [k] bytes are
    allocated at [q]. A new block uses no address that is in use. *)
Class Allocator `{LZ4F_CustomMem} := {
  block : mem -> Z -> Z -> Prop;
  block_mono : forall m m' q k,
    (forall i, is_Some (m !! i) -> is_Some (m' !! i)) -> block m q k -> block m' q k;
  alloc_ok : forall n m, 0 <= n -> wp (customAlloc n) (fun q m' =>
    (q = NULL /\ m' = m) \/
    (0 < q /\ q + n < 2 ^ 63 /\ (forall i, q <= i < q + n -> m !! i = None) /\ mapped m' q n /\
     (forall i, ~ (q <= i < q + n) -> m' !! i = m !! i) /\ block m' q n /\
     (forall q' k, block m q' k -> block m' q' k))) m;
  free_ok : forall q n m, block m q n -> wp (customFree q) (fun _ m' =>
    (forall i, ~ (q <= i < q + n) -> m' !! i = m !! i) /\
    (forall q' k, block m q' k -> apart (q, n) (q', k) -> block m' q' k)) m }.

(** The invariant of the state machine of [LZ4F_decompress]: what the bytes
    consumed so far say, what was emitted for them, and how the context and the
    memory represent what is still needed. *)

(** * The context and its private memory *)

(** An internal buffer, allocated or not. *)
Definition buffer_ok `{Allocator} (m : mem) (a n : Z) : Prop :=
  (a = NULL /\ n = 0) \/ (0 < a /\ 0 <= n /\ a + n < 2 ^ 63 /\ mapped m a n /\ block m a n).

Definition priv_ok `{Allocator} (p : priv) (m : mem) : Prop :=
  mapped m (p_header p) 19 /\ mapped m (p_xxh p) 16 /\ mapped m (p_bc p) 16 /\
  buffer_ok m (p_tmpIn p) (p_inCap p) /\ buffer_ok m (p_tmpOut p) (p_outCap p).

(** The fields that name the private memory. The input buffer belongs to the
    block size that the output buffer was made for. *)
Definition owns (d : LZ4F_dctx) (p : priv) : Prop :=
  d_header d = p_header p /\ mem32 (d_xxh d) = p_xxh p /\ mem32 (d_blockChecksum d) = p_bc p /\
  d_tmpIn d = p_tmpIn p /\ d_tmpOutBuffer d = p_tmpOut p /\
  0 <= d_maxBufferSize d <= p_outCap p /\
  (d_maxBufferSize d = 0 \/ exists b, 4 <= b <= 7 /\
     LZ4F_getBlockSize b + 4 <= p_inCap p /\ d_maxBufferSize d <= LZ4F_getBlockSize b + 128 * KB) /\
  d_self d = p_self p.

(** * History *)

(** [w] serves as history in place of [h]: it is [h], or they agree on their
    last 64 KB. *)
Definition window (w h : list Z) : Prop :=
  w = h \/ exists g y s, w = g ++ s /\ h = y ++ s /\ 64 * KB <= zlen s.

Section Content.
Context (dict0 : list Z).

(** The dictionary of the context is [w]: in the output buffer (in frames of
    linked blocks), or somewhere that the decoder does not write. *)
Definition dict_at (d : LZ4F_dctx) (p : priv) (m : mem) (dst room : Z) (w : list Z) : Prop :=
  zlen w = d_dictSize d /\ holds m (d_dict d) w /\
  (w = [] \/ (0 < d_dict d /\ d_dict d + zlen w <= 2 ^ 63)) /\
  ((d_dict d = p_tmpOut p /\ zlen w <= d_maxBufferSize d /\ d_linked d = true) \/
   clear p dst room (d_dict d, zlen w)).

Definition user_dict (d : LZ4F_dctx) (p : priv) (m : mem) (dst room : Z) : Prop :=
  zlen dict0 = d_dictSize d /\ holds m (d_dict d) dict0 /\
  (dict0 = [] \/ (0 < d_dict d /\ d_dict d + zlen dict0 <= 2 ^ 63)) /\
  clear p dst room (d_dict d, zlen dict0).

Definition hist (d : LZ4F_dctx) (p : priv) (m : mem) (dst room : Z) (h : list Z) : Prop :=
  exists w, dict_at d p m dst room w /\ window w h.

(** * Progress within a frame *)

Definition verify (d : LZ4F_dctx) : bool := d_skipChecksum d =? 0.

(** The header [hdr] was read, and the buffers are large enough. *)
Definition in_frame (d : LZ4F_dctx) (p : priv) (hdr : list Z) : Prop :=
  parse_header hdr = HFrame (d_frameInfo d) (zlen hdr) /\
  d_maxBlockSize d = LZ4F_getBlockSize (blockSizeID (d_frameInfo d)) /\
  d_maxBlockSize d + 4 <= p_inCap p /\
  d_maxBlockSize d + (if d_linked d then 128 * KB else 0) <= d_maxBufferSize d /\
  (d_linked d = false -> d_tmpOut d = p_tmpOut p).

(** The bytes consumed: the header, the blocks [bs] that stand for [o], and a
    piece [pend] of what follows. *)
Definition read_so_far (d : LZ4F_dctx) (p : priv) (bs : list fblock) (o pend c : list Z) : Prop :=
  exists hdr, in_frame d p hdr /\ contents (d_frameInfo d) (verify d) dict0 bs o /\
    c = hdr ++ enc_blocks (d_frameInfo d) bs ++ pend.

(** The hash and the counter after the content [o]. *)
Definition counted (d : LZ4F_dctx) (m : mem) (o : list Z) : Prop :=
  (d_contentCrc d = true -> d_skipChecksum d = 0 -> XXH32_rep 0 m (d_xxh d) o) /\
  d_frameRemainingSize d =
    (if contentSize (d_frameInfo d) =? 0 then 0 else u64 (contentSize (d_frameInfo d) - zlen o)).

Definition block_hist (d : LZ4F_dctx) (p : priv) (m : mem) (dst room : Z) (o : list Z) : Prop :=
  hist d p m dst room (history (d_frameInfo d) dict0 o).

(** The history while the block [x] behind [h] is flushed from the output
    buffer, where [pre] bytes are in front of it: it continues in the buffer, or
    it is elsewhere and can still be copied in front of the block. *)
Definition in_front (m : mem) (a : Z) (h x : list Z) (pre : Z) : Prop :=
  exists g y s, holds m a (g ++ s) /\ zlen (g ++ s) = pre /\ h = y ++ s /\
    ((g = [] /\ y = []) \/ 64 * KB <= zlen s + zlen x).

Definition flush_in (d : LZ4F_dctx) (p : priv) (m : mem) (h x : list Z) (pre : Z) : Prop :=
  d_dict d = p_tmpOut p /\ d_dictSize d = pre + d_tmpOutStart d /\
  in_front m (p_tmpOut p) h x pre.

Definition flush_out (d : LZ4F_dctx) (p : priv) (m : mem) (dst room : Z) (h x : list Z) : Prop :=
  d_dict d <> p_tmpOut p /\
  (exists w, zlen w = d_dictSize d /\ holds m (d_dict d) w /\
     (w = [] \/ (0 < d_dict d /\ d_dict d + zlen w <= 2 ^ 63)) /\
     clear p dst room (d_dict d, zlen w) /\
     window w (h ++ take (Z.to_nat (d_tmpOutStart d)) x)).

Definition flush_hist (d : LZ4F_dctx) (p : priv) (m : mem) (dst room : Z) (o x : list Z) : Prop :=
  let h := history (d_frameInfo d) dict0 o in
  let pre := d_tmpOut d - p_tmpOut p in
  0 <= pre /\ pre + d_maxBlockSize d <= d_maxBufferSize d /\
  if d_linked d then
    (pre = zlen h \/ (64 * KB <= pre /\ 64 * KB <= zlen h)) /\
    (flush_in d p m h x pre \/ flush_out d p m dst room h x)
  else hist d p m dst room h.

Definition skippable_magic (c : list Z) : Prop :=
  le_of c 0 4 / 16 = LZ4F_MAGIC_SKIPPABLE_START / 16.

(** The stage of the context fits what was consumed ([c]) and emitted ([e]) of
    the current frame. *)
Definition stage_ok (p : priv) (d : LZ4F_dctx) (m : mem) (dst room : Z) (c e : list Z) : Prop :=
  match d_dStage d with
  | dstage_getFrameHeader =>
      c = [] /\ e = [] /\ d_frameRemainingSize d = 0 /\ user_dict d p m dst room
  | dstage_storeFrameHeader =>
      e = [] /\ d_frameRemainingSize d = 0 /\ user_dict d p m dst room /\
      d_tmpInSize d = zlen c /\ zlen c < d_tmpInTarget d /\ holds m (d_header d) c /\
      (d_tmpInTarget d = 7 \/
       exists c1 c2, c = c1 ++ c2 /\ parse_header c1 = HMore (d_tmpInTarget d))
  | dstage_init =>
      e = [] /\ user_dict d p m dst room /\
      parse_header c = HFrame (d_frameInfo d) (zlen c) /\
      d_maxBlockSize d = LZ4F_getBlockSize (blockSizeID (d_frameInfo d)) /\
      d_frameRemainingSize d = contentSize (d_frameInfo d)
  | dstage_getBlockHeader =>
      exists bs, read_so_far d p bs e [] c /\ counted d m e /\ block_hist d p m dst room e
  | dstage_storeBlockHeader =>
      exists bs q, read_so_far d p bs e q c /\ counted d m e /\ block_hist d p m dst room e /\
        zlen q = d_tmpInSize d /\ zlen q < 4 /\ holds m (d_tmpIn d) q
  | dstage_copyDirect =>
      exists bs o x, read_so_far d p bs o (block_header true (zlen x + d_tmpInTarget d) ++ x) c /\
        e = o ++ x /\ counted d m e /\ block_hist d p m dst room e /\
        0 <= d_tmpInTarget d /\ zlen x + d_tmpInTarget d <= d_maxBlockSize d /\
        (d_blockCrc d = true -> d_skipChecksum d = 0 -> XXH32_rep 0 m (d_blockChecksum d) x)
  | dstage_getBlockChecksum =>
      exists bs o x q, read_so_far d p bs o (block_header true (zlen x) ++ x ++ q) c /\
        e = o ++ x /\ counted d m e /\ block_hist d p m dst room e /\
        zlen x <= d_maxBlockSize d /\ zlen q = d_tmpInSize d /\ zlen q < 4 /\
        holds m (d_header d) q /\ d_blockCrc d = true /\
        (d_skipChecksum d = 0 -> XXH32_rep 0 m (d_blockChecksum d) x)
  | dstage_getCBlock =>
      exists bs n, read_so_far d p bs e (block_header false n) c /\ counted d m e /\
        block_hist d p m dst room e /\ 0 < n <= d_maxBlockSize d /\
        d_tmpInTarget d = n + (if d_blockCrc d then 4 else 0)
  | dstage_storeCBlock =>
      exists bs n q, read_so_far d p bs e (block_header false n ++ q) c /\ counted d m e /\
        block_hist d p m dst room e /\ 0 < n <= d_maxBlockSize d /\
        d_tmpInTarget d = n + (if d_blockCrc d then 4 else 0) /\
        zlen q = d_tmpInSize d /\ zlen q < d_tmpInTarget d /\ holds m (d_tmpIn d) q
  | dstage_flushOut =>
      exists bs o x, read_so_far d p bs (o ++ x) [] c /\ counted d m (o ++ x) /\
        e = o ++ take (Z.to_nat (d_tmpOutStart d)) x /\
        0 <= d_tmpOutStart d <= zlen x /\ zlen x = d_tmpOutSize d /\ zlen x <= d_maxBlockSize d /\
        holds m (d_tmpOut d) x /\ flush_hist d p m dst room o x
  | dstage_getSuffix =>
      exists bs, read_so_far d p bs e endmark c /\ counted d m e
  | dstage_storeSuffix =>
      exists bs q, read_so_far d p bs e (endmark ++ q) c /\ counted d m e /\
        d_frameRemainingSize d = 0 /\ d_contentCrc d = true /\
        zlen q = d_tmpInSize d /\ zlen q < 4 /\ holds m (d_tmpIn d) q
  | dstage_getSFrameSize => e = [] /\ zlen c = 4 /\ skippable_magic c
  | dstage_storeSFrameSize =>
      e = [] /\ 4 <= zlen c < 8 /\ d_tmpInSize d = zlen c /\ d_tmpInTarget d = 8 /\
      skippable_magic c /\ holds m (d_header d + 4) (drop 4 c)
  | dstage_skipSkippable =>
      e = [] /\ 8 <= zlen c /\ skippable_magic c /\ 0 <= d_tmpInTarget d /\
      zlen c + d_tmpInTarget d = 8 + le_of c 4 4
  end.

(** A frame that is complete: [c] is a frame whose content is [e], with the
    checksums it has verified, or a skippable frame. *)
Definition frame_done (crc : bool) (c e : list Z) : Prop :=
  (exists i sized dicted bs suf,
     info_wf i /\ info_present i sized dicted /\ contents i crc dict0 bs e /\
     c = header_bytes i sized dicted ++ enc_blocks i bs ++ endmark ++ suf /\
     zlen suf = (if contentChecksumFlag i =? 0 then 0 else 4) /\
     (crc = true -> suf = content_crc i e) /\
     (contentSize i <> 0 -> contentSize i = u64 (zlen e))) \/
  (e = [] /\ 8 <= zlen c /\ skippable_magic c /\ zlen c = 8 + le_of c 4 4).
End Content.
