(* ===== verification/Lz4FrameDict.v ===== *)
(** The history of linked blocks: [LZ4F_updateDict], the place of a block in the
    output buffer, and what is preserved at the end of a call. *)
From S2P Require Import Prelude.
From S2P Require Import Mem.
From S2P Require Import BlockFormat.
From S2P Require Import Lz4Common.
From S2P Require Import Lz4Decompress.
From S2P Require Import Lz4DecodeSpec.
From S2P Require Import Lz4DecodeApi.
From S2P Require Import Lz4Frame.
From S2P Require Import Lz4FrameDecode.
From S2P Require Import FrameFormat.
From S2P Require Import Lz4FrameInv.

(** * Windows *)

Lemma window_refl h : window h h.
Proof. by left. Qed.

Lemma window_snoc w h x : window w h -> window (w ++ x) (h ++ x).
Proof.
  intros [-> | (g & y & s & -> & -> & Hs)]; [by left|]. right. exists g, y, (s ++ x).
  rewrite !app_assoc, zlen_app. pose proof (zlen_nonneg x). by splits; try lia.
Qed.

Lemma window_suffix y s : 64 * KB <= zlen s -> window s (y ++ s).
Proof. intros H. right. by exists [], y, s. Qed.

(** The end of a window is a window. *)
Lemma window_last u v h : u = [] \/ 64 * KB <= zlen v -> window (u ++ v) h -> window v h.
Proof.
  intros [-> | Hv] H; [done|]. destruct H as [<- | (g & y & s & E & -> & Hs)].
  - by apply window_suffix.
  - assert (exists t, s = t ++ v \/ v = t ++ s) as [t [-> | ->]].
    { destruct (app_eq_inv _ _ _ _ E) as [(k & E1 & E2)|(k & E1 & E2)]; [exists k; by left|].
      exists k. by right. }
    + right. exists [], (y ++ t), v. by rewrite <- app_assoc.
    + right. by exists t, y, s.
Qed.

Lemma window_short w h : window w h -> zlen w < 64 * KB -> w = h.
Proof.
  intros [-> | (g & y & s & -> & -> & Hs)]; [done|]. rewrite zlen_app.
  pose proof (zlen_nonneg g). lia.
Qed.

Lemma window_long w h : window w h -> 64 * KB <= zlen w -> 64 * KB <= zlen h.
Proof.
  intros [-> | (g & y & s & -> & -> & Hs)] H; [done|]. rewrite zlen_app.
  pose proof (zlen_nonneg y). lia.
Qed.

Lemma window_expand w h b o :
  block_wf b -> window w h -> expand w b = Some o <-> expand h b = Some o.
Proof.
  intros Hb [-> | (g & y & s & -> & -> & Hs)]; [done|]. unfold KB in Hs.
  rewrite !expand_window by (done || lia). done.
Qed.

(** * Assignments to the dictionary *)

Definition put_dict (a n : Z) (d : LZ4F_dctx) : LZ4F_dctx := set_dictSize n (set_dict a d).

Lemma put_dict_same d : put_dict (d_dict d) (d_dictSize d) d = d.
Proof. by destruct d. Qed.

Lemma put_dict_size n d : set_dictSize n d = put_dict (d_dict d) n d.
Proof. by destruct d. Qed.

(** [dsimp] computes the fields of a context behind assignments. *)
Ltac dsimp :=
  cbn [put_dict set_frameInfo set_dStage set_frameRemainingSize set_maxBlockSize set_maxBufferSize
       set_tmpIn set_tmpInSize set_tmpInTarget set_tmpOutBuffer set_dict set_dictSize set_tmpOut
       set_tmpOutSize set_tmpOutStart set_xxh set_blockChecksum set_skipChecksum
       d_frameInfo d_version d_dStage d_frameRemainingSize d_maxBlockSize d_maxBufferSize d_tmpIn
       d_tmpInSize d_tmpInTarget d_tmpOutBuffer d_dict d_dictSize d_tmpOut d_tmpOutSize d_tmpOutStart
       d_xxh d_blockChecksum d_skipChecksum d_header l_dctx l_srcPtr l_dstPtr] in *.

(** A clear region that ends at the destination stays clear when it grows into
    what was written there. *)
Lemma clear_join p dp room a n k :
  zones_ok p dp room -> clear p dp room (a, n) -> 0 <= n -> a + n = dp -> 0 <= k <= room ->
  clear p (dp + k) (room - k) (a, n + k).
Proof.
  intros Hz Hc Hn E Hk. apply clear_intro. intros z. pose proof (clear_apart _ _ _ _ z Hc) as A1.
  pose proof (clear_apart _ _ _ _ z (clear_written p dp room k Hk Hz)) as A2.
  pose proof (zreg_sub p dp room k z Hk) as A3.
  unfold apart, inside in *. cbn [fst snd] in *. lia.
Qed.

(** The last [k] bytes of a list. *)
Lemma split_last {A} (l : list A) k :
  0 <= k <= zlen l -> exists u v, l = u ++ v /\ zlen v = k /\ zlen u = zlen l - k.
Proof.
  intros Hk. destruct (list_split_at l (zlen l - k)) as (u & v & -> & Hu); [lia|].
  exists u, v. rewrite zlen_app in *. splits; lia || done.
Qed.

Lemma frame_sub a n b k m m' : frame a (a + n) m m' -> inside a n (b, k) -> frame b (b + k) m m'.
Proof.
  intros [F1 F2] Hi. split; [|done]. intros i Hn. apply F1. unfold inside in Hi. cbn [fst snd] in Hi. lia.
Qed.

(** A copy between two places without common bytes. *)
Lemma wp_memcpy_apart a b l m Q :
  holds m b l -> mapped m a (zlen l) -> apart (a, zlen l) (b, zlen l) ->
  (forall m', frame a (a + zlen l) m m' -> holds m' a l -> Q tt m') ->
  wp (memcpy a b (zlen l)) Q m.
Proof.
  intros Hl Hm Hap HQ. pose proof (zlen_nonneg l). apply wp_memcpy; [done|by apply holds_mapped|done| |].
  - unfold apart in Hap. cbn [fst snd] in Hap. lia.
  - intros m' Hc. apply HQ; [by eapply copied_frame, holds_mapped|]. eapply copied_holds; [done|lia|done].
Qed.

(** The setting of a call of [LZ4F_updateDict]: the chunk [x] was written at
    [dp], behind the [o] emitted before in the same call. *)
Section Update.
Context `{HA : Allocator}.
Context (d : LZ4F_dctx) (p : priv) (m : mem) (dst dp room : Z) (o x : list Z).
Context (Hown : owns d p) (Hpriv : priv_ok p m) (Hz : zones_ok p dp room) (Hdt : detached p dp room).
Context (Hlinked : d_linked d = true) (Hmax : 64 * KB + 128 * KB <= d_maxBufferSize d).
Context (Ho : holds m dst o) (Hoc : clear p dp room (dst, zlen o)) (Hdp : dp = dst + zlen o).
Context (Hx : holds m dp x) (Hroom : zlen x <= room) (Hpos : 0 < dst) (Hend : dp + room <= 2 ^ 63).

Lemma out_facts : 0 < p_tmpOut p /\ p_tmpOut p + p_outCap p < 2 ^ 63 /\
  mapped m (p_tmpOut p) (p_outCap p) /\ d_maxBufferSize d <= p_outCap p /\
  d_tmpOutBuffer d = p_tmpOut p.
Proof.
  destruct Hown as (_ & _ & _ & _ & E & Hb & _). destruct Hpriv as (_ & _ & _ & _ & Hout).
  unfold KB in Hmax. destruct Hout as [[? ?]|(? & ? & ? & ? & ?)]; [lia|]. by splits; try lia.
Qed.

Lemma room_range : 0 <= zlen x <= room.
Proof. pose proof (zlen_nonneg x). lia. Qed.

(** A dictionary that is extended where it lies in front of the chunk. *)
Lemma dict_extend w :
  dict_at d p m dp room w -> d_dict d + zlen w = dp ->
  dict_at (put_dict (d_dict d) (zlen w + zlen x) d) p m (dp + zlen x) (room - zlen x) (w ++ x).
Proof.
  intros (E & Hw & Hp & Hloc) Ea. pose proof room_range. zlen_facts. rewrite <- Ea in Hx.
  destruct out_facts as (? & ? & _ & ? & _). split; [by rewrite zlen_app|].
  split; [by apply holds_app|]. split.
  { rewrite zlen_app. dsimp. destruct Hp as [-> | ?]; [|right; lia]. change (zlen (@nil Z)) with 0 in *.
    cbn [app]. destruct (Z.eq_dec (zlen x) 0); [left; apply zlen_0_nil; lia|right; lia]. }
  destruct Hloc as [(Et & Hle & Hl)|Hc].
  - destruct (Z.eq_dec (zlen x) 0) as [E0|E0].
    { left. dsimp. rewrite zlen_app. splits; try done; lia. }
    exfalso. pose proof (zones_apart _ _ _ ZOut ZDst Hz ltac:(done)) as A. pose proof Hdt as Hd.
    unfold detached, apart in A, Hd. cbn [zreg fst snd] in A. unfold KB in Hmax. lia.
  - right. dsimp. rewrite zlen_app. apply clear_join; done || lia.
Qed.
(** A dictionary in the output buffer. *)
Lemma dict_in_out m' dp' room' w :
  holds m' (p_tmpOut p) w -> zlen w <= d_maxBufferSize d ->
  dict_at (put_dict (p_tmpOut p) (zlen w) d) p m' dp' room' w.
Proof.
  intros Hw Hle. destruct out_facts as (? & ? & _ & ? & _). split; [done|]. split; [done|].
  split; [right; dsimp; lia|]. left. by dsimp.
Qed.

(** A dictionary that is not empty is in the output buffer only where its
    address says so. *)
Lemma dict_loc w :
  dict_at d p m dp room w -> w <> [] ->
  (d_dict d = p_tmpOut p /\ zlen w <= d_maxBufferSize d) \/
  (d_dict d <> p_tmpOut p /\ clear p dp room (d_dict d, zlen w)).
Proof.
  intros (_ & _ & _ & Hloc) Hne. apply zlen_pos in Hne. destruct out_facts as (? & ? & _ & ? & _).
  unfold KB in *. destruct Hloc as [(? & ? & _)|Hc]; [by left|right]. split; [|done]. intros E.
  pose proof (clear_apart _ _ _ _ ZOut Hc) as A. unfold apart in A. cbn [zreg fst snd] in A. lia.
Qed.

Lemma chunk_kept a n m' :
  frame a (a + n) m m' -> inside a n (p_tmpOut p, p_outCap p) -> holds m' dp x.
Proof.
  intros Hf Hi. pose proof room_range.
  eapply (zone_kept p dp room ZOut a n m m' Hf Hi ZDst); [done|done| |done].
  right. cbn. lia.
Qed.

(** [w] is cut to its end [v] at the start of the output buffer, and the chunk
    is appended. *)
Lemma wp_append_tail v m1 Q :
  holds m1 (p_tmpOut p) v -> frame (p_tmpOut p) (p_tmpOut p + p_outCap p) m m1 ->
  zlen v + zlen x <= d_maxBufferSize d ->
  (forall m', frame (p_tmpOut p) (p_tmpOut p + p_outCap p) m m' ->
     dict_at (put_dict (p_tmpOut p) (zlen v + zlen x) d) p m' (dp + zlen x) (room - zlen x) (v ++ x) ->
     Q tt m') ->
  wp (memcpy (p_tmpOut p + zlen v) dp (zlen x)) Q m1.
Proof.
  intros Hv Hf Hle HQ. destruct out_facts as (? & ? & Hm & ? & _). zlen_facts. pose proof room_range.
  pose proof (chunk_kept _ _ _ Hf (inside_refl _ _)) as Hx1.
  apply wp_memcpy_apart; [done| | |].
  - eapply mapped_sub; [eapply frame_mapped; [exact Hf|exact Hm]|lia..].
  - eapply apart_inside; [exact (zones_apart _ _ _ ZOut ZDst Hz ltac:(done))| |];
      right; cbn; lia.
  - intros m' Hf' Hx'. apply HQ.
    + eapply frame_trans; [exact Hf|]. eapply frame_weaken; [exact Hf'|lia..].
    + rewrite <- zlen_app. apply dict_in_out; [by eapply holds_snoc|rewrite zlen_app; lia].
Qed.
(** The last case of [LZ4F_updateDict]: the dictionary is in the output buffer,
    or the end of it is copied there. *)
Lemma wp_update_copy w h Q :
  dict_at d p m dp room w -> window w h -> w <> [] -> zlen x < 64 * KB ->
  (forall n m', frame (p_tmpOut p) (p_tmpOut p + p_outCap p) m m' ->
     hist (put_dict (p_tmpOut p) n d) p m' (dp + zlen x) (room - zlen x) (h ++ x) ->
     Q (put_dict (p_tmpOut p) n d) m') ->
  wp (if d_dict d =? d_tmpOutBuffer d then
        d ← (if d_maxBufferSize d <? u64 (d_dictSize d + zlen x) then
               let preserveSize := u64 (64 * KB - zlen x) in
               memcpy (d_tmpOutBuffer d) (d_dict d + d_dictSize d - preserveSize) preserveSize;;
               mret (set_dictSize preserveSize d)
             else mret d);
        memcpy (d_tmpOutBuffer d + d_dictSize d) dp (zlen x);;
        mret (set_dictSize (u64 (d_dictSize d + zlen x)) d)
      else
        let preserveSize := u64 (64 * KB - zlen x) in
        let preserveSize := if d_dictSize d <? preserveSize then d_dictSize d else preserveSize in
        memcpy (d_tmpOutBuffer d) (d_dict d + d_dictSize d - preserveSize) preserveSize;;
        memcpy (d_tmpOutBuffer d + preserveSize) dp (zlen x);;
        mret (set_dictSize (u64 (preserveSize + zlen x)) (set_dict (d_tmpOutBuffer d) d))) Q m.
Proof.
  intros Hw Hwin Hne Hk HQ. destruct out_facts as (? & ? & Hm & ? & Eo). zlen_facts.
  rewrite !Eo. pose proof (zlen_nonneg w). destruct (Hw) as (<- & Hh & Hp & _). destruct Hp as [->|[Hp1 Hp2]]; [done|].
  rewrite (u64_small (64 * KB - zlen x)) by (unfold KB in *; lia).
  pose proof (dict_loc w Hw Hne) as [[E Hle]|[E Hc]].
  - rewrite (proj2 (Z.eqb_eq _ _) E). rewrite u64_small by (unfold KB in *; lia). rewrite E in *. apply wp_bind.
    destruct (Z.ltb_spec (d_maxBufferSize d) (zlen w + zlen x)).
    + destruct (split_last w (64 * KB - zlen x)) as (u & v & -> & Hv & Hu); [unfold KB in *; lia|].
      rewrite zlen_app in *. cbv zeta. apply wp_bind. rewrite <- Hv.
      replace (p_tmpOut p + (zlen u + zlen v) - zlen v) with (p_tmpOut p + zlen u) by lia.
      apply holds_app in Hh as [_ Hh]. apply wp_memcpy_apart; [done| | |].
      * eapply mapped_sub; [exact Hm|unfold KB in *; lia..].
      * right; right; left; cbn; unfold KB in *; lia.
      * intros m1 Hf1 Hv1. apply wp_ret. dsimp. rewrite Eo. apply wp_bind.
        apply (frame_sub _ _ (p_tmpOut p) (p_outCap p)) in Hf1; [|right; cbn; unfold KB in *; lia].
        apply wp_append_tail; [done|done|unfold KB in *; lia|]. intros m' Hf' Hd'. apply wp_ret.
        rewrite u64_small by (unfold KB in *; lia).
        replace (set_dictSize _ (set_dictSize _ d)) with (put_dict (p_tmpOut p) (zlen v + zlen x) d)
          by (rewrite <- E; by destruct d). apply HQ; [done|]. exists (v ++ x). split; [done|].
        apply (window_last u); [right; rewrite zlen_app; lia|]. rewrite app_assoc. by apply window_snoc.
    + apply wp_ret. rewrite Eo, <- (proj1 Hw). apply wp_bind. apply wp_append_tail; [done|apply frame_refl|lia|].
      intros m' Hf' Hd'. apply wp_ret. rewrite u64_small, put_dict_size, E by (unfold KB in *; lia).
      apply HQ; [done|].
      exists (w ++ x). split; [done|by apply window_snoc].
  - rewrite (proj2 (Z.eqb_neq _ _) E). cbv zeta.
    set (k := if zlen w <? 64 * KB - zlen x then zlen w else 64 * KB - zlen x).
    assert (k = Z.min (zlen w) (64 * KB - zlen x)) as Hkk by (unfold k; zcase; lia).
    destruct (split_last w k) as (u & v & -> & Hv & Hu); [unfold KB in *; lia|].
    rewrite zlen_app in *. apply wp_bind. rewrite <- Hv.
    replace (d_dict d + (zlen u + zlen v) - zlen v) with (d_dict d + zlen u) by lia.
    apply holds_app in Hh as [_ Hh]. apply wp_memcpy_apart; [done| | |].
    + eapply mapped_sub; [exact Hm|unfold KB in *; lia..].
    + eapply apart_inside; [exact (clear_apart _ _ _ _ ZOut Hc)| |]; right; cbn; unfold KB in *; lia.
    + intros m1 Hf1 Hv1. apply wp_bind.
      apply (frame_sub _ _ (p_tmpOut p) (p_outCap p)) in Hf1; [|right; cbn; unfold KB in *; lia].
      apply wp_append_tail; [done|done|unfold KB in *; lia|]. intros m' Hf' Hd'. apply wp_ret.
      rewrite u64_small by (unfold KB in *; lia). apply HQ; [done|]. exists (v ++ x). split; [done|].
      apply (window_last u); [|rewrite app_assoc; by apply window_snoc].
      destruct (Z.eq_dec (zlen u) 0); [left; apply zlen_0_nil; lia|right; rewrite zlen_app; lia].
Qed.

(** The history after a chunk that was written to the destination. *)
Lemma wp_updateDict h y Q :
  hist d p m dp room h -> h = y ++ o ->
  (forall a n m', frame (p_tmpOut p) (p_tmpOut p + p_outCap p) m m' ->
     hist (put_dict a n d) p m' (dp + zlen x) (room - zlen x) (h ++ x) -> Q (put_dict a n d) m') ->
  wp (LZ4F_updateDict d dp (zlen x) dst false) Q m.
Proof.
  intros (w & Hw & Hwin) Hy HQ. destruct out_facts as (? & ? & _ & ? & Eo). zlen_facts.
  pose proof room_range. pose proof Hw as (En & Hh & Hp & _). unfold LZ4F_updateDict.
  destruct (Z.eqb_spec (d_dictSize d) 0) as [E0|E0].
  - assert (w = []) as -> by (apply zlen_0_nil; lia).
    assert (h = []) as -> by (symmetry; by apply (window_short [])).
    dsimp. rewrite E0, Z.add_0_r, Z.eqb_refl. cbn [Z.add]. rewrite u64_small by lia.
    apply wp_ret, HQ; [apply frame_refl|]. exists x. split; [|apply window_refl].
    split; [done|]. split; [done|]. split; [right; dsimp; lia|]. right. dsimp.
    apply clear_written; [lia|done].
  - assert (w <> []) as Hne by (intros ->; by change (zlen (@nil Z)) with 0 in En).
    destruct Hp as [->|[Hp1 Hp2]]; [done|]. rewrite <- En in *. pose proof (zlen_nonneg w).
    destruct (Z.eqb_spec (d_dict d + zlen w) dp) as [Ea|Ea].
    { rewrite u64_small by lia. apply wp_ret. rewrite put_dict_size. apply HQ; [apply frame_refl|].
      exists (w ++ x). split; [by apply dict_extend|by apply window_snoc]. }
    replace (dp - dst) with (zlen o) by lia. rewrite (u64_small (zlen o)), u64_small by lia.
    destruct (Z.leb_spec (64 * KB) (zlen o + zlen x)).
    { apply wp_ret. change (set_dictSize ?n (set_dict ?a d)) with (put_dict a n d).
      apply HQ; [apply frame_refl|]. exists (o ++ x). split.
      - split; [by rewrite zlen_app|]. split; [dsimp; apply holds_app; by rewrite <- Hdp|].
        split; [right; dsimp; rewrite zlen_app; lia|]. right. dsimp. rewrite zlen_app.
        apply clear_join; done || lia.
      - rewrite Hy, <- app_assoc. apply window_suffix. rewrite zlen_app. lia. }
    cbn [andb]. cbv iota. rewrite En. apply (wp_update_copy w h); [done|done|done|lia|].
    intros n m' Hf Hh'. by apply HQ.
Qed.
End Update.

(** * Flushing the output buffer *)

(** The size of the copy that puts the history in front of a block of [n] bytes
    that has [pre] bytes in front of it. *)
Definition front_size (n pre : Z) : Z := Z.min (Z.max 0 (64 * KB - n)) pre.

Lemma front_size_eq n pre :
  0 <= n < 2 ^ 32 -> 0 <= pre ->
  (let c := if 64 * KB <? n then 0 else u64 (64 * KB - n) in if pre <? c then pre else c) =
  front_size n pre.
Proof.
  intros Hn Hp. unfold front_size. cbv zeta. unfold KB.
  destruct (Z.ltb_spec (64 * 2 ^ 10) n); [|rewrite u64_small by lia]; zcase; lia.
Qed.

(** A list that ends with [t] behind its last [c] bytes before. *)
Lemma window_front W h t c pre :
  window W (h ++ t) -> pre = zlen h \/ (64 * KB <= pre /\ 64 * KB <= zlen h) ->
  0 < c -> c <= pre -> c + zlen t <= 64 * KB ->
  exists u v y, W = u ++ v ++ t /\ h = y ++ v /\ zlen v = c.
Proof.
  intros [-> | (g & y & s & -> & E & Hs)] Hp Hc Hcp Hct; zlen_facts.
  - destruct (split_last h c) as (u & v & -> & Hv & _); [lia|]. exists u, v, u. by rewrite <- app_assoc.
  - destruct (split_last s (zlen t)) as (s1 & t' & -> & Ht & Hs1); [lia|].
    rewrite app_assoc in E. apply app_inj_2 in E as [-> <-]; [|unfold zlen in Ht; lia].
    destruct (split_last s1 c) as (u & v & -> & Hv & _); [lia|].
    exists (g ++ u), v, (y ++ u). by rewrite <- !app_assoc.
Qed.

Section Flush.
Context `{HA : Allocator}.
Context (d : LZ4F_dctx) (p : priv) (m : mem) (dp room : Z) (h x : list Z).
Context (Hown : owns d p) (Hpriv : priv_ok p m) (Hz : zones_ok p dp room) (Hdt : detached p dp room).
Context (Hmax : 64 * KB + 128 * KB <= d_maxBufferSize d).
Context (pre : Z) (Hpre : d_tmpOut d = p_tmpOut p + pre) (Hpre0 : 0 <= pre).
Context (Hfit : pre + zlen x <= d_maxBufferSize d).
Context (Hph : pre = zlen h \/ (64 * KB <= pre /\ 64 * KB <= zlen h)).
Context (st : Z) (Hst : d_tmpOutStart d = st) (Hst0 : 0 <= st <= zlen x).

(** Copying the end of the dictionary in front of the block. *)
Lemma wp_copy_front Q :
  flush_out d p m dp room h x ->
  (forall m', frame (p_tmpOut p) (p_tmpOut p + pre) m m' ->
     in_front m' (p_tmpOut p) h x pre -> Q tt m') ->
  wp (memcpy (p_tmpOut p + pre - front_size (zlen x) pre)
        (d_dict d + d_dictSize d - d_tmpOutStart d - front_size (zlen x) pre)
        (front_size (zlen x) pre)) Q m.
Proof.
  intros (Hne & W & En & Hh & Hp & Hc & Hwin) HQ.
  destruct (out_facts d p m Hown Hpriv Hmax) as (T1 & T2 & Hm & T3 & _).
  pose proof (zlen_nonneg x) as T4. set (c := front_size (zlen x) pre).
  assert (0 <= c <= pre /\ c <= Z.max 0 (64 * KB - zlen x)) as Hcr by (unfold c, front_size, KB; lia).
  destruct (mapped_holds m (p_tmpOut p) (pre - c)) as (gl & Hgl & Egl); [lia| |].
  { eapply mapped_sub; [exact Hm|lia..]. }
  assert (exists v y, h = y ++ v /\ zlen v = c /\
    holds m (d_dict d + d_dictSize d - d_tmpOutStart d - c) v /\
    apart (p_tmpOut p, p_outCap p) (d_dict d + d_dictSize d - d_tmpOutStart d - c, c) /\
    (64 * KB <= c + zlen x \/ (c = pre /\ y = []))) as (v & y & -> & Hv & Hvh & Hap & Hy).
  { destruct (Z.eq_dec c 0) as [Hc0|Hc0].
    { rewrite Hc0. exists [], h. rewrite app_nil_r. splits; try done; [apply holds_nil|by right; left|].
      destruct (Z.le_gt_cases (64 * KB) (zlen x)); [left; lia|right].
      unfold c, front_size in Hc0. split; [|apply zlen_0_nil]; unfold KB in *; lia. }
    set (t := take (Z.to_nat (d_tmpOutStart d)) x) in *.
    assert (zlen t = st) as Ht by (unfold t; rewrite zlen_take; unfold zlen in *; lia).
    destruct (window_front W h t c pre Hwin Hph) as (u & v & y & -> & -> & Hv); [lia|lia|lia|].
    exists v, y. rewrite <- En, Hst, !zlen_app.
    replace (d_dict d + (zlen u + (zlen v + zlen t)) - st - c) with (d_dict d + zlen u) by lia.
    apply holds_app in Hh as [_ [Hh _]%holds_app]. splits; try done.
    - pose proof (clear_apart _ _ _ _ ZOut Hc) as A. rewrite !zlen_app in A.
      pose proof (zlen_nonneg u). pose proof (zlen_nonneg t).
      unfold apart in *. cbn [zreg fst snd] in *. lia.
    - unfold c, front_size in *. rewrite zlen_app in Hph. pose proof (zlen_nonneg y).
      destruct (Z.le_gt_cases (Z.max 0 (64 * KB - zlen x)) pre); [left; lia|right].
      split; [lia|]. apply zlen_0_nil. unfold KB in *. lia. }
  clearbody c. subst c. apply wp_memcpy_apart; [done| | |].
  - eapply mapped_sub; [exact Hm|lia..].
  - eapply apart_inside; [exact Hap|right; cbn; lia|apply inside_refl].
  - intros m' Hf Hv'. apply HQ.
    + eapply frame_weaken; [exact Hf|lia..].
    + exists gl, y, v. assert (zlen (gl ++ v) = pre) as El by (rewrite zlen_app; lia).
      split; [|split; [done|split; [done|]]].
      * apply holds_app. replace (p_tmpOut p + zlen gl) with (p_tmpOut p + pre - zlen v) by lia.
        split; [|done]. eapply frame_holds; [exact Hf|left; lia|done].
      * destruct Hy as [Hy | [Ec ->]]; [right; lia|left]. split; [|done]. apply zlen_0_nil. lia.
Qed.
(** The chunk [ch] of the block was copied to the destination, behind the [o]
    emitted before in the same call. *)
Context (dst : Z) (o ch y : list Z).
Context (Ho : holds m dst o) (Hoc : clear p dp room (dst, zlen o)) (Hdp : dp = dst + zlen o).
Context (Hch : holds m dp ch) (Hroom : zlen ch <= room) (Hpos : 0 < dst) (Hend : dp + room <= 2 ^ 63).
Context (Hx : take (Z.to_nat (st + zlen ch)) x = take (Z.to_nat st) x ++ ch).
Context (Hle : st + zlen ch <= zlen x) (Hsz : d_tmpOutSize d = zlen x) (Hx32 : zlen x < 2 ^ 32).
Context (Hy : h ++ take (Z.to_nat st) x = y ++ o).

(** The state after the chunk. *)
Definition flush_next (d' : LZ4F_dctx) (m' : mem) : Prop :=
  let d' := set_tmpOutStart (st + zlen ch) d' in
  flush_in d' p m' h x pre \/ flush_out d' p m' (dp + zlen ch) (room - zlen ch) h x.

Lemma flush_next_out a n w :
  zlen w = n -> holds m a w -> 0 < a -> a + n <= 2 ^ 63 -> a <> p_tmpOut p ->
  clear p (dp + zlen ch) (room - zlen ch) (a, n) ->
  window w (h ++ take (Z.to_nat (st + zlen ch)) x) -> flush_next (put_dict a n d) m.
Proof.
  intros <- Hw Ha Hb Hne Hc Hwin. right. split; [done|]. exists w. split; [done|]. split; [done|].
  split; [right; split; done|]. by split.
Qed.

(** No dictionary so far: the destination becomes it. *)
Lemma flush_first :
  d_dictSize d = 0 -> flush_in d p m h x pre \/ flush_out d p m dp room h x ->
  flush_next (put_dict dp (zlen ch) d) m.
Proof.
  intros E0 Hfl. pose proof (zlen_nonneg ch). pose proof (zlen_nonneg o).
  assert (h = [] /\ st = 0 /\ pre = 0) as (Eh & Est & Ep).
  { destruct Hfl as [(_ & E & _)|(_ & w & E & _ & _ & _ & Hwin)].
    - splits; [apply zlen_0_nil; unfold KB in *; lia|lia..].
    - assert (w = []) as -> by (apply zlen_0_nil; lia).
      apply window_short in Hwin; [|done]. symmetry in Hwin. apply app_eq_nil in Hwin as [Eh Et].
      rewrite Hst in Et. apply (f_equal zlen) in Et. rewrite zlen_take in Et by (unfold zlen in *; lia).
      rewrite Eh in Hph. change (zlen (@nil Z)) with 0 in *. splits; try done; unfold KB in *; lia. }
  destruct (Z.eq_dec dp (p_tmpOut p)) as [E|Hne].
  - left. split; [done|]. split; [dsimp; lia|]. exists [], [], []. rewrite Eh, Ep.
    by splits; [apply holds_nil|..|left].
  - apply (flush_next_out dp _ ch); try done; [lia|lia|by apply clear_written; [lia|]|].
    rewrite Hx, Eh, Est. apply window_refl.
Qed.

Lemma wp_updateDict_flush Q :
  flush_in d p m h x pre \/ flush_out d p m dp room h x ->
  (forall a n m', frame (p_tmpOut p) (p_tmpOut p + pre) m m' ->
     flush_next (put_dict a n d) m' -> Q (put_dict a n d) m') ->
  wp (LZ4F_updateDict d dp (zlen ch) dst true) Q m.
Proof.
  intros Hfl HQ. destruct (out_facts d p m Hown Hpriv Hmax) as (T1 & T2 & _ & T3 & Eo).
  pose proof (zlen_nonneg ch). pose proof (zlen_nonneg o). unfold LZ4F_updateDict.
  destruct (Z.eqb_spec (d_dictSize d) 0) as [E0|E0].
  { dsimp. rewrite E0, Z.add_0_r, Z.eqb_refl. cbn [Z.add]. rewrite u64_small by lia.
    apply wp_ret. apply HQ; [apply frame_refl|]. by apply flush_first. }
  destruct (Z.eqb_spec (d_dict d + d_dictSize d) dp) as [Ea|Ea].
  { apply wp_ret. rewrite put_dict_size. apply HQ; [apply frame_refl|].
    destruct Hfl as [(E1 & E2 & Hf)|(Hne & w & En & Hh & Hp & Hc & Hwin)].
    - assert (zlen ch = 0) as Ez.
      { destruct (Z.eq_dec (zlen ch) 0); [done|]. 
        pose proof (zones_apart _ _ _ ZOut ZDst Hz ltac:(done)) as A. pose proof Hdt as Hd.
        unfold detached, apart in A, Hd. cbn [zreg fst snd] in A. unfold KB in Hmax. lia. }
      left. split; [done|]. split; [|done]. dsimp. rewrite u64_small; lia.
    - destruct Hp as [->|Hp]; [by change (zlen (@nil Z)) with 0 in En|]. pose proof (zlen_nonneg w).
      rewrite u64_small by lia. apply (flush_next_out _ _ (w ++ ch)).
      + rewrite zlen_app. lia.
      + apply holds_app. split; [done|]. rewrite En. by rewrite Ea.
      + lia.
      + lia.
      + done.
      + rewrite <- En in *. apply clear_join; done || lia.
      + rewrite Hx, app_assoc, <- Hst. by apply window_snoc. }
  replace (dp - dst) with (zlen o) by lia. rewrite (u64_small (zlen o)), (u64_small (zlen o + zlen ch)) by lia.
  destruct (Z.leb_spec (64 * KB) (zlen o + zlen ch)) as [Hbig|Hbig].
  { apply wp_ret. change (set_dictSize ?n (set_dict ?a d)) with (put_dict a n d).
    apply HQ; [apply frame_refl|].
    assert (clear p (dp + zlen ch) (room - zlen ch) (dst, zlen o + zlen ch)) as Hcl
      by (apply clear_join; done || lia).
    apply (flush_next_out _ _ (o ++ ch)).
    - by rewrite zlen_app.
    - apply holds_app. by rewrite <- Hdp.
    - done.
    - lia.
    - intros E. pose proof (clear_apart _ _ _ _ ZOut Hcl) as A. unfold apart, KB in *.
      cbn [zreg fst snd] in A. unfold KB in Hmax. lia.
    - done.
    - rewrite Hx, app_assoc, Hy, <- app_assoc. apply window_suffix. by rewrite zlen_app. }
  cbn [andb]. rewrite Eo. destruct Hfl as [(E1 & E2 & Hf)|Hfo].
  { rewrite (proj2 (Z.eqb_eq _ _) E1). apply wp_ret. rewrite put_dict_size. apply HQ; [apply frame_refl|].
    left. split; [done|]. split; [|done]. dsimp. rewrite u64_small; unfold KB in *; lia. }
  destruct (Hfo) as (Hne & _). rewrite (proj2 (Z.eqb_neq _ _) Hne). rewrite Hpre, Hsz.
  replace (p_tmpOut p + pre - p_tmpOut p) with pre by lia. rewrite (u64_small pre) by (unfold KB in *; lia).
  pose proof (front_size_eq (zlen x) pre ltac:(lia) Hpre0) as Efs. cbv zeta in Efs |- *. rewrite Efs.
  apply wp_bind. apply wp_copy_front; [done|]. intros m' Hf Hfr. apply wp_ret.
  change (set_dictSize ?n (set_dict ?a d)) with (put_dict a n d). apply HQ; [done|]. left.
  split; [done|]. split; [|done]. dsimp. rewrite u64_small; unfold KB in *; lia.
Qed.
End Flush.

(** * The place of a block in the output buffer *)

Section Place.
Context `{HA : Allocator}.
Context (d : LZ4F_dctx) (p : priv) (m : mem) (dp room : Z) (h : list Z).
Context (Hown : owns d p) (Hpriv : priv_ok p m).
Context (Hblk : 64 * KB <= d_maxBlockSize d).
Context (Hmax : d_maxBlockSize d + (if d_linked d then 128 * KB else 0) <= d_maxBufferSize d).
Context (Hind : d_linked d = false -> d_tmpOut d = p_tmpOut p).

(** The dictionary [w] and the [pre] bytes in front of the block. *)
Definition placed (d' : LZ4F_dctx) (m' : mem) (pre : Z) (w : list Z) : Prop :=
  dict_at d' p m' dp room w /\ window w h /\ (0 <= pre /\ (d_linked d = false -> pre = 0)) /\
  pre + d_maxBlockSize d <= d_maxBufferSize d /\
  (d_linked d = true ->
   (d_dict d = p_tmpOut p /\ zlen w = pre) \/
   (d_dict d <> p_tmpOut p /\ pre = Z.min (zlen w) (64 * KB) /\
    clear p dp room (d_dict d, zlen w))).

Lemma wp_placeTmpOut Q :
  hist d p m dp room h ->
  (forall n pre w m', frame (p_tmpOut p) (p_tmpOut p + p_outCap p) m m' ->
     let d' := set_tmpOut (p_tmpOut p + pre) (put_dict (d_dict d) n d) in
     placed d' m' pre w -> Q d' m') ->
  wp (placeTmpOut d) Q m.
Proof.
  intros (w & Hw & Hwin) HQ. pose proof (zlen_nonneg w) as T0. unfold placeTmpOut.
  pose proof Hown as (_ & _ & _ & _ & Eo & _ & _). pose proof Hw as (En & Hh & Hp & Hloc).
  destruct (d_linked d) eqn:El.
  2: { apply wp_ret. replace d with (set_tmpOut (p_tmpOut p + 0) (put_dict (d_dict d) (d_dictSize d) d))
         at 1 by (rewrite put_dict_same, Z.add_0_r, <- Hind by done; by destruct d).
       pose proof Hmax as Hm0. cbv iota in Hm0. apply (HQ _ _ w); [apply frame_refl|].
       split; [done|]. split; [done|]. split; [by split|]. split; [lia|]. congruence. }
  pose proof Hmax as Hm1. cbv iota in Hm1. assert (64 * KB + 128 * KB <= d_maxBufferSize d) as Hm192 by lia.
  destruct (out_facts d p m Hown Hpriv Hm192) as (T1 & T2 & Hm & T3 & _). rewrite Eo.
  destruct (Z.eqb_spec (d_dict d) (p_tmpOut p)) as [E|E].
  - apply wp_bind. rewrite <- En. wif.
    + destruct (split_last w (64 * KB)) as (u & v & -> & Hv & Hu); [unfold KB in *; lia|].
      rewrite zlen_app in *. apply wp_bind. rewrite <- Hv, E.
      replace (p_tmpOut p + (zlen u + zlen v) - zlen v) with (p_tmpOut p + zlen u) by lia.
      rewrite E in Hh. apply holds_app in Hh as [_ Hh]. apply wp_memcpy_apart; [done| | |].
      * eapply mapped_sub; [exact Hm|unfold KB in *; lia..].
      * right; right; left; cbn; unfold KB in *; lia.
      * intros m1 Hf1 Hv1. apply wp_ret, wp_ret. dsimp. rewrite Eo.
        replace (set_tmpOut _ (set_dictSize _ d)) with
          (set_tmpOut (p_tmpOut p + zlen v) (put_dict (d_dict d) (zlen v) d)) by (by destruct d).
        apply (HQ _ _ v); [eapply frame_sub; [exact Hf1|right; cbn; unfold KB in *; lia]|].
        split; [|split; [|split; [split; [unfold KB in *; lia|congruence]|split; [unfold KB in *; lia|by left]]]].
        -- rewrite E. apply (dict_in_out d p m Hown Hpriv El Hm192); [done|unfold KB in *; lia].
        -- apply (window_last u); [right; lia|done].
    + apply wp_ret, wp_ret. rewrite Eo.
      replace (set_tmpOut _ d) with (set_tmpOut (p_tmpOut p + zlen w) (put_dict (d_dict d) (d_dictSize d) d))
        by (rewrite put_dict_same; congruence).
      apply (HQ _ _ w); [apply frame_refl|].
      split; [done|]. split; [done|]. split; [split; [lia|congruence]|]. split; [lia|]. by left.
  - apply wp_ret. rewrite <- En.
    replace (set_tmpOut (p_tmpOut p + Z.min (zlen w) (64 * KB)) d) with
      (set_tmpOut (p_tmpOut p + Z.min (zlen w) (64 * KB)) (put_dict (d_dict d) (d_dictSize d) d))
      by (by rewrite put_dict_same).
    apply (HQ _ _ w); [apply frame_refl|].
    split; [done|]. split; [done|]. split; [split; [unfold KB; lia|congruence]|].
    split; [unfold KB in *; lia|]. right.
    split; [done|]. split; [done|]. destruct Hloc as [(? & _)|Hc]; done.
Qed.

(** The history while the block [x] decoded there is flushed. *)
Lemma flush_start d' m' pre w x :
  placed d' m' pre w -> d_linked d = true -> d_dict d' = d_dict d ->
  d_tmpOutStart d' = 0 ->
  (pre = zlen h \/ (64 * KB <= pre /\ 64 * KB <= zlen h)) /\
  (flush_in d' p m' h x pre \/ flush_out d' p m' dp room h x).
Proof.
  intros ((En & Hh & Hp & _) & Hwin & H0 & Hfit & Hloc) El Ed Es. specialize (Hloc El). split.
  - destruct (Z.lt_ge_cases (zlen w) (64 * KB)) as [Hs|Hs].
    + pose proof (window_short _ _ Hwin Hs) as <-. left. destruct Hloc as [?|?]; lia.
    + right. split; [destruct Hloc; lia|]. by apply (window_long w).
  - destruct Hloc as [[E Ew]|(E & _ & Hc)].
    + left. split; [congruence|]. split; [lia|]. rewrite <- E, <- Ed.
      destruct Hwin as [<- | (g & y & s & -> & -> & Hs)].
      * exists [], [], w. by splits; [..|left].
      * exists g, y, s. splits; try done. right. pose proof (zlen_nonneg x). lia.
    + right. split; [congruence|]. exists w. split; [done|]. split; [done|]. split; [done|].
      split; [by rewrite Ed|]. rewrite Es. change (take (Z.to_nat 0) x) with (@nil Z).
      by rewrite app_nil_r.
Qed.
End Place.

(** One call of the block decoder from the frame decoder. *)

(** The part of the dictionary that is handed on is a window of it. *)
Lemma clampDict_spec d m w :
  zlen w = d_dictSize d -> holds m (d_dict d) w ->
  w = [] \/ (0 < d_dict d /\ d_dict d + zlen w <= 2 ^ 63) ->
  exists u v, w = u ++ v /\ (u = [] \/ 64 * KB <= zlen v) /\ zlen v <= 1 * GB /\
    clampDict d = (d_dict d + zlen u, zlen v) /\ holds m (d_dict d + zlen u) v.
Proof.
  intros En Hh Hp. unfold clampDict. pose proof (zlen_nonneg w).
  destruct (Z.ltb_spec (1 * GB) (d_dictSize d)) as [Hbig|Hbig].
  - destruct Hp as [->|[Hp _]]; [change (zlen (@nil Z)) with 0 in En; unfold GB in *; lia|].
    rewrite (proj2 (Z.eqb_neq (d_dict d) NULL)) by (unfold NULL; lia). cbn [negb andb].
    destruct (split_last w (64 * KB)) as (u & v & -> & Hv & Hu); [unfold KB, GB in *; lia|].
    exists u, v. apply holds_app in Hh as [_ Hh]. rewrite zlen_app in *. split; [done|].
    split; [right; lia|]. split; [unfold KB, GB in *; lia|]. split; [f_equal; lia|done].
  - rewrite andb_false_r. exists [], w. change (zlen (@nil Z)) with 0. rewrite Z.add_0_r, En.
    split; [done|]. split; [by left|]. by split.
Qed.

Lemma wp_decodeBlockTo d m selectedIn out data w h Q :
  zlen w = d_dictSize d -> holds m (d_dict d) w ->
  w = [] \/ (0 < d_dict d /\ d_dict d + zlen w <= 2 ^ 63) -> window w h ->
  w = [] \/ (d_dict d + zlen w <= out \/ out + d_maxBlockSize d <= d_dict d) ->
  bufs_ok m selectedIn data out (d_maxBlockSize d) -> d_tmpInTarget d = zlen data ->
  0 < d_maxBlockSize d ->
  (forall r m', frame out (out + d_maxBlockSize d) m m' ->
     (0 <= r -> exists b x, block_wf b /\ data = enc_block b /\ expand h b = Some x /\
        zlen x = r /\ r <= d_maxBlockSize d /\ holds m' out x) ->
     (r < 0 -> forall b x, conforming b -> data = enc_block b -> expand h b = Some x -> d_maxBlockSize d < zlen x) ->
     Q r m') ->
  wp (decodeBlockTo d selectedIn out) Q m.
Proof.
  intros En Hh Hp Hwin Hap Hb Ht Hpos HQ. unfold decodeBlockTo.
  destruct (clampDict_spec d m w En Hh Hp) as (u & v & -> & Huv & Hv & -> & Hhv). cbn beta iota.
  pose proof Hb as (_ & _ & Hi & Hc & _). pose proof (zlen_nonneg data). pose proof (zlen_nonneg v).
  rewrite Ht, !s32_small by (unfold int_min, int_max, GB in *; lia).
  assert (forall r m' g, (forall b o, conforming b -> data = enc_block b -> expand g b = Some o ->
    zlen o <= d_maxBlockSize d -> 0 < d_maxBlockSize d \/ b_nib b = 0 -> r = zlen o /\ holds m' out o) ->
    r < 0 -> forall b x, conforming b -> data = enc_block b -> expand g b = Some x -> d_maxBlockSize d < zlen x) as fails_large.
  { intros r m' g Hc' Hr b x Hbc Ed He. destruct (Z.lt_ge_cases (d_maxBlockSize d) (zlen x)) as [|Hle]; [done|].
    destruct (Hc' b x Hbc Ed He Hle (or_introl Hpos)) as [-> _]. zlen_facts. pose proof (zlen_nonneg x). lia. }
  apply (wp_mono _ (fun r m' => frame out (out + d_maxBlockSize d) m m' /\
    (0 <= r -> exists b x, block_wf b /\ data = enc_block b /\ expand v b = Some x /\
        zlen x = r /\ r <= d_maxBlockSize d /\ holds m' out x) /\
    (r < 0 -> forall b x, conforming b -> data = enc_block b -> expand v b = Some x -> d_maxBlockSize d < zlen x))).
  - destruct (Z.eq_dec (zlen v) 0) as [E|E].
    + assert (v = []) as -> by (apply zlen_0_nil; lia). change (zlen (@nil Z)) with 0.
      change (LZ4_decompress_safe_usingDict ?a ?b ?c ?e ?f 0) with (LZ4_decompress_safe a b c e).
      eapply wp_mono; [by apply safe_ok|]. intros r m' (Hf & Hr & Hc'). split; [done|]. split; [done|]. by eapply fails_large.
    + eapply wp_mono; [apply (safe_usingDict_ok m selectedIn data out _ Hb (d_dict d + zlen u) v)|].
      { rewrite zlen_app in *. pose proof (zlen_nonneg u).
        assert (u ++ v <> []) as Hne by (intros [_ E']%app_eq_nil; apply E; by rewrite E').
        destruct Hp as [?|Hp]; [done|]. destruct Hap as [?|Hap]; [done|].
        split; [lia|]. split; [done|lia]. }
      intros r m' (Hf & Hr & Hc'). split; [done|]. split; [done|]. by eapply fails_large.
  - intros r m' (Hf & Hr & Hl). apply HQ; [done| |].
    + intros Hr0. destruct (Hr Hr0) as (b & x & Hbw & Hd & He & Hx & Hrc & Ho). exists b, x.
      splits; try done. apply (window_expand v h b x Hbw); [by apply (window_last u)|done].
    + intros Hr0 b x Hbc Ed He. eapply Hl; [done..|]. eapply (window_expand v h b x); [apply Hbc|by apply (window_last u)|done].
Qed.
