(* ===== verification/Lz4FrameCall.v ===== *)
(** One call of [LZ4F_decompress]: the invariant of its loop, and the rules by
    which reads, writes and assignments keep it. *)
From S2P Require Import Prelude.
From S2P Require Import Mem.
From S2P Require Import Xxhash.
From S2P Require Import XxhashSpec.
From S2P Require Import XxhashStream.
From S2P Require Import BlockFormat.
From S2P Require Import Lz4Common.
From S2P Require Import Lz4Decompress.
From S2P Require Import Lz4Frame.
From S2P Require Import Lz4FrameDecode.
From S2P Require Import FrameFormat.
From S2P Require Import Lz4FrameHeader.
From S2P Require Import Lz4FrameInv.
From S2P Require Import Lz4FrameDict.
From S2P Require Import FrameParse.

(** * Writes to a zone *)

Definition zframe (p : priv) (dst room : Z) (z : zone) (m m' : mem) : Prop :=
  frame (zreg p dst room z).1 ((zreg p dst room z).1 + (zreg p dst room z).2) m m'.

Lemma zframe_of p dst room z a n m m' :
  frame a (a + n) m m' -> inside a n (zreg p dst room z) -> zframe p dst room z m m'.
Proof.
  intros Hf Hi. unfold zframe. eapply frame_sub; [exact Hf|]. by destruct (zreg p dst room z).
Qed.

Section Kept.
Context (p : priv) (dst room : Z) (z : zone) (m m' : mem).
Context (Hf : zframe p dst room z m m') (Hz : zones_ok p dst room).

Lemma clear_zkept b l : clear p dst room (b, zlen l) -> holds m b l -> holds m' b l.
Proof.
  intros Hc. eapply (clear_kept p dst room z _ _ _ _ Hf); [|done]. destruct (zreg p dst room z).
  apply inside_refl.
Qed.

Lemma zone_zkept z' b l :
  z <> z' -> inside b (zlen l) (zreg p dst room z') -> holds m b l -> holds m' b l.
Proof.
  intros Hne Hb. eapply (zone_kept p dst room z _ _ _ _ Hf); [|done..]. destruct (zreg p dst room z).
  apply inside_refl.
Qed.

Lemma xxh_zkept z' st l :
  z <> z' -> (mem32 st, 16) = zreg p dst room z' -> XXH32_rep 0 m st l -> XXH32_rep 0 m' st l.
Proof.
  intros Hne Hb. eapply (xxh_kept p dst room z _ _ _ _ Hf); [|done..]. destruct (zreg p dst room z).
  apply inside_refl.
Qed.

Lemma counted_kept d o :
  owns d p -> z <> ZXxh -> counted d m o -> counted d m' o.
Proof.
  intros (_ & E & _) Hne [Hx Hr]. split; [|done]. intros Hc Hs.
  apply (xxh_zkept ZXxh); [done|by rewrite E|by apply Hx].
Qed.

Lemma bc_kept d x :
  owns d p -> z <> ZBc -> XXH32_rep 0 m (d_blockChecksum d) x -> XXH32_rep 0 m' (d_blockChecksum d) x.
Proof. intros (_ & _ & E & _) Hne. apply (xxh_zkept ZBc); [done|by rewrite E]. Qed.

Lemma user_dict_kept dict0 d :
  user_dict dict0 d p m dst room -> user_dict dict0 d p m' dst room.
Proof. intros (En & Hh & Hp & Hc). unfold user_dict. splits; try done. by apply clear_zkept. Qed.

Lemma dict_at_kept d w :
  owns d p -> z <> ZOut -> dict_at d p m dst room w -> dict_at d p m' dst room w.
Proof.
  intros (_ & _ & _ & _ & _ & Hb & _) Hne (En & Hh & Hp & Hloc). split; [done|]. split; [|by split].
  destruct Hloc as [(E & Hle & _)|Hc]; [|by apply clear_zkept].
  apply (zone_zkept ZOut); [done| |done]. right. cbn. lia.
Qed.

Lemma hist_kept d h :
  owns d p -> z <> ZOut -> hist d p m dst room h -> hist d p m' dst room h.
Proof. intros Ho Hne (w & Hw & Hwin). exists w. split; [by apply dict_at_kept|done]. Qed.
End Kept.

(** A dictionary that is not moved stays where it is when the destination fills. *)
Lemma dict_advance d p m dst room k w :
  0 <= k <= room -> dict_at d p m dst room w -> dict_at d p m (dst + k) (room - k) w.
Proof.
  intros Hk (En & Hh & Hp & Hloc). split; [done|]. split; [done|]. split; [done|].
  destruct Hloc as [?|Hc]; [by left|right]. by apply clear_advance.
Qed.

Lemma hist_advance d p m dst room k h :
  0 <= k <= room -> hist d p m dst room h -> hist d p m (dst + k) (room - k) h.
Proof. intros Hk (w & Hw & Hwin). exists w. split; [by apply dict_advance|done]. Qed.

Lemma user_dict_advance dict0 d p m dst room k :
  0 <= k <= room -> user_dict dict0 d p m dst room -> user_dict dict0 d p m (dst + k) (room - k).
Proof. intros Hk (En & Hh & Hp & Hc). unfold user_dict. splits; try done. by apply clear_advance. Qed.

Definition member (r : Z * Z) (i : Z) : Prop := r.1 <= i < r.1 + r.2.

(** The termination measure: the input that is left, and within a block the
    stages that are still to come. *)
Definition rank (s : dStage_t) : Z :=
  match s with
  | dstage_copyDirect | dstage_getCBlock => 2
  | dstage_getBlockChecksum | dstage_storeCBlock | dstage_flushOut => 1
  | _ => 0
  end.

(** A call: the source with its bytes, the destination, the dictionary of the
    frame, what was consumed and emitted of the frame before, and the memory,
    the private memory and the flag [skipChecksum] at its beginning. *)
Record call := Call {
  k_src : Z; k_srcl : list Z; k_dst : Z; k_dstSize : Z; k_dict : list Z;
  k_read : list Z; k_done : list Z; k_mem : mem; k_priv : priv; k_skip : Z }.

Definition call_ok (K : call) : Prop :=
  (0 < k_src K /\ k_src K + zlen (k_srcl K) <= 2 ^ 63) /\
  ((k_dst K = NULL /\ k_dstSize K = 0) \/
   (0 < k_dst K /\ 0 <= k_dstSize K /\ k_dst K + k_dstSize K <= 2 ^ 63)) /\
  bytes_ok (k_read K ++ k_srcl K) /\ fenced (k_priv K) (k_mem K) (k_dst K) (k_dstSize K).

#[export] Instance call_ok_dec K : Decision (call_ok K).
Proof. unfold call_ok, bytes_ok. apply _. Defined.

(** The stages in which a call can stop, and those of them that write. *)
Definition waits (s : dStage_t) : bool :=
  match s with dstage_init | dstage_getSuffix => false | _ => true end.

Definition needs_room (d : LZ4F_dctx) : Prop :=
  match d_dStage d with
  | dstage_getCBlock => True
  | dstage_copyDirect => 0 < d_tmpInTarget d
  | dstage_flushOut => d_tmpOutStart d < d_tmpOutSize d
  | _ => False
  end.

Section Call.
Context `{HA : Allocator} (K : call).
Abbreviation src := (k_src K).
Abbreviation srcl := (k_srcl K).
Abbreviation dst := (k_dst K).
Abbreviation dstSize := (k_dstSize K).
Abbreviation dict0 := (k_dict K).
Abbreviation c0 := (k_read K).
Abbreviation e0 := (k_done K).
Abbreviation m0 := (k_mem K).
Abbreviation p0 := (k_priv K).
Abbreviation skip := (k_skip K).

Definition room (dp : Z) : Z := dst + dstSize - dp.

(** Memory of the caller that is not in a zone is as it was. *)
Definition kept (m : mem) : Prop :=
  forall i, is_Some (m0 !! i) -> (forall z, ~ member (zreg p0 dst dstSize z) i) -> m !! i = m0 !! i.

(** An address of the private memory at the beginning of the call, or one that
    was not in use then. *)
Definition old_or_fresh (i : Z) : Prop :=
  (exists z0, z0 <> ZDst /\ member (zreg p0 dst dstSize z0) i) \/ m0 !! i = None.

(** The parts of the private memory that lie in the context. *)
Definition fixed (p : priv) : Prop :=
  p_header p = p_header p0 /\ p_xxh p = p_xxh p0 /\ p_bc p = p_bc p0 /\ p_self p = p_self p0.

(** What the allocator had given to others before the call is still allocated. *)
Definition blocks_kept (m : mem) : Prop :=
  forall q k, block m0 q k -> mapped m0 q k ->
    apart (p_tmpIn p0, p_inCap p0) (q, k) -> apart (p_tmpOut p0, p_outCap p0) (q, k) -> block m q k.

(** The private memory consists of such addresses. *)
Definition covered (p : priv) (m : mem) : Prop :=
  (forall z i, z <> ZDst -> member (zreg p dst dstSize z) i -> old_or_fresh i) /\
  fixed p /\ blocks_kept m.

(** [c] was consumed and [r] is left; [o] was emitted. *)
Definition base (p : priv) (s : dloop) (m : mem) (c r o : list Z) : Prop :=
  (owns (l_dctx s) p /\ d_skipChecksum (l_dctx s) = skip) /\
  priv_ok p m /\ zones_ok p (l_dstPtr s) (room (l_dstPtr s)) /\
  (holds m (l_srcPtr s) r /\ src <= l_srcPtr s /\ l_srcPtr s + zlen r = src + zlen srcl /\
   clear p (l_dstPtr s) (room (l_dstPtr s)) (l_srcPtr s, zlen r) /\ c ++ r = c0 ++ srcl) /\
  (l_dstPtr s = dst + zlen o /\ zlen o <= dstSize /\ holds m dst o /\
   clear p (l_dstPtr s) (room (l_dstPtr s)) (dst, zlen o) /\
   mapped m (l_dstPtr s) (room (l_dstPtr s))) /\
  kept m /\ covered p m.

Definition inv (s : dloop) (m : mem) : Prop :=
  exists p c r o, base p s m c r o /\
    stage_ok dict0 p (l_dctx s) m (l_dstPtr s) (room (l_dstPtr s)) c (e0 ++ o).

Definition meas (s : dloop) : Z := 8 * (src + zlen srcl - l_srcPtr s) + rank (d_dStage (l_dctx s)).

(** The frame is complete, and the context is ready for the next one. *)
Definition completed (s : dloop) (m : mem) : Prop :=
  exists p c r o, (exists d, l_dctx s = LZ4F_resetDecompressionContext d /\
     base p (DLoop d (l_srcPtr s) (l_dstPtr s)) m c r o) /\
    frame_done dict0 (skip =? 0) c (e0 ++ o).

(** An error leaves a context that can be reset. *)
Definition failed (d : LZ4F_dctx) (m : mem) : Prop :=
  exists p, owns d p /\ priv_ok p m /\ kept m /\ zones_ok p dst 0 /\ covered p m.

(** A call that is to be continued has used up its input, in a stage that needs
    more of it, or its output, with more to write. *)
Definition stopped (s : dloop) : Prop :=
  waits (d_dStage (l_dctx s)) = true /\
  (l_srcPtr s = src + zlen srcl \/ (l_dstPtr s = dst + dstSize /\ needs_room (l_dctx s))).

(** The error [code] is the fault of the input, or memory ran out. *)
Definition blamed (code : Z) : Prop :=
  code = LZ4F_returnErrorCode LZ4F_ERROR_allocation_failed \/ hopeless dict0 (c0 ++ srcl).

Definition turn_post (s : dloop) (t : dturn) (m : mem) : Prop :=
  match t with
  | Again s' => inv s' m /\ meas s' < meas s
  | Leave hint s' => 0 <= hint < 2 ^ 33 /\
      if hint =? 0 then completed s' m else inv s' m /\ stopped s'
  | Return code d' =>
      (LZ4F_isError code = true /\ failed d' m /\ blamed code) \/
      (code = minFHSize /\ srcl = [] /\ d_dStage d' = dstage_getFrameHeader /\ inv (DLoop d' src dst) m)
  end.

(** * Rules of the invariant *)

(** The destination stays detached from the output buffer, also from a new one. *)
Lemma base_detached p s m c r o : call_ok K -> base p s m c r o -> detached p (l_dstPtr s) (room (l_dstPtr s)).
Proof.
  intros (_ & _ & _ & Hg) (_ & _ & _ & _ & (D1 & D2 & _ & D4 & _) & _ & Hc & _). unfold detached.
  destruct (Z.le_gt_cases (room (l_dstPtr s)) 0); [by left|]. destruct (Z.le_gt_cases (p_outCap p) 0); [by right; left|].
  do 2 right. intros E. pose proof (zlen_nonneg o). destruct (Z.eq_dec (zlen o) 0) as [E0|E0].
  - destruct Hg as [Hg|[Hm Hcl]]; [unfold room in *; lia|]. destruct (Hc ZOut (dst - 1)) as [(z & Hz & Hi)|Hn]; [done| | |].
    + unfold member. cbn [zreg fst snd]. lia.
    + pose proof (clear_apart _ _ _ _ z Hcl) as A. unfold apart, member in *. cbn [fst snd] in A. lia.
    + destruct (Hm (dst - 1)) as [v Hv]; [lia|]. congruence.
  - pose proof (clear_apart _ _ _ _ ZOut D4) as A. unfold apart in A. cbn [zreg fst snd] in A. lia.
Qed.

Lemma base_ctx p s m c r o d' sp dp :
  base p s m c r o -> owns d' p -> d_skipChecksum d' = skip -> sp = l_srcPtr s -> dp = l_dstPtr s ->
  base p (DLoop d' sp dp) m c r o.
Proof. intros (_ & H1 & H2 & H3 & H4 & H5) Ho Hs -> ->. by split. Qed.

Lemma priv_frame p m m' a b : frame a b m m' -> priv_ok p m -> priv_ok p m'.
Proof.
  intros Hf (H1 & H2 & H3 & H4 & H5). pose proof Hf as [_ Hd].
  assert (forall q n, buffer_ok m q n -> buffer_ok m' q n) as Hbuf.
  { intros q n [?|(? & ? & ? & Hm & Hb)]; [by left|right]. splits; try done; [by eapply frame_mapped|].
    by eapply block_mono. }
  unfold priv_ok. splits; try (by eapply frame_mapped); by apply Hbuf.
Qed.

Lemma base_write p s m m' c r o z :
  base p s m c r o -> zframe p (l_dstPtr s) (room (l_dstPtr s)) z m m' -> base p s m' c r o.
Proof.
  intros (H1 & H2 & Hz & (S1 & S2 & S3 & S4 & S5) & (D1 & D2 & D3 & D4 & D5) & Hk & Hc) Hf.
  split; [done|]. split; [by eapply priv_frame|]. split; [done|]. split.
  { splits; try done. by eapply clear_zkept. }
  split. { splits; try done; [by eapply clear_zkept|by eapply frame_mapped]. }
  split.
  2: { split; [apply Hc|]. split; [apply Hc|]. intros q k Hq Hm H3 H4.
       eapply block_mono; [apply Hf|]. by apply Hc. }
  intros i Hi Hn. rewrite <- (Hk i Hi Hn). destruct Hf as [Hf _]. apply Hf. intros Hm.
  destruct (decide (z = ZDst)) as [->|Hzd].
  - apply (Hn ZDst). unfold member, room in *. cbn [zreg fst snd] in *. zlen_facts. lia.
  - destruct (proj1 Hc z i Hzd) as [(z0 & _ & H0)|H0]; [by destruct z|by apply (Hn z0)|].
    rewrite H0 in Hi. by destruct Hi.
Qed.

Lemma base_read p s m c x r o d' sp :
  base p s m c (x ++ r) o -> owns d' p -> d_skipChecksum d' = skip -> sp = l_srcPtr s + zlen x ->
  base p (DLoop d' sp (l_dstPtr s)) m (c ++ x) r o.
Proof.
  intros (H1 & H2 & Hz & (S1 & S2 & S3 & S4 & S5) & HD & HK) Ho Hs ->.
  apply holds_app in S1 as [_ S1]. rewrite zlen_app in *. zlen_facts.
  split; [done|]. split; [done|]. split; [done|]. split; [|by split].
  dsimp. splits; try done; try lia; [|by rewrite <- app_assoc].
  eapply clear_sub; [exact S4|]. right. cbn. lia.
Qed.

Lemma base_emit p s m c r o x d' :
  base p s m c r o -> holds m (l_dstPtr s) x -> zlen x <= room (l_dstPtr s) ->
  owns d' p -> d_skipChecksum d' = skip ->
  base p (DLoop d' (l_srcPtr s) (l_dstPtr s + zlen x)) m c r (o ++ x).
Proof.
  intros (H1 & H2 & Hz & (S1 & S2 & S3 & S4 & S5) & (D1 & D2 & D3 & D4 & D5) & Hk & Hc) Hx Hr Ho Hs.
  zlen_facts. assert (room (l_dstPtr s + zlen x) = room (l_dstPtr s) - zlen x) as Er by (unfold room; lia).
  split; [done|]. split; [done|]. dsimp. rewrite Er. split; [by apply zones_advance|]. split.
  { splits; try done. by apply clear_advance. }
  split; [|by split].
  rewrite zlen_app. splits; [lia|unfold room in *; lia|..].
  - apply holds_app. split; [done|]. by rewrite <- D1.
  - apply clear_join; done || lia.
  - eapply mapped_sub; [exact D5|lia..].
Qed.

(** The destination stays accessible. *)
Lemma base_dst p s m c r o : base p s m c r o -> mapped m dst dstSize.
Proof.
  intros (_ & _ & _ & _ & (D1 & D2 & D3 & D4 & D5) & _) i Hi. destruct (Z.lt_ge_cases i (l_dstPtr s)).
  - apply (holds_mapped _ _ _ D3). lia.
  - apply D5. unfold room. lia.
Qed.
End Call.
