(* ===== verification/Lz4FrameStages.v ===== *)
(** The stages of [LZ4F_decompress] that read: filling a buffer from the
    source, headers of frames and skippable frames. *)
From S2P Require Import Prelude.
From S2P Require Import Mem.
From S2P Require Import Xxhash.
From S2P Require Import XxhashSpec.
From S2P Require Import XxhashStream.
From S2P Require Import BlockFormat.
From S2P Require Import Lz4Common.
From S2P Require Import Lz4Decompress.
From S2P Require Import Lz4DecodeSpec.
From S2P Require Import Lz4Frame.
From S2P Require Import Lz4FrameDecode.
From S2P Require Import FrameFormat.
From S2P Require Import Lz4FrameHeader.
From S2P Require Import FrameParse.
From S2P Require Import Lz4FrameInv.
From S2P Require Import Lz4FrameDict.
From S2P Require Import Lz4FrameCall.

Section Stages.
Context `{HA : Allocator} (K : call) (HK : call_ok K).
Abbreviation srcEnd := (k_src K + zlen (k_srcl K)).
Abbreviation dstEnd := (k_dst K + k_dstSize K).
Abbreviation zf p s := (zframe p (l_dstPtr s) (room K (l_dstPtr s))).

(** * Facts of the invariant *)

Lemma base_src p s m c r o :
  base K p s m c r o ->
  holds m (l_srcPtr s) r /\ 0 < l_srcPtr s /\ l_srcPtr s + zlen r = srcEnd /\ srcEnd <= 2 ^ 63 /\
  bytes_ok c /\ bytes_ok r /\ u64 (srcEnd - l_srcPtr s) = zlen r.
Proof.
  intros (_ & _ & _ & (S1 & S2 & S3 & _ & S5) & _). destruct HK as ([K1 K2] & _ & Hok & _).
  rewrite <- S5 in Hok. apply bytes_ok_app in Hok as [Hc Hr]. pose proof (zlen_nonneg r).
  splits; try done; try lia. rewrite u64_small; lia.
Qed.

(** The part of the source that comes next is apart from every zone. *)
Lemma src_apart p s m c x r o z :
  base K p s m c (x ++ r) o ->
  apart (zreg p (l_dstPtr s) (room K (l_dstPtr s)) z) (l_srcPtr s, zlen x).
Proof.
  intros (_ & _ & _ & (_ & _ & _ & S4 & _) & _). apply clear_apart. eapply clear_sub; [exact S4|].
  rewrite zlen_app. right. cbn. pose proof (zlen_nonneg r). lia.
Qed.

Lemma priv_mapped p m dp rm z :
  priv_ok p m -> z <> ZDst -> mapped m (zreg p dp rm z).1 (zreg p dp rm z).2.
Proof.
  intros (H1 & H2 & H3 & H4 & H5) Hz.
  assert (forall q n, buffer_ok m q n -> mapped m q n) as Hb.
  { intros q n [[_ ->]|(_ & _ & _ & ? & _)]; [|done]. intros i Hi. lia. }
  destruct z; try done; by apply Hb.
Qed.

(** * Filling a buffer *)

Lemma wp_fillFrom p s m c r o z buf off q target Q :
  base K p s m c r o -> z <> ZDst ->
  holds m (buf + off) q -> d_tmpInSize (l_dctx s) = off + zlen q -> 0 <= off ->
  off + zlen q <= target -> target < 2 ^ 32 ->
  inside buf target (zreg p (l_dstPtr s) (room K (l_dstPtr s)) z) -> 0 < target ->
  (forall x r' m', r = x ++ r' -> zf p s z m m' -> holds m' (buf + off) (q ++ x) ->
     off + zlen (q ++ x) = target \/ (r' = [] /\ off + zlen (q ++ x) < target) ->
     let s' := DLoop (set_tmpInSize (off + zlen (q ++ x)) (l_dctx s)) (l_srcPtr s + zlen x)
                 (l_dstPtr s) in
     base K p s' m' (c ++ x) r' o -> Q s' m') ->
  wp (fillFrom srcEnd buf target s) Q m.
Proof.
  intros Hb Hzd Hq Hin Hoff Hle Ht32 Hins Hpos HQ.
  destruct (base_src _ _ _ _ _ _ Hb) as (Hr & Hsp & Hse & Hs63 & _ & _ & Eu). zlen_facts.
  pose proof (zlen_nonneg r). unfold fillFrom. rewrite Eu, u64_small by lia. rewrite Hin.
  destruct (list_split_at r (Z.min (target - (off + zlen q)) (zlen r))) as (x & r' & -> & Hx); [lia|].
  rewrite <- Hx. apply wp_bind. pose proof Hr as [Hrx _]%holds_app.
  pose proof Hb as (_ & Hpriv & Hz & _).
  pose proof (priv_mapped _ _ (l_dstPtr s) (room K (l_dstPtr s)) z Hpriv Hzd) as Hm.
  assert (inside (buf + (off + zlen q)) (zlen x) (zreg p (l_dstPtr s) (room K (l_dstPtr s)) z)) as Hix.
  { destruct Hins as [Hins|Hins]; [lia|]. right. lia. }
  rewrite zlen_app in *. zlen_facts. apply wp_memcpy_apart; [done| | |].
  - destruct Hix as [Hix|Hix]; [intros i Hi; lia|]. eapply mapped_sub; [exact Hm|lia..].
  - eapply apart_inside; [by eapply src_apart|done|apply inside_refl].
  - intros m' Hf Hh'. apply wp_ret.
    replace (set_tmpInSize (off + zlen q + zlen x) (l_dctx s)) with
      (set_tmpInSize (off + zlen (q ++ x)) (l_dctx s)) by (f_equal; rewrite zlen_app; lia).
    assert (zf p s z m m') as Hzf by (by eapply zframe_of).
    eapply HQ; [reflexivity|exact Hzf| | |].
    + apply holds_app. rewrite <- Z.add_assoc. split; [|done].
      eapply frame_holds; [exact Hf|left; lia|done].
    + rewrite zlen_app. destruct (Z.le_gt_cases (target - (off + zlen q)) (zlen x + zlen r')); [left; lia|].
      right. split; [apply zlen_0_nil; lia|lia].
    + eapply (base_read K p s); [by eapply base_write|..]; try done; apply Hb.
Qed.
(** * How a turn ends *)

Lemma turn_weaken s1 s t m : turn_post K s1 t m -> meas K s1 <= meas K s -> turn_post K s t m.
Proof. destruct t; cbn [turn_post]; try done. intros [? ?] ?. split; [done|lia]. Qed.

Lemma zones_empty p dp rm dp' : zones_ok p dp rm -> zones_ok p dp' 0.
Proof.
  intros Hz. apply Forall_forall. intros z _. apply Forall_forall. intros z' _.
  destruct (decide (z = z')) as [->|Hne]; [by left|right].
  pose proof (zones_apart _ _ _ _ _ Hz Hne) as Ha. unfold apart in *.
  destruct z, z'; try done; cbn [zreg fst snd] in *; lia.
Qed.

Lemma fail_turn s0 p s m c r o code d' :
  base K p s m c r o -> owns d' p -> LZ4F_isError code = true -> blamed K code ->
  turn_post K s0 (Return code d') m.
Proof.
  intros (_ & Hp & Hz & _ & _ & Hk & Hc) Ho He Hbl. left. split; [done|]. split; [|done]. exists p.
  splits; try done. by eapply zones_empty.
Qed.

Lemma more_turn s0 hint s m :
  0 < hint < 2 ^ 33 -> stopped K s -> inv K s m ->
  turn_post K s0 (Leave hint s) m.
Proof. intros Hh Hd Hi. split; [lia|]. by rewrite (proj2 (Z.eqb_neq _ _)) by lia. Qed.

Lemma stop_read p s m c o :
  base K p s m c [] o -> waits (d_dStage (l_dctx s)) = true -> stopped K s.
Proof.
  intros (_ & _ & _ & (_ & _ & S3 & _) & _) Hd. split; [done|]. left.
  change (zlen (@nil Z)) with 0 in S3. lia.
Qed.

Lemma again_turn s0 p s m c r o :
  base K p s m c r o ->
  stage_ok (k_dict K) p (l_dctx s) m (l_dstPtr s) (room K (l_dstPtr s)) c (k_done K ++ o) ->
  meas K s < meas K s0 -> turn_post K s0 (Again s) m.
Proof. intros Hb Hst Hm. split; [|done]. by exists p, c, r, o. Qed.

Lemma done_nil (o : list Z) : k_done K ++ o = [] -> k_done K = [] /\ o = [].
Proof. apply app_eq_nil. Qed.

(** * Frame headers *)

(** The stage after a header was read from [src], in a context [d'] with the
    fields that [LZ4F_decodeHeader] sets. *)
Lemma stage_after_header p d d' m dp rm c i n :
  parse_header c = HFrame i n -> n = zlen c -> d_frameRemainingSize d = 0 ->
  user_dict (k_dict K) d p m dp rm ->
  d' = set_dStage dstage_init
         (set_frameRemainingSize (if bit_of (byte_of c 4) 3 then contentSize i
                                  else d_frameRemainingSize d)
            (set_maxBlockSize (LZ4F_getBlockSize (blockSizeID i)) (set_frameInfo i d))) ->
  stage_ok (k_dict K) p d' m dp rm c [].
Proof.
  intros Hp -> Hr Hd ->. split; [done|]. split; [done|]. split; [done|]. split; [done|].
  dsimp. destruct (bit_of (byte_of c 4) 3) eqn:E; [done|]. rewrite Hr. symmetry.
  by apply (parse_header_frame _ _ _ Hp).
Qed.

Lemma stage_storeFrameHeader_ok s m :
  inv K s m -> d_dStage (l_dctx s) = dstage_storeFrameHeader ->
  wp (stage_storeFrameHeader srcEnd s) (turn_post K s) m.
Proof.
  intros (p & c & r & o & Hb & Hst) Hs. unfold stage_ok in Hst. rewrite Hs in Hst.
  destruct Hst as (He & Hrem & Hud & Hin & Hlt & Hh & Htgt). apply done_nil in He as [He ->].
  pose proof Hb as ((Hown & Hskip) & Hpriv & Hz & _). pose proof Hown as (Eh & _).
  assert (d_tmpInTarget (l_dctx s) <= 19) as Ht19.
  { destruct Htgt as [->|(c1 & c2 & _ & Hm)]; [lia|]. by apply parse_more_size in Hm as [_ ?]. }
  zlen_facts. unfold stage_storeFrameHeader. apply wp_bind.
  apply (wp_fillFrom p s m c r [] ZHeader _ 0 c); try done; try lia;
    [by rewrite Z.add_0_r|rewrite Eh; right; cbn; lia|].
  intros x r' m' -> Hf Hh' Hsz s' Hb'. rewrite Z.add_0_r in Hh'. subst s'. rewrite !Z.add_0_l in *.
  dsimp. pose proof (zlen_app c x) as Ecx. pose proof (zlen_nonneg x).
  pose proof (user_dict_kept _ _ _ _ _ _ Hf _ _ Hud) as Hud'.
  destruct (Z.ltb_spec (zlen (c ++ x)) (d_tmpInTarget (l_dctx s))) as [Hmore|Hfull].
  - destruct Hsz as [Hsz|[-> _]]; [lia|].
      apply wp_ret, more_turn; [unfold BHSize; lia|eapply stop_read; [exact Hb'|dsimp; by rewrite Hs]|]. exists p, (c ++ x), [], []. split; [done|].
    unfold stage_ok. dsimp. rewrite Hs, He.
    splits; try done. destruct Htgt as [?|(c1 & c2 & -> & Hm)]; [by left|right].
    exists c1, (c2 ++ x). by rewrite app_assoc.
  - assert (zlen (c ++ x) = d_tmpInTarget (l_dctx s)) as El by lia.
    destruct (base_src _ _ _ _ _ _ Hb') as (_ & _ & _ & _ & Hok' & _ & _).
    rewrite <- El. apply wp_bind. apply wp_decodeHeader; [done|done| |by left|].
    { dsimp. rewrite Eh. apply Hb'. }
    intros [n d'] m2 Hr Hsto. unfold header_result in Hr. unfold header_stored in Hsto.
    unfold forwardIfError. cbn [fst snd] in *. dsimp.
    destruct (parse_header (c ++ x)) as [e|size| |i k] eqn:Hp.
    + destruct Hr as [-> (i & Hd')]. subst m2. rewrite (parse_header_error _ _ Hp). apply wp_ret.
      eapply fail_turn; [exact Hb'|by destruct Hd' as [->| ->]|by eapply parse_header_error|right].
      eapply header_hopeless; [symmetry; apply Hb'|exact Hp|].
      destruct Htgt as [?|(c1 & c2 & _ & Hm)]; [lia|]. apply parse_more_size in Hm as Hm2. apply parse_header_more in Hm as [? _]. lia.
    + destruct Hr as [-> ->], Hsto as [Hh2 Hf2]. rewrite small_not_error by lia. apply wp_ret.
      assert (zf p s ZHeader m' m2) as Hz2 by (unfold zframe; cbn; by rewrite <- Eh).
      eapply (again_turn s p _ _ (c ++ x) r' []).
      * eapply base_ctx; [by eapply base_write|done..].
      * unfold stage_ok. dsimp. rewrite He. pose proof (parse_more_size _ _ Hp).
        splits; try done; [by eapply user_dict_kept|lia|]. right. exists (c ++ x), []. by rewrite app_nil_r.
      * unfold meas. dsimp. rewrite Hs. cbn. lia.
    + subst m2. rewrite Z.eqb_refl in Hr. injection Hr as -> ->. rewrite small_not_error by lia.
      apply parse_header_skip in Hp as Hsk. destruct Hsk as [H7 Hsk]. apply wp_ret.
      assert (zlen (c ++ x) = 7) as E7.
      { destruct Htgt as [?|(c1 & c2 & -> & Hm)]; [lia|]. rewrite <- app_assoc in Hp.
        by destruct (proj1 (parse_more_app c1 (c2 ++ x) _ Hm)). }
      eapply (again_turn s p _ _ (c ++ x) r' []).
      * eapply base_ctx; [exact Hb'|done..].
      * unfold stage_ok. dsimp. rewrite He. splits; try done; try lia.
        rewrite <- (take_drop 4 (c ++ x)) in Hh'. apply holds_app in Hh' as [_ Hh'].
        rewrite zlen_take in Hh' by (unfold zlen in *; lia). done.
      * unfold meas. dsimp. rewrite Hs. cbn. lia.
    + subst m2. destruct Hr as [-> ->]. pose proof (parse_header_frame _ _ _ Hp) as (_ & Hk & Ek & _).
      pose proof (header_size_range (bit_of (byte_of (c ++ x) 4) 3) (bit_of (byte_of (c ++ x) 4) 0)).
      rewrite small_not_error by lia. apply wp_ret.
      assert (k = zlen (c ++ x)) as Ekl.
      { destruct Htgt as [?|(c1 & c2 & -> & Hm)]; [lia|]. rewrite <- app_assoc in Hp.
        rewrite (proj2 (parse_more_app c1 (c2 ++ x) _ Hm) i k Hp). lia. }
      eapply (again_turn s p _ _ (c ++ x) r' []).
      * eapply base_ctx; [exact Hb'|done..].
      * dsimp. rewrite He. by eapply (stage_after_header p (set_tmpInSize (zlen (c ++ x)) (l_dctx s))).
      * unfold meas. dsimp. rewrite Hs. cbn. lia.
Qed.
Lemma stage_getFrameHeader_ok s m :
  inv K s m -> d_dStage (l_dctx s) = dstage_getFrameHeader ->
  wp (stage_getFrameHeader srcEnd s) (turn_post K s) m.
Proof.
  intros (p & c & r & o & Hb & Hst) Hs. unfold stage_ok in Hst. rewrite Hs in Hst.
  destruct Hst as (-> & He & Hrem & Hud). apply done_nil in He as [He ->].
  pose proof Hb as ((Hown & Hskip) & Hpriv & Hz & _). pose proof Hown as (Eh & _).
  destruct (base_src _ _ _ _ _ _ Hb) as (Hr & Hsp & Hse & Hs63 & _ & Hok & Eu).
  unfold stage_getFrameHeader. rewrite Eu. pose proof (zlen_nonneg r).
  destruct (Z.leb_spec maxFHSize (zlen r)) as [H19|H19]; unfold maxFHSize in H19.
  - apply wp_bind. assert (l_srcPtr s + zlen r <= d_header (l_dctx s) \/ d_header (l_dctx s) + 19 <= l_srcPtr s)
      as Hap.
    { rewrite <- (app_nil_r r) in Hb. pose proof (src_apart _ _ _ _ _ _ _ ZHeader Hb) as Ha.
      rewrite Eh. unfold apart in Ha. cbn [zreg fst snd] in Ha. lia. }
    apply wp_decodeHeader; [done|done| |lia|].
    { rewrite Eh. apply Hpriv. }
    intros [n d'] m2 Hrr Hsto. unfold header_result in Hrr. unfold header_stored in Hsto.
    unfold forwardIfError. cbn [fst snd] in *.
    destruct (parse_header r) as [e|size| |i k] eqn:Hp; [|by apply parse_more_size in Hp; lia|..]; subst m2.
    + destruct Hrr as [-> (i & Hd')]. rewrite (parse_header_error _ _ Hp). apply wp_ret.
      eapply fail_turn; [exact Hb|by destruct Hd' as [->| ->]|by eapply parse_header_error|right].
      eapply header_hopeless; [|exact Hp|lia]. rewrite app_nil_r. symmetry. apply Hb.
    + dsimp. rewrite (proj2 (Z.eqb_neq _ _)) in Hrr by lia. injection Hrr as -> ->.
      rewrite small_not_error by lia. apply wp_ret. apply parse_header_skip in Hp as [_ Hsk].
      destruct (list_split_at r 4) as (x & r' & -> & Hx); [lia|].
      eapply (again_turn s p _ _ ([] ++ x) r' []).
      * eapply base_read; [exact Hb|done|done|by rewrite Hx].
      * unfold stage_ok. dsimp. rewrite He. splits; try done. unfold skippable_magic.
        by rewrite <- (le_of_prefix x r') by lia.
      * unfold meas. dsimp. rewrite Hs. cbn. lia.
    + destruct Hrr as [-> ->]. destruct (parse_header_take _ _ _ Hok Hp) as (x & r' & -> & Hx & Hpx).
      pose proof (parse_header_frame _ _ _ Hpx) as (H7 & _).
      rewrite byte_of_prefix by lia. rewrite zlen_app in *. zlen_facts.
      rewrite small_not_error by lia. apply wp_ret. eapply (again_turn s p _ _ ([] ++ x) r' []).
      * eapply base_read; [exact Hb|done|done|by rewrite Hx].
      * dsimp. rewrite He. by eapply (stage_after_header p (l_dctx s)).
      * unfold meas. dsimp. rewrite Hs. cbn. lia.
  - replace (srcEnd - l_srcPtr s) with (zlen r) by lia.
    destruct (Z.eqb_spec (zlen r) 0) as [E0|E0].
    + apply wp_ret. right. split; [done|]. assert (r = []) as -> by (apply zlen_0_nil; lia).
      pose proof Hb as (_ & _ & _ & (_ & _ & _ & _ & Ec) & (Edp & _) & _).
      symmetry in Ec. apply app_eq_nil in Ec as [E1 E2]. split; [done|]. split; [done|].
      exists p, [], [], []. rewrite E2 in *. change (zlen (@nil Z)) with 0 in *.
      assert (k_src K = l_srcPtr s /\ k_dst K = l_dstPtr s) as [Ep1 Ep2] by lia.
      split; [eapply base_ctx; [exact Hb|done..]|]. unfold stage_ok. dsimp. rewrite Hs, He, Ep2. done.
    + eapply wp_mono; [apply stage_storeFrameHeader_ok|].
      * exists p, [], r, []. split; [eapply base_ctx; [exact Hb|done..]|].
        unfold stage_ok. dsimp. rewrite He. splits; try done; [apply holds_nil|by left].
      * done.
      * intros t m' Ht. eapply turn_weaken; [exact Ht|]. unfold meas. dsimp. rewrite Hs. cbn. lia.
Qed.
(** * Skippable frames *)

Lemma decodeSFrameSize_ok s0 p s m c r o selectedIn :
  base K p s m c r o -> k_done K ++ o = [] -> zlen c = 8 -> skippable_magic c ->
  holds m selectedIn (drop 4 c) -> l_srcPtr s0 < l_srcPtr s ->
  wp (decodeSFrameSize selectedIn s) (turn_post K s0) m.
Proof.
  intros Hb He Hc Hm Hh Hlt. destruct (base_src _ _ _ _ _ _ Hb) as (_ & _ & Hse & _ & Hok & _ & _).
  unfold decodeSFrameSize. apply wp_bind.
  assert (bytes_ok (drop 4 c)) as Hok4.
  { rewrite <- (take_drop 4 c) in Hok. by apply bytes_ok_app in Hok as [_ ?]. }
  eapply (wp_readLE32_list _ (drop 4 c) []); [by rewrite app_nil_r|done| |].
  { rewrite length_drop. unfold zlen in Hc. lia. }
  apply wp_ret. eapply (again_turn s0 p _ _ c r o).
  - eapply base_ctx; [exact Hb|apply Hb..|done|done].
  - unfold stage_ok. dsimp.
    assert (le_of c 4 4 = le_val (drop 4 c)) as E.
    { unfold le_of. rewrite take_ge; [done|]. rewrite length_drop. unfold zlen in Hc. lia. }
    pose proof (le_of_range c 4 4 Hok ltac:(lia) ltac:(lia) ltac:(lia)). splits; try done; lia.
  - unfold meas. dsimp. cbn. destruct (d_dStage (l_dctx s0)); cbn; lia.
Qed.

Lemma stage_storeSFrameSize_ok s m :
  inv K s m -> d_dStage (l_dctx s) = dstage_storeSFrameSize ->
  wp (stage_storeSFrameSize srcEnd s) (turn_post K s) m.
Proof.
  intros (p & c & r & o & Hb & Hst) Hs. unfold stage_ok in Hst. rewrite Hs in Hst.
  destruct Hst as (He & Hc & Hin & Htgt & Hm & Hh).
  pose proof Hb as ((Hown & Hskip) & _). pose proof Hown as (Eh & _).
  assert (zlen (drop 4 c) = zlen c - 4) as Ed by (unfold zlen in *; rewrite length_drop; lia).
  unfold stage_storeSFrameSize. apply wp_bind. rewrite Htgt.
  apply (wp_fillFrom p s m c r o ZHeader _ 4 (drop 4 c)); try done; try lia;
    [rewrite Eh; right; cbn; lia|].
  intros x r' m' -> Hf Hh' Hsz s' Hb'. subst s'. dsimp.
  assert (drop 4 c ++ x = drop 4 (c ++ x)) as E4.
  { rewrite drop_app_le; [done|]. unfold zlen in *. lia. }
  rewrite E4 in *. pose proof (zlen_app c x) as Ecx. pose proof (zlen_nonneg x).
  assert (zlen (drop 4 (c ++ x)) = zlen c + zlen x - 4) as El by (rewrite <- E4, zlen_app; lia).
  rewrite El in *. replace (4 + (zlen c + zlen x - 4)) with (zlen (c ++ x)) in * by lia.
  assert (skippable_magic (c ++ x)) as Hm' by (unfold skippable_magic; by rewrite le_of_prefix by lia).
  rewrite Htgt. destruct (Z.ltb_spec (zlen (c ++ x)) 8).
  - destruct Hsz as [Hsz|[-> _]]; [lia|].
      apply wp_ret, more_turn; [lia|eapply stop_read; [exact Hb'|dsimp; by rewrite Hs]|]. exists p, (c ++ x), [], o. split; [done|].
    unfold stage_ok. dsimp. rewrite Hs. splits; try done; lia.
  - eapply (decodeSFrameSize_ok s p _ _ (c ++ x) r' o); try done; dsimp; lia.
Qed.

Lemma stage_getSFrameSize_ok s m :
  inv K s m -> d_dStage (l_dctx s) = dstage_getSFrameSize ->
  wp (stage_getSFrameSize srcEnd s) (turn_post K s) m.
Proof.
  intros (p & c & r & o & Hb & Hst) Hs. unfold stage_ok in Hst. rewrite Hs in Hst.
  destruct Hst as (He & Hc & Hm). pose proof Hb as ((Hown & Hskip) & _).
  destruct (base_src _ _ _ _ _ _ Hb) as (Hr & Hsp & Hse & _ & _ & _ & _). unfold stage_getSFrameSize.
  replace (srcEnd - l_srcPtr s) with (zlen r) by lia.
  destruct (Z.leb_spec 4 (zlen r)) as [H4|H4].
  - destruct (list_split_at r 4) as (x & r' & -> & Hx); [lia|].
    assert (drop 4 (c ++ x) = x) as Ex.
    { replace 4%nat with (length c) by (unfold zlen in *; lia). apply drop_app_length. }
    eapply (decodeSFrameSize_ok s p _ _ (c ++ x) r' o).
    + eapply base_read; [exact Hb|done|done|dsimp; lia].
    + done.
    + rewrite zlen_app. lia.
    + unfold skippable_magic. by rewrite le_of_prefix by lia.
    + rewrite Ex. by apply holds_app in Hr as [? _].
    + dsimp. lia.
  - eapply wp_mono; [apply stage_storeSFrameSize_ok|].
    + exists p, c, r, o. split; [eapply base_ctx; [exact Hb|done..]|].
      unfold stage_ok. dsimp. splits; try done; try lia.
      rewrite drop_ge by (unfold zlen in *; lia). apply holds_nil.
    + done.
    + intros t m' Ht. eapply turn_weaken; [exact Ht|]. unfold meas. dsimp. rewrite Hs. cbn. lia.
Qed.

Lemma stage_skipSkippable_ok s m :
  inv K s m -> d_dStage (l_dctx s) = dstage_skipSkippable ->
  wp (stage_skipSkippable srcEnd s) (turn_post K s) m.
Proof.
  intros (p & c & r & o & Hb & Hst) Hs. unfold stage_ok in Hst. rewrite Hs in Hst.
  destruct Hst as (He & Hc & Hm & Htgt & Hsz). pose proof Hb as ((Hown & Hskip) & _).
  destruct (base_src _ _ _ _ _ _ Hb) as (Hr & Hsp & Hse & _ & Hok & _ & Eu). unfold stage_skipSkippable.
  rewrite Eu. pose proof (zlen_nonneg r).
  destruct (list_split_at r (Z.min (d_tmpInTarget (l_dctx s)) (zlen r))) as (x & r' & -> & Hx); [lia|].
  rewrite <- Hx. rewrite zlen_app in *. zlen_facts. dsimp.
  pose proof (le_of_range c 4 4 Hok ltac:(lia) ltac:(lia) ltac:(lia)) as Hle. change (256 ^ 4) with (2 ^ 32) in Hle.
  assert (skippable_magic (c ++ x)) as Hm' by (unfold skippable_magic; by rewrite le_of_prefix by lia).
  assert (le_of (c ++ x) 4 4 = le_of c 4 4) as E4 by (apply le_of_prefix; lia).
  apply wp_ret. destruct (Z.eqb_spec (d_tmpInTarget (l_dctx s) - zlen x) 0) as [E0|E0]; cbn [negb].
  - rewrite E0. split; [lia|]. cbn [Z.eqb]. exists p, (c ++ x), r', o. split.
    + eexists. split; [reflexivity|]. apply (base_read K p s m c x r' o); done.
    + right. rewrite E4, zlen_app. splits; try done; lia.
  - assert (r' = []) as -> by (apply zlen_0_nil; lia).
    apply more_turn; [lia|split; dsimp; [by rewrite Hs|left; change (zlen (@nil Z)) with 0 in *; lia]|]. exists p, (c ++ x), [], o.
    split; [eapply base_read; [exact Hb|done..]|]. unfold stage_ok. dsimp. rewrite Hs, E4, zlen_app.
    splits; try done; lia.
Qed.
End Stages.

(** What the bytes consumed of a good frame leave of it, for a decoder in the
    middle of the frame: the reason why an error is the fault of the input. *)

(** What is left, [Y], of a good frame with the content [y] behind the content
    [o], and of what follows the frame. *)
Definition remains (i : LZ4F_frameInfo_t) (dict o y t Y : list Z) : Prop :=
  exists bs2 y2, good_from i dict o bs2 y2 /\ y = o ++ y2 /\
    (contentSize i <> 0 -> contentSize i = u64 (zlen y)) /\ info_wf i /\
    Y = enc_blocks i bs2 ++ endmark ++ content_crc i y ++ t.

Lemma remains_of dict0 d p bs o pend c z f y t :
  bytes_ok c -> read_so_far dict0 d p bs o pend c -> good_frame dict0 f y -> c ++ z = f ++ t ->
  remains (d_frameInfo d) dict0 o y t (pend ++ z).
Proof.
  intros Hok (hdr & (Hp & _) & Hc & ->) (i & sized & dicted & bs' & Hi & Hpr & Hg & Hcs & ->) E.
  unfold frame_of in E. rewrite <- !app_assoc in E. apply bytes_ok_app in Hok as [Hok _].
  destruct (header_align _ _ _ _ _ _ _ Hok Hi Hpr Hp E) as (<- & E').
  destruct (align_blocks _ _ Hi _ _ _ _ _ _ _ Hc Hg E') as (bs2 & y2 & H1 & H2 & H3).
  exists bs2, y2. by splits.
Qed.

Section Left.
Context (i : LZ4F_frameInfo_t) (dict o y t : list Z).
Abbreviation B := (LZ4F_getBlockSize (blockSizeID i)).

(** After a block header: its block is good. *)
Lemma remains_block raw n Y :
  0 <= n <= B -> 0 < n \/ raw = true -> remains i dict o y t (block_header raw n ++ Y) ->
  exists b x Y', fb_raw b = raw /\ zlen (fb_data b) = n /\ Y = fb_data b ++ block_crc i b ++ Y' /\
    block_good (history i dict o) b x /\ zlen x <= B /\ remains i dict (o ++ x) y t Y'.
Proof.
  intros Hn Hz (bs2 & y2 & Hg & -> & Hcs & Hi & E). pose proof (block_small i Hi n) as Hsm.
  destruct (next_block i dict o bs2 y2 _ _ _ Hg (zlen_block_header _ _) E) as [(_ & _ & Eh & _)|
    (b & x & bs3 & y3 & -> & -> & Hgb & Hd & Hx & Hg3 & Eh & ->)].
  - apply block_header_endmark in Eh as [-> ->]; [|lia]. destruct Hz; [lia|done].
  - pose proof (block_small i Hi (zlen (fb_data b))).
    apply block_header_inj in Eh as [Er Ez]; [|lia..]. exists b, x. eexists.
    splits; try done. exists bs3, y3. rewrite app_assoc in *. by splits.
Qed.

(** After the data of a block: the data are good, and their checksum follows. *)
Lemma remains_data raw data z :
  zlen data <= B -> 0 < zlen data \/ raw = true ->
  remains i dict o y t (block_header raw (zlen data) ++ data ++ z) ->
  exists x Y, block_good (history i dict o) (FBlock raw data (xxh32 0 data)) x /\ zlen x <= B /\
    z = block_crc i (FBlock raw data (xxh32 0 data)) ++ Y /\ remains i dict (o ++ x) y t Y.
Proof.
  intros Hd Hz Hr. pose proof (zlen_nonneg data).
  destruct (remains_block raw (zlen data) _ ltac:(lia) Hz Hr) as (b & x & Y & <- & En & E & Hb & Hx & Hr').
  apply app_inj_1 in E as [Ed Ez]; [|unfold zlen in En; lia].
  assert (b = FBlock (fb_raw b) data (xxh32 0 data)) as Eb.
  { destruct Hb as (_ & Ec & _). rewrite <- Ed in Ec. rewrite <- Ec, Ed. by destruct b. }
  exists x, Y. rewrite <- Eb. by splits.
Qed.

(** A block header is the end mark, or it announces a size that fits. *)
Lemma remains_header q Y :
  zlen q = 4 -> remains i dict o y t (q ++ Y) ->
  q = endmark \/ exists raw n, q = block_header raw n /\ 0 <= n <= B /\ n < 2 ^ 31.
Proof.
  intros Hq (bs2 & y2 & Hg & -> & Hcs & Hi & E).
  destruct (next_block i dict o bs2 y2 _ _ _ Hg Hq E) as [(_ & _ & Eh & _)|
    (b & x & bs3 & y3 & -> & -> & Hgb & Hd & Hx & Hg3 & Eh & _)]; [by left|right].
  exists (fb_raw b), (zlen (fb_data b)). splits; try done; try lia. apply (block_small i Hi). lia.
Qed.

(** Good blocks are not empty. *)
Lemma good_nonempty h b x : block_good h b x -> 0 < zlen (fb_data b) /\ 0 < zlen x.
Proof.
  intros (Hx & _ & Hb). apply zlen_pos in Hx. split; [|done]. destruct (fb_raw b); [by rewrite Hb|].
  destruct Hb as (blk & -> & _). apply zlen_pos, enc_block_nonempty.
Qed.

(** After the end mark the content is complete. *)
Lemma remains_end Y :
  remains i dict o y t (endmark ++ Y) ->
  y = o /\ Y = content_crc i y ++ t /\ (contentSize i <> 0 -> contentSize i = u64 (zlen y)).
Proof.
  intros (bs2 & y2 & Hg & -> & Hcs & Hi & E).
  destruct (next_block i dict o bs2 y2 endmark _ _ Hg eq_refl E) as [(-> & -> & _ & ->)|
    (b & x & bs3 & y3 & -> & -> & Hgb & Hd & Hx & Hg3 & Eh & _)]; [by rewrite app_nil_r in *|].
  symmetry in Eh. apply block_header_endmark in Eh as [_ Ez]; [|pose proof (block_small i Hi (zlen (fb_data b))); lia].
  apply good_nonempty in Hgb. lia.
Qed.

(** At least the end mark is left. *)
Lemma remains_long Y : remains i dict o y t Y -> 4 <= zlen Y /\ zlen o <= zlen y.
Proof.
  intros (bs2 & y2 & _ & -> & _ & _ & ->). rewrite !zlen_app. change (zlen endmark) with 4.
  pose proof (zlen_nonneg (enc_blocks i bs2)). pose proof (zlen_nonneg (content_crc i (o ++ y2))).
  zlen_facts. pose proof (zlen_nonneg y2). pose proof (zlen_nonneg t). lia.
Qed.
End Left.

(** The decoder is in the middle of a frame, and no good frame can be left. *)
Lemma hopeless_by `{HA : Allocator} K (HK : call_ok K) p s m c r o bs o' pend d :
  base K p s m c r o -> read_so_far (k_dict K) d p bs o' pend c ->
  (forall y t ext, ~ remains (d_frameInfo d) (k_dict K) o' y t (pend ++ r ++ ext)) ->
  hopeless (k_dict K) (k_read K ++ k_srcl K).
Proof.
  intros Hb Hrd Hno ext f y t Hg E. destruct (base_src K HK _ _ _ _ _ _ Hb) as (_ & _ & _ & _ & Hok & _).
  pose proof Hb as (_ & _ & _ & (_ & _ & _ & _ & Ec) & _). rewrite <- Ec, <- app_assoc in E.
  apply (Hno y t ext). by eapply remains_of.
Qed.

Section Blame.
Context `{HA : Allocator} (K : call) (HK : call_ok K).
Context (p : priv) (s : dloop) (m : mem) (c r o : list Z) (bs : list fblock) (o' : list Z) (d : LZ4F_dctx).
Context (raw : bool) (data q : list Z).
Context (Hb : base K p s m c r o).
Context (Hrd : read_so_far (k_dict K) d p bs o' (block_header raw (zlen data) ++ data ++ q) c).
Context (Hd : zlen data <= d_maxBlockSize d) (Hne : 0 < zlen data \/ raw = true).

Lemma blame_block :
  (forall x, block_good (history (d_frameInfo d) (k_dict K) o') (FBlock raw data (xxh32 0 data)) x ->
     zlen x <= d_maxBlockSize d ->
     q <> block_crc (d_frameInfo d) (FBlock raw data (xxh32 0 data))) ->
  zlen q = (if d_blockCrc d then 4 else 0) ->
  hopeless (k_dict K) (k_read K ++ k_srcl K).
Proof.
  intros Hno Hq. eapply hopeless_by; [done..|]. intros y t ext Hrm. rewrite <- !app_assoc in Hrm.
  destruct Hrd as (hdr & (_ & Em & _) & _). rewrite Em in *.
  destruct (remains_data _ _ _ _ _ _ _ _ Hd Hne Hrm) as (x & Y & Hg & Hx & E & _).
  apply (Hno x Hg Hx). apply app_inj_1 in E as [E _]; [done|].
  unfold block_crc, d_blockCrc, zlen in *. destruct (_ =? 0); cbn [negb] in Hq; [cbn; lia|].
  rewrite length_le_bytes. lia.
Qed.

(** The checksum of the block is wrong. *)
Lemma blame_crc :
  d_blockCrc d = true -> zlen q = 4 -> le_val q <> xxh32 0 data -> hopeless (k_dict K) (k_read K ++ k_srcl K).
Proof.
  intros Hc Hq Hv. apply blame_block; [|by rewrite Hc]. intros x _ _ E. apply Hv.
  unfold block_crc, d_blockCrc in *. destruct (_ =? 0); [done|]. rewrite E. apply le_val_xxh32.
Qed.

(** No block of the format has these data. *)
Lemma blame_data :
  raw = false -> zlen q = (if d_blockCrc d then 4 else 0) ->
  (forall b x, conforming b -> data = enc_block b ->
     expand (history (d_frameInfo d) (k_dict K) o') b = Some x -> d_maxBlockSize d < zlen x) ->
  hopeless (k_dict K) (k_read K ++ k_srcl K).
Proof.
  intros Hr Hq Hno. apply blame_block; [|done]. intros x (_ & _ & Hg) Hx _. cbn [fb_raw fb_data] in Hg. rewrite Hr in Hg.
  destruct Hg as (b & E & Hc & He). specialize (Hno b x Hc E He). lia.
Qed.
End Blame.
