(* ===== verification/Lz4FrameBlockStages.v ===== *)
(** The stages of [LZ4F_decompress] that read block headers, stored blocks and
    the end of a frame. *)
From S2P Require Import Prelude.
From S2P Require Import Mem.
From S2P Require Import Xxhash.
From S2P Require Import XxhashSpec.
From S2P Require Import XxhashStream.
From S2P Require Import BlockFormat.
From S2P Require Import Lz4Common.
From S2P Require Import Lz4Decompress.
From S2P Require Import Lz4Frame.
From S2P Require Import Lz4FrameDecode.
From S2P Require Import FrameFormat.
From S2P Require Import Lz4FrameHeader.
From S2P Require Import Lz4FrameInv.
From S2P Require Import Lz4FrameDict.
From S2P Require Import FrameParse.
From S2P Require Import Lz4FrameCall.
From S2P Require Import Lz4FrameStages.

(** * Block headers as numbers *)

Lemma land_low31 v : 0 <= v -> Z.land v 0x7FFFFFFF = v mod 2 ^ 31.
Proof. intros Hv. change 0x7FFFFFFF with (Z.ones 31). apply Z.land_ones. lia. Qed.

Lemma land_top v : 0 <= v < 2 ^ 32 -> (Z.land v LZ4F_BLOCKUNCOMPRESSED_FLAG =? 0) = (v <? 2 ^ 31).
Proof.
  intros Hv. change LZ4F_BLOCKUNCOMPRESSED_FLAG with (Z.shiftl 1 31).
  assert (Z.land v (Z.shiftl 1 31) = Z.shiftl (Z.land (Z.shiftr v 31) 1) 31) as ->.
  { apply Z.bits_inj'. intros j Hj. rewrite Z.land_spec, !Z.shiftl_spec by lia.
    destruct (Z.lt_ge_cases j 31); [by rewrite !(Z.testbit_neg_r _ (j - 31)), andb_false_r by lia|].
    rewrite Z.land_spec, Z.shiftr_spec by lia. by replace (j - 31 + 31) with j by lia. }
  change 1 with (Z.ones 1) at 1. rewrite Z.land_ones, Z.shiftr_div_pow2, Z.shiftl_mul_pow2 by lia.
  destruct (Z.ltb_spec v (2 ^ 31)).
  - by rewrite Z.div_small by lia.
  - replace (v / 2 ^ 31) with 1 by (apply Z.div_unique with (v - 2 ^ 31); lia). done.
Qed.

(** A block header read back. *)
Lemma block_header_val q :
  bytes_ok q -> zlen q = 4 -> q = block_header (2 ^ 31 <=? le_val q) (le_val q mod 2 ^ 31).
Proof.
  intros Hq Hl. unfold block_header. rewrite <- (le_bytes_val q) at 1 by done.
  replace (length q) with 4%nat by (unfold zlen in Hl; lia). f_equal.
  pose proof (le_val_range q Hq) as Hr. rewrite Hl in Hr. change (256 ^ 4) with (2 ^ 32) in Hr.
  destruct (Z.leb_spec (2 ^ 31) (le_val q)).
  - rewrite <- (Zmod_unique (le_val q) (2 ^ 31) 1 (le_val q - 2 ^ 31)); lia.
  - rewrite Z.mod_small; lia.
Qed.

Lemma parse_frame_wf l i n : bytes_ok l -> parse_header l = HFrame i n -> info_wf i.
Proof. intros Hok H. by destruct (parse_header_inv l i n Hok H) as (? & ? & ? & _). Qed.

Lemma read_more dict0 d p bs o q c x :
  read_so_far dict0 d p bs o q c -> read_so_far dict0 d p bs o (q ++ x) (c ++ x).
Proof.
  intros (hdr & Hf & Hc & ->). exists hdr. split; [done|]. split; [done|]. by rewrite <- !app_assoc.
Qed.

(** What the header of a frame in progress guarantees. *)
Lemma read_facts dict0 d p bs o q c :
  bytes_ok c -> read_so_far dict0 d p bs o q c ->
  info_wf (d_frameInfo d) /\ 64 * KB <= d_maxBlockSize d <= 4 * MB /\
  d_maxBlockSize d + 4 <= p_inCap p /\
  d_maxBlockSize d + (if d_linked d then 128 * KB else 0) <= d_maxBufferSize d /\
  (d_linked d = false -> d_tmpOut d = p_tmpOut p) /\ bytes_ok q.
Proof.
  intros Hok (hdr & (Hp & Hm & H1 & H2 & H3) & _ & ->).
  apply bytes_ok_app in Hok as [Hh [_ Hq]%bytes_ok_app].
  pose proof (parse_frame_wf _ _ _ Hh Hp) as Hi. split; [done|]. split; [|done].
  rewrite Hm. destruct Hi as (Hb & _).
  assert (blockSizeID (d_frameInfo d) = 4 \/ blockSizeID (d_frameInfo d) = 5 \/
    blockSizeID (d_frameInfo d) = 6 \/ blockSizeID (d_frameInfo d) = 7) as [-> | [-> | [-> | ->]]] by lia;
    vm_compute; split; discriminate.
Qed.

Lemma crc_flag d : info_wf (d_frameInfo d) ->
  u64 (blockChecksumFlag (d_frameInfo d) * BFSize) = (if d_blockCrc d then 4 else 0).
Proof.
  intros (_ & _ & _ & _ & _ & _ & Hb). unfold d_blockCrc, BFSize.
  assert (blockChecksumFlag (d_frameInfo d) = 0 \/ blockChecksumFlag (d_frameInfo d) = 1) as [-> | ->] by lia;
    reflexivity.
Qed.

Section BlockStages.
Context `{HA : Allocator} (K : call) (HK : call_ok K).
Abbreviation srcEnd := (k_src K + zlen (k_srcl K)).
Abbreviation dstEnd := (k_dst K + k_dstSize K).
Abbreviation zf p s := (zframe p (l_dstPtr s) (room K (l_dstPtr s))).
Abbreviation rm s := (room K (l_dstPtr s)).

Lemma rank_nonneg s : 0 <= rank s <= 2.
Proof. destruct s; cbn; lia. Qed.

(** The turn consumed input. *)
Lemma meas_read s0 s : l_srcPtr s0 < l_srcPtr s -> meas K s < meas K s0.
Proof.
  intros Hlt. unfold meas. pose proof (rank_nonneg (d_dStage (l_dctx s))).
  pose proof (rank_nonneg (d_dStage (l_dctx s0))). lia.
Qed.

(** * Block headers *)

Lemma large_hopeless p s m c r o bs e q :
  base K p s m c r o -> read_so_far (k_dict K) (l_dctx s) p bs e q c -> zlen q = 4 ->
  d_maxBlockSize (l_dctx s) < le_val q mod 2 ^ 31 -> hopeless (k_dict K) (k_read K ++ k_srcl K).
Proof.
  intros Hb Hrd Hq Hbig. destruct (base_src _ HK _ _ _ _ _ _ Hb) as (_ & _ & _ & _ & Hok & _ & _).
  destruct (read_facts _ _ _ _ _ _ _ Hok Hrd) as (_ & Hblk & _ & _ & _ & Hqok). unfold KB in Hblk.
  eapply hopeless_by; [done..|]. intros y t ext Hrem. destruct Hrd as (hdr & (_ & Em & _) & _).
  pose proof (Z.mod_pos_bound (le_val q) (2 ^ 31) ltac:(lia)) as Hm. pose proof (block_header_val q Hqok Hq) as Eq.
  destruct (remains_header _ _ _ _ _ _ _ Hq Hrem) as [E|(raw & n & E & Hn & Hn31)].
  - rewrite E in Hbig. change (le_val endmark mod 2 ^ 31) with 0 in Hbig. lia.
  - rewrite E in Eq at 1. apply block_header_inj in Eq as [_ En]; lia.
Qed.

Lemma decodeBlockHeader_ok s0 p s m c r o bs q selectedIn :
  base K p s m c r o -> read_so_far (k_dict K) (l_dctx s) p bs (k_done K ++ o) q c ->
  counted (l_dctx s) m (k_done K ++ o) ->
  block_hist (k_dict K) (l_dctx s) p m (l_dstPtr s) (rm s) (k_done K ++ o) ->
  zlen q = 4 -> holds m selectedIn q -> l_srcPtr s0 < l_srcPtr s ->
  wp (decodeBlockHeader srcEnd dstEnd selectedIn s) (turn_post K s0) m.
Proof.
  intros Hb Hrd Hcnt Hh Hq Hsel Hlt. pose proof Hb as ((Hown & Hskip) & Hpriv & Hz & _).
  destruct (base_src _ HK _ _ _ _ _ _ Hb) as (_ & _ & _ & _ & Hok & _ & _).
  destruct (read_facts _ _ _ _ _ _ _ Hok Hrd) as (Hi & Hblk & _ & _ & _ & Hqok).
  pose proof (block_header_val q Hqok Hq) as Eq. pose proof (le_val_range q Hqok) as Hv.
  rewrite Hq in Hv. change (256 ^ 4) with (2 ^ 32) in Hv. set (v := le_val q) in *.
  unfold decodeBlockHeader. apply wp_bind.
  eapply (wp_readLE32_list _ q []); [by rewrite app_nil_r|done|unfold zlen in Hq; lia|]. fold v.
  rewrite land_low31, land_top, crc_flag by (done || lia). unfold MB, KB in Hblk.
  destruct (Z.eqb_spec v 0) as [E0|E0].
  { apply wp_ret. eapply (again_turn K s0 p _ _ c r o); [by eapply base_ctx| |by apply meas_read].
    exists bs. split; [|done]. rewrite E0 in Eq. change (block_header _ _) with endmark in Eq. by rewrite <- Eq. }
  destruct (Z.ltb_spec (d_maxBlockSize (l_dctx s)) (v mod 2 ^ 31)) as [Hbig|Hbig].
  { apply wp_ret. eapply fail_turn; [done..|right]. by eapply large_hopeless. }
  pose proof (Z.mod_pos_bound v (2 ^ 31) ltac:(lia)) as Hn.
  destruct (Z.ltb_spec v (2 ^ 31)) as [Hc|Hc]; cbn [negb].
  - rewrite (proj2 (Z.leb_gt _ _)) in Eq by lia. rewrite Z.mod_small in * by lia.
    assert (inv K (DLoop (set_dStage dstage_getCBlock
      (set_tmpInTarget (v + (if d_blockCrc (l_dctx s) then 4 else 0)) (l_dctx s)))
      (l_srcPtr s) (l_dstPtr s)) m) as Hinv.
    { exists p, c, r, o. split; [by eapply base_ctx|]. exists bs, v. rewrite <- Eq.
      split; [done|]. split; [done|]. split; [done|]. split; [dsimp; lia|done]. }
    destruct (_ || _) eqn:Ee; apply wp_ret; [|split; [done|by apply meas_read]].
    apply orb_true_iff in Ee. rewrite !Z.eqb_eq in Ee.
    apply more_turn; [|split; [done|unfold needs_room; dsimp; tauto]|done]. unfold BHSize. destruct (d_blockCrc _); lia.
  - rewrite (proj2 (Z.leb_le _ _)) in Eq by lia. set (n := v mod 2 ^ 31) in *. apply wp_bind.
    set (d1 := set_tmpInTarget n (l_dctx s)).
    assert (forall d2 m2, base K p (DLoop d2 (l_srcPtr s) (l_dstPtr s)) m2 c r o ->
      (exists b, d2 = set_blockChecksum b d1) -> counted d2 m2 (k_done K ++ o) ->
      block_hist (k_dict K) d2 p m2 (l_dstPtr s) (rm s) (k_done K ++ o) ->
      (d_blockCrc d2 = true -> d_skipChecksum d2 = 0 -> XXH32_rep 0 m2 (d_blockChecksum d2) []) ->
      wp (mret (Again (DLoop (set_dStage dstage_copyDirect d2) (l_srcPtr s) (l_dstPtr s))))
        (turn_post K s0) m2) as Hgo.
    { intros d2 m2 Hb2 (b & ->) Hc2 Hh2 Hx2. apply wp_ret.
      eapply (again_turn K s0 p _ _ c r o); [eapply base_ctx; [exact Hb2|apply Hb2..|done|done]| |by apply meas_read].
      exists bs, (k_done K ++ o), []. rewrite !app_nil_r. unfold d1. dsimp. change (zlen (@nil Z)) with 0.
      rewrite Z.add_0_l, <- Eq. splits; try done; lia. }
    destruct (d_blockCrc d1) eqn:Ebc.
    + unfold d1 in *. apply wp_bind. apply wp_XXH32_reset; [destruct Hown as (_ & _ & E & _); dsimp; rewrite E; apply Hpriv|].
      intros m2 Hf st Hrep. apply wp_ret. dsimp.
      assert (zf p s ZBc m m2) as Hf2.
      { unfold zframe. destruct Hown as (_ & _ & E & _). cbn. by rewrite <- E. }
      apply Hgo.
      * eapply base_ctx; [by eapply base_write|..]; try done.
      * by eexists.
      * by eapply (counted_kept _ _ _ _ _ _ Hf2).
      * by eapply (hist_kept _ _ _ _ _ _ Hf2).
      * done.
    + apply wp_ret. apply Hgo; [by eapply base_ctx| |done|done|].
      * exists (d_blockChecksum d1). by destruct (l_dctx s).
      * intros E. rewrite E in Ebc. done.
Qed.
Lemma stage_storeBlockHeader_ok s m :
  inv K s m -> d_dStage (l_dctx s) = dstage_storeBlockHeader ->
  wp (stage_storeBlockHeader srcEnd dstEnd s) (turn_post K s) m.
Proof.
  intros (p & c & r & o & Hb & Hst) Hs. unfold stage_ok in Hst. rewrite Hs in Hst.
  destruct Hst as (bs & q & Hrd & Hcnt & Hh & Hin & Hlt & Hq).
  pose proof Hb as ((Hown & Hskip) & Hpriv & Hz & _). pose proof Hown as (_ & _ & _ & Et & _).
  destruct (base_src _ HK _ _ _ _ _ _ Hb) as (_ & _ & _ & _ & Hok & _ & _).
  destruct (read_facts _ _ _ _ _ _ _ Hok Hrd) as (_ & Hblk & Hcap & _).
  pose proof (zlen_nonneg q). unfold stage_storeBlockHeader, BHSize. apply wp_bind.
  apply (wp_fillFrom K HK p s m c r o ZIn _ 0 q); try done; try lia;
    [by rewrite Z.add_0_r|rewrite Et; right; cbn; unfold KB in *; lia|].
  intros x r' m' -> Hf Hh' Hsz s' Hb'. rewrite Z.add_0_r in Hh'. subst s'. rewrite !Z.add_0_l in *. dsimp.
  pose proof (zlen_app q x) as Eqx. pose proof (zlen_nonneg x).
  pose proof (read_more _ _ _ _ _ _ _ x Hrd) as Hrd'.
  pose proof (counted_kept _ _ _ _ _ _ Hf Hz _ _ Hown ltac:(done) Hcnt) as Hcnt'.
  pose proof (hist_kept _ _ _ _ _ _ Hf Hz _ _ Hown ltac:(done) Hh) as Hhist'.
  destruct (Z.ltb_spec (zlen (q ++ x)) 4).
  - destruct Hsz as [Hsz|[-> _]]; [lia|].
      apply wp_ret, more_turn; [lia|eapply stop_read; [exact Hb'|dsimp; by rewrite Hs]|]. exists p, (c ++ x), [], o. split; [done|].
    unfold stage_ok. dsimp. rewrite Hs. by exists bs, (q ++ x).
  - eapply (decodeBlockHeader_ok s p _ _ (c ++ x) r' o bs (q ++ x)); try done; dsimp; lia.
Qed.

Lemma stage_getBlockHeader_ok s0 s m :
  inv K s m -> d_dStage (l_dctx s) = dstage_getBlockHeader -> meas K s <= meas K s0 ->
  l_srcPtr s0 = l_srcPtr s ->
  wp (stage_getBlockHeader srcEnd dstEnd s) (turn_post K s0) m.
Proof.
  intros (p & c & r & o & Hb & Hst) Hs Hmeas Hsp0. unfold stage_ok in Hst. rewrite Hs in Hst.
  destruct Hst as (bs & Hrd & Hcnt & Hh). pose proof Hb as ((Hown & Hskip) & _).
  destruct (base_src _ HK _ _ _ _ _ _ Hb) as (Hr & _ & Hse & _ & Hok & _ & Eu).
  unfold stage_getBlockHeader, BHSize. rewrite Eu. destruct (Z.leb_spec 4 (zlen r)).
  - destruct (list_split_at r 4) as (x & r' & -> & Hx); [lia|].
    eapply (decodeBlockHeader_ok s0 p _ _ (c ++ x) r' o bs x); dsimp; try done; [..|lia].
    + eapply (base_read K p s m c x r' o); done || lia.
    + exact (read_more _ _ _ _ _ _ _ x Hrd).
    + by apply holds_app in Hr as [? _].
  - eapply wp_mono; [apply stage_storeBlockHeader_ok; [|done]|].
    + exists p, c, r, o. split; [by eapply base_ctx|]. exists bs, [].
      splits; try done. apply holds_nil.
    + intros t m' Ht. eapply turn_weaken; [exact Ht|]. unfold meas in *. dsimp. rewrite Hs in Hmeas. cbn in *. lia.
Qed.

(** * The end of a frame *)

(** A content checksum [suf] was read and accepted. *)
Lemma complete_frame d p bs e suf c :
  bytes_ok c -> read_so_far (k_dict K) d p bs e (endmark ++ suf) c -> d_skipChecksum d = k_skip K ->
  d_frameRemainingSize d = 0 ->
  d_frameRemainingSize d =
    (if contentSize (d_frameInfo d) =? 0 then 0 else u64 (contentSize (d_frameInfo d) - zlen e)) ->
  zlen suf = (if d_contentCrc d then 4 else 0) ->
  (k_skip K = 0 -> d_contentCrc d = true -> suf = le_bytes 4 (xxh32 0 e)) ->
  frame_done (k_dict K) (k_skip K =? 0) c e.
Proof.
  intros Hok Hrd Hsk Hrem Hcnt Hsuf Hcrc. destruct Hrd as (hdr & (Hp & _) & Hc & ->).
  apply bytes_ok_app in Hok as [Hh _].
  destruct (parse_header_inv _ _ _ Hh Hp) as (sized & dicted & Hi & Hpr & El & _ & E).
  left. exists (d_frameInfo d), sized, dicted, bs, suf. unfold verify in Hc. rewrite Hsk in Hc.
  unfold d_contentCrc in *. splits; try done.
  - f_equal. rewrite drop_ge in E by (unfold zlen; lia). by rewrite app_nil_r in E.
  - rewrite Hsuf. by destruct (contentChecksumFlag (d_frameInfo d) =? 0).
  - intros Hs%Z.eqb_eq. unfold content_crc.
    destruct (contentChecksumFlag (d_frameInfo d) =? 0); [by apply zlen_0_nil; rewrite Hsuf|].
    by apply Hcrc.
  - intros Hne. apply Z.eqb_neq in Hne as Hne'. rewrite Hne', Hrem in Hcnt.
    destruct Hi as (_ & _ & _ & _ & Hcs & _). pose proof (zlen_nonneg e). unfold u64 in *.
    symmetry in Hcnt. apply Z.mod_divide in Hcnt as [k Hk]; [|lia].
    replace (zlen e) with (contentSize (d_frameInfo d) + (- k) * 2 ^ 64) by lia.
    rewrite Z.mod_add, Z.mod_small by lia. done.
Qed.

Lemma checkSuffix_ok s0 p s m c r o bs suf selectedIn :
  base K p s m c r o ->
  read_so_far (k_dict K) (l_dctx s) p bs (k_done K ++ o) (endmark ++ suf) c ->
  counted (l_dctx s) m (k_done K ++ o) -> d_frameRemainingSize (l_dctx s) = 0 ->
  d_contentCrc (l_dctx s) = true -> zlen suf = 4 -> holds m selectedIn suf ->
  wp (checkSuffix selectedIn s) (turn_post K s0) m.
Proof.
  intros Hb Hrd [Hx Hcnt] Hrem Hcc Hsuf Hsel. pose proof Hb as ((Hown & Hskip) & _).
  destruct (base_src _ HK _ _ _ _ _ _ Hb) as (_ & _ & _ & _ & Hok & _ & _).
  destruct (read_facts _ _ _ _ _ _ _ Hok Hrd) as (_ & _ & _ & _ & _ & [_ Hsok]%bytes_ok_app).
  unfold checkSuffix. apply wp_bind.
  apply (wp_mono _ (fun ok m' => m' = m /\
    (ok = true -> k_skip K = 0 -> suf = le_bytes 4 (xxh32 0 (k_done K ++ o))) /\
    (ok = false -> suf <> le_bytes 4 (xxh32 0 (k_done K ++ o))))).
  - destruct (Z.eqb_spec (d_skipChecksum (l_dctx s)) 0) as [E|E]; [|apply wp_ret; splits; done || congruence].
    apply wp_bind. eapply (wp_readLE32_list _ suf []); [by rewrite app_nil_r|done|unfold zlen in Hsuf; lia|].
    apply wp_bind. eapply wp_XXH32_digest; [by apply Hx|]. apply wp_ret. split; [done|]. split.
    + intros <-%Z.eqb_eq _. rewrite <- (le_bytes_val suf) at 1 by done. f_equal. unfold zlen in Hsuf. lia.
    + intros Hne%Z.eqb_neq ->. apply Hne. apply le_val_xxh32.
  - intros ok m' (-> & Hcrc & Hbad). destruct ok; cbn [negb]; apply wp_ret.
    + split; [lia|]. cbn [Z.eqb]. exists p, c, r, o. split; [by exists (l_dctx s); split; [|by eapply base_ctx]|].
      eapply complete_frame; try done; [by rewrite Hcc|]. intros Hk _. by apply Hcrc.
    + eapply fail_turn; [done..|right]. eapply hopeless_by; [done..|]. intros y t ext Hrm.
      rewrite <- app_assoc in Hrm. apply remains_end in Hrm as (-> & E & _). unfold content_crc, d_contentCrc in *.
      destruct (_ =? 0); [done|]. apply app_inj_1 in E as [E _]; [by apply Hbad|].
      rewrite length_le_bytes. unfold zlen in Hsuf. lia.
Qed.

Lemma stage_storeSuffix_ok s m :
  inv K s m -> d_dStage (l_dctx s) = dstage_storeSuffix ->
  wp (stage_storeSuffix srcEnd s) (turn_post K s) m.
Proof.
  intros (p & c & r & o & Hb & Hst) Hs. unfold stage_ok in Hst. rewrite Hs in Hst.
  destruct Hst as (bs & q & Hrd & Hcnt & Hrem & Hcc & Hin & Hlt & Hq).
  pose proof Hb as ((Hown & Hskip) & Hpriv & Hz & _). pose proof Hown as (_ & _ & _ & Et & _).
  destruct (base_src _ HK _ _ _ _ _ _ Hb) as (_ & _ & _ & _ & Hok & _ & _).
  destruct (read_facts _ _ _ _ _ _ _ Hok Hrd) as (_ & Hblk & Hcap & _).
  pose proof (zlen_nonneg q). unfold stage_storeSuffix. apply wp_bind.
  apply (wp_fillFrom K HK p s m c r o ZIn _ 0 q); try done; try lia;
    [by rewrite Z.add_0_r|rewrite Et; right; cbn; unfold KB in *; lia|].
  intros x r' m' -> Hf Hh' Hsz s' Hb'. rewrite Z.add_0_r in Hh'. subst s'. rewrite !Z.add_0_l in *. dsimp.
  pose proof (read_more _ _ _ _ _ _ _ x Hrd) as Hrd'. rewrite <- app_assoc in Hrd'.
  pose proof (counted_kept _ _ _ _ _ _ Hf Hz _ _ Hown ltac:(done) Hcnt) as Hcnt'.
  pose proof (zlen_app q x) as Eqx. pose proof (zlen_nonneg x). destruct (Z.ltb_spec (zlen (q ++ x)) 4).
  - destruct Hsz as [Hsz|[-> _]]; [lia|].
      apply wp_ret, more_turn; [lia|eapply stop_read; [exact Hb'|dsimp; by rewrite Hs]|]. exists p, (c ++ x), [], o. split; [done|].
    unfold stage_ok. dsimp. rewrite Hs. by exists bs, (q ++ x).
  - eapply (checkSuffix_ok s p _ _ (c ++ x) r' o bs (q ++ x)); try done. lia.
Qed.

Lemma stage_getSuffix_ok s m :
  inv K s m -> d_dStage (l_dctx s) = dstage_getSuffix ->
  wp (stage_getSuffix srcEnd s) (turn_post K s) m.
Proof.
  intros (p & c & r & o & Hb & Hst) Hs. unfold stage_ok in Hst. rewrite Hs in Hst.
  destruct Hst as (bs & Hrd & Hcnt). pose proof Hb as ((Hown & Hskip) & _).
  destruct (base_src _ HK _ _ _ _ _ _ Hb) as (Hr & _ & Hse & _ & Hok & _ & _). unfold stage_getSuffix.
  destruct (Z.eqb_spec (d_frameRemainingSize (l_dctx s)) 0) as [Hrem|Hrem]; cbn [negb].
  2: { apply wp_ret. eapply fail_turn; [done..|right]. eapply hopeless_by; [done..|]. intros y t ext Hrm.
       apply remains_end in Hrm as (-> & _ & Hcs). apply Hrem. rewrite (proj2 Hcnt).
       destruct (Z.eqb_spec (contentSize (d_frameInfo (l_dctx s))) 0) as [|Hne]; [done|].
       rewrite (Hcs Hne). unfold u64. by rewrite Zminus_mod_idemp_l, Z.sub_diag. }
  destruct (d_contentCrc (l_dctx s)) eqn:Hcc; cbn [negb].
  2: { apply wp_ret. split; [lia|]. cbn [Z.eqb]. exists p, c, r, o.
       split; [by exists (l_dctx s); split; [|by eapply base_ctx]|].
       eapply (complete_frame _ _ bs _ []); try done; [apply Hcnt|by rewrite Hcc|congruence]. }
  replace (srcEnd - l_srcPtr s) with (zlen r) by lia. destruct (Z.ltb_spec (zlen r) 4).
  - eapply wp_mono; [apply stage_storeSuffix_ok; [|done]|].
    + exists p, c, r, o. split; [by eapply base_ctx|]. exists bs, [].
      splits; try done. apply holds_nil.
    + intros t m' Ht. eapply turn_weaken; [exact Ht|]. unfold meas. dsimp. rewrite Hs. cbn. lia.
  - destruct (list_split_at r 4) as (x & r' & -> & Hx); [lia|].
    eapply (checkSuffix_ok s p _ _ (c ++ x) r' o bs x); dsimp; try done.
    + eapply (base_read K p s m c x r' o); done || lia.
    + exact (read_more _ _ _ _ _ _ _ x Hrd).
    + by apply holds_app in Hr as [? _].
Qed.
End BlockStages.
