(* ===== verification/Lz4FrameCopy.v ===== *)
(** The stages of [LZ4F_decompress] that handle stored blocks and that hand out
    decoded bytes, and the hashes and counters of the content. *)
From S2P Require Import Prelude.
From S2P Require Import Mem.
From S2P Require Import Xxhash.
From S2P Require Import XxhashSpec.
From S2P Require Import XxhashStream.
From S2P Require Import BlockFormat.
From S2P Require Import Lz4Common.
From S2P Require Import Lz4Decompress.
From S2P Require Import Lz4DecodeSpec.
From S2P Require Import Lz4Frame.
From S2P Require Import Lz4FrameDecode.
From S2P Require Import FrameFormat.
From S2P Require Import Lz4FrameHeader.
From S2P Require Import FrameParse.
From S2P Require Import Lz4FrameInv.
From S2P Require Import Lz4FrameDict.
From S2P Require Import Lz4FrameCall.
From S2P Require Import Lz4FrameStages.
From S2P Require Import Lz4FrameBlockStages.

(** * Hashing *)

Lemma wp_update_nil m st l a Q :
  XXH32_rep 0 m st l -> a <> 0 ->
  (forall st', mem32 st' = mem32 st -> XXH32_rep 0 m st' l -> Q (XXH_OK, st') m) ->
  wp (XXH32_update st a 0) Q m.
Proof.
  intros (Hb & Ht & Hg) Ha HQ. pose proof Hb as (Hm & ss & t & (_ & _ & Hs) & _ & En & _).
  assert (0 <= memsize_32 st < 16) as Hn by (rewrite En; unfold zlen; lia).
  change (XXH32_update st a 0) with (XXH32_update_endian st a 0 XXH_littleEndian).
  unfold XXH32_update_endian. rewrite (proj2 (Z.eqb_neq a 0)) by done. apply wp_bind.
  unfold absorb. rewrite (Z.add_0_r (memsize_32 st)), u64_small, (proj2 (Z.ltb_lt (memsize_32 st) _)) by lia.
  apply wp_bind.
  unfold XXH_memcpy.
  apply (wp_memcpy_apart _ _ []); [apply holds_nil|intros i Hi; exfalso; change (zlen (@nil Z)) with 0 in Hi; lia|by left|].
  intros m' Hf _. assert (m' = m) as ->.
  { apply map_eq. intros i. destruct Hf as [Hf _]. apply Hf. change (zlen (@nil Z)) with 0. lia. }
  apply wp_ret, wp_ret, HQ; [done|]. cbn [fst snd]. change (u32 0) with 0.
  rewrite (Z.add_0_r (memsize_32 st)), (u32_small (memsize_32 st)) by lia.
  split; [done|]. cbn [total_len_32 large_len]. rewrite Ht, Hg, Z.add_0_r.
  assert (u32 (u32 (zlen l)) = u32 (zlen l)) as -> by (unfold u32; apply Z.mod_mod; lia). split; [done|].
  pose proof (large_len_or (zlen l) 0 ltac:(apply zlen_nonneg) ltac:(lia)) as E.
  change (u32 0) with 0 in E. rewrite !Z.add_0_r in E.
  assert (u32 (u32 (zlen l)) = u32 (zlen l)) as E2 by (unfold u32; apply Z.mod_mod; lia).
  by rewrite E2 in E.
Qed.

Lemma wp_update_apart p dp rm z m st l a x Q :
  XXH32_rep 0 m st l -> holds m a x -> 0 < a -> a + zlen x <= 2 ^ 63 ->
  (mem32 st, 16) = zreg p dp rm z -> apart (zreg p dp rm z) (a, zlen x) ->
  (forall st' m', mem32 st' = mem32 st -> zframe p dp rm z m m' ->
     XXH32_rep 0 m' st' (l ++ x) -> Q (XXH_OK, st') m') ->
  wp (XXH32_update st a (zlen x)) Q m.
Proof.
  intros Hr Hx Ha H63 Ez Hap HQ. destruct (Z.eq_dec (zlen x) 0) as [E|E].
  - rewrite E. apply (wp_update_nil m st l); [done|lia|]. intros st' Em Hr'.
    apply HQ; [done|apply frame_refl|]. rewrite (zlen_0_nil x) by lia. by rewrite app_nil_r.
  - pose proof (zlen_nonneg x). eapply (wp_XXH32_update 0 m st l); try done; try lia.
    + rewrite <- Ez in Hap. unfold apart in Hap. cbn [fst snd] in Hap. lia.
    + intros st' m' Em Hf Hr'. apply HQ; [done| |done]. unfold zframe. by rewrite <- Ez.
Qed.

(** Content that goes through [a] is hashed and counted. *)
Lemma wp_hashContent d p dp rm m a x tot Q :
  owns d p -> zones_ok p dp rm -> counted d m tot -> holds m a x -> 0 < a -> a + zlen x <= 2 ^ 63 ->
  apart (zreg p dp rm ZXxh) (a, zlen x) ->
  (forall st m', let d' := countContent (zlen x) (set_xxh st d) in
     zframe p dp rm ZXxh m m' -> owns d' p -> counted d' m' (tot ++ x) -> Q (set_xxh st d) m') ->
  wp (hashContent a (zlen x) d) Q m.
Proof.
  intros Hown Hz [Hx Hcnt] Hh Ha H63 Hap HQ. unfold hashContent.
  assert (forall st, d_frameRemainingSize (countContent (zlen x) (set_xxh st d)) =
    (if contentSize (d_frameInfo d) =? 0 then 0
     else u64 (contentSize (d_frameInfo d) - zlen (tot ++ x)))) as Hrem.
  { intros st. unfold countContent, d_sized. dsimp. rewrite Hcnt.
    destruct (_ =? 0); cbn [negb]; dsimp; [done|]. rewrite zlen_app. unfold u64.
    rewrite Zminus_mod_idemp_l. f_equal. lia. }
  assert (forall st m', (d_contentCrc d = true -> d_skipChecksum d = 0 -> XXH32_rep 0 m' st (tot ++ x)) ->
    counted (countContent (zlen x) (set_xxh st d)) m' (tot ++ x)) as Hc'.
  { intros st m' Hr. unfold counted. rewrite Hrem. unfold countContent. by destruct (d_sized _). }
  assert (forall st, mem32 st = mem32 (d_xxh d) -> owns (countContent (zlen x) (set_xxh st d)) p) as Ho'.
  { intros st E. unfold countContent. destruct (d_sized _); unfold owns; dsimp; rewrite E; exact Hown. }
  destruct (d_contentCrc d && (d_skipChecksum d =? 0)) eqn:Ec.
  - apply andb_true_iff in Ec as [Ec Es%Z.eqb_eq]. apply wp_bind.
    eapply (wp_update_apart p dp rm ZXxh m _ tot); [by apply Hx|done..| |done|].
    { destruct Hown as (_ & E & _). by rewrite E. }
    intros st m' Em Hf Hr'. apply wp_ret, HQ; [done|by apply Ho'|]. by apply Hc'.
  - apply wp_ret. replace d with (set_xxh (d_xxh d) d) at 1 by (by destruct d).
    apply HQ; [apply frame_refl|by apply Ho'|]. apply Hc'. intros E1 E2. rewrite E1, E2 in Ec. done.
Qed.

(** * A complete block *)

Lemma read_block dict0 d p bs o raw data crc x c :
  read_so_far dict0 d p bs o (block_header raw (zlen data) ++ data ++ crc) c ->
  bytes_ok c -> zlen crc = (if d_blockCrc d then 4 else 0) ->
  (d_blockCrc d = true -> d_skipChecksum d = 0 \/ raw = false -> le_val crc = xxh32 0 data) ->
  block_content (history (d_frameInfo d) dict0 o) (FBlock raw data (le_val crc)) x ->
  zlen data <= d_maxBlockSize d -> zlen x <= d_maxBlockSize d ->
  read_so_far dict0 d p (bs ++ [FBlock raw data (le_val crc)]) (o ++ x) [] c.
Proof.
  intros (hdr & Hf & Hc & ->) Hok Hl Hcrc Hx Hd Hxl. exists hdr. split; [done|].
  pose proof Hf as (_ & Hm & _). rewrite Hm in Hd, Hxl. split.
  - apply contents_snoc; try done; cbn [fb_data fb_crc fb_raw].
    + pose proof (zlen_nonneg data). lia.
    + intros Hne Hv. apply Hcrc.
      * unfold d_blockCrc. by apply negb_true_iff, Z.eqb_neq.
      * destruct Hv as [Hv|Hv]; [left; by apply Z.eqb_eq|by right].
  - f_equal. rewrite app_nil_r. unfold enc_blocks. rewrite map_app, concat_app. f_equal. cbn [map concat].
    rewrite app_nil_r. unfold enc_fblock. cbn [fb_data fb_crc fb_raw]. do 2 f_equal.
    rewrite !bytes_ok_app in Hok. destruct Hok as (_ & _ & _ & _ & Hok).
    unfold d_blockCrc in Hl. destruct (_ =? 0); cbn [negb] in Hl; [by apply zlen_0_nil; lia|].
    rewrite <- (le_bytes_val crc) at 1 by done. f_equal. unfold zlen in Hl. lia.
Qed.

Section Copy.
Context `{HA : Allocator} (K : call) (HK : call_ok K).
Abbreviation srcEnd := (k_src K + zlen (k_srcl K)).
Abbreviation dstEnd := (k_dst K + k_dstSize K).
Abbreviation zf p s := (zframe p (l_dstPtr s) (room K (l_dstPtr s))).
Abbreviation rm s := (room K (l_dstPtr s)).

(** The history after the chunk [x] was written to the destination. *)
Lemma wp_history_step p s m c r o x Q :
  base K p s m c r o -> holds m (l_dstPtr s) x -> zlen x <= rm s -> 0 < l_dstPtr s ->
  64 * KB <= d_maxBlockSize (l_dctx s) ->
  d_maxBlockSize (l_dctx s) + (if d_linked (l_dctx s) then 128 * KB else 0) <= d_maxBufferSize (l_dctx s) ->
  block_hist (k_dict K) (l_dctx s) p m (l_dstPtr s) (rm s) (k_done K ++ o) ->
  (forall a n m', zf p s ZOut m m' -> let d' := put_dict a n (l_dctx s) in
     block_hist (k_dict K) d' p m' (l_dstPtr s + zlen x) (rm s - zlen x) ((k_done K ++ o) ++ x) ->
     Q d' m') ->
  wp (if d_linked (l_dctx s) then LZ4F_updateDict (l_dctx s) (l_dstPtr s) (zlen x) (k_dst K) false
      else mret (l_dctx s)) Q m.
Proof.
  intros Hb Hx Hr Hdp Hblk Hmax Hh HQ. pose proof (zlen_nonneg x).
  pose proof Hb as ((Hown & _) & Hpriv & Hz & _ & (D1 & D2 & D3 & D4 & D5) & _).
  pose proof HK as (_ & Hdst & _). unfold NULL in Hdst. unfold block_hist, history in *.
  unfold d_linked in *. destruct (_ =? LZ4F_blockLinked) eqn:El.
  - eapply (wp_updateDict (l_dctx s) p m (k_dst K) (l_dstPtr s) (rm s) o x Hown Hpriv Hz
      (base_detached K p s m c r o HK Hb) El ltac:(lia));
      try done; [unfold room in *; zlen_facts; lia|unfold room in *; lia|by rewrite app_assoc|].
    intros a n m' Hf Hh'. apply HQ; [done|]. dsimp. rewrite El. by rewrite (app_assoc (k_dict K)).
  - apply wp_ret. rewrite <- (put_dict_same (l_dctx s)). apply HQ; [apply frame_refl|]. dsimp. rewrite El.
    destruct Hh as (w & Hw & Hwin). exists w. split; [|done]. by apply dict_advance.
Qed.

(** The end of [dstage_copyDirect], after [n] bytes were copied. *)
Lemma copyDirect_end s0 p s m c r o bs o1 x n Q :
  base K p s m c r o -> d_dStage (l_dctx s0) = dstage_copyDirect -> l_srcPtr s0 <= l_srcPtr s ->
  d_dStage (l_dctx s) = dstage_copyDirect ->
  let d := l_dctx s in
  0 <= n <= d_tmpInTarget d ->
  n = d_tmpInTarget d \/ l_srcPtr s = srcEnd \/ l_dstPtr s = dstEnd ->
  read_so_far (k_dict K) d p bs o1
    (block_header true (zlen x + (d_tmpInTarget d - n)) ++ x) c ->
  k_done K ++ o = o1 ++ x -> counted d m (o1 ++ x) ->
  block_hist (k_dict K) d p m (l_dstPtr s) (rm s) (o1 ++ x) ->
  zlen x + (d_tmpInTarget d - n) <= d_maxBlockSize d ->
  (d_blockCrc d = true -> d_skipChecksum d = 0 -> XXH32_rep 0 m (d_blockChecksum d) x) ->
  (forall t, turn_post K s0 t m -> Q t m) ->
  wp (if n =? d_tmpInTarget d then
        let d := if d_blockCrc d then set_dStage dstage_getBlockChecksum (set_tmpInSize 0 d)
                 else set_dStage dstage_getBlockHeader d in
        mret (Again (DLoop d (l_srcPtr s) (l_dstPtr s)))
      else
      let d := set_tmpInTarget (d_tmpInTarget d - n) d in
      mret (Leave (d_tmpInTarget d + (if d_blockCrc d then BFSize else 0) + BHSize)
              (DLoop d (l_srcPtr s) (l_dstPtr s)))) Q m.
Proof.
  intros Hb Hs0 Hsp Hs d Hn Hstop Hrd He Hcnt Hh Hmax Hbc HQ. subst d. set (d := l_dctx s) in *.
  destruct (base_src _ HK _ _ _ _ _ _ Hb) as (_ & _ & _ & _ & Hok & _ & _).
  destruct (read_facts _ _ _ _ _ _ _ Hok Hrd) as (_ & Hblk & _). unfold KB, MB in Hblk.
  pose proof Hb as ((Hown & Hskip) & _). pose proof (zlen_nonneg x).
  assert (forall d', rank (d_dStage d') <= 1 ->
    meas K (DLoop d' (l_srcPtr s) (l_dstPtr s)) < meas K s0) as Hmeas.
  { intros d' Hr. unfold meas. dsimp. rewrite Hs0. cbn [rank]. lia. }
  destruct (Z.eqb_spec n (d_tmpInTarget d)) as [->|Hne].
  - rewrite Z.sub_diag, Z.add_0_r in *. cbv zeta. apply wp_ret, HQ. destruct (d_blockCrc d) eqn:Ebc.
    + eapply (again_turn K s0 p _ _ c r o); [by eapply base_ctx| |apply Hmeas; cbn; lia].
      exists bs, o1, x, []. rewrite app_nil_r, He. splits; try done; [apply holds_nil|].
      intros E. by apply Hbc.
    + eapply (again_turn K s0 p _ _ c r o); [by eapply base_ctx| |apply Hmeas; cbn; lia].
      rewrite He. exists (bs ++ [FBlock true x (le_val [])]). split; [|done].
      eapply (read_block _ d p bs o1 true x []); try done; [by rewrite app_nil_r|by rewrite Ebc|congruence].
  - cbv zeta. apply wp_ret, HQ, more_turn.
    { dsimp. unfold BFSize, BHSize. destruct (d_blockCrc _); lia. }
    { split; unfold needs_room; dsimp; rewrite Hs; [done|]. destruct Hstop as [?|[?|?]]; [done|by left|right]. split; [done|lia]. }
    exists p, c, r, o. split; [by eapply base_ctx|]. unfold stage_ok. dsimp. rewrite Hs.
    exists bs, o1, x. rewrite He. splits; try done; lia.
Qed.
(** The block checksum and the content checksum of the [x] copied from [a]. *)
Lemma wp_copy_hash p s m x o1 x1 tot Q :
  owns (l_dctx s) p -> zones_ok p (l_dstPtr s) (rm s) -> mapped m (p_bc p) 16 ->
  counted (l_dctx s) m tot -> holds m (l_srcPtr s) x -> 0 < l_srcPtr s -> l_srcPtr s + zlen x <= 2 ^ 63 ->
  clear p (l_dstPtr s) (rm s) (l_srcPtr s, zlen x) -> tot = o1 ++ x1 ->
  (d_blockCrc (l_dctx s) = true -> d_skipChecksum (l_dctx s) = 0 ->
   XXH32_rep 0 m (d_blockChecksum (l_dctx s)) x1) ->
  (forall b st m', let d' := set_xxh st (set_blockChecksum b (l_dctx s)) in
     (exists m1, zf p s ZBc m m1 /\ zf p s ZXxh m1 m') ->
     owns (countContent (zlen x) d') p -> counted (countContent (zlen x) d') m' (tot ++ x) ->
     (d_blockCrc (l_dctx s) = true -> d_skipChecksum (l_dctx s) = 0 -> XXH32_rep 0 m' b (x1 ++ x)) ->
     Q d' m') ->
  wp (if d_skipChecksum (l_dctx s) =? 0 then
        d ← (if d_blockCrc (l_dctx s) then
               r ← XXH32_update (d_blockChecksum (l_dctx s)) (l_srcPtr s) (zlen x);
               mret (set_blockChecksum r.2 (l_dctx s))
             else mret (l_dctx s));
        hashContent (l_srcPtr s) (zlen x) d
      else mret (l_dctx s)) Q m.
Proof.
  intros Hown Hz Hbm Hcnt Hx Hsp H63 Hcl -> Hbc HQ. pose proof Hown as (_ & _ & Eb & _).
  assert (forall b m1, mem32 b = mem32 (d_blockChecksum (l_dctx s)) -> zf p s ZBc m m1 ->
    (d_blockCrc (l_dctx s) = true -> d_skipChecksum (l_dctx s) = 0 -> XXH32_rep 0 m1 b (x1 ++ x)) ->
    wp (hashContent (l_srcPtr s) (zlen x) (set_blockChecksum b (l_dctx s))) Q m1) as Hgo.
  { intros b m1 Em Hf Hr. assert (owns (set_blockChecksum b (l_dctx s)) p) as Hown'
      by (unfold owns; dsimp; rewrite Em; exact Hown).
    eapply (wp_hashContent _ p (l_dstPtr s) (rm s) m1 _ x (o1 ++ x1)); try done.
    - by eapply (counted_kept _ _ _ _ _ _ Hf Hz (l_dctx s)).
    - by eapply clear_zkept.
    - by apply clear_apart.
    - intros st m' d2 Hf' Hown2 Hc'. subst d2. apply HQ; [by exists m1|done|done|]. intros E1 E2.
      eapply (xxh_zkept _ _ _ _ _ _ Hf' Hz ZBc); [done|by rewrite Em, Eb|by apply Hr]. }
  assert (l_dctx s = set_blockChecksum (d_blockChecksum (l_dctx s)) (l_dctx s)) as Heta
    by (by destruct (l_dctx s)).
  destruct (Z.eqb_spec (d_skipChecksum (l_dctx s)) 0) as [E|E].
  - apply wp_bind. destruct (d_blockCrc (l_dctx s)) eqn:Ec.
    + apply wp_bind. eapply (wp_update_apart p (l_dstPtr s) (rm s) ZBc m _ x1); [by apply Hbc|done..| | |].
      { by rewrite Eb. }
      { by apply clear_apart. }
      intros st m1 Em Hf Hr. apply wp_ret. by apply Hgo.
    + apply wp_ret. rewrite Heta. apply Hgo; [done|apply frame_refl|done].
  - change (wp (mret (l_dctx s)) Q m) with (Q (l_dctx s) m).
    assert (wp (hashContent (l_srcPtr s) (zlen x) (l_dctx s)) Q m) as Hw.
    { rewrite Heta. apply Hgo; [done|apply frame_refl|done]. }
    unfold hashContent in Hw. apply Z.eqb_neq in E. by rewrite E, andb_false_r in Hw.
Qed.
Lemma stage_copyDirect_ok s m :
  inv K s m -> d_dStage (l_dctx s) = dstage_copyDirect ->
  wp (stage_copyDirect srcEnd (k_dst K) dstEnd s) (turn_post K s) m.
Proof.
  intros (p & c & r & o & Hb & Hst) Hs. unfold stage_ok in Hst. rewrite Hs in Hst.
  destruct Hst as (bs & o1 & x1 & Hrd & He & Hcnt & Hh & Ht0 & Hmax & Hbc).
  pose proof Hb as ((Hown & Hskip) & Hpriv & Hz & (_ & _ & _ & Hscl & _) & (D1 & D2 & D3 & D4 & D5) & _).
  destruct (base_src _ HK _ _ _ _ _ _ Hb) as (Hr & Hsp & Hse & H63 & Hok & _ & Eu).
  destruct (read_facts _ _ _ _ _ _ _ Hok Hrd) as (Hi & Hblk & _ & Hbuf & _).
  pose proof HK as (_ & Hdst & _). unfold NULL in Hdst. zlen_facts. pose proof (zlen_nonneg r). pose proof (zlen_nonneg o).
  unfold stage_copyDirect. apply wp_bind. unfold NULL. destruct (Z.eqb_spec (l_dstPtr s) 0) as [E0|E0].
  { apply wp_ret. cbn beta iota.
    eapply (copyDirect_end s p s m c r o bs o1 x1 0); try done; try lia;
      rewrite ?Z.sub_0_r, <- ?He; done. }
  assert (0 < l_dstPtr s /\ l_dstPtr s + rm s <= 2 ^ 63 /\ 0 <= rm s) as (Hdp & Hd63 & Hrm) by (unfold room in *; lia).
  rewrite Eu, (u64_small (dstEnd - l_dstPtr s)) by (unfold room in *; lia).
  destruct (list_split_at r (Z.min (d_tmpInTarget (l_dctx s)) (Z.min (zlen r) (dstEnd - l_dstPtr s))))
    as (x & r' & -> & Hx); [unfold room in *; lia|].
  rewrite <- Hx. rewrite zlen_app in Hx. pose proof (zlen_nonneg x). pose proof (zlen_nonneg r').
  assert (zlen x <= rm s /\ zlen x <= d_tmpInTarget (l_dctx s)) as [Hxr Hxt] by (unfold room in *; lia).
  apply holds_app in Hr as [Hr _]. apply wp_bind. apply wp_memcpy_apart; [done| | |].
  { eapply mapped_sub; [exact D5|lia..]. }
  { eapply apart_inside; [by eapply (src_apart K p s m c x r' o ZDst)| |apply inside_refl]. right. cbn. lia. }
  intros m1 Hf1 Hx1. assert (zf p s ZDst m m1) as Hz1 by (eapply zframe_of; [exact Hf1|right; cbn; lia]).
  pose proof (base_write K _ _ _ _ _ _ _ _ Hb Hz1) as Hb1. apply wp_bind.
  assert (clear p (l_dstPtr s) (rm s) (l_srcPtr s, zlen x)) as Hxcl
    by (eapply clear_sub; [exact Hscl|right; cbn; rewrite zlen_app; lia]).
  eapply (wp_copy_hash p s m1 x o1 x1 (k_done K ++ o)); try done.
  { apply Hb1. }
  { by eapply counted_kept. }
  { by eapply clear_zkept. }
  { rewrite zlen_app in Hse. lia. }
  { intros E1 E2. eapply bc_kept; try done. by apply Hbc. }
  intros b st m2 d2 (m1' & Hf2 & Hf3) Hown2 Hcnt2 Hbc2. apply wp_bind. subst d2.
  set (d2 := countContent (zlen x) (set_xxh st (set_blockChecksum b (l_dctx s)))) in *.
  assert (d_skipChecksum d2 = k_skip K /\ d_dStage d2 = d_dStage (l_dctx s) /\
    d_frameInfo d2 = d_frameInfo (l_dctx s) /\ d_blockChecksum d2 = b /\
    d_tmpInTarget d2 = d_tmpInTarget (l_dctx s)) as (Ek & Es & Ei & Ebb & Ett)
    by (unfold d2, countContent; by destruct (d_sized _)).
  assert (base K p (DLoop d2 (l_srcPtr s) (l_dstPtr s)) m2 c (x ++ r') o) as Hb2.
  { eapply base_ctx; [eapply base_write; [eapply base_write; [exact Hb1|exact Hf2]|exact Hf3]|done..]. }
  assert (read_so_far (k_dict K) d2 p bs o1
    (block_header true (zlen x1 + d_tmpInTarget (l_dctx s)) ++ x1) c) as Hrd2
    by (unfold d2, countContent; by destruct (d_sized _)).
  destruct (read_facts _ _ _ _ _ _ _ Hok Hrd2) as (_ & Hblk2 & _ & Hbuf2 & _).
  assert (block_hist (k_dict K) d2 p m2 (l_dstPtr s) (rm s) (k_done K ++ o)) as Hh2.
  { eapply (hist_kept _ _ _ _ _ _ Hf3); [done|done|done|]. eapply (hist_kept _ _ _ _ _ _ Hf2); [done|done|done|].
    eapply (hist_kept _ _ _ _ _ _ Hz1); [done|done|done|]. unfold d2, countContent. by destruct (d_sized _). }
  assert (holds m2 (l_dstPtr s) x) as Hx2.
  { eapply (zone_zkept _ _ _ _ _ _ Hf3 Hz ZDst); [done|right; cbn; lia|].
    eapply (zone_zkept _ _ _ _ _ _ Hf2 Hz ZDst); [done|right; cbn; lia|done]. }
  eapply (wp_history_step p (DLoop d2 (l_srcPtr s) (l_dstPtr s)) m2 c (x ++ r') o x); try done; [dsimp; lia|].
  intros a n m3 Hf4 d3 Hh3. apply wp_ret. cbn beta iota. subst d3. dsimp.
  pose proof (base_write K _ _ _ _ _ _ _ _ Hb2 Hf4) as Hb3.
  assert (base K p (DLoop (put_dict a n d2) (l_srcPtr s + zlen x) (l_dstPtr s + zlen x)) m3
    (c ++ x) r' (o ++ x)) as Hb4.
  { eapply (base_emit K p (DLoop (put_dict a n d2) (l_srcPtr s + zlen x) (l_dstPtr s))); try done.
    - by eapply (base_read K p (DLoop d2 (l_srcPtr s) (l_dstPtr s)) m3 c x r' o).
    - eapply (zone_zkept _ _ _ _ _ _ Hf4 Hz ZDst); [done|right; cbn; lia|done]. }
  assert (room K (l_dstPtr s + zlen x) = rm s - zlen x) as Er by (unfold room; lia).
  apply (copyDirect_end s p (DLoop (put_dict a n d2) (l_srcPtr s + zlen x) (l_dstPtr s + zlen x)) m3
    (c ++ x) r' (o ++ x) bs o1 (x1 ++ x) (zlen x) (turn_post K s)); try done; dsimp.
  - lia.
  - rewrite Es. done.
  - rewrite Ett. lia.
  - rewrite Ett. rewrite zlen_app in Hse. unfold room in *. lia.
  - rewrite Ett, zlen_app. replace (zlen x1 + zlen x + (d_tmpInTarget (l_dctx s) - zlen x)) with
      (zlen x1 + d_tmpInTarget (l_dctx s)) by lia. rewrite app_assoc. exact (read_more _ _ _ _ _ _ _ x Hrd2).
  - by rewrite app_assoc, He, <- app_assoc.
  - rewrite app_assoc, <- He. by eapply (counted_kept _ _ _ _ _ _ Hf4).
  - rewrite Er, app_assoc, <- He. exact Hh3.
  - rewrite Ett, zlen_app. replace (d_maxBlockSize d2) with (d_maxBlockSize (l_dctx s))
      by (unfold d2, countContent; by destruct (d_sized _)). lia.
  - intros E1 E2. rewrite Ebb. eapply (xxh_zkept _ _ _ _ _ _ Hf4 Hz ZBc).
    + done.
    + destruct Hown2 as (_ & _ & E & _). rewrite Ebb in E. by rewrite E.
    + apply Hbc2; [|congruence]. unfold d_blockCrc in *. dsimp. by rewrite <- Ei.
Qed.
(** The comparison of the checksum [q] of the stored block [x]. *)
Lemma checkBlock_ok s0 p s m c r o bs o1 x q crcSrc :
  base K p s m c r o -> l_srcPtr s0 < l_srcPtr s ->
  read_so_far (k_dict K) (l_dctx s) p bs o1 (block_header true (zlen x) ++ x ++ q) c ->
  k_done K ++ o = o1 ++ x -> counted (l_dctx s) m (o1 ++ x) ->
  block_hist (k_dict K) (l_dctx s) p m (l_dstPtr s) (rm s) (o1 ++ x) ->
  zlen x <= d_maxBlockSize (l_dctx s) -> zlen q = 4 -> holds m crcSrc q ->
  d_blockCrc (l_dctx s) = true ->
  (d_skipChecksum (l_dctx s) = 0 -> XXH32_rep 0 m (d_blockChecksum (l_dctx s)) x) ->
  wp (ok ← (if d_skipChecksum (l_dctx s) =? 0 then
              readCRC ← LZ4F_readLE32 crcSrc;
              calcCRC ← XXH32_digest (d_blockChecksum (l_dctx s));
              mret (readCRC =? calcCRC)
            else mret true);
      if negb ok then returnError LZ4F_ERROR_blockChecksum_invalid (l_dctx s) else
      mret (Again (DLoop (set_dStage dstage_getBlockHeader (l_dctx s)) (l_srcPtr s) (l_dstPtr s))))
    (turn_post K s0) m.
Proof.
  intros Hb Hlt Hrd He Hcnt Hh Hmax Hq Hsel Hbc Hrep. pose proof Hb as ((Hown & Hskip) & _).
  destruct (base_src _ HK _ _ _ _ _ _ Hb) as (_ & _ & _ & _ & Hok & _ & _).
  destruct (read_facts _ _ _ _ _ _ _ Hok Hrd) as (_ & _ & _ & _ & _ & [_ [_ Hqok]%bytes_ok_app]%bytes_ok_app).
  apply wp_bind.
  apply (wp_mono _ (fun ok m' => m' = m /\
    (ok = true -> d_skipChecksum (l_dctx s) = 0 -> le_val q = xxh32 0 x) /\
    (ok = false -> le_val q <> xxh32 0 x))).
  - destruct (Z.eqb_spec (d_skipChecksum (l_dctx s)) 0) as [E|E]; [|apply wp_ret; splits; done || congruence].
    apply wp_bind. eapply (wp_readLE32_list _ q []); [by rewrite app_nil_r|done|unfold zlen in Hq; lia|].
    apply wp_bind. eapply wp_XXH32_digest; [by apply Hrep|]. apply wp_ret. split; [done|].
    split; [by intros ->%Z.eqb_eq _|by intros ?%Z.eqb_neq].
  - intros ok m' (-> & Hcrc & Hbad). destruct ok; cbn [negb]; apply wp_ret;
      [|eapply fail_turn; [done..|right; eapply blame_crc; [done..|by right|done|done|by apply Hbad]]].
    eapply (again_turn K s0 p _ _ c r o); [by eapply base_ctx| |by apply meas_read].
    rewrite He. exists (bs ++ [FBlock true x (le_val q)]). split; [|done].
    eapply (read_block _ (l_dctx s) p bs o1 true x q); try done; [by rewrite Hbc|].
    intros _ [Hv|Hv]; [by apply Hcrc|done].
Qed.

Lemma stage_getBlockChecksum_ok s m :
  inv K s m -> d_dStage (l_dctx s) = dstage_getBlockChecksum ->
  wp (stage_getBlockChecksum srcEnd s) (turn_post K s) m.
Proof.
  intros (p & c & r & o & Hb & Hst) Hs. unfold stage_ok in Hst. rewrite Hs in Hst.
  destruct Hst as (bs & o1 & x & q & Hrd & He & Hcnt & Hh & Hmax & Hin & Hlt & Hq & Hbc & Hrep).
  pose proof Hb as ((Hown & Hskip) & Hpriv & Hz & _). pose proof Hown as (Eh & _).
  destruct (base_src _ HK _ _ _ _ _ _ Hb) as (Hr & _ & Hse & _ & Hok & _ & _).
  pose proof (zlen_nonneg q). unfold stage_getBlockChecksum. rewrite He in *.
  replace (srcEnd - l_srcPtr s) with (zlen r) by lia. apply wp_bind.
  destruct ((4 <=? zlen r) && (d_tmpInSize (l_dctx s) =? 0)) eqn:E4.
  - apply andb_true_iff in E4 as [E4%Z.leb_le E0%Z.eqb_eq].
    assert (q = []) as -> by (apply zlen_0_nil; lia).
    destruct (list_split_at r 4) as (y & r' & -> & Hy); [lia|]. apply wp_ret. cbn beta iota. dsimp.
    apply (checkBlock_ok s p (DLoop (l_dctx s) (l_srcPtr s + 4) (l_dstPtr s)) m (c ++ y) r' o bs o1 x y);
      try done; dsimp; [|lia|..].
    + apply (base_read K p s m c y r' o); done || lia.
    + pose proof (read_more _ _ _ _ _ _ _ y Hrd) as Hrd'. by rewrite <- !app_assoc in Hrd'.
    + by apply holds_app in Hr as [? _].
  - apply wp_bind. apply (wp_fillFrom K HK p s m c r o ZHeader _ 0 q); try done; try lia;
      [by rewrite Z.add_0_r|rewrite Eh; right; cbn; lia|].
    intros y r' m' -> Hf Hh' Hsz s' Hb'. rewrite Z.add_0_r in Hh'. subst s'. rewrite !Z.add_0_l in *. dsimp.
    pose proof (read_more _ _ _ _ _ _ _ y Hrd) as Hrd'. rewrite <- !app_assoc in Hrd'.
    pose proof (counted_kept _ _ _ _ _ _ Hf Hz _ _ Hown ltac:(done) Hcnt) as Hcnt'.
    pose proof (hist_kept _ _ _ _ _ _ Hf Hz _ _ Hown ltac:(done) Hh) as Hhist'.
    assert (d_skipChecksum (l_dctx s) = 0 -> XXH32_rep 0 m' (d_blockChecksum (l_dctx s)) x) as Hrep'.
    { intros E. eapply bc_kept; try done. by apply Hrep. }
    pose proof (zlen_app q y) as Eqx. pose proof (zlen_nonneg y).
    apply wp_ret. destruct (Z.ltb_spec (zlen (q ++ y)) 4); cbn beta iota.
    + destruct Hsz as [Hsz|[-> _]]; [lia|].
      apply wp_ret, more_turn; [lia|eapply stop_read; [exact Hb'|dsimp; by rewrite Hs]|]. exists p, (c ++ y), [], o. split; [done|].
      unfold stage_ok. dsimp. rewrite Hs, He. by exists bs, o1, x, (q ++ y).
    + apply (checkBlock_ok s p (DLoop (set_tmpInSize (zlen (q ++ y)) (l_dctx s)) (l_srcPtr s + zlen y)
        (l_dstPtr s)) m' (c ++ y) r' o bs o1 x (q ++ y)); try done; dsimp; lia.
Qed.
End Copy.

(** The stages of [LZ4F_decompress] that decode compressed blocks, and the
    flushing of the output buffer. *)

Lemma history_linked i dict0 o : (blockMode i =? LZ4F_blockLinked) = true -> history i dict0 o = dict0 ++ o.
Proof. unfold history. by intros ->. Qed.

(** The block is flushed: its end is the end of the history. *)
Lemma flush_finish dict0 d p m dp rm o x :
  owns d p -> d_tmpOutStart d = zlen x -> holds m (d_tmpOut d) x -> 0 < p_tmpOut p ->
  p_tmpOut p + p_outCap p < 2 ^ 63 -> zlen x <= d_maxBlockSize d ->
  flush_hist dict0 d p m dp rm o x -> block_hist dict0 d p m dp rm (o ++ x).
Proof.
  intros Hown Hst Hx Htob Hcap Hxl (Hpre & Hfit & Hfl). destruct Hown as (_ & _ & _ & _ & _ & Hmax & _).
  unfold block_hist. unfold d_linked in *. set (pre := d_tmpOut d - p_tmpOut p) in *.
  destruct (blockMode (d_frameInfo d) =? LZ4F_blockLinked) eqn:El.
  - rewrite history_linked in * by done. rewrite app_assoc. destruct Hfl as [_ [Hin|Hout]].
    + destruct Hin as (E1 & E2 & g & y & s & Hh & Hl & Eh & Hgy). exists ((g ++ s) ++ x). split.
      * pose proof (zlen_nonneg x). split; [rewrite zlen_app; lia|]. rewrite E1. split; [|split].
        -- apply holds_app. split; [done|]. replace (p_tmpOut p + zlen (g ++ s)) with (d_tmpOut d) by lia. done.
        -- right. rewrite zlen_app. lia.
        -- left. split; [done|]. split; [rewrite zlen_app; lia|done].
      * rewrite Eh. destruct Hgy as [[-> ->]|Hbig]; [by left|right].
        exists g, y, (s ++ x). rewrite !app_assoc, zlen_app. done.
    + destruct Hout as (_ & w & En & Hw & Hp & Hc & Hwin). exists w. split.
      * split; [done|]. split; [done|]. split; [done|]. by right.
      * rewrite Hst in Hwin. unfold zlen in Hwin. by rewrite Nat2Z.id, firstn_all in Hwin.
  - unfold history in *. by rewrite El in *.
Qed.

Section Flush.
Context `{HA : Allocator} (K : call) (HK : call_ok K).
Abbreviation srcEnd := (k_src K + zlen (k_srcl K)).
Abbreviation dstEnd := (k_dst K + k_dstSize K).
Abbreviation zf p s := (zframe p (l_dstPtr s) (room K (l_dstPtr s))).
Abbreviation rm s := (room K (l_dstPtr s)).

(** The end of [dstage_flushOut]. *)
Lemma flushOut_end s0 s m :
  inv K s m -> d_dStage (l_dctx s) = dstage_flushOut -> l_srcPtr s0 <= l_srcPtr s ->
  1 <= rank (d_dStage (l_dctx s0)) ->
  d_tmpOutStart (l_dctx s) = d_tmpOutSize (l_dctx s) \/ l_dstPtr s = dstEnd ->
  wp (if d_tmpOutStart (l_dctx s) =? d_tmpOutSize (l_dctx s) then
        mret (Again (DLoop (set_dStage dstage_getBlockHeader (l_dctx s)) (l_srcPtr s) (l_dstPtr s)))
      else mret (Leave BHSize s)) (turn_post K s0) m.
Proof.
  intros Hinv Hs Hsp Hrank Hstop. pose proof Hinv as (p & c & r & o & Hb & Hst). unfold stage_ok in Hst. rewrite Hs in Hst.
  destruct Hst as (bs & o1 & x & Hrd & Hcnt & He & Hst & Hsz & Hxl & Hx & Hfl).
  destruct (Z.eqb_spec (d_tmpOutStart (l_dctx s)) (d_tmpOutSize (l_dctx s))) as [E|E]; apply wp_ret;
    [|apply more_turn; [done| |done]; split; unfold needs_room; rewrite Hs; [done|right; destruct Hstop; [done|split; [done|lia]]]].
  pose proof Hb as ((Hown & Hskip) & Hpriv & _).
  destruct (base_src _ HK _ _ _ _ _ _ Hb) as (_ & _ & _ & _ & Hok & _ & _).
  destruct (read_facts _ _ _ _ _ _ _ Hok Hrd) as (_ & Hblk & _ & Hbuf & _).
  assert (0 < p_tmpOut p /\ p_tmpOut p + p_outCap p < 2 ^ 63) as [Ht1 Ht2].
  { destruct Hpriv as (_ & _ & _ & _ & [[_ E0]|(? & _ & ? & _)]); [|done].
    destruct Hown as (_ & _ & _ & _ & _ & Hm & _). unfold KB in *. destruct (d_linked _); lia. }
  rewrite E, <- Hsz in He. unfold zlen in He. rewrite Nat2Z.id, firstn_all in He.
  eapply (again_turn K s0 p _ _ c r o); [by eapply base_ctx| |].
  - rewrite He. exists bs. split; [done|]. split; [done|].
    eapply (flush_finish _ (l_dctx s)); try done. lia.
  - unfold meas. dsimp. cbn [rank]. lia.
Qed.

Lemma stage_flushOut_ok s0 s m :
  inv K s m -> d_dStage (l_dctx s) = dstage_flushOut -> l_srcPtr s0 <= l_srcPtr s ->
  1 <= rank (d_dStage (l_dctx s0)) ->
  wp (stage_flushOut (k_dst K) dstEnd s) (turn_post K s0) m.
Proof.
  intros Hinv Hs Hsp Hrank. pose proof Hinv as (p & c & r & o & Hb & Hst). unfold stage_ok in Hst. rewrite Hs in Hst.
  destruct Hst as (bs & o1 & x & Hrd & Hcnt & He & Hst & Hsz & Hxl & Hx & Hpre & Hfit & Hfl).
  pose proof Hb as ((Hown & Hskip) & Hpriv & Hz & _ & (D1 & D2 & D3 & D4 & D5) & _).
  destruct (base_src _ HK _ _ _ _ _ _ Hb) as (_ & _ & _ & _ & Hok & _ & _).
  destruct (read_facts _ _ _ _ _ _ _ Hok Hrd) as (_ & Hblk & _ & Hbuf & _).
  pose proof HK as (_ & Hdst & _). unfold NULL in Hdst. pose proof (zlen_nonneg o).
  unfold stage_flushOut. apply wp_bind. unfold NULL. destruct (Z.eqb_spec (l_dstPtr s) 0) as [E0|E0].
  { apply wp_ret. apply flushOut_end; try done. right. lia. }
  assert (0 < l_dstPtr s /\ l_dstPtr s + rm s <= 2 ^ 63 /\ 0 <= rm s) as (Hdp & Hd63 & Hrm) by (unfold room in *; lia).
  set (d := l_dctx s) in *. set (st := d_tmpOutStart d) in *. set (pre := d_tmpOut d - p_tmpOut p) in *.
  pose proof Hown as Hown'. destruct Hown as (O1 & O2 & O3 & O4 & O5 & Hmx & O7).
  unfold KB, MB in Hblk. rewrite <- Hsz, (u64_small (zlen x - st)), (u64_small (dstEnd - l_dstPtr s)) by (unfold room in *; lia).
  destruct (sub_list x st (Z.min (zlen x - st) (dstEnd - l_dstPtr s))) as (T & rest & Ex & HT & Hn);
    [unfold room in *; lia..|].
  set (ch := take _ (drop _ x)) in *.
  assert (zlen ch = Z.min (zlen x - st) (dstEnd - l_dstPtr s)) as Ech by (unfold zlen at 1; rewrite Hn; unfold room in *; lia).
  rewrite <- Ech. pose proof (zlen_nonneg ch).
  assert (zlen ch <= rm s /\ st + zlen ch <= zlen x) as [Hcr Hcx] by (unfold room in *; lia).
  assert (T = take (Z.to_nat st) x) as ET by (rewrite Ex; rewrite <- HT; unfold zlen; by rewrite Nat2Z.id, take_app_length).
  assert (take (Z.to_nat (st + zlen ch)) x = take (Z.to_nat st) x ++ ch) as Etk.
  { rewrite <- ET, Ex, app_assoc. rewrite <- HT, <- zlen_app. unfold zlen. by rewrite Nat2Z.id, take_app_length. }
  assert (holds m (d_tmpOut d + st) ch) as Hch.
  { rewrite Ex in Hx. apply holds_app in Hx as [_ [Hx _]%holds_app]. by rewrite HT in Hx. }
  assert (inside (d_tmpOut d + st) (zlen ch) (zreg p (l_dstPtr s) (rm s) ZOut)) as Hin by (right; cbn; lia).
  apply wp_bind. apply wp_memcpy_apart; [done| | |].
  { eapply mapped_sub; [exact D5|lia..]. }
  { eapply apart_inside; [exact (zones_apart _ _ _ ZDst ZOut Hz ltac:(done))|right; cbn; lia|exact Hin]. }
  intros m1 Hf1 Hc1. assert (zf p s ZDst m m1) as Hz1 by (eapply zframe_of; [exact Hf1|right; cbn; lia]).
  pose proof (base_write K _ _ _ _ _ _ _ _ Hb Hz1) as Hb1. apply wp_bind.
  assert (inside (d_tmpOut d) (zlen x) (zreg p (l_dstPtr s) (rm s) ZOut)) as Hinx by (right; cbn; lia).
  assert (holds m1 (d_tmpOut d) x) as Hx1 by (by eapply (zone_zkept _ _ _ _ _ _ Hz1 Hz ZOut)).
  assert (room K (l_dstPtr s + zlen ch) = rm s - zlen ch) as Er by (unfold room; lia).
  (* the state behind the chunk, with the dictionary [a] of size [n] *)
  assert (forall a n m2, zf p s ZOut m1 m2 -> holds m2 (d_tmpOut d) x ->
    (let d' := set_tmpOutStart (st + zlen ch) (put_dict a n d) in
     if d_linked d
     then flush_in d' p m2 (history (d_frameInfo d) (k_dict K) o1) x pre \/
          flush_out d' p m2 (l_dstPtr s + zlen ch) (rm s - zlen ch) (history (d_frameInfo d) (k_dict K) o1) x
     else hist d' p m2 (l_dstPtr s + zlen ch) (rm s - zlen ch)
       (history (d_frameInfo d) (k_dict K) o1)) ->
    wp (mret (DLoop (set_tmpOutStart (d_tmpOutStart (put_dict a n d) + zlen ch) (put_dict a n d))
          (l_srcPtr s) (l_dstPtr s + zlen ch)))
       (fun s m => wp (if d_tmpOutStart (l_dctx s) =? d_tmpOutSize (l_dctx s) then
          mret (Again (DLoop (set_dStage dstage_getBlockHeader (l_dctx s)) (l_srcPtr s) (l_dstPtr s)))
        else mret (Leave BHSize s)) (turn_post K s0) m) m2) as Hgo.
  { intros a n m2 Hf2 Hx2 Hfl2. apply wp_ret. apply flushOut_end; [|done|done|done|dsimp; unfold room in *; lia].
    exists p, c, r, (o ++ ch). split.
    - eapply (base_emit K p s m2 c r o ch); try done; [by eapply base_write|].
      by eapply (zone_zkept _ _ _ _ _ _ Hf2 Hz ZDst); [|right; cbn; lia|].
    - unfold stage_ok. dsimp. rewrite Hs. fold d. fold st. rewrite Er. exists bs, o1, x. splits; try done; try lia.
      + eapply (counted_kept _ _ _ _ _ _ Hf2 Hz _ _ Hown'); [done|]. by eapply (counted_kept _ _ _ _ _ _ Hz1 Hz _ _ Hown').
      + rewrite app_assoc, He, Etk, <- app_assoc. done.
      + split; [done|]. split; [done|]. dsimp. change (d_linked (set_tmpOutStart _ _)) with (d_linked d).
        destruct (d_linked d); [split; [apply Hfl|]|]; done. }
  unfold d_linked in *. destruct (blockMode (d_frameInfo d) =? LZ4F_blockLinked) eqn:El.
  - destruct Hfl as [Hph Hfl].
    apply (wp_updateDict_flush d p m1 (l_dstPtr s) (rm s) (history (d_frameInfo d) (k_dict K) o1) x
      Hown' ltac:(apply Hb1) Hz (base_detached K _ _ _ _ _ _ HK Hb1) ltac:(unfold KB in *; lia) pre ltac:(lia) Hpre ltac:(lia) Hph st eq_refl Hst
      (k_dst K) o ch (k_dict K ++ k_done K)).
    + apply Hb1.
    + done.
    + done.
    + done.
    + done.
    + unfold room in *; lia.
    + lia.
    + done.
    + done.
    + done.
    + lia.
    + rewrite history_linked, <- app_assoc, <- He by done. by rewrite app_assoc.
    + destruct Hfl as [(F1 & F2 & g & y & q & F3 & F4)|(F1 & w & F2 & F3 & F4 & F5 & F6)]; [left|right].
      * split; [done|]. split; [done|]. exists g, y, q. split; [|done].
        eapply (zone_zkept _ _ _ _ _ _ Hz1 Hz ZOut); [done| |done]. right. cbn. lia.
      * split; [done|]. exists w. split; [done|]. split; [|done]. by eapply clear_zkept.
    + intros a n m2 Hf2 Hfn. apply Hgo; [eapply zframe_of; [exact Hf2|right; cbn; lia]| |done].
      eapply frame_holds; [exact Hf2|right; lia|done].
  - apply wp_ret. rewrite <- (put_dict_same d). apply Hgo; [apply frame_refl|done|].
    apply hist_advance; [lia|]. by eapply (hist_kept _ _ _ _ _ _ Hz1 Hz _ _ Hown').
Qed.
End Flush.
