(* ===== verification/Lz4FrameCBlock.v ===== *)
(** The stages of [LZ4F_decompress] that decode compressed blocks. *)
From S2P Require Import Prelude.
From S2P Require Import Mem.
From S2P Require Import Xxhash.
From S2P Require Import XxhashSpec.
From S2P Require Import XxhashStream.
From S2P Require Import BlockFormat.
From S2P Require Import Lz4Common.
From S2P Require Import Lz4Decompress.
From S2P Require Import Lz4DecodeSpec.
From S2P Require Import Lz4Frame.
From S2P Require Import Lz4FrameDecode.
From S2P Require Import FrameFormat.
From S2P Require Import Lz4FrameHeader.
From S2P Require Import Lz4FrameInv.
From S2P Require Import Lz4FrameDict.
From S2P Require Import Lz4FrameCall.
From S2P Require Import Lz4FrameStages.
From S2P Require Import FrameParse.
From S2P Require Import Lz4FrameBlockStages.
From S2P Require Import Lz4FrameCopy.

(** The checksum behind a compressed block. *)
Lemma wp_cblockCrc d m sel data q Q :
  holds m sel (data ++ q) -> bytes_ok q -> zlen q = (if d_blockCrc d then 4 else 0) ->
  d_tmpInTarget d = zlen data + (if d_blockCrc d then 4 else 0) ->
  (forall ok, (ok = true -> d_blockCrc d = true -> le_val q = xxh32 0 data) ->
     (ok = false -> d_blockCrc d = true /\ le_val q <> xxh32 0 data) ->
     Q (ok, set_tmpInTarget (zlen data) d) m) ->
  wp (if d_blockCrc d then
        let d := set_tmpInTarget (d_tmpInTarget d - 4) d in
        readBlockCrc ← LZ4F_readLE32 (sel + d_tmpInTarget d);
        calcBlockCrc ← XXH32 sel (d_tmpInTarget d) 0;
        mret (readBlockCrc =? calcBlockCrc, d)
      else mret (true, d)) Q m.
Proof.
  intros [Hd Hq]%holds_app Hok Hl Ht HQ. destruct (d_blockCrc d).
  - cbv zeta. dsimp. replace (d_tmpInTarget d - 4) with (zlen data) by lia. apply wp_bind.
    eapply (wp_readLE32_list _ q []); [by rewrite app_nil_r|done|unfold zlen in Hl; lia|].
    apply wp_bind, wp_XXH32; [done|]. apply wp_ret, HQ; [by intros ->%Z.eqb_eq _|by intros ?%Z.eqb_neq].
  - apply wp_ret. rewrite Z.add_0_r in Ht.
    replace d with (set_tmpInTarget (zlen data) d) at 1 by (rewrite <- Ht; by destruct d). by apply HQ.
Qed.

(** What is placed stays where no write reaches it: neither another zone, nor
    the place of the block. *)
Lemma placed_write `{HA : Allocator} d p m m' dp rm h d' pre w z a n :
  placed d p dp rm h d' m pre w -> d_linked d' = d_linked d -> d_dict d' = d_dict d ->
  zones_ok p dp rm -> d_maxBufferSize d' <= p_outCap p ->
  frame a (a + n) m m' -> inside a n (zreg p dp rm z) ->
  (z = ZOut -> a = p_tmpOut p + pre) ->
  placed d p dp rm h d' m' pre w.
Proof.
  intros ((En & Hh & Hp & Hloc) & Hwin & H0 & Hfit & Hpl) El Ed Hz Hcap Hf Hin Ha.
  split; [|done]. split; [done|]. split; [|done]. destruct Hloc as [(E & Hle & El')|Hc].
  - rewrite El in El'. rewrite Ed in *. destruct (Hpl El') as [[E' Ew]|[E' _]]; [|done].
    destruct (decide (z = ZOut)) as [Ez|Ez].
    + eapply frame_holds; [exact Hf|left; specialize (Ha Ez); lia|done].
    + eapply (zone_kept p dp rm z a n _ _ Hf Hin ZOut); [done|done| |done]. right. cbn. lia.
  - by eapply (clear_kept p dp rm z a n).
Qed.

Section CBlock.
Context `{HA : Allocator} (K : call) (HK : call_ok K) (s0 : dloop).
Abbreviation srcEnd := (k_src K + zlen (k_srcl K)).
Abbreviation dstEnd := (k_dst K + k_dstSize K).
Abbreviation zf p s := (zframe p (l_dstPtr s) (room K (l_dstPtr s))).
Abbreviation rm s := (room K (l_dstPtr s)).
Abbreviation hist0 d e := (history (d_frameInfo d) (k_dict K) e).

(** The compressed block [data], its checksum [q] accepted, is at [sel]. *)
Definition block_ready (p : priv) (s : dloop) (m : mem) (c r o : list Z) (bs : list fblock)
    (data q : list Z) (sel : Z) : Prop :=
  (base K p s m c r o /\ l_srcPtr s0 < l_srcPtr s) /\
  read_so_far (k_dict K) (l_dctx s) p bs (k_done K ++ o) (block_header false (zlen data) ++ data ++ q) c /\
  counted (l_dctx s) m (k_done K ++ o) /\
  block_hist (k_dict K) (l_dctx s) p m (l_dstPtr s) (rm s) (k_done K ++ o) /\
  (0 < zlen data <= d_maxBlockSize (l_dctx s) /\ d_tmpInTarget (l_dctx s) = zlen data) /\
  (zlen q = (if d_blockCrc (l_dctx s) then 4 else 0) /\
   (d_blockCrc (l_dctx s) = true -> le_val q = xxh32 0 data)) /\
  (holds m sel data /\ bytes_ok data /\ 0 < sel /\ sel + zlen data <= 2 ^ 63) /\
  apart (zreg p (l_dstPtr s) (rm s) ZDst) (sel, zlen data) /\
  apart (zreg p (l_dstPtr s) (rm s) ZOut) (sel, zlen data).

(** The block is complete with the content [x]. *)
Lemma ready_read p s m c r o bs data q sel b x :
  block_ready p s m c r o bs data q sel -> block_wf b -> data = enc_block b ->
  expand (hist0 (l_dctx s) (k_done K ++ o)) b = Some x -> zlen x <= d_maxBlockSize (l_dctx s) ->
  read_so_far (k_dict K) (l_dctx s) p (bs ++ [FBlock false data (le_val q)]) ((k_done K ++ o) ++ x) [] c.
Proof.
  intros ((Hb & _) & Hrd & _ & _ & (Hd & _) & (Hq & Hcrc) & _) Hbw Ed He Hx.
  destruct (base_src _ HK _ _ _ _ _ _ Hb) as (_ & _ & _ & _ & Hok & _ & _).
  eapply (read_block _ (l_dctx s) p bs _ false data q); try done; [| |lia].
  - by intros Hbc _; apply Hcrc.
  - by exists b.
Qed.

(** The data are not those of a block that fits. *)
Lemma ready_blame p s m c r o bs data q sel :
  block_ready p s m c r o bs data q sel ->
  (forall b x, conforming b -> data = enc_block b ->
     expand (hist0 (l_dctx s) (k_done K ++ o)) b = Some x -> d_maxBlockSize (l_dctx s) < zlen x) ->
  hopeless (k_dict K) (k_read K ++ k_srcl K).
Proof.
  intros ((Hb & _) & Hrd & _ & _ & (Hd & _) & (Hq & _) & _) Hno.
  eapply (blame_data K HK); [exact Hb|exact Hrd|lia|by left; lia|done|done|exact Hno].
Qed.

(** * Decoding into the destination *)

Lemma decode_direct p s m c r o bs data q sel :
  block_ready p s m c r o bs data q sel ->
  d_maxBlockSize (l_dctx s) <= rm s -> 0 < l_dstPtr s ->
  wp (decodedSize ← decodeBlockTo (l_dctx s) sel (l_dstPtr s);
      if decodedSize <? 0 then returnError LZ4F_ERROR_decompressionFailed (l_dctx s) else
      d ← hashContent (l_dstPtr s) decodedSize (l_dctx s);
      let d := countContent decodedSize d in
      d ← (if d_linked d then LZ4F_updateDict d (l_dstPtr s) decodedSize (k_dst K) false else mret d);
      mret (Again (DLoop (set_dStage dstage_getBlockHeader d) (l_srcPtr s) (l_dstPtr s + decodedSize))))
    (turn_post K s0) m.
Proof.
  intros Hrdy Hroom Hdp. pose proof Hrdy as ((Hb & Hlt) & Hrd & Hcnt & Hh & (Hd & Ht) & _ & (Hsel & Hdok & Hs0 & Hs63) & Hap & _).
  pose proof Hb as ((Hown & Hskip) & Hpriv & Hz & _ & (D1 & D2 & D3 & D4 & D5) & _).
  destruct (base_src _ HK _ _ _ _ _ _ Hb) as (_ & _ & _ & _ & Hok & _ & _).
  destruct (read_facts _ _ _ _ _ _ _ Hok Hrd) as (_ & Hblk & _ & Hbuf & _ & _).
  pose proof HK as (_ & Hdst & _). unfold NULL in Hdst. pose proof (zlen_nonneg o).
  assert (l_dstPtr s + rm s <= 2 ^ 63) as Hd63 by (unfold room in *; lia).
  destruct Hh as (w & Hw & Hwin). pose proof Hw as (En & Hwh & Hwp & Hwl). apply wp_bind.
  unfold KB, MB in Hblk.
  eapply (wp_decodeBlockTo (l_dctx s) m sel (l_dstPtr s) data w _ _ En Hwh Hwp Hwin).
  { destruct (decide (w = [])) as [->|Hne]; [by left|right]. apply zlen_pos in Hne. destruct Hwl as [(E & Hle & _)|Hc].
    - pose proof (zones_apart _ _ _ ZOut ZDst Hz ltac:(done)) as A. unfold apart in A. cbn [zreg fst snd] in A.
      destruct Hown as (_ & _ & _ & _ & _ & Hm & _). lia.
    - pose proof (clear_apart _ _ _ _ ZDst Hc) as A. unfold apart in A. cbn [zreg fst snd] in A. lia. }
  { unfold apart in Hap. cbn [zreg fst snd] in Hap. unfold bufs_ok, int_max. splits; try done; try lia.
    eapply mapped_sub; [exact D5|lia..]. }
  { done. } { lia. }
  intros k m1 Hf1 Hdec Hnot. assert (zf p s ZDst m m1) as Hz1 by (eapply zframe_of; [exact Hf1|right; cbn; lia]).
  pose proof (base_write K _ _ _ _ _ _ _ _ Hb Hz1) as Hb1.
  destruct (Z.ltb_spec k 0) as [Hk|Hk]; [apply wp_ret; eapply fail_turn; [done..|right; by eapply ready_blame; [|apply Hnot]]|].
  destruct (Hdec Hk) as (b & x & Hbw & Ed & He & <- & Hxm & Hx). clear Hdec Hk. apply wp_bind.
  pose proof (zlen_nonneg x).
  eapply (wp_hashContent _ p (l_dstPtr s) (rm s) m1 _ x (k_done K ++ o)); try done; [by eapply counted_kept|lia| |].
  { eapply apart_inside; [exact (zones_apart _ _ _ ZXxh ZDst Hz ltac:(done))|apply inside_refl|right; cbn; lia]. }
  intros st m2 d2 Hf2 Hown2 Hcnt2. fold d2. apply wp_bind. cbv zeta.
  assert (d_skipChecksum d2 = k_skip K /\ d_frameInfo d2 = d_frameInfo (l_dctx s) /\
    d_maxBlockSize d2 = d_maxBlockSize (l_dctx s) /\ d_maxBufferSize d2 = d_maxBufferSize (l_dctx s) /\
    d_linked d2 = d_linked (l_dctx s)) as (Ek & Ei & Em & Emb & El)
    by (unfold d2, countContent; by destruct (d_sized _)).
  assert (base K p (DLoop d2 (l_srcPtr s) (l_dstPtr s)) m2 c r o) as Hb2
    by (eapply base_ctx; [by eapply base_write|done..]).
  assert (holds m2 (l_dstPtr s) x) as Hx2
    by (eapply (zone_zkept _ _ _ _ _ _ Hf2 Hz ZDst); [done|right; cbn; lia|done]).
  eapply (wp_history_step K HK p (DLoop d2 (l_srcPtr s) (l_dstPtr s)) m2 c r o x); dsimp; try done.
  { lia. } { unfold KB; lia. } { by rewrite Em, El, Emb. }
  { eapply (hist_kept _ _ _ _ _ _ Hf2); [done|done|done|]. eapply (hist_kept _ _ _ _ _ _ Hz1); [done|done|done|].
    exists w. split; [|by rewrite Ei]. unfold d2, countContent. by destruct (d_sized _). }
  intros a n m3 Hf3 Hh3. apply wp_ret.
  assert (room K (l_dstPtr s + zlen x) = rm s - zlen x) as Er by (unfold room; lia).
  eapply (again_turn K s0 p _ m3 c r (o ++ x)); [| |by apply meas_read].
  - eapply (base_emit K p (DLoop d2 (l_srcPtr s) (l_dstPtr s)) m3 c r o x); try done; [by eapply base_write| |dsimp; lia].
    eapply (zone_zkept _ _ _ _ _ _ Hf3 Hz ZDst); [done|right; cbn; lia|done].
  - dsimp. rewrite Er, app_assoc. exists (bs ++ [FBlock false data (le_val q)]). split; [|split].
    + pose proof (ready_read _ _ _ _ _ _ _ _ _ _ b x Hrdy Hbw Ed He Hxm) as Hrd'.
      unfold d2, countContent. by destruct (d_sized _).
    + by eapply (counted_kept _ _ _ _ _ _ Hf3 Hz).
    + done.
Qed.

(** * Decoding into the output buffer *)

(** The context behind [placeTmpOut], for a block of the frame at hand. *)
Definition at_place (p : priv) (s : dloop) (pre n : Z) : LZ4F_dctx :=
  set_tmpOut (p_tmpOut p + pre) (put_dict (d_dict (l_dctx s)) n (l_dctx s)).

(** The block [x] is decoded in its place: flushing starts. *)
Lemma placed_flush p s m c r o bs x pre n w st m' Q :
  let d := at_place p s pre n in
  base K p s m c r o -> l_srcPtr s0 < l_srcPtr s -> 1 <= rank (d_dStage (l_dctx s0)) ->
  read_so_far (k_dict K) (l_dctx s) p bs ((k_done K ++ o) ++ x) [] c ->
  zlen x <= d_maxBlockSize (l_dctx s) ->
  placed (l_dctx s) p (l_dstPtr s) (rm s) (hist0 (l_dctx s) (k_done K ++ o)) d m' pre w ->
  base K p s m' c r o -> holds m' (p_tmpOut p + pre) x ->
  owns (countContent (zlen x) (set_xxh st d)) p ->
  counted (countContent (zlen x) (set_xxh st d)) m' ((k_done K ++ o) ++ x) ->
  (forall t m', turn_post K s0 t m' -> Q t m') ->
  wp (let d := countContent (zlen x) (set_xxh st d) in
      let d := set_dStage dstage_flushOut (set_tmpOutStart 0 (set_tmpOutSize (zlen x) d)) in
      stage_flushOut (k_dst K) dstEnd (DLoop d (l_srcPtr s) (l_dstPtr s))) Q m'.
Proof.
  intros d Hb Hlt Hrank Hrd Hxm Hpl Hb' Hx Hown Hcnt HQ. cbv zeta. pose proof (zlen_nonneg x).
  pose proof Hb as ((Hown0 & Hskip) & _).
  set (d2 := countContent (zlen x) (set_xxh st d)) in *.
  assert (exists k, d2 = set_frameRemainingSize k (set_xxh st d)) as [k Ed2].
  { unfold d2, countContent. destruct (d_sized _); [by eexists|]. exists (d_frameRemainingSize d).
    by destruct (l_dctx s). }
  destruct (base_src _ HK _ _ _ _ _ _ Hb) as (_ & _ & _ & _ & Hok & _ & _).
  eapply wp_mono; [|exact HQ]. apply stage_flushOut_ok; [done| |done|dsimp; lia|done].
  exists p, c, r, o. split; [eapply base_ctx; [exact Hb'|done|by rewrite Ed2|done|done]|].
  unfold stage_ok. dsimp. exists bs, (k_done K ++ o), x. rewrite Ed2 in *. unfold d, at_place in *. dsimp.
  change (take (Z.to_nat 0) x) with (@nil Z). rewrite app_nil_r. splits; try done; try lia.
  - destruct Hrd as (hdr & (Hp & Hm & Hi & Hbf & Hind) & Hco & Ec). exists hdr. split; [|done].
    unfold in_frame. dsimp. splits; try done. intros El. pose proof Hpl as (_ & _ & _ & Hfit & _).
    destruct Hpl as (_ & _ & (_ & Hpre) & _). rewrite Hpre by done. lia.
  - unfold flush_hist. dsimp. replace (p_tmpOut p + pre - p_tmpOut p) with pre by lia.
    pose proof Hpl as ((P1 & P2 & P3 & P4) & _ & (P5 & _) & P6 & _). split; [done|]. split; [done|].
    change (d_linked (set_dStage _ _)) with (d_linked (l_dctx s)). destruct (d_linked (l_dctx s)) eqn:El.
    + by eapply (flush_start (l_dctx s)).
    + destruct Hpl as ((Q1 & Q2 & Q3 & Q4) & Hwin & _). exists w. split; [|done]. by split.
Qed.

Lemma decode_buffer p s m c r o bs data q sel :
  block_ready p s m c r o bs data q sel -> 1 <= rank (d_dStage (l_dctx s0)) ->
  wp (d ← placeTmpOut (l_dctx s);
      decodedSize ← decodeBlockTo d sel (d_tmpOut d);
      if decodedSize <? 0 then returnError LZ4F_ERROR_decompressionFailed d else
      d ← hashContent (d_tmpOut d) decodedSize d;
      let d := countContent decodedSize d in
      let d := set_dStage dstage_flushOut (set_tmpOutStart 0 (set_tmpOutSize decodedSize d)) in
      stage_flushOut (k_dst K) dstEnd (DLoop d (l_srcPtr s) (l_dstPtr s)))
    (turn_post K s0) m.
Proof.
  intros Hrdy Hrank. pose proof Hrdy as ((Hb & Hlt) & Hrd & Hcnt & Hh & (Hd & Ht) & _ & (Hsel & Hdok & Hs0 & Hs63) & _ & Hap).
  pose proof Hb as ((Hown & Hskip) & Hpriv & Hz & _).
  destruct (base_src _ HK _ _ _ _ _ _ Hb) as (_ & _ & _ & _ & Hok & _ & _).
  destruct (read_facts _ _ _ _ _ _ _ Hok Hrd) as (_ & Hblk & _ & Hbuf & Hind & _).
  pose proof Hown as (_ & _ & _ & _ & _ & Hmx & _).
  assert (0 < p_tmpOut p /\ p_tmpOut p + p_outCap p < 2 ^ 63 /\ mapped m (p_tmpOut p) (p_outCap p)) as (Ht1 & Ht2 & Hmap).
  { destruct Hpriv as (_ & _ & _ & _ & [[_ E0]|(? & _ & ? & ? & _)]); [|done].
    unfold KB in *. destruct (d_linked _); lia. }
  apply wp_bind. eapply (wp_placeTmpOut (l_dctx s) p m (l_dstPtr s) (rm s) _ Hown Hpriv ltac:(lia) Hbuf Hind); [exact Hh|].
  intros n pre w m1 Hf1 d1 Hpl. change d1 with (at_place p s pre n) in *. clear d1.
  assert (zf p s ZOut m m1) as Hz1 by exact Hf1.
  pose proof (base_write K _ _ _ _ _ _ _ _ Hb Hz1) as Hb1. unfold KB, MB in Hblk.
  pose proof Hpl as ((En & Hwh & Hwp & Hwl) & Hwin & (Hpre & _) & Hfit & Hloc).
  assert (forall st, mem32 st = mem32 (d_xxh (l_dctx s)) -> owns (set_xxh st (at_place p s pre n)) p) as Hown1
    by (intros st E; unfold owns, at_place; dsimp; rewrite E; exact Hown).
  apply wp_bind. change (d_tmpOut (at_place p s pre n)) with (p_tmpOut p + pre).
  eapply (wp_decodeBlockTo (at_place p s pre n) m1 sel (p_tmpOut p + pre) data w _ _ En Hwh Hwp Hwin).
  { destruct (decide (w = [])) as [->|Hne]; [by left|right]. apply zlen_pos in Hne.
    change (d_dict (at_place p s pre n)) with (d_dict (l_dctx s)) in *.
    destruct Hwl as [(E & _ & El)|Hc].
    - destruct (Hloc El) as [[_ Ew]|[E' _]]; [left; lia|done].
    - pose proof (clear_apart _ _ _ _ ZOut Hc) as A. unfold apart in A. cbn [zreg fst snd] in A. 
      change (d_maxBlockSize (at_place p s pre n)) with (d_maxBlockSize (l_dctx s)). lia. }
  { unfold apart in Hap. cbn [zreg fst snd] in Hap. change (d_maxBlockSize (at_place p s pre n)) with (d_maxBlockSize (l_dctx s)).
    unfold bufs_ok, int_max. splits; try done; try lia.
    - eapply apart_frame; [exact Hf1|exact Hap|done].
    - eapply mapped_sub; [eapply frame_mapped; [exact Hf1|exact Hmap]|lia..]. }
  { done. } { change (d_maxBlockSize (at_place p s pre n)) with (d_maxBlockSize (l_dctx s)). lia. }
  change (d_maxBlockSize (at_place p s pre n)) with (d_maxBlockSize (l_dctx s)).
  intros k m2 Hf2 Hdec Hnot.
  assert (inside (p_tmpOut p + pre) (d_maxBlockSize (l_dctx s)) (zreg p (l_dstPtr s) (rm s) ZOut)) as Hin by (right; cbn; lia).
  assert (zf p s ZOut m1 m2) as Hz2 by (by eapply zframe_of).
  pose proof (base_write K _ _ _ _ _ _ _ _ Hb1 Hz2) as Hb2.
  destruct (Z.ltb_spec k 0) as [Hk|Hk].
  { apply wp_ret. eapply fail_turn; [exact Hb2|exact (Hown1 _ eq_refl)|done|right]. by eapply ready_blame; [|apply Hnot]. }
  destruct (Hdec Hk) as (b & x & Hbw & Ed & He & <- & Hxm & Hx). clear Hdec Hk. pose proof (zlen_nonneg x).
  assert (inside (p_tmpOut p + pre) (zlen x) (zreg p (l_dstPtr s) (rm s) ZOut)) as Hinx by (right; cbn; lia).
  apply wp_bind.
  eapply (wp_hashContent (at_place p s pre n) p (l_dstPtr s) (rm s) m2 _ x (k_done K ++ o)); try done; [|lia|lia| |].
  { eapply (counted_kept _ _ _ _ _ _ Hz2 Hz (l_dctx s)); [done|done|]. by eapply counted_kept. }
  { eapply apart_inside; [exact (zones_apart _ _ _ ZXxh ZOut Hz ltac:(done))|apply inside_refl|done]. }
  intros st m3 d3 Hf3 Hown3 Hcnt3. subst d3.
  eapply (placed_flush p s m c r o (bs ++ [FBlock false data (le_val q)]) x pre n w st m3); try done.
  - by eapply ready_read.
  - eapply (placed_write _ _ m2 _ _ _ _ _ _ _ ZXxh); try done; [|apply Hmx|apply inside_refl].
    eapply (placed_write _ _ m1 _ _ _ _ _ _ _ ZOut);
      [exact Hpl|done|done|done|apply Hmx|exact Hf2|exact Hin|done].
  - by eapply base_write.
  - by eapply (zone_zkept _ _ _ _ _ _ Hf3 Hz ZOut).
Qed.
(** * A compressed block *)

(** The block and its checksum are at [sel], in the source or in the input
    buffer. *)
Lemma decodeCBlock_ok p s m c r o bs data q sel :
  base K p s m c r o -> l_srcPtr s0 < l_srcPtr s -> 1 <= rank (d_dStage (l_dctx s0)) ->
  read_so_far (k_dict K) (l_dctx s) p bs (k_done K ++ o) (block_header false (zlen data) ++ data ++ q) c ->
  counted (l_dctx s) m (k_done K ++ o) ->
  block_hist (k_dict K) (l_dctx s) p m (l_dstPtr s) (rm s) (k_done K ++ o) ->
  0 < zlen data <= d_maxBlockSize (l_dctx s) ->
  d_tmpInTarget (l_dctx s) = zlen data + (if d_blockCrc (l_dctx s) then 4 else 0) ->
  zlen q = (if d_blockCrc (l_dctx s) then 4 else 0) -> holds m sel (data ++ q) ->
  0 < sel -> sel + zlen (data ++ q) <= 2 ^ 63 ->
  apart (zreg p (l_dstPtr s) (rm s) ZDst) (sel, zlen (data ++ q)) ->
  apart (zreg p (l_dstPtr s) (rm s) ZOut) (sel, zlen (data ++ q)) ->
  wp (decodeCBlock (k_dst K) dstEnd sel s) (turn_post K s0) m.
Proof.
  intros Hb Hlt Hrank Hrd Hcnt Hh Hd Ht Hq Hsel Hs0 Hs63 HapD HapO.
  pose proof Hb as ((Hown & Hskip) & _ & _ & _ & (D1 & D2 & _) & _).
  destruct (base_src _ HK _ _ _ _ _ _ Hb) as (_ & _ & _ & _ & Hok & _ & _).
  destruct (read_facts _ _ _ _ _ _ _ Hok Hrd) as (_ & Hblk & _ & _ & _ & [_ [Hdok Hqok]%bytes_ok_app]%bytes_ok_app).
  pose proof HK as (_ & Hdst & _). unfold NULL in Hdst. pose proof (zlen_nonneg o). pose proof (zlen_nonneg q).
  unfold decodeCBlock. apply wp_bind. apply (wp_cblockCrc _ _ _ data q); [done..|]. intros ok Hcrc Hbad. cbn beta iota.
  set (d := set_tmpInTarget (zlen data) (l_dctx s)).
  destruct ok; cbn [negb].
  2: { apply wp_ret. destruct (Hbad eq_refl) as [Hbc Hv]. eapply fail_turn; [done..|right].
       eapply (blame_crc K HK); [done|exact Hrd|lia|by left; lia|done|by rewrite Hq, Hbc|done]. }
  assert (block_ready p (DLoop d (l_srcPtr s) (l_dstPtr s)) m c r o bs data q sel) as Hrdy.
  { rewrite zlen_app in *. unfold d, block_ready. dsimp. unfold apart in *. cbn [zreg fst snd] in *.
    split; [split; [by eapply base_ctx|done]|]. splits; try done; try lia.
    - intros E. by apply Hcrc.
    - by apply holds_app in Hsel as [? _]. }
  unfold KB, MB in Hblk. rewrite u64_small by (unfold room in *; lia).
  destruct (_ && _) eqn:Ed.
  - apply andb_true_iff in Ed as [Ed%Z.leb_le _].
    apply (decode_direct p (DLoop d (l_srcPtr s) (l_dstPtr s)) m c r o bs data q sel Hrdy);
      unfold d in *; dsimp; unfold room; lia.
  - by apply (decode_buffer p (DLoop d (l_srcPtr s) (l_dstPtr s)) m c r o bs data q sel Hrdy).
Qed.
End CBlock.

Section CBlockStages.
Context `{HA : Allocator} (K : call) (HK : call_ok K).
Abbreviation srcEnd := (k_src K + zlen (k_srcl K)).
Abbreviation dstEnd := (k_dst K + k_dstSize K).
Abbreviation rm s := (room K (l_dstPtr s)).

Lemma stage_storeCBlock_ok s m :
  inv K s m -> d_dStage (l_dctx s) = dstage_storeCBlock ->
  wp (stage_storeCBlock srcEnd (k_dst K) dstEnd s) (turn_post K s) m.
Proof.
  intros (p & c & r & o & Hb & Hst) Hs. unfold stage_ok in Hst. rewrite Hs in Hst.
  destruct Hst as (bs & n & q & Hrd & Hcnt & Hh & Hn & Ht & Hin & Hlt & Hq).
  pose proof Hb as ((Hown & Hskip) & Hpriv & Hz & _). pose proof Hown as (_ & _ & _ & Et & _).
  destruct (base_src _ HK _ _ _ _ _ _ Hb) as (_ & _ & _ & _ & Hok & _ & _).
  destruct (read_facts _ _ _ _ _ _ _ Hok Hrd) as (_ & Hblk & Hcap & _). unfold KB, MB in *.
  assert (0 < p_tmpIn p /\ p_tmpIn p + p_inCap p < 2 ^ 63) as [Hi1 Hi2].
  { destruct Hpriv as (_ & _ & _ & [[_ E0]|(? & _ & ? & _)] & _); [lia|done]. }
  pose proof (zlen_nonneg q). unfold stage_storeCBlock. apply wp_bind.
  assert (n < d_tmpInTarget (l_dctx s) + 1 <= n + 5) as Htb by (destruct (d_blockCrc _); lia).
  apply (wp_fillFrom K HK p s m c r o ZIn _ 0 q); try done; try lia;
    [by rewrite Z.add_0_r|rewrite Et; right; cbn; lia|].
  intros x r' m' -> Hf Hh' Hsz s' Hb'. rewrite Z.add_0_r in Hh'. subst s'. rewrite !Z.add_0_l in *. dsimp.
  pose proof (zlen_app q x) as Eqx. pose proof (zlen_nonneg x).
  pose proof (read_more _ _ _ _ _ _ _ x Hrd) as Hrd'. rewrite <- app_assoc in Hrd'.
  pose proof (counted_kept _ _ _ _ _ _ Hf Hz _ _ Hown ltac:(done) Hcnt) as Hcnt'.
  pose proof (hist_kept _ _ _ _ _ _ Hf Hz _ _ Hown ltac:(done) Hh) as Hhist'.
  destruct (Z.ltb_spec (zlen (q ++ x)) (d_tmpInTarget (l_dctx s))).
  - destruct Hsz as [Hsz|[-> _]]; [lia|]. apply wp_ret, more_turn.
    { unfold BFSize, BHSize. destruct (d_blockCrc _); lia. }
    { eapply stop_read; [exact Hb'|]. dsimp. by rewrite Hs. }
    exists p, (c ++ x), [], o. split; [done|].
    unfold stage_ok. dsimp. rewrite Hs. by exists bs, n, (q ++ x).
  - destruct (list_split_at (q ++ x) n) as (data & crc & E & Hdl); [lia|]. rewrite E in *. rewrite zlen_app in *.
    apply (decodeCBlock_ok K HK s p _ m' (c ++ x) r' o bs data crc); dsimp; try done; try lia.
    + rewrite Hs. cbn. lia.
    + by rewrite Hdl.
    + by rewrite Hdl.
    + change (d_blockCrc (set_tmpInSize _ _)) with (d_blockCrc (l_dctx s)). lia.
    + rewrite zlen_app. lia.
    + eapply apart_inside; [exact (zones_apart _ _ _ ZDst ZIn Hz ltac:(done))|apply inside_refl|].
      right. cbn. rewrite zlen_app. lia.
    + eapply apart_inside; [exact (zones_apart _ _ _ ZOut ZIn Hz ltac:(done))|apply inside_refl|].
      right. cbn. rewrite zlen_app. lia.
Qed.

Lemma stage_getCBlock_ok s m :
  inv K s m -> d_dStage (l_dctx s) = dstage_getCBlock ->
  wp (stage_getCBlock srcEnd (k_dst K) dstEnd s) (turn_post K s) m.
Proof.
  intros (p & c & r & o & Hb & Hst) Hs. unfold stage_ok in Hst. rewrite Hs in Hst.
  destruct Hst as (bs & n & Hrd & Hcnt & Hh & Hn & Ht). pose proof Hb as ((Hown & Hskip) & _).
  destruct (base_src _ HK _ _ _ _ _ _ Hb) as (Hr & Hsp & Hse & Hs63 & Hok & _ & Eu).
  unfold stage_getCBlock. rewrite Eu. destruct (Z.ltb_spec (zlen r) (d_tmpInTarget (l_dctx s))).
  - apply wp_ret. eapply (again_turn K s p _ _ c r o); [by eapply base_ctx| |].
    + exists bs, n, []. rewrite app_nil_r. dsimp. change (zlen (@nil Z)) with 0.
      splits; try done; try lia; [destruct (d_blockCrc _); lia|apply holds_nil].
    + unfold meas. dsimp. rewrite Hs. cbn. lia.
  - assert (0 <= n) as Hn0 by lia. rewrite Ht in *.
    destruct (list_split_at r (d_tmpInTarget (l_dctx s))) as (y & r' & -> & Hy); [destruct (d_blockCrc _); lia|].
    destruct (list_split_at y n) as (data & crc & -> & Hdl); [destruct (d_blockCrc _); lia|].
    rewrite <- Ht, <- Hy. rewrite zlen_app in Hy. pose proof (zlen_nonneg crc).
    apply (decodeCBlock_ok K HK s p _ m (c ++ (data ++ crc)) r' o bs data crc); dsimp; try done; try lia.
    + eapply (base_read K p s m c (data ++ crc) r' o); done || lia.
    + rewrite zlen_app. lia.
    + rewrite Hs. cbn. lia.
    + rewrite Hdl. exact (read_more _ _ _ _ _ _ _ (data ++ crc) Hrd).
    + by apply holds_app in Hr as [? _].
    + rewrite (zlen_app (data ++ crc)) in Hse. pose proof (zlen_nonneg r'). lia.
    + by eapply (src_apart K p s m c (data ++ crc) r' o ZDst).
    + by eapply (src_apart K p s m c (data ++ crc) r' o ZOut).
Qed.
End CBlockStages.
