(* ===== verification/Lz4FrameInit.v ===== *)
(** The stage [dstage_init] of [LZ4F_decompress]: the internal buffers are
    allocated, or those of an earlier frame are large enough. *)
From S2P Require Import Prelude.
From S2P Require Import Mem.
From S2P Require Import Xxhash.
From S2P Require Import XxhashSpec.
From S2P Require Import XxhashStream.
From S2P Require Import BlockFormat.
From S2P Require Import Lz4Common.
From S2P Require Import Lz4Decompress.
From S2P Require Import Lz4Frame.
From S2P Require Import Lz4FrameDecode.
From S2P Require Import FrameFormat.
From S2P Require Import Lz4FrameHeader.
From S2P Require Import Lz4FrameInv.
From S2P Require Import Lz4FrameDict.
From S2P Require Import Lz4FrameCall.
From S2P Require Import Lz4FrameStages.
From S2P Require Import Lz4FrameBlockStages.

(** * Block sizes *)

(** An output buffer that is large enough for a block size comes with an input
    buffer that is: block sizes differ by a factor of four. *)
Lemma reuse_in d p b : owns d p -> 4 <= b <= 7 -> LZ4F_getBlockSize b <= d_maxBufferSize d ->
  LZ4F_getBlockSize b + 4 <= p_inCap p.
Proof.
  intros (_ & _ & _ & _ & _ & _ & [E|(b' & Hb' & Hin & Hout)] & _) Hb Hle;
    pose proof (block_sizes b Hb); [|pose proof (block_sizes b' Hb')]; unfold KB, MB in *; lia.
Qed.

(** * Changes of the private memory *)

#[export] Instance member_dec r i : Decision (member r i).
Proof. unfold member. apply _. Defined.

(** The buffer of a zone becomes [n] bytes at [q]. *)
Definition put_buffer (z : zone) (q n : Z) (p : priv) : priv :=
  match z with
  | ZIn => Priv (p_header p) (p_xxh p) (p_bc p) q n (p_tmpOut p) (p_outCap p) (p_self p)
  | ZOut => Priv (p_header p) (p_xxh p) (p_bc p) (p_tmpIn p) (p_inCap p) q n (p_self p)
  | _ => p
  end.

(** [psimp] computes the fields of private memory behind such a change. *)
Ltac psimp := cbn [put_buffer p_header p_xxh p_bc p_tmpIn p_inCap p_tmpOut p_outCap p_self].

Definition is_buffer (z : zone) : Prop := z = ZIn \/ z = ZOut.

Lemma put_buffer_other z q n p dp rm z' :
  z' <> z -> zreg (put_buffer z q n p) dp rm z' = zreg p dp rm z'.
Proof. by destruct z, z'. Qed.

Lemma put_buffer_same z q n p dp rm :
  is_buffer z -> zreg (put_buffer z q n p) dp rm z = (q, n).
Proof. by intros [-> | ->]. Qed.

Lemma zones_intro p dp rm :
  (forall z z', z <> z' -> apart (zreg p dp rm z) (zreg p dp rm z')) -> zones_ok p dp rm.
Proof.
  intros Hz. apply Forall_forall. intros z _. apply Forall_forall. intros z' _.
  destruct (decide (z = z')) as [->|Hne]; [by left|right]. by apply Hz.
Qed.

Lemma agree_mapped (m m' : mem) a n :
  (forall i, a <= i < a + n -> m' !! i = m !! i) -> mapped m a n -> mapped m' a n.
Proof. intros He Hm i Hi. rewrite He by done. by apply Hm. Qed.

Lemma apart_out r (m m' : mem) b n :
  (forall i, ~ member r i -> m' !! i = m !! i) -> apart r (b, n) ->
  forall i, b <= i < b + n -> m' !! i = m !! i.
Proof. intros He Hap i Hi. apply He. unfold member, apart in *. cbn [fst snd] in *. lia. Qed.

(** Regions that have no address in common are apart. *)
Lemma apart_by r t : (forall i, member r i -> member t i -> False) -> apart r t.
Proof. intros H. unfold apart. specialize (H (Z.max r.1 t.1)). unfold member in H. lia. Qed.

Section Init.
Context `{HA : Allocator} (K : call) (HK : call_ok K).
Abbreviation srcEnd := (k_src K + zlen (k_srcl K)).
Abbreviation dstEnd := (k_dst K + k_dstSize K).
Abbreviation rm s := (room K (l_dstPtr s)).

(** The invariant before the first block, with the dictionary of the user. *)
Definition loaded (p : priv) (s : dloop) (m : mem) (c r o : list Z) : Prop :=
  base K p s m c r o /\ user_dict (k_dict K) (l_dctx s) p m (l_dstPtr s) (rm s).

Definition same_dict (d d' : LZ4F_dctx) : Prop :=
  d_dict d' = d_dict d /\ d_dictSize d' = d_dictSize d.

(** The buffers are apart from what others had before the call. *)
Lemma buffer_away p m dp rm' z q k :
  covered K p m -> zones_ok p dp rm' -> is_buffer z -> mapped (k_mem K) q k ->
  apart (p_tmpIn (k_priv K), p_inCap (k_priv K)) (q, k) -> apart (p_tmpOut (k_priv K), p_outCap (k_priv K)) (q, k) ->
  apart (zreg p dp rm' z) (q, k).
Proof.
  intros (Hc & (F1 & F2 & F3 & _) & _) Hz Hzb Hm Hin Hout. apply apart_by. intros i Hi Hqi.
  assert (z <> ZDst) as Hnd by (by destruct Hzb as [-> | ->]).
  destruct (Hc z i Hnd) as [(z0 & Hz0 & H0)|H0]; [by destruct Hzb as [-> | ->]| |].
  - assert (forall z', z' <> z -> member (zreg p dp rm' z') i -> False) as Hap.
    { intros z' Hne Hm'. pose proof (zones_apart _ _ _ _ _ Hz Hne) as A. unfold apart, member in *. lia. }
    destruct z0; cbn [zreg] in H0; try done.
    + apply (Hap ZHeader); [by destruct Hzb as [-> | ->]|]. cbn [zreg]. by rewrite F1.
    + apply (Hap ZXxh); [by destruct Hzb as [-> | ->]|]. cbn [zreg]. by rewrite F2.
    + apply (Hap ZBc); [by destruct Hzb as [-> | ->]|]. cbn [zreg]. by rewrite F3.
    + unfold apart, member in *. cbn [fst snd] in *. lia.
    + unfold apart, member in *. cbn [fst snd] in *. lia.
  - destruct (Hm i) as [v Hv]; [exact Hqi|]. congruence.
Qed.

(** A buffer is given back. *)
Lemma loaded_free p s m m' c r o z d' :
  loaded p s m c r o -> is_buffer z ->
  (forall i, ~ member (zreg p (l_dstPtr s) (rm s) z) i -> m' !! i = m !! i) ->
  (forall q k, block m q k -> apart (zreg p (l_dstPtr s) (rm s) z) (q, k) -> block m' q k) ->
  owns d' (put_buffer z NULL 0 p) -> d_skipChecksum d' = k_skip K -> same_dict (l_dctx s) d' ->
  loaded (put_buffer z NULL 0 p) (DLoop d' (l_srcPtr s) (l_dstPtr s)) m' c r o.
Proof.
  intros [Hb Hud] Hzb He Hblk Hown Hsk (Ed & Es).
  destruct Hb as (_ & Hp & Hz & (S1 & S2 & S3 & S4 & S5) & (D1 & D2 & D3 & D4 & D5) & Hk & Hc).
  set (p' := put_buffer z NULL 0 p) in *.
  assert (forall z', inside (zreg p' (l_dstPtr s) (rm s) z').1 (zreg p' (l_dstPtr s) (rm s) z').2
    (zreg p (l_dstPtr s) (rm s) z')) as Hsub.
  { intros z'. destruct (decide (z' = z)) as [->|Hne].
    - unfold p'. rewrite put_buffer_same by done. left. cbn. lia.
    - unfold p'. rewrite put_buffer_other by done. right. lia. }
  assert (forall t, clear p (l_dstPtr s) (rm s) t -> clear p' (l_dstPtr s) (rm s) t) as Hcl.
  { intros t Ht. apply clear_intro. intros z'. pose proof (clear_apart _ _ _ _ z' Ht). specialize (Hsub z').
    unfold apart, inside in *. lia. }
  assert (forall a l, clear p (l_dstPtr s) (rm s) (a, zlen l) -> holds m a l -> holds m' a l) as Hh.
  { intros a l Ht. apply holds_eq_on, (apart_out _ _ _ _ _ He). by apply clear_apart. }
  destruct Hud as (U1 & U2 & U3 & U4). split.
  2: { unfold user_dict. dsimp. rewrite Ed, Es. splits; try done; [by apply Hh|by apply Hcl]. }
  split; [done|]. dsimp. split; [|split; [|split; [|split; [|split]]]].
  - destruct Hp as (P1 & P2 & P3 & P4 & P5).
    assert (forall z', z' <> z -> z' <> ZDst -> mapped m (zreg p (l_dstPtr s) (rm s) z').1 (zreg p (l_dstPtr s) (rm s) z').2 ->
      mapped m' (zreg p (l_dstPtr s) (rm s) z').1 (zreg p (l_dstPtr s) (rm s) z').2) as Hmp.
    { intros z' Hne _. apply agree_mapped, (apart_out _ _ _ _ _ He). rewrite <- surjective_pairing.
      by apply zones_apart. }
    assert (forall z', z' <> z -> z' <> ZDst -> buffer_ok m (zreg p (l_dstPtr s) (rm s) z').1 (zreg p (l_dstPtr s) (rm s) z').2 ->
      buffer_ok m' (zreg p (l_dstPtr s) (rm s) z').1 (zreg p (l_dstPtr s) (rm s) z').2) as Hbf.
    { intros z' Hne Hnd [?|(? & ? & ? & ? & ?)]; [by left|right]. splits; try done; [by apply Hmp|].
      apply Hblk; [done|]. rewrite <- surjective_pairing. by apply zones_apart. }
    unfold priv_ok, p'. destruct Hzb as [-> | ->]; psimp; splits.
    + by apply (Hmp ZHeader).
    + by apply (Hmp ZXxh).
    + by apply (Hmp ZBc).
    + by left.
    + by apply (Hbf ZOut).
    + by apply (Hmp ZHeader).
    + by apply (Hmp ZXxh).
    + by apply (Hmp ZBc).
    + by apply (Hbf ZIn).
    + by left.
  - apply zones_intro.
    intros z1 z2 Hne. pose proof (zones_apart _ _ _ _ _ Hz Hne). pose proof (Hsub z1). pose proof (Hsub z2).
    unfold apart, inside in *. lia.
  - splits; try done; [by apply Hh|by apply Hcl].
  - splits; try done; [by apply Hh|by apply Hcl|].
    eapply agree_mapped; [|exact D5]. eapply (apart_out _ _ _ _ _ He). apply (zones_apart _ _ _ z ZDst Hz).
    by destruct Hzb as [-> | ->].
  - intros i Hi Hn. rewrite <- (Hk i Hi Hn). apply He. intros Hm.
    destruct (proj1 Hc z i) as [(z0 & _ & H0)|H0]; [by destruct Hzb as [-> | ->]..|by apply (Hn z0)|].
    rewrite H0 in Hi. by destruct Hi.
  - split.
    + intros z' i Hne Hi. apply (proj1 Hc z'); [done|]. specialize (Hsub z').
      unfold member, inside in *. destruct z'; cbn [zreg fst snd] in *; done || lia.
    + destruct Hc as (Hc1 & Hfx & Hbk). split; [by unfold p'; destruct Hzb as [-> | ->]|].
      intros q k Hq Hm H3 H4. apply Hblk; [by apply Hbk|]. by eapply buffer_away.
Qed.

(** Addresses outside the zones that the caller could use are still in use. *)
Lemma unmapped_covered m i :
  kept K m -> mapped m (k_dst K) (k_dstSize K) -> m !! i = None -> old_or_fresh K i.
Proof.
  intros Hk Hd Hn. unfold old_or_fresh. destruct (k_mem K !! i) as [v|] eqn:E; [left|by right].
  destruct (decide (Exists (fun z => member (zreg (k_priv K) (k_dst K) (k_dstSize K) z) i) all_zones)) as [H1|H1].
  - apply Exists_exists in H1 as (z & _ & Hz). exists z. split; [|done]. intros ->.
    destruct (Hd i Hz) as [u Hu]. congruence.
  - exfalso. rewrite Hk in Hn; [congruence|by eexists|]. intros z Hz. apply H1, Exists_exists.
    exists z. split; [apply all_zones_elem|done].
Qed.

Section Alloc.
Context (p : priv) (s : dloop) (m m' : mem) (c r o : list Z) (z : zone) (q n : Z).
Context (Hl : loaded p s m c r o) (Hzb : is_buffer z) (Hq : 0 < q) (Hn : 0 <= n) (Hq63 : q + n < 2 ^ 63).
Context (Hfresh : forall i, q <= i < q + n -> m !! i = None) (Hmq : mapped m' q n).
Context (He : forall i, ~ (q <= i < q + n) -> m' !! i = m !! i).
Context (Hbq : block m' q n) (Hblk : forall q' k, block m q' k -> block m' q' k).
Abbreviation p' := (put_buffer z q n p).

Lemma fresh_away a k : mapped m a k -> apart (q, n) (a, k).
Proof. apply fresh_apart. intros i Hi. apply Hfresh. lia. Qed.

Lemma alloc_kept a l : holds m a l -> holds m' a l.
Proof.
  intros Hh. eapply holds_eq_on; [|exact Hh]. intros i Hi. apply He. intros Hf.
  destruct (holds_mapped m a l Hh i Hi) as [v Hv]. rewrite Hfresh in Hv by lia. done.
Qed.

Lemma alloc_mapped a k : mapped m a k -> mapped m' a k.
Proof.
  intros Hm i Hi. destruct (decide (q <= i < q + n)) as [Hf|Hf]; [by apply Hmq|]. rewrite He by done. by apply Hm.
Qed.

Lemma alloc_clear a l : holds m a l -> clear p (l_dstPtr s) (rm s) (a, zlen l) ->
  clear p' (l_dstPtr s) (rm s) (a, zlen l).
Proof.
  intros Hh Hc. apply clear_intro. intros z'. destruct (decide (z' = z)) as [->|Hne].
  - rewrite put_buffer_same by done. by apply fresh_away, holds_mapped.
  - rewrite put_buffer_other by done. by apply clear_apart.
Qed.

Lemma alloc_priv : priv_ok p m -> priv_ok p' m'.
Proof.
  intros (P1 & P2 & P3 & P4 & P5).
  assert (forall b k, buffer_ok m b k -> buffer_ok m' b k) as Hbf.
  { intros b k [?|(? & ? & ? & ? & ?)]; [by left|right]. splits; try done; [by apply alloc_mapped|by apply Hblk]. }
  assert (buffer_ok m' q n) as Hnew by (right; by splits).
  unfold priv_ok. destruct Hzb as [-> | ->];
    psimp; splits;
    try done; first [by apply alloc_mapped|by apply Hbf].
Qed.

Lemma alloc_zones : priv_ok p m -> mapped m (l_dstPtr s) (rm s) -> zones_ok p (l_dstPtr s) (rm s) ->
  zones_ok p' (l_dstPtr s) (rm s).
Proof.
  intros Hp Hd Hz. assert (forall z', mapped m (zreg p (l_dstPtr s) (rm s) z').1 (zreg p (l_dstPtr s) (rm s) z').2) as Hm.
  { intros z'. destruct (decide (z' = ZDst)) as [->|Hne]; [done|]. by apply priv_mapped. }
  assert (forall z', apart (q, n) (zreg p (l_dstPtr s) (rm s) z')) as Ha.
  { intros z'. rewrite (surjective_pairing (zreg p _ _ z')). by apply fresh_away. }
  apply zones_intro. intros z1 z2 Hne.
  destruct (decide (z1 = z)) as [->|H1], (decide (z2 = z)) as [->|H2];
    rewrite ?put_buffer_same, ?put_buffer_other by done;
    [done|apply Ha|apply apart_sym, Ha|by apply zones_apart].
Qed.

(** A buffer is allocated. *)
Lemma loaded_alloc d' :
  owns d' p' -> d_skipChecksum d' = k_skip K -> same_dict (l_dctx s) d' ->
  loaded p' (DLoop d' (l_srcPtr s) (l_dstPtr s)) m' c r o.
Proof.
  intros Hown Hsk (Ed & Es). destruct Hl as [Hb (U1 & U2 & U3 & U4)].
  pose proof (base_dst _ _ _ _ _ _ _ Hb) as Hdm.
  destruct Hb as (_ & Hp & Hz & (S1 & S2 & S3 & S4 & S5) & (D1 & D2 & D3 & D4 & D5) & Hk & Hc).
  split.
  2: { unfold user_dict. dsimp. rewrite Ed, Es. splits; try done; [by apply alloc_kept|by apply alloc_clear]. }
  split; [done|]. dsimp. split; [by apply alloc_priv|]. split; [by apply alloc_zones|].
  split; [splits; try done; [by apply alloc_kept|by apply alloc_clear]|].
  split; [splits; try done; [by apply alloc_kept|by apply alloc_clear|by apply alloc_mapped]|]. split.
  - intros i Hi Hni. destruct (decide (q <= i < q + n)) as [Hf|Hf]; [|by rewrite He, Hk].
    exfalso. assert (m !! i = None) as E by (apply Hfresh; lia). rewrite Hk in E by done.
    rewrite E in Hi. by destruct Hi.
  - split.
    + intros z' i Hnd Hi. destruct (decide (z' = z)) as [->|Hne].
      * rewrite put_buffer_same in Hi by done. unfold member in Hi. cbn [fst snd] in Hi.
        apply (unmapped_covered m); [done..|]. apply Hfresh. lia.
      * rewrite put_buffer_other in Hi by done. by apply (proj1 Hc z').
    + destruct Hc as (Hc1 & Hfx & Hbk). split; [by destruct Hzb as [-> | ->]|].
      intros q' k Hq' Hm H3 H4. by apply Hblk, Hbk.
Qed.
End Alloc.

(** * The stage *)

(** [free] and [malloc] of one buffer; the context [d'] has the new address. *)
Lemma wp_realloc p s m c r o z a n (put : Z -> LZ4F_dctx -> LZ4F_dctx)
    {A} (k : Z -> M A) Q :
  loaded p s m c r o -> is_buffer z -> a = (zreg p (l_dstPtr s) (rm s) z).1 -> 0 <= n ->
  (forall v k, 0 <= k -> owns (put v (l_dctx s)) (put_buffer z v k p)) ->
  (forall v, d_skipChecksum (put v (l_dctx s)) = k_skip K) ->
  (forall v, same_dict (l_dctx s) (put v (l_dctx s))) ->
  (forall v m', loaded (put_buffer z v (if v =? NULL then 0 else n) p)
       (DLoop (put v (l_dctx s)) (l_srcPtr s) (l_dstPtr s)) m' c r o -> wp (k v) Q m') ->
  wp (LZ4F_free a;; v ← LZ4F_malloc n; k v) Q m.
Proof.
  intros Hl Hzb Ha Hn Hown Hsk Hsd HQ. apply wp_bind.
  apply (wp_mono _ (fun _ m' => loaded (put_buffer z NULL 0 p)
    (DLoop (put NULL (l_dctx s)) (l_srcPtr s) (l_dstPtr s)) m' c r o)).
  - assert (buffer_ok m a (zreg p (l_dstPtr s) (rm s) z).2) as Hbuf.
    { rewrite Ha. destruct Hl as [(_ & (_ & _ & _ & P4 & P5) & _) _]. by destruct Hzb as [-> | ->]. }
    unfold LZ4F_free, NULL. destruct (Z.eqb_spec a 0) as [E|E].
    + apply wp_ret. eapply (loaded_free p s m m); try done. by apply Hown.
    + destruct Hbuf as [[? _]|(_ & _ & _ & _ & Hblk)]; [done|].
      eapply wp_mono; [by apply free_ok|]. intros _ m' [He Hb]. rewrite Ha in He, Hb.
      eapply (loaded_free p s m m'); try done. by apply Hown.
  - intros _ m1 Hl1. apply wp_bind. unfold LZ4F_malloc. eapply wp_mono; [by apply alloc_ok|]. intros v m' Hv. apply HQ.
    destruct Hv as [[-> ->]|(Hv & H63 & Hfr & Hm & He & Hb & Hbs)]; [done|].
    rewrite (proj2 (Z.eqb_neq v NULL)) by (unfold NULL; lia).
    replace (put_buffer z v n p) with (put_buffer z v n (put_buffer z NULL 0 p)) by (by destruct Hzb as [-> | ->]).
    eapply (loaded_alloc _ (DLoop (put NULL (l_dctx s)) (l_srcPtr s) (l_dstPtr s)) m1); try done.
    + replace (put_buffer z v n (put_buffer z NULL 0 p)) with (put_buffer z v n p) by (by destruct Hzb as [-> | ->]).
      by apply Hown.
    + destruct (Hsd v), (Hsd NULL). split; dsimp; congruence.
Qed.

(** The buffers are large enough for the frame. *)
Definition sized_for (p : priv) (d : LZ4F_dctx) : Prop :=
  d_maxBlockSize d + 4 <= p_inCap p /\
  d_maxBlockSize d + (if d_linked d then 128 * KB else 0) <= d_maxBufferSize d.

(** The assignments of [initBuffers]. *)
Definition put_buffers (a b k : Z) (d : LZ4F_dctx) : LZ4F_dctx :=
  set_maxBufferSize k (set_tmpOutBuffer b (set_tmpIn a d)).

Lemma wp_initBuffers p s m c r o b Q :
  loaded p s m c r o -> 4 <= b <= 7 -> d_maxBlockSize (l_dctx s) = LZ4F_getBlockSize b ->
  (forall e a b k p' m', let d' := put_buffers a b k (l_dctx s) in
     loaded p' (DLoop d' (l_srcPtr s) (l_dstPtr s)) m' c r o ->
     (e = LZ4F_OK_NoError /\ sized_for p' d') \/ e = LZ4F_ERROR_allocation_failed -> Q (e, d') m') ->
  wp (initBuffers (l_dctx s)) Q m.
Proof.
  intros Hl Hb Hbs HQ. pose proof (block_sizes b Hb) as Hsz. rewrite <- Hbs in Hsz.
  pose proof Hl as [((Hown & Hsk) & _) _]. unfold initBuffers. set (d := l_dctx s) in *.
  set (need := d_maxBlockSize d + (if d_linked d then 128 * KB else 0)).
  assert (64 * KB <= d_maxBlockSize d <= need /\ need <= d_maxBlockSize d + 128 * KB) as Hneed
    by (unfold need, KB, MB in *; destruct (d_linked d); lia).
  destruct (Z.ltb_spec (d_maxBufferSize d) need) as [Hlt|Hge].
  2: { apply wp_ret. replace d with (put_buffers (d_tmpIn d) (d_tmpOutBuffer d) (d_maxBufferSize d) d) at 1 by (by destruct d).
       apply (HQ _ _ _ _ p); [|].
       - replace (put_buffers (d_tmpIn d) (d_tmpOutBuffer d) (d_maxBufferSize d) d) with d by (by destruct d).
         by destruct s.
       - left. split; [done|]. split; [|done]. unfold put_buffers. dsimp. rewrite Hbs. eapply reuse_in; [done|done|lia]. }
  pose proof Hown as (O1 & O2 & O3 & O4 & O5 & O6 & _ & O8).
  cbv zeta. dsimp. unfold BFSize.
  apply (wp_realloc p s m c r o ZIn (d_tmpIn d) _ (fun v d => set_tmpIn v (set_maxBufferSize 0 d))); try done.
  { by left. } { unfold KB in *; lia. }
  { intros v k Hk. fold d. unfold owns. dsimp. psimp. splits; try done; lia. }
  intros v m1 Hl1. unfold NULL in *. destruct (Z.eqb_spec v 0) as [Ev|Ev].
  { apply wp_ret. eapply (HQ _ v (d_tmpOutBuffer d) 0 _ m1); [|by right].
    unfold put_buffers. replace (set_maxBufferSize _ _) with (set_tmpIn v (set_maxBufferSize 0 d)) by (by destruct d). done. }
  eapply (wp_realloc _ _ m1 c r o ZOut _ _ set_tmpOutBuffer); [exact Hl1|by right|done|unfold KB in *; lia|..]; dsimp; try done.
  { intros u k Hk. fold d. unfold owns. dsimp. psimp. splits; try done; lia. }
  intros u m2 Hl2. fold d in Hl2. dsimp. unfold NULL in *. destruct (Z.eqb_spec u 0) as [Eu|Eu].
  { apply wp_ret. eapply (HQ _ v u 0 _ m2); [|by right].
    unfold put_buffers. replace (set_maxBufferSize _ _) with (set_tmpOutBuffer u (set_tmpIn v (set_maxBufferSize 0 d))) by (by destruct d). done. }
  apply wp_ret. eapply (HQ _ v u need _ m2).
  - destruct Hl2 as [Hb2 Hu2]. split; [|exact Hu2]. eapply base_ctx; [exact Hb2| |done..].
    unfold owns, put_buffers. dsimp. psimp. splits; try done; try lia. right. exists b.
    rewrite <- Hbs. split; [done|]. lia.
  - left. split; [done|]. split; [cbn; lia|done].
Qed.

Lemma stage_init_ok s m :
  inv K s m -> d_dStage (l_dctx s) = dstage_init ->
  wp (stage_init srcEnd dstEnd s) (turn_post K s) m.
Proof.
  intros (p & c & r & o & Hb & Hst) Hs. unfold stage_ok in Hst. rewrite Hs in Hst.
  destruct Hst as (He & Hud & Hpar & Hbs & Hrem). pose proof Hb as ((Hown & Hskip) & Hpriv & Hz & _).
  destruct (base_src _ HK _ _ _ _ _ _ Hb) as (_ & _ & _ & _ & Hok & _ & _).
  pose proof (parse_frame_wf _ _ _ Hok Hpar) as Hi. pose proof Hi as (Hbid & _ & _ & _ & Hcs & _).
  unfold stage_init. apply wp_bind.
  apply (wp_mono _ (fun d' m' => exists st, d' = set_xxh st (l_dctx s) /\ mem32 st = mem32 (d_xxh (l_dctx s)) /\
    (d_contentCrc (l_dctx s) = true -> st = XXH32_state 0 0 (XXH32_init 0) (p_xxh p) 0) /\
    loaded p (DLoop d' (l_srcPtr s) (l_dstPtr s)) m' c r o)).
  { pose proof Hown as (_ & Ex & _). destruct (d_contentCrc (l_dctx s)).
    - apply wp_bind, wp_XXH32_reset; [rewrite Ex; apply Hpriv|]. intros m' Hf st Hrep. apply wp_ret. exists st.
      assert (zframe p (l_dstPtr s) (rm s) ZXxh m m') as Hzf by (unfold zframe; cbn; by rewrite <- Ex).
      split; [done|]. split; [done|]. split; [intros _; unfold st; by rewrite Ex|]. split.
      + eapply base_ctx; [by eapply base_write|done..].
      + by eapply (user_dict_kept _ _ _ _ _ _ Hzf).
    - apply wp_ret. exists (d_xxh (l_dctx s)). split; [by destruct (l_dctx s)|]. split; [done|]. split; [done|].
      by split; [eapply base_ctx|]. }
  intros d1 m1 (st & -> & Est & Hst & Hl1). apply wp_bind.
  eapply (wp_initBuffers p (DLoop (set_xxh st (l_dctx s)) (l_srcPtr s) (l_dstPtr s)) m1 c r o); [done|exact Hbid|done|].
  intros e a b k p' m2 d2 [Hb2 Hu2] Hsf. subst d2. cbn beta iota.
  destruct Hsf as [(-> & Hin & Hout)| ->]; cbn [bool_decide decide not_dec].
  2: { apply wp_ret. by eapply fail_turn; [exact Hb2|apply Hb2| |left]. }
  pose proof Hb2 as ((Hown2 & Hsk2) & Hp2 & _).
  apply stage_getBlockHeader_ok; [done| |done|unfold meas; dsimp; rewrite Hs; done|done].
  exists p', c, r, o. split; [by eapply base_ctx|]. unfold stage_ok, put_buffers in *. dsimp. rewrite He.
  exists []. split; [|split].
  - exists c. split; [|split; [constructor|by rewrite app_nil_r]]. unfold in_frame. dsimp. splits; try done.
    intros _. apply Hown2.
  - split; dsimp.
    + intros Hcc _. rewrite (Hst Hcc). split; [|done]. apply buffered_nil; [lia|].
      destruct Hown2 as (_ & E & _). dsimp. rewrite (Hst Hcc) in E. cbn in E. cbn. rewrite E. apply Hp2.
    + rewrite Hrem. change (zlen (@nil Z)) with 0. rewrite Z.sub_0_r, u64_small by done.
      destruct (Z.eqb_spec (contentSize (d_frameInfo (l_dctx s))) 0); done.
  - exists (k_dict K). destruct Hu2 as (U1 & U2 & U3 & U4). dsimp. split.
    + split; [done|]. split; [done|]. split; [done|]. by right.
    + unfold history. dsimp. destruct (_ =? _); [rewrite app_nil_r|]; apply window_refl.
Qed.
End Init.
