(* ===== verification/Lz4FrameCallSpec.v ===== *)
(** A whole call of [LZ4F_decompress]: the loop over the stages, and the history
    that is kept when the call returns. *)
From S2P Require Import Prelude.
From S2P Require Import Mem.
From S2P Require Import Xxhash.
From S2P Require Import XxhashSpec.
From S2P Require Import XxhashStream.
From S2P Require Import BlockFormat.
From S2P Require Import Lz4Common.
From S2P Require Import Lz4Decompress.
From S2P Require Import Lz4Frame.
From S2P Require Import Lz4FrameDecode.
From S2P Require Import FrameFormat.
From S2P Require Import Lz4FrameHeader.
From S2P Require Import Lz4FrameInv.
From S2P Require Import Lz4FrameDict.
From S2P Require Import Lz4FrameCall.
From S2P Require Import Lz4FrameStages.
From S2P Require Import Lz4FrameBlockStages.
From S2P Require Import Lz4FrameCopy.
From S2P Require Import Lz4FrameCBlock.
From S2P Require Import Lz4FrameInit.

(** * The history in the stages within a frame *)

(** The stages that use a history other than that of a block being flushed. *)
Definition in_blocks (s : dStage_t) : bool :=
  match s with
  | dstage_getBlockHeader | dstage_storeBlockHeader | dstage_copyDirect | dstage_getBlockChecksum
  | dstage_getCBlock | dstage_storeCBlock => true
  | _ => false
  end.

(** In these stages the history can be moved to the output buffer. *)
Lemma stage_rehist `{HA : Allocator} dict0 p d m dst room c e :
  stage_ok dict0 p d m dst room c e -> in_blocks (d_dStage d) = true ->
  owns d p -> zones_ok p dst room -> d_linked d = true -> bytes_ok c ->
  (exists bs o q, read_so_far dict0 d p bs o q c) /\ block_hist dict0 d p m dst room e /\
  forall a n t m', let d' := set_tmpOut t (put_dict a n d) in
    zframe p dst room ZOut m m' -> block_hist dict0 d' p m' dst room e ->
    stage_ok dict0 p d' m' dst room c e.
Proof.
  intros Hst Hin Hown Hz El Hok.
  assert (forall bs o q a n t, read_so_far dict0 d p bs o q c ->
    read_so_far dict0 (set_tmpOut t (put_dict a n d)) p bs o q c) as Hrd'.
  { intros bs o q a n t (hdr & (H1 & H2 & H3 & H4 & H5) & Hc & Ec). exists hdr. split; [|done].
    unfold in_frame. dsimp. splits; try done. intros Hl. change (d_linked _) with (d_linked d) in Hl. congruence. }
  assert (forall m' tot a n t, zframe p dst room ZOut m m' -> counted d m tot ->
    counted (set_tmpOut t (put_dict a n d)) m' tot) as Hcnt'.
  { intros m' tot a n t Hf Hc. by eapply (counted_kept _ _ _ _ _ _ Hf Hz d). }
  assert (forall m' x, zframe p dst room ZOut m m' -> XXH32_rep 0 m (d_blockChecksum d) x ->
    XXH32_rep 0 m' (d_blockChecksum d) x) as Hbc' by (intros; by eapply bc_kept).
  pose proof Hown as (Eh & _ & _ & Ei & _).
  assert (forall bs o q x m', read_so_far dict0 d p bs o q c -> zframe p dst room ZOut m m' ->
    zlen x <= d_maxBlockSize d + 4 -> holds m (d_tmpIn d) x -> holds m' (d_tmpIn d) x) as Htmp.
  { intros bs o q x m' Hrd Hf Hx. destruct (read_facts _ _ _ _ _ _ _ Hok Hrd) as (_ & _ & Hcap & _).
    eapply (zone_zkept _ _ _ _ _ _ Hf Hz ZIn); [done|]. rewrite Ei. right. cbn. lia. }
  assert (forall bs o q, read_so_far dict0 d p bs o q c -> 64 * KB <= d_maxBlockSize d) as Hblk
    by (intros bs o q Hrd; by destruct (read_facts _ _ _ _ _ _ _ Hok Hrd) as (_ & [? _] & _)).
  unfold stage_ok in Hst. destruct (d_dStage d) eqn:Es; try done;
    [destruct Hst as (bs & Hrd & Hcnt & Hh)
    |destruct Hst as (bs & q & Hrd & Hcnt & Hh & H1 & H2 & H3)
    |destruct Hst as (bs & o & x & Hrd & -> & Hcnt & Hh & H1 & H2 & H3)
    |destruct Hst as (bs & o & x & q & Hrd & -> & Hcnt & Hh & H1 & H2 & H3 & H4 & H5 & H6)
    |destruct Hst as (bs & n & Hrd & Hcnt & Hh & H1 & H2)
    |destruct Hst as (bs & n & q & Hrd & Hcnt & Hh & H1 & H2 & H3 & H4 & H5)];
    (split; [by do 3 eexists|]; split; [done|]); intros a k t m' d' Hf Hh'; subst d';
    unfold stage_ok; dsimp; rewrite Es; pose proof (Hblk _ _ _ Hrd) as Hb; unfold KB in Hb.
  - exists bs. split; [by apply Hrd'|]. split; [by apply Hcnt'|done].
  - exists bs, q. split; [by apply Hrd'|]. split; [by apply Hcnt'|]. splits; try done.
    eapply Htmp; [done|done|lia|done].
  - exists bs, o, x. split; [by apply Hrd'|]. split; [done|]. split; [by apply Hcnt'|]. splits; try done.
    intros E1 E2. apply Hbc'; [done|]. by apply H3.
  - exists bs, o, x, q. split; [by apply Hrd'|]. split; [done|]. split; [by apply Hcnt'|]. splits; try done.
    + eapply (zone_zkept _ _ _ _ _ _ Hf Hz ZHeader); [done| |done]. rewrite Eh. right. cbn. lia.
    + intros E1. apply Hbc'; [done|]. by apply H6.
  - exists bs, n. split; [by apply Hrd'|]. split; [by apply Hcnt'|]. by splits; [|lia..|].
  - exists bs, n, q. split; [by apply Hrd'|]. split; [by apply Hcnt'|]. splits; try done; try lia.
    eapply Htmp; [done|done| |done]. destruct (d_blockCrc d); lia.
Qed.

Definition is_flush (s : dStage_t) : bool := bool_decide (s = dstage_flushOut).

(** The history does not depend on a buffer of the caller. *)
Definition history_own (d : LZ4F_dctx) : Prop :=
  d_linked d = true -> in_blocks (d_dStage d) || is_flush (d_dStage d) = true ->
  d_dict d = d_tmpOutBuffer d \/ d_dictSize d = 0.

(** The stage is the same, and there is the same to write. *)
Definition same_stage (d d' : LZ4F_dctx) : Prop :=
  d_dStage d' = d_dStage d /\ (needs_room d -> needs_room d').

Section CallSpec.
Context `{HA : Allocator} (K : call) (HK : call_ok K).
Abbreviation srcEnd := (k_src K + zlen (k_srcl K)).
Abbreviation dstEnd := (k_dst K + k_dstSize K).
Abbreviation rm s := (room K (l_dstPtr s)).

Lemma preserve_range s :
  s <> dstage_init ->
  (u32 (stage_index s - 2) <? stage_index dstage_getSuffix - 2) = in_blocks s || is_flush s.
Proof. by destruct s. Qed.

(** The history is copied to the output buffer. *)
Lemma wp_preserve_blocks s m Q :
  inv K s m -> in_blocks (d_dStage (l_dctx s)) = true -> d_linked (l_dctx s) = true ->
  d_dict (l_dctx s) <> d_tmpOutBuffer (l_dctx s) ->
  let d := l_dctx s in
  (forall d' m', inv K (DLoop d' (l_srcPtr s) (l_dstPtr s)) m' -> same_stage d d' ->
     d_dict d' = d_tmpOutBuffer d' -> Q d' m') ->
  wp (let oldDictEnd := d_dict d + d_dictSize d in
      let newDictSize := Z.min (d_dictSize d) (64 * KB) in
      memcpy (d_tmpOutBuffer d) (oldDictEnd - newDictSize) newDictSize;;
      mret (set_tmpOut (d_tmpOutBuffer d + newDictSize)
              (set_dictSize newDictSize (set_dict (d_tmpOutBuffer d) d)))) Q m.
Proof.
  intros (p & c & r & o & Hb & Hst) Hin El Hne d HQ. cbv zeta. pose proof Hb as ((Hown & Hskip) & Hpriv & Hz & _).
  destruct (base_src _ HK _ _ _ _ _ _ Hb) as (_ & _ & _ & _ & Hok & _ & _).
  destruct (stage_rehist _ _ _ _ _ _ _ _ Hst Hin Hown Hz El Hok) as ((bs & o1 & q & Hrd) & (w & Hw & Hwin) & Hre).
  destruct (read_facts _ _ _ _ _ _ _ Hok Hrd) as (_ & Hblk & _ & Hbuf & _). rewrite El in Hbuf. cbv iota in Hbuf.
  pose proof Hown as (_ & _ & _ & _ & Eo & _).
  destruct (out_facts d p m Hown Hpriv ltac:(unfold d; lia)) as (T1 & T2 & Hm & T3 & _).
  pose proof Hw as (En & Hwh & Hwp & [[E _]|Hc]); [congruence|]. fold d in En, Hwh, Hwp, Hc, Hbuf, Hblk.
  pose proof (zlen_nonneg w). rewrite <- En.
  destruct (split_last w (Z.min (zlen w) (64 * KB))) as (u & v & -> & Hv & Hu); [unfold KB; lia|].
  rewrite zlen_app in *. rewrite <- Hv. pose proof (zlen_nonneg v). pose proof (zlen_nonneg u).
  replace (d_dict d + (zlen u + zlen v) - zlen v) with (d_dict d + zlen u) by lia.
  apply holds_app in Hwh as [_ Hvh]. apply wp_bind. fold d in Eo. rewrite Eo.
  apply wp_memcpy_apart; [done| | |].
  - eapply mapped_sub; [exact Hm|unfold KB in *; lia..].
  - eapply apart_inside; [exact (clear_apart _ _ _ _ ZOut Hc)| |]; right; cbn; unfold KB in *; lia.
  - intros m' Hf Hv'. apply wp_ret.
    change (set_dictSize ?n (set_dict ?a d)) with (put_dict a n d).
    assert (zframe p (l_dstPtr s) (rm s) ZOut m m') as Hzf
      by (eapply zframe_of; [exact Hf|right; cbn; unfold KB in *; lia]).
    apply HQ; [|done|done]. exists p, c, r, o. split.
    { eapply base_ctx; [by eapply base_write|done..]. }
    apply Hre; [done|]. exists v. split.
    + eapply (dict_in_out d p m Hown Hpriv El ltac:(lia)); [done|unfold KB in *; lia].
    + eapply (window_last u); [|exact Hwin]. destruct (Z.eq_dec (zlen u) 0); [left; apply zlen_0_nil; lia|right; lia].
Qed.

Lemma wp_preserve_flush s m Q :
  inv K s m -> d_dStage (l_dctx s) = dstage_flushOut -> d_linked (l_dctx s) = true ->
  d_dict (l_dctx s) <> d_tmpOutBuffer (l_dctx s) ->
  let d := l_dctx s in
  (forall d' m', inv K (DLoop d' (l_srcPtr s) (l_dstPtr s)) m' -> same_stage d d' ->
     d_dict d' = d_tmpOutBuffer d' -> Q d' m') ->
  wp (let preserveSize := u64 (d_tmpOut d - d_tmpOutBuffer d) in
      let copySize := u64 (64 * KB - d_tmpOutSize d) in
      let oldDictEnd := d_dict d + d_dictSize d - d_tmpOutStart d in
      let copySize := if 64 * KB <? d_tmpOutSize d then 0 else copySize in
      let copySize := if preserveSize <? copySize then preserveSize else copySize in
      memcpy (d_tmpOutBuffer d + preserveSize - copySize) (oldDictEnd - copySize) copySize;;
      mret (set_dictSize (preserveSize + d_tmpOutStart d) (set_dict (d_tmpOutBuffer d) d))) Q m.
Proof.
  intros (p & c & r & o & Hb & Hst) Hs El Hne d HQ. unfold stage_ok in Hst. rewrite Hs in Hst. fold d in Hst.
  destruct Hst as (bs & o1 & x & Hrd & Hcnt & He & Hst & Hsz & Hxl & Hx & Hpre & Hfit & Hfl).
  pose proof Hb as ((Hown & Hskip) & Hpriv & Hz & _). fold d in Hown, El, Hne. rewrite El in Hfl.
  destruct (base_src _ HK _ _ _ _ _ _ Hb) as (_ & _ & _ & _ & Hok & _ & _).
  destruct (read_facts _ _ _ _ _ _ _ Hok Hrd) as (_ & Hblk & _ & Hbuf & _). rewrite El in Hbuf. cbv iota in Hbuf.
  pose proof Hown as (_ & _ & _ & _ & Eo & _). destruct Hfl as [Hph [[E _]|Hfo]]; [congruence|].
  destruct (out_facts d p m Hown Hpriv ltac:(lia)) as (T1 & T2 & Hm & T3 & _).
  set (pre := d_tmpOut d - p_tmpOut p) in *. rewrite Eo. cbv zeta. pose proof (zlen_nonneg x).
  change (d_tmpOut d - p_tmpOut p) with pre. rewrite (u64_small pre), <- Hsz by (unfold KB, MB in *; lia).
  pose proof (front_size_eq (zlen x) pre ltac:(unfold KB, MB in *; lia) Hpre) as Efs. cbv zeta in Efs. rewrite Efs.
  apply wp_bind. eapply (wp_copy_front d p m (l_dstPtr s) (rm s) _ x Hown Hpriv ltac:(lia) pre Hpre
    ltac:(lia) Hph (d_tmpOutStart d) eq_refl Hst); [exact Hfo|].
  intros m' Hf Hfr. apply wp_ret. change (set_dictSize ?n (set_dict ?a d)) with (put_dict a n d).
  assert (zframe p (l_dstPtr s) (rm s) ZOut m m') as Hzf by (eapply zframe_of; [exact Hf|right; cbn; lia]).
  apply HQ; [|done|done]. exists p, c, r, o. split; [eapply base_ctx; [by eapply base_write|done..]|].
  unfold stage_ok. dsimp. fold d in Hs. rewrite Hs. exists bs, o1, x. splits; try done; try lia.
  - by eapply (counted_kept _ _ _ _ _ _ Hzf Hz d).
  - eapply frame_holds; [exact Hf|right; lia|done].
  - unfold flush_hist. dsimp. change (d_linked (put_dict _ _ d)) with (d_linked d). rewrite El.
    split; [done|]. split; [done|]. split; [done|]. left. by split.
Qed.

(** A dictionary at [NULL] is empty. *)
Lemma null_dict s m :
  inv K s m -> d_linked (l_dctx s) = true ->
  in_blocks (d_dStage (l_dctx s)) || is_flush (d_dStage (l_dctx s)) = true -> d_dict (l_dctx s) = NULL ->
  d_dict (l_dctx s) = d_tmpOutBuffer (l_dctx s) \/ d_dictSize (l_dctx s) = 0.
Proof.
  intros (p & c & r & o & Hb & Hst) El Hs Hn. pose proof Hb as ((Hown & _) & _ & Hz & _).
  destruct (base_src _ HK _ _ _ _ _ _ Hb) as (_ & _ & _ & _ & Hok & _ & _).
  assert (forall w : list Z, zlen w = d_dictSize (l_dctx s) ->
    w = [] \/ (0 < d_dict (l_dctx s) /\ d_dict (l_dctx s) + zlen w <= 2 ^ 63) -> d_dictSize (l_dctx s) = 0) as Hw.
  { intros w En [->|[? _]]; [done|]. unfold NULL in Hn. lia. }
  apply orb_true_iff in Hs as [Hs|Hs%bool_decide_eq_true].
  - destruct (stage_rehist _ _ _ _ _ _ _ _ Hst Hs Hown Hz El Hok) as (_ & (w & (En & _ & Hp & _) & _) & _).
    right. by apply (Hw w).
  - unfold stage_ok in Hst. rewrite Hs in Hst.
    destruct Hst as (bs & o1 & x & _ & _ & _ & _ & _ & _ & _ & _ & _ & Hfl). rewrite El in Hfl.
    destruct Hown as (_ & _ & _ & _ & Eo & _). destruct Hfl as [_ [[E _]|(_ & w & En & _ & Hp & _)]]; [left; congruence|].
    right. by apply (Hw w).
Qed.

Lemma wp_preserveHistory opts s m Q :
  inv K s m -> waits (d_dStage (l_dctx s)) = true ->
  (forall d' m', inv K (DLoop d' (l_srcPtr s) (l_dstPtr s)) m' -> same_stage (l_dctx s) d' ->
     (stableDst opts = 0 -> history_own d') -> Q d' m') ->
  wp (preserveHistory opts (l_dctx s)) Q m.
Proof.
  intros Hinv Hni HQ. unfold preserveHistory. rewrite preserve_range by (intros E; by rewrite E in Hni).
  destruct (_ && _) eqn:Ec.
  - rewrite !andb_true_iff, !negb_true_iff, !Z.eqb_neq in Ec. destruct Ec as ((((El & Hne) & _) & _) & Hst).
    apply orb_true_iff in Hst. case_bool_decide as Hs.
    + eapply wp_preserve_flush; try done. intros d' m' Hi Es Ed. apply HQ; [done..|]. intros _ _ _. by left.
    + destruct Hst as [Hst|Hst]; [|by apply bool_decide_eq_true in Hst].
      eapply wp_preserve_blocks; try done. intros d' m' Hi Es Ed. apply HQ; [done..|]. intros _ _ _. by left.
  - apply wp_ret, HQ; [by destruct s|done|]. intros Est El Hst. rewrite El, Hst, Est in Ec. cbn [andb Z.eqb] in Ec.
    rewrite !andb_true_r in Ec. apply andb_false_iff in Ec as [Ec|Ec]; apply negb_false_iff, Z.eqb_eq in Ec; [by left|].
    by apply (null_dict s m).
Qed.

(** * The loop *)

Lemma decompress_turn_ok s m :
  inv K s m -> wp (decompress_turn srcEnd (k_dst K) dstEnd s) (turn_post K s) m.
Proof.
  intros Hi. unfold decompress_turn. destruct (d_dStage (l_dctx s)) eqn:Hs.
  - by apply stage_getFrameHeader_ok.
  - by apply stage_storeFrameHeader_ok.
  - by apply stage_init_ok.
  - by apply stage_getBlockHeader_ok.
  - by apply stage_storeBlockHeader_ok.
  - by apply stage_copyDirect_ok.
  - by apply stage_getBlockChecksum_ok.
  - by apply stage_getCBlock_ok.
  - by apply stage_storeCBlock_ok.
  - apply stage_flushOut_ok; [done..|lia|by rewrite Hs].
  - by apply stage_getSuffix_ok.
  - by apply stage_storeSuffix_ok.
  - by apply stage_getSFrameSize_ok.
  - by apply stage_storeSFrameSize_ok.
  - by apply stage_skipSkippable_ok.
Qed.

Lemma inv_meas s m : inv K s m -> 0 <= meas K s <= 8 * (zlen (k_srcl K)) + 2.
Proof.
  intros (p & c & r & o & Hb & _). pose proof Hb as (_ & _ & _ & (_ & Hs & He & _) & _). pose proof (zlen_nonneg r).
  unfold meas. pose proof (rank_nonneg (d_dStage (l_dctx s))). lia.
Qed.

(** How the loop ends. *)
Definition loop_post (t : dturn) (m : mem) : Prop :=
  match t with
  | Again _ => False
  | Leave hint s => 0 <= hint < 2 ^ 33 /\
      if hint =? 0 then completed K s m else inv K s m /\ stopped K s
  | Return code d =>
      (LZ4F_isError code = true /\ failed K d m /\ blamed K code) \/
      (code = minFHSize /\ k_srcl K = [] /\ d_dStage d = dstage_getFrameHeader /\
       inv K (DLoop d (k_src K) (k_dst K)) m)
  end.

Lemma wp_decompress_loop s m :
  inv K s m ->
  wp (loop (decompress_fuel (zlen (k_srcl K))) (decompress_body srcEnd (k_dst K) dstEnd) s) loop_post m.
Proof.
  intros Hi. pose proof (inv_meas _ _ Hi). pose proof (zlen_nonneg (k_srcl K)).
  apply (wp_loop (inv K) (meas K)); [|done|unfold decompress_fuel; lia].
  clear s m Hi H0. intros s m Hi. split; [by apply (inv_meas s m)|]. unfold decompress_body. apply wp_bind.
  eapply wp_mono; [by apply decompress_turn_ok|]. intros [s'|hint s'|code d'] m' Ht; by apply wp_ret.
Qed.
End CallSpec.
