(* ===== verification/Lz4FrameApi.v ===== *)
(** [LZ4F_decompress] as its callers see it: the context between two calls, and
    what a call does. *)
From S2P Require Import Prelude.
From S2P Require Import Mem.
From S2P Require Import Xxhash.
From S2P Require Import XxhashSpec.
From S2P Require Import XxhashStream.
From S2P Require Import BlockFormat.
From S2P Require Import Lz4Common.
From S2P Require Import Lz4Decompress.
From S2P Require Import Lz4Frame.
From S2P Require Import Lz4FrameDecode.
From S2P Require Import FrameFormat.
From S2P Require Import Lz4FrameHeader.
From S2P Require Import Lz4FrameInv.
From S2P Require Import Lz4FrameDict.
From S2P Require Import Lz4FrameCall.
From S2P Require Import Lz4FrameStages.
From S2P Require Import Lz4FrameBlockStages.
From S2P Require Import Lz4FrameInit.
From S2P Require Import Lz4FrameCallSpec.

(** * Between two calls *)

(** Checksums that are no longer verified. *)
Lemma contents_skip i dict bs o : contents i true dict bs o -> contents i false dict bs o.
Proof.
  intros Hc. induction Hc as [|bs b o x Hc IH Hb Hd Hx Hcrc]; [constructor|].
  apply contents_snoc; try done. intros Hne [?|Hr]; [done|]. by apply Hcrc; [|right].
Qed.

Lemma read_skip dict0 p d bs o q c k :
  (k = 0 -> d_skipChecksum d = 0) -> read_so_far dict0 d p bs o q c ->
  read_so_far dict0 (set_skipChecksum k d) p bs o q c.
Proof.
  intros Hk (hdr & Hf & Hc & ->). exists hdr. split; [done|]. split; [|done]. unfold verify in *. dsimp.
  destruct (Z.eqb_spec k 0) as [E|E]; [by rewrite (Hk E) in Hc|].
  destruct (d_skipChecksum d =? 0); [by apply contents_skip|done].
Qed.

Lemma stage_skip dict0 p d m dst room c e k :
  (k = 0 -> d_skipChecksum d = 0) -> stage_ok dict0 p d m dst room c e ->
  stage_ok dict0 p (set_skipChecksum k d) m dst room c e.
Proof.
  intros Hk. pose proof (read_skip dict0 p d) as Hr.
  assert (forall tot, counted d m tot -> counted (set_skipChecksum k d) m tot) as Hc.
  { intros tot [Hx Hn]. split; [|done]. intros E1 E2. apply Hx; [done|]. by apply Hk. }
  unfold stage_ok. dsimp. destruct (d_dStage d); try done.
  - intros (bs & Hrd & Hcnt & H). exists bs. split; [by apply Hr|]. split; [by apply Hc|done].
  - intros (bs & q & Hrd & Hcnt & H). exists bs, q. split; [by apply Hr|]. split; [by apply Hc|done].
  - intros (bs & o & x & Hrd & He & Hcnt & H1 & H2 & H3 & H4). exists bs, o, x.
    split; [by apply Hr|]. split; [done|]. split; [by apply Hc|]. splits; try done.
    intros E1 E2. apply H4; [done|]. by apply Hk.
  - intros (bs & o & x & q & Hrd & He & Hcnt & H1 & H2 & H3 & H4 & H5 & H6 & H7). exists bs, o, x, q.
    split; [by apply Hr|]. split; [done|]. split; [by apply Hc|]. splits; try done.
    intros E1. apply H7. by apply Hk.
  - intros (bs & n & Hrd & Hcnt & H). exists bs, n. split; [by apply Hr|]. split; [by apply Hc|done].
  - intros (bs & n & q & Hrd & Hcnt & H). exists bs, n, q. split; [by apply Hr|]. split; [by apply Hc|done].
  - intros (bs & o & x & Hrd & Hcnt & H). exists bs, o, x. split; [by apply Hr|]. split; [by apply Hc|done].
  - intros (bs & Hrd & Hcnt). exists bs. split; [by apply Hr|by apply Hc].
  - intros (bs & q & Hrd & Hcnt & H). exists bs, q. split; [by apply Hr|]. split; [by apply Hc|done].
Qed.

(** The dictionary is not in the next destination. *)
Definition dict_clear (p : priv) (d : LZ4F_dctx) (dst room : Z) : Prop :=
  (d_dict d = p_tmpOut p /\ 0 < p_outCap p) \/ clear p dst room (d_dict d, d_dictSize d).

Lemma clear_empty p dst room a n : n <= 0 -> clear p dst room (a, n).
Proof. intros Hn. apply clear_intro. intros z. right. by left. Qed.

Section Move.
Context (dict0 : list Z) (p : priv) (d : LZ4F_dctx) (m : mem) (dst room dst' room' : Z).
Context (Hd : dict_clear p d dst' room').

Lemma move_clear (w : list Z) :
  zlen w = d_dictSize d -> clear p dst room (d_dict d, zlen w) -> clear p dst' room' (d_dict d, zlen w).
Proof.
  intros En Hc. destruct (Z.eq_dec (zlen w) 0) as [E|E]; [by apply clear_empty; lia|].
  destruct Hd as [[Hd' Hcap]|Hd']; [|by rewrite En]. exfalso. pose proof (zlen_nonneg w).
  pose proof (clear_apart _ _ _ _ ZOut Hc) as A. unfold apart in A. cbn [zreg fst snd] in A. lia.
Qed.

Lemma move_user : user_dict dict0 d p m dst room -> user_dict dict0 d p m dst' room'.
Proof. intros (U1 & U2 & U3 & U4). unfold user_dict. splits; try done. by apply move_clear. Qed.

Lemma move_hist h : hist d p m dst room h -> hist d p m dst' room' h.
Proof.
  intros (w & (En & Hw & Hp & Hl) & Hwin). exists w. split; [|done]. split; [done|]. split; [done|].
  split; [done|]. destruct Hl as [Hl|Hl]; [by left|right]. by apply move_clear.
Qed.

Lemma move_flush o x : flush_hist dict0 d p m dst room o x -> flush_hist dict0 d p m dst' room' o x.
Proof.
  intros (H1 & H2 & H3). split; [done|]. split; [done|]. destruct (d_linked d); [|by apply move_hist].
  destruct H3 as [H3 H4]. split; [done|]. destruct H4 as [H4|(F1 & w & F2 & F3 & F4 & F5 & F6)]; [by left|right].
  split; [done|]. exists w. splits; try done. by apply move_clear.
Qed.

(** The destination of the next call may be elsewhere. *)
Lemma stage_move c e : stage_ok dict0 p d m dst room c e -> stage_ok dict0 p d m dst' room' c e.
Proof.
  pose proof move_user as Hu. pose proof (fun h => move_hist h) as Hh. unfold stage_ok, block_hist.
  destruct (d_dStage d); try done.
  - intros (-> & -> & Hr & H). by splits; [..|apply Hu].
  - intros (-> & Hr & H & H'). split; [done|]. split; [done|]. split; [by apply Hu|done].
  - intros (-> & H & H'). split; [done|]. split; [by apply Hu|done].
  - intros (bs & Hrd & Hcnt & H). exists bs. split; [done|]. split; [done|]. by apply Hh.
  - intros (bs & q & Hrd & Hcnt & H & H'). exists bs, q. split; [done|]. split; [done|]. split; [by apply Hh|done].
  - intros (bs & o & x & Hrd & He & Hcnt & H & H'). exists bs, o, x.
    split; [done|]. split; [done|]. split; [done|]. split; [by apply Hh|done].
  - intros (bs & o & x & q & Hrd & He & Hcnt & H & H'). exists bs, o, x, q.
    split; [done|]. split; [done|]. split; [done|]. split; [by apply Hh|done].
  - intros (bs & n & Hrd & Hcnt & H & H'). exists bs, n. split; [done|]. split; [done|]. split; [by apply Hh|done].
  - intros (bs & n & q & Hrd & Hcnt & H & H'). exists bs, n, q.
    split; [done|]. split; [done|]. split; [by apply Hh|done].
  - intros (bs & o & x & Hrd & Hcnt & He & H1 & H2 & H3 & H4 & H5). exists bs, o, x. splits; try done; try lia.
    by apply move_flush.
Qed.
End Move.

(** * What a call does *)

(** The context between two calls: [c] was consumed and [e] emitted of the
    current frame, and the next destination is [room] bytes at [dst]. *)
Definition suspended `{Allocator} (dict0 : list Z) (p : priv) (d : LZ4F_dctx) (m : mem)
    (dst room : Z) (c e : list Z) : Prop :=
  owns d p /\ priv_ok p m /\ zones_ok p dst room /\ stage_ok dict0 p d m dst room c e.

(** An unused context. *)
Definition idle `{Allocator} (p : priv) (d : LZ4F_dctx) (m : mem) (dst room : Z) : Prop :=
  suspended [] p d m dst room [] [] /\ d_skipChecksum d = 0 /\ d_dStage d = dstage_getFrameHeader.

(** After a reset a context is ready for a new frame. *)
Lemma reset_idle `{HA : Allocator} p d m dst room :
  owns d p -> priv_ok p m -> zones_ok p dst room ->
  idle p (LZ4F_resetDecompressionContext d) m dst room.
Proof.
  intros Hown Hp Hz. split; [|done]. split; [done|]. split; [done|]. split; [done|].
  split; [done|]. split; [done|]. split; [done|]. split; [done|]. split; [apply holds_nil|].
  split; [by left|]. by apply clear_empty.
Qed.

Definition the_options (o : option LZ4F_decompressOptions_t) : LZ4F_decompressOptions_t :=
  default (DecompressOptions 0 0) o.

(** The flag [skipChecksum] during a call. *)
Definition skip_of (d : LZ4F_dctx) (o : option LZ4F_decompressOptions_t) : Z :=
  Z.lor (d_skipChecksum d) (Z.b2z (negb (skipChecksums (the_options o) =? 0))).

Definition call_of (p : priv) (d : LZ4F_dctx) (m : mem) (dst dstSize src : Z) (srcl : list Z)
    (o : option LZ4F_decompressOptions_t) (dict0 c e : list Z) : call :=
  Call src srcl dst dstSize dict0 c e m p (skip_of d o).

(** The result [R] of a call [K]: an error, after which the context can be
    reset, and which has its cause in the input or in the allocator; or [x] of the source was consumed and [o] was written: the frame is
    complete, or it goes on and the source or the destination is used up. *)
Definition call_post `{Allocator} (K : call) (opts : option LZ4F_decompressOptions_t) (R : dresult) (m : mem) : Prop :=
  kept K m /\
  ((LZ4F_isError (r_code R) = true /\ r_srcSize R = 0 /\ r_dstSize R = 0 /\
    (exists p, owns (r_dctx R) p /\ priv_ok p m /\ zones_ok p (k_dst K) 0 /\ covered K p m) /\ blamed K (r_code R)) \/
   exists p x r o,
     (k_srcl K = x ++ r /\ r_srcSize R = zlen x) /\
     (zlen o <= k_dstSize K /\ r_dstSize R = zlen o /\ holds m (k_dst K) o /\
      mapped m (k_dst K) (k_dstSize K)) /\
     covered K p m /\
     let dst := k_dst K + zlen o in
     let room := k_dstSize K - zlen o in
     if r_code R =? 0 then
       frame_done (k_dict K) (k_skip K =? 0) (k_read K ++ x) (k_done K ++ o) /\
       idle p (r_dctx R) m dst room
     else
       0 < r_code R < 2 ^ 33 /\
       suspended (k_dict K) p (r_dctx R) m dst room (k_read K ++ x) (k_done K ++ o) /\
       d_skipChecksum (r_dctx R) = k_skip K /\
       (waits (d_dStage (r_dctx R)) = true /\ (r = [] \/ (room = 0 /\ needs_room (r_dctx R)))) /\
       (stableDst (the_options opts) = 0 -> history_own (r_dctx R))).

Section Api.
Context `{HA : Allocator} (K : call) (HK : call_ok K).

(** What [base] says when the loop ends. *)
Lemma base_end p s m c r o :
  base K p s m c r o ->
  exists x, k_srcl K = x ++ r /\ c = k_read K ++ x /\ l_srcPtr s - k_src K = zlen x /\
    l_dstPtr s - k_dst K = zlen o /\ zlen o <= k_dstSize K /\ holds m (k_dst K) o /\
    mapped m (k_dst K) (k_dstSize K) /\ room K (l_dstPtr s) = k_dstSize K - zlen o.
Proof.
  intros Hb. pose proof (base_dst _ _ _ _ _ _ _ Hb) as Hdm.
  destruct Hb as (_ & _ & _ & (S1 & S2 & S3 & S4 & S5) & (D1 & D2 & D3 & D4 & D5) & _).
  assert (exists x, k_srcl K = x ++ r /\ c = k_read K ++ x) as (x & Ex & Ec).
  { destruct (app_eq_inv _ _ _ _ S5) as [(x & E1 & E2)|(x & E1 & E2)].
    - by exists x.
    - rewrite E1, E2, zlen_app in *. zlen_facts. exists [].
      assert (x = []) as -> by (apply zlen_0_nil; lia). by rewrite !app_nil_r. }
  exists x. rewrite Ex, zlen_app in *. splits; try done; try lia. unfold room; lia.
Qed.

Lemma post_end opts hint s m :
  loop_post K (Leave hint s) m ->
  wp (d ← preserveHistory (the_options opts) (l_dctx s);
      mret (DResult hint d (l_srcPtr s - k_src K) (l_dstPtr s - k_dst K))) (call_post K opts) m.
Proof.
  intros [Hh Hp]. apply wp_bind. destruct (Z.eqb_spec hint 0) as [->|Hne].
  - destruct Hp as (p & c & r & o & (d & Ed & Hb) & Hfd).
    destruct (base_end _ _ _ _ _ _ Hb) as (x & Ex & -> & Es & Eo & Hol & Ho & Hm & Er). dsimp.
    assert (preserveHistory (the_options opts) (l_dctx s) = mret (l_dctx s)) as ->.
    { unfold preserveHistory. rewrite Ed. change (d_dict (LZ4F_resetDecompressionContext d)) with NULL.
      cbn [Z.eqb negb]. by rewrite andb_false_r. }
    apply wp_ret, wp_ret. pose proof Hb as ((Hown & _) & Hpriv & Hz & _ & _ & Hk & Hc). dsimp.
    split; [done|]. right. exists p, x, r, o. cbn [r_code r_dctx r_srcSize r_dstSize Z.eqb].
    replace (k_dst K + zlen o) with (l_dstPtr s) by lia. rewrite Er in Hz.
    split; [done|]. split; [done|]. split; [done|]. split; [done|]. rewrite Ed. by apply reset_idle.
  - destruct Hp as [Hi [Hd Hstop]]. apply (wp_preserveHistory K HK); [done..|]. intros d' m' Hi' Es' Hown'. apply wp_ret.
    destruct Hi' as (p & c & r & o & Hb & Hst).
    destruct (base_end _ _ _ _ _ _ Hb) as (x & Ex & -> & Es & Eo & Hol & Ho & Hm & Er). dsimp.
    pose proof Hb as ((Hown & Hsk) & Hpriv & Hz & (_ & _ & S3 & _) & _ & Hk & Hc). dsimp.
    split; [done|]. right. exists p, x, r, o. cbn [r_code r_dctx r_srcSize r_dstSize].
    rewrite (proj2 (Z.eqb_neq hint 0)) by done. replace (k_dst K + zlen o) with (l_dstPtr s) by lia.
    rewrite Er in Hz, Hst. split; [done|]. split; [done|]. split; [done|]. split; [lia|]. split; [by split|].
    split; [done|]. split; [|done].
    rewrite (proj1 Es'). split; [done|]. destruct Hstop as [E|[E En]]; [left; apply zlen_0_nil; lia|right].
    split; [unfold room in *; lia|by apply Es'].
Qed.

Lemma post_return opts code d m :
  loop_post K (Return code d) m -> call_post K opts (DResult code d 0 0) m.
Proof.
  intros [(He & (p & Ho & Hp & Hk & Hz & Hcv) & Hbl)|(-> & Es & Hgs & (p & c & r & o & Hb & Hst))].
  { split; [done|]. left. split; [done|]. split; [done|]. split; [done|]. split; [by exists p|done]. }
  destruct (base_end _ _ _ _ _ _ Hb) as (x & Ex & -> & Es' & Eo & Hol & Ho & Hm & Er). dsimp.
  assert (x = [] /\ o = []) as [-> ->] by (split; apply zlen_0_nil; lia).
  assert (r = []) as -> by (by rewrite Es in Ex).
  pose proof Hb as ((Hown & Hsk) & Hpriv & Hz & _ & _ & Hk & Hc). dsimp.
  change (zlen (@nil Z)) with 0 in Er.
  split; [done|]. right. exists p, [], [], []. cbn [r_code r_dctx r_srcSize r_dstSize]. change (minFHSize =? 0) with false.
  change (zlen (@nil Z)) with 0. rewrite Z.add_0_r. rewrite Er in Hz, Hst.
  split; [done|]. split; [done|]. split; [done|]. split; [done|]. split; [by split|]. split; [done|].
  split; [rewrite Hgs; split; [done|by left]|]. intros _ _. by rewrite Hgs.
Qed.
End Api.

(** Two buffers of the caller that a call can use: a source that holds [srcl]
    and a destination, apart from each other and from the private memory. *)
Definition buffers_ok (p : priv) (m : mem) (dst dstSize src : Z) (srcl : list Z) : Prop :=
  holds m src srcl /\ clear p dst dstSize (src, zlen srcl) /\ mapped m dst dstSize.

#[export] Instance buffers_ok_dec p m dst dstSize src srcl : Decision (buffers_ok p m dst dstSize src srcl).
Proof. unfold buffers_ok. apply _. Defined.

Lemma wp_LZ4F_decompress `{HA : Allocator} dict0 p d m dst dstSize src srcl opts c e :
  let K := call_of p d m dst dstSize src srcl opts dict0 c e in
  call_ok K -> suspended dict0 p d m dst dstSize c e -> buffers_ok p m dst dstSize src srcl ->
  wp (LZ4F_decompress d dst dstSize src (zlen srcl) opts) (call_post K opts) m.
Proof.
  intros K HK (Hown & Hpriv & Hz & Hst) (Hsrc & Hcl & Hm). pose proof HK as (_ & Hdst & _).
  cbn [K call_of k_dst k_dstSize] in Hdst. unfold LZ4F_decompress.
  replace (if dst =? NULL then NULL else dst + dstSize) with (dst + dstSize)
    by (destruct (Z.eqb_spec dst NULL); unfold NULL in *; lia).
  set (s0 := DLoop (set_skipChecksum (skip_of d opts) d) src dst).
  assert (room K dst = dstSize) as Er by (unfold room, K; cbn; lia).
  assert (inv K s0 m) as Hinv.
  { exists p, c, srcl, []. split; [|].
    - split; [done|]. split; [done|]. cbn [s0 l_dstPtr l_srcPtr l_dctx]. rewrite Er. split; [done|].
      change (zlen (@nil Z)) with 0. cbn [K call_of k_src k_srcl k_dst k_dstSize k_read].
      split; [splits; try done; lia|]. split; [splits; try done; [lia|lia|apply holds_nil|by apply clear_empty]|].
      split; [by intros i _ _|]. split; [|split; [done|by intros q k]]. intros z i Hne Hi. left. by exists z.
    - cbn [s0 l_dstPtr l_dctx K call_of k_dict k_done]. rewrite app_nil_r. fold K. rewrite Er.
      apply stage_skip; [|done]. unfold skip_of. intros [E _]%Z.lor_eq_0_iff. done. }
  apply wp_bind.
  change (Z.lor (d_skipChecksum d) _) with (skip_of d opts). eapply wp_mono.
  { exact (wp_decompress_loop K HK s0 m Hinv). }
  intros [s'|hint s'|code d'] m' Hp; [done|by apply (post_end K HK)|].
  apply wp_ret. by apply post_return.
Qed.
