(* ===== verification/Lz4FrameComplete.v ===== *)
(** Completeness of [LZ4F_decompress]: a call that is given the rest of a good
    frame, and room for the rest of its content, completes the frame. *)
From S2P Require Import Prelude.
From S2P Require Import Mem.
From S2P Require Import XxhashSpec.
From S2P Require Import BlockFormat.
From S2P Require Import Lz4Common.
From S2P Require Import Lz4Decompress.
From S2P Require Import Lz4Frame.
From S2P Require Import Lz4FrameDecode.
From S2P Require Import FrameFormat.
From S2P Require Import Lz4FrameHeader.
From S2P Require Import FrameParse.
From S2P Require Import Lz4FrameInv.
From S2P Require Import Lz4FrameCall.
From S2P Require Import Lz4FrameStages.
From S2P Require Import Lz4FrameCallSpec.
From S2P Require Import Lz4FrameApi.

(** * What a good frame begins with *)

Lemma skippable_parse c : skippable_magic c -> 7 <= zlen c -> parse_header c = HSkippable.
Proof.
  intros Hs Hl. unfold parse_header. rewrite (proj2 (Z.ltb_ge _ _)) by lia. cbv zeta. by rewrite (proj2 (Z.eqb_eq _ _)).
Qed.

Lemma good_header dict f y t :
  good_frame dict f y -> exists i n, parse_header (f ++ t) = HFrame i n /\ n <= zlen f /\ 11 <= zlen f.
Proof.
  intros (i & sized & dicted & bs & Hi & Hpr & _ & _ & ->). exists i, (header_size sized dicted). unfold frame_of.
  rewrite <- !app_assoc, parse_header_bytes by done. rewrite !zlen_app, zlen_header_bytes. change (zlen endmark) with 4.
  pose proof (header_size_range sized dicted). pose proof (zlen_nonneg (enc_blocks i bs)).
  pose proof (zlen_nonneg (content_crc i y)). split; [done|]. lia.
Qed.

Lemma good_not_skippable dict f y t : good_frame dict f y -> ~ skippable_magic (f ++ t).
Proof.
  intros Hg Hs. destruct (good_header dict f y t Hg) as (i & n & Hp & _ & Hl). rewrite skippable_parse in Hp; [done|done|].
  rewrite zlen_app. pose proof (zlen_nonneg t). lia.
Qed.

(** * The stage of the context tells that a good frame is not complete *)

Section Unfinished.
Context (dict0 : list Z) (p : priv) (d : LZ4F_dctx) (m : mem) (dst room : Z) (c e r f y t : list Z).
Context (Hok : bytes_ok c) (Hst : stage_ok dict0 p d m dst room c e) (Hg : good_frame dict0 f y).
Context (E : c ++ r = f ++ t).

Lemma rest bs o pend :
  read_so_far dict0 d p bs o pend c -> remains (d_frameInfo d) dict0 o y t (pend ++ r).
Proof. intros Hrd. by eapply remains_of. Qed.

Lemma block_size bs o pend :
  read_so_far dict0 d p bs o pend c -> d_maxBlockSize d = LZ4F_getBlockSize (blockSizeID (d_frameInfo d)).
Proof. by intros (hdr & (_ & -> & _) & _). Qed.

(** Where the stage waits for room, content is missing. *)
Lemma room_needed : needs_room d -> zlen e < zlen y.
Proof.
  unfold needs_room, stage_ok in *. destruct (d_dStage d); try done.
  - destruct Hst as (bs & o & x & Hrd & -> & _ & _ & H1 & H2 & _). intros Hpos. pose proof (block_size _ _ _ Hrd) as Em.
    apply rest in Hrd. rewrite <- app_assoc in Hrd. zlen_facts. pose proof (zlen_nonneg x).
    apply remains_block in Hrd as (b & x' & Y & Er & En & _ & (_ & _ & Hb) & _ & Hr); [|lia|by right].
    rewrite Er in Hb. apply remains_long in Hr as [_ Hl]. rewrite zlen_app in *. rewrite <- Hb in Hl. lia.
  - destruct Hst as (bs & n & Hrd & _ & _ & Hn & _). intros _. pose proof (block_size _ _ _ Hrd) as Em.
    apply rest in Hrd. apply remains_block in Hrd as (b & x & Y & _ & _ & _ & Hb & _ & Hr); [|lia|left; lia].
    apply good_nonempty in Hb. apply remains_long in Hr as [_ Hl]. rewrite zlen_app in Hl. lia.
  - destruct Hst as (bs & o & x & Hrd & _ & -> & Hs & Hsz & _). intros Hlt.
    apply rest, remains_long in Hrd as [_ Hl]. rewrite zlen_app in *. unfold zlen in *. rewrite length_take. lia.
Qed.

(** Where the stage waits for input, input is missing. *)
Lemma input_needed : waits (d_dStage d) = true -> r <> [].
Proof.
  intros Hw Er. pose proof rest as Hrest. rewrite Er, app_nil_r in *. destruct (good_header dict0 f y t Hg) as (i & n & Hp & Hn & Hlf).
  assert (zlen f <= zlen c) as Hfc by (rewrite E, zlen_app; pose proof (zlen_nonneg t); lia).
  assert (skippable_magic c -> False) as Hsk by (rewrite E; by apply (good_not_skippable dict0 f y)).
  assert (forall bs o pend, read_so_far dict0 d p bs o pend c -> remains (d_frameInfo d) dict0 o y t pend) as Hrem
    by (intros bs o pend Hrd; apply Hrest in Hrd; by rewrite app_nil_r in Hrd).
  assert (forall bs o raw k data, read_so_far dict0 d p bs o (block_header raw k ++ data) c ->
    0 <= k <= d_maxBlockSize d -> 0 < k \/ raw = true -> k + (if d_blockCrc d then 4 else 0) + 4 <= zlen data) as Hblk.
  { intros bs o raw k data Hrd Hk Hk'. pose proof (block_size _ _ _ Hrd) as Em. apply Hrem in Hrd.
    apply remains_block in Hrd as (b & x & Y & _ & <- & -> & _ & _ & Hr); [|lia|done].
    apply remains_long in Hr as [Hl _]. rewrite !zlen_app, zlen_block_crc. unfold d_blockCrc. destruct (_ =? 0); cbn; lia. }
  assert (forall bs o pend, read_so_far dict0 d p bs o pend c -> zlen pend < 4 -> False) as Hshort.
  { intros bs o pend Hrd Hl. apply Hrem, remains_long in Hrd as [? _]. lia. }
  unfold stage_ok in Hst. destruct (d_dStage d); try done.
  - destruct Hst as (Ec & _). rewrite Ec in Hfc. change (zlen (@nil Z)) with 0 in Hfc. lia.
  - destruct Hst as (_ & _ & _ & _ & Hlt & _ & [Ht|(c1 & c2 & Ec & Hm)]); [lia|]. rewrite <- E, Ec in Hp.
    rewrite (proj2 (parse_more_app c1 c2 _ Hm) _ _ Hp) in Hn. lia.
  - destruct Hst as (bs & Hrd & _). by eapply Hshort.
  - destruct Hst as (bs & q & Hrd & _ & _ & _ & Hq & _). by eapply Hshort.
  - destruct Hst as (bs & o & x & Hrd & _ & _ & _ & H1 & H2 & _). zlen_facts. pose proof (zlen_nonneg x).
    apply Hblk in Hrd; [|lia|by right]. destruct (d_blockCrc d); lia.
  - destruct Hst as (bs & o & x & q & Hrd & _ & _ & _ & H1 & _ & H2 & _ & H3 & _). zlen_facts. pose proof (zlen_nonneg x).
    apply Hblk in Hrd; [|lia|by right]. rewrite zlen_app, H3 in Hrd. lia.
  - destruct Hst as (bs & k & Hrd & _ & _ & H1 & _). rewrite <- (app_nil_r (block_header _ _)) in Hrd.
    apply Hblk in Hrd; [|lia|left; lia]. change (zlen (@nil Z)) with 0 in Hrd. destruct (d_blockCrc d); lia.
  - destruct Hst as (bs & k & q & Hrd & _ & _ & H1 & H2 & _ & H3 & _). apply Hblk in Hrd; [|lia|left; lia]. lia.
  - destruct Hst as (bs & o & x & Hrd & _). by eapply Hshort.
  - destruct Hst as (bs & q & Hrd & _ & _ & Hcc & _ & Hq & _). apply Hrem, remains_end in Hrd as (_ & Eq & _).
    apply (f_equal zlen) in Eq. rewrite zlen_app in Eq. unfold content_crc, d_contentCrc in *. destruct (_ =? 0); [done|].
    unfold zlen at 2 in Eq. rewrite length_le_bytes in Eq. pose proof (zlen_nonneg t). lia.
  - destruct Hst as (_ & Hl & _). lia.
  - by destruct Hst as (_ & Hl & _ & _ & Hs & _).
  - by destruct Hst as (_ & Hl & Hs & _).
Qed.
(** What was emitted is the beginning of the content. *)
Lemma output_prefix : exists y', y = e ++ y'.
Proof.
  assert (forall bs o pend, read_so_far dict0 d p bs o pend c -> exists y', y = o ++ y') as Hpre.
  { intros bs o pend Hrd. apply rest in Hrd as (bs2 & y2 & _ & -> & _). by exists y2. }
  assert (forall bs o x k data, read_so_far dict0 d p bs o (block_header true k ++ x ++ data) c ->
    zlen x <= k <= d_maxBlockSize d -> exists y', y = (o ++ x) ++ y') as Hraw.
  { intros bs o x k data Hrd Hk. pose proof (block_size _ _ _ Hrd) as Em. apply rest in Hrd.
    rewrite <- !app_assoc in Hrd. pose proof (zlen_nonneg x).
    apply remains_block in Hrd as (b & x' & Y & Er & En & Eb & (_ & _ & Hb) & _ & Hr); [|lia|by right].
    rewrite Er in Hb. rewrite Hb in Eb, En. destruct Hr as (bs2 & y2 & _ & -> & _).
    apply app_eq_inv in Eb as [(k' & -> & _)|(k' & -> & E2)]; [|].
    - rewrite zlen_app in *. assert (k' = []) as -> by (apply zlen_0_nil; lia). rewrite app_nil_r. by exists y2.
    - exists (k' ++ y2). by rewrite !app_assoc. }
  unfold stage_ok in Hst. destruct (d_dStage d); try (destruct Hst as (-> & Hst'); by exists y).
  - destruct Hst as (_ & -> & _). by exists y.
  - destruct Hst as (bs & Hrd & _). by eapply Hpre.
  - destruct Hst as (bs & q & Hrd & _). by eapply Hpre.
  - destruct Hst as (bs & o & x & Hrd & -> & _ & _ & H1 & H2 & _). rewrite <- (app_nil_r x) in Hrd at 2.
    eapply Hraw; [exact Hrd|lia].
  - destruct Hst as (bs & o & x & q & Hrd & -> & _ & _ & H1 & _). eapply Hraw; [exact Hrd|lia].
  - destruct Hst as (bs & n & Hrd & _). by eapply Hpre.
  - destruct Hst as (bs & n & q & Hrd & _). by eapply Hpre.
  - destruct Hst as (bs & o & x & Hrd & _ & -> & _). apply Hpre in Hrd as [y' ->].
    exists (drop (Z.to_nat (d_tmpOutStart d)) x ++ y'). by rewrite <- !app_assoc, (app_assoc (take _ _)), take_drop.
  - destruct Hst as (bs & Hrd & _). by eapply Hpre.
  - destruct Hst as (bs & q & Hrd & _). by eapply Hpre.
Qed.

(** Right behind the header, input is missing too. *)
Lemma header_unfinished : d_dStage d = dstage_init -> r <> [].
Proof.
  unfold stage_ok in Hst. intros Hs Er. rewrite Hs in Hst. destruct Hst as (_ & _ & Hp & _).
  rewrite Er, app_nil_r in E. rewrite E in Hp.
  destruct Hg as (i & sized & dicted & bs & Hi & Hpr & _ & _ & Ef). rewrite Ef in Hp. unfold frame_of in Hp.
  rewrite <- !app_assoc, parse_header_bytes, !zlen_app, (zlen_header_bytes i) in Hp by done.
  change (zlen endmark) with 4 in Hp. injection Hp as _ Hl.
  pose proof (zlen_nonneg (enc_blocks i bs)). pose proof (zlen_nonneg (content_crc i y)). pose proof (zlen_nonneg t). lia.
Qed.
End Unfinished.

(** A complete frame is the good frame. *)
Lemma done_unique dict crc c e r f y t :
  frame_done dict crc c e -> good_frame dict f y -> c ++ r = f ++ t -> c = f /\ e = y.
Proof.
  intros [(i & sized & dicted & bs & suf & Hi & Hpr & Hc & Ec & Hsuf & _)|(_ & Hl & Hs & _)] Hg E.
  - assert (e = y /\ r = t) as [-> ->]; [|split; [by apply app_inv_tail in E|done]].
    destruct Hg as (i' & sized' & dicted' & bs' & Hi' & Hpr' & Hg & Hcs & ->). unfold frame_of in *.
    rewrite Ec, <- !app_assoc in E. destruct (header_same _ _ _ _ _ _ _ _ Hi Hpr Hi' Hpr' E) as [-> E'].
    destruct (align_blocks i' dict Hi' _ _ _ _ _ _ _ Hc Hg E') as (bs2 & y2 & Hg2 & -> & E2).
    destruct (remains_end i' dict e (e ++ y2) t (suf ++ r)) as (Ey & E3 & _); [by exists bs2, y2|].
    split; [done|]. apply app_inj_1 in E3 as [_ ?]; [done|]. unfold content_crc, zlen in *. destruct (_ =? 0); [cbn; lia|].
    rewrite length_le_bytes. lia.
  - exfalso. apply (good_not_skippable dict f y t Hg). rewrite <- E. unfold skippable_magic in *.
    by rewrite le_of_prefix by lia.
Qed.

(** * The call *)

(** The result of a call that completes the frame [f] with the content [y], of
    which [c] was consumed and [e] emitted before: memory ran out, or the rest of
    the frame is consumed and the rest of the content is at [dst]. *)
Definition completes (dst : Z) (c e f y : list Z) (R : dresult) (m' : mem) : Prop :=
  r_code R = LZ4F_returnErrorCode LZ4F_ERROR_allocation_failed \/
  (r_code R = 0 /\ exists x o, f = c ++ x /\ y = e ++ o /\
     r_srcSize R = zlen x /\ r_dstSize R = zlen o /\ holds m' dst o).

Lemma wp_decompress_complete `{HA : Allocator} dict0 p d m dst dstSize src srcl opts c e f y t :
  call_ok (call_of p d m dst dstSize src srcl opts dict0 c e) ->
  suspended dict0 p d m dst dstSize c e -> buffers_ok p m dst dstSize src srcl ->
  good_frame dict0 f y -> c ++ srcl = f ++ t -> zlen y <= zlen e + dstSize ->
  wp (LZ4F_decompress d dst dstSize src (zlen srcl) opts) (fun R m' =>
    call_post (call_of p d m dst dstSize src srcl opts dict0 c e) opts R m' /\ completes dst c e f y R m') m.
Proof.
  intros Hc Hs Hb Hg E Hroom. pose proof Hc as (_ & _ & Hok & _). eapply wp_mono; [by apply wp_LZ4F_decompress|].
  cbn [call_of k_read k_srcl] in Hok. intros R m' Hpost. split; [done|]. revert Hpost.
  intros [_ [(_ & _ & _ & _ & [Ha|Hh])|(p' & x & r & o & (Ex & Er) & (Hol & Eo & Ho & _) & _ & Hcode)]]; [by left|..].
  - exfalso. apply (Hh [] f y t Hg). cbn [call_of k_read k_srcl]. by rewrite app_nil_r.
  - cbn [call_of k_srcl k_dst k_dstSize k_dict k_read k_done k_skip] in *. rewrite Ex, app_assoc in E, Hok.
    apply bytes_ok_app in Hok as [Hok _]. destruct (Z.eqb_spec (r_code R) 0) as [E0|E0].
    + right. split; [done|]. destruct Hcode as [Hfd _]. destruct (done_unique _ _ _ _ _ _ _ _ Hfd Hg E) as [<- <-].
      by exists x, o.
    + exfalso. destruct Hcode as (_ & (_ & _ & _ & Hst) & _ & (Hw & Hstop) & _).
      pose proof (room_needed _ _ _ _ _ _ _ _ _ _ _ _ Hok Hst Hg E) as Hrn.
      pose proof (input_needed _ _ _ _ _ _ _ _ _ _ _ _ Hok Hst Hg E Hw) as Hin.
      destruct Hstop as [->|[Hr Hn]]; [done|]. specialize (Hrn Hn). rewrite zlen_app in Hrn. lia.
Qed.
