(* ===== verification/Lz4FrameLifecycle.v ===== *)
(** A simple allocator that satisfies the contract [Allocator]: it takes memory
    behind all addresses in use, with a gap, and never reuses any. It shows that the contract
    can be met, and makes the frame decoder executable. *)
From S2P Require Import Prelude.
From S2P Require Import Mem.
From S2P Require Import Xxhash.
From S2P Require Import XxhashStream.
From S2P Require Import BlockFormat.
From S2P Require Import Lz4Common.
From S2P Require Import Lz4Decompress.
From S2P Require Import Lz4Frame.
From S2P Require Import Lz4FrameDecode.
From S2P Require Import FrameFormat.
From S2P Require Import Lz4FrameInv.
From S2P Require Import Lz4FrameCall.
From S2P Require Import Lz4FrameStages.
From S2P Require Import Lz4FrameInit.
From S2P Require Import Lz4FrameApi.

(** The first address behind all addresses in use. *)
Definition top (m : mem) : Z := map_fold (fun k _ t => Z.max (k + 1) t) 1 m.

Lemma top_spec m : 1 <= top m /\ forall i, is_Some (m !! i) -> i < top m.
Proof.
  apply (map_fold_weak_ind (fun t m => 1 <= t /\ forall i, is_Some (m !! i) -> i < t)).
  - split; [lia|]. intros i Hi. rewrite lookup_empty in Hi. by destruct Hi.
  - intros k v m' t Hk [Ht Hm]. split; [lia|]. intros i Hi. destruct (decide (i = k)) as [->|Hne]; [lia|].
    rewrite lookup_insert_ne in Hi by done. specialize (Hm i Hi). lia.
Qed.

Lemma top_fresh m i : top m <= i -> m !! i = None.
Proof.
  intros Hi. destruct (m !! i) as [v|] eqn:E; [|done]. exfalso.
  pose proof (proj2 (top_spec m) i ltac:(by eexists)). lia.
Qed.

Definition arena_malloc (n : Z) : M Z := fun m =>
  let q := top m in
  if q + n <? 2 ^ 63 then Ok q (mstore m q (replicate (Z.to_nat n) 0)) else Ok NULL m.

Definition arena_free (p : Z) : M unit := mret tt.

Definition arena_CustomMem : LZ4F_CustomMem :=
  {| customAlloc := arena_malloc; customFree := arena_free |}.

Definition arena : @Allocator arena_CustomMem.
Proof.
  refine {| block := fun _ _ _ => True |}; [done| |].
  - intros n m Hn. unfold wp. cbn. unfold arena_malloc. destruct (Z.ltb_spec (top m + n) (2 ^ 63)); [right|by left].
    destruct (top_spec m) as [Ht _]. assert (forall i, mstore m (top m) (replicate (Z.to_nat n) 0) !! i =
      if decide (top m <= i < top m + n) then Some 0 else m !! i) as Hm.
    { intros i. rewrite mstore_lookup, zlen_replicate, Z2Nat.id by lia. case_decide; [|done].
      by rewrite lookup_replicate_2 by lia. }
    splits; try done; try lia.
    + intros i Hi. apply top_fresh. lia.
    + intros i Hi. rewrite Hm, decide_True by lia. by eexists.
    + intros i Hi. by rewrite Hm, decide_False.
  - intros q n m _. apply wp_ret. done.
Defined.

(** The life of a decompression context: its creation, what every call leaves of
    it, and its release. *)

(** * Creation *)

(** The private memory of the context at [self] when it was just created. *)
Definition new_priv (self : Z) : priv :=
  Priv (self + dctx_header) (self + dctx_xxhMem) (self + dctx_blockChecksumMem) NULL 0 NULL 0 self.

Lemma create_idle `{HA : Allocator} self version m dst room :
  mapped m self sizeof_dctx -> zones_ok (new_priv self) dst room ->
  idle (new_priv self) (zero_dctx self version) m dst room.
Proof.
  intros Hm Hz. assert (owns (zero_dctx self version) (new_priv self)) as Ho
    by (unfold owns; cbn; splits; try done; lia || by left).
  assert (priv_ok (new_priv self) m) as Hp.
  { unfold priv_ok, new_priv, sizeof_dctx, dctx_header, dctx_xxhMem, dctx_blockChecksumMem in *.
    cbn [p_header p_xxh p_bc p_tmpIn p_inCap p_tmpOut p_outCap].
    splits; try (by left); (eapply mapped_sub; [exact Hm|lia|lia]). }
  exact (reset_idle _ _ _ _ _ Ho Hp Hz).
Qed.

(** The zones of a new context and a destination that is apart from it. *)
Lemma new_zones self dst room : apart (self, sizeof_dctx) (dst, room) -> zones_ok (new_priv self) dst room.
Proof.
  intros Ha. unfold apart, sizeof_dctx in Ha. cbn [fst snd] in Ha. apply zones_intro.
  intros z z' Hne. unfold apart, new_priv, dctx_header, dctx_xxhMem, dctx_blockChecksumMem, NULL.
  destruct z, z'; try done; cbn; lia.
Qed.

(** Memory that an allocation leaves as it is. *)
Definition allocated `{Allocator} (m : mem) (q n : Z) (m' : mem) : Prop :=
  (0 < q /\ q + n < 2 ^ 63) /\ (forall i, q <= i < q + n -> m !! i = None) /\ mapped m' q n /\
  (forall i, ~ (q <= i < q + n) -> m' !! i = m !! i) /\ block m' q n /\
  (forall q' k, block m q' k -> block m' q' k).

Section Lifecycle.
Context `{HA : Allocator}.

Lemma wp_LZ4F_calloc s m (Q : Z -> mem -> Prop) :
  0 <= s -> Q NULL m -> (forall q m', allocated m q s m' -> Q q m') -> wp (LZ4F_calloc s) Q m.
Proof.
  intros Hs Hbad HQ. unfold LZ4F_calloc. apply wp_bind. eapply wp_mono; [by apply alloc_ok|].
  intros q m1 [[-> ->]|(Hq & H63 & Hfr & Hm & He & Hb & Hbs)]; [by apply wp_bind, wp_ret, wp_ret|].
  rewrite (proj2 (Z.eqb_neq q NULL)) by (unfold NULL; lia). cbn [negb]. apply wp_bind, wp_memset_zero; [done|done|].
  intros m2 Hf Hm2. apply wp_ret, HQ. destruct Hf as [Hf Hd].
  split; [done|]. split; [done|]. split; [done|]. split; [|split].
  - intros i Hi. by rewrite Hf, He.
  - by eapply block_mono.
  - intros q' k Hb'. eapply block_mono; [exact Hd|]. by apply Hbs.
Qed.

Lemma wp_createDecompressionContext version m (Q : Z * option LZ4F_dctx -> mem -> Prop) :
  Q (LZ4F_returnErrorCode LZ4F_ERROR_allocation_failed, None) m ->
  (forall q m', allocated m q sizeof_dctx m' -> Q (0, Some (zero_dctx q version)) m') ->
  wp (LZ4F_createDecompressionContext version) Q m.
Proof.
  intros Hbad HQ. unfold LZ4F_createDecompressionContext, LZ4F_createDecompressionContext_advanced.
  apply wp_bind, wp_bind, wp_LZ4F_calloc; [done|by apply wp_ret, wp_ret|]. intros q m' Ha. pose proof Ha as ([Hq _] & _).
  rewrite (proj2 (Z.eqb_neq q NULL)) by (unfold NULL; lia). apply wp_ret, wp_ret. by apply HQ.
Qed.

(** Memory in use is apart from new memory. *)
Lemma allocated_apart m q n m' a k : allocated m q n m' -> mapped m a k -> apart (q, n) (a, k).
Proof. intros (_ & Hf & _). apply fresh_apart. intros i Hi. apply Hf. lia. Qed.

Lemma allocated_mapped m q n m' a k : allocated m q n m' -> mapped m a k -> mapped m' a k.
Proof.
  intros Ha Hm i Hi. pose proof (allocated_apart _ _ _ _ _ _ Ha Hm) as Hap. destruct Ha as (_ & _ & _ & He & _).
  rewrite He; [by apply Hm|]. unfold apart in Hap. cbn [fst snd] in Hap. lia.
Qed.

Lemma allocated_holds m q n m' a l : allocated m q n m' -> holds m a l -> holds m' a l.
Proof.
  intros Ha Hh. pose proof (allocated_apart _ _ _ _ _ _ Ha (holds_mapped _ _ _ Hh)) as Hap.
  destruct Ha as (_ & _ & _ & He & _). eapply holds_eq_on; [|exact Hh]. intros i Hi. apply He.
  unfold apart in Hap. cbn [fst snd] in Hap. lia.
Qed.

(** * What a call leaves *)

Lemma call_leaves K opts R m :
  call_post K opts R m ->
  exists p, owns (r_dctx R) p /\ priv_ok p m /\ zones_ok p (k_dst K) 0 /\ covered K p m.
Proof.
  intros [_ [(_ & _ & _ & Hp & _)|(p & x & r & o & _ & _ & Hc & Hcode)]]; [done|]. exists p.
  destruct (r_code R =? 0).
  - destruct Hcode as [_ [(H1 & H2 & H3 & _) _]]. splits; try done. by eapply zones_empty.
  - destruct Hcode as (_ & (H1 & H2 & H3 & _) & _). splits; try done. by eapply zones_empty.
Qed.

(** * Release *)

(** A block that is freed takes only its own memory with it. *)
Definition unchanged (rs : list (Z * Z)) (m m' : mem) : Prop :=
  forall i, Forall (fun r => ~ member r i) rs -> m' !! i = m !! i.

Lemma wp_free_block a n m (Q : unit -> mem -> Prop) :
  buffer_ok m a n ->
  (forall m', unchanged [(a, n)] m m' ->
     (forall q k, block m q k -> apart (a, n) (q, k) -> block m' q k) -> Q tt m') ->
  wp (LZ4F_free a) Q m.
Proof.
  intros Hb HQ. unfold LZ4F_free. destruct (Z.eqb_spec a NULL) as [E|E]; [by apply wp_ret, HQ|].
  destruct Hb as [[? _]|(_ & _ & _ & _ & Hb)]; [done|]. eapply wp_mono; [by apply free_ok|].
  intros [] m' [He Hbs]. apply HQ; [|done]. intros i Hi. apply He. by inversion Hi.
Qed.

Lemma wp_freeDecompressionContext d p m dst n (Q : Z -> mem -> Prop) :
  owns d p -> priv_ok p m -> zones_ok p dst 0 -> 0 < p_self p -> block m (p_self p) n ->
  apart (p_tmpIn p, p_inCap p) (p_self p, n) -> apart (p_tmpOut p, p_outCap p) (p_self p, n) ->
  (forall m', unchanged [(p_tmpIn p, p_inCap p); (p_tmpOut p, p_outCap p); (p_self p, n)] m m' ->
     (forall q k, block m q k -> apart (p_tmpIn p, p_inCap p) (q, k) -> apart (p_tmpOut p, p_outCap p) (q, k) ->
        apart (p_self p, n) (q, k) -> block m' q k) ->
     Q (stage_index (d_dStage d)) m') ->
  wp (LZ4F_freeDecompressionContext (Some d)) Q m.
Proof.
  intros (_ & _ & _ & Ei & Eo & _ & _ & Es) (_ & _ & _ & Hi & Ho) Hz Hs Hb Hai Hao HQ.
  pose proof (zones_apart _ _ _ ZIn ZOut Hz ltac:(done)) as Hio. cbn [zreg] in Hio.
  unfold LZ4F_freeDecompressionContext. rewrite Ei, Eo, Es.
  apply wp_bind. apply (wp_free_block _ _ m _ Hi). intros m1 Hu1 Hb1.
  apply wp_bind, (wp_free_block _ (p_outCap p)).
  { destruct Ho as [?|(H1 & H2 & H3 & H4 & H5)]; [by left|right]. splits; try done; [|by apply Hb1].
    intros i Hx. rewrite Hu1; [by apply H4|]. constructor; [|constructor]. unfold apart, member in *. cbn [fst snd] in *. lia. }
  intros m2 Hu2 Hb2. apply wp_bind. unfold LZ4F_free. rewrite (proj2 (Z.eqb_neq _ NULL)) by (unfold NULL; lia).
  eapply wp_mono; [apply free_ok; apply Hb2; [by apply Hb1|done]|]. intros _ m3 [He Hb3]. apply wp_ret, HQ.
  - intros i Hn. inversion Hn as [|? ? N1 Hn']. subst. inversion Hn' as [|? ? N2 Hn'']. subst. inversion Hn'' as [|? ? N3 _]. subst.
    rewrite He by exact N3. rewrite Hu2 by (by constructor). apply Hu1. by constructor.
  - intros q k H1 H2 H3 H4. apply Hb3; [|done]. apply Hb2; [|done]. by apply Hb1.
Qed.
End Lifecycle.
