(* ===== verification/Lz4FrameDecodeTheorems.v ===== *)
(** The properties of [LZ4F_decompress]: what a call does with any input, that
    it makes progress, dictionaries, and the use of a context after an error. *)
From S2P Require Import Prelude.
From S2P Require Import Mem.
From S2P Require Import Xxhash.
From S2P Require Import XxhashSpec.
From S2P Require Import BlockFormat.
From S2P Require Import Lz4Common.
From S2P Require Import Lz4Decompress.
From S2P Require Import Lz4DecodeSpec.
From S2P Require Import Lz4Frame.
From S2P Require Import Lz4FrameDecode.
From S2P Require Import FrameFormat.
From S2P Require Import Lz4FrameInv.
From S2P Require Import Lz4FrameDict.
From S2P Require Import Lz4FrameCall.
From S2P Require Import Lz4FrameInit.
From S2P Require Import Lz4FrameCallSpec.
From S2P Require Import FrameParse.
From S2P Require Import Lz4FrameApi.
From S2P Require Import Lz4FrameComplete.
From S2P Require Import Lz4FrameLifecycle.

(** * Contexts *)

(** A dictionary given before the first block. *)
Definition dict_given (p : priv) (m : mem) (dst room dict : Z) (dict0 : list Z) : Prop :=
  holds m dict dict0 /\ (dict0 = [] \/ (0 < dict /\ dict + zlen dict0 <= 2 ^ 63)) /\
  clear p dst room (dict, zlen dict0).

#[export] Instance dict_given_dec p m dst room dict dict0 : Decision (dict_given p m dst room dict dict0).
Proof. unfold dict_given. apply _. Defined.

Lemma suspended_dict `{HA : Allocator} old p d m dst room c e dict dict0 :
  suspended old p d m dst room c e -> stage_index (d_dStage d) <= stage_index dstage_init ->
  dict_given p m dst room dict dict0 ->
  suspended dict0 p (set_dictSize (zlen dict0) (set_dict dict d)) m dst room c e.
Proof.
  intros (Ho & Hp & Hz & Hst) Hle (Hd & Hb & Hc). split; [done|]. split; [done|]. split; [done|].
  assert (user_dict dict0 (set_dictSize (zlen dict0) (set_dict dict d)) p m dst room) as Hu
    by (unfold user_dict; dsimp; by splits).
  unfold stage_ok in *. dsimp. destruct (d_dStage d); try done.
  - destruct Hst as (-> & -> & Hr & _). by splits.
  - destruct Hst as (-> & Hr & _ & Hrest). split; [done|]. split; [done|]. by split.
  - destruct Hst as (-> & _ & Hrest). split; [done|]. by split.
Qed.

(** * Properties *)

(** C6.  A call of [LZ4F_decompress] with any input, at any point of a frame
    and with any sizes of source and destination, runs without a fault and to
    its end, and changes nothing but its private memory and the destination.
    It fails, and then the context can be reset; or it has consumed a part of
    the source and filled a part of the destination, and either the frame is
    complete - the bytes consumed are a well-formed frame whose content was
    emitted, with the right checksums - and the context is ready for the next
    frame, or the context is in a state in which the next call can go on. The byte
    in front of the destination is in use, and not by the context, so that the
    destination does not start where [tmpOutBuffer] ends: there [LZ4F_updateDict]
    goes wrong (see [updateDict_behind_buffer] below). *)
Theorem LZ4F_decompress_spec `{HA : Allocator} dict0 p d m dst dstSize src srcl opts c e :
  call_ok (call_of p d m dst dstSize src srcl opts dict0 c e) ->
  suspended dict0 p d m dst dstSize c e -> buffers_ok p m dst dstSize src srcl ->
  wp (LZ4F_decompress d dst dstSize src (zlen srcl) opts)
     (call_post (call_of p d m dst dstSize src srcl opts dict0 c e) opts) m.
Proof. apply wp_LZ4F_decompress. Qed.

(** A frame of two linked blocks: one stored, one compressed with a match that
    begins in the first. *)
Definition frame_info : LZ4F_frameInfo_t := FrameInfo 4 LZ4F_blockLinked 1 LZ4F_frame 0 0 1.
Definition part1 : list Z := [104; 101; 108; 108; 111; 44; 32; 119].
Definition block2 : BlockFormat.block := Block [Seq [33; 10] 10 12] [1; 2; 3; 4; 5; 6; 7] 0.
Definition part2 : list Z := Eval vm_compute in default [] (expand part1 block2).
Definition frame_bytes : list Z := Eval vm_compute in
  frame_of frame_info false false
    [FBlock true part1 (xxh32 0 part1);
     FBlock false (enc_block block2) (xxh32 0 (enc_block block2))] (part1 ++ part2).

Definition new_dctx : LZ4F_dctx := zero_dctx 100 100.
Definition frame_mem : mem :=
  mem_of [(100, replicate 288 0); (399, replicate 65 0); (500, part1); (600, frame_bytes)].

Lemma new_idle : @idle _ arena (new_priv 100) new_dctx frame_mem 400 64.
Proof. apply create_idle; eval_decide. Qed.

Lemma LZ4F_decompress_witness :
  wp (@LZ4F_decompress arena_CustomMem new_dctx 400 64 600 (zlen frame_bytes) None)
     (@call_post _ arena (call_of (new_priv 100) new_dctx frame_mem 400 64 600 frame_bytes None [] [] []) None)
     frame_mem.
Proof.
  apply (@LZ4F_decompress_spec _ arena).
  - eval_decide.
  - apply new_idle.
  - eval_decide.
Defined.

(** The same call, evaluated. *)
Example frame_decoded :
  match @LZ4F_decompress arena_CustomMem new_dctx 400 64 600 (zlen frame_bytes) None frame_mem with
  | Ok r m => r_code r = 0 /\ r_srcSize r = 52 /\ mload m 400 (Z.to_nat (r_dstSize r)) = Some (part1 ++ part2)
  | _ => False
  end.
Proof. vm_compute. by repeat split. Qed.

(** C18.  Progress: a call that is given input and room fails, completes the
    frame, or consumes or emits at least one byte. The byte in front of the
    destination is in use, and not by the context. *)
Theorem LZ4F_decompress_progress `{HA : Allocator} dict0 p d m dst dstSize src srcl opts c e :
  call_ok (call_of p d m dst dstSize src srcl opts dict0 c e) ->
  suspended dict0 p d m dst dstSize c e -> buffers_ok p m dst dstSize src srcl ->
  srcl <> [] -> 0 < dstSize ->
  wp (LZ4F_decompress d dst dstSize src (zlen srcl) opts)
     (fun R _ => LZ4F_isError (r_code R) = true \/ r_code R = 0 \/ 0 < r_srcSize R + r_dstSize R) m.
Proof.
  intros Hc Hs Hb Hne Hpos. eapply wp_mono; [by apply wp_LZ4F_decompress|].
  intros R m' [_ [(He & _)|(p' & x & r & o & (Ex & Er) & (_ & Eo & _) & _ & Hcode)]]; [by left|right].
  cbn [call_of k_srcl k_dstSize] in *. destruct (Z.eqb_spec (r_code R) 0) as [E|E]; [by left|right].
  destruct Hcode as (_ & _ & _ & Hstop & _). zlen_facts. pose proof (zlen_nonneg o). pose proof (zlen_nonneg x).
  rewrite Er, Eo. destruct Hstop as [_ [->|[Hroom _]]]; [|lia]. rewrite app_nil_r in Ex. rewrite Ex in Hne.
  apply zlen_pos in Hne. lia.
Qed.

Lemma LZ4F_decompress_progress_witness :
  wp (@LZ4F_decompress arena_CustomMem new_dctx 400 64 600 (zlen frame_bytes) None)
     (fun R _ => LZ4F_isError (r_code R) = true \/ r_code R = 0 \/ 0 < r_srcSize R + r_dstSize R) frame_mem.
Proof.
  apply (@LZ4F_decompress_progress _ arena [] (new_priv 100) new_dctx frame_mem 400 64 600 frame_bytes None [] []).
  - eval_decide.
  - apply new_idle.
  - eval_decide.
  - discriminate.
  - lia.
Defined.

(** Whatever a call returned, an error included, resetting the context
    makes it ready for a new frame: nothing of the input decoded before, of its
    dictionary or of the option to skip checksums is left. *)
Theorem reset_after_call `{HA : Allocator} dict0 p d m dst dstSize src srcl opts c e :
  call_ok (call_of p d m dst dstSize src srcl opts dict0 c e) ->
  suspended dict0 p d m dst dstSize c e -> buffers_ok p m dst dstSize src srcl ->
  wp (R ← LZ4F_decompress d dst dstSize src (zlen srcl) opts;
      mret (LZ4F_resetDecompressionContext (r_dctx R)))
     (fun d' m' => exists p', idle p' d' m' dst 0) m.
Proof.
  intros Hc Hs Hb. apply wp_bind. eapply wp_mono; [by apply wp_LZ4F_decompress|].
  intros R m' Hp. apply wp_ret. destruct (call_leaves _ _ _ _ Hp) as (p' & H1 & H2 & H3 & _). exists p'. by apply reset_idle.
Qed.

(** A source that is not a frame: the call fails. *)
Lemma reset_after_call_witness :
  wp (R ← @LZ4F_decompress arena_CustomMem new_dctx 400 64 500 (zlen part1) None;
      mret (LZ4F_resetDecompressionContext (r_dctx R)))
     (fun d' m' => exists p', @idle _ arena p' d' m' 400 0) frame_mem.
Proof.
  apply (@reset_after_call _ arena [] (new_priv 100) new_dctx frame_mem 400 64 500 part1 None [] []).
  - eval_decide.
  - apply new_idle.
  - eval_decide.
Defined.

(** [LZ4F_decompress_usingDict] before the first block: the frame is
    decoded with the dictionary as its history, whatever dictionary was given
    before. *)
Theorem LZ4F_decompress_usingDict_spec `{HA : Allocator} old p d m dst dstSize src srcl opts c e dict dict0 :
  call_ok (call_of p d m dst dstSize src srcl opts dict0 c e) ->
  suspended old p d m dst dstSize c e -> stage_index (d_dStage d) <= stage_index dstage_init ->
  dict_given p m dst dstSize dict dict0 -> buffers_ok p m dst dstSize src srcl ->
  wp (LZ4F_decompress_usingDict d dst dstSize src (zlen srcl) dict (zlen dict0) opts)
     (call_post (call_of p d m dst dstSize src srcl opts dict0 c e) opts) m.
Proof.
  intros Hc Hs Hle Hd Hb. unfold LZ4F_decompress_usingDict. rewrite (proj2 (Z.leb_le _ _)) by done.
  apply (wp_LZ4F_decompress dict0 p (set_dictSize (zlen dict0) (set_dict dict d)) m); [done| |done].
  by eapply suspended_dict.
Qed.

Lemma LZ4F_decompress_usingDict_witness :
  wp (@LZ4F_decompress_usingDict arena_CustomMem new_dctx 400 64 600 (zlen frame_bytes) 500 (zlen part1) None)
     (@call_post _ arena (call_of (new_priv 100) new_dctx frame_mem 400 64 600 frame_bytes None part1 [] []) None)
     frame_mem.
Proof.
  apply (@LZ4F_decompress_usingDict_spec _ arena []).
  - eval_decide.
  - apply new_idle.
  - vm_compute. discriminate.
  - eval_decide.
  - eval_decide.
Defined.

(** C7.  Completeness: at any point of a good frame - one whose blocks, checksums
    and sizes are right - a call that is given the rest of the frame, whatever
    follows it, and room for the rest of its content completes the frame: it
    consumes exactly the frame and emits exactly the content. It fails only if
    memory runs out. The byte in front of the destination is in use, and not by the
    context. *)
Theorem LZ4F_decompress_complete `{HA : Allocator} dict0 p d m dst dstSize src srcl opts c e f y t :
  call_ok (call_of p d m dst dstSize src srcl opts dict0 c e) ->
  suspended dict0 p d m dst dstSize c e -> buffers_ok p m dst dstSize src srcl ->
  good_frame dict0 f y -> c ++ srcl = f ++ t -> zlen y <= zlen e + dstSize ->
  wp (LZ4F_decompress d dst dstSize src (zlen srcl) opts) (completes dst c e f y) m.
Proof. intros. eapply wp_mono; [by eapply wp_decompress_complete|]. by intros R m' [_ ?]. Qed.

Lemma frame_bytes_good : good_frame [] frame_bytes (part1 ++ part2).
Proof.
  exists frame_info, false, false, [FBlock true part1 (xxh32 0 part1);
    FBlock false (enc_block block2) (xxh32 0 (enc_block block2))].
  split; [eval_decide|]. split; [done|]. split; [|split; [done|vm_compute; reflexivity]].
  apply good_cons; [done|vm_compute; discriminate|vm_compute; discriminate|]. rewrite <- (app_nil_r part2).
  apply good_cons; [|vm_compute; discriminate|vm_compute; discriminate|constructor].
  split; [done|]. split; [done|]. cbn [fb_raw fb_data]. exists block2. split; [done|]. split; [|done].
  eval_decide.
Qed.

Lemma LZ4F_decompress_complete_witness :
  wp (@LZ4F_decompress arena_CustomMem new_dctx 400 64 600 (zlen frame_bytes) None)
     (completes 400 [] [] frame_bytes (part1 ++ part2)) frame_mem.
Proof.
  apply (@LZ4F_decompress_complete _ arena [] (new_priv 100) new_dctx frame_mem 400 64 600 frame_bytes None
    [] [] frame_bytes (part1 ++ part2) []).
  - eval_decide.
  - apply new_idle.
  - eval_decide.
  - exact frame_bytes_good.
  - reflexivity.
  - vm_compute. discriminate.
Defined.

(** * A destination behind the output buffer *)

(** [LZ4F_updateDict] recognises a history that ends at the destination by the
    address alone. If the history is in [tmpOutBuffer] and the destination starts
    right behind it - the buffer is full, and the caller's memory follows it - the
    bytes that were just decoded are taken for a part of the buffer: they are not
    copied into it, and the end of the call, which finds the history at
    [tmpOutBuffer], does not save them either. The last [n] bytes of the history
    are then the caller's, who may have changed or released them when the next
    linked block is decoded. *)
Theorem updateDict_behind_buffer options d n dst0 withinTmp :
  d_dict d = d_tmpOutBuffer d -> 0 < d_dictSize d -> 0 <= n -> d_dictSize d + n < 2 ^ 64 ->
  let d' := set_dictSize (d_dictSize d + n) d in
  LZ4F_updateDict d (d_tmpOutBuffer d + d_dictSize d) n dst0 withinTmp = mret d' /\
  preserveHistory options d' = mret d'.
Proof.
  intros Ed Hz Hn0 Hn d'. split.
  - unfold LZ4F_updateDict. rewrite (proj2 (Z.eqb_neq _ 0)), Ed, Z.eqb_refl by lia. by rewrite u64_small by lia.
  - unfold preserveHistory, d'. cbn [d_dict d_tmpOutBuffer set_dictSize]. rewrite Ed, Z.eqb_refl. by rewrite andb_false_r.
Qed.
