(* ===== verification/Lz4FrameClient.v ===== *)
(** Calls of [LZ4F_decompress] from a client with a fixed source buffer and a
    fixed destination buffer: the context survives what the client does between
    two calls, and the output is bounded by the input. *)
From S2P Require Import Prelude.
From S2P Require Import Mem.
From S2P Require Import Xxhash.
From S2P Require Import XxhashSpec.
From S2P Require Import XxhashStream.
From S2P Require Import BlockFormat.
From S2P Require Import Lz4Common.
From S2P Require Import Lz4Decompress.
From S2P Require Import Lz4Frame.
From S2P Require Import Lz4FrameDecode.
From S2P Require Import FrameFormat.
From S2P Require Import FrameParse.
From S2P Require Import Lz4FrameHeader.
From S2P Require Import Lz4FrameInv.
From S2P Require Import Lz4FrameDict.
From S2P Require Import Lz4FrameCall.
From S2P Require Import Lz4FrameStages.
From S2P Require Import Lz4FrameBlockStages.
From S2P Require Import Lz4FrameInit.
From S2P Require Import Lz4FrameCallSpec.
From S2P Require Import Lz4FrameApi.

(** * Writes of the client *)

Section ClientWrite.
Context `{HA : Allocator} (dict0 : list Z) (p : priv) (d : LZ4F_dctx) (m m' : mem) (dst room : Z).
Context (Hown : owns d p) (Hz : zones_ok p dst room) (Hf : zframe p dst room ZDst m m').

Lemma flush_kept o x :
  0 <= d_maxBlockSize d -> flush_hist dict0 d p m dst room o x -> flush_hist dict0 d p m' dst room o x.
Proof.
  pose proof Hown as (_ & _ & _ & _ & _ & Hmx & _).
  intros H0 (H1 & H2 & H3). split; [done|]. split; [done|].
  destruct (d_linked d); [|by eapply (hist_kept _ _ _ _ _ _ Hf)].
  destruct H3 as [H3 H4]. split; [done|].
  destruct H4 as [(F1 & F2 & g & y & s & F3 & F4 & F5)|(F1 & w & F2 & F3 & F4 & F5 & F6)]; [left|right].
  - split; [done|]. split; [done|]. exists g, y, s. split; [|done].
    eapply (zone_zkept _ _ _ _ _ _ Hf Hz ZOut); [done| |done]. right. cbn. lia.
  - split; [done|]. exists w. splits; try done. by eapply clear_zkept.
Qed.

Lemma header_kept off l : 0 <= off -> off + zlen l <= 19 -> holds m (d_header d + off) l -> holds m' (d_header d + off) l.
Proof.
  intros H0 Hl. destruct Hown as (Eh & _). eapply (zone_zkept _ _ _ _ _ _ Hf Hz ZHeader); [done|].
  rewrite Eh. right. cbn. lia.
Qed.

Lemma tmpIn_kept l : zlen l <= p_inCap p -> holds m (d_tmpIn d) l -> holds m' (d_tmpIn d) l.
Proof.
  intros Hl. destruct Hown as (_ & _ & _ & Ei & _). eapply (zone_zkept _ _ _ _ _ _ Hf Hz ZIn); [done|].
  rewrite Ei. right. cbn. lia.
Qed.

(** A write to what may be the next destination does not disturb the context. *)
Lemma stage_kept c e : bytes_ok c -> stage_ok dict0 p d m dst room c e -> stage_ok dict0 p d m' dst room c e.
Proof.
  intros Hok. pose proof (counted_kept _ _ _ _ _ _ Hf Hz d) as Hc. pose proof (user_dict_kept _ _ _ _ _ _ Hf dict0 d) as Hu.
  pose proof (fun h => hist_kept _ _ _ _ _ _ Hf Hz d h Hown ltac:(done)) as Hh.
  pose proof (fun x => bc_kept _ _ _ _ _ _ Hf Hz d x Hown ltac:(done)) as Hb.
  assert (forall bs o q, read_so_far dict0 d p bs o q c ->
    0 <= d_maxBlockSize d /\ 4 <= p_inCap p /\ d_maxBlockSize d + 4 <= p_inCap p) as Hcap.
  { intros bs o q Hrd. destruct (read_facts _ _ _ _ _ _ _ Hok Hrd) as (_ & ? & ? & _). unfold KB in *. lia. }
  pose proof (fun l => header_kept 0 l ltac:(lia)) as H0. rewrite Z.add_0_r in H0.
  unfold stage_ok, block_hist. destruct (d_dStage d); try done.
  - intros (-> & -> & Hr & HX). by splits; [..|apply Hu].
  - intros (-> & Hr & HX & H1 & H2 & H3 & H4). split; [done|]. split; [done|]. split; [by apply Hu|].
    split; [done|]. split; [done|]. split; [|done]. apply H0; [|done]. cbn.
    destruct H4 as [?|(c1 & c2 & _ & Hm)]; [lia|]. apply parse_more_size in Hm as [_ ?]. lia.
  - intros (-> & HX & HX'). split; [done|]. split; [by apply Hu|done].
  - intros (bs & Hrd & Hcnt & HX). exists bs. split; [done|]. split; [by apply Hc|]. by apply Hh.
  - intros (bs & q & Hrd & Hcnt & HX & H1 & H2 & H3). exists bs, q. specialize (Hcap _ _ _ Hrd).
    split; [done|]. split; [by apply Hc|]. split; [by apply Hh|]. splits; try done. by apply tmpIn_kept; [lia|].
  - intros (bs & o & x & Hrd & He & Hcnt & HX & H1 & H2 & H3). exists bs, o, x.
    split; [done|]. split; [done|]. split; [by apply Hc|]. split; [by apply Hh|]. splits; try done.
    intros E1 E2. by apply Hb, H3.
  - intros (bs & o & x & q & Hrd & He & Hcnt & HX & H1 & H2 & H3 & H4 & H5 & H6). exists bs, o, x, q.
    split; [done|]. split; [done|]. split; [by apply Hc|]. split; [by apply Hh|]. splits; try done.
    + by apply H0; [lia|].
    + intros E1. by apply Hb, H6.
  - intros (bs & n & Hrd & Hcnt & HX & HX'). exists bs, n. split; [done|]. split; [by apply Hc|]. split; [by apply Hh|done].
  - intros (bs & n & q & Hrd & Hcnt & HX & H1 & H2 & H3 & H4 & H5). exists bs, n, q. specialize (Hcap _ _ _ Hrd).
    split; [done|]. split; [by apply Hc|]. split; [by apply Hh|]. splits; try done; try lia.
    apply tmpIn_kept; [|done]. destruct (d_blockCrc d); lia.
  - intros (bs & o & x & Hrd & Hcnt & He & H1 & H2 & H3 & H4 & H5). exists bs, o, x. specialize (Hcap _ _ _ Hrd).
    pose proof Hown as (_ & _ & _ & _ & _ & Hmx & _). pose proof H5 as (F1 & F2 & _).
    split; [done|]. split; [by apply Hc|]. splits; try done; try lia; [|apply flush_kept; [lia|done]].
    eapply (zone_zkept _ _ _ _ _ _ Hf Hz ZOut); [done| |done]. right. cbn. lia.
  - intros (bs & Hrd & Hcnt). exists bs. split; [done|by apply Hc].
  - intros (bs & q & Hrd & Hcnt & H1 & H2 & H3 & H4 & H5). exists bs, q. specialize (Hcap _ _ _ Hrd).
    split; [done|]. split; [by apply Hc|]. splits; try done. by apply tmpIn_kept; [lia|].
  - intros (-> & H1 & H2 & H3 & H4 & H5). splits; try done; try lia. apply header_kept; [lia| |done].
    unfold zlen. rewrite length_drop. unfold zlen in *. lia.
Qed.
End ClientWrite.

(** * Where the history is *)

Lemma window_nil w : window w [] -> w = [].
Proof.
  intros [?|(g & y & s & -> & E & Hs)]; [done|]. symmetry in E. apply app_eq_nil in E as [_ ->].
  change (zlen (@nil Z)) with 0 in Hs. unfold KB in Hs. lia.
Qed.

(** Without a dictionary, a history that is the context's own lets the client
    choose any next destination. *)
Lemma stage_anywhere `{HA : Allocator} p d m dst room dst' room' c e :
  owns d p -> bytes_ok c -> history_own d -> stage_ok [] p d m dst room c e ->
  stage_ok [] p d m dst' room' c e.
Proof.
  intros Hown Hok Hho Hst. pose proof Hown as (_ & _ & _ & _ & Eo & Hmx & _).
  assert (d_dictSize d = 0 -> dict_clear p d dst' room') as H0 by (intros E; right; apply clear_empty; lia).
  assert (forall bs o q, read_so_far [] d p bs o q c ->
    in_blocks (d_dStage d) || is_flush (d_dStage d) = true ->
    (d_linked d = false -> hist d p m dst room []) -> dict_clear p d dst' room') as Hbl.
  { intros bs o q Hrd Hs Hh. destruct (read_facts _ _ _ _ _ _ _ Hok Hrd) as (_ & Hb & _ & Hbuf & _).
    destruct (d_linked d) eqn:El.
    - destruct (Hho El Hs) as [E|E]; [|by apply H0]. left. unfold KB in *. split; [congruence|lia].
    - apply H0. destruct (Hh eq_refl) as (w & (En & _) & Hw). apply window_nil in Hw as ->. done. }
  assert (forall e', block_hist [] d p m dst room e' -> d_linked d = false -> hist d p m dst room []) as Hbh.
  { intros e' Hh El. unfold block_hist, history, d_linked in *. by rewrite El in Hh. }
  assert (dict_clear p d dst' room' \/ 10 <= stage_index (d_dStage d)) as [Hd|Hd].
  { unfold stage_ok in Hst. destruct (d_dStage d) eqn:Es; try (right; vm_compute; discriminate); left.
    - apply H0. by destruct Hst as (_ & _ & _ & (E & _)).
    - apply H0. by destruct Hst as (_ & _ & (E & _) & _).
    - apply H0. by destruct Hst as (_ & (E & _) & _).
    - destruct Hst as (bs & Hrd & _ & Hh). by eapply Hbl; [done|done|eapply Hbh].
    - destruct Hst as (bs & q & Hrd & _ & Hh & _). by eapply Hbl; [done|done|eapply Hbh].
    - destruct Hst as (bs & o & x & Hrd & _ & _ & Hh & _). by eapply Hbl; [done|done|eapply Hbh].
    - destruct Hst as (bs & o & x & q & Hrd & _ & _ & Hh & _). by eapply Hbl; [done|done|eapply Hbh].
    - destruct Hst as (bs & n & Hrd & _ & Hh & _). by eapply Hbl; [done|done|eapply Hbh].
    - destruct Hst as (bs & n & q & Hrd & _ & Hh & _). by eapply Hbl; [done|done|eapply Hbh].
    - destruct Hst as (bs & o & x & Hrd & _ & _ & _ & _ & _ & _ & _ & _ & Hfl). eapply Hbl; [done|done|].
      intros El. rewrite El in Hfl. unfold history, d_linked in *. by rewrite El in Hfl. }
  - by eapply stage_move.
  - unfold stage_ok in *. by destruct (d_dStage d).
Qed.

(** * Buffers of the client *)

(** The private memory, as it may be after a call, is still apart from a buffer
    of the client. *)
Lemma zones_after `{HA : Allocator} K p m a n dst room :
  covered K p m -> zones_ok p dst room -> mapped (k_mem K) a n -> zones_ok (k_priv K) a n -> zones_ok p a n.
Proof.
  intros (Hc & _) Hz Hm H0.
  assert (forall i, old_or_fresh K i -> ~ (a <= i < a + n)) as Hout.
  { intros i [(z0 & Hz0 & Hi)|Hi] Hin.
    - pose proof (zones_apart _ _ _ z0 ZDst H0 Hz0) as A. unfold apart, member in *.
      destruct z0; cbn [zreg fst snd] in *; lia || done.
    - destruct (Hm i Hin) as [v Hv]. congruence. }
  assert (forall r, (forall i, member r i -> ~ (a <= i < a + n)) -> apart r (a, n)) as Hap.
  { intros r Hr. unfold apart. cbn [fst snd]. specialize (Hr (Z.max r.1 a)). unfold member in Hr. lia. }
  assert (forall z, z <> ZDst -> apart (zreg p a n z) (a, n)) as Hpa.
  { intros z Hne. apply Hap. intros i Hi. apply Hout, (Hc z); [done|]. by destruct z. }
  apply zones_intro.
  intros z z' Hne. destruct (decide (z = ZDst)) as [->|H1]; [by apply apart_sym, Hpa|].
  destruct (decide (z' = ZDst)) as [->|H2]; [by apply Hpa|].
  pose proof (zones_apart _ _ _ _ _ Hz Hne). by destruct z, z'.
Qed.

(** The byte in front of it is still in use, and not by the context. *)
Lemma fenced_after `{HA : Allocator} K p m a n :
  kept K m -> covered K p m -> apart (k_dst K, k_dstSize K) (a - 1, 1) -> fenced (k_priv K) (k_mem K) a n ->
  fenced p m a n.
Proof.
  intros Hk [Hc _] Hd [Hn|[Hm Hcl]]; [by left|right].
  assert (forall z, z <> ZDst -> ~ member (zreg (k_priv K) (k_dst K) (k_dstSize K) z) (a - 1)) as Hout.
  { intros z Hz Hi. pose proof (clear_apart _ _ _ _ z Hcl) as A. unfold apart, member in *.
    destruct z; cbn [zreg fst snd] in *; lia || done. }
  split.
  - intros i Hi. replace i with (a - 1) by lia. rewrite Hk; [apply Hm; lia|apply Hm; lia|].
    intros z Hz. destruct (decide (z = ZDst)) as [->|Hne]; [|by apply (Hout z)].
    unfold apart, member in *. cbn [zreg fst snd] in *. lia.
  - apply clear_intro. intros z. destruct (decide (z = ZDst)) as [->|Hne]; [unfold apart; cbn; lia|].
    apply apart_by. intros i Hi Hi'. assert (i = a - 1) as -> by (unfold member in Hi'; cbn [fst snd] in Hi'; lia).
    destruct (Hc z (a - 1) Hne) as [(z0 & Hz0 & H0)|H0]; [by destruct z|by apply (Hout z0)|].
    destruct (Hm (a - 1)) as [v Hv]; [lia|]. congruence.
Qed.

(** A part of a buffer is a buffer. *)
Lemma zones_part p a n b k : zones_ok p a n -> inside b k (a, n) -> zones_ok p b k.
Proof.
  intros Hz Hi. assert (forall z, z <> ZDst -> apart (zreg p b k z) (b, k)) as Hpa.
  { intros z Hne. pose proof (zones_apart _ _ _ z ZDst Hz Hne) as A. unfold apart, inside in *.
    destruct z; cbn [zreg fst snd] in *; lia || done. }
  apply zones_intro.
  intros z z' Hne. destruct (decide (z = ZDst)) as [->|H1]; [by apply apart_sym, Hpa|].
  destruct (decide (z' = ZDst)) as [->|H2]; [by apply Hpa|].
  pose proof (zones_apart _ _ _ _ _ Hz Hne). by destruct z, z'.
Qed.

Lemma fenced_part p m a n b k :
  mapped m a n -> zones_ok p a n -> fenced p m a n -> inside b k (a, n) -> fenced p m b k.
Proof.
  intros Hm Hz Hf [Hi|Hi]; [by left|]. cbn [fst snd] in Hi. destruct (Z.le_gt_cases k 0); [by left|right].
  assert (mapped m (b - 1) 1 /\ forall z, z <> ZDst -> apart (zreg p b k z) (b - 1, 1)) as [H1 H2].
  { destruct (Z.eq_dec b a) as [->|Hne].
    - destruct Hf as [?|[H1 H2]]; [lia|]. split; [done|]. intros z Hne. pose proof (clear_apart _ _ _ _ z H2). by destruct z.
    - split; [eapply mapped_sub; [exact Hm|lia|lia]|]. intros z Hz'.
      pose proof (zones_apart _ _ _ z ZDst Hz Hz') as A. unfold apart in *. destruct z; cbn [zreg fst snd] in *; lia || done. }
  split; [done|]. apply clear_intro. intros z. destruct (decide (z = ZDst)) as [->|Hne]; [unfold apart; cbn; lia|].
  by apply H2.
Qed.

(** A block of another owner, apart from the buffers of the context. *)
Definition held `{Allocator} (p : priv) (m : mem) (r : Z * Z) : Prop :=
  mapped m r.1 r.2 /\ block m r.1 r.2 /\
  apart (p_tmpIn p, p_inCap p) r /\ apart (p_tmpOut p, p_outCap p) r.

(** It survives a call that has it not in its destination. *)
Lemma held_after `{HA : Allocator} K p m dst room r :
  kept K m -> covered K p m -> priv_ok p m -> zones_ok p dst room -> apart (k_dst K, k_dstSize K) r ->
  held (k_priv K) (k_mem K) r -> held p m r.
Proof.
  intros Hk Hc (P1 & P2 & P3 & _) Hz Hd (Hm & Hb & Hi & Ho). pose proof Hc as (_ & (F1 & F2 & F3 & _) & Hbk).
  destruct r as [a n]. cbn [fst snd] in *. split; [|split; [by apply Hbk|split]].
  - intros i Hin. destruct (decide (member (p_header p, 19) i)) as [H1|H1]; [by apply P1|].
    destruct (decide (member (p_xxh p, 16) i)) as [H2|H2]; [by apply P2|].
    destruct (decide (member (p_bc p, 16) i)) as [H3|H3]; [by apply P3|].
    rewrite Hk; [by apply Hm|by apply Hm|]. rewrite F1, F2, F3 in *.
    intros z Hzm. unfold apart, member in *. destruct z; cbn [zreg fst snd] in *; lia.
  - apply (buffer_away K p m dst room ZIn); [done|done|by left|done..].
  - apply (buffer_away K p m dst room ZOut); [done|done|by right|done..].
Qed.

Section Client.
Context `{HA : Allocator}.
(** A buffer of [size] bytes for the output and one of [srcCap] bytes for the
    input. *)
Context (buf size src srcCap : Z).
Context (Hbuf : 0 < buf /\ 0 <= size /\ buf + size <= 2 ^ 63) (Hsrc : 0 < src /\ src + srcCap <= 2 ^ 63).
Context (Hapart : apart (buf, size) (src, srcCap)).

(** The context and the buffers between two calls. *)
Definition attached (p : priv) (d : LZ4F_dctx) (m : mem) (c e : list Z) : Prop :=
  (suspended [] p d m src srcCap c e /\ zones_ok p buf size /\ fenced p m buf size) /\ mapped m buf size /\ mapped m src srcCap /\
  d_skipChecksum d = 0 /\ history_own d.

Definition same_on (a n : Z) (m m' : mem) : Prop := forall i, a <= i < a + n -> m' !! i = m !! i.

(** A call with a part [dst] of the output buffer as its destination. *)
Section Part.
Context (dst cap : Z) (Hpart : buf <= dst /\ 0 <= cap /\ dst + cap <= buf + size).

Lemma src_clear p : zones_ok p src srcCap -> clear p dst cap (src, srcCap).
Proof.
  intros Hz. apply clear_intro. intros z. destruct (decide (z = ZDst)) as [->|Hne].
  - unfold apart in *. cbn [zreg fst snd] in *. lia.
  - pose proof (zones_apart _ _ _ z ZDst Hz Hne). by destruct z.
Qed.

Lemma buf_clear p a n :
  zones_ok p buf size -> inside a n (buf, dst - buf) -> clear p dst cap (a, n).
Proof.
  intros Hz Hi. apply clear_intro. intros z. destruct (decide (z = ZDst)) as [->|Hne].
  - unfold apart, inside in *. cbn [zreg fst snd] in *. lia.
  - pose proof (zones_apart _ _ _ z ZDst Hz Hne) as A. unfold apart, inside in *.
    destruct z; cbn [zreg fst snd] in *; lia || done.
Qed.

(** What a call does to the buffers and the context: an error has its cause in
    the input or in the allocator, and leaves the private memory in order. *)
Definition client_post (p : priv) (d : LZ4F_dctx) (m : mem) (sp : Z) (c e l : list Z) (R : dresult) (m' : mem) : Prop :=
  let K := call_of p d m dst cap sp l None [] c e in
  (kept K m' /\ same_on src srcCap m m' /\ same_on buf (dst - buf) m m') /\
  if LZ4F_isError (r_code R) then
    (exists p', owns (r_dctx R) p' /\ priv_ok p' m' /\ zones_ok p' dst 0 /\ covered K p' m') /\ blamed K (r_code R)
  else exists p' x r o, (l = x ++ r /\ r_srcSize R = zlen x) /\ (r_dstSize R = zlen o /\ zlen o <= cap /\ holds m' dst o) /\
    covered K p' m' /\
    if r_code R =? 0 then
      frame_done [] true (c ++ x) (e ++ o) /\ attached p' (r_dctx R) m' [] [] /\
      d_dStage (r_dctx R) = dstage_getFrameHeader
    else
      attached p' (r_dctx R) m' (c ++ x) (e ++ o) /\ waits (d_dStage (r_dctx R)) = true /\
      (r = [] \/ zlen o = cap).

Lemma client_call p d m c e sp l :
  attached p d m c e -> bytes_ok (c ++ l) -> holds m sp l -> src <= sp -> sp + zlen l <= src + srcCap ->
  wp (LZ4F_decompress d dst cap sp (zlen l) None) (client_post p d m sp c e l) m.
Proof.
  intros (((Hown & Hpriv & Hzs & Hst) & Hzb & Hfe) & Hmb & Hms & Hsk & Hho) Hok Hl Hlo Hhi.
  pose proof (src_clear p Hzs) as Hcl. pose proof Hok as [Hokc _]%bytes_ok_app.
  set (K := call_of p d m dst cap sp l None [] c e).
  assert (inside dst cap (buf, size)) as Hin by (right; cbn; lia).
  assert (call_ok K) as HK.
  { split; [cbn; lia|]. split; [right; cbn; lia|]. split; [done|]. by apply (fenced_part p m buf size). }
  assert (mapped m dst cap) as Hmd by (eapply mapped_sub; [exact Hmb|lia..]).
  assert (buffers_ok p m dst cap sp l) as Hb.
  { split; [done|]. split; [|done]. eapply clear_sub; [exact Hcl|]. right. cbn. lia. }
  assert (suspended [] p d m dst cap c e) as Hs.
  { split; [done|]. split; [done|]. split; [|by eapply stage_anywhere].
    by eapply zones_part. }
  eapply wp_mono; [exact (wp_LZ4F_decompress [] p d m dst cap sp l None c e HK Hs Hb)|].
  intros R m' [Hk Hp]. fold K in Hk, Hp.
  assert (forall a n, mapped m a n -> clear p dst cap (a, n) -> same_on a n m m') as Hsame.
  { intros a n Hm Hc i Hi. apply (Hk i); [by apply Hm|]. intros z Hz. pose proof (clear_apart _ _ _ _ z Hc) as A.
    unfold apart, member in *. cbn [k_priv k_dst k_dstSize K call_of fst snd] in *. lia. }
  pose proof (Hsame src srcCap Hms Hcl) as Hsk'. unfold client_post. fold K.
  split; [split; [done|]; split; [done|]|].
  { apply Hsame; [eapply mapped_sub; [exact Hmb|lia..]|]. apply (buf_clear p); [done|]. right. cbn. lia. }
  destruct Hp as [(He & _ & _ & Hp & Hbl)|Hp]; [by rewrite He|].
  destruct Hp as (p' & x & r & o & (Ex & Esz) & (Hol & Eo & Ho & Hm') & Hcov & Hcode).
  cbv zeta in Hcode. cbn [K call_of k_srcl k_dst k_dstSize k_dict k_read k_done k_skip] in *.
  assert (skip_of d None = 0) as Esk by (unfold skip_of; by rewrite Hsk). rewrite Esk in Hcode.
  assert (mapped m' buf size) as Hmb'.
  { intros i Hi. destruct (decide (dst <= i < dst + cap)) as [Hd|Hd]; [by apply Hm'|].
    destruct (Hmb i Hi) as [v Hv]. exists v. rewrite <- Hv. apply (Hk i); [by eexists|]. intros z Hz.
    destruct (decide (z = ZDst)) as [->|Hne]; [by unfold member in Hz; cbn in Hz|].
    pose proof (zones_apart _ _ _ z ZDst Hzb Hne) as A. unfold apart, member in *.
    destruct z; cbn [k_priv k_dst k_dstSize K call_of zreg fst snd] in *; lia || done. }
  assert (mapped m' src srcCap) as Hms' by (intros i Hi; rewrite Hsk' by done; by apply Hms).
  assert (LZ4F_isError (r_code R) = false) as Hne.
  { destruct (Z.eqb_spec (r_code R) 0) as [->|E]; [done|]. destruct Hcode as (Hc & _). apply small_not_error. lia. }
  rewrite Hne. exists p', x, r, o. split; [done|]. split; [done|]. split; [done|].
  assert (bytes_ok (c ++ x)) as Hokx by (rewrite Ex, app_assoc in Hok; by apply bytes_ok_app in Hok as [? _]).
  assert (forall d' c' e', bytes_ok c' -> suspended [] p' d' m' (dst + zlen o) (cap - zlen o) c' e' ->
    d_skipChecksum d' = 0 -> history_own d' -> attached p' d' m' c' e') as Hatt.
  { intros d' c' e' Hok' (Hown' & Hpriv' & Hz' & Hst') Hsk2 Hho'. split; [|by split].
    split; [split; [done|]; split; [done|]; split|].
    - by eapply (zones_after K p' m' src srcCap).
    - by eapply stage_anywhere.
    - split; [by eapply (zones_after K p' m' buf size)|]. apply (fenced_after K); try done.
      unfold apart. cbn. lia. }
  destruct (Z.eqb_spec (r_code R) 0) as [E|E].
  - destruct Hcode as [Hfd (Hsus & Hsk2 & Hgs)]. split; [done|]. split; [|done]. apply Hatt; [constructor|done|done|].
    intros _. by rewrite Hgs.
  - destruct Hcode as (_ & Hsus & Hsk2 & (Hw & Hstop) & Hown2). split; [apply Hatt; try done; by apply Hown2|].
    split; [done|]. destruct Hstop as [->|[Hr _]]; [by left|right; lia].
Qed.
End Part.

(** The client fills the source buffer. *)
Lemma client_fill p d m m' c e n :
  attached p d m c e -> bytes_ok c -> frame src (src + n) m m' -> 0 <= n <= srcCap ->
  attached p d m' c e.
Proof.
  intros (((Hown & Hpriv & Hzs & Hst) & Hzb & Hfe) & Hmb & Hms & Hsk & Hho) Hok Hf Hn.
  assert (zframe p src srcCap ZDst m m') as Hzf by (eapply zframe_of; [exact Hf|right; cbn; lia]).
  split; [|split; [by eapply frame_mapped|]; split; [by eapply frame_mapped|by split]].
  split.
  - split; [done|]. split; [by eapply priv_frame|]. split; [done|]. by eapply stage_kept; [..|exact Hzf|done|].
  - split; [done|]. destruct Hfe as [?|[? ?]]; [by left|right]. split; [by eapply frame_mapped|done].
Qed.
End Client.

(** * The output is bounded by the input *)

(** A block of four bytes at least stands for 4 MB at most. *)
Lemma contents_bound i crc dict bs o :
  info_wf i -> contents i crc dict bs o -> zlen o <= 2 ^ 20 * zlen (enc_blocks i bs).
Proof.
  intros Hi Hc. induction Hc as [|bs b o x Hc IH Hb Hd Hx Hcrc]; [done|].
  pose proof (block_sizes (blockSizeID i) ltac:(apply Hi)) as Hs. unfold KB, MB in Hs.
  rewrite enc_blocks_snoc, !zlen_app. unfold enc_fblock. rewrite !zlen_app, zlen_block_header.
  zlen_facts. pose proof (zlen_nonneg (if blockChecksumFlag i =? 0 then [] else le_bytes 4 (fb_crc b))). lia.
Qed.

Lemma read_bound dict0 d p bs o q c :
  bytes_ok c -> read_so_far dict0 d p bs o q c -> zlen o + 2 ^ 20 * zlen q <= 2 ^ 20 * zlen c.
Proof.
  intros Hok Hrd. destruct (read_facts _ _ _ _ _ _ _ Hok Hrd) as (Hi & _). destruct Hrd as (hdr & _ & Hc & ->).
  apply contents_bound in Hc; [|done]. rewrite !zlen_app. pose proof (zlen_nonneg hdr). lia.
Qed.

Lemma output_bound dict0 p d m dst room c e :
  bytes_ok c -> stage_ok dict0 p d m dst room c e -> zlen e <= 2 ^ 20 * zlen c.
Proof.
  intros Hok. pose proof (fun bs o q => read_bound dict0 d p bs o q c Hok) as Hb. pose proof (zlen_nonneg c).
  assert (forall bs o q, read_so_far dict0 d p bs o q c -> zlen o <= 2 ^ 20 * zlen c) as Hb'.
  { intros bs o q Hrd. specialize (Hb _ _ _ Hrd). pose proof (zlen_nonneg q). lia. }
  unfold stage_ok. destruct (d_dStage d).
  - intros (-> & -> & _). done.
  - intros (-> & _). change (zlen (@nil Z)) with 0. lia.
  - intros (-> & _). change (zlen (@nil Z)) with 0. lia.
  - intros (bs & Hrd & _). by eapply Hb'.
  - intros (bs & q & Hrd & _). by eapply Hb'.
  - intros (bs & o & x & Hrd & -> & _). specialize (Hb _ _ _ Hrd). rewrite !zlen_app, zlen_block_header in *.
    pose proof (zlen_nonneg x). lia.
  - intros (bs & o & x & q & Hrd & -> & _). specialize (Hb _ _ _ Hrd). rewrite !zlen_app, zlen_block_header in *.
    pose proof (zlen_nonneg x). pose proof (zlen_nonneg q). lia.
  - intros (bs & n & Hrd & _). by eapply Hb'.
  - intros (bs & n & q & Hrd & _). by eapply Hb'.
  - intros (bs & o & x & Hrd & _ & -> & _). specialize (Hb' _ _ _ Hrd). rewrite !zlen_app in *.
    unfold zlen in *. rewrite length_take. lia.
  - intros (bs & Hrd & _). by eapply Hb'.
  - intros (bs & q & Hrd & _). by eapply Hb'.
  - intros (-> & _). change (zlen (@nil Z)) with 0. lia.
  - intros (-> & _). change (zlen (@nil Z)) with 0. lia.
  - intros (-> & _). change (zlen (@nil Z)) with 0. lia.
Qed.
