(* ===== verification/Lz4FrameCompress.v ===== *)
(** lib/lz4frame.c, compression of frames: the compression context, digested
    dictionaries, the making of blocks, and the functions that begin, continue,
    flush and end a frame. *)
From S2P Require Import Prelude.
From S2P Require Import Mem.
From S2P Require Import Xxhash.
From S2P Require Import Lz4Common.
From S2P Require Import Lz4Decompress.
From S2P Require Import Lz4Compress.
From S2P Require Import Lz4CompressGeneric.
From S2P Require Import Lz4StreamCompress.
From S2P Require Import Lz4Frame.
From S2P Require Import Lz4FrameDecode.

Definition LZ4HC_CLEVEL_MIN : Z := 2.
Definition LZ4HC_CLEVEL_DEFAULT : Z := 9.
Definition LZ4HC_CLEVEL_MAX : Z := 12.

Definition LZ4F_compressionLevel_max : Z := LZ4HC_CLEVEL_MAX.

Definition LZ4F_VERSION : Z := 100.

(** * The interface of the high-compression block compressor

    The functions of lz4hc.h that the frame compressor calls, for levels from
    [LZ4HC_CLEVEL_MIN] on. *)
Class LZ4_HC := {
  LZ4_streamHC_t : Type;
  LZ4_initStreamHC : LZ4_streamHC_t;
  LZ4_resetStreamHC_fast : LZ4_streamHC_t -> Z -> LZ4_streamHC_t;
  LZ4_setCompressionLevel : LZ4_streamHC_t -> Z -> LZ4_streamHC_t;
  LZ4_favorDecompressionSpeed : LZ4_streamHC_t -> Z -> LZ4_streamHC_t;
  LZ4_attach_HC_dictionary : LZ4_streamHC_t -> option LZ4_streamHC_t -> LZ4_streamHC_t;
  LZ4_loadDictHC : LZ4_streamHC_t -> Z -> Z -> M (Z * LZ4_streamHC_t);
  LZ4_saveDictHC : LZ4_streamHC_t -> Z -> Z -> M (Z * LZ4_streamHC_t);
  LZ4_compress_HC_continue : LZ4_streamHC_t -> Z -> Z -> Z -> Z -> M (Z * LZ4_streamHC_t);
  LZ4_compress_HC_extStateHC_fastReset :
    LZ4_streamHC_t -> Z -> Z -> Z -> Z -> Z -> M (Z * LZ4_streamHC_t) }.

Definition LZ4_sizeofState : Z := 16416.
Definition LZ4_sizeofStateHC : Z := 262200.

(** An [int] that does not overflow. *)
Definition int_value (z : Z) : M Z :=
  if (int_min <=? z) && (z <=? int_max) then mret z else fault.

(** * Contexts *)

Inductive LZ4F_BlockCompressMode_e := LZ4B_COMPRESSED | LZ4B_UNCOMPRESSED.

#[export] Instance blockCompressMode_eq_dec : EqDecision LZ4F_BlockCompressMode_e.
Proof. solve_decision. Defined.

Definition ctxNone : Z := 0.
Definition ctxFast : Z := 1.
Definition ctxHC : Z := 2.

Record LZ4F_compressOptions_t := CompressOptions { stableSrc : Z }.

Definition k_cOptionsNull : LZ4F_compressOptions_t := CompressOptions 0.

Section Compress.
Context `{HCM : LZ4F_CustomMem} `{HHC : LZ4_HC}.

(** What the memory at [lz4CtxPtr] holds. *)
Inductive lz4Ctx :=
| lz4_none
| lz4_fast (s : LZ4_stream_t)
| lz4_HC (s : LZ4_streamHC_t).

(** The casts of [lz4CtxPtr]: the memory is used as what it holds. *)
Definition as_fast (ctx : lz4Ctx) : M LZ4_stream_t :=
  match ctx with lz4_fast s => mret s | _ => fault end.

Definition as_HC (ctx : lz4Ctx) : M LZ4_streamHC_t :=
  match ctx with lz4_HC s => mret s | _ => fault end.

(** A digested dictionary: the addresses of its parts, and the two states. It is
    only read once it is made, so a pointer to it stands for its value. *)
Record LZ4F_CDict := CDict {
  cd_self : Z;
  cd_dictContent : Z;
  cd_fastPtr : Z;
  cd_HCPtr : Z;
  cd_fastCtx : LZ4_stream_t;
  cd_HCCtx : LZ4_streamHC_t }.

(** [cc_self] is the address of the context. *)
Record LZ4F_cctx := Cctx {
  cc_self : Z;
  cc_prefs : LZ4F_preferences_t;
  cc_version : Z;
  cc_cStage : Z;
  cc_cdict : option LZ4F_CDict;
  cc_maxBlockSize : Z;
  cc_maxBufferSize : Z;
  cc_tmpBuff : Z;
  cc_tmpIn : Z;
  cc_tmpInSize : Z;
  cc_totalInSize : Z;
  cc_xxh : XXH32_state_t;
  cc_lz4CtxPtr : Z;
  cc_lz4Ctx : lz4Ctx;
  cc_lz4CtxAlloc : Z;
  cc_lz4CtxType : Z;
  cc_blockCompressMode : LZ4F_BlockCompressMode_e }.

Definition cctx_eta (c : LZ4F_cctx) : LZ4F_cctx :=
  Cctx (cc_self c) (cc_prefs c) (cc_version c) (cc_cStage c) (cc_cdict c) (cc_maxBlockSize c)
    (cc_maxBufferSize c) (cc_tmpBuff c) (cc_tmpIn c) (cc_tmpInSize c) (cc_totalInSize c)
    (cc_xxh c) (cc_lz4CtxPtr c) (cc_lz4Ctx c) (cc_lz4CtxAlloc c) (cc_lz4CtxType c)
    (cc_blockCompressMode c).

Definition cset_prefs : LZ4F_preferences_t -> LZ4F_cctx -> LZ4F_cctx :=
  ltac:(field_setter cctx_eta cc_prefs).
Definition cset_cStage : Z -> LZ4F_cctx -> LZ4F_cctx := ltac:(field_setter cctx_eta cc_cStage).
Definition cset_cdict : option LZ4F_CDict -> LZ4F_cctx -> LZ4F_cctx :=
  ltac:(field_setter cctx_eta cc_cdict).
Definition cset_maxBlockSize : Z -> LZ4F_cctx -> LZ4F_cctx :=
  ltac:(field_setter cctx_eta cc_maxBlockSize).
Definition cset_maxBufferSize : Z -> LZ4F_cctx -> LZ4F_cctx :=
  ltac:(field_setter cctx_eta cc_maxBufferSize).
Definition cset_tmpBuff : Z -> LZ4F_cctx -> LZ4F_cctx := ltac:(field_setter cctx_eta cc_tmpBuff).
Definition cset_tmpIn : Z -> LZ4F_cctx -> LZ4F_cctx := ltac:(field_setter cctx_eta cc_tmpIn).
Definition cset_tmpInSize : Z -> LZ4F_cctx -> LZ4F_cctx :=
  ltac:(field_setter cctx_eta cc_tmpInSize).
Definition cset_totalInSize : Z -> LZ4F_cctx -> LZ4F_cctx :=
  ltac:(field_setter cctx_eta cc_totalInSize).
Definition cset_xxh : XXH32_state_t -> LZ4F_cctx -> LZ4F_cctx := ltac:(field_setter cctx_eta cc_xxh).
Definition cset_lz4CtxPtr : Z -> LZ4F_cctx -> LZ4F_cctx :=
  ltac:(field_setter cctx_eta cc_lz4CtxPtr).
Definition cset_lz4Ctx : lz4Ctx -> LZ4F_cctx -> LZ4F_cctx := ltac:(field_setter cctx_eta cc_lz4Ctx).
Definition cset_lz4CtxAlloc : Z -> LZ4F_cctx -> LZ4F_cctx :=
  ltac:(field_setter cctx_eta cc_lz4CtxAlloc).
Definition cset_lz4CtxType : Z -> LZ4F_cctx -> LZ4F_cctx :=
  ltac:(field_setter cctx_eta cc_lz4CtxType).
Definition cset_blockCompressMode : LZ4F_BlockCompressMode_e -> LZ4F_cctx -> LZ4F_cctx :=
  ltac:(field_setter cctx_eta cc_blockCompressMode).

Definition set_blockSizeID (v : Z) (p : LZ4F_preferences_t) : LZ4F_preferences_t :=
  let i := frameInfo p in
  Preferences (FrameInfo v (blockMode i) (contentChecksumFlag i) (frameType i) (contentSize i)
                 (dictID i) (blockChecksumFlag i))
    (compressionLevel p) (autoFlush p) (favorDecSpeed p).

Definition set_blockMode (v : Z) (p : LZ4F_preferences_t) : LZ4F_preferences_t :=
  let i := frameInfo p in
  Preferences (FrameInfo (blockSizeID i) v (contentChecksumFlag i) (frameType i) (contentSize i)
                 (dictID i) (blockChecksumFlag i))
    (compressionLevel p) (autoFlush p) (favorDecSpeed p).

Definition set_contentSize (v : Z) (p : LZ4F_preferences_t) : LZ4F_preferences_t :=
  let i := frameInfo p in
  Preferences (FrameInfo (blockSizeID i) (blockMode i) (contentChecksumFlag i) (frameType i) v
                 (dictID i) (blockChecksumFlag i))
    (compressionLevel p) (autoFlush p) (favorDecSpeed p).

Definition sizeof_cctx : Z := 216.
(** The offset of [xxh.mem32]. *)
Definition offset_mem32 : Z := 176.

Definition zero_cctx (self version : Z) : LZ4F_cctx :=
  Cctx self zero_preferences version 0 None 0 0 NULL NULL 0 0
    (XXH32_state 0 0 (mkV4 0 0 0 0) (self + offset_mem32) 0) NULL lz4_none 0 0 LZ4B_COMPRESSED.

(** [None] is the NULL pointer. *)
Definition LZ4F_createCompressionContext_advanced (version : Z) : M (option LZ4F_cctx) :=
  cctxPtr ← LZ4F_calloc sizeof_cctx;
  if cctxPtr =? NULL then mret None else mret (Some (zero_cctx cctxPtr version)).

Definition LZ4F_createCompressionContext (version : Z) : M (Z * option LZ4F_cctx) :=
  c ← LZ4F_createCompressionContext_advanced version;
  mret (match c with
        | None => LZ4F_returnErrorCode LZ4F_ERROR_allocation_failed
        | Some _ => 0
        end, c).

Definition LZ4F_freeCompressionContext (cctxPtr : option LZ4F_cctx) : M Z :=
  match cctxPtr with
  | None => mret 0
  | Some c =>
      LZ4F_free (cc_lz4CtxPtr c);;
      LZ4F_free (cc_tmpBuff c);;
      LZ4F_free (cc_self c);;
      mret 0
  end.

Definition ctxTypeID_to_size (ctxTypeID : Z) : Z :=
  if ctxTypeID =? 1 then LZ4_sizeofState else if ctxTypeID =? 2 then LZ4_sizeofStateHC else 0.

Definition LZ4F_cctx_size (cctx : option LZ4F_cctx) : Z :=
  match cctx with
  | None => 0
  | Some c => u64 (sizeof_cctx + cc_maxBufferSize c + ctxTypeID_to_size (cc_lz4CtxAlloc c))
  end.

(** * Digested dictionaries *)

Definition sizeof_CDict : Z := 56.

Definition LZ4F_freeCDict (cdict : option LZ4F_CDict) : M unit :=
  match cdict with
  | None => mret tt
  | Some d =>
      LZ4F_free (cd_dictContent d);;
      LZ4F_free (cd_fastPtr d);;
      LZ4F_free (cd_HCPtr d);;
      LZ4F_free (cd_self d)
  end.

Definition LZ4F_createCDict_advanced (dictBuffer dictSize : Z) : M (option LZ4F_CDict) :=
  let dictStart := dictBuffer in
  if dictStart =? NULL then mret None else
  cdict ← LZ4F_malloc sizeof_CDict;
  if cdict =? NULL then mret None else
  let large := 64 * KB <? dictSize in
  let dictStart := if large then dictStart + (dictSize - 64 * KB) else dictStart in
  let dictSize := if large then 64 * KB else dictSize in
  dictContent ← LZ4F_malloc dictSize;
  fastCtx ← LZ4F_malloc LZ4_sizeofState;
  HCCtx ← LZ4F_malloc LZ4_sizeofStateHC;
  if (dictContent =? NULL) || (fastCtx =? NULL) || (HCCtx =? NULL) then
    LZ4F_freeCDict (Some (CDict cdict dictContent fastCtx HCCtx LZ4_initStream LZ4_initStreamHC));;
    mret None
  else
  memcpy dictContent dictStart dictSize;;
  f ← LZ4_loadDictSlow LZ4_initStream dictContent (s32 dictSize);
  let h := LZ4_setCompressionLevel LZ4_initStreamHC LZ4HC_CLEVEL_DEFAULT in
  h ← LZ4_loadDictHC h dictContent (s32 dictSize);
  mret (Some (CDict cdict dictContent fastCtx HCCtx f.2 h.2)).

Definition LZ4F_createCDict (dictBuffer dictSize : Z) : M (option LZ4F_CDict) :=
  LZ4F_createCDict_advanced dictBuffer dictSize.

(** * Blocks *)

(** Reset of the context for an independent compression: a frame of linked
    blocks, or a block of a frame of independent ones. *)
Definition LZ4F_initStream (ctx : lz4Ctx) (cdict : option LZ4F_CDict) (level blockMode : Z) :
    M lz4Ctx :=
  if level <? LZ4HC_CLEVEL_MIN then
    if bool_decide (is_Some cdict) || (blockMode =? LZ4F_blockLinked) then
      s ← as_fast ctx;
      let s := LZ4_resetStream_fast s in
      mret (lz4_fast (match cdict with
                      | Some d => LZ4_attach_dictionary s (Some (cd_fastCtx d))
                      | None => s
                      end))
    else mret ctx
  else
    s ← as_HC ctx;
    let s := LZ4_resetStreamHC_fast s level in
    mret (lz4_HC (match cdict with
                  | Some d => LZ4_attach_HC_dictionary s (Some (cd_HCCtx d))
                  | None => s
                  end)).

(** The type of the functions that compress a block: the context, source,
    destination, source size, capacity, level and dictionary. *)
Abbreviation compressFunc_t :=
  (lz4Ctx -> Z -> Z -> Z -> Z -> Z -> option LZ4F_CDict -> M (Z * lz4Ctx)).

Definition LZ4F_makeBlock (dst src srcSize : Z) (compress : compressFunc_t) (lz4ctx : lz4Ctx)
    (level : Z) (cdict : option LZ4F_CDict) (crcFlag : Z) : M (Z * lz4Ctx) :=
  let cSizePtr := dst in
  let dstCapacity := if 1 <? srcSize then s32 srcSize - 1 else 1 in
  r ← compress lz4ctx src (cSizePtr + BHSize) (s32 srcSize) dstCapacity level cdict;
  let cSize := u32 r.1 in
  cSize ← (if (cSize =? 0) || (srcSize <=? cSize) then
             let cSize := u32 srcSize in
             LZ4F_writeLE32 cSizePtr (Z.lor cSize LZ4F_BLOCKUNCOMPRESSED_FLAG);;
             memcpy (cSizePtr + BHSize) src srcSize;;
             mret cSize
           else LZ4F_writeLE32 cSizePtr cSize;; mret cSize);
  (if negb (crcFlag =? 0) then
     crc32 ← XXH32 (cSizePtr + BHSize) cSize 0;
     LZ4F_writeLE32 (cSizePtr + BHSize + cSize) crc32
   else mret tt);;
  mret (u64 (BHSize + cSize + u32 crcFlag * BFSize), r.2).

Definition fast_acceleration (level : Z) : M Z :=
  if level <? 0 then n ← int_value (- level); int_value (n + 1) else mret 1.

Definition LZ4F_compressBlock : compressFunc_t := fun ctx src dst srcSize dstCapacity level cdict =>
  acceleration ← fast_acceleration level;
  ctx ← LZ4F_initStream ctx cdict level LZ4F_blockIndependent;
  s ← as_fast ctx;
  r ← (match cdict with
       | Some _ => LZ4_compress_fast_continue s src dst srcSize dstCapacity acceleration
       | None => LZ4_compress_fast_extState_fastReset s src dst srcSize dstCapacity acceleration
       end);
  mret (r.1, lz4_fast r.2).

Definition LZ4F_compressBlock_continue : compressFunc_t :=
  fun ctx src dst srcSize dstCapacity level cdict =>
  acceleration ← fast_acceleration level;
  s ← as_fast ctx;
  r ← LZ4_compress_fast_continue s src dst srcSize dstCapacity acceleration;
  mret (r.1, lz4_fast r.2).

Definition LZ4F_compressBlockHC : compressFunc_t := fun ctx src dst srcSize dstCapacity level cdict =>
  ctx ← LZ4F_initStream ctx cdict level LZ4F_blockIndependent;
  s ← as_HC ctx;
  r ← (match cdict with
       | Some _ => LZ4_compress_HC_continue s src dst srcSize dstCapacity
       | None => LZ4_compress_HC_extStateHC_fastReset s src dst srcSize dstCapacity level
       end);
  mret (r.1, lz4_HC r.2).

Definition LZ4F_compressBlockHC_continue : compressFunc_t :=
  fun ctx src dst srcSize dstCapacity level cdict =>
  s ← as_HC ctx;
  r ← LZ4_compress_HC_continue s src dst srcSize dstCapacity;
  mret (r.1, lz4_HC r.2).

Definition LZ4F_doNotCompressBlock : compressFunc_t :=
  fun ctx src dst srcSize dstCapacity level cdict => mret (0, ctx).

Definition LZ4F_selectCompression (blockMode level : Z) (compressMode : LZ4F_BlockCompressMode_e) :
    compressFunc_t :=
  if bool_decide (compressMode = LZ4B_UNCOMPRESSED) then LZ4F_doNotCompressBlock else
  if level <? LZ4HC_CLEVEL_MIN then
    if blockMode =? LZ4F_blockIndependent then LZ4F_compressBlock else LZ4F_compressBlock_continue
  else
  if blockMode =? LZ4F_blockIndependent then LZ4F_compressBlockHC else LZ4F_compressBlockHC_continue.

(** The last 64 KB of history move to [tmpBuff]. *)
Definition LZ4F_localSaveDict (c : LZ4F_cctx) : M LZ4F_cctx :=
  r ← (if compressionLevel (cc_prefs c) <? LZ4HC_CLEVEL_MIN then
         s ← as_fast (cc_lz4Ctx c);
         r ← LZ4_saveDict s (cc_tmpBuff c) (64 * KB);
         mret (r.1, lz4_fast r.2)
       else
         s ← as_HC (cc_lz4Ctx c);
         r ← LZ4_saveDictHC s (cc_tmpBuff c) (64 * KB);
         mret (r.1, lz4_HC r.2));
  mret (cset_tmpIn (cc_tmpBuff c + r.1) (cset_lz4Ctx r.2 c)).

(** [LZ4F_makeBlock] with the context's parameters. *)
Definition cctx_makeBlock (c : LZ4F_cctx) (compress : compressFunc_t) (dst src srcSize : Z) :
    M (Z * LZ4F_cctx) :=
  r ← LZ4F_makeBlock dst src srcSize compress (cc_lz4Ctx c) (compressionLevel (cc_prefs c))
        (cc_cdict c) (blockChecksumFlag (frameInfo (cc_prefs c)));
  mret (r.1, cset_lz4Ctx r.2 c).

Definition cc_linked (c : LZ4F_cctx) : bool :=
  blockMode (frameInfo (cc_prefs c)) =? LZ4F_blockLinked.

(** * Flushing *)

Definition LZ4F_flush (c : LZ4F_cctx) (dstBuffer dstCapacity : Z)
    (compressOptionsPtr : option LZ4F_compressOptions_t) : M (Z * LZ4F_cctx) :=
  let dstStart := dstBuffer in
  let dstPtr := dstStart in
  if cc_tmpInSize c =? 0 then mret (0, c) else
  if negb (cc_cStage c =? 1)
  then mret (LZ4F_returnErrorCode LZ4F_ERROR_compressionState_uninitialized, c) else
  if dstCapacity <? u64 (cc_tmpInSize c + BHSize + BFSize)
  then mret (LZ4F_returnErrorCode LZ4F_ERROR_dstMaxSize_tooSmall, c) else
  let compress := LZ4F_selectCompression (blockMode (frameInfo (cc_prefs c)))
                    (compressionLevel (cc_prefs c)) (cc_blockCompressMode c) in
  r ← cctx_makeBlock c compress dstPtr (cc_tmpIn c) (cc_tmpInSize c);
  let dstPtr := dstPtr + r.1 in
  let c := r.2 in
  let c := if cc_linked c then cset_tmpIn (cc_tmpIn c + cc_tmpInSize c) c else c in
  let c := cset_tmpInSize 0 c in
  c ← (if cc_tmpBuff c + cc_maxBufferSize c <? cc_tmpIn c + cc_maxBlockSize c
       then LZ4F_localSaveDict c else mret c);
  mret (u64 (dstPtr - dstStart), c).

(** * Adding data *)

Inductive LZ4F_lastBlockStatus := notDone | fromTmpBuffer | fromSrcBuffer.

#[export] Instance lastBlockStatus_eq_dec : EqDecision LZ4F_lastBlockStatus.
Proof. solve_decision. Defined.

(** The local variables of [LZ4F_compressUpdateImpl] that change, and the
    context. *)
Record cloop := CLoop {
  u_cctx : LZ4F_cctx; u_srcPtr : Z; u_dstPtr : Z; u_last : LZ4F_lastBlockStatus }.

Section Update.
(** What does not change during a call. *)
Context (srcBuffer srcSize : Z) (compress : compressFunc_t).
Abbreviation srcEnd := (srcBuffer + srcSize).

(** "complete tmp buffer" *)
Definition update_complete (q : cloop) : M cloop :=
  let c := u_cctx q in
  let blockSize := cc_maxBlockSize c in
  if 0 <? cc_tmpInSize c then
    let sizeToCopy := u64 (blockSize - cc_tmpInSize c) in
    if srcSize <? sizeToCopy then
      memcpy (cc_tmpIn c + cc_tmpInSize c) srcBuffer srcSize;;
      mret (CLoop (cset_tmpInSize (u64 (cc_tmpInSize c + srcSize)) c) srcEnd (u_dstPtr q) (u_last q))
    else
      memcpy (cc_tmpIn c + cc_tmpInSize c) srcBuffer sizeToCopy;;
      r ← cctx_makeBlock c compress (u_dstPtr q) (cc_tmpIn c) blockSize;
      let c := r.2 in
      let c := if cc_linked c then cset_tmpIn (cc_tmpIn c + blockSize) c else c in
      mret (CLoop (cset_tmpInSize 0 c) (u_srcPtr q + sizeToCopy) (u_dstPtr q + r.1) fromTmpBuffer)
  else mret q.

(** One turn of "compress full blocks" *)
Definition update_block (q : cloop) : M (cloop + cloop) :=
  let c := u_cctx q in
  let blockSize := cc_maxBlockSize c in
  if blockSize <=? u64 (srcEnd - u_srcPtr q) then
    r ← cctx_makeBlock c compress (u_dstPtr q) (u_srcPtr q) blockSize;
    mret (inl (CLoop r.2 (u_srcPtr q + blockSize) (u_dstPtr q + r.1) fromSrcBuffer))
  else mret (inr q).

(** Each turn consumes a block. *)
Definition update_fuel : nat := S (Z.to_nat srcSize).

(** "autoFlush : remaining input is compressed" *)
Definition update_autoFlush (q : cloop) : M cloop :=
  let c := u_cctx q in
  if negb (autoFlush (cc_prefs c) =? 0) && (u_srcPtr q <? srcEnd) then
    r ← cctx_makeBlock c compress (u_dstPtr q) (u_srcPtr q) (u64 (srcEnd - u_srcPtr q));
    mret (CLoop r.2 srcEnd (u_dstPtr q + r.1) fromSrcBuffer)
  else mret q.

(** "preserve dictionary within tmpBuff whenever necessary" and "keep tmpIn
    within limits" *)
Definition update_history (options : LZ4F_compressOptions_t) (q : cloop) : M cloop :=
  let c := u_cctx q in
  c ← (if cc_linked c && bool_decide (u_last q = fromSrcBuffer) then
         if negb (stableSrc options =? 0) then mret (cset_tmpIn (cc_tmpBuff c) c)
         else LZ4F_localSaveDict c
       else mret c);
  c ← (if (autoFlush (cc_prefs c) =? 0) &&
          (cc_tmpBuff c + cc_maxBufferSize c <? cc_tmpIn c + cc_maxBlockSize c)
       then LZ4F_localSaveDict c else mret c);
  mret (CLoop c (u_srcPtr q) (u_dstPtr q) (u_last q)).

(** "some input data left", the checksum and the count *)
Definition update_rest (q : cloop) : M LZ4F_cctx :=
  let c := u_cctx q in
  c ← (if u_srcPtr q <? srcEnd then
         let sizeToCopy := u64 (srcEnd - u_srcPtr q) in
         memcpy (cc_tmpIn c) (u_srcPtr q) sizeToCopy;;
         mret (cset_tmpInSize sizeToCopy c)
       else mret c);
  c ← (if contentChecksumFlag (frameInfo (cc_prefs c)) =? LZ4F_contentChecksumEnabled then
         r ← XXH32_update (cc_xxh c) srcBuffer srcSize;
         mret (cset_xxh r.2 c)
       else mret c);
  mret (cset_totalInSize (u64 (cc_totalInSize c + srcSize)) c).

(** From "complete tmp buffer" on. *)
Definition update_run (options : LZ4F_compressOptions_t) (c : LZ4F_cctx) (dstPtr : Z) :
    M (Z * LZ4F_cctx) :=
  q ← update_complete (CLoop c srcBuffer dstPtr notDone);
  q ← loop update_fuel update_block q;
  q ← update_autoFlush q;
  q ← update_history options q;
  c ← update_rest q;
  mret (u_dstPtr q, c).
End Update.

Definition LZ4F_compressUpdateImpl (c : LZ4F_cctx) (dstBuffer dstCapacity srcBuffer srcSize : Z)
    (compressOptionsPtr : option LZ4F_compressOptions_t)
    (blockCompression : LZ4F_BlockCompressMode_e) : M (Z * LZ4F_cctx) :=
  let dstStart := dstBuffer in
  let compress := LZ4F_selectCompression (blockMode (frameInfo (cc_prefs c)))
                    (compressionLevel (cc_prefs c)) blockCompression in
  if negb (cc_cStage c =? 1)
  then mret (LZ4F_returnErrorCode LZ4F_ERROR_compressionState_uninitialized, c) else
  if dstCapacity <? LZ4F_compressBound_internal srcSize (Some (cc_prefs c)) (cc_tmpInSize c)
  then mret (LZ4F_returnErrorCode LZ4F_ERROR_dstMaxSize_tooSmall, c) else
  if bool_decide (blockCompression = LZ4B_UNCOMPRESSED) && (dstCapacity <? srcSize)
  then mret (LZ4F_returnErrorCode LZ4F_ERROR_dstMaxSize_tooSmall, c) else
  q ← (if bool_decide (cc_blockCompressMode c <> blockCompression) then
         r ← LZ4F_flush c dstBuffer dstCapacity compressOptionsPtr;
         mret (u64 (dstStart + r.1), cset_blockCompressMode blockCompression r.2)
       else mret (dstStart, c));
  let options := default k_cOptionsNull compressOptionsPtr in
  r ← update_run srcBuffer srcSize compress options q.2 q.1;
  mret (u64 (r.1 - dstStart), r.2).

Definition LZ4F_compressUpdate (c : LZ4F_cctx) (dstBuffer dstCapacity srcBuffer srcSize : Z)
    (compressOptionsPtr : option LZ4F_compressOptions_t) : M (Z * LZ4F_cctx) :=
  LZ4F_compressUpdateImpl c dstBuffer dstCapacity srcBuffer srcSize compressOptionsPtr LZ4B_COMPRESSED.

Definition LZ4F_uncompressedUpdate (c : LZ4F_cctx) (dstBuffer dstCapacity srcBuffer srcSize : Z)
    (compressOptionsPtr : option LZ4F_compressOptions_t) : M (Z * LZ4F_cctx) :=
  LZ4F_compressUpdateImpl c dstBuffer dstCapacity srcBuffer srcSize compressOptionsPtr LZ4B_UNCOMPRESSED.

(** * Ending *)

Definition LZ4F_compressEnd (c : LZ4F_cctx) (dstBuffer dstCapacity : Z)
    (compressOptionsPtr : option LZ4F_compressOptions_t) : M (Z * LZ4F_cctx) :=
  let dstStart := dstBuffer in
  r ← LZ4F_flush c dstBuffer dstCapacity compressOptionsPtr;
  let flushSize := r.1 in
  let c := r.2 in
  if LZ4F_isError flushSize then mret (flushSize, c) else
  let dstPtr := dstStart + flushSize in
  let dstCapacity := u64 (dstCapacity - flushSize) in
  if dstCapacity <? 4 then mret (LZ4F_returnErrorCode LZ4F_ERROR_dstMaxSize_tooSmall, c) else
  LZ4F_writeLE32 dstPtr 0;;
  let dstPtr := dstPtr + 4 in
  let finish dstPtr :=
    let c := cset_cStage 0 c in
    if negb (contentSize (frameInfo (cc_prefs c)) =? 0)
       && negb (contentSize (frameInfo (cc_prefs c)) =? cc_totalInSize c)
    then mret (LZ4F_returnErrorCode LZ4F_ERROR_frameSize_wrong, c)
    else mret (u64 (dstPtr - dstStart), c) in
  if contentChecksumFlag (frameInfo (cc_prefs c)) =? LZ4F_contentChecksumEnabled then
    xxh ← XXH32_digest (cc_xxh c);
    if dstCapacity <? 8 then mret (LZ4F_returnErrorCode LZ4F_ERROR_dstMaxSize_tooSmall, c) else
    LZ4F_writeLE32 dstPtr xxh;;
    finish (dstPtr + 4)
  else finish dstPtr.

(** * Beginning *)

(** "cctx Management": the context gets the type that the level needs; [false]
    when the allocation failed. *)
Definition begin_context (c : LZ4F_cctx) : M (bool * LZ4F_cctx) :=
  let level := compressionLevel (cc_prefs c) in
  let fast := level <? LZ4HC_CLEVEL_MIN in
  let ctxTypeID := if fast then 1 else 2 in
  let requiredSize := ctxTypeID_to_size ctxTypeID in
  let allocatedSize := ctxTypeID_to_size (cc_lz4CtxAlloc c) in
  if allocatedSize <? requiredSize then
    LZ4F_free (cc_lz4CtxPtr c);;
    p ← LZ4F_malloc (if fast then LZ4_sizeofState else LZ4_sizeofStateHC);
    let ctx := if p =? NULL then lz4_none
               else if fast then lz4_fast LZ4_initStream else lz4_HC LZ4_initStreamHC in
    let c := cset_lz4Ctx ctx (cset_lz4CtxPtr p c) in
    if p =? NULL then mret (false, c)
    else mret (true, cset_lz4CtxType ctxTypeID (cset_lz4CtxAlloc ctxTypeID c))
  else if negb (cc_lz4CtxType c =? ctxTypeID) then
    let ctx := if fast then lz4_fast LZ4_initStream
               else lz4_HC (LZ4_setCompressionLevel LZ4_initStreamHC level) in
    mret (true, cset_lz4CtxType ctxTypeID (cset_lz4Ctx ctx c))
  else mret (true, c).

(** "Buffer Management" *)
Definition begin_buffer (c : LZ4F_cctx) : M (bool * LZ4F_cctx) :=
  let c := if blockSizeID (frameInfo (cc_prefs c)) =? 0
           then cset_prefs (set_blockSizeID LZ4F_BLOCKSIZEID_DEFAULT (cc_prefs c)) c else c in
  let c := cset_maxBlockSize (LZ4F_getBlockSize (blockSizeID (frameInfo (cc_prefs c)))) c in
  let requiredBuffSize :=
    if negb (autoFlush (cc_prefs c) =? 0) then (if cc_linked c then 64 * KB else 0)
    else u64 (cc_maxBlockSize c + (if cc_linked c then 128 * KB else 0)) in
  r ← (if cc_maxBufferSize c <? requiredBuffSize then
         let c := cset_maxBufferSize 0 c in
         LZ4F_free (cc_tmpBuff c);;
         p ← LZ4F_malloc requiredBuffSize;
         let c := cset_tmpBuff p c in
         if p =? NULL then mret (false, c) else mret (true, cset_maxBufferSize requiredBuffSize c)
       else mret (true, c));
  if negb r.1 then mret r else
  let c := r.2 in
  x ← XXH32_reset (cc_xxh c) 0;
  mret (true, cset_xxh x.2 (cset_tmpInSize 0 (cset_tmpIn (cc_tmpBuff c) c))).

(** "context init"; [false] when the dictionary is too large. *)
Definition begin_init (c : LZ4F_cctx) (dictBuffer dictSize : Z) (cdict : option LZ4F_CDict) :
    M (bool * LZ4F_cctx) :=
  let level := compressionLevel (cc_prefs c) in
  let c := cset_cdict cdict c in
  c ← (if cc_linked c then
         ctx ← LZ4F_initStream (cc_lz4Ctx c) cdict level LZ4F_blockLinked;
         mret (cset_lz4Ctx ctx c)
       else mret c);
  c ← (if LZ4HC_CLEVEL_MIN <=? level then
         s ← as_HC (cc_lz4Ctx c);
         mret (cset_lz4Ctx (lz4_HC (LZ4_favorDecompressionSpeed s (s32 (favorDecSpeed (cc_prefs c))))) c)
       else mret c);
  if dictBuffer =? NULL then mret (true, c) else
  if int_max <? dictSize then mret (false, c) else
  if cc_lz4CtxType c =? ctxFast then
    s ← as_fast (cc_lz4Ctx c);
    r ← LZ4_loadDict s dictBuffer (s32 dictSize);
    mret (true, cset_lz4Ctx (lz4_fast r.2) c)
  else
    s ← as_HC (cc_lz4Ctx c);
    r ← LZ4_loadDictHC s dictBuffer (s32 dictSize);
    mret (true, cset_lz4Ctx (lz4_HC r.2) c).

Definition LZ4F_compressBegin_internal (c : LZ4F_cctx) (dstBuffer dstCapacity : Z)
    (dictBuffer dictSize : Z) (cdict : option LZ4F_CDict)
    (preferencesPtr : option LZ4F_preferences_t) : M (Z * LZ4F_cctx) :=
  if dstCapacity <? maxFHSize
  then mret (LZ4F_returnErrorCode LZ4F_ERROR_dstMaxSize_tooSmall, c) else
  let c := cset_prefs (default LZ4F_INIT_PREFERENCES preferencesPtr) c in
  r ← begin_context c;
  if negb r.1 then mret (LZ4F_returnErrorCode LZ4F_ERROR_allocation_failed, r.2) else
  r ← begin_buffer r.2;
  if negb r.1 then mret (LZ4F_returnErrorCode LZ4F_ERROR_allocation_failed, r.2) else
  r ← begin_init r.2 dictBuffer dictSize cdict;
  if negb r.1 then mret (LZ4F_returnErrorCode LZ4F_ERROR_parameter_invalid, r.2) else
  let c := r.2 in
  size ← LZ4F_writeFrameHeader (frameInfo (cc_prefs c)) dstBuffer;
  let c := if negb (contentSize (frameInfo (cc_prefs c)) =? 0) then cset_totalInSize 0 c else c in
  mret (size, cset_cStage 1 c).

Definition LZ4F_compressBegin (c : LZ4F_cctx) (dstBuffer dstCapacity : Z)
    (preferencesPtr : option LZ4F_preferences_t) : M (Z * LZ4F_cctx) :=
  LZ4F_compressBegin_internal c dstBuffer dstCapacity NULL 0 None preferencesPtr.

Definition LZ4F_compressBegin_usingDictOnce (c : LZ4F_cctx) (dstBuffer dstCapacity dict dictSize : Z)
    (preferencesPtr : option LZ4F_preferences_t) : M (Z * LZ4F_cctx) :=
  LZ4F_compressBegin_internal c dstBuffer dstCapacity dict dictSize None preferencesPtr.

Definition LZ4F_compressBegin_usingDict (c : LZ4F_cctx) (dstBuffer dstCapacity dict dictSize : Z)
    (preferencesPtr : option LZ4F_preferences_t) : M (Z * LZ4F_cctx) :=
  LZ4F_compressBegin_usingDictOnce c dstBuffer dstCapacity dict dictSize preferencesPtr.

Definition LZ4F_compressBegin_usingCDict (c : LZ4F_cctx) (dstBuffer dstCapacity : Z)
    (cdict : option LZ4F_CDict) (preferencesPtr : option LZ4F_preferences_t) : M (Z * LZ4F_cctx) :=
  LZ4F_compressBegin_internal c dstBuffer dstCapacity NULL 0 cdict preferencesPtr.

(** * A frame in a single step *)

(** The preferences that [LZ4F_compressFrame_usingCDict] uses. *)
Definition compressFrame_prefs (srcSize : Z) (preferencesPtr : option LZ4F_preferences_t) :
    LZ4F_preferences_t :=
  let prefs := default zero_preferences preferencesPtr in
  let prefs := if negb (contentSize (frameInfo prefs) =? 0) then set_contentSize srcSize prefs
               else prefs in
  let prefs := set_blockSizeID (LZ4F_optimalBSID (blockSizeID (frameInfo prefs)) srcSize) prefs in
  let prefs := set_autoFlush 1 prefs in
  if srcSize <=? LZ4F_getBlockSize (blockSizeID (frameInfo prefs))
  then set_blockMode LZ4F_blockIndependent prefs else prefs.

Definition LZ4F_compressFrame_usingCDict (c : LZ4F_cctx) (dstBuffer dstCapacity srcBuffer srcSize : Z)
    (cdict : option LZ4F_CDict) (preferencesPtr : option LZ4F_preferences_t) : M (Z * LZ4F_cctx) :=
  let dstStart := dstBuffer in
  let dstEnd := dstStart + dstCapacity in
  let prefs := compressFrame_prefs srcSize preferencesPtr in
  let options := CompressOptions 1 in
  if dstCapacity <? LZ4F_compressFrameBound srcSize (Some prefs)
  then mret (LZ4F_returnErrorCode LZ4F_ERROR_dstMaxSize_tooSmall, c) else
  r ← LZ4F_compressBegin_usingCDict c dstBuffer dstCapacity cdict (Some prefs);
  if LZ4F_isError r.1 then mret r else
  let dstPtr := dstStart + r.1 in
  r ← LZ4F_compressUpdate r.2 dstPtr (u64 (dstEnd - dstPtr)) srcBuffer srcSize (Some options);
  if LZ4F_isError r.1 then mret r else
  let dstPtr := dstPtr + r.1 in
  r ← LZ4F_compressEnd r.2 dstPtr (u64 (dstEnd - dstPtr)) (Some options);
  if LZ4F_isError r.1 then mret r else
  let dstPtr := dstPtr + r.1 in
  mret (u64 (dstPtr - dstStart), r.2).

(** The context and, for the fast levels, the block compressor's state are
    local variables, at the addresses [cctxMem] and [lz4Mem]. *)
Definition LZ4F_compressFrame (cctxMem lz4Mem : Z) (dstBuffer dstCapacity srcBuffer srcSize : Z)
    (preferencesPtr : option LZ4F_preferences_t) : M Z :=
  let fast := match preferencesPtr with
              | None => true
              | Some p => compressionLevel p <? LZ4HC_CLEVEL_MIN
              end in
  let c := cset_maxBufferSize (5 * MB) (zero_cctx cctxMem LZ4F_VERSION) in
  let c := if fast then cset_lz4CtxType ctxFast (cset_lz4CtxAlloc 1
                          (cset_lz4Ctx (lz4_fast LZ4_initStream) (cset_lz4CtxPtr lz4Mem c)))
           else c in
  r ← LZ4F_compressFrame_usingCDict c dstBuffer dstCapacity srcBuffer srcSize None preferencesPtr;
  (if fast then mret tt else LZ4F_free (cc_lz4CtxPtr r.2));;
  mret r.1.
End Compress.
