(* ===== verification/Lz4FrameMakeBlock.v ===== *)
(** The blocks of the frame compressor: what the context of the block compressor
    remembers, that each of the functions that compress a block encodes its
    input behind that history, and that [LZ4F_makeBlock] adds the header and the
    checksum, or stores the input. *)
From S2P Require Import Prelude.
From S2P Require Import Mem.
From S2P Require Import Xxhash.
From S2P Require Import XxhashSpec.
From S2P Require Import BlockFormat.
From S2P Require Import Lz4Common.
From S2P Require Import Lz4Decompress.
From S2P Require Import Lz4Compress.
From S2P Require Import Lz4CompressGeneric.
From S2P Require Import Lz4CompressInv.
From S2P Require Import Lz4CompressSpec.
From S2P Require Import Lz4StreamCompress.
From S2P Require Import Lz4StreamCompressSpec.
From S2P Require Import Lz4StreamDict.
From S2P Require Import Lz4Frame.
From S2P Require Import Lz4FrameDecode.
From S2P Require Import FrameFormat.
From S2P Require Import Lz4FrameHeader.
From S2P Require Import Lz4FrameInv.
From S2P Require Import Lz4FrameCompress.

(** * Blocks that a compressor makes *)

(** A block for [x] behind the history [h]: stored, or compressed and smaller. *)
Definition block_made (h : list Z) (b : fblock) (x : list Z) : Prop :=
  x <> [] /\ fb_crc b = xxh32 0 (fb_data b) /\
  if fb_raw b then fb_data b = x else encodes h x (fb_data b) /\ zlen (fb_data b) < zlen x.

(** The blocks [bs] were made for [o]. *)
Inductive produced (i : LZ4F_frameInfo_t) (dict : list Z) : list fblock -> list Z -> Prop :=
| produced_nil : produced i dict [] []
| produced_snoc bs b o x :
    produced i dict bs o -> block_made (history i dict o) b x ->
    zlen x <= LZ4F_getBlockSize (blockSizeID i) -> produced i dict (bs ++ [b]) (o ++ x).

Lemma made_content h b x : block_made h b x -> block_content h b x.
Proof.
  intros (_ & _ & H). unfold block_content. destruct (fb_raw b); [done|].
  destruct H as [(blk & E & [Hw _] & _ & _ & Hx) _]. by exists blk.
Qed.

Lemma made_size h b x : block_made h b x -> 0 <= zlen (fb_data b) <= zlen x.
Proof.
  intros (_ & _ & H). zlen_facts. destruct (fb_raw b); [rewrite H; lia|lia].
Qed.

(** They stand for it as the format says. *)
Lemma produced_contents i dict bs o : produced i dict bs o -> contents i true dict bs o.
Proof.
  induction 1 as [|bs b o x H IH Hb Hx]; [constructor|]. pose proof (made_size _ _ _ Hb).
  constructor; [done|by apply made_content|lia|done|]. intros _ _. apply Hb.
Qed.

(** * The context of the block compressor *)

(** The result of a function that compresses [x] behind [h]. *)
Definition block_result (h x : list Z) (dst cap : Z) (m : mem) (r : Z) (m' : mem) : Prop :=
  frame dst (dst + cap) m m' /\ 0 <= r <= cap /\
  (r <> 0 -> exists enc, encodes h x enc /\ zlen enc = r /\ holds m' dst enc).

Lemma block_result_older pre h x dst cap m r m' :
  block_result h x dst cap m r m' -> block_result (pre ++ h) x dst cap m r m'.
Proof.
  intros (Hf & Hr & He). split; [done|]. split; [done|]. intros H0.
  destruct (He H0) as (enc & H1 & H2). exists enc. split; [by apply encodes_older|done].
Qed.

Section Context.
Context `{HHC : LZ4_HC}.
(** The dictionary, and where the part of it that a digested dictionary uses
    lies. *)
Context (D : list Z) (kr : Z * Z).

(** The digested dictionary is an end of [D]. *)
Definition cdict_ok (cd : option LZ4F_CDict) (m : mem) : Prop :=
  match cd with
  | None => True
  | Some d => exists dl, dict_inv (cd_fastCtx d) dl /\ dl `suffix_of` D /\
      holds m (dictionary (cd_fastCtx d)) dl /\ (dl = [] \/ kr = (dictionary (cd_fastCtx d), zlen dl))
  end.

Definition fresh_offset (w : LZ4_stream_t) : Prop := currentOffset w = 0 \/ 64 * KB <= currentOffset w.

(** The state with a digested dictionary attached, before the first block. *)
Definition attached_ctx (cd : option LZ4F_CDict) (s : LZ4_stream_t) : Prop :=
  exists w d, cd = Some d /\ s = LZ4_attach_dictionary w (Some (cd_fastCtx d)) /\
    cs_inv w [] /\ fresh_offset w /\ dictSize (cd_fastCtx d) <> 0.

(** The context in a frame of linked blocks behind the content [o]: it remembers
    an end of the dictionary and the content, which lies at [hr]; once it has
    compressed a block, and without a dictionary, it can be reused. *)
Definition linked_ctx (cd : option LZ4F_CDict) (s : LZ4_stream_t) (m : mem) (o : list Z)
    (hr : Z * Z) : Prop :=
  (exists h, cs_inv s h /\ h `suffix_of` D ++ o /\ holds m (dictionary s) h /\
     hr = (dictionary s, zlen h) /\ (stream_wf s \/ (o = [] /\ D <> []))) \/
  (attached_ctx cd s /\ o = [] /\ hr = (0, 0)).

Definition ctx_ok (ctx : lz4Ctx) (cd : option LZ4F_CDict) (m : mem) (linked : bool) (o : list Z)
    (hr : Z * Z) : Prop :=
  cdict_ok cd m /\ exists s, ctx = lz4_fast s /\
    if linked then linked_ctx cd s m o hr else stream_wf s /\ hr = (0, 0).

(** Where the history lies after a block of [n] bytes at [a]: it ends with the
    block, and starts within it, or within the history in front of it. *)
Definition hr_next (linked : bool) (hr : Z * Z) (a n : Z) (hr' : Z * Z) : Prop :=
  if linked then
    hr'.1 + hr'.2 = a + n /\ 0 <= hr'.2 /\ (a <= hr'.1 \/ (hr.1 + hr.2 = a /\ hr.1 <= hr'.1))
  else hr' = (0, 0).

(** The memory a function reads besides its input. *)
Definition ctx_reads (hr : Z * Z) : list (Z * Z) := [hr; kr].

Section Block.
Context (m : mem) (o : list Z) (hr : Z * Z).
Context (a : Z) (x : list Z) (dst cap level : Z).
Context (Hx : x <> []) (Hsize : zlen x <= 4 * MB) (Ha : 0 < a) (Hcap : 1 <= cap).
Context (Hb : cbufs_ok m a x dst cap) (Hlevel : int_min + 1 < level < LZ4HC_CLEVEL_MIN).
Context (Hd : apart (dst, cap) kr /\ apart (dst, cap) hr).
Context (Hs : apart (a, zlen x) kr /\ apart (a, zlen x) hr).

Abbreviation n := (zlen x).

Lemma block_max : n <= LZ4_MAX_INPUT_SIZE.
Proof. change (4 * MB) with 4194304 in Hsize. change LZ4_MAX_INPUT_SIZE with 2113929216. lia. Qed.

Lemma wp_acceleration (Q : Z -> mem -> Prop) : (forall v, Q v m) -> wp (fast_acceleration level) Q m.
Proof.
  intros HQ. unfold fast_acceleration, int_value, int_min, int_max in *.
  change LZ4HC_CLEVEL_MIN with 2 in *. wif; [|by apply wp_ret].
  apply wp_bind. destruct (Z.leb_spec (- 2 ^ 31) (- level)); [|lia].
  destruct (Z.leb_spec (- level) (2 ^ 31 - 1)); [|lia]. apply wp_ret.
  destruct (Z.leb_spec (- 2 ^ 31) (- level + 1)); [|lia].
  destruct (Z.leb_spec (- level + 1) (2 ^ 31 - 1)); [|lia]. by apply wp_ret.
Qed.

Lemma cdict_kept cd m' : frame dst (dst + cap) m m' -> cdict_ok cd m -> cdict_ok cd m'.
Proof.
  intros Hf. destruct cd as [d|]; [|done]. intros (dl & H1 & H2 & H3 & H4). exists dl.
  split; [done|]. split; [done|]. split; [|done].
  destruct H4 as [->|E]; [apply holds_nil|]. eapply apart_frame; [exact Hf| |done].
  rewrite <- E. apply Hd.
Qed.

(** The first block with a dictionary attached. *)
Lemma attached_block cd s accel :
  cdict_ok cd m -> attached_ctx cd s ->
  wp (LZ4_compress_fast_continue s a dst n cap accel) (fun r m' =>
    block_result D x dst cap m r.1 m' /\ cs_inv r.2 x /\ dictionary r.2 = a /\ holds m' a x /\
    tableType r.2 = byU32) m.
Proof.
  intros Hc (w & d & -> & -> & Hw & Hw0 & Hds). destruct Hc as (dl & Hdi & [pre Epre] & Hh & Hk).
  assert (dictSize (cd_fastCtx d) = zlen dl) as Ed by (destruct Hdi as [(_ & _ & ? & _) _]; done).
  assert (dl <> []) as Hne by (apply zlen_pos; zlen_facts; lia).
  destruct Hk as [?|Ek]; [done|]. destruct Hd as [Hd1 _], Hs as [Hs1 _]. rewrite Ek in Hd1, Hs1.
  unfold apart in Hd1, Hs1. cbn [fst snd] in *. apply zlen_pos in Hne as Hne'. apply zlen_pos in Hx as Hx'.
  eapply wp_mono; [apply (attach_ok w (cd_fastCtx d) dl); try done; try lia|].
  - intros r m' (Hf & Hr & He & Hst & _). destruct (Hst block_max) as (H1 & H2 & H3 & H4).
    split; [|done]. rewrite Epre. apply block_result_older. done.
Qed.
(** A block of a frame of linked blocks. *)
Lemma linked_block cd s accel :
  cdict_ok cd m -> linked_ctx cd s m o hr ->
  wp (LZ4_compress_fast_continue s a dst n cap accel) (fun r m' =>
    block_result (D ++ o) x dst cap m r.1 m' /\
    exists hr', linked_ctx cd r.2 m' (o ++ x) hr' /\ hr_next true hr a n hr') m.
Proof.
  intros Hc [(h & Hcs & [pre Epre] & Hh & Ehr & _)|(Hat & Eo & Ehr)].
  - pose proof Hd as [_ Hd2]. pose proof Hs as [_ Hs2]. rewrite Ehr in Hd2, Hs2 |- *. unfold apart in Hd2, Hs2. cbn [fst snd] in *.
    apply zlen_pos in Hx as Hx'.
    assert (h = [] \/ 0 < zlen h) as Hne by (destruct h; [by left|right; rewrite zlen_cons; zlen_facts; lia]).
    destruct (disjoint_pre s h a x dst cap m) as [Hpre Ek]; [done|destruct Hne; [by left|right; lia]|done| |].
    { destruct Hne; [by left|right; lia]. }
    eapply wp_mono; [by apply (continue_ok s h)|]. intros r m' (Hf & Hr & He & Hst & Hty & _). rewrite Ek in *.
    destruct (Hst ltac:(right; split; [done|exact block_max])) as (h' & Hcs' & Hh' & Hend & Hor & [pre' Epre']).
    split; [rewrite Epre; by apply block_result_older|].
    assert (zlen h' <= zlen h + n) as Hle.
    { apply (f_equal zlen) in Epre'. rewrite !zlen_app in Epre'. zlen_facts. lia. }
    assert (dictSize s = zlen h) as Eds by (by destruct Hcs as (_ & _ & ? & _)).
    exists (dictionary r.2, zlen h'). split.
    + left. exists h'. split; [done|]. split; [exists (pre ++ pre'); by rewrite app_assoc, Epre, <- !app_assoc, Epre'|].
      split; [done|]. split; [done|]. left. eapply cs_wf; [done|]. apply Hty; [done|exact block_max].
    + unfold hr_next. cbn [fst snd]. zlen_facts. split; [lia|]. split; [lia|]. lia.
  - eapply wp_mono; [by eapply attached_block|]. intros r m' (Hres & Hcs & Ed & Hh & Hty).
    rewrite Eo, app_nil_r. split; [done|]. exists (a, n). split.
    + left. exists x. rewrite Ed. split; [done|]. split; [by exists D|]. split; [done|]. split; [done|].
      left. by eapply cs_wf.
    + unfold hr_next. cbn [fst snd]. zlen_facts. lia.
Qed.

(** Attaching a digested dictionary to a state that was reset. *)
Lemma attach_fresh w d :
  cdict_ok (Some d) m -> cs_inv w [] -> fresh_offset w ->
  let s := LZ4_attach_dictionary w (Some (cd_fastCtx d)) in
  attached_ctx (Some d) s \/ cs_inv s [].
Proof.
  intros (dl & Hdi & _) Hw Hw0 s. destruct (Z.eq_dec (dictSize (cd_fastCtx d)) 0) as [E|E].
  - right. unfold s, LZ4_attach_dictionary. rewrite E. cbn [Z.eqb]. destruct Hw as ([Ht He] & H1 & H2 & H3 & _).
    unfold cs_inv, table_ok. cbn [hashTable dictCtx dictSize currentOffset dictionary].
    change (zlen (@nil Z)) with 0 in *. change (64 * KB) with 65536.
    splits; try done; try (zcase; lia); [|apply Forall_nil].
    intros h Hh. specialize (He h Hh). zcase; lia.
  - left. by exists w, d.
Qed.

(** A block of a frame of independent blocks. *)
Lemma independent_block cd s :
  cdict_ok cd m -> stream_wf s ->
  wp (LZ4F_compressBlock (lz4_fast s) a dst n cap level cd) (fun r m' =>
    block_result D x dst cap m r.1 m' /\ exists s', r.2 = lz4_fast s' /\ stream_wf s') m.
Proof.
  intros Hc Hwf. unfold LZ4F_compressBlock. apply wp_bind, wp_acceleration. intros accel.
  apply wp_bind. unfold LZ4F_initStream. destruct (Z.ltb_spec level LZ4HC_CLEVEL_MIN); [|lia].
  destruct cd as [d|]; bd.
  - cbn [as_fast]. apply wp_bind, wp_ret, wp_ret. apply wp_bind. apply wp_ret.
    destruct (resetStream_fast_ok s Hwf) as [Hw Hw0].
    set (w := LZ4_resetStream_fast s) in *. apply wp_bind.
    assert (forall r m', block_result D x dst cap m r.1 m' /\ stream_wf r.2 ->
      wp (mret (r.1, lz4_fast r.2) : M (Z * lz4Ctx)) (fun r m' => block_result D x dst cap m r.1 m' /\
        exists s', r.2 = lz4_fast s' /\ stream_wf s') m') as Hend.
    { intros r m' [H1 H2]. apply wp_ret. split; [done|]. by exists r.2. }
    destruct (attach_fresh w d Hc Hw Hw0) as [Hat|Hcs].
    + eapply wp_mono; [by eapply attached_block|]. intros r m' (Hres & Hcs & _ & _ & Ht).
      apply Hend. split; [done|by eapply cs_wf].
    + set (s1 := LZ4_attach_dictionary w _) in *.
      destruct (disjoint_pre s1 [] a x dst cap m) as [Hpre Ek]; [done|by left|apply holds_nil|by left|].
      eapply wp_mono; [by apply (continue_ok s1 [])|]. intros r m' (Hf & Hr & He & Hst & Ht & _).
      rewrite Ek in He. destruct (Hst ltac:(right; split; [done|exact block_max])) as (h' & Hcs' & _).
      apply Hend. split; [|eapply cs_wf; [done|apply Ht; [done|exact block_max]]].
      rewrite <- (app_nil_r D). by apply block_result_older.
  - change (LZ4F_blockIndependent =? LZ4F_blockLinked) with false. cbn [orb]. apply wp_ret.
    cbn [as_fast]. apply wp_bind, wp_ret. apply wp_bind.
    eapply wp_mono; [by apply fastReset_ok|]. intros r m' [(Hf & Hr & He & _) Hw]. apply wp_ret. cbn [fst snd].
    split; [|by exists r.2]. rewrite <- (app_nil_r D). apply block_result_older.
    split; [eapply frame_weaken; [exact Hf|lia|lia]|]. split; [lia|done].
Qed.

(** Each of the functions, on the context it is chosen for. *)
Lemma compress_block ctx cd (cm : LZ4F_BlockCompressMode_e) mode :
  let linked := mode =? LZ4F_blockLinked in
  0 <= mode <= 1 -> (linked = true -> cm = LZ4B_COMPRESSED) -> ctx_ok ctx cd m linked o hr ->
  wp (LZ4F_selectCompression mode level cm ctx a dst n cap level cd) (fun r m' =>
    block_result (if linked then D ++ o else D) x dst cap m r.1 m' /\
    exists hr', ctx_ok r.2 cd m' linked (o ++ x) hr' /\ hr_next linked hr a n hr') m.
Proof.
  intros linked Hm Hcm [Hc (s & -> & Hctx)]. unfold LZ4F_selectCompression.
  case_bool_decide as Ecm.
  { apply wp_ret. cbn [fst snd]. destruct linked; [specialize (Hcm eq_refl); congruence|].
    destruct Hctx as [Hwf Ehr]. split; [|exists (0, 0); split; [split; [done|by exists s]|done]].
    split; [apply frame_refl|]. split; [lia|done]. }
  destruct (Z.ltb_spec level LZ4HC_CLEVEL_MIN); [|lia].
  assert ((mode =? LZ4F_blockIndependent) = negb linked) as ->.
  { unfold linked, LZ4F_blockIndependent, LZ4F_blockLinked.
    destruct (Z.eqb_spec mode 1), (Z.eqb_spec mode 0); try done; lia. }
  destruct linked; cbn [negb].
  - unfold LZ4F_compressBlock_continue. apply wp_bind, wp_acceleration. intros accel.
    cbn [as_fast]. apply wp_bind, wp_ret, wp_bind.
    eapply wp_mono; [by eapply linked_block|]. intros r m' (Hres & hr' & Hl & Hn). apply wp_ret. cbn [fst snd].
    split; [done|]. exists hr'. split; [|done]. split; [|by exists r.2].
    eapply cdict_kept; [apply Hres|done].
  - destruct Hctx as [Hwf Ehr]. eapply wp_mono; [by eapply independent_block|].
    intros r m' (Hres & s' & Er & Hw). split; [done|]. exists (0, 0). split; [|done].
    split; [|by exists s']. eapply cdict_kept; [apply Hres|done].
Qed.
End Block.

(** * Making a block *)

(** Writes to the destination keep the context. *)
Lemma ctx_kept ctx cd m m' linked o hr dst n :
  frame dst (dst + n) m m' -> apart (dst, n) kr -> apart (dst, n) hr ->
  ctx_ok ctx cd m linked o hr -> ctx_ok ctx cd m' linked o hr.
Proof.
  intros Hf Hk Hr [Hc (s & E & H)]. split.
  - eapply (cdict_kept m (0, 0) dst n); [split; [done|]|done|done]. unfold apart. cbn. lia.
  - exists s. split; [done|]. destruct linked; [|done]. destruct H as [(h & H1 & H2 & H3 & -> & H4)|H]; [|by right].
    left. exists h. split; [done|]. split; [done|]. split; [|done]. by eapply apart_frame.
Qed.

Lemma hr_next_apart linked hr a n hr' r :
  hr_next linked hr a n hr' -> 0 < n -> apart r hr -> apart r (a, n) -> apart r hr'.
Proof.
  unfold hr_next, apart. cbn [fst snd]. destruct linked; [lia|]. intros ->. cbn. lia.
Qed.

Lemma zlen_enc_fblock i b : 0 <= blockChecksumFlag i <= 1 ->
  zlen (enc_fblock i b) = 4 + zlen (fb_data b) + 4 * blockChecksumFlag i.
Proof.
  intros H. unfold enc_fblock, block_header. rewrite !zlen_app, zlen_le_bytes.
  destruct (Z.eqb_spec (blockChecksumFlag i) 0) as [E|E].
  - rewrite E, zlen_nil. lia.
  - rewrite zlen_le_bytes. lia.
Qed.

(** A stored block's header. *)
Lemma raw_header n : 0 <= n < 2 ^ 31 -> Z.lor n LZ4F_BLOCKUNCOMPRESSED_FLAG = n + 2 ^ 31.
Proof.
  intros H. change LZ4F_BLOCKUNCOMPRESSED_FLAG with (Z.shiftl 1 31). rewrite lor_shiftl by lia. lia.
Qed.

Section Make.
Context (i : LZ4F_frameInfo_t) (ctx : lz4Ctx) (cd : option LZ4F_CDict) (m : mem) (o : list Z) (hr : Z * Z).
Context (a : Z) (x : list Z) (dst level : Z) (cm : LZ4F_BlockCompressMode_e).
Context (Hi : info_wf i) (Hx : x <> []) (Hbytes : bytes_ok x) (Ha : 0 < a).
Context (Hsize : zlen x <= LZ4F_getBlockSize (blockSizeID i)).
Context (Hlevel : int_min + 1 < level < LZ4HC_CLEVEL_MIN).

Abbreviation linked := (blockMode i =? LZ4F_blockLinked).
Abbreviation crc := (4 * blockChecksumFlag i).
(** The room that a block needs. *)
Abbreviation room := (4 + zlen x + crc).

Context (Hcm : linked = true -> cm = LZ4B_COMPRESSED).
Context (Hctx : ctx_ok ctx cd m linked o hr) (Hsrc : holds m a x) (Hdst : mapped m dst room).
Context (Hd : apart (dst, room) kr /\ apart (dst, room) hr /\ apart (dst, room) (a, zlen x)).
Context (Hs : apart (a, zlen x) kr /\ apart (a, zlen x) hr).

(** The header and the data of the block are written. *)
Definition data_written (b : fblock) (m' : mem) : Prop :=
  frame dst (dst + 4 + zlen x) m m' /\
  holds m' dst (block_header (fb_raw b) (zlen (fb_data b)) ++ fb_data b).

Lemma wp_blockCrc b (k : M (Z * lz4Ctx)) Q m' :
  block_made (history i D o) b x -> data_written b m' ->
  (forall m'', frame dst (dst + room) m' m'' -> holds m'' dst (enc_fblock i b) -> wp k Q m'') ->
  wp ((if negb (blockChecksumFlag i =? 0) then
         crc32 ← XXH32 (dst + BHSize) (zlen (fb_data b)) 0;
         LZ4F_writeLE32 (dst + BHSize + zlen (fb_data b)) crc32
       else mret tt);; k) Q m'.
Proof.
  intros Hm [Hf Hh] HQ. change BHSize with 4. pose proof (made_size _ _ _ Hm) as Hsz. zlen_facts.
  assert (zlen (block_header (fb_raw b) (zlen (fb_data b))) = 4) as H4 by done.
  assert (0 <= blockChecksumFlag i <= 1) as Hflag by apply Hi.
  destruct (Z.eqb_spec (blockChecksumFlag i) 0) as [E|E]; cbn [negb]; apply wp_bind.
  - apply wp_ret. apply HQ; [apply frame_refl|]. unfold enc_fblock.
    rewrite E. cbn [Z.eqb]. by rewrite app_nil_r.
  - pose proof Hh as Hh'. apply holds_app in Hh' as [_ Hdata]. rewrite H4 in Hdata.
    apply wp_bind, wp_XXH32; [done|]. apply wp_writeLE32.
    { eapply frame_mapped; [exact Hf|]. eapply mapped_sub; [exact Hdst|lia|lia]. }
    intros m'' Hf' Hh''. apply HQ.
    + eapply frame_weaken; [exact Hf'|lia|lia].
    + unfold enc_fblock. destruct (Z.eqb_spec (blockChecksumFlag i) 0); [done|].
      destruct Hm as (_ & -> & _). rewrite app_assoc. apply holds_app. rewrite zlen_app, H4.
      rewrite Z.add_assoc. split; [|done]. eapply frame_holds; [exact Hf'| |done]. rewrite zlen_app. lia.
Qed.

(** What is known after the compression: the context and the result. *)
Definition compressed_block (r : Z) (ctx' : lz4Ctx) (hr' : Z * Z) (m' : mem) : Prop :=
  block_result (history i D o) x (dst + 4) (Z.max 1 (zlen x - 1)) m r m' /\
  ctx_ok ctx' cd m' linked (o ++ x) hr' /\ hr_next linked hr a (zlen x) hr'.

Lemma wp_compress_step (Q : Z * lz4Ctx -> mem -> Prop) :
  (forall r ctx' hr' m', compressed_block r ctx' hr' m' -> Q (r, ctx') m') ->
  wp (LZ4F_selectCompression (blockMode i) level cm ctx a (dst + 4) (zlen x) (Z.max 1 (zlen x - 1)) level cd)
    Q m.
Proof.
  intros HQ. apply zlen_pos in Hx as Hx'. destruct Hd as (Hd1 & Hd2 & Hd3).
  assert (0 <= blockMode i <= 1 /\ 0 <= blockChecksumFlag i <= 1 /\ 4 <= blockSizeID i <= 7) as (Hm & Hf & Hb) by (split; [apply Hi|split; apply Hi]).
  pose proof (block_sizes _ Hb) as Hbs.
  eapply wp_mono; [eapply compress_block; try done|].
  - unfold KB, MB in *. lia.
  - lia.
  - unfold cbufs_ok, int_max, KB, MB in *.
    splits; try done; try lia; [eapply mapped_sub; [exact Hdst|lia|lia]|].
    unfold apart in Hd3. cbn [fst snd] in Hd3. lia.
  - unfold apart in *. cbn [fst snd] in *. lia.
  - intros [r ctx'] m' (Hres & hr' & H1 & H2). apply (HQ r ctx' hr'). split; [|done].
    unfold history. cbn [fst] in Hres. by destruct linked.
Qed.

(** The input is stored. *)
Lemma wp_stored m1 Q :
  frame dst (dst + 4 + zlen x) m m1 ->
  (forall m2, frame dst (dst + 4 + zlen x) m1 m2 -> holds m2 dst (block_header true (zlen x) ++ x) ->
     Q (zlen x) m2) ->
  wp (LZ4F_writeLE32 dst (Z.lor (zlen x) LZ4F_BLOCKUNCOMPRESSED_FLAG);;
      memcpy (dst + 4) a (zlen x);; mret (zlen x)) Q m1.
Proof.
  intros Hf HQ. destruct Hd as (_ & _ & Hd3). apply zlen_pos in Hx as Hx'.
  assert (4 <= blockSizeID i <= 7 /\ 0 <= blockChecksumFlag i <= 1) as [Hb Hc] by (split; apply Hi).
  pose proof (block_sizes _ Hb) as Hbs. unfold KB, MB in Hbs. unfold apart in Hd3. cbn [fst snd] in Hd3.
  rewrite raw_header by lia. assert (mapped m1 dst room) as Hm1 by (by eapply frame_mapped).
  apply wp_bind, wp_writeLE32; [eapply mapped_sub; [exact Hm1|lia|lia]|]. intros m2 Hf2 Hh2.
  assert (holds m2 a x) as Ha2.
  { eapply frame_holds; [exact Hf2|lia|]. eapply frame_holds; [exact Hf|lia|done]. }
  apply wp_bind, wp_memcpy; [lia|by apply holds_mapped| |lia|].
  { eapply frame_mapped; [exact Hf2|]. eapply mapped_sub; [exact Hm1|lia|lia]. }
  intros m3 Hcp. apply wp_ret.
  assert (frame (dst + 4) (dst + 4 + zlen x) m2 m3) as Hf3.
  { eapply copied_frame; [exact Hcp|by apply holds_mapped]. }
  apply HQ; [eapply frame_trans; eapply frame_weaken; [exact Hf2| | |exact Hf3| |]; lia|].
  apply holds_app. split; [eapply frame_holds; [exact Hf3| |exact Hh2];
    change (zlen (block_header true (zlen x))) with 4; lia|].
  change (zlen (block_header true (zlen x))) with 4. eapply copied_holds; [exact Hcp|lia|done].
Qed.

Lemma wp_makeBlock Q :
  (forall b ctx' hr' m', block_made (history i D o) b x -> holds m' dst (enc_fblock i b) ->
     frame dst (dst + room) m m' -> ctx_ok ctx' cd m' linked (o ++ x) hr' ->
     hr_next linked hr a (zlen x) hr' -> Q (zlen (enc_fblock i b), ctx') m') ->
  wp (LZ4F_makeBlock dst a (zlen x) (LZ4F_selectCompression (blockMode i) level cm) ctx level cd
        (blockChecksumFlag i)) Q m.
Proof.
  intros HQ. apply zlen_pos in Hx as Hx'. pose proof Hd as (Hd1 & Hd2 & Hd3).
  assert (0 <= blockChecksumFlag i <= 1 /\ 4 <= blockSizeID i <= 7) as (Hf & Hb) by (split; apply Hi).
  pose proof (block_sizes _ Hb) as Hbs. unfold KB, MB in Hbs.
  unfold LZ4F_makeBlock. change BHSize with 4. change BFSize with 4.
  rewrite (s32_small (zlen x)) by (unfold int_min, int_max; lia).
  replace (if 1 <? zlen x then zlen x - 1 else 1) with (Z.max 1 (zlen x - 1)) by (zcase; lia).
  apply wp_bind, wp_compress_step. intros r ctx' hr' m1 ((Hf1 & Hr & He) & Hc & Hn). cbn [fst snd].
  rewrite (u32_small r), (u32_small (zlen x)), (u32_small (blockChecksumFlag i)) by lia.
  assert (frame dst (dst + 4 + zlen x) m m1) as Hf1' by (eapply frame_weaken; [exact Hf1|lia|lia]).
  assert (forall b m2, block_made (history i D o) b x -> frame dst (dst + 4 + zlen x) m1 m2 ->
    holds m2 dst (block_header (fb_raw b) (zlen (fb_data b)) ++ fb_data b) ->
    wp ((if negb (blockChecksumFlag i =? 0) then
         crc32 ← XXH32 (dst + BHSize) (zlen (fb_data b)) 0;
         LZ4F_writeLE32 (dst + BHSize + zlen (fb_data b)) crc32
       else mret tt);; mret (u64 (4 + zlen (fb_data b) + blockChecksumFlag i * 4), ctx')) Q m2) as Hend.
  { intros b m2 Hb1 Hf2 Hh2. apply wp_blockCrc; [done|split; [by eapply frame_trans|done]|].
    intros m3 Hf3 Hh3. apply wp_ret. pose proof (made_size _ _ _ Hb1). rewrite u64_small by lia.
    replace (4 + zlen (fb_data b) + blockChecksumFlag i * 4) with (zlen (enc_fblock i b))
      by (rewrite zlen_enc_fblock by done; lia).
    assert (frame dst (dst + room) m1 m3) as Hf13.
    { eapply frame_trans; [|exact Hf3]. eapply frame_weaken; [exact Hf2|lia|lia]. }
    apply (HQ b ctx' hr'); try done.
    - eapply frame_trans; [|exact Hf13]. eapply frame_weaken; [exact Hf1'|lia|lia].
    - eapply ctx_kept; [exact Hf13|done| |done]. by eapply hr_next_apart. }
  apply wp_bind. destruct ((r =? 0) || (zlen x <=? r)) eqn:Er.
  - apply wp_stored; [done|]. intros m2 Hf2 Hh2. apply (Hend (FBlock true x (xxh32 0 x)) m2); done.
  - apply orb_false_iff in Er as [E0%Z.eqb_neq El%Z.leb_gt].
    destruct (He E0) as (enc & H1 & <- & H3).
    apply wp_bind, wp_writeLE32; [eapply frame_mapped; [exact Hf1|]; eapply mapped_sub; [exact Hdst|lia|lia]|].
    intros m2 Hf2 Hh2. apply wp_ret. apply (Hend (FBlock false enc (xxh32 0 enc)) m2); [done| |].
    + eapply frame_weaken; [exact Hf2|lia|lia].
    + apply holds_app. cbn [fb_raw fb_data]. split; [by rewrite <- (Z.add_0_r (zlen enc)) in Hh2|].
      change (zlen (block_header false (zlen enc))) with 4.
      eapply frame_holds; [exact Hf2|lia|done].
Qed.
End Make.
End Context.
