(* ===== verification/Lz4FrameCompressInv.v ===== *)
(** The invariant of a compression context between the calls of a frame: the
    blocks that were emitted, the data that is still buffered, and where the
    history of linked blocks lies. *)
From S2P Require Import Prelude.
From S2P Require Import Mem.
From S2P Require Import Xxhash.
From S2P Require Import XxhashSpec.
From S2P Require Import XxhashStream.
From S2P Require Import BlockFormat.
From S2P Require Import Lz4Common.
From S2P Require Import Lz4Decompress.
From S2P Require Import Lz4Compress.
From S2P Require Import Lz4CompressSpec.
From S2P Require Import Lz4StreamCompress.
From S2P Require Import Lz4StreamCompressSpec.
From S2P Require Import Lz4StreamDict.
From S2P Require Import Lz4Frame.
From S2P Require Import Lz4FrameDecode.
From S2P Require Import FrameFormat.
From S2P Require Import Lz4FrameHeader.
From S2P Require Import Lz4FrameInv.
From S2P Require Import Lz4FrameCompress.
From S2P Require Import Lz4FrameMakeBlock.

(** * Changes of several regions *)

(** [m'] differs from [m] at most within the regions [rs], and maps what [m]
    maps. *)
Definition changes (rs : list (Z * Z)) (m m' : mem) : Prop :=
  (forall i, Forall (fun r => ~ (r.1 <= i < r.1 + r.2)) rs -> m' !! i = m !! i) /\
  (forall i, is_Some (m !! i) -> is_Some (m' !! i)).

Lemma changes_refl rs m : changes rs m m.
Proof. by split. Qed.

Lemma changes_trans rs m1 m2 m3 : changes rs m1 m2 -> changes rs m2 m3 -> changes rs m1 m3.
Proof.
  intros [H1 H2] [H3 H4]. split; [|auto]. intros i Hi. rewrite H3 by done. by apply H1.
Qed.

Lemma changes_frame rs r a n m m' :
  frame a (a + n) m m' -> In r rs -> inside a n r -> changes rs m m'.
Proof.
  intros [H1 H2] Hr Hin. split; [|done]. intros i Hi. rewrite Forall_forall in Hi. specialize (Hi r Hr).
  apply H1. unfold inside in Hin. lia.
Qed.

Lemma changes_sub rs rs' m m' : changes rs m m' -> (forall r, In r rs -> In r rs') -> changes rs' m m'.
Proof.
  intros [H1 H2] Hin. split; [|done]. intros i Hi. apply H1. rewrite Forall_forall in *.
  intros r Hr. by apply Hi, Hin.
Qed.

Lemma changes_mapped rs m m' a n : changes rs m m' -> mapped m a n -> mapped m' a n.
Proof. intros [_ H] Hm i Hi. by apply H, Hm. Qed.

Lemma changes_holds rs m m' a l :
  changes rs m m' -> Forall (fun r => apart r (a, zlen l)) rs -> holds m a l -> holds m' a l.
Proof.
  intros [H _] Ha. apply holds_eq_on. intros i Hi. apply H. rewrite Forall_forall in *.
  intros r Hr. specialize (Ha r Hr). unfold apart in Ha. cbn [fst snd] in Ha. lia.
Qed.

(** Every byte of [r] is in [r1] or [r2]. *)
Definition covered_by (r r1 r2 : Z * Z) : Prop :=
  forall i, r.1 <= i < r.1 + r.2 -> r1.1 <= i < r1.1 + r1.2 \/ r2.1 <= i < r2.1 + r2.2.

Lemma covered_apart r r1 r2 q : covered_by r r1 r2 -> apart q r1 -> apart q r2 -> apart q r.
Proof.
  intros Hc H1 H2. unfold apart.
  destruct (Z.le_gt_cases q.2 0); [lia|]. destruct (Z.le_gt_cases r.2 0); [lia|].
  destruct (Z.le_gt_cases (q.1 + q.2) r.1); [lia|]. destruct (Z.le_gt_cases (r.1 + r.2) q.1); [lia|].
  exfalso. specialize (Hc (Z.max q.1 r.1) ltac:(lia)). unfold apart in *. lia.
Qed.

Lemma covered_refl r q : covered_by r r q.
Proof. intros i Hi. by left. Qed.

(** * The invariant *)

Definition prefs_wf (p : LZ4F_preferences_t) : Prop :=
  info_wf (frameInfo p) /\ int_min + 1 < compressionLevel p < LZ4HC_CLEVEL_MIN /\
  0 <= autoFlush p < 2 ^ 32.

Section Running.
Context `{HHC : LZ4_HC}.
(** The dictionary and its place, and the size of the memory at [tmpBuff]. *)
Context (D : list Z) (kr : Z * Z) (bcap : Z).

Abbreviation info c := (frameInfo (cc_prefs c)).
Abbreviation xxhr c := (mem32 (cc_xxh c), 16).
Abbreviation tmpr c := (cc_tmpBuff c, bcap).

Definition flushing (c : LZ4F_cctx) : bool := negb (autoFlush (cc_prefs c) =? 0).

(** A region of the user that a context may refer to: it neither overlaps nor
    touches the internal buffer. *)
Definition foreign (c : LZ4F_cctx) (r : Z * Z) : Prop :=
  apart (cc_tmpBuff c - 1, bcap + 2) r /\ apart (xxhr c) r.

(** The bytes next to a region, on both sides, are in use: then no block that is
    allocated later touches it. *)
Definition bordered (m : mem) (r : Z * Z) : Prop := r.2 <= 0 \/ mapped m (r.1 - 1) (r.2 + 2).

Definition session_ok (c : LZ4F_cctx) (m : mem) : Prop :=
  cc_cStage c = 1 /\ prefs_wf (cc_prefs c) /\
  cc_maxBlockSize c = LZ4F_getBlockSize (blockSizeID (info c)) /\
  mapped m (cc_tmpBuff c) bcap /\ mapped m (mem32 (cc_xxh c)) 16 /\
  (0 <= bcap /\ 0 <= cc_tmpBuff c /\ cc_tmpBuff c + bcap < 2 ^ 63 /\ (bcap = 0 \/ 0 < cc_tmpBuff c)) /\
  (flushing c = false ->
     cc_maxBlockSize c + (if cc_linked c then 128 * KB else 0) <= cc_maxBufferSize c <= bcap) /\
  (apart (tmpr c) (xxhr c) /\ apart (tmpr c) kr /\ apart (xxhr c) kr).

(** The history at [hr] is in the internal buffer, in front of [tmpIn], or it is
    the memory [u] of the user. *)
Definition history_at (c : LZ4F_cctx) (hr u : Z * Z) : Prop :=
  (u.2 = 0 /\ 0 <= hr.2 /\ cc_tmpBuff c <= hr.1 /\ hr.1 + hr.2 = cc_tmpIn c /\
   cc_tmpIn c <= cc_tmpBuff c + bcap) \/
  u = hr.

(** The blocks [bs] were emitted for [o]. *)
Definition emitted (c : LZ4F_cctx) (m : mem) (bs : list fblock) (o : list Z) (u : Z * Z) : Prop :=
  session_ok c m /\ produced (info c) D bs o /\ foreign c u /\
  exists hr, ctx_ok D kr (cc_lz4Ctx c) (cc_cdict c) m (cc_linked c) o hr /\ history_at c hr u.

(** There is room for a block behind [tmpIn]. *)
Definition tmp_room (c : LZ4F_cctx) : Prop :=
  flushing c = false ->
  cc_tmpBuff c <= cc_tmpIn c /\ cc_tmpIn c + cc_maxBlockSize c <= cc_tmpBuff c + cc_maxBufferSize c.

(** The bytes [pend] are buffered. *)
Definition pending (c : LZ4F_cctx) (m : mem) (pend : list Z) : Prop :=
  cc_tmpInSize c = zlen pend /\ zlen pend < cc_maxBlockSize c /\ holds m (cc_tmpIn c) pend /\
  bytes_ok pend /\ (flushing c = true -> pend = []).

Lemma pending_nil c m : cc_tmpInSize c = 0 -> 0 < cc_maxBlockSize c -> pending c m [].
Proof. intros H1 H2. split; [done|]. split; [done|]. split; [apply holds_nil|]. split; [apply Forall_nil|done]. Qed.

(** The hash and the count of what was consumed. *)
Definition digested (c : LZ4F_cctx) (m : mem) (l : list Z) : Prop :=
  (contentChecksumFlag (info c) = LZ4F_contentChecksumEnabled -> XXH32_rep 0 m (cc_xxh c) l) /\
  (contentSize (info c) <> 0 -> cc_totalInSize c = u64 (zlen l)).

(** A frame is being compressed: [bs] are the blocks emitted for [o], and [pend]
    is buffered. *)
Definition running (c : LZ4F_cctx) (m : mem) (bs : list fblock) (o pend : list Z) (u : Z * Z) : Prop :=
  emitted c m bs o u /\ tmp_room c /\ pending c m pend /\ digested c m (o ++ pend).

(** What stays the same during a frame. *)
Definition same_session (c c' : LZ4F_cctx) : Prop :=
  cc_prefs c' = cc_prefs c /\ cc_cStage c' = cc_cStage c /\ cc_cdict c' = cc_cdict c /\
  cc_maxBlockSize c' = cc_maxBlockSize c /\ cc_maxBufferSize c' = cc_maxBufferSize c /\
  cc_tmpBuff c' = cc_tmpBuff c /\ cc_xxh c' = cc_xxh c /\ cc_totalInSize c' = cc_totalInSize c /\
  cc_self c' = cc_self c /\ cc_lz4CtxPtr c' = cc_lz4CtxPtr c /\ cc_lz4CtxAlloc c' = cc_lz4CtxAlloc c /\
  cc_lz4CtxType c' = cc_lz4CtxType c.

Lemma same_refl c : same_session c c.
Proof. done. Qed.

Lemma same_trans c1 c2 c3 : same_session c1 c2 -> same_session c2 c3 -> same_session c1 c3.
Proof. unfold same_session. intros H1 H2. destruct_and! H1. destruct_and! H2. splits; congruence. Qed.

(** What stays the same from one call to the next. *)
Definition same_frame (c c' : LZ4F_cctx) : Prop :=
  cc_prefs c' = cc_prefs c /\ cc_cdict c' = cc_cdict c /\ cc_maxBlockSize c' = cc_maxBlockSize c /\
  cc_maxBufferSize c' = cc_maxBufferSize c /\ cc_tmpBuff c' = cc_tmpBuff c /\
  mem32 (cc_xxh c') = mem32 (cc_xxh c) /\ cc_self c' = cc_self c /\ cc_lz4CtxPtr c' = cc_lz4CtxPtr c /\
  cc_lz4CtxAlloc c' = cc_lz4CtxAlloc c /\ cc_lz4CtxType c' = cc_lz4CtxType c.

Lemma same_frame_refl c : same_frame c c.
Proof. done. Qed.

Lemma same_frame_trans c1 c2 c3 : same_frame c1 c2 -> same_frame c2 c3 -> same_frame c1 c3.
Proof. unfold same_frame. intros H1 H2. destruct_and! H1. destruct_and! H2. splits; congruence. Qed.

Lemma session_frame c c' : same_session c c' -> same_frame c c'.
Proof. unfold same_session, same_frame. intros H. destruct_and! H. splits; congruence. Qed.

(** The context after a block of the internal buffer. *)
Definition advance (ctx' : lz4Ctx) (n : Z) (c : LZ4F_cctx) : LZ4F_cctx :=
  let c' := cset_lz4Ctx ctx' c in
  if cc_linked c' then cset_tmpIn (cc_tmpIn c' + n) c' else c'.

Lemma advance_same c ctx' n k : let c' := cset_tmpInSize k (advance ctx' n c) in
  same_session c c' /\ cc_tmpIn c' = cc_tmpIn c + (if cc_linked c then n else 0) /\
  cc_blockCompressMode c' = cc_blockCompressMode c /\ cc_linked c' = cc_linked c.
Proof.
  unfold advance. change (cc_linked (cset_lz4Ctx ctx' c)) with (cc_linked c).
  destruct (cc_linked c) eqn:E; cbn zeta; [done|]. splits; try done. cbn. lia.
Qed.

Lemma session_same c c' m m' rs :
  same_session c c' -> changes rs m m' -> session_ok c m -> session_ok c' m'.
Proof.
  intros (E1 & E2 & E3 & E4 & E5 & E6 & E7 & E8 & _) Hc (H1 & H2 & H3 & H4 & H5 & H6 & H7 & H8).
  unfold session_ok, flushing, cc_linked in *. rewrite E1, E2, E4, E5, E6, E7.
  splits; try done; try apply H6; try apply H8; by eapply changes_mapped.
Qed.

(** * A block *)

(** After a block of the internal buffer the history ends with it; memory of the
    user does not touch the buffer. *)
Lemma next_in_tmp c u hr a n hr' :
  apart (cc_tmpBuff c - 1, bcap + 2) u -> history_at c hr u -> hr_next true hr a n hr' ->
  a = cc_tmpIn c -> cc_tmpBuff c <= a -> a + n <= cc_tmpBuff c + bcap -> 0 < n ->
  cc_tmpBuff c <= hr'.1.
Proof.
  unfold hr_next, history_at, apart. cbn [fst snd]. intros Hu [Hhr|E] Hn; [lia|]. rewrite E in *. lia.
Qed.

Section Block.
Context (c : LZ4F_cctx) (m : mem) (bs : list fblock) (o : list Z) (u : Z * Z).
Context (a : Z) (x : list Z) (dst : Z) (cm : LZ4F_BlockCompressMode_e).

Abbreviation room := (4 + zlen x + 4 * blockChecksumFlag (info c)).

Context (Hem : emitted c m bs o u) (Hx : x <> []) (Hbytes : bytes_ok x) (Ha : 0 < a).
Context (Hsize : zlen x <= cc_maxBlockSize c) (Hh : holds m a x).
Context (Hcm : cc_linked c = true -> cm = LZ4B_COMPRESSED).
Context (Hdst : mapped m dst room) (Hd1 : apart (dst, room) kr) (Hd2 : apart (dst, room) (tmpr c)).
Context (Hd3 : apart (dst, room) u) (Hd4 : apart (dst, room) (a, zlen x)) (Hk : apart (a, zlen x) kr).

(** The block is in the internal buffer, or in memory of the user. *)
Definition at_tmp : Prop :=
  a = cc_tmpIn c /\ cc_tmpBuff c <= a /\ a + zlen x <= cc_tmpBuff c + bcap.
Definition at_src : Prop := apart (a, zlen x) u /\ foreign c (a, zlen x).

Lemma history_apart hr :
  at_tmp \/ at_src -> history_at c hr u -> apart (dst, room) hr /\ apart (a, zlen x) hr.
Proof.
  intros Hat Hhr. destruct Hem as (_ & _ & [Hu _] & _). destruct Hhr as [Hhr| <-].
  - split.
    + destruct hr as [h k]. cbn [fst snd] in Hhr.
      apply (apart_inside _ _ _ _ _ _ Hd2); [apply inside_refl|]. unfold inside. cbn [fst snd]. lia.
    + destruct Hat as [(E & _)|[_ [Hg _]]]; unfold apart in *; cbn [fst snd] in *; clear Hd2 Hd3 Hu; lia.
  - split; [done|]. destruct Hat as [(E & E1 & E2)|[Hg _]]; [|done].
    unfold apart in *. cbn [fst snd] in *. clear Hd2 Hd3. lia.
Qed.

Lemma wp_cctx_makeBlock (Q : Z * LZ4F_cctx -> mem -> Prop) :
  at_tmp \/ at_src ->
  (forall b ctx' hr hr' m', block_made (history (info c) D o) b x ->
     holds m' dst (enc_fblock (info c) b) -> frame dst (dst + room) m m' ->
     ctx_ok D kr ctx' (cc_cdict c) m' (cc_linked c) (o ++ x) hr' -> history_at c hr u ->
     hr_next (cc_linked c) hr a (zlen x) hr' ->
     Q (zlen (enc_fblock (info c) b), cset_lz4Ctx ctx' c) m') ->
  wp (cctx_makeBlock c (LZ4F_selectCompression (blockMode (info c)) (compressionLevel (cc_prefs c)) cm)
        dst a (zlen x)) Q m.
Proof.
  intros Hat HQ. destruct Hem as ((_ & (Hi & Hl & _) & Ebs & _) & _ & _ & hr & Hctx & Hhr).
  destruct (history_apart hr Hat Hhr) as [Ha1 Ha2]. unfold cctx_makeBlock. apply wp_bind.
  eapply (wp_makeBlock D kr); try done.
  - by rewrite <- Ebs.
  - intros b ctx' hr' m' H1 H2 H3 H4 H5. apply wp_ret. by apply (HQ b ctx' hr hr').
Qed.

Lemma block_emitted b : block_made (history (info c) D o) b x -> produced (info c) D (bs ++ [b]) (o ++ x).
Proof.
  intros Hb. destruct Hem as ((_ & _ & Ebs & _) & Hp & _). constructor; [done|done|]. by rewrite <- Ebs.
Qed.

Lemma block_changes m' : frame dst (dst + room) m m' -> changes [(dst, room)] m m'.
Proof. intros Hf. eapply changes_frame; [exact Hf|by left|apply inside_refl]. Qed.

Lemma block_same ctx' m' : frame dst (dst + room) m m' -> session_ok (cset_lz4Ctx ctx' c) m'.
Proof.
  intros Hf. destruct Hem as (Hs & _). eapply session_same; [|by apply block_changes|exact Hs]. done.
Qed.

Lemma block_room b : block_made (history (info c) D o) b x -> zlen (enc_fblock (info c) b) <= room.
Proof.
  intros Hb. pose proof (made_size _ _ _ Hb). destruct Hem as ((_ & (Hi & _) & _) & _).
  rewrite zlen_enc_fblock by apply Hi. lia.
Qed.

(** A block of the user's memory. *)
Lemma wp_src_block (Q : Z * LZ4F_cctx -> mem -> Prop) :
  at_src ->
  (forall b ctx' m' u', let c' := cset_lz4Ctx ctx' c in
     holds m' dst (enc_fblock (info c) b) -> zlen (enc_fblock (info c) b) <= room ->
     frame dst (dst + room) m m' -> emitted c' m' (bs ++ [b]) (o ++ x) u' ->
     covered_by u' u (a, zlen x) -> ctx_ok D kr ctx' (cc_cdict c) m' (cc_linked c) (o ++ x) u' ->
     Q (zlen (enc_fblock (info c) b), c') m') ->
  wp (cctx_makeBlock c (LZ4F_selectCompression (blockMode (info c)) (compressionLevel (cc_prefs c)) cm)
        dst a (zlen x)) Q m.
Proof.
  intros Hat HQ. apply wp_cctx_makeBlock; [by right|]. intros b ctx' hr hr' m' Hb Hh' Hf Hctx Hhr Hn.
  pose proof Hem as (_ & _ & Hu & _). apply zlen_pos in Hx as Hx'.
  assert (covered_by hr' u (a, zlen x)) as Hcov.
  { intros k Hk'. destruct Hat as [_ [Hg _]]. unfold hr_next in Hn.
    destruct (cc_linked c); [|rewrite Hn in Hk'; cbn in Hk'; lia].
    destruct Hhr as [Hhr| ->]; unfold apart in Hg; cbn [fst snd] in *; lia. }
  apply (HQ b ctx' m' hr'); try done; [by apply block_room|].
  split; [by apply block_same|]. split; [by apply block_emitted|]. split.
  - destruct Hu as [Hu1 Hu2], Hat as [_ [Hg1 Hg2]]. split; by eapply covered_apart.
  - exists hr'. split; [done|by right].
Qed.

(** A block of the internal buffer, which the history then ends with. *)
Lemma wp_tmp_block (Q : Z * LZ4F_cctx -> mem -> Prop) :
  at_tmp ->
  (forall b ctx' m',
     holds m' dst (enc_fblock (info c) b) -> zlen (enc_fblock (info c) b) <= room ->
     frame dst (dst + room) m m' -> emitted (advance ctx' (zlen x) c) m' (bs ++ [b]) (o ++ x) (0, 0) ->
     Q (zlen (enc_fblock (info c) b), cset_lz4Ctx ctx' c) m') ->
  wp (cctx_makeBlock c (LZ4F_selectCompression (blockMode (info c)) (compressionLevel (cc_prefs c)) cm)
        dst a (zlen x)) Q m.
Proof.
  intros Hat HQ. apply wp_cctx_makeBlock; [by left|]. intros b ctx' hr hr' m' Hb Hh' Hf Hctx Hhr Hn.
  pose proof Hem as (_ & _ & Hu & _). apply zlen_pos in Hx as Hx'.
  apply (HQ b ctx' m'); try done; [by apply block_room|].
  assert (foreign c (0, 0)) as H0 by (unfold foreign, apart; cbn; lia).
  unfold advance. change (cc_linked (cset_lz4Ctx ctx' c)) with (cc_linked c). destruct (cc_linked c) eqn:El.
  - split; [|split; [by apply block_emitted|]].
    { eapply session_same; [|by apply block_changes|apply Hem]. done. }
    split; [done|]. exists hr'. cbn [cc_lz4Ctx cc_cdict cset_tmpIn cset_lz4Ctx].
    change (cc_linked (cset_tmpIn _ _)) with (cc_linked c). rewrite El. split; [done|]. left.
    destruct Hat as (E1 & E2 & E3), Hu as [Hu _].
    pose proof (next_in_tmp c u hr a (zlen x) hr' Hu Hhr Hn E1 E2 E3 Hx') as Hlo.
    destruct Hn as (Hn1 & Hn2 & _). cbn [snd cc_tmpBuff cc_tmpIn cset_tmpIn cset_lz4Ctx].
    clear Hd1 Hd2 Hd3 Hd4 Hk Hu Hhr. lia.
  - split; [by apply block_same|]. split; [by apply block_emitted|]. split; [done|].
    exists hr'. change (cc_linked (cset_lz4Ctx ctx' c)) with (cc_linked c). rewrite El. split; [done|].
    right. symmetry. exact Hn.
Qed.
End Block.

(** * Saving the history *)

(** The context has compressed a block of a frame of linked blocks. *)
Lemma linked_started c m bs o u :
  emitted c m bs o u -> cc_linked c = true -> o <> [] ->
  exists s h, cc_lz4Ctx c = lz4_fast s /\ cs_inv s h /\ h `suffix_of` D ++ o /\
    holds m (dictionary s) h /\ stream_wf s.
Proof.
  intros (_ & _ & _ & hr & (_ & s & E & H) & _) El Ho. rewrite El in H.
  destruct H as [(h & H1 & H2 & H3 & _ & [?|[? _]])|(_ & ? & _)]; [|done|done]. by exists s, h.
Qed.

Lemma foreign_nil c : foreign c (0, 0).
Proof. unfold foreign, apart. cbn. lia. Qed.

(** The history moves to the start of the internal buffer. *)
Lemma wp_localSaveDict c m bs o u (Q : LZ4F_cctx -> mem -> Prop) :
  emitted c m bs o u -> cc_linked c = true -> o <> [] -> 64 * KB <= bcap ->
  (forall ctx' m' z, let c' := cset_tmpIn (cc_tmpBuff c + z) (cset_lz4Ctx ctx' c) in
     0 <= z <= 64 * KB -> frame (cc_tmpBuff c) (cc_tmpBuff c + 64 * KB) m m' ->
     emitted c' m' bs o (0, 0) -> Q c' m') ->
  wp (LZ4F_localSaveDict c) Q m.
Proof.
  intros Hem El Ho Hcap HQ. destruct (linked_started _ _ _ _ _ Hem El Ho) as (s & h & Ec & Hcs & Hsuf & Hh & Hwf).
  pose proof Hem as (Hs & Hp & _ & hr & (Hcd & _) & _).
  pose proof Hs as (_ & (_ & Hl & _) & _ & Hmap & _ & (_ & Hb0 & Hb1 & Hb2) & _ & (_ & Hk & _)).
  unfold LZ4F_localSaveDict. destruct (Z.ltb_spec (compressionLevel (cc_prefs c)) LZ4HC_CLEVEL_MIN); [|lia].
  rewrite Ec. cbn [as_fast]. apply wp_bind, wp_bind, wp_ret, wp_bind.
  change (64 * KB) with 65536 in *. set (z := saved_size h 65536). pose proof (zlen_nonneg h).
  assert (0 <= z <= 65536 /\ z <= zlen h) as [Hz Hzh].
  { unfold z, saved_size. change (64 * KB) with 65536. change ((0 <=? 65536) && _) with true. cbn iota. lia. }
  eapply wp_mono; [apply (saveDict_ok s h); try done; try lia|].
  - eapply mapped_sub; [exact Hmap|lia|]. fold z. lia.
  - fold z. intros r m' (Er & Hf & Hcs' & Ed & Hh' & Hsame).
    apply wp_ret. cbn [fst snd]. rewrite Er.
    assert (frame (cc_tmpBuff c) (cc_tmpBuff c + 65536) m m') as Hf' by (eapply frame_weaken; [exact Hf|lia|lia]).
    apply wp_ret. apply (HQ (lz4_fast r.2) m' z); [done|done|].
    assert (changes [(cc_tmpBuff c, 65536)] m m') as Hch.
    { eapply changes_frame; [exact Hf'|by left|apply inside_refl]. }
    split; [eapply session_same; [|exact Hch|exact Hs]; done|]. split; [done|].
    split; [apply (foreign_nil c)|]. exists (cc_tmpBuff c, z).
    pose proof (last_n_zlen z h ltac:(lia)) as Hlz. split; [|left; cbn; lia]. split.
    + cbn [cc_cdict cset_tmpIn cset_lz4Ctx].
      eapply (cdict_kept D kr m (0, 0) (cc_tmpBuff c) 65536); [|exact Hf'|done].
      split; [eapply apart_sub; [exact Hk|lia|lia]|unfold apart; cbn; lia].
    + exists r.2. split; [done|]. change (cc_linked (cset_tmpIn _ _)) with (cc_linked c). rewrite El.
      left. exists (last_n z h). split; [done|]. rewrite Ed, Hlz. split; [|split; [done|split; [done|left; by apply Hsame]]].
      destruct (last_n_split z h) as [pre E]. destruct Hsuf as [pre' E']. exists (pre' ++ pre).
      by rewrite E', <- app_assoc, <- E.
Qed.

(** * Memory of a call *)

(** The destination of a call. *)
Definition dst_ok (c : LZ4F_cctx) (m : mem) (dst cap : Z) (u : Z * Z) : Prop :=
  (0 < dst /\ 0 <= cap /\ dst + cap <= 2 ^ 63) /\ mapped m dst cap /\
  apart (dst, cap) kr /\ apart (dst, cap) (tmpr c) /\ apart (dst, cap) (xxhr c) /\ apart (dst, cap) u.

(** The source of a call. *)
Definition src_ok (c : LZ4F_cctx) (m : mem) (dst cap src : Z) (inp : list Z) (u : Z * Z) : Prop :=
  (0 < src /\ src + zlen inp <= 2 ^ 63 /\ zlen inp < 2 ^ 47 /\ bytes_ok inp) /\ holds m src inp /\
  apart (src, zlen inp) kr /\ apart (src, zlen inp) u /\ apart (dst, cap) (src, zlen inp) /\
  foreign c (src, zlen inp) /\
  (src + zlen inp <= mem32 (cc_xxh c) \/ mem32 (cc_xxh c) + 16 <= src).

(** A part of the destination. *)
Lemma dst_part c m dst cap u a n :
  dst_ok c m dst cap u -> dst <= a -> 0 <= n -> a + n <= dst + cap -> dst_ok c m a n u.
Proof.
  intros (H1 & H2 & H3 & H4 & H5 & H6) Ha Hn Hle. unfold dst_ok. destruct u, kr.
  split; [lia|]. split; [eapply mapped_sub; [exact H2|lia|lia]|].
  splits; [sub_apart H3|sub_apart H4|sub_apart H5|sub_apart H6].
Qed.

Lemma src_part c m dst cap src inp u a n :
  src_ok c m dst cap src inp u -> dst <= a -> 0 <= n -> a + n <= dst + cap -> src_ok c m a n src inp u.
Proof.
  intros (H1 & H2 & H3 & H4 & H5 & H6) Ha Hn Hle. unfold src_ok. do 4 (split; [done|]). split; [sub_apart H5|done].
Qed.

Lemma rep_changes rs m m' st l :
  changes rs m m' -> Forall (fun r => apart r (mem32 st, 16)) rs ->
  XXH32_rep 0 m st l -> XXH32_rep 0 m' st l.
Proof.
  intros Hc Ha ((Hm & ss & t & Hs & Hv & Hn & Ht) & H2). split; [|done].
  split; [by eapply changes_mapped|]. exists ss, t. do 3 (split; [done|]).
  eapply changes_holds; [exact Hc| |done]. eapply Forall_impl; [|exact Ha]. intros r Hr.
  destruct Hs as (_ & _ & Hs). unfold apart, zlen in *. cbn [fst snd] in *. lia.
Qed.

Lemma digested_changes rs c c' m m' l :
  same_session c c' -> changes rs m m' -> Forall (fun r => apart r (xxhr c)) rs ->
  digested c m l -> digested c' m' l.
Proof.
  intros (E1 & _ & _ & _ & _ & _ & E2 & E3 & _) Hc Ha [H1 H2]. unfold digested. rewrite E1, E2, E3.
  split; [|done]. intros Hf. eapply rep_changes; [exact Hc|done|by apply H1].
Qed.
End Running.

(** [LZ4F_flush] emits what is buffered as one block. *)

Section Flush.
Context `{HHC : LZ4_HC} (D : list Z) (kr : Z * Z) (bcap : Z).
Context (c : LZ4F_cctx) (m : mem) (bs : list fblock) (o pend : list Z) (u : Z * Z).
Context (dst cap : Z) (opts : option LZ4F_compressOptions_t).
Context (Hrun : running D kr bcap c m bs o pend u) (Hdst : dst_ok kr bcap c m dst cap u).
Context (Hcm : pend <> [] -> cc_linked c = true -> cc_blockCompressMode c = LZ4B_COMPRESSED).

Abbreviation info := (frameInfo (cc_prefs c)).

(** The buffered data is emitted, unless there is none, or no room for it. *)
Definition flush_post (r : Z * LZ4F_cctx) (m' : mem) : Prop :=
  (pend = [] /\ r = (0, c) /\ m' = m) \/
  (pend <> [] /\ cap < zlen pend + 8 /\
   r = (LZ4F_returnErrorCode LZ4F_ERROR_dstMaxSize_tooSmall, c) /\ m' = m) \/
  (pend <> [] /\ zlen pend + 8 <= cap /\ exists b,
     r.1 = zlen (enc_fblock info b) /\ r.1 <= 4 + zlen pend + 4 * blockChecksumFlag info /\
     holds m' dst (enc_fblock info b) /\ changes [(dst, cap); (cc_tmpBuff c, bcap)] m m' /\
     running D kr bcap r.2 m' (bs ++ [b]) (o ++ pend) [] (0, 0) /\ same_session c r.2 /\
     cc_blockCompressMode r.2 = cc_blockCompressMode c).

(** The last step: room for the next block. *)
Lemma wp_flush_limits c' bs' o' u' m' (Q : LZ4F_cctx -> mem -> Prop) :
  emitted D kr bcap c' m' bs' o' u' -> flushing c' = false -> o' <> [] ->
  cc_tmpBuff c' <= cc_tmpIn c' ->
  (cc_linked c' = false -> tmp_room c') ->
  (forall c'' m'' u'', emitted D kr bcap c'' m'' bs' o' u'' -> tmp_room c'' -> same_session c' c'' ->
     cc_tmpInSize c'' = cc_tmpInSize c' -> cc_blockCompressMode c'' = cc_blockCompressMode c' ->
     changes [(cc_tmpBuff c', bcap)] m' m'' -> u'' = u' \/ u'' = (0, 0) -> Q c'' m'') ->
  wp (if cc_tmpBuff c' + cc_maxBufferSize c' <? cc_tmpIn c' + cc_maxBlockSize c'
      then LZ4F_localSaveDict c' else mret c') Q m'.
Proof.
  intros Hem Hfl Ho Hlo Hun HQ. pose proof Hem as ((_ & Hp & Ebs & _ & _ & Hb & Hmax & _) & _).
  specialize (Hmax Hfl). assert (4 <= blockSizeID (frameInfo (cc_prefs c')) <= 7) as Hid by apply Hp.
  pose proof (block_sizes _ Hid) as Hsz. rewrite <- Ebs in Hsz. unfold KB, MB in *.
  destruct (Z.ltb_spec (cc_tmpBuff c' + cc_maxBufferSize c') (cc_tmpIn c' + cc_maxBlockSize c')) as [Hlt|Hge].
  - destruct (cc_linked c') eqn:El.
    2: { destruct (Hun eq_refl Hfl) as [_ ?]. lia. }
    eapply (wp_localSaveDict D kr bcap); [exact Hem|done|done|unfold KB; lia|].
    intros ctx' m'' z c'' Hz Hf Hem'. unfold KB in *. apply (HQ c'' m'' (0, 0)); try done; [| |by right].
    + intros _. unfold c''. cbn [cc_tmpBuff cc_tmpIn cc_maxBlockSize cc_maxBufferSize cset_tmpIn cset_lz4Ctx]. lia.
    + eapply changes_frame; [exact Hf|by left|]. unfold inside. cbn [fst snd]. lia.
  - apply wp_ret. apply (HQ c' m' u'); try done. by left.
Qed.

Lemma wp_LZ4F_flush : wp (LZ4F_flush c dst cap opts) flush_post m.
Proof.
  destruct Hrun as (Hem & Hroom & (Esz & Hsz & Hh & Hb & Hfl) & Hdig).
  pose proof Hem as ((Hst & (Hi & _) & Ebs & Hmap & Hmx & Hbuf & Hmax & (Hx1 & Hx2 & Hx3)) & _ & Hu & _).
  destruct Hdst as ((Hd0 & Hd1 & Hd2) & Hdm & Ha1 & Ha2 & Ha3 & Ha4).
  assert (4 <= blockSizeID info <= 7 /\ 0 <= blockChecksumFlag info <= 1) as [Hid Hcrc] by (split; apply Hi).
  pose proof (block_sizes _ Hid) as Hbs. rewrite <- Ebs in Hbs. unfold KB, MB in Hbs.
  unfold LZ4F_flush. rewrite Esz. destruct (Z.eqb_spec (zlen pend) 0) as [E|E].
  { apply wp_ret. left. split; [apply zlen_0_nil; lia|done]. }
  pose proof (zlen_nonneg pend). assert (pend <> []) as Hne by (apply zlen_pos; lia).
  pose proof (Hcm Hne) as Hcm'. rewrite Hst. cbn [Z.eqb negb Pos.eqb]. change BHSize with 4. change BFSize with 4.
  rewrite (u64_small (zlen pend + 4 + 4)) by lia.
  destruct (Z.ltb_spec cap (zlen pend + 4 + 4)) as [Hlt|Hge].
  { apply wp_ret. right. left. splits; try done; lia. }
  assert (flushing c = false) as Efl by (destruct (flushing c); [by specialize (Hfl eq_refl)|done]).
  destruct (Hroom Efl) as [Hr1 Hr2]. specialize (Hmax Efl).
  apply wp_bind. eapply (wp_tmp_block D kr bcap c m bs o u (cc_tmpIn c) pend dst); try done; try lia.
  - eapply mapped_sub; [exact Hdm|lia|lia].
  - eapply apart_sub; [exact Ha1|lia|lia].
  - eapply apart_sub; [exact Ha2|lia|lia].
  - eapply apart_sub; [exact Ha4|lia|lia].
  - sub_apart Ha2.
  - eapply apart_sub; [exact Hx2|lia|lia].
  - split; [done|]. lia.
  - intros b ctx' m' Hh' Hle Hf Hem'. cbn [fst snd].
    change (cc_tmpInSize (cset_lz4Ctx ctx' c)) with (cc_tmpInSize c). rewrite Esz.
    fold (advance ctx' (zlen pend) c).
    destruct (advance_same c ctx' (zlen pend) 0) as (Hss & Etm & Emd & Elk).
    set (c'' := advance ctx' (zlen pend) c) in *.
    clearbody c''. set (c3 := cset_tmpInSize 0 c'') in *. pose proof Hss as (S1 & _ & _ & S4 & S5 & S6 & _).
    assert (flushing c3 = false) as Efl3 by (unfold flushing in *; by rewrite S1).
    apply wp_bind. eapply (wp_flush_limits c3 (bs ++ [b]) (o ++ pend) (0, 0)); [exact Hem'|done| | | |].
    + intros [_ ?]%app_eq_nil. done.
    + rewrite S6, Etm. destruct (cc_linked c); lia.
    + intros E3 _. rewrite Elk in E3. rewrite S4, S5, S6, Etm, E3. lia.
    + intros c4 m4 u4 Hem4 Hroom4 Hss4 Esz4 Emd4 Hch4 Hu4. apply wp_ret. right. right. split; [done|].
      split; [lia|]. exists b. cbn [fst snd]. rewrite u64_small by (zlen_facts; lia).
      assert (u4 = (0, 0)) as -> by (by destruct Hu4). pose proof (same_trans _ _ _ Hss Hss4) as Hss'.
      rewrite S6 in Hch4.
      assert (changes [(dst, cap); (cc_tmpBuff c, bcap)] m m4) as Hch.
      { eapply changes_trans.
        - eapply (changes_frame _ (dst, cap)); [exact Hf|by left|unfold inside; cbn; lia].
        - destruct Hch4 as [H1 H2]. split; [|done]. intros k Hk. apply H1. by inversion_clear Hk. }
      split; [lia|]. split; [lia|]. split; [|split; [done|split; [|split; [done|by rewrite Emd4]]]].
      * eapply changes_holds; [exact Hch4| |exact Hh']. constructor; [|constructor]. apply apart_sym.
        eapply apart_sub; [exact Ha2|lia|lia].
      * split; [done|]. split; [done|]. split; [|rewrite app_nil_r; eapply digested_changes; [done|exact Hch| |done]].
        { apply pending_nil; [done|]. destruct Hss' as (_ & _ & _ & -> & _). lia. }
        { by repeat apply Forall_cons_2. }
Qed.
End Flush.
