(* ===== verification/Lz4FrameUpdateSpec.v ===== *)
(** [LZ4F_compressUpdateImpl]: every phase of a call keeps the invariant of the
    context, and the blocks it emits fit in the destination when the capacity is
    at least the bound. *)
From S2P Require Import Prelude.
From S2P Require Import Mem.
From S2P Require Import Xxhash.
From S2P Require Import XxhashSpec.
From S2P Require Import XxhashStream.
From S2P Require Import Lz4Common.
From S2P Require Import Lz4Decompress.
From S2P Require Import Lz4Frame.
From S2P Require Import Lz4FrameDecode.
From S2P Require Import FrameFormat.
From S2P Require Import Lz4FrameHeader.
From S2P Require Import Lz4FrameInv.
From S2P Require Import Lz4FrameCompress.
From S2P Require Import Lz4FrameMakeBlock.
From S2P Require Import Lz4FrameCompressInv.

(** * The room that blocks need *)

(** The largest size of the blocks for [k] bytes, of which a last incomplete one
    is emitted when [fl] is set. *)
Definition need (B crc : Z) (fl : bool) (k : Z) : Z :=
  k / B * (4 + B + crc) + (if fl && (0 <? k mod B) then 4 + k mod B + crc else 0).

Section Need.
Context (B crc : Z) (fl : bool) (HB : 0 < B) (Hcrc : 0 <= crc).

Lemma need_nonneg k : 0 <= k -> 0 <= need B crc fl k.
Proof.
  intros Hk. unfold need. pose proof (Z.mod_pos_bound k B HB). pose proof (Z.div_pos k B Hk HB).
  destruct (fl && (0 <? k mod B)); nia.
Qed.

Lemma need_block k : B <= k -> need B crc fl k = 4 + B + crc + need B crc fl (k - B).
Proof.
  intros Hk. unfold need. assert ((k - B) / B = k / B - 1 /\ (k - B) mod B = k mod B) as [-> ->]; [|lia].
  split; [|]; replace (k - B) with (k + (-1) * B) by lia; [rewrite Z.div_add by lia; lia|by rewrite Z.mod_add by lia].
Qed.

Lemma need_last k : fl = true -> 0 < k < B -> need B crc fl k = 4 + k + crc.
Proof.
  intros -> Hk. unfold need. rewrite Z.div_small, Z.mod_small by lia. cbn [andb].
  destruct (Z.ltb_spec 0 k); lia.
Qed.
End Need.

(** The value of the bound of a call on [n] bytes with [t] bytes buffered. *)
Lemma bound_value p n t :
  prefs_wf p -> 0 <= n < 2 ^ 47 -> 0 <= t ->
  let i := frameInfo p in
  let B := LZ4F_getBlockSize (blockSizeID i) in
  let k := n + Z.min t (B - 1) in
  LZ4F_compressBound_internal n (Some p) t =
    need B (4 * blockChecksumFlag i) (negb (Z.lor (autoFlush p) (Z.b2z (n =? 0)) =? 0)) k
    + 4 + 4 * contentChecksumFlag i.
Proof.
  intros (Hi & _ & Hfl) Hn Ht i B k. assert (4 <= blockSizeID i <= 7) as Hid by apply Hi.
  assert (0 <= blockChecksumFlag i <= 1 /\ 0 <= contentChecksumFlag i <= 1) as [Hc Hcc] by (split; apply Hi).
  pose proof (block_sizes _ Hid) as HB. fold B in HB. unfold KB, MB in HB.
  unfold LZ4F_compressBound_internal. fold i B. change BFSize with 4. change BHSize with 4.
  rewrite (u64_small (B - 1)) by lia. fold k. assert (0 <= k < 2 ^ 47 + 2 ^ 23) as Hk by lia. rewrite (u64_small k) by lia.
  assert (Z.land k (B - 1) = k mod B) as -> by (unfold B; by apply block_mask).
  pose proof (Z.mod_pos_bound k B ltac:(lia)) as Hm. pose proof (Z.div_mod k B ltac:(lia)) as Hdm.
  assert (0 <= k / B < 2 ^ 32 - 1) as Hd.
  { split; [apply Z.div_pos; lia|]. apply Z.div_lt_upper_bound; [lia|]. lia. }
  rewrite (u32_small (k / B)) by lia. rewrite (u64_small (4 * blockChecksumFlag i)) by lia.
  rewrite (u64_small (4 + contentChecksumFlag i * 4)) by lia. unfold need.
  set (fl := negb (Z.lor _ _ =? 0)). set (K := k / B) in *. set (R := k mod B) in *.
  assert (0 <= B * K < 2 ^ 48) as HBK by lia.
  destruct fl; cbn [andb].
  - destruct (Z.ltb_spec 0 R) as [HR|HR]; cbn [Z.b2z]; rewrite (u32_small (K + _)) by lia; rewrite u64_small by nia; nia.
  - cbn [Z.ltb Z.compare Z.b2z]. rewrite (u32_small (K + 0)) by lia. rewrite u64_small by nia. nia.
Qed.

Lemma need_unflagged B crc fl k : 0 < B -> 0 <= crc -> need B crc false k <= need B crc fl k.
Proof.
  intros HB Hc. unfold need. pose proof (Z.mod_pos_bound k B HB). cbn [andb]. destruct (fl && (0 <? k mod B)); lia.
Qed.

Lemma need_small B crc fl k : 2 ^ 16 <= B -> 0 <= crc <= 4 -> 0 <= k < 2 ^ 48 -> need B crc fl k < 2 ^ 50.
Proof.
  intros HB Hc Hk. unfold need. pose proof (Z.mod_pos_bound k B ltac:(lia)). pose proof (Z.div_mod k B ltac:(lia)).
  pose proof (Z.div_pos k B ltac:(lia) ltac:(lia)). destruct (fl && (0 <? k mod B)); nia.
Qed.

(** The bound has room for the blocks, and for the end of the frame. *)
Lemma bound_need p n t :
  prefs_wf p -> 0 <= n < 2 ^ 47 -> 0 <= t < LZ4F_getBlockSize (blockSizeID (frameInfo p)) ->
  need (LZ4F_getBlockSize (blockSizeID (frameInfo p))) (4 * blockChecksumFlag (frameInfo p))
    (negb (autoFlush p =? 0)) (n + t) + 4 + 4 * contentChecksumFlag (frameInfo p)
  <= LZ4F_compressBound_internal n (Some p) t < 2 ^ 60.
Proof.
  intros Hp Hn Ht. rewrite (bound_value p n t Hp Hn) by lia. pose proof Hp as (Hi & _).
  assert (4 <= blockSizeID (frameInfo p) <= 7) as Hid by apply Hi.
  assert (0 <= blockChecksumFlag (frameInfo p) <= 1 /\ 0 <= contentChecksumFlag (frameInfo p) <= 1) as [Hc Hcc]
    by (split; apply Hi).
  pose proof (block_sizes _ Hid) as HB. unfold KB, MB in HB. set (B := LZ4F_getBlockSize _) in *. rewrite Z.min_l by lia.
  set (fl := negb (Z.lor _ _ =? 0)).
  pose proof (need_small B (4 * blockChecksumFlag (frameInfo p)) fl (n + t) ltac:(lia) ltac:(lia) ltac:(lia)).
  split; [|lia]. destruct (Z.eqb_spec (autoFlush p) 0) as [E|E]; cbn [negb].
  - pose proof (need_unflagged B (4 * blockChecksumFlag (frameInfo p)) fl (n + t) ltac:(lia) ltac:(lia)). lia.
  - assert (fl = true) as ->; [|lia]. unfold fl. apply negb_true_iff, Z.eqb_neq. intros [? _]%Z.lor_eq_0_iff. done.
Qed.

(** * Writes behind the buffered data *)

Lemma emitted_write `{HHC : LZ4_HC} D kr bcap c m m' bs o u a n :
  emitted D kr bcap c m bs o u -> frame a (a + n) m m' ->
  cc_tmpBuff c <= cc_tmpIn c <= a -> a + n <= cc_tmpBuff c + bcap -> emitted D kr bcap c m' bs o u.
Proof.
  intros (Hs & Hp & Hu & hr & Hctx & Hhr) Hf Ha Hn. pose proof Hs as (_ & _ & _ & _ & _ & _ & _ & (_ & Hk & _)).
  split; [|split; [done|split; [done|]]].
  - eapply session_same; [done| |exact Hs]. eapply (changes_frame [(a, n)]); [exact Hf|by left|apply inside_refl].
  - exists hr. split; [|done]. eapply ctx_kept; [exact Hf|eapply apart_sub; [exact Hk|lia|lia]| |done].
    destruct Hhr as [Hhr| ->].
    + unfold apart. cbn [fst snd]. lia.
    + destruct Hu as [Hu _]. eapply apart_sub; [exact Hu|lia|lia].
Qed.

(** The hash state changes. *)
Lemma emitted_xxh `{HHC : LZ4_HC} D kr bcap c m m' bs o u st :
  emitted D kr bcap c m bs o u -> mem32 st = mem32 (cc_xxh c) ->
  frame (mem32 (cc_xxh c)) (mem32 (cc_xxh c) + 16) m m' -> emitted D kr bcap (cset_xxh st c) m' bs o u.
Proof.
  intros (Hs & Hp & Hu & hr & Hctx & Hhr) Est Hf. pose proof Hs as (H1 & H2 & H3 & H4 & H5 & H6 & H7 & (Hx1 & Hx2 & Hx3)).
  split; [|split; [done|split; [|]]].
  - unfold session_ok, flushing, cc_linked in *. cbn [cc_prefs cc_cStage cc_maxBlockSize cc_tmpBuff cc_xxh cc_maxBufferSize cset_xxh].
    rewrite Est. splits; try done; try apply H6; by eapply frame_mapped.
  - destruct Hu as [Hu1 Hu2]. split; [done|]. cbn [cc_xxh cset_xxh]. by rewrite Est.
  - exists hr. split; [|done]. eapply ctx_kept; [exact Hf|done| |done]. destruct Hhr as [Hhr| ->]; [|apply Hu].
    destruct hr as [h k]. cbn [fst snd] in Hhr. apply apart_sym.
    eapply apart_sub; [exact Hx1|lia|lia].
Qed.

Lemma pending_xxh `{HHC : LZ4_HC} D kr bcap c m m' bs o u st pend :
  emitted D kr bcap c m bs o u -> tmp_room c -> pending c m pend ->
  frame (mem32 (cc_xxh c)) (mem32 (cc_xxh c) + 16) m m' -> pending (cset_xxh st c) m' pend.
Proof.
  intros (Hs & _) Hroom (H1 & H2 & H3 & H4 & H5) Hf. split; [done|]. split; [done|]. split; [|done].
  destruct (decide (pend = [])) as [->|Hne]; [apply holds_nil|].
  destruct Hs as (_ & _ & _ & _ & _ & _ & Hmax & (Hx & _)).
  assert (flushing c = false) as Efl by (destruct (flushing c); [by specialize (H5 eq_refl)|done]).
  destruct (Hroom Efl) as [Hr1 Hr2]. specialize (Hmax Efl).
  eapply apart_frame; [exact Hf| |exact H3]. apply apart_sym. cbn [cc_tmpIn cset_xxh].
  eapply apart_sub; [exact Hx|lia|]. lia.
Qed.

(** * The phases of a call *)

Section Update.
Context `{HHC : LZ4_HC} (D : list Z) (kr : Z * Z) (bcap : Z).
Context (c0 : LZ4F_cctx) (m0 : mem) (bs0 : list fblock) (o0 pend0 : list Z) (u0 : Z * Z).
Context (dst cap src : Z) (inp : list Z) (cm : LZ4F_BlockCompressMode_e).

Abbreviation i := (frameInfo (cc_prefs c0)).
Abbreviation B := (cc_maxBlockSize c0).
Abbreviation crc := (4 * blockChecksumFlag i).
Abbreviation tmpr := (cc_tmpBuff c0, bcap).
Abbreviation compress :=
  (LZ4F_selectCompression (blockMode i) (compressionLevel (cc_prefs c0)) cm).

Context (Hrun : running D kr bcap c0 m0 bs0 o0 pend0 u0) (Hdst : dst_ok kr bcap c0 m0 dst cap u0).
Context (Hsrc : src_ok kr bcap c0 m0 dst cap src inp u0).
Context (Hcm : cc_linked c0 = true -> cm = LZ4B_COMPRESSED).
Context (Hcap : need B crc (flushing c0) (zlen pend0 + zlen inp) <= cap).

(** What the last block says about the history and the buffer. *)
Definition status (q : cloop) (m : mem) (o pend : list Z) (u : Z * Z) : Prop :=
  let c := u_cctx q in
  match u_last q with
  | notDone => tmp_room c /\ u = u0
  | fromTmpBuffer =>
      pend = [] /\ o <> [] /\ (cc_linked c0 = false -> tmp_room c) /\
      (flushing c0 = false -> cc_tmpBuff c0 <= cc_tmpIn c) /\ u = (0, 0)
  | fromSrcBuffer =>
      pend = [] /\ o <> [] /\ (cc_linked c0 = false -> tmp_room c) /\
      ctx_ok D kr (cc_lz4Ctx c) (cc_cdict c) m (cc_linked c0) o u
  end.

(** The blocks [bs] were emitted in this call; [pend] is buffered, and [rest] is
    left of the input. *)
Definition mid (q : cloop) (m : mem) (bs : list fblock) (o pend rest : list Z) (u : Z * Z) : Prop :=
  let c := u_cctx q in
  (emitted D kr bcap c m (bs0 ++ bs) o u /\ same_session c0 c /\ pending c m pend /\
   cc_blockCompressMode c = cc_blockCompressMode c0) /\
  (o ++ pend ++ rest = o0 ++ pend0 ++ inp /\ (pend = [] \/ rest = [])) /\
  (holds m (u_srcPtr q) rest /\ u_srcPtr q + zlen rest = src + zlen inp /\ src <= u_srcPtr q /\
   bytes_ok rest) /\
  (holds m dst (enc_blocks i bs) /\ u_dstPtr q = dst + zlen (enc_blocks i bs) /\
   zlen (enc_blocks i bs) + need B crc (flushing c0) (zlen pend + zlen rest) <= cap) /\
  (changes [(dst, cap); tmpr] m0 m /\ covered_by u u0 (src, u_srcPtr q - src)) /\ status q m o pend u.

Lemma block_pos : 0 < B /\ 65536 <= B <= 4194304.
Proof.
  destruct Hrun as (((_ & (Hi & _) & -> & _) & _) & _).
  assert (4 <= blockSizeID i <= 7) as Hid by apply Hi.
  pose proof (block_sizes _ Hid) as HB. unfold KB, MB in HB. lia.
Qed.

Lemma crc_pos : 0 <= crc <= 4.
Proof. destruct Hrun as (((_ & (Hi & _) & _) & _) & _). assert (0 <= blockChecksumFlag i <= 1) by apply Hi. lia. Qed.

(** "complete tmp buffer", when nothing is buffered or the block stays
    incomplete. *)
Lemma mid_start : pend0 = [] -> mid (CLoop c0 src dst notDone) m0 [] o0 [] inp u0.
Proof.
  intros E. destruct Hrun as (Hem & Hroom & Hp & _). destruct Hsrc as ((? & ? & ? & ?) & Hh & _).
  unfold mid. rewrite E in *. split; [|split; [|split; [|split; [|split]]]].
  - by rewrite app_nil_r.
  - split; [done|by left].
  - cbn. splits; try done; lia.
  - cbn [enc_blocks map concat u_dstPtr]. rewrite zlen_nil in *. split; [apply holds_nil|]. split; lia.
  - split; [apply changes_refl|apply covered_refl].
  - done.
Qed.

(** What a write of the call keeps of the input that is left. *)
Lemma rest_kept a n m m' p rest :
  frame a (a + n) m m' -> inside a n (dst, cap) \/ inside a n tmpr ->
  src <= p -> p + zlen rest = src + zlen inp -> holds m p rest -> holds m' p rest.
Proof.
  intros Hf Hin Hp Hr. destruct Hsrc as (_ & _ & _ & _ & Hd & [Hg _] & _).
  eapply apart_frame; [exact Hf|]. pose proof (zlen_nonneg rest).
  assert (inside p (zlen rest) (src, zlen inp)) as Hi by (unfold inside; cbn; lia).
  destruct Hin as [Hin|Hin].
  - by apply (apart_inside _ _ _ _ _ _ Hd).
  - apply (apart_inside _ _ _ _ _ _ Hg); [|done]. unfold inside in *. cbn [fst snd] in *. lia.
Qed.

(** The output after a block. *)
Lemma out_block bs b m m' p room k k' :
  holds m dst (enc_blocks i bs) -> p = dst + zlen (enc_blocks i bs) -> frame p (p + room) m m' ->
  holds m' p (enc_fblock i b) -> zlen (enc_fblock i b) <= room ->
  zlen (enc_blocks i bs) + k <= cap -> room + k' <= k -> 0 <= k' -> changes [(dst, cap); tmpr] m0 m ->
  (holds m' dst (enc_blocks i (bs ++ [b])) /\
   p + zlen (enc_fblock i b) = dst + zlen (enc_blocks i (bs ++ [b])) /\
   zlen (enc_blocks i (bs ++ [b])) + k' <= cap) /\
  changes [(dst, cap); tmpr] m0 m'.
Proof.
  intros Hh -> Hf Hb Hle Hcap' Hk Hk' Hch. rewrite enc_blocks_snoc, zlen_app. zlen_facts. split; [split; [|lia]|].
  - eapply holds_snoc; [exact Hh|exact Hf|exact Hb].
  - eapply changes_trans; [exact Hch|]. eapply (changes_frame _ (dst, cap)); [exact Hf|by left|].
    unfold inside. cbn. lia.
Qed.

Lemma covered_step u u' p n :
  covered_by u u0 (src, p - src) -> covered_by u' u (p, n) -> src <= p -> 0 <= n ->
  covered_by u' u0 (src, p + n - src).
Proof.
  intros H1 H2 Hp Hn k Hk. cbn [fst snd]. destruct (H2 k Hk) as [H|H]; cbn [fst snd] in H; [|right; lia].
  specialize (H1 k H). cbn [fst snd] in H1. lia.
Qed.

(** A block of the input. *)
Lemma wp_mid_src q m bs o x rest u (Q : Z * LZ4F_cctx -> mem -> Prop) :
  mid q m bs o [] (x ++ rest) u -> x <> [] -> zlen x <= B ->
  4 + zlen x + crc + need B crc (flushing c0) (zlen rest) <= need B crc (flushing c0) (zlen x + zlen rest) ->
  (forall n c m' b u', mid (CLoop c (u_srcPtr q + zlen x) (u_dstPtr q + n) fromSrcBuffer) m'
     (bs ++ [b]) (o ++ x) [] rest u' -> Q (n, c) m') ->
  wp (cctx_makeBlock (u_cctx q) compress (u_dstPtr q) (u_srcPtr q) (zlen x)) Q m.
Proof.
  intros Hmid Hx Hsz Hneed HQ.
  destruct Hmid as ((Hem & Hss & Hpd & Emd) & (Etot & _) & (Hh & Hend & Hlo & Hbr) & (Hout & Edst & Hroom) & (Hch & Hcov) & Hst).
  pose proof Hss as (E1 & _ & _ & E4 & _ & E6 & E7 & _).
  pose proof block_pos as HB. pose proof crc_pos as Hcrc. pose proof (zlen_nonneg rest).
  pose proof (need_nonneg B crc (flushing c0) ltac:(lia) ltac:(lia) (zlen rest) ltac:(lia)) as Hnn.
  destruct Hdst as (Hd0 & Hdm & Ha1 & Ha2 & Ha3 & Ha4).
  destruct Hsrc as ((Hs0 & Hs1 & Hs2 & Hs3) & _ & Hb1 & Hb2 & Hb3 & [Hg1 Hg2] & _).
  rewrite zlen_app in Hend, Hroom. rewrite zlen_nil, Z.add_0_l in Hroom. apply zlen_pos in Hx as Hx'. zlen_facts.
  set (p := u_srcPtr q) in *. set (w := u_dstPtr q) in *.
  apply bytes_ok_app in Hbr as [Hbx Hbr]. pose proof Hh as Hh'. apply holds_app in Hh' as [Hhx Hhr].
  assert (inside p (zlen x) (src, zlen inp)) as Hin by (unfold inside; cbn; lia).
  assert (inside w (4 + zlen x + crc) (dst, cap)) as Hw by (unfold inside; cbn; lia).
  assert (apart (dst, cap) u) as Hdu.
  { eapply covered_apart; [exact Hcov|done|]. sub_apart Hb3. }
  assert (apart (p, zlen x) u) as Hpu.
  { eapply covered_apart; [exact Hcov|sub_apart Hb2|]. unfold apart. cbn. lia. }
  rewrite <- E1 in Hcrc |- *.
  assert (cc_linked (u_cctx q) = cc_linked c0) as El by (unfold cc_linked; by rewrite E1).
  eapply (wp_src_block D kr bcap (u_cctx q) m (bs0 ++ bs) o u p x w cm); try done; try lia; rewrite ?E1, ?E6.
  - by rewrite El.
  - eapply mapped_sub; [eapply changes_mapped; [exact Hch|exact Hdm]|lia|lia].
  - sub_apart Ha1.
  - sub_apart Ha2.
  - sub_apart Hdu.
  - sub_apart Hb3.
  - sub_apart Hb1.
  - split; [done|]. unfold foreign. rewrite E6, E7. split; [sub_apart Hg1|sub_apart Hg2].
  - intros b ctx' m' u' c' Hhb Hle Hf Hem' Hcov' Hctx'. rewrite E1 in *.
    destruct (out_block bs b m m' w (4 + zlen x + crc) (need B crc (flushing c0) (zlen x + zlen rest))
      (need B crc (flushing c0) (zlen rest))) as [Ho Hch']; try done; try lia.
    apply (HQ _ c' m' b u'). split; [|split; [|split; [|split; [|split]]]]; cbn [u_cctx u_srcPtr u_dstPtr u_last].
    + split; [by rewrite app_assoc|]. split; [done|]. split; [|done].
      destruct Hpd as (? & ? & _). by apply pending_nil.
    + split; [|by left]. cbn [app] in *. by rewrite <- app_assoc.
    + split; [|splits; try done; lia]. eapply (rest_kept w (4 + zlen x + crc)); [done|by left|lia|lia|done].
    + cbn [app]. rewrite zlen_nil, Z.add_0_l. destruct Ho as (? & ? & ?). splits; [done|lia|done].
    + split; [done|]. eapply covered_step; [exact Hcov|exact Hcov'|lia|lia].
    + unfold status. cbn [u_last u_cctx]. split; [done|]. split; [intros [_ ?]%app_eq_nil; done|]. rewrite El in Hctx'.
      split; [|done]. intros Hl. unfold status in Hst. destruct (u_last q); [apply Hst|by apply Hst|by apply Hst].
Qed.

(** The first bytes of the input are added to the buffered data. *)
Lemma wp_fill x rest (k : M cloop) Q :
  pend0 <> [] -> inp = x ++ rest -> zlen pend0 + zlen x <= B ->
  (forall m, frame (cc_tmpIn c0) (cc_tmpIn c0 + B) m0 m -> emitted D kr bcap c0 m bs0 o0 u0 ->
     holds m (cc_tmpIn c0) (pend0 ++ x) -> bytes_ok (pend0 ++ x) -> bytes_ok rest -> flushing c0 = false ->
     cc_tmpBuff c0 <= cc_tmpIn c0 -> cc_tmpIn c0 + B <= cc_tmpBuff c0 + bcap -> 0 < cc_tmpIn c0 ->
     wp k Q m) ->
  wp (memcpy (cc_tmpIn c0 + zlen pend0) src (zlen x);; k) Q m0.
Proof.
  intros Hne Ei Hsz HQ. destruct Hrun as (Hem & Hroom & (Esz & Hlt & Hh & Hb & Hfl) & _).
  assert (flushing c0 = false) as Efl by (destruct (flushing c0); [by specialize (Hfl eq_refl)|done]).
  pose proof Hem as ((_ & _ & _ & Hmap & _ & (_ & Hb0 & Hb1 & Hb2) & Hmax & _) & _).
  destruct (Hroom Efl) as [Hr1 Hr2]. specialize (Hmax Efl).
  destruct Hsrc as ((Hs0 & Hs1 & Hs2 & Hs3) & Hhs & _ & _ & _ & [Hg _] & _).
  pose proof block_pos as HB. pose proof (zlen_nonneg x). pose proof (zlen_nonneg rest).
  apply zlen_pos in Hne as Hne'. rewrite Ei in Hs3, Hhs. apply bytes_ok_app in Hs3 as [Hbx Hbr].
  apply holds_app in Hhs as [Hhx _]. rewrite Ei, zlen_app in Hg.
  apply wp_bind, wp_memcpy; [lia|by apply holds_mapped|eapply mapped_sub; [exact Hmap|lia|lia]| |].
  { unfold apart in Hg. cbn [fst snd] in Hg. lia. }
  intros m Hcp. assert (frame (cc_tmpIn c0 + zlen pend0) (cc_tmpIn c0 + zlen pend0 + zlen x) m0 m) as Hf.
  { eapply copied_frame; [exact Hcp|by apply holds_mapped]. }
  apply HQ; try done; try lia.
  - eapply frame_weaken; [exact Hf|lia|lia].
  - eapply emitted_write; [exact Hem|exact Hf|lia|lia].
  - apply holds_app. split; [eapply frame_holds; [exact Hf|lia|done]|]. eapply copied_holds; [exact Hcp|lia|done].
  - by apply bytes_ok_app.
Qed.

(** "complete tmp buffer" *)
Lemma wp_update_complete Q :
  (forall q m bs o pend rest u, mid q m bs o pend rest u -> Q q m) ->
  wp (update_complete src (zlen inp) compress (CLoop c0 src dst notDone)) Q m0.
Proof.
  intros HQ. unfold update_complete. cbn [u_cctx u_srcPtr u_dstPtr u_last].
  pose proof Hrun as (_ & _ & (Esz & Hlt & _) & _). rewrite Esz. pose proof (zlen_nonneg pend0).
  pose proof block_pos as HB. pose proof crc_pos as Hcrc. zlen_facts.
  destruct (Z.ltb_spec 0 (zlen pend0)) as [Hp|Hp].
  2: { apply wp_ret. eapply HQ, mid_start. apply zlen_0_nil. lia. }
  apply zlen_pos in Hp as Hne. rewrite (u64_small (B - zlen pend0)) by lia.
  destruct Hdst as (Hd0 & Hdm & Ha1 & Ha2 & Ha3 & Ha4).
  destruct Hsrc as ((Hs0 & Hs1 & Hs2 & Hs3) & Hhs & Hb1 & Hb2 & Hb3 & [Hg1 Hg2] & _).
  destruct (Z.ltb_spec (zlen inp) (B - zlen pend0)) as [Hs|Hs].
  - apply (wp_fill inp []); [done|by rewrite app_nil_r|lia|].
    intros m Hf Hem Hh Hbb _ Efl Hlo Hhi _. apply wp_ret. rewrite (u64_small (zlen pend0 + zlen inp)) by lia.
    eapply (HQ _ _ [] o0 (pend0 ++ inp) [] u0).
    split; [|split; [|split; [|split; [|split]]]]; cbn [u_cctx u_srcPtr u_dstPtr u_last].
    + split; [by rewrite app_nil_r|]. split; [done|]. split; [|done].
      split; [by rewrite zlen_app|]. rewrite zlen_app. split; [cbn; lia|]. split; [done|]. split; [done|].
      change (flushing (cset_tmpInSize _ c0)) with (flushing c0). by rewrite Efl.
    + split; [by rewrite app_nil_r|by right].
    + rewrite zlen_nil. splits; [apply holds_nil|lia|lia|apply Forall_nil].
    + cbn [enc_blocks map concat]. rewrite !zlen_nil, zlen_app, !Z.add_0_r, Z.add_0_l. splits; [apply holds_nil|done|done].
    + split; [|apply covered_refl]. eapply (changes_frame _ tmpr); [exact Hf|right; by left|].
      unfold inside. cbn. lia.
    + split; [|done]. apply Hrun.
  - destruct (list_split_at inp (B - zlen pend0)) as (x & rest & Ei & Hx); [lia|].
    rewrite <- Hx. apply (wp_fill x rest); [done|done|lia|]. intros m Hf Hem Hh Hbb Hbr Efl Hlo Hhi Hpos.
    assert (zlen (pend0 ++ x) = B) as EB by (rewrite zlen_app; lia). rewrite <- EB at 1.
    assert (zlen inp = zlen x + zlen rest) as Ezi by (by rewrite Ei, zlen_app). pose proof (zlen_nonneg rest).
    pose proof (need_nonneg B crc (flushing c0) ltac:(lia) ltac:(lia) (zlen rest) ltac:(lia)) as Hnn.
    pose proof (need_block B crc (flushing c0) ltac:(lia) (zlen pend0 + zlen inp) ltac:(lia)) as Hnb.
    replace (zlen pend0 + zlen inp - B) with (zlen rest) in Hnb by lia.
    assert (forall a n, inside a n (cc_tmpIn c0, B) -> inside a n tmpr) as Hint.
    { unfold inside. cbn [fst snd]. lia. }
    apply wp_bind. eapply (wp_tmp_block D kr bcap c0 m bs0 o0 u0 (cc_tmpIn c0) (pend0 ++ x) dst cm); try done; try lia.
    + intros [? _]%app_eq_nil. done.
    + eapply mapped_sub; [by eapply frame_mapped|lia|lia].
    + sub_apart Ha1.
    + sub_apart Ha2.
    + sub_apart Ha4.
    + sub_apart Ha2.
    + destruct Hem as ((_ & _ & _ & _ & _ & _ & _ & (_ & Hk & _)) & _). sub_apart Hk.
    + split; [done|]. lia.
    + intros b ctx' m' Hhb Hle Hf' Hem'. apply wp_ret. cbn [fst snd]. rewrite <- EB at 1.
      fold (advance ctx' (zlen (pend0 ++ x)) c0).
      destruct (advance_same c0 ctx' (zlen (pend0 ++ x)) 0) as (Hss & Etm & Emd & Elk).
      set (c'' := advance ctx' (zlen (pend0 ++ x)) c0) in *. clearbody c''.
      set (c3 := cset_tmpInSize 0 c'') in *. pose proof Hss as (E1 & _ & _ & E4 & E5 & E6 & _).
      assert (changes [(dst, cap); tmpr] m0 m) as Hch.
      { eapply (changes_frame _ tmpr); [exact Hf|right; by left|]. unfold inside. cbn. lia. }
      destruct (out_block [] b m m' dst (4 + zlen (pend0 ++ x) + crc)
        (need B crc (flushing c0) (zlen pend0 + zlen inp)) (need B crc (flushing c0) (zlen rest)))
        as [Ho Hch']; try done; try lia; [apply holds_nil|symmetry; apply Z.add_0_r|].
      eapply (HQ _ _ [b] (o0 ++ pend0 ++ x) [] rest (0, 0)).
      split; [|split; [|split; [|split; [|split]]]]; cbn [u_cctx u_srcPtr u_dstPtr u_last].
      * split; [done|]. split; [done|]. split; [|done]. apply pending_nil; [done|]. rewrite E4. lia.
      * split; [|by left]. cbn [app]. by rewrite Ei, <- !app_assoc.
      * split; [|splits; try done; lia].
        eapply (rest_kept dst (4 + zlen (pend0 ++ x) + crc)); [exact Hf'|left; unfold inside; cbn; lia|lia|lia|].
        eapply (rest_kept (cc_tmpIn c0) B); [exact Hf|right; unfold inside; cbn; lia|lia|lia|].
        rewrite Ei in Hhs. apply holds_app in Hhs as [_ ?]. done.
      * rewrite zlen_nil, Z.add_0_l. done.
      * split; [done|]. intros j Hj. cbn in Hj. lia.
      * unfold status. cbn [u_last u_cctx]. split; [done|]. split; [intros [_ [? _]%app_eq_nil]%app_eq_nil; done|].
        destruct Hrun as (_ & Hroom & _). destruct (Hroom Efl) as [Hr1 Hr2]. split; [|split; [|done]].
        -- intros El _. rewrite E4, E5, E6, Etm, El. lia.
        -- intros _. rewrite Etm. destruct (cc_linked c0); zlen_facts; lia.
Qed.

(** The size of the input that is left. *)
Lemma mid_left q m bs o pend rest u :
  mid q m bs o pend rest u -> u64 (src + zlen inp - u_srcPtr q) = zlen rest /\
    cc_maxBlockSize (u_cctx q) = B /\ flushing (u_cctx q) = flushing c0 /\ cc_linked (u_cctx q) = cc_linked c0.
Proof.
  intros ((_ & (E1 & _ & _ & E4 & _) & _) & _ & (_ & Hend & Hlo & _) & _).
  destruct Hsrc as ((Hs0 & Hs1 & Hs2 & _) & _). zlen_facts.
  split; [rewrite u64_small; lia|]. split; [done|]. unfold flushing, cc_linked. by rewrite E1.
Qed.

(** "compress full blocks" *)
Lemma wp_update_blocks q m bs o pend rest u Q :
  mid q m bs o pend rest u ->
  (forall q' m' bs' o' rest' u', mid q' m' bs' o' pend rest' u' -> zlen rest' < B -> Q q' m') ->
  wp (loop (update_fuel (zlen inp)) (update_block src (zlen inp) compress) q) Q m.
Proof.
  intros Hmid HQ. pose proof block_pos as HB. pose proof crc_pos as Hcrc.
  apply (wp_loop (fun q m => exists bs o rest u, mid q m bs o pend rest u)
           (fun q => src + zlen inp - u_srcPtr q)).
  - clear q m bs o rest u Hmid. intros q m (bs & o & rest & u & Hmid).
    destruct (mid_left _ _ _ _ _ _ _ Hmid) as (El & Em & _ & _).
    pose proof Hmid as (_ & (_ & Hor) & (_ & Hend & _) & _). zlen_facts. split; [lia|].
    unfold update_block. rewrite Em, El. destruct (Z.leb_spec B (zlen rest)) as [Hle|Hgt].
    + destruct Hor as [->| ->]; [|rewrite zlen_nil in *; lia].
      destruct (list_split_at rest B) as (x & rest' & -> & Hx); [lia|]. rewrite zlen_app in *. rewrite <- Hx at 1.
      apply wp_bind. eapply (wp_mid_src q m bs o x rest' u); [done|apply zlen_pos; lia|lia| |].
      * rewrite (need_block B crc (flushing c0) ltac:(lia) (zlen x + zlen rest')) by lia.
        replace (zlen x + zlen rest' - B) with (zlen rest') by lia. lia.
      * intros n c m' b u' Hmid'. apply wp_ret. cbn [fst snd]. rewrite <- Hx. split; [by eexists _, _, _, _|].
        cbn [u_srcPtr]. lia.
    + apply wp_ret. by eapply HQ.
  - eauto.
  - destruct Hmid as (_ & _ & (_ & _ & Hlo & _) & _). unfold update_fuel. lia.
Qed.

(** "autoFlush" *)
Lemma wp_update_autoFlush q m bs o pend rest u Q :
  mid q m bs o pend rest u -> zlen rest < B ->
  (forall q' m' bs' o' rest' u', mid q' m' bs' o' pend rest' u' -> (flushing c0 = true -> rest' = []) ->
     zlen rest' < B -> Q q' m') ->
  wp (update_autoFlush src (zlen inp) compress q) Q m.
Proof.
  intros Hmid Hlt HQ. pose proof block_pos as HB. pose proof crc_pos as Hcrc.
  destruct (mid_left _ _ _ _ _ _ _ Hmid) as (El & Em & Ef & _).
  pose proof Hmid as (_ & (_ & Hor) & (_ & Hend & _) & _). pose proof (zlen_nonneg rest).
  unfold update_autoFlush. fold (flushing (u_cctx q)). rewrite El, Ef.
  destruct (Z.ltb_spec (u_srcPtr q) (src + zlen inp)) as [Hl|Hl].
  - destruct (flushing c0) eqn:Efl; cbn [andb].
    2: { apply wp_ret. by eapply HQ. }
    destruct Hor as [->| ->]; [|rewrite zlen_nil in *; lia]. apply wp_bind.
    rewrite <- (app_nil_r rest) in Hmid.
    eapply (wp_mid_src q m bs o rest [] u); [done|apply zlen_pos; lia|lia| |].
    + rewrite zlen_nil, Efl. replace (zlen rest + 0) with (zlen rest) by lia.
      rewrite (need_last B crc true (zlen rest)) by (try done; lia). change (need B crc true 0) with 0. lia.
    + intros n c m' b u' Hmid'. apply wp_ret. cbn [fst snd]. rewrite <- Hend.
      eapply HQ; [exact Hmid'|done|rewrite zlen_nil; lia].
  - rewrite andb_false_r. apply wp_ret. eapply HQ; [exact Hmid| |done]. intros _. apply zlen_0_nil. lia.
Qed.

(** * The history and the end of a call *)

Context (opts : LZ4F_compressOptions_t).
Context (Hsave : flushing c0 = true -> cc_linked c0 = true -> stableSrc opts = 0 -> 64 * KB <= bcap).

(** The history is where the next call expects it. *)
Definition settled (q : cloop) (m : mem) (bs : list fblock) (o pend rest : list Z) (u : Z * Z) : Prop :=
  let c := u_cctx q in
  (emitted D kr bcap c m (bs0 ++ bs) o u /\ same_session c0 c /\ pending c m pend /\
   cc_blockCompressMode c = cc_blockCompressMode c0 /\ tmp_room c) /\
  (o ++ pend ++ rest = o0 ++ pend0 ++ inp /\ (pend = [] \/ rest = [])) /\
  (holds m (u_srcPtr q) rest /\ u_srcPtr q + zlen rest = src + zlen inp /\ src <= u_srcPtr q /\
   bytes_ok rest) /\
  (holds m dst (enc_blocks i bs) /\ u_dstPtr q = dst + zlen (enc_blocks i bs) /\
   zlen (enc_blocks i bs) <= cap) /\
  (changes [(dst, cap); tmpr] m0 m /\ covered_by u u0 (src, zlen inp) /\
   (stableSrc opts = 0 -> u = u0 \/ u = (0, 0))).

(** A context that differs in the place of the history only. *)
Definition moved (c : LZ4F_cctx) (m : mem) (pend : list Z) (c' : LZ4F_cctx) (m' : mem) : Prop :=
  same_session c c' /\ cc_tmpInSize c' = cc_tmpInSize c /\
  cc_blockCompressMode c' = cc_blockCompressMode c /\ changes [tmpr] m m' /\
  (pend = [] \/ (cc_tmpIn c' = cc_tmpIn c /\ m' = m)).

Lemma moved_trans c1 m1 pend c2 m2 c3 m3 :
  moved c1 m1 pend c2 m2 -> moved c2 m2 pend c3 m3 -> moved c1 m1 pend c3 m3.
Proof.
  intros (S1 & E1 & F1 & C1 & O1) (S2 & E2 & F2 & C2 & O2).
  split; [by eapply same_trans|]. split; [congruence|]. split; [congruence|].
  split; [by eapply changes_trans|]. destruct O1 as [?|[T1 ->]]; [by left|].
  destruct O2 as [?|[T2 ->]]; [by left|]. right. split; [congruence|done].
Qed.

Lemma mid_settled q m bs o pend rest u c' m' u' :
  mid q m bs o pend rest u -> moved (u_cctx q) m pend c' m' ->
  emitted D kr bcap c' m' (bs0 ++ bs) o u' -> tmp_room c' -> covered_by u' u0 (src, zlen inp) ->
  (stableSrc opts = 0 -> u' = u0 \/ u' = (0, 0)) ->
  settled (CLoop c' (u_srcPtr q) (u_dstPtr q) (u_last q)) m' bs o pend rest u'.
Proof.
  intros ((Hem & Hss & Hpd & Emd) & Htot & (Hh & Hend & Hlo & Hbr) & (Ho & Ed & Hr) & (Hch & Hcov) & _).
  intros (S1 & E1 & F1 & C1 & O1) Hem' Hroom Hcov' Hu. pose proof block_pos as HB. pose proof crc_pos as Hcrc.
  destruct Hdst as (_ & _ & _ & Ha2 & _). destruct Hsrc as (_ & _ & _ & _ & _ & [Hg _] & _). zlen_facts.
  pose proof (need_nonneg B crc (flushing c0) ltac:(lia) ltac:(lia) (zlen pend + zlen rest) ltac:(lia)).
  split; [|split; [|split; [|split; [|split]]]]; cbn [u_cctx u_srcPtr u_dstPtr u_last].
  - split; [done|]. split; [by eapply same_trans|]. split; [|split; [congruence|done]].
    destruct O1 as [->|[T1 ->]].
    + destruct Hpd as (P1 & P2 & _). pose proof (same_trans _ _ _ Hss S1) as (_ & _ & _ & E4 & _).
      apply pending_nil; [by rewrite E1, P1|lia].
    + destruct Hpd as (P1 & P2 & P3 & P4 & P5). destruct S1 as (S1 & _ & _ & S4 & _).
      unfold pending, flushing in *. rewrite E1, S1, S4, T1. done.
  - done.
  - split; [|done]. eapply changes_holds; [exact C1| |exact Hh]. apply Forall_cons_2; [|apply Forall_nil_2].
    apply (apart_inside _ _ _ _ _ _ Hg); unfold inside; cbn [fst snd]; lia.
  - split; [|lia]. eapply changes_holds; [exact C1| |exact Ho]. apply Forall_cons_2; [|apply Forall_nil_2].
    apply apart_sym. sub_apart Ha2.
  - eapply changes_trans; [exact Hch|]. destruct C1 as [C1 C2]. split; [|done]. intros k Hk. apply C1.
    by inversion_clear Hk.
  - done.
Qed.

(** The first step: after a block of the input the history is left there, or
    saved. *)
Lemma wp_history_save q m bs o pend rest u (Q : LZ4F_cctx -> mem -> Prop) :
  mid q m bs o pend rest u ->
  (forall c' m' u', moved (u_cctx q) m pend c' m' -> emitted D kr bcap c' m' (bs0 ++ bs) o u' ->
     covered_by u' u0 (src, zlen inp) -> (stableSrc opts = 0 -> u' = u0 \/ u' = (0, 0)) ->
     tmp_room c' \/ (pend = [] /\ o <> [] /\ cc_linked c0 = true /\
       (flushing c0 = false -> cc_tmpBuff c0 <= cc_tmpIn c')) -> Q c' m') ->
  wp (if cc_linked (u_cctx q) && bool_decide (u_last q = fromSrcBuffer) then
        if negb (stableSrc opts =? 0) then mret (cset_tmpIn (cc_tmpBuff (u_cctx q)) (u_cctx q))
        else LZ4F_localSaveDict (u_cctx q)
      else mret (u_cctx q)) Q m.
Proof.
  intros Hmid HQ. destruct (mid_left _ _ _ _ _ _ _ Hmid) as (_ & _ & Ef & El). rewrite El.
  pose proof Hmid as ((Hem & Hss & Hpd & Emd) & _ & (_ & Hend & Hlo & _) & _ & (_ & Hcov) & Hst).
  pose proof Hss as (E1 & _ & _ & E4 & E5 & E6 & _). zlen_facts. pose proof block_pos as HB.
  assert (covered_by u u0 (src, zlen inp)) as Hcov'.
  { intros k Hk. specialize (Hcov k Hk). cbn [fst snd] in *. lia. }
  pose proof Hem as (Hs & Hprod & Hfo & _). pose proof Hs as (_ & _ & _ & _ & _ & _ & Hmax & _).
  rewrite Ef, El, E4, E5 in Hmax.
  assert (flushing c0 = false -> 64 * KB + B <= cc_maxBufferSize c0 \/ cc_linked c0 = false) as Hmx.
  { intros Efl. specialize (Hmax Efl). unfold KB in *. destruct (cc_linked c0); [left; lia|by right]. }
  assert (moved (u_cctx q) m pend (u_cctx q) m) as Hmv0.
  { split; [done|]. split; [done|]. split; [done|]. split; [apply changes_refl|by right]. }
  destruct (cc_linked c0) eqn:Elk; cbn [andb]; [case_bool_decide as Elast|].
  - unfold status in Hst. rewrite Elast, Elk in Hst. destruct Hst as (Ep & Ho & _ & Hctx).
    destruct (Z.eqb_spec (stableSrc opts) 0) as [E0|E0]; cbn [negb].
    + eapply (wp_localSaveDict D kr bcap); [exact Hem|by rewrite El|done| |].
      { destruct (flushing c0) eqn:Efl; [by apply Hsave|]. specialize (Hmax eq_refl). unfold KB in *. lia. }
      intros ctx' m' z c' Hz Hf Hem'. eapply (HQ c' m' (0, 0)); [|done| |by right|].
      * split; [done|]. split; [done|]. split; [done|]. split; [|by left]. rewrite E6 in Hf.
        eapply changes_frame; [exact Hf|by left|]. unfold inside. cbn [fst snd].
        destruct (flushing c0) eqn:Efl; [specialize (Hsave eq_refl eq_refl E0)|specialize (Hmax eq_refl)]; unfold KB in *; lia.
      * intros k Hk. cbn in Hk. lia.
      * left. intros Efl. change (flushing c') with (flushing (u_cctx q)) in Efl. rewrite Ef in Efl.
        specialize (Hmax Efl). unfold c'. cbn [cc_tmpBuff cc_tmpIn cc_maxBlockSize cc_maxBufferSize cset_tmpIn cset_lz4Ctx].
        rewrite E4, E5, E6. unfold KB in *. lia.
    + apply wp_ret. eapply (HQ _ m u); [| |done|done|].
      * split; [done|]. split; [done|]. split; [done|]. split; [apply changes_refl|by left].
      * split; [done|]. split; [done|]. split; [done|]. exists u. split; [|by right].
        change (cc_linked (cset_tmpIn _ (u_cctx q))) with (cc_linked (u_cctx q)). by rewrite El.
      * left. intros Efl. change (flushing (cset_tmpIn _ (u_cctx q))) with (flushing (u_cctx q)) in Efl.
        rewrite Ef in Efl. specialize (Hmax Efl). cbn [cc_tmpBuff cc_tmpIn cc_maxBlockSize cc_maxBufferSize cset_tmpIn].
        rewrite E4, E5, E6. unfold KB in *. lia.
  - apply wp_ret. unfold status in Hst. apply (HQ _ m u); [done|done|done| |]; destruct (u_last q); try done.
    + intros _. left. apply Hst.
    + intros _. right. apply Hst.
    + left. apply Hst.
    + right. destruct Hst as (? & ? & _ & ? & _). done.
  - apply wp_ret. unfold status in Hst. rewrite Elk in Hst. apply (HQ _ m u); [done|done|done| |]; destruct (u_last q).
    + intros _. left. apply Hst.
    + intros _. right. apply Hst.
    + intros _. right. destruct Hst as (_ & _ & _ & (_ & s & _ & _ & ?)). done.
    + left. apply Hst.
    + left. by apply Hst.
    + left. by apply Hst.
Qed.

(** "keep tmpIn within limits" *)
Lemma wp_limits c m bs o pend u (Q : LZ4F_cctx -> mem -> Prop) :
  emitted D kr bcap c m bs o u -> same_session c0 c ->
  tmp_room c \/ (pend = [] /\ o <> [] /\ cc_linked c0 = true /\
    (flushing c0 = false -> cc_tmpBuff c0 <= cc_tmpIn c)) ->
  (forall c' m' u', moved c m pend c' m' -> emitted D kr bcap c' m' bs o u' -> tmp_room c' ->
     u' = u \/ u' = (0, 0) -> Q c' m') ->
  wp (if (autoFlush (cc_prefs c) =? 0) &&
         (cc_tmpBuff c + cc_maxBufferSize c <? cc_tmpIn c + cc_maxBlockSize c)
      then LZ4F_localSaveDict c else mret c) Q m.
Proof.
  intros Hem Hss Hor HQ. pose proof Hss as (E1 & _ & _ & E4 & E5 & E6 & _).
  assert (moved c m pend c m) as Hmv0.
  { split; [done|]. split; [done|]. split; [done|]. split; [apply changes_refl|by right]. }
  assert ((autoFlush (cc_prefs c) =? 0) = negb (flushing c)) as -> by (unfold flushing; by rewrite negb_involutive).
  destruct (flushing c) eqn:Efl; cbn [negb andb].
  { apply wp_ret. apply (HQ c m u); [done|done| |by left]. intros E. congruence. }
  assert (flushing c0 = false) as Efl0 by (unfold flushing in *; by rewrite <- E1).
  destruct Hor as [Hroom|(Ep & Ho & Elk & Hlo)].
  - destruct (Hroom Efl) as [H1 H2]. destruct (Z.ltb_spec (cc_tmpBuff c + cc_maxBufferSize c)
      (cc_tmpIn c + cc_maxBlockSize c)); [lia|]. apply wp_ret. apply (HQ c m u); [done|done|done|by left].
  - eapply (wp_flush_limits D kr bcap c bs o u m); [exact Hem|done|done|rewrite E6; by apply Hlo| |].
    + unfold cc_linked. rewrite E1. intros E. unfold cc_linked in Elk. congruence.
    + intros c' m' u' Hem' Hroom' Hss' Esz' Emd' Hch' Hu'. apply (HQ c' m' u'); [|done|done|done].
      rewrite E6 in Hch'. split; [done|]. split; [done|]. split; [done|]. split; [done|by left].
Qed.

Lemma wp_update_history q m bs o pend rest u Q :
  mid q m bs o pend rest u ->
  (forall q' m' u', settled q' m' bs o pend rest u' -> u_dstPtr q' = u_dstPtr q -> Q q' m') ->
  wp (update_history opts q) Q m.
Proof.
  intros Hmid HQ. unfold update_history. apply wp_bind. eapply (wp_history_save q m bs o pend rest u); [done|].
  intros c' m' u' Hmv Hem Hcov Hu Hor. apply wp_bind.
  assert (same_session c0 c') as Hss by (destruct Hmid as ((_ & Hss & _) & _), Hmv as (Hss' & _); by eapply same_trans).
  eapply (wp_limits c' m' (bs0 ++ bs) o pend u'); [done|done|done|].
  intros c'' m'' u'' Hmv' Hem' Hroom Hu''. apply wp_ret. apply (HQ _ m'' u''); [|done].
  eapply mid_settled; [done|by eapply moved_trans|done|done| |].
  - destruct Hu'' as [-> | ->]; [done|]. intros k Hk. cbn in Hk. lia.
  - intros E0. destruct Hu'' as [-> | ->]; [by apply Hu|by right].
Qed.

(** * The end of a call *)

(** The result of a call: the blocks [bs] were emitted, and the context goes on
    with [pend] buffered. *)
Definition update_done (n : Z) (c : LZ4F_cctx) (m : mem) (bs : list fblock) (o pend : list Z)
    (u : Z * Z) : Prop :=
  n = zlen (enc_blocks i bs) /\ n <= cap /\ holds m dst (enc_blocks i bs) /\
  running D kr bcap c m (bs0 ++ bs) o pend u /\ o ++ pend = o0 ++ pend0 ++ inp /\
  same_frame c0 c /\ cc_blockCompressMode c = cc_blockCompressMode c0 /\
  changes [(dst, cap); tmpr; (mem32 (cc_xxh c0), 16)] m0 m /\
  covered_by u u0 (src, zlen inp) /\ (stableSrc opts = 0 -> u = u0 \/ u = (0, 0)).

(** "fill tmp buffer" *)
Lemma wp_rest_fill q m bs o pend rest u (Q : LZ4F_cctx -> mem -> Prop) :
  settled q m bs o pend rest u -> (flushing c0 = true -> rest = []) -> zlen rest < B ->
  (forall c m' pend', same_session c0 c -> emitted D kr bcap c m' (bs0 ++ bs) o u -> tmp_room c ->
     pending c m' pend' -> cc_blockCompressMode c = cc_blockCompressMode c0 ->
     o ++ pend' = o0 ++ pend0 ++ inp -> holds m' dst (enc_blocks i bs) ->
     changes [(dst, cap); tmpr] m0 m' -> Q c m') ->
  wp (if u_srcPtr q <? src + zlen inp then
        memcpy (cc_tmpIn (u_cctx q)) (u_srcPtr q) (u64 (src + zlen inp - u_srcPtr q));;
        mret (cset_tmpInSize (u64 (src + zlen inp - u_srcPtr q)) (u_cctx q))
      else mret (u_cctx q)) Q m.
Proof.
  intros Hset Hfl Hlt HQ.
  destruct Hset as ((Hem & Hss & Hpd & Emd & Hroom) & (Etot & Hor) & (Hh & Hend & Hlo & Hbr) &
    (Ho & Ed & Hle) & (Hch & Hcov & Hu)).
  destruct (Z.ltb_spec (u_srcPtr q) (src + zlen inp)) as [Hl|Hl].
  2: { apply wp_ret. eapply (HQ _ m pend); try done. rewrite (zlen_0_nil rest), app_nil_r in Etot by lia. done. }
  assert (rest <> []) as Hne by (apply zlen_pos; lia).
  assert (flushing c0 = false) as Efl by (destruct (flushing c0); [by specialize (Hfl eq_refl)|done]).
  destruct Hor as [->|?]; [|done]. pose proof Hss as (E1 & _ & _ & E4 & E5 & E6 & _).
  assert (flushing (u_cctx q) = false) as Efl' by (unfold flushing in *; by rewrite E1).
  destruct (Hroom Efl') as [Hr1 Hr2].
  pose proof Hem as ((_ & _ & _ & Hmap & _ & Hb & Hmax & _) & _). specialize (Hmax Efl').
  destruct Hsrc as ((Hs0 & Hs1 & Hs2 & _) & _ & _ & _ & _ & [Hg _] & _).
  destruct Hdst as (_ & _ & _ & Ha2 & _). pose proof (zlen_nonneg rest).
  replace (src + zlen inp - u_srcPtr q) with (zlen rest) by lia. rewrite u64_small by lia.
  apply wp_bind, wp_memcpy; [lia|by apply holds_mapped|eapply mapped_sub; [exact Hmap|lia|lia]| |].
  { unfold apart in Hg. cbn [fst snd] in Hg. lia. }
  intros m' Hcp. assert (frame (cc_tmpIn (u_cctx q)) (cc_tmpIn (u_cctx q) + zlen rest) m m') as Hf.
  { eapply copied_frame; [exact Hcp|by apply holds_mapped]. }
  apply wp_ret. apply (HQ _ m' rest); try done.
  - change (emitted D kr bcap (u_cctx q) m' (bs0 ++ bs) o u).
    eapply emitted_write; [exact Hem|exact Hf|lia|lia].
  - split; [done|]. split; [cbn [cc_maxBlockSize cset_tmpInSize]; lia|]. split; [eapply copied_holds; [exact Hcp|lia|done]|]. split; [done|].
    change (flushing (cset_tmpInSize _ (u_cctx q))) with (flushing (u_cctx q)). by rewrite Efl'.
  - eapply apart_frame; [exact Hf| |exact Ho]. apply apart_sym. sub_apart Ha2.
  - eapply changes_trans; [exact Hch|]. eapply (changes_frame _ tmpr); [exact Hf|right; by left|].
    unfold inside. cbn [fst snd]. lia.
Qed.

Lemma wp_update_rest q m bs o pend rest u Q :
  settled q m bs o pend rest u -> (flushing c0 = true -> rest = []) -> zlen rest < B ->
  (forall c m' pend', update_done (zlen (enc_blocks i bs)) c m' bs o pend' u -> Q c m') ->
  wp (update_rest src (zlen inp) q) Q m.
Proof.
  intros Hset Hfl Hlt HQ. unfold update_rest. apply wp_bind.
  eapply wp_rest_fill; [exact Hset|done|done|]. intros c m1 pend' Hss Hem Hroom Hpd Emd Etot Ho Hch.
  destruct Hset as (_ & _ & _ & (_ & _ & Hle) & (_ & Hcov & Hu)).
  pose proof Hss as (E1 & _ & E3 & E4 & E5 & E6 & E7 & E8 & E9 & _). rewrite E1.
  destruct Hrun as (_ & _ & _ & Hdig). destruct Hdst as (_ & _ & Ha1 & Ha2 & Ha3 & Ha4).
  destruct Hsrc as ((Hs0 & Hs1 & Hs2 & _) & Hhs & _ & _ & Hb3 & [Hg Hgx] & Hx).
  assert (Forall (fun r => apart r (mem32 (cc_xxh c0), 16)) [(dst, cap); tmpr]) as Hfa.
  { destruct Hem as ((_ & _ & _ & _ & _ & _ & _ & (Hx1 & _)) & _). rewrite E6, E7 in Hx1.
    by repeat apply Forall_cons_2. }
  assert (zlen (o ++ pend') = zlen (o0 ++ pend0) + zlen inp) as Ez by (rewrite Etot, !zlen_app; lia).
  assert (forall c1 m2, (c1 = c /\ m2 = m1 /\ contentChecksumFlag i <> LZ4F_contentChecksumEnabled) \/
    (exists st, c1 = cset_xxh st c /\ mem32 st = mem32 (cc_xxh c) /\
       frame (mem32 (cc_xxh c)) (mem32 (cc_xxh c) + 16) m1 m2 /\ XXH32_rep 0 m2 st (o ++ pend')) ->
    update_done (zlen (enc_blocks i bs)) (cset_totalInSize (u64 (cc_totalInSize c1 + zlen inp)) c1) m2 bs o pend' u)
    as Hend.
  { intros c1 m2 Hc1.
    assert (emitted D kr bcap c1 m2 (bs0 ++ bs) o u /\ tmp_room c1 /\ pending c1 m2 pend' /\
      (contentChecksumFlag i = LZ4F_contentChecksumEnabled -> XXH32_rep 0 m2 (cc_xxh c1) (o ++ pend')) /\
      changes [(mem32 (cc_xxh c0), 16)] m1 m2 /\ same_frame c c1 /\ cc_totalInSize c1 = cc_totalInSize c /\
      cc_blockCompressMode c1 = cc_blockCompressMode c)
      as (F1 & F2 & F3 & F4 & F5 & F6 & F8 & F9).
    { destruct Hc1 as [(-> & -> & Hf)|(st & -> & Est & Hf & Hrep)].
      - splits; try done.
      - splits; try done; [by eapply emitted_xxh|by eapply pending_xxh|].
        rewrite E7 in Hf. eapply changes_frame; [exact Hf|by left|apply inside_refl]. }
    assert (cc_prefs c1 = cc_prefs c) as F7 by apply F6.
    assert (same_frame c0 c1) as F10 by (eapply same_frame_trans; [by apply session_frame|done]).
    unfold update_done. splits; try done; [| |by rewrite <- Emd, <- F9|].
    - eapply changes_holds; [exact F5| |exact Ho]. apply Forall_cons_2; [|apply Forall_nil_2].
      apply apart_sym. sub_apart Ha3.
    - split; [exact F1|]. split; [exact F2|]. split; [exact F3|]. split.
      + cbn [cc_prefs cc_xxh cset_totalInSize]. rewrite F7, E1. exact F4.
      + cbn [cc_prefs cc_totalInSize cset_totalInSize]. rewrite F7, E1, F8, E8, Ez. intros Hcs.
        destruct Hdig as [_ Hd]. rewrite (Hd Hcs). unfold u64. apply Zplus_mod_idemp_l.
    - eapply changes_trans; [|eapply (changes_sub _ _ _ _ F5)].
      + eapply (changes_sub _ _ _ _ Hch). intros r. cbn. tauto.
      + intros r. cbn. tauto. }
  apply wp_bind. destruct (Z.eqb_spec (contentChecksumFlag i) LZ4F_contentChecksumEnabled) as [Ef|Ef].
  - apply wp_bind. destruct Hdig as [Hrep _]. specialize (Hrep Ef).
    apply (wp_XXH32_update 0 m1 (cc_xxh c) (o0 ++ pend0)).
    + rewrite E7. by eapply rep_changes.
    + eapply changes_holds; [exact Hch| |exact Hhs]. apply Forall_cons_2; [done|].
      apply Forall_cons_2; [|apply Forall_nil_2]. sub_apart Hg.
    + lia.
    + by rewrite E7.
    + lia.
    + intros st m2 Est Hf Hrep'. apply wp_ret, wp_ret. apply (HQ _ m2 pend'), Hend. right. exists st.
      rewrite <- app_assoc, <- Etot in Hrep'. done.
  - apply wp_ret, wp_ret. apply (HQ _ m1 pend'), Hend. by left.
Qed.

(** From "complete tmp buffer" to the end. *)
Lemma wp_update_run (Q : Z * LZ4F_cctx -> mem -> Prop) :
  (forall n c m bs o pend u, update_done n c m bs o pend u -> Q (dst + n, c) m) ->
  wp (update_run src (zlen inp) compress opts c0 dst) Q m0.
Proof.
  intros HQ. unfold update_run. apply wp_bind. apply wp_update_complete.
  intros q1 m1 bs1 o1 pend1 rest1 u1 H1. apply wp_bind. eapply wp_update_blocks; [exact H1|].
  intros q2 m2 bs2 o2 rest2 u2 H2 Hl2. apply wp_bind. eapply wp_update_autoFlush; [exact H2|done|].
  intros q3 m3 bs3 o3 rest3 u3 H3 Hf3 Hl3. apply wp_bind. eapply wp_update_history; [exact H3|].
  intros q4 m4 u4 H4 Ed. apply wp_bind. eapply wp_update_rest; [exact H4|done|done|].
  intros c5 m5 pend5 H5. apply wp_ret. rewrite Ed.
  destruct H3 as (_ & _ & _ & (_ & -> & _) & _). by eapply HQ.
Qed.
End Update.
