(* ===== verification/Lz4FrameCompressCalls.v ===== *)
(** The calls that continue and end a frame: [LZ4F_compressUpdateImpl] and
    [LZ4F_compressEnd] on a context between calls. *)
From S2P Require Import Prelude.
From S2P Require Import Mem.
From S2P Require Import Xxhash.
From S2P Require Import XxhashSpec.
From S2P Require Import XxhashStream.
From S2P Require Import Lz4Common.
From S2P Require Import Lz4Decompress.
From S2P Require Import Lz4Frame.
From S2P Require Import Lz4FrameDecode.
From S2P Require Import FrameFormat.
From S2P Require Import Lz4FrameHeader.
From S2P Require Import Lz4FrameInv.
From S2P Require Import Lz4FrameCompress.
From S2P Require Import Lz4FrameMakeBlock.
From S2P Require Import Lz4FrameCompressInv.
From S2P Require Import Lz4FrameUpdateSpec.

Section Calls.
Context `{HHC : LZ4_HC} (D : list Z) (kr : Z * Z) (bcap : Z).
Context (c : LZ4F_cctx) (m : mem) (bs : list fblock) (o pend : list Z) (u : Z * Z).
Context (dst cap : Z).
Context (Hrun : running D kr bcap c m bs o pend u) (Hdst : dst_ok kr bcap c m dst cap u).

Abbreviation info := (frameInfo (cc_prefs c)).

(** * Adding data *)

Section Update.
Context (src : Z) (inp : list Z) (optsPtr : option LZ4F_compressOptions_t).
Context (cm : LZ4F_BlockCompressMode_e).
Abbreviation opts := (default k_cOptionsNull optsPtr).
Abbreviation bound := (LZ4F_compressBound_internal (zlen inp) (Some (cc_prefs c)) (zlen pend)).

Context (Hsrc : src_ok kr bcap c m dst cap src inp u).
Context (Hcm : cc_linked c = true -> cm = LZ4B_COMPRESSED).
Context (Hmode : cc_blockCompressMode c = cm \/ pend = []).
Context (Hsave : flushing c = true -> cc_linked c = true -> stableSrc opts = 0 -> 64 * KB <= bcap).

(** The room that the blocks take at most; the bound has room for the end of the
    frame besides. *)
Abbreviation enough :=
  (need (cc_maxBlockSize c) (4 * blockChecksumFlag info) (flushing c) (zlen pend + zlen inp)).

Lemma enough_bound : 0 <= enough /\ enough + 4 + 4 * contentChecksumFlag info <= bound.
Proof.
  pose proof Hrun as (((_ & Hp & Ebs & _) & _) & _ & (_ & Hlt & _) & _). destruct Hsrc as ((_ & _ & Hn & _) & _).
  pose proof (zlen_nonneg inp). pose proof (zlen_nonneg pend).
  assert (4 <= blockSizeID info <= 7 /\ 0 <= blockChecksumFlag info <= 1) as [Hid Hc] by (split; apply Hp).
  pose proof (block_sizes _ Hid) as HB. rewrite <- Ebs in HB. unfold KB, MB in HB.
  split; [apply need_nonneg; lia|]. rewrite Z.add_comm with (n := zlen pend), Ebs. apply bound_need; [done|lia|].
  by rewrite <- Ebs.
Qed.

(** Too small a capacity is refused, and otherwise the input is consumed. *)
Definition update_post (r : Z * LZ4F_cctx) (m' : mem) : Prop :=
  ((cap < bound \/ (cm = LZ4B_UNCOMPRESSED /\ cap < zlen inp)) /\
   r = (LZ4F_returnErrorCode LZ4F_ERROR_dstMaxSize_tooSmall, c) /\ m' = m) \/
  (bound <= cap /\ exists bs' o' pend' u',
     update_done D kr bcap (cset_blockCompressMode cm c) m bs o pend u dst enough src inp opts r.1 r.2 m'
       bs' o' pend' u').

Lemma wp_compressUpdateImpl :
  wp (LZ4F_compressUpdateImpl c dst cap src (zlen inp) optsPtr cm) update_post m.
Proof.
  pose proof Hrun as (Hem & Hroom & (Esz & Hlt & _) & _). pose proof Hem as ((Hst & Hp & Ebs & _) & _).
  pose proof Hsrc as ((_ & _ & Hn & _) & _). pose proof (zlen_nonneg inp). pose proof (zlen_nonneg pend).
  unfold LZ4F_compressUpdateImpl. rewrite Hst, Esz. cbn [Z.eqb Pos.eqb negb].
  destruct (Z.ltb_spec cap bound) as [Hb|Hb]; [apply wp_ret; left; split; [by left|done]|].
  destruct (bool_decide (cm = LZ4B_UNCOMPRESSED) && (cap <? zlen inp)) eqn:Eu.
  { apply andb_true_iff in Eu as [->%bool_decide_eq_true ?%Z.ltb_lt]. apply wp_ret. left. split; [by right|done]. }
  pose proof enough_bound as [He0 He].
  assert (0 <= contentChecksumFlag info) as Hcc by apply Hp.
  assert (dst_ok kr bcap c m dst enough u /\ src_ok kr bcap c m dst enough src inp u) as [Hdst' Hsrc'].
  { split; [eapply dst_part|eapply src_part]; try done; lia. }
  apply wp_bind. set (c1 := cset_blockCompressMode cm c).
  assert (forall Q, Q (dst, c1) m -> wp (if bool_decide (cc_blockCompressMode c <> cm) then
      r ← LZ4F_flush c dst cap optsPtr; mret (u64 (dst + r.1), cset_blockCompressMode cm r.2)
    else mret (dst, c)) Q m) as Hsw.
  { clear Eu. intros Q HQ. case_bool_decide as Em.
    - destruct Hmode as [Eq|Ep]; [by destruct (Em Eq)|]. unfold LZ4F_flush. rewrite Esz, Ep. cbn [zlen length Z.of_nat Z.eqb].
      apply wp_bind, wp_ret, wp_ret. cbn [fst snd]. rewrite Z.add_0_r, u64_small; [exact HQ|].
      destruct Hdst as ((? & ? & ?) & _). lia.
    - apply wp_ret. replace c with c1 by (unfold c1; rewrite <- Em; by destruct c). done. }
  apply Hsw. cbn [fst snd]. apply wp_bind.
  apply (wp_update_run D kr bcap c1 m bs o pend u dst enough src inp cm); try done.
  intros n c' m' bs' o' pend' u' Hd. apply wp_ret. right. split; [done|]. exists bs', o', pend', u'. cbn [fst snd].
  destruct Hd as (En & Hd). assert (u64 (dst + n - dst) = n) as ->; [|done].
  replace (dst + n - dst) with n by lia. destruct Hdst as ((? & ? & ?) & _), Hd as (? & _).
  rewrite u64_small; [done|]. rewrite En in *. zlen_facts. lia.
Qed.
End Update.

(** * Ending *)

Section End.
Context (optsPtr : option LZ4F_compressOptions_t).
Context (Hcm : pend <> [] -> cc_linked c = true -> cc_blockCompressMode c = LZ4B_COMPRESSED).

Abbreviation total := (o ++ pend).
(** The room that the end of the frame needs at most. *)
Abbreviation end_bound := (LZ4F_compressBound_internal 0 (Some (cc_prefs c)) (zlen pend)).

Definition size_wrong (l : list Z) : bool :=
  negb (contentSize info =? 0) && negb (contentSize info =? u64 (zlen l)).

(** The rest of the frame is written; a wrong announcement of the size is an
    error. *)
Definition end_done (r : Z * LZ4F_cctx) (m' : mem) : Prop :=
  exists bs' hr, let l := enc_blocks info bs' ++ endmark ++ content_crc info total in
    produced info D (bs ++ bs') total /\ holds m' dst l /\ zlen l <= cap /\
    r.1 = (if size_wrong total then LZ4F_returnErrorCode LZ4F_ERROR_frameSize_wrong else zlen l) /\
    cc_cStage r.2 = 0 /\ ctx_ok D kr (cc_lz4Ctx r.2) (cc_cdict c) m' (cc_linked c) total hr.

Definition end_post (r : Z * LZ4F_cctx) (m' : mem) : Prop :=
  changes [(dst, cap); (cc_tmpBuff c, bcap)] m m' /\ same_frame c r.2 /\
  ((cap < end_bound /\ r.1 = LZ4F_returnErrorCode LZ4F_ERROR_dstMaxSize_tooSmall) \/ end_done r m').

(** The bound when there is no more input. *)
Lemma end_bound_eq :
  end_bound = (if zlen pend =? 0 then 0 else 4 + 4 * blockChecksumFlag info + zlen pend)
              + 4 + 4 * contentChecksumFlag info.
Proof.
  destruct Hrun as (((_ & Hp & Ebs & _) & _) & _ & (_ & Hlt & _) & _). pose proof (zlen_nonneg pend).
  rewrite (bound_value _ 0 _ Hp) by lia. rewrite Ebs in Hlt. set (B := LZ4F_getBlockSize (blockSizeID info)) in *.
  rewrite Z.min_l, Z.add_0_l by lia. change (Z.b2z (0 =? 0)) with 1.
  destruct (Z.eqb_spec (Z.lor (autoFlush (cc_prefs c)) 1) 0) as [E|_]; [by apply Z.lor_eq_0_iff in E as [_ ?]|].
  unfold need. rewrite Z.div_small, Z.mod_small by lia. cbn [negb andb].
  destruct (Z.ltb_spec 0 (zlen pend)), (Z.eqb_spec (zlen pend) 0); lia.
Qed.

(** The end mark and the checksum. *)
Lemma wp_end_tail c1 m1 bs' hr :
  let n := zlen (enc_blocks info bs') in
  same_frame c c1 -> changes [(dst, cap); (cc_tmpBuff c, bcap)] m m1 -> produced info D (bs ++ bs') total ->
  holds m1 dst (enc_blocks info bs') -> n <= cap -> digested c1 m1 total ->
  (n <= if zlen pend =? 0 then 0 else 4 + 4 * blockChecksumFlag info + zlen pend) ->
  ctx_ok D kr (cc_lz4Ctx c1) (cc_cdict c) m1 (cc_linked c) total hr -> apart (dst, cap) hr ->
  wp (if u64 (cap - n) <? 4 then mret (LZ4F_returnErrorCode LZ4F_ERROR_dstMaxSize_tooSmall, c1) else
      LZ4F_writeLE32 (dst + n) 0;;
      let finish dstPtr :=
        let c := cset_cStage 0 c1 in
        if negb (contentSize (frameInfo (cc_prefs c)) =? 0)
           && negb (contentSize (frameInfo (cc_prefs c)) =? cc_totalInSize c)
        then mret (LZ4F_returnErrorCode LZ4F_ERROR_frameSize_wrong, c)
        else mret (u64 (dstPtr - dst), c) in
      if contentChecksumFlag (frameInfo (cc_prefs c1)) =? LZ4F_contentChecksumEnabled then
        xxh ← XXH32_digest (cc_xxh c1);
        if u64 (cap - n) <? 8 then mret (LZ4F_returnErrorCode LZ4F_ERROR_dstMaxSize_tooSmall, c1) else
        LZ4F_writeLE32 (dst + n + 4) xxh;;
        finish (dst + n + 4 + 4)
      else finish (dst + n + 4)) end_post m1.
Proof.
  intros n Hss Hch Hprod Hh Hn Hdig Hle Hctx Hhr. pose proof end_bound_eq as Eb.
  destruct Hdst as ((Hd0 & Hd1 & Hd2) & Hdm & Hk & Hdt & Hdx & _). pose proof Hss as (E1 & _).
  assert (0 <= contentChecksumFlag info <= 1) as Hcc.
  { destruct Hrun as (((_ & (Hi & _) & _) & _) & _). apply Hi. }
  assert (0 <= n) as Hn0 by apply zlen_nonneg. rewrite u64_small by lia.
  destruct (Z.ltb_spec (cap - n) 4) as [Hlt|Hge].
  { apply wp_ret. split; [done|]. split; [done|]. left. split; [lia|done]. }
  assert (forall m' l, frame dst (dst + cap) m1 m' -> holds m' dst l ->
    l = enc_blocks info bs' ++ endmark ++ content_crc info total -> zlen l <= cap ->
    wp (let c := cset_cStage 0 c1 in
        if negb (contentSize (frameInfo (cc_prefs c)) =? 0)
           && negb (contentSize (frameInfo (cc_prefs c)) =? cc_totalInSize c)
        then mret (LZ4F_returnErrorCode LZ4F_ERROR_frameSize_wrong, c)
        else mret (u64 (dst + zlen l - dst), c)) end_post m') as Hfin.
  { intros m' l Hf Hl El Hlc. cbn [cset_cStage cc_prefs cc_totalInSize]. rewrite E1.
    replace (negb (contentSize info =? 0) && negb (contentSize info =? cc_totalInSize c1)) with (size_wrong total).
    2: { unfold size_wrong. destruct (Z.eqb_spec (contentSize info) 0) as [?|Hne]; [done|]. cbn [negb andb].
         destruct Hdig as [_ Hd]. rewrite E1 in Hd. by rewrite (Hd Hne). }
    assert (changes [(dst, cap); (cc_tmpBuff c, bcap)] m m') as Hch'.
    { eapply changes_trans; [exact Hch|]. eapply (changes_frame _ (dst, cap)); [exact Hf|by left|apply inside_refl]. }
    assert (ctx_ok D kr (cc_lz4Ctx c1) (cc_cdict c) m' (cc_linked c) total hr) as Hctx' by (by eapply ctx_kept).
    replace (dst + zlen l - dst) with (zlen l) by lia. rewrite u64_small by (zlen_facts; lia).
    assert (forall r, r = (if size_wrong total then LZ4F_returnErrorCode LZ4F_ERROR_frameSize_wrong else zlen l) ->
      end_post (r, cset_cStage 0 c1) m') as He.
    { intros r Hr. split; [done|]. split; [done|]. right. exists bs', hr. rewrite <- El. done. }
    destruct (size_wrong total); apply wp_ret, He; done. }
  assert (zlen endmark = 4) as H4 by done. cbn zeta.
  rewrite E1. apply wp_bind, wp_writeLE32; [eapply mapped_sub; [by eapply changes_mapped|lia|lia]|].
  intros m2 Hf2 Hh2. change (le_bytes 4 0) with endmark in Hh2.
  assert (holds m2 dst (enc_blocks info bs' ++ endmark)) as Hh3 by (eapply holds_snoc; [exact Hh|exact Hf2|exact Hh2]).
  assert (frame dst (dst + cap) m1 m2) as Hf2' by (eapply frame_weaken; [exact Hf2|lia|lia]).
  unfold content_crc in Hfin. change LZ4F_contentChecksumEnabled with 1.
  destruct (Z.eqb_spec (contentChecksumFlag info) 1) as [Ec|Ec].
  - rewrite Ec in Hfin, Eb. destruct Hdig as [Hrep _]. rewrite E1 in Hrep. specialize (Hrep Ec).
    apply wp_bind, (wp_XXH32_digest 0 m2 (cc_xxh c1) total).
    { eapply (rep_changes [(dst, cap)]); [|apply Forall_cons_2; [|apply Forall_nil_2]|exact Hrep].
      - eapply changes_frame; [exact Hf2'|by left|apply inside_refl].
      - destruct Hss as (_ & _ & _ & _ & _ & -> & _). done. }
    destruct (Z.ltb_spec (cap - n) 8) as [Hlt8|Hge8].
    { apply wp_ret. split; [|split; [done|left; split; [lia|done]]].
      eapply changes_trans; [exact Hch|]. eapply (changes_frame _ (dst, cap)); [exact Hf2'|by left|apply inside_refl]. }
    apply wp_bind, wp_writeLE32.
    { eapply mapped_sub; [eapply frame_mapped; [exact Hf2'|by eapply changes_mapped]|lia|lia]. }
    intros m3 Hf3 Hh4.
    pose (l := enc_blocks info bs' ++ endmark ++ le_bytes 4 (xxh32 0 total)).
    assert (zlen l = n + 8) as Ezl by (unfold l; rewrite !zlen_app, zlen_le_bytes; fold n; lia).
    replace (dst + n + 4 + 4) with (dst + zlen l) by lia. apply (Hfin m3 l); [| |done|lia].
    + eapply frame_trans; [exact Hf2'|]. eapply frame_weaken; [exact Hf3|lia|lia].
    + unfold l. rewrite app_assoc. eapply (holds_snoc m2 m3); [exact Hh3|rewrite zlen_app; fold n; rewrite H4|];
        rewrite ?Z.add_assoc; try done. rewrite zlen_app. fold n. by rewrite H4, Z.add_assoc.
  - destruct (Z.eqb_spec (contentChecksumFlag info) 0) as [E0|E0]; [|lia].
    pose (l := enc_blocks info bs' ++ endmark ++ []).
    assert (zlen l = n + 4) as Ezl by (unfold l; rewrite !zlen_app, zlen_nil; fold n; lia).
    replace (dst + n + 4) with (dst + zlen l) by lia. apply (Hfin m2 l); [done| |done|lia].
    unfold l. by rewrite app_nil_r.
Qed.

(** The destination is apart from the history. *)
Lemma dst_history c1 u1 hr :
  same_frame c c1 -> history_at bcap c1 hr u1 -> apart (dst, cap) u1 -> apart (dst, cap) hr.
Proof.
  intros (_ & _ & _ & _ & E & _) [Hhr| <-] Hu; [|done]. destruct Hdst as (_ & _ & _ & Ht & _).
  rewrite E in Hhr. destruct hr as [h k]. cbn [fst snd] in Hhr. sub_apart Ht.
Qed.

Lemma wp_compressEnd : wp (LZ4F_compressEnd c dst cap optsPtr) end_post m.
Proof.
  unfold LZ4F_compressEnd. apply wp_bind.
  eapply wp_mono; [by apply (wp_LZ4F_flush D kr bcap c m bs o pend u dst cap)|].
  pose proof end_bound_eq as Eb. pose proof (zlen_nonneg pend).
  pose proof Hdst as ((Hd0 & Hd1 & Hd2) & _ & _ & _ & _ & Hdu).
  assert (0 <= contentChecksumFlag info <= 1 /\ 0 <= blockChecksumFlag info <= 1) as [Hcc Hbc].
  { destruct Hrun as (((_ & (Hi & _) & _) & _) & _). split; apply Hi. }
  intros r m1 [(Ep & -> & ->)|[(Hne & Hlt & -> & ->)|(Hne & Hge & b & En & Hle & Hh & Hch & Hrun1 & Hss & Emd)]].
  - cbn [fst snd]. change (LZ4F_isError 0) with false. cbn iota.
    pose proof Hrun as (Hem & _ & _ & Hdig). pose proof Hem as (_ & Hp & _ & hr & Hctx & Hhr).
    assert (total = o) as Eo by (rewrite Ep; apply app_nil_r).
    pose proof (wp_end_tail c m [] hr) as W. cbn [enc_blocks map concat] in W. rewrite zlen_nil, app_nil_r, Eo, Ep in W.
    apply W; try done.
    + apply holds_nil.
    + by rewrite Eo in Hdig.
    + by eapply dst_history.
  - cbn [fst snd]. change (LZ4F_isError _) with true. cbn iota. apply wp_ret. split; [apply changes_refl|].
    split; [done|]. left. split; [|done]. apply zlen_pos in Hne.
    destruct (Z.eqb_spec (zlen pend) 0); lia.
  - apply zlen_pos in Hne as Hne'. rewrite En.
    pose proof (zlen_nonneg (enc_fblock info b)). rewrite small_not_error by lia. cbn iota.
    pose proof Hrun1 as (Hem & _ & _ & Hdig). pose proof Hem as (_ & Hp & _ & hr & Hctx & Hhr).
    rewrite app_nil_r in Hdig. pose proof (session_frame _ _ Hss) as Hsf. pose proof Hsf as (E1 & E2 & _).
    assert (enc_blocks info [b] = enc_fblock info b) as Ee by (unfold enc_blocks; cbn [map concat]; apply app_nil_r).
    pose proof (wp_end_tail r.2 m1 [b] hr) as W. rewrite Ee in W. apply W; try done; try lia.
    + by rewrite E1 in Hp.
    + destruct (Z.eqb_spec (zlen pend) 0); lia.
    + unfold cc_linked in *. by rewrite E1, E2 in Hctx.
    + eapply dst_history; [done|exact Hhr|]. unfold apart. cbn. lia.
Qed.
End End.
End Calls.
