(* ===== verification/Lz4FrameBeginSpec.v ===== *)
(** The beginning of a frame: [LZ4F_compressBegin_internal] on a context between
    frames allocates what the preferences need, and writes the header. *)
From S2P Require Import Prelude.
From S2P Require Import Mem.
From S2P Require Import Xxhash.
From S2P Require Import XxhashSpec.
From S2P Require Import XxhashStream.
From S2P Require Import Lz4Common.
From S2P Require Import Lz4Decompress.
From S2P Require Import Lz4Compress.
From S2P Require Import Lz4CompressGeneric.
From S2P Require Import Lz4CompressSpec.
From S2P Require Import Lz4StreamCompress.
From S2P Require Import Lz4StreamCompressSpec.
From S2P Require Import Lz4StreamDict.
From S2P Require Import Lz4Frame.
From S2P Require Import Lz4FrameDecode.
From S2P Require Import FrameFormat.
From S2P Require Import Lz4FrameHeader.
From S2P Require Import Lz4FrameInv.
From S2P Require Import Lz4FrameLifecycle.
From S2P Require Import Lz4FrameCompress.
From S2P Require Import Lz4FrameMakeBlock.
From S2P Require Import Lz4FrameCompressInv.

(** Splits a statement about a list of regions. *)
Ltac each_region := repeat first [apply Forall_nil_2 | apply Forall_cons_2].

Lemma changes_widen a n b k rs m m' :
  changes ((a, n) :: rs) m m' -> inside a n (b, k) -> changes ((b, k) :: rs) m m'.
Proof.
  intros [H1 H2] Hin. split; [|done]. intros j Hj. apply H1. inversion Hj as [|? ? Hj1 Hj2]. subst.
  constructor; [|done]. unfold inside in Hin. cbn [fst snd] in *. lia.
Qed.

(** * Memory that is kept *)

(** What [m] maps outside the regions [rs] is the same in [m']. *)
Definition keeps (rs : list (Z * Z)) (m m' : mem) : Prop :=
  forall i, is_Some (m !! i) -> Forall (fun r => ~ (r.1 <= i < r.1 + r.2)) rs -> m' !! i = m !! i.

Lemma keeps_refl rs m : keeps rs m m.
Proof. done. Qed.

Lemma keeps_trans rs m1 m2 m3 : keeps rs m1 m2 -> keeps rs m2 m3 -> keeps rs m1 m3.
Proof. intros H1 H2 i Hi Hr. rewrite H2; [by apply H1| |done]. by rewrite H1. Qed.

Lemma keeps_sub rs rs' m m' : keeps rs m m' -> (forall r, In r rs -> In r rs') -> keeps rs' m m'.
Proof.
  intros H Hin i Hi Hr. apply H; [done|]. rewrite Forall_forall in *. intros r Hr'. by apply Hr, Hin.
Qed.

Lemma keeps_frame rs r m m' : frame r.1 (r.1 + r.2) m m' -> In r rs -> keeps rs m m'.
Proof. intros [H _] Hr i _ Hi. rewrite Forall_forall in Hi. by apply H, Hi. Qed.

Lemma changes_keeps rs m m' : changes rs m m' -> keeps rs m m'.
Proof. intros [H _] i _ Hi. by apply H. Qed.

Lemma keeps_mapped rs m m' a n :
  keeps rs m m' -> Forall (fun r => apart r (a, n)) rs -> mapped m a n -> mapped m' a n.
Proof.
  intros H Ha Hm i Hi. rewrite H; [by apply Hm|by apply Hm|]. eapply Forall_impl; [|exact Ha].
  intros r Hr. unfold apart in Hr. cbn [fst snd] in Hr. lia.
Qed.

Lemma keeps_holds rs m m' a l :
  keeps rs m m' -> Forall (fun r => apart r (a, zlen l)) rs -> holds m a l -> holds m' a l.
Proof.
  intros H Ha Hh. pose proof (holds_mapped _ _ _ Hh) as Hm. revert Hh. apply holds_eq_on. intros i Hi.
  apply H; [by apply Hm|]. eapply Forall_impl; [|exact Ha].
  intros r Hr. unfold apart in Hr. cbn [fst snd] in Hr. lia.
Qed.

(** The header that the compressor writes. *)
Abbreviation frame_header i := (header_bytes i (negb (contentSize i =? 0)) (negb (dictID i =? 0))).

Section Begin.
Context `{HA : Allocator} `{HHC : LZ4_HC}.

(** * Contexts between frames *)

(** The preferences with the default block size in place. *)
Definition effective (p : LZ4F_preferences_t) : LZ4F_preferences_t :=
  if blockSizeID (frameInfo p) =? 0 then set_blockSizeID LZ4F_BLOCKSIZEID_DEFAULT p else p.

(** The internal buffer that a frame needs. *)
Definition required (p : LZ4F_preferences_t) : Z :=
  let linked := blockMode (frameInfo p) =? LZ4F_blockLinked in
  if negb (autoFlush p =? 0) then (if linked then 64 * KB else 0)
  else LZ4F_getBlockSize (blockSizeID (frameInfo p)) + (if linked then 128 * KB else 0).

Lemma required_nonneg p : 4 <= blockSizeID (frameInfo p) <= 7 -> 0 <= required p.
Proof.
  intros Hid. pose proof (block_sizes _ Hid) as Hb. unfold required, KB, MB in *.
  destruct (negb _), (blockMode _ =? _); lia.
Qed.

Definition ctx_ready (c : LZ4F_cctx) : Prop :=
  (cc_lz4CtxAlloc c = 0 /\ cc_lz4CtxPtr c = NULL) \/
  ((cc_lz4CtxAlloc c = 1 \/ cc_lz4CtxAlloc c = 2) /\
   (cc_lz4CtxType c = ctxFast -> exists s, cc_lz4Ctx c = lz4_fast s /\ stream_wf s)).

(** The internal buffer has [bcap] bytes; a context that claims more than it has
    is only used with data that is not buffered. *)
Definition ready (bcap : Z) (p : LZ4F_preferences_t) (c : LZ4F_cctx) (m : mem) : Prop :=
  ctx_ready c /\ buffer_ok m (cc_tmpBuff c) bcap /\ 0 <= cc_maxBufferSize c /\
  (cc_maxBufferSize c <= bcap \/ (autoFlush p <> 0 /\ 64 * KB <= cc_maxBufferSize c)) /\
  mapped m (mem32 (cc_xxh c)) 16 /\ apart (cc_tmpBuff c, bcap) (mem32 (cc_xxh c), 16).

(** * The context of the block compressor *)

Definition with_ctx (ptr : Z) (ctx : lz4Ctx) (alloc type : Z) (c : LZ4F_cctx) : LZ4F_cctx :=
  cset_lz4CtxType type (cset_lz4CtxAlloc alloc (cset_lz4Ctx ctx (cset_lz4CtxPtr ptr c))).

Definition grown (m m' : mem) : Prop :=
  keeps [] m m' /\ forall q k, block m q k -> block m' q k.

Lemma grown_buffer m m' a n : grown m m' -> buffer_ok m a n -> buffer_ok m' a n.
Proof.
  intros [Hk Hb] [H0|(H1 & H2 & H3 & H4 & H5)]; [by left|]. right. splits; try done; [|by apply Hb].
  by eapply keeps_mapped.
Qed.

(** The memory of the block compressor's context is new, or it is what it was. *)
Definition ctx_taken (c : LZ4F_cctx) (m : mem) (ptr : Z) (m' : mem) : Prop :=
  allocated m ptr (ctxTypeID_to_size 1) m' \/ (ptr = cc_lz4CtxPtr c /\ m' = m).

Lemma wp_begin_context c m (Q : bool * LZ4F_cctx -> mem -> Prop) :
  ctx_ready c -> compressionLevel (cc_prefs c) < LZ4HC_CLEVEL_MIN ->
  (forall c', cc_lz4CtxAlloc c = 0 -> c' = with_ctx NULL lz4_none 0 (cc_lz4CtxType c) c -> Q (false, c') m) ->
  (forall ptr s alloc m', grown m m' -> ctx_taken c m ptr m' -> stream_wf s -> alloc = 1 \/ alloc = 2 ->
     Q (true, with_ctx ptr (lz4_fast s) alloc ctxFast c) m') ->
  wp (begin_context c) Q m.
Proof.
  intros Hr Hl Hbad HQ. unfold begin_context.
  destruct (Z.ltb_spec (compressionLevel (cc_prefs c)) LZ4HC_CLEVEL_MIN); [|lia].
  destruct Hr as [[Ea Ep]|[Ha Ht]].
  - rewrite Ea, Ep. change (ctxTypeID_to_size 0 <? ctxTypeID_to_size 1) with true. cbn iota.
    apply wp_bind, wp_ret, wp_bind. unfold LZ4F_malloc. eapply wp_mono; [by apply alloc_ok|].
    intros q m' [[-> ->]|Hal].
    + apply wp_ret, Hbad; [done|]. destruct c. cbn in *. by subst.
    + pose proof Hal as (Hq & Hq2 & Hfr & Hqm & He & Hqb & Hb). destruct (Z.eqb_spec q NULL) as [E|_]; [unfold NULL in E; lia|].
      apply wp_ret. apply (HQ q LZ4_initStream 1); [|left; by split|exact init_wf|by left].
      split; [|done]. intros i Hi _. apply He. intros Hin. destruct Hi as [v Hv]. rewrite Hfr in Hv by lia. done.
  - assert ((ctxTypeID_to_size (cc_lz4CtxAlloc c) <? ctxTypeID_to_size 1) = false) as ->.
    { by destruct Ha as [-> | ->]. }
    assert (grown m m) as Hg by done. apply wp_ret. change ctxFast with 1 in *.
    destruct (Z.eqb_spec (cc_lz4CtxType c) 1) as [E|E].
    + destruct (Ht E) as (s & Es & Hs). cbn [negb].
      replace c with (with_ctx (cc_lz4CtxPtr c) (lz4_fast s) (cc_lz4CtxAlloc c) 1 c) at 1; [by apply HQ; [|right|..]|].
      rewrite <- Es, <- E. by destruct c.
    + cbn [negb]. replace (cset_lz4CtxType 1 (cset_lz4Ctx (lz4_fast LZ4_initStream) c))
        with (with_ctx (cc_lz4CtxPtr c) (lz4_fast LZ4_initStream) (cc_lz4CtxAlloc c) 1 c) by (by destruct c).
      apply HQ; [done|by right|exact init_wf|done].
Qed.

(** * The internal buffer *)

Definition with_prefs (p : LZ4F_preferences_t) (c : LZ4F_cctx) : LZ4F_cctx :=
  cset_maxBlockSize (LZ4F_getBlockSize (blockSizeID (frameInfo p))) (cset_prefs p c).

Definition with_buffer (b k : Z) (c : LZ4F_cctx) : LZ4F_cctx := cset_maxBufferSize k (cset_tmpBuff b c).

(** If a new buffer is needed, the region has borders that it cannot use. *)
Definition borders (p : LZ4F_preferences_t) (c : LZ4F_cctx) (m : mem) (r : Z * Z) : Prop :=
  cc_maxBufferSize c < required p -> bordered m r.

(** The buffer [b] of [bcap'] bytes replaces the one of [c]. *)
Definition buffer_put (bcap : Z) (p : LZ4F_preferences_t) (c : LZ4F_cctx) (m : mem) (b k bcap' : Z)
    (m' : mem) : Prop :=
  buffer_ok m' b bcap' /\ required p <= k /\ (cc_maxBufferSize c <= bcap -> k <= bcap') /\
  (k <= bcap' \/ (autoFlush p <> 0 /\ 64 * KB <= k)) /\ apart (b, bcap') (mem32 (cc_xxh c), 16) /\
  (keeps [(cc_tmpBuff c, bcap)] m m' /\
   forall r, mapped m r.1 r.2 -> apart (cc_tmpBuff c, bcap) r -> apart (b, bcap') r) /\
  forall r, borders p c m r -> foreign bcap c r -> apart (b - 1, bcap' + 2) r.

(** What was allocated besides the block [r] still is. *)
Definition blocks_left (r : Z * Z) (m m' : mem) : Prop :=
  forall q k, block m q k -> apart r (q, k) -> block m' q k.

(** Memory of the user does not touch the new buffer. *)
Lemma fresh_foreign m q n r :
  0 < n -> (forall i, q <= i < q + n -> m !! i = None) -> bordered m r -> apart (q - 1, n + 2) r.
Proof.
  intros Hn Hf [Hz|Hm]; [by right; left|]. pose proof (fresh_apart m q n _ _ Hf Hm) as A.
  unfold apart in *. cbn [fst snd] in *. lia.
Qed.

Lemma bordered_keeps rs m m' r :
  keeps rs m m' -> Forall (fun q => apart (q.1 - 1, q.2 + 2) r) rs -> bordered m r -> bordered m' r.
Proof.
  intros Hk Hr [Hz|Hm]; [by left|]. destruct (Z.le_gt_cases r.2 0) as [Hz|Hz]; [by left|right].
  eapply keeps_mapped; [exact Hk| |done]. eapply Forall_impl; [|exact Hr]. intros q A. unfold apart in *.
  cbn [fst snd] in *. lia.
Qed.

Lemma foreign_tmp bcap (c : LZ4F_cctx) r : foreign bcap c r -> apart (cc_tmpBuff c, bcap) r.
Proof. intros [Hf _]. destruct r as [a k]. sub_apart Hf. Qed.

Lemma wp_free_buffer m a n :
  buffer_ok m a n -> wp (LZ4F_free a) (fun _ m' => keeps [(a, n)] m m' /\ blocks_left (a, n) m m') m.
Proof.
  intros Hb. apply (wp_free_block a n m _ Hb). intros m' Hu Hbl. split; [|done]. intros i _ Hi. by apply Hu.
Qed.

Lemma wp_realloc_buffer bcap p c m (Q : bool * LZ4F_cctx -> mem -> Prop) :
  ready bcap p c m -> 4 <= blockSizeID (frameInfo p) <= 7 ->
  (forall m', cc_maxBufferSize c < required p -> keeps [(cc_tmpBuff c, bcap)] m m' ->
     blocks_left (cc_tmpBuff c, bcap) m m' -> Q (false, with_buffer NULL 0 c) m') ->
  (forall b k bcap' m', buffer_put bcap p c m b k bcap' m' -> blocks_left (cc_tmpBuff c, bcap) m m' -> Q (true, with_buffer b k c) m') ->
  wp (if cc_maxBufferSize c <? required p then
        let c := cset_maxBufferSize 0 c in
        LZ4F_free (cc_tmpBuff c);;
        q ← LZ4F_malloc (required p);
        let c := cset_tmpBuff q c in
        if q =? NULL then mret (false, c) else mret (true, cset_maxBufferSize (required p) c)
      else mret (true, c)) Q m.
Proof.
  intros (_ & Hbuf & H0 & Hmax & Hxm & Hx) Hid Hbad HQ.
  destruct (Z.ltb_spec (cc_maxBufferSize c) (required p)) as [Hlt|Hge].
  - apply wp_bind. eapply wp_mono; [exact (wp_free_buffer m _ bcap Hbuf)|]. cbn beta. intros _ m1 [Hk1 Hl1]. apply wp_bind.
    eapply wp_mono; [apply alloc_ok; lia|].
    intros q m2 [[-> ->]|(Hq & Hq2 & Hfr & Hmq & He & Hb & Hb2)]; [by apply wp_ret, Hbad|].
    destruct (Z.eqb_spec q NULL) as [E|_]; [unfold NULL in E; lia|]. apply wp_ret.
    apply (HQ q (required p) (required p)); [|intros q' k' Hq' Ha; by apply Hb2, Hl1].
    assert (mapped m1 (mem32 (cc_xxh c)) 16) as Hx1 by (eapply keeps_mapped; [exact Hk1|by each_region|done]).
    split; [right; splits; try done; lia|]. split; [lia|]. split; [lia|]. split; [by left|].
    split; [|split].
    + exact (fresh_apart _ _ _ _ _ Hfr Hx1).
    + split.
      * eapply keeps_trans; [exact Hk1|]. intros i Hi _. apply He. intros Hin. destruct Hi as [v Hv].
        rewrite Hfr in Hv by lia. done.
      * intros [a n] Hr Ha. assert (mapped m1 a n) as Hr1 by (eapply keeps_mapped; [exact Hk1|by each_region|done]).
        exact (fresh_apart _ _ _ _ _ Hfr Hr1).
    + intros r Hr Hfo. apply (fresh_foreign m1); [lia|done|]. eapply bordered_keeps; [exact Hk1| |by apply Hr].
      each_region. apply Hfo.
  - apply wp_ret. replace c with (with_buffer (cc_tmpBuff c) (cc_maxBufferSize c) c) by (by destruct c).
    apply (HQ _ _ bcap); [|by intros q' k']. split; [done|]. split; [lia|]. split; [done|]. split; [done|]. split; [done|].
    split; [split; [apply keeps_refl|done]|]. by intros r _ [? _].
Qed.

Lemma block_grow (m m' : mem) a n :
  (forall i, is_Some (m !! i) -> is_Some (m' !! i)) -> buffer_ok m a n -> buffer_ok m' a n.
Proof.
  intros Hm [Hz|(H1 & H2 & H3 & H4 & H5)]; [by left|]. right. splits; try done; [|by eapply block_mono].
  intros i Hi. by apply Hm, H4.
Qed.

Lemma wp_begin_buffer bcap c m (Q : bool * LZ4F_cctx -> mem -> Prop) :
  let p := effective (cc_prefs c) in
  ready bcap p c m -> 4 <= blockSizeID (frameInfo p) <= 7 ->
  (forall m', cc_maxBufferSize c < required p -> keeps [(cc_tmpBuff c, bcap)] m m' ->
     blocks_left (cc_tmpBuff c, bcap) m m' -> Q (false, with_buffer NULL 0 (with_prefs p c)) m') ->
  (forall b k bcap' st m1 m', buffer_put bcap p c m b k bcap' m1 -> blocks_left (cc_tmpBuff c, bcap) m m1 ->
     frame (mem32 (cc_xxh c)) (mem32 (cc_xxh c) + 16) m1 m' ->
     mem32 st = mem32 (cc_xxh c) -> XXH32_rep 0 m' st [] ->
     Q (true, cset_xxh st (cset_tmpInSize 0 (cset_tmpIn b (with_buffer b k (with_prefs p c))))) m') ->
  wp (begin_buffer c) Q m.
Proof.
  intros p Hr Hid Hbad HQ. unfold begin_buffer.
  set (c1 := if blockSizeID (frameInfo (cc_prefs c)) =? 0
             then cset_prefs (set_blockSizeID LZ4F_BLOCKSIZEID_DEFAULT (cc_prefs c)) c else c).
  assert (cset_maxBlockSize (LZ4F_getBlockSize (blockSizeID (frameInfo (cc_prefs c1)))) c1 = with_prefs p c) as ->.
  { unfold c1, p, effective, with_prefs. destruct c. by destruct (blockSizeID _ =? 0). }
  pose proof (block_sizes _ Hid) as Hbs.
  assert ((if negb (autoFlush (cc_prefs (with_prefs p c)) =? 0)
           then if cc_linked (with_prefs p c) then 64 * KB else 0
           else u64 (cc_maxBlockSize (with_prefs p c) + (if cc_linked (with_prefs p c) then 128 * KB else 0)))
          = required p) as ->.
  { unfold required, cc_linked, with_prefs. cbn [cc_prefs cc_maxBlockSize cset_prefs cset_maxBlockSize].
    destruct (negb _); [done|]. apply u64_small. unfold KB, MB in *. destruct (blockMode _ =? _); lia. }
  apply wp_bind. apply (wp_realloc_buffer bcap p (with_prefs p c) m); [done|done| |].
  - intros m' Hlt Hk Hl. apply wp_ret. by apply Hbad.
  - intros b k bcap' m1 Hput Hl. cbn [fst snd negb].
    change (cc_xxh (with_buffer b k (with_prefs p c))) with (cc_xxh c).
    apply wp_bind. apply wp_XXH32_reset.
    + destruct Hr as (_ & _ & _ & _ & Hxm & Hx). destruct Hput as (_ & _ & _ & _ & _ & [Hk _] & _).
      eapply keeps_mapped; [exact Hk|by each_region|done].
    + intros m2 Hf st Hrep. apply wp_ret. by apply (HQ b k bcap' st m1).
Qed.

(** * The dictionary *)

(** The dictionary [D] is digested, or plain and at [dictBuffer]. *)
Definition dict_given (D : list Z) (kr : Z * Z) (linked : bool) (m : mem) (dictBuffer dictSize : Z)
    (cdict : option LZ4F_CDict) : Prop :=
  (dictBuffer = NULL /\ cdict_ok D kr cdict m /\ (cdict = None \/ D <> [])) \/
  (0 < dictBuffer /\ cdict = None /\ dictSize = zlen D /\ D <> [] /\ zlen D <= int_max /\ bytes_ok D /\
   holds m dictBuffer D /\ (linked = false -> HASH_UNIT <= zlen D)).

(** The history lies in the plain dictionary, or it is empty. *)
Definition in_dict (dictBuffer dictSize : Z) (hr : Z * Z) : Prop :=
  hr.2 <= 0 \/ (dictBuffer <> NULL /\ inside hr.1 hr.2 (dictBuffer, dictSize)).

(** A context that was reset for linked blocks. *)
Lemma linked_reset D kr m cdict s :
  cdict_ok D kr cdict m -> stream_wf s -> cdict = None \/ D <> [] ->
  let w := LZ4_resetStream_fast s in
  exists hr, hr.2 <= 0 /\
    linked_ctx D cdict (match cdict with Some d => LZ4_attach_dictionary w (Some (cd_fastCtx d)) | None => w end)
      m [] hr.
Proof.
  intros Hc Hs Hd w. destruct (resetStream_fast_ok s Hs) as [Hw Hw0]. fold w in Hw, Hw0.
  assert (forall s', cs_inv s' [] -> stream_wf s' \/ D <> [] -> exists hr : Z * Z, hr.2 <= 0 /\
    linked_ctx D cdict s' m [] hr) as Hend.
  { intros s' Hs' Hor. exists (dictionary s', 0). split; [done|]. left. exists []. split; [done|].
    split; [apply suffix_nil|]. split; [apply holds_nil|]. split; [done|]. destruct Hor; [by left|by right]. }
  destruct cdict as [d|].
  - destruct Hd as [?|Hd]; [done|]. destruct (attach_fresh D kr m w d Hc Hw Hw0) as [Hat|Hcs].
    + exists (0, 0). split; [done|]. by right.
    + apply Hend; [done|by right].
  - apply Hend; [done|]. left. apply prepare_wf; [done|by left].
Qed.

Lemma wp_begin_init D kr c m dictBuffer dictSize cdict s (Q : bool * LZ4F_cctx -> mem -> Prop) :
  cc_lz4Ctx c = lz4_fast s -> stream_wf s -> cc_lz4CtxType c = ctxFast ->
  compressionLevel (cc_prefs c) < LZ4HC_CLEVEL_MIN ->
  dict_given D kr (cc_linked c) m dictBuffer dictSize cdict ->
  (forall ctx' hr, ctx_ok D kr ctx' cdict m (cc_linked c) [] hr -> in_dict dictBuffer dictSize hr ->
     Q (true, cset_lz4Ctx ctx' (cset_cdict cdict c)) m) ->
  wp (begin_init c dictBuffer dictSize cdict) Q m.
Proof.
  intros Es Hs Et Hl Hdict HQ. unfold begin_init. apply wp_bind.
  change (cc_linked (cset_cdict cdict c)) with (cc_linked c).
  change (cc_lz4Ctx (cset_cdict cdict c)) with (cc_lz4Ctx c).
  change (compressionLevel (cc_prefs c)) with (compressionLevel (cc_prefs (cset_cdict cdict c))) in Hl.
  (* the state before a plain dictionary is loaded *)
  assert (forall s', (dictBuffer = NULL -> exists hr, hr.2 <= 0 /\
      ctx_ok D kr (lz4_fast s') cdict m (cc_linked c) [] hr) ->
    wp (c ← (if LZ4HC_CLEVEL_MIN <=? compressionLevel (cc_prefs c) then
          s ← as_HC (lz4_fast s');
          mret (cset_lz4Ctx (lz4_HC (LZ4_favorDecompressionSpeed s (s32 (favorDecSpeed (cc_prefs c)))))
            (cset_lz4Ctx (lz4_fast s') (cset_cdict cdict c)))
        else mret (cset_lz4Ctx (lz4_fast s') (cset_cdict cdict c)));
      if dictBuffer =? NULL then mret (true, c) else
      if int_max <? dictSize then mret (false, c) else
      if cc_lz4CtxType c =? ctxFast then
        s ← as_fast (cc_lz4Ctx c);
        r ← LZ4_loadDict s dictBuffer (s32 dictSize);
        mret (true, cset_lz4Ctx (lz4_fast r.2) c)
      else
        s ← as_HC (cc_lz4Ctx c);
        r ← LZ4_loadDictHC s dictBuffer (s32 dictSize);
        mret (true, cset_lz4Ctx (lz4_HC r.2) c)) Q m) as Hgo.
  { intros s' Hnull. change (cc_prefs (cset_cdict cdict c)) with (cc_prefs c) in Hl.
    destruct (Z.leb_spec LZ4HC_CLEVEL_MIN (compressionLevel (cc_prefs c))); [lia|]. apply wp_bind, wp_ret.
    destruct Hdict as [(Hn & _)|(Hn & Ec & Ed & Hne & Hmax & Hb & Hh & Hu)].
    - rewrite Hn. cbn [Z.eqb]. apply wp_ret. destruct (Hnull Hn) as (hr & Hz & Hok).
      apply (HQ (lz4_fast s') hr); [done|by left].
    - destruct (Z.eqb_spec dictBuffer NULL) as [E|_]; [unfold NULL in E; lia|]. rewrite Ed. rewrite Ed in HQ.
      destruct (Z.ltb_spec int_max (zlen D)); [lia|]. zlen_facts.
      rewrite s32_small by (unfold int_min, int_max in *; lia).
      change (cc_lz4CtxType (cset_lz4Ctx _ _)) with (cc_lz4CtxType c). rewrite Et.
      apply wp_bind, wp_ret, wp_bind. eapply wp_mono; [by apply loadDict_ok|].
      intros r m' (-> & _ & [Hcs _] & Hend & Hhl). apply wp_ret.
      assert (in_dict dictBuffer (zlen D) (dictionary r.2, zlen (loaded D))) as Hin.
      { right. split; [unfold NULL; lia|]. unfold inside. cbn [fst snd]. destruct (loaded_suffix D) as [pre Epre].
        assert (zlen D = zlen pre + zlen (loaded D)) as Ez by (rewrite Epre at 1; apply zlen_app). zlen_facts.
        destruct (loaded D) as [|x l] eqn:El; [left; rewrite zlen_nil; lia|right].
        destruct (Hend ltac:(done)) as [E _]. lia. }
      destruct (cc_linked c) eqn:Elk.
      + apply (HQ (lz4_fast r.2) (dictionary r.2, zlen (loaded D))); [|done].
        split; [by rewrite Ec|]. exists r.2. split; [done|]. left. exists (loaded D).
        destruct (loaded_suffix D) as [pre Epre]. rewrite app_nil_r. splits; try done; [by exists pre|by right].
      + apply (HQ (lz4_fast r.2) (0, 0)); [|by left]. split; [by rewrite Ec|]. exists r.2. split; [done|].
        split; [|done]. eapply cs_wf; [exact Hcs|]. apply Hend, loaded_some, Hu. done. }
  destruct (cc_linked c) eqn:Elk.
  - unfold LZ4F_initStream. rewrite Es. destruct (Z.ltb_spec (compressionLevel (cc_prefs c)) LZ4HC_CLEVEL_MIN) as [_|];
      [|change (cc_prefs (cset_cdict cdict c)) with (cc_prefs c) in Hl; lia].
    rewrite orb_true_r. cbn [as_fast]. apply wp_bind, wp_bind, wp_ret, wp_ret, wp_ret. apply Hgo. intros Hn.
    destruct Hdict as [(_ & Hc & Hd)|(Hn' & _)]; [|unfold NULL in Hn; lia].
    destruct (linked_reset D kr m cdict s Hc Hs Hd) as (hr & Hz & Hlk). exists hr. split; [done|].
    split; [done|]. eexists. split; [done|exact Hlk].
  - apply wp_ret. replace (cset_cdict cdict c) with (cset_lz4Ctx (lz4_fast s) (cset_cdict cdict c)).
    2: { rewrite <- Es. by destruct c. }
    apply Hgo. intros Hn. exists (0, 0). split; [done|].
    destruct Hdict as [(_ & Hc & _)|(Hn' & _)]; [|unfold NULL in Hn; lia].
    split; [done|]. by exists s.
Qed.

(** * The whole call *)

Section Call.
Context (D : list Z) (kr : Z * Z) (bcap : Z) (c : LZ4F_cctx) (m : mem) (dst cap : Z).
Context (dictBuffer dictSize : Z) (cdict : option LZ4F_CDict) (prefsPtr : option LZ4F_preferences_t).
Abbreviation p := (effective (default LZ4F_INIT_PREFERENCES prefsPtr)).
Abbreviation linked := (blockMode (frameInfo p) =? LZ4F_blockLinked).
Abbreviation xxhr := (mem32 (cc_xxh c), 16).

Context (Hp : prefs_wf p) (Hr : ready bcap p c m) (Hdst : mapped m dst maxFHSize).
Context (Hdict : dict_given D kr linked m dictBuffer dictSize cdict).
Context (Hk : mapped m kr.1 kr.2 /\ foreign bcap c kr /\ apart (dst, maxFHSize) kr).
Context (Hdf : foreign bcap c (dst, maxFHSize)).
Context (Hu : dictBuffer <> NULL -> (borders p c m (dictBuffer, dictSize) /\ foreign bcap c (dictBuffer, dictSize)) /\
  apart (dst, maxFHSize) (dictBuffer, dictSize)).

(** Memory that the call uses. *)
Abbreviation used := [(dst, maxFHSize); xxhr; (cc_tmpBuff c, bcap)].

(** The header is written, and the context is that of a frame without content. *)
Definition begin_done (r : Z * LZ4F_cctx) (m' : mem) (bcap' : Z) (u : Z * Z) : Prop :=
  let h := frame_header (frameInfo p) in
  r.1 = zlen h /\ zlen h <= maxFHSize /\ holds m' dst h /\ mapped m' dst maxFHSize /\
  running D kr bcap' r.2 m' [] [] [] u /\
  in_dict dictBuffer dictSize u /\
  (cc_prefs r.2 = p /\ cc_cdict r.2 = cdict /\ mem32 (cc_xxh r.2) = mem32 (cc_xxh c) /\
   cc_self r.2 = cc_self c /\ cc_blockCompressMode r.2 = cc_blockCompressMode c) /\
  (buffer_ok m' (cc_tmpBuff r.2) bcap' /\ required p <= cc_maxBufferSize r.2 /\
   (cc_maxBufferSize c <= bcap -> cc_maxBufferSize r.2 <= bcap') /\
   (cc_maxBufferSize r.2 <= bcap' \/ (autoFlush p <> 0 /\ 64 * KB <= cc_maxBufferSize r.2))) /\
  (cc_lz4CtxAlloc r.2 = 1 \/ cc_lz4CtxAlloc r.2 = 2) /\ cc_lz4CtxType r.2 = ctxFast /\
  (keeps used m m' /\
   forall x, mapped m x.1 x.2 -> apart (cc_tmpBuff c, bcap) x -> apart (cc_tmpBuff r.2, bcap') x) /\
  forall x, borders p c m x -> foreign bcap c x -> foreign bcap' r.2 x.

(** What the context owns: the memory of the block compressor's context, which is
    new or as it was; what others own is left to them. *)
Definition begin_owns (bcap' : Z) (r : Z * LZ4F_cctx) (m' : mem) : Prop :=
  let ptr := cc_lz4CtxPtr r.2 in
  let n := ctxTypeID_to_size 1 in
  ((cc_self r.2 = cc_self c /\ mem32 (cc_xxh r.2) = mem32 (cc_xxh c)) /\ blocks_left (cc_tmpBuff c, bcap) m m' /\
   forall x, mapped m x.1 x.2 -> apart (cc_tmpBuff c, bcap) x -> apart (cc_tmpBuff r.2, bcap') x) /\
  (ptr = cc_lz4CtxPtr c \/
   ((0 < ptr /\ ptr + n < 2 ^ 63) /\ mapped m' ptr n /\ block m' ptr n /\ (forall a k, mapped m a k -> apart (ptr, n) (a, k)) /\
    apart (cc_tmpBuff r.2, bcap') (ptr, n))).

Definition begin_post (r : Z * LZ4F_cctx) (m' : mem) : Prop :=
  (cap < maxFHSize /\ r = (LZ4F_returnErrorCode LZ4F_ERROR_dstMaxSize_tooSmall, c) /\ m' = m) \/
  (maxFHSize <= cap /\ r.1 = LZ4F_returnErrorCode LZ4F_ERROR_allocation_failed /\
   (cc_lz4CtxAlloc c = 0 \/ cc_maxBufferSize c < required p) /\
   cc_cStage r.2 = cc_cStage c /\ keeps used m m' /\
   exists bcap', ready bcap' p r.2 m' /\ begin_owns bcap' r m') \/
  (maxFHSize <= cap /\ exists bcap' u, begin_done r m' bcap' u /\ begin_owns bcap' r m').

(** A digested dictionary does not change. *)
Lemma cdict_keeps rs m1 m2 :
  keeps rs m1 m2 -> Forall (fun r => apart r kr) rs -> cdict_ok D kr cdict m1 -> cdict_ok D kr cdict m2.
Proof.
  intros Hks Ha. destruct cdict as [d|]; [|done]. intros (dl & H1 & H2 & H3 & H4). exists dl.
  split; [done|]. split; [done|]. split; [|done]. destruct H4 as [->|E]; [apply holds_nil|].
  eapply keeps_holds; [exact Hks| |done]. by rewrite <- E.
Qed.

Lemma dict_keeps m1 : keeps used m m1 -> dict_given D kr linked m1 dictBuffer dictSize cdict.
Proof.
  intros Hks. destruct Hk as (_ & Hkf & Hkd).
  destruct Hdict as [(H1 & H2 & H3)|(H1 & H2 & H3 & H4 & H5 & H6 & H7 & H8)]; [left|right].
  - split; [done|]. split; [|done]. eapply cdict_keeps; [exact Hks| |exact H2].
    each_region; [done|apply Hkf|by apply foreign_tmp].
  - do 6 (split; [done|]). split; [|done]. destruct Hu as [[_ Hf] Ha]; [unfold NULL; lia|]. rewrite H3 in Hf, Ha.
    eapply keeps_holds; [exact Hks| |done]. each_region; [done|apply Hf|by apply foreign_tmp].
Qed.

(** The context that the call leaves, field by field. *)
Lemma begin_running c' m' b k bcap' m1 m2 hr :
  grown m m1 -> buffer_put bcap p c m1 b k bcap' m2 ->
  keeps used m m' -> (forall i, is_Some (m2 !! i) -> is_Some (m' !! i)) ->
  cc_cStage c' = 1 -> cc_prefs c' = p -> cc_cdict c' = cdict ->
  cc_maxBlockSize c' = LZ4F_getBlockSize (blockSizeID (frameInfo p)) -> cc_maxBufferSize c' = k ->
  cc_tmpBuff c' = b -> cc_tmpIn c' = b -> cc_tmpInSize c' = 0 ->
  mem32 (cc_xxh c') = mem32 (cc_xxh c) -> XXH32_rep 0 m' (cc_xxh c') [] ->
  (contentSize (frameInfo p) <> 0 -> cc_totalInSize c' = 0) ->
  ctx_ok D kr (cc_lz4Ctx c') cdict m' linked [] hr -> in_dict dictBuffer dictSize hr ->
  running D kr bcap' c' m' [] [] [] hr /\
  (forall x, borders p c m x -> foreign bcap c x -> foreign bcap' c' x).
Proof.
  intros [Hg _] (Hb & Hreq & Hmax & Hor & Hx & Hks2 & Hfo) Hks Hgrow E1 E2 E3 E4 E5 E6 E7 E8 E9 Hrep Htot Hctx Hin.
  assert (forall x, borders p c m x -> foreign bcap c x -> foreign bcap' c' x) as Hfor.
  { intros x Hm Hf. unfold foreign. rewrite E6, E9. split; [|apply Hf]. apply Hfo; [|done].
    intros Hlt. eapply bordered_keeps; [exact Hg|each_region|by apply Hm]. }
  split; [|done]. destruct Hk as (Hkm & Hkf & Hkd). pose proof Hkf as [_ Hk2].
  assert (apart (b, bcap') kr) as Hk1.
  { destruct kr. apply Hks2; [eapply keeps_mapped; [exact Hg|each_region|done]|by apply foreign_tmp]. }
  assert (4 <= blockSizeID (frameInfo p) <= 7) as Hid by apply Hp. pose proof (block_sizes _ Hid) as Hbs.
  assert (buffer_ok m' b bcap') as Hb' by (by eapply block_grow).
  assert (mapped m' b bcap' /\ 0 <= bcap' /\ 0 <= b /\ b + bcap' < 2 ^ 63 /\ (bcap' = 0 \/ 0 < b)) as (Hbm & Hbb).
  { destruct Hb' as [[-> ->]|(? & ? & ? & ? & _)]; [|split; [done|lia]].
    split; [intros i Hi; lia|unfold NULL; lia]. }
  assert (flushing c' = false -> autoFlush p = 0) as Hfl.
  { unfold flushing. rewrite E2. intros Hf%negb_false_iff%Z.eqb_eq. done. }
  split; [|split; [|split]].
  - split; [|split; [constructor|split]].
    + unfold session_ok, cc_linked. rewrite E1, E2, E4, E5, E6, E9. splits; try done; try lia.
      * by destruct Hrep as ((? & _) & _); rewrite <- E9.
      * unfold required in Hreq. intros Hf%Hfl. rewrite Hf in Hreq. cbn [Z.eqb negb] in Hreq. lia.
    + destruct Hin as [Hz|[Hn Hin]]; [unfold foreign, apart; lia|].
      assert (foreign bcap' c' (dictBuffer, dictSize)) as [F1 F2].
      { by apply Hfor; apply Hu. }
      destruct hr as [h n]. unfold foreign. split; [eapply apart_inside; [exact F1|apply inside_refl|exact Hin]|].
      eapply apart_inside; [exact F2|apply inside_refl|exact Hin].
    + exists hr. rewrite E3. unfold cc_linked. rewrite E2. split; [done|by right].
  - intros Hf%Hfl. unfold required in Hreq. rewrite E4, E5, E6, E7. rewrite Hf in Hreq. cbn [Z.eqb negb] in Hreq.
    unfold KB in *. destruct linked; lia.
  - apply pending_nil; [done|]. rewrite E4. unfold KB, MB in *. lia.
  - split; [done|]. rewrite E2. exact Htot.
Qed.

(** The memory of a new context of the block compressor. *)
Lemma ctx_owned ptr m1 b k bcap' m2 m3 m4 st :
  ctx_taken c m ptr m1 -> buffer_put bcap p c m1 b k bcap' m2 -> blocks_left (cc_tmpBuff c, bcap) m1 m2 ->
  frame (mem32 (cc_xxh c)) (mem32 (cc_xxh c) + 16) m2 m3 -> frame st (st + maxFHSize) m3 m4 ->
  ptr = cc_lz4CtxPtr c \/
  ((0 < ptr /\ ptr + ctxTypeID_to_size 1 < 2 ^ 63) /\ mapped m4 ptr (ctxTypeID_to_size 1) /\ block m4 ptr (ctxTypeID_to_size 1) /\
   (forall a n, mapped m a n -> apart (ptr, ctxTypeID_to_size 1) (a, n)) /\
   apart (b, bcap') (ptr, ctxTypeID_to_size 1)).
Proof.
  intros [Hal|[-> _]] Hput Hbl Hf Hf4; [right|by left].
  assert (apart (cc_tmpBuff c, bcap) (ptr, ctxTypeID_to_size 1)) as Ha.
  { destruct Hr as (_ & [[_ ->]|(_ & _ & _ & Hbm & _)] & _); [unfold apart; cbn; lia|].
    eapply apart_sym, allocated_apart; [exact Hal|done]. }
  pose proof Hal as (Hq & _ & Hm & _ & Hb & _). destruct Hput as (_ & _ & _ & _ & _ & [Hk2 Hnew] & _).
  split; [done|]. splits; try done.
  - eapply frame_mapped, frame_mapped; [exact Hf4|exact Hf|]. eapply keeps_mapped; [exact Hk2|by each_region|done].
  - eapply block_mono; [|by apply Hbl]. intros i Hi. apply Hf4, Hf, Hi.
  - intros a n Ha'. by eapply allocated_apart.
  - by apply (Hnew (ptr, ctxTypeID_to_size 1)).
Qed.

(** Writing the header. *)
Lemma wp_begin_header c1 m3 b k bcap' m1 m2 hr ctx' st ptr alloc :
  let c3 := with_ctx ptr ctx' alloc ctxFast (with_buffer b k (with_prefs p c)) in
  grown m m1 -> buffer_put bcap p c m1 b k bcap' m2 ->
  frame (mem32 (cc_xxh c)) (mem32 (cc_xxh c) + 16) m2 m3 -> keeps [xxhr; (cc_tmpBuff c, bcap)] m m3 -> alloc = 1 \/ alloc = 2 ->
  mem32 st = mem32 (cc_xxh c) -> XXH32_rep 0 m3 st [] ->
  ctx_ok D kr ctx' cdict m3 linked [] hr -> in_dict dictBuffer dictSize hr ->
  c1 = cset_cdict cdict (cset_xxh st (cset_tmpInSize 0 (cset_tmpIn b c3))) -> maxFHSize <= cap ->
  ctx_taken c m ptr m1 -> blocks_left (cc_tmpBuff c, bcap) m1 m2 ->
  wp (size ← LZ4F_writeFrameHeader (frameInfo (cc_prefs c1)) dst;
      let c := if negb (contentSize (frameInfo (cc_prefs c1)) =? 0) then cset_totalInSize 0 c1 else c1 in
      mret (size, cset_cStage 1 c)) begin_post m3.
Proof.
  intros c3 Hg Hput Hf Hks Ha Est Hrep Hctx Hin -> Hcap Htk Hbl.
  change (cc_prefs (cset_cdict cdict _)) with p. destruct Hk as (_ & Hkf & Hkd).
  assert (mapped m3 dst maxFHSize) as Hd3.
  { eapply keeps_mapped; [exact Hks|each_region; [apply Hdf|by apply foreign_tmp]|done]. }
  assert (keeps used m m3) as Hks' by (eapply keeps_sub; [exact Hks|intros r; cbn; tauto]).
  apply wp_bind, wp_writeFrameHeader; [apply Hp|done|]. intros h m4 (Hh & Hf4 & Hz). apply wp_ret.
  right. right. split; [done|]. exists bcap', hr. split.
  2: { split; [split; [by destruct (negb _)|]; split|].
       - intros q n Hq Hqa. eapply block_mono; [|apply Hbl; [by apply Hg|done]]. intros i Hi. apply Hf4, Hf, Hi.
       - intros [a n] Hm Hap. destruct Hput as (_ & _ & _ & _ & _ & [_ Hnew] & _).
         replace (cc_tmpBuff (_, _).2) with b by (by destruct (negb _)). apply (Hnew (a, n)); [|done].
         eapply keeps_mapped; [apply Hg|each_region|done].
       - destruct (negb _); by eapply ctx_owned. }
  set (c5 := cset_cStage 1 _). assert (keeps used m m4) as Hk4.
  { eapply keeps_trans; [exact Hks'|]. eapply (keeps_frame _ (dst, maxFHSize)); [exact Hf4|by left]. }
  assert (apart (dst, maxFHSize) hr) as Hdh.
  { destruct Hin as [?|[Hn Hin]]; [unfold apart; lia|]. destruct (Hu Hn) as [_ Ha']. destruct hr.
    eapply apart_inside; [exact Ha'|apply inside_refl|exact Hin]. }
  pose proof (begin_running c5 m4 b k bcap' m1 m2 hr Hg Hput Hk4) as Hrun.
  assert (contentSize (frameInfo p) <> 0 -> cc_totalInSize c5 = 0) as Htot.
  { intros Hne. unfold c5. destruct (Z.eqb_spec (contentSize (frameInfo p)) 0); done. }
  assert (c5 = cset_totalInSize (cc_totalInSize c5) (cset_cStage 1
    (cset_cdict cdict (cset_xxh st (cset_tmpInSize 0 (cset_tmpIn b c3)))))) as E5.
  { unfold c5. destruct c. by destruct (negb _). }
  rewrite E5 in *. clear E5. set (t := cc_totalInSize c5) in *. clearbody t.
  destruct Hrun as [Hrun Hfor]; try done.
  - intros i Hi. apply Hf4, Hf, Hi.
  - eapply (rep_changes [(dst, maxFHSize)]); [eapply changes_frame; [exact Hf4|by left|apply inside_refl]| |exact Hrep].
    each_region. change (apart (dst, maxFHSize) (mem32 st, 16)). rewrite Est. apply apart_sym, Hdf.
  - eapply ctx_kept; [exact Hf4|done|done|done].
  - unfold begin_done. cbn [fst snd]. splits; try done; try apply Hput.
    + by eapply frame_mapped.
    + eapply block_grow; [|apply Hput]. intros i Hi. apply Hf4, Hf, Hi.
    + intros [a n] Hm Hap. destruct Hput as (_ & _ & _ & _ & _ & [_ Hnew] & _). apply (Hnew (a, n)); [|done].
      eapply keeps_mapped; [apply Hg|each_region|done].
Qed.

Lemma wp_compressBegin_internal :
  wp (LZ4F_compressBegin_internal c dst cap dictBuffer dictSize cdict prefsPtr) begin_post m.
Proof.
  unfold LZ4F_compressBegin_internal. destruct (Z.ltb_spec cap maxFHSize) as [Hlt|Hge]; [apply wp_ret; by left|].
  set (p0 := default LZ4F_INIT_PREFERENCES prefsPtr) in *. set (c0 := cset_prefs p0 c).
  assert (compressionLevel p0 < LZ4HC_CLEVEL_MIN) as Hl.
  { destruct Hp as (_ & [_ Hlv] & _). revert Hlv. unfold p0, effective. by destruct (blockSizeID _ =? 0). }
  assert (forall c' m', cc_lz4CtxAlloc c = 0 \/ cc_maxBufferSize c < required p -> keeps used m m' -> cc_cStage c' = cc_cStage c -> (exists bcap', ready bcap' p c' m' /\ begin_owns bcap' (LZ4F_returnErrorCode LZ4F_ERROR_allocation_failed, c') m') ->
    begin_post (LZ4F_returnErrorCode LZ4F_ERROR_allocation_failed, c') m') as Hbad.
  { intros c' m' H1 H2 H3 H4. right. left. done. }
  destruct Hr as (Hcr & Hbuf & H0 & Hmax & Hxm & Hx).
  apply wp_bind, wp_begin_context; [exact Hcr|exact Hl| |].
  - intros c' Ea ->. cbn [fst snd negb]. apply wp_ret. apply Hbad; [by left|apply keeps_refl|done|].
    exists bcap. split; [split; [by left|]; done|]. split; [split; [done|]; split; [by intros q k|done]|]. left.
    by destruct Hcr as [[_ ->]|[[?|?] _]]; [|cbn in *; lia..].
  - intros ptr s alloc m1 Hg Htk Hs Ha. cbn [fst snd negb]. set (c1 := with_ctx ptr (lz4_fast s) alloc ctxFast c0).
    assert (ctx_ready c1) as Hcr1 by (right; split; [done|]; intros _; by exists s).
    assert (mapped m1 (mem32 (cc_xxh c)) 16) as Hxm1 by (eapply keeps_mapped; [apply Hg|each_region|done]).
    assert (4 <= blockSizeID (frameInfo p) <= 7) as Hid by apply Hp.
    apply wp_bind, (wp_begin_buffer bcap c1 m1); [|exact Hid| |].
    + split; [done|]. split; [by eapply grown_buffer|]. done.
    + intros m' Hlt Hk' Hbl'. cbn [fst snd negb]. apply wp_ret. apply Hbad; [by right| |done|].
      * eapply keeps_trans; [eapply keeps_sub; [apply Hg|done]|].
        eapply keeps_sub; [exact Hk'|]. intros r [<-|[]]. right. right. by left.
      * exists 0. split.
        2: { split; [split; [done|]; split; [intros q n Hq; apply Hbl'; by apply Hg|intros; unfold apart; cbn; lia]|].
             destruct Htk as [Hal|[-> _]]; [right|by left]. pose proof Hal as (Hq & _ & Hm & _ & Hb & _). split; [done|].
             assert (apart (cc_tmpBuff c, bcap) (ptr, ctxTypeID_to_size 1)) as Hap.
             { destruct Hbuf as [[_ ->]|(_ & _ & _ & Hbm & _)]; [unfold apart; cbn; lia|].
               eapply apart_sym, allocated_apart; [exact Hal|done]. }
             splits; try done; [eapply keeps_mapped; [exact Hk'|by each_region|done]|by apply Hbl'| |unfold apart; cbn; lia].
             intros a n Ha'. by eapply allocated_apart. }
        split; [done|]. split; [by left|]. cbn [with_buffer cc_maxBufferSize cset_maxBufferSize].
        split; [done|]. split; [by left|]. split; [|unfold apart; cbn; lia].
        eapply keeps_mapped; [exact Hk'|by each_region|done].
    + intros b k bcap' st m2 m3 Hput Hbl Hf Est Hrep. cbn [fst snd negb].
      assert (keeps [xxhr; (cc_tmpBuff c, bcap)] m m3) as Hks.
      { eapply keeps_trans; [eapply keeps_sub; [apply Hg|done]|].
        eapply keeps_trans; [eapply keeps_sub; [apply Hput|]|].
        - intros r [<-|[]]. right. by left.
        - eapply (keeps_frame _ xxhr); [exact Hf|by left]. }
      assert (dict_given D kr linked m3 dictBuffer dictSize cdict) as Hd3.
      { apply dict_keeps. eapply keeps_sub; [exact Hks|]. intros r Hr'. by right. }
      apply wp_bind, (wp_begin_init D kr _ m3 dictBuffer dictSize cdict s); [done|done|done| |exact Hd3|].
      { change (compressionLevel p < LZ4HC_CLEVEL_MIN). apply Hp. }
      intros ctx' hr Hctx Hin. cbn [fst snd negb].
      by eapply (wp_begin_header _ m3 b k bcap' m1 m2 hr ctx' st ptr alloc).
Qed.

(** * Memory of the user *)

(** The user's destination and sources before the first call. *)
Definition user_dst : Prop :=
  (0 < dst /\ dst + cap <= 2 ^ 63) /\ mapped m dst cap /\ foreign bcap c (dst, cap) /\ apart (dst, cap) kr /\
  (dictBuffer <> NULL -> apart (dst, cap) (dictBuffer, dictSize)).

Definition user_src (src : Z) (inp : list Z) : Prop :=
  (0 < src /\ src + zlen inp <= 2 ^ 63 /\ zlen inp < 2 ^ 47 /\ bytes_ok inp) /\ holds m src inp /\
  apart (src, zlen inp) kr /\ apart (dst, cap) (src, zlen inp) /\
  (borders p c m (src, zlen inp) /\ foreign bcap c (src, zlen inp)) /\
  (src + zlen inp <= mem32 (cc_xxh c) \/ mem32 (cc_xxh c) + 16 <= src) /\
  (dictBuffer <> NULL -> apart (src, zlen inp) (dictBuffer, dictSize)).

Lemma in_dict_apart u x :
  in_dict dictBuffer dictSize u -> (dictBuffer <> NULL -> apart x (dictBuffer, dictSize)) -> apart x u.
Proof.
  intros [Hz|[Hn Hin]] Hx; [unfold apart; lia|]. destruct x, u.
  eapply apart_inside; [by apply Hx|apply inside_refl|exact Hin].
Qed.

(** Memory that was in use is apart from the memory of the context. *)
Lemma begun_apart r m1 bcap' u x :
  begin_done r m1 bcap' u -> mapped m x.1 x.2 -> foreign bcap c x ->
  apart (cc_tmpBuff r.2, bcap') x /\ apart (mem32 (cc_xxh r.2), 16) x.
Proof.
  intros (_ & _ & _ & _ & _ & _ & (_ & _ & -> & _) & _ & _ & _ & [_ Hnew] & _) Hm Hf.
  split; [apply Hnew; [done|by apply foreign_tmp]|apply Hf].
Qed.

Lemma begun_dst r m1 bcap' u :
  begin_done r m1 bcap' u -> maxFHSize <= cap -> user_dst ->
  dst_ok kr bcap' r.2 m1 (dst + r.1) (cap - r.1) u.
Proof.
  intros Hb Hcap (Hd & Hdm & Hf & Hdk & Hdd). destruct (begun_apart _ _ _ _ (dst, cap) Hb Hdm Hf) as [F1 F2].
  destruct Hb as (E1 & Hz & Hh & Hm19 & _ & Hin & _ & _ & _ & _ & [Hks _] & _).
  rewrite <- E1 in Hz. change maxFHSize with 19 in *. assert (0 <= r.1) as Hh0 by (rewrite E1; apply zlen_nonneg).
  assert (mapped m1 dst cap) as Hdm1.
  { intros j Hj. destruct (Z.lt_ge_cases j (dst + 19)); [apply Hm19; lia|].
    rewrite Hks; [by apply Hdm|by apply Hdm|]. each_region; cbn [fst snd]; [lia|..].
    - destruct Hf as [_ Hx]. unfold apart in Hx. cbn [fst snd] in Hx. lia.
    - apply foreign_tmp in Hf. unfold apart in Hf. cbn [fst snd] in Hf. lia. }
  eapply (dst_part _ _ _ _ dst cap); [|lia|lia|lia].
  split; [lia|]. split; [done|]. split; [done|]. split; [|split; [by apply apart_sym|by eapply in_dict_apart]].
  by apply apart_sym.
Qed.

Lemma begun_src r m1 bcap' u src inp :
  begin_done r m1 bcap' u -> maxFHSize <= cap -> user_src src inp ->
  src_ok kr bcap' r.2 m1 (dst + r.1) (cap - r.1) src inp u.
Proof.
  intros (E1 & Hz & Hh & Hm19 & _ & Hin & (_ & _ & Ex & _) & _ & _ & _ & [Hks _] & Hfor) Hcap
    (Hs & Hsh & Hsk & Hsd & [Hsb Hsf] & Hsx & Hsu).
  rewrite <- E1 in Hz. change maxFHSize with 19 in *. assert (0 <= r.1) as Hh0 by (rewrite E1; apply zlen_nonneg).
  assert (foreign bcap' r.2 (src, zlen inp)) as F3 by (by apply Hfor).
  assert (holds m1 src inp) as Hsh1.
  { eapply keeps_holds; [exact Hks| |done]. each_region; [sub_apart Hsd|apply Hsf|by apply foreign_tmp]. }
  split; [done|]. split; [done|]. split; [done|]. split; [by eapply in_dict_apart|]. split; [sub_apart Hsd|].
  split; [done|]. by rewrite Ex.
Qed.

(** A frame that was begun and went on writes only to the destination and to the
    memory of the context; the user writes to the regions [ws] meanwhile. *)
Definition frame_keeps (ws : list (Z * Z)) (m1 m2 : mem) : Prop :=
  keeps ([(dst, cap); xxhr; (cc_tmpBuff c, bcap)] ++ ws) m1 m2.

Lemma begin_frame_keeps ws m1 : keeps used m m1 -> maxFHSize <= cap -> frame_keeps ws m m1.
Proof.
  intros Hks Hcap j Hj [Hn _]%Forall_app. apply Hks; [done|]. inversion Hn as [|? ? Hn1 Hn2]. subst. constructor; [|done].
  cbn [fst snd] in *. lia.
Qed.

Lemma begun_keeps r m1 bcap' u ws m2 :
  begin_done r m1 bcap' u -> maxFHSize <= cap ->
  changes ([(dst, cap); (cc_tmpBuff r.2, bcap'); (mem32 (cc_xxh r.2), 16)] ++ ws) m1 m2 -> frame_keeps ws m m2.
Proof.
  intros (_ & _ & _ & _ & _ & _ & (_ & _ & Ex & _) & _ & _ & _ & (Hks & Hnew) & _) Hcap [Hch _] j Hj Hn.
  rewrite <- (begin_frame_keeps ws m1 Hks Hcap j Hj Hn). apply Hch. apply Forall_app in Hn as [Hn Hws].
  apply Forall_app. split; [|done]. clear Hch.
  inversion Hn as [|? ? Hn1 Hn']. subst. inversion Hn' as [|? ? Hn2 Hn'']. subst. inversion Hn'' as [|? ? Hn3 _]. subst.
  cbn [fst snd] in *. assert (apart (cc_tmpBuff r.2, bcap') (j, 1)) as Ha.
  { apply Hnew; [intros k Hk'; cbn in Hk'; by replace k with j by lia|]. unfold apart. cbn [fst snd]. lia. }
  unfold apart in Ha. cbn [fst snd] in Ha. rewrite Ex. constructor; [done|]. constructor; [cbn; lia|]. by constructor.
Qed.
End Call.
End Begin.
