(* ===== verification/Lz4FrameOneShot.v ===== *)
(** Frames that are compressed in a single step: [LZ4F_compressFrame_usingCDict]
    begins, fills and ends a frame in one buffer. *)
From S2P Require Import Prelude.
From S2P Require Import Mem.
From S2P Require Import Xxhash.
From S2P Require Import XxhashSpec.
From S2P Require Import XxhashStream.
From S2P Require Import Lz4Common.
From S2P Require Import Lz4Decompress.
From S2P Require Import Lz4Compress.
From S2P Require Import Lz4CompressSpec.
From S2P Require Import Lz4StreamCompress.
From S2P Require Import Lz4StreamCompressSpec.
From S2P Require Import Lz4Frame.
From S2P Require Import Lz4FrameDecode.
From S2P Require Import FrameFormat.
From S2P Require Import Lz4FrameHeader.
From S2P Require Import Lz4FrameInv.
From S2P Require Import Lz4FrameCompress.
From S2P Require Import Lz4FrameMakeBlock.
From S2P Require Import Lz4FrameCompressInv.
From S2P Require Import Lz4FrameUpdateSpec.
From S2P Require Import Lz4FrameCompressCalls.
From S2P Require Import Lz4FrameBeginSpec.

(** * Reuse of a context *)

Section Reuse.
Context `{HA : Allocator} `{HHC : LZ4_HC}.

(** What makes a context reusable once its frame has ended: the block
    compressor's state remembers a block, or nothing. *)
Definition reusable (D : list Z) (linked : bool) (cdict : option LZ4F_CDict) (total : list Z) : Prop :=
  total <> [] \/ linked = false \/ (cdict = None /\ D = []).

Lemma ended_ready D kr bcap p c c' m m' total hr rs :
  same_frame c c' -> changes rs m m' ->
  ctx_ok D kr (cc_lz4Ctx c') (cc_cdict c) m' (cc_linked c) total hr ->
  reusable D (cc_linked c) (cc_cdict c) total ->
  cc_lz4CtxAlloc c = 1 \/ cc_lz4CtxAlloc c = 2 ->
  buffer_ok m (cc_tmpBuff c) bcap -> 0 <= cc_maxBufferSize c ->
  cc_maxBufferSize c <= bcap \/ (autoFlush p <> 0 /\ 64 * KB <= cc_maxBufferSize c) ->
  mapped m (mem32 (cc_xxh c)) 16 -> apart (cc_tmpBuff c, bcap) (mem32 (cc_xxh c), 16) ->
  ready bcap p c' m'.
Proof.
  intros (E1 & E2 & E3 & E4 & E5 & E6 & E7 & E8 & E9 & E10) Hch [_ (s & Es & Hs)] Hre Ha Hb H0 Hmax Hx Hax.
  unfold ready. rewrite E4, E5, E6. splits; try done; [|by eapply block_grow; [apply Hch|]|by eapply changes_mapped].
  right. rewrite E9. split; [done|]. intros _. exists s. split; [done|].
  destruct (cc_linked c); [|apply Hs].
  destruct Hs as [(h & _ & _ & _ & _ & [Hwf|[Ho HD]])|((w & d & Ed & _) & Ho & _)]; [done|..];
    destruct Hre as [?|[?|[? ?]]]; congruence.
Qed.
End Reuse.

(** * The end of a frame *)

Section Finish.
Context `{HA : Allocator} `{HHC : LZ4_HC}.
Context (D : list Z) (kr : Z * Z) (bcap : Z) (c : LZ4F_cctx) (m : mem) (dst cap : Z).
Context (dictBuffer dictSize : Z) (cdict : option LZ4F_CDict) (prefsPtr : option LZ4F_preferences_t).
Abbreviation p := (effective (default LZ4F_INIT_PREFERENCES prefsPtr)).
Abbreviation i := (frameInfo p).
Abbreviation linked := (blockMode i =? LZ4F_blockLinked).

(** A frame that was begun with the result [r1], and has the blocks [bs] in [n]
    bytes with the header; the user has written to [ws]. *)
Definition unfinished (r1 : Z * LZ4F_cctx) (m1 : mem) (bcap' : Z) (u : Z * Z) (c2 : LZ4F_cctx) (m2 : mem)
    (bs : list fblock) (o pend : list Z) (u2 : Z * Z) (n : Z) (ws : list (Z * Z)) : Prop :=
  let l := frame_header i ++ enc_blocks i bs in
  begin_done D kr bcap c m dst dictBuffer dictSize cdict prefsPtr r1 m1 bcap' u /\
  same_frame r1.2 c2 /\
  changes ([(dst, cap); (cc_tmpBuff r1.2, bcap'); (mem32 (cc_xxh r1.2), 16)] ++ ws) m1 m2 /\ n = zlen l /\ n <= cap /\ holds m2 dst l /\
  running D kr bcap' c2 m2 bs o pend u2 /\ dst_ok kr bcap' c2 m2 (dst + n) (cap - n) u2.

(** The size in the header is right, or there is none. *)
Definition size_right (total : list Z) : Prop :=
  contentSize i = 0 \/ contentSize i = u64 (zlen total).

(** The frame is complete. *)
Definition finished (total : list Z) (n : Z) (r : Z * LZ4F_cctx) (m' : mem) : Prop :=
  exists bs, let l := frame_of i (negb (contentSize i =? 0)) (negb (dictID i =? 0)) bs total in
    produced i D bs total /\ holds m' dst l /\ n <= zlen l <= cap /\
    ((size_right total /\ r.1 = zlen l - n) \/
     (~ size_right total /\ r.1 = LZ4F_returnErrorCode LZ4F_ERROR_frameSize_wrong)) /\
    (reusable D linked cdict total -> exists bcap', ready bcap' p r.2 m').

Context (Hp : prefs_wf p) (Hdst : user_dst kr bcap c m dst cap dictBuffer dictSize).

Lemma wp_finish_frame r1 m1 bcap' u c2 m2 bs o pend u2 n ws optsPtr :
  unfinished r1 m1 bcap' u c2 m2 bs o pend u2 n ws ->
  (pend <> [] -> cc_linked c2 = true -> cc_blockCompressMode c2 = LZ4B_COMPRESSED) -> maxFHSize <= cap ->
  wp (LZ4F_compressEnd c2 (dst + n) (cap - n) optsPtr) (fun r m' =>
    frame_keeps bcap c dst cap ws m m' /\
    ((cap - n < LZ4F_compressBound_internal 0 (Some p) (zlen pend) /\
     r.1 = LZ4F_returnErrorCode LZ4F_ERROR_dstMaxSize_tooSmall) \/
    finished (o ++ pend) n r m')) m2.
Proof.
  intros (Hb & Hsf & Hch & En & Hn & Hh & Hrun & Hd) Hcm Hcap.
  pose proof Hb as (E1 & Hz & _ & _ & Hrun0 & _ & (Ep & Ec & _) & (Hbuf & Hreq & _ & Hor) & Ha & _).
  pose proof Hsf as (Ep2 & Ec2 & _ & Em2 & Et2 & Ex2 & _ & _ & Ea2 & _). rewrite Ep in Ep2. rewrite Ec in Ec2.
  assert (0 <= n) as Hn0 by (rewrite En; apply zlen_nonneg).
  eapply wp_mono; [by eapply wp_compressEnd|].
  intros r m3 (Hch3 & Hsf3 & Hend). split.
  { eapply begun_keeps; [exact Hb|done|]. eapply changes_trans; [exact Hch|]. rewrite Et2 in Hch3.
    eapply changes_sub; [eapply (changes_widen _ _ dst cap); [exact Hch3|]|].
    - unfold inside. cbn [fst snd]. lia.
    - intros q Hq. apply in_app_iff. left. revert Hq. cbn. tauto. }
  destruct Hend as [[Hbad Er]|Hdone]; [left; by rewrite Ep2 in Hbad|right].
  destruct Hdone as (bs' & hr & Hprod & Hhe & Hle & Er & Est & Hctx). rewrite Ep2 in *.
  exists (bs ++ bs'). set (l := frame_of _ _ _ _ _). set (tail := enc_blocks i bs' ++ _) in *.
  assert (l = (frame_header i ++ enc_blocks i bs) ++ tail) as El.
  { unfold l, tail, frame_of. by rewrite enc_blocks_app, !app_assoc. }
  assert (zlen l = n + zlen tail) as Ezl by (rewrite El, zlen_app; lia). pose proof (zlen_nonneg tail).
  split; [done|]. split; [|split; [lia|split]].
  - rewrite El. apply holds_app. rewrite <- En. split; [|done].
    eapply changes_holds; [exact Hch3| |exact Hh]. rewrite <- En.
    destruct Hdst as (_ & Hm & Hf & _).
    destruct (begun_apart _ _ _ _ _ _ _ _ _ _ _ _ _ _ (dst, cap) Hb Hm Hf) as [F1 _].
    each_region; [unfold apart; cbn [fst snd]; lia|].
    rewrite Et2. sub_apart F1.
  - rewrite Er. unfold size_wrong, size_right. rewrite Ep2.
    destruct (Z.eqb_spec (contentSize i) 0), (Z.eqb_spec (contentSize i) (u64 (zlen (o ++ pend)))); cbn [negb andb];
      [left|left|left|right]; (split; [tauto|]; lia || done).
  - intros Hre. exists bcap'.
    pose proof Hrun0 as (((_ & _ & _ & _ & Hxm & _ & _ & (Hxa & _)) & _) & _).
    assert (cc_linked c2 = linked) as Elk by (unfold cc_linked; by rewrite Ep2).
    eapply (ended_ready D kr bcap' p c2 r.2 m2 m3 (o ++ pend) hr); [exact Hsf3|exact Hch3|done|by rewrite Elk, Ec2|by rewrite Ea2|..].
    + rewrite Et2. eapply block_grow; [apply Hch|done].
    + rewrite Em2. pose proof (required_nonneg p ltac:(apply Hp)). lia.
    + by rewrite Em2.
    + rewrite Ex2. by eapply changes_mapped.
    + by rewrite Et2, Ex2.
Qed.
End Finish.

(** * Preferences *)

Lemma optimalBSID_range r n fuel p size :
  p <= r -> p <= optimalBSID_loop fuel r n p size <= r.
Proof.
  revert p size. induction fuel as [|fuel IH]; intros p size Hp; cbn [optimalBSID_loop]; [lia|].
  destruct (Z.ltb_spec p r); [|lia]. destruct (n <=? size); [lia|]. specialize (IH (p + 1) (u64 (Z.shiftl size 2))). lia.
Qed.

Lemma optimalBSID_small r n : r <= LZ4F_max64KB -> LZ4F_optimalBSID r n = r.
Proof.
  intros Hr. unfold LZ4F_optimalBSID. cbn [optimalBSID_loop]. destruct (Z.ltb_spec LZ4F_max64KB r); [lia|done].
Qed.

(** The preferences are as well-formed as those of the user. *)
Lemma frame_prefs_wf n prefsPtr :
  0 <= n < 2 ^ 64 -> prefs_wf (effective (default zero_preferences prefsPtr)) ->
  prefs_wf (effective (compressFrame_prefs n prefsPtr)).
Proof.
  intros Hn. unfold compressFrame_prefs. set (p := default zero_preferences prefsPtr). clearbody p.
  destruct p as [[bid mode ccf ft cs did bcf] lvl af fav].
  unfold effective, set_contentSize, set_blockSizeID, set_autoFlush, set_blockMode.
  cbn [frameInfo blockSizeID contentSize].
  assert (forall b', (b' = bid \/ 4 <= b' <= 7) -> forall cs' mode' af', 0 <= cs' < 2 ^ 64 -> mode' = mode \/ mode' = 1 ->
    0 <= af' < 2 ^ 32 ->
    prefs_wf (effective (Preferences (FrameInfo bid mode ccf ft cs did bcf) lvl af fav)) ->
    prefs_wf (effective (Preferences (FrameInfo b' mode' ccf ft cs' did bcf) lvl af' fav))) as Hgen.
  { intros b' Hb' cs' mode' af' Hcs Hmode Haf. unfold effective, set_blockSizeID, prefs_wf, info_wf.
    cbn [frameInfo blockSizeID]. change LZ4F_BLOCKSIZEID_DEFAULT with 4.
    destruct (Z.eqb_spec bid 0), (Z.eqb_spec b' 0);
      cbn [frameInfo blockSizeID blockMode contentChecksumFlag frameType contentSize dictID blockChecksumFlag
           compressionLevel autoFlush]; intros (Hi & Hl & _); destruct_and! Hi; splits; try done; lia. }
  intros Hp.
  assert (0 <= cs < 2 ^ 64) as Hcs.
  { destruct Hp as (Hi & _). revert Hi. unfold info_wf. destruct (bid =? 0); intros Hi; apply Hi. }
  assert (forall k, k = bid -> LZ4F_optimalBSID k n = bid \/ 4 <= LZ4F_optimalBSID k n <= 7) as Hb.
  { intros k ->. destruct (Z.leb_spec bid 4); [left; by apply optimalBSID_small|right].
    assert (bid <= 7) as Hb7.
    { destruct Hp as (Hi & _). unfold info_wf in Hi. cbn [frameInfo blockSizeID] in Hi.
      destruct (Z.eqb_spec bid 0); [lia|]. apply Hi. }
    pose proof (optimalBSID_range bid n (S (Z.to_nat (bid - LZ4F_max64KB))) LZ4F_max64KB (64 * KB)) as Hr.
    unfold LZ4F_optimalBSID. change LZ4F_max64KB with 4 in *. lia. }
  destruct (negb (cs =? 0)); cbn [frameInfo blockSizeID];
    (match goal with |- context [n <=? ?x] => destruct (n <=? x) end); cbn [frameInfo blockSizeID];
    apply Hgen; first [exact Hp|by apply Hb|exact Hn|exact Hcs|by left|by right|cbn; lia].
Qed.

(** * The call *)

Section OneShot.
Context `{HA : Allocator} `{HHC : LZ4_HC}.
Context (D : list Z) (kr : Z * Z) (bcap : Z) (c : LZ4F_cctx) (m : mem) (dst cap src : Z) (inp : list Z).
Context (cdict : option LZ4F_CDict) (prefsPtr : option LZ4F_preferences_t).
Abbreviation n := (zlen inp).
Abbreviation prefs := (compressFrame_prefs n prefsPtr).
Abbreviation p := (effective prefs).
Abbreviation i := (frameInfo p).
Abbreviation linked := (blockMode i =? LZ4F_blockLinked).
Abbreviation bound := (LZ4F_compressFrameBound n (Some prefs)).
Abbreviation opts := (CompressOptions 1).

Context (Hp : prefs_wf p) (Hr : ready bcap p c m) (Hdict : dict_given D kr linked m NULL 0 cdict).
Context (Hk : mapped m kr.1 kr.2 /\ foreign bcap c kr).
Context (Hdst : (0 < dst /\ dst + cap <= 2 ^ 63) /\ mapped m dst cap /\ foreign bcap c (dst, cap) /\
  apart (dst, cap) kr).
Context (Hsrc : (0 < src /\ src + n <= 2 ^ 63 /\ n < 2 ^ 47 /\ bytes_ok inp) /\ holds m src inp /\
  apart (src, n) kr /\ apart (dst, cap) (src, n) /\ (borders p c m (src, n) /\ foreign bcap c (src, n)) /\
  (src + n <= mem32 (cc_xxh c) \/ mem32 (cc_xxh c) + 16 <= src)).

(** The frame is written, and the context can be used again. *)
Definition frame_done (r : Z * LZ4F_cctx) (m' : mem) : Prop :=
  exists bs, let l := frame_of i (negb (contentSize i =? 0)) (negb (dictID i =? 0)) bs inp in
    produced i D bs inp /\ r.1 = zlen l /\ zlen l <= cap /\ holds m' dst l /\
    (reusable D linked cdict inp -> exists bcap', ready bcap' p r.2 m').

Definition oneshot_post (r : Z * LZ4F_cctx) (m' : mem) : Prop :=
  frame_keeps bcap c dst cap [] m m' /\
  ((cap < bound /\ r = (LZ4F_returnErrorCode LZ4F_ERROR_dstMaxSize_tooSmall, c) /\ m' = m) \/
  (bound <= cap /\ r.1 = LZ4F_returnErrorCode LZ4F_ERROR_allocation_failed /\
   (cc_lz4CtxAlloc c = 0 \/ cc_maxBufferSize c < required p) /\
   exists bcap', ready bcap' p r.2 m') \/
  (bound <= cap /\ frame_done r m')).

Lemma content_bound : 0 <= LZ4F_compressBound_internal n (Some p) 0 < 2 ^ 60.
Proof.
  destruct Hsrc as ((_ & _ & Hn & _) & _). pose proof (zlen_nonneg inp).
  assert (4 <= blockSizeID i <= 7 /\ 0 <= blockChecksumFlag i <= 1 /\ 0 <= contentChecksumFlag i <= 1) as (Hid & Hc & Hcc)
    by (split; [apply Hp|split; apply Hp]). pose proof (block_sizes _ Hid) as HB. unfold KB, MB in HB.
  pose proof (bound_need p n 0 Hp ltac:(lia) ltac:(lia)) as [Hb1 Hb2].
  pose proof (need_nonneg (LZ4F_getBlockSize (blockSizeID i)) (4 * blockChecksumFlag i) (negb (autoFlush p =? 0))
    ltac:(lia) ltac:(lia) (n + 0)). lia.
Qed.

(** The bound has room for the header and for what is added. *)
Lemma frame_bound : bound = maxFHSize + LZ4F_compressBound_internal n (Some p) 0.
Proof.
  assert (autoFlush prefs = 1) as Eaf by (unfold compressFrame_prefs; by destruct (_ <=? _)).
  assert (set_autoFlush 1 prefs = prefs) as Ep by (rewrite <- Eaf; by destruct prefs).
  unfold LZ4F_compressFrameBound. rewrite Ep.
  assert (LZ4F_compressBound_internal n (Some prefs) 0 = LZ4F_compressBound_internal n (Some p) 0) as ->.
  { unfold effective. destruct (Z.eqb_spec (blockSizeID (frameInfo prefs)) 0) as [E|_]; [|done].
    unfold LZ4F_compressBound_internal, set_blockSizeID. rewrite E. reflexivity. }
  pose proof content_bound. change maxFHSize with 19. apply u64_small. lia.
Qed.

(** A whole frame has no wrong size. *)
Lemma frame_size_right : contentSize i = 0 \/ contentSize i = n.
Proof.
  unfold effective, compressFrame_prefs. set (q := default zero_preferences prefsPtr). clearbody q.
  destruct (Z.eqb_spec (contentSize (frameInfo q)) 0) as [E|E]; cbn [negb];
    (match goal with |- context [n <=? ?x] => destruct (n <=? x) end);
    (match goal with |- context [?x =? 0] => destruct (x =? 0) end); first [by left|by right].
Qed.

(** The memory of the user after the beginning. *)
Lemma begun_memory r m1 bcap' u :
  begin_done D kr bcap c m dst NULL 0 cdict (Some prefs) r m1 bcap' u -> maxFHSize <= cap ->
  dst_ok kr bcap' r.2 m1 (dst + r.1) (cap - r.1) u /\
  src_ok kr bcap' r.2 m1 (dst + r.1) (cap - r.1) src inp u.
Proof.
  intros Hb Hcap. split.
  - eapply begun_dst; [exact Hb|done|]. destruct Hdst as (H1 & H2 & H3 & H4). done.
  - eapply begun_src; [exact Hb|done|]. destruct Hsrc as (H1 & H2 & H3 & H4 & H5 & H6). done.
Qed.

(** What is known after the update. *)
Definition filled (r1 r : Z * LZ4F_cctx) (m1 m2 : mem) (bcap' : Z) (bs : list fblock) (u : Z * Z) : Prop :=
  r.1 = zlen (enc_blocks i bs) /\
  r1.1 + r.1 + 4 + 4 * contentChecksumFlag i <= cap /\
  holds m2 dst (frame_header i ++ enc_blocks i bs) /\
  running D kr bcap' r.2 m2 bs inp [] u /\ same_frame r1.2 r.2 /\
  dst_ok kr bcap' r.2 m2 (dst + r1.1 + r.1) (cap - r1.1 - r.1) u /\
  changes [(dst, cap); (cc_tmpBuff r1.2, bcap'); (mem32 (cc_xxh r1.2), 16)] m1 m2.

Lemma wp_oneshot_fill r1 m1 bcap' u Q :
  begin_done D kr bcap c m dst NULL 0 cdict (Some prefs) r1 m1 bcap' u -> bound <= cap ->
  (forall r m2 bs u', filled r1 r m1 m2 bcap' bs u' -> Q r m2) ->
  wp (LZ4F_compressUpdate r1.2 (dst + r1.1) (u64 (dst + cap - (dst + r1.1))) src n (Some opts)) Q m1.
Proof.
  intros Hb Hcap HQ. pose proof Hb as (E1 & Hz & Hh & _ & Hrun & _ & (Ep & _) & _).
  change (effective (default _ (Some prefs))) with p in *. pose proof frame_bound as Ebd.
  destruct (begun_memory _ _ _ _ Hb) as [Hd Hs].
  { pose proof content_bound. lia. }
  assert (0 <= r1.1) as H0 by (rewrite E1; apply zlen_nonneg). rewrite <- E1 in Hz.
  pose proof Hd as ((Hd0 & Hd1 & Hd2) & Hdm & _ & Hdt & Hdx & Hdu).
  replace (dst + cap - (dst + r1.1)) with (cap - r1.1) by lia. rewrite u64_small by lia.
  pose proof (enough_bound D kr bcap' r1.2 m1 [] [] [] u (dst + r1.1) (cap - r1.1) Hrun src inp Hs) as [He0 He].
  rewrite Ep in He, He0. unfold LZ4F_compressUpdate.
  eapply wp_mono; [apply (wp_compressUpdateImpl D kr bcap' r1.2 m1 [] [] [] u); try done; by right|].
  intros r m2 [(Hbad & _)|(Hok & bs & o & pend & u' & En & Hle & Hhb & Hrun2 & Eo & Hsf & Emd & Hch & Hcov & _)].
  { exfalso. rewrite Ep, zlen_nil, Ebd in *. destruct Hbad as [?|[? _]]; [lia|done]. }
  change (same_frame r1.2 r.2) in Hsf. cbn [cc_prefs cset_blockCompressMode] in *. rewrite Ep in *.
  assert (pend = []) as ->.
  { destruct Hrun2 as (_ & _ & (_ & _ & _ & _ & Hfl) & _). apply Hfl. destruct Hsf as (E & _).
    unfold flushing. rewrite E, Ep. unfold effective, compressFrame_prefs.
    (match goal with |- context [n <=? ?x] => destruct (n <=? x) end);
    (match goal with |- context [if ?x =? 0 then set_blockSizeID _ _ else _] => destruct (x =? 0) end); done. }
  rewrite !app_nil_r in Eo. cbn [app] in Eo. subst o.
  assert (apart (dst, cap) (cc_tmpBuff r1.2, bcap') /\ apart (dst, cap) (mem32 (cc_xxh r1.2), 16)) as [Ht Hx].
  { destruct Hdst as (_ & Hm & Hf & _).
    destruct (begun_apart _ _ _ _ _ _ _ _ _ _ _ _ _ _ (dst, cap) Hb Hm Hf) as [F1 F2]. by split; apply apart_sym. }
  apply (HQ r m2 bs u'). unfold filled. pose proof (zlen_nonneg (enc_blocks i bs)). rewrite zlen_nil in *.
  assert (0 <= contentChecksumFlag i) by apply Hp.
  splits; try done; try lia.
  - apply holds_app. rewrite <- E1. split; [|done]. eapply changes_holds; [exact Hch| |exact Hh]. each_region.
    + unfold apart. cbn [fst snd]. lia.
    + rewrite <- E1. apply apart_sym. sub_apart Ht.
    + rewrite <- E1. apply apart_sym. sub_apart Hx.
  - assert (dst_ok kr bcap' r.2 m2 (dst + r1.1) (cap - r1.1) u') as Hd'.
    { destruct Hsf as (_ & _ & _ & _ & S5 & S6 & _). unfold dst_ok. rewrite S5, S6.
      splits; try done; try lia; [by eapply changes_mapped|apply Hd|].
      eapply covered_apart; [exact Hcov|exact Hdu|]. apply Hs. }
    eapply dst_part; [exact Hd'|lia|lia|lia].
  - eapply changes_widen; [exact Hch|]. unfold inside. cbn [fst snd]. lia.
Qed.

Lemma wp_oneshot_end r1 m1 bcap' u r2 m2 bs u2 :
  begin_done D kr bcap c m dst NULL 0 cdict (Some prefs) r1 m1 bcap' u -> bound <= cap ->
  filled r1 r2 m1 m2 bcap' bs u2 ->
  wp (r ← LZ4F_compressEnd r2.2 (dst + r1.1 + r2.1) (u64 (dst + cap - (dst + r1.1 + r2.1))) (Some opts);
      if LZ4F_isError r.1 then mret r else
      let dstPtr := dst + r1.1 + r2.1 + r.1 in
      mret (u64 (dstPtr - dst), r.2)) oneshot_post m2.
Proof.
  intros Hb Hcap (En & Hroom & Hh & Hrun & Hsf & Hd & Hch).
  pose proof Hb as (E1 & _ & _ & _ & _ & _ & (Ep & _) & _). pose proof Hsf as (Ep2 & _). rewrite Ep in Ep2.
  change (effective (default _ (Some prefs))) with p in *.
  assert (0 <= r1.1 /\ 0 <= r2.1) as [H1 H2] by (rewrite E1, En; split; apply zlen_nonneg).
  assert (0 <= contentChecksumFlag i) as Hcc by apply Hp. destruct Hdst as ((Hd0 & Hd1) & Hd').
  replace (dst + cap - (dst + r1.1 + r2.1)) with (cap - (r1.1 + r2.1)) by lia. rewrite u64_small by lia.
  rewrite <- Z.add_assoc, <- Z.sub_add_distr in *. apply wp_bind.
  eapply wp_mono; [apply (wp_finish_frame D kr bcap c m dst cap NULL 0 cdict (Some prefs) Hp) with (bs := bs) (pend := []) (o := inp)
    (r1 := r1) (m1 := m1) (u := u) (u2 := u2) (bcap' := bcap') (ws := [])|].
  - destruct Hd' as (D1 & D2 & D3). done.
  - unfold unfinished. change (effective (default _ (Some prefs))) with p. rewrite zlen_app, <- E1, <- En.
    splits; try done. lia.
  - done.
  - pose proof content_bound. rewrite frame_bound in Hcap. lia.
  - intros r m3 [Hks [(Hbad & _)|(bs' & Hprod & Hl & Hle & Hsz & Hre)]].
    { exfalso. change (effective (default _ (Some prefs))) with p in Hbad. rewrite <- Ep2 in Hbad. erewrite (end_bound_eq D kr bcap' r2.2 m2 bs inp []) in Hbad by exact Hrun.
      rewrite Ep2 in Hbad. change (zlen (@nil Z) =? 0) with true in Hbad. cbn iota in Hbad. lia. }
    rewrite app_nil_r in *. change (effective (default _ (Some prefs))) with p in *.
    destruct Hsz as [[_ Er]|[Hbad _]].
    2: { exfalso. apply Hbad. destruct Hsrc as ((_ & _ & Hn & _) & _). pose proof (zlen_nonneg inp). unfold size_right.
      rewrite u64_small by lia. exact frame_size_right. }
    rewrite small_not_error by lia. apply wp_ret. split; [done|]. right. right. split; [done|]. exists bs'. cbn [fst snd].
    split; [done|]. split; [|split; [lia|done]]. set (l := frame_of _ _ _ _ _) in *.
    replace (dst + (r1.1 + r2.1) + r.1 - dst) with (zlen l) by lia. rewrite u64_small by lia. done.
Qed.

Lemma wp_compressFrame_usingCDict :
  wp (LZ4F_compressFrame_usingCDict c dst cap src n cdict prefsPtr) oneshot_post m.
Proof.
  unfold LZ4F_compressFrame_usingCDict. destruct (Z.ltb_spec cap bound) as [Hlt|Hge]; [apply wp_ret; split; [apply keeps_refl|by left]|].
  pose proof frame_bound as Ebd. pose proof content_bound as Hcb. pose proof Hdst as (_ & Hdm & Hdf & Hdk).
  change maxFHSize with 19 in Ebd.
  assert (foreign bcap c (dst, maxFHSize)) as Hdf'.
  { destruct Hdf as [F1 F2]. unfold foreign. change maxFHSize with 19. split; [sub_apart F1|sub_apart F2]. }
  apply wp_bind. unfold LZ4F_compressBegin_usingCDict.
  eapply wp_mono; [apply (wp_compressBegin_internal D kr bcap c m dst cap NULL 0 cdict (Some prefs)); try done|].
  - change maxFHSize with 19. eapply mapped_sub; [exact Hdm|lia|lia].
  - split; [apply Hk|]. split; [apply Hk|]. change maxFHSize with 19. destruct kr. sub_apart Hdk.
  - intros r1 m1 [(Hbad & _)|[(_ & Er & Hneed & _ & Hks & bcap' & Hrd & _)|(_ & bcap' & u & Hb & _)]].
    + change maxFHSize with 19 in Hbad. lia.
    + rewrite Er. change (LZ4F_isError (LZ4F_returnErrorCode LZ4F_ERROR_allocation_failed)) with true. cbn iota.
      apply wp_ret. split; [apply begin_frame_keeps; [exact Hks|change maxFHSize with 19; lia]|]. right. left.
      split; [lia|]. split; [done|]. split; [done|]. by exists bcap'.
    + pose proof Hb as (E1 & Hz & _). assert (0 <= r1.1) as H0 by (rewrite E1; apply zlen_nonneg).
      rewrite <- E1 in Hz. change maxFHSize with 19 in Hz. rewrite small_not_error by lia. apply wp_bind.
      eapply wp_oneshot_fill; [exact Hb|done|]. intros r2 m2 bs u2 Hfl. pose proof Hfl as (E2 & Hroom & _).
      assert (0 <= r2.1) by (rewrite E2; apply zlen_nonneg). assert (0 <= contentChecksumFlag i) by apply Hp.
      destruct Hdst as ((? & ?) & _). rewrite small_not_error by lia. by eapply wp_oneshot_end.
Qed.
End OneShot.

(** * Local contexts *)

(** The context of [LZ4F_compressFrame] for a fast level: it claims a large
    buffer, which data that is flushed at once does not need. *)
Lemma local_ready `{HA : Allocator} `{HHC : LZ4_HC} cctxMem lz4Mem p m :
  autoFlush p <> 0 -> mapped m (cctxMem + offset_mem32) 16 ->
  ready 0 p (cset_lz4CtxType ctxFast (cset_lz4CtxAlloc 1 (cset_lz4Ctx (lz4_fast LZ4_initStream)
    (cset_lz4CtxPtr lz4Mem (cset_maxBufferSize (5 * MB) (zero_cctx cctxMem LZ4F_VERSION)))))) m.
Proof.
  intros Haf Hm. split; [right; split; [by left|]; intros _; exists LZ4_initStream; split; [done|exact init_wf]|].
  split; [by left|]. split; [done|]. split; [right; split; [done|unfold KB; cbn; unfold MB; lia]|].
  split; [done|]. unfold apart. cbn. lia.
Qed.

Section Local.
Context `{HA : Allocator} `{HHC : LZ4_HC} (m : mem) (cctxMem lz4Mem dst cap src : Z) (inp : list Z).
Context (prefsPtr : option LZ4F_preferences_t).
Abbreviation n := (zlen inp).
Abbreviation p := (effective (compressFrame_prefs n prefsPtr)).
Abbreviation i := (frameInfo p).
Abbreviation bound := (LZ4F_compressFrameBound n (Some (compressFrame_prefs n prefsPtr))).
Abbreviation xxhr := (cctxMem + offset_mem32, 16).

Context (Hp : prefs_wf (effective (default zero_preferences prefsPtr))).
Context (Hx : mapped m (cctxMem + offset_mem32) 16).
Context (Hdst : (0 < dst /\ dst + cap <= 2 ^ 63) /\ mapped m dst cap /\ apart (dst, cap) xxhr).
Context (Hsrc : (0 < src /\ src + n <= 2 ^ 63 /\ n < 2 ^ 47 /\ bytes_ok inp) /\ holds m src inp /\
  apart (dst, cap) (src, n) /\ (src + n <= cctxMem + offset_mem32 \/ cctxMem + offset_mem32 + 16 <= src)).

Definition compressFrame_post (r : Z) (m' : mem) : Prop :=
  keeps [(dst, cap); xxhr] m m' /\
  ((cap < bound /\ r = LZ4F_returnErrorCode LZ4F_ERROR_dstMaxSize_tooSmall /\ m' = m) \/
  (bound <= cap /\ exists bs,
     let l := frame_of i (negb (contentSize i =? 0)) (negb (dictID i =? 0)) bs inp in
     produced i [] bs inp /\ r = zlen l /\ zlen l <= cap /\ holds m' dst l)).

Lemma wp_LZ4F_compressFrame :
  wp (LZ4F_compressFrame cctxMem lz4Mem dst cap src n prefsPtr) compressFrame_post m.
Proof.
  unfold LZ4F_compressFrame. pose proof (zlen_nonneg inp). destruct Hsrc as (Hs & Hsh & Hsd & Hsx).
  assert (match prefsPtr with None => true | Some p => compressionLevel p <? LZ4HC_CLEVEL_MIN end = true) as ->.
  { destruct prefsPtr as [q|]; [|done]. apply Z.ltb_lt. destruct Hp as (_ & [_ Hl] & _). revert Hl.
    unfold effective. cbn [default]. by destruct (blockSizeID _ =? 0). }
  set (c := cset_lz4CtxType _ _). pose proof (frame_prefs_wf n prefsPtr ltac:(lia) Hp) as Hp'.
  assert (autoFlush p <> 0) as Haf.
  { unfold effective, compressFrame_prefs.
    (match goal with |- context [n <=? ?x] => destruct (n <=? x) end);
    (match goal with |- context [if ?x =? 0 then set_blockSizeID _ _ else _] => destruct (x =? 0) end); done. }
  assert (ready 0 p c m) as Hr by (by apply local_ready).
  assert (cc_tmpBuff c = 0) as Et by done.
  assert (required p <= cc_maxBufferSize c) as Hfit.
  { change (cc_maxBufferSize c) with (5 * MB). unfold required. destruct (Z.eqb_spec (autoFlush p) 0); [done|].
    cbn [negb]. unfold KB, MB. destruct (blockMode _ =? _); lia. }
  apply wp_bind. eapply wp_mono; [apply (wp_compressFrame_usingCDict [] (0, 0) 0 c m dst cap src inp None); try done|].
  - left. split; [done|]. split; [done|]. by left.
  - split; [intros j Hj; cbn in Hj; lia|]. apply foreign_nil.
  - destruct Hdst as (Hd & Hm & Hdx). split; [lia|]. split; [done|].
    split; [split; [rewrite Et; unfold apart; cbn [fst snd]; lia|by apply apart_sym]|unfold apart; cbn; lia].
  - split; [lia || done|]. split; [done|]. split; [unfold apart; cbn; lia|]. split; [done|]. split; [|done].
    split; [unfold borders; lia|].
    split; [rewrite Et; unfold apart; cbn [fst snd]; lia|]. unfold apart. cbn [fst snd]. change (mem32 (cc_xxh c)) with (cctxMem + offset_mem32). lia.
  - intros r m' [Hks Hpost]. apply wp_bind, wp_ret, wp_ret. unfold compressFrame_post. split.
    { intros j Hj Hn. apply Hks; [done|]. inversion Hn as [|? ? Hn1 Hn']. subst. inversion Hn' as [|? ? Hn2 _]. subst.
      constructor; [done|]. constructor; [done|]. constructor; [cbn; lia|constructor]. }
    destruct Hpost as [(H1 & -> & H3)|[(_ & _ & Hbad & _)|(H1 & bs & H2 & H3 & H4 & H5 & _)]]; [by left|exfalso|].
    + change (cc_lz4CtxAlloc c) with 1 in Hbad. destruct Hbad as [?|Hbad]; [done|lia].
    + right. split; [done|]. by exists bs.
Qed.
End Local.
