(* ===== verification/Lz4FrameSession.v ===== *)
(** Frames that are compressed with several calls: whatever the sequence of
    updates and flushes, and whatever the caller writes to its own memory between
    them, the output of a session is a frame with the content that was given, and
    [LZ4F_compressBound] is enough room for every call. *)
From S2P Require Import Prelude.
From S2P Require Import Mem.
From S2P Require Import Xxhash.
From S2P Require Import XxhashSpec.
From S2P Require Import XxhashStream.
From S2P Require Import Lz4Common.
From S2P Require Import Lz4Decompress.
From S2P Require Import Lz4Frame.
From S2P Require Import Lz4FrameDecode.
From S2P Require Import FrameFormat.
From S2P Require Import Lz4FrameHeader.
From S2P Require Import Lz4FrameInv.
From S2P Require Import Lz4FrameCompress.
From S2P Require Import Lz4FrameMakeBlock.
From S2P Require Import Lz4FrameCompressInv.
From S2P Require Import Lz4FrameUpdateSpec.
From S2P Require Import Lz4FrameCompressCalls.
From S2P Require Import Lz4FrameBeginSpec.
From S2P Require Import Lz4FrameOneShot.

(** * The advertised bound *)

(** What [LZ4F_compressBound] promises: it covers a call whatever is buffered. *)
Lemma bound_covers p n t :
  prefs_wf p -> 0 <= n < 2 ^ 47 -> 0 <= t < LZ4F_getBlockSize (blockSizeID (frameInfo p)) ->
  (autoFlush p <> 0 -> t = 0) ->
  LZ4F_compressBound_internal n (Some p) t <= LZ4F_compressBound n (Some p) /\
  n <= LZ4F_compressBound n (Some p) < 2 ^ 60.
Proof.
  intros Hp Hn Ht Hfl. pose proof Hp as (Hi & _). assert (4 <= blockSizeID (frameInfo p) <= 7) as Hid by apply Hi.
  assert (0 <= blockChecksumFlag (frameInfo p) <= 1 /\ 0 <= contentChecksumFlag (frameInfo p) <= 1) as [Hc Hcc]
    by (split; apply Hi).
  pose proof (block_sizes _ Hid) as HB. unfold KB, MB in HB. unfold LZ4F_compressBound.
  set (B := LZ4F_getBlockSize _) in *. set (crc := 4 * blockChecksumFlag (frameInfo p)).
  assert (forall u, 0 <= u -> LZ4F_compressBound_internal n (Some p) u = need B crc
    (negb (Z.lor (autoFlush p) (Z.b2z (n =? 0)) =? 0)) (n + Z.min u (B - 1)) + 4 + 4 * contentChecksumFlag (frameInfo p))
    as Hv by (intros u Hu; by apply bound_value).
  assert (forall fl k, n <= k -> k = n \/ k = n + (B - 1) -> fl = true \/ k = n + (B - 1) ->
    n <= need B crc fl k + 4 + 4 * contentChecksumFlag (frameInfo p) < 2 ^ 60) as Hlow.
  { intros fl k Hk Hor Hf. pose proof (need_small B crc fl k ltac:(lia) ltac:(lia) ltac:(lia)). split; [|lia].
    unfold need. pose proof (Z.div_mod k B ltac:(lia)). pose proof (Z.mod_pos_bound k B ltac:(lia)).
    pose proof (Z.div_pos k B ltac:(lia) ltac:(lia)). destruct Hf as [-> | Ek].
    - cbn [andb]. destruct (Z.ltb_spec 0 (k mod B)); nia.
    - destruct (fl && _); nia. }
  destruct (Z.eqb_spec (autoFlush p) 0) as [E|E]; cbn [negb].
  - change (u64 (-1)) with (2 ^ 64 - 1). rewrite !Hv by lia. rewrite (Z.min_l t), (Z.min_r (2 ^ 64 - 1)) by lia.
    rewrite E, Z.lor_0_l. split; [|apply Hlow; [lia|by right|by right]].
    destruct (Z.eqb_spec n 0) as [En|En]; cbn [Z.b2z Z.eqb negb].
    + subst n. rewrite !Z.add_0_l. unfold need. rewrite !Z.div_small, !Z.mod_small by lia. cbn [andb].
      destruct (Z.ltb_spec 0 t), (Z.ltb_spec 0 (B - 1)); lia.
    + unfold need. cbn [andb]. pose proof (Z.div_le_mono (n + t) (n + (B - 1)) B ltac:(lia) ltac:(lia)). nia.
  - rewrite (Hfl E), !Hv by lia. split; [lia|]. rewrite Z.min_l by lia. apply Hlow; [lia|left; lia|]. left.
    apply negb_true_iff, Z.eqb_neq. intros [? _]%Z.lor_eq_0_iff. done.
Qed.

(** * Sequences of calls *)

(** A call of the library, or a step of the caller, which stores the bytes [l] in
    memory of its own: a source buffer is refilled, or destroyed. *)
Inductive session_op := op_update (src size : Z) | op_flush | op_store (a : Z) (l : list Z).

(** The caller's memory after a step, and the regions it writes to. *)
Definition after_op (op : session_op) (m : mem) : mem :=
  match op with op_store a l => mstore m a l | _ => m end.

Definition op_stores (op : session_op) : list (Z * Z) :=
  match op with op_store a l => [(a, zlen l)] | _ => [] end.

Definition ops_stores (ops : list session_op) : list (Z * Z) := concat (map op_stores ops).

Lemma changes_mstore rs m m' a l : changes rs m m' -> changes rs (mstore m a l) (mstore m' a l).
Proof.
  intros [H1 H2]. split; intros i Hi.
  - rewrite !mstore_lookup. case_decide; [done|by apply H1].
  - revert Hi. rewrite !mstore_lookup. case_decide; [done|apply H2].
Qed.

Lemma mapped_mstore m a l b n : mapped m b n -> mapped (mstore m a l) b n.
Proof.
  intros H i Hi. rewrite mstore_lookup. case_decide; [|by apply H].
  apply lookup_lt_is_Some. unfold zlen in *. lia.
Qed.

Lemma frame_mstore m a l : frame a (a + zlen l) m (mstore m a l).
Proof.
  split; intros i Hi; rewrite mstore_lookup; case_decide; try done.
  apply lookup_lt_is_Some. unfold zlen in *. lia.
Qed.

Section Ops.
Context `{HHC : LZ4_HC}.
(** All updates of a session compress, or none does. *)
Context (cm : LZ4F_BlockCompressMode_e).

Definition run_op (c : LZ4F_cctx) (dst cap : Z) (op : session_op) : M (Z * LZ4F_cctx) :=
  match op with
  | op_update src size => LZ4F_compressUpdateImpl c dst cap src size None cm
  | op_flush => LZ4F_flush c dst cap None
  | op_store a l => store_bytes a l;; mret (0, c)
  end.

(** The calls write one behind the other; the first error ends the session. *)
Fixpoint run_ops (c : LZ4F_cctx) (dst cap : Z) (ops : list session_op) : M (Z * LZ4F_cctx) :=
  match ops with
  | [] => mret (0, c)
  | op :: ops =>
      r ← run_op c dst cap op;
      if LZ4F_isError r.1 then mret r else
      r' ← run_ops r.2 (dst + r.1) (cap - r.1) ops;
      if LZ4F_isError r'.1 then mret r' else mret (r.1 + r'.1, r'.2)
  end.

Definition op_bound (p : LZ4F_preferences_t) (op : session_op) : Z :=
  match op with
  | op_update _ size => LZ4F_compressBound size (Some p)
  | op_flush => LZ4F_compressBound 0 (Some p)
  | op_store _ _ => 0
  end.

Fixpoint ops_bound (p : LZ4F_preferences_t) (ops : list session_op) : Z :=
  match ops with [] => 0 | op :: ops => op_bound p op + ops_bound p ops end.

Context (D : list Z) (kr : Z * Z) (bcap : Z).

(** The input of a call is in memory; a store is to memory that neither the
    library nor its output uses. *)
Definition op_ok (c : LZ4F_cctx) (m : mem) (dst cap : Z) (u : Z * Z) (op : session_op) (x : list Z) : Prop :=
  match op with
  | op_update src size => size = zlen x /\ src_ok kr bcap c m dst cap src x u
  | op_flush => x = []
  | op_store a l => x = [] /\ mapped m a (zlen l) /\ apart (a, zlen l) (dst, cap) /\ apart (a, zlen l) kr /\
      apart (a, zlen l) u /\ apart (a, zlen l) (cc_tmpBuff c, bcap) /\ apart (a, zlen l) (mem32 (cc_xxh c), 16)
  end.

(** Every step is in order in the memory that the steps before it have left. *)
Fixpoint ops_ok (P : mem -> session_op -> list Z -> Prop) (m : mem) (ops : list session_op)
    (xs : list (list Z)) : Prop :=
  match ops, xs with
  | [], [] => True
  | op :: ops, x :: xs => P m op x /\ ops_ok P (after_op op m) ops xs
  | _, _ => False
  end.

(** The state between two calls. *)
Definition between (c : LZ4F_cctx) (m : mem) (bs : list fblock) (o pend : list Z) (u : Z * Z)
    (dst cap : Z) : Prop :=
  running D kr bcap c m bs o pend u /\ dst_ok kr bcap c m dst cap u /\
  (cc_blockCompressMode c = cm \/ pend = []) /\ (cc_linked c = true -> cm = LZ4B_COMPRESSED) /\
  (flushing c = true -> cc_linked c = true -> 64 * KB <= bcap).

(** A step, or several, added [x]; the caller wrote to [ws]. *)
Definition added (ws : list (Z * Z)) (c : LZ4F_cctx) (m : mem) (bs : list fblock) (o pend : list Z) (u : Z * Z)
    (dst cap : Z) (x : list Z) (r : Z * LZ4F_cctx) (m' : mem) : Prop :=
  exists bs' o' pend' u', let l := enc_blocks (frameInfo (cc_prefs c)) bs' in
    r.1 = zlen l /\ zlen l <= cap /\ holds m' dst l /\
    between r.2 m' (bs ++ bs') o' pend' u' (dst + zlen l) (cap - zlen l) /\
    o' ++ pend' = o ++ pend ++ x /\ same_frame c r.2 /\ (u' = u \/ u' = (0, 0)) /\
    changes ([(dst, cap); (cc_tmpBuff c, bcap); (mem32 (cc_xxh c), 16)] ++ ws) m m'.

(** The next state, given what the calls of the library promise. *)
Lemma added_intro ws c m bs o pend u dst cap x r m' bs' o' pend' u' n :
  between c m bs o pend u dst cap -> n = zlen (enc_blocks (frameInfo (cc_prefs c)) bs') -> r.1 = n -> n <= cap ->
  holds m' dst (enc_blocks (frameInfo (cc_prefs c)) bs') -> running D kr bcap r.2 m' (bs ++ bs') o' pend' u' ->
  o' ++ pend' = o ++ pend ++ x -> same_frame c r.2 -> u' = u \/ u' = (0, 0) ->
  cc_blockCompressMode r.2 = cm \/ pend' = [] ->
  changes ([(dst, cap); (cc_tmpBuff c, bcap); (mem32 (cc_xxh c), 16)] ++ ws) m m' ->
  added ws c m bs o pend u dst cap x r m'.
Proof.
  intros (_ & Hd & _ & Hl & Hs) En Er Hle Hh Hrun Eo Hsf Hu Hm Hch. exists bs', o', pend', u'.
  pose proof (zlen_nonneg (enc_blocks (frameInfo (cc_prefs c)) bs')). cbn zeta. rewrite <- En.
  splits; try done. split; [done|]. split; [|split; [done|split]].
  - destruct Hd as (H1 & H2 & H3 & H4 & H5 & H6). pose proof Hsf as (_ & _ & _ & _ & E5 & E6 & _).
    eapply (dst_part _ _ _ _ dst cap); [|lia|lia|lia]. unfold dst_ok. rewrite E5, E6. splits; try done; try lia.
    + by eapply changes_mapped.
    + destruct Hu as [-> | ->]; [done|]. unfold apart. cbn. lia.
  - unfold cc_linked. destruct Hsf as (-> & _). done.
  - unfold cc_linked, flushing. destruct Hsf as (-> & _). done.
Qed.

(** Nothing was added. *)
Lemma added_none ws c m bs o pend u dst cap m' :
  between c m bs o pend u dst cap -> running D kr bcap c m' bs o pend u ->
  changes ([(dst, cap); (cc_tmpBuff c, bcap); (mem32 (cc_xxh c), 16)] ++ ws) m m' ->
  added ws c m bs o pend u dst cap [] (0, c) m'.
Proof.
  intros Hbt Hrun Hch. pose proof Hbt as (_ & Hd & Hm & _).
  apply (added_intro ws c m bs o pend u dst cap [] (0, c) m' [] o pend u 0); try done.
  - apply Hd.
  - apply holds_nil.
  - by rewrite app_nil_r.
  - by rewrite app_nil_r.
  - by left.
Qed.

Lemma added_nil c m bs o pend u dst cap :
  between c m bs o pend u dst cap -> added [] c m bs o pend u dst cap [] (0, c) m.
Proof. intros Hbt. apply added_none; [done|apply Hbt|apply changes_refl]. Qed.

(** The library does not depend on memory that it does not refer to. *)
Lemma running_kept c m bs o pend u a n m' :
  running D kr bcap c m bs o pend u -> frame a (a + n) m m' -> apart (a, n) kr -> apart (a, n) u ->
  apart (a, n) (cc_tmpBuff c, bcap) -> apart (a, n) (mem32 (cc_xxh c), 16) ->
  running D kr bcap c m' bs o pend u.
Proof.
  intros ((Hs & Hp & Hf & hr & Hc & Hh) & Hroom & (Hp1 & Hp2 & Hp3 & Hp4 & Hp5) & Hd) Hfr Hk Hu Ht Hx.
  assert (changes [(a, n)] m m') as Hch by (eapply changes_frame; [exact Hfr|by left|apply inside_refl]).
  assert (apart (a, n) hr) as Hhr.
  { destruct Hh as [(_ & H1 & H2 & H3 & H4)|<-]; [|done]. destruct hr. cbn [fst snd] in *. sub_apart Ht. }
  split; [|split; [done|split; [split; [done|split; [done|split; [|done]]]|]]].
  - split; [by eapply session_same|]. split; [done|]. split; [done|]. exists hr. split; [by eapply ctx_kept|done].
  - destruct (flushing c) eqn:E; [rewrite (Hp5 eq_refl); apply holds_nil|]. destruct (Hroom E) as [R1 R2].
    destruct Hs as (_ & _ & _ & _ & _ & _ & Hm & _). specialize (Hm E).
    eapply changes_holds; [exact Hch| |done]. each_region. zlen_facts. sub_apart Ht.
  - eapply digested_changes; [|exact Hch| |exact Hd]; [done|by each_region].
Qed.

(** What a flush may need. *)
Lemma flush_bound c m bs o pend u :
  running D kr bcap c m bs o pend u -> pend <> [] ->
  zlen pend + 8 <= LZ4F_compressBound 0 (Some (cc_prefs c)).
Proof.
  intros Hrun Hne. pose proof (end_bound_eq D kr bcap c m bs o pend u Hrun) as Eb.
  pose proof Hrun as (((_ & Hp & Ebs & _) & _) & _ & (_ & Hlt & _ & _ & Hfl) & _). apply zlen_pos in Hne as Hne'.
  destruct (bound_covers (cc_prefs c) 0 (zlen pend) Hp) as [Hb _]; [lia|lia| |].
  - intros Hf. rewrite Hfl; [done|]. by apply negb_true_iff, Z.eqb_neq.
  - destruct (Z.eqb_spec (zlen pend) 0); [lia|].
    assert (0 <= blockChecksumFlag (frameInfo (cc_prefs c)) /\ 0 <= contentChecksumFlag (frameInfo (cc_prefs c)))
      by (split; apply Hp). lia.
Qed.

(** What a step changes besides what the caller writes. *)
Abbreviation library_memory c dst cap := [(dst, cap); (cc_tmpBuff c, bcap); (mem32 (cc_xxh c), 16)].

(** Every call adds its input, unless it has less room than the bound says. *)
Lemma wp_run_op c m bs o pend u dst cap op x :
  between c m bs o pend u dst cap -> op_ok c m dst cap u op x ->
  wp (run_op c dst cap op) (fun r m' =>
    (cap < op_bound (cc_prefs c) op /\ r.1 = LZ4F_returnErrorCode LZ4F_ERROR_dstMaxSize_tooSmall /\ m' = m) \/
    (added (op_stores op) c m bs o pend u dst cap x r m' /\ r.1 <= op_bound (cc_prefs c) op /\
     changes (library_memory c dst cap) (after_op op m) m')) m.
Proof.
  intros Hbt Hop. pose proof Hbt as (Hrun & Hd & Hm & Hl & Hs).
  pose proof Hrun as (((_ & Hp & Ebs & _) & _) & _ & (_ & Hlt & _ & _ & Hfl) & _). pose proof (zlen_nonneg pend).
  destruct op as [src size| |a l]; cbn [run_op op_bound op_ok op_stores after_op] in *.
  - destruct Hop as [-> Hsrc]. pose proof (zlen_nonneg x). pose proof Hsrc as ((_ & _ & Hx & _) & _).
    destruct (bound_covers (cc_prefs c) (zlen x) (zlen pend) Hp) as [Hb Hb2]; [lia|lia| |].
    { intros Hf. rewrite Hfl; [done|]. by apply negb_true_iff, Z.eqb_neq. }
    pose proof (enough_bound D kr bcap c m bs o pend u dst cap Hrun src x Hsrc) as [He0 He].
    assert (0 <= contentChecksumFlag (frameInfo (cc_prefs c))) as Hcc by apply Hp.
    eapply wp_mono; [apply (wp_compressUpdateImpl D kr bcap c m bs o pend u); try done; intros; by apply Hs|].
    intros r m' [(Hbad & -> & ->)|(Hok & bs' & o' & pend' & u' & En & Hle & Hh & Hrun' & Eo & Hsf & Emd & Hch & Hcov & Hu)].
    + left. split; [|done]. destruct Hbad as [?|[_ ?]]; lia.
    + right. cbn [cc_prefs cset_blockCompressMode cc_tmpBuff cc_xxh cc_blockCompressMode] in *.
      assert (changes (library_memory c dst cap) m m') as Hch'.
      { eapply changes_widen; [exact Hch|]. unfold inside. cbn [fst snd]. lia. }
      split; [|split; [lia|done]]. eapply added_intro; try done; [lia|by apply Hu|by left].
  - subst x. eapply wp_mono; [apply (wp_LZ4F_flush D kr bcap c m bs o pend u dst cap); try done|].
    { intros Hne Hlk. destruct Hm as [-> | ?]; [by apply Hl|done]. }
    intros r m' [(-> & -> & ->)|[(Hne & Hbad & -> & ->)|(Hne & Hge & b & En & Hle & Hh & Hch & Hrun' & Hss & Emd)]].
    + right. split; [by apply added_nil|]. split; [|apply changes_refl].
      destruct (bound_covers (cc_prefs c) 0 0 Hp) as [_ Hb]; cbn [fst]; lia.
    + left. split; [|done]. pose proof (flush_bound c m bs o pend u Hrun Hne). lia.
    + right. apply zlen_pos in Hne as Hne'. pose proof (flush_bound c m bs o pend u Hrun Hne).
      assert (enc_blocks (frameInfo (cc_prefs c)) [b] = enc_fblock (frameInfo (cc_prefs c)) b) as Ee
        by (unfold enc_blocks; cbn [map concat]; apply app_nil_r).
      assert (changes (library_memory c dst cap) m m') as Hch'.
      { eapply changes_sub; [exact Hch|]. intros q. cbn. tauto. }
      assert (0 <= blockChecksumFlag (frameInfo (cc_prefs c)) <= 1) by apply Hp. split; [|split; [lia|done]].
      apply (added_intro [] c m bs o pend u dst cap [] r m' [b] (o ++ pend) [] (0, 0) r.1); rewrite ?Ee; try done; [lia|..].
      * by rewrite !app_nil_r.
      * by apply session_frame.
      * by right.
      * by right.
  - destruct Hop as (-> & Hma & Ha1 & Ha2 & Ha3 & Ha4 & Ha5). apply wp_bind, wp_store_bytes; [done|]. apply wp_ret. right.
    split; [|split; [done|apply changes_refl]]. pose proof (frame_mstore m a l) as Hfr. apply added_none; [done|..].
    + by eapply running_kept.
    + eapply changes_frame; [exact Hfr| |apply inside_refl]. apply in_app_iff. right. by left.
Qed.

(** The inputs that are left stay in memory. *)
Lemma op_kept c c' m m' u u' dst cap n op y :
  same_frame c c' -> (u' = u \/ u' = (0, 0)) -> 0 <= n <= cap ->
  changes (library_memory c dst cap) m m' ->
  op_ok c m dst cap u op y -> op_ok c' m' (dst + n) (cap - n) u' op y.
Proof.
  intros (_ & _ & _ & _ & E5 & E6 & _) Hu Hn Hch.
  assert (forall r : Z * Z, apart r u -> apart r u') as Hu'.
  { intros r Hr. destruct Hu as [-> | ->]; [done|]. unfold apart. cbn. lia. }
  destruct op as [src size| |a l]; [|done|]; cbn [op_ok].
  - intros (-> & H1 & H2 & H3 & H4 & H5 & [F1 F2] & H6). split; [done|].
    eapply (src_part _ _ _ _ dst cap); [|lia|lia|lia]. unfold src_ok, foreign. rewrite E5, E6.
    split; [exact H1|]. split; [|split; [exact H3|split; [by apply Hu'|done]]].
    eapply changes_holds; [exact Hch| |done]. each_region; [done|sub_apart F1|done].
  - intros (-> & H1 & H2 & H3 & H4 & H5 & H6). rewrite E5, E6. splits; try done; [by eapply changes_mapped| |by apply Hu'].
    sub_apart H2.
Qed.

Lemma ops_kept c c' u u' dst cap n ops :
  same_frame c c' -> (u' = u \/ u' = (0, 0)) -> 0 <= n <= cap -> forall xs m m',
  changes (library_memory c dst cap) m m' ->
  ops_ok (fun m => op_ok c m dst cap u) m ops xs ->
  ops_ok (fun m => op_ok c' m (dst + n) (cap - n) u') m' ops xs.
Proof.
  intros Hsf Hu Hn. induction ops as [|op ops IH]; intros [|x xs] m m' Hch Hops; try done.
  destruct Hops as [Hop Hops]. split; [by eapply op_kept|]. eapply IH; [|exact Hops].
  destruct op; [done|done|by apply changes_mstore].
Qed.

(** Two steps in a row. *)
Lemma added_trans ws1 ws2 c m bs o pend u dst cap x y r1 m1 bs1 o1 pend1 u1 r2 m2 :
  let l := enc_blocks (frameInfo (cc_prefs c)) bs1 in
  between c m bs o pend u dst cap -> r1.1 = zlen l -> zlen l <= cap -> holds m1 dst l ->
  o1 ++ pend1 = o ++ pend ++ x -> same_frame c r1.2 -> u1 = u \/ u1 = (0, 0) ->
  changes (library_memory c dst cap ++ ws1) m m1 -> Forall (fun r => apart r (dst, cap)) ws2 ->
  added ws2 r1.2 m1 (bs ++ bs1) o1 pend1 u1 (dst + r1.1) (cap - r1.1) y r2 m2 ->
  added (ws1 ++ ws2) c m bs o pend u dst cap (x ++ y) (r1.1 + r2.1, r2.2) m2.
Proof.
  intros l Hbt Er Hle Hh Eo Hsf Hu Hch Hws (bs2 & o2 & pend2 & u2 & E2 & Hle2 & Hh2 & Hbt2 & Eo2 & Hsf2 & Hu2 & Hch2).
  pose proof Hsf as (E1 & _ & _ & _ & E5 & E6 & _). rewrite E1, E5, E6 in *. set (l2 := enc_blocks _ bs2) in *.
  pose proof (zlen_nonneg l). pose proof (zlen_nonneg l2).
  destruct Hbt2 as (Hrun2 & _ & Hm2 & _). destruct Hbt as (Hrun & Hd & Hrest).
  eapply (added_intro _ _ _ _ _ _ _ _ _ _ _ _ (bs1 ++ bs2)); [split; [exact Hrun|split; [exact Hd|exact Hrest]]|done|..];
    rewrite ?enc_blocks_app, ?zlen_app; fold l l2; cbn [fst snd]; try lia.
  - apply holds_app. rewrite <- Er. split; [|done]. eapply changes_holds; [exact Hch2| |exact Hh].
    destruct Hd as (_ & _ & _ & Ht & Hx & _). apply Forall_app. split.
    + each_region; [unfold apart; cbn [fst snd]; lia|apply apart_sym; sub_apart Ht|apply apart_sym; sub_apart Hx].
    + eapply Forall_impl; [|exact Hws]. intros [b k] Hb. sub_apart Hb.
  - by rewrite app_assoc.
  - rewrite Eo2, app_assoc, Eo. by rewrite <- !app_assoc.
  - by eapply same_frame_trans.
  - destruct Hu2 as [-> | ->]; [done|by right].
  - done.
  - eapply changes_trans; [eapply changes_sub; [exact Hch|]|].
    + intros q. rewrite !in_app_iff. tauto.
    + eapply changes_sub; [eapply (changes_widen _ _ dst cap); [exact Hch2|]|].
      * unfold inside. cbn [fst snd]. lia.
      * intros q. cbn [app In]. rewrite !in_app_iff. tauto.
Qed.

(** Calls with inputs of sizes that the bound is made for. *)
Definition sized (op : session_op) : Prop :=
  match op with op_update _ size => 0 <= size < 2 ^ 47 | _ => True end.

Lemma ops_ok_all (P : mem -> session_op -> list Z -> Prop) (R : session_op -> Prop) ops : forall xs m,
  (forall m op x, P m op x -> R op) -> ops_ok P m ops xs -> Forall R ops.
Proof.
  induction ops as [|op ops IH]; intros [|x xs] m HR Hops; try done. destruct Hops as [Hop Hops].
  constructor; [by eapply HR|by eapply IH].
Qed.

Lemma op_ok_sized c m dst cap u op x : op_ok c m dst cap u op x -> sized op.
Proof. destruct op; [|done|done]. intros [-> ((_ & _ & Hx & _) & _)]. pose proof (zlen_nonneg x). cbn. lia. Qed.

Lemma op_ok_stores c m dst cap u op x :
  op_ok c m dst cap u op x -> Forall (fun r => apart r (dst, cap)) (op_stores op).
Proof. destruct op; [constructor|constructor|]. intros (_ & _ & Ha & _). constructor; [done|constructor]. Qed.

Lemma ops_stores_all (R : Z * Z -> Prop) ops :
  Forall (fun op => Forall R (op_stores op)) ops -> Forall R (ops_stores ops).
Proof. intros H. by apply Forall_concat, Forall_map. Qed.

Lemma ops_bound_nonneg p ops : prefs_wf p -> Forall sized ops -> 0 <= ops_bound p ops.
Proof.
  intros Hp. assert (4 <= blockSizeID (frameInfo p) <= 7) as Hid by apply Hp.
  pose proof (block_sizes _ Hid) as HB. unfold KB, MB in HB.
  induction 1 as [|op ops Hop _ IH]; cbn [ops_bound]; [lia|].
  enough (0 <= op_bound p op) by lia. destruct op as [src size| |a l]; cbn [op_bound sized] in *; [..|lia].
  - destruct (bound_covers p size 0 Hp); lia.
  - destruct (bound_covers p 0 0 Hp); lia.
Qed.

Lemma wp_run_ops ops : forall xs c m bs o pend u dst cap,
  between c m bs o pend u dst cap -> ops_ok (fun m => op_ok c m dst cap u) m ops xs ->
  wp (run_ops c dst cap ops) (fun r m' =>
    (cap < ops_bound (cc_prefs c) ops /\ r.1 = LZ4F_returnErrorCode LZ4F_ERROR_dstMaxSize_tooSmall /\
     changes (library_memory c dst cap ++ ops_stores ops) m m') \/
    (added (ops_stores ops) c m bs o pend u dst cap (concat xs) r m' /\ r.1 <= ops_bound (cc_prefs c) ops)) m.
Proof.
  induction ops as [|op ops IH]; intros [|x xs'] c m bs o pend u dst cap Hbt Hops; try done.
  { apply wp_ret. right. split; [by apply added_nil|done]. }
  destruct Hops as [Hop Hops']. cbn [run_ops ops_bound concat]. apply wp_bind.
  change (ops_stores (op :: ops)) with (op_stores op ++ ops_stores ops).
  pose proof Hbt as ((((_ & Hp & _) & _) & _) & ((Hpos & Hc0 & Hc63) & _) & _).
  pose proof (ops_bound_nonneg _ ops Hp (ops_ok_all _ _ _ _ _ (fun m => op_ok_sized c m dst cap u) Hops')) as Hnn.
  pose proof (ops_stores_all _ _ (ops_ok_all _ _ _ _ _ (fun m => op_ok_stores c m dst cap u) Hops')) as Hws.
  eapply wp_mono; [by apply wp_run_op|]. intros r1 m1 [(Hlt & Er & ->)|(Hadd & Hb & Hview)].
  - rewrite Er. change (LZ4F_isError (LZ4F_returnErrorCode LZ4F_ERROR_dstMaxSize_tooSmall)) with true. cbn iota.
    apply wp_ret. left. split; [lia|]. split; [done|apply changes_refl].
  - destruct Hadd as (bs1 & o1 & pend1 & u1 & E1 & Hle1 & Hh1 & Hbt1 & Eo1 & Hsf1 & Hu1 & Hch1).
    pose proof (zlen_nonneg (enc_blocks (frameInfo (cc_prefs c)) bs1)) as H0. rewrite small_not_error by lia.
    pose proof Hsf1 as (Ep & _). rewrite <- E1 in Hbt1. apply wp_bind.
    eapply wp_mono; [apply (IH xs' r1.2 m1); [exact Hbt1|]|].
    + eapply ops_kept; try done. lia.
    + intros r2 m2 [(Hlt & Er & Hch2)|[Hadd Hb2]].
      * rewrite Er. change (LZ4F_isError (LZ4F_returnErrorCode LZ4F_ERROR_dstMaxSize_tooSmall)) with true. cbn iota.
        apply wp_ret. left. rewrite Ep in Hlt. split; [lia|]. split; [done|].
        destruct Hsf1 as (_ & _ & _ & _ & E5 & E6 & _). rewrite E5, E6 in Hch2.
        eapply changes_trans; [eapply changes_sub; [exact Hch1|]|eapply changes_sub; [eapply (changes_widen _ _ dst cap); [exact Hch2|]|]].
        -- intros q. rewrite !in_app_iff. tauto.
        -- unfold inside. cbn [fst snd]. lia.
        -- intros q. cbn [app In]. rewrite !in_app_iff. tauto.
      * pose proof Hadd as (bs2 & _ & _ & _ & E2 & Hle2 & _).
        pose proof (zlen_nonneg (enc_blocks (frameInfo (cc_prefs r1.2)) bs2)). rewrite small_not_error by lia.
        apply wp_ret. right. rewrite Ep in Hb2. split; [by eapply added_trans|cbn [fst]; lia].
Qed.
End Ops.

(** * Whole sessions *)

Section Session.
Context `{HA : Allocator} `{HHC : LZ4_HC}.

(** A frame: the beginning, the calls, and the end, one behind the other. *)
Definition compress_session (cm : LZ4F_BlockCompressMode_e) (c : LZ4F_cctx) (dst cap : Z)
    (dictBuffer dictSize : Z) (cdict : option LZ4F_CDict) (prefsPtr : option LZ4F_preferences_t)
    (ops : list session_op) : M (Z * LZ4F_cctx) :=
  r ← LZ4F_compressBegin_internal c dst cap dictBuffer dictSize cdict prefsPtr;
  if LZ4F_isError r.1 then mret r else
  r1 ← run_ops cm r.2 (dst + r.1) (cap - r.1) ops;
  if LZ4F_isError r1.1 then mret r1 else
  let n := r.1 + r1.1 in
  r2 ← LZ4F_compressEnd r1.2 (dst + n) (cap - n) None;
  if LZ4F_isError r2.1 then mret r2 else mret (n + r2.1, r2.2).

Definition session_bound (p : LZ4F_preferences_t) (ops : list session_op) : Z :=
  maxFHSize + ops_bound p ops + LZ4F_compressBound 0 (Some p).

Context (D : list Z) (kr : Z * Z) (bcap : Z) (c : LZ4F_cctx) (m : mem) (dst cap : Z).
Context (dictBuffer dictSize : Z) (cdict : option LZ4F_CDict) (prefsPtr : option LZ4F_preferences_t).
Context (cm : LZ4F_BlockCompressMode_e) (ops : list session_op) (xs : list (list Z)).
Abbreviation p := (effective (default LZ4F_INIT_PREFERENCES prefsPtr)).
Abbreviation i := (frameInfo p).
Abbreviation linked := (blockMode i =? LZ4F_blockLinked).

(** The input of an update is in memory of the user, of which the library knows
    nothing; the memory [mv] is that of the user at the time of the step. *)
Definition input_ok (mv : mem) (op : session_op) (x : list Z) : Prop :=
  match op with
  | op_update src size => size = zlen x /\ user_src kr bcap c mv dst cap dictBuffer dictSize prefsPtr src x
  | op_flush => x = []
  | op_store a l => x = [] /\ user_dst kr bcap c mv a (zlen l) dictBuffer dictSize /\ apart (a, zlen l) (dst, cap)
  end.

Context (Hp : prefs_wf p) (Hr : ready bcap p c m) (Hmax : cc_maxBufferSize c <= bcap).
Context (Hdict : dict_given D kr linked m dictBuffer dictSize cdict).
Context (Hk : mapped m kr.1 kr.2 /\ foreign bcap c kr).
Context (Hdf : dictBuffer <> NULL -> borders p c m (dictBuffer, dictSize) /\ foreign bcap c (dictBuffer, dictSize)).
Context (Hdst : user_dst kr bcap c m dst cap dictBuffer dictSize).
Context (Hins : ops_ok input_ok m ops xs) (Hcm : linked = true -> cm = LZ4B_COMPRESSED).

Definition session_post (r : Z * LZ4F_cctx) (m' : mem) : Prop :=
  frame_keeps bcap c dst cap (ops_stores ops) m m' /\
  ((cap < session_bound p ops /\ r.1 = LZ4F_returnErrorCode LZ4F_ERROR_dstMaxSize_tooSmall) \/
  ((cc_lz4CtxAlloc c = 0 \/ cc_maxBufferSize c < required p) /\
   r.1 = LZ4F_returnErrorCode LZ4F_ERROR_allocation_failed /\ exists bcap', ready bcap' p r.2 m') \/
  finished D dst cap cdict prefsPtr (concat xs) 0 r m').

Lemma end_covered q n : prefs_wf q -> 0 <= n < LZ4F_getBlockSize (blockSizeID (frameInfo q)) ->
  (autoFlush q <> 0 -> n = 0) ->
  LZ4F_compressBound_internal 0 (Some q) n <= LZ4F_compressBound 0 (Some q) /\ 0 <= LZ4F_compressBound 0 (Some q).
Proof. intros Hq Hn Hf. destruct (bound_covers q 0 n Hq); [lia|done|done|]. lia. Qed.

Lemma inputs_stores : Forall (fun r => apart r (dst, cap)) (ops_stores ops).
Proof.
  apply ops_stores_all. eapply ops_ok_all; [|exact Hins]. intros mv [| |a l] x Hop; [constructor|constructor|].
  destruct Hop as (_ & _ & Ha). constructor; [done|constructor].
Qed.

Lemma wp_session_end r1 m1 bcap' u r2 m2 :
  begin_done D kr bcap c m dst dictBuffer dictSize cdict prefsPtr r1 m1 bcap' u -> maxFHSize <= cap ->
  added cm D kr bcap' (ops_stores ops) r1.2 m1 [] [] [] u (dst + r1.1) (cap - r1.1) (concat xs) r2 m2 ->
  r2.1 <= ops_bound p ops ->
  wp (let n := r1.1 + r2.1 in
      r ← LZ4F_compressEnd r2.2 (dst + n) (cap - n) None;
      if LZ4F_isError r.1 then mret r else mret (n + r.1, r.2)) session_post m2.
Proof.
  intros Hb Hcap (bs & o & pend & u2 & E2 & Hle & Hh & (Hrun & Hd & Hm & Hl & _) & Eo & Hsf & _ & Hch) Hob.
  pose proof Hb as (E1 & Hz & Hh1 & _ & _ & _ & (Ep & _) & _). rewrite Ep in *. cbn [app] in Eo, Hrun.
  pose proof (zlen_nonneg (frame_header i)) as Z1. pose proof (zlen_nonneg (enc_blocks i bs)) as Z2.
  destruct Hdst as ((Hd0 & Hd1) & Hdm & Hdfo & _). rewrite <- Z.add_assoc, <- Z.sub_add_distr, <- E2 in Hd.
  pose proof Hrun as (((_ & _ & Ebs & _) & _) & _ & (_ & Hlt & _ & _ & Hfl) & _). destruct Hsf as (Ep2 & Hsf'). rewrite Ep in Ep2.
  cbn zeta. apply wp_bind.
  eapply wp_mono; [eapply (wp_finish_frame D kr bcap c m dst cap dictBuffer dictSize cdict prefsPtr Hp Hdst) with
    (bs := bs) (pend := pend) (o := o) (r1 := r1) (m1 := m1) (u := u) (u2 := u2) (bcap' := bcap') (ws := ops_stores ops)|].
  - unfold unfinished. rewrite zlen_app, <- E1, <- E2. splits; try done; [split; [by rewrite Ep|done]| |lia|].
    { eapply changes_widen; [exact Hch|]. unfold inside. cbn [fst snd]. lia. }
    apply holds_app. rewrite <- E1. split; [|done]. eapply changes_holds; [exact Hch| |exact Hh1].
    destruct (begun_apart _ _ _ _ _ _ _ _ _ _ _ _ _ _ (dst, cap) Hb Hdm Hdfo) as [F1 F2].
    rewrite <- E1. apply Forall_app. split.
    + each_region; [unfold apart; cbn [fst snd]; lia|sub_apart F1|sub_apart F2].
    + eapply Forall_impl; [|exact inputs_stores]. intros [b k] Hbk. change maxFHSize with 19 in *. sub_apart Hbk.
  - intros Hne Hlk. destruct Hm as [-> | ?]; [|done]. apply Hcm. unfold cc_linked in Hlk. by rewrite Ep2 in Hlk.
  - done.
  - rewrite Eo. intros r m3 [Hks [[Hbad Er]|Hfin]].
    + rewrite Er. change (LZ4F_isError (LZ4F_returnErrorCode LZ4F_ERROR_dstMaxSize_tooSmall)) with true. cbn iota.
      apply wp_ret. split; [done|]. left. split; [|done]. unfold session_bound. pose proof (zlen_nonneg pend).
      destruct (end_covered p (zlen pend) Hp).
      * rewrite Ebs, Ep2 in Hlt. lia.
      * intros Hf. rewrite Hfl; [done|]. unfold flushing. rewrite Ep2. by apply negb_true_iff, Z.eqb_neq.
      * lia.
    + pose proof Hfin as (bs' & Hprod & Hl' & Hle' & Hsz & Hre). set (l := frame_of _ _ _ _ _) in *.
      destruct Hsz as [[Hok Er]|[Hno Er]].
      * rewrite small_not_error by lia. apply wp_ret. split; [done|]. right. right. exists bs'. fold l. split; [done|]. split; [done|].
        split; [lia|]. split; [|done]. left. split; [done|]. cbn [fst]. lia.
      * rewrite Er. change (LZ4F_isError (LZ4F_returnErrorCode LZ4F_ERROR_frameSize_wrong)) with true. cbn iota.
        apply wp_ret. split; [done|]. right. right. exists bs'. fold l. split; [done|]. split; [done|]. split; [lia|]. split; [|done].
        right. done.
Qed.

Lemma session_bound_room : maxFHSize <= session_bound p ops.
Proof.
  assert (0 <= ops_bound p ops) as Hnn.
  { apply ops_bound_nonneg; [done|]. eapply ops_ok_all; [|exact Hins]. intros mv op x Hop. destruct op; [|done|done].
    destruct Hop as [-> ((_ & _ & Hx & _) & _)]. pose proof (zlen_nonneg x). cbn. lia. }
  assert (4 <= blockSizeID i <= 7) as Hid by apply Hp. pose proof (block_sizes _ Hid) as HB. unfold KB, MB in HB.
  destruct (end_covered p 0 Hp) as [_ He]; [lia|done|]. unfold session_bound. lia.
Qed.

(** The user's memory before and after the frame was begun, with what the user
    has stored since. *)
Definition views (mv mv1 : mem) : Prop :=
  (forall j, is_Some (mv !! j) <-> is_Some (m !! j)) /\
  keeps [(dst, maxFHSize); (mem32 (cc_xxh c), 16); (cc_tmpBuff c, bcap)] mv mv1.

Lemma views_borders mv mv1 r : views mv mv1 -> borders p c mv r -> borders p c m r.
Proof.
  intros [Hv _] Hb Hlt. destruct (Hb Hlt) as [Hz|Hm]; [by left|right]. intros j Hj. by apply Hv, Hm.
Qed.

Lemma views_store mv mv1 a l : mapped mv a (zlen l) -> views mv mv1 -> views (mstore mv a l) (mstore mv1 a l).
Proof.
  intros Hm [H1 H2]. split.
  - intros j. rewrite <- H1, mstore_lookup. case_decide as Hj; [|done]. split; intros _; [by apply Hm|].
    apply lookup_lt_is_Some. unfold zlen in *. lia.
  - intros j Hj Hn. revert Hj. rewrite !mstore_lookup. case_decide; [done|]. intros Hj. by apply H2.
Qed.

Lemma begun_op r m1 bcap' u mv mv1 op x :
  begin_done D kr bcap c m dst dictBuffer dictSize cdict prefsPtr r m1 bcap' u -> maxFHSize <= cap ->
  views mv mv1 -> input_ok mv op x -> op_ok kr bcap' r.2 mv1 (dst + r.1) (cap - r.1) u op x.
Proof.
  intros Hb Hcap Hv. pose proof Hb as (E1 & Hz & _ & _ & _ & Hin & (_ & _ & Ex & _) & _ & _ & _ & _ & Hfor).
  rewrite <- E1 in Hz. change maxFHSize with 19 in *. assert (0 <= r.1) as Hh0 by (rewrite E1; apply zlen_nonneg).
  pose proof Hv as [Hdom Hks]. change maxFHSize with 19 in Hks.
  destruct op as [src size| |a l]; [|done|]; cbn [input_ok op_ok].
  - intros (-> & Hs & Hsh & Hsk & Hsd & [Hsb Hsf] & Hsx & Hsu). split; [done|].
    split; [done|]. split; [|split; [done|split; [by eapply in_dict_apart|split; [sub_apart Hsd|split; [|by rewrite Ex]]]]].
    + eapply keeps_holds; [exact Hks| |done]. each_region; [sub_apart Hsd|apply Hsf|by apply foreign_tmp].
    + apply Hfor; [|done]. by eapply views_borders.
  - intros (-> & (_ & Hm & Hf & Hak & Had) & Hd).
    assert (mapped m a (zlen l)) as Hm0 by (intros j Hj; by apply Hdom, Hm).
    destruct (begun_apart _ _ _ _ _ _ _ _ _ _ _ _ _ _ (a, zlen l) Hb Hm0 Hf) as [F1 F2].
    splits; try done; [|sub_apart Hd|by eapply in_dict_apart|by apply apart_sym|by apply apart_sym].
    eapply keeps_mapped; [exact Hks| |done]. each_region; [apply apart_sym; sub_apart Hd|apply Hf|by apply foreign_tmp].
Qed.

Lemma begun_ops r m1 bcap' u os : forall ys mv mv1,
  begin_done D kr bcap c m dst dictBuffer dictSize cdict prefsPtr r m1 bcap' u -> maxFHSize <= cap ->
  views mv mv1 -> ops_ok input_ok mv os ys ->
  ops_ok (fun m => op_ok kr bcap' r.2 m (dst + r.1) (cap - r.1) u) mv1 os ys.
Proof.
  induction os as [|op os IH]; intros [|y ys] mv mv1 Hb Hcap Hv Hops; try done. destruct Hops as [Hop Hops].
  split; [by eapply begun_op|]. eapply IH; [done|done| |exact Hops].
  destruct op as [| |a l]; [done|done|]. apply views_store; [apply Hop|done].
Qed.

(** The state before the first call. *)
Lemma begun_between r m1 bcap' u :
  begin_done D kr bcap c m dst dictBuffer dictSize cdict prefsPtr r m1 bcap' u -> maxFHSize <= cap ->
  between cm D kr bcap' r.2 m1 [] [] [] u (dst + r.1) (cap - r.1) /\
  ops_ok (fun m => op_ok kr bcap' r.2 m (dst + r.1) (cap - r.1) u) m1 ops xs.
Proof.
  intros Hb Hcap. pose proof Hb as (_ & _ & _ & _ & Hrun & _ & (Ep & _) & (_ & Hreq & Hbc & _) & _). split.
  - split; [done|]. split; [by eapply begun_dst|]. split; [by right|]. unfold cc_linked, flushing. rewrite Ep.
    split; [done|]. intros Hf Hl. unfold required in Hreq. rewrite Hf, Hl in Hreq. specialize (Hbc Hmax). lia.
  - eapply begun_ops; [exact Hb|done| |exact Hins]. split; [done|apply Hb].
Qed.

Lemma wp_compress_session :
  wp (compress_session cm c dst cap dictBuffer dictSize cdict prefsPtr ops) session_post m.
Proof.
  unfold compress_session. pose proof session_bound_room as Hroom. apply wp_bind.
  destruct (Z.lt_ge_cases cap maxFHSize) as [Hcap|Hcap].
  { unfold LZ4F_compressBegin_internal. destruct (Z.ltb_spec cap maxFHSize); [|lia]. apply wp_ret. cbn [fst snd].
    change (LZ4F_isError (LZ4F_returnErrorCode LZ4F_ERROR_dstMaxSize_tooSmall)) with true. cbn iota.
    apply wp_ret. split; [apply keeps_refl|]. left. split; [lia|done]. }
  pose proof Hdst as ((Hd0 & Hd1) & Hdm & [F1 F2] & Hdk & Hdd). change maxFHSize with 19 in *.
  eapply wp_mono; [apply (wp_compressBegin_internal D kr bcap c m dst cap dictBuffer dictSize cdict prefsPtr); try done|].
  - change maxFHSize with 19. eapply mapped_sub; [exact Hdm|lia|lia].
  - split; [apply Hk|]. split; [apply Hk|]. change maxFHSize with 19. destruct kr. sub_apart Hdk.
  - change maxFHSize with 19. unfold foreign. split; [sub_apart F1|sub_apart F2].
  - intros Hn. split; [by apply Hdf|]. specialize (Hdd Hn). change maxFHSize with 19. sub_apart Hdd.
  - intros r1 m1 [(Hbad & _)|[(_ & Er & Hneed & _ & Hks & bcap' & Hrd & _)|(_ & bcap' & u & Hb & _)]].
    + change maxFHSize with 19 in Hbad. lia.
    + rewrite Er. change (LZ4F_isError (LZ4F_returnErrorCode LZ4F_ERROR_allocation_failed)) with true. cbn iota.
      apply wp_ret. split; [by apply begin_frame_keeps|]. right. left. split; [done|]. split; [done|]. by exists bcap'.
    + pose proof Hb as (E1 & Hz & _ & _ & _ & _ & (Ep & _) & _). change maxFHSize with 19 in Hz. rewrite <- E1 in Hz.
      assert (0 <= r1.1) as H0 by (rewrite E1; apply zlen_nonneg). rewrite small_not_error by lia.
      destruct (begun_between _ _ _ _ Hb Hcap) as [Hbt Hops]. apply wp_bind.
      eapply wp_mono; [by apply (wp_run_ops cm D kr bcap' ops xs)|]. rewrite Ep.
      intros r2 m2 [(Hlt & Er & Hch2)|[Hadd Hob]].
      * assert (frame_keeps bcap c dst cap (ops_stores ops) m m2) as Hks.
        { eapply begun_keeps; [exact Hb|done|]. eapply changes_widen; [exact Hch2|]. unfold inside. cbn [fst snd]. lia. }
        rewrite Er. change (LZ4F_isError (LZ4F_returnErrorCode LZ4F_ERROR_dstMaxSize_tooSmall)) with true. cbn iota.
        apply wp_ret. split; [done|]. left. split; [|done]. unfold session_bound. change maxFHSize with 19.
        assert (4 <= blockSizeID i <= 7) as Hid by apply Hp. pose proof (block_sizes _ Hid) as HB. unfold KB, MB in HB.
        destruct (end_covered p 0 Hp) as [_ He]; [lia|done|]. lia.
      * pose proof Hadd as (bs & _ & _ & _ & E2 & Hle & _).
        pose proof (zlen_nonneg (enc_blocks (frameInfo (cc_prefs r1.2)) bs)). rewrite small_not_error by lia.
        by eapply wp_session_end.
Qed.
End Session.
