(* ===== verification/Lz4FrameCompressTheorems.v ===== *)
(** The properties of the frame compressor: a frame in a single step, and frames
    that are compressed with any sequence of calls. *)
From S2P Require Import Prelude.
From S2P Require Import Mem.
From S2P Require Import Xxhash.
From S2P Require Import XxhashSpec.
From S2P Require Import XxhashStream.
From S2P Require Import BlockFormat.
From S2P Require Import Lz4Common.
From S2P Require Import Lz4Decompress.
From S2P Require Import Lz4Compress.
From S2P Require Import Lz4CompressSpec.
From S2P Require Import Lz4Hc.
From S2P Require Import Lz4StreamCompress.
From S2P Require Import Lz4StreamCompressSpec.
From S2P Require Import Lz4Frame.
From S2P Require Import Lz4FrameDecode.
From S2P Require Import FrameFormat.
From S2P Require Import Lz4FrameHeader.
From S2P Require Import Lz4FrameInv.
From S2P Require Import Lz4FrameLifecycle.
From S2P Require Import Lz4FrameCompress.
From S2P Require Import Lz4FrameMakeBlock.
From S2P Require Import Lz4FrameCompressInv.
From S2P Require Import Lz4FrameBeginSpec.
From S2P Require Import Lz4FrameOneShot.
From S2P Require Import Lz4FrameSession.

(** * Buffers *)

#[export] Instance prefs_wf_dec p : Decision (prefs_wf p).
Proof. unfold prefs_wf. apply _. Defined.

(** The buffers of [LZ4F_compressFrame], and the memory of its context. *)
Definition frame_buffers (m : mem) (cctxMem dst cap src : Z) (inp : list Z) : Prop :=
  mapped m (cctxMem + offset_mem32) 16 /\
  ((0 < dst /\ dst + cap <= 2 ^ 63) /\ mapped m dst cap /\ apart (dst, cap) (cctxMem + offset_mem32, 16)) /\
  ((0 < src /\ src + zlen inp <= 2 ^ 63 /\ zlen inp < 2 ^ 47 /\ bytes_ok inp) /\ holds m src inp /\
   apart (dst, cap) (src, zlen inp) /\
   (src + zlen inp <= cctxMem + offset_mem32 \/ cctxMem + offset_mem32 + 16 <= src)).

#[export] Instance frame_buffers_dec m cctxMem dst cap src inp : Decision (frame_buffers m cctxMem dst cap src inp).
Proof. unfold frame_buffers. apply _. Defined.

(** The functions of lib/lz4hc.c, with the outcome of their allocations. *)
Definition liblz4hc (optAlloc : bool) : LZ4_HC :=
  {| LZ4_streamHC_t := LZ4HC_CCtx; LZ4_initStreamHC := Lz4Hc.LZ4_initStreamHC;
     LZ4_resetStreamHC_fast := Lz4Hc.LZ4_resetStreamHC_fast;
     LZ4_setCompressionLevel := Lz4Hc.LZ4_setCompressionLevel;
     LZ4_favorDecompressionSpeed := Lz4Hc.LZ4_favorDecompressionSpeed;
     LZ4_attach_HC_dictionary := Lz4Hc.LZ4_attach_HC_dictionary; LZ4_loadDictHC := Lz4Hc.LZ4_loadDictHC;
     LZ4_saveDictHC := Lz4Hc.LZ4_saveDictHC; LZ4_compress_HC_continue := Lz4Hc.LZ4_compress_HC_continue optAlloc;
     LZ4_compress_HC_extStateHC_fastReset := Lz4Hc.LZ4_compress_HC_extStateHC_fastReset optAlloc |}.

(** C8.  [LZ4F_compressFrame], for the levels of the fast compressor, returns on
    every input and changes no memory but the destination and its own context. With less room than
    [LZ4F_compressFrameBound] it fails and writes nothing. Otherwise it writes a
    whole frame of the format: the header with the parameters asked for, blocks
    that stand for the input, each no larger than its part of the input, the end
    mark and the checksum; and it returns the size. *)
Theorem LZ4F_compressFrame_spec `{HA : Allocator} `{HHC : LZ4_HC} m cctxMem lz4Mem dst cap src inp prefsPtr :
  prefs_wf (effective (default zero_preferences prefsPtr)) -> frame_buffers m cctxMem dst cap src inp ->
  wp (LZ4F_compressFrame cctxMem lz4Mem dst cap src (zlen inp) prefsPtr)
     (compressFrame_post m cctxMem dst cap inp prefsPtr) m.
Proof. intros Hp (Hx & Hd & Hs). by apply wp_LZ4F_compressFrame. Qed.

(** A text of two equal lines. *)
Definition frame_text : list Z := Eval vm_compute in concat (replicate 8 [104; 101; 108; 108; 111; 44; 32; 119]).

Definition frame_prefs : LZ4F_preferences_t :=
  Preferences (FrameInfo 0 LZ4F_blockLinked 1 LZ4F_frame 1 0 1) 0 0 0.

Definition cframe_mem : mem :=
  mem_of [(100, replicate 216 0); (399, 0 :: frame_text ++ [0]); (600, replicate 256 0)].

Lemma LZ4F_compressFrame_witness :
  wp (@LZ4F_compressFrame arena_CustomMem (liblz4hc true) 100 350 600 256 400 (zlen frame_text) (Some frame_prefs))
     (compressFrame_post cframe_mem 100 600 256 frame_text (Some frame_prefs)) cframe_mem.
Proof. apply (@LZ4F_compressFrame_spec _ arena (liblz4hc true)); eval_decide. Defined.

(** The same call, evaluated: the frame is smaller than the text, and its header
    gives the size of the text. *)
Example frame_compressed :
  match @LZ4F_compressFrame arena_CustomMem (liblz4hc true) 100 350 600 256 400 (zlen frame_text) (Some frame_prefs) cframe_mem with
  | Ok r m => r = 49 /\ mload m 600 15 = Some [4; 34; 77; 24; 124; 64; 64; 0; 0; 0; 0; 0; 0; 0; 254]
  | _ => False
  end.
Proof. vm_compute. by split. Qed.

(** * Sessions *)

(** A context that was just created. *)
Lemma create_ready `{HA : Allocator} `{HHC : LZ4_HC} self version p m :
  mapped m (self + offset_mem32) 16 -> ready 0 p (zero_cctx self version) m.
Proof.
  intros Hm. split; [by left|]. split; [by left|]. split; [done|]. split; [by left|]. split; [done|].
  unfold apart. cbn. lia.
Qed.

Section Spec.
Context `{HA : Allocator} `{HHC : LZ4_HC}.

(** What a session starts from: a context between two frames, preferences of the
    fast compressor, a dictionary, and the buffers of the user, apart from each
    other and from the memory of the context. The sources and a plain dictionary do
    not touch the internal buffer either; where a new one is allocated, the bytes
    next to them are in use. [xs] are the inputs of the updates. *)
Abbreviation session_prefs prefsPtr := (effective (default LZ4F_INIT_PREFERENCES prefsPtr)).
Abbreviation linked_blocks p := (blockMode (frameInfo p) =? LZ4F_blockLinked).

Record session_start (D : list Z) (kr : Z * Z) (bcap : Z) (c : LZ4F_cctx) (m : mem) (dst cap : Z)
    (dictBuffer dictSize : Z) (cdict : option LZ4F_CDict) (prefsPtr : option LZ4F_preferences_t)
    (cm : LZ4F_BlockCompressMode_e) (ops : list session_op) (xs : list (list Z)) : Prop := {
  start_prefs : prefs_wf (session_prefs prefsPtr);
  start_ready : ready bcap (session_prefs prefsPtr) c m;
  start_buffer : cc_maxBufferSize c <= bcap;
  start_dict : dict_given D kr (linked_blocks (session_prefs prefsPtr)) m dictBuffer dictSize cdict;
  start_digested : mapped m kr.1 kr.2 /\ foreign bcap c kr;
  start_plain : dictBuffer <> NULL ->
    borders (session_prefs prefsPtr) c m (dictBuffer, dictSize) /\ foreign bcap c (dictBuffer, dictSize);
  start_dst : user_dst kr bcap c m dst cap dictBuffer dictSize;
  start_inputs : ops_ok (input_ok kr bcap c dst cap dictBuffer dictSize prefsPtr) m ops xs;
  start_mode : linked_blocks (session_prefs prefsPtr) = true -> cm = LZ4B_COMPRESSED }.

(** C10.  A session at a level of the fast compressor, without options: a frame is
    begun, data is added and flushed with any sequence of calls, and the frame is
    ended; between the calls the caller may store whatever it likes in memory of
    its own, the sources of earlier calls included. The session runs without a
    fault, and of the memory in use the library changes only the destination and
    the memory of the context. It fails for lack of room only below the sum of what
    [LZ4F_maxFHSize] and [LZ4F_compressBound] promise for its calls, and for lack
    of memory only if the context has to be enlarged, and is then fit for another
    attempt. Otherwise the calls have written, one behind the other, a frame of
    the format whose content is what was added, and (unless a dictionary was given
    and nothing was added to it) the context is ready for the next frame; a content
    size in the header that is not the size of the content is reported at the end. *)
Theorem compress_session_spec D kr bcap c m dst cap dictBuffer dictSize cdict prefsPtr cm ops xs :
  session_start D kr bcap c m dst cap dictBuffer dictSize cdict prefsPtr cm ops xs ->
  wp (compress_session cm c dst cap dictBuffer dictSize cdict prefsPtr ops)
     (session_post D bcap c m dst cap cdict prefsPtr ops xs) m.
Proof. intros [? ? ? ? ? ? ? ? ?]. by eapply wp_compress_session. Qed.
End Spec.

(** A buffer of 34 bytes is compressed twice: between the two updates the data is
    flushed and the buffer filled again. Linked blocks, with a checksum. *)
Definition linked_prefs : LZ4F_preferences_t :=
  Preferences (FrameInfo 0 LZ4F_blockLinked 1 LZ4F_frame 0 0 0) 0 0 0.

Definition sample_ops : list session_op :=
  [op_update 400 34; op_flush; op_store 400 (drop 30 frame_text); op_update 400 34].

Definition sample_inputs : list (list Z) := [take 34 frame_text; []; []; drop 30 frame_text].

Lemma sample_start :
  @session_start _ arena (liblz4hc true) [] (0, 0) 0 (zero_cctx 100 LZ4F_VERSION) cframe_mem 600 256 NULL 0 None
    (Some linked_prefs) LZ4B_COMPRESSED sample_ops sample_inputs.
Proof.
  constructor; [eval_decide|apply create_ready; eval_decide|done|by left; split; [|split; [|left]]|..].
  - split; [eval_decide|]. split; eval_decide.
  - done.
  - split; [done|]. split; [eval_decide|]. split; [split; eval_decide|].
    split; [eval_decide|done].
  - assert (forall mv src x, bool_decide (0 < src /\ src + zlen x <= 2 ^ 63 /\ zlen x < 2 ^ 47 /\ bytes_ok x) = true ->
      bool_decide (holds mv src x) = true -> bool_decide (mapped mv (src - 1) (zlen x + 2)) = true ->
      bool_decide (apart (600, 256) (src, zlen x)) = true ->
      316 <= src -> user_src (0, 0) 0 (@zero_cctx (liblz4hc true) 100 LZ4F_VERSION) mv 600 256 NULL 0 (Some linked_prefs) src x) as Hin.
    { intros mv src x H1%bool_decide_eq_true H2%bool_decide_eq_true H5%bool_decide_eq_true H3%bool_decide_eq_true H4.
      split; [done|]. split; [done|]. split; [unfold apart; cbn; lia|]. split; [done|]. split; [split; [intros _; by right|]|].
      - unfold foreign, apart. cbn [fst snd]. change (cc_tmpBuff (zero_cctx 100 LZ4F_VERSION)) with 0.
        change (mem32 (cc_xxh (zero_cctx 100 LZ4F_VERSION))) with 276. lia.
      - change (mem32 (cc_xxh (zero_cctx 100 LZ4F_VERSION))) with 276. split; [lia|done]. }
    split; [split; [done|apply Hin; (vm_compute; reflexivity) || lia]|]. split; [done|].
    split; [split; [done|]; split; [|eval_decide]; split; [done|]; split; [eval_decide|]; split; [split; eval_decide|]; split; [eval_decide|done]|].
    split; [split; [done|apply Hin; (vm_compute; reflexivity) || lia]|done].
  - done.
Qed.

Lemma compress_session_witness :
  wp (@compress_session arena_CustomMem (liblz4hc true) LZ4B_COMPRESSED (zero_cctx 100 LZ4F_VERSION) 600 256 NULL 0 None
        (Some linked_prefs) sample_ops)
     (@session_post _ arena (liblz4hc true) [] 0 (zero_cctx 100 LZ4F_VERSION) cframe_mem 600 256 None (Some linked_prefs)
        sample_ops sample_inputs) cframe_mem.
Proof. apply (@compress_session_spec _ arena (liblz4hc true) [] (0, 0) 0). exact sample_start. Defined.

(** The same session, evaluated: it succeeds. *)
Example session_written :
  match @compress_session arena_CustomMem (liblz4hc true) LZ4B_COMPRESSED (zero_cctx 100 LZ4F_VERSION) 600 256 NULL 0 None
          (Some linked_prefs) sample_ops cframe_mem with
  | Ok r _ => LZ4F_isError r.1 = false /\ r.1 = 52
  | _ => False
  end.
Proof. vm_compute. by split. Qed.
