(* ===== verification/Lz4FrameRoundtrip.v ===== *)
(** Frames that were compressed are decompressed to what was compressed: the
    composition of the frame compressor with the frame decoder. *)
From S2P Require Import Prelude.
From S2P Require Import Mem.
From S2P Require Import XxhashSpec.
From S2P Require Import XxhashStream.
From S2P Require Import BlockFormat.
From S2P Require Import Lz4Common.
From S2P Require Import Lz4Decompress.
From S2P Require Import Lz4DecodeSpec.
From S2P Require Import Lz4CompressSpec.
From S2P Require Import Lz4Frame.
From S2P Require Import Lz4FrameDecode.
From S2P Require Import FrameFormat.
From S2P Require Import Lz4FrameHeader.
From S2P Require Import FrameParse.
From S2P Require Import Lz4FrameInv.
From S2P Require Import Lz4FrameCall.
From S2P Require Import Lz4FrameInit.
From S2P Require Import Lz4FrameApi.
From S2P Require Import Lz4FrameComplete.
From S2P Require Import Lz4FrameLifecycle.
From S2P Require Import Lz4FrameDecodeTheorems.
From S2P Require Import Lz4FrameCompress.
From S2P Require Import Lz4FrameMakeBlock.
From S2P Require Import Lz4FrameCompressInv.
From S2P Require Import Lz4FrameBeginSpec.
From S2P Require Import Lz4FrameOneShot.
From S2P Require Import Lz4FrameSession.
From S2P Require Import Lz4FrameCompressTheorems.

(** * What the compressor makes is good *)

Lemma made_good h b x : block_made h b x -> block_good h b x.
Proof.
  intros (Hx & Hc & H). split; [done|]. split; [done|]. destruct (fb_raw b); [done|].
  destruct H as [(blk & E & Hcf & _ & _ & He) _]. by exists blk.
Qed.

Lemma produced_good i dict bs o : produced i dict bs o -> good_from i dict [] bs o.
Proof.
  induction 1 as [|bs b o x H IH Hb Hx]; [constructor|]. pose proof (made_size _ _ _ Hb).
  apply good_snoc; [done|by apply made_good|lia|done].
Qed.

Lemma produced_frame i dict bs o :
  info_wf i -> produced i dict bs o -> contentSize i = 0 \/ contentSize i = u64 (zlen o) ->
  good_frame dict (frame_of i (negb (contentSize i =? 0)) (negb (dictID i =? 0)) bs o) o.
Proof.
  intros Hi Hp Hc. exists i, (negb (contentSize i =? 0)), (negb (dictID i =? 0)), bs.
  splits; try done; [|by apply produced_good|tauto].
  split; by intros ?%negb_false_iff%Z.eqb_eq.
Qed.

(** A good frame consists of bytes. *)
Lemma good_blocks_bytes i dict o bs y : good_from i dict o bs y -> bytes_ok y -> bytes_ok (enc_blocks i bs).
Proof.
  induction 1 as [o|o b x bs y (_ & _ & Hb) H1 H2 H IH]; intros Hok; [constructor|].
  apply bytes_ok_app in Hok as [Hx Hy]. change (enc_blocks i (b :: bs)) with (enc_fblock i b ++ enc_blocks i bs).
  unfold enc_fblock, block_header. rewrite !bytes_ok_app. splits; try by apply IH.
  - apply le_bytes_ok.
  - destruct (fb_raw b); [by rewrite Hb|]. destruct Hb as (blk & -> & [Hw _] & _). by apply enc_block_bytes.
  - destruct (_ =? 0); [constructor|apply le_bytes_ok].
Qed.

Lemma good_frame_bytes dict f y : good_frame dict f y -> bytes_ok y -> bytes_ok f.
Proof.
  intros (i & sized & dicted & bs & Hi & _ & Hg & _ & ->) Hy. unfold frame_of. rewrite !bytes_ok_app.
  splits; [by apply header_bytes_ok|by eapply good_blocks_bytes|by repeat constructor|].
  unfold content_crc. destruct (_ =? 0); [constructor|apply le_bytes_ok].
Qed.

(** * A frame in one step *)

(** Decompression with a context that is made for it and released. *)
Definition decompress_new `{LZ4F_CustomMem} (out outCap src n : Z) : M (option dresult) :=
  d ← LZ4F_createDecompressionContext LZ4F_VERSION;
  match d.2 with
  | None => mret None
  | Some d =>
      R ← LZ4F_decompress d out outCap src n None;
      LZ4F_freeDecompressionContext (Some (r_dctx R));;
      mret (Some R)
  end.

(** The output of the decoder is in memory of its own, and the byte in front of it
    is in use. *)
Definition output_buffer (m : mem) (cctxMem dst cap out outCap : Z) : Prop :=
  (0 < out /\ 0 <= outCap /\ out + outCap <= 2 ^ 63) /\ mapped m (out - 1) (outCap + 1) /\
  apart (out - 1, outCap + 1) (dst, cap) /\ apart (out - 1, outCap + 1) (cctxMem + offset_mem32, 16).

#[export] Instance output_buffer_dec m cctxMem dst cap out outCap :
  Decision (output_buffer m cctxMem dst cap out outCap).
Proof. unfold output_buffer. apply _. Defined.

(** The room that is enough for the frame. *)
Definition frame_room (n : Z) (prefsPtr : option LZ4F_preferences_t) : Z :=
  LZ4F_compressFrameBound n (Some (compressFrame_prefs n prefsPtr)).

(** A good frame at [src] is decompressed with a new context. *)
Lemma wp_decode_new `{HA : Allocator} m out outCap src l y (Q : option dresult -> mem -> Prop) :
  good_frame [] l y -> bytes_ok l -> holds m src l -> 0 < src -> src + zlen l <= 2 ^ 63 ->
  0 < out /\ 0 <= outCap /\ out + outCap <= 2 ^ 63 -> mapped m (out - 1) (outCap + 1) -> apart (out, outCap) (src, zlen l) ->
  zlen y <= outCap ->
  Q None m ->
  (forall R m', keeps [(out, outCap)] m m' -> (exists m1, completes out [] [] l y R m1 /\ forall i, out <= i < out + outCap -> m' !! i = m1 !! i) -> Q (Some R) m') ->
  wp (decompress_new out outCap src (zlen l)) Q m.
Proof.
  intros Hg Hok Hl Hs Hs63 Ho Hm' Hap Hy Hbad HQ.
  assert (mapped m out outCap /\ mapped m (out - 1) 1) as [Hm Hm0] by (split; (eapply mapped_sub; [exact Hm'|lia|lia])). unfold decompress_new. apply wp_bind, wp_createDecompressionContext; [by apply wp_ret|].
  intros q m1 Hal. cbn [fst snd]. apply wp_bind. pose proof Hal as ((Hq & _) & _ & Hmq & He & Hblk & _).
  pose proof (allocated_apart _ _ _ _ _ _ Hal Hm) as A1.
  pose proof (allocated_apart _ _ _ _ _ _ Hal (holds_mapped _ _ _ Hl)) as A2.
  assert (zones_ok (new_priv q) out outCap) as Hz by (by apply new_zones).
  assert (fenced (new_priv q) m1 out outCap) as Hfence.
  { right. split; [by eapply allocated_mapped|]. apply clear_intro. pose proof (allocated_apart _ _ _ _ _ _ Hal Hm0) as A0.
    intros z. unfold apart, new_priv, dctx_header, dctx_xxhMem, dctx_blockChecksumMem, sizeof_dctx, NULL in *.
    destruct z; cbn [zreg fst snd p_header p_xxh p_bc p_tmpIn p_inCap p_tmpOut p_outCap] in *; lia. }
  pose proof (create_idle q LZ4F_VERSION m1 out outCap Hmq Hz) as [Hsus _].
  assert (clear (new_priv q) out outCap (src, zlen l)) as Hcl.
  { apply clear_intro. intros z. unfold apart, new_priv, dctx_header, dctx_xxhMem, dctx_blockChecksumMem, sizeof_dctx, NULL in *.
    destruct z; cbn [zreg fst snd p_header p_xxh p_bc p_tmpIn p_inCap p_tmpOut p_outCap] in *; lia. }
  set (K := call_of (new_priv q) (zero_dctx q LZ4F_VERSION) m1 out outCap src l None [] [] []).
  eapply wp_mono; [apply (wp_decompress_complete [] (new_priv q) _ m1 out outCap src l None [] [] l y [])|].
  - split; [cbn [call_of k_src k_srcl]; lia|]. split; [right; cbn [call_of k_dst k_dstSize]; lia|done].
  - done.
  - split; [by eapply allocated_holds|]. split; [done|by eapply allocated_mapped].
  - done.
  - by rewrite app_nil_r.
  - rewrite zlen_nil. lia.
  - intros R m2 [Hpost Hc]. fold K in Hpost. destruct (call_leaves _ _ _ _ Hpost) as (p & Hown & Hp & Hz2 & Hcov).
    pose proof Hcov as (Hmem & (_ & _ & _ & Eself) & Hbk). change (p_self (k_priv K)) with q in Eself.
    assert (forall z, is_buffer z -> forall a n, mapped m1 a n -> apart (zreg p out 0 z) (a, n)) as Haway.
    { intros z Hzb a n Hma. eapply (buffer_away K); [exact Hcov|exact Hz2|done|done|..];
        unfold apart, NULL, K; cbn; lia. }
    assert (apart (p_tmpIn p, p_inCap p) (out, outCap) /\ apart (p_tmpOut p, p_outCap p) (out, outCap)) as [B1 B2].
    { split; [apply (Haway ZIn (or_introl eq_refl))|apply (Haway ZOut (or_intror eq_refl))]; by eapply allocated_mapped. }
    apply wp_bind, (wp_freeDecompressionContext _ p m2 out sizeof_dctx); try done.
    + by rewrite Eself.
    + rewrite Eself. apply Hbk; [done|done|..]; unfold apart, NULL, K; cbn; lia.
    + rewrite Eself. by apply (Haway ZIn (or_introl eq_refl)).
    + rewrite Eself. by apply (Haway ZOut (or_intror eq_refl)).
    + intros m3 Hun _. apply wp_ret. rewrite Eself in Hun. apply HQ.
      * intros i Hi Hn. assert (is_Some (m1 !! i) /\ m1 !! i = m !! i) as [Hi1 E1].
        { assert (mapped m i 1) as Hmi by (intros j Hj; by replace j with i by lia).
          pose proof (allocated_apart _ _ _ _ _ _ Hal Hmi) as Ai. rewrite He; [by split|].
          unfold apart in Ai. cbn [fst snd] in Ai. lia. }
        rewrite <- E1. assert (mapped m1 i 1) as Hmi1 by (intros j Hj; by replace j with i by lia).
        pose proof (Haway ZIn (or_introl eq_refl) i 1 Hmi1) as C1. pose proof (Haway ZOut (or_intror eq_refl) i 1 Hmi1) as C2.
        assert (mapped m i 1) as Hmi by (intros j Hj; by replace j with i by lia).
        pose proof (allocated_apart _ _ _ _ _ _ Hal Hmi) as C3. inversion Hn as [|? ? Hn1 _]. subst.
        unfold apart, sizeof_dctx in C1, C2, C3. cbn [zreg fst snd] in C1, C2, C3, Hn1.
        rewrite Hun. 2: { repeat constructor; unfold member, sizeof_dctx; cbn [fst snd]; lia. }
        destruct Hpost as [Hk _]. apply (Hk i); [done|]. intros z Hmz. unfold member, K in Hmz.
        unfold new_priv, dctx_header, dctx_xxhMem, dctx_blockChecksumMem, NULL in Hmz.
        destruct z; cbn in Hmz; lia.
      * exists m2. split; [done|]. intros i Hi. apply Hun. unfold apart, sizeof_dctx in *. cbn [fst snd] in *.
        repeat constructor; unfold member; cbn [fst snd]; lia.
Qed.

(** C9.  Round trip: what [LZ4F_compressFrame] writes, with any preferences of
    the fast compressor and at least the room that [LZ4F_compressFrameBound] asks
    for, is restored by one call of [LZ4F_decompress] with a context that is
    created for it and released: the call consumes the frame, completes it, and
    leaves the input in the output buffer, unless memory runs out. The byte in
    front of the output buffer is in use. *)
Theorem compressFrame_roundtrip `{HA : Allocator} `{HHC : LZ4_HC} m cctxMem lz4Mem dst cap src inp prefsPtr
    out outCap :
  prefs_wf (effective (default zero_preferences prefsPtr)) -> frame_buffers m cctxMem dst cap src inp ->
  frame_room (zlen inp) prefsPtr <= cap ->
  output_buffer m cctxMem dst cap out outCap -> zlen inp <= outCap ->
  wp (r ← LZ4F_compressFrame cctxMem lz4Mem dst cap src (zlen inp) prefsPtr;
      R ← decompress_new out outCap dst r;
      mret (r, R))
     (fun rR m' => match rR.2 with
        | None => True
        | Some R => r_code R = LZ4F_returnErrorCode LZ4F_ERROR_allocation_failed \/
            (r_code R = 0 /\ r_srcSize R = rR.1 /\ r_dstSize R = zlen inp /\ holds m' out inp)
        end) m.
Proof.
  intros Hp Hfb Hroom (Ho & Hom & Hod & Hox) Hout. pose proof Hfb as (_ & ((Hd0 & Hd1) & _) & ((_ & _ & Hn & Hok) & _)).
  apply wp_bind. eapply wp_mono; [by apply wp_LZ4F_compressFrame; [|apply Hfb..]|].
  intros r m1 [Hks [(Hbad & _)|(_ & bs & Hprod & -> & Hl & Hh)]]; [unfold frame_room in Hroom; lia|].
  pose proof (zlen_nonneg inp) as Hn0. set (l := frame_of _ _ _ _ _) in *.
  assert (good_frame [] l inp) as Hg.
  { apply produced_frame; [|done|].
    - apply (frame_prefs_wf (zlen inp) prefsPtr); [lia|done].
    - rewrite u64_small by lia. apply frame_size_right. }
  clearbody l.
  assert (mapped m1 (out - 1) (outCap + 1)) as Hom1.
  { eapply keeps_mapped; [exact Hks|each_region; by apply apart_sym|done]. }
  apply wp_bind, (wp_decode_new m1 out outCap dst l inp); try done; try lia.
  - by eapply good_frame_bytes.
  - eapply apart_inside; [exact Hod|right; cbn; lia|]. right. cbn. lia.
  - intros R m2 _ (m3 & Hc & Hsame). apply wp_ret. cbn [fst snd].
    destruct Hc as [Ha|(E0 & x & o & -> & -> & E1 & E2 & Ho2)]; [by left|right]. split; [done|]. split; [done|]. split; [done|].
    eapply holds_eq_on; [|exact Ho2]. intros i Hi. apply Hsame. change ([] ++ o) with o in Hi, Hout. lia.
Qed.

(** The same text as above, compressed and restored. *)
Definition roundtrip_mem : mem :=
  mem_of [(100, replicate 216 0); (400, frame_text); (600, replicate 256 0); (999, replicate 65 0)].

Lemma compressFrame_roundtrip_witness :
  wp (r ← @LZ4F_compressFrame arena_CustomMem (liblz4hc true) 100 350 600 256 400 (zlen frame_text) (Some frame_prefs);
      R ← @decompress_new arena_CustomMem 1000 64 600 r;
      mret (r, R))
     (fun rR m' => match rR.2 with
        | None => True
        | Some R => r_code R = LZ4F_returnErrorCode LZ4F_ERROR_allocation_failed \/
            (r_code R = 0 /\ r_srcSize R = rR.1 /\ r_dstSize R = zlen frame_text /\ holds m' 1000 frame_text)
        end) roundtrip_mem.
Proof.
  apply (@compressFrame_roundtrip _ arena (liblz4hc true)).
  - eval_decide.
  - eval_decide.
  - vm_compute. discriminate.
  - eval_decide.
  - vm_compute. discriminate.
Defined.

(** * Sessions *)

(** A frame [l] from which every decoder with the dictionary [D] restores [y]:
    in any memory, from a context at the beginning of a frame, with enough room
    and whatever follows the frame. *)
Definition restored (D l y : list Z) : Prop :=
  forall (CM : LZ4F_CustomMem) (HA : @Allocator CM) old p d m dst room src t opts dict,
    call_ok (call_of p d m dst room src (l ++ t) opts D [] []) ->
    suspended old p d m dst room [] [] -> stage_index (d_dStage d) <= stage_index dstage_init ->
    Lz4FrameDecodeTheorems.dict_given p m dst room dict D -> buffers_ok p m dst room src (l ++ t) ->
    zlen y <= room ->
    wp (LZ4F_decompress_usingDict d dst room src (zlen (l ++ t)) dict (zlen D) opts) (completes dst [] [] l y) m.

Lemma good_restored D l y : good_frame D l y -> restored D l y.
Proof.
  intros Hg CM HA old p d m dst room src t opts dict Hc Hs Hle Hd Hb Hroom.
  unfold LZ4F_decompress_usingDict. rewrite (proj2 (Z.leb_le _ _)) by done.
  eapply wp_mono; [apply (wp_decompress_complete D p (set_dictSize (zlen D) (set_dict dict d)) m dst room src _ opts [] [] l y t); try done|].
  - by eapply suspended_dict.
  - by intros R m' [_ ?].
Qed.

(** C11.  Round trip of sessions at a level of the fast compressor, without
    options: if a session reports success, the bytes that its calls have written,
    as many as they report, are a frame from which every decoder with the same
    dictionary restores the concatenation of the inputs, however these were cut
    into calls, flushed and buffered, and whatever the caller stored in its source
    buffers between the calls. *)
Theorem session_roundtrip `{HA : Allocator} `{HHC : LZ4_HC} D kr bcap c m dst cap dictBuffer dictSize cdict prefsPtr cm ops xs :
  session_start D kr bcap c m dst cap dictBuffer dictSize cdict prefsPtr cm ops xs ->
  wp (compress_session cm c dst cap dictBuffer dictSize cdict prefsPtr ops) (fun r m' =>
    LZ4F_isError r.1 = false ->
    exists l, r.1 = zlen l /\ zlen l <= cap /\ holds m' dst l /\ restored D l (concat xs)) m.
Proof.
  intros [Hp ? ? ? ? ? ? ? ?]. eapply wp_mono; [by eapply wp_compress_session|].
  intros r m' [_ [[_ ->]|[(_ & -> & _)|(bs & Hprod & Hh & Hl & Hsz & _)]]] He; [done..|].
  destruct Hsz as [[Hok Er]|[_ Er]]; [|by rewrite Er in He]. eexists. split; [rewrite Er; apply Z.sub_0_r|].
  split; [lia|]. split; [done|]. apply good_restored, produced_frame; [apply Hp|done|done].
Qed.

Lemma session_roundtrip_witness :
  wp (@compress_session arena_CustomMem (liblz4hc true) LZ4B_COMPRESSED (zero_cctx 100 LZ4F_VERSION) 600 256 NULL 0 None
        (Some linked_prefs) sample_ops)
     (fun r m' => LZ4F_isError r.1 = false ->
        exists l, r.1 = zlen l /\ zlen l <= 256 /\ holds m' 600 l /\
          restored [] l (concat sample_inputs)) cframe_mem.
Proof. apply (@session_roundtrip _ arena (liblz4hc true) [] (0, 0) 0). exact sample_start. Defined.
