(* ===== verification/Lz4File.v ===== *)
(** File access on top of the frame functions ([lib/lz4file.c]): the readers
    that [LZ4F_readOpen] makes, and the writers of [LZ4F_writeOpen]. *)
From S2P Require Import Prelude.
From S2P Require Import Mem.
From S2P Require Import Lz4Common.
From S2P Require Import Lz4Decompress.
From S2P Require Import Lz4Frame.
From S2P Require Import Lz4FrameDecode.
From S2P Require Import Lz4FrameCompress.

(** * Streams of the C library *)

(** A stream as its user meets it: the bytes that can still be read, whether
    reading ends with an error instead of the end of the file, the error
    indicator, the bytes that were written, and how many more can be. *)
Record FILE := File {
  f_data : list Z;
  f_fails : bool;
  f_error : bool;
  f_written : list Z;
  f_space : Z }.

(** [fread(buf, 1, n, fp)]: fewer bytes than [n] are read only at the end of the
    file or after an error. *)
Definition fread (buf n : Z) (fp : FILE) : M (Z * FILE) :=
  let l := take (Z.to_nat n) (f_data fp) in
  store_bytes buf l;;
  mret (zlen l, File (drop (Z.to_nat n) (f_data fp)) (f_fails fp)
                  (f_error fp || ((zlen l <? n) && f_fails fp)) (f_written fp) (f_space fp)).

(** [fwrite(buf, 1, n, fp)]: fewer bytes than [n] are written only after an
    error. *)
Definition fwrite (buf n : Z) (fp : FILE) : M (Z * FILE) :=
  l ← load_bytes buf n;
  let k := Z.min n (f_space fp) in
  mret (k, File (f_data fp) (f_fails fp) (f_error fp || (k <? n))
             (f_written fp ++ take (Z.to_nat k) l) (f_space fp - k)).

Definition ferror (fp : FILE) : bool := f_error fp.

(** The sizes of [lz4frame.h]. *)
Definition LZ4F_HEADER_SIZE_MIN : Z := 7.
Definition LZ4F_HEADER_SIZE_MAX : Z := 19.
Definition LZ4F_ENDMARK_SIZE : Z := 4.

Definition returnErrorCode (code : LZ4F_errorCodes) : Z := LZ4F_returnErrorCode code.

(** The memory of readers and writers comes from [malloc] and [calloc]. Contexts
    that are created without functions of the user take theirs from there too:
    both are the functions of the class [LZ4F_CustomMem]. *)

(** * Reading *)

(** A reader. Besides the fields of the struct, its own address: what [free]
    is given. *)
Record LZ4_readFile_t := ReadFile {
  rf_self : Z;
  rf_dctxPtr : option LZ4F_dctx;
  rf_fp : Z;
  rf_srcBuf : Z;
  rf_srcBufNext : Z;
  rf_srcBufSize : Z;
  rf_srcBufMaxSize : Z }.

Definition sizeof_readFile : Z := 48.

Section Read.
Context `{LZ4F_CustomMem}.

Definition freeReadFileResources (lz4fRead : option LZ4_readFile_t) : M unit :=
  match lz4fRead with
  | None => mret tt
  | Some r =>
      LZ4F_freeDecompressionContext (rf_dctxPtr r);;
      LZ4F_free (rf_srcBuf r);;
      LZ4F_free (rf_self r)
  end.

(** Frees [*statePtr] and returns the new value of [*statePtr]. *)
Definition freeAndNullReadFile (statePtr : option LZ4_readFile_t) : M (option LZ4_readFile_t) :=
  freeReadFileResources statePtr;; mret None.

(** [headerBuf] is the address of the local array. *)
Definition readAndParseHeader (headerBuf : Z) (readFile : LZ4_readFile_t) (fp : FILE) :
    M (Z * LZ4_readFile_t * FILE) :=
  b ← fread headerBuf LZ4F_HEADER_SIZE_MAX fp;
  let bytesRead := b.1 in
  let fp := b.2 in
  if bytesRead <? LZ4F_HEADER_SIZE_MIN + LZ4F_ENDMARK_SIZE
  then mret (returnErrorCode LZ4F_ERROR_io_read, readFile, fp) else
  match rf_dctxPtr readFile with
  | None => fault
  | Some d =>
      g ← LZ4F_getFrameInfo d headerBuf bytesRead;
      let '(result, d, consumedSize, frameInfo) := g in
      let readFile := ReadFile (rf_self readFile) (Some d) (rf_fp readFile) (rf_srcBuf readFile)
                        (rf_srcBufNext readFile) (rf_srcBufSize readFile) (rf_srcBufMaxSize readFile) in
      if LZ4F_isError result then mret (result, readFile, fp) else
      match frameInfo with
      | None => fault
      | Some frameInfo =>
          let blockSize := LZ4F_getBlockSize (blockSizeID frameInfo) in
          if blockSize =? 0 then mret (returnErrorCode LZ4F_ERROR_maxBlockSize_invalid, readFile, fp) else
          srcBuf ← LZ4F_malloc blockSize;
          let readFile := ReadFile (rf_self readFile) (Some d) (rf_fp readFile) srcBuf
                            (rf_srcBufNext readFile) (rf_srcBufSize readFile) blockSize in
          if srcBuf =? NULL then mret (returnErrorCode LZ4F_ERROR_allocation_failed, readFile, fp) else
          let srcBufSize := u64 (bytesRead - consumedSize) in
          (if 0 <? srcBufSize then memcpy srcBuf (headerBuf + consumedSize) srcBufSize else mret tt);;
          mret (0, ReadFile (rf_self readFile) (Some d) (rf_fp readFile) srcBuf 0 srcBufSize blockSize, fp)
      end
  end.

(** Returns the code, the value stored at [lz4fRead] if there is one, and the
    stream. *)
Definition LZ4F_readOpen (headerBuf lz4fRead fp : Z) (file : FILE) :
    M (Z * option LZ4_readFile_t * FILE) :=
  if (fp =? NULL) || (lz4fRead =? NULL)
  then mret (returnErrorCode LZ4F_ERROR_parameter_null, None, file) else
  self ← LZ4F_calloc sizeof_readFile;
  if self =? NULL then mret (returnErrorCode LZ4F_ERROR_allocation_failed, None, file) else
  let readFile := ReadFile self None fp NULL 0 0 0 in
  c ← LZ4F_createDecompressionContext LZ4F_VERSION;
  let readFile := ReadFile self c.2 fp NULL 0 0 0 in
  if LZ4F_isError c.1 then
    freeAndNullReadFile (Some readFile);;
    mret (c.1, None, file)
  else
  h ← readAndParseHeader headerBuf readFile file;
  let '(result, readFile, file) := h in
  if LZ4F_isError result then
    freeAndNullReadFile (Some readFile);;
    mret (result, None, file)
  else
  mret (0, Some readFile, file).

(** The loop of [LZ4F_read]. *)
Record rloop := RLoop {
  rl_read : LZ4_readFile_t;
  rl_file : FILE;
  rl_outPtr : Z;
  rl_total : Z }.

(** The source buffer is filled when it is used up; [inr] is what the function
    returns when there is nothing to fill it with. *)
Definition read_refill (r : LZ4_readFile_t) (file : FILE) (total : Z) :
    M ((LZ4_readFile_t * FILE * Z) + (Z * LZ4_readFile_t * FILE)) :=
  let srcBytes := u64 (rf_srcBufSize r - rf_srcBufNext r) in
  if srcBytes =? 0 then
    b ← fread (rf_srcBuf r) (rf_srcBufMaxSize r) file;
    let bytesRead := b.1 in
    let file := b.2 in
    if bytesRead =? 0 then
      if ferror file then mret (inr (returnErrorCode LZ4F_ERROR_io_read, r, file))
      else mret (inr (total, r, file))
    else
      mret (inl (ReadFile (rf_self r) (rf_dctxPtr r) (rf_fp r) (rf_srcBuf r) 0 bytesRead (rf_srcBufMaxSize r),
                 file, bytesRead))
  else mret (inl (r, file, srcBytes)).

Definition read_turn (size : Z) (s : rloop) : M (rloop + (Z * LZ4_readFile_t * FILE)) :=
  if negb (rl_total s <? size) then mret (inr (rl_total s, rl_read s, rl_file s)) else
  let dstBytes := size - rl_total s in
  f ← read_refill (rl_read s) (rl_file s) (rl_total s);
  match f with
  | inr result => mret (inr result)
  | inl (r, file, srcBytes) =>
      match rf_dctxPtr r with
      | None => fault
      | Some d =>
          R ← LZ4F_decompress d (rl_outPtr s) dstBytes (rf_srcBuf r + rf_srcBufNext r) srcBytes None;
          let next n := ReadFile (rf_self r) (Some (r_dctx R)) (rf_fp r) (rf_srcBuf r) n
                          (rf_srcBufSize r) (rf_srcBufMaxSize r) in
          if LZ4F_isError (r_code R) then mret (inr (r_code R, next (rf_srcBufNext r), file)) else
          mret (inl (RLoop (next (rf_srcBufNext r + r_srcSize R)) file
                       (rl_outPtr s + r_dstSize R) (rl_total s + r_dstSize R)))
      end
  end.

(** Every turn uses input or room: twice what there is of both bounds the
    turns. *)
Definition read_fuel (r : LZ4_readFile_t) (file : FILE) (size : Z) : nat :=
  Z.to_nat (2 * (size + (rf_srcBufSize r - rf_srcBufNext r) + zlen (f_data file)) + 2).

Definition LZ4F_read (lz4fRead : option LZ4_readFile_t) (file : FILE) (buf size : Z) :
    M (Z * option LZ4_readFile_t * FILE) :=
  match lz4fRead with
  | None => mret (returnErrorCode LZ4F_ERROR_parameter_null, None, file)
  | Some r =>
      if buf =? NULL then mret (returnErrorCode LZ4F_ERROR_parameter_null, Some r, file) else
      x ← loop (read_fuel r file size) (read_turn size) (RLoop r file buf 0);
      let '(n, r, file) := x in
      mret (n, Some r, file)
  end.

Definition LZ4F_readClose (lz4fRead : option LZ4_readFile_t) : M Z :=
  match lz4fRead with
  | None => mret (returnErrorCode LZ4F_ERROR_parameter_null)
  | Some _ => freeReadFileResources lz4fRead;; mret 0
  end.
End Read.

(** * Writing *)

Record LZ4_writeFile_t `{LZ4_HC} := WriteFile {
  wf_self : Z;
  wf_cctxPtr : option LZ4F_cctx;
  wf_fp : Z;
  wf_dstBuf : Z;
  wf_maxWriteSize : Z;
  wf_dstBufMaxSize : Z;
  wf_errCode : Z }.

Definition sizeof_writeFile : Z := 48.

Section Write.
Context `{LZ4F_CustomMem} `{LZ4_HC}.

Definition wset_cctxPtr (c : option LZ4F_cctx) (w : LZ4_writeFile_t) : LZ4_writeFile_t :=
  WriteFile _ (wf_self w) c (wf_fp w) (wf_dstBuf w) (wf_maxWriteSize w) (wf_dstBufMaxSize w) (wf_errCode w).
Definition wset_errCode (e : Z) (w : LZ4_writeFile_t) : LZ4_writeFile_t :=
  WriteFile _ (wf_self w) (wf_cctxPtr w) (wf_fp w) (wf_dstBuf w) (wf_maxWriteSize w) (wf_dstBufMaxSize w) e.

Definition freeWriteFileResources (state : option LZ4_writeFile_t) : M unit :=
  match state with
  | None => mret tt
  | Some w =>
      LZ4F_freeCompressionContext (wf_cctxPtr w);;
      LZ4F_free (wf_dstBuf w);;
      LZ4F_free (wf_self w)
  end.

(** Frees [*statePtr] and returns the new value of [*statePtr]. *)
Definition freeAndNullWriteFile (statePtr : option LZ4_writeFile_t) : M (option LZ4_writeFile_t) :=
  freeWriteFileResources statePtr;; mret None.

(** [headerBuf] is the address of the local array. *)
Definition writeHeader (headerBuf : Z) (writeFile : LZ4_writeFile_t) (fp : FILE)
    (prefsPtr : option LZ4F_preferences_t) : M (Z * LZ4_writeFile_t * FILE) :=
  match wf_cctxPtr writeFile with
  | None => fault
  | Some c =>
      r ← LZ4F_compressBegin c headerBuf LZ4F_HEADER_SIZE_MAX prefsPtr;
      let headerSize := r.1 in
      let writeFile := wset_cctxPtr (Some r.2) writeFile in
      if LZ4F_isError headerSize then mret (headerSize, writeFile, fp) else
      w ← fwrite headerBuf headerSize fp;
      if negb (headerSize =? w.1) then mret (returnErrorCode LZ4F_ERROR_io_write, writeFile, w.2)
      else mret (0, writeFile, w.2)
  end.

(** [old] is the value of [*lz4fWrite] before the call; the result has the code,
    the value of [*lz4fWrite] after it, and the stream. *)
Definition LZ4F_writeOpen (headerBuf lz4fWrite : Z) (old : option LZ4_writeFile_t) (fp : Z) (file : FILE)
    (prefsPtr : option LZ4F_preferences_t) : M (Z * option LZ4_writeFile_t * FILE) :=
  if (fp =? NULL) || (lz4fWrite =? NULL)
  then mret (returnErrorCode LZ4F_ERROR_parameter_null, old, file) else
  let bsid := match prefsPtr with Some prefs => blockSizeID (frameInfo prefs) | None => LZ4F_default end in
  let blockSize := LZ4F_getBlockSize bsid in
  if blockSize =? 0 then mret (returnErrorCode LZ4F_ERROR_maxBlockSize_invalid, old, file) else
  self ← LZ4F_calloc sizeof_writeFile;
  if self =? NULL then mret (returnErrorCode LZ4F_ERROR_allocation_failed, old, file) else
  let dstBufMaxSize := LZ4F_compressBound 0 prefsPtr in
  dstBuf ← LZ4F_malloc dstBufMaxSize;
  let writeFile := WriteFile _ self None fp dstBuf blockSize dstBufMaxSize 0 in
  if dstBuf =? NULL then
    freeAndNullWriteFile (Some writeFile);;
    mret (returnErrorCode LZ4F_ERROR_allocation_failed, old, file)
  else
  c ← LZ4F_createCompressionContext LZ4F_VERSION;
  if LZ4F_isError c.1 then
    old ← freeAndNullWriteFile old;
    mret (c.1, old, file)
  else
  h ← writeHeader headerBuf (wset_cctxPtr c.2 writeFile) file prefsPtr;
  let '(writeStatus, writeFile, file) := h in
  if LZ4F_isError writeStatus then
    freeAndNullWriteFile (Some writeFile);;
    mret (writeStatus, old, file)
  else
  mret (0, Some writeFile, file).

(** The loop of [LZ4F_write]: the writer, the stream, the place in the input
    and the number of bytes that remain. *)
Record wloop := WLoop {
  wl_write : LZ4_writeFile_t;
  wl_file : FILE;
  wl_p : Z;
  wl_remaining : Z }.

Definition write_turn (size : Z) (s : wloop) : M (wloop + (Z * LZ4_writeFile_t * FILE)) :=
  let w := wl_write s in
  if wl_remaining s =? 0 then mret (inr (size, w, wl_file s)) else
  let chunkSize := if wf_maxWriteSize w <? wl_remaining s then wf_maxWriteSize w else wl_remaining s in
  match wf_cctxPtr w with
  | None => fault
  | Some c =>
      r ← LZ4F_compressUpdate c (wf_dstBuf w) (wf_dstBufMaxSize w) (wl_p s) chunkSize None;
      let cSize := r.1 in
      let w := wset_cctxPtr (Some r.2) w in
      if LZ4F_isError cSize then mret (inr (cSize, wset_errCode cSize w, wl_file s)) else
      f ← fwrite (wf_dstBuf w) cSize (wl_file s);
      if negb (cSize =? f.1)
      then mret (inr (returnErrorCode LZ4F_ERROR_io_write,
                      wset_errCode (returnErrorCode LZ4F_ERROR_io_write) w, f.2))
      else mret (inl (WLoop w f.2 (wl_p s + chunkSize) (wl_remaining s - chunkSize)))
  end.

(** Every turn takes at least one byte of the input. *)
Definition LZ4F_write (lz4fWrite : option LZ4_writeFile_t) (file : FILE) (buf size : Z) :
    M (Z * option LZ4_writeFile_t * FILE) :=
  match lz4fWrite with
  | None => mret (returnErrorCode LZ4F_ERROR_parameter_null, None, file)
  | Some w =>
      if buf =? NULL then mret (returnErrorCode LZ4F_ERROR_parameter_null, Some w, file) else
      x ← loop (Z.to_nat (size + 1)) (write_turn size) (WLoop w file buf size);
      let '(n, w, file) := x in
      mret (n, Some w, file)
  end.

Definition LZ4F_writeClose (lz4fWrite : option LZ4_writeFile_t) (file : FILE) : M (Z * FILE) :=
  match lz4fWrite with
  | None => mret (returnErrorCode LZ4F_ERROR_parameter_null, file)
  | Some w =>
      x ← (if wf_errCode w =? 0 then
             match wf_cctxPtr w with
             | None => fault
             | Some c =>
                 r ← LZ4F_compressEnd c (wf_dstBuf w) (wf_dstBufMaxSize w) None;
                 let w := wset_cctxPtr (Some r.2) w in
                 if LZ4F_isError r.1 then mret (r.1, w, file) else
                 f ← fwrite (wf_dstBuf w) r.1 file;
                 if negb (r.1 =? f.1) then mret (returnErrorCode LZ4F_ERROR_io_write, w, f.2)
                 else mret (r.1, w, f.2)
             end
           else mret (0, w, file));
      let '(ret, w, file) := x in
      freeWriteFileResources (Some w);;
      mret (ret, file)
  end.
End Write.
