(* ===== verification/Lz4FileRead.v ===== *)
(** [LZ4F_read]: the reader as a decoder of the whole file. Its position is what
    it has consumed and emitted, across frames; a call moves it forward. *)
From S2P Require Import Prelude.
From S2P Require Import Mem.
From S2P Require Import BlockFormat.
From S2P Require Import Lz4Common.
From S2P Require Import Lz4Decompress.
From S2P Require Import Lz4Frame.
From S2P Require Import Lz4FrameDecode.
From S2P Require Import FrameFormat.
From S2P Require Import Lz4FrameHeader.
From S2P Require Import FrameParse.
From S2P Require Import Lz4FrameInv.
From S2P Require Import Lz4FrameCall.
From S2P Require Import Lz4FrameStages.
From S2P Require Import Lz4FrameInit.
From S2P Require Import Lz4FrameCallSpec.
From S2P Require Import Lz4FrameApi.
From S2P Require Import Lz4FrameComplete.
From S2P Require Import Lz4FrameLifecycle.
From S2P Require Import Lz4FrameClient.
From S2P Require Import Lz4File.

(** * Sequences of frames *)

(** Complete frames [C] with the contents [Y]. *)
Inductive frames : list Z -> list Z -> Prop :=
| frames_nil : frames [] []
| frames_cons f y C Y : frame_done [] true f y -> frames C Y -> frames (f ++ C) (y ++ Y).

(** Good frames [D] with the contents [T]. *)
Inductive good_stream : list Z -> list Z -> Prop :=
| stream_nil : good_stream [] []
| stream_cons f y D T : good_frame [] f y -> good_stream D T -> good_stream (f ++ D) (y ++ T).

Lemma frames_snoc C Y f y : frames C Y -> frame_done [] true f y -> frames (C ++ f) (Y ++ y).
Proof.
  intros HC Hf. induction HC as [|f' y' C Y Hf' HC IH].
  - cbn [app]. rewrite <- (app_nil_r f), <- (app_nil_r y). by constructor; [|constructor].
  - rewrite <- !app_assoc. by constructor.
Qed.

Lemma done_long crc f y : frame_done [] crc f y -> 7 <= zlen f.
Proof.
  intros [(i & sized & dicted & bs & suf & _ & _ & _ & -> & _)|(_ & Hl & _)]; [|lia].
  rewrite !zlen_app, zlen_header_bytes. pose proof (header_size_range sized dicted). change (zlen endmark) with 4.
  pose proof (zlen_nonneg (enc_blocks i bs)). pose proof (zlen_nonneg suf). lia.
Qed.

Lemma stream_split D T : good_stream D T -> D <> [] -> exists f y D' T',
  D = f ++ D' /\ T = y ++ T' /\ good_frame [] f y /\ good_stream D' T'.
Proof. intros [|f y D' T' Hg Hs] Hne; [done|]. by exists f, y, D', T'. Qed.

Lemma stream_empty D T : good_stream D T -> D = [] -> T = [].
Proof.
  intros [|f y D' T' Hg _] E; [done|]. apply app_eq_nil in E as [-> _].
  destruct (good_header [] [] y [] Hg) as (? & ? & _ & _ & Hl). change (zlen (@nil Z)) with 0 in Hl. lia.
Qed.

(** Complete frames at the beginning of good frames are some of these. *)
Lemma frames_aligned C Y r D T :
  frames C Y -> good_stream D T -> D = C ++ r -> exists T', good_stream r T' /\ T = Y ++ T'.
Proof.
  intros HC. revert D T. induction HC as [|f y C Y Hf HC IH]; intros D T Hg E; [by subst; exists T|].
  pose proof (done_long _ _ _ Hf) as Hl. rewrite <- app_assoc in E. destruct (stream_split D T Hg) as (f' & y' & D' & T' & -> & -> & Hf' & Hs).
  { intros ->. apply (f_equal zlen) in E. rewrite zlen_app, zlen_nil in E. pose proof (zlen_nonneg (C ++ r)). lia. }
  destruct (done_unique _ _ _ _ _ _ _ _ Hf Hf' (eq_sym E)) as [-> ->]. apply app_inv_head in E.
  destruct (IH _ _ Hs E) as (T'' & H1 & ->). exists T''. split; [done|]. by rewrite app_assoc.
Qed.

(** * Readers *)

Section Reader.
Context `{HA : Allocator}.

(** The blocks that a reader holds besides the buffers of its context. *)
Definition regions (rf : LZ4_readFile_t) (p : priv) : list (Z * Z) :=
  [(rf_srcBuf rf, rf_srcBufMaxSize rf); (rf_self rf, sizeof_readFile); (p_self p, sizeof_dctx)].

Definition reader_held (rf : LZ4_readFile_t) (p : priv) (m : mem) : Prop :=
  (0 < rf_srcBuf rf /\ 0 < rf_self rf /\ 0 < p_self p) /\ Forall (held p m) (regions rf p) /\
  apart (rf_srcBuf rf, rf_srcBufMaxSize rf) (rf_self rf, sizeof_readFile) /\
  apart (rf_srcBuf rf, rf_srcBufMaxSize rf) (p_self p, sizeof_dctx) /\
  apart (rf_self rf, sizeof_readFile) (p_self p, sizeof_dctx).

(** A reader that can be released. *)
Definition reader_owned (rf : LZ4_readFile_t) (p : priv) (m : mem) : Prop :=
  reader_held rf p m /\ exists d, rf_dctxPtr rf = Some d /\ owns d p /\ priv_ok p m /\ zones_ok p (rf_srcBuf rf) 0.

(** A reader in the middle of a frame of which [c] was consumed and [e] emitted,
    with [q] in its buffer. *)
Definition reader_ok (rf : LZ4_readFile_t) (p : priv) (m : mem) (c e q : list Z) : Prop :=
  let src := rf_srcBuf rf in
  let cap := rf_srcBufMaxSize rf in
  (0 < src /\ 0 < cap /\ src + cap <= 2 ^ 63) /\
  (exists d, rf_dctxPtr rf = Some d /\ suspended [] p d m src cap c e /\ d_skipChecksum d = 0 /\ history_own d /\
     (waits (d_dStage d) = true \/ d_dStage d = dstage_init)) /\
  (0 <= rf_srcBufNext rf /\ rf_srcBufNext rf + zlen q = rf_srcBufSize rf /\ rf_srcBufSize rf <= cap /\
   holds m (src + rf_srcBufNext rf) q) /\
  reader_held rf p m.

(** The position of a reader in a file with the bytes [D]: [E] was emitted. *)
Definition reader_at (rf : LZ4_readFile_t) (p : priv) (m : mem) (D E : list Z) (file : FILE) : Prop :=
  (f_fails file = false -> f_error file = false) /\
  exists C Y c e q, frames C Y /\ D = C ++ c ++ q ++ f_data file /\ E = Y ++ e /\ reader_ok rf p m c e q.

(** Memory of the client. *)
Definition foreign (rf : LZ4_readFile_t) (p : priv) (m : mem) (a n : Z) : Prop :=
  (0 < a \/ n <= 0) /\ mapped m a n /\ zones_ok p a n /\ Forall (apart (a, n)) (regions rf p).

(** A buffer of the client for what is read: the byte in front of it is in use, and
    not by the context. *)
Definition target (rf : LZ4_readFile_t) (p : priv) (m : mem) (a n : Z) : Prop :=
  foreign rf p m a n /\ fenced p m a n.

(** What the client has in its memory outside the buffer of a call. *)
Definition guest (rf : LZ4_readFile_t) (p : priv) (m : mem) (buf size a : Z) (l : list Z) : Prop :=
  holds m a l /\ foreign rf p m a (zlen l) /\ apart (buf, size) (a, zlen l).

Definition no_other_error (file : FILE) (D : list Z) (code : Z) : Prop :=
  code = LZ4F_returnErrorCode LZ4F_ERROR_allocation_failed \/
  (code = LZ4F_returnErrorCode LZ4F_ERROR_io_read /\ f_fails file = true) \/ forall T, ~ good_stream D T.

(** The result of [LZ4F_read]: an error, after which the reader can be closed,
    or the number of bytes that were stored, less than asked for only at the end
    of the file. *)
Definition read_post (D E : list Z) (rf0 : LZ4_readFile_t) (p0 : priv) (m0 : mem) (file0 : FILE) (buf size : Z)
    (R : Z * LZ4_readFile_t * FILE) (m : mem) : Prop :=
  let '(n, rf, file) := R in
  exists p, (forall a l, guest rf0 p0 m0 buf size a l -> guest rf p m buf size a l) /\
  f_written file = f_written file0 /\ f_fails file = f_fails file0 /\
  ((LZ4F_isError n = true /\ reader_owned rf p m /\ no_other_error file0 D n) \/
   exists o, n = zlen o /\ zlen o <= size /\ holds m buf o /\ target rf p m buf size /\
     reader_at rf p m D (E ++ o) file /\
     (zlen o = size \/ (f_data file = [] /\ rf_srcBufNext rf = rf_srcBufSize rf))).

(** ** Turns *)

Context (D E0 : list Z) (rf0 : LZ4_readFile_t) (p0 : priv) (m0 : mem) (file0 : FILE) (buf size : Z).
Context (HD : bytes_ok D) (Hbuf : 0 < buf /\ 0 <= size /\ buf + size <= 2 ^ 63).

(** Between two turns. *)
Definition turn_at (p : priv) (o C Y c e q : list Z) (s : rloop) (m : mem) : Prop :=
  (forall a l, guest rf0 p0 m0 buf size a l -> guest (rl_read s) p m buf size a l) /\
  (f_written (rl_file s) = f_written file0 /\ f_fails (rl_file s) = f_fails file0 /\
   (f_fails (rl_file s) = false -> f_error (rl_file s) = false)) /\
  (rl_total s = zlen o /\ zlen o <= size /\ rl_outPtr s = buf + zlen o /\ holds m buf o) /\
  target (rl_read s) p m buf size /\
  (frames C Y /\ D = C ++ c ++ q ++ f_data (rl_file s) /\ E0 ++ o = Y ++ e) /\
  reader_ok (rl_read s) p m c e q.

Definition turn_inv (s : rloop) (m : mem) : Prop :=
  exists p o C Y c e q, turn_at p o C Y c e q s m.

(** What is left to do: a complete frame can end without input or output, but
    then the next turn consumes something. *)
Definition turn_meas (s : rloop) : Z :=
  2 * ((size - rl_total s) + (rf_srcBufSize (rl_read s) - rf_srcBufNext (rl_read s)) + zlen (f_data (rl_file s))) +
  match rf_dctxPtr (rl_read s) with
  | Some d => if bool_decide (d_dStage d = dstage_getFrameHeader) then 0 else 1
  | None => 0
  end.
(** ** Filling the buffer *)

Lemma wp_fread a n file m Q :
  0 <= n -> mapped m a n ->
  (forall l r m', f_data file = l ++ r -> zlen l <= n -> (zlen l < n -> r = []) ->
     frame a (a + zlen l) m m' -> holds m' a l ->
     Q (zlen l, File r (f_fails file) (f_error file || ((zlen l <? n) && f_fails file)) (f_written file) (f_space file)) m') ->
  wp (fread a n file) Q m.
Proof.
  intros Hn Hm HQ. unfold fread. apply wp_bind.
  assert (zlen (take (Z.to_nat n) (f_data file)) <= n) as Hl by (unfold zlen; rewrite length_take; lia).
  apply wp_store_bytes_holds; [eapply mapped_sub; [exact Hm|lia..]|].
  intros m' Hf Hh. apply wp_ret. apply HQ; try done; [by rewrite take_drop|].
  unfold zlen. rewrite length_take. intros Hlt. apply drop_ge. lia.
Qed.

(** The reader after a write to its buffer. *)
Lemma filled rf p m m' k a l :
  frame (rf_srcBuf rf) (rf_srcBuf rf + k) m m' -> k <= rf_srcBufMaxSize rf ->
  guest rf p m buf size a l -> guest rf p m' buf size a l.
Proof.
  intros Hf Hk (Hh & (H1 & H2 & H3 & H4) & H5). split; [|split; [|done]].
  - inversion H4 as [|? ? Ha _]. eapply apart_frame; [exact Hf| |exact Hh]. sub_apart (apart_sym _ _ Ha).
  - split; [done|]. split; [by eapply frame_mapped|done].
Qed.

Lemma fenced_frame p m m' a k b n : frame a k m m' -> fenced p m b n -> fenced p m' b n.
Proof. intros Hf [Hn|[H1 H2]]; [by left|right]. split; [by eapply frame_mapped|done]. Qed.

Lemma held_filled p m m' a k r : frame a k m m' -> held p m r -> held p m' r.
Proof.
  intros Hf (H1 & H2 & H3). split; [by eapply frame_mapped|]. split; [|done]. destruct Hf as [_ Hd]. by eapply block_mono.
Qed.

Lemma fill_reader rf p m m' c e l :
  reader_ok rf p m c e [] -> bytes_ok c -> target rf p m buf size ->
  frame (rf_srcBuf rf) (rf_srcBuf rf + zlen l) m m' -> holds m' (rf_srcBuf rf) l -> zlen l <= rf_srcBufMaxSize rf ->
  reader_ok (ReadFile (rf_self rf) (rf_dctxPtr rf) (rf_fp rf) (rf_srcBuf rf) 0 (zlen l) (rf_srcBufMaxSize rf)) p m' c e l.
Proof.
  intros (Hs & (d & Ed & Hsus & Hsk & Hho & Hst) & _ & (H0 & Hh & Hap)) Hok ((F1 & F2 & F3 & F4) & F5) Hf Hl Hcap.
  pose proof (zlen_nonneg l). inversion Hh as [|? ? (Hms & _) _]. subst.
  assert (attached buf size (rf_srcBuf rf) (rf_srcBufMaxSize rf) p d m c e) as Hat by (by split).
  apply (client_fill buf size _ _ p d m m' c e (zlen l)) in Hat as ((Hsus' & _) & _); [|done|done|lia].
  split; [done|]. split; [by exists d|]. cbn [rf_srcBuf rf_srcBufNext rf_srcBufSize rf_srcBufMaxSize].
  rewrite Z.add_0_r. split; [splits; done || lia|]. split; [done|]. split; [|done].
  eapply Forall_impl; [|exact Hh]. intros r Hr. by eapply held_filled.
Qed.

Lemma turn_bytes p o C Y c e q s m : turn_at p o C Y c e q s m -> bytes_ok (c ++ q ++ f_data (rl_file s)).
Proof. intros (_ & _ & _ & _ & (_ & E & _) & _). rewrite E in HD. by apply bytes_ok_app in HD as [_ ?]. Qed.

Lemma reader_releasable rf p m c e q : reader_ok rf p m c e q -> reader_owned rf p m.
Proof.
  intros (Hs & (d & Ed & (H1 & H2 & H3 & _) & _) & _ & Hh). split; [done|]. exists d. splits; try done.
  by eapply zones_empty.
Qed.

(** The turn that ends the loop. *)
Lemma turn_end p o C Y c e q s m n :
  turn_at p o C Y c e q s m -> n = rl_total s -> n = size \/ (q = [] /\ f_data (rl_file s) = []) ->
  read_post D E0 rf0 p0 m0 file0 buf size (n, rl_read s, rl_file s) m.
Proof.
  intros (Hg & (Hw & Hfa & Hfe) & (Et & Ho & Eo & Hh) & Hfo & (HC & ED & EE) & Hr) En Hend. exists p.
  split; [done|]. split; [done|]. split; [done|]. right. exists o. split; [lia|]. split; [done|]. split; [done|].
  split; [done|]. split; [split; [done|]; by exists C, Y, c, e, q|].
  destruct Hend as [E|[-> E]]; [left; lia|right]. split; [done|]. destruct Hr as (_ & _ & (_ & Hq & _) & _).
  rewrite zlen_nil in Hq. lia.
Qed.

Lemma refill_ok s m p o C Y c e q :
  turn_at p o C Y c e q s m -> rl_total s < size ->
  wp (read_refill (rl_read s) (rl_file s) (rl_total s)) (fun r m' =>
    match r with
    | inr R => read_post D E0 rf0 p0 m0 file0 buf size R m'
    | inl (rf, file, n) => exists q', n = zlen q' /\ q' <> [] /\
        let s' := RLoop rf file (rl_outPtr s) (rl_total s) in
        turn_at p o C Y c e q' s' m' /\ turn_meas s' = turn_meas s
    end) m.
Proof.
  intros Ht Hlt. pose proof Ht as (Hg & (Hw & Hfa & Hfe) & Ho & Hfo & (HC & ED & EE) & Hr).
  pose proof Hr as (Hs & _ & (Q1 & Q2 & Q3 & _) & (_ & Hh & _)). inversion Hh as [|? ? (Hms & _) _]. subst.
  unfold read_refill. replace (u64 _) with (zlen q) by (rewrite u64_small; pose proof (zlen_nonneg q); lia).
  destruct (Z.eqb_spec (zlen q) 0) as [E|E]; [|apply wp_ret; exists q; split; [done|split; [by intros ->|by destruct s]]].
  assert (q = []) as -> by (apply zlen_0_nil; lia).
  apply wp_bind, wp_fread; [lia|done|]. intros l r m' Efl Hl Hlr Hf Hlh. cbn [fst snd].
  pose proof (turn_bytes _ _ _ _ _ _ _ _ _ Ht) as [Hokc _]%bytes_ok_app. cbn [app] in ED. rewrite Efl in ED.
  destruct (Z.eqb_spec (zlen l) 0) as [E0'|E0'].
  - assert (l = []) as -> by (apply zlen_0_nil; lia). rewrite (Hlr ltac:(lia)) in *. cbn [ferror f_error].
    rewrite zlen_nil in *. rewrite Z.add_0_r in Hf. rewrite (proj2 (Z.ltb_lt 0 _)) by lia. cbn [andb].
    assert (m' = m) as ->.
    { apply map_eq. intros i. destruct Hf as [Hf _]. apply Hf. lia. }
    destruct (f_error (rl_file s) || f_fails (rl_file s)) eqn:Eb; apply wp_ret.
    + exists p. split; [done|]. split; [done|]. split; [done|]. left. split; [done|]. split; [by eapply reader_releasable|].
      right. left. split; [done|]. rewrite <- Hfa. destruct (f_fails (rl_file s)); [done|]. by rewrite Hfe in Eb.
    + eapply (turn_end p o C Y c e [] (RLoop (rl_read s) _ (rl_outPtr s) (rl_total s))); [|done|by right].
      split; [done|]. split; [by splits|]. split; [done|]. split; [done|]. split; [by splits|done].
  - apply wp_ret. exists l. split; [done|]. split; [by intros ->|]. split; [|].
    + split; [|split; [|split; [|split; [|split]]]]; cbn [rl_read rl_file rl_outPtr rl_total f_written f_fails f_error f_data].
      * intros a k Hk. apply Hg in Hk. by eapply filled in Hk.
      * splits; try done. intros Hff. rewrite (Hfe Hff), Hff. by rewrite andb_false_r.
      * destruct Ho as (O1 & O2 & O3 & O4). splits; try done. destruct Hfo as ((_ & _ & _ & Hfo) & _).
        inversion Hfo as [|? ? Ha _]. eapply apart_frame; [exact Hf| |exact O4]. apply apart_sym in Ha. sub_apart Ha.
      * destruct Hfo as ((F1 & F2 & F3 & F4) & F5). split; [split; [done|]; split; [by eapply frame_mapped|done]|].
        by eapply fenced_frame.
      * by splits.
      * by eapply fill_reader.
    + unfold turn_meas. cbn [rl_read rl_file rl_total rf_srcBufSize rf_srcBufNext rf_dctxPtr f_data]. rewrite Efl, zlen_app.
      f_equal. rewrite zlen_nil in Q2. lia.
Qed.

(** ** A call of the decoder *)

(** What a call, with its destination in the buffer of the client, leaves to
    the client and to the reader. *)
Section After.
Context (K : call) (rf rf' : LZ4_readFile_t) (p' : priv) (m' : mem) (dst room : Z).
Context (Hk : kept K m') (Hc : covered K p' m') (Hp : priv_ok p' m') (Hz : zones_ok p' dst room).
Context (Hdst : buf <= k_dst K /\ k_dst K + k_dstSize K <= buf + size).
Context (Hrf : rf_srcBuf rf' = rf_srcBuf rf /\ rf_srcBufMaxSize rf' = rf_srcBufMaxSize rf /\ rf_self rf' = rf_self rf).

Lemma regions_after : regions rf' p' = regions rf (k_priv K).
Proof.
  unfold regions. destruct Hrf as (-> & -> & ->). destruct Hc as (_ & (_ & _ & _ & ->) & _). done.
Qed.

Lemma guest_after a l :
  guest rf (k_priv K) (k_mem K) buf size a l -> guest rf' p' m' buf size a l.
Proof.
  intros (Hh & (F1 & F2 & F3 & F4) & Ha). assert (holds m' a l) as Hh'.
  { eapply holds_eq_on; [|exact Hh]. intros i Hi. apply Hk; [by apply F2|]. intros z Hzm.
    destruct (decide (z = ZDst)) as [->|Hne]; [unfold apart, member in *; cbn [zreg fst snd] in *; lia|].
    pose proof (zones_apart _ _ _ z ZDst F3 Hne) as A. unfold apart, member in *.
    destruct z; cbn [zreg fst snd] in *; lia || done. }
  split; [done|]. split; [|done]. split; [done|]. split; [by apply holds_mapped|].
  split; [by eapply zones_after|]. by rewrite regions_after.
Qed.

Lemma held_after_call :
  Forall (apart (buf, size)) (regions rf (k_priv K)) -> reader_held rf (k_priv K) (k_mem K) -> reader_held rf' p' m'.
Proof.
  intros Ha (H0 & Hh & Hap). unfold reader_held. rewrite regions_after. destruct Hrf as (-> & -> & ->).
  pose proof Hc as (_ & (_ & _ & _ & ->) & _). split; [done|]. split; [|done].
  apply Forall_forall. intros r Hr. rewrite Forall_forall in Ha, Hh. specialize (Ha r Hr).
  eapply (held_after K); try done; [sub_apart Ha|by apply Hh].
Qed.
End After.

(** A decompression call of the loop, and what the loop makes of it. *)
Definition after_call (rf : LZ4_readFile_t) (R : dresult) (n : Z) : LZ4_readFile_t :=
  ReadFile (rf_self rf) (Some (r_dctx R)) (rf_fp rf) (rf_srcBuf rf) n (rf_srcBufSize rf) (rf_srcBufMaxSize rf).

Lemma turn_call s m p o C Y c e q d :
  turn_at p o C Y c e q s m -> rl_total s < size -> q <> [] -> rf_dctxPtr (rl_read s) = Some d ->
  let rf := rl_read s in
  wp (LZ4F_decompress d (rl_outPtr s) (size - rl_total s) (rf_srcBuf rf + rf_srcBufNext rf) (zlen q) None)
     (fun R m' =>
        if LZ4F_isError (r_code R)
        then read_post D E0 rf0 p0 m0 file0 buf size (r_code R, after_call rf R (rf_srcBufNext rf), rl_file s) m'
        else let s' := RLoop (after_call rf R (rf_srcBufNext rf + r_srcSize R)) (rl_file s)
                         (rl_outPtr s + r_dstSize R) (rl_total s + r_dstSize R) in
             turn_inv s' m' /\ turn_meas s' < turn_meas s) m.
Proof.
  intros Ht Hlt Hq Ed rf. pose proof (turn_bytes _ _ _ _ _ _ _ _ _ Ht) as Hok.
  destruct Ht as (Hg & Hfile & (Et & Ho & Eo & Hh) & Hfo & (HC & ED & EE) & Hr). fold rf in Hg, Hfo, Hr.
  pose proof Hr as (Hs & (d' & Ed' & Hsus & Hsk & Hho & Hst) & (Q1 & Q2 & Q3 & Q4) & Hheld).
  fold rf in Ed. rewrite Ed in Ed'. injection Ed' as <-.
  pose proof Hfo as ((_ & Hmb & Hzb & Hab) & Hfb). pose proof Hheld as (_ & Hh' & _).
  pose proof (Forall_inv Hh') as (Hms & _). pose proof (Forall_inv Hab) as Habs. cbn [fst snd] in Hms.
  assert (attached buf size (rf_srcBuf rf) (rf_srcBufMaxSize rf) p d m c e) as Hat by (by split).
  pose proof (zlen_nonneg q) as Hq0. pose proof (zlen_nonneg o) as Ho0.
  eapply wp_mono; [apply (client_call buf size (rf_srcBuf rf) (rf_srcBufMaxSize rf) Hbuf ltac:(lia) Habs
    (rl_outPtr s) (size - rl_total s) ltac:(lia) p d m c e (rf_srcBuf rf + rf_srcBufNext rf) q Hat)|]; try done; try lia.
  { rewrite app_assoc in Hok. by apply bytes_ok_app in Hok as [? _]. }
  intros R m' [(Hk & Hsrc & Hout) Hp]. set (K := call_of p d m (rl_outPtr s) (size - rl_total s) _ q None [] c e) in *.
  assert (buf <= k_dst K /\ k_dst K + k_dstSize K <= buf + size) as Hdst by (cbn [K call_of k_dst k_dstSize]; lia).
  destruct (LZ4F_isError (r_code R)) eqn:Ee.
  - destruct Hp as [(p' & Hown & Hpriv & Hz & Hcov) Hbl]. set (rf' := after_call _ _ _). exists p'.
    split; [intros a l Hal; by eapply (guest_after K rf rf'), Hg|]. split; [apply Hfile|]. split; [apply Hfile|]. left.
    split; [done|]. split; [split; [by eapply (held_after_call K rf rf')|]|].
    + exists (r_dctx R). split; [done|]. split; [done|]. split; [done|].
      eapply zones_empty, (zones_after K p' m' (rf_srcBuf rf) (rf_srcBufMaxSize rf)); try done. by apply Hsus.
    + destruct Hbl as [->|Hbl]; [by left|]. right. right. intros T Hgs.
      destruct (frames_aligned C Y _ D T HC Hgs ED) as (T' & Hgs' & _).
      destruct (stream_split _ _ Hgs') as (f & y & D' & T'' & Ef & _ & Hgf & _).
      { intros E. apply app_eq_nil in E as [_ E]. by apply app_eq_nil in E as [-> _]. }
      apply (Hbl (f_data (rl_file s)) f y D' Hgf). cbn [K call_of k_read k_srcl]. by rewrite <- app_assoc.
  - destruct Hp as (p' & x & r & o' & (Ex & Esz) & (Edsz & Hol & Hh1) & Hcov & Hcode). cbv zeta.
    assert (exists c' e' C' Y', attached buf size (rf_srcBuf rf) (rf_srcBufMaxSize rf) p' (r_dctx R) m' c' e' /\
      (waits (d_dStage (r_dctx R)) = true \/ d_dStage (r_dctx R) = dstage_init) /\
      frames C' Y' /\ C' ++ c' = C ++ c ++ x /\ Y' ++ e' = Y ++ e ++ o' /\
      2 * (zlen x + zlen o') + (if bool_decide (d_dStage d = dstage_getFrameHeader) then 0 else 1) >
        (if bool_decide (d_dStage (r_dctx R) = dstage_getFrameHeader) then 0 else 1)) as Hnew.
    { pose proof (zlen_nonneg x). pose proof (zlen_nonneg o'). destruct (r_code R =? 0).
      - destruct Hcode as (Hfd & Hat' & Hgs). exists [], [], (C ++ c ++ x), (Y ++ e ++ o'). rewrite !app_nil_r.
        split; [done|]. split; [left; by rewrite Hgs|]. split; [by apply frames_snoc|]. split; [done|]. split; [done|].
        rewrite Hgs. rewrite (bool_decide_true (dstage_getFrameHeader = dstage_getFrameHeader)) by done. case_bool_decide as Hgh; [|lia].
        destruct Hsus as (_ & _ & _ & Hst'). unfold stage_ok in Hst'. rewrite Hgh in Hst'. destruct Hst' as (-> & _).
        apply done_long in Hfd. cbn [app] in Hfd. lia.
      - destruct Hcode as (Hat' & Hw & Hend). exists (c ++ x), (e ++ o'), C, Y. split; [done|]. split; [by left|].
        split; [done|]. split; [done|]. split; [done|].
        assert (0 < zlen x + zlen o') as Hpos.
        { destruct Hend as [->|Hend]; [|lia]. rewrite app_nil_r in Ex. rewrite <- Ex. apply zlen_pos in Hq. lia. }
        repeat case_bool_decide; lia. }
    destruct Hnew as (c' & e' & C' & Y' & (((Hsus' & Hzb' & Hfb') & Hmb' & Hms' & Hsk' & Hho') & Hst' & HC' & EC & EY & Hmeas)).
    set (rf' := after_call _ _ _). pose proof Hsus' as (_ & Hpriv' & Hz' & _). split; [|].
    + exists p', (o ++ o'), C', Y', c', e', r.
      split; [intros a l Hal; by eapply (guest_after K rf rf'), Hg|]. split; [done|]. cbn [rl_read rl_file rl_outPtr rl_total].
      split; [|split; [|split; [|]]].
      * rewrite zlen_app. split; [lia|]. split; [lia|]. split; [lia|]. apply holds_app. split.
        -- eapply holds_eq_on; [|exact Hh]. intros i Hi. apply Hout. lia.
        -- by rewrite <- Eo.
      * split; [|done]. split; [lia|]. split; [done|]. split; [done|]. rewrite (regions_after K rf rf' p' m'); done.
      * split; [done|]. split.
        -- rewrite ED, Ex, (app_assoc C' c'), EC. by rewrite <- !app_assoc.
        -- by rewrite EY, app_assoc, EE, <- app_assoc.
      * split; [done|]. split; [by exists (r_dctx R)|]. cbn [rf' after_call rf_srcBufNext rf_srcBufSize rf_srcBuf rf_srcBufMaxSize].
        pose proof (zlen_nonneg x). rewrite Ex, zlen_app in Q2. split; [|by eapply (held_after_call K rf rf')].
        splits; try lia. rewrite Ex in Q4. apply holds_app in Q4 as [_ Q4]. rewrite Esz, Z.add_assoc.
        eapply holds_eq_on; [|exact Q4]. intros i Hi. apply Hsrc. lia.
    + unfold turn_meas. fold rf. cbn [rl_read rl_file rl_total rf' after_call rf_srcBufSize rf_srcBufNext rf_dctxPtr].
      rewrite Ed, Esz, Edsz. lia.
Qed.

Lemma read_turn_ok s m :
  turn_inv s m ->
  0 <= turn_meas s /\
  wp (read_turn size s) (fun r m' =>
    match r with
    | inl s' => turn_inv s' m' /\ turn_meas s' < turn_meas s
    | inr R => read_post D E0 rf0 p0 m0 file0 buf size R m'
    end) m.
Proof.
  intros (p & o & C & Y & c & e & q & Ht). pose proof Ht as (_ & _ & (Et & Ho & _) & _ & _ & (_ & _ & (_ & Q2 & _) & _)).
  split; [unfold turn_meas; zlen_facts; destruct (rf_dctxPtr _); [case_bool_decide|]; lia|].
  unfold read_turn. destruct (Z.ltb_spec (rl_total s) size) as [Hlt|Hge]; cbn [negb].
  - apply wp_bind. eapply wp_mono; [by eapply refill_ok|]. intros [[[rf file] n]|R] m'; [|by intros HR; apply wp_ret].
    intros (q' & -> & Hq & Ht' & Em). pose proof Ht' as (_ & _ & _ & _ & _ & (_ & (d & Ed & _) & _)). cbn [rl_read] in Ed.
    rewrite Ed. apply wp_bind. eapply wp_mono; [exact (turn_call _ m' _ _ _ _ _ _ _ d Ht' Hlt Hq Ed)|].
    intros R m2 HR. cbn [rl_read rl_file rl_outPtr rl_total] in HR. destruct (LZ4F_isError (r_code R)); apply wp_ret; [done|].
    destruct HR as [H1 H2]. split; [done|]. by rewrite <- Em.
  - apply wp_ret. eapply turn_end; [exact Ht|done|left; lia].
Qed.

Lemma wp_LZ4F_read :
  reader_at rf0 p0 m0 D E0 file0 -> target rf0 p0 m0 buf size ->
  wp (LZ4F_read (Some rf0) file0 buf size) (fun x m => exists rf, x.1.2 = Some rf /\
    read_post D E0 rf0 p0 m0 file0 buf size (x.1.1, rf, x.2) m) m0.
Proof.
  intros (Hfe & C & Y & c & e & q & HC & ED & EE & Hr) Hfo. unfold LZ4F_read.
  rewrite (proj2 (Z.eqb_neq buf NULL)) by (unfold NULL; lia). apply wp_bind.
  eapply wp_mono; [apply (wp_loop turn_inv turn_meas _ _ read_turn_ok)|].
  - exists p0, [], C, Y, c, e, q. split; [done|]. split; [done|].
    split; [change (zlen (@nil Z)) with 0; cbn; splits; try done; try lia; apply holds_nil|].
    split; [done|]. split; [|done]. split; [done|]. split; [done|]. by rewrite app_nil_r.
  - unfold turn_meas, read_fuel. cbn [rl_read rl_file rl_total]. destruct Hr as (_ & _ & (_ & Q2 & _) & _). zlen_facts.
    destruct (rf_dctxPtr rf0); [case_bool_decide|]; lia.
  - intros [[n rf] file] m HR. apply wp_ret. by exists rf.
Qed.
End Reader.

(** * Reading of good frames *)

Section Complete.
Context `{HA : Allocator} (rf : LZ4_readFile_t) (p : priv) (m : mem) (D E T : list Z) (file : FILE).
Context (HD : bytes_ok D) (Hr : reader_at rf p m D E file) (HT : good_stream D T).

Lemma reader_prefix : exists T', T = E ++ T'.
Proof.
  destruct Hr as (_ & C & Y & c & e & q & HC & ED & -> & (_ & (d & _ & (_ & _ & _ & Hst) & _) & _)).
  rewrite ED in HD. apply bytes_ok_app in HD as [_ Hok]. apply bytes_ok_app in Hok as [Hok _].
  destruct (frames_aligned C Y _ D T HC HT ED) as (T2 & Hgs & ->).
  destruct (decide (c = [])) as [->|Hne].
  - apply output_bound in Hst; [|done]. change (zlen (@nil Z)) with 0 in Hst. rewrite Z.mul_0_r in Hst. apply zlen_0_nil in Hst as ->.
    exists T2. by rewrite app_nil_r.
  - destruct (stream_split _ _ Hgs) as (f & y & D' & T' & Ef & -> & Hgf & _); [by intros [? _]%app_eq_nil|].
    destruct (output_prefix [] p d m _ _ c e _ f y D' Hok Hst Hgf Ef) as (y' & ->). exists (y' ++ T').
    by rewrite <- !app_assoc.
Qed.

Lemma reader_end : f_data file = [] -> rf_srcBufNext rf = rf_srcBufSize rf -> T = E.
Proof.
  intros Hd Hn. destruct Hr as (_ & C & Y & c & e & q & HC & ED & -> & (_ & (d & _ & (_ & _ & _ & Hst) & _ & _ & Hw) & (_ & Hq & _) & _)).
  assert (q = []) as -> by (apply zlen_0_nil; lia). rewrite Hd, app_nil_r in ED.
  rewrite ED in HD. apply bytes_ok_app in HD as [_ Hok].
  destruct (frames_aligned C Y _ D T HC HT ED) as (T2 & Hgs & ->).
  destruct (decide (c = [])) as [->|Hne].
  - apply output_bound in Hst; [|done]. change (zlen (@nil Z)) with 0 in Hst. rewrite Z.mul_0_r in Hst.
    apply zlen_0_nil in Hst as ->. by rewrite (stream_empty _ _ Hgs eq_refl).
  - exfalso. destruct (stream_split _ _ Hgs Hne) as (f & y & D' & T' & Ef & -> & Hgf & _). rewrite <- (app_nil_r c) in Ef.
    destruct Hw as [Hw|Hw].
    + by apply (input_needed [] p d m _ _ c e [] f y D' Hok Hst Hgf Ef Hw).
    + by apply (header_unfinished [] p d m _ _ c e [] f y D' Hst Hgf Ef Hw).
Qed.
End Complete.

