(* ===== verification/Lz4FileOpen.v ===== *)
(** Opening and closing of readers: [LZ4F_getFrameInfo] on a new context,
    [LZ4F_readOpen] and [LZ4F_readClose]. *)
From S2P Require Import Prelude.
From S2P Require Import Mem.
From S2P Require Import Xxhash.
From S2P Require Import BlockFormat.
From S2P Require Import Lz4Common.
From S2P Require Import Lz4Decompress.
From S2P Require Import Lz4Frame.
From S2P Require Import Lz4FrameDecode.
From S2P Require Import FrameFormat.
From S2P Require Import Lz4FrameHeader.
From S2P Require Import FrameParse.
From S2P Require Import Lz4FrameInv.
From S2P Require Import Lz4FrameDict.
From S2P Require Import Lz4FrameCall.
From S2P Require Import Lz4FrameStages.
From S2P Require Import Lz4FrameInit.
From S2P Require Import Lz4FrameCallSpec.
From S2P Require Import Lz4FrameApi.
From S2P Require Import Lz4FrameComplete.
From S2P Require Import Lz4FrameLifecycle.
From S2P Require Import Lz4FrameClient.
From S2P Require Import Lz4FrameCompress.
From S2P Require Import Lz4FrameBeginSpec.
From S2P Require Import Lz4File.
From S2P Require Import Lz4FileRead.

(** * Reading the header *)

(** [l], the beginning of a file, all of it if it is short, is not the beginning
    of good frames. *)
Definition not_good (l : list Z) : Prop :=
  forall t T, (zlen l < 19 -> t = []) -> ~ good_stream (l ++ t) T.

Lemma hopeless_not_good l : hopeless [] l -> l <> [] -> not_good l.
Proof.
  intros Hh Hne t T _ Hg. destruct (stream_split _ _ Hg) as (f & y & D' & T' & E & _ & Hf & _).
  - by intros [? _]%app_eq_nil.
  - by apply (Hh t f y D' Hf).
Qed.

(** A file that ends in the header. *)
Lemma short_not_good l :
  7 <= zlen l -> zlen l < header_size (bit_of (byte_of l 4) 3) (bit_of (byte_of l 4) 0) -> not_good l.
Proof.
  intros H7 Hlt t T Ht Hg. pose proof (header_size_range (bit_of (byte_of l 4) 3) (bit_of (byte_of l 4) 0)).
  rewrite (Ht ltac:(lia)), app_nil_r in Hg.
  destruct (stream_split _ _ Hg) as (f & y & D' & T' & E & _ & Hf & _); [by intros ->|].
  destruct (good_header [] f y D' Hf) as (i & n & Hp & Hn & _). rewrite <- E in Hp.
  apply parse_header_frame in Hp as (_ & Hn' & -> & _). lia.
Qed.

(** Block sizes, also of skippable frames, for which the field is zero. *)
Lemma block_size_range b : b = 0 \/ 4 <= b <= 7 -> 64 * KB <= LZ4F_getBlockSize b <= 4 * MB.
Proof.
  intros [->|Hb]; [vm_compute; split; discriminate|]. destruct (block_sizes b Hb) as [-> |[-> |[-> | ->]]];
    vm_compute; split; discriminate.
Qed.

Section FrameInfo.
Context `{HA : Allocator} (p : priv) (d : LZ4F_dctx) (m : mem) (dst room src : Z) (l : list Z).
Context (Q : Z * LZ4F_dctx * Z * option LZ4F_frameInfo_t -> mem -> Prop).
Context (Hidle : idle p d m dst room) (Hl : holds m src l) (Hok : bytes_ok l) (H11 : 11 <= zlen l) (Hs : 0 < src).
Context (Hap : src + zlen l <= p_header p \/ p_header p + 19 <= src).
Context (Hbad : forall code d' info, LZ4F_isError code = true -> owns d' p -> not_good l -> Q (code, d', 0, info) m).
Context (HQ : forall x r d', l = x ++ r -> suspended [] p d' m dst room x [] -> d_skipChecksum d' = 0 -> history_own d' ->
  d_dStage d' = dstage_getSFrameSize \/ d_dStage d' = dstage_init ->
  64 * KB <= LZ4F_getBlockSize (blockSizeID (d_frameInfo d')) <= 4 * MB ->
  Q (BHSize, d', zlen x, Some (d_frameInfo d')) m).

(** The last part of [LZ4F_getFrameInfo]. *)
Definition read_info (hSize : Z) : M (Z * LZ4F_dctx * Z * option LZ4F_frameInfo_t) :=
  r ← LZ4F_decodeHeader d src hSize;
  let '(decodeResult, d) := r in
  if LZ4F_isError decodeResult then mret (decodeResult, d, 0, Some (d_frameInfo d))
  else mret (BHSize, d, decodeResult, Some (d_frameInfo d)).

(** It reads the first [n] bytes. *)
Lemma wp_read_info h t :
  l = h ++ t ->
  (forall r, header_result d src h r -> (forall n, parse_header h <> HMore n) ->
     wp (let '(decodeResult, d) := r in
         if LZ4F_isError decodeResult then mret (decodeResult, d, 0, Some (d_frameInfo d))
         else mret (BHSize, d, decodeResult, Some (d_frameInfo d))) Q m) ->
  (forall n, parse_header h <> HMore n) ->
  wp (read_info (zlen h)) Q m.
Proof.
  intros El HR Hm. destruct Hidle as ((Hown & Hpriv & _) & _). pose proof Hown as (Eh & _). pose proof (zlen_nonneg t).
  rewrite El in Hl, Hok, Hap. rewrite zlen_app in Hap. apply holds_app in Hl as [Hlh _]. apply bytes_ok_app in Hok as [Hokh _].
  apply wp_bind, wp_decodeHeader; [done|done|rewrite Eh; apply Hpriv|lia|].
  intros r m' Hr Hm'. unfold header_stored in Hm'. destruct (parse_header h) eqn:Hp; try (subst m'; by apply HR).
  by destruct (Hm size).
Qed.

Lemma info_skippable : le_of l 0 4 / 16 = LZ4F_MAGIC_SKIPPABLE_START / 16 -> wp (read_info 8) Q m.
Proof.
  intros Es. destruct Hidle as ((Hown & Hpriv & Hz & Hst) & Hsk & Hgs). pose proof Hown as (Eh & _).
  destruct (list_split_at l 8) as (h & t & El & Eh8); [lia|]. rewrite El, le_of_prefix in Es by lia. rewrite <- Eh8.
  pose proof (skippable_parse h Es ltac:(lia)) as Hp. apply (wp_read_info h t El); [|by rewrite Hp].
  intros r Hr _. unfold header_result in Hr. rewrite Hp in Hr. dsimp. rewrite (proj2 (Z.eqb_neq _ _)) in Hr by lia. subst r.
  apply wp_ret. destruct (list_split_at h 4) as (x & r & -> & Ex); [lia|]. rewrite <- Ex.
  apply (HQ x (r ++ t)); [by rewrite El, <- app_assoc|..]; try done; [|by left].
  split; [done|]. split; [done|]. split; [done|]. unfold stage_ok. dsimp. split; [done|]. split; [done|].
  unfold skippable_magic. by rewrite <- (le_of_prefix x r) by lia.
Qed.

Lemma info_frame :
  le_of l 0 4 / 16 <> LZ4F_MAGIC_SKIPPABLE_START / 16 ->
  header_size (bit_of (byte_of l 4) 3) (bit_of (byte_of l 4) 0) <= zlen l ->
  wp (read_info (header_size (bit_of (byte_of l 4) 3) (bit_of (byte_of l 4) 0))) Q m.
Proof.
  intros Es Hge. destruct Hidle as ((Hown & Hpriv & Hz & Hst) & Hsk & Hgs).
  unfold stage_ok in Hst. rewrite Hgs in Hst. destruct Hst as (_ & _ & Hrem & Hud).
  pose proof (header_size_range (bit_of (byte_of l 4) 3) (bit_of (byte_of l 4) 0)) as Hhs. set (n := header_size _ _) in *.
  destruct (list_split_at l n) as (h & t & El & En); [lia|].
  assert (n = header_size (bit_of (byte_of h 4) 3) (bit_of (byte_of h 4) 0)) as En'
    by (unfold n; by rewrite El, byte_of_prefix by lia).
  pose proof Hok as Hokh. rewrite El in Hokh, Es. apply bytes_ok_app in Hokh as [Hokh _]. rewrite le_of_prefix in Es by lia.
  rewrite <- En. apply (wp_read_info h t El).
  2: { intros k Hp. apply parse_more_size in Hp as Hsz. apply parse_header_more in Hp as (_ & -> & _). lia. }
  intros [k d'] Hr Hnm. unfold header_result in Hr. cbn [fst snd] in Hr. destruct (parse_header h) as [e|size| |i k'] eqn:Hp.
  - destruct Hr as [-> (i & Hd')]. rewrite (parse_header_error _ _ Hp). apply wp_ret, Hbad.
    + by eapply parse_header_error.
    + by destruct Hd' as [-> | ->].
    + apply hopeless_not_good; [|intros ->; change (zlen (@nil Z)) with 0 in H11; lia].
      eapply header_hopeless; [exact El|exact Hp|lia].
  - by destruct (Hnm size).
  - by apply parse_header_skip in Hp as [_ ?].
  - destruct Hr as [-> ->]. pose proof (parse_header_frame _ _ _ Hp) as (_ & _ & Ek & _ & _).
    rewrite <- En', <- En in Ek. subst k'. rewrite small_not_error by lia. apply wp_ret.
    destruct (parse_header_inv _ _ _ Hokh Hp) as (_ & _ & (Hb & _) & _). apply (HQ h t); try done.
    + split; [done|]. split; [done|]. split; [done|].
      by eapply (stage_after_header (call_of p d m dst room src l None [] [] []) p d).
    + by right.
    + apply block_size_range. by right.
Qed.

Lemma wp_getFrameInfo : wp (LZ4F_getFrameInfo d src (zlen l)) Q m.
Proof.
  destruct Hidle as ((Hown & _) & _ & Hgs). unfold LZ4F_getFrameInfo. rewrite Hgs.
  change (stage_index dstage_storeFrameHeader <? stage_index dstage_getFrameHeader) with false.
  change (bool_decide (dstage_getFrameHeader = dstage_storeFrameHeader)) with false. cbv iota.
  apply wp_bind, wp_headerSize; [done|done|unfold NULL; lia|]. rewrite (proj2 (Z.ltb_ge (zlen l) 5)) by lia.
  destruct (Z.eqb_spec (le_of l 0 4 / 16) (LZ4F_MAGIC_SKIPPABLE_START / 16)) as [Es|Es];
    [|destruct (Z.eqb_spec (le_of l 0 4) LZ4F_MAGICNUMBER) as [Em|Em]].
  - change (LZ4F_isError 8) with false. cbv iota. rewrite (proj2 (Z.ltb_ge (zlen l) 8)) by lia. by apply info_skippable.
  - pose proof (header_size_range (bit_of (byte_of l 4) 3) (bit_of (byte_of l 4) 0)) as Hhs.
    rewrite small_not_error by lia. destruct (Z.ltb_spec (zlen l) (header_size (bit_of (byte_of l 4) 3) (bit_of (byte_of l 4) 0))).
    + apply wp_ret, Hbad; try done. apply short_not_good; [lia|done].
    + by apply info_frame.
  - apply wp_ret. change (LZ4F_isError (LZ4F_returnErrorCode LZ4F_ERROR_frameType_unknown)) with true. cbv iota.
    apply Hbad; try done. apply hopeless_not_good; [|intros ->; change (zlen (@nil Z)) with 0 in H11; lia].
    eapply (header_hopeless _ _ l []); [by rewrite app_nil_r| |lia].
    unfold parse_header. rewrite (proj2 (Z.ltb_ge _ _)) by lia. cbv zeta.
    by rewrite (proj2 (Z.eqb_neq _ _) Es), (proj2 (Z.eqb_neq _ _) Em).
Qed.
End FrameInfo.

(** * Memory while a reader is opened *)

Section Opening.
Context `{HA : Allocator} (m0 : mem) (hb : Z) (Hhb : mapped m0 hb 19).

(** The memory in use before is as it was, but for the local array at [hb], and
    the blocks [bs] were taken since. *)
Definition opening (m : mem) (bs : list (Z * Z)) : Prop :=
  (keeps [(hb, 19)] m0 m /\ forall i, is_Some (m0 !! i) -> is_Some (m !! i)) /\
  Forall (fun r => 0 < r.1 /\ mapped m r.1 r.2 /\ block m r.1 r.2 /\ forall a n, mapped m0 a n -> apart r (a, n)) bs /\
  ForallOrdPairs apart bs.

Lemma opening_mapped m bs a n : opening m bs -> mapped m0 a n -> mapped m a n.
Proof. intros ((_ & Hs) & _) Hm i Hi. by apply Hs, Hm. Qed.

Lemma opening_start : opening m0 [].
Proof. split; [by split|]. split; constructor. Qed.

Lemma opening_alloc m bs q n m' : opening m bs -> allocated m q n m' -> opening m' ((q, n) :: bs).
Proof.
  intros Ho Ha. pose proof Ho as ((Hk & Hs) & Hb & Hp). pose proof Ha as ((Hq & _) & Hfr & Hm & He & Hblk & Hbs).
  assert (forall i, is_Some (m !! i) -> m' !! i = m !! i) as Hsame.
  { intros i [v Hv]. apply He. intros Hi. rewrite Hfr in Hv by lia. done. }
  split; [split|split].
  - intros i Hi Hn. rewrite Hsame by (by apply Hs). by apply Hk.
  - intros i Hi. apply Hs in Hi as Hi'. by rewrite Hsame.
  - constructor; [cbn [fst snd]; splits; try done|].
    + intros a k Hak. by eapply allocated_apart, opening_mapped.
    + eapply Forall_impl; [|exact Hb]. intros r (R1 & R2 & R3 & R4). splits; try done; [by eapply allocated_mapped|by apply Hbs].
  - constructor; [|done]. eapply Forall_impl; [|exact Hb]. intros [a k] (_ & R2 & _). by eapply allocated_apart.
Qed.

(** Writes to the array, and to a block. *)
Lemma opening_write m bs a k m' :
  opening m bs -> frame a (a + k) m m' -> (hb <= a /\ a + k <= hb + 19) \/ (exists r, In r bs /\ inside a k r) ->
  opening m' bs.
Proof.
  intros ((Hk & Hs) & Hb & Hp) Hf Hin. pose proof Hf as [Hf1 Hf2]. split; [split|split; [|done]].
  - intros i Hi Hn. rewrite Hf1; [by apply Hk|]. intros Hai. inversion Hn as [|? ? Hn1 _]. subst. cbn [fst snd] in Hn1.
    destruct Hin as [Hin|(r & Hr & Hin)]; [lia|]. rewrite List.Forall_forall in Hb. destruct (Hb r Hr) as (_ & _ & _ & Ha).
    assert (mapped m0 i 1) as Hmi by (intros j Hj; by replace j with i by lia).
    specialize (Ha i 1 Hmi). unfold apart, inside in *. cbn [fst snd] in *. lia.
  - intros i Hi. by apply Hf2, Hs.
  - eapply Forall_impl; [|exact Hb]. intros r (R1 & R2 & R3 & R4). splits; try done; [by eapply frame_mapped|by eapply block_mono].
Qed.

(** A block is given back. *)
Lemma wp_opening_free m q n bs (Q : unit -> mem -> Prop) :
  opening m ((q, n) :: bs) -> (forall m', opening m' bs -> Q tt m') -> wp (LZ4F_free q) Q m.
Proof.
  intros ((Hk & Hs) & Hb & Hp) HQ. inversion Hb as [|? ? (R1 & R2 & R3 & R4) Hb']. subst. cbn [fst snd] in *.
  inversion Hp as [|? ? Hp1 Hp']. subst. unfold LZ4F_free. rewrite (proj2 (Z.eqb_neq q NULL)) by (unfold NULL; lia).
  eapply wp_mono; [by apply free_ok|]. intros [] m' [He Hbs]. apply HQ.
  assert (forall i, is_Some (m0 !! i) -> m' !! i = m !! i) as Hsame.
  { intros i Hi. apply He. assert (mapped m0 i 1) as Hmi by (intros j Hj; by replace j with i by lia).
    specialize (R4 i 1 Hmi). unfold apart in R4. cbn [fst snd] in R4. lia. }
  split; [split|split; [|done]].
  - intros i Hi Hn. rewrite Hsame by done. by apply Hk.
  - intros i Hi. rewrite Hsame by done. by apply Hs.
  - apply Forall_forall. intros r Hr. rewrite Forall_forall in Hb', Hp1. destruct (Hb' r Hr) as (S1 & S2 & S3 & S4).
    specialize (Hp1 r Hr). destruct r as [a k]. splits; try done; [|by apply Hbs].
    intros i Hi. rewrite He; [by apply S2|]. unfold apart in Hp1. cbn [fst snd] in *. lia.
Qed.
End Opening.

(** * Opening *)

(** Right behind the header nothing depends on the memory. *)
Lemma header_anywhere `{HA : Allocator} p d m dst room x m' dst' room' :
  suspended [] p d m dst room x [] -> d_dStage d = dstage_getSFrameSize \/ d_dStage d = dstage_init ->
  priv_ok p m' -> zones_ok p dst' room' -> suspended [] p d m' dst' room' x [].
Proof.
  intros (Hown & _ & _ & Hst) Hd Hp Hz. split; [done|]. split; [done|]. split; [done|]. unfold stage_ok in *.
  destruct Hd as [Hd|Hd]; rewrite Hd in *; [done|]. destruct Hst as (H1 & (U1 & _) & Hst). split; [done|]. split; [|done].
  split; [done|]. split; [apply holds_nil|]. split; [by left|]. by apply clear_empty.
Qed.

Section Open.
Context `{HA : Allocator} (m0 : mem) (hb fp : Z) (file : FILE).
Context (Hhb : 0 < hb /\ mapped m0 hb 19) (Hdata : bytes_ok (f_data file)).

(** A failed attempt: memory ran out, or the file is no sequence of good frames,
    or empty. *)
Definition open_error (code : Z) : Prop :=
  LZ4F_isError code = true /\
  (code = LZ4F_returnErrorCode LZ4F_ERROR_allocation_failed \/ f_data file = [] \/ forall T, ~ good_stream (f_data file) T).

Definition same_stream (file' : FILE) : Prop :=
  f_written file' = f_written file /\ f_fails file' = f_fails file /\
  ((f_fails file = false -> f_error file = false) -> f_fails file' = false -> f_error file' = false).

(** The reader behind the header [x]: [r] is in its buffer. *)
Definition opened (self q : Z) (rf : LZ4_readFile_t) (file' : FILE) (m : mem) : Prop :=
  exists x r d s B, rf = ReadFile self (Some d) fp s 0 (zlen r) B /\ f_data file = x ++ r ++ f_data file' /\
    (64 * KB <= B <= 4 * MB /\ zlen r <= 19 /\ s + B < 2 ^ 63) /\ holds m s r /\
    opening m0 hb m [(s, B); (q, sizeof_dctx); (self, sizeof_readFile)] /\
    (forall m' dst room, priv_ok (new_priv q) m' -> zones_ok (new_priv q) dst room ->
       suspended [] (new_priv q) d m' dst room x []) /\
    d_skipChecksum d = 0 /\ history_own d /\ (waits (d_dStage d) = true \/ d_dStage d = dstage_init).

Lemma opening_idle m q bs : opening m0 hb m ((q, sizeof_dctx) :: bs) -> idle (new_priv q) (zero_dctx q LZ4F_VERSION) m hb 0.
Proof.
  intros (_ & Hb & _). inversion Hb as [|? ? (R1 & R2 & _) _]. subst. apply create_idle; [done|]. apply new_zones.
  unfold apart. cbn. lia.
Qed.

(** The first bytes of the file. *)
Lemma short_file l r : f_data file = l ++ r -> (zlen l < 19 -> r = []) -> zlen l < 11 ->
  f_data file = [] \/ forall T, ~ good_stream (f_data file) T.
Proof.
  intros E Hr Hl. rewrite E, (Hr ltac:(lia)), app_nil_r. destruct l as [|b l]; [by left|right]. intros T Hg.
  destruct (stream_split _ _ Hg ltac:(done)) as (f & y & D' & T' & Ef & _ & Hgf & _).
  destruct (good_header [] f y D' Hgf) as (_ & _ & _ & _ & H11). rewrite Ef, zlen_app in Hl. pose proof (zlen_nonneg D'). lia.
Qed.

Lemma wp_readAndParseHeader self q m (Q : Z * LZ4_readFile_t * FILE -> mem -> Prop) :
  opening m0 hb m [(q, sizeof_dctx); (self, sizeof_readFile)] ->
  (forall code rf file' m', open_error code -> same_stream file' ->
     opening m0 hb m' [(q, sizeof_dctx); (self, sizeof_readFile)] ->
     rf_self rf = self -> rf_srcBuf rf = NULL -> (exists d, rf_dctxPtr rf = Some d /\ owns d (new_priv q)) ->
     Q (code, rf, file') m') ->
  (forall rf file' m', opened self q rf file' m' -> same_stream file' -> Q (0, rf, file') m') ->
  wp (readAndParseHeader hb (ReadFile self (Some (zero_dctx q LZ4F_VERSION)) fp NULL 0 0 0) file) Q m.
Proof.
  intros Ho Hbad HQ. unfold readAndParseHeader, LZ4F_HEADER_SIZE_MAX, LZ4F_HEADER_SIZE_MIN, LZ4F_ENDMARK_SIZE.
  assert (mapped m hb 19) as Hmh by (eapply opening_mapped; [exact Ho|apply Hhb]).
  apply wp_bind, wp_fread; [lia|done|]. intros l r m1 Ed Hl Hr Hf Hh. cbn [fst snd].
  set (file1 := File _ _ _ _ _). assert (same_stream file1) as Hss.
  { split; [done|]. split; [done|]. cbn [file1 f_fails f_error]. intros Hfe Hff. by rewrite (Hfe Hff), Hff, andb_false_r. }
  pose proof (opening_write m0 hb m _ hb (zlen l) m1 Ho Hf ltac:(left; lia)) as Ho1.
  pose proof (opening_idle m1 q _ Ho1) as Hidle. pose proof Hidle as ((Hown & Hpriv & _) & _).
  destruct (Z.ltb_spec (zlen l) (7 + 4)) as [H11|H11].
  { apply wp_ret, Hbad; try done; [|by eexists]. split; [done|]. right. by eapply short_file. }
  pose proof Ho1 as (_ & Hbs & _). inversion Hbs as [|? ? (_ & _ & _ & Hq) _]. subst.
  pose proof (Hq hb 19 (proj2 Hhb)) as Hqh.
  assert (bytes_ok l) as Hokl by (rewrite Ed in Hdata; by apply bytes_ok_app in Hdata as [? _]).
  cbn [rf_dctxPtr]. apply wp_bind, (wp_getFrameInfo (new_priv q) _ m1 hb 0 hb l); try done; try lia.
  { unfold apart, sizeof_dctx in Hqh. cbn [fst snd new_priv p_header] in *. unfold dctx_header. lia. }
  { intros code d' info He Hown' Hng. rewrite He. apply wp_ret, Hbad; try done; [|by exists d']. split; [done|]. right. right.
    rewrite Ed. intros T. by apply Hng. }
  intros x r' d' El Hsus Hsk Hho Hstg HB. change (LZ4F_isError BHSize) with false. cbv iota.
  rewrite (proj2 (Z.eqb_neq _ 0)) by (unfold KB in HB; lia).
  apply wp_bind. eapply wp_mono; [apply alloc_ok; unfold KB in HB; lia|]. intros s m2 [[-> ->]|Ha].
  { apply wp_ret, Hbad; try done; [by split; [|left]|]. exists d'. split; [done|]. apply Hsus. }
  pose proof Ha as (Hs & Hs63 & Hfr & Hms & He & _). rewrite (proj2 (Z.eqb_neq s NULL)) by (unfold NULL; lia).
  assert (allocated m1 s (LZ4F_getBlockSize (blockSizeID (d_frameInfo d'))) m2) as Hal by (destruct Ha as (? & ? & ?); by split).
  pose proof (opening_alloc m0 hb m1 _ s _ m2 Ho1 Hal) as Ho2.
  rewrite El, zlen_app in Hl. pose proof (zlen_nonneg x). pose proof (zlen_nonneg r').
  replace (u64 _) with (zlen r') by (rewrite El, zlen_app, u64_small; lia). rewrite El in Hh.
  apply (allocated_holds _ _ _ _ _ _ Hal) in Hh as Hh2. apply holds_app in Hh2 as [_ Hh2].
  assert (apart (s, LZ4F_getBlockSize (blockSizeID (d_frameInfo d'))) (hb, 19)) as Has.
  { eapply allocated_apart; [exact Hal|]. by eapply frame_mapped. }
  set (B := LZ4F_getBlockSize (blockSizeID (d_frameInfo d'))) in *. unfold apart in Has. cbn [fst snd] in Has.
  unfold KB, MB in HB. apply wp_bind.
  assert (forall m3, holds m3 s r' -> frame s (s + zlen r') m2 m3 -> wp (mret (0, ReadFile self (Some d') fp s 0 (zlen r') B, file1)) Q m3) as Hfin.
  { intros m3 Hh3 Hf3. apply wp_ret, HQ; [|done]. exists x, r', d', s, B. split; [done|].
    split; [rewrite Ed, El; by rewrite <- app_assoc|]. split; [unfold KB, MB; lia|]. split; [done|]. split.
    - eapply (opening_write _ _ m2); [exact Ho2|exact Hf3|right]. eexists. split; [by left|]. right. cbn. lia.
    - split; [intros m' dst room P1 P2; by eapply header_anywhere|]. split; [done|]. split; [done|].
      destruct Hstg as [->| ->]; [by left|by right]. }
  destruct (Z.ltb_spec 0 (zlen r')) as [Hp|Hp].
  - apply wp_memcpy; [lia|by apply holds_mapped|eapply mapped_sub; [exact Hms|lia..]|lia|]. intros m3 Hc.
    apply Hfin; [eapply copied_holds; [exact Hc|lia|done]|]. eapply copied_frame; [exact Hc|by apply holds_mapped].
  - assert (r' = []) as -> by (apply zlen_0_nil; lia). apply wp_ret, Hfin; [apply holds_nil|apply frame_refl].
Qed.

(** The resources of a reader without buffers. *)
Lemma wp_free_opening rf d self q m (Q : unit -> mem -> Prop) :
  opening m0 hb m [(q, sizeof_dctx); (self, sizeof_readFile)] ->
  rf_self rf = self -> rf_srcBuf rf = NULL -> rf_dctxPtr rf = Some d -> owns d (new_priv q) ->
  (forall m', opening m0 hb m' [] -> Q tt m') -> wp (freeReadFileResources (Some rf)) Q m.
Proof.
  intros Ho Es Eb Ed (_ & _ & _ & Ei & Eo & _ & _ & Eq) HQ. unfold freeReadFileResources, LZ4F_freeDecompressionContext.
  cbn [new_priv p_tmpIn p_tmpOut p_self] in Ei, Eo, Eq. rewrite Ed, Eb, Es, Ei, Eo, Eq.
  change (LZ4F_free NULL) with (mret (M := M) tt). apply wp_bind, wp_bind, wp_ret, wp_bind, wp_ret, wp_bind.
  apply (wp_opening_free m0 hb _ _ _ _ _ Ho). intros m' Ho'. apply wp_ret, wp_bind, wp_ret.
  by apply (wp_opening_free m0 hb _ _ _ _ _ Ho').
Qed.

(** The result of [LZ4F_readOpen]: an error, with all memory given back, or a
    reader at the beginning of the content, apart from all memory in use before. *)
Definition open_post (R : Z * option LZ4_readFile_t * FILE) (m : mem) : Prop :=
  let '(code, r, file') := R in
  keeps [(hb, 19)] m0 m /\ same_stream file' /\
  match r with
  | None => open_error code
  | Some rf => code = 0 /\ exists p, reader_at rf p m (f_data file) [] file' /\
      (forall a n, 0 < a \/ n <= 0 -> mapped m0 a n -> foreign rf p m a n) /\
      (forall a n, mapped m0 (a - 1) 1 -> fenced p m a n)
  end.

Lemma opened_reader self q rf file' m :
  (f_fails file = false -> f_error file = false) -> same_stream file' -> opened self q rf file' m -> open_post (0, Some rf, file') m.
Proof.
  intros Hfe Hss (x & r & d & s & B & -> & ED & (HB & Hr & H63) & Hh & Ho & Hsus & Hsk & Hho & Hst).
  pose proof Ho as ((Hk & _) & Hbs & Hps). inversion Hbs as [|? ? (S1 & S2 & S3 & S4) Hbs1]. subst.
  inversion Hbs1 as [|? ? (Q1 & Q2 & Q3 & Q4) Hbs2]. subst. inversion Hbs2 as [|? ? (R1 & R2 & R3 & R4) _]. subst.
  inversion Hps as [|? ? Hs1 Hps1]. subst. inversion Hs1 as [|? ? Asq Hs2]. subst. inversion Hs2 as [|? ? Asr _]. subst.
  inversion Hps1 as [|? ? Hq1 _]. subst. inversion Hq1 as [|? ? Aqr _]. subst. cbn [fst snd] in *.
  destruct (create_idle q LZ4F_VERSION m hb 0 Q2) as ((_ & Hpriv & _) & _).
  { apply new_zones. unfold apart. cbn. lia. }
  split; [done|]. split; [done|]. split; [done|]. exists (new_priv q). split.
  - split; [by apply Hss|]. exists [], [], x, [], r. split; [constructor|]. split; [done|]. split; [done|].
    split; [cbn; unfold KB, MB in HB; lia|]. cbn [rf_srcBuf rf_srcBufNext rf_srcBufSize rf_srcBufMaxSize rf_dctxPtr].
    split; [|split].
    + exists d. split; [done|]. split; [apply Hsus; [done|]; by apply new_zones, apart_sym|]. done.
    + rewrite Z.add_0_r. splits; try done; try lia. unfold KB in HB. lia.
    + unfold reader_held. cbn [rf_srcBuf rf_self rf_srcBufMaxSize new_priv p_self].
      assert (forall r, apart (NULL, 0) r) as Hnull by (intros r'; unfold apart; cbn; lia).
      split; [done|]. split; [|split; [done|]; split; [done|by apply apart_sym]].
      unfold regions. cbn [rf_srcBuf rf_self rf_srcBufMaxSize new_priv p_self]. each_region; by splits; try apply Hnull.
  - split; [intros a n Ha Hm|intros a n Hm; right].
    2: { split; [by eapply opening_mapped|]. apply clear_intro. pose proof (Q4 _ _ Hm) as A0. intros z.
      unfold apart, new_priv, dctx_header, dctx_xxhMem, dctx_blockChecksumMem, sizeof_dctx, NULL in *.
      destruct z; cbn [zreg fst snd p_header p_xxh p_bc p_tmpIn p_inCap p_tmpOut p_outCap] in *; lia. }
    split; [done|]. split; [by eapply opening_mapped|]. split; [by apply new_zones, Q4|].
    unfold regions. cbn [rf_srcBuf rf_self rf_srcBufMaxSize new_priv p_self].
    each_region; apply apart_sym; [by apply S4|by apply R4|by apply Q4].
Qed.

Lemma wp_LZ4F_readOpen lz4fRead :
  (f_fails file = false -> f_error file = false) -> fp <> NULL -> lz4fRead <> NULL ->
  wp (LZ4F_readOpen hb lz4fRead fp file) open_post m0.
Proof.
  intros Hfe Hfp Hlr. unfold LZ4F_readOpen. rewrite (proj2 (Z.eqb_neq _ _) Hfp), (proj2 (Z.eqb_neq _ _) Hlr). cbn [orb].
  assert (same_stream file) as Hss0 by (by split; [|split]).
  assert (open_error (LZ4F_returnErrorCode LZ4F_ERROR_allocation_failed)) as Hoe by (by split; [|left]).
  apply wp_bind, wp_LZ4F_calloc; [done|by apply wp_ret|]. intros self m1 Ha1. pose proof Ha1 as ((Hs & _) & _).
  rewrite (proj2 (Z.eqb_neq self NULL)) by (unfold NULL; lia).
  pose proof (opening_alloc m0 hb m0 [] self _ m1 (opening_start m0 hb) Ha1) as Ho1.
  apply wp_bind, wp_createDecompressionContext.
  { cbn [fst snd]. change (LZ4F_isError (LZ4F_returnErrorCode LZ4F_ERROR_allocation_failed)) with true. cbv iota. unfold freeAndNullReadFile, freeReadFileResources.
    cbn [rf_dctxPtr rf_srcBuf rf_self]. change (LZ4F_free NULL) with (mret (M := M) tt).
    apply wp_bind, wp_bind, wp_bind, wp_ret, wp_bind, wp_ret.
    apply (wp_opening_free m0 hb _ _ _ _ _ Ho1). intros m' ((Hk & _) & _). by apply wp_ret, wp_ret. }
  intros q m2 Ha2. cbn [fst snd]. change (LZ4F_isError 0) with false. cbv iota.
  pose proof (opening_alloc m0 hb m1 _ q _ m2 Ho1 Ha2) as Ho2.
  apply wp_bind, (wp_readAndParseHeader self q m2 _ Ho2).
  - intros code rf file' m' He Hss Ho Es Eb (d & Ed & Hown). rewrite (proj1 He). unfold freeAndNullReadFile.
    apply wp_bind, wp_bind, (wp_free_opening rf d self q m'); try done. intros m3 ((Hk & _) & _). by apply wp_ret, wp_ret.
  - intros rf file' m' Hop Hss. change (LZ4F_isError 0) with false. cbv iota. apply wp_ret. by eapply opened_reader.
Qed.
End Open.

(** * Closing *)

(** The reader gives all its memory back, and touches nothing else. *)
Lemma wp_LZ4F_readClose `{HA : Allocator} rf p m (Q : Z -> mem -> Prop) :
  reader_owned rf p m ->
  (forall m', unchanged ((p_tmpIn p, p_inCap p) :: (p_tmpOut p, p_outCap p) :: regions rf p) m m' -> Q 0 m') ->
  wp (LZ4F_readClose (Some rf)) Q m.
Proof.
  intros (((S0 & R0 & Q0) & Hh & A1 & A2 & A3) & d & Ed & Hown & Hpriv & Hz) HQ. unfold LZ4F_readClose, freeReadFileResources.
  unfold regions in Hh. rewrite !List.Forall_cons_iff in Hh. destruct Hh as ((S1 & S2 & S3 & S4) & (R1 & R2 & R3 & R4) & (Q1 & Q2 & Q3 & Q4) & _).
  rewrite Ed. apply wp_bind, wp_bind, (wp_freeDecompressionContext d p m _ sizeof_dctx _ Hown Hpriv Hz); try done.
  intros m1 Hu1 Hb1. apply wp_bind. cbn [fst snd] in *. unfold LZ4F_free at 1.
  rewrite (proj2 (Z.eqb_neq (rf_srcBuf rf) NULL)) by (unfold NULL; lia).
  eapply wp_mono; [apply free_ok, Hb1; [exact S2|done|done|by apply apart_sym]|]. intros [] m2 [He2 Hb2].
  unfold LZ4F_free. rewrite (proj2 (Z.eqb_neq (rf_self rf) NULL)) by (unfold NULL; lia).
  eapply wp_mono; [apply free_ok, Hb2; [apply Hb1; [exact R2|done|done|by apply apart_sym]|done]|]. intros [] m3 [He3 _].
  apply wp_ret, HQ. intros i Hi. unfold regions in Hi. rewrite !List.Forall_cons_iff in Hi. unfold member in Hi. cbn [fst snd] in Hi.
  destruct Hi as (I1 & I2 & I3 & I4 & I5 & _). rewrite He3, He2 by done. apply Hu1. repeat constructor; done.
Qed.
