(* ===== verification/Lz4FileWrite.v ===== *)
(** Writers: what [LZ4F_writeOpen], [LZ4F_write] and [LZ4F_writeClose] put into
    the file, and what they leave of the memory. *)
From S2P Require Import Prelude.
From S2P Require Import Mem.
From S2P Require Import Xxhash.
From S2P Require Import Lz4Common.
From S2P Require Import Lz4Decompress.
From S2P Require Import Lz4Frame.
From S2P Require Import Lz4FrameDecode.
From S2P Require Import FrameFormat.
From S2P Require Import Lz4FrameHeader.
From S2P Require Import Lz4FrameInv.
From S2P Require Import Lz4FrameCall.
From S2P Require Import Lz4FrameLifecycle.
From S2P Require Import Lz4FrameCompress.
From S2P Require Import Lz4FrameMakeBlock.
From S2P Require Import Lz4FrameCompressInv.
From S2P Require Import Lz4FrameUpdateSpec.
From S2P Require Import Lz4FrameCompressCalls.
From S2P Require Import Lz4FrameBeginSpec.
From S2P Require Import Lz4FrameSession.
From S2P Require Import Lz4File.
From S2P Require Import Lz4FileOpen.

(** * Blocks of one owner *)

Lemma apart_three a b c : ForallOrdPairs apart [a; b; c] -> apart a b /\ apart a c /\ apart b c.
Proof.
  intros Hp. inversion_clear Hp as [|? ? Ha Hr]. inversion_clear Hr as [|? ? Hb _].
  rewrite !List.Forall_cons_iff in Ha. rewrite List.Forall_cons_iff in Hb. by destruct Ha as (? & ? & _), Hb as (? & _).
Qed.

Section Owned.
Context `{HA : Allocator}.

Definition owned (rs : list (Z * Z)) (m : mem) : Prop :=
  Forall (fun r => buffer_ok m r.1 r.2) rs /\ ForallOrdPairs apart rs.

Lemma owned_grow rs m m' : (forall i, is_Some (m !! i) -> is_Some (m' !! i)) -> owned rs m -> owned rs m'.
Proof. intros Hg [Hb Hp]. split; [|done]. eapply Forall_impl; [|exact Hb]. intros r. by apply block_grow. Qed.

Lemma wp_owned_free a n rs m (Q : unit -> mem -> Prop) :
  owned ((a, n) :: rs) m -> (forall m', unchanged [(a, n)] m m' -> owned rs m' -> Q tt m') -> wp (LZ4F_free a) Q m.
Proof.
  intros [Hb Hp] HQ. inversion Hb as [|? ? Hb1 Hb']. subst. inversion Hp as [|? ? Hp1 Hp']. subst.
  apply (wp_free_block a n m _ Hb1). intros m' Hu Hbl. apply HQ; [done|]. split; [|done].
  apply Forall_forall. intros [q k] Hr. rewrite Forall_forall in Hb', Hp1. specialize (Hp1 _ Hr).
  destruct (Hb' _ Hr) as [?|(R1 & R2 & R3 & R4 & R5)]; [by left|right]. splits; try done; [|by apply Hbl].
  intros i Hi. rewrite Hu; [by apply R4|]. constructor; [|constructor]. unfold apart, member in *. cbn [fst snd] in *. lia.
Qed.

Lemma unchanged_trans rs rs' m1 m2 m3 : unchanged rs m1 m2 -> unchanged rs' m2 m3 -> unchanged (rs ++ rs') m1 m3.
Proof. intros H1 H2 i Hi. apply Forall_app in Hi as [Hi1 Hi2]. by rewrite H2, H1. Qed.
End Owned.

Section Writer.
Context `{HA : Allocator} `{HHC : LZ4_HC}.

(** The blocks of a writer; a context that could not begin a frame has no memory
    for the block compressor. *)
Definition ctx_size (c : LZ4F_cctx) : Z := if cc_lz4CtxPtr c =? NULL then 0 else ctxTypeID_to_size 1.

Definition writer_blocks (w : LZ4_writeFile_t) (c : LZ4F_cctx) (bcap : Z) : list (Z * Z) :=
  [(cc_lz4CtxPtr c, ctx_size c); (cc_tmpBuff c, bcap); (cc_self c, sizeof_cctx);
   (wf_dstBuf w, wf_dstBufMaxSize w); (wf_self w, sizeof_writeFile)].

Lemma wp_freeWriteFile w c bcap m (Q : unit -> mem -> Prop) :
  wf_cctxPtr w = Some c -> owned (writer_blocks w c bcap) m ->
  (forall m', unchanged (writer_blocks w c bcap) m m' -> Q tt m') -> wp (freeWriteFileResources (Some w)) Q m.
Proof.
  intros Ec Ho HQ. unfold freeWriteFileResources, LZ4F_freeCompressionContext. rewrite Ec.
  apply wp_bind, wp_bind, (wp_owned_free _ _ _ _ _ Ho). intros m1 H1 O1.
  apply wp_bind, (wp_owned_free _ _ _ _ _ O1). intros m2 H2 O2. apply wp_bind, (wp_owned_free _ _ _ _ _ O2). intros m3 H3 O3.
  apply wp_ret, wp_bind, (wp_owned_free _ _ _ _ _ O3). intros m4 H4 O4. apply (wp_owned_free _ _ _ _ _ O4). intros m5 H5 _.
  apply HQ. exact (unchanged_trans _ _ _ _ _ H1 (unchanged_trans _ _ _ _ _ H2 (unchanged_trans _ _ _ _ _ H3
    (unchanged_trans _ _ _ _ _ H4 H5)))).
Qed.

(** * The state of a writer *)

(** The blocks [bs] with the content [o] are in the file behind [pre] and the
    header, and [pend] is buffered. *)
Definition writing (w : LZ4_writeFile_t) (c : LZ4F_cctx) (bcap : Z) (u : Z * Z) (m : mem) (file : FILE)
    (pre : list Z) (bs : list fblock) (o pend : list Z) : Prop :=
  let i := frameInfo (cc_prefs c) in
  (wf_cctxPtr w = Some c /\ wf_maxWriteSize w = cc_maxBlockSize c /\ wf_errCode w = 0 /\
   mem32 (cc_xxh c) = cc_self c + offset_mem32) /\
  (running [] (0, 0) bcap c m bs o pend u /\ u.2 <= 0 /\ cc_blockCompressMode c = LZ4B_COMPRESSED /\ flushing c = false) /\
  dst_ok (0, 0) bcap c m (wf_dstBuf w) (wf_dstBufMaxSize w) u /\
  owned (writer_blocks w c bcap) m /\
  f_written file = pre ++ frame_header i ++ enc_blocks i bs.

(** The output buffer is large enough for [total] bytes of content: the bound
    holds for every chunk. *)
Definition room_for (c : LZ4F_cctx) (cap total : Z) : Prop :=
  forall n t, 0 < n <= cc_maxBlockSize c -> 0 <= t < cc_maxBlockSize c -> n + t <= total ->
    LZ4F_compressBound_internal n (Some (cc_prefs c)) t <= cap.

Lemma wp_fwrite a l file m (Q : Z * FILE -> mem -> Prop) :
  holds m a l ->
  (zlen l <= f_space file ->
     Q (zlen l, File (f_data file) (f_fails file) (f_error file || false) (f_written file ++ l) (f_space file - zlen l)) m) ->
  (forall k file', k < zlen l -> Q (k, file') m) ->
  wp (fwrite a (zlen l) file) Q m.
Proof.
  intros Hh HQ Hbad. unfold fwrite. apply wp_bind, wp_load_bytes; [done|]. apply wp_ret.
  destruct (Z.le_gt_cases (zlen l) (f_space file)) as [Hle|Hgt]; [|apply Hbad; lia].
  rewrite Z.min_l by done. rewrite Z.ltb_irrefl, take_ge by (unfold zlen; lia). by apply HQ.
Qed.

(** A part of the input of a call. *)
Lemma src_chunk bcap c m dst cap src a b r u :
  src_ok (0, 0) bcap c m dst cap src (a ++ b ++ r) u -> src_ok (0, 0) bcap c m dst cap (src + zlen a) b u.
Proof.
  intros ((H1 & H2 & H3 & H4) & H5 & H6 & H7 & H8 & [F1 F2] & H9). rewrite !zlen_app in *.
  zlen_facts. pose proof (zlen_nonneg b). pose proof (zlen_nonneg r).
  apply bytes_ok_app in H4 as [_ H4]. apply bytes_ok_app in H4 as [H4 _].
  apply holds_app in H5 as [_ H5]. apply holds_app in H5 as [H5 _]. unfold src_ok, foreign.
  split; [splits; lia || done|]. split; [done|]. destruct u as [u0 un]. apply apart_sym in H6, H7.
  split; [apply apart_sym; sub_apart H6|]. split; [apply apart_sym; sub_apart H7|]. split; [sub_apart H8|].
  split; [split; [sub_apart F1|sub_apart F2]|lia].
Qed.

(** The input of a later call is still there. *)
Lemma src_later bcap c c' m m' dst cap src inp u u' :
  src_ok (0, 0) bcap c m dst cap src inp u -> same_frame c c' ->
  changes [(dst, cap); (cc_tmpBuff c, bcap); (mem32 (cc_xxh c), 16)] m m' -> u'.2 <= 0 ->
  src_ok (0, 0) bcap c' m' dst cap src inp u'.
Proof.
  intros (H1 & H2 & H3 & H4 & H5 & [F1 F2] & H6) Hsf [Hch _] Hu. destruct Hsf as (_ & _ & _ & _ & E5 & E6 & _).
  unfold src_ok, foreign. rewrite E5, E6. split; [done|]. split; [|split; [done|]; split; [unfold apart; lia|done]].
  eapply holds_eq_on; [|exact H2]. intros i Hi. apply Hch. unfold apart in *. cbn [fst snd] in *. each_region; cbn [fst snd]; lia.
Qed.

(** The destination of the next call is the same buffer. *)
Lemma dst_again bcap c c' m m' dst cap u u' rs :
  dst_ok (0, 0) bcap c m dst cap u -> same_frame c c' -> changes rs m m' -> u'.2 <= 0 -> dst_ok (0, 0) bcap c' m' dst cap u'.
Proof.
  intros (H1 & H2 & H3 & H4 & H5 & H6) Hsf Hch Hu. destruct Hsf as (_ & _ & _ & _ & E5 & E6 & _). unfold dst_ok. rewrite E5, E6.
  split; [done|]. split; [by eapply changes_mapped|]. split; [done|]. split; [done|]. split; [done|]. unfold apart. lia.
Qed.

Lemma writer_blocks_same w c c' bcap w' :
  same_frame c c' -> wf_dstBuf w' = wf_dstBuf w -> wf_dstBufMaxSize w' = wf_dstBufMaxSize w -> wf_self w' = wf_self w ->
  writer_blocks w' c' bcap = writer_blocks w c bcap.
Proof.
  intros (_ & _ & _ & _ & E5 & _ & E7 & E8 & _) E1 E2 E3. unfold writer_blocks, ctx_size. by rewrite E1, E2, E3, E5, E7, E8.
Qed.

(** ** Turns of the loop *)

Section Turn.
Context (src : Z) (inp : list Z) (pre : list Z) (bs0 : list fblock) (o0 pend0 : list Z).

(** The failure of a stream that is full: the writer can be closed. *)
Definition write_failed (rs : list (Z * Z)) (w : LZ4_writeFile_t) (m : mem) : Prop :=
  exists c bcap, wf_cctxPtr w = Some c /\ wf_errCode w <> 0 /\ writer_blocks w c bcap = rs /\ owned rs m.

(** Memory of the client that a writer leaves alone. *)
Definition write_kept (w : LZ4_writeFile_t) (c : LZ4F_cctx) (bcap : Z) (m m' : mem) : Prop :=
  changes [(wf_dstBuf w, wf_dstBufMaxSize w); (cc_tmpBuff c, bcap); (mem32 (cc_xxh c), 16)] m m'.

Context (w0 : LZ4_writeFile_t) (c0 : LZ4F_cctx) (bcap : Z) (m0 : mem).
Context (Hroom : room_for c0 (wf_dstBufMaxSize w0) (zlen (o0 ++ pend0 ++ inp))).

Definition wturn_inv (s : wloop) (m : mem) : Prop :=
  exists c u bs o pend x1 x2, inp = x1 ++ x2 /\ wl_p s = src + zlen x1 /\ wl_remaining s = zlen x2 /\
    writing (wl_write s) c bcap u m (wl_file s) pre bs o pend /\ o ++ pend = o0 ++ pend0 ++ x1 /\
    src_ok (0, 0) bcap c m (wf_dstBuf w0) (wf_dstBufMaxSize w0) src inp u /\ same_frame c0 c /\
    (wf_dstBuf (wl_write s) = wf_dstBuf w0 /\ wf_dstBufMaxSize (wl_write s) = wf_dstBufMaxSize w0 /\
     wf_self (wl_write s) = wf_self w0) /\
    write_kept w0 c0 bcap m0 m.

(** The result of [LZ4F_write]: everything was taken, or the stream is full. *)
Definition write_post (R : Z * LZ4_writeFile_t * FILE) (m : mem) : Prop :=
  let '(n, w, file) := R in
  write_kept w0 c0 bcap m0 m /\
  ((n = LZ4F_returnErrorCode LZ4F_ERROR_io_write /\ write_failed (writer_blocks w0 c0 bcap) w m) \/
   (n = zlen inp /\ exists c u bs o pend, writing w c bcap u m file pre bs o pend /\
      o ++ pend = o0 ++ pend0 ++ inp /\ same_frame c0 c /\
      (wf_dstBuf w = wf_dstBuf w0 /\ wf_dstBufMaxSize w = wf_dstBufMaxSize w0 /\ wf_self w = wf_self w0))).

(** A chunk is compressed and written. *)
Lemma wp_write_chunk w c u m file bs o pend x1 x r :
  let dst := wf_dstBuf w0 in
  let cap := wf_dstBufMaxSize w0 in
  writing w c bcap u m file pre bs o pend -> inp = x1 ++ x ++ r -> o ++ pend = o0 ++ pend0 ++ x1 ->
  src_ok (0, 0) bcap c m dst cap src inp u -> same_frame c0 c ->
  (wf_dstBuf w = dst /\ wf_dstBufMaxSize w = cap /\ wf_self w = wf_self w0) ->
  0 < zlen x <= cc_maxBlockSize c ->
  wp (LZ4F_compressUpdate c dst cap (src + zlen x1) (zlen x) None) (fun R m' =>
    LZ4F_isError R.1 = false /\ write_kept w0 c0 bcap m m' /\
    exists l bs' o' pend' u', R.1 = zlen l /\ holds m' dst l /\
      (forall file', f_written file' = f_written file ++ l ->
         writing (wset_cctxPtr (Some R.2) w) R.2 bcap u' m' file' pre bs' o' pend') /\
      o' ++ pend' = o0 ++ pend0 ++ x1 ++ x /\ same_frame c0 R.2 /\
      src_ok (0, 0) bcap R.2 m' dst cap src inp u') m.
Proof.
  intros dst cap Hw Ei Eo Hsrc Hsf (E1 & E2 & E3) Hx. pose proof Hw as ((Ec & Em & Ee & Ex) & (Hrun & Hu & Hmd & Hfl) & Hd & Hown & Ef).
  rewrite E1, E2 in Hd. pose proof Hsf as (Ep & _ & Emb & _ & Etb & Exx & _).
  assert (src_ok (0, 0) bcap c m dst cap (src + zlen x1) x u) as Hsx by (rewrite Ei in Hsrc; by eapply src_chunk).
  pose proof Hrun as (((_ & Hp & Ebs & _) & _) & _ & (_ & Hlt & _) & _). pose proof (zlen_nonneg pend) as Hp0.
  assert (LZ4F_compressBound_internal (zlen x) (Some (cc_prefs c)) (zlen pend) <= cap) as Hbnd.
  { rewrite Ep. apply Hroom; rewrite <- ?Emb; [done|lia|].
    apply (f_equal zlen) in Eo. rewrite Ei, !zlen_app in *. pose proof (zlen_nonneg o). pose proof (zlen_nonneg r). lia. }
  eapply wp_mono; [apply (wp_compressUpdateImpl [] (0, 0) bcap c m bs o pend u dst cap Hrun Hd (src + zlen x1) x None LZ4B_COMPRESSED Hsx);
    [done|by left|by rewrite Hfl]|].
  intros R m' [([Hbad|[? _]] & _)|(_ & bs' & o' & pend' & u' & En & Hle & Hh & Hrun' & Eo' & Hsf' & Emd & Hch & _ & Hu')]; [lia|done|].
  cbn [cc_prefs cset_blockCompressMode cc_tmpBuff cc_xxh cc_maxBlockSize] in *.
  pose proof (enough_bound [] (0, 0) bcap c m bs o pend u dst cap Hrun (src + zlen x1) x Hsx) as [Hn0 He].
  assert (0 <= contentChecksumFlag (frameInfo (cc_prefs c))) as Hcc by apply Hp.
  pose proof Hd as ((D1 & D2 & D3) & Hd'). assert (same_frame c R.2) as Hsf2 by exact Hsf'.
  specialize (Hu' eq_refl). assert (u'.2 <= 0) as Hu2 by (destruct Hu' as [-> | ->]; [done|cbn; lia]).
  assert (changes [(dst, cap); (cc_tmpBuff c, bcap); (mem32 (cc_xxh c), 16)] m m') as Hch'
      by (eapply changes_widen; [exact Hch|]; right; cbn [fst snd]; lia).
  split; [|split].
  - apply small_not_error. rewrite En. pose proof (zlen_nonneg (enc_blocks (frameInfo (cc_prefs c)) bs')). lia.
  - unfold write_kept. by rewrite <- Etb, <- Exx.
  - exists (enc_blocks (frameInfo (cc_prefs c)) bs'), (bs ++ bs'), o', pend', u'. split; [done|]. split; [done|].
    split; [|split; [|split]].
    + intros file' Ef'. pose proof Hsf2 as (Ep2 & _ & Emb2 & _ & _ & Ex2 & Es2 & _).
      split; [split; [done|]; split; [cbn; congruence|]; split; [done|congruence]|].
      split; [split; [done|]; split; [done|]; split; [by rewrite Emd|unfold flushing; by rewrite Ep2]|].
      cbn [wset_cctxPtr wf_dstBuf wf_dstBufMaxSize]. rewrite E1, E2.
      split; [eapply dst_again; [exact Hd|exact Hsf2|exact Hch'|done]|]. split.
      * rewrite (writer_blocks_same w c) by done. eapply owned_grow; [apply Hch'|done].
      * rewrite Ef', Ef, Ep2, enc_blocks_app. by rewrite !app_assoc.
    + by rewrite Eo', app_assoc, Eo, <- !app_assoc.
    + by eapply same_frame_trans.
    + destruct (op_kept (0, 0) bcap c R.2 m m' u u' dst cap 0 (op_update src (zlen inp)) inp) as [_ Hs']; try done.
      rewrite Z.add_0_r, Z.sub_0_r in Hs'. done.
Qed.

Lemma write_turn_ok s m :
  wturn_inv s m ->
  0 <= wl_remaining s /\
  wp (write_turn (zlen inp) s) (fun r m' =>
    match r with
    | inl s' => wturn_inv s' m' /\ wl_remaining s' < wl_remaining s
    | inr R => write_post R m'
    end) m.
Proof.
  intros (c & u & bs & o & pend & x1 & x2 & Ei & Ep & Er & Hw & Eo & Hsrc & Hsf & Hsame & Hk). rewrite Er. pose proof (zlen_nonneg x2) as H0.
  split; [lia|]. unfold write_turn. rewrite Er. destruct (Z.eqb_spec (zlen x2) 0) as [E|E].
  { apply wp_ret. assert (x2 = []) as -> by (apply zlen_0_nil; lia). rewrite app_nil_r in Ei. subst x1. split; [done|]. right.
    split; [done|]. by exists c, u, bs, o, pend. }
  pose proof Hw as ((Ec & Em & Ee & _) & ((((_ & Hp & Ebs & _) & _) & _) & _) & _). rewrite Ec, Em.
  assert (0 < cc_maxBlockSize c) as HB.
  { assert (4 <= blockSizeID (frameInfo (cc_prefs c)) <= 7) as Hid by apply Hp. pose proof (block_sizes _ Hid) as HB.
    rewrite <- Ebs in HB. unfold KB, MB in HB. lia. }
  set (n := if cc_maxBlockSize c <? zlen x2 then cc_maxBlockSize c else zlen x2).
  assert (0 < n <= cc_maxBlockSize c /\ n <= zlen x2) as [Hn Hn2] by (unfold n; destruct (Z.ltb_spec (cc_maxBlockSize c) (zlen x2)); lia).
  clearbody n. destruct (list_split_at x2 n) as (x & r & -> & En); [lia|]. rewrite <- En in Hn, Hn2 |- *. rewrite zlen_app in H0, E, Er, Hn2 |- *.
  destruct Hsame as (S1 & S2 & S3). rewrite S1, S2, Ep. apply wp_bind.
  eapply wp_mono; [apply (wp_write_chunk (wl_write s) c u m (wl_file s) bs o pend x1 x r); done|].
  intros R m' (Hne & Hk' & l & bs' & o' & pend' & u' & El & Hh & Hw' & Eo' & Hsf' & Hsrc'). rewrite Hne, El.
  assert (write_kept w0 c0 bcap m0 m') as Hkk by (by eapply changes_trans).
  apply wp_bind. cbn [wset_cctxPtr wf_dstBuf]. rewrite S1. apply wp_fwrite; [done|..].
  - intros Hsp. cbn [fst snd]. rewrite Z.eqb_refl. apply wp_ret. cbn [wl_remaining]. split; [|lia].
    exists R.2, u', bs', o', pend', (x1 ++ x), r. cbn [wl_p wl_remaining wl_write wl_file]. rewrite zlen_app.
    split; [by rewrite Ei, <- app_assoc|]. split; [lia|]. split; [lia|]. split; [by apply Hw'|]. by splits.
  - intros k file' Hlt. cbn [fst snd]. rewrite (proj2 (Z.eqb_neq (zlen l) k)) by lia. apply wp_ret. split; [done|]. left.
    split; [done|]. destruct (Hw' (File [] false false (f_written (wl_file s) ++ l) 0) eq_refl) as ((E1 & _) & _ & _ & Ho & _).
    assert (writer_blocks (wset_cctxPtr (Some R.2) (wl_write s)) R.2 bcap = writer_blocks w0 c0 bcap) as Eb by (by apply writer_blocks_same).
    rewrite Eb in Ho. exists R.2, bcap. by splits.
Qed.

Lemma wp_LZ4F_write u m file bs :
  m = m0 -> bs = bs0 -> writing w0 c0 bcap u m file pre bs o0 pend0 ->
  src_ok (0, 0) bcap c0 m (wf_dstBuf w0) (wf_dstBufMaxSize w0) src inp u ->
  wp (LZ4F_write (Some w0) file src (zlen inp)) (fun x m' => exists w, x.1.2 = Some w /\ write_post (x.1.1, w, x.2) m') m.
Proof.
  intros -> -> Hw Hsrc. pose proof Hsrc as ((Hs & _) & _). unfold LZ4F_write.
  rewrite (proj2 (Z.eqb_neq src NULL)) by (unfold NULL; lia). apply wp_bind.
  eapply wp_mono; [apply (wp_loop wturn_inv wl_remaining _ _ write_turn_ok)|].
  - exists c0, u, bs0, o0, pend0, [], inp. cbn [wl_p wl_remaining wl_write wl_file]. change (zlen (@nil Z)) with 0.
    split; [done|]. split; [lia|]. split; [done|]. split; [done|]. split; [by rewrite app_nil_r|]. split; [done|].
    split; [apply same_frame_refl|]. split; [done|]. apply changes_refl.
  - cbn [wl_remaining]. pose proof (zlen_nonneg inp). lia.
  - intros [[n w] file'] m' HR. apply wp_ret. by exists w.
Qed.
End Turn.

(** * Closing *)

(** The writes of a writer stay in its blocks. *)
Lemma kept_blocks w c bcap m m' :
  mem32 (cc_xxh c) = cc_self c + offset_mem32 -> write_kept w c bcap m m' -> unchanged (writer_blocks w c bcap) m m'.
Proof.
  intros Ex [Hk _] i Hi. unfold writer_blocks in Hi. rewrite !List.Forall_cons_iff in Hi. unfold member in Hi. cbn [fst snd] in Hi.
  apply Hk. rewrite Ex. change sizeof_cctx with 216 in Hi. change offset_mem32 with 176. each_region; cbn [fst snd]; lia.
Qed.

(** The file that a writer leaves: a frame behind [pre]. *)
Definition closed (c : LZ4F_cctx) (pre content : list Z) (R : Z * FILE) : Prop :=
  let i := frameInfo (cc_prefs c) in
  (R.1 = LZ4F_returnErrorCode LZ4F_ERROR_frameSize_wrong /\ contentSize i <> 0 /\ contentSize i <> u64 (zlen content)) \/
  R.1 = LZ4F_returnErrorCode LZ4F_ERROR_io_write \/
  (LZ4F_isError R.1 = false /\ exists bs, produced i [] bs content /\ (contentSize i <> 0 -> contentSize i = u64 (zlen content)) /\
     f_written R.2 = pre ++ frame_of i (negb (contentSize i =? 0)) (negb (dictID i =? 0)) bs content).

Lemma wp_LZ4F_writeClose w c bcap u m file pre bs o pend :
  writing w c bcap u m file pre bs o pend ->
  LZ4F_compressBound_internal 0 (Some (cc_prefs c)) (zlen pend) <= wf_dstBufMaxSize w ->
  wp (LZ4F_writeClose (Some w) file) (fun R m' =>
    unchanged (writer_blocks w c bcap) m m' /\ closed c pre (o ++ pend) R) m.
Proof.
  intros ((Ec & Em & Ee & Ex) & (Hrun & Hu & Hmd & Hfl) & Hd & Hown & Ef) Hroom. unfold LZ4F_writeClose. rewrite Ee, Ec. cbn [Z.eqb].
  apply wp_bind, wp_bind. eapply wp_mono; [apply (wp_compressEnd [] (0, 0) bcap c m bs o pend u _ _ Hrun Hd None); done|].
  intros r m1 (Hch & Hsf & [[Hbad _]|(bs' & hr & Hprod & Hh & Hle & Er & _)]); [lia|].
  set (l := enc_blocks _ bs' ++ _) in *. assert (unchanged (writer_blocks w c bcap) m m1) as Hu1.
  { apply kept_blocks; [done|]. destruct Hch as [Hc1 Hc2]. split; [|done]. intros i Hi. apply Hc1.
    inversion Hi as [|? ? I1 Hi']. subst. inversion Hi' as [|? ? I2 _]. subst. by each_region. }
  assert (owned (writer_blocks (wset_cctxPtr (Some r.2) w) r.2 bcap) m1) as Hown1.
  { rewrite (writer_blocks_same w c) by done. eapply owned_grow; [apply Hch|done]. }
  assert (writer_blocks (wset_cctxPtr (Some r.2) w) r.2 bcap = writer_blocks w c bcap) as Eb by (by apply writer_blocks_same).
  assert (forall ret file', closed c pre (o ++ pend) (ret, file') ->
    wp (freeWriteFileResources (Some (wset_cctxPtr (Some r.2) w));; mret (ret, file')) (fun R m' =>
      unchanged (writer_blocks w c bcap) m m' /\ closed c pre (o ++ pend) R) m1) as Hend.
  { intros ret file' Hcl. apply wp_bind, (wp_freeWriteFile _ r.2 bcap m1); [done|done|]. intros m2 Hu2. apply wp_ret.
    split; [|done]. rewrite Eb in Hu2. intros i Hi. by rewrite Hu2, Hu1. }
  pose proof (zlen_nonneg l) as Hl0. destruct Hd as ((Hd0 & Hd1 & H63) & _).
  assert (size_wrong c (o ++ pend) = true <-> contentSize (frameInfo (cc_prefs c)) <> 0 /\
    contentSize (frameInfo (cc_prefs c)) <> u64 (zlen (o ++ pend))) as Hsw.
  { unfold size_wrong. rewrite andb_true_iff, !negb_true_iff, !Z.eqb_neq. done. }
  destruct (size_wrong c (o ++ pend)) eqn:Esw; rewrite Er.
  - change (LZ4F_isError (LZ4F_returnErrorCode LZ4F_ERROR_frameSize_wrong)) with true. cbv iota. apply wp_ret, Hend. left.
    split; [done|]. by apply Hsw.
  - rewrite small_not_error by lia. apply wp_bind, wp_fwrite; [done|..].
    + intros Hsp. cbn [fst snd]. rewrite Z.eqb_refl. cbn [negb]. apply wp_ret, Hend. right. right. cbn [fst snd f_written].
      split; [apply small_not_error; lia|]. exists (bs ++ bs'). split; [done|]. split.
      * intros Hne. destruct (Z.eq_dec (contentSize (frameInfo (cc_prefs c))) (u64 (zlen (o ++ pend)))) as [?|Hn]; [done|].
        by apply proj2 in Hsw; discriminate Hsw.
      * rewrite Ef. unfold frame_of, l. rewrite enc_blocks_app. by rewrite <- !app_assoc.
    + intros k file' Hlt. cbn [fst snd]. rewrite (proj2 (Z.eqb_neq (zlen l) k)) by lia. cbn [negb]. apply wp_ret, Hend. right. by left.
Qed.

(** After an error the writer is only released. *)
Lemma wp_close_failed rs w m file (Q : Z * FILE -> mem -> Prop) :
  write_failed rs w m -> (forall m', unchanged rs m m' -> Q (0, file) m') ->
  wp (LZ4F_writeClose (Some w) file) Q m.
Proof.
  intros (c & bcap & Ec & Ee & <- & Ho) HQ. unfold LZ4F_writeClose. rewrite (proj2 (Z.eqb_neq _ 0) Ee).
  apply wp_bind, wp_ret, wp_bind, (wp_freeWriteFile w c bcap m); [done|done|]. intros m' Hu. apply wp_ret. by apply HQ.
Qed.

(** * Opening *)

Section Open.
Context (m0 : mem) (hb fp : Z) (file : FILE) (prefsPtr : option LZ4F_preferences_t).
Abbreviation p := (effective (default LZ4F_INIT_PREFERENCES prefsPtr)).
Abbreviation cap := (LZ4F_compressBound 0 prefsPtr).
Context (Hhb : 0 < hb /\ hb + 19 <= 2 ^ 63 /\ mapped m0 hb 19) (Hp : prefs_wf p) (Hfl : autoFlush p = 0).
Context (Hcap : 0 < cap < 2 ^ 60).

(** The writer owns its blocks, which are apart from all memory in use before. *)
Definition handed (w : LZ4_writeFile_t) (c : LZ4F_cctx) (bcap : Z) (m : mem) : Prop :=
  wf_cctxPtr w = Some c /\ owned (writer_blocks w c bcap) m /\ keeps [(hb, 19)] m0 m /\
  forall a n, mapped m0 a n -> Forall (fun x => apart x (a, n)) (writer_blocks w c bcap).

(** Bytes of the client that can be written with one call; the bytes next to them
    are in use. *)
Definition client_bytes (a : Z) (l : list Z) : Prop :=
  (0 < a /\ a + zlen l <= 2 ^ 63 /\ 0 < zlen l < 2 ^ 47 /\ bytes_ok l) /\ holds m0 a l /\ apart (hb, 19) (a, zlen l) /\
  bordered m0 (a, zlen l).

(** The header is in the file, and the client's memory can be compressed. *)
Definition begun (w : LZ4_writeFile_t) (file' : FILE) (m : mem) : Prop :=
  exists c bcap u, writing w c bcap u m file' (f_written file) [] [] [] /\
    (cc_prefs c = p /\ wf_dstBufMaxSize w = cap) /\ handed w c bcap m /\
    forall a l, client_bytes a l -> src_ok (0, 0) bcap c m (wf_dstBuf w) cap a l u.

Definition not_opened (code : Z) : Prop :=
  code = LZ4F_returnErrorCode LZ4F_ERROR_allocation_failed \/ code = LZ4F_returnErrorCode LZ4F_ERROR_io_write.

(** The context [q] of a writer whose blocks were just taken. *)
Section Begin.
Context (self q dst : Z) (m : mem).
Context (Ho : opening m0 hb m [(q, sizeof_cctx); (dst, cap); (self, sizeof_writeFile)]).
Context (H63 : dst + cap < 2 ^ 63 /\ q + sizeof_cctx < 2 ^ 63 /\ self + sizeof_writeFile < 2 ^ 63).
Abbreviation c0 := (zero_cctx q LZ4F_VERSION).

Lemma begin_ready : ready 0 p c0 m.
Proof.
  destruct Ho as (_ & Hb & _). inversion Hb as [|? ? (Q1 & Q2 & _) _]. subst. cbn [fst snd] in *.
  split; [by left|]. split; [by left|]. split; [done|]. split; [by left|]. split; [|unfold apart; cbn; lia].
  eapply mapped_sub; [exact Q2|cbn; unfold offset_mem32; lia|cbn; unfold sizeof_cctx, offset_mem32; lia].
Qed.

Lemma begin_foreign a n : 0 < a \/ n <= 0 -> mapped m0 a n -> foreign 0 c0 (a, n).
Proof.
  intros Ha Hm. destruct Ho as (_ & Hb & _). inversion Hb as [|? ? (_ & _ & _ & Q4) _]. subst. specialize (Q4 a n Hm).
  unfold foreign, apart, sizeof_cctx in *. cbn in *. unfold offset_mem32, NULL. lia.
Qed.

(** The owner's blocks after the frame was begun, or could not be. *)
Lemma begin_blocks bcap' r m' w :
  keeps [(hb, 19); (mem32 (cc_xxh c0), 16); (cc_tmpBuff c0, 0)] m m' -> begin_owns 0 c0 m bcap' r m' ->
  buffer_ok m' (cc_tmpBuff r.2) bcap' -> mapped m' (mem32 (cc_xxh c0)) 16 ->
  wf_cctxPtr w = Some r.2 -> wf_dstBuf w = dst -> wf_dstBufMaxSize w = cap -> wf_self w = self ->
  handed w r.2 bcap' m'.
Proof.
  intros Hk (((Es & Exx) & Hbl & Hta) & Hctx) Hbuf Hxm Ec E1 E2 E3. change (cc_self c0) with q in Es. destruct Ho as ((Hk0 & Hs0) & Hb & Hps).
  rewrite !List.Forall_cons_iff in Hb. cbn [fst snd] in Hb.
  destruct Hb as ((Q1 & Q2 & Q3 & Q4) & (D1 & D2 & D3 & D4) & (S1 & S2 & S3 & S4) & _).
  apply apart_three in Hps as (Aqd & Aqs & Ads).
  assert (forall x, apart (cc_tmpBuff c0, 0) x) as Hnull by (intros x; unfold apart; cbn; lia).
  assert (forall a n, mapped m a n -> apart (cc_tmpBuff r.2, bcap') (a, n)) as Htmp by (intros a n Hm; by apply (Hta (a, n))).
  assert (forall a n, mapped m a n -> apart (cc_lz4CtxPtr r.2, ctx_size r.2) (a, n)) as Hctxa.
  { intros a n Hm. unfold ctx_size. destruct Hctx as [Ep|((C1 & _) & _ & _ & C4 & _)].
    - rewrite Ep. unfold apart. cbn. lia.
    - rewrite (proj2 (Z.eqb_neq _ NULL)) by (unfold NULL; lia). by apply C4. }
  pose proof (Q4 hb 19 (proj2 (proj2 Hhb))) as Aqh. pose proof (D4 hb 19 (proj2 (proj2 Hhb))) as Adh.
  pose proof (S4 hb 19 (proj2 (proj2 Hhb))) as Ash.
  assert (mapped m' q sizeof_cctx) as Hqm.
  { intros i Hi. destruct (decide (mem32 (cc_xxh c0) <= i < mem32 (cc_xxh c0) + 16)) as [Hx|Hx]; [by apply Hxm|].
    rewrite Hk; [by apply Q2|by apply Q2|]. unfold apart in Aqh. cbn [fst snd] in *. each_region; cbn [fst snd]; lia. }
  assert (forall a n, mapped m a n -> apart (q, sizeof_cctx) (a, n) -> apart (hb, 19) (a, n) -> mapped m' a n) as Hmk.
  { intros a n Hm Ha Hh. eapply keeps_mapped; [exact Hk| |done]. each_region; [done| |done]. cbn. unfold offset_mem32, sizeof_cctx in *.
    sub_apart Ha. }
  split; [done|]. split; [|split].
  - split.
    + unfold writer_blocks. rewrite Es, E1, E2, E3. each_region; cbn [fst snd].
      * unfold ctx_size. destruct Hctx as [Ep|((C1 & C0) & C2 & C3 & _)]; [rewrite Ep; by left|]. rewrite (proj2 (Z.eqb_neq _ NULL)) by (unfold NULL; lia).
        right. by splits.
      * done.
      * right. splits; first [done|lia|by apply Hbl].
      * right. splits; first [done|lia|by apply Hmk; [..|apply apart_sym]|by apply Hbl].
      * right. splits; first [done|lia|by apply Hmk; [..|apply apart_sym]|by apply Hbl].
    + unfold writer_blocks. rewrite Es, E1, E2, E3. repeat apply FOP_cons; try apply FOP_nil; each_region; try done.
      * unfold ctx_size. destruct Hctx as [Ep|((C1 & _) & _ & _ & _ & C5)]; [rewrite Ep; unfold apart; cbn; lia|].
        rewrite (proj2 (Z.eqb_neq _ NULL)) by (unfold NULL; lia). by apply apart_sym.
      * by apply Hctxa.
      * by apply Hctxa.
      * by apply Hctxa.
      * by apply Htmp.
      * by apply Htmp.
      * by apply Htmp.
  - intros i Hi Hn. inversion Hn as [|? ? Hn1 _]. subst. cbn [fst snd] in Hn1. rewrite <- (Hk0 i Hi Hn). apply Hk; [by apply Hs0|].
    assert (mapped m0 i 1) as Hmi by (intros j Hj; by replace j with i by lia). specialize (Q4 i 1 Hmi).
    unfold apart, sizeof_cctx in Q4. cbn [fst snd] in Q4. each_region; cbn; unfold offset_mem32, NULL; lia.
  - intros a n Hm. assert (mapped m a n) as Hm' by (intros i Hi; by apply Hs0, Hm). unfold writer_blocks. rewrite Es, E1, E2, E3.
    each_region; [by apply Hctxa|by apply Htmp|by apply Q4|by apply D4|by apply S4].
Qed.
(** Memory of the client is still there, and it can be compressed. *)
Lemma begin_client w c bcap u m' a l :
  handed w c bcap m' -> (forall x, borders p c0 m x -> foreign 0 c0 x -> foreign bcap c x) ->
  mem32 (cc_xxh c) = q + offset_mem32 -> cc_self c = q -> wf_dstBuf w = dst -> wf_dstBufMaxSize w = cap -> u.2 <= 0 ->
  client_bytes a l -> src_ok (0, 0) bcap c m' dst cap a l u.
Proof.
  intros (_ & _ & Hk & Hap) Hfor Ex Es Ed Ecp Hu ((A1 & A2 & A3 & A4) & A5 & A6 & A7). apply holds_mapped in A5 as Hm.
  specialize (Hap a (zlen l) Hm). unfold writer_blocks in Hap. rewrite !List.Forall_cons_iff, Es, Ed, Ecp in Hap.
  destruct Hap as (_ & _ & Aq & Ad & _). split; [splits; done || lia|].
  split; [eapply keeps_holds; [exact Hk|by each_region|done]|].
  split; [unfold apart; cbn; lia|]. split; [unfold apart; lia|]. split; [done|].
  split; [apply Hfor; [intros _; destruct A7 as [?|A7]; [by left|right; by eapply opening_mapped]|by apply begin_foreign; [lia|]]|].
  rewrite Ex. unfold apart, sizeof_cctx in Aq. cbn [fst snd] in Aq. unfold offset_mem32. lia.
Qed.

(** The frame was begun: the writer can be used. *)
Lemma begin_writing bcap u r m' w :
  begin_done [] (0, 0) 0 c0 m hb NULL 0 None prefsPtr r m' bcap u -> begin_owns 0 c0 m bcap r m' ->
  wf_cctxPtr w = Some r.2 -> wf_dstBuf w = dst -> wf_dstBufMaxSize w = cap -> wf_self w = self -> wf_errCode w = 0 ->
  wf_maxWriteSize w = LZ4F_getBlockSize (blockSizeID (frameInfo p)) ->
  forall file', f_written file' = f_written file ++ frame_header (frameInfo p) -> begun w file' m'.
Proof.
  intros (_ & _ & _ & _ & Hrun & Hin & (Epr & _ & Ex & Es & Em) & (Hbuf & _) & _ & _ & (Hk & _) & Hfor) Hown E1 E2 E3 E4 E5 E6 file' Ef.
  assert (u.2 <= 0) as Hu by (destruct Hin as [?|[[] _]]; done).
  pose proof Hrun as (((_ & _ & Emb & _ & Hxm & _) & _) & _). rewrite Ex in Hxm.
  pose proof (begin_blocks bcap r m' w Hk Hown Hbuf Hxm E1 E2 E3 E4) as Hh. exists r.2, bcap, u.
  change (cc_self c0) with q in Es. change (mem32 (cc_xxh c0)) with (q + offset_mem32) in Ex.
  split; [|split; [done|split; [done|]]].
  - split; [by rewrite E6, Emb, Epr, Ex, Es|]. split; [split; [done|]; split; [done|]; split; [done|]; unfold flushing; by rewrite Epr, Hfl|].
    pose proof Hh as (_ & Ho' & _). split; [|split; [done|by rewrite Epr, Ef, app_nil_r]].
    destruct Ho' as [Hb Hps]. unfold writer_blocks in Hb, Hps. rewrite E2, E3, E4, Es in Hb, Hps.
    rewrite !List.Forall_cons_iff in Hb. cbn [fst snd] in Hb. destruct Hb as (_ & _ & _ & Hd & _).
    inversion_clear Hps as [|? ? _ Hps1]. inversion_clear Hps1 as [|? ? Ht Hps2]. inversion_clear Hps2 as [|? ? Hq _].
    rewrite !List.Forall_cons_iff in Ht. rewrite !List.Forall_cons_iff in Hq. destruct Ht as (_ & Ht & _), Hq as (Hq & _).
    rewrite E2, E3. destruct Hd as [[_ ?]|(D1 & D2 & D3 & D4 & _)]; [lia|]. unfold dst_ok. rewrite Ex.
    split; [lia|]. split; [done|]. split; [unfold apart; cbn; lia|]. split; [by apply apart_sym|].
    split; [|unfold apart; lia]. apply apart_sym. unfold sizeof_cctx, offset_mem32 in *. sub_apart Hq.
  - intros a l Hc. rewrite E2. by eapply begin_client.
Qed.

Lemma wp_writeHeader (Q : Z * LZ4_writeFile_t * FILE -> mem -> Prop) :
  (forall code w c bcap file' m', not_opened code -> handed w c bcap m' -> Q (code, w, file') m') ->
  (forall w file' m', begun w file' m' -> Q (0, w, file') m') ->
  wp (writeHeader hb (WriteFile _ self (Some c0) fp dst (LZ4F_getBlockSize (blockSizeID (frameInfo p))) cap 0) file prefsPtr) Q m.
Proof.
  intros Hbad HQ. unfold writeHeader. cbn [wf_cctxPtr]. unfold LZ4F_compressBegin, LZ4F_HEADER_SIZE_MAX. apply wp_bind.
  assert (foreign 0 c0 (hb, 19)) as Hfh by (apply begin_foreign; [lia|apply Hhb]).
  eapply wp_mono; [apply (wp_compressBegin_internal [] (0, 0) 0 c0 m hb 19 NULL 0 None prefsPtr Hp begin_ready)|].
  - eapply opening_mapped; [exact Ho|apply Hhb].
  - left. split; [done|]. split; [done|by left].
  - split; [intros i Hi; cbn in Hi; lia|]. split; [apply begin_foreign; [cbn; lia|intros i Hi; cbn in Hi; lia]|unfold apart; cbn; lia].
  - done.
  - done.
  - intros r m' [(? & _)|[(_ & Er & _ & _ & Hk & bcap' & Hr & Hown)|(_ & bcap' & u & Hdone & Hown)]]; [unfold maxFHSize in *; lia|..].
    + rewrite Er. change (LZ4F_isError (LZ4F_returnErrorCode LZ4F_ERROR_allocation_failed)) with true. cbv iota. apply wp_ret.
      destruct Hr as (_ & Hbuf & _ & _ & Hxm & _). pose proof Hown as (((_ & Ex) & _) & _). rewrite Ex in Hxm.
      eapply (Hbad _ _ r.2 bcap'); [by left|]. by apply begin_blocks.
    + pose proof Hdone as (Er & Hle & Hh & _). pose proof (zlen_nonneg (frame_header (frameInfo p))). unfold maxFHSize in Hle.
      rewrite Er, small_not_error by lia. apply wp_bind, wp_fwrite; [done|..].
      * intros Hsp. cbn [fst snd]. rewrite Z.eqb_refl. cbn [negb]. apply wp_ret, HQ. by eapply begin_writing.
      * intros k file' Hlt. cbn [fst snd]. rewrite (proj2 (Z.eqb_neq _ k)) by lia. cbn [negb]. apply wp_ret.
        eapply (Hbad _ _ r.2 bcap'); [by right|].
        destruct Hdone as (_ & _ & _ & _ & Hrun & _ & (_ & _ & Ex & _) & (Hbuf & _) & _ & _ & (Hk & _) & _).
        destruct Hrun as (((_ & _ & _ & _ & Hxm & _) & _) & _). rewrite Ex in Hxm. by apply begin_blocks.
Qed.
End Begin.

(** The result of [LZ4F_writeOpen]. *)
Definition wopen_post (R : Z * option LZ4_writeFile_t * FILE) (m : mem) : Prop :=
  let '(code, w, file') := R in
  keeps [(hb, 19)] m0 m /\
  match w with
  | None => not_opened code
  | Some w => code = 0 /\ begun w file' m
  end.

Lemma not_opened_error code : not_opened code -> LZ4F_isError code = true.
Proof. by intros [-> | ->]. Qed.

(** Giving the blocks back leaves the client's memory as it is. *)
Lemma handed_freed w c bcap m m' :
  handed w c bcap m -> unchanged (writer_blocks w c bcap) m m' -> keeps [(hb, 19)] m0 m'.
Proof.
  intros (_ & _ & Hk & Ha) Hu i Hi Hn. rewrite <- (Hk i Hi Hn). apply Hu.
  assert (mapped m0 i 1) as Hm by (intros j Hj; by replace j with i by lia). eapply Forall_impl; [|exact (Ha i 1 Hm)].
  intros r Hr. unfold apart, member in *. cbn [fst snd] in *. lia.
Qed.

Lemma wopen_size bsid :
  bsid = match prefsPtr with Some prefs => blockSizeID (frameInfo prefs) | None => LZ4F_default end ->
  LZ4F_getBlockSize bsid = LZ4F_getBlockSize (blockSizeID (frameInfo p)) /\ LZ4F_getBlockSize bsid <> 0.
Proof.
  intros ->. assert (4 <= blockSizeID (frameInfo p) <= 7) as Hid by apply Hp. pose proof (block_sizes _ Hid) as HB.
  unfold KB, MB in HB. destruct prefsPtr as [prefs|]; [|done]. revert HB. change (default LZ4F_INIT_PREFERENCES (Some prefs)) with prefs. unfold effective.
  destruct (Z.eqb_spec (blockSizeID (frameInfo prefs)) 0) as [-> |]; intros HB; [by split|]. split; [done|lia].
Qed.

Lemma wp_LZ4F_writeOpen lz4fWrite :
  fp <> NULL -> lz4fWrite <> NULL -> wp (LZ4F_writeOpen hb lz4fWrite None fp file prefsPtr) wopen_post m0.
Proof.
  intros Hfp Hlw. unfold LZ4F_writeOpen. rewrite (proj2 (Z.eqb_neq _ _) Hfp), (proj2 (Z.eqb_neq _ _) Hlw). cbn [orb].
  destruct (wopen_size _ eq_refl) as [Esz Hsz]. rewrite (proj2 (Z.eqb_neq _ 0) Hsz).
  assert (not_opened (LZ4F_returnErrorCode LZ4F_ERROR_allocation_failed)) as Hno by (by left).
  apply wp_bind, wp_LZ4F_calloc; [done|by apply wp_ret|]. intros self m1 Ha1. pose proof Ha1 as ((Hs & Hs63) & _).
  rewrite (proj2 (Z.eqb_neq self NULL)) by (unfold NULL; lia).
  pose proof (opening_alloc m0 hb m0 [] self _ m1 (opening_start m0 hb) Ha1) as Ho1.
  apply wp_bind. eapply wp_mono; [apply alloc_ok; lia|]. intros dst m2 [[-> ->]|Ha2].
  { cbn [Z.eqb NULL]. unfold freeAndNullWriteFile, freeWriteFileResources. cbn [wf_cctxPtr wf_dstBuf wf_self].
    change (LZ4F_free 0) with (mret (M := M) tt). apply wp_bind, wp_bind, wp_bind, wp_ret, wp_bind, wp_ret.
    apply (wp_opening_free m0 hb _ _ _ _ _ Ho1). intros m' ((Hk & _) & _). by apply wp_ret, wp_ret. }
  assert (allocated m1 dst cap m2) as Hal by (destruct Ha2 as (? & ? & ?); by split). pose proof Hal as ((Hd & Hd63) & _).
  rewrite (proj2 (Z.eqb_neq dst NULL)) by (unfold NULL; lia). pose proof (opening_alloc m0 hb m1 _ dst _ m2 Ho1 Hal) as Ho2.
  unfold LZ4F_createCompressionContext, LZ4F_createCompressionContext_advanced. apply wp_bind, wp_bind, wp_bind, wp_LZ4F_calloc; [done|..].
  { apply wp_ret, wp_ret. cbn [fst snd]. change (LZ4F_isError (LZ4F_returnErrorCode LZ4F_ERROR_allocation_failed)) with true.
    cbv iota. apply wp_bind, wp_bind, wp_ret, wp_ret, wp_ret. split; [apply Ho2|done]. }
  intros q m3 Ha3. pose proof Ha3 as ((Hq & Hq63) & _). rewrite (proj2 (Z.eqb_neq q NULL)) by (unfold NULL; lia).
  apply wp_ret, wp_ret. cbn [fst snd]. change (LZ4F_isError 0) with false. cbv iota.
  pose proof (opening_alloc m0 hb m2 _ q _ m3 Ho2 Ha3) as Ho3. rewrite Esz.
  apply wp_bind, (wp_writeHeader self q dst m3 Ho3 ltac:(done)).
  - intros code w c bcap file' m' He Hh. rewrite (not_opened_error _ He). unfold freeAndNullWriteFile. pose proof Hh as (Ec & Ho & _).
    apply wp_bind, wp_bind, (wp_freeWriteFile w c bcap m' _ Ec Ho). intros m4 Hu. apply wp_ret, wp_ret.
    split; [by eapply handed_freed|done].
  - intros w file' m' Hb. change (LZ4F_isError 0) with false. cbv iota. apply wp_ret. split; [|done].
    by destruct Hb as (c & bcap & u & _ & _ & (_ & _ & Hk & _) & _).
Qed.
End Open.

(** * The output buffer *)

(** What a chunk needs: nothing is flushed, so only whole blocks count. *)
Lemma chunk_need c n t :
  prefs_wf (cc_prefs c) -> autoFlush (cc_prefs c) = 0 -> cc_maxBlockSize c = LZ4F_getBlockSize (blockSizeID (frameInfo (cc_prefs c))) ->
  0 < n <= cc_maxBlockSize c -> 0 <= t < cc_maxBlockSize c ->
  let i := frameInfo (cc_prefs c) in
  LZ4F_compressBound_internal n (Some (cc_prefs c)) t =
    (if n + t <? cc_maxBlockSize c then 0 else cc_maxBlockSize c + 4 + 4 * blockChecksumFlag i) + 4 + 4 * contentChecksumFlag i.
Proof.
  intros Hp Hfl Eb Hn Ht. assert (4 <= blockSizeID (frameInfo (cc_prefs c)) <= 7) as Hid by apply Hp.
  pose proof (block_sizes _ Hid) as HB. unfold KB, MB in HB. rewrite bound_value by (done || lia). rewrite <- Eb in *. cbn zeta.
  rewrite Z.min_l, Hfl, (proj2 (Z.eqb_neq n 0)) by lia. change (negb (Z.lor 0 (Z.b2z false) =? 0)) with false. unfold need. cbn [andb].
  destruct (Z.ltb_spec (n + t) (cc_maxBlockSize c)) as [Hlt|Hge].
  - rewrite Z.div_small by lia. lia.
  - rewrite <- (Z.div_unique (n + t) (cc_maxBlockSize c) 1 (n + t - cc_maxBlockSize c)) by lia. lia.
Qed.

(** The buffer of a writer without preferences is large enough for everything. *)
Lemma room_default c total : cc_prefs c = effective LZ4F_INIT_PREFERENCES ->
  cc_maxBlockSize c = 64 * KB -> room_for c (LZ4F_compressBound 0 None) total.
Proof.
  intros Ep Eb n t Hn Ht _. rewrite chunk_need; try done; rewrite Ep; [|done..|by rewrite Eb].
  change (LZ4F_compressBound 0 None) with 65551. rewrite Eb in *. unfold KB in *.
  change (blockChecksumFlag _) with 0. change (contentChecksumFlag _) with 0. destruct (Z.ltb_spec (n + t) (64 * 2 ^ 10)); lia.
Qed.

(** With preferences it is one byte too small for a block, and large enough for
    less than a block. *)
Lemma room_short prefs : prefs_wf prefs -> autoFlush prefs = 0 ->
  let i := frameInfo prefs in
  LZ4F_compressBound 0 (Some prefs) = LZ4F_getBlockSize (blockSizeID i) - 1 + 4 + 4 * blockChecksumFlag i + 4 + 4 * contentChecksumFlag i.
Proof.
  intros Hp Hfl. assert (4 <= blockSizeID (frameInfo prefs) <= 7) as Hid by apply Hp.
  pose proof (block_sizes _ Hid) as HB. unfold KB, MB in HB. unfold LZ4F_compressBound. rewrite Hfl. cbn [Z.eqb negb].
  change (u64 (-1)) with (2 ^ 64 - 1). rewrite bound_value by (done || lia). cbn zeta. rewrite Hfl. change (negb (Z.lor 0 (Z.b2z (0 =? 0)) =? 0)) with true.
  rewrite Z.min_r, Z.add_0_l by lia. unfold need. rewrite Z.div_small, Z.mod_small by lia. cbn [andb].
  rewrite (proj2 (Z.ltb_lt 0 _)) by lia. lia.
Qed.

Lemma room_below c total : prefs_wf (cc_prefs c) -> autoFlush (cc_prefs c) = 0 ->
  cc_maxBlockSize c = LZ4F_getBlockSize (blockSizeID (frameInfo (cc_prefs c))) -> total < cc_maxBlockSize c ->
  room_for c (LZ4F_compressBound 0 (Some (cc_prefs c))) total.
Proof.
  intros Hp Hfl Eb Htot n t Hn Ht Hle. rewrite chunk_need, room_short by done. rewrite (proj2 (Z.ltb_lt _ _)) by lia.
  assert (0 <= blockChecksumFlag (frameInfo (cc_prefs c))) by apply Hp. lia.
Qed.
End Writer.
