(* ===== verification/Lz4FileTheorems.v ===== *)
(** The properties of file access: what a reader delivers, that reading ends,
    and whole runs of opening, reading and closing. *)
From S2P Require Import Prelude.
From S2P Require Import Mem.
From S2P Require Import BlockFormat.
From S2P Require Import Lz4Common.
From S2P Require Import Lz4Decompress.
From S2P Require Import Lz4Frame.
From S2P Require Import Lz4FrameDecode.
From S2P Require Import FrameFormat.
From S2P Require Import FrameParse.
From S2P Require Import Lz4FrameInv.
From S2P Require Import Lz4FrameCall.
From S2P Require Import Lz4FrameApi.
From S2P Require Import Lz4FrameLifecycle.
From S2P Require Import Lz4FrameDecodeTheorems.
From S2P Require Import Lz4FrameClient.
From S2P Require Import Lz4FrameBeginSpec.
From S2P Require Import Lz4File.
From S2P Require Import Lz4FileRead.
From S2P Require Import Lz4FileOpen.

(** * Reading *)

(** A buffer of the client for [LZ4F_read]: memory of its own, and the byte in
    front of it is in use. *)
Definition read_buffer `{Allocator} (rf : LZ4_readFile_t) (p : priv) (m : mem) (buf size : Z) : Prop :=
  (0 < buf /\ 0 <= size /\ buf + size <= 2 ^ 63) /\ target rf p m buf size.

(** C13.  [LZ4F_read] on any file, at any point of it and with any size: it runs
    without a fault and returns either an error, after which the reader can be
    closed, or the number of bytes it has stored. These go on where the last call
    stopped: with them, the output so far is the content of the complete frames
    that were read and the beginning of the content of the next, with the right
    checksums. Fewer bytes than asked for mean that the file ends. An error is due
    to the allocator, to the stream, or to a file that is no sequence of good
    frames (a skippable frame is none). What the client has elsewhere in memory
    stays as it is. The byte in front of the buffer is in use, and not by the
    decoder. *)
Theorem LZ4F_read_spec `{HA : Allocator} rf p m D E file buf size :
  bytes_ok D -> reader_at rf p m D E file -> read_buffer rf p m buf size ->
  wp (LZ4F_read (Some rf) file buf size) (fun x m' => exists rf', x.1.2 = Some rf' /\
    read_post D E rf p m file buf size (x.1.1, rf', x.2) m') m.
Proof. intros HD Hr [Hb Hf]. by apply wp_LZ4F_read. Qed.

(** A reader at the beginning of a file with one frame, and a buffer of 64 bytes
    at address 400. *)
Definition sample_file : FILE := File frame_bytes false false [] 0.
Definition sample_mem : mem :=
  mem_of [(100, replicate 288 0); (399, replicate 65 0); (500, replicate 64 0); (600, replicate 48 0); (700, replicate 19 0)].
Definition sample_reader : LZ4_readFile_t := ReadFile 600 (Some new_dctx) 1 500 0 0 64.

Lemma sample_at : @reader_at _ arena sample_reader (new_priv 100) sample_mem frame_bytes [] sample_file.
Proof.
  split; [done|]. exists [], [], [], [], []. split; [constructor|]. split; [done|]. split; [done|].
  assert (zones_ok (new_priv 100) 500 64) as Hz by eval_decide.
  assert (mapped sample_mem 100 288) as Hm by eval_decide.
  destruct (@create_idle _ arena 100 100 sample_mem 500 64 Hm Hz) as (Hs & Hk & Hgs).
  split; [done|]. split; [exists new_dctx; splits; try done; by left|]. split; [splits; done || apply holds_nil|].
  split; [done|]. split; [|by splits; eval_decide].
  unfold regions, held. each_region; (split; [eval_decide|]; split; [exact I|]; split; eval_decide).
Qed.

Lemma sample_buffer : @read_buffer _ arena sample_reader (new_priv 100) sample_mem 400 64.
Proof. split; [done|]. split; [|eval_decide]. split; [by left|]. split; [eval_decide|]. split; eval_decide. Qed.

Lemma frame_bytes_ok : bytes_ok frame_bytes.
Proof. eval_decide. Qed.

Lemma LZ4F_read_witness :
  wp (@LZ4F_read arena_CustomMem (Some sample_reader) sample_file 400 64) (fun x m' => exists rf', x.1.2 = Some rf' /\
    @read_post _ arena frame_bytes [] sample_reader (new_priv 100) sample_mem sample_file 400 64 (x.1.1, rf', x.2) m')
    sample_mem.
Proof. apply (@LZ4F_read_spec _ arena); [exact frame_bytes_ok|exact sample_at|exact sample_buffer]. Defined.

(** More fuel does not change the result of a loop that has ended. *)
Lemma loop_more {S R} (body : S -> M (S + R)) n : forall k s m r m',
  loop n body s m = Ok r m' -> (n <= k)%nat -> loop k body s m = Ok r m'.
Proof.
  induction n as [|n IH]; intros k s m r m' H Hk; [done|]. destruct k as [|k]; [lia|].
  assert (forall j, loop (Datatypes.S j) body s m = mbind (M := M) (fun r => match r with inl s' => loop j body s' | inr r => mret r end) (body s) m)
    as El by done. rewrite El in *. revert H. unfold mbind, M_bind. destruct (body s m) as [[s'|r'] m1| |]; try done. intros H. eapply IH; [exact H|lia].
Qed.

(** Termination: the loop of [LZ4F_read] ends, whatever the file holds and
    however the decoder cuts its work. Twice the number of bytes of input and room
    bounds its turns: with any larger number of turns allowed it gives the same
    result, and it never faults. The byte in front of the buffer is in use, and not
    by the decoder. *)
Theorem LZ4F_read_terminates `{HA : Allocator} rf p m D E file buf size :
  bytes_ok D -> reader_at rf p m D E file -> read_buffer rf p m buf size ->
  exists x m', forall turns, (read_fuel rf file size <= turns)%nat ->
    loop turns (read_turn size) (RLoop rf file buf 0) m = Ok x m'.
Proof.
  intros HD Hr [Hb Hf]. pose proof (wp_LZ4F_read D E rf p m file buf size HD Hb Hr Hf) as Hw.
  unfold LZ4F_read in Hw. rewrite (proj2 (Z.eqb_neq buf NULL)) in Hw by (unfold NULL; lia).
  unfold wp, mbind, M_bind in Hw.
  destruct (loop (read_fuel rf file size) (read_turn size) (RLoop rf file buf 0) m) as [x m'| |] eqn:El; try done.
  exists x, m'. intros turns Ht. by eapply loop_more.
Qed.

Lemma LZ4F_read_terminates_witness :
  exists x m', forall turns, (read_fuel sample_reader sample_file 64 <= turns)%nat ->
    loop turns (@read_turn arena_CustomMem 64) (RLoop sample_reader sample_file 400 0) sample_mem = Ok x m'.
Proof.
  apply (@LZ4F_read_terminates _ arena _ (new_priv 100) _ frame_bytes []);
    [exact frame_bytes_ok|exact sample_at|exact sample_buffer].
Defined.

(** C14.  Completeness: if the file is a sequence of good frames with the content
    [T], a call delivers exactly the next bytes of the content, as many as there
    are and as were asked for, unless memory runs out, and the buffer can be used
    again. The byte in front of the buffer is in use, and not by the decoder. *)
Theorem LZ4F_read_complete `{HA : Allocator} rf p m D E file buf size T :
  bytes_ok D -> reader_at rf p m D E file -> read_buffer rf p m buf size ->
  good_stream D T -> f_fails file = false ->
  wp (LZ4F_read (Some rf) file buf size) (fun x m' => let '(n, r, file') := x in
    n = LZ4F_returnErrorCode LZ4F_ERROR_allocation_failed \/
    exists rf' p' o T', r = Some rf' /\ T = E ++ o ++ T' /\ n = zlen o /\ zlen o = Z.min size (zlen T - zlen E) /\
      holds m' buf o /\ reader_at rf' p' m' D (E ++ o) file' /\ read_buffer rf' p' m' buf size) m.
Proof.
  intros HD Hr [Hb Hf] HT Hff. eapply wp_mono; [by apply (wp_LZ4F_read D E rf p m file buf size)|].
  intros [[n r] file'] m' (rf' & Er & p' & _ & _ & _ & Hres). cbn [fst snd] in *.
  destruct Hres as [(_ & _ & [->|[[_ ?]|Hng]])|(o & -> & Hle & Hh & Hf' & Hr' & Hend)]; [by left|congruence|by destruct (Hng T)|right].
  destruct (reader_prefix rf' p' m' D (E ++ o) T file' HD Hr' HT) as (T' & ET). exists rf', p', o, T'.
  assert (zlen o = size \/ T' = []) as Hend'.
  { destruct Hend as [?|[E1 E2]]; [by left|right]. pose proof (reader_end rf' p' m' D (E ++ o) T file' HD Hr' HT E1 E2) as ET'.
    rewrite ET' in ET. rewrite <- (app_nil_r (E ++ o)) in ET at 1. by apply app_inv_head in ET. }
  split; [done|]. split; [by rewrite ET, app_assoc|]. split; [done|]. split; [|done].
  rewrite ET, !zlen_app. pose proof (zlen_nonneg T'). destruct Hend' as [?| ->]; [|change (zlen (@nil Z)) with 0]; lia.
Qed.

(** The file of the example, and its content. *)
Lemma frame_stream : good_stream frame_bytes (part1 ++ part2).
Proof.
  rewrite <- (app_nil_r frame_bytes), <- (app_nil_r (part1 ++ part2)).
  constructor; [exact frame_bytes_good|constructor].
Qed.

Lemma LZ4F_read_complete_witness :
  wp (@LZ4F_read arena_CustomMem (Some sample_reader) sample_file 400 64) (fun x m' => let '(n, r, file') := x in
    n = LZ4F_returnErrorCode LZ4F_ERROR_allocation_failed \/
    exists rf' p' o T', r = Some rf' /\ part1 ++ part2 = [] ++ o ++ T' /\ n = zlen o /\
      zlen o = Z.min 64 (zlen (part1 ++ part2) - zlen (@nil Z)) /\ holds m' 400 o /\
      @reader_at _ arena rf' p' m' frame_bytes ([] ++ o) file' /\ @read_buffer _ arena rf' p' m' 400 64) sample_mem.
Proof.
  apply (@LZ4F_read_complete _ arena _ (new_priv 100));
    [exact frame_bytes_ok|exact sample_at|exact sample_buffer|exact frame_stream|reflexivity].
Defined.

(** * Whole runs *)

(** A file is opened, read into a buffer, and closed: the code of the first call
    that failed, or the number of bytes. *)
Definition read_file `{LZ4F_CustomMem} (headerBuf lz4fRead fp : Z) (file : FILE) (buf size : Z) : M Z :=
  a ← LZ4F_readOpen headerBuf lz4fRead fp file;
  let '(code, r, file) := a in
  if LZ4F_isError code then mret code else
  b ← LZ4F_read r file buf size;
  let '(n, r, file) := b in
  c ← LZ4F_readClose r;
  mret n.

(** A reader that was closed leaves its client's memory alone. *)
Lemma close_keeps `{HA : Allocator} rf p m m' a n :
  unchanged ((p_tmpIn p, p_inCap p) :: (p_tmpOut p, p_outCap p) :: regions rf p) m m' -> foreign rf p m a n ->
  forall i, a <= i < a + n -> m' !! i = m !! i.
Proof.
  intros Hu (_ & _ & Hz & Hr) i Hi. apply Hu.
  pose proof (zones_apart _ _ _ ZIn ZDst Hz ltac:(done)) as A1. pose proof (zones_apart _ _ _ ZOut ZDst Hz ltac:(done)) as A2.
  constructor; [|constructor]; [unfold apart, member in *; cbn [zreg fst snd] in *; lia..|].
  eapply Forall_impl; [|exact Hr]. intros r Ha. unfold apart, member in *. cbn [fst snd] in *. lia.
Qed.

(** A run of all three calls, with enough room for the content. *)
Lemma wp_read_file `{HA : Allocator} m hb lz4fRead fp file buf size T :
  0 < hb -> mapped m hb 19 -> fp <> NULL -> lz4fRead <> NULL ->
  f_fails file = false /\ f_error file = false -> bytes_ok (f_data file) -> good_stream (f_data file) T ->
  (0 < buf /\ 0 <= size /\ buf + size <= 2 ^ 63) -> mapped m (buf - 1) (size + 1) -> zlen T <= size ->
  wp (read_file hb lz4fRead fp file buf size) (fun n m' =>
    (forall i, 0 < i -> is_Some (m !! i) -> Forall (fun r => ~ (r.1 <= i < r.1 + r.2)) [(hb, 19); (buf, size)] -> m' !! i = m !! i) /\
    (n = LZ4F_returnErrorCode LZ4F_ERROR_allocation_failed \/ f_data file = [] \/ (n = zlen T /\ holds m' buf T))) m.
Proof.
  intros Hhb0 Hhb Hfp Hlr [Hff Hfe] HD HT Hb Hmb' Hle.
  assert (mapped m buf size /\ mapped m (buf - 1) 1) as [Hmb Hm0] by (split; (eapply mapped_sub; [exact Hmb'|lia|lia])).
  unfold read_file.
  apply wp_bind. eapply wp_mono; [by apply (wp_LZ4F_readOpen m hb fp file)|].
  intros [[code r] file1] m1 (Hk1 & (_ & Hf1 & _) & Hr). cbv beta iota.
  destruct r as [rf|]; [|].
  2: { destruct Hr as [He Hc]. rewrite He. apply wp_ret. split; [intros i _ Hi Hn; apply Hk1; [done|]; by inversion_clear Hn; constructor|].
       destruct Hc as [->|[?|Hng]]; [by left|by right; left|by destruct (Hng T)]. }
  destruct Hr as (-> & p & Hat & Hfo & Hfe0). change (LZ4F_isError 0) with false. cbv iota.
  apply wp_bind. eapply wp_mono; [apply (wp_LZ4F_read (f_data file) [] rf p m1 file1 buf size HD Hb Hat)|].
  { split; [apply Hfo; [lia|done]|by apply Hfe0]. }
  intros [[n r2] file2] m2 (rf2 & Er2 & p2 & Hg & _ & _ & Hres). cbn [fst snd] in Er2, Hres. subst r2. cbv beta iota.
  assert (reader_owned rf2 p2 m2) as Hown.
  { destruct Hres as [(_ & Ho & _)|(o & _ & _ & _ & _ & (_ & C & Y & c & e & q & _ & _ & _ & Hro) & _)]; [done|].
    by eapply reader_releasable. }
  apply wp_bind, (wp_LZ4F_readClose rf2 p2 m2 _ Hown). intros m3 Hu. apply wp_ret. split.
  - intros i Hi0 Hi Hn. inversion Hn as [|? ? Hn1 Hn']. subst. inversion Hn' as [|? ? Hn2 _]. subst. cbn [fst snd] in *.
    destruct Hi as [v Hv]. assert (holds m1 i [v]) as Hh1.
    { apply holds_cons. split; [|apply holds_nil]. rewrite Hk1; [done|by eexists|]. by constructor. }
    destruct (Hg i [v]) as (Hh2 & Hf2 & _).
    { split; [done|]. change (zlen [v]) with 1. split; [|unfold apart; cbn [fst snd]; lia]. apply Hfo; [by left|].
      intros j Hj. replace j with i by lia. by eexists. }
    change (zlen [v]) with 1 in Hf2. rewrite (close_keeps _ _ _ _ _ _ Hu Hf2) by lia. apply holds_cons in Hh2 as [-> _]. done.
  - destruct Hres as [(_ & _ & [->|[[_ ?]|Hng]])|(o & -> & Hol & Hh & Hf2 & Hr' & Hend)]; [by left|congruence|by destruct (Hng T)|].
    right. right. destruct (reader_prefix rf2 p2 m2 _ _ T file2 HD Hr' HT) as (T' & ET). cbn [app] in ET, Hr'.
    assert (T' = []) as ->.
    { destruct Hend as [?|[E1 E2]].
      - apply zlen_0_nil. rewrite ET, zlen_app in Hle. lia.
      - pose proof (reader_end rf2 p2 m2 _ _ T file2 HD Hr' HT E1 E2) as ET'. rewrite ET' in ET.
        rewrite <- (app_nil_r o) in ET at 1. symmetry. by apply app_inv_head in ET. }
    rewrite app_nil_r in ET. subst o. split; [done|]. eapply holds_eq_on; [|exact Hh]. intros i Hi.
    apply (close_keeps _ _ _ _ _ _ Hu (proj1 Hf2)). lia.
Qed.

(** Opening, reading and closing a file of good frames with enough room: the
    buffer holds exactly the content, everything that was allocated is released
    without a fault, and no memory that was in use before, but for the buffer and
    the local array, has changed; or memory ran out, or the file is empty. The byte
    in front of the buffer is in use. *)
Theorem read_file_spec `{HA : Allocator} m hb lz4fRead fp file buf size T :
  map_Forall (fun i _ => 0 < i) m -> mapped m hb 19 -> fp <> NULL -> lz4fRead <> NULL ->
  f_fails file = false /\ f_error file = false -> bytes_ok (f_data file) -> good_stream (f_data file) T ->
  (0 < buf /\ 0 <= size /\ buf + size <= 2 ^ 63) -> mapped m (buf - 1) (size + 1) -> zlen T <= size ->
  wp (read_file hb lz4fRead fp file buf size) (fun n m' => keeps [(hb, 19); (buf, size)] m m' /\
    (n = LZ4F_returnErrorCode LZ4F_ERROR_allocation_failed \/ f_data file = [] \/ (n = zlen T /\ holds m' buf T))) m.
Proof.
  intros Hpos Hhb Hfp Hlr Hf HD HT Hb Hmb Hle.
  assert (0 < hb) as Hhb0 by (destruct (Hhb hb ltac:(lia)) as [v Hv]; by apply Hpos in Hv).
  eapply wp_mono; [by apply (wp_read_file m hb lz4fRead fp file buf size T)|]. intros n m' [Hk Hn]. split; [|done].
  intros i Hi. apply Hk; [|done]. destruct Hi as [v Hv]. by apply Hpos in Hv.
Qed.

Lemma read_file_witness :
  wp (@read_file arena_CustomMem 700 1 1 sample_file 400 64) (fun n m' => keeps [(700, 19); (400, 64)] sample_mem m' /\
    (n = LZ4F_returnErrorCode LZ4F_ERROR_allocation_failed \/ f_data sample_file = [] \/
     (n = zlen (part1 ++ part2) /\ holds m' 400 (part1 ++ part2)))) sample_mem.
Proof.
  apply (@read_file_spec _ arena).
  - eval_decide.
  - eval_decide.
  - discriminate.
  - discriminate.
  - done.
  - exact frame_bytes_ok.
  - exact frame_stream.
  - done.
  - eval_decide.
  - vm_compute. discriminate.
Defined.

(** The same run, evaluated: the content has 29 bytes. *)
Example file_read :
  match @read_file arena_CustomMem 700 1 1 sample_file 400 64 sample_mem with
  | Ok n m => n = 29 /\ mload m 400 29 = Some (part1 ++ part2)
  | _ => False
  end.
Proof. vm_compute. by split. Qed.
