(* ===== verification/Lz4FileRoundtrip.v ===== *)
(** Files that are written and read back, and the size of the output buffer of a
    writer. *)
From S2P Require Import Prelude.
From S2P Require Import Mem.
From S2P Require Import Xxhash.
From S2P Require Import Lz4Common.
From S2P Require Import Lz4Decompress.
From S2P Require Import Lz4Frame.
From S2P Require Import Lz4FrameDecode.
From S2P Require Import FrameFormat.
From S2P Require Import FrameParse.
From S2P Require Import Lz4FrameHeader.
From S2P Require Import Lz4FrameComplete.
From S2P Require Import Lz4FrameInv.
From S2P Require Import Lz4FrameCall.
From S2P Require Import Lz4FrameLifecycle.
From S2P Require Import Lz4FrameCompress.
From S2P Require Import Lz4FrameMakeBlock.
From S2P Require Import Lz4FrameCompressInv.
From S2P Require Import Lz4FrameUpdateSpec.
From S2P Require Import Lz4FrameCompressCalls.
From S2P Require Import Lz4FrameBeginSpec.
From S2P Require Import Lz4FrameSession.
From S2P Require Import Lz4FrameCompressTheorems.
From S2P Require Import Lz4FrameRoundtrip.
From S2P Require Import Lz4File.
From S2P Require Import Lz4FileRead.
From S2P Require Import Lz4FileOpen.
From S2P Require Import Lz4FileWrite.
From S2P Require Import Lz4FileTheorems.

(** * Writing a file *)

(** Buffers are written one after the other; the first error ends it. *)
Fixpoint write_all `{LZ4F_CustomMem} `{LZ4_HC} (w : option LZ4_writeFile_t) (file : FILE) (srcs : list (Z * Z)) :
    M (Z * option LZ4_writeFile_t * FILE) :=
  match srcs with
  | [] => mret (0, w, file)
  | (src, size) :: srcs =>
      r ← LZ4F_write w file src size;
      let '(n, w, file) := r in
      if LZ4F_isError n then mret (n, w, file) else write_all w file srcs
  end.

(** A file is opened, the buffers are written, and it is closed: the code of the
    first call that failed, or the size of the end of the frame. *)
Definition write_file `{LZ4F_CustomMem} `{LZ4_HC} (headerBuf lz4fWrite fp : Z) (file : FILE)
    (prefsPtr : option LZ4F_preferences_t) (srcs : list (Z * Z)) : M (Z * FILE) :=
  a ← LZ4F_writeOpen headerBuf lz4fWrite None fp file prefsPtr;
  let '(code, w, file) := a in
  if LZ4F_isError code then mret (code, file) else
  b ← write_all w file srcs;
  let '(n, w, file) := b in
  c ← LZ4F_writeClose w file;
  mret (if LZ4F_isError n then n else c.1, c.2).

(** The preferences of a writer: a block size of 0 stands for the default. *)
Abbreviation chosen prefsPtr := (effective (default LZ4F_INIT_PREFERENCES prefsPtr)).

Section Write.
Context `{HA : Allocator} `{HHC : LZ4_HC}.

Lemma room_less c c' cap t t' : same_frame c c' -> t' <= t -> room_for c cap t -> room_for c' cap t'.
Proof. intros (E1 & _ & E3 & _) Ht Hr n k. rewrite E1, E3. intros. apply Hr; lia. Qed.

Lemma wp_write_all c0 bcap w0 pre srcs : forall ls w c u m file bs o pend,
  writing w c bcap u m file pre bs o pend -> same_frame c0 c ->
  (wf_dstBuf w = wf_dstBuf w0 /\ wf_dstBufMaxSize w = wf_dstBufMaxSize w0 /\ wf_self w = wf_self w0) ->
  Forall2 (fun s l => s.2 = zlen l /\ src_ok (0, 0) bcap c m (wf_dstBuf w0) (wf_dstBufMaxSize w0) s.1 l u) srcs ls ->
  room_for c (wf_dstBufMaxSize w0) (zlen (o ++ pend ++ concat ls)) ->
  wp (write_all (Some w) file srcs) (fun x m' => exists w', x.1.2 = Some w' /\ write_kept w0 c0 bcap m m' /\
    ((x.1.1 = LZ4F_returnErrorCode LZ4F_ERROR_io_write /\ write_failed (writer_blocks w0 c0 bcap) w' m') \/
     (x.1.1 = 0 /\ exists c' u' bs' o' pend', writing w' c' bcap u' m' x.2 pre bs' o' pend' /\
        o' ++ pend' = o ++ pend ++ concat ls /\ same_frame c0 c' /\ writer_blocks w' c' bcap = writer_blocks w0 c0 bcap /\
        wf_dstBufMaxSize w' = wf_dstBufMaxSize w0))) m.
Proof.
  induction srcs as [|[src size] srcs IH]; intros ls w c u m file bs o pend Hw Hsf Hsame Hall Hroom;
    inversion Hall as [|? l ? ls' [Es Hsrc] Hall']; subst; cbn [write_all fst snd concat] in *.
  { apply wp_ret. exists w. split; [done|]. split; [apply changes_refl|]. right. split; [done|]. exists c, u, bs, o, pend.
    rewrite app_nil_r. splits; try done; [|apply Hsame]. by apply writer_blocks_same; [|apply Hsame..]. }
  pose proof Hsame as (E1 & E2 & E3). pose proof Hsf as (_ & _ & _ & _ & Etb & Exx & _).
  assert (forall m1 m2, write_kept w c bcap m1 m2 <-> write_kept w0 c0 bcap m1 m2) as Hkw.
  { intros m1 m2. unfold write_kept. by rewrite E1, E2, Etb, Exx. }
  rewrite <- E1, <- E2 in Hsrc. subst size.
  apply wp_bind. eapply wp_mono; [apply (wp_LZ4F_write src l pre bs o pend w c bcap m ltac:(eapply room_less;
    [apply same_frame_refl| |rewrite E2; exact Hroom]; rewrite !zlen_app; pose proof (zlen_nonneg (concat ls')); lia) u m file bs); done|].
  intros [[n x] file1] m1 (w1 & Ex & Hk & Hres). cbn [fst snd] in *. subst x. apply Hkw in Hk as Hk1.
  destruct Hres as [[-> Hf]|(-> & c1 & u1 & bs1 & o1 & pend1 & Hw1 & Eo1 & Hsf1 & Hsame1)].
  - change (LZ4F_isError (LZ4F_returnErrorCode LZ4F_ERROR_io_write)) with true. cbv iota. apply wp_ret. exists w1.
    split; [done|]. split; [done|]. left. split; [done|]. by rewrite (writer_blocks_same w0 c0) in Hf by done.
  - pose proof Hsrc as ((_ & _ & Hl & _) & _). rewrite small_not_error by (pose proof (zlen_nonneg l); lia).
    pose proof Hw1 as (_ & (_ & Hu1 & _) & _). assert (same_frame c0 c1) as Hsf01 by (by eapply same_frame_trans).
    eapply wp_mono; [eapply (IH ls' w1 c1 u1 m1 file1 bs1 o1 pend1 Hw1 Hsf01)|].
    + destruct Hsame1 as (-> & -> & ->). done.
    + eapply Forall2_impl; [|exact Hall']. intros [a k] l2 [El Hs2]. split; [done|]. eapply src_later; [exact Hs2|done| |done].
      unfold write_kept in Hk. by rewrite E1, E2 in Hk.
    + eapply room_less; [exact Hsf1| |exact Hroom]. rewrite (app_assoc o1), Eo1, <- !app_assoc. lia.
    + intros [[n2 x2] file2] m2 (w2 & Ex2 & Hk2 & Hr2). exists w2. split; [done|]. split; [by eapply changes_trans|].
      destruct Hr2 as [?|(E & c2 & u2 & bs2 & o2 & pend2 & Hw2 & Eo2 & Hr2)]; [by left|right]. split; [done|].
      exists c2, u2, bs2, o2, pend2. split; [done|]. split; [|done]. by rewrite Eo2, (app_assoc o1), Eo1, <- !app_assoc.
Qed.

Lemma bound_effective prefs : LZ4F_compressBound 0 (Some prefs) = LZ4F_compressBound 0 (Some (effective prefs)).
Proof.
  unfold effective. destruct (Z.eqb_spec (blockSizeID (frameInfo prefs)) 0) as [E|E]; [|done].
  destruct prefs as [[id bm cc ft cs did bc] lv af fd]. cbn in E. subst id. by destruct af.
Qed.

(** What fits the output buffer: without preferences everything, with preferences
    less than a block. *)
Definition fits (prefsPtr : option LZ4F_preferences_t) (total : Z) : Prop :=
  prefsPtr = None \/ total < LZ4F_getBlockSize (blockSizeID (frameInfo (chosen prefsPtr))).

(** The buffer that [LZ4F_writeOpen] allocates. *)
Lemma writer_buffer prefsPtr :
  prefs_wf (chosen prefsPtr) -> autoFlush (chosen prefsPtr) = 0 ->
  LZ4F_compressBound 0 (Some (chosen prefsPtr)) <= LZ4F_compressBound 0 prefsPtr /\ 0 < LZ4F_compressBound 0 prefsPtr < 2 ^ 60.
Proof.
  intros Hp Hfl. destruct prefsPtr as [prefs|]; [|by vm_compute]. change (default _ (Some prefs)) with prefs in *.
  rewrite (bound_effective prefs). split; [lia|]. rewrite room_short by done.
  assert (4 <= blockSizeID (frameInfo (effective prefs)) <= 7) as Hid by apply Hp. pose proof (block_sizes _ Hid) as HB. unfold KB, MB in HB.
  assert (0 <= blockChecksumFlag (frameInfo (effective prefs)) <= 1 /\ 0 <= contentChecksumFlag (frameInfo (effective prefs)) <= 1) by (split; apply Hp).
  lia.
Qed.

Lemma fits_room prefsPtr c total :
  prefs_wf (chosen prefsPtr) -> autoFlush (chosen prefsPtr) = 0 -> cc_prefs c = chosen prefsPtr ->
  cc_maxBlockSize c = LZ4F_getBlockSize (blockSizeID (frameInfo (cc_prefs c))) -> fits prefsPtr total ->
  room_for c (LZ4F_compressBound 0 prefsPtr) total.
Proof.
  intros Hp Hfl Ep Eb [->|Hlt]; [apply room_default; [done|by rewrite Eb, Ep]|]. intros n t Hn Ht Hle.
  pose proof (room_below c total) as Hr. rewrite <- Ep in Hp, Hfl, Hlt. rewrite <- Eb in Hlt.
  etransitivity; [by apply Hr|]. rewrite Ep. apply writer_buffer; by rewrite <- Ep.
Qed.

(** A run that does not fail leaves a good frame behind what was in the file. *)
Definition written (i : LZ4F_frameInfo_t) (pre T : list Z) (R : Z * FILE) : Prop :=
  (R.1 = LZ4F_returnErrorCode LZ4F_ERROR_allocation_failed \/ R.1 = LZ4F_returnErrorCode LZ4F_ERROR_io_write) \/
  (R.1 = LZ4F_returnErrorCode LZ4F_ERROR_frameSize_wrong /\ contentSize i <> 0 /\ contentSize i <> u64 (zlen T)) \/
  (LZ4F_isError R.1 = false /\ exists f, f_written R.2 = pre ++ f /\ good_frame [] f T).

Lemma closed_written c pre T R : info_wf (frameInfo (cc_prefs c)) -> closed c pre T R -> written (frameInfo (cc_prefs c)) pre T R.
Proof.
  intros Hi [?|[?|(He & bs & Hprod & Hsz & Hf)]]; [right; left; done|left; by right|]. right. right. split; [done|].
  eexists. split; [exact Hf|]. apply produced_frame; [done|done|].
  destruct (Z.eq_dec (contentSize (frameInfo (cc_prefs c))) 0); [by left|right; by apply Hsz].
Qed.

Section Run.
Context (m : mem) (hb lz4fWrite fp : Z) (file : FILE) (prefsPtr : option LZ4F_preferences_t).
Context (Hhb : 0 < hb /\ hb + 19 <= 2 ^ 63 /\ mapped m hb 19) (Hnull : fp <> NULL /\ lz4fWrite <> NULL).
Context (Hp : prefs_wf (chosen prefsPtr)) (Hfl : autoFlush (chosen prefsPtr) = 0).

(** What the client writes. *)
Definition inputs (srcs : list (Z * Z)) (ls : list (list Z)) : Prop :=
  Forall2 (fun s l => s.2 = zlen l /\ client_bytes m hb s.1 l) srcs ls.

Lemma wp_write_file srcs ls :
  inputs srcs ls -> fits prefsPtr (zlen (concat ls)) ->
  wp (write_file hb lz4fWrite fp file prefsPtr srcs) (fun R m' =>
    keeps [(hb, 19)] m m' /\ written (frameInfo (chosen prefsPtr)) (f_written file) (concat ls) R) m.
Proof.
  intros Hin Hfit. destruct Hnull as [Hfp Hlw]. pose proof (writer_buffer prefsPtr Hp Hfl) as [Hcov Hcap]. unfold write_file. apply wp_bind.
  eapply wp_mono; [by apply (wp_LZ4F_writeOpen m hb fp file prefsPtr Hhb Hp Hfl Hcap)|].
  intros [[code w] file1] m1 [Hk Hr]. destruct w as [w|]; [|].
  2: { rewrite (not_opened_error _ Hr). apply wp_ret. split; [done|by left]. }
  destruct Hr as (-> & c & bcap & u & Hw & (Ep & Ecap) & Hh & Hcl). change (LZ4F_isError 0) with false. cbv iota.
  pose proof Hw as ((_ & _ & _ & Ex) & ((((_ & _ & Emb & _) & _) & _) & _) & _).
  apply wp_bind. eapply wp_mono; [apply (wp_write_all c bcap w (f_written file) srcs ls w c u m1 file1 [] [] [] Hw)|].
  - apply same_frame_refl.
  - done.
  - eapply Forall2_impl; [|exact Hin]. intros [a k] l [El Hc]. split; [done|]. rewrite Ecap. by apply Hcl.
  - cbn [app]. rewrite Ecap. by apply fits_room.
  - intros [[n x] file2] m2 (w2 & Ex2 & Hk2 & Hres). cbn [fst snd] in *. subst x. pose proof (kept_blocks w c bcap m1 m2 Ex Hk2) as Hu2.
    apply wp_bind. destruct Hres as [[-> Hf]|(-> & c2 & u2 & bs2 & o2 & pend2 & Hw2 & Eo2 & Hsf2 & Eb2 & Ecap2)].
    + eapply wp_close_failed; [exact Hf|]. intros m3 Hu3. apply wp_ret. split; [|by left; right].
      eapply handed_freed; [exact Hh|]. intros i Hi. by rewrite Hu3, Hu2.
    + pose proof Hsf2 as (Ep2 & _). cbn [app] in Eo2. pose proof Hw2 as (_ & (Hrun2 & _) & _).
      destruct Hrun2 as (((_ & Hp2 & Emb2 & _) & _) & _ & (_ & Hlt & _) & _).
      eapply wp_mono; [apply (wp_LZ4F_writeClose w2 c2 bcap u2 m2 file2 (f_written file) bs2 o2 pend2 Hw2)|].
      * rewrite Ecap2, Ecap, Ep2, Ep. etransitivity; [|exact Hcov].
        apply bound_covers; [done|lia| |by rewrite Hfl]. pose proof (zlen_nonneg pend2). rewrite Ep2, Ep in Emb2. lia.
      * intros R m3 [Hu3 Hcls]. apply wp_ret. rewrite Eb2 in Hu3. change (LZ4F_isError 0) with false. cbv iota. rewrite Eo2 in Hcls.
        split; [eapply handed_freed; [exact Hh|]; intros i Hi; by rewrite Hu3, Hu2|].
        rewrite <- Ep, <- Ep2. apply (closed_written c2); [apply Hp2|]. by destruct R.
Qed.
End Run.
End Write.


(** Two pieces of 30 and 34 bytes are written to an empty file; the arrays of the
    functions are at 316 and 350, and a buffer for reading at 600. *)
Definition text_mem : mem :=
  mem_of [(316, replicate 19 0); (350, replicate 19 0); (399, 0 :: frame_text ++ [0]); (599, replicate 81 0)].
Definition text_pieces : list (Z * Z) := [(400, 30); (430, 34)].
Definition text_parts : list (list Z) := [take 30 frame_text; drop 30 frame_text].
Definition empty_file : FILE := File [] false false [] 1000.

Lemma text_inputs : inputs text_mem 316 text_pieces text_parts.
Proof.
  assert (forall a l, bool_decide (holds text_mem a l) = true -> bool_decide (apart (316, 19) (a, zlen l)) = true ->
    bool_decide (bytes_ok l) = true -> bool_decide (mapped text_mem (a - 1) (zlen l + 2)) = true ->
    0 < a < 1000 -> 0 < zlen l < 1000 -> client_bytes text_mem 316 a l) as Hc.
  { intros a l H1%bool_decide_eq_true H2%bool_decide_eq_true H3%bool_decide_eq_true H4%bool_decide_eq_true Ha Hl.
    split; [splits; done || lia|]. split; [done|]. split; [done|by right]. }
  constructor; [|constructor; [|constructor]]; (split; [reflexivity|]); apply Hc; try (vm_compute; reflexivity); by vm_compute.
Qed.


(** * The round trip *)

(** A file is written, and its bytes are read as another file. *)
Definition file_roundtrip `{LZ4F_CustomMem} `{LZ4_HC} (headerBuf headerBuf' lz4fWrite lz4fRead fp fp' : Z) (file : FILE)
    (prefsPtr : option LZ4F_preferences_t) (srcs : list (Z * Z)) (buf size : Z) : M (Z + Z) :=
  w ← write_file headerBuf lz4fWrite fp file prefsPtr srcs;
  if LZ4F_isError w.1 then mret (inl w.1) else
  n ← read_file headerBuf' lz4fRead fp' (File (f_written w.2) false false [] 0) buf size;
  mret (inr n).

(** C12.  The round trip through a file, at a level of the fast compressor, without
    automatic flushing and without a content size in the header: what is written in
    any number of pieces with [LZ4F_writeOpen], [LZ4F_write] and [LZ4F_writeClose],
    and read with [LZ4F_readOpen], [LZ4F_read] and [LZ4F_readClose], is what was
    written, byte for byte, unless memory or the room in the file runs out. Without
    preferences the pieces may have any sizes; with preferences they are less than
    one block in all, since the output buffer of the writer is too small for a
    block. The bytes next to the pieces, and the byte in front of the buffer for
    reading, are in use. *)
Theorem file_roundtrip_spec `{HA : Allocator} `{HHC : LZ4_HC} m hb hb' lz4fWrite lz4fRead fp fp' file prefsPtr srcs ls buf size :
  let T := concat ls in
  (0 < hb /\ hb + 19 <= 2 ^ 63 /\ mapped m hb 19) /\ (0 < hb' /\ mapped m hb' 19 /\ apart (hb, 19) (hb', 19)) ->
  (fp <> NULL /\ lz4fWrite <> NULL) /\ (fp' <> NULL /\ lz4fRead <> NULL) -> f_written file = [] ->
  prefs_wf (chosen prefsPtr) -> autoFlush (chosen prefsPtr) = 0 -> contentSize (frameInfo (chosen prefsPtr)) = 0 ->
  inputs m hb srcs ls -> fits prefsPtr (zlen T) ->
  (0 < buf /\ zlen T <= size /\ buf + size <= 2 ^ 63) /\ mapped m (buf - 1) (size + 1) /\ apart (hb, 19) (buf - 1, size + 1) ->
  wp (file_roundtrip hb hb' lz4fWrite lz4fRead fp fp' file prefsPtr srcs buf size) (fun x m' =>
    match x with
    | inl code => code = LZ4F_returnErrorCode LZ4F_ERROR_allocation_failed \/ code = LZ4F_returnErrorCode LZ4F_ERROR_io_write
    | inr n => n = LZ4F_returnErrorCode LZ4F_ERROR_allocation_failed \/ (n = zlen T /\ holds m' buf T)
    end) m.
Proof.
  intros T [Hhb (Hhb0 & Hhbm & Hhba)] [Hn [Hfp Hlr]] Hwr Hp Hfl Hcs Hin Hfit (Hb & Hbm & Hba). unfold file_roundtrip. apply wp_bind.
  eapply wp_mono; [by apply (wp_write_file m hb lz4fWrite fp file prefsPtr Hhb Hn Hp Hfl srcs ls)|].
  intros [n file1] m1 [Hk Hw]. cbn [fst snd]. destruct Hw as [He|[(_ & ? & _)|(He & f & Ef & Hg)]]; cbn [fst snd] in *; [|done|].
  { assert (LZ4F_isError n = true) as -> by (by destruct He as [-> | ->]). by apply wp_ret. }
  rewrite He. rewrite Hwr in Ef. cbn [app] in Ef. pose proof (zlen_nonneg T) as HT.
  assert (forall a n, mapped m a n -> apart (hb, 19) (a, n) -> mapped m1 a n) as Hmk.
  { intros a k Hm Ha. eapply keeps_mapped; [exact Hk|by each_region|done]. }
  assert (bytes_ok T) as HTb.
  { unfold T. clear -Hin. induction Hin as [|s l srcs ls [_ ((_ & _ & _ & Hl) & _)] _ IH]; [constructor|]. cbn [concat].
    by apply bytes_ok_app. }
  apply wp_bind. eapply wp_mono; [apply (wp_read_file m1 hb' lz4fRead fp' (File (f_written file1) false false [] 0) buf size T)|].
  - done.
  - by apply Hmk.
  - done.
  - done.
  - done.
  - cbn [f_data]. rewrite Ef. by eapply good_frame_bytes.
  - cbn [f_data]. rewrite Ef, <- (app_nil_r f), <- (app_nil_r T). constructor; [done|constructor].
  - lia.
  - by apply Hmk.
  - lia.
  - intros n2 m2 [_ Hres]. apply wp_ret. cbn [f_data] in Hres. rewrite Ef in Hres.
    destruct Hres as [?|[-> |?]]; [by left| |by right].
    destruct (good_header [] [] T [] Hg) as (i & k & _ & _ & Hl). change (zlen (@nil Z)) with 0 in Hl. lia.
Qed.

Lemma file_roundtrip_witness :
  wp (@file_roundtrip arena_CustomMem (liblz4hc true) 316 350 1 1 1 1 empty_file None text_pieces 600 80) (fun x m' =>
    match x with
    | inl code => code = LZ4F_returnErrorCode LZ4F_ERROR_allocation_failed \/ code = LZ4F_returnErrorCode LZ4F_ERROR_io_write
    | inr n => n = LZ4F_returnErrorCode LZ4F_ERROR_allocation_failed \/
        (n = zlen (concat text_parts) /\ holds m' 600 (concat text_parts))
    end) text_mem.
Proof.
  apply (@file_roundtrip_spec _ arena (liblz4hc true)).
  - split; (split; [lia|]); split; first [lia|eval_decide].
  - done.
  - reflexivity.
  - by vm_compute.
  - reflexivity.
  - reflexivity.
  - exact text_inputs.
  - by left.
  - split; [|split; eval_decide]. split; [lia|]. split; [vm_compute; discriminate|lia].
Defined.

(** * The output buffer of a writer with preferences *)

Section Short.
Context `{HA : Allocator} `{HHC : LZ4_HC}.

(** A block does not fit: the call fails before it has taken anything. *)
Lemma wp_write_block w c bcap u m file pre bs o pend src size (Q : Z * option LZ4_writeFile_t * FILE -> mem -> Prop) :
  writing w c bcap u m file pre bs o pend -> wf_dstBufMaxSize w = LZ4F_compressBound 0 (Some (cc_prefs c)) ->
  src <> NULL -> cc_maxBlockSize c <= size ->
  (forall w', write_failed (writer_blocks w c bcap) w' m ->
     Q (LZ4F_returnErrorCode LZ4F_ERROR_dstMaxSize_tooSmall, Some w', file) m) ->
  wp (LZ4F_write (Some w) file src size) Q m.
Proof.
  intros ((Ec & Em & Ee & Ex) & (Hrun & _ & _ & Hfl) & _ & Hown & _) Ecap Hs Hsz HQ.
  destruct Hrun as (((Est & Hp & Ebs & _) & _) & _ & (Eti & Hlt & _) & _). pose proof (zlen_nonneg pend) as Hp0.
  assert (autoFlush (cc_prefs c) = 0) as Haf by (by apply negb_false_iff, Z.eqb_eq in Hfl).
  unfold LZ4F_write. rewrite (proj2 (Z.eqb_neq _ _) Hs). apply wp_bind.
  assert (0 < size) as Hpos by lia. destruct (Z.to_nat (size + 1)) as [|k] eqn:Ek; [lia|]. cbn [loop].
  apply wp_bind. unfold write_turn at 1. cbn [wl_write wl_remaining wl_file wl_p]. rewrite (proj2 (Z.eqb_neq size 0)), Ec, Em by lia.
  set (n := if cc_maxBlockSize c <? size then cc_maxBlockSize c else size).
  assert (n = cc_maxBlockSize c) as En by (unfold n; destruct (Z.ltb_spec (cc_maxBlockSize c) size); lia).
  unfold LZ4F_compressUpdate, LZ4F_compressUpdateImpl. rewrite Est, Eti, Ecap. cbn [Z.eqb Pos.eqb negb].
  rewrite (proj2 (Z.ltb_lt _ _)).
  2: { rewrite En, chunk_need, room_short by (done || lia). rewrite (proj2 (Z.ltb_ge _ _)) by lia. rewrite Ebs. lia. }
  apply wp_bind, wp_ret. cbn [fst snd]. change (LZ4F_isError (LZ4F_returnErrorCode LZ4F_ERROR_dstMaxSize_tooSmall)) with true.
  cbv iota. apply wp_ret, wp_ret, wp_ret, HQ. exists c, bcap. by splits.
Qed.
End Short.

(** C39.  At a level of the fast compressor and without automatic flushing, the
    output buffer that [LZ4F_writeOpen] allocates is
    [LZ4F_compressBound(0, prefs)], which with explicit preferences is one byte less
    than [LZ4F_compressUpdate] asks for a full block: a file that is opened with
    preferences cannot take one block. The run fails, at the latest in [LZ4F_write]
    with [dstMaxSize_tooSmall], whatever the bytes, and nothing but the header is in
    the file. *)
Theorem write_block_fails `{HA : Allocator} `{HHC : LZ4_HC} m hb lz4fWrite fp file prefs src size :
  let i := frameInfo (effective prefs) in
  0 < hb /\ hb + 19 <= 2 ^ 63 /\ mapped m hb 19 -> fp <> NULL /\ lz4fWrite <> NULL ->
  prefs_wf (effective prefs) -> autoFlush (effective prefs) = 0 ->
  src <> NULL -> LZ4F_getBlockSize (blockSizeID i) <= size ->
  wp (write_file hb lz4fWrite fp file (Some prefs) [(src, size)]) (fun R m' =>
    (R.1 = LZ4F_returnErrorCode LZ4F_ERROR_allocation_failed \/ R.1 = LZ4F_returnErrorCode LZ4F_ERROR_io_write) \/
    (R.1 = LZ4F_returnErrorCode LZ4F_ERROR_dstMaxSize_tooSmall /\ f_written R.2 = f_written file ++ frame_header i)) m.
Proof.
  intros i Hhb [Hfp Hlw] Hp Hfl Hs Hsz. pose proof (writer_buffer (Some prefs) Hp Hfl) as [_ Hcap]. unfold write_file. apply wp_bind.
  eapply wp_mono; [by apply (wp_LZ4F_writeOpen m hb fp file (Some prefs) Hhb Hp Hfl Hcap)|].
  intros [[code w] file1] m1 [Hk Hr]. destruct w as [w|].
  2: { rewrite (not_opened_error _ Hr). apply wp_ret. by left. }
  destruct Hr as (-> & c & bcap & u & Hw & (Ep & Ecap) & Hh & Hcl). change (LZ4F_isError 0) with false. cbv iota.
  change (default _ (Some prefs)) with prefs in Ep. pose proof Hw as (_ & ((((_ & _ & Emb & _) & _) & _) & _) & _ & _ & Ef).
  apply wp_bind. cbn [write_all]. apply wp_bind, (wp_write_block w c bcap u m1 file1 _ [] [] [] src size _ Hw).
  - by rewrite Ecap, Ep, bound_effective.
  - done.
  - by rewrite Emb, Ep.
  - intros w' Hf. change (LZ4F_isError (LZ4F_returnErrorCode LZ4F_ERROR_dstMaxSize_tooSmall)) with true. cbv iota.
    apply wp_ret, wp_bind. eapply wp_close_failed; [exact Hf|]. intros m3 Hu3. apply wp_ret. right.
    change (LZ4F_isError (LZ4F_returnErrorCode LZ4F_ERROR_dstMaxSize_tooSmall)) with true. split; [done|].
    cbn [snd]. rewrite Ef, Ep. unfold enc_blocks. cbn [map concat]. by rewrite app_nil_r.
Qed.

Definition plain_prefs : LZ4F_preferences_t :=
  Preferences (FrameInfo LZ4F_max64KB LZ4F_blockIndependent 0 LZ4F_frame 0 0 0) 0 0 0.

Lemma write_block_witness :
  wp (@write_file arena_CustomMem (liblz4hc true) 316 1 1 empty_file (Some plain_prefs) [(400, 65536)]) (fun R m' =>
    (R.1 = LZ4F_returnErrorCode LZ4F_ERROR_allocation_failed \/ R.1 = LZ4F_returnErrorCode LZ4F_ERROR_io_write) \/
    (R.1 = LZ4F_returnErrorCode LZ4F_ERROR_dstMaxSize_tooSmall /\
     f_written R.2 = [] ++ frame_header (frameInfo (effective plain_prefs)))) text_mem.
Proof.
  apply (@write_block_fails _ arena (liblz4hc true)).
  - split; [lia|]. split; [lia|]. eval_decide.
  - by split.
  - by vm_compute.
  - reflexivity.
  - discriminate.
  - vm_compute. discriminate.
Defined.
