(* ===== verification/Lz4HcTheorems.v ===== *)
(** The high-compression API of lib/lz4hc.c: the contracts of the one-shot and of
    the streaming entry points, and the round trip with the decoder. *)
From S2P Require Import Prelude.
From S2P Require Import Mem.
From S2P Require Import BlockFormat.
From S2P Require Import Lz4Common.
From S2P Require Import Lz4Decompress.
From S2P Require Import Lz4DecodeSpec.
From S2P Require Import Lz4DecodeApi.
From S2P Require Import Lz4Compress.
From S2P Require Import Lz4CompressGeneric.
From S2P Require Import Lz4CompressInv.
From S2P Require Import Lz4CompressProof.
From S2P Require Import Lz4CompressRun.
From S2P Require Import Lz4CompressSpec.
From S2P Require Import Lz4CompressTheorems.
From S2P Require Import Lz4StreamTheorems.
From S2P Require Import Lz4StreamCompressTheorems.
From S2P Require Import Lz4Hc.
From S2P Require Import Lz4HcSearch.
From S2P Require Import Lz4HcChain.
From S2P Require Import Lz4HcMid.
From S2P Require Import Lz4HcOpt.

(** * Levels *)

(** The level that [LZ4_setCompressionLevel] stores selects the same compressor. *)
Lemma set_level_isMid s lvl :
  hc_isMid (LZ4_setCompressionLevel s lvl) = bool_decide (strat (LZ4HC_getCLevelParams lvl) = lz4mid).
Proof.
  unfold hc_isMid. f_equal. unfold LZ4_setCompressionLevel, LZ4HC_getCLevelParams, set_level, set_options.
  cbn [hc_compressionLevel]. change LZ4HC_CLEVEL_MAX with 12. change LZ4HC_CLEVEL_DEFAULT with 9.
  destruct (Z.ltb_spec lvl 1) as [Hl|Hl]; [reflexivity|]. destruct (Z.ltb_spec 12 lvl) as [Hg|Hg].
  - rewrite (Z.min_l 12 lvl) by lia. reflexivity.
  - destruct (Z.ltb_spec lvl 1); [lia|]. reflexivity.
Qed.

(** * States *)

(** A context whose prefix is [hist]: the tables hold positions of the prefix. *)
Definition hc_stream (s : LZ4HC_CCtx) (hist : list Z) : Prop :=
  let D := hc_dictLimit s in
  hc_end s = hc_prefixStart s + zlen hist /\ hc_lowLimit s = D /\ 65536 <= D /\ D + zlen hist < 2 ^ 32 /\
  hashes_below (hc_hashTable s) (D + zlen hist) /\ chain_ok (hc_chainTable s) /\
  (hc_isMid s = false -> D <= hc_nextToUpdate s <= D + zlen hist /\ hashes_below (hc_hashTable s) (hc_nextToUpdate s)) /\
  hc_dictCtx s = None /\ hc_dirty s = 0.

(** A context that [LZ4_resetStreamHC_fast] can reuse: a failure marked it, or its
    tables hold positions before the end of its window. *)
Definition hc_wf (s : LZ4HC_CCtx) : Prop :=
  hc_dirty s <> 0 \/
  let size := hc_end s - hc_prefixStart s in
  0 <= size /\ 0 <= hc_dictLimit s /\ hc_dictLimit s + size < 2 ^ 32 /\
  hashes_below (hc_hashTable s) (hc_dictLimit s + size + 65536) /\ chain_ok (hc_chainTable s).

Lemma empty_below K : 0 < K -> hashes_below (FilledTable 0 ∅) K.
Proof. intros HK h. unfold ft_get. simpl. rewrite lookup_empty. simpl. lia. Qed.

Lemma stream_hc_wf s hist : hc_stream s hist -> hc_wf s.
Proof.
  intros (He & _ & HD & HK & Hh & Hc & _). right. rewrite He.
  replace (hc_prefixStart s + zlen hist - hc_prefixStart s) with (zlen hist) by lia. zlen_facts.
  split; [lia|]. split; [lia|]. split; [done|]. split; [|done]. eapply hashes_below_mono; [exact Hh|lia].
Qed.

Lemma initStreamHC_wf : hc_wf LZ4_initStreamHC.
Proof.
  right. simpl. split; [lia|]. split; [lia|]. split; [lia|]. by split; apply empty_below.
Qed.

(** The state [s] gets the prefix at [src], empty at first. *)
Lemma init_internal_stream s src :
  0 <= hc_end s - hc_prefixStart s -> 0 <= hc_dictLimit s ->
  hc_dictLimit s + (hc_end s - hc_prefixStart s) < 2 ^ 32 ->
  hashes_below (hc_hashTable s) (hc_dictLimit s + (hc_end s - hc_prefixStart s) + 65536) -> chain_ok (hc_chainTable s) ->
  hc_dictCtx s = None -> hc_dirty s = 0 ->
  let c := LZ4HC_init_internal s src in
  hc_stream c [] /\ hc_prefixStart c = src /\ hc_end c = src /\ hc_dictLimit c <= 2 ^ 30 + 2 ^ 16 /\
  hc_compressionLevel c = hc_compressionLevel s.
Proof.
  intros Hs Hd HK Hh Hc Ed Ey. unfold LZ4HC_init_internal. change (1 * GB) with (2 ^ 30). change (64 * KB) with 65536.
  set (sz := hc_end s - hc_prefixStart s) in *. unfold hc_stream. change (zlen (@nil Z)) with 0.
  rewrite (u64_small sz), (u64_small (sz + _)) by lia.
  destruct (Z.ltb_spec (2 ^ 30) (sz + hc_dictLimit s)) as [Hl|Hl]; cbn zeta; rewrite u64_small, u32_small, !Z.add_0_r by lia.
  - split; [|done]. split; [simpl; lia|]. simpl. split; [done|]. split; [lia|]. split; [lia|].
    assert (hashes_below (FilledTable 0 ∅) 65536) as He by by apply empty_below.
    split; [done|]. split; [intros h; unfold ft_get; simpl; rewrite lookup_empty; simpl; lia|].
    split; [|done]. intros _. split; [lia|done].
  - split; [|split; [done|split; [done|split; [simpl; lia|done]]]].
    assert (hashes_below (hc_hashTable s) (sz + hc_dictLimit s + 65536)) as He by (eapply hashes_below_mono; [exact Hh|lia]).
    split; [simpl; lia|]. simpl. split; [done|]. split; [lia|]. split; [lia|].
    split; [done|]. split; [done|]. split; [|done]. intros _. split; [lia|done].
Qed.

(** A context without a prefix, ready for [LZ4HC_init_internal]. *)
Definition hc_fresh (s : LZ4HC_CCtx) : Prop :=
  hc_prefixStart s = NULL /\ hc_end s = NULL /\ 0 <= hc_dictLimit s < 2 ^ 32 /\
  hashes_below (hc_hashTable s) (hc_dictLimit s + 65536) /\ chain_ok (hc_chainTable s) /\
  hc_dictCtx s = None /\ hc_dirty s = 0.

Lemma init_fresh lvl : hc_fresh (LZ4_setCompressionLevel LZ4_initStreamHC lvl).
Proof.
  split; [done|]. split; [done|]. split; [simpl; lia|]. split; [by apply empty_below|]. split; [|done].
  by apply empty_below.
Qed.

Lemma reset_fresh s lvl : hc_wf s -> hc_fresh (LZ4_resetStreamHC_fast s lvl).
Proof.
  intros Hw. unfold LZ4_resetStreamHC_fast. destruct (Z.eqb_spec (hc_dirty s) 0) as [E|E]; cbn [negb].
  2: apply init_fresh.
  destruct Hw as [?|(H1 & H2 & H3 & H4 & H5)]; [done|].
  unfold hc_fresh. cbn -[u32 hashes_below chain_ok Z.pow]. rewrite !u32_small by (rewrite ?u32_small; lia).
  split; [done|]. split; [done|]. split; [lia|]. done.
Qed.

Lemma fresh_stream s src :
  hc_fresh s -> let c := LZ4HC_init_internal s src in
  hc_stream c [] /\ hc_prefixStart c = src /\ hc_end c = src /\ hc_dictLimit c <= 2 ^ 30 + 2 ^ 16 /\
  hc_compressionLevel c = hc_compressionLevel s.
Proof.
  intros (E1 & E2 & HD & Hh & Hc & Ed & Ey). apply init_internal_stream; rewrite ?E1, ?E2; try done; try lia.
  eapply hashes_below_mono; [exact Hh|lia].
Qed.

(** * One call *)

Section Call.
Context (p : cparams) (hist inp : list Z) (m0 : mem) (lim : Z).
Context (Henv : comp_env p hist inp m0 lim) (Hpre : c_maybe_extMem p = false) (Hdst : c_dest p <= lim).
Context (Hcap : 1 <= c_maxOutputSize p).

Abbreviation hlen := (hlen hist).
Abbreviation D c := (hc_dictLimit c).

(** The compressor of every level turns the context [ctx], whose end is the start
    of the input, into one that knows the input too. *)
Lemma wp_generic_internal optAlloc ctx lvl :
  (strat (LZ4HC_getCLevelParams lvl) = lz4opt -> optAlloc = true) ->
  let c0 := set_end (hc_end ctx + c_inputSize p) ctx in
  window_ok p hist inp c0 -> hc_isMid c0 = bool_decide (strat (LZ4HC_getCLevelParams lvl) = lz4mid) ->
  hashes_below (hc_hashTable c0) (D c0 + hlen) -> chain_ok (hc_chainTable c0) ->
  (hc_isMid c0 = false -> hc_ok c0 c0 hlen) ->
  wp (LZ4HC_compress_generic_internal optAlloc ctx (c_source p) (c_dest p) (c_inputSize p) (c_maxOutputSize p) lvl
        (c_out p) noDictCtx)
    (fun r m' => hc_done p hist inp m0 lim (hr_result r) (hr_consumed r) m' /\
       if hr_result r <=? 0 then hc_dirty (hr_ctx r) = 1 else hc_after hist inp c0 (hr_ctx r)) m0.
Proof.
  intros Hal c0 Hw Hm Hh Hch Hok. pose proof (ce_max _ _ _ _ _ Henv) as Hn. unfold LZ4HC_compress_generic_internal.
  change LZ4_MAX_INPUT_SIZE with 2113929216 in *. rewrite !u32_small by lia.
  destruct (Z.ltb_spec 2113929216 (c_inputSize p)), (Z.ltb_spec (c_maxOutputSize p) 1), (Z.eqb_spec (c_inputSize p) 0);
    try lia.
  cbn zeta. fold c0. apply wp_bind. eapply (wp_mono _ (res_ok p hist inp m0 lim c0)).
  - destruct (strat (LZ4HC_getCLevelParams lvl)); rewrite ?bool_decide_eq_true_2, ?bool_decide_eq_false_2 in Hm by done.
    + by apply wp_mid_compress.
    + apply wp_hashChain; auto.
    + rewrite Hal by done. apply wp_optimal; auto.
  - intros r m' [Hd Ha]. apply wp_ret. destruct (Z.leb_spec (hr_result r) 0) as [Hle|Hlt]; cbn [hr_result hr_consumed hr_ctx].
    + destruct (Z.leb_spec (hr_result r) 0); [|lia]. split; [done|]. by destruct (hr_ctx r).
    + destruct (Z.leb_spec (hr_result r) 0); [lia|]. done.
Qed.

Lemma wp_hc_generic optAlloc ctx lvl :
  (strat (LZ4HC_getCLevelParams lvl) = lz4opt -> optAlloc = true) ->
  hc_stream ctx hist -> hc_end ctx = c_source p -> hc_dictLimit ctx + dlen hist inp <= 2 ^ 32 - 2 ^ 17 ->
  hc_isMid ctx = bool_decide (strat (LZ4HC_getCLevelParams lvl) = lz4mid) ->
  wp (LZ4HC_compress_generic optAlloc ctx (c_source p) (c_dest p) (c_inputSize p) (c_maxOutputSize p) lvl (c_out p))
    (fun r m' => hc_done p hist inp m0 lim (hr_result r) (hr_consumed r) m' /\
       if hr_result r <=? 0 then hc_dirty (hr_ctx r) = 1 else
       hc_stream (hr_ctx r) (hist ++ inp) /\ hc_end (hr_ctx r) = c_source p + c_inputSize p /\
       hc_compressionLevel (hr_ctx r) = hc_compressionLevel ctx /\ hc_dictLimit (hr_ctx r) = hc_dictLimit ctx) m0.
Proof.
  intros Hal (He & Hll & HD & HK & Hh & Hc & Hn & Ed & Ey) Es Hw Hm. unfold LZ4HC_compress_generic. rewrite Ed.
  pose proof (ce_size _ _ _ _ _ Henv) as Hsz.
  eapply wp_mono; [apply wp_generic_internal; [done| |by destruct ctx|by destruct ctx|by destruct ctx|]|].
  - split; [|by destruct ctx]. rewrite (addr_lin p hist Hpre). unfold Lz4CompressInv.hlen. simpl. lia.
  - intros Hmid. destruct (Hn ltac:(by destruct ctx)). split; [done|]. split; [simpl; done|]. by destruct ctx.
  - intros r m' [Hd Hr]. split; [done|]. destruct (hr_result r <=? 0); [done|].
    destruct Hr as (Hst & Hh' & Hc' & Hn').
    destruct (hr_ctx r) as [t1 t2 en pre ds dl ll nu lv fv dt dc] eqn:Er, ctx as [t1' t2' en' pre' ds' dl' ll' nu' lv' fv' dt' dc'].
    unfold hc_static in Hst. simpl in *. injection Hst as -> -> -> -> -> -> -> -> ->.
    unfold hc_stream. simpl. unfold Lz4CompressInv.dlen, data in *. rewrite zlen_app in *. zlen_facts.
    split; [|split; [lia|done]]. split; [lia|]. split; [done|]. split; [done|]. split; [lia|].
    split; [done|]. split; [done|]. split; [exact Hn'|done].
Qed.
End Call.

(** * The contracts *)

(** What a call leaves, in terms of the encoding of its input. *)
Lemma hc_done_encodes p hist inp m0 lim r n m' :
  hc_done p hist inp m0 lim r n m' -> r <> 0 ->
  exists enc, encodes hist (take (Z.to_nat n) inp) enc /\ zlen enc = r /\ holds m' (c_dest p) enc /\
    0 < r <= lim - c_dest p /\ 0 <= n <= c_inputSize p /\ (c_out p <> fillOutput -> n = c_inputSize p).
Proof.
  intros [_ [[? _]|(b & H1 & H2 & H3 & H4 & H5 & H6 & H7 & H8 & H9 & H10)]] Hr; [done|].
  exists (enc_block b). split; [by exists b|]. split; [done|]. split; [done|]. split; [|done].
  zlen_facts. lia.
Qed.

Lemma hc_done_pos p hist inp m0 lim r n m' :
  hc_done p hist inp m0 lim r n m' ->
  c_out p <> limitedOutput \/ c_dest p + LZ4_compressBound (c_inputSize p) <= lim -> 0 < r.
Proof.
  intros [_ [(_ & ? & ?)|(b & _ & _ & _ & _ & _ & _ & -> & _)]] Ho; [destruct Ho; [done|lia]|].
  pose proof (enc_block_nonempty b). destruct (enc_block b); [done|]. rewrite zlen_cons. zlen_facts. lia.
Qed.

(** The directive of the entry points that must not stop early. *)
Definition hc_limit (cap n : Z) : limitedOutput_directive :=
  if cap <? LZ4_compressBound n then limitedOutput else notLimited.

Section Contract.
Context (p : cparams) (hist inp : list Z) (m : mem) (cap : Z).
Context (Hn : c_inputSize p = zlen inp) (Hcap : c_maxOutputSize p = cap) (Hout : c_out p = hc_limit cap (zlen inp)).

Lemma hc_done_compressed r n m' :
  zlen inp <= int_max -> 0 <= cap ->
  hc_done p hist inp m (c_dest p + Z.min cap (LZ4_compressBound (zlen inp))) r n m' ->
  compressed m hist inp (c_dest p) cap r m'.
Proof.
  intros Hi Hc Hd. zlen_facts. destruct (compressBound_range (zlen inp)) as (Hb0 & _); [lia|done|].
  assert (c_out p <> fillOutput) as Hnf by (rewrite Hout; unfold hc_limit; by zcase).
  split; [apply Hd|]. split; [|split].
  - destruct (Z.eq_dec r 0) as [->|E]; [lia|].
    destruct (hc_done_encodes _ _ _ _ _ _ _ _ Hd E) as (enc & _ & _ & _ & Hr & _). lia.
  - intros E. destruct (hc_done_encodes _ _ _ _ _ _ _ _ Hd E) as (enc & He & Hz & Hh & _ & _ & En).
    exists enc. rewrite take_ge in He by (rewrite (En Hnf), Hn; zn). done.
  - intros _ Hle. pose proof (hc_done_pos _ _ _ _ _ _ _ _ Hd) as Hp. rewrite Hn in Hp. lia.
Qed.
End Contract.

(** The calls that return at once. *)
Lemma wp_generic_early optAlloc ctx src (inp : list Z) dst cap lvl out (Q : hcresult -> mem -> Prop) m :
  hc_dictCtx ctx = None ->
  zlen inp <= int_max -> mapped m dst cap -> LZ4_MAX_INPUT_SIZE < zlen inp \/ cap < 1 \/ inp = [] ->
  (LZ4_MAX_INPUT_SIZE < zlen inp \/ cap < 1 -> Q (HcResult 0 (zlen inp) ctx) m) ->
  (forall m', inp = [] -> 1 <= cap -> frame dst (dst + 1) m m' -> holds m' dst [0] -> Q (HcResult 1 0 ctx) m') ->
  wp (LZ4HC_compress_generic optAlloc ctx src dst (zlen inp) cap lvl out) Q m.
Proof.
  intros Ed Hi Hm Hor H0 H1. zlen_facts. unfold LZ4HC_compress_generic. rewrite Ed.
  unfold LZ4HC_compress_generic_noDictCtx, LZ4HC_compress_generic_internal, int_max in *.
  change LZ4_MAX_INPUT_SIZE with 2113929216 in *. rewrite !u32_small by lia.
  wif; [apply wp_ret, H0; lia|]. wif; [apply wp_ret, H0; lia|].
  destruct Hor as [?|[?|E]]; [lia|lia|]. rewrite E. change (zlen (@nil Z)) with 0. change (0 =? 0) with true. cbn iota.
  apply wp_bind, wp_storeb_frame; [eapply mapped_sub; [exact Hm|lia|lia]|]. intros m' Hf Hh. apply wp_ret. by apply H1.
Qed.

(** * Memory for the optimal parser *)

(** The call has the memory it asks for: only the levels of the optimal parser
    allocate, and an empty input returns before that. *)
Definition hc_allocated (optAlloc : bool) (lvl : Z) (inp : list Z) : bool :=
  optAlloc || negb (bool_decide (strat (LZ4HC_getCLevelParams lvl) = lz4opt)) || bool_decide (inp = []).

Lemma hc_allocated_opt optAlloc lvl inp :
  hc_allocated optAlloc lvl inp = true -> inp <> [] ->
  strat (LZ4HC_getCLevelParams lvl) = lz4opt -> optAlloc = true.
Proof.
  unfold hc_allocated. intros H Hne Hs. rewrite (bool_decide_eq_true_2 _ Hs), (bool_decide_eq_false_2 _ Hne) in H.
  by destruct optAlloc.
Qed.

Lemma hc_allocated_nil optAlloc lvl : hc_allocated optAlloc lvl [] = true.
Proof. apply orb_true_r. Qed.

Lemma hc_allocated_true lvl inp : hc_allocated true lvl inp = true.
Proof. done. Qed.

(** Without that memory the call fails: nothing is written, and the context is marked. *)
Lemma wp_generic_no_memory optAlloc ctx src (inp : list Z) dst cap lvl out m :
  hc_dictCtx ctx = None -> hc_allocated optAlloc lvl inp = false ->
  wp (LZ4HC_compress_generic optAlloc ctx src dst (zlen inp) cap lvl out) (fun r m' =>
    hr_result r = 0 /\ hr_consumed r = zlen inp /\ m' = m /\ (hr_ctx r = ctx \/ hc_dirty (hr_ctx r) = 1)) m.
Proof.
  intros Ed Ha. unfold LZ4HC_compress_generic. rewrite Ed.
  apply orb_false_iff in Ha as [[-> Hs%negb_false_iff%bool_decide_eq_true]%orb_false_iff Hne%bool_decide_eq_false].
  pose proof (proj2 (zlen_pos inp) Hne). unfold LZ4HC_compress_generic_noDictCtx, LZ4HC_compress_generic_internal.
  rewrite Hs. wif; [apply wp_ret; auto|]. wif; [apply wp_ret; auto|]. wif; [lia|].
  apply wp_bind, wp_ret, wp_ret. cbn [hr_result hr_consumed hr_ctx Z.leb Z.compare]. auto 6.
Qed.

(** What a call leaves when the memory it asks for is, or is not, allocated. *)
Definition hc_compressed (allocated : bool) (m : mem) (hist inp : list Z) (dst cap r : Z) (m' : mem) : Prop :=
  if allocated then compressed m hist inp dst cap r m' else r = 0 /\ m' = m.

Lemma hc_compressed_range a m hist inp dst cap r m' : hc_compressed a m hist inp dst cap r m' -> 0 <= r.
Proof. destruct a; [intros (_ & H & _)|intros [-> _]]; lia. Qed.

(** * A call with a prefix *)

(** The bytes before the input. *)
Definition prefix_ok (m : mem) (src : Z) (hist : list Z) (dst cap : Z) : Prop :=
  bytes_ok hist /\ holds m (src - zlen hist) hist /\ (hist = [] \/ src <= dst \/ dst + cap <= src - zlen hist).

Definition hc_params (hist : list Z) (src : Z) (inp : list Z) (dst cap : Z) (out : limitedOutput_directive) : cparams :=
  CParams src (zlen inp) dst cap out byU32 withPrefix64k noDictIssue 1 0 NULL (zlen hist) ∅ 0.

Section Prefix.
Context (hist : list Z) (src : Z) (inp : list Z) (dst cap : Z) (m : mem).
Context (Hbufs : cbufs_ok m src inp dst cap) (Hprefix : prefix_ok m src hist dst cap).

Abbreviation bound := (LZ4_compressBound (zlen inp)).

Lemma hc_env out lim :
  inp <> [] -> zlen inp <= LZ4_MAX_INPUT_SIZE -> 1 <= cap -> dst <= lim <= dst + cap ->
  match out with notLimited => dst + bound <= lim | _ => lim = dst + cap end ->
  comp_env (hc_params hist src inp dst cap out) hist inp m lim.
Proof.
  intros Hne Hs H1 Hl Ho. destruct Hbufs as (Hb & Hi & Hc & Hh & Hm & Hd), Hprefix as (Hpb & Hph & Hpd).
  assert (0 < zlen inp) by (destruct inp; [done|rewrite zlen_cons; zlen_facts; lia]).
  change LZ4_MAX_INPUT_SIZE with 2113929216 in *.
  constructor; simpl; try done; try lia.
  - by apply Forall_app.
  - eapply mapped_sub; [exact Hm|lia|lia].
  - unfold c_iend. simpl. lia.
  - destruct Hpd as [?|Hpd]; [by left|right]. change (c_maybe_extMem _) with false. cbn iota. lia.
  - by left.
Qed.

Context (optAlloc : bool) (ctx : LZ4HC_CCtx) (lvl : Z).
Context (Hstream : hc_stream ctx hist) (Hend : hc_end ctx = src) (Hroom : hc_dictLimit ctx + zlen hist <= 2 ^ 31).
Context (Hlevel : hc_isMid ctx = bool_decide (strat (LZ4HC_getCLevelParams lvl) = lz4mid)).

(** The state after a successful call. *)
Definition hc_next (c : LZ4HC_CCtx) : Prop :=
  hc_stream c (hist ++ inp) /\ hc_end c = src + zlen inp /\
  hc_compressionLevel c = hc_compressionLevel ctx /\ hc_dictLimit c = hc_dictLimit ctx.

Lemma wp_hc_call out lim :
  inp <> [] -> zlen inp <= LZ4_MAX_INPUT_SIZE -> 1 <= cap -> dst <= lim <= dst + cap ->
  match out with notLimited => dst + bound <= lim | _ => lim = dst + cap end ->
  hc_allocated optAlloc lvl inp = true ->
  wp (LZ4HC_compress_generic optAlloc ctx src dst (zlen inp) cap lvl out) (fun r m' =>
    hc_done (hc_params hist src inp dst cap out) hist inp m lim (hr_result r) (hr_consumed r) m' /\
    hc_wf (hr_ctx r) /\ (0 < hr_result r -> hc_next (hr_ctx r))) m.
Proof.
  intros Hne Hs H1 Hl Ho Ha. pose proof (hc_env out lim Hne Hs H1 Hl Ho) as Henv.
  change LZ4_MAX_INPUT_SIZE with 2113929216 in *.
  eapply wp_mono; [apply (wp_hc_generic _ _ _ _ _ Henv eq_refl); try done; try by apply (hc_allocated_opt _ _ inp)|].
  - simpl. lia.
  - unfold dlen, data. rewrite zlen_app. lia.
  - intros r m' [Hd Hr]. split; [done|]. destruct (Z.leb_spec (hr_result r) 0) as [Hle|Hgt].
    + split; [left; lia|lia].
    + split; [|done]. destruct Hr as [Hst _]. by eapply stream_hc_wf.
Qed.

Lemma hc_call_ok :
  wp (LZ4HC_compress_generic optAlloc ctx src dst (zlen inp) cap lvl (hc_limit cap (zlen inp))) (fun r m' =>
    hc_compressed (hc_allocated optAlloc lvl inp) m hist inp dst cap (hr_result r) m' /\ hc_wf (hr_ctx r) /\
    (0 < hr_result r -> hc_next (hr_ctx r))) m.
Proof.
  pose proof Hbufs as (Hb & Hi & Hc & Hh & Hm & Hd). zlen_facts.
  destruct (compressBound_range (zlen inp)) as (Hb0 & Hb1 & Hb2); [lia|done|].
  assert (hc_wf ctx) as Hwf by (by eapply stream_hc_wf).
  destruct (decide (LZ4_MAX_INPUT_SIZE < zlen inp \/ cap < 1 \/ inp = [])) as [Hor|Hn].
  - apply wp_generic_early; [apply Hstream|done|done|done| |]; cbn [hr_result hr_ctx].
    + intros Hf. split; [|split; [done|lia]]. destruct (hc_allocated _ _ _); [|done]. split; [apply frame_refl|]. split; [lia|]. split; [done|].
      intros Hs Hle. rewrite Hb1 in Hle by done. pose proof (Z.div_pos (zlen inp) 255 ltac:(lia) ltac:(lia)). lia.
    + intros m' E H1 Hf Hh'. unfold hc_next. rewrite E in *. rewrite hc_allocated_nil. unfold hc_compressed, compressed. change (LZ4_compressBound (zlen [])) with 16 in *.
      rewrite app_nil_r. change (zlen (@nil Z)) with 0. split; [|split; [done|]].
      * split; [eapply frame_weaken; [exact Hf|lia|lia]|]. split; [lia|]. split; [|done].
        intros _. exists [0]. split; [apply encodes_empty|]. done.
      * intros _. split; [done|]. split; [lia|done].
  - assert (inp <> []) as Hne by (intros E; apply Hn; by do 2 right).
    destruct (hc_allocated optAlloc lvl inp) eqn:Ha.
    2: { eapply wp_mono; [apply wp_generic_no_memory; [apply Hstream|exact Ha]|].
         intros r m' (Er & _ & -> & Ec). split; [done|]. split; [|lia]. destruct Ec as [->|Ey]; [done|left; lia]. }
    eapply wp_mono; [apply (wp_hc_call _ (dst + Z.min cap bound)); [done|lia|lia|lia| |done]|].
    + unfold hc_limit. zcase; lia.
    + intros r m' (Hdone & Hw & Hnx). split; [|done].
      apply (hc_done_compressed (hc_params hist src inp dst cap (hc_limit cap (zlen inp))) hist inp m cap eq_refl eq_refl
        (hr_result r) (hr_consumed r)); [done|lia|done].
Qed.

Lemma hc_fill_ok :
  wp (LZ4HC_compress_generic optAlloc ctx src dst (zlen inp) cap lvl fillOutput) (fun r m' =>
    if bool_decide (0 < cap /\ zlen inp <= LZ4_MAX_INPUT_SIZE) && hc_allocated optAlloc lvl inp
    then filled m hist inp dst cap (hr_result r) (hr_consumed r) m'
    else hr_result r = 0 /\ hr_consumed r = zlen inp /\ m' = m) m.
Proof.
  pose proof Hbufs as (Hb & Hi & Hc & Hh & Hm & Hd). zlen_facts.
  destruct (decide (LZ4_MAX_INPUT_SIZE < zlen inp \/ cap < 1 \/ inp = [])) as [Hor|Hn].
  - apply wp_generic_early; [apply Hstream|done|done|done| |]; cbn [hr_result hr_consumed].
    + intros Hf. rewrite bool_decide_eq_false_2 by lia. done.
    + intros m' E H1 Hf Hh'. rewrite E in *. rewrite hc_allocated_nil, bool_decide_eq_true_2 by (split; [lia|vm_compute; discriminate]).
      split; [eapply frame_weaken; [exact Hf|lia|lia]|]. split; [lia|]. split; [lia|]. exists [0].
      split; [apply encodes_empty|]. done.
  - assert (inp <> []) as Hne by (intros E; apply Hn; by do 2 right). rewrite bool_decide_eq_true_2 by lia.
    destruct (hc_allocated optAlloc lvl inp) eqn:Ha; cbn [andb].
    2: { eapply wp_mono; [apply wp_generic_no_memory; [apply Hstream|exact Ha]|]. intros r m' (? & ? & ? & _). done. }
    eapply wp_mono; [apply (wp_hc_call _ (dst + cap)); [done|lia|lia|lia|done|done]|].
    intros r m' (Hdone & _). pose proof (hc_done_pos _ _ _ _ _ _ _ _ Hdone ltac:(by left)) as Hp.
    destruct (hc_done_encodes _ _ _ _ _ _ _ _ Hdone ltac:(lia)) as (enc & He & Hz & Hh' & Hr & Hk & _). simpl in *.
    split; [apply Hdone|]. split; [lia|]. split; [lia|]. by exists enc.
Qed.
End Prefix.

(** * The one-shot entry points *)

Lemma prefix_nil m src dst cap : prefix_ok m src [] dst cap.
Proof. split; [constructor|]. split; [apply holds_nil|by left]. Qed.

Lemma hc_fastReset_ok optAlloc st m src inp dst cap lvl :
  hc_wf st -> cbufs_ok m src inp dst cap ->
  wp (LZ4_compress_HC_extStateHC_fastReset optAlloc st src dst (zlen inp) cap lvl)
    (fun r m' => hc_compressed (hc_allocated optAlloc lvl inp) m [] inp dst cap r.1 m' /\ hc_wf r.2) m.
Proof.
  intros Hw Hb. unfold LZ4_compress_HC_extStateHC_fastReset.
  destruct (fresh_stream (LZ4_resetStreamHC_fast st lvl) src (reset_fresh st lvl Hw)) as (Hs & _ & He & HD & El).
  apply wp_bind. eapply wp_mono; [apply (hc_call_ok []); [done|apply prefix_nil|exact Hs|done| |]|].
  - change (zlen (@nil Z)) with 0. lia.
  - unfold hc_isMid. rewrite El. apply set_level_isMid.
  - intros r m' (H1 & H2 & _). by apply wp_ret.
Qed.

Lemma compress_HC_ok stateAlloc optAlloc m src inp dst cap lvl :
  cbufs_ok m src inp dst cap ->
  wp (LZ4_compress_HC stateAlloc optAlloc src dst (zlen inp) cap lvl)
    (hc_compressed (stateAlloc && hc_allocated optAlloc lvl inp) m [] inp dst cap) m.
Proof.
  intros Hb. unfold LZ4_compress_HC. destruct stateAlloc; cbn [negb andb]; [|by apply wp_ret].
  apply wp_bind. eapply wp_mono; [apply hc_fastReset_ok; [apply initStreamHC_wf|done]|].
  intros r m' [H _]. by apply wp_ret.
Qed.

(** C16.  [LZ4_compress_HC_extStateHC_fastReset], at any compression level (the
    mid-level, hash-chain and optimal parsers): on a context that earlier calls
    used, whose tables it keeps, the call returns, accesses only its buffers and
    writes at most [min dstCapacity (LZ4_compressBound srcSize)] bytes.  A result
    other than 0 is the size of a conforming block that stands for the input, and
    with a capacity of [LZ4_compressBound] the result is not 0, unless the optimal
    parser (level 10 and above) cannot allocate its table: then the result is 0
    and nothing is written.  The context is fit for the next call in every case. *)
Theorem compress_HC_fastReset_spec optAlloc st m src inp dst cap lvl :
  hc_wf st -> cbufs_ok m src inp dst cap ->
  wp (LZ4_compress_HC_extStateHC_fastReset optAlloc st src dst (zlen inp) cap lvl)
    (fun r m' => hc_compressed (hc_allocated optAlloc lvl inp) m [] inp dst cap r.1 m' /\ hc_wf r.2) m.
Proof. intros. by apply hc_fastReset_ok. Qed.

(** The table is missing in the second of three calls, and the third compresses. *)
Lemma compress_HC_fastReset_witness :
  exists r1 m1 r2 m2 r3 m3,
    LZ4_compress_HC_extStateHC_fastReset true LZ4_initStreamHC 100 200 48 80 2 sample_cmem = Ok r1 m1 /\
    LZ4_compress_HC_extStateHC_fastReset false r1.2 100 200 48 80 12 sample_cmem = Ok r2 m2 /\
    r2.1 = 0 /\ m2 = sample_cmem /\
    LZ4_compress_HC_extStateHC_fastReset true r2.2 100 200 48 80 12 sample_cmem = Ok r3 m3 /\
    compressed sample_cmem [] sample_text 200 80 r3.1 m3.
Proof.
  destruct (wp_inv _ _ _ (compress_HC_fastReset_spec true LZ4_initStreamHC sample_cmem 100 sample_text 200 80 2
    initStreamHC_wf ltac:(eval_decide))) as (r1 & m1 & E1 & _ & Hw1).
  destruct (wp_inv _ _ _ (compress_HC_fastReset_spec false r1.2 sample_cmem 100 sample_text 200 80 12
    Hw1 ltac:(eval_decide))) as (r2 & m2 & E2 & H2 & Hw2).
  destruct (wp_inv _ _ _ (compress_HC_fastReset_spec true r2.2 sample_cmem 100 sample_text 200 80 12
    Hw2 ltac:(eval_decide))) as (r3 & m3 & E3 & H3 & _).
  assert (hc_allocated false 12 sample_text = false) as Ea by reflexivity. rewrite Ea in H2.
  assert (hc_allocated true 12 sample_text = true) as Eb by reflexivity. rewrite Eb in H3.
  exists r1, m1, r2, m2, r3, m3. split; [exact E1|]. split; [exact E2|]. split; [apply H2|]. split; [apply H2|].
  split; [exact E3|exact H3].
Defined.

(** C5.  High-compression round trip: at any level, decoding what
    [LZ4_compress_HC] wrote gives back the input.  With a capacity of
    [LZ4_compressBound] the compression fails only for lack of memory: when the
    state, or at the levels of the optimal parser the table of that parser,
    cannot be allocated, and then it returns 0 and writes nothing. *)
Theorem compress_HC_roundtrip stateAlloc optAlloc m src inp dst cap back lvl :
  trip_bufs m src inp dst cap back ->
  let allocated := stateAlloc && hc_allocated optAlloc lvl inp in
  wp (r ← LZ4_compress_HC stateAlloc optAlloc src dst (zlen inp) cap lvl;
      if r =? 0 then mret (r, 0) else
      r' ← LZ4_decompress_safe dst back r (zlen inp); mret (r, r'))
    (fun r m' =>
       (r.1 <> 0 -> r.2 = zlen inp /\ holds m' back inp) /\
       (allocated = true -> zlen inp <= LZ4_MAX_INPUT_SIZE -> LZ4_compressBound (zlen inp) <= cap -> r.1 <> 0) /\
       (allocated = false -> r.1 = 0 /\ m' = m)) m.
Proof.
  intros Hb allocated. pose proof Hb as (Hcb & _). apply wp_bind.
  eapply wp_mono; [by apply compress_HC_ok|]. fold allocated. clearbody allocated. intros r m1 Hc.
  destruct allocated; [|destruct Hc as [-> ->]; by apply wp_ret]. destruct Hc as (Hf & Hr & He & Hn).
  destruct (Z.eqb_spec r 0) as [E|E]; [apply wp_ret; split; [done|split; [auto|done]]|].
  destruct (He E) as (enc & H1 & <- & H3). apply wp_bind.
  eapply wp_mono; [eapply (trip_decode m); eauto|].
  - eapply frame_weaken; [exact Hf|lia|lia].
  - lia.
  - lia.
  - intros r' m' [-> Hh]. by apply wp_ret.
Qed.

Lemma compress_HC_roundtrip_witness :
  exists r m', (r ← LZ4_compress_HC true true 100 200 48 80 12;
    if r =? 0 then mret (r, 0) else
    r' ← LZ4_decompress_safe 200 300 r 48; mret (r, r')) sample_cmem = Ok r m' /\
    r.2 = 48 /\ holds m' 300 sample_text.
Proof.
  destruct (wp_inv _ _ _ (compress_HC_roundtrip true true sample_cmem 100 sample_text 200 80 300 12
    ltac:(eval_decide))) as (r & m' & E & H & Hn & _).
  exists r, m'. split; [exact E|]. apply H, Hn; vm_compute; [reflexivity|discriminate|discriminate].
Defined.

(** C17.  [LZ4_compress_HC_destSize], at any level: into any non-empty output the
    call encodes a prefix of the input, writes at most [targetDestSize] bytes, and
    sets [*sourceSizePtr] to the length of exactly the prefix that its result, a
    conforming block, stands for.  An empty output, an input that is too large, or
    an optimal parser that cannot allocate its table gives 0 and leaves the memory
    and [*sourceSizePtr] as they were. *)
Theorem compress_HC_destSize_spec optAlloc m src inp dst target lvl :
  cbufs_ok m src inp dst target ->
  wp (LZ4_compress_HC_destSize optAlloc src dst (zlen inp) target lvl) (fun r m' =>
    if bool_decide (0 < target /\ zlen inp <= LZ4_MAX_INPUT_SIZE) && hc_allocated optAlloc lvl inp
    then filled m [] inp dst target (hr_result r) (hr_consumed r) m'
    else hr_result r = 0 /\ hr_consumed r = zlen inp /\ m' = m) m.
Proof.
  intros Hb. unfold LZ4_compress_HC_destSize.
  destruct (fresh_stream LZ4_initStreamHC src (init_fresh LZ4HC_CLEVEL_DEFAULT)) as (Hs & _ & He & HD & El).
  set (c := LZ4HC_init_internal LZ4_initStreamHC src) in *.
  apply (hc_fill_ok []); [done|apply prefix_nil| |done| |].
  - destruct Hs as (H1 & H2 & H3 & H4 & H5 & H6 & _ & H8). split; [done|]. split; [done|]. split; [done|].
    split; [done|]. split; [done|]. split; [done|]. split; [|done]. intros _. simpl.
    change (zlen (@nil Z)) with 0. split; [lia|]. by apply empty_below.
  - change (hc_dictLimit c + 0 <= 2 ^ 31). lia.
  - apply set_level_isMid.
Qed.

Lemma compress_HC_destSize_witness :
  exists r m', LZ4_compress_HC_destSize true 100 200 48 16 12 sample_cmem = Ok r m' /\
    filled sample_cmem [] sample_text 200 16 (hr_result r) (hr_consumed r) m'.
Proof.
  destruct (wp_inv _ _ _ (compress_HC_destSize_spec true sample_cmem 100 sample_text 200 16 12
    ltac:(eval_decide))) as (r & m' & E & H).
  exists r, m'. split; [exact E|].
  assert (bool_decide (0 < 16 /\ zlen sample_text <= LZ4_MAX_INPUT_SIZE) && hc_allocated true 12 sample_text = true)
    as Eb by reflexivity.
  rewrite Eb in H. exact H.
Defined.

(** * A deprecated entry point *)

(** C40.  [LZ4_compressHC2_continue] passes the capacity 0, which
    [LZ4HC_compress_generic_internal] refuses before it looks at the output mode:
    on a context without an attached dictionary the function fails on every input,
    without any effect. *)
Theorem compressHC2_continue_fails optAlloc s m src n dst lvl :
  hc_dictCtx s = None -> LZ4_compressHC2_continue optAlloc s src dst n lvl m = Ok (0, s) m.
Proof.
  intros Ed. unfold LZ4_compressHC2_continue, LZ4HC_compress_generic. rewrite Ed.
  unfold LZ4HC_compress_generic_noDictCtx, LZ4HC_compress_generic_internal. change (0 <? 1) with true. cbn iota.
  by destruct (_ <? u32 n).
Qed.

Lemma compressHC2_continue_witness :
  exists s, LZ4_createHC true 100 = Some s /\
    LZ4_compressHC2_continue true s 100 200 48 9 sample_cmem = Ok (0, s) sample_cmem.
Proof.
  eexists. split; [reflexivity|]. apply (compressHC2_continue_fails true _ sample_cmem 100 48 200 9). reflexivity.
Defined.

(** * The streaming entry point *)

(** The context before the block at [src]: reset, or with the prefix [hist] that
    ends there. *)
Definition hc_before (s : LZ4HC_CCtx) (hist : list Z) (src : Z) : Prop :=
  (hist = [] /\ hc_fresh s) \/ (hc_stream s hist /\ hc_end s = src /\ hc_dictLimit s <= 2 ^ 30 + 2 ^ 16).

(** Without an external dictionary there is nothing to drop. *)
Lemma drop_overlap_stream s hist src n :
  hc_stream s hist -> let s' := hc_drop_overlap s src n in
  hc_stream s' hist /\ hc_end s' = hc_end s /\ hc_dictLimit s' = hc_dictLimit s /\
  hc_compressionLevel s' = hc_compressionLevel s.
Proof.
  intros Hs. pose proof Hs as (_ & El & HD & HK & _). zlen_facts. unfold hc_drop_overlap. rewrite El.
  destruct (_ && _) eqn:E; [|done]. apply andb_prop in E as [E1%Z.ltb_lt E2%Z.ltb_lt]. cbn zeta.
  replace (hc_dictLimit s - hc_dictLimit s) with 0 in * by lia. change (u32 0) with 0 in *. rewrite Z.add_0_r in *.
  destruct (Z.ltb_spec (hc_dictStart s) (src + n)); [|lia]. rewrite Z.sub_diag. change (u32 0) with 0.
  rewrite !Z.add_0_r, (u32_small (hc_dictLimit s)), Z.sub_diag by lia. change (u32 0 <? LZ4HC_HASHSIZE) with true. cbn iota.
  destruct s. unfold hc_stream in *. simpl in *. split; [|done]. destruct Hs as (? & ? & Hs). done.
Qed.

Section Continue.
Context (hist : list Z) (src : Z) (inp : list Z) (dst cap : Z) (m : mem).
Context (Hbufs : cbufs_ok m src inp dst cap) (Hprefix : prefix_ok m src hist dst cap).
Context (Hpos : 0 < src - zlen hist) (Hmax : zlen hist <= 2 ^ 30 - 2 ^ 16).

Definition hc_continued (optAlloc : bool) (s : LZ4HC_CCtx) (r : Z * LZ4HC_CCtx) (m' : mem) : Prop :=
  hc_compressed (hc_allocated optAlloc (hc_compressionLevel s) inp) m hist inp dst cap r.1 m' /\ hc_wf r.2 /\
  (r.1 <> 0 -> hc_before r.2 (hist ++ inp) (src + zlen inp) /\ hc_compressionLevel r.2 = hc_compressionLevel s).

Lemma hc_continue_prefix optAlloc s :
  hc_stream s hist -> hc_end s = src -> hc_dictLimit s <= 2 ^ 30 + 2 ^ 16 ->
  wp (LZ4HC_compress_generic optAlloc s src dst (zlen inp) cap (hc_compressionLevel s) (hc_limit cap (zlen inp)))
    (fun r m' => hc_continued optAlloc s (hr_result r, hr_ctx r) m') m.
Proof.
  intros Hs He HD. eapply wp_mono; [apply (hc_call_ok hist); try done; lia|].
  intros r m' (Hc & Hw & Hn). split; [done|]. split; [done|]. cbn [fst snd]. intros Hr.
  destruct Hn as (H1 & H2 & H3 & H4); [apply hc_compressed_range in Hc; lia|].
  split; [|done]. right. split; [done|]. split; [done|lia].
Qed.

Lemma hc_continue_ok optAlloc s :
  hc_before s hist src ->
  wp (LZ4_compress_HC_continue optAlloc s src dst (zlen inp) cap) (hc_continued optAlloc s) m.
Proof.
  intros Hb. unfold LZ4_compress_HC_continue, LZ4_compressHC_continue_generic. zlen_facts. do 2 apply wp_bind.
  set (s1 := if hc_prefixStart s =? NULL then _ else s).
  assert (hc_stream s1 hist /\ hc_end s1 = src /\ hc_dictLimit s1 <= 2 ^ 30 + 2 ^ 16 /\
    hc_compressionLevel s1 = hc_compressionLevel s) as (Hs1 & He1 & HD1 & El1).
  { subst s1. destruct Hb as [[-> Hf]|(Hs & He & HD)].
    - pose proof Hf as (E & _). rewrite E. change (NULL =? NULL) with true. cbn iota.
      destruct (fresh_stream s src Hf) as (H1 & _ & H3 & H4 & H5). done.
    - pose proof Hs as (E & _). unfold NULL. destruct (Z.eqb_spec (hc_prefixStart s) 0); [lia|done]. }
  clearbody s1. pose proof Hs1 as (Ee & _ & HDl & _). change (2 * GB) with (2 ^ 31).
  replace (hc_end s1 - hc_prefixStart s1) with (zlen hist) by lia.
  rewrite (u64_small (zlen hist)), u64_small by lia.
  destruct (Z.ltb_spec (2 ^ 31) (zlen hist + hc_dictLimit s1)); [lia|]. apply wp_ret, wp_bind.
  rewrite He1, Z.eqb_refl. cbn [negb]. apply wp_ret.
  destruct (drop_overlap_stream s1 hist src (zlen inp) Hs1) as (Hs2 & He2 & HD2 & El2). cbn zeta.
  eapply wp_mono; [apply hc_continue_prefix; [done|lia|lia]|].
  intros r m' (C1 & C2 & C3). apply wp_ret. cbn [fst snd] in *. rewrite El2, El1 in C1, C3. done.
Qed.
End Continue.

(** C21.  [LZ4_compress_HC_continue] on a stream of adjacent blocks, at any level:
    the call stays within its buffers, a result other than 0 is the size of a
    conforming block that stands for the input after the blocks before it, and the
    context then continues with the input as the end of its prefix.  With a capacity
    of [LZ4_compressBound] the result is not 0, unless the optimal parser cannot
    allocate its table: then the result is 0 and nothing is written.  After any
    failure the context can be reset for a new stream. *)
Theorem compress_HC_continue_spec optAlloc s hist src inp dst cap m :
  hc_before s hist src -> cbufs_ok m src inp dst cap -> prefix_ok m src hist dst cap ->
  0 < src - zlen hist -> zlen hist <= 2 ^ 30 - 2 ^ 16 ->
  wp (LZ4_compress_HC_continue optAlloc s src dst (zlen inp) cap) (hc_continued hist src inp dst cap m optAlloc s) m.
Proof. intros. by apply hc_continue_ok. Qed.

(** The second block continues the first. *)
Lemma compress_HC_continue_witness :
  exists r1 m1 r2 m2,
    LZ4_compress_HC_continue true (LZ4_resetStreamHC_fast LZ4_initStreamHC 12) 100 200 20 80 sample_cmem = Ok r1 m1 /\
    LZ4_compress_HC_continue true r1.2 120 200 28 80 sample_cmem = Ok r2 m2 /\
    hc_before r2.2 sample_text 148 /\
    exists enc, encodes (take 20 sample_text) (drop 20 sample_text) enc /\ zlen enc = r2.1 /\ holds m2 200 enc.
Proof.
  destruct (wp_inv _ _ _ (compress_HC_continue_spec true (LZ4_resetStreamHC_fast LZ4_initStreamHC 12) [] 100
    (take 20 sample_text) 200 80 sample_cmem (or_introl (conj eq_refl (reset_fresh _ _ initStreamHC_wf)))
    ltac:(eval_decide) (prefix_nil _ _ _ _) ltac:(reflexivity) ltac:(vm_compute; discriminate)))
    as (r1 & m1 & E1 & (_ & _ & _ & Hn1) & _ & Hs1).
  destruct (Hs1 ltac:(apply Hn1; vm_compute; discriminate)) as [Hb1 _].
  destruct (wp_inv _ _ _ (compress_HC_continue_spec true r1.2 (take 20 sample_text) 120
    (drop 20 sample_text) 200 80 sample_cmem Hb1 ltac:(eval_decide) ltac:(unfold prefix_ok; eval_decide) ltac:(reflexivity)
    ltac:(vm_compute; discriminate))) as (r2 & m2 & E2 & Hc2 & _ & Hs2).
  unfold hc_compressed in Hc2. rewrite hc_allocated_true in Hc2. destruct Hc2 as (_ & _ & He2 & Hn2).
  assert (r2.1 <> 0) as Hr by (apply Hn2; vm_compute; discriminate).
  exists r1, m1, r2, m2. split; [exact E1|]. split; [exact E2|]. split; [apply Hs2, Hr|apply He2, Hr].
Defined.

(** * A stream of blocks *)

(** Adjacent blocks at [src] are compressed to [dst] one after the other, and
    decoded one after the other to [out]; each with its size and the outcome of
    the allocation in its compression. *)
Fixpoint hc_stream_trip (s : LZ4HC_CCtx) (sd : LZ4_streamDecode_t) (src dst cap out : Z) (blocks : list (Z * bool)) :
    M bool :=
  match blocks with
  | [] => mret true
  | (n, optAlloc) :: blocks =>
      r ← LZ4_compress_HC_continue optAlloc s src dst n cap;
      if r.1 =? 0 then mret false else
      p ← LZ4_decompress_safe_continue sd dst out r.1 n;
      if p.1 =? n then hc_stream_trip r.2 p.2 (src + n) dst cap (out + n) blocks else mret false
  end.

Section HcTrip.
Context (src dst cap out : Z) (total : list Z) (m0 : mem).
Context (Hbufs : stream_bufs m0 src total dst cap out) (Hmax : zlen total <= 2 ^ 30 - 2 ^ 16) (lvl : Z).

(** The blocks [T] are done. *)
Definition hc_trip_inv (T : list Z) (s : LZ4HC_CCtx) (m : mem) : Prop :=
  holds m src total /\ mapped m dst cap /\ mapped m out (zlen total) /\ holds m out T /\
  hc_before s T (src + zlen T) /\ hc_compressionLevel s = lvl.

Lemma wp_hc_trip_block a T s c rest (k : Z * LZ4HC_CCtx -> Z * LZ4_streamDecode_t -> M bool)
    (Q : bool -> mem -> Prop) m :
  hc_trip_inv T s m -> total = T ++ c ++ rest -> chunk_ok cap c ->
  (forall m', hc_allocated a lvl c = false -> Q false m') ->
  (forall r s' m', r <> 0 -> hc_allocated a lvl c = true -> hc_trip_inv (T ++ c) s' m' -> wp (k (r, s') (zlen c, out_state (T ++ c) out)) Q m') ->
  wp (r ← LZ4_compress_HC_continue a s (src + zlen T) dst (zlen c) cap;
      if r.1 =? 0 then mret false else
      p ← LZ4_decompress_safe_continue (out_state T out) dst (out + zlen T) r.1 (zlen c);
      k r p) Q m.
Proof.
  intros (Hh & Hm1 & Hm2 & Ho & Hs & El) Et (Hne & Hsz & Hbd) Hna Hk.
  destruct Hbufs as ((Hsrc & Hd0 & Hd63 & Hcap) & (Ho0 & Ho63 & Hbytes) & Hd1 & Hd2 & Hd3 & _).
  assert (zlen total = zlen T + zlen c + zlen rest) as Hz by (rewrite Et, !zlen_app; lia). zlen_facts.
  assert (0 < zlen c) as Hc0 by by apply zlen_pos. unfold int_max in *.
  pose proof Hbytes as Hb. rewrite Et, !bytes_ok_app in Hb. destruct Hb as (HbT & Hbc & _).
  pose proof Hh as Hh2. rewrite Et in Hh2. apply holds_app in Hh2 as [HhT [Hhc _]%holds_app].
  change LZ4_MAX_INPUT_SIZE with 2113929216 in Hsz.
  assert (cbufs_ok m (src + zlen T) c dst cap) as Hcb by (unfold cbufs_ok, int_max; splits; try done; lia).
  apply wp_bind. eapply wp_mono; [apply (hc_continue_ok T); [done| |lia|lia|done]|].
  { split; [done|]. split; [by replace (src + zlen T - zlen T) with src by lia|]. right. lia. }
  intros [r s'] m1 (Hc & _ & Hst). cbn [fst snd] in *. rewrite El in *.
  destruct (hc_allocated a lvl c) eqn:Ea; [|destruct Hc as [-> _]; cbn [Z.eqb]; apply wp_ret; auto].
  destruct Hc as (Hf & Hr & He & Hn0).
  specialize (Hn0 ltac:(change LZ4_MAX_INPUT_SIZE with 2113929216; lia) Hbd).
  destruct (He Hn0) as (enc & Henc & Hez & Hhe). destruct (Hst Hn0) as [Hs' El'].
  destruct (Z.eqb_spec r 0); [done|]. rewrite <- Hez.
  assert (frame dst (dst + cap) m m1) as Hf' by (eapply frame_weaken; [exact Hf|lia|lia]).
  assert (holds m1 out T) as Ho1 by (eapply frame_holds; [exact Hf'|lia|done]).
  assert (bufs_ok m1 dst enc (out + zlen T) (zlen c)) as Hbo.
  { unfold bufs_ok, int_max. splits; try done; try lia.
    - destruct Henc as (b & -> & [Hw _] & _). by apply enc_block_bytes.
    - eapply frame_mapped; [exact Hf|]. eapply mapped_sub; [exact Hm2|lia|lia]. }
  destruct (trip_decode_block T out c enc dst m1) as (m2 & E & Hhc2 & Hf2); try done; try lia.
  apply wp_bind. unfold wp at 1. rewrite E, Hez. apply Hk; [done|done|].
  assert (frame out (out + zlen total) m1 m2) as Hf2' by (eapply frame_weaken; [exact Hf2|lia|lia]).
  split; [eapply frame_holds; [exact Hf2'|lia|]; eapply frame_holds; [exact Hf'|lia|done]|].
  split; [do 2 (eapply frame_mapped; [eassumption|]); done|].
  split; [do 2 (eapply frame_mapped; [eassumption|]); done|].
  split; [apply holds_app; split; [eapply frame_holds; [exact Hf2|lia|done]|done]|].
  rewrite zlen_app, Z.add_assoc. done.
Qed.

(** Every block had the memory it asked for. *)
Definition all_allocated (blocks : list (list Z * bool)) : bool :=
  forallb (fun b => hc_allocated b.2 lvl b.1) blocks.

Lemma wp_hc_stream_trip blocks : forall T s m,
  hc_trip_inv T s m -> total = T ++ concat (map fst blocks) -> Forall (chunk_ok cap) (map fst blocks) ->
  wp (hc_stream_trip s (out_state T out) (src + zlen T) dst cap (out + zlen T) (map (fun b => (zlen b.1, b.2)) blocks))
    (fun ok m' => ok = all_allocated blocks /\ (ok = true -> holds m' out total)) m.
Proof.
  induction blocks as [|[c a] blocks IH]; intros T s m HI Et Hch.
  - simpl in *. apply wp_ret. split; [done|]. rewrite Et, app_nil_r. intros _. apply HI.
  - apply Forall_cons_iff in Hch as [Hc Hch]. cbn [hc_stream_trip map fst snd].
    eapply (wp_hc_trip_block a T s c (concat (map fst blocks))); [done|done|done| |].
    { intros m' Ea. unfold all_allocated. cbn [forallb fst snd]. by rewrite Ea. }
    intros r s' m' Hr Ea HI'. simpl. rewrite Z.eqb_refl, Ea.
    replace (src + zlen T + zlen c) with (src + zlen (T ++ c)) by (rewrite zlen_app; lia).
    replace (out + zlen T + zlen c) with (out + zlen (T ++ c)) by (rewrite zlen_app; lia).
    eapply IH; [exact HI'|by rewrite <- app_assoc|done].
Qed.
End HcTrip.

(** C22.  High-compression streaming round trip: any sequence of adjacent non-empty
    blocks, less than 1 GB in all, compressed one after the other by
    [LZ4_compress_HC_continue] at any level with room for [LZ4_compressBound], on
    a context that earlier sessions may have used, and decoded one after the other
    by [LZ4_decompress_safe_continue] to adjacent places, is restored.  It stops
    exactly when the optimal parser cannot allocate its table for a block. *)
Theorem hc_stream_roundtrip st lvl m src dst cap out blocks :
  let chunks := map fst blocks in let s := LZ4_resetStreamHC_fast st lvl in
  hc_wf st -> stream_bufs m src (concat chunks) dst cap out -> Forall (chunk_ok cap) chunks ->
  zlen (concat chunks) <= 2 ^ 30 - 2 ^ 16 ->
  wp (hc_stream_trip s zero_streamDecode src dst cap out (map (fun b => (zlen b.1, b.2)) blocks))
    (fun ok m' => ok = all_allocated (hc_compressionLevel s) blocks /\ (ok = true -> holds m' out (concat chunks))) m.
Proof.
  intros chunks s Hw Hb Hch Hmax.
  pose proof (wp_hc_stream_trip src dst cap out _ m Hb Hmax (hc_compressionLevel s) blocks [] s m) as H.
  change (zlen (@nil Z)) with 0 in H. rewrite !Z.add_0_r in H. apply H; [|done|done].
  destruct Hb as (_ & _ & _ & _ & _ & Hh & Hm1 & Hm2). split; [done|]. split; [done|]. split; [done|].
  split; [apply holds_nil|]. split; [|done]. left. split; [done|]. by apply reset_fresh.
Qed.

Lemma hc_stream_roundtrip_witness :
  exists m', hc_stream_trip (LZ4_resetStreamHC_fast LZ4_initStreamHC 10) zero_streamDecode 100 200 80 300
      [(20, true); (16, true); (12, true)] sample_cmem = Ok true m' /\ holds m' 300 sample_text.
Proof.
  pose (blocks := [(take 20 sample_text, true); (take 16 (drop 20 sample_text), true); (drop 36 sample_text, true)]).
  destruct (wp_inv _ _ _ (hc_stream_roundtrip LZ4_initStreamHC 10 sample_cmem 100 200 80 300 blocks
    initStreamHC_wf ltac:(eval_decide)
    ltac:(repeat (apply Forall_cons; [split; [discriminate|split; vm_compute; discriminate]|]); constructor)
    ltac:(vm_compute; discriminate)))
    as (ok & m' & E & Eok & H).
  assert (ok = true) as -> by (rewrite Eok; reflexivity).
  exists m'. split; [exact E|exact (H eq_refl)].
Defined.
